(* ===== verification/_CoqProject ===== *)
-Q . S2P
Prelude.v
Errors.v
Ram.v
Crc.v
Divmod.v
Uuid.v
UuidText.v
Libc.v
Bio.v
BlockIface.v
Gpt.v
GptTables.v
GptProps.v
StaticTable.v
AbState.v
PbState.v
Bpak.v
Crypto.v
DeviceUuid.v
Der.v
Rot.v
Ocotp.v
Fuses.v
Scu.v
ScuClients.v
ScuFw.v
Imx8x.v
Image.v
Boot.v
Linux.v
Usb.v
Delay.v
Mmc.v
Emmc.v
Usdhc.v
UsdhcCard.v
ImxUdc.v
ImxUdcDev.v
Virtio.v
VirtioDev.v
VirtioSerial.v
Flexspi.v
FlexspiNor.v
Wire.v
Cm.v
CmSafety.v
Host.v
HostLink.v
