(* ===== verification/Prelude.v ===== *)
(** * Punchboot: a verification development

    Punchboot is a secure, fail safe boot loader.  It finds partitions on
    block devices, keeps which of two systems (A, B) to boot in a checksummed
    state, authenticates and loads a BPAK image, and hands over to it; on
    request it enters a command mode in which a host reads and writes
    partitions over a wire protocol.  This library models that core from the
    C sources and proves what makes it correct.

    ** The parts and their files

    - [Prelude]: machine integers, the state monad [M] for C functions, packed
      structs as codecs ([codec], [CodecOK]), frame conditions ([Keeps]), the
      hint databases [pb], [pbconst], [keeps] and tactics.  [Errors]: the
      return codes ([include/pb/errors.h]).  [Ram]: addressable memory.
    - [Crc] ([src/lib/crc.c]); [Uuid], [UuidText] ([src/lib/uuid], with
      [memcmp], [strtoul] and [snprintf] of [src/lib/libc]); [DeviceUuid]
      ([src/device_uuid.c], [uuid3.c]); [Delay] ([src/delay.c]); [Libc] (the
      memory and string functions of [src/lib/libc] on [Ram], and [printf]);
      [Divmod] (division in software, [src/arch/armv7a]).
    - [Bio] ([src/bio.c]): the pool of block devices, [bio_state], over any
      driver ([BioDriver]).  [BlockIface]: what its clients rely on
      ([BlockOps], [BlockLaws]) and the proof that [Bio] provides it on a
      working driver ([DiskLaws]).
    - [Gpt], [GptTables], [GptProps] ([src/drivers/partition/gpt.c]): the
      partition tables in memory and on disk.  [StaticTable] ([static.c]).
    - [AbState] ([src/boot/ab_state.c]): the A/B state, proved against
      [BlockLaws] and refining the slot machine [AbState.Spec].  [PbState]
      ([tools/pbstate/src/pbstate.c]): the running system's side of that
      state, over the POSIX calls it makes ([Posix], [PosixLaws]).
    - [Bpak] ([src/lib/bpak.c], [include/bpak]): image headers.  [Crypto]
      ([src/crypto.c]): hash and signature front end over [CryptoDriver].
      [Der] ([src/lib/der_helpers.c], the signature decoder of the CAAM
      driver).  [Rot] ([src/rot.c], [src/slc.c]): keys and life cycle, over
      the callbacks of the platform.  [Ocotp] ([src/drivers/fuse/imx_ocotp.c])
      and [Fuses] ([test_fuse_bio.c] and the helpers of [src/plat/qemu],
      [src/plat/imx6ul], [src/plat/imxrt]): what stands behind these callbacks.
      On the i.MX8X that is firmware on another core: [Scu] (message unit and
      messages, [src/plat/imx8x/sci]), [ScuClients] (its client functions),
      [ScuFw] (the device and the firmware as a server), [Imx8x] (fuses, keys,
      life cycle and platform functions of [src/plat/imx8x], over [ScfwLaws]).
    - [Image] ([src/boot/image_helpers.c]) and [Boot] ([src/boot/boot.c]): from
      a header to the jump.  [Linux] ([src/boot/linux.c],
      [armv7m_baremetal.c]): the drivers that prepare and make the jump, over
      a device tree library ([Fdt], [FdtLaws]).
    - [Wire] ([src/wire.c], [include/pb-tools/wire.h]): the protocol's packed
      structures.  [Cm], [CmSafety] ([src/cm/cm_main.c]): every command, the
      dispatcher and the connection loop.  [Usb] ([src/drivers/usb/usbd.c],
      [pb_dev_cls.c]): the transport of command mode, enumeration and bulk
      transfers over the operations of a controller ([usbd_hal_ops],
      [HalLaws]); [ImxUdc] ([imx_ci_udc.c]) and [ImxUdcDev] are one such
      driver and its controller.
    - Storage drivers, down to their registers, each with a model of the
      hardware behind it: [Mmc] ([src/drivers/mmc/mmc_core.c]) and [Emmc] (a
      card behind any host controller, [mmc_hal]); [Usdhc]
      ([imx_usdhc.c]) and [UsdhcCard] (the controller with the card);
      [Virtio] ([src/drivers/virtio/virtio_block.c] and the queues) and
      [VirtioDev] (the device at the other end of the queues); [VirtioSerial]
      ([virtio_serial.c], with its device); [Flexspi]
      ([src/drivers/memc/imx_flexspi.c]) and [FlexspiNor] (controller and NOR
      flash).
    - [Host] ([tools/punchboot/api_*.c], [socket.c]): the host tool's requests
      as programs that send, receive and use a file ([prog]).  [HostLink]: these
      programs and [Cm] connected by a byte link ([link_ops]), one world in
      which a request of the host runs to its end.

    ** State and operations

    The static variables of a C file are a record; a function is a Rocq
    function of the same name in [M], the return code its result, an output
    parameter a further result.  A component that calls another one is
    written over a world that contains the other's state ([Has], [lift]) or
    over a class of operations.  Integers are [Z] with every conversion to a
    narrower type written out ([u8] to [u64], [s32], and [usz] for [size_t],
    32 or 64 bits by [Arch]).  Callbacks, drivers, the boot ROM, the operating
    system and cryptography are parameters; what is assumed of them is a class
    of laws, and every theorem with such laws has a witness on a concrete
    instance (a RAM disk, a register model of the fuse controller, a small
    POSIX, toy hash and signature providers).

    ** What the theorems show

    - Secure boot: control is handed over only to an image whose header was
      accepted under an active key; if no part wraps around the address space,
      which the code does not check, the parts stay clear of the loader, and if
      they do not overlap, the loaded bytes have the signed digest
      ([Boot.secure_boot],
      [Image.image_auth_sound], [Image.image_load_hash_sound],
      [Image.image_verify_parts_protects], [Rot.rot_get_dsa_key_sound]); what
      Linux is told about the device agrees with what was verified
      ([Linux.linux_prepare_tells], [Linux.baremetal_entry]); the
      decoders in front of the signature check read back what was encoded
      ([Der.caam_ecsig_roundtrip], [Der.der_public_key_roundtrip]).
    - Updates: the A/B code refines its slot machine, has after a power cut one
      of the states it had stored or the new one, recovers damaged copies, rolls a failing update back after exactly its
      attempts, and does so for updates requested by the running system
      ([AbState.ab_get_refines_spec], [ab_commit_crash_safe],
      [ab_init_recovers], [ab_rollback_after_attempts],
      [PbState.pbstate_update_transaction], [pbstate_switch_boots]).
    - Storage: the device pool keeps its invariant, accesses stay inside of
      their partition; GPT initialisation ends, recovers from either copy,
      and finds what an installation wrote ([Bio.bio_pool_invariant],
      [bio_rw_in_partition], [GptProps.gpt_init_terminates],
      [gpt_init_recovers], [gpt_install_roundtrip],
      [StaticTable.static_ptbl_init_registers]).
    - Drivers: over any sequence of accesses the eMMC driver and the virtio
      disk driver refine an array of blocks ([Emmc.emmc_refines_areas],
      [VirtioDev.virtio_refines_disk], whose instance [virtio_disk_laws]
      connects it to [BlockIface]); the USDHC driver brings a card up and
      moves exactly the descriptors' bytes, on a controller that fetches the
      descriptors itself and moves data late ([UsdhcCard.usdhc_block_devices],
      [Usdhc.usdhc_descriptors_fit]); the flash driver erases, programs across
      pages and reads back ([FlexspiNor.flexspi_erase_write_read],
      [flexspi_write_programs]); the serial port sends whole buffers and
      receives as much as has arrived ([VirtioSerial.virtio_serial_transfers]).
    - Fuses: programming adds bits and reads back, for address fields of six and
      seven bits, locked words included; revocations and life cycle
      changes are permanent on the test platform; the SRK hash is never
      changed, the i.MX6UL is locked only with one ([Ocotp.ocotp_program_read],
      [Fuses.qemu_fuses_grow], [imx6ul_fuse_srk], [imx6ul_lock]).  Every client
      of the system controller makes one complete exchange, with the service,
      function, arguments and results of a table ([ScuFw.client],
      [ScuFw.client_one_exchange]), and over it the i.MX8X is locked only with
      an SRK hash, as long as the firmware lets it be read, and revocations only
      add bits ([Imx8x.imx8x_lock_safe], [imx8x_revoke_key_ok]).
    - Command mode: without authentication a locked device only identifies
      itself; only accepted credentials authenticate; a stream write stays in
      its partition; reporting commands change nothing ([CmSafety]).
    - Host and device together: writing a file, reading a partition and
      logging in run to their end over the whole exchange, with the storage,
      the file and the session as promised ([HostLink.host_partition_write],
      [host_partition_read], [host_authenticate_password]).
    - USB: enumeration ends connected and serves each request, a control
      request that is supported does not lose a transfer and one that is not
      does, the descriptors are well formed
      ([Usb.usb_enumeration], [usb_xfer_survives_setup], [usb_descriptors_wf]);
      the ChipIdea driver moves exactly the buffers it is given, page aligned or
      no longer than a page ([ImxUdcDev.ci_transfer]).
    - Libraries: CRC against its shift register, UUID text and wire round
      trips, exact timeouts, BPAK headers and metadata, overlapping moves
      ([Libc.memmove_ok]), what [printf] writes is what [strtoul] reads
      ([Libc.Printf.printf_strtoul]), division ([Divmod.aeabi_idivmod_ok]).
    - Where the code does not do what it means to, a theorem says what it does:
      [Fuses.imx6ul_revocation_invisible], [Der.caam_ecsig_overflow],
      [Bio.bio_write_wraps_outside], [CmSafety.cm_stream_read_overflows],
      [Boot.boot_bio_stale_header], [Rot.slc_set_eol_wrong_guard],
      [UuidText.uuid_unparse_upper_hangs], [CmSafety.cm_erase_outside_locked],
      [Usb.usb_set_idle_fails], [Usb.usb_reconnect_early],
      [Host.pb_socket_write_repeats], [HostLink.host_read_error_stuck],
      [Mmc.mmc_switch_failure_sticks], [Mmc.mmc_extcsd_write_aliases],
      [FlexspiNor.Small.flexspi_erase_unaligned], [Divmod.aeabi_imod_hangs],
      [Divmod.aeabi_imod_power_of_two],
      [ImxUdcDev.SmallUdc.udc_unaligned_large],
      [Image.ToyImage.verify_parts_wraps],
      [AbState.Example.unsynchronised_copies],
      [VirtioSerial.ToySerial.short_read_reported_ok],
      [Imx8x.Fw.lock_when_unreadable], [Ocotp.ToyOcotp.ocotp_six_bits].

    ** Fuel and bounds

    Loops over data are structural.  Loops that the data does not bound have
    fuel that is proved enough or is a parameter: [Gpt.register_fuel] is the
    size of the device pool plus one, which [gpt_init_terminates] shows to
    suffice; [PbState.io_fuel] is the size of the state block, since every
    read or write transfers a byte or ends the loop; [Image.load_fuel] and
    [Cm.verify_fuel] follow from the sizes in the header; the partition
    listing of [Cm] stops at the end of the device pool; 20 digits hold a
    64-bit number in [snprintf]; the file loops of [Host] need one step per
    byte of the file or partition, which the theorems of [HostLink] assume and
    show to be enough.  The chunk, page and FIFO loops of the drivers count
    down the bytes of the request.  Waiting for the host, the clock, a lock, a
    busy flag or a device has a parameter ([poll_fuel], [delay_fuel], [fuel] of
    [Delay], [lock_fuel], [busy_fuel]), and the theorems assume that the other
    side answers within it.

    ** Not modelled

    The drivers of the other USB controllers, UARTs, timers and CAAM jobs,
    clock and pin set-up of the platforms, board configuration and start-up
    order: they are behind the interfaces above.  Vendored code: littlefs,
    libfdt, xlat tables, mbedtls.  Of
    the host tool the Python wrapper, the libusb transport and the listing of
    devices are glue.  Concurrency
    is absent: the loader runs on one core without interrupts, and pbstate is
    modelled for one process holding the lock. *)

From Stdlib Require Export ZArith Lia.
From stdpp Require Export base numbers option list relations.
#[global] Open Scope Z_scope.
#[global] Set Default Goal Selector "!".

(** ** Machine integers

    A C integer is a [Z]; every store into a [w]-bit object goes through the
    conversion written out here. *)

Definition u8 (x : Z) : Z := x mod 2 ^ 8.
Definition u16 (x : Z) : Z := x mod 2 ^ 16.
Definition u32 (x : Z) : Z := x mod 2 ^ 32.
Definition u64 (x : Z) : Z := x mod 2 ^ 64.
Definition s8 (x : Z) : Z := (x + 2 ^ 7) mod 2 ^ 8 - 2 ^ 7.
Definition s32 (x : Z) : Z := (x + 2 ^ 31) mod 2 ^ 32 - 2 ^ 31.
Definition s64 (x : Z) : Z := (x + 2 ^ 63) mod 2 ^ 64 - 2 ^ 63.

(** The width of [size_t] and [uintptr_t]: 32 bits on armv7a/armv7m, 64 bits
    on armv8a.  [int], [unsigned int] and [lba_t] are 32 bits on all of them. *)
Class Arch := {
  ptr_bits : Z;
  ptr_bits_ok : ptr_bits = 32 \/ ptr_bits = 64
}.

Definition usz `{Arch} (x : Z) : Z := x mod 2 ^ ptr_bits.
Definition ssz `{Arch} (x : Z) : Z :=
  (x + 2 ^ (ptr_bits - 1)) mod 2 ^ ptr_bits - 2 ^ (ptr_bits - 1).

Definition armv7a : Arch := {| ptr_bits := 32; ptr_bits_ok := or_introl eq_refl |}.
Definition armv8a : Arch := {| ptr_bits := 64; ptr_bits_ok := or_intror eq_refl |}.

(** Build-time configuration (Kconfig symbols). *)
Class Kconfig := {
  CONFIG_BIO_MAX_DEVS : Z;
  CONFIG_CRYPTO_MAX_HASH_OPS : Z;
  CONFIG_CRYPTO_MAX_DSA_OPS : Z;
  CONFIG_BOOT_LOAD_CHUNK_kB : Z;
  CONFIG_CM_BUF_SIZE_KiB : Z;
  CONFIG_CM_AUTH : bool;
  CONFIG_CM_AUTH_TOKEN : bool;
  CONFIG_CM_AUTH_PASSWORD : bool
}.

(** configs/test_defconfig *)
Definition test_defconfig : Kconfig := {|
  CONFIG_BIO_MAX_DEVS := 32;
  CONFIG_CRYPTO_MAX_HASH_OPS := 1;
  CONFIG_CRYPTO_MAX_DSA_OPS := 1;
  CONFIG_BOOT_LOAD_CHUNK_kB := 4096;
  CONFIG_CM_BUF_SIZE_KiB := 4;
  CONFIG_CM_AUTH := true;
  CONFIG_CM_AUTH_TOKEN := true;
  CONFIG_CM_AUTH_PASSWORD := true
|}.

(** ** A state monad for C functions

    A C function that reads and writes the static variables of type [W] and
    returns an [A]. *)

Definition M (W A : Type) : Type := W -> A * W.

Definition ret {W A} (a : A) : M W A := fun w => (a, w).
Definition bind {W A B} (m : M W A) (k : A -> M W B) : M W B :=
  fun w => let '(a, w') := m w in k a w'.
Definition get {W} : M W W := fun w => (w, w).
Definition put {W} (w : W) : M W unit := fun _ => (tt, w).
Definition modify {W} (f : W -> W) : M W unit := fun w => (tt, f w).
Definition gets {W A} (f : W -> A) : M W A := fun w => (f w, w).

Declare Scope c_scope.
Delimit Scope c_scope with c.
Notation "x <- m ;; k" := (bind m (fun x => k))
  (at level 100, m at next level, right associativity) : c_scope.
Notation "'let*' p ':=' m 'in' k" := (bind m (fun p => k))
  (at level 100, p pattern, m at level 99, right associativity) : c_scope.
Notation "m ;;; k" := (bind m (fun _ => k))
  (at level 100, right associativity) : c_scope.

(** The world of a component embedded in a larger world. *)
Class Has (S W : Type) := {
  proj : W -> S;
  upd : S -> W -> W
}.
Class HasLaws (S W : Type) `{Has S W} := {
  proj_upd : forall s w, proj (upd s w) = s;
  upd_proj : forall w, upd (proj w) w = w;
  upd_upd : forall s s' w, upd s' (upd s w) = upd s' w
}.

Definition lift {S W A} `{Has S W} (m : M S A) : M W A :=
  fun w => let '(a, s) := m (proj w) in (a, upd s w).

#[global] Instance has_self {W} : Has W W := {| proj w := w; upd s _ := s |}.
#[global] Instance has_self_laws {W} : @HasLaws W W has_self.
Proof. by split. Qed.

(** ** Bytes and byte arrays *)

Definition is_byte (b : Z) : Prop := 0 <= b < 256.
Definition bytes (l : list Z) : Prop := Forall is_byte l.

#[global] Instance is_byte_dec b : Decision (is_byte b).
Proof. unfold is_byte. apply _. Defined.
#[global] Instance bytes_dec l : Decision (bytes l).
Proof. unfold bytes. apply _. Defined.

Definition zeros (n : nat) : list Z := replicate n 0.

(** [memcpy(dst + off, data, length data)] *)
Definition splice (off : nat) (data l : list Z) : list Z :=
  take off l ++ data ++ drop (off + length data) l.
(** The [len] bytes at [src + off]. *)
Definition slice (off len : nat) (l : list Z) : list Z := take len (drop off l).

(** [memcmp(a, b, n) == 0] *)
Definition memeq (n : nat) (a b : list Z) : bool :=
  bool_decide (take n a = take n b).

(** [strncpy(dst, src, n)] into a zeroed [dst] of [size] bytes; a C string is
    the list of its characters before the terminator. *)
Definition strncpy_z (n size : nat) (src : list Z) : list Z :=
  take n src ++ zeros (size - length (take n src)).

(** The characters of a C string before its terminator. *)
Fixpoint c_string (l : list Z) : list Z :=
  match l with
  | [] => []
  | c :: l => if c =? 0 then [] else c :: c_string l
  end.

(** ** Little-endian integers *)

Fixpoint le_bytes (n : nat) (v : Z) : list Z :=
  match n with
  | O => []
  | S n => v mod 256 :: le_bytes n (v / 256)
  end.

Fixpoint le_val (l : list Z) : Z :=
  match l with
  | [] => 0
  | b :: l => b + 256 * le_val l
  end.

(** ** Packed structs

    A codec describes the memory layout of a packed struct: its size, the
    bytes of a value and how a value is read off the front of a byte array. *)

Record codec (T : Type) := Codec {
  csize : nat;
  cenc : T -> list Z;
  cdec : list Z -> T * list Z;
  cwf : T -> Prop
}.
Arguments Codec {T}.
Arguments csize {T}.
Arguments cenc {T}.
Arguments cdec {T}.
Arguments cwf {T}.

Class CodecOK {T} (c : codec T) : Prop := {
  cenc_length : forall x, cwf c x -> length (cenc c x) = csize c;
  cenc_bytes : forall x, cwf c x -> bytes (cenc c x);
  cdec_cenc : forall x r, cwf c x -> cdec c (cenc c x ++ r) = (x, r);
  cdec_wf : forall bs, bytes bs -> (csize c <= length bs)%nat -> cwf c (cdec c bs).1;
  cenc_cdec : forall bs, bytes bs -> (csize c <= length bs)%nat ->
    cenc c (cdec c bs).1 ++ (cdec c bs).2 = bs
}.

Definition sizeof {T} (c : codec T) : Z := Z.of_nat (csize c).
Definition decode {T} (c : codec T) (bs : list Z) : T := (cdec c bs).1.

(** An [n]-byte unsigned integer, a byte array, an array of structs, two
    consecutive fields and a struct read as the tuple of its fields. *)
Definition c_uint (n : nat) : codec Z :=
  Codec n (le_bytes n) (fun bs => (le_val (take n bs), drop n bs))
    (fun v => 0 <= v < 256 ^ Z.of_nat n).

Definition c_raw (n : nat) : codec (list Z) :=
  Codec n (fun l => l) (fun bs => (take n bs, drop n bs))
    (fun l => length l = n /\ bytes l).

Definition c_pair {A B} (ca : codec A) (cb : codec B) : codec (A * B) :=
  Codec (csize ca + csize cb)
    (fun p => cenc ca p.1 ++ cenc cb p.2)
    (fun bs => let '(a, r) := cdec ca bs in let '(b, r) := cdec cb r in ((a, b), r))
    (fun p => cwf ca p.1 /\ cwf cb p.2).

Definition c_iso {A B} (f : B -> A) (g : A -> B) (c : codec A) : codec B :=
  Codec (csize c) (fun b => cenc c (f b))
    (fun bs => let '(a, r) := cdec c bs in (g a, r)) (fun b => cwf c (f b)).

Fixpoint dec_array {A} (k : nat) (d : list Z -> A * list Z) (bs : list Z) : list A * list Z :=
  match k with
  | O => ([], bs)
  | S k => let '(a, r) := d bs in let '(l, r) := dec_array k d r in (a :: l, r)
  end.

Definition c_array {A} (k : nat) (c : codec A) : codec (list A) :=
  Codec (k * csize c) (fun l => concat (map (cenc c) l)) (dec_array k (cdec c))
    (fun l => length l = k /\ Forall (cwf c) l).

Abbreviation u8c := (c_uint 1).
Abbreviation u16c := (c_uint 2).
Abbreviation u32c := (c_uint 4).
Abbreviation u64c := (c_uint 8).

Declare Scope codec_scope.
Delimit Scope codec_scope with codec.
Notation "a ⊗ b" := (c_pair a b) (at level 55, right associativity) : codec_scope.

(** ** Lemmas and automation *)

Create HintDb pb discriminated.
Create HintDb pbconst.
Create HintDb keeps.

(** Splits the outcome of every call the goal or a hypothesis is blocked on. *)
Ltac m_unfold :=
  unfold bind, ret, get, gets, put, modify in *.

Ltac case_if :=
  match goal with
  | |- context [if ?b then _ else _] => destruct b eqn:?
  | H : context [if ?b then _ else _] |- _ => destruct b eqn:?
  end.

Ltac zbool :=
  repeat match goal with
  | H : (_ =? _) = true |- _ => apply Z.eqb_eq in H
  | H : (_ =? _) = false |- _ => apply Z.eqb_neq in H
  | H : (_ <? _) = true |- _ => apply Z.ltb_lt in H
  | H : (_ <? _) = false |- _ => apply Z.ltb_ge in H
  | H : (_ <=? _) = true |- _ => apply Z.leb_le in H
  | H : (_ <=? _) = false |- _ => apply Z.leb_gt in H
  | H : (_ && _) = true |- _ => apply andb_true_iff in H as [? ?]
  | H : (_ || _) = false |- _ => apply orb_false_iff in H as [? ?]
  | H : negb _ = true |- _ => apply negb_true_iff in H
  | H : negb _ = false |- _ => apply negb_false_iff in H
  end.

Lemma usz_range `{Arch} x : 0 <= usz x < 2 ^ ptr_bits.
Proof.
  apply Z.mod_pos_bound. destruct ptr_bits_ok as [-> | ->]; lia.
Qed.

Lemma usz_small `{Arch} x : 0 <= x < 2 ^ ptr_bits -> usz x = x.
Proof. apply Z.mod_small. Qed.

Lemma u32_small x : 0 <= x < 2 ^ 32 -> u32 x = x.
Proof. apply Z.mod_small. Qed.

Lemma u32_range x : 0 <= u32 x < 2 ^ 32.
Proof. apply Z.mod_pos_bound. lia. Qed.

Lemma ptr_bits_ge32 `{Arch} : 2 ^ 32 <= 2 ^ ptr_bits.
Proof. destruct ptr_bits_ok as [-> | ->]; lia. Qed.

Lemma land_shiftl_low a b n : 0 <= n -> 0 <= b < 2 ^ n -> Z.land (Z.shiftl a n) b = 0.
Proof.
  intros Hn Hb. apply Z.bits_inj_iff'. intros i Hi. rewrite Z.land_spec, Z.bits_0.
  destruct (Z.ltb_spec i n).
  - by rewrite Z.shiftl_spec_low.
  - rewrite (proj1 (Z.bounded_iff_bits_nonneg n b ltac:(lia) ltac:(lia))) by lia.
    apply andb_false_r.
Qed.

Lemma lor_shiftl_low a b n :
  0 <= n -> 0 <= b < 2 ^ n -> Z.lor (Z.shiftl a n) b = a * 2 ^ n + b.
Proof.
  intros Hn Hb. pose proof (Z.add_lor_land (Z.shiftl a n) b) as E.
  rewrite land_shiftl_low in E by done. rewrite <- Z.shiftl_mul_pow2 by done. lia.
Qed.

Lemma bits_above a n l : 0 <= n -> 0 <= a < 2 ^ n -> n <= l -> Z.testbit a l = false.
Proof. intros Hn Ha Hl. apply (Z.bounded_iff_bits_nonneg n a); lia. Qed.

Lemma lor_lt a b n : 0 <= n -> 0 <= a < 2 ^ n -> 0 <= b < 2 ^ n -> 0 <= Z.lor a b < 2 ^ n.
Proof.
  intros Hn Ha Hb. assert (0 <= Z.lor a b) by (apply Z.lor_nonneg; lia). split; [done|].
  apply Z.bounded_iff_bits_nonneg; [done..|]. intros l Hl.
  by rewrite Z.lor_spec, !(bits_above _ n).
Qed.

Lemma land_lt a b n : 0 <= n -> 0 <= a < 2 ^ n -> 0 <= Z.land a b < 2 ^ n.
Proof.
  intros Hn Ha. assert (0 <= Z.land a b) by (apply Z.land_nonneg; lia). split; [done|].
  apply Z.bounded_iff_bits_nonneg; [done..|]. intros l Hl.
  by rewrite Z.land_spec, (bits_above _ n).
Qed.

Lemma lxor_lt a b n : 0 <= n -> 0 <= a < 2 ^ n -> 0 <= b < 2 ^ n -> 0 <= Z.lxor a b < 2 ^ n.
Proof.
  intros Hn Ha Hb. assert (0 <= Z.lxor a b) by (apply Z.lxor_nonneg; lia). split; [done|].
  apply Z.bounded_iff_bits_nonneg; [done..|]. intros l Hl.
  by rewrite Z.lxor_spec, !(bits_above _ n).
Qed.

Lemma length_splice off data l :
  (off + length data <= length l)%nat -> length (splice off data l) = length l.
Proof. intros. unfold splice. rewrite !length_app, length_take, length_drop. lia. Qed.

Lemma slice_splice_same off data l :
  (off + length data <= length l)%nat -> slice off (length data) (splice off data l) = data.
Proof.
  intros. unfold slice, splice.
  rewrite drop_app_le, drop_ge by (rewrite length_take; lia). simpl.
  by rewrite take_app_length.
Qed.

Lemma length_slice off n (l : list Z) : (off + n <= length l)%nat -> length (slice off n l) = n.
Proof. intros. unfold slice. rewrite length_take, length_drop. lia. Qed.

(** What follows a write is as before. *)
Lemma slice_after_splice off data n (l : list Z) : (off <= length l)%nat ->
  slice (off + length data) n (splice off data l) = slice (off + length data) n l.
Proof.
  intros H. unfold slice, splice. f_equal. rewrite app_assoc, drop_app_length' by (rewrite length_app, length_take; lia). done.
Qed.

(** A write elsewhere. *)
Lemma splice_elsewhere off buf off' n (l : list Z) :
  (off + length buf <= length l)%nat -> (off + length buf <= off' \/ off' + n <= off)%nat ->
  slice off' n (splice off buf l) = slice off' n l.
Proof.
  intros Hl Hd. unfold slice, splice. destruct Hd as [Hd|Hd].
  - rewrite app_assoc, drop_app_ge by (rewrite length_app, length_take; lia).
    rewrite drop_drop. f_equal. f_equal. rewrite length_app, length_take. lia.
  - destruct (decide (n = 0%nat)) as [->|]; [done|].
    rewrite drop_app_le, take_app_le by (rewrite ?length_drop, length_take; lia).
    rewrite skipn_firstn_comm, take_take. f_equal. lia.
Qed.

(** Two writes in a row. *)
Lemma splice_splice_app off (a b l : list Z) : (off <= length l)%nat ->
  splice (off + length a) b (splice off a l) = splice off (a ++ b) l.
Proof.
  intros Hl. unfold splice. rewrite (app_assoc (take off l) a), take_app_length' by (rewrite length_app, length_take; lia).
  rewrite <- !app_assoc. do 3 f_equal. rewrite app_assoc, drop_app_ge by (rewrite length_app, length_take; lia).
  rewrite drop_drop, length_app, length_app, length_take. f_equal. lia.
Qed.

Lemma splice_nil_at off (l : list Z) : splice off [] l = l.
Proof. unfold splice. cbn [length app]. by rewrite Nat.add_0_r, take_drop. Qed.

Lemma slice_cons_app off n m (l : list Z) : slice off n l ++ slice (off + n) m l = slice off (n + m) l.
Proof. unfold slice. by rewrite <- drop_drop, take_take_drop. Qed.

Lemma length_le_bytes n v : length (le_bytes n v) = n.
Proof. revert v. induction n; intros; simpl; [done | by rewrite IHn]. Qed.

Lemma le_bytes_bytes n v : bytes (le_bytes n v).
Proof.
  revert v. induction n; intros; simpl; constructor; [|apply IHn].
  apply Z.mod_pos_bound. lia.
Qed.

Lemma pow256_S n : 256 ^ Z.of_nat (S n) = 256 * 256 ^ Z.of_nat n.
Proof. rewrite Nat2Z.inj_succ, Z.pow_succ_r; lia. Qed.

Lemma pow256_pos n : 0 < 256 ^ Z.of_nat n.
Proof. apply Z.pow_pos_nonneg; lia. Qed.

Lemma le_val_le_bytes n v : 0 <= v < 256 ^ Z.of_nat n -> le_val (le_bytes n v) = v.
Proof.
  revert v. induction n as [|n IH]; intros v Hv; [simpl in *; lia|].
  rewrite pow256_S in Hv. simpl. rewrite IH.
  - rewrite (Z.div_mod v 256) at 3; lia.
  - split; [apply Z.div_pos; lia | apply Z.div_lt_upper_bound; lia].
Qed.

Lemma le_val_range l : bytes l -> 0 <= le_val l < 256 ^ Z.of_nat (length l).
Proof.
  induction 1 as [|b l Hb _ IH]; [simpl; lia|].
  simpl length. rewrite pow256_S. simpl. unfold is_byte in Hb. lia.
Qed.

Lemma le_bytes_le_val l : bytes l -> le_bytes (length l) (le_val l) = l.
Proof.
  induction 1 as [|b l Hb _ IH]; [done|]. unfold is_byte in Hb. cbn [length le_val le_bytes].
  rewrite (Z.mul_comm 256), Z.mod_add, Z.div_add by lia.
  rewrite Z.mod_small, Z.div_small by lia. by rewrite Z.add_0_l, IH.
Qed.

Lemma bytes_take n l : bytes l -> bytes (take n l).
Proof. apply Forall_take. Qed.
Lemma bytes_drop n l : bytes l -> bytes (drop n l).
Proof. apply Forall_drop. Qed.
Lemma bytes_app l k : bytes l -> bytes k -> bytes (l ++ k).
Proof. intros. by apply Forall_app. Qed.
Lemma bytes_zeros n : bytes (zeros n).
Proof. apply Forall_replicate. by unfold is_byte. Qed.
Lemma bytes_splice off d l : bytes d -> bytes l -> bytes (splice off d l).
Proof. intros. unfold splice. auto using bytes_app, bytes_take, bytes_drop. Qed.
#[export] Hint Resolve bytes_take bytes_drop bytes_app bytes_zeros bytes_splice le_bytes_bytes : pb.

(** *** Frame conditions: what a function leaves alone *)

Definition Keeps {W T A} (g : W -> T) (m : M W A) : Prop := forall w, g (m w).2 = g w.

Lemma keeps_ret {W T A} (g : W -> T) (a : A) : Keeps g (ret a).
Proof. done. Qed.
Lemma keeps_get {W T} (g : W -> T) : Keeps g get.
Proof. done. Qed.
Lemma keeps_gets {W T A} (g : W -> T) (f : W -> A) : Keeps g (gets f).
Proof. done. Qed.
Lemma keeps_bind {W T A B} (g : W -> T) (m : M W A) (k : A -> M W B) :
  Keeps g m -> (forall a, Keeps g (k a)) -> Keeps g (bind m k).
Proof.
  intros Hm Hk w. unfold bind. specialize (Hm w). destruct (m w) as [a w']. simpl in Hm. by rewrite Hk.
Qed.
#[export] Hint Resolve keeps_ret keeps_get keeps_gets : keeps.

(** Frame conditions by structure. *)
Ltac keeps_tac :=
  repeat match goal with
  | |- Keeps _ (bind _ _) => apply keeps_bind
  | |- forall _, Keeps _ _ => intros ?
  | |- Keeps _ (if ?b then _ else _) => destruct b
  | |- Keeps _ (match ?x with _ => _ end) => destruct x eqn:?
  | |- Keeps _ _ => solve [eauto with keeps]
  end.

(** *** Codecs *)

#[export] Instance c_uint_ok n : CodecOK (c_uint n).
Proof.
  split; simpl; intros.
  - apply length_le_bytes.
  - apply le_bytes_bytes.
  - rewrite take_app_length', drop_app_length' by (by rewrite length_le_bytes).
    by rewrite le_val_le_bytes.
  - pose proof (le_val_range (take n bs)) as Hr. rewrite length_take_le in Hr by done.
    apply Hr. auto with pb.
  - replace n with (length (take n bs)) at 1 by (by rewrite length_take_le).
    rewrite le_bytes_le_val by auto with pb. apply take_drop.
Qed.

#[export] Instance c_raw_ok n : CodecOK (c_raw n).
Proof.
  split; simpl; intros.
  - by destruct H.
  - by destruct H.
  - destruct H as [<- _]. by rewrite take_app_length, drop_app_length.
  - split; [by apply length_take_le | auto with pb].
  - apply take_drop.
Qed.

Lemma cdec_rest {T} (c : codec T) `{!CodecOK c} bs :
  bytes bs -> (csize c <= length bs)%nat -> (cdec c bs).2 = drop (csize c) bs.
Proof.
  intros Hb Hl. pose proof (cenc_cdec bs Hb Hl) as E.
  rewrite <- E at 2. rewrite drop_app_length'; [done|].
  symmetry. apply cenc_length. by apply cdec_wf.
Qed.

#[export] Instance c_pair_ok {A B} (ca : codec A) (cb : codec B) `{!CodecOK ca, !CodecOK cb} :
  CodecOK (c_pair ca cb).
Proof.
  assert (Hrest : forall bs, bytes bs -> (csize ca + csize cb <= length bs)%nat ->
    bytes (cdec ca bs).2 /\ (csize cb <= length (cdec ca bs).2)%nat).
  { intros. rewrite cdec_rest by (done || lia). rewrite length_drop. auto with pb lia. }
  split; simpl.
  - intros [a b] [Ha Hb]. by rewrite length_app, !cenc_length.
  - intros [a b] [Ha Hb]. apply bytes_app; by apply cenc_bytes.
  - intros [a b] r [Ha Hb]. simpl in *. by rewrite <- app_assoc, !cdec_cenc.
  - intros bs Hb Hl. destruct (Hrest bs Hb Hl) as [? ?].
    pose proof (cdec_wf (c := ca) bs Hb ltac:(lia)) as Ha.
    destruct (cdec ca bs) as [a r] eqn:Ea. simpl in *.
    pose proof (cdec_wf (c := cb) r). destruct (cdec cb r). simpl in *. auto.
  - intros bs Hb Hl. destruct (Hrest bs Hb Hl) as [? ?].
    pose proof (cenc_cdec (c := ca) bs Hb ltac:(lia)) as Ha.
    destruct (cdec ca bs) as [a r] eqn:Ea. simpl in *.
    pose proof (cenc_cdec (c := cb) r) as Hr. destruct (cdec cb r). simpl in *.
    rewrite <- app_assoc, Hr; auto.
Qed.

Lemma c_iso_ok {A B} (f : B -> A) (g : A -> B) (c : codec A) `{!CodecOK c} :
  (forall b, g (f b) = b) -> (forall a, f (g a) = a) -> CodecOK (c_iso f g c).
Proof.
  intros Hgf Hfg. split; simpl.
  - intros x. apply cenc_length.
  - intros x. apply cenc_bytes.
  - intros x r Hx. by rewrite cdec_cenc, Hgf.
  - intros bs Hb Hl. pose proof (cdec_wf bs Hb Hl). destruct (cdec c bs). simpl in *.
    by rewrite Hfg.
  - intros bs Hb Hl. pose proof (cenc_cdec bs Hb Hl). destruct (cdec c bs). simpl in *.
    by rewrite Hfg.
Qed.

#[export] Instance c_array_ok {A} k (c : codec A) `{!CodecOK c} : CodecOK (c_array k c).
Proof.
  split; simpl.
  - intros l [<- Hl]. induction Hl; simpl; [done|]. rewrite length_app, cenc_length by done. lia.
  - intros l [_ Hl]. induction Hl; simpl; [constructor|]. apply bytes_app; [by apply cenc_bytes|done].
  - intros l r [<- Hl]. induction Hl as [|a l Ha Hl IH]; simpl; [done|].
    by rewrite <- app_assoc, cdec_cenc, IH.
  - induction k as [|k IH]; intros bs Hb Hl; simpl; [done|].
    pose proof (cdec_wf bs Hb ltac:(lia)) as Ha.
    pose proof (cdec_rest c bs Hb ltac:(lia)) as Er.
    destruct (cdec c bs) as [a r]. simpl in *. subst r.
    specialize (IH (drop (csize c) bs) (bytes_drop _ _ Hb) ltac:(rewrite length_drop; lia)).
    destruct (dec_array k (cdec c) (drop (csize c) bs)) as [l r]. simpl in *.
    destruct IH as [IH1 IH2]. split; [by rewrite IH1 | by constructor].
  - induction k as [|k IH]; intros bs Hb Hl; simpl; [done|].
    pose proof (cenc_cdec bs Hb ltac:(lia)) as Ha.
    pose proof (cdec_rest c bs Hb ltac:(lia)) as Er.
    destruct (cdec c bs) as [a r]. simpl in *. subst r.
    specialize (IH (drop (csize c) bs) (bytes_drop _ _ Hb) ltac:(rewrite length_drop; lia)).
    destruct (dec_array k (cdec c) (drop (csize c) bs)) as [l r]. simpl in *.
    by rewrite <- app_assoc, IH.
Qed.

(** Closes the two inverse laws of a struct read as a tuple. *)
Ltac solve_struct := apply c_iso_ok; [apply _ | by intros [] |
  intros p; repeat (match goal with q : (_ * _)%type |- _ => destruct q end); reflexivity].

Lemma decode_cenc {T} (c : codec T) `{!CodecOK c} x : cwf c x -> decode c (cenc c x) = x.
Proof.
  intros Hx. unfold decode. rewrite <- (app_nil_r (cenc c x)). by rewrite cdec_cenc.
Qed.

Lemma cenc_decode {T} (c : codec T) `{!CodecOK c} bs :
  bytes bs -> length bs = csize c -> cenc c (decode c bs) = bs.
Proof.
  intros Hb Hl. pose proof (cenc_cdec (c := c) bs Hb ltac:(lia)) as E.
  rewrite cdec_rest in E by (done || lia).
  rewrite drop_ge, app_nil_r in E by lia. done.
Qed.

#[global] Arguments cenc : simpl never.
#[global] Arguments cdec : simpl never.
#[global] Arguments decode : simpl never.
