(* ===== verification/Errors.v ===== *)
(** * Return codes

    The [enum pb_errors] of [include/pb/errors.h], returned negated by the
    bootloader's functions, and the [enum pb_results] of
    [include/pb-tools/error.h], sent over the wire. *)

From S2P Require Import Prelude.

(** ** [enum pb_errors] *)

Definition PB_OK : Z := 0.
Definition PB_ERR : Z := 1.
Definition PB_ERR_TIMEOUT : Z := 2.
Definition PB_ERR_KEY_REVOKED : Z := 3.
Definition PB_ERR_SIGNATURE : Z := 4.
Definition PB_ERR_CHECKSUM : Z := 5.
Definition PB_ERR_MEM : Z := 6.
Definition PB_ERR_IO : Z := 7.
Definition PB_ERR_NOT_FOUND : Z := 8.
Definition PB_ERR_NOT_IMPLEMENTED : Z := 9.
Definition PB_ERR_BUF_TOO_SMALL : Z := 10.
Definition PB_ERR_ABORT : Z := 11.
Definition PB_ERR_NOT_AUTHENTICATED : Z := 12.
Definition PB_ERR_AUTHENTICATION_FAILED : Z := 13.
Definition PB_ERR_INVALID_ARGUMENT : Z := 14.
Definition PB_ERR_INVALID_COMMAND : Z := 15.
Definition PB_ERR_PART_NOT_FOUND : Z := 16.
Definition PB_ERR_PART_NOT_BOOTABLE : Z := 17.
Definition PB_ERR_PARAM : Z := 18.
Definition PB_ERR_NOT_SUPPORTED : Z := 19.
Definition PB_ERR_AGAIN : Z := 20.
Definition PB_ERR_STATE : Z := 21.
Definition PB_ERR_BAD_HEADER : Z := 22.
Definition PB_ERR_BAD_KEYSTORE : Z := 23.
Definition PB_ERR_KEY_NOT_FOUND : Z := 24.
Definition PB_ERR_UNKNOWN_HASH : Z := 25.
Definition PB_ERR_BAD_META : Z := 26.
Definition PB_ERR_BAD_PAYLOAD : Z := 27.
Definition PB_ERR_NO_ACTIVE_BOOT_PARTITION : Z := 28.
Definition PB_ERR_ASN1 : Z := 29.
Definition PB_ERR_ALIGN : Z := 30.

(** ** [enum pb_results] *)

Definition PB_RESULT_OK : Z := 0.
Definition PB_RESULT_ERROR : Z := 1.
Definition PB_RESULT_AUTHENTICATION_FAILED : Z := 2.
Definition PB_RESULT_NOT_AUTHENTICATED : Z := 3.
Definition PB_RESULT_NOT_SUPPORTED : Z := 4.
Definition PB_RESULT_INVALID_ARGUMENT : Z := 5.
Definition PB_RESULT_INVALID_COMMAND : Z := 6.
Definition PB_RESULT_PART_VERIFY_FAILED : Z := 7.
Definition PB_RESULT_PART_NOT_BOOTABLE : Z := 8.
Definition PB_RESULT_NO_MEMORY : Z := 9.
Definition PB_RESULT_TRANSFER_ERROR : Z := 10.
Definition PB_RESULT_NOT_FOUND : Z := 11.
Definition PB_RESULT_STREAM_NOT_INITIALIZED : Z := 12.
Definition PB_RESULT_TIMEOUT : Z := 13.
Definition PB_RESULT_KEY_REVOKED : Z := 14.
Definition PB_RESULT_SIGNATURE_ERROR : Z := 15.
Definition PB_RESULT_MEM_ERROR : Z := 16.
Definition PB_RESULT_IO_ERROR : Z := 17.
Definition PB_RESULT_END : Z := 18.

#[export] Hint Unfold PB_OK PB_ERR PB_ERR_TIMEOUT PB_ERR_KEY_REVOKED PB_ERR_SIGNATURE PB_ERR_CHECKSUM PB_ERR_MEM PB_ERR_IO PB_ERR_NOT_FOUND PB_ERR_NOT_IMPLEMENTED PB_ERR_BUF_TOO_SMALL PB_ERR_ABORT PB_ERR_NOT_AUTHENTICATED PB_ERR_AUTHENTICATION_FAILED PB_ERR_INVALID_ARGUMENT PB_ERR_INVALID_COMMAND PB_ERR_PART_NOT_FOUND PB_ERR_PART_NOT_BOOTABLE PB_ERR_PARAM PB_ERR_NOT_SUPPORTED PB_ERR_AGAIN PB_ERR_STATE PB_ERR_BAD_HEADER PB_ERR_BAD_KEYSTORE PB_ERR_KEY_NOT_FOUND PB_ERR_UNKNOWN_HASH PB_ERR_BAD_META PB_ERR_BAD_PAYLOAD PB_ERR_NO_ACTIVE_BOOT_PARTITION PB_ERR_ASN1 PB_ERR_ALIGN
  PB_RESULT_OK PB_RESULT_ERROR PB_RESULT_AUTHENTICATION_FAILED PB_RESULT_NOT_AUTHENTICATED PB_RESULT_NOT_SUPPORTED PB_RESULT_INVALID_ARGUMENT PB_RESULT_INVALID_COMMAND PB_RESULT_PART_VERIFY_FAILED PB_RESULT_PART_NOT_BOOTABLE PB_RESULT_NO_MEMORY PB_RESULT_TRANSFER_ERROR PB_RESULT_NOT_FOUND PB_RESULT_STREAM_NOT_INITIALIZED PB_RESULT_TIMEOUT PB_RESULT_KEY_REVOKED PB_RESULT_SIGNATURE_ERROR PB_RESULT_MEM_ERROR PB_RESULT_IO_ERROR PB_RESULT_END : pbconst.

(** [if (rc != PB_OK) return rc;] after a call. *)
Definition checked {W} (m : M W Z) (k : M W Z) : M W Z :=
  bind m (fun rc => if rc =? PB_OK then k else ret rc).
Notation "m ;;? k" := (checked m k) (at level 100, right associativity) : c_scope.

Ltac pbconst := autounfold with pbconst in *.

(** A premise that the function returned success leaves the path on which the
    return code just bound was success too. *)
Ltac rc_ok rc := destruct (Z.eqb_spec rc PB_OK) as [->|]; simpl; [|by intros [= ?]].

Lemma checked_run {W} (m k : M W Z) w :
  checked m k w = let '(rc, w') := m w in if rc =? PB_OK then k w' else (rc, w').
Proof. unfold checked, bind, ret. destruct (m w) as [rc w']. by destruct (rc =? PB_OK). Qed.

Lemma checked_ok {W} (m k : M W Z) w w' :
  checked m k w = (PB_OK, w') -> exists w1, m w = (PB_OK, w1) /\ k w1 = (PB_OK, w').
Proof.
  unfold checked, bind, ret. destruct (m w) as [rc w1]. rc_ok rc. intros E. by exists w1.
Qed.

Lemma keeps_checked {W T} (g : W -> T) (m k : M W Z) : Keeps g m -> Keeps g k -> Keeps g (checked m k).
Proof.
  intros Hm Hk. unfold checked. apply keeps_bind; [done|]. intros rc. by destruct (rc =? PB_OK).
Qed.

Ltac keeps := repeat (keeps_tac; try match goal with |- Keeps _ (checked _ _) => apply keeps_checked end).
