(* ===== verification/Ram.v ===== *)
(** * Memory

    The address space as a function from addresses to bytes, for the code that
    computes addresses: images are loaded to it, the transfer buffers of
    command mode and the tables of the GPT driver lie in it. *)

From S2P Require Import Prelude.

(** ** Definitions *)

Definition ram_t := Z -> Z.

Definition ram_read (ram : ram_t) (addr : Z) (len : nat) : list Z :=
  map (fun i => ram (addr + Z.of_nat i)) (seq 0 len).

Definition ram_write (addr : Z) (bs : list Z) (ram : ram_t) : ram_t :=
  fun a => if (addr <=? a) && (a <? addr + Z.of_nat (length bs))
           then nth (Z.to_nat (a - addr)) bs 0 else ram a.

(** ** Lemmas *)

Lemma length_ram_read ram a n : length (ram_read ram a n) = n.
Proof. unfold ram_read. by rewrite length_map, length_seq. Qed.

Lemma ram_read_app ram a n m :
  ram_read ram a (n + m) = ram_read ram a n ++ ram_read ram (a + Z.of_nat n) m.
Proof.
  unfold ram_read. rewrite seq_app, map_app. f_equal. change (0 + n)%nat with n.
  rewrite <- (Nat.add_0_r n) at 1. generalize 0%nat as k. induction m as [|m IH]; intros k; simpl; [done|].
  rewrite <- Nat.add_succ_r, IH. do 2 f_equal. lia.
Qed.

Lemma ram_read_ext ram ram' a n :
  (forall x, a <= x < a + Z.of_nat n -> ram x = ram' x) -> ram_read ram a n = ram_read ram' a n.
Proof.
  intros Hx. unfold ram_read. apply map_ext_in. intros i Hi%in_seq. apply Hx. lia.
Qed.

Lemma ram_write_in ram a bs :
  ram_read (ram_write a bs ram) a (length bs) = bs.
Proof.
  apply list_eq. intros i. unfold ram_read. change (map ?f ?l) with (f <$> l).
  rewrite list_lookup_fmap. destruct (decide (i < length bs)%nat) as [Hi|Hi].
  - rewrite lookup_seq_lt by done. simpl. destruct (lookup_lt_is_Some_2 bs i Hi) as [b Hb].
    unfold ram_write. rewrite (proj2 (Z.leb_le _ _)), (proj2 (Z.ltb_lt _ _)) by lia. simpl.
    rewrite Hb. f_equal. apply nth_lookup_Some. by replace (Z.to_nat _) with i by lia.
  - rewrite lookup_seq_ge by lia. symmetry. simpl. apply lookup_ge_None. lia.
Qed.

Lemma ram_write_out ram a bs x :
  x < a \/ a + Z.of_nat (length bs) <= x -> ram_write a bs ram x = ram x.
Proof.
  intros Hx. unfold ram_write.
  destruct (Z.leb_spec a x), (Z.ltb_spec x (a + Z.of_nat (length bs))); simpl; done || lia.
Qed.

Lemma ram_read_write_out ram a bs b n :
  b + Z.of_nat n <= a \/ a + Z.of_nat (length bs) <= b -> ram_read (ram_write a bs ram) b n = ram_read ram b n.
Proof. intros H. apply ram_read_ext. intros x Hx. apply ram_write_out. lia. Qed.

Lemma take_ram_read ram a n k : (k <= n)%nat -> take k (ram_read ram a n) = ram_read ram a k.
Proof.
  intros H. replace n with (k + (n - k))%nat by lia. rewrite ram_read_app.
  by rewrite take_app_length' by (by rewrite length_ram_read).
Qed.

Lemma drop_ram_read ram a n k : (k <= n)%nat -> drop k (ram_read ram a n) = ram_read ram (a + Z.of_nat k) (n - k).
Proof.
  intros H. replace n with (k + (n - k))%nat at 1 by lia. rewrite ram_read_app.
  by rewrite drop_app_length' by (by rewrite length_ram_read).
Qed.

(** A write inside of the range that is read. *)
Lemma ram_read_write_sub ram a k bs n :
  (k + length bs <= n)%nat ->
  ram_read (ram_write (a + Z.of_nat k) bs ram) a n = splice k bs (ram_read ram a n).
Proof.
  intros H. unfold splice. rewrite take_ram_read, drop_ram_read by lia.
  replace n with (k + (length bs + (n - (k + length bs))))%nat at 1 by lia.
  rewrite !ram_read_app, ram_write_in, !ram_read_write_out by lia. do 3 f_equal. lia.
Qed.

Lemma ram_read_bytes ram a n k m :
  bytes (ram_read ram a n) -> (k + m <= n)%nat -> bytes (ram_read ram (a + Z.of_nat k) m).
Proof.
  intros Hb H. rewrite <- (take_ram_read _ _ (n - k) m), <- drop_ram_read by lia.
  by apply bytes_take, bytes_drop.
Qed.

Lemma slice_ram_read ram a n k m :
  (k + m <= n)%nat -> slice k m (ram_read ram a n) = ram_read ram (a + Z.of_nat k) m.
Proof. intros H. unfold slice. by rewrite drop_ram_read, take_ram_read by lia. Qed.

(** Two writes in a row are one. *)
Lemma ram_write_app ram a bs cs x :
  ram_write (a + Z.of_nat (length bs)) cs (ram_write a bs ram) x = ram_write a (bs ++ cs) ram x.
Proof.
  unfold ram_write. rewrite length_app. destruct (Z.leb_spec a x) as [Ha|Ha], (Z.leb_spec (a + Z.of_nat (length bs)) x) as [Hb|Hb];
    cbn [andb]; try (lia || done).
  - destruct (Z.ltb_spec x (a + Z.of_nat (length bs) + Z.of_nat (length cs))), (Z.ltb_spec x (a + Z.of_nat (length bs + length cs))); try lia.
    + rewrite app_nth2 by lia. f_equal. lia.
    + by rewrite (proj2 (Z.ltb_ge x _)) by lia.
  - rewrite (proj2 (Z.ltb_lt x (a + Z.of_nat (length bs)))), (proj2 (Z.ltb_lt x (a + Z.of_nat (length bs + length cs)))) by lia.
    by rewrite app_nth1 by lia.
Qed.

Lemma ram_write_ext ram ram' a bs x : (forall y, ram y = ram' y) -> ram_write a bs ram x = ram_write a bs ram' x.
Proof. intros H. unfold ram_write. by rewrite H. Qed.
