(* ===== verification/Crc.v ===== *)
(** * CRC-32

    [src/lib/crc.c]: the table-driven CRC used for the boot state and the GPT
    headers.  [crc32] is the C loop; [bit_step] is the shift register over the
    reflected polynomial 0xEDB88320 and serves as its reference definition. *)

From S2P Require Import Prelude.

(** ** Definitions *)

Definition crc32Table : list Z := [
  0x00000000; 0x77073096; 0xee0e612c; 0x990951ba; 0x076dc419; 0x706af48f; 0xe963a535; 0x9e6495a3;
  0x0edb8832; 0x79dcb8a4; 0xe0d5e91e; 0x97d2d988; 0x09b64c2b; 0x7eb17cbd; 0xe7b82d07; 0x90bf1d91;
  0x1db71064; 0x6ab020f2; 0xf3b97148; 0x84be41de; 0x1adad47d; 0x6ddde4eb; 0xf4d4b551; 0x83d385c7;
  0x136c9856; 0x646ba8c0; 0xfd62f97a; 0x8a65c9ec; 0x14015c4f; 0x63066cd9; 0xfa0f3d63; 0x8d080df5;
  0x3b6e20c8; 0x4c69105e; 0xd56041e4; 0xa2677172; 0x3c03e4d1; 0x4b04d447; 0xd20d85fd; 0xa50ab56b;
  0x35b5a8fa; 0x42b2986c; 0xdbbbc9d6; 0xacbcf940; 0x32d86ce3; 0x45df5c75; 0xdcd60dcf; 0xabd13d59;
  0x26d930ac; 0x51de003a; 0xc8d75180; 0xbfd06116; 0x21b4f4b5; 0x56b3c423; 0xcfba9599; 0xb8bda50f;
  0x2802b89e; 0x5f058808; 0xc60cd9b2; 0xb10be924; 0x2f6f7c87; 0x58684c11; 0xc1611dab; 0xb6662d3d;
  0x76dc4190; 0x01db7106; 0x98d220bc; 0xefd5102a; 0x71b18589; 0x06b6b51f; 0x9fbfe4a5; 0xe8b8d433;
  0x7807c9a2; 0x0f00f934; 0x9609a88e; 0xe10e9818; 0x7f6a0dbb; 0x086d3d2d; 0x91646c97; 0xe6635c01;
  0x6b6b51f4; 0x1c6c6162; 0x856530d8; 0xf262004e; 0x6c0695ed; 0x1b01a57b; 0x8208f4c1; 0xf50fc457;
  0x65b0d9c6; 0x12b7e950; 0x8bbeb8ea; 0xfcb9887c; 0x62dd1ddf; 0x15da2d49; 0x8cd37cf3; 0xfbd44c65;
  0x4db26158; 0x3ab551ce; 0xa3bc0074; 0xd4bb30e2; 0x4adfa541; 0x3dd895d7; 0xa4d1c46d; 0xd3d6f4fb;
  0x4369e96a; 0x346ed9fc; 0xad678846; 0xda60b8d0; 0x44042d73; 0x33031de5; 0xaa0a4c5f; 0xdd0d7cc9;
  0x5005713c; 0x270241aa; 0xbe0b1010; 0xc90c2086; 0x5768b525; 0x206f85b3; 0xb966d409; 0xce61e49f;
  0x5edef90e; 0x29d9c998; 0xb0d09822; 0xc7d7a8b4; 0x59b33d17; 0x2eb40d81; 0xb7bd5c3b; 0xc0ba6cad;
  0xedb88320; 0x9abfb3b6; 0x03b6e20c; 0x74b1d29a; 0xead54739; 0x9dd277af; 0x04db2615; 0x73dc1683;
  0xe3630b12; 0x94643b84; 0x0d6d6a3e; 0x7a6a5aa8; 0xe40ecf0b; 0x9309ff9d; 0x0a00ae27; 0x7d079eb1;
  0xf00f9344; 0x8708a3d2; 0x1e01f268; 0x6906c2fe; 0xf762575d; 0x806567cb; 0x196c3671; 0x6e6b06e7;
  0xfed41b76; 0x89d32be0; 0x10da7a5a; 0x67dd4acc; 0xf9b9df6f; 0x8ebeeff9; 0x17b7be43; 0x60b08ed5;
  0xd6d6a3e8; 0xa1d1937e; 0x38d8c2c4; 0x4fdff252; 0xd1bb67f1; 0xa6bc5767; 0x3fb506dd; 0x48b2364b;
  0xd80d2bda; 0xaf0a1b4c; 0x36034af6; 0x41047a60; 0xdf60efc3; 0xa867df55; 0x316e8eef; 0x4669be79;
  0xcb61b38c; 0xbc66831a; 0x256fd2a0; 0x5268e236; 0xcc0c7795; 0xbb0b4703; 0x220216b9; 0x5505262f;
  0xc5ba3bbe; 0xb2bd0b28; 0x2bb45a92; 0x5cb36a04; 0xc2d7ffa7; 0xb5d0cf31; 0x2cd99e8b; 0x5bdeae1d;
  0x9b64c2b0; 0xec63f226; 0x756aa39c; 0x026d930a; 0x9c0906a9; 0xeb0e363f; 0x72076785; 0x05005713;
  0x95bf4a82; 0xe2b87a14; 0x7bb12bae; 0x0cb61b38; 0x92d28e9b; 0xe5d5be0d; 0x7cdcefb7; 0x0bdbdf21;
  0x86d3d2d4; 0xf1d4e242; 0x68ddb3f8; 0x1fda836e; 0x81be16cd; 0xf6b9265b; 0x6fb077e1; 0x18b74777;
  0x88085ae6; 0xff0f6a70; 0x66063bca; 0x11010b5c; 0x8f659eff; 0xf862ae69; 0x616bffd3; 0x166ccf45;
  0xa00ae278; 0xd70dd2ee; 0x4e048354; 0x3903b3c2; 0xa7672661; 0xd06016f7; 0x4969474d; 0x3e6e77db;
  0xaed16a4a; 0xd9d65adc; 0x40df0b66; 0x37d83bf0; 0xa9bcae53; 0xdebb9ec5; 0x47b2cf7f; 0x30b5ffe9;
  0xbdbdf21c; 0xcabac28a; 0x53b39330; 0x24b4a3a6; 0xbad03605; 0xcdd70693; 0x54de5729; 0x23d967bf;
  0xb3667a2e; 0xc4614ab8; 0x5d681b02; 0x2a6f2b94; 0xb40bbe37; 0xc30c8ea1; 0x5a05df1b; 0x2d02ef8d
].

(** One iteration of the loop:
    [crc = crc32Table[(crc ^ *p++) & 0xff] ^ (crc >> 8)]. *)
Definition crc_step (crc b : Z) : Z :=
  Z.lxor (nth (Z.to_nat (Z.land (Z.lxor crc b) 0xff)) crc32Table 0) (Z.shiftr crc 8).

(** [crc32(crc, buf, size)], [buf] being the [size] bytes read. *)
Definition crc32 (crc : Z) (buf : list Z) : Z := fold_left crc_step buf crc.

(** The reference: one clock of the shift register, and [n] of them. *)
Definition POLY : Z := 0xedb88320.
Definition bit_step (c : Z) : Z :=
  if Z.odd c then Z.lxor (Z.shiftr c 1) POLY else Z.shiftr c 1.
Definition bit_steps (n : nat) (c : Z) : Z := Nat.iter n bit_step c.

(** ** The shift register is linear and injective *)

Lemma bit_step_lxor a b : bit_step (Z.lxor a b) = Z.lxor (bit_step a) (bit_step b).
Proof.
  unfold bit_step. rewrite <- !Z.bit0_odd, Z.lxor_spec, Z.shiftr_lxor.
  destruct (Z.testbit a 0), (Z.testbit b 0); simpl.
  - by rewrite (Z.lxor_comm (Z.shiftr b 1)), Z.lxor_assoc, <- (Z.lxor_assoc POLY),
      Z.lxor_nilpotent, Z.lxor_0_l.
  - by rewrite !Z.lxor_assoc, (Z.lxor_comm POLY).
  - by rewrite !Z.lxor_assoc.
  - done.
Qed.

Lemma bit_steps_lxor n a b : bit_steps n (Z.lxor a b) = Z.lxor (bit_steps n a) (bit_steps n b).
Proof. induction n as [|n IH]; simpl; [done|]. unfold bit_steps in *. by rewrite IH, bit_step_lxor. Qed.

Lemma bit_steps_add n m c : bit_steps (n + m) c = bit_steps n (bit_steps m c).
Proof. unfold bit_steps. apply Nat.iter_add. Qed.

Lemma bit_step_double c : bit_step (2 * c) = c.
Proof.
  unfold bit_step. rewrite Z.odd_mul. simpl. rewrite Z.shiftr_div_pow2 by lia.
  change (2 ^ 1) with 2. rewrite Z.mul_comm. by apply Z.div_mul.
Qed.

Lemma bit_steps_shiftl8 c : bit_steps 8 (256 * c) = c.
Proof.
  replace (256 * c) with (2 * (2 * (2 * (2 * (2 * (2 * (2 * (2 * c)))))))) by lia.
  unfold bit_steps. cbn [Nat.iter nat_rect]. by rewrite !bit_step_double.
Qed.

Lemma bit_step_range c : 0 <= c < 2 ^ 32 -> 0 <= bit_step c < 2 ^ 32.
Proof.
  intros Hc.
  assert (0 <= Z.shiftr c 1 < 2 ^ 31).
  { rewrite Z.shiftr_div_pow2 by lia. change (2 ^ 1) with 2.
    split; [apply Z.div_pos; lia | apply Z.div_lt_upper_bound; lia]. }
  unfold bit_step. destruct (Z.odd c); [|lia].
  apply lxor_lt; unfold POLY; lia.
Qed.

Lemma bit_steps_range n c : 0 <= c < 2 ^ 32 -> 0 <= bit_steps n c < 2 ^ 32.
Proof. intros Hc. induction n; [done|]. by apply bit_step_range. Qed.

Lemma bit_step_kernel d : 0 <= d < 2 ^ 32 -> bit_step d = 0 -> d = 0.
Proof.
  intros Hd. unfold bit_step. rewrite Z.shiftr_div_pow2 by lia. change (2 ^ 1) with 2.
  assert (d / 2 < 2 ^ 31) by (apply Z.div_lt_upper_bound; lia).
  pose proof (Z.div_mod d 2 ltac:(lia)) as Hdm. rewrite Zmod_odd in Hdm.
  destruct (Z.odd d).
  - intros E. apply Z.lxor_eq in E. unfold POLY in E. lia.
  - intros E. lia.
Qed.

Lemma bit_steps_inj n a b :
  0 <= a < 2 ^ 32 -> 0 <= b < 2 ^ 32 -> bit_steps n a = bit_steps n b -> a = b.
Proof.
  intros Ha Hb E. apply Z.lxor_eq.
  assert (Hd : 0 <= Z.lxor a b < 2 ^ 32) by (apply lxor_lt; lia).
  assert (Hk : bit_steps n (Z.lxor a b) = 0) by (by rewrite bit_steps_lxor, E, Z.lxor_nilpotent).
  clear E. revert Hk. generalize dependent (Z.lxor a b). clear. intros d Hd.
  induction n as [|n IH]; [done|]. intros E. apply IH.
  apply bit_step_kernel in E; [done|]. by apply bit_steps_range.
Qed.

(** ** The table holds eight clocks of the register *)

Lemma crc32Table_spec n : (n < 256)%nat -> nth n crc32Table 0 = bit_steps 8 (Z.of_nat n).
Proof.
  intros Hn.
  assert (Hall : forallb (fun n => nth n crc32Table 0 =? bit_steps 8 (Z.of_nat n)) (seq 0 256) = true)
    by (vm_compute; reflexivity).
  rewrite forallb_forall in Hall. apply Z.eqb_eq, Hall, in_seq. lia.
Qed.

Lemma lxor_low_high x : Z.lxor (Z.land x 0xff) (256 * Z.shiftr x 8) = x.
Proof.
  replace (256 * Z.shiftr x 8) with (Z.shiftl (Z.shiftr x 8) 8)
    by (rewrite Z.shiftl_mul_pow2 by lia; lia).
  change 0xff with (Z.ones 8). apply Z.bits_inj_iff'. intros i Hi.
  rewrite Z.lxor_spec, Z.land_spec, Z.testbit_ones_nonneg by lia.
  destruct (Z.ltb_spec i 8).
  - rewrite Z.shiftl_spec_low by done. by rewrite andb_true_r, xorb_false_r.
  - rewrite Z.shiftl_spec, Z.shiftr_spec by lia.
    replace (i - 8 + 8) with i by lia. by rewrite andb_false_r, xorb_false_l.
Qed.

Lemma shiftr8_lxor_byte c b : is_byte b -> Z.shiftr (Z.lxor c b) 8 = Z.shiftr c 8.
Proof.
  intros Hb. rewrite Z.shiftr_lxor, (Z.shiftr_div_pow2 b) by lia.
  unfold is_byte in Hb. by rewrite Z.div_small, Z.lxor_0_r by lia.
Qed.

Lemma crc_step_bits c b : is_byte b -> crc_step c b = bit_steps 8 (Z.lxor c b).
Proof.
  intros Hb. unfold crc_step. rewrite <- (shiftr8_lxor_byte c b) by done.
  generalize (Z.lxor c b). intros x.
  assert (Hl : 0 <= Z.land x 0xff < 256)
    by (change 0xff with (Z.ones 8); rewrite Z.land_ones by lia; apply Z.mod_pos_bound; lia).
  rewrite crc32Table_spec by lia. rewrite Z2Nat.id by lia.
  rewrite <- (lxor_low_high x) at 3. by rewrite bit_steps_lxor, bit_steps_shiftl8.
Qed.

Lemma le_val_lxor b v : is_byte b -> 0 <= v -> b + 256 * v = Z.lxor b (256 * v).
Proof.
  intros Hb Hv. unfold is_byte in Hb. rewrite <- Z.add_nocarry_lxor; [done|].
  replace (256 * v) with (Z.shiftl v 8) by (rewrite Z.shiftl_mul_pow2 by lia; lia).
  rewrite Z.land_comm. apply land_shiftl_low; lia.
Qed.

(** ** What the C loop computes *)

Lemma crc32_app c x y : crc32 c (x ++ y) = crc32 (crc32 c x) y.
Proof. apply fold_left_app. Qed.

Lemma crc32_is_poly c buf :
  bytes buf -> crc32 c buf = bit_steps (8 * length buf) (Z.lxor c (le_val buf)).
Proof.
  intros Hb. revert c. induction Hb as [|b buf Hb Hbuf IH]; intros c.
  { simpl. by rewrite Z.lxor_0_r. }
  cbn [le_val length]. change (crc32 c (b :: buf)) with (crc32 (crc_step c b) buf).
  rewrite IH, crc_step_bits by done.
  pose proof (le_val_range buf Hbuf).
  rewrite le_val_lxor by (done || lia).
  rewrite <- (bit_steps_shiftl8 (le_val buf)) at 1.
  rewrite <- bit_steps_lxor, <- bit_steps_add.
  f_equal; [lia | by rewrite Z.lxor_assoc].
Qed.

(** [C39] The table-driven loop computes the CRC-32 of the reflected polynomial
    0xEDB88320: running [crc32] over a buffer from any register value equals
    clocking the bit-serial shift register once per message bit, with the
    whole message (as a little-endian number) folded into the register. *)
Theorem crc32_is_shift_register c buf :
  bytes buf -> crc32 c buf = bit_steps (8 * length buf) (Z.lxor c (le_val buf)).
Proof. apply crc32_is_poly. Qed.

Lemma crc32_range c buf : 0 <= c < 2 ^ 32 -> bytes buf -> 0 <= crc32 c buf < 2 ^ 32.
Proof.
  intros Hc Hb. revert c Hc. induction Hb as [|b buf Hb _ IH]; intros c Hc; [done|].
  change (crc32 c (b :: buf)) with (crc32 (crc_step c b) buf). apply IH.
  rewrite crc_step_bits by done. apply bit_steps_range, lxor_lt; unfold is_byte in *; lia.
Qed.

Lemma crc32_inj_register a b buf :
  0 <= a < 2 ^ 32 -> 0 <= b < 2 ^ 32 -> bytes buf -> crc32 a buf = crc32 b buf -> a = b.
Proof.
  intros Ha Hb Hbuf. revert a b Ha Hb.
  induction Hbuf as [|x buf Hx _ IH]; intros a b Ha Hb; [done|].
  change (crc32 ?c (x :: buf)) with (crc32 (crc_step c x) buf).
  unfold is_byte in Hx.
  assert (forall c, 0 <= c < 2 ^ 32 -> 0 <= Z.lxor c x < 2 ^ 32) by (intros; apply lxor_lt; lia).
  intros E. apply IH in E; rewrite !crc_step_bits in * by done; try (by apply bit_steps_range; auto).
  apply bit_steps_inj in E; auto.
  apply Z.lxor_eq. apply (f_equal (fun z => Z.lxor z (Z.lxor b x))) in E.
  rewrite Z.lxor_nilpotent in E. rewrite <- E.
  by rewrite (Z.lxor_comm b x), <- Z.lxor_assoc, (Z.lxor_assoc a x x), Z.lxor_nilpotent, Z.lxor_0_r.
Qed.

Lemma le_val_inj x y : bytes x -> bytes y -> length x = length y -> le_val x = le_val y -> x = y.
Proof.
  intros Hx Hy Hl E. rewrite <- (le_bytes_le_val x), <- (le_bytes_le_val y) by done.
  by rewrite Hl, E.
Qed.

Lemma crc32_inj_word c x y :
  0 <= c < 2 ^ 32 -> bytes x -> bytes y -> length x = length y -> (length x <= 4)%nat ->
  crc32 c x = crc32 c y -> x = y.
Proof.
  intros Hc Hx Hy Hl H4 E.
  assert (Hr : forall z, bytes z -> (length z <= 4)%nat -> 0 <= le_val z < 2 ^ 32).
  { intros z Hz Hz4. pose proof (le_val_range z Hz).
    assert (256 ^ Z.of_nat (length z) <= 256 ^ 4) by (apply Z.pow_le_mono_r; lia). lia. }
  rewrite !crc32_is_poly, Hl in E by done.
  apply bit_steps_inj in E; [| apply lxor_lt; auto with lia..].
  apply le_val_inj; [done..|]. apply (f_equal (Z.lxor c)) in E.
  by rewrite <- !Z.lxor_assoc, Z.lxor_nilpotent, !Z.lxor_0_l in E.
Qed.

(** A corruption confined to at most four consecutive bytes is always
    detected: two messages that agree before and after a window of up to four
    bytes and differ inside it never have the same checksum, whatever register
    value the computation starts from. *)
Theorem crc32_detects_burst c pre x y suf :
  0 <= c < 2 ^ 32 -> bytes (pre ++ x ++ suf) -> bytes y ->
  length x = length y -> (length x <= 4)%nat -> x <> y ->
  crc32 c (pre ++ x ++ suf) <> crc32 c (pre ++ y ++ suf).
Proof.
  intros Hc Hb Hy Hl H4 Hne E.
  apply Forall_app in Hb as [Hpre Hb]. apply Forall_app in Hb as [Hx Hsuf].
  rewrite !crc32_app in E. apply Hne.
  assert (0 <= crc32 c pre < 2 ^ 32) by (by apply crc32_range).
  apply crc32_inj_register in E; [|by apply crc32_range..|done].
  eapply crc32_inj_word; eauto.
Qed.

Lemma crc32_is_shift_register_witness :
  bytes [1; 2; 3] /\ crc32 0xffffffff [1; 2; 3] = bit_steps 24 (Z.lxor 0xffffffff (le_val [1; 2; 3])).
Proof.
  split; [by repeat constructor|].
  apply (crc32_is_shift_register 0xffffffff [1; 2; 3]). by repeat constructor.
Defined.

Lemma crc32_detects_burst_witness :
  crc32 0 ([7; 8] ++ [1; 2] ++ [9]) <> crc32 0 ([7; 8] ++ [1; 3] ++ [9]).
Proof.
  apply (crc32_detects_burst 0 [7; 8] [1; 2] [1; 3] [9]); first [done | lia | by repeat constructor].
Defined.
