(* ===== verification/Divmod.v ===== *)
(** * Integer division

    [src/arch/armv7a/arm32_aeabi_divmod.c]: the run-time routines that the
    compiler calls for [/] and [%] on cores without a divide instruction. *)

From S2P Require Import Prelude.

(** ** Definitions *)

Record qr := Qr { qr_q : Z; qr_r : Z; q_n : bool; r_n : bool }.

(** [while ((p >> 31) == 0)]: [p] moves up to bit 31 in 31 steps at most. *)
Fixpoint scale_loop (fuel : nat) (i p : Z) : Z * Z :=
  match fuel with
  | O => (i, p)
  | S fuel => if Z.shiftr p 31 =? 0 then scale_loop fuel (u32 (Z.shiftl i 1)) (u32 (Z.shiftl p 1)) else (i, p)
  end.

(** [while (i > 0)]: [i] has one bit, which moves down. *)
Fixpoint div_steps (fuel : nat) (i p n q : Z) : Z * Z :=
  match fuel with
  | O => (n, q)
  | S fuel =>
      if 0 <? i then
        let q := u32 (Z.shiftl q 1) in
        let '(n, q) := if p <=? n then (u32 (n - p), u32 (q + 1)) else (n, q) in
        div_steps fuel (Z.shiftr i 1) (Z.shiftr p 1) n q
      else (n, q)
  end.

Definition division_qr (n p : Z) (x : qr) : qr :=
  if p =? 0 then Qr (qr_q x) 0xFFFFFFFF (q_n x) (r_n x) else
  let '(i, p) := scale_loop 32 1 p in
  let '(r, q) := div_steps 33 i p n 0 in
  Qr q r (q_n x) (r_n x).

Definition uint_div_qr (numerator denominator : Z) (x : qr) : qr :=
  let x := division_qr numerator denominator x in
  Qr (if q_n x then u32 (- qr_q x) else qr_q x) (if r_n x then u32 (- qr_r x) else qr_r x) (q_n x) (r_n x).

Definition aeabi_uidiv (numerator denominator : Z) : Z := qr_q (uint_div_qr numerator denominator (Qr 0 0 false false)).
Definition aeabi_uimod (numerator denominator : Z) : Z := qr_r (uint_div_qr numerator denominator (Qr 0 0 false false)).
(** The quotient and the remainder, in two registers. *)
Definition aeabi_uidivmod (numerator denominator : Z) : Z * Z :=
  let x := uint_div_qr numerator denominator (Qr 0 0 false false) in (qr_q x, qr_r x).

(** The signs are taken off, the division is unsigned, the signs are put on. *)
Definition idiv_qr (numerator denominator : Z) : qr :=
  let neg_q := ((numerator <? 0) && (0 <? denominator)) || ((0 <? numerator) && (denominator <? 0)) in
  let neg_r := numerator <? 0 in
  let numerator := if numerator <? 0 then s32 (- numerator) else numerator in
  let denominator := if denominator <? 0 then s32 (- denominator) else denominator in
  uint_div_qr (u32 numerator) (u32 denominator) (Qr 0 0 neg_q neg_r).

Definition aeabi_idiv (numerator denominator : Z) : Z := s32 (qr_q (idiv_qr numerator denominator)).
Definition aeabi_idivmod (numerator denominator : Z) : Z * Z :=
  let x := idiv_qr numerator denominator in (s32 (qr_q x), s32 (qr_r x)).

(** The search for a single bit; [None]: still searching after [fuel] steps. *)
Fixpoint bit_search (fuel : nat) (i j h s : Z) : option (Z * Z) :=
  if negb (s =? 0) || (1 <? h) then
    match fuel with
    | O => None
    | S fuel => let odd := Z.testbit s 0 in bit_search fuel (i + 1) (if odd then i else j) (if odd then h + 1 else h) (Z.shiftr s 1)
    end
  else Some (j, h).

Definition aeabi_imod (fuel : nat) (numerator denominator : Z) : option Z :=
  '(j, h) ← bit_search fuel 0 0 0 denominator;
  if h =? 1 then Some (Z.shiftr numerator j) else Some (s32 (qr_r (idiv_qr numerator denominator))).

(** ** Correctness *)

Lemma scale_ok fuel k d : (0 <= k <= 31)%Z -> 0 < d -> d * 2 ^ k < 2 ^ 32 -> 31 - k < Z.of_nat fuel ->
  exists k', k <= k' <= 31 /\ scale_loop fuel (2 ^ k) (d * 2 ^ k) = (2 ^ k', d * 2 ^ k') /\ 2 ^ 31 <= d * 2 ^ k' < 2 ^ 32.
Proof.
  revert k. induction fuel as [|fuel IH]; intros k Hk Hd Hs Hf; [lia|]. cbn [scale_loop].
  rewrite Z.shiftr_div_pow2 by lia. destruct (Z.eqb_spec (d * 2 ^ k / 2 ^ 31) 0) as [E|E].
  - assert (Hlt : d * 2 ^ k < 2 ^ 31) by (apply Z.div_small_iff in E; lia).
    assert (Hk31 : k < 31) by (destruct (Z.eq_dec k 31) as [-> |]; lia).
    assert (Hp : 2 ^ (k + 1) = 2 ^ k * 2) by (rewrite Z.pow_add_r; lia).
    assert (2 ^ k < 2 ^ 31) by (apply Z.pow_lt_mono_r; lia). assert (0 < 2 ^ k) by (apply Z.pow_pos_nonneg; lia).
    rewrite !Z.shiftl_mul_pow2, !u32_small by lia. change (2 ^ 1) with 2. rewrite <- Z.mul_assoc, <- Hp.
    destruct (IH (k + 1)) as (k' & Hk' & Ek & Hr); [lia..|]. exists k'. split; [lia|done].
  - exists k. split; [lia|]. split; [done|]. split; [|done].
    destruct (Z.lt_ge_cases (d * 2 ^ k) (2 ^ 31)); [|lia]. exfalso. apply E, Z.div_small. split; [|done]. apply Z.mul_nonneg_nonneg; [lia|apply Z.pow_nonneg; lia].
Qed.

(** With [N = q * 2p + n] and [n < 2p] a step produces one bit of the
    quotient. *)
Lemma steps_ok fuel k d n q N : 0 <= k -> 0 < d -> k + 1 <= Z.of_nat fuel -> 0 <= n < 2 * (d * 2 ^ k) -> 0 <= q ->
  N = q * (2 * (d * 2 ^ k)) + n -> N < 2 ^ 32 ->
  div_steps fuel (2 ^ k) (d * 2 ^ k) n q = (N mod d, N / d).
Proof.
  intros Hk Hd. revert fuel n q. pattern k. apply natlike_ind; [| |done]; clear k Hk.
  - intros [|fuel] n q Hf Hn Hq HN HN32; [lia|]. cbn [div_steps Z.pow Z.ltb Z.compare Z.pow_pos]. change (2 ^ 0) with 1 in *. rewrite Z.mul_1_r in *.
    change (0 <? 1) with true. cbv iota. rewrite Z.shiftl_mul_pow2 by lia. change (2 ^ 1) with 2.
    assert (Hq2 : q * 2 < 2 ^ 32) by nia. rewrite (u32_small (q * 2)) by lia. change (Z.shiftr 1 1) with 0.
    destruct (Z.leb_spec d n).
    + rewrite !u32_small by nia. replace N with ((n - d) + (q * 2 + 1) * d) by lia.
      rewrite Z.mod_add, Z.div_add, Z.mod_small, Z.div_small by lia. by destruct fuel.
    + replace N with (n + q * 2 * d) by lia. rewrite Z.mod_add, Z.div_add, Z.mod_small, Z.div_small by lia. by destruct fuel.
  - intros k Hk IH [|fuel] n q Hf Hn Hq HN HN32; [lia|]. cbn [div_steps].
    assert (Hp : 2 ^ Z.succ k = 2 * 2 ^ k) by (rewrite Z.pow_succ_r; lia). assert (0 < 2 ^ k) by (apply Z.pow_pos_nonneg; lia).
    rewrite (proj2 (Z.ltb_lt _ _)) by lia. rewrite !Z.shiftr_div_pow2, Z.shiftl_mul_pow2 by lia. change (2 ^ 1) with 2.
    assert (E1 : 2 ^ Z.succ k / 2 = 2 ^ k) by (rewrite Hp, Z.mul_comm; apply Z.div_mul; lia).
    assert (E2 : d * 2 ^ Z.succ k / 2 = d * 2 ^ k) by (rewrite Hp; replace (d * (2 * 2 ^ k)) with (d * 2 ^ k * 2) by lia; apply Z.div_mul; lia).
    rewrite E1, E2. assert (Hdp : 0 < d * 2 ^ k) by nia. set (p := d * 2 ^ k) in *.
    replace (d * 2 ^ Z.succ k) with (2 * p) in * by lia. assert (q * 2 < 2 ^ 32) by nia.
    rewrite (u32_small (q * 2)) by lia. destruct (Z.leb_spec (2 * p) n).
    + rewrite !u32_small by nia. apply IH; lia.
    + apply IH; lia.
Qed.

Lemma division_ok n d x : 0 <= n < 2 ^ 32 -> 0 < d < 2 ^ 32 -> division_qr n d x = Qr (n / d) (n mod d) (q_n x) (r_n x).
Proof.
  intros Hn Hd. unfold division_qr. rewrite (proj2 (Z.eqb_neq _ _)) by lia.
  destruct (scale_ok 32 0 d) as (k & Hk & E & Hr); [lia..|]. change (2 ^ 0) with 1 in E. rewrite Z.mul_1_r in E. rewrite E.
  by rewrite (steps_ok 33 k d n 0 n) by lia.
Qed.

(** Division without a divide instruction: for every 32-bit numerator and
    every denominator that is not zero, the shift and subtract loops end and
    return the quotient and the remainder; division by zero returns 0 and
    [0xffffffff]. *)
Theorem aeabi_uidivmod_ok n d : 0 <= n < 2 ^ 32 -> 0 <= d < 2 ^ 32 ->
  aeabi_uidivmod n d = if d =? 0 then (0, 0xffffffff) else (n / d, n mod d).
Proof.
  intros Hn Hd. unfold aeabi_uidivmod, uint_div_qr. destruct (Z.eqb_spec d 0) as [-> |]; [done|]. by rewrite division_ok by lia.
Qed.

Lemma s32_u32 x : - 2 ^ 31 <= x < 2 ^ 31 -> s32 (u32 x) = x.
Proof. intros H. unfold s32, u32. rewrite Zplus_mod_idemp_l, Z.mod_small; lia. Qed.

(** [C40] Signed division: for all 32-bit operands but a zero denominator and
    the overflowing [INT_MIN / -1], the results are those of C, rounded towards
    zero, the remainder with the sign of the numerator. *)
Theorem aeabi_idivmod_ok n d : - 2 ^ 31 <= n < 2 ^ 31 -> - 2 ^ 31 <= d < 2 ^ 31 -> d <> 0 -> ~ (n = - 2 ^ 31 /\ d = -1) ->
  aeabi_idivmod n d = (Z.quot n d, Z.rem n d).
Proof.
  intros Hn Hd H0 Hov. unfold aeabi_idivmod, idiv_qr.
  assert (Habs : forall x, - 2 ^ 31 <= x < 2 ^ 31 -> u32 (if x <? 0 then s32 (- x) else x) = Z.abs x).
  { intros x Hx. destruct (Z.ltb_spec x 0); [|rewrite u32_small; lia]. destruct (Z.eq_dec x (- 2 ^ 31)) as [-> |]; [done|].
    unfold s32. rewrite (Z.mod_small (- x + _)), u32_small by lia. lia. }
  rewrite !Habs by done. unfold uint_div_qr. rewrite division_ok by lia. cbn [q_n r_n qr_q qr_r].
  assert (Hq : 0 <= Z.abs n / Z.abs d) by (apply Z.div_pos; lia). pose proof (Z.mod_pos_bound (Z.abs n) (Z.abs d)) as Hm.
  pose proof (Z.div_mod (Z.abs n) (Z.abs d)) as Hdm. rewrite Z.quot_div, Z.rem_mod by done.
  set (q := Z.abs n / Z.abs d) in *. set (r := Z.abs n mod Z.abs d) in *.
  assert (Hqb : q < 2 ^ 31 \/ (q = 2 ^ 31 /\ n = - 2 ^ 31 /\ d = 1)) by (destruct (Z.eq_dec (Z.abs d) 1); nia).
  f_equal.
  - destruct (Z.ltb_spec n 0), (Z.ltb_spec 0 n), (Z.ltb_spec 0 d), (Z.ltb_spec d 0); try lia; cbn [andb orb];
      rewrite ?(Z.sgn_pos n), ?(Z.sgn_neg n), ?(Z.sgn_pos d), ?(Z.sgn_neg d) by lia;
      first [ rewrite s32_u32 by lia; lia | unfold s32; rewrite Z.mod_small; [lia|nia] ].
  - destruct (Z.ltb_spec n 0).
    + rewrite s32_u32 by lia. rewrite Z.sgn_neg; lia.
    + unfold s32. rewrite Z.mod_small by lia. destruct (Z.eq_dec n 0) as [-> |]; [|rewrite Z.sgn_pos; lia].
      subst r. rewrite Z.mod_0_l by lia. lia.
Qed.

(** ** [__aeabi_imod] *)

(** A power of two divides instead of giving the remainder. *)
Lemma aeabi_imod_power_of_two : aeabi_imod 100 1000 8 = Some 125 /\ Z.rem 1000 8 = 0.
Proof. done. Qed.

Lemma bit_search_stuck fuel i j h s : 1 < h -> bit_search fuel i j h s = None.
Proof.
  revert i j h s. induction fuel as [|fuel IH]; intros i j h s Hh; cbn [bit_search]; rewrite (proj2 (Z.ltb_lt 1 h)), orb_true_r by done; [done|].
  destruct (Z.testbit s 0); apply IH; lia.
Qed.

(** The condition of the search keeps it running once two bits are found: a
    positive denominator that is not a power of two makes the function hang. *)
Theorem aeabi_imod_hangs fuel n : aeabi_imod fuel n 10 = None.
Proof.
  unfold aeabi_imod. assert (bit_search fuel 0 0 0 10 = None) as ->; [|done].
  do 4 (destruct fuel as [|fuel]; [done|]). cbn -[Z.add]. by apply bit_search_stuck.
Qed.

(** ** Witnesses *)

Lemma aeabi_uidivmod_ok_witness : aeabi_uidivmod 0xffffffff 10 = (429496729, 5).
Proof. rewrite (aeabi_uidivmod_ok 0xffffffff 10 ltac:(lia) ltac:(lia)). reflexivity. Defined.

Lemma aeabi_idivmod_ok_witness : aeabi_idivmod (-2147483648) 7 = (-306783378, -2).
Proof. rewrite (aeabi_idivmod_ok (-2147483648) 7 ltac:(lia) ltac:(lia) ltac:(lia) ltac:(lia)). reflexivity. Defined.
