(* ===== verification/Uuid.v ===== *)
(** * UUIDs

    [src/lib/uuid]: the libuuid subset punchboot carries.  A [uuid_t] is the
    list of its 16 bytes; [uuid_unpack]/[uuid_pack] convert to the field view
    [struct uuid] in which [uuid_compare] works; [uuid_to_guid] is the byte
    swap between RFC 4122 and the mixed-endian GPT encoding. *)

From S2P Require Import Prelude.

(** ** Definitions *)

Abbreviation uuid_t := (list Z) (only parsing).

(** A well-formed [uuid_t]: sixteen bytes. *)
Definition uuid_wf (uu : uuid_t) : Prop := length uu = 16%nat /\ bytes uu.

#[export] Instance uuid_wf_dec uu : Decision (uuid_wf uu).
Proof. unfold uuid_wf. apply _. Defined.

(** [src/lib/libc/memcmp.c]: the difference at the first differing byte. *)
Fixpoint memcmp (s d : list Z) (len : nat) : Z :=
  match len, s, d with
  | S len, sc :: s, dc :: d => if sc - dc =? 0 then memcmp s d len else sc - dc
  | _, _, _ => 0
  end.

(** [struct uuid] *)
Record uuid := {
  time_low : Z;
  time_mid : Z;
  time_hi_and_version : Z;
  clock_seq : Z;
  node : list Z
}.

(** The byte [in[i]]. *)
Definition byte_at (l : list Z) (i : nat) : Z := nth i l 0.

Definition uuid_unpack (inp : uuid_t) : uuid :=
  let p i := byte_at inp i in
  let be2 a b := Z.lor (Z.shiftl a 8) b in
  {| time_low := Z.lor (Z.shiftl (Z.lor (Z.shiftl (Z.lor (Z.shiftl (p 0%nat) 8) (p 1%nat)) 8) (p 2%nat)) 8) (p 3%nat);
     time_mid := u16 (be2 (p 4%nat) (p 5%nat));
     time_hi_and_version := u16 (be2 (p 6%nat) (p 7%nat));
     clock_seq := u16 (be2 (p 8%nat) (p 9%nat));
     node := slice 10 6 inp |}.

Definition uuid_pack (uu : uuid) : uuid_t :=
  let lo tmp := u8 tmp in
  [ lo (Z.shiftr (time_low uu) 24); lo (Z.shiftr (time_low uu) 16);
    lo (Z.shiftr (time_low uu) 8); lo (time_low uu);
    lo (Z.shiftr (time_mid uu) 8); lo (time_mid uu);
    lo (Z.shiftr (time_hi_and_version uu) 8); lo (time_hi_and_version uu);
    lo (Z.shiftr (clock_seq uu) 8); lo (clock_seq uu) ] ++ take 6 (node uu).

(** [UUCMP(u1, u2)]: return the sign of the comparison unless equal. *)
Definition UUCMP (u1 u2 : Z) (k : Z) : Z :=
  if u1 =? u2 then k else if u1 <? u2 then -1 else 1.

Definition uuid_compare (uu1 uu2 : uuid_t) : Z :=
  let uuid1 := uuid_unpack uu1 in
  let uuid2 := uuid_unpack uu2 in
  UUCMP (time_low uuid1) (time_low uuid2)
  (UUCMP (time_mid uuid1) (time_mid uuid2)
  (UUCMP (time_hi_and_version uuid1) (time_hi_and_version uuid2)
  (UUCMP (clock_seq uuid1) (clock_seq uuid2)
  (memcmp (node uuid1) (node uuid2) 6)))).

(** [uuid_copy(dst, src)]: the new contents of [dst]. *)
Definition uuid_copy (src : uuid_t) : uuid_t := take 16 src.
(** [uuid_clear(uu)]: the new contents of [uu]. *)
Definition uuid_clear : uuid_t := zeros 16.

Definition uuid_is_null (uu : uuid_t) : bool := forallb (fun c => c =? 0) (take 16 uu).

Definition uuid_to_guid (uu : uuid_t) : uuid_t :=
  map (byte_at uu) [3; 2; 1; 0; 5; 4; 7; 6; 8; 9; 10; 11; 12; 13; 14; 15]%nat.

(** ** Lemmas *)

Lemma uuid_wf_cases uu : uuid_wf uu ->
  exists a0 a1 a2 a3 a4 a5 a6 a7 a8 a9 b0 b1 b2 b3 b4 b5,
    uu = [a0; a1; a2; a3; a4; a5; a6; a7; a8; a9; b0; b1; b2; b3; b4; b5].
Proof.
  intros [Hl _]. do 16 (destruct uu as [|? uu]; [done|]).
  destruct uu; [|done]. by repeat eexists.
Qed.

Lemma be_join a b : is_byte b -> Z.lor (Z.shiftl a 8) b = a * 256 + b.
Proof.
  intros Hb. unfold is_byte in Hb. by rewrite lor_shiftl_low by lia.
Qed.

Lemma memcmp_eq s d n :
  length s = n -> length d = n -> memcmp s d n = 0 <-> s = d.
Proof.
  revert s d. induction n as [|n IH]; intros [|sc s] [|dc d] Hs Hd; try done.
  simpl in *. destruct (Z.eqb_spec (sc - dc) 0).
  - rewrite IH by lia. split; [intros ->; f_equal; lia | by intros [= ? ?]].
  - split; [done | intros [= ? ?]; lia].
Qed.

(** Decides a [memcmp]-based equality of two sixteen-byte identifiers. *)
Lemma UUCMP_0 u1 u2 k : UUCMP u1 u2 k = 0 <-> u1 = u2 /\ k = 0.
Proof. unfold UUCMP. destruct (Z.eqb_spec u1 u2); [tauto|]. destruct (u1 <? u2); lia. Qed.

Lemma shiftr8n x n : 0 <= n -> Z.shiftr x n = x / 2 ^ n.
Proof. apply Z.shiftr_div_pow2. Qed.

Lemma uuid_pack_unpack_id uu : uuid_wf uu -> uuid_pack (uuid_unpack uu) = uu.
Proof.
  intros Hwf. pose proof Hwf as [_ Hb]. apply uuid_wf_cases in Hwf.
  destruct Hwf as (a0&a1&a2&a3&a4&a5&a6&a7&a8&a9&b0&b1&b2&b3&b4&b5&->).
  repeat (apply Forall_cons in Hb as [? Hb]).
  unfold uuid_pack, uuid_unpack, byte_at, u16, u8, slice; cbn [nth time_low time_mid
    time_hi_and_version clock_seq node take drop app].
  rewrite !be_join by done. rewrite !shiftr8n by lia. unfold is_byte in *.
  repeat (f_equal; try (Z.div_mod_to_equations; lia)).
Qed.

Lemma uuid_compare_eq a b : uuid_wf a -> uuid_wf b -> uuid_compare a b = 0 <-> a = b.
Proof.
  intros Ha Hb. split; [|intros ->].
  - unfold uuid_compare. rewrite !UUCMP_0. intros (E1 & E2 & E3 & E4 & E5).
    apply memcmp_eq in E5;
      [|simpl; unfold slice; rewrite length_take, length_drop; destruct Ha, Hb; lia..].
    rewrite <- (uuid_pack_unpack_id a), <- (uuid_pack_unpack_id b) by done.
    by unfold uuid_pack; rewrite E1, E2, E3, E4, E5.
  - unfold uuid_compare. rewrite !UUCMP_0. repeat split.
    apply memcmp_eq; [|..|done]; simpl; unfold slice; rewrite length_take, length_drop;
      destruct Hb; lia.
Qed.

Lemma uuid_compare_refl a : uuid_wf a -> uuid_compare a a = 0.
Proof. intros. by apply uuid_compare_eq. Qed.

Lemma uuid_is_null_spec uu : uuid_wf uu -> uuid_is_null uu = true <-> uu = uuid_clear.
Proof.
  intros [Hl _]. unfold uuid_is_null, uuid_clear, zeros. rewrite take_ge by lia.
  split.
  - intros H. apply list_eq_Forall2, Forall2_same_length_lookup_2; [by rewrite length_replicate|].
    intros i x y Hx [-> _]%lookup_replicate. rewrite forallb_forall in H.
    apply Z.eqb_eq, H. apply list_elem_of_In. by eapply list_elem_of_lookup_2.
  - by intros ->.
Qed.

Lemma uuid_clear_wf : uuid_wf uuid_clear.
Proof. split; [done | apply bytes_zeros]. Qed.

Lemma uuid_copy_id uu : uuid_wf uu -> uuid_copy uu = uu.
Proof. intros [Hl _]. unfold uuid_copy. by rewrite take_ge by lia. Qed.

Lemma uuid_to_guid_invol uu : uuid_wf uu -> uuid_to_guid (uuid_to_guid uu) = uu.
Proof.
  intros Hwf. apply uuid_wf_cases in Hwf.
  by destruct Hwf as (a0&a1&a2&a3&a4&a5&a6&a7&a8&a9&b0&b1&b2&b3&b4&b5&->).
Qed.

Lemma uuid_to_guid_wf uu : uuid_wf uu -> uuid_wf (uuid_to_guid uu).
Proof.
  intros [Hl Hb]. split; [done|]. unfold uuid_to_guid. apply Forall_map, Forall_forall.
  intros i _. unfold byte_at. destruct (decide (i < length uu)%nat) as [Hi|Hi].
  - apply (Forall_nth is_byte 0 uu); done.
  - rewrite nth_overflow by lia. by unfold is_byte.
Qed.
#[export] Hint Resolve uuid_clear_wf uuid_to_guid_wf uuid_compare_refl : pb.

(** ** Properties *)

(** [uuid_compare], which compares the unpacked fields, orders identifiers
    exactly as [memcmp] over the sixteen raw bytes does, so a result of zero
    means equal identifiers. *)
Theorem uuid_compare_is_memcmp a b :
  uuid_wf a -> uuid_wf b ->
  Z.sgn (uuid_compare a b) = Z.sgn (memcmp a b 16) /\ (uuid_compare a b = 0 <-> a = b).
Proof.
  intros Ha Hb. split; [|by apply uuid_compare_eq].
  pose proof Ha as [_ Ba]. pose proof Hb as [_ Bb].
  apply uuid_wf_cases in Ha. apply uuid_wf_cases in Hb.
  destruct Ha as (a0&a1&a2&a3&a4&a5&a6&a7&a8&a9&x0&x1&x2&x3&x4&x5&->).
  destruct Hb as (b0&b1&b2&b3&b4&b5&b6&b7&b8&b9&y0&y1&y2&y3&y4&y5&->).
  repeat (apply Forall_cons in Ba as [? Ba]). repeat (apply Forall_cons in Bb as [? Bb]).
  unfold uuid_compare, uuid_unpack, byte_at, u16, slice, UUCMP;
    cbn [nth time_low time_mid time_hi_and_version clock_seq node take drop].
  rewrite !be_join by done. unfold is_byte in *. rewrite !Z.mod_small by lia.
  set (tail := memcmp [x0; x1; x2; x3; x4; x5] [y0; y1; y2; y3; y4; y5] 6).
  change (memcmp (a0 :: _) (b0 :: _) 16) with
    (let k x y k := if x - y =? 0 then k else x - y in
     k a0 b0 (k a1 b1 (k a2 b2 (k a3 b3 (k a4 b4 (k a5 b5 (k a6 b6 (k a7 b7
      (k a8 b8 (k a9 b9 tail)))))))))).
  cbv zeta. generalize tail. intros t.
  repeat (match goal with |- context [Z.eqb ?x ?y] => destruct (Z.eqb_spec x y) end; try lia);
    repeat (match goal with |- context [Z.ltb ?x ?y] => destruct (Z.ltb_spec x y) end; try lia).
Qed.

Lemma uuid_compare_is_memcmp_witness :
  let a := replicate 16 7 in let b := replicate 15 7 ++ [9] in
  Z.sgn (uuid_compare a b) = Z.sgn (memcmp a b 16) /\ (uuid_compare a b = 0 <-> a = b).
Proof.
  apply uuid_compare_is_memcmp; split; first [done | by repeat constructor].
Defined.
