(* ===== verification/UuidText.v ===== *)
(** * UUIDs as text

    The parts of the bundled C library the textual form of a UUID goes through
    ([src/lib/libc/snprintf.c], [src/lib/libc/strtoul.c],
    [include/libc/ctype.h]) and [src/lib/uuid/parse.c], [unparse.c].  A C
    string is the list of its characters; reading past them gives the
    terminating 0. *)

From S2P Require Import Prelude Errors Uuid.

(** ** [ctype.h] *)

Definition isspace (c : Z) : bool := (c =? 32) || ((9 <=? c) && (c <=? 13)).
Definition isascii (c : Z) : bool := Z.land c (Z.lnot 0x7f) =? 0.
Definition isupper (c : Z) : bool := (65 <=? c) && (c <=? 90).
Definition islower (c : Z) : bool := (97 <=? c) && (c <=? 122).
Definition isalpha (c : Z) : bool := isupper c || islower c.
Definition isdigit (c : Z) : bool := (48 <=? c) && (c <=? 57).
Definition isxdigit (c : Z) : bool :=
  isdigit c || ((65 <=? c) && (c <=? 70)) || ((97 <=? c) && (c <=? 102)).

(** ** [strtoul] *)

Section strtoul.
Context {arch : Arch}.

Definition ULONG_MAX : Z := 2 ^ ptr_bits - 1.

Fixpoint skip_spaces (s : list Z) : list Z :=
  match s with
  | c :: s' => if isspace c then skip_spaces s' else s
  | [] => []
  end.

(** The [for (acc = 0, any = 0;; c = *s++)] loop. *)
Fixpoint strtoul_loop (base : Z) (s : list Z) (acc any : Z) : Z * Z :=
  match s with
  | [] => (acc, any)
  | c :: s =>
      if negb (isascii c) then (acc, any) else
      let d := if isdigit c then Some (c - 48)
               else if isalpha c then Some (c - (if isupper c then 65 - 10 else 97 - 10))
               else None in
      match d with
      | None => (acc, any)
      | Some d =>
          if base <=? d then (acc, any)
          else if (any <? 0) || (ULONG_MAX / base <? acc) ||
                  ((acc =? ULONG_MAX / base) && (ULONG_MAX mod base <? d))
          then strtoul_loop base s acc (-1)
          else strtoul_loop base s (acc * base + d) 1
      end
  end.

Definition strtoul (nptr : list Z) (base : Z) : Z :=
  let s := skip_spaces nptr in
  let c := hd 0 s in
  let '(neg, s) := if c =? 45 then (true, tl s) else if c =? 43 then (false, tl s) else (false, s) in
  let '(base, s) :=
    if ((base =? 0) || (base =? 16)) && (hd 0 s =? 48) && ((nth 1 s 0 =? 120) || (nth 1 s 0 =? 88))
    then (16, drop 2 s) else (base, s) in
  let base := if base =? 0 then (if hd 0 s =? 48 then 8 else 10) else base in
  let '(acc, any) := strtoul_loop base s 0 0 in
  if any <? 0 then ULONG_MAX else if neg then usz (- acc) else acc.

End strtoul.

(** ** [snprintf] *)

Inductive fmt_arg := ArgInt (x : Z) | ArgStr (s : list Z).

(** The digits of a number, least significant first: the [do .. while] loops.
    20 digits are enough for 64 bits in base 10 and above. *)
Fixpoint num_digits (fuel : nat) (radix unum : Z) : list Z :=
  match fuel with
  | O => []
  | S fuel =>
      let rem := unum mod radix in
      (if rem <? 10 then 48 + rem else 97 + (rem - 10)) ::
      (if 0 <? unum / radix then num_digits fuel radix (unum / radix) else [])
  end.

(** What has been stored at [s] and [chars_printed]; a store that is guarded by
    [chars_printed < n] is done by [put_guarded]. *)
Definition put_guarded (n : Z) (st : list Z * Z) (c : Z) : list Z * Z :=
  let '(out, printed) := st in ((if printed <? n then out ++ [c] else out), printed + 1).

Definition string_print (n : Z) (st : list Z * Z) (str : list Z) : list Z * Z :=
  fold_left (put_guarded n) str st.

Definition unsigned_dec_print (n : Z) (st : list Z * Z) (unum : Z) : list Z * Z :=
  fold_left (put_guarded n) (rev (num_digits 20 10 unum)) st.

(** No guard: the digits and the padding are always stored. *)
Definition unsigned_num_print (st : list Z * Z) (unum radix padc padn : Z) : list Z * Z :=
  let '(out, printed) := st in
  let ds := num_digits 20 radix unum in
  let pad := replicate (Z.to_nat (padn - Z.of_nat (length ds))) padc in
  (out ++ pad ++ rev ds, printed + Z.of_nat (length (pad ++ rev ds))).

Inductive fmt_state := FmtText | FmtSpec (padc padn : Z) | FmtPad (padn : Z).

(** The [switch] on a specifier; [None]: the endless loop on one that is not
    supported or has no argument. *)
Definition fmt_spec (n : Z) (c padc padn : Z) (args : list fmt_arg) (st : list Z * Z)
    : option (fmt_state * list fmt_arg * (list Z * Z)) :=
  if (c =? 105) || (c =? 100) then
    match args with
    | ArgInt x :: args =>
        let num := s32 x in
        let '(st, unum) := if num <? 0 then (put_guarded n st 45, u32 (- num)) else (st, num) in
        Some (FmtText, args, unsigned_dec_print n st unum)
    | _ => None
    end
  else if c =? 115 then
    match args with
    | ArgStr str :: args => Some (FmtText, args, string_print n st str)
    | _ => None
    end
  else if c =? 117 then
    match args with
    | ArgInt x :: args => Some (FmtText, args, unsigned_dec_print n st (u32 x))
    | _ => None
    end
  else if c =? 120 then
    match args with
    | ArgInt x :: args => Some (FmtText, args, unsigned_num_print st (u32 x) 16 padc padn)
    | _ => None
    end
  else if c =? 48 then Some (FmtPad 0, args, st)
  else None.

(** [padc] keeps the value of an earlier specifier. *)
Fixpoint fmt_loop (n : Z) (fmt : list Z) (mode : fmt_state) (padc : Z) (args : list fmt_arg)
    (st : list Z * Z) : option (list Z * Z) :=
  match fmt with
  | [] => match mode with FmtText => Some st | _ => None end
  | c :: fmt =>
      match mode with
      | FmtText =>
          if c =? 37 then fmt_loop n fmt (FmtSpec padc 0) padc args st
          else fmt_loop n fmt FmtText padc args (put_guarded n st c)
      | FmtSpec pc pn =>
          match fmt_spec n c pc pn args st with
          | None => None
          | Some (mode, args, st) => fmt_loop n fmt mode (if c =? 48 then 48 else padc) args st
          end
      | FmtPad pn =>
          if (48 <=? c) && (c <=? 57) then fmt_loop n fmt (FmtPad (pn * 10 + (c - 48))) padc args st
          else
            match fmt_spec n c 48 pn args st with
            | None => None
            | Some (mode, args, st) => fmt_loop n fmt mode padc args st
            end
      end
  end.

(** The bytes stored at [s], terminator included, and the return value. *)
Definition snprintf (size : Z) (fmt : list Z) (args : list fmt_arg) : option (list Z * Z) :=
  let n := if size =? 0 then 0 else if size =? 1 then 0 else size - 1 in
  match fmt_loop n fmt FmtText 0 args ([], 0) with
  | None => None
  | Some (out, printed) =>
      Some ((if 0 <? n then out ++ [0] else if size =? 1 then splice 0 out [0] else out), printed)
  end.

(** ** [uuid_parse], [uuid_unparse] *)

(** "%08x-%04x-%04x-%02x%02x-%02x%02x%02x%02x%02x%02x" *)
Definition fmt_lower : list Z :=
  [37; 48; 56; 120; 45; 37; 48; 52; 120; 45; 37; 48; 52; 120; 45; 37; 48; 50; 120; 37; 48; 50; 120; 45;
   37; 48; 50; 120; 37; 48; 50; 120; 37; 48; 50; 120; 37; 48; 50; 120; 37; 48; 50; 120; 37; 48; 50; 120].

(** The same with "%08X" and so on. *)
Definition fmt_upper : list Z := map (fun c => if c =? 120 then 88 else c) fmt_lower.

Definition uuid_unparse_x (uu : uuid_t) (fmt : list Z) : option (list Z) :=
  let u := uuid_unpack uu in
  fst <$> snprintf 37 fmt
    [ArgInt (time_low u); ArgInt (time_mid u); ArgInt (time_hi_and_version u);
     ArgInt (Z.shiftr (clock_seq u) 8); ArgInt (Z.land (clock_seq u) 0xff);
     ArgInt (nth 0 (node u) 0); ArgInt (nth 1 (node u) 0); ArgInt (nth 2 (node u) 0);
     ArgInt (nth 3 (node u) 0); ArgInt (nth 4 (node u) 0); ArgInt (nth 5 (node u) 0)].

Definition uuid_unparse_lower (uu : uuid_t) : option (list Z) := uuid_unparse_x uu fmt_lower.
Definition uuid_unparse_upper (uu : uuid_t) : option (list Z) := uuid_unparse_x uu fmt_upper.
Definition uuid_unparse (uu : uuid_t) : option (list Z) := uuid_unparse_x uu fmt_lower.

(** The validation loop of [uuid_parse] for the characters up to the
    terminator. *)
Fixpoint uuid_text_ok (i : Z) (cp : list Z) : bool :=
  match cp with
  | [] => true
  | c :: cp =>
      if (i =? 8) || (i =? 13) || (i =? 18) || (i =? 23)
      then if c =? 45 then uuid_text_ok (i + 1) cp else false
      else if isxdigit c then uuid_text_ok (i + 1) cp else false
  end.

Definition uuid_parse `{Arch} (inp : list Z) : option uuid_t :=
  if negb (length inp =? 36)%nat then None
  else if negb (uuid_text_ok 0 inp) then None
  else
    Some (uuid_pack {|
      time_low := u32 (strtoul inp 16);
      time_mid := u16 (strtoul (drop 9 inp) 16);
      time_hi_and_version := u16 (strtoul (drop 14 inp) 16);
      clock_seq := u16 (strtoul (drop 19 inp) 16);
      node := map (fun i => u8 (strtoul (slice (24 + 2 * i) 2 inp) 16)) (seq 0 6) |}).

(** ** Lemmas *)

Definition hexd (d : Z) : Z := if d <? 10 then 48 + d else 97 + (d - 10).

(** [v] as [k] hexadecimal digits. *)
Fixpoint hexn (k : nat) (v : Z) : list Z :=
  match k with
  | O => []
  | S k => hexn k (v / 16) ++ [hexd (v mod 16)]
  end.

Lemma hexd_range d : 0 <= d < 16 -> 48 <= hexd d <= 57 \/ 97 <= hexd d <= 102.
Proof. unfold hexd. intros. destruct (Z.ltb_spec d 10); lia. Qed.

Lemma length_hexn k v : length (hexn k v) = k.
Proof. revert v. induction k as [|k IH]; intros v; simpl; [done|]. rewrite length_app, IH. simpl. lia. Qed.

Lemma hexn_zero k : hexn k 0 = replicate k 48.
Proof.
  induction k as [|k IH]; [done|]. cbn [hexn]. change (0 / 16) with 0. rewrite IH.
  change (hexd (0 mod 16)) with 48. by rewrite <- replicate_cons_app.
Qed.

Lemma div16_lt v k : 0 <= v < 16 ^ Z.of_nat (S k) -> 0 <= v / 16 < 16 ^ Z.of_nat k.
Proof.
  intros Hv. rewrite Nat2Z.inj_succ, Z.pow_succ_r in Hv by lia.
  split; [apply Z.div_pos; lia | apply Z.div_lt_upper_bound; lia].
Qed.

(** Zero-padded printing with room for all digits is fixed-width. *)
Lemma num_digits_hexn fuel k v :
  (1 <= k <= fuel)%nat -> 0 <= v < 16 ^ Z.of_nat k ->
  let ds := num_digits fuel 16 v in
  (length ds <= k)%nat /\ replicate (k - length ds) 48 ++ rev ds = hexn k v.
Proof.
  revert fuel v. induction k as [|k IH]; intros fuel v Hk Hv; [lia|].
  destruct fuel as [|fuel]; [lia|]. cbn [num_digits hexn]. fold (hexd (v mod 16)).
  pose proof (div16_lt v k Hv) as Hd. destruct (Z.ltb_spec 0 (v / 16)) as [Hp|Hz].
  - destruct k as [|k]; [simpl in Hd; lia|].
    destruct (IH fuel (v / 16) ltac:(lia) Hd) as [Hl E]. cbn [length]. split; [lia|].
    rewrite <- E. simpl rev. by rewrite app_assoc.
  - assert (v / 16 = 0) as -> by lia. cbn [length]. split; [lia|]. simpl. by rewrite Nat.sub_0_r, hexn_zero.
Qed.

Lemma unsigned_num_print_hexn out printed v k :
  (1 <= k <= 20)%nat -> 0 <= v < 16 ^ Z.of_nat k ->
  unsigned_num_print (out, printed) v 16 48 (Z.of_nat k) = (out ++ hexn k v, printed + Z.of_nat k).
Proof.
  intros Hk Hv. unfold unsigned_num_print. destruct (num_digits_hexn 20 k v Hk Hv) as [Hl E].
  replace (Z.to_nat (Z.of_nat k - Z.of_nat (length (num_digits 20 16 v))))
    with (k - length (num_digits 20 16 v))%nat by lia.
  rewrite E, length_hexn. done.
Qed.

Section strtoul_lemmas.
Context {arch : Arch}.

Lemma ULONG_MAX_ge : 2 ^ 32 - 1 <= ULONG_MAX.
Proof. unfold ULONG_MAX. pose proof ptr_bits_ge32. lia. Qed.

Lemma strtoul_loop_digit d rest acc any :
  0 <= d < 16 -> 0 <= acc -> 0 <= any -> acc * 16 + d <= ULONG_MAX ->
  strtoul_loop 16 (hexd d :: rest) acc any = strtoul_loop 16 rest (acc * 16 + d) 1.
Proof.
  intros Hd Ha Hany Hmax. cbn [strtoul_loop].
  assert (Hdig : isascii (hexd d) = true /\
    (if isdigit (hexd d) then Some (hexd d - 48)
     else if isalpha (hexd d) then Some (hexd d - (if isupper (hexd d) then 65 - 10 else 97 - 10))
     else None) = Some d).
  { assert (d ∈ seqZ 0 16) as Hin by (apply elem_of_seqZ; lia).
    repeat (apply elem_of_cons in Hin as [-> | Hin]; [done|]). by apply elem_of_nil in Hin. }
  destruct Hdig as [-> ->]. cbn [negb].
  destruct (Z.leb_spec 16 d); [lia|]. destruct (Z.ltb_spec any 0); [lia|].
  pose proof (Z.div_mod ULONG_MAX 16 ltac:(lia)). pose proof (Z.mod_pos_bound ULONG_MAX 16 ltac:(lia)).
  destruct (Z.ltb_spec (ULONG_MAX / 16) acc); [lia|].
  destruct (Z.eqb_spec acc (ULONG_MAX / 16)); [|done].
  destruct (Z.ltb_spec (ULONG_MAX mod 16) d); [lia|done].
Qed.

Lemma strtoul_loop_hexn k v rest acc any :
  0 <= v < 16 ^ Z.of_nat k -> 0 <= acc -> 0 <= any -> acc * 16 ^ Z.of_nat k + v <= ULONG_MAX ->
  strtoul_loop 16 (hexn k v ++ rest) acc any =
  strtoul_loop 16 rest (acc * 16 ^ Z.of_nat k + v) (if (k =? 0)%nat then any else 1).
Proof.
  revert v rest. induction k as [|k IH]; intros v rest Hv Ha Hany Hmax.
  { simpl in *. assert (v = 0) as -> by lia. f_equal. lia. }
  cbn [hexn]. rewrite <- app_assoc. pose proof (div16_lt v k Hv) as Hd.
  rewrite Nat2Z.inj_succ, Z.pow_succ_r in Hmax |- * by lia.
  pose proof (Z.div_mod v 16 ltac:(lia)) as Hdm. pose proof (Z.mod_pos_bound v 16 ltac:(lia)).
  assert (0 < 16 ^ Z.of_nat k) by (apply Z.pow_pos_nonneg; lia).
  rewrite IH by nia. cbn [app]. rewrite strtoul_loop_digit by (try (destruct (k =? 0)%nat; lia); nia).
  cbn [Nat.eqb]. f_equal. nia.
Qed.

Lemma hexn_cons k v : 0 <= v < 16 ^ Z.of_nat (S k) ->
  exists d, 0 <= d < 16 /\ hexn (S k) v = hexd d :: hexn k (v mod 16 ^ Z.of_nat k).
Proof.
  revert v. induction k as [|k IH]; intros v Hv.
  - exists (v mod 16). split; [apply Z.mod_pos_bound; lia | by rewrite Z.mod_1_r].
  - pose proof (div16_lt v (S k) Hv) as Hd. destruct (IH (v / 16) Hd) as (d & Hr & E).
    exists d. split; [done|]. remember (S k) as k1. cbn [hexn]. rewrite E. subst k1. cbn [hexn app].
    assert (0 < 16 ^ Z.of_nat k) by (apply Z.pow_pos_nonneg; lia).
    rewrite Nat2Z.inj_succ, Z.pow_succ_r by lia.
    pose proof (Z.rem_mul_r v 16 (16 ^ Z.of_nat k) ltac:(lia) ltac:(lia)) as ->.
    assert (v mod 16 + 16 * ((v / 16) mod 16 ^ Z.of_nat k) =
            v mod 16 + ((v / 16) mod 16 ^ Z.of_nat k) * 16) as -> by lia.
    rewrite Z_div_plus_full, Z_mod_plus_full, Z.mod_mod by lia.
    by rewrite (Z.div_small (v mod 16)) by (apply Z.mod_pos_bound; lia).
Qed.

(** What may follow a number. *)
Definition stops (rest : list Z) : Prop := rest = [] \/ exists r, rest = 45 :: r.

(** [strtoul] reads back a zero-padded number, up to a dash or the end. *)
Lemma strtoul_hexn k v rest :
  (2 <= k <= 8)%nat -> 0 <= v < 16 ^ Z.of_nat k -> stops rest ->
  strtoul (hexn k v ++ rest) 16 = v.
Proof.
  intros Hk Hv Hs. destruct k as [|[|k]]; [lia..|].
  destruct (hexn_cons _ _ Hv) as (d & Hd & E).
  set (v' := v mod 16 ^ Z.of_nat (S k)) in *.
  assert (0 <= v' < 16 ^ Z.of_nat (S k)) as Hv' by (apply Z.mod_pos_bound, Z.pow_pos_nonneg; lia).
  destruct (hexn_cons _ _ Hv') as (d' & Hd' & E').
  pose proof (hexd_range d Hd). pose proof (hexd_range d' Hd').
  assert (Hloop : strtoul_loop 16 (hexn (S (S k)) v ++ rest) 0 0 = (v, 1)).
  { rewrite strtoul_loop_hexn; [|lia..|].
    - replace (0 * _ + v) with v by lia. cbn [Nat.eqb]. by destruct Hs as [-> | [r ->]].
    - pose proof ULONG_MAX_ge. pose proof (Z.pow_le_mono_r 16 (Z.of_nat (S (S k))) 8 ltac:(lia) ltac:(lia)).
      lia. }
  unfold strtoul. rewrite E, E' in *. cbn [app skip_spaces].
  assert (isspace (hexd d) = false) as -> by (unfold isspace; lia). cbn [hd tl nth].
  destruct (Z.eqb_spec (hexd d) 45); [lia|]. destruct (Z.eqb_spec (hexd d) 43); [lia|].
  cbn [hd nth]. destruct (Z.eqb_spec (hexd d') 120); [lia|]. destruct (Z.eqb_spec (hexd d') 88); [lia|].
  rewrite andb_false_r. change (16 =? 0) with false. cbn iota. cbn [app] in Hloop. by rewrite Hloop.
Qed.

End strtoul_lemmas.

(** ** The printed form *)

Definition uuid_fields_ok (u : uuid) : Prop :=
  0 <= time_low u < 2 ^ 32 /\ 0 <= time_mid u < 2 ^ 16 /\ 0 <= time_hi_and_version u < 2 ^ 16 /\
  0 <= clock_seq u < 2 ^ 16 /\ length (node u) = 6%nat /\ bytes (node u).

Lemma uuid_unpack_fields_ok uu : uuid_wf uu -> uuid_fields_ok (uuid_unpack uu).
Proof.
  intros Hwf. pose proof Hwf as [_ Hb]. apply uuid_wf_cases in Hwf.
  destruct Hwf as (a0&a1&a2&a3&a4&a5&a6&a7&a8&a9&b0&b1&b2&b3&b4&b5&->).
  repeat (apply Forall_cons in Hb as [? Hb]).
  unfold uuid_fields_ok, uuid_unpack, byte_at, u16, slice; cbn [nth time_low time_mid
    time_hi_and_version clock_seq node take drop app length].
  rewrite !be_join by done. unfold is_byte in *.
  split_and!; try (apply Z.mod_pos_bound; lia); try lia.
  repeat (apply Forall_cons_2; [done|]). apply Forall_nil_2.
Qed.

(** The canonical 8-4-4-4-12 form. *)
Definition uuid_text (u : uuid) : list Z :=
  hexn 8 (time_low u) ++ 45 :: hexn 4 (time_mid u) ++ 45 :: hexn 4 (time_hi_and_version u) ++
  45 :: hexn 2 (clock_seq u / 256) ++ hexn 2 (clock_seq u mod 256) ++
  45 :: concat (map (hexn 2) (node u)).

Lemma fmt_loop_hex n w fmt padc x args out printed :
  (w = 2 \/ w = 4 \/ w = 8)%nat -> 0 <= x < 16 ^ Z.of_nat w ->
  fmt_loop n (37 :: 48 :: 48 + Z.of_nat w :: 120 :: fmt) FmtText padc (ArgInt x :: args) (out, printed) =
  fmt_loop n fmt FmtText 48 args (out ++ hexn w x, printed + Z.of_nat w).
Proof.
  intros Hw Hx.
  assert (u32 x = x) as Hu.
  { unfold u32. apply Z.mod_small. split; [lia|].
    pose proof (Z.pow_le_mono_r 16 (Z.of_nat w) 8 ltac:(lia) ltac:(lia)). lia. }
  pose proof (unsigned_num_print_hexn out printed x w) as HP.
  rewrite <- HP by lia. clear HP.
  destruct Hw as [-> | [-> | ->]]; cbn -[unsigned_num_print u32]; by rewrite Hu.
Qed.

Lemma fmt_loop_dash n fmt args out printed : printed < n ->
  fmt_loop n (45 :: fmt) FmtText 48 args (out, printed) =
  fmt_loop n fmt FmtText 48 args (out ++ [45], printed + 1).
Proof. intros. cbn. destruct (Z.ltb_spec printed n); [done|lia]. Qed.

Lemma uuid_unparse_text uu : uuid_wf uu ->
  uuid_unparse_lower uu = Some (uuid_text (uuid_unpack uu) ++ [0]).
Proof.
  intros Hwf. destruct (uuid_unpack_fields_ok uu Hwf) as (? & ? & ? & ? & Hl & Hb).
  unfold uuid_unparse_lower, uuid_unparse_x, snprintf, uuid_text.
  set (u := uuid_unpack uu) in *. change (if 37 =? 0 then _ else _) with 36.
  change (Z.land (clock_seq u) 0xff) with (Z.land (clock_seq u) (Z.ones 8)).
  rewrite Z.land_ones, Z.shiftr_div_pow2 by lia. change (2 ^ 8) with 256.
  destruct (node u) as [|b0 [|b1 [|b2 [|b3 [|b4 [|b5 [|]]]]]]]; try done.
  repeat (apply Forall_cons in Hb as [? Hb]). unfold is_byte in *. cbn [nth map concat].
  unfold fmt_lower.
  assert (0 <= clock_seq u / 256 < 256) by (split; [apply Z.div_pos; lia | apply Z.div_lt_upper_bound; lia]).
  assert (0 <= clock_seq u mod 256 < 256) by (apply Z.mod_pos_bound; lia).
  rewrite (fmt_loop_hex 36 8), fmt_loop_dash, (fmt_loop_hex 36 4), fmt_loop_dash,
    (fmt_loop_hex 36 4), fmt_loop_dash by lia.
  do 2 rewrite (fmt_loop_hex 36 2) by lia. rewrite fmt_loop_dash by lia.
  do 6 rewrite (fmt_loop_hex 36 2) by lia.
  cbn [fmt_loop]. change (0 <? 36) with true. cbn [fmap option_fmap option_map fst].
  rewrite app_nil_r, <- !app_assoc. cbn [app]. by rewrite <- !app_assoc.
Qed.

Lemma uuid_text_ok_app i l1 l2 :
  uuid_text_ok i (l1 ++ l2) = uuid_text_ok i l1 && uuid_text_ok (i + Z.of_nat (length l1)) l2.
Proof.
  revert i. induction l1 as [|c l1 IH]; intros i; [simpl; by rewrite Z.add_0_r|].
  cbn [app uuid_text_ok length]. rewrite IH.
  replace (i + 1 + Z.of_nat (length l1)) with (i + Z.of_nat (S (length l1))) by lia.
  by repeat case_match.
Qed.

(** No separator position falls into a number printed at [i]. *)
Definition clear_of (i : Z) (k : nat) : Prop :=
  let out j := i + Z.of_nat k <= j \/ j < i in out 8 /\ out 13 /\ out 18 /\ out 23.

Lemma isxdigit_hexd d : 0 <= d < 16 -> isxdigit (hexd d) = true.
Proof. intros Hd. destruct (hexd_range d Hd); unfold isxdigit, isdigit; lia. Qed.

Lemma uuid_text_ok_hexn k v i : clear_of i k -> uuid_text_ok i (hexn k v) = true.
Proof.
  revert v. induction k as [|k IH]; intros v Hc; [done|].
  cbn [hexn]. unfold clear_of in *.
  rewrite uuid_text_ok_app, IH, length_hexn by lia.
  cbn [andb uuid_text_ok].
  set (j := i + Z.of_nat k) in *.
  assert ((j =? 8) || (j =? 13) || (j =? 18) || (j =? 23) = false) as -> by lia.
  by rewrite isxdigit_hexd by (apply Z.mod_pos_bound; lia).
Qed.

Lemma uuid_text_valid u : uuid_fields_ok u ->
  length (uuid_text u) = 36%nat /\ uuid_text_ok 0 (uuid_text u) = true.
Proof.
  intros (_ & _ & _ & _ & Hl & _). unfold uuid_text.
  destruct (node u) as [|b0 [|b1 [|b2 [|b3 [|b4 [|b5 [|]]]]]]]; try done. cbn [map concat].
  split; [repeat (rewrite length_app || rewrite length_hexn || cbn [length]); done|].
  repeat (rewrite uuid_text_ok_app, uuid_text_ok_hexn, length_hexn by (unfold clear_of; lia);
          cbn [andb uuid_text_ok Z.of_nat Z.add Z.eqb Z.mul Pos.add Pos.eqb orb]).
  done.
Qed.

Lemma drop_hexn k v n rest : drop (k + n) (hexn k v ++ rest) = drop n rest.
Proof. rewrite <- (length_hexn k v) at 1. apply drop_app_add. Qed.

Lemma take_hexn k v rest : take k (hexn k v ++ rest) = hexn k v.
Proof. apply take_app_length'. by rewrite length_hexn. Qed.

(** Two bytes side by side are one 16-bit number. *)
Lemma hexn_2_2 v rest : 0 <= v -> hexn 2 (v / 256) ++ hexn 2 (v mod 256) ++ rest = hexn 4 v ++ rest.
Proof.
  intros Hv. rewrite app_assoc. f_equal. cbn [hexn app].
  rewrite (Z.div_div v 16 16) by lia. change (16 * 16) with 256.
  assert ((v mod 256 / 16) mod 16 = (v / 16) mod 16) as -> by (Z.div_mod_to_equations; lia).
  assert (v mod 256 mod 16 = v mod 16) as -> by (Z.div_mod_to_equations; lia).
  done.
Qed.

Section roundtrip.
Context {arch : Arch}.

Lemma uuid_parse_text u : uuid_fields_ok u -> uuid_parse (uuid_text u) = Some (uuid_pack u).
Proof.
  intros Hok. destruct (uuid_text_valid u Hok) as [Hlen Hv].
  destruct Hok as (? & ? & ? & ? & Hl & Hb).
  unfold uuid_parse. rewrite Hlen, Hv. cbn [Nat.eqb negb]. f_equal. f_equal.
  destruct u as [lo mid hi cseq nd]. unfold uuid_text. cbn [time_low time_mid time_hi_and_version
    clock_seq node] in *.
  destruct nd as [|b0 [|b1 [|b2 [|b3 [|b4 [|b5 [|]]]]]]]; try done. cbn [map concat].
  rewrite hexn_2_2 by lia. repeat (apply Forall_cons in Hb as [? Hb]). unfold is_byte in *.
  assert (Hf : forall k v rest, (k = 4 \/ k = 8)%nat -> 0 <= v < 16 ^ Z.of_nat k ->
            strtoul (hexn k v ++ 45 :: rest) 16 = v)
    by (intros; apply strtoul_hexn; [lia..|right; eauto]).
  assert (Hb2 : forall v rest, 0 <= v < 256 -> u8 (strtoul (take 2 (hexn 2 v ++ rest)) 16) = v).
  { intros v rest ?. rewrite take_hexn, <- (app_nil_r (hexn 2 v)), strtoul_hexn by (lia || by left).
    apply Z.mod_small. lia. }
  f_equal.
  - rewrite Hf by lia. apply Z.mod_small. lia.
  - change 9%nat with (8 + S 0)%nat. rewrite !drop_hexn, skipn_cons, drop_0, Hf by lia.
    apply Z.mod_small. lia.
  - change 14%nat with (8 + S (4 + S 0))%nat.
    do 2 rewrite drop_hexn, skipn_cons. rewrite drop_0, Hf by lia. apply Z.mod_small. lia.
  - change 19%nat with (8 + S (4 + S (4 + S 0)))%nat.
    do 3 rewrite drop_hexn, skipn_cons. rewrite drop_0, Hf by lia. apply Z.mod_small. lia.
  - unfold slice. cbn [seq map Nat.mul Nat.add].
    change 34%nat with (8 + S (4 + S (4 + S (4 + S (2 + (2 + (2 + (2 + (2 + 0)))))))))%nat.
    change 32%nat with (8 + S (4 + S (4 + S (4 + S (2 + (2 + (2 + (2 + 0))))))))%nat.
    change 30%nat with (8 + S (4 + S (4 + S (4 + S (2 + (2 + (2 + 0)))))))%nat.
    change 28%nat with (8 + S (4 + S (4 + S (4 + S (2 + (2 + 0))))))%nat.
    change 26%nat with (8 + S (4 + S (4 + S (4 + S (2 + 0)))))%nat.
    change 24%nat with (8 + S (4 + S (4 + S (4 + S 0))))%nat.
    repeat (rewrite drop_hexn || rewrite skipn_cons || rewrite drop_0). rewrite !Hb2 by lia.
    done.
Qed.

(** Parsing a printed UUID gives it back: [uuid_unparse_lower] of every
    16-byte UUID terminates, stores 36 characters and their terminator (so the
    37-byte buffer of its callers is exactly enough), and [uuid_parse] accepts
    that text and returns the same 16 bytes, on every supported word size. *)
Theorem uuid_parse_unparse (uu : uuid_t) : uuid_wf uu ->
  exists text, uuid_unparse_lower uu = Some (text ++ [0]) /\ length text = 36%nat /\
    uuid_parse text = Some uu.
Proof.
  intros Hwf. exists (uuid_text (uuid_unpack uu)).
  pose proof (uuid_unpack_fields_ok uu Hwf) as Hok. split_and!.
  - by apply uuid_unparse_text.
  - by apply uuid_text_valid.
  - rewrite uuid_parse_text by done. by rewrite uuid_pack_unpack_id.
Qed.

Lemma fmt_upper_diverges args out : fmt_loop 36 fmt_upper FmtText 0 args out = None.
Proof. by destruct args as [|[]]. Qed.

(** The upper-case printer never returns: [unparse.c] formats with
    [%08X], a specifier the bundled [snprintf] does not know and answers with
    an endless loop, whatever the UUID. *)
Theorem uuid_unparse_upper_hangs (uu : uuid_t) : uuid_unparse_upper uu = None.
Proof.
  unfold uuid_unparse_upper, uuid_unparse_x, snprintf. change (if 37 =? 0 then _ else _) with 36.
  by rewrite fmt_upper_diverges.
Qed.

End roundtrip.

Lemma uuid_parse_unparse_witness :
  let uu := [0x2a; 0xf7; 0x55; 0xd8; 0x8d; 0xe5; 0x45; 0xd5; 0xa8; 0x62; 0x01; 0x4c; 0xfa; 0x73; 0x5c; 0xe0] in
  uuid_wf uu /\
  exists text, uuid_unparse_lower uu = Some (text ++ [0]) /\ length text = 36%nat /\
    @uuid_parse armv8a text = Some uu.
Proof.
  intros uu. assert (uuid_wf uu) as H by (apply (bool_decide_eq_true_1 (uuid_wf uu)); vm_compute; reflexivity).
  split; [exact H | exact (@uuid_parse_unparse armv8a uu H)].
Defined.
