(* ===== verification/Libc.v ===== *)
(** * The C library: memory, strings, formatted output

    [src/lib/libc]: [memcpy] ([string.c]), [memmove], [memset], [memchr], the
    string functions and [printf].  Buffers are addresses in memory, so that
    overlaps are as in the code; characters are unsigned, as on ARM. *)

From S2P Require Import Prelude Ram UuidText.

(** ** Memory *)

(** [while (len--) *d++ = *s++] and [while (d != end) *--d = *--s] *)
Fixpoint copy_up (n : nat) (d s : Z) (r : ram_t) : ram_t :=
  match n with O => r | S n => copy_up n (d + 1) (s + 1) (ram_write d [r s] r) end.
Fixpoint copy_down (n : nat) (d s : Z) (r : ram_t) : ram_t :=
  match n with O => r | S n => copy_down n (d - 1) (s - 1) (ram_write (d - 1) [r (s - 1)] r) end.

Definition memcpy (dest src sz : Z) (r : ram_t) : ram_t := copy_up (Z.to_nat sz) dest src r.

Definition memmove `{Arch} (dst src len : Z) (r : ram_t) : ram_t :=
  if dst =? src then r else
  if len <=? usz (usz dst - usz src) then memcpy dst src len r else
  copy_down (Z.to_nat len) (dst + len) (src + len) r.

Fixpoint set_up (n : nat) (ptr val : Z) (r : ram_t) : ram_t :=
  match n with O => r | S n => set_up n (ptr + 1) val (ram_write ptr [u8 val] r) end.
Definition memset (dst val count : Z) (r : ram_t) : ram_t := set_up (Z.to_nat count) dst val r.

(** The address found, or NULL.  [c] is compared as an [int]. *)
Fixpoint chr_loop (n : nat) (s c : Z) (r : ram_t) : option Z :=
  match n with O => None | S n => if r s =? c then Some s else chr_loop n (s + 1) c r end.
Definition memchr (src c len : Z) (r : ram_t) : option Z := chr_loop (Z.to_nat len) src c r.

(** ** Strings

    [fuel] is how many characters are looked at; [None]: no terminator up to
    there. *)

Fixpoint strlen_loop (fuel : nat) (s cursor : Z) (r : ram_t) : option Z :=
  match fuel with
  | O => None
  | S fuel => if r cursor =? 0 then Some (cursor - s) else strlen_loop fuel s (cursor + 1) r
  end.
Definition strlen (fuel : nat) (s : Z) (r : ram_t) : option Z := strlen_loop fuel s s r.

Fixpoint strcmp (fuel : nat) (s1 s2 : Z) (r : ram_t) : option Z :=
  match fuel with
  | O => None
  | S fuel =>
      if r s1 =? r s2 then if r s1 =? 0 then Some 0 else strcmp fuel (s1 + 1) (s2 + 1) r
      else Some (r s1 - r s2)
  end.

(** [do .. while (--n != 0)] *)
Fixpoint strncmp_loop (n : nat) (s1 s2 : Z) (r : ram_t) : Z :=
  match n with
  | O => 0
  | S n => if negb (r s1 =? r s2) then r s1 - r s2 else if r s1 =? 0 then 0 else strncmp_loop n (s1 + 1) (s2 + 1) r
  end.
Definition strncmp (s1 s2 n : Z) (r : ram_t) : Z := if n =? 0 then 0 else strncmp_loop (Z.to_nat n) s1 s2 r.

(** The inner option: the address found, or NULL. *)
Fixpoint strchr (fuel : nat) (p ch : Z) (r : ram_t) : option (option Z) :=
  match fuel with
  | O => None
  | S fuel => if r p =? u8 ch then Some (Some p) else if r p =? 0 then Some None else strchr fuel (p + 1) ch r
  end.

(** The loop of [strspn] and [strcspn]; [found]: go on while the character is
    in the set. *)
Fixpoint span_loop (fuel : nat) (found : bool) (i s set : Z) (r : ram_t) : option Z :=
  match fuel with
  | O => None
  | S fuel' =>
      if r (s + i) =? 0 then Some i else
      match strchr fuel set (r (s + i)) r with
      | None => None
      | Some p => if Bool.eqb (bool_decide (p <> None)) found then span_loop fuel' found (i + 1) s set r else Some i
      end
  end.
Definition strcspn (fuel : nat) (s reject : Z) (r : ram_t) : option Z := span_loop fuel false 0 s reject r.
Definition strspn (fuel : nat) (s accept : Z) (r : ram_t) : option Z := span_loop fuel true 0 s accept r.

Fixpoint strcpy (fuel : nat) (dest src : Z) (r : ram_t) : option ram_t :=
  match fuel with
  | O => None
  | S fuel => let r' := ram_write dest [r src] r in if r src =? 0 then Some r' else strcpy fuel (dest + 1) (src + 1) r'
  end.

(** *** Memory *)

Lemma copy_up_ok n d s r : (d <= s \/ s + Z.of_nat n <= d) -> forall a, copy_up n d s r a = ram_write d (ram_read r s n) r a.
Proof.
  revert d s r. induction n as [|n IH]; intros d s r H a; cbn [copy_up]; [by rewrite ram_write_out by (cbn; lia)|].
  rewrite IH by lia. change (S n) with (1 + n)%nat. rewrite ram_read_app. change (ram_read r s 1) with [r (s + Z.of_nat 0)].
  replace (s + Z.of_nat 0) with s by lia. rewrite <- ram_write_app. cbn [length]. change (Z.of_nat 1) with 1.
  f_equal. apply ram_read_write_out. cbn. lia.
Qed.

Lemma ram_write_snoc a l c r x : ram_write a (l ++ [c]) r x = ram_write a l (ram_write (a + Z.of_nat (length l)) [c] r) x.
Proof.
  rewrite <- ram_write_app. unfold ram_write. cbn [length].
  destruct (Z.leb_spec a x), (Z.leb_spec (a + Z.of_nat (length l)) x), (Z.ltb_spec x (a + Z.of_nat (length l)));
    cbn [andb]; try lia; try done; by destruct (_ <? _).
Qed.

Lemma copy_down_ok n d s r : s <= d -> forall a, copy_down n (d + Z.of_nat n) (s + Z.of_nat n) r a = ram_write d (ram_read r s n) r a.
Proof.
  revert r. induction n as [|n IH]; intros r H a; cbn [copy_down]; [by rewrite ram_write_out by (cbn; lia)|].
  replace (d + Z.of_nat (S n) - 1) with (d + Z.of_nat n) by lia. replace (s + Z.of_nat (S n) - 1) with (s + Z.of_nat n) by lia.
  rewrite IH by done. rewrite <- Nat.add_1_r, ram_read_app. change (ram_read r (s + Z.of_nat n) 1) with [r (s + Z.of_nat n + Z.of_nat 0)].
  rewrite Z.add_0_r, ram_write_snoc, length_ram_read. f_equal. apply ram_read_write_out. lia.
Qed.

(** Copying between overlapping buffers: whatever the two addresses,
    [memmove] leaves at the destination what was at the source before, and
    changes nothing else. *)
Theorem memmove_ok `{Arch} dst src len r : 0 <= dst -> 0 <= src -> 0 <= len -> dst + len <= 2 ^ ptr_bits -> src + len <= 2 ^ ptr_bits -> 0 < len ->
  forall a, memmove dst src len r a = ram_write dst (ram_read r src (Z.to_nat len)) r a.
Proof.
  intros Hd Hs Hl Hde Hse Hp a. unfold memmove, memcpy. rewrite !(usz_small dst), !(usz_small src) by lia.
  destruct (Z.eqb_spec dst src) as [-> |Hne].
  { unfold ram_write. rewrite length_ram_read, Z2Nat.id by lia. destruct ((src <=? a) && (a <? src + len)) eqn:E; [|done]. zbool.
    unfold ram_read. rewrite nth_indep with (d' := r (src + Z.of_nat 0)) by (rewrite length_map, length_seq; lia).
    rewrite map_nth with (f := fun i => r (src + Z.of_nat i)) (d := 0%nat), seq_nth by lia. f_equal. lia. }
  destruct (Z.leb_spec len (usz (dst - src))) as [Hle|Hlt].
  - apply copy_up_ok. rewrite Z2Nat.id by lia. destruct (Z.le_gt_cases dst src); [by left|right]. rewrite usz_small in Hle by lia. lia.
  - rewrite <- (Z2Nat.id len) at 2 3 by lia. apply copy_down_ok. destruct (Z.le_gt_cases src dst); [done|exfalso].
    unfold usz in Hlt. rewrite <- (Z.mod_add _ 1), Z.mod_small in Hlt by lia. lia.
Qed.

Lemma memset_ok dst val count r : 0 <= count -> forall a, memset dst val count r a = ram_write dst (replicate (Z.to_nat count) (u8 val)) r a.
Proof.
  intros _. unfold memset. generalize (Z.to_nat count) as n. intros n. revert dst r. induction n as [|n IH]; intros dst r a; cbn [set_up replicate].
  - by rewrite ram_write_out by (cbn; lia).
  - rewrite IH. change (u8 val :: replicate n (u8 val)) with ([u8 val] ++ replicate n (u8 val)). by rewrite <- ram_write_app.
Qed.

(** *** Strings *)

(** The string [l] lies at [a]. *)
Definition cstr (r : ram_t) (a : Z) (l : list Z) : Prop := ram_read r a (length l) = l /\ r (a + Z.of_nat (length l)) = 0 /\ Forall (fun c => 0 < c < 256) l.

Lemma cstr_nil r a : cstr r a [] <-> r a = 0.
Proof. unfold cstr. cbn. rewrite Z.add_0_r. intuition. Qed.
Lemma cstr_cons r a c l : cstr r a (c :: l) <-> r a = c /\ 0 < c < 256 /\ cstr r (a + 1) l.
Proof.
  unfold cstr. rewrite Forall_cons. change (length (c :: l)) with (1 + length l)%nat. rewrite ram_read_app.
  change (ram_read r a 1) with [r (a + Z.of_nat 0)]. rewrite Z.add_0_r. change (Z.of_nat 1) with 1.
  replace (a + Z.of_nat (1 + length l)) with (a + 1 + Z.of_nat (length l)) by lia. cbn [app]. split.
  - intros (H1 & H2 & H3 & H4). by injection H1 as -> ->.
  - intros (-> & H2 & -> & H4 & H5). done.
Qed.

Lemma strlen_loop_ok fuel s l cur r : cstr r cur l -> (length l < fuel)%nat -> strlen_loop fuel s cur r = Some (cur + Z.of_nat (length l) - s).
Proof.
  revert cur fuel. induction l as [|c l IH]; intros cur [|fuel] Hc Hf; cbn [length] in Hf; try lia; cbn [strlen_loop].
  - apply cstr_nil in Hc as ->. cbn. f_equal. lia.
  - apply cstr_cons in Hc as (-> & Hc0 & Hc). rewrite (proj2 (Z.eqb_neq _ _)) by lia. rewrite IH by (done || lia). f_equal. cbn [length]. lia.
Qed.

Lemma strlen_ok fuel s l r : cstr r s l -> (length l < fuel)%nat -> strlen fuel s r = Some (Z.of_nat (length l)).
Proof. intros Hc Hf. unfold strlen. rewrite (strlen_loop_ok _ _ l) by done. f_equal. lia. Qed.

(** The first difference, with the end of a string as 0. *)
Fixpoint str_diff (l k : list Z) : Z :=
  match l, k with
  | [], [] => 0
  | [], c :: _ => - c
  | c :: _, [] => c
  | c :: l, d :: k => if c =? d then str_diff l k else c - d
  end.

Lemma str_diff_eq l k : Forall (fun c => 0 < c < 256) l -> Forall (fun c => 0 < c < 256) k -> str_diff l k = 0 <-> l = k.
Proof.
  intros Hl. revert k. induction Hl as [|c l Hc Hl IH]; intros [|d k] Hk; cbn; try apply Forall_cons in Hk as [Hd Hk]; try done.
  - split; [lia|done].
  - split; [lia|done].
  - destruct (Z.eqb_spec c d) as [-> |]; [rewrite IH by done; split; [by intros ->|by intros [=]]|split; [lia|by intros [=]]].
Qed.

(** Comparing strings: on any two strings [strcmp] ends within the length
    of the shorter one and returns the difference at the first position where
    they differ, so zero exactly for equal strings. *)
Theorem strcmp_ok fuel s1 s2 l1 l2 r : cstr r s1 l1 -> cstr r s2 l2 -> (Nat.min (length l1) (length l2) < fuel)%nat ->
  strcmp fuel s1 s2 r = Some (str_diff l1 l2) /\ (str_diff l1 l2 = 0 <-> l1 = l2).
Proof.
  intros H1 H2 Hf. split; [|by apply str_diff_eq; [apply H1|apply H2]].
  revert s1 s2 l2 fuel H1 H2 Hf. induction l1 as [|c l1 IH]; intros s1 s2 [|d l2] [|fuel] H1 H2 Hf; cbn [length] in Hf; try lia; cbn [strcmp str_diff].
  - apply cstr_nil in H1 as ->, H2 as ->. done.
  - apply cstr_nil in H1 as ->. apply cstr_cons in H2 as (-> & Hd & _). rewrite (proj2 (Z.eqb_neq _ _)) by lia. done.
  - apply cstr_nil in H2 as ->. apply cstr_cons in H1 as (-> & Hd & _). rewrite (proj2 (Z.eqb_neq _ _)) by lia. f_equal. lia.
  - apply cstr_cons in H1 as (-> & Hc & H1), H2 as (-> & Hd & H2). destruct (Z.eqb_spec c d) as [-> |]; [|done].
    rewrite (proj2 (Z.eqb_neq _ _)) by lia. apply IH; [done..|lia].
Qed.

(** The first position of a character. *)
Lemma strchr_ok fuel p l ch r : cstr r p l -> (length l < fuel)%nat -> 0 < ch < 256 ->
  strchr fuel p ch r = Some ((fun i => p + Z.of_nat i) ∘ fst <$> list_find (fun c => c = ch) l).
Proof.
  revert p fuel. induction l as [|c l IH]; intros p [|fuel] Hc Hf Hch; cbn [length] in Hf; try lia; cbn [strchr list_find];
    assert (Eu : u8 ch = ch) by (apply Z.mod_small; lia); rewrite Eu.
  - apply cstr_nil in Hc as ->. by rewrite (proj2 (Z.eqb_neq _ _)) by lia.
  - apply cstr_cons in Hc as (-> & Hc0 & Hc). destruct (decide (c = ch)) as [-> |Hne]; [rewrite Z.eqb_refl; cbn; do 2 f_equal; lia|].
    rewrite !(proj2 (Z.eqb_neq _ _)) by lia. rewrite IH by (done || lia). destruct (list_find _ l) as [[i x]|]; cbn; [|done]. do 2 f_equal. lia.
Qed.

(** The length of the longest prefix with [f]. *)
Fixpoint prefix_len (f : Z -> bool) (l : list Z) : Z :=
  match l with c :: l => if f c then 1 + prefix_len f l else 0 | [] => 0 end.

Lemma prefix_len_ext f g l : (forall c, f c = g c) -> prefix_len f l = prefix_len g l.
Proof. intros H. induction l as [|c l IH]; cbn; [done|]. by rewrite H, IH. Qed.

Lemma span_loop_ok fuel found i s set l k r : cstr r (s + i) l -> cstr r set k -> (length l + length k < fuel)%nat ->
  span_loop fuel found i s set r = Some (i + prefix_len (fun c => Bool.eqb (bool_decide (c ∈ k)) found) l).
Proof.
  revert i fuel. induction l as [|c l IH]; intros i [|fuel] Hc Hk Hf; cbn [length] in Hf; try lia; cbn [span_loop prefix_len].
  - apply cstr_nil in Hc as ->. cbn. f_equal. lia.
  - apply cstr_cons in Hc as (-> & Hc0 & Hc). rewrite (proj2 (Z.eqb_neq _ _)) by lia. rewrite (strchr_ok _ _ k) by (done || lia).
    assert (bool_decide (((fun i => set + Z.of_nat i) ∘ fst <$> list_find (fun c' => c' = c) k) <> None) = bool_decide (c ∈ k)) as ->.
    { apply bool_decide_ext. destruct (list_find _ k) as [[j x]|] eqn:E; cbn.
      - split; [|done]. intros _. apply list_find_Some in E as (E & -> & _). by eapply list_elem_of_lookup_2.
      - split; [done|]. intros Hin _. apply list_find_None in E. rewrite Forall_forall in E. by apply (E c). }
    destruct (Bool.eqb _ found); [|f_equal; lia]. rewrite IH by (rewrite ?Z.add_assoc; done || lia). f_equal. lia.
Qed.

(** Spans: [strspn] and [strcspn] return the length of the longest prefix
    made of, or free of, the characters of the second string. *)
Theorem strspn_ok fuel s set l k r : cstr r s l -> cstr r set k -> (length l + length k < fuel)%nat ->
  strspn fuel s set r = Some (prefix_len (fun c => bool_decide (c ∈ k)) l) /\
  strcspn fuel s set r = Some (prefix_len (fun c => negb (bool_decide (c ∈ k))) l).
Proof.
  intros Hs Hk Hf. unfold strspn, strcspn. rewrite <- (Z.add_0_r s) in Hs. rewrite !(span_loop_ok _ _ _ _ _ l k) by done.
  rewrite !Z.add_0_l. split; f_equal; apply prefix_len_ext; intros c; by destruct (bool_decide _).
Qed.

Lemma strcpy_ok fuel dest src l r : cstr r src l -> (length l < fuel)%nat -> dest + Z.of_nat (length l) < src \/ src + Z.of_nat (length l) < dest ->
  exists r', strcpy fuel dest src r = Some r' /\ forall a, r' a = ram_write dest (l ++ [0]) r a.
Proof.
  revert dest src r fuel. induction l as [|c l IH]; intros dest src r [|fuel] Hc Hf Ho; cbn [length] in Hf, Ho; try lia; cbn [strcpy].
  - apply cstr_nil in Hc as ->. cbn. by eexists.
  - apply cstr_cons in Hc as (-> & Hc0 & Hc). rewrite (proj2 (Z.eqb_neq _ _)) by lia.
    destruct (IH (dest + 1) (src + 1) (ram_write dest [c] r) fuel) as (r' & E & Hr'); [|lia..|].
    + destruct Hc as (H1 & H2 & H3). split_and!; [|by rewrite ram_write_out by (cbn; lia)|done].
      rewrite ram_read_write_out by (cbn; lia). done.
    + exists r'. split; [done|]. intros a. rewrite Hr'. change ((c :: l) ++ [0]) with ([c] ++ (l ++ [0])). by rewrite <- (ram_write_app r dest [c]).
Qed.

(** ** [printf] *)

Module Printf.
Section printf.
Context {arch : Arch}.

(** What has been written to the console so far. *)
Abbreviation P := (M (list Z)).
Inductive arg := ArgNum (x : Z) | ArgString (s : list Z).

Definition putchar (c : Z) : P unit := modify (fun out => out ++ [c]).
Fixpoint puts (l : list Z) : P Z := match l with [] => ret 0 | c :: l => putchar c ;;; n <- puts l ;; ret (n + 1) end%c.

Definition string_print (str : list Z) : P Z := puts str.
Definition unsigned_num_print (unum radix padc padn : Z) : P Z :=
  let ds := num_digits 20 radix unum in
  (pad <- puts (if 0 <? padn then replicate (Z.to_nat (padn - Z.of_nat (length ds))) padc else []) ;;
   n <- puts (rev ds) ;;
   ret (pad + n))%c.

(** [get_num_va_args], [get_unum_va_args] *)
Definition num_arg (l_count x : Z) : Z := if 1 <? l_count then s64 x else if l_count =? 1 then ssz x else s32 x.
Definition unum_arg (l_count x : Z) : Z := if 1 <? l_count then u64 x else if l_count =? 1 then usz x else u32 x.

(** After [%]: the padding, the number of [l]s; [Pad]: within the digits
    after a [0]. *)
Inductive mode := Text | Spec (padn l_count : Z) | Pad (padn l_count : Z).

(** The end of the format, or an unknown specifier, within a directive
    returns -1, and so does, in the model, a missing argument. *)
Fixpoint vprintf_loop (fmt : list Z) (m : mode) (padc count : Z) (args : list arg) : P Z :=
  match fmt with
  | [] => match m with Text => ret count | _ => ret (-1) end
  | c :: fmt =>
      let spec padn l_count :=
        match args with
        | ArgNum x :: args' =>
            let next n := vprintf_loop fmt Text padc (count + n) args' in
            if (c =? 105) || (c =? 100) then
              let num := num_arg l_count x in
              (if num <? 0 then putchar 45 ;;; n <- unsigned_num_print (u64 (- num)) 10 padc (padn - 1) ;; next n
               else n <- unsigned_num_print num 10 padc padn ;; next n)%c
            else if c =? 112 then
              let unum := usz x in
              (n0 <- (if 0 <? unum then string_print [48; 120] else ret 0) ;;
               n <- unsigned_num_print unum 16 padc (if 0 <? unum then padn - 2 else padn) ;; next (n0 + n))%c
            else if c =? 120 then (n <- unsigned_num_print (unum_arg l_count x) 16 padc padn ;; next n)%c
            else if c =? 117 then (n <- unsigned_num_print (unum_arg l_count x) 10 padc padn ;; next n)%c
            else ret (-1)
        | ArgString s :: args' =>
            if c =? 115 then (n <- string_print s ;; vprintf_loop fmt Text padc (count + n) args')%c else ret (-1)
        | [] => ret (-1)
        end in
      let direct padn l_count :=
        if c =? 122 then vprintf_loop fmt (Spec padn (if ptr_bits =? 64 then 2 else l_count)) padc count args
        else if c =? 108 then vprintf_loop fmt (Spec padn (l_count + 1)) padc count args
        else if c =? 48 then vprintf_loop fmt (Pad 0 l_count) 48 count args
        else spec padn l_count in
      match m with
      | Text => if c =? 37 then vprintf_loop fmt (Spec 0 0) padc count args
                else (putchar c ;;; vprintf_loop fmt Text padc (count + 1) args)%c
      | Spec padn l_count => direct padn l_count
      | Pad padn l_count => if (48 <=? c) && (c <=? 57) then vprintf_loop fmt (Pad (padn * 10 + (c - 48)) l_count) padc count args
                            else direct padn l_count
      end
  end.
Definition vprintf (fmt : list Z) (args : list arg) : P Z := vprintf_loop fmt Text 0 0 args.

Lemma puts_run l out : puts l out = (Z.of_nat (length l), out ++ l).
Proof.
  revert out. induction l as [|c l IH]; intros out; [by rewrite app_nil_r|]. cbn [puts]. unfold bind, putchar, modify, ret. rewrite IH, <- app_assoc. f_equal. cbn [length]. lia.
Qed.

Definition digit (d : Z) : Z := if d <? 10 then 48 + d else 97 + (d - 10).

Lemma strtoul_loop_step base d rest acc any : 10 <= base <= 16 -> 0 <= d < base -> 0 <= acc -> acc * base + d <= ULONG_MAX -> 0 <= any ->
  strtoul_loop base (digit d :: rest) acc any = strtoul_loop base rest (acc * base + d) 1.
Proof.
  intros Hb Hd Ha Hm Hn. cbn [strtoul_loop].
  assert (Hc : isascii (digit d) = true /\ (if isdigit (digit d) then Some (digit d - 48)
               else if isalpha (digit d) then Some (digit d - (if isupper (digit d) then 65 - 10 else 97 - 10)) else None) = Some d).
  { assert (Hall : forallb (fun n => let d := Z.of_nat n in isascii (digit d) && bool_decide ((if isdigit (digit d) then Some (digit d - 48)
      else if isalpha (digit d) then Some (digit d - (if isupper (digit d) then 65 - 10 else 97 - 10)) else None) = Some d)) (seq 0 16)) by done.
    apply forallb_True, Forall_forall with (x := Z.to_nat d) in Hall; [|apply elem_of_seq; lia]. cbv zeta in Hall. rewrite Z2Nat.id in Hall by lia.
    apply Is_true_true, andb_true_iff in Hall as [? Hx]. split; [done|]. by apply bool_decide_eq_true in Hx. }
  destruct Hc as [-> ->]. cbn [negb]. rewrite (proj2 (Z.leb_gt base d)), (proj2 (Z.ltb_ge any 0)) by lia.
  pose proof (Z.div_mod ULONG_MAX base ltac:(lia)). pose proof (Z.mod_pos_bound ULONG_MAX base ltac:(lia)).
  assert (acc <= ULONG_MAX / base) by (apply Z.div_le_lower_bound; lia).
  rewrite (proj2 (Z.ltb_ge (ULONG_MAX / base) acc)) by lia. cbn [orb].
  destruct (Z.eqb_spec acc (ULONG_MAX / base)) as [-> |]; cbn [andb]; [|done]. by rewrite (proj2 (Z.ltb_ge _ d)) by lia.
Qed.

Lemma strtoul_digits fuel base v rest : 10 <= base <= 16 -> 0 <= v <= ULONG_MAX -> v < base ^ Z.of_nat fuel -> (0 < fuel)%nat ->
  strtoul_loop base (rev (num_digits fuel base v) ++ rest) 0 0 = strtoul_loop base rest v 1.
Proof.
  intros Hb. revert v rest. induction fuel as [|fuel IH]; intros v rest Hv Hf Hp; [lia|]. cbn [num_digits rev].
  change (if v mod base <? 10 then _ else _) with (digit (v mod base)).
  pose proof (Z.div_mod v base ltac:(lia)) as Hd. pose proof (Z.mod_pos_bound v base ltac:(lia)) as Hm. rewrite <- app_assoc. cbn [app].
  destruct (Z.ltb_spec 0 (v / base)) as [Hq|Hq].
  - assert (Hfu : v / base < base ^ Z.of_nat fuel).
    { apply Z.div_lt_upper_bound; [lia|]. rewrite Nat2Z.inj_succ, Z.pow_succ_r in Hf by lia. done. }
    rewrite IH; [rewrite strtoul_loop_step by lia; do 2 f_equal; lia|nia|done|]. destruct fuel; [cbn in Hfu; lia|lia].
  - cbn [rev app]. assert (0 <= v / base) by (apply Z.div_pos; lia). rewrite strtoul_loop_step by lia. f_equal. nia.
Qed.

(** Numbers are printed so that they read back: for every [unsigned long],
    [printf] with [%lu] writes a text, returns its length, and [strtoul] of the
    text in base 10 is the number. *)
Theorem printf_strtoul v out : 0 <= v < 2 ^ ptr_bits ->
  exists text, vprintf [37; 108; 117] [ArgNum v] out = (Z.of_nat (length text), out ++ text) /\ strtoul text 10 = v.
Proof.
  intros Hv. exists (rev (num_digits 20 10 v)). split.
  - cbn [vprintf vprintf_loop Z.eqb Pos.eqb orb andb]. unfold vprintf. cbn. unfold unum_arg. cbn [Z.ltb Z.compare Z.eqb Pos.compare Pos.compare_cont Pos.eqb Z.add].
    rewrite usz_small by done. unfold unsigned_num_print, bind, ret. change (0 <? 0) with false. cbv iota. cbn [puts]. unfold ret. rewrite puts_run. cbn. f_equal.
  - assert (Hd : forall fuel w, Forall (fun c => isdigit c = true) (num_digits fuel 10 w)).
    { induction fuel as [|fuel IH]; intros w; cbn [num_digits]; [done|]. pose proof (Z.mod_pos_bound w 10 ltac:(lia)).
      rewrite (proj2 (Z.ltb_lt _ _)) by lia. apply Forall_cons. split; [unfold isdigit; apply andb_true_iff; rewrite !Z.leb_le; lia|].
      by destruct (_ <? _). }
    assert (Hl : Forall (fun c => isdigit c = true) (rev (num_digits 20 10 v))) by (by apply Forall_rev).
    pose proof (strtoul_digits 20 10 v [] ltac:(lia)) as Hs. rewrite app_nil_r in Hs.
    assert (Hv20 : v < 10 ^ Z.of_nat 20) by (destruct ptr_bits_ok as [E | E]; rewrite E in Hv; cbn; lia).
    specialize (Hs ltac:(unfold ULONG_MAX; lia) Hv20 ltac:(lia)). cbn [strtoul_loop] in Hs.
    destruct (rev (num_digits 20 10 v)) as [|c l] eqn:E; [by apply (f_equal length) in E; rewrite length_rev in E|].
    apply Forall_cons in Hl as [Hc _]. unfold isdigit in Hc. zbool. unfold strtoul. cbn [skip_spaces].
    assert (isspace c = false) as -> by (unfold isspace; destruct (Z.eqb_spec c 32), (Z.leb_spec 9 c), (Z.leb_spec c 13); cbn; lia).
    cbn [hd tl]. rewrite !(proj2 (Z.eqb_neq _ _)) by lia. cbn [orb andb Z.eqb]. by rewrite Hs.
Qed.
End printf.
End Printf.

(** ** Witnesses *)

(** Eight bytes moved up by three, onto themselves. *)
Lemma memmove_ok_witness : let r : ram_t := fun a => a mod 256 in
  ram_read (memmove (H := armv7a) 0x1003 0x1000 8 r) 0x1000 12 = [0; 1; 2; 0; 1; 2; 3; 4; 5; 6; 7; 11].
Proof.
  intros r. rewrite (ram_read_ext _ (ram_write 0x1003 (ram_read r 0x1000 (Z.to_nat 8)) r)); [reflexivity|].
  intros x _. apply (memmove_ok (H := armv7a) 0x1003 0x1000 8 r); cbn; lia.
Defined.

Lemma printf_strtoul_witness : exists text,
  Printf.vprintf (arch := armv8a) [37; 108; 117] [Printf.ArgNum 18446744073709551615] [] = (20, text) /\
  strtoul (arch := armv8a) text 10 = 18446744073709551615.
Proof.
  destruct (Printf.printf_strtoul (arch := armv8a) 18446744073709551615 [] ltac:(cbn; lia)) as (text & E & Es).
  exists text. split; [|exact Es]. rewrite E. f_equal.
  assert (H : (Printf.vprintf (arch := armv8a) [37; 108; 117] [Printf.ArgNum 18446744073709551615] []).1 = 20) by reflexivity.
  rewrite E in H. exact H.
Defined.
