(* ===== verification/Bio.v ===== *)
(** * Block I/O core

    [src/bio.c]: the pool of block devices and the operations every other part
    of the bootloader goes through.  The static variables [bio_pool] and
    [n_bios] and the hardware behind the drivers form [bio_state].  A function
    pointer is its address, 0 being NULL; the code behind it is the
    [BioDriver] the section is parametric in. *)

From S2P Require Import Prelude Errors Uuid.
Local Open Scope c_scope.

(** ** Definitions *)

Abbreviation bio_dev_t := Z (only parsing).
Abbreviation lba_t := Z (only parsing).
Abbreviation fptr := Z (only parsing).
Definition NULL : fptr := 0.

(** Device flags, [include/pb/bio.h]. *)
Definition BIO_FLAG_BOOTABLE : Z := 1.
Definition BIO_FLAG_WRITABLE : Z := 4.
Definition BIO_FLAG_ERASE_BEFORE_WRITE : Z := 8.
Definition BIO_FLAG_VISIBLE : Z := 32.
Definition BIO_FLAG_READABLE : Z := 64.

Record bio_device := {
  uu : uuid_t;
  description : list Z;
  first_lba : lba_t;
  last_lba : lba_t;
  flags : Z;
  block_sz : Z;
  read : fptr;
  write : fptr;
  erase : fptr;
  install_partition_table : fptr;
  private : Z;
  valid : bool
}.

Definition null_device : bio_device := {|
  uu := zeros 16; description := zeros 37; first_lba := 0; last_lba := 0; flags := 0;
  block_sz := 0; read := NULL; write := NULL; erase := NULL;
  install_partition_table := NULL; private := 0; valid := false
|}.

(** What a registered driver does: the return code, the bytes a read stores at
    the front of the caller's buffer, and the new hardware state. *)
Class BioDriver (HW : Type) := {
  drv_read : fptr -> bio_dev_t -> lba_t -> Z -> HW -> (Z * list Z) * HW;
  drv_write : fptr -> bio_dev_t -> lba_t -> Z -> list Z -> HW -> Z * HW;
  drv_erase : fptr -> bio_dev_t -> lba_t -> Z -> HW -> Z * HW
}.

Record bio_state (HW : Type) := BioState {
  bio_pool : list bio_device;
  n_bios : Z;
  bio_hw : HW
}.
Arguments BioState {HW}.
Arguments bio_pool {HW}.
Arguments n_bios {HW}.
Arguments bio_hw {HW}.

Definition set_flags_f (v : Z) (d : bio_device) : bio_device := {|
  uu := uu d; description := description d; first_lba := first_lba d; last_lba := last_lba d;
  flags := v; block_sz := block_sz d; read := read d; write := write d; erase := erase d;
  install_partition_table := install_partition_table d; private := private d; valid := valid d |}.
Definition set_ios_f (r wr : fptr) (d : bio_device) : bio_device := {|
  uu := uu d; description := description d; first_lba := first_lba d; last_lba := last_lba d;
  flags := flags d; block_sz := block_sz d; read := r; write := wr; erase := erase d;
  install_partition_table := install_partition_table d; private := private d; valid := valid d |}.
Definition set_erase_f (e : fptr) (d : bio_device) : bio_device := {|
  uu := uu d; description := description d; first_lba := first_lba d; last_lba := last_lba d;
  flags := flags d; block_sz := block_sz d; read := read d; write := write d; erase := e;
  install_partition_table := install_partition_table d; private := private d; valid := valid d |}.
Definition set_private_f (p : Z) (d : bio_device) : bio_device := {|
  uu := uu d; description := description d; first_lba := first_lba d; last_lba := last_lba d;
  flags := flags d; block_sz := block_sz d; read := read d; write := write d; erase := erase d;
  install_partition_table := install_partition_table d; private := p; valid := valid d |}.
Definition set_install_f (cb : fptr) (d : bio_device) : bio_device := {|
  uu := uu d; description := description d; first_lba := first_lba d; last_lba := last_lba d;
  flags := flags d; block_sz := block_sz d; read := read d; write := write d; erase := erase d;
  install_partition_table := cb; private := private d; valid := valid d |}.

Section bio.
Context {arch : Arch} {kc : Kconfig} {HW : Type} {drv : BioDriver HW}.
Abbreviation B := (M (bio_state HW)).

(** [bio_pool[dev]] *)
Definition dev_at (s : bio_state HW) (dev : bio_dev_t) : bio_device :=
  default null_device (bio_pool s !! Z.to_nat dev).

(** An assignment to fields of [bio_pool[dev]]. *)
Definition upd_dev (dev : bio_dev_t) (f : bio_device -> bio_device) : B unit :=
  modify (fun s => BioState (alter f (Z.to_nat dev) (bio_pool s)) (n_bios s) (bio_hw s)).

Definition check_dev (dev : bio_dev_t) : B Z :=
  s <- get ;;
  if (dev <? 0) || (CONFIG_BIO_MAX_DEVS <=? dev) then ret (- PB_ERR_PARAM)
  else if negb (valid (dev_at s dev)) then ret (- PB_ERR_PARAM)
  else ret PB_OK.

Definition bio_allocate (first last : lba_t) (block_size : Z) (u : uuid_t) (desc : list Z)
    : B bio_dev_t :=
  s <- get ;;
  if n_bios s =? CONFIG_BIO_MAX_DEVS then ret (- PB_ERR_MEM)
  else if block_size =? 0 then ret (- PB_ERR_PARAM)
  else if last <? first then ret (- PB_ERR_PARAM)
  else
    let d := {| uu := uuid_copy u; description := strncpy_z 36 37 desc;
                first_lba := first; last_lba := last; flags := 0; block_sz := block_size;
                read := NULL; write := NULL; erase := NULL;
                install_partition_table := NULL; private := 0; valid := true |} in
    put (BioState (<[Z.to_nat (n_bios s) := d]> (bio_pool s)) (n_bios s + 1) (bio_hw s)) ;;;
    ret (n_bios s).

(** The fields [bio_allocate_parent] copies from the parent device. *)
Definition inherit_f (p d : bio_device) : bio_device := {|
  uu := uu d; description := description d; first_lba := first_lba d; last_lba := last_lba d;
  flags := flags p; block_sz := block_sz d; read := read p; write := write p; erase := erase p;
  install_partition_table := install_partition_table d; private := private p; valid := valid d |}.

Definition bio_allocate_parent (parent : bio_dev_t) (first last : lba_t) (block_size : Z)
    (u : uuid_t) (desc : list Z) : B bio_dev_t :=
  check_dev parent ;;?
  new <- bio_allocate first last block_size u desc ;;
  if new <? 0 then ret new
  else
    s <- get ;;
    upd_dev new (inherit_f (dev_at s parent)) ;;;
    ret new.

Definition bio_valid (dev : bio_dev_t) : B bool :=
  rc <- check_dev dev ;;
  if negb (rc =? 0) then ret false else gets (fun s => valid (dev_at s dev)).

Definition bio_set_ios (dev : bio_dev_t) (r wr : fptr) : B Z :=
  check_dev dev ;;? upd_dev dev (set_ios_f r wr) ;;; ret PB_OK.

Definition bio_set_ios_erase (dev : bio_dev_t) (e : fptr) : B Z :=
  check_dev dev ;;? upd_dev dev (set_erase_f e) ;;; ret PB_OK.

Definition bio_set_private (dev : bio_dev_t) (priv : Z) : B Z :=
  check_dev dev ;;? upd_dev dev (set_private_f priv) ;;; ret PB_OK.

Definition bio_get_private (dev : bio_dev_t) : B Z :=
  rc <- check_dev dev ;;
  if negb (rc =? PB_OK) then ret 0 else gets (fun s => private (dev_at s dev)).

(** [lba_t] arithmetic is 32-bit; the product is computed in [int64_t]. *)
Definition bio_size (dev : bio_dev_t) : B Z :=
  check_dev dev ;;?
  gets (fun s => let d := dev_at s dev in
    s64 (u32 (last_lba d - first_lba d + 1) * s64 (block_sz d))).

Definition bio_block_size (dev : bio_dev_t) : B Z :=
  check_dev dev ;;? gets (fun s => ssz (block_sz (dev_at s dev))).

(** [first_lba + lba] wraps at 32 bits, the rest of the sum at the width of
    [size_t]. *)
Definition check_lba_range (dev : bio_dev_t) (lba : lba_t) (length : Z) : B Z :=
  s <- get ;;
  let d := dev_at s dev in
  let n_blocks := length / block_sz d in
  let n_blocks := if length mod block_sz d =? 0 then n_blocks else usz (n_blocks + 1) in
  if last_lba d <? usz (u32 (first_lba d + lba) + n_blocks - 1) then ret (-1) else ret PB_OK.

(** The hardware is handed to the driver and taken back. *)
Definition call_drv {A} (f : HW -> A * HW) : B A :=
  fun s => let '(a, h) := f (bio_hw s) in (a, BioState (bio_pool s) (n_bios s) h).

Definition bio_read (dev : bio_dev_t) (lba : lba_t) (length : Z) : B (Z * list Z) :=
  rc <- check_dev dev ;;
  if negb (rc =? PB_OK) then ret (rc, []) else
  s <- get ;;
  if read (dev_at s dev) =? NULL then ret (- PB_ERR_NOT_SUPPORTED, []) else
  rc <- check_lba_range dev lba length ;;
  if negb (rc =? 0) then ret (- PB_ERR_PARAM, []) else
  call_drv (drv_read (read (dev_at s dev)) dev (u32 (first_lba (dev_at s dev) + lba)) length).

Definition bio_write (dev : bio_dev_t) (lba : lba_t) (length : Z) (buf : list Z) : B Z :=
  check_dev dev ;;?
  s <- get ;;
  if write (dev_at s dev) =? NULL then ret (- PB_ERR_NOT_SUPPORTED) else
  rc <- check_lba_range dev lba length ;;
  if negb (rc =? 0) then ret (- PB_ERR_IO) else
  call_drv (drv_write (write (dev_at s dev)) dev (u32 (first_lba (dev_at s dev) + lba)) length buf).

Definition bio_erase (dev : bio_dev_t) (first : lba_t) (count : Z) : B Z :=
  check_dev dev ;;?
  s <- get ;;
  if erase (dev_at s dev) =? NULL then ret (- PB_ERR_NOT_SUPPORTED) else
  call_drv (drv_erase (erase (dev_at s dev)) dev first count).

Definition bio_get_hal_flags (dev : bio_dev_t) : B Z :=
  check_dev dev ;;? gets (fun s => Z.land (Z.shiftr (flags (dev_at s dev)) 24) 0xff).

Definition bio_set_hal_flags (dev : bio_dev_t) (fl : Z) : B Z :=
  check_dev dev ;;?
  s <- get ;;
  upd_dev dev (set_flags_f (Z.lor (Z.land (flags (dev_at s dev)) (u32 (Z.lnot 0xff000000)))
                                  (u32 (Z.shiftl fl 24)))) ;;;
  ret PB_OK.

Definition bio_get_flags (dev : bio_dev_t) : B Z :=
  check_dev dev ;;? gets (fun s => Z.land (flags (dev_at s dev)) 0xffff).

Definition bio_set_flags (dev : bio_dev_t) (fl : Z) : B Z :=
  check_dev dev ;;?
  s <- get ;;
  upd_dev dev (set_flags_f (Z.lor (Z.land (flags (dev_at s dev)) (u32 (Z.lnot 0xffff)))
                                  (Z.land fl 0xffff))) ;;;
  ret PB_OK.

Definition bio_clear_set_flags (dev : bio_dev_t) (clear_flags set_fl : Z) : B Z :=
  fl <- bio_get_flags dev ;;
  if fl <? 0 then ret fl
  else bio_set_flags dev (u16 (Z.lor (Z.land (u16 fl) (Z.lnot clear_flags)) set_fl)).

(** A NULL result is [None]. *)
Definition bio_get_description (dev : bio_dev_t) : B (option (list Z)) :=
  rc <- check_dev dev ;;
  if negb (rc =? PB_OK) then ret None else gets (fun s => Some (description (dev_at s dev))).

Definition bio_get_uu (dev : bio_dev_t) : B (option uuid_t) :=
  rc <- check_dev dev ;;
  if negb (rc =? PB_OK) then ret None else gets (fun s => Some (uu (dev_at s dev))).

Definition bio_get_last_block (dev : bio_dev_t) : B Z :=
  rc <- check_dev dev ;;
  if negb (rc =? PB_OK) then ret (- PB_ERR_PARAM) else gets (fun s => s32 (last_lba (dev_at s dev))).

Definition bio_get_first_block (dev : bio_dev_t) : B Z :=
  rc <- check_dev dev ;;
  if negb (rc =? PB_OK) then ret (- PB_ERR_PARAM) else gets (fun s => s32 (first_lba (dev_at s dev))).

Definition bio_get_no_of_blocks (dev : bio_dev_t) : B Z :=
  rc <- check_dev dev ;;
  if negb (rc =? PB_OK) then ret (- PB_ERR_PARAM) else
  gets (fun s => s32 (u32 (last_lba (dev_at s dev) - first_lba (dev_at s dev) + 1))).

(** The search loop over the pool, starting at index [i]. *)
Fixpoint find_uu (u : uuid_t) (pool : list bio_device) (i : Z) : bio_dev_t :=
  match pool with
  | [] => - PB_ERR_NOT_FOUND
  | d :: pool =>
      if negb (valid d) then - PB_ERR_NOT_FOUND
      else if uuid_compare u (uu d) =? 0 then i
      else find_uu u pool (i + 1)
  end.

Definition bio_get_part_by_uu (u : option uuid_t) : B bio_dev_t :=
  match u with
  | None => ret (- PB_ERR_NOT_FOUND)
  | Some u => gets (fun s => find_uu u (bio_pool s) 0)
  end.

(** [uuid_parse] is an argument: [None] stands for its error return. *)
Definition bio_get_part_by_uu_str (uuid_parse : list Z -> option uuid_t) (uu_str : list Z)
    : B bio_dev_t :=
  match uuid_parse uu_str with
  | None => ret (- PB_ERR_PARAM)
  | Some u => bio_get_part_by_uu (Some u)
  end.

(** [call_cb] runs the registered callback, which may act on more of the world
    than the block layer. *)
Definition bio_install_partition_table {W} `{!Has (bio_state HW) W}
    (call_cb : fptr -> bio_dev_t -> Z -> M W Z) (part_uu : option uuid_t) (variant : Z) : M W Z :=
  dev <- lift (bio_get_part_by_uu part_uu) ;;
  if dev <? 0 then ret dev else
  s <- lift get ;;
  let cb := install_partition_table (dev_at s dev) in
  if negb (cb =? NULL) then call_cb cb dev variant else ret (- PB_ERR_NOT_SUPPORTED).

Definition bio_set_install_partition_cb (dev : bio_dev_t) (cb : fptr) : B Z :=
  rc <- check_dev dev ;;
  if negb (rc =? PB_OK) then ret (- PB_ERR_PARAM)
  else upd_dev dev (set_install_f cb) ;;; ret PB_OK.

(** ** Well-formed pools *)

(** What the operations maintain: a device record of an allocated slot, and the
    pool as [n_bios] allocated slots followed by unused ones. *)
Definition dev_wf (d : bio_device) : Prop :=
  valid d = true /\ uuid_wf (uu d) /\ length (description d) = 37%nat /\
  0 <= first_lba d <= last_lba d /\ last_lba d < 2 ^ 32 /\
  0 < block_sz d < 2 ^ ptr_bits /\ 0 <= flags d < 2 ^ 32.

Definition bio_wf (s : bio_state HW) : Prop :=
  0 <= n_bios s <= CONFIG_BIO_MAX_DEVS /\
  length (bio_pool s) = Z.to_nat CONFIG_BIO_MAX_DEVS /\
  (forall i d, bio_pool s !! i = Some d ->
    if decide (Z.of_nat i < n_bios s) then dev_wf d else valid d = false).

(** The state after reset: the static variables are zero. *)
Definition bio_init (h : HW) : bio_state HW :=
  BioState (replicate (Z.to_nat CONFIG_BIO_MAX_DEVS) null_device) 0 h.

(** One call of an operation that changes the pool or the hardware, with
    arguments of the widths the C prototypes have. *)
Inductive bio_step : bio_state HW -> bio_state HW -> Prop :=
| step_allocate first last bs u desc s :
    0 <= first < 2 ^ 32 -> 0 <= last < 2 ^ 32 -> 0 <= bs < 2 ^ ptr_bits -> uuid_wf u ->
    bio_step s (bio_allocate first last bs u desc s).2
| step_allocate_parent parent first last bs u desc s :
    0 <= first < 2 ^ 32 -> 0 <= last < 2 ^ 32 -> 0 <= bs < 2 ^ ptr_bits -> uuid_wf u ->
    bio_step s (bio_allocate_parent parent first last bs u desc s).2
| step_set_ios dev r wr s : bio_step s (bio_set_ios dev r wr s).2
| step_set_ios_erase dev e s : bio_step s (bio_set_ios_erase dev e s).2
| step_set_private dev p s : bio_step s (bio_set_private dev p s).2
| step_set_hal_flags dev fl s : 0 <= fl < 256 -> bio_step s (bio_set_hal_flags dev fl s).2
| step_set_flags dev fl s : 0 <= fl < 2 ^ 16 -> bio_step s (bio_set_flags dev fl s).2
| step_clear_set_flags dev c fl s :
    0 <= c < 2 ^ 16 -> 0 <= fl < 2 ^ 16 -> bio_step s (bio_clear_set_flags dev c fl s).2
| step_set_install dev cb s : bio_step s (bio_set_install_partition_cb dev cb s).2
| step_read dev lba len s : bio_step s (bio_read dev lba len s).2
| step_write dev lba len buf s : bio_step s (bio_write dev lba len buf s).2
| step_erase dev lba n s : bio_step s (bio_erase dev lba n s).2.

(** The device handles the operations accept. *)
Definition dev_ok (s : bio_state HW) (dev : bio_dev_t) : bool :=
  (0 <=? dev) && (dev <? CONFIG_BIO_MAX_DEVS) && valid (dev_at s dev).

(** ** Lemmas *)

Lemma check_dev_spec dev s :
  check_dev dev s = (if dev_ok s dev then PB_OK else - PB_ERR_PARAM, s).
Proof.
  unfold check_dev, dev_ok. m_unfold.
  destruct (Z.ltb_spec dev 0), (Z.leb_spec CONFIG_BIO_MAX_DEVS dev),
    (Z.leb_spec 0 dev), (Z.ltb_spec dev CONFIG_BIO_MAX_DEVS); try lia; simpl; try done.
  by destruct (valid (dev_at s dev)).
Qed.

Lemma checked_dev dev (s : bio_state HW) (k : B Z) :
  checked (check_dev dev) k s = if dev_ok s dev then k s else (- PB_ERR_PARAM, s).
Proof.
  unfold checked. m_unfold. rewrite check_dev_spec. by destruct (dev_ok s dev).
Qed.

Lemma dev_ok_range s dev :
  bio_wf s -> dev_ok s dev = true ->
  0 <= dev < n_bios s /\ bio_pool s !! Z.to_nat dev = Some (dev_at s dev) /\ dev_wf (dev_at s dev).
Proof.
  intros (Hn & Hl & Hd) Hok. unfold dev_ok in Hok. zbool.
  assert (Hlk : bio_pool s !! Z.to_nat dev = Some (dev_at s dev)).
  { unfold dev_at. destruct (lookup_lt_is_Some_2 (bio_pool s) (Z.to_nat dev)) as [d ->]; [lia | done]. }
  specialize (Hd _ _ Hlk). case_decide; [|congruence]. split_and!; [lia..|done|done].
Qed.

Lemma dev_ok_of_index s i :
  bio_wf s -> Z.of_nat i < n_bios s -> dev_ok s (Z.of_nat i) = true.
Proof.
  intros (Hn & Hl & Hd) Hi. unfold dev_ok, dev_at. rewrite Nat2Z.id.
  destruct (lookup_lt_is_Some_2 (bio_pool s) i) as [d E]; [lia|].
  rewrite E. simpl. specialize (Hd _ _ E). rewrite decide_True in Hd by done.
  destruct Hd as [-> _]. rewrite andb_true_r. apply andb_true_iff. split; [apply Z.leb_le|apply Z.ltb_lt]; lia.
Qed.

(** Field updates that keep a device record well formed. *)
Definition keeps_wf (f : bio_device -> bio_device) : Prop :=
  forall d, dev_wf d -> dev_wf (f d).

Lemma upd_dev_wf dev f s :
  bio_wf s -> dev_ok s dev = true -> (dev_wf (dev_at s dev) -> dev_wf (f (dev_at s dev))) ->
  bio_wf (upd_dev dev f s).2.
Proof.
  intros Hwf Hok Hf. destruct (dev_ok_range s dev Hwf Hok) as (Hr & Hlk & Hd).
  destruct Hwf as (Hn & Hl & Hall). unfold upd_dev. m_unfold. simpl.
  split; [done|]. split; [simpl; by rewrite length_alter|]. simpl. intros i d.
  rewrite list_lookup_alter. destruct (decide (Z.to_nat dev = i)) as [<-|Hne].
  - rewrite Hlk. simpl. intros [= <-]. rewrite decide_True by lia. auto.
  - apply Hall.
Qed.

Lemma set_flags_f_wf v : 0 <= v < 2 ^ 32 -> keeps_wf (set_flags_f v).
Proof. intros Hv d Hd. unfold dev_wf in *. simpl. intuition lia. Qed.

Lemma flags_mask_range m v d :
  dev_wf d -> 0 <= v < 2 ^ 32 -> 0 <= Z.lor (Z.land (flags d) m) v < 2 ^ 32.
Proof.
  intros Hd Hv. apply lor_lt; [lia| |done]. apply land_lt; [lia|]. apply Hd.
Qed.

Lemma call_drv_wf {A} (f : HW -> A * HW) s : bio_wf s -> bio_wf (call_drv f s).2.
Proof. intros Hwf. unfold call_drv. by destruct (f (bio_hw s)). Qed.

Lemma check_lba_range_state dev lba len s : (check_lba_range dev lba len s).2 = s.
Proof. unfold check_lba_range. m_unfold. by repeat case_if. Qed.

Lemma length_strncpy_z n size src : (n <= size)%nat -> length (strncpy_z n size src) = size.
Proof.
  intros H. unfold strncpy_z, zeros. rewrite length_app, length_replicate, length_take. lia.
Qed.

Lemma uuid_copy_wf u : uuid_wf u -> uuid_wf (uuid_copy u).
Proof. intros H. by rewrite uuid_copy_id. Qed.

Lemma bio_allocate_cases first last bs u desc s :
  bio_allocate first last bs u desc s =
  if n_bios s =? CONFIG_BIO_MAX_DEVS then (- PB_ERR_MEM, s)
  else if (bs =? 0) || (last <? first) then (- PB_ERR_PARAM, s)
  else (n_bios s, BioState
    (<[Z.to_nat (n_bios s) := {| uu := uuid_copy u; description := strncpy_z 36 37 desc;
        first_lba := first; last_lba := last; flags := 0; block_sz := bs; read := NULL;
        write := NULL; erase := NULL; install_partition_table := NULL; private := 0;
        valid := true |}]> (bio_pool s)) (n_bios s + 1) (bio_hw s)).
Proof.
  unfold bio_allocate. m_unfold. destruct (n_bios s =? _), (bs =? 0), (last <? first); done.
Qed.

Lemma bio_allocate_wf first last bs u desc s :
  0 <= first < 2 ^ 32 -> 0 <= last < 2 ^ 32 -> 0 <= bs < 2 ^ ptr_bits -> uuid_wf u ->
  bio_wf s -> bio_wf (bio_allocate first last bs u desc s).2.
Proof.
  intros Hf Hla Hbs Hu Hwf. rewrite bio_allocate_cases.
  destruct (Z.eqb_spec (n_bios s) CONFIG_BIO_MAX_DEVS); [done|].
  destruct (Z.eqb_spec bs 0); [done|]. destruct (Z.ltb_spec last first); [done|].
  destruct Hwf as (Hn & Hl & Hall). simpl. split; [simpl; lia|].
  split; [simpl; by rewrite length_insert|]. simpl. intros i d.
  rewrite list_lookup_insert. case_decide as Hi.
  - destruct Hi as [<- _]. intros [= <-]. rewrite decide_True by lia. unfold dev_wf; simpl.
    rewrite length_strncpy_z by lia. split_and!; auto using uuid_copy_wf; lia.
  - intros E. pose proof (lookup_lt_Some _ _ _ E). specialize (Hall _ _ E).
    repeat case_decide; try done; lia.
Qed.

Lemma dev_at_allocate first last bs u desc s :
  bio_wf s -> (bio_allocate first last bs u desc s).1 >= 0 ->
  (bio_allocate first last bs u desc s).1 = n_bios s /\
  dev_ok (bio_allocate first last bs u desc s).2 (n_bios s) = true.
Proof.
  intros (Hn & Hl & Hall). rewrite bio_allocate_cases.
  destruct (Z.eqb_spec (n_bios s) CONFIG_BIO_MAX_DEVS); [simpl; unfold PB_ERR_MEM; lia|].
  destruct ((bs =? 0) || (last <? first)); [simpl; unfold PB_ERR_PARAM; lia|].
  simpl. intros _. split; [done|]. unfold dev_ok, dev_at. simpl.
  rewrite list_lookup_insert_eq by lia. simpl.
  apply andb_true_iff. split; [|done]. apply andb_true_iff.
  split; [apply Z.leb_le | apply Z.ltb_lt]; lia.
Qed.

Lemma bio_allocate_parent_cases parent first last bs u desc s :
  bio_wf s ->
  bio_allocate_parent parent first last bs u desc s =
  if dev_ok s parent then
    let '(new, s') := bio_allocate first last bs u desc s in
    if new <? 0 then (new, s') else (new, (upd_dev new (inherit_f (dev_at s parent)) s').2)
  else (- PB_ERR_PARAM, s).
Proof.
  intros Hwf. unfold bio_allocate_parent. rewrite checked_dev.
  destruct (dev_ok s parent) eqn:Hp; [|done]. m_unfold.
  pose proof (dev_ok_range s parent Hwf Hp) as (Hr & Hlk & _).
  rewrite bio_allocate_cases. destruct (n_bios s =? CONFIG_BIO_MAX_DEVS); [done|].
  destruct ((bs =? 0) || (last <? first)); [done|].
  destruct (n_bios s <? 0); [done|]. unfold upd_dev. m_unfold. simpl. do 4 f_equal.
  unfold dev_at. simpl. by rewrite list_lookup_insert_ne by lia.
Qed.

(** A successful allocation below a parent: one new device, nothing else. *)
Definition fresh_device (first last : lba_t) (bs : Z) (u : uuid_t) (desc : list Z) : bio_device := {|
  uu := u; description := strncpy_z 36 37 desc; first_lba := first; last_lba := last; flags := 0;
  block_sz := bs; read := NULL; write := NULL; erase := NULL; install_partition_table := NULL;
  private := 0; valid := true |}.

Definition older_kept (s s' : bio_state HW) : Prop := forall d, 0 <= d < n_bios s -> dev_at s' d = dev_at s d.

Lemma inherit_f_wf p d : dev_wf p -> dev_wf d -> dev_wf (inherit_f p d).
Proof. unfold dev_wf. simpl. tauto. Qed.

Lemma bio_allocate_parent_wf parent first last bs u desc s :
  0 <= first < 2 ^ 32 -> 0 <= last < 2 ^ 32 -> 0 <= bs < 2 ^ ptr_bits -> uuid_wf u ->
  bio_wf s -> bio_wf (bio_allocate_parent parent first last bs u desc s).2.
Proof.
  intros Hf Hla Hbs Hu Hwf. rewrite bio_allocate_parent_cases by done.
  destruct (dev_ok s parent) eqn:Hp; [|done].
  destruct (dev_ok_range s parent Hwf Hp) as (_ & _ & Hpw).
  pose proof (bio_allocate_wf first last bs u desc s Hf Hla Hbs Hu Hwf) as Hw.
  pose proof (dev_at_allocate first last bs u desc s Hwf) as Ha.
  destruct (bio_allocate first last bs u desc s) as [new s'].
  destruct (Z.ltb_spec new 0); [done|]. simpl in *.
  destruct Ha as [-> Hok]; [lia|]. apply upd_dev_wf; auto using inherit_f_wf.
Qed.

Lemma bio_allocate_parent_ok parent first last bs u desc s :
  bio_wf s -> dev_ok s parent = true -> 0 <= first <= last -> last < 2 ^ 32 -> 0 < bs < 2 ^ ptr_bits ->
  uuid_wf u -> n_bios s < CONFIG_BIO_MAX_DEVS ->
  exists s', bio_allocate_parent parent first last bs u desc s = (n_bios s, s') /\
    bio_wf s' /\ n_bios s' = n_bios s + 1 /\ bio_hw s' = bio_hw s /\ older_kept s s' /\
    dev_at s' (n_bios s) = inherit_f (dev_at s parent) (fresh_device first last bs u desc).
Proof.
  intros Hwf Hok Hf Hl Hbs Hu Hn. assert (Hf' : 0 <= first < 2 ^ 32) by lia.
  assert (Hl' : 0 <= last < 2 ^ 32) by lia. assert (Hbs' : 0 <= bs < 2 ^ ptr_bits) by lia.
  pose proof (bio_allocate_parent_wf parent _ _ _ _ desc s Hf' Hl' Hbs' Hu Hwf) as Hwf'.
  pose proof Hwf as (Hb & Hlen & _).
  rewrite bio_allocate_parent_cases, Hok, bio_allocate_cases in Hwf' |- * by done.
  rewrite (proj2 (Z.eqb_neq (n_bios s) _)), (proj2 (Z.eqb_neq bs 0)), (proj2 (Z.ltb_ge last _)) in Hwf' |- * by lia.
  cbn [orb] in *. cbv beta iota in Hwf' |- *.
  rewrite (proj2 (Z.ltb_ge (n_bios s) 0)) in Hwf' |- * by lia. cbv beta iota in Hwf' |- *.
  eexists. split_and!; [reflexivity | done | done | done | |].
  - intros d Hd. unfold upd_dev, modify, dev_at. simpl.
    by rewrite list_lookup_alter_ne, list_lookup_insert_ne by lia.
  - unfold upd_dev, modify, dev_at at 1. simpl.
    rewrite list_lookup_alter_eq, list_lookup_insert_eq by lia. simpl.
    unfold fresh_device. by rewrite uuid_copy_id.
Qed.

(** The setters: on a valid handle, one record update; otherwise nothing. *)
Lemma bio_allocate_ok first last bs u desc s :
  bio_wf s -> 0 <= first <= last -> last < 2 ^ 32 -> 0 < bs < 2 ^ ptr_bits -> uuid_wf u -> n_bios s < CONFIG_BIO_MAX_DEVS ->
  exists s', bio_allocate first last bs u desc s = (n_bios s, s') /\ bio_wf s' /\ n_bios s' = n_bios s + 1 /\ bio_hw s' = bio_hw s /\
    older_kept s s' /\ dev_ok s' (n_bios s) = true /\ dev_at s' (n_bios s) = fresh_device first last bs u desc.
Proof.
  intros Hwf Hf Hl Hbs Hu Hn. pose proof Hwf as (Hb & Hlen & _).
  assert (Hwf' : bio_wf (bio_allocate first last bs u desc s).2) by (apply bio_allocate_wf; lia || done).
  pose proof (dev_at_allocate first last bs u desc s Hwf) as Hok. rewrite bio_allocate_cases in Hwf', Hok |- *.
  rewrite (proj2 (Z.eqb_neq (n_bios s) _)), (proj2 (Z.eqb_neq bs 0)), (proj2 (Z.ltb_ge last _)) in Hwf', Hok |- * by lia.
  cbn [orb fst snd] in *. eexists. split_and!; [reflexivity|done|done|done| |apply Hok; lia|].
  - intros d Hd. unfold dev_at. simpl. by rewrite list_lookup_insert_ne by lia.
  - unfold dev_at. simpl. rewrite list_lookup_insert_eq by lia. simpl. unfold fresh_device. by rewrite uuid_copy_id.
Qed.

Lemma setter_wf dev (k : B Z) f s :
  bio_wf s -> k s = (PB_OK, (upd_dev dev f s).2) ->
  (dev_wf (dev_at s dev) -> dev_wf (f (dev_at s dev))) ->
  bio_wf (checked (check_dev dev) k s).2.
Proof.
  intros Hwf Hk Hf. rewrite checked_dev. destruct (dev_ok s dev) eqn:Hok; [|done].
  rewrite Hk. by apply upd_dev_wf.
Qed.

Lemma bio_set_flags_wf dev fl s : 0 <= fl < 2 ^ 16 -> bio_wf s -> bio_wf (bio_set_flags dev fl s).2.
Proof.
  intros Hfl Hwf. eapply setter_wf; [done | reflexivity |].
  intros Hd. apply set_flags_f_wf; [|done]. apply flags_mask_range; [done|].
  pose proof (land_lt fl 0xffff 16). lia.
Qed.

Lemma bio_get_flags_cases dev s :
  bio_get_flags dev s =
  (if dev_ok s dev then Z.land (flags (dev_at s dev)) 0xffff else - PB_ERR_PARAM, s).
Proof. unfold bio_get_flags. rewrite checked_dev. by destruct (dev_ok s dev). Qed.

Lemma land_nonneg_r a b : 0 <= b -> 0 <= Z.land a b.
Proof. intros. apply Z.land_nonneg. by right. Qed.

Lemma bio_clear_set_flags_cases dev c fl s :
  bio_clear_set_flags dev c fl s =
  if dev_ok s dev then
    bio_set_flags dev (u16 (Z.lor (Z.land (u16 (Z.land (flags (dev_at s dev)) 0xffff)) (Z.lnot c)) fl)) s
  else (- PB_ERR_PARAM, s).
Proof.
  unfold bio_clear_set_flags. m_unfold. rewrite bio_get_flags_cases.
  destruct (dev_ok s dev); [|done].
  pose proof (land_nonneg_r (flags (dev_at s dev)) 0xffff).
  destruct (Z.ltb_spec (Z.land (flags (dev_at s dev)) 0xffff) 0); [lia | done].
Qed.

Lemma bio_step_wf s s' : bio_step s s' -> bio_wf s -> bio_wf s'.
Proof.
  intros Hs Hwf. destruct Hs.
  - by apply bio_allocate_wf.
  - by apply bio_allocate_parent_wf.
  - by eapply setter_wf.
  - by eapply setter_wf.
  - by eapply setter_wf.
  - eapply setter_wf; [done | reflexivity |]. intros Hd. apply set_flags_f_wf; [|done].
    apply flags_mask_range; [done | apply u32_range].
  - by apply bio_set_flags_wf.
  - rewrite bio_clear_set_flags_cases. destruct (dev_ok s dev); [|done].
    apply bio_set_flags_wf; [apply Z.mod_pos_bound; lia | done].
  - unfold bio_set_install_partition_cb. m_unfold. rewrite check_dev_spec.
    destruct (dev_ok s dev) eqn:Hok; [|done]. by apply (upd_dev_wf dev (set_install_f cb) s).
  - unfold bio_read. m_unfold. rewrite check_dev_spec. destruct (dev_ok s dev); [|done]. simpl.
    destruct (read _ =? NULL); [done|]. pose proof (check_lba_range_state dev lba len s).
    destruct (check_lba_range dev lba len s) as [rc s1]. simpl in *. subst s1.
    destruct (rc =? 0); [|done]. by apply call_drv_wf.
  - unfold bio_write. rewrite checked_dev. destruct (dev_ok s dev); [|done]. m_unfold.
    destruct (write _ =? NULL); [done|]. pose proof (check_lba_range_state dev lba len s).
    destruct (check_lba_range dev lba len s) as [rc s1]. simpl in *. subst s1.
    destruct (rc =? 0); [|done]. by apply call_drv_wf.
  - unfold bio_erase. rewrite checked_dev. destruct (dev_ok s dev); [|done]. m_unfold.
    destruct (erase _ =? NULL); [done|]. by apply call_drv_wf.
Qed.

Lemma bio_init_wf h : 0 <= CONFIG_BIO_MAX_DEVS -> bio_wf (bio_init h).
Proof.
  intros Hc. split; [simpl; lia|]. split; [simpl; by rewrite length_replicate|].
  intros i d [-> _]%lookup_replicate. simpl. by rewrite decide_False by lia.
Qed.

(** ** Searching the pool *)

Lemma find_uu_spec u pool i :
  uuid_wf u ->
  (forall d, d ∈ pool -> valid d = true -> uuid_wf (uu d)) ->
  let r := find_uu u pool i in
  (r = - PB_ERR_NOT_FOUND /\
     forall k d, pool !! k = Some d -> (forall j e, (j <= k)%nat -> pool !! j = Some e -> valid e = true) ->
       uu d <> u) \/
  (exists k d, r = i + Z.of_nat k /\ pool !! k = Some d /\ uu d = u /\
     (forall j e, (j <= k)%nat -> pool !! j = Some e -> valid e = true) /\
     (forall j e, (j < k)%nat -> pool !! j = Some e -> uu e <> u)).
Proof.
  intros Hu. revert i. induction pool as [|d pool IH]; intros i Hall; simpl.
  { left. split; [done|]. intros k d Hk. by rewrite lookup_nil in Hk. }
  destruct (valid d) eqn:Hv; simpl.
  2:{ left. split; [done|]. intros k e Hk Hpre. specialize (Hpre 0%nat d ltac:(lia) eq_refl).
      congruence. }
  assert (Hd : uuid_wf (uu d)) by (apply Hall; [left|done]).
  destruct (Z.eqb_spec (uuid_compare u (uu d)) 0) as [E|E].
  - apply uuid_compare_eq in E; [|done..]. right. exists 0%nat, d.
    split_and!; [lia|done|done| |intros; lia].
    intros [|j] e Hj; [by intros [= <-]|lia].
  - assert (Hne : uu d <> u) by (intros <-; by rewrite uuid_compare_refl in E).
    destruct (IH (i + 1)) as [[-> Hno] | (k & e & -> & Hk & He & Hpre & Hmin)].
    { intros e He. apply Hall. by right. }
    + left. split; [done|]. intros [|k] e Hk Hpre; [by simplify_eq/=|].
      apply (Hno k e Hk). intros j e' Hj Hje. apply (Hpre (S j) e'); [lia|done].
    + right. exists (S k), e. split_and!; [lia|done|done| |].
      * intros [|j] e' Hj Hje; [by simplify_eq/=|]. apply (Hpre j); [lia|done].
      * intros [|j] e' Hj Hje; [by simplify_eq/=|]. apply (Hmin j); [lia|done].
Qed.

Lemma bio_wf_prefix s k d :
  bio_wf s -> bio_pool s !! k = Some d ->
  (forall j e, (j <= k)%nat -> bio_pool s !! j = Some e -> valid e = true) ->
  Z.of_nat k < n_bios s.
Proof.
  intros (Hn & Hl & Hall) Hk Hpre. specialize (Hall _ _ Hk). case_decide; [done|].
  specialize (Hpre k d ltac:(lia) Hk). congruence.
Qed.

Lemma bio_wf_below s k j e :
  bio_wf s -> Z.of_nat k < n_bios s -> (j <= k)%nat -> bio_pool s !! j = Some e -> dev_wf e.
Proof. intros (Hn & Hl & Hall) Hk Hj He. specialize (Hall _ _ He). by rewrite decide_True in Hall by lia. Qed.

Lemma bio_wf_uuids s d : bio_wf s -> d ∈ bio_pool s -> valid d = true -> uuid_wf (uu d).
Proof.
  intros (Hn & Hl & Hall) [i Hi]%list_elem_of_lookup Hv. specialize (Hall _ _ Hi).
  case_decide; [apply Hall | congruence].
Qed.

(** The number of blocks an access of [len] bytes spans. *)
Definition blocks_of (d : bio_device) (len : Z) : Z := (len + block_sz d - 1) / block_sz d.

Lemma n_blocks_spec d len :
  dev_wf d -> 0 <= len < 2 ^ ptr_bits ->
  (if len mod block_sz d =? 0 then len / block_sz d else usz (len / block_sz d + 1)) = blocks_of d len /\
  0 <= blocks_of d len <= len.
Proof.
  intros (_ & _ & _ & _ & _ & Hb & _) Hlen. unfold blocks_of.
  pose proof (Z.div_mod len (block_sz d) ltac:(lia)).
  pose proof (Z.mod_pos_bound len (block_sz d) ltac:(lia)).
  assert (Hq : 0 <= len / block_sz d) by (apply Z.div_pos; lia).
  destruct (Z.eqb_spec (len mod block_sz d) 0) as [E|E].
  - replace (len + block_sz d - 1) with ((block_sz d - 1) + (len / block_sz d) * block_sz d) by lia.
    rewrite Z.div_add, (Z.div_small (block_sz d - 1)) by lia. nia.
  - assert (len / block_sz d < len) by nia.
    replace (len + block_sz d - 1)
      with ((len mod block_sz d - 1) + (len / block_sz d + 1) * block_sz d) by lia.
    rewrite Z.div_add, (Z.div_small (len mod block_sz d - 1)) by lia.
    rewrite usz_small by lia. lia.
Qed.

Lemma check_lba_range_spec dev lba len s :
  bio_wf s -> dev_ok s dev = true -> 0 <= lba -> 0 < len < 2 ^ ptr_bits ->
  first_lba (dev_at s dev) + lba + blocks_of (dev_at s dev) len <= 2 ^ 32 ->
  check_lba_range dev lba len s =
  (if first_lba (dev_at s dev) + lba + blocks_of (dev_at s dev) len - 1 <=? last_lba (dev_at s dev)
   then PB_OK else -1, s).
Proof.
  intros Hwf Hok Hlba Hlen Hno. destruct (dev_ok_range s dev Hwf Hok) as (_ & _ & Hd).
  destruct (n_blocks_spec (dev_at s dev) len Hd ltac:(lia)) as [E Hn].
  pose proof ptr_bits_ge32. pose proof Hd as (_ & _ & _ & Hfl & Hll & Hb & _).
  unfold check_lba_range. m_unfold. rewrite E.
  assert (1 <= blocks_of (dev_at s dev) len).
  { unfold blocks_of. apply Z.div_le_lower_bound; lia. }
  rewrite u32_small, usz_small by lia.
  destruct (Z.ltb_spec (last_lba (dev_at s dev))
    (first_lba (dev_at s dev) + lba + blocks_of (dev_at s dev) len - 1)),
    (Z.leb_spec (first_lba (dev_at s dev) + lba + blocks_of (dev_at s dev) len - 1)
    (last_lba (dev_at s dev))); done || lia.
Qed.

Lemma abs_lba dev lba len s :
  bio_wf s -> dev_ok s dev = true -> 0 <= lba -> 0 < len ->
  first_lba (dev_at s dev) + lba + blocks_of (dev_at s dev) len <= 2 ^ 32 ->
  u32 (first_lba (dev_at s dev) + lba) = first_lba (dev_at s dev) + lba.
Proof.
  intros Hwf Hok Hlba Hlen Hno. destruct (dev_ok_range s dev Hwf Hok) as (_ & _ & Hd).
  destruct Hd as (_ & _ & _ & Hf & _ & Hb & _). apply u32_small.
  assert (1 <= blocks_of (dev_at s dev) len) by (apply Z.div_le_lower_bound; lia). lia.
Qed.

Lemma bio_write_branches dev lba len buf s :
  bio_wf s -> dev_ok s dev = true -> 0 <= lba -> 0 < len < 2 ^ ptr_bits ->
  first_lba (dev_at s dev) + lba + blocks_of (dev_at s dev) len <= 2 ^ 32 ->
  let d := dev_at s dev in
  bio_write dev lba len buf s =
    (if write d =? NULL then (- PB_ERR_NOT_SUPPORTED, s)
     else if first_lba d + lba + blocks_of d len - 1 <=? last_lba d
     then call_drv (drv_write (write d) dev (first_lba d + lba) len buf) s
     else (- PB_ERR_IO, s)).
Proof.
  intros Hwf Hok Hlba Hlen Hno d. unfold bio_write. rewrite checked_dev, Hok. m_unfold. fold d.
  destruct (write d =? NULL); [done|]. rewrite check_lba_range_spec by done. fold d.
  destruct (_ <=? _); simpl; [|done]. unfold d.
  by rewrite (abs_lba dev lba len s Hwf Hok Hlba ltac:(lia) Hno).
Qed.

Lemma bio_read_branches dev lba len s :
  bio_wf s -> dev_ok s dev = true -> 0 <= lba -> 0 < len < 2 ^ ptr_bits ->
  first_lba (dev_at s dev) + lba + blocks_of (dev_at s dev) len <= 2 ^ 32 ->
  let d := dev_at s dev in
  bio_read dev lba len s =
    (if read d =? NULL then ((- PB_ERR_NOT_SUPPORTED, []), s)
     else if first_lba d + lba + blocks_of d len - 1 <=? last_lba d
     then call_drv (drv_read (read d) dev (first_lba d + lba) len) s
     else ((- PB_ERR_PARAM, []), s)).
Proof.
  intros Hwf Hok Hlba Hlen Hno d. unfold bio_read. m_unfold. rewrite check_dev_spec, Hok.
  simpl. fold d. destruct (read d =? NULL); [done|]. rewrite check_lba_range_spec by done. fold d.
  destruct (_ <=? _); simpl; [|done]. unfold d.
  by rewrite (abs_lba dev lba len s Hwf Hok Hlba ltac:(lia) Hno).
Qed.

(** ** Properties *)

(** [C34] Every pool reachable from reset by any sequence of calls of the
    operations of the block layer is well formed: the first [n_bios] slots hold
    valid devices with a non-empty block range, a non-zero block size and a
    proper UUID, the other slots are unused, and the count never exceeds
    CONFIG_BIO_MAX_DEVS. *)
Theorem bio_pool_invariant h s :
  0 <= CONFIG_BIO_MAX_DEVS -> rtc bio_step (bio_init h) s -> bio_wf s.
Proof.
  intros Hc Hr. pose proof (bio_init_wf h Hc) as Hwf.
  induction Hr as [|x y z Hxy _ IH]; [done|]. eauto using bio_step_wf.
Qed.

(** Looking a device up by UUID is exact: on a well-formed pool the result
    is the smallest handle of an allocated device with that UUID, or
    -PB_ERR_NOT_FOUND when no allocated device has it; the pool is unchanged. *)
Theorem bio_get_part_by_uu_spec u s :
  uuid_wf u -> bio_wf s ->
  let r := (bio_get_part_by_uu (Some u) s).1 in
  (bio_get_part_by_uu (Some u) s).2 = s /\
  ((r = - PB_ERR_NOT_FOUND /\ forall dev, dev_ok s dev = true -> uu (dev_at s dev) <> u) \/
   (dev_ok s r = true /\ uu (dev_at s r) = u /\
    forall dev, dev_ok s dev = true -> uu (dev_at s dev) = u -> r <= dev)).
Proof.
  intros Hu Hwf. simpl. split; [done|].
  destruct (find_uu_spec u (bio_pool s) 0 Hu (fun d Hd => bio_wf_uuids s d Hwf Hd))
    as [[-> Hno] | (k & d & -> & Hk & Hd & Hpre & Hmin)].
  - left. split; [done|]. intros dev Hok.
    destruct (dev_ok_range s dev Hwf Hok) as (Hr & Hlk & _). apply (Hno _ _ Hlk).
    intros j e Hj He. eapply bio_wf_below; eauto. lia.
  - right. pose proof (bio_wf_prefix s k d Hwf Hk Hpre) as Hlt. rewrite Z.add_0_l.
    split; [by apply dev_ok_of_index|].
    split; [unfold dev_at; by rewrite Nat2Z.id, Hk|].
    intros dev Hok Hdu. destruct (dev_ok_range s dev Hwf Hok) as (Hr & Hlk & _).
    destruct (decide (Z.of_nat k <= dev)); [done|].
    exfalso. apply (Hmin (Z.to_nat dev) (dev_at s dev)); [lia|done..].
Qed.

(** [C36] Reads and writes of at least one byte stay inside their partition
    whenever the 32-bit block arithmetic does not wrap: a write to a valid
    device is rejected with -PB_ERR_NOT_SUPPORTED when the device has no driver,
    rejected with -PB_ERR_IO when the last block touched lies beyond the
    partition, and is otherwise exactly one driver call on the absolute block; a
    read behaves the same with -PB_ERR_PARAM.  Rejected calls touch nothing.
    [bio.h] documents -PB_ERR_PARAM for both; the code of [bio_write] returns
    -PB_ERR_IO.  (With a wrap-around: [bio_write_wraps_outside].) *)
Theorem bio_rw_in_partition dev lba len buf s :
  bio_wf s -> dev_ok s dev = true -> 0 <= lba -> 0 < len < 2 ^ ptr_bits ->
  first_lba (dev_at s dev) + lba + blocks_of (dev_at s dev) len <= 2 ^ 32 ->
  let d := dev_at s dev in
  let inside := first_lba d + lba + blocks_of d len - 1 <=? last_lba d in
  bio_write dev lba len buf s =
    (if write d =? NULL then (- PB_ERR_NOT_SUPPORTED, s)
     else if inside then call_drv (drv_write (write d) dev (first_lba d + lba) len buf) s
     else (- PB_ERR_IO, s)) /\
  bio_read dev lba len s =
    (if read d =? NULL then ((- PB_ERR_NOT_SUPPORTED, []), s)
     else if inside then call_drv (drv_read (read d) dev (first_lba d + lba) len) s
     else ((- PB_ERR_PARAM, []), s)).
Proof.
  intros. split; [by apply bio_write_branches | by apply bio_read_branches].
Qed.

(** The range check of the block layer wraps: for every valid device that
    does not start at block 0 and has a write driver, a one-block write at
    relative block 2^32 - first_lba passes the check and reaches the driver
    with absolute block 0, outside the partition. *)
Theorem bio_write_wraps_outside dev buf s :
  bio_wf s -> dev_ok s dev = true -> write (dev_at s dev) <> NULL ->
  0 < first_lba (dev_at s dev) ->
  let d := dev_at s dev in
  let lba := 2 ^ 32 - first_lba d in
  0 <= lba < 2 ^ 32 /\
  bio_write dev lba (block_sz d) buf s =
    call_drv (drv_write (write d) dev 0 (block_sz d) buf) s /\
  0 < first_lba d.
Proof.
  intros Hwf Hok Hw Hf d lba. destruct (dev_ok_range s dev Hwf Hok) as (_ & _ & Hd).
  pose proof Hd as (_ & _ & _ & Hfl & Hll & Hb & _).
  split; [subst lba; subst d; lia|]. split; [|done].
  unfold bio_write. rewrite checked_dev, Hok. m_unfold. fold d.
  rewrite (proj2 (Z.eqb_neq (write d) NULL) Hw). unfold check_lba_range. m_unfold. fold d.
  assert (E : u32 (first_lba d + lba) = 0).
  { subst lba. replace (first_lba d + (2 ^ 32 - first_lba d)) with (2 ^ 32) by lia. done. }
  rewrite E, Z.mod_same, Z.div_same by (subst d; lia). simpl.
  rewrite usz_small by (pose proof ptr_bits_ge32; lia).
  change (0 + 1 - 1) with 0. destruct (Z.ltb_spec (last_lba d) 0); [subst d; lia | done].
Qed.

Lemma dev_at_upd dev f s dev' :
  dev_ok s dev = true -> bio_wf s -> 0 <= dev' ->
  dev_at (upd_dev dev f s).2 dev' = if dev' =? dev then f (dev_at s dev) else dev_at s dev'.
Proof.
  intros Hok Hwf Hd. destruct (dev_ok_range s dev Hwf Hok) as (Hr & Hlk & _).
  unfold upd_dev, dev_at at 1. m_unfold. simpl. destruct (Z.eqb_spec dev' dev) as [->|Hne].
  - by rewrite list_lookup_alter_eq, Hlk.
  - by rewrite list_lookup_alter_ne by lia.
Qed.

Lemma bio_set_flags_upd dev fl s :
  dev_ok s dev = true ->
  bio_set_flags dev fl s =
  (PB_OK, (upd_dev dev (set_flags_f (Z.lor (Z.land (flags (dev_at s dev)) (u32 (Z.lnot 0xffff)))
                                           (Z.land fl 0xffff))) s).2).
Proof. intros Hok. unfold bio_set_flags. by rewrite checked_dev, Hok. Qed.

(** An assignment to the device that was allocated last. *)
Lemma upd_last_ok (f : bio_device -> bio_device) s0 s d : bio_wf s -> n_bios s = n_bios s0 + 1 -> 0 <= n_bios s0 -> older_kept s0 s ->
  dev_ok s (n_bios s0) = true -> dev_at s (n_bios s0) = d -> dev_wf (f d) ->
  let s' := (upd_dev (n_bios s0) f s).2 in
  bio_wf s' /\ n_bios s' = n_bios s0 + 1 /\ bio_hw s' = bio_hw s /\ older_kept s0 s' /\ dev_ok s' (n_bios s0) = true /\ dev_at s' (n_bios s0) = f d.
Proof.
  intros Hwf Hn H0 Hold Hok <- Hf s'. pose proof (dev_at_upd (n_bios s0) f s (n_bios s0) Hok Hwf H0) as Hd. rewrite Z.eqb_refl in Hd.
  fold s' in Hd. split_and!; [by apply upd_dev_wf|done|done| |by (unfold dev_ok in *; rewrite Hd; destruct Hf as (-> & _); zbool; rewrite andb_true_r; apply andb_true_iff; split; [apply Z.leb_le|apply Z.ltb_lt])|exact Hd].
  intros d' Hd'. unfold s'. rewrite dev_at_upd by (done || lia). rewrite (proj2 (Z.eqb_neq _ _)) by lia. by apply Hold.
Qed.

Lemma fresh_device_wf last bs u desc : 0 <= last < 2 ^ 32 -> 0 < bs < 2 ^ ptr_bits -> uuid_wf u -> dev_wf (fresh_device 0 last bs u desc).
Proof. intros Hl Hb Hu. unfold dev_wf, fresh_device. cbn. split_and!; (done || lia || apply Hu || (apply length_strncpy_z; lia)). Qed.

(** A driver's registration of a device: callbacks, then flags. *)
Definition driver_device (last bs : Z) (u : uuid_t) (desc : list Z) (r wr : fptr) (fl : Z) : bio_device :=
  set_flags_f fl (set_ios_f r wr (fresh_device 0 last bs u desc)).

Lemma register_driver_ok last bs u desc r wr fl s : bio_wf s -> n_bios s < CONFIG_BIO_MAX_DEVS -> 0 <= last < 2 ^ 32 -> 0 < bs < 2 ^ ptr_bits ->
  uuid_wf u -> 0 <= fl < 2 ^ 16 ->
  exists s1 s2 s3, bio_allocate 0 last bs u desc s = (n_bios s, s1) /\ bio_set_ios (n_bios s) r wr s1 = (PB_OK, s2) /\
    bio_set_flags (n_bios s) fl s2 = (PB_OK, s3) /\ bio_wf s3 /\ n_bios s3 = n_bios s + 1 /\ bio_hw s3 = bio_hw s /\
    older_kept s s3 /\ dev_ok s3 (n_bios s) = true /\ dev_at s3 (n_bios s) = driver_device last bs u desc r wr fl.
Proof.
  intros Hwf Hn Hl Hbs Hu Hfl. pose proof Hwf as ((Hb0 & _) & _).
  destruct (bio_allocate_ok 0 last bs u desc s) as (s1 & E1 & W1 & N1 & B1 & O1 & K1 & D1); [done|lia|lia|lia|done|done|].
  pose proof (fresh_device_wf last bs u desc Hl Hbs Hu) as Hfw.
  destruct (upd_last_ok (set_ios_f r wr) s s1 _ W1 N1 Hb0 O1 K1 D1) as (W2 & N2 & B2 & O2 & K2 & D2); [revert Hfw; unfold dev_wf; cbn; intuition|].
  set (s2 := (upd_dev (n_bios s) (set_ios_f r wr) s1).2) in *. exists s1, s2.
  destruct (upd_last_ok (set_flags_f fl) s s2 _ W2 N2 Hb0 O2 K2 D2) as (W3 & N3 & B3 & O3 & K3 & D3).
  { apply set_flags_f_wf; [lia|]. revert Hfw. unfold dev_wf. cbn. intuition. }
  exists (upd_dev (n_bios s) (set_flags_f fl) s2).2. split_and!; [exact E1| | |exact W3|exact N3|by rewrite B3, B2|exact O3|exact K3|exact D3].
  - unfold bio_set_ios. by rewrite checked_dev, K1.
  - rewrite bio_set_flags_upd by done. rewrite D2. cbn [flags set_ios_f fresh_device]. rewrite Z.land_0_l, Z.lor_0_l.
    change 0xffff with (Z.ones 16). rewrite Z.land_ones, Z.mod_small by lia. done.
Qed.

(** The low half word after [flags &= ~0xffff; flags |= v & 0xffff], and the
    HAL byte, which the assignment does not touch. *)
Lemma flags_low_half x v :
  Z.land (Z.lor (Z.land x (u32 (Z.lnot 0xffff))) (Z.land v 0xffff)) 0xffff = Z.land v 0xffff /\
  Z.land (Z.shiftr (Z.lor (Z.land x (u32 (Z.lnot 0xffff))) (Z.land v 0xffff)) 24) 0xff =
    Z.land (Z.shiftr x 24) 0xff.
Proof.
  change (u32 (Z.lnot 0xffff)) with 0xffff0000. split.
  - rewrite Z.land_lor_distr_l, <- Z.land_assoc. change (Z.land 0xffff0000 0xffff) with 0.
    by rewrite Z.land_0_r, Z.lor_0_l, <- Z.land_assoc.
  - rewrite Z.shiftr_lor, !Z.shiftr_land, Z.land_lor_distr_l, <- !Z.land_assoc.
    change (Z.land (Z.shiftr 0xffff0000 24) 0xff) with 0xff.
    change (Z.land (Z.shiftr 0xffff 24) 0xff) with 0. by rewrite Z.land_0_r, Z.lor_0_r.
Qed.

(** [bio_clear_set_flags] changes exactly the flags it is asked to: on a
    valid device it reports success and the device's flags become the old ones
    without the cleared bits and with the set bits; its HAL flags and the
    flags of every other device stay as they were. *)
Theorem bio_clear_set_flags_spec dev c fl s :
  bio_wf s -> dev_ok s dev = true -> 0 <= fl < 2 ^ 16 ->
  let s' := (bio_clear_set_flags dev c fl s).2 in
  let old := (bio_get_flags dev s).1 in
  (bio_clear_set_flags dev c fl s).1 = PB_OK /\
  (bio_get_flags dev s').1 = Z.lor (Z.land old (Z.lnot c)) fl /\
  (bio_get_hal_flags dev s').1 = (bio_get_hal_flags dev s).1 /\
  forall dev', dev' <> dev -> dev_ok s dev' = true -> dev_at s' dev' = dev_at s dev'.
Proof.
  intros Hwf Hok Hfl s' old. subst s' old.
  rewrite bio_clear_set_flags_cases, Hok, bio_set_flags_upd, !bio_get_flags_cases, Hok by done.
  destruct (dev_ok_range s dev Hwf Hok) as (Hr & Hlk & Hd).
  set (v := u16 _). set (f := set_flags_f _). simpl.
  assert (Hat : dev_at (upd_dev dev f s).2 dev = f (dev_at s dev)).
  { rewrite dev_at_upd by (done || lia). by rewrite Z.eqb_refl. }
  assert (Hok' : dev_ok (upd_dev dev f s).2 dev = true).
  { unfold dev_ok in *. rewrite Hat. done. }
  change (BioState _ _ _) with (upd_dev dev f s).2.
  assert (Hv : Z.land v 0xffff =
    Z.lor (Z.land (Z.land (flags (dev_at s dev)) 0xffff) (Z.lnot c)) fl).
  { subst v. unfold u16. change 0xffff with (Z.ones 16). rewrite <- !Z.land_ones by lia.
    apply Z.bits_inj_iff'. intros i Hi.
    rewrite !Z.land_spec, !Z.lor_spec, !Z.land_spec, Z.lnot_spec, !Z.testbit_ones_nonneg by lia.
    destruct (Z.ltb_spec i 16); [|rewrite (bits_above fl 16) by lia];
      by destruct (Z.testbit (flags (dev_at s dev)) i), (Z.testbit c i), (Z.testbit fl i). }
  split; [done|]. split; [|split].
  - rewrite Hok', Hat. simpl. rewrite (proj1 (flags_low_half _ _)). apply Hv.
  - unfold bio_get_hal_flags. rewrite !checked_dev, Hok, Hok'. unfold gets. rewrite Hat. simpl.
    apply (proj2 (flags_low_half _ _)).
  - intros dev' Hne Hok2. destruct (dev_ok_range s dev' Hwf Hok2) as (Hr2 & _).
    rewrite dev_at_upd by (done || lia). by destruct (Z.eqb_spec dev' dev).
Qed.

End bio.

(** ** A RAM disk with 512-byte blocks, the driver the witnesses run on *)

Module RamDisk.

Definition disk := list Z.

Definition in_disk (h : disk) (lba len : Z) : bool :=
  (0 <=? lba) && (0 <=? len) && (lba * 512 + len <=? Z.of_nat (length h)).

#[global] Instance ram_driver : BioDriver disk := {|
  drv_read _ _ lba len h :=
    if in_disk h lba len then ((PB_OK, slice (Z.to_nat (lba * 512)) (Z.to_nat len) h), h)
    else ((- PB_ERR_IO, []), h);
  drv_write _ _ lba len buf h :=
    if in_disk h lba len
    then (PB_OK, splice (Z.to_nat (lba * 512)) (take (Z.to_nat len) buf) h)
    else (- PB_ERR_IO, h);
  drv_erase _ _ lba n h :=
    if in_disk h lba (n * 512)
    then (PB_OK, splice (Z.to_nat (lba * 512)) (zeros (Z.to_nat (n * 512))) h)
    else (- PB_ERR_IO, h)
|}.

(** Two partitions, blocks 2-3 and 4-7 of an eight-block disk. *)
Definition uuA : uuid_t := replicate 16 0xa.
Definition uuB : uuid_t := replicate 16 0xb.

Definition mkpart (u : uuid_t) (first last : Z) : bio_device := {|
  uu := u; description := zeros 37; first_lba := first; last_lba := last; flags := 0x01000064;
  block_sz := 512; read := 1; write := 2; erase := 3; install_partition_table := NULL;
  private := 0; valid := true |}.

Definition two_parts : bio_state disk :=
  BioState (mkpart uuA 2 3 :: mkpart uuB 4 7 :: replicate 30 null_device) 2 (zeros 4096).

Lemma two_parts_wf : @bio_wf armv7a test_defconfig disk two_parts.
Proof.
  split; [done|]. split; [done|]. intros i d Hi.
  destruct i as [|[|i]]; [injection Hi as <-; vm_compute; repeat constructor; discriminate ..|].
  change (replicate 30 null_device !! i = Some d) in Hi.
  apply lookup_replicate in Hi as [-> _]. by rewrite decide_False by (simpl; lia).
Qed.

End RamDisk.

(** ** Witnesses *)

Lemma bio_pool_invariant_witness :
  @bio_wf armv7a test_defconfig (list Z)
    (@bio_allocate test_defconfig (list Z) 0 7 512 RamDisk.uuA [] (@bio_init test_defconfig (list Z) (zeros 4096))).2.
Proof.
  apply (@bio_pool_invariant armv7a test_defconfig _ RamDisk.ram_driver (zeros 4096)); [done|].
  apply rtc_once, step_allocate; first [done | split; [done | by repeat constructor]].
Defined.

Lemma bio_get_part_by_uu_spec_witness :
  (@bio_get_part_by_uu (list Z) (Some RamDisk.uuB) RamDisk.two_parts).1 = 1 /\
  let s := RamDisk.two_parts in
  let r := (@bio_get_part_by_uu (list Z) (Some RamDisk.uuB) s).1 in
  (@bio_get_part_by_uu (list Z) (Some RamDisk.uuB) s).2 = s /\
  ((r = - PB_ERR_NOT_FOUND /\ forall dev, @dev_ok test_defconfig _ s dev = true -> uu (dev_at s dev) <> RamDisk.uuB) \/
   (@dev_ok test_defconfig _ s r = true /\ uu (dev_at s r) = RamDisk.uuB /\
    forall dev, @dev_ok test_defconfig _ s dev = true -> uu (dev_at s dev) = RamDisk.uuB -> r <= dev)).
Proof.
  split; [vm_compute; reflexivity|].
  apply (@bio_get_part_by_uu_spec armv7a test_defconfig _ RamDisk.uuB RamDisk.two_parts).
  - split; [done | by repeat constructor].
  - apply RamDisk.two_parts_wf.
Defined.

Lemma bio_rw_in_partition_witness :
  @bio_write armv7a test_defconfig _ RamDisk.ram_driver 1 3 512 (replicate 512 7) RamDisk.two_parts =
    call_drv (drv_write 2 1 7 512 (replicate 512 7)) RamDisk.two_parts.
Proof.
  eapply (@bio_rw_in_partition armv7a test_defconfig _ RamDisk.ram_driver 1 3 512 (replicate 512 7)
    RamDisk.two_parts RamDisk.two_parts_wf); first [done | vm_compute; done].
Defined.

Lemma bio_write_wraps_outside_witness :
  @bio_write armv7a test_defconfig _ RamDisk.ram_driver 1 (2 ^ 32 - 4) 512 (replicate 512 7) RamDisk.two_parts =
    call_drv (drv_write 2 1 0 512 (replicate 512 7)) RamDisk.two_parts.
Proof.
  eapply (@bio_write_wraps_outside armv7a test_defconfig _ RamDisk.ram_driver 1 (replicate 512 7)
    RamDisk.two_parts RamDisk.two_parts_wf); first [done | vm_compute; done].
Defined.

Lemma bio_clear_set_flags_spec_witness :
  (@bio_get_flags test_defconfig _ 1
     (@bio_clear_set_flags test_defconfig _ 1 4 1 RamDisk.two_parts).2).1 = 0x61.
Proof.
  erewrite (proj1 (proj2 (@bio_clear_set_flags_spec armv7a test_defconfig _ 1 4 1
    RamDisk.two_parts RamDisk.two_parts_wf _ _))); [vm_compute; done | ..].
  all: first [lia | by vm_compute].
Unshelve.
  all: first [lia | by vm_compute].
Defined.
