(* ===== verification/BlockIface.v ===== *)
(** * The block layer as its clients see it

    The boot, A/B state, GPT and command mode code calls [src/bio.c] through
    [include/pb/bio.h].  [BlockOps] is that interface over an arbitrary world,
    [BlockLaws] what a client may rely on for devices backed by working
    storage.  [bio_block_ops] and [bio_block_laws] are the implementation:
    the operations of [Bio], on a driver that satisfies [DiskLaws]. *)

From S2P Require Import Prelude Errors Uuid Bio.
Local Open Scope c_scope.

(** ** The interface *)

Class BlockOps (W : Type) := {
  blk_find : option uuid_t -> M W Z;
  blk_valid : Z -> M W bool;
  blk_read : Z -> Z -> Z -> M W (Z * list Z);
  blk_write : Z -> Z -> Z -> list Z -> M W Z;
  blk_erase : Z -> Z -> Z -> M W Z;
  blk_clear_set_flags : Z -> Z -> Z -> M W Z;
  blk_get_flags : Z -> M W Z;
  blk_get_uu : Z -> M W (option uuid_t);
  blk_get_description : Z -> M W (option (list Z));
  blk_block_size : Z -> M W Z;
  blk_no_of_blocks : Z -> M W Z;
  blk_first_block : Z -> M W Z;
  blk_last_block : Z -> M W Z;
  blk_allocate_parent : Z -> Z -> Z -> Z -> uuid_t -> list Z -> M W Z;
  blk_set_install_cb : Z -> Z -> M W Z
}.

(** [bio_install_partition_table], which runs a callback a partition driver
    has registered for the device. *)
Class InstallOps (W : Type) := { blk_install : option uuid_t -> Z -> M W Z }.

(** The interface of a component inside of a larger world. *)
Definition lift_block_ops {S W} `{!Has S W, !BlockOps S} : BlockOps W := {|
  blk_find u := lift (blk_find u);
  blk_valid d := lift (blk_valid d);
  blk_read d lba len := lift (blk_read d lba len);
  blk_write d lba len buf := lift (blk_write d lba len buf);
  blk_erase d lba n := lift (blk_erase d lba n);
  blk_clear_set_flags d c s := lift (blk_clear_set_flags d c s);
  blk_get_flags d := lift (blk_get_flags d);
  blk_get_uu d := lift (blk_get_uu d);
  blk_get_description d := lift (blk_get_description d);
  blk_block_size d := lift (blk_block_size d);
  blk_no_of_blocks d := lift (blk_no_of_blocks d);
  blk_first_block d := lift (blk_first_block d);
  blk_last_block d := lift (blk_last_block d);
  blk_allocate_parent d f l bs u n := lift (blk_allocate_parent d f l bs u n);
  blk_set_install_cb d cb := lift (blk_set_install_cb d cb)
|}.

(** Two worlds that hold the same devices with the same contents. *)
Class BlockGhost (W : Type) := {
  blk_handle : W -> uuid_t -> Z;
  blk_unit : Z;
  blk_data : W -> Z -> list Z;
  blk_rw : W -> Z -> Prop;
  blk_disjoint : W -> Z -> Z -> Prop
}.

Record blk_same {W} `{BlockGhost W} (w w' : W) : Prop := {
  same_handle : forall u, blk_handle w' u = blk_handle w u;
  same_rw : forall d, blk_rw w d -> blk_rw w' d;
  same_disjoint : forall d d', blk_disjoint w d d' -> blk_disjoint w' d d'
}.

(** Accesses at the start of a device, in whole blocks. *)
Class BlockLaws (W : Type) `{BlockOps W, BlockGhost W} : Prop := {
  law_find : forall u w, uuid_wf u -> blk_find (Some u) w = (blk_handle w u, w);
  law_read : forall w d len,
    blk_rw w d -> 0 < len <= Z.of_nat (length (blk_data w d)) -> len mod blk_unit = 0 ->
    exists w', blk_read d 0 len w = ((PB_OK, take (Z.to_nat len) (blk_data w d)), w') /\
      blk_same w w' /\ forall d', blk_rw w d' -> blk_data w' d' = blk_data w d';
  law_write : forall w d buf,
    blk_rw w d -> 0 < Z.of_nat (length buf) <= Z.of_nat (length (blk_data w d)) ->
    Z.of_nat (length buf) mod blk_unit = 0 ->
    exists w', blk_write d 0 (Z.of_nat (length buf)) buf w = (PB_OK, w') /\
      blk_same w w' /\ blk_data w' d = splice 0 buf (blk_data w d) /\
      forall d', blk_rw w d' -> blk_disjoint w d d' -> blk_data w' d' = blk_data w d';
  law_flags : forall w d c s, 0 <= s < 2 ^ 16 ->
    exists rc w', blk_clear_set_flags d c s w = (rc, w') /\
      blk_same w w' /\ forall d', blk_rw w d' -> blk_data w' d' = blk_data w d'
}.

Lemma blk_same_refl {W} `{BlockGhost W} (w : W) : blk_same w w.
Proof. by split. Qed.

Lemma blk_same_trans {W} `{BlockGhost W} (w1 w2 w3 : W) :
  blk_same w1 w2 -> blk_same w2 w3 -> blk_same w1 w3.
Proof.
  intros [h1 r1 d1] [h2 r2 d2]. split; auto. intros u. by rewrite h2, h1.
Qed.
#[export] Hint Resolve blk_same_refl blk_same_trans : pb.

(** ** The implementation *)

Section impl.
Context {arch : Arch} {kc : Kconfig} {HW : Type} {drv : BioDriver HW}.

#[export] Instance bio_block_ops : BlockOps (bio_state HW) := {|
  blk_find := bio_get_part_by_uu;
  blk_valid := bio_valid;
  blk_read := bio_read;
  blk_write := bio_write;
  blk_erase := bio_erase;
  blk_clear_set_flags := bio_clear_set_flags;
  blk_get_flags := bio_get_flags;
  blk_get_uu := bio_get_uu;
  blk_get_description := bio_get_description;
  blk_block_size := bio_block_size;
  blk_no_of_blocks := bio_get_no_of_blocks;
  blk_first_block := bio_get_first_block;
  blk_last_block := bio_get_last_block;
  blk_allocate_parent := bio_allocate_parent;
  blk_set_install_cb := bio_set_install_partition_cb
|}.

Definition bio_install_ops {W} `{!Has (bio_state HW) W} (call_cb : fptr -> Z -> Z -> M W Z) : InstallOps W :=
  {| blk_install := bio_install_partition_table call_cb |}.

(** A driver over a linear array of bytes in blocks of [disk_unit] bytes:
    whole-block reads return the stored bytes, whole-block writes replace
    them. *)
Class DiskLaws := {
  disk_unit : Z;
  disk_unit_pos : 0 < disk_unit < 2 ^ ptr_bits;
  disk_bytes : HW -> list Z;
  disk_drv_read : forall f dev lba len h,
    0 <= lba -> 0 < len -> len mod disk_unit = 0 ->
    lba * disk_unit + len <= Z.of_nat (length (disk_bytes h)) ->
    exists h', drv_read f dev lba len h =
      ((PB_OK, slice (Z.to_nat (lba * disk_unit)) (Z.to_nat len) (disk_bytes h)), h') /\
      disk_bytes h' = disk_bytes h;
  disk_drv_write : forall f dev lba buf h,
    0 <= lba -> 0 < Z.of_nat (length buf) -> Z.of_nat (length buf) mod disk_unit = 0 ->
    lba * disk_unit + Z.of_nat (length buf) <= Z.of_nat (length (disk_bytes h)) ->
    exists h', drv_write f dev lba (Z.of_nat (length buf)) buf h = (PB_OK, h') /\
      disk_bytes h' = splice (Z.to_nat (lba * disk_unit)) buf (disk_bytes h)
}.

Context {dl : DiskLaws}.

(** The bytes of a device on the disk, and devices that are usable: allocated,
    with both callbacks and a block range that lies on the disk. *)
Definition dev_off (d : bio_device) : nat := Z.to_nat (first_lba d * disk_unit).
Definition dev_len (d : bio_device) : nat := Z.to_nat ((last_lba d - first_lba d + 1) * disk_unit).

Definition bio_data (s : bio_state HW) (dev : Z) : list Z :=
  slice (dev_off (dev_at s dev)) (dev_len (dev_at s dev)) (disk_bytes (bio_hw s)).

Definition bio_rw (s : bio_state HW) (dev : Z) : Prop :=
  bio_wf s /\ dev_ok s dev = true /\ read (dev_at s dev) <> NULL /\ write (dev_at s dev) <> NULL /\
  block_sz (dev_at s dev) = disk_unit /\ last_lba (dev_at s dev) < 2 ^ 32 - 1 /\
  (last_lba (dev_at s dev) + 1) * disk_unit <= Z.of_nat (length (disk_bytes (bio_hw s))) /\
  Z.of_nat (length (disk_bytes (bio_hw s))) < 2 ^ ptr_bits.

Definition bio_disjoint (s : bio_state HW) (d d' : Z) : Prop :=
  last_lba (dev_at s d) < first_lba (dev_at s d') \/
  last_lba (dev_at s d') < first_lba (dev_at s d).

#[export] Instance bio_ghost : BlockGhost (bio_state HW) := {|
  blk_handle s u := find_uu u (bio_pool s) 0;
  blk_unit := disk_unit;
  blk_data := bio_data;
  blk_rw := bio_rw;
  blk_disjoint := bio_disjoint
|}.

Lemma length_bio_data s dev :
  bio_rw s dev -> Z.of_nat (length (bio_data s dev)) =
    (last_lba (dev_at s dev) - first_lba (dev_at s dev) + 1) * disk_unit.
Proof.
  intros (Hwf & Hok & _ & _ & _ & _ & Hin & _).
  destruct (dev_ok_range s dev Hwf Hok) as (_ & _ & _ & _ & _ & Hf & _).
  pose proof disk_unit_pos. unfold bio_data, slice, dev_off, dev_len.
  rewrite length_take, length_drop. nia.
Qed.

(** Replacing the hardware by one with a disk of the same size keeps every
    usable device usable. *)
Lemma bio_rw_hw (s s' : bio_state HW) dev :
  bio_pool s' = bio_pool s -> n_bios s' = n_bios s ->
  length (disk_bytes (bio_hw s')) = length (disk_bytes (bio_hw s)) -> bio_rw s dev -> bio_rw s' dev.
Proof.
  intros Hp Hn Hl. unfold bio_rw, bio_wf, dev_ok, dev_at. by rewrite Hp, Hn, Hl.
Qed.

Lemma bio_same_hw (s s' : bio_state HW) :
  bio_pool s' = bio_pool s -> n_bios s' = n_bios s ->
  length (disk_bytes (bio_hw s')) = length (disk_bytes (bio_hw s)) -> blk_same s s'.
Proof.
  intros Hp Hn Hl. split; simpl.
  - intros u. by rewrite Hp.
  - intros d. by apply bio_rw_hw.
  - intros d d'. unfold bio_disjoint, dev_at. by rewrite Hp.
Qed.

Lemma bio_block_count dev len s :
  bio_rw s dev -> 0 < len <= Z.of_nat (length (bio_data s dev)) -> len mod disk_unit = 0 ->
  blocks_of (dev_at s dev) len = len / disk_unit /\
  first_lba (dev_at s dev) + len / disk_unit - 1 <= last_lba (dev_at s dev) /\
  first_lba (dev_at s dev) * disk_unit + len <= Z.of_nat (length (disk_bytes (bio_hw s))) /\
  len < 2 ^ ptr_bits /\ 0 <= first_lba (dev_at s dev).
Proof.
  intros Hrw Hlen Hmod. rewrite length_bio_data in Hlen by done.
  destruct Hrw as (Hwf & Hok & _ & _ & Hbs & Hll & Hin & Hsz).
  destruct (dev_ok_range s dev Hwf Hok) as (_ & _ & _ & _ & _ & Hf & _).
  pose proof disk_unit_pos. unfold blocks_of. rewrite Hbs.
  assert (Hne : disk_unit <> 0) by lia.
  pose proof (Z.div_mod len disk_unit Hne) as Hdm. rewrite Hmod in Hdm.
  replace (len + disk_unit - 1) with (disk_unit - 1 + (len / disk_unit) * disk_unit) by lia.
  rewrite Z.div_add, (Z.div_small (disk_unit - 1)) by lia.
  split_and!; nia.
Qed.

(** Whole blocks inside of a device, as a driver call. *)
Lemma bio_blocks_inside dev lba len s :
  bio_rw s dev -> 0 <= lba -> 0 < len -> len mod disk_unit = 0 ->
  first_lba (dev_at s dev) + lba + len / disk_unit - 1 <= last_lba (dev_at s dev) ->
  blocks_of (dev_at s dev) len = len / disk_unit /\ len < 2 ^ ptr_bits /\
  first_lba (dev_at s dev) + lba + len / disk_unit <= 2 ^ 32 /\ 0 <= first_lba (dev_at s dev) /\
  (first_lba (dev_at s dev) + lba) * disk_unit + len <= Z.of_nat (length (disk_bytes (bio_hw s))).
Proof.
  intros Hrw Hlba Hlen Hmod Hin. pose proof Hrw as (Hwf & Hok & _ & _ & Hbs & Hll & Hd & Hsz).
  destruct (dev_ok_range s dev Hwf Hok) as (_ & _ & _ & _ & _ & Hf & _). pose proof disk_unit_pos.
  assert (Hne : disk_unit <> 0) by lia. pose proof (Z.div_mod len disk_unit Hne) as Hdm.
  unfold blocks_of. rewrite Hbs.
  replace (len + disk_unit - 1) with (disk_unit - 1 + (len / disk_unit) * disk_unit) by lia.
  rewrite Z.div_add, (Z.div_small (disk_unit - 1)) by lia. split_and!; nia.
Qed.

Lemma bio_read_at dev lba len s :
  bio_rw s dev -> 0 <= lba -> 0 < len -> len mod disk_unit = 0 ->
  first_lba (dev_at s dev) + lba + len / disk_unit - 1 <= last_lba (dev_at s dev) ->
  exists h', bio_read dev lba len s =
    ((PB_OK, slice (Z.to_nat ((first_lba (dev_at s dev) + lba) * disk_unit)) (Z.to_nat len)
               (disk_bytes (bio_hw s))), BioState (bio_pool s) (n_bios s) h') /\
    disk_bytes h' = disk_bytes (bio_hw s).
Proof.
  intros Hrw Hlba Hlen Hmod Hin.
  destruct (bio_blocks_inside dev lba len s Hrw Hlba Hlen Hmod Hin) as (Hb & Hp & Hno & Hf & Hd).
  pose proof Hrw as (Hwf & Hok & Hrd & _).
  rewrite bio_read_branches by (done || lia || rewrite Hb; lia).
  rewrite (proj2 (Z.eqb_neq _ _) Hrd), Hb, (proj2 (Z.leb_le _ _) Hin).
  destruct (disk_drv_read (read (dev_at s dev)) dev (first_lba (dev_at s dev) + lba) len (bio_hw s))
    as (h' & E & Eh); [lia..|].
  exists h'. unfold call_drv. by rewrite E.
Qed.

Lemma bio_write_at dev lba buf s :
  let len := Z.of_nat (length buf) in
  bio_rw s dev -> 0 <= lba -> 0 < len -> len mod disk_unit = 0 ->
  first_lba (dev_at s dev) + lba + len / disk_unit - 1 <= last_lba (dev_at s dev) ->
  exists h', bio_write dev lba len buf s = (PB_OK, BioState (bio_pool s) (n_bios s) h') /\
    disk_bytes h' = splice (Z.to_nat ((first_lba (dev_at s dev) + lba) * disk_unit)) buf (disk_bytes (bio_hw s)) /\
    length (disk_bytes h') = length (disk_bytes (bio_hw s)).
Proof.
  intros len Hrw Hlba Hlen Hmod Hin.
  destruct (bio_blocks_inside dev lba len s Hrw Hlba Hlen Hmod Hin) as (Hb & Hp & Hno & Hf & Hd).
  pose proof Hrw as (Hwf & Hok & _ & Hwr & _). pose proof disk_unit_pos.
  rewrite bio_write_branches by (done || lia || rewrite Hb; lia).
  rewrite (proj2 (Z.eqb_neq _ _) Hwr), Hb, (proj2 (Z.leb_le _ _) Hin).
  destruct (disk_drv_write (write (dev_at s dev)) dev (first_lba (dev_at s dev) + lba) buf (bio_hw s))
    as (h' & E & Eh); [lia | done | done | done |].
  exists h'. unfold call_drv, len. rewrite E. split_and!; [done..|].
  rewrite Eh. apply length_splice. lia.
Qed.

Lemma bio_read_disk dev len s :
  bio_rw s dev -> 0 < len <= Z.of_nat (length (bio_data s dev)) -> len mod disk_unit = 0 ->
  exists h', bio_read dev 0 len s =
    ((PB_OK, take (Z.to_nat len) (bio_data s dev)), BioState (bio_pool s) (n_bios s) h') /\
    disk_bytes h' = disk_bytes (bio_hw s).
Proof.
  intros Hrw Hlen Hmod.
  destruct (bio_block_count dev len s Hrw Hlen Hmod) as (Hb & Hr & _).
  destruct (bio_read_at dev 0 len s) as (h' & -> & Eh); [done | lia.. | done | by rewrite Z.add_0_r |].
  exists h'. split; [|done]. do 3 f_equal. rewrite Z.add_0_r.
  unfold bio_data, slice, dev_off, dev_len. rewrite take_take. f_equal.
  rewrite length_bio_data in Hlen by done. lia.
Qed.

Lemma splice_at_front off n buf (l : list Z) :
  (off + n <= length l)%nat -> (length buf <= n)%nat ->
  slice off n (splice off buf l) = splice 0 buf (slice off n l).
Proof.
  intros Hl Hb. unfold slice, splice. simpl.
  rewrite drop_app_le, drop_ge by (rewrite length_take; lia). simpl.
  rewrite take_app_ge by lia. f_equal.
  rewrite skipn_firstn_comm, drop_drop. do 2 f_equal.
Qed.

Lemma bio_write_disk dev buf s :
  bio_rw s dev -> 0 < Z.of_nat (length buf) <= Z.of_nat (length (bio_data s dev)) ->
  Z.of_nat (length buf) mod disk_unit = 0 ->
  exists h', bio_write dev 0 (Z.of_nat (length buf)) buf s =
    (PB_OK, BioState (bio_pool s) (n_bios s) h') /\
    disk_bytes h' = splice (dev_off (dev_at s dev)) buf (disk_bytes (bio_hw s)).
Proof.
  intros Hrw Hlen Hmod.
  destruct (bio_block_count dev _ s Hrw Hlen Hmod) as (_ & Hr & _).
  destruct (bio_write_at dev 0 buf s) as (h' & E & Eh & _); [done | lia.. | done | by rewrite Z.add_0_r |].
  rewrite Z.add_0_r in Eh. by exists h'.
Qed.

(** Whole-block writes anywhere in a device stay inside it. *)
Lemma bio_write_confined dev lba buf s :
  let len := Z.of_nat (length buf) in
  bio_rw s dev -> 0 <= lba -> 0 < len < 2 ^ ptr_bits -> len mod disk_unit = 0 ->
  first_lba (dev_at s dev) + lba + len / disk_unit <= 2 ^ 32 ->
  exists rc h', bio_write dev lba len buf s = (rc, BioState (bio_pool s) (n_bios s) h') /\
    (rc = PB_OK -> disk_bytes h' =
       splice (dev_off (dev_at s dev) + Z.to_nat (lba * disk_unit)) buf (disk_bytes (bio_hw s))) /\
    forall off n, (off + n <= dev_off (dev_at s dev) \/ dev_off (dev_at s dev) + dev_len (dev_at s dev) <= off)%nat ->
      slice off n (disk_bytes h') = slice off n (disk_bytes (bio_hw s)).
Proof.
  intros len Hrw Hlba Hlen Hmod Hno. pose proof Hrw as (Hwf & Hok & _ & Hwr & Hbs & Hll & Hin & _).
  destruct (dev_ok_range s dev Hwf Hok) as (_ & _ & _ & _ & _ & Hf & _). pose proof disk_unit_pos.
  assert (Hne : disk_unit <> 0) by lia.
  assert (Hb : blocks_of (dev_at s dev) len = len / disk_unit).
  { unfold blocks_of. rewrite Hbs. pose proof (Z.div_mod len disk_unit Hne).
    replace (len + disk_unit - 1) with (disk_unit - 1 + (len / disk_unit) * disk_unit) by lia.
    rewrite Z.div_add, (Z.div_small (disk_unit - 1)) by lia. lia. }
  rewrite bio_write_branches by (done || rewrite Hb; lia). rewrite (proj2 (Z.eqb_neq _ _) Hwr), Hb.
  destruct (Z.leb_spec (first_lba (dev_at s dev) + lba + len / disk_unit - 1) (last_lba (dev_at s dev))) as [Hi|Hi].
  2:{ exists (- PB_ERR_IO), (bio_hw s). split_and!; [by destruct s | done | done]. }
  assert (Hq : len = len / disk_unit * disk_unit) by (pose proof (Z.div_mod len disk_unit Hne); lia).
  assert (Hend : (first_lba (dev_at s dev) + lba) * disk_unit + len <=
                 (last_lba (dev_at s dev) + 1) * disk_unit) by nia.
  destruct (disk_drv_write (write (dev_at s dev)) dev (first_lba (dev_at s dev) + lba) buf (bio_hw s))
    as (h' & E & Eh); [lia | lia | done | lia |].
  exists PB_OK, h'. unfold call_drv, len. rewrite E.
  assert (Ho : Z.to_nat ((first_lba (dev_at s dev) + lba) * disk_unit) =
               (dev_off (dev_at s dev) + Z.to_nat (lba * disk_unit))%nat) by (unfold dev_off; nia).
  split_and!; [done | by rewrite <- Ho |]. rewrite Eh. intros off n Hoff.
  unfold dev_off, dev_len in Hoff. apply splice_elsewhere; nia.
Qed.

(** Changing the flags of a device changes nothing a client can read or
    write through the interface. *)
Lemma dev_at_set_flags dev v (s : bio_state HW) d' :
  let s' := (upd_dev dev (set_flags_f v) s).2 in
  dev_at s' d' = dev_at s d' \/ dev_at s' d' = set_flags_f v (dev_at s d').
Proof.
  unfold upd_dev, dev_at. m_unfold. simpl. rewrite list_lookup_alter. case_decide as E; [rewrite E|by left].
  destruct (bio_pool s !! Z.to_nat d'); [by right | by left].
Qed.

Lemma find_uu_set_flags u v pool i k :
  find_uu u (alter (set_flags_f v) k pool) i = find_uu u pool i.
Proof.
  revert i k. induction pool as [|d pool IH]; intros i k; [done|].
  destruct k as [|k]; [done|]. simpl. repeat case_if; [done..|apply IH].
Qed.

Lemma bio_flags_same dev c fl s :
  blk_same s (bio_clear_set_flags dev c fl s).2 /\
  forall d', bio_data (bio_clear_set_flags dev c fl s).2 d' = bio_data s d'.
Proof.
  rewrite bio_clear_set_flags_cases. destruct (dev_ok s dev) eqn:Hok; [|by split; [apply blk_same_refl|]].
  set (v := u16 _). assert (Hv : 0 <= v < 2 ^ 16) by (apply Z.mod_pos_bound; lia).
  clearbody v. pose proof (fun Hv => bio_set_flags_wf dev v s Hv) as Hwf.
  rewrite bio_set_flags_upd in Hwf |- * by done. set (w := Z.lor _ _) in *.
  pose proof (dev_at_set_flags dev w s) as Hat. cbv zeta in Hat.
  pose proof (fun u => find_uu_set_flags u w (bio_pool s) 0 (Z.to_nat dev)) as Hf.
  set (s' := (upd_dev dev (set_flags_f w) s).2) in *.
  change ((PB_OK, s').2) with s' in *. split; [split|].
  - intros u. apply Hf.
  - intros d (Hw & H). unfold bio_rw, dev_ok in *. split; [by apply Hwf|].
    unfold dev_ok. by destruct (Hat d) as [-> | ->].
  - intros d d' H. unfold blk_disjoint, bio_ghost, bio_disjoint in *.
    by destruct (Hat d) as [-> | ->], (Hat d') as [-> | ->].
  - intros d'. unfold bio_data. by destruct (Hat d') as [-> | ->].
Qed.

(** The block layer keeps the promises of the interface. *)
#[export] Instance bio_block_laws : BlockLaws (bio_state HW).
Proof.
  pose proof disk_unit_pos as Hu. split.
  - done.
  - simpl. intros s dev len Hrw Hlen Hmod.
    destruct (bio_read_disk dev len s Hrw Hlen Hmod) as (h' & -> & Eh).
    eexists. split; [done|]. split; [apply bio_same_hw; simpl; by rewrite ?Eh|].
    intros d' _. unfold bio_data, dev_at. simpl. by rewrite Eh.
  - simpl. intros s dev buf Hrw Hlen Hmod.
    destruct (bio_write_disk dev buf s Hrw Hlen Hmod) as (h' & -> & Eh).
    destruct (bio_block_count dev _ s Hrw Hlen Hmod) as (_ & _ & Hd & _ & Hf).
    pose proof (length_bio_data s dev Hrw) as Hl.
    assert (Hoff : (dev_off (dev_at s dev) + length buf <= length (disk_bytes (bio_hw s)))%nat)
      by (unfold dev_off; lia).
    pose proof Hrw as (_ & _ & _ & _ & _ & _ & Hin & _).
    eexists. split; [done|]. split_and!.
    + apply bio_same_hw; simpl; rewrite ?Eh; [done..|by rewrite length_splice].
    + unfold bio_data, dev_at in *. simpl. rewrite Eh. apply splice_at_front.
      * unfold dev_off, dev_len. nia.
      * unfold dev_len. lia.
    + intros d' Hrw' Hdis. unfold bio_data, dev_at in *. simpl. rewrite Eh.
      apply splice_elsewhere; [done|].
      pose proof (length_bio_data s d' Hrw') as Hl'. unfold bio_data, dev_at in Hl'.
      destruct Hrw' as (Hwf' & Hok' & _).
      destruct (dev_ok_range s d' Hwf' Hok') as (_ & _ & _ & _ & _ & Hf' & _).
      unfold dev_off, dev_len, bio_disjoint, dev_at in *. nia.
  - simpl. intros s d c fl Hfl. destruct (bio_flags_same d c fl s) as [Hs Hd].
    destruct (bio_clear_set_flags d c fl s) as [rc s'] eqn:E. eauto.
Qed.
End impl.

(** ** The RAM disk is such a driver *)

Lemma in_disk_true h lba len :
  0 <= lba -> 0 <= len -> lba * 512 + len <= Z.of_nat (length h) -> RamDisk.in_disk h lba len = true.
Proof.
  intros. unfold RamDisk.in_disk. by rewrite !(proj2 (Z.leb_le _ _)).
Qed.

#[export] Instance ram_laws {arch : Arch} : @DiskLaws arch RamDisk.disk RamDisk.ram_driver.
Proof.
  refine {| disk_unit := 512; disk_bytes h := h |}.
  - pose proof ptr_bits_ge32. lia.
  - intros f dev lba len h H1 H2 _ H3. exists h. simpl. by rewrite in_disk_true by lia.
  - intros f dev lba buf h H1 H2 _ H3. eexists. simpl. rewrite in_disk_true by lia.
    split; [done|]. by rewrite Nat2Z.id, firstn_all.
Defined.
