(* ===== verification/Gpt.v ===== *)
(** * GPT partition tables

    [src/drivers/partition/gpt.c]: reading, repairing and installing GUID
    partition tables.  The two static tables [primary] and [backup] lie in
    memory at [primary_at] and [backup_at], since [no_of_parts] and the number
    of entries come from the disk and the code computes addresses from them;
    the other static variables are [gpt_vars]. *)

From S2P Require Import Prelude Errors Ram Crc Uuid Bio BlockIface.
Local Open Scope c_scope.

(** ** Data *)

Definition GPT_HEADER_RSZ : nat := 420.
Definition GPT_PART_NAME_MAX_SIZE : nat := 36.
Definition PB_GPT_ATTR_OK : Z := Z.shiftl 1 7.
Definition gpt_header_signature : Z := 0x5452415020494645.

Record gpt_header := GptHeader {
  gh_signature : Z; gh_rev : Z; gh_hdr_sz : Z; gh_hdr_crc : Z; gh_reserved : Z;
  gh_current_lba : Z; gh_backup_lba : Z; gh_first_lba : Z; gh_last_lba : Z;
  gh_disk_uuid : list Z; gh_entries_start_lba : Z; gh_no_of_parts : Z;
  gh_part_entry_sz : Z; gh_part_array_crc : Z; gh_reserved2 : list Z
}.

Definition gpt_header_c : codec gpt_header :=
  c_iso (fun h => (gh_signature h, (gh_rev h, (gh_hdr_sz h, (gh_hdr_crc h, (gh_reserved h,
           (gh_current_lba h, (gh_backup_lba h, (gh_first_lba h, (gh_last_lba h, (gh_disk_uuid h,
           (gh_entries_start_lba h, (gh_no_of_parts h, (gh_part_entry_sz h, (gh_part_array_crc h,
            gh_reserved2 h)))))))))))))))
        (fun '(a, (b, (c, (d, (e, (f, (g, (h, (i, (j, (k, (l, (m, (n, o)))))))))))))) =>
           GptHeader a b c d e f g h i j k l m n o)
        (u64c ⊗ u32c ⊗ u32c ⊗ u32c ⊗ u32c ⊗ u64c ⊗ u64c ⊗ u64c ⊗ u64c ⊗ c_raw 16 ⊗ u64c ⊗ u32c ⊗
         u32c ⊗ u32c ⊗ c_raw GPT_HEADER_RSZ)%codec.

#[export] Instance gpt_header_c_ok : CodecOK gpt_header_c.
Proof. solve_struct. Qed.

Record gpt_part_hdr := GptPart {
  gp_type_uuid : list Z; gp_uuid : list Z; gp_first_lba : Z; gp_last_lba : Z;
  gp_attr : list Z; gp_name : list Z
}.

Definition gpt_part_hdr_c : codec gpt_part_hdr :=
  c_iso (fun p => (gp_type_uuid p, (gp_uuid p, (gp_first_lba p, (gp_last_lba p, (gp_attr p, gp_name p))))))
        (fun '(t, (u, (f, (l, (a, n))))) => GptPart t u f l a n)
        (c_raw 16 ⊗ c_raw 16 ⊗ u64c ⊗ u64c ⊗ c_raw 8 ⊗ c_raw (GPT_PART_NAME_MAX_SIZE * 2))%codec.

#[export] Instance gpt_part_hdr_c_ok : CodecOK gpt_part_hdr_c.
Proof. solve_struct. Qed.

(** Assignments to header fields. *)
Definition set_hdr_crc (c : Z) (h : gpt_header) : gpt_header :=
  GptHeader (gh_signature h) (gh_rev h) (gh_hdr_sz h) c (gh_reserved h) (gh_current_lba h)
    (gh_backup_lba h) (gh_first_lba h) (gh_last_lba h) (gh_disk_uuid h) (gh_entries_start_lba h)
    (gh_no_of_parts h) (gh_part_entry_sz h) (gh_part_array_crc h) (gh_reserved2 h).
Definition set_array_crc (c : Z) (h : gpt_header) : gpt_header :=
  GptHeader (gh_signature h) (gh_rev h) (gh_hdr_sz h) (gh_hdr_crc h) (gh_reserved h) (gh_current_lba h)
    (gh_backup_lba h) (gh_first_lba h) (gh_last_lba h) (gh_disk_uuid h) (gh_entries_start_lba h)
    (gh_no_of_parts h) (gh_part_entry_sz h) c (gh_reserved2 h).
Definition set_place (backup_lba current_lba entries_start_lba : Z) (h : gpt_header) : gpt_header :=
  GptHeader (gh_signature h) (gh_rev h) (gh_hdr_sz h) (gh_hdr_crc h) (gh_reserved h) current_lba
    backup_lba (gh_first_lba h) (gh_last_lba h) (gh_disk_uuid h) entries_start_lba
    (gh_no_of_parts h) (gh_part_entry_sz h) (gh_part_array_crc h) (gh_reserved2 h).

Definition zero_gpt_part : gpt_part_hdr := GptPart (zeros 16) (zeros 16) 0 0 (zeros 8) (zeros 72).

(** [include/drivers/partition/gpt.h]: a pointer and a length is a list. *)
Record gpt_part_table := PartEntry { pt_uu : uuid_t; pt_description : list Z; pt_size : Z }.
Record gpt_table_list := TableList { tl_name : list Z; tl_variant : Z; tl_table : list gpt_part_table }.

(** The static variables besides the two tables. *)
Record gpt_vars := GptVars {
  prng_state : Z;
  gpt_pmbr : list Z;
  gpt_dev : bio_dev_t;
  tables : list gpt_table_list
}.

(** Where the linker put the tables, and the address of the install callback. *)
Class GptStatics := {
  primary_at : Z;
  backup_at : Z;
  gpt_install_cb : fptr
}.

Record gpt_world (HW T : Type) := GptWorld {
  g_bio : bio_state HW;
  g_mem : ram_t;
  g_v : gpt_vars;
  g_clk : T
}.
Arguments GptWorld {HW T}.
Arguments g_bio {HW T}.
Arguments g_mem {HW T}.
Arguments g_v {HW T}.
Arguments g_clk {HW T}.

#[export] Instance gpt_has_bio {HW T} : Has (bio_state HW) (gpt_world HW T) :=
  {| proj := g_bio; upd b w := GptWorld b (g_mem w) (g_v w) (g_clk w) |}.
#[export] Instance gpt_has_clk {HW T} : Has T (gpt_world HW T) | 10 :=
  {| proj := g_clk; upd t w := GptWorld (g_bio w) (g_mem w) (g_v w) t |}.

(** ** Operations *)

Definition efi_crc32 (buf : list Z) : Z := Z.lxor (crc32 0xffffffff buf) 0xffffffff.

(** [sizeof(struct gpt_part_hdr) * n] *)
Definition parts_bytes `{Arch} (n : Z) : Z := usz (n * sizeof gpt_part_hdr_c).

Section gpt.
Context {arch : Arch} {kc : Kconfig} {HW T : Type} {drv : BioDriver HW} {st : GptStatics}
  (plat_get_us_tick : M T Z).
Abbreviation W := (gpt_world HW T).
Abbreviation G := (M W).

Definition on_bio {A} (m : M (bio_state HW) A) : G A := lift m.

Definition mem_write (a : Z) (bs : list Z) : G unit :=
  modify (fun w => GptWorld (g_bio w) (ram_write a bs (g_mem w)) (g_v w) (g_clk w)).
Definition mem_read (a n : Z) : G (list Z) := gets (fun w => ram_read (g_mem w) a (Z.to_nat n)).
(** [memcpy(dst, src, n)] *)
Definition mem_copy (dst src n : Z) : G unit := bs <- mem_read src n ;; mem_write dst bs.
Definition mod_v (f : gpt_vars -> gpt_vars) : G unit :=
  modify (fun w => GptWorld (g_bio w) (g_mem w) (f (g_v w)) (g_clk w)).

(** Structs behind a pointer. *)
Definition hdr_of (m : ram_t) (a : Z) : gpt_header := decode gpt_header_c (ram_read m a (csize gpt_header_c)).
Definition part_of (m : ram_t) (a : Z) : gpt_part_hdr := decode gpt_part_hdr_c (ram_read m a (csize gpt_part_hdr_c)).
Definition get_hdr (a : Z) : G gpt_header := gets (fun w => hdr_of (g_mem w) a).
Definition mod_hdr (a : Z) (f : gpt_header -> gpt_header) : G unit :=
  h <- get_hdr a ;; mem_write a (cenc gpt_header_c (f h)).
Definition get_part (a : Z) : G gpt_part_hdr := gets (fun w => part_of (g_mem w) a).
Definition mod_part (a : Z) (f : gpt_part_hdr -> gpt_part_hdr) : G unit :=
  p <- get_part a ;; mem_write a (cenc gpt_part_hdr_c (f p)).

(** The members of [struct gpt_primary_tbl] and [struct gpt_backup_tbl]. *)
Definition TABLE_BYTES : Z := sizeof gpt_header_c + 128 * sizeof gpt_part_hdr_c.
Definition primary_hdr : Z := primary_at.
Definition primary_part (i : Z) : Z := primary_at + sizeof gpt_header_c + i * sizeof gpt_part_hdr_c.
Definition backup_part (i : Z) : Z := backup_at + i * sizeof gpt_part_hdr_c.
Definition backup_hdr : Z := backup_at + 128 * sizeof gpt_part_hdr_c.

(** The shifts of a negative [int] are those of the two's complement machine. *)
Definition gpt_prng : G Z :=
  w <- get ;;
  let x := prng_state (g_v w) in
  let x := Z.lxor x (s32 (Z.shiftl x 13)) in
  let x := Z.lxor x (Z.shiftr x 17) in
  let x := Z.lxor x (s32 (Z.shiftl x 5)) in
  mod_v (fun v => GptVars x (gpt_pmbr v) (gpt_dev v) (tables v)) ;;;
  ret x.

Definition gpt_has_valid_header (hdr : Z) : G Z :=
  h <- get_hdr hdr ;;
  if negb (gh_signature h =? gpt_header_signature) then ret PB_ERR else
  let crc_tmp := gh_hdr_crc h in
  mod_hdr hdr (set_hdr_crc 0) ;;;
  bs <- mem_read hdr (sizeof gpt_header_c - Z.of_nat GPT_HEADER_RSZ) ;;
  if negb (efi_crc32 bs =? crc_tmp) then ret PB_ERR else
  mod_hdr hdr (set_hdr_crc crc_tmp) ;;;
  ret PB_OK.

Definition gpt_has_valid_part_array (hdr part : Z) : G Z :=
  h <- get_hdr hdr ;;
  let crc_tmp := gh_part_array_crc h in
  bs <- mem_read part (u32 (parts_bytes (gh_no_of_parts h))) ;;
  if negb (efi_crc32 bs =? crc_tmp) then ret PB_ERR else
  mod_hdr hdr (set_array_crc crc_tmp) ;;;
  ret PB_OK.

Definition gpt_is_valid (hdr part : Z) : G Z :=
  rc <- gpt_has_valid_header hdr ;;
  if negb (rc =? PB_OK) then ret PB_ERR else
  rc <- gpt_has_valid_part_array hdr part ;;
  if negb (rc =? PB_OK) then ret PB_ERR else
  ret PB_OK.

(** [for (i = 0; i < membersof(hdr->disk_uuid); i++) ... = gpt_prng()] *)
Fixpoint prng_bytes (n : nat) : G (list Z) :=
  match n with
  | O => ret []
  | S n => x <- gpt_prng ;; l <- prng_bytes n ;; ret (u8 x :: l)
  end.

Definition gpt_init_tbl (dev : bio_dev_t) : G Z :=
  last <- on_bio (bio_get_last_block dev) ;;
  let last_lba := u32 last in
  tick <- lift plat_get_us_tick ;;
  mod_v (fun v => GptVars (s32 tick) (gpt_pmbr v) (gpt_dev v) (tables v)) ;;;
  mem_write primary_at (zeros (Z.to_nat TABLE_BYTES)) ;;;
  mem_write backup_at (zeros (Z.to_nat TABLE_BYTES)) ;;;
  mod_hdr primary_hdr (fun h =>
    GptHeader gpt_header_signature 0x00010000 (sizeof gpt_header_c - Z.of_nat GPT_HEADER_RSZ)
      (gh_hdr_crc h) (gh_reserved h) 1 last_lba (u64 (1 + 1 + parts_bytes 128 / 512))
      (usz (last_lba - parts_bytes 128 / 512)) (gh_disk_uuid h) (1 + 1) 128
      (sizeof gpt_part_hdr_c) (gh_part_array_crc h) (gh_reserved2 h)) ;;;
  uu <- prng_bytes 16 ;;
  mod_hdr primary_hdr (fun h =>
    GptHeader (gh_signature h) (gh_rev h) (gh_hdr_sz h) (gh_hdr_crc h) (gh_reserved h)
      (gh_current_lba h) (gh_backup_lba h) (gh_first_lba h) (gh_last_lba h) uu
      (gh_entries_start_lba h) (gh_no_of_parts h) (gh_part_entry_sz h) (gh_part_array_crc h)
      (gh_reserved2 h)) ;;;
  ret PB_OK.

(** The UTF-16 form of a name: every character followed by a zero. *)
Definition utf16 (name : list Z) : list Z := concat (map (fun c => [c; 0]) name).

Definition gpt_add_part (part_idx no_of_blocks : Z) (type_uuid : uuid_t) (part_name : list Z) : G Z :=
  let part := primary_part part_idx in
  mem_write part (zeros (csize gpt_part_hdr_c)) ;;;
  hdr <- get_hdr primary_hdr ;;
  prev_part <- get_part (primary_part (part_idx - 1)) ;;
  let first := if part_idx =? 0 then gh_first_lba hdr else u64 (gp_last_lba prev_part + 1) in
  let last := u64 (first + no_of_blocks - 1) in
  mod_part part (fun p => GptPart (gp_type_uuid p) (gp_uuid p) first last (gp_attr p) (gp_name p)) ;;;
  hdr <- get_hdr primary_hdr ;;
  if gh_last_lba hdr <=? last then ret (- PB_ERR_MEM) else
  if Z.of_nat GPT_PART_NAME_MAX_SIZE <? Z.of_nat (length part_name) then ret (- PB_ERR) else
  mod_part part (fun p =>
    GptPart type_uuid type_uuid (gp_first_lba p) (gp_last_lba p)
      (<[6%nat := PB_GPT_ATTR_OK]> (<[7%nat := 0x80]> (gp_attr p)))
      (splice 0 (utf16 part_name) (gp_name p))) ;;;
  mem_copy (backup_part part_idx) part (sizeof gpt_part_hdr_c) ;;;
  ret PB_OK.

(** The protective master boot record for a disk that ends at block [llba]. *)
Definition pmbr (llba : Z) : list Z :=
  splice 510 [0x55; 0xAA] (splice 458 (le_bytes 4 llba)
    (splice 448 [2; 0; 0xEE; 0xFF; 0xFF; 0xFF; 0x01] (zeros 512))).

(** The two checksums of a table: the array's, then the header's. *)
Definition seal_table (hdr part : Z) : G unit :=
  h <- get_hdr hdr ;;
  mod_hdr hdr (set_hdr_crc 0) ;;;
  bs <- mem_read part (u32 (parts_bytes (gh_no_of_parts h))) ;;
  mod_hdr hdr (set_array_crc (efi_crc32 bs)) ;;;
  bs <- mem_read hdr (sizeof gpt_header_c - Z.of_nat GPT_HEADER_RSZ) ;;
  mod_hdr hdr (set_hdr_crc (efi_crc32 bs)).

(** The second half of [gpt_write_tbl]: the backup table. *)
Definition write_backup_tbl (dev : bio_dev_t) (no_of_parts : Z) : G Z :=
  mem_copy backup_hdr primary_hdr (sizeof gpt_header_c) ;;;
  mem_copy (backup_part 0) (primary_part 0) (parts_bytes no_of_parts) ;;;
  last <- on_bio (bio_get_last_block dev) ;;
  bsz <- on_bio (bio_block_size dev) ;;
  let last_lba := u64 last in
  hp <- get_hdr primary_hdr ;;
  mod_hdr backup_hdr (fun b =>
    set_place (gh_current_lba hp) last_lba
      (u64 (last_lba - parts_bytes (gh_no_of_parts b) / usz bsz)) b) ;;;
  seal_table backup_hdr (backup_part 0) ;;;
  h <- get_hdr backup_hdr ;;
  bs <- mem_read backup_at TABLE_BYTES ;;
  on_bio (bio_write dev (u32 (gh_entries_start_lba h)) TABLE_BYTES bs).

Definition gpt_write_tbl (dev : bio_dev_t) : G Z :=
  seal_table primary_hdr (primary_part 0) ;;;
  llba <- on_bio (bio_get_last_block dev) ;;
  mod_v (fun v => GptVars (prng_state v) (pmbr (u32 llba)) (gpt_dev v) (tables v)) ;;;
  w <- get ;;
  err <- on_bio (bio_write dev 0 512 (gpt_pmbr (g_v w))) ;;
  if negb (u32 err =? PB_OK) then ret (s32 (u32 err)) else
  h <- get_hdr primary_hdr ;;
  bs <- mem_read primary_at TABLE_BYTES ;;
  err <- on_bio (bio_write dev (u32 (gh_current_lba h)) TABLE_BYTES bs) ;;
  if negb (u32 err =? PB_OK) then ret (s32 (u32 err)) else
  write_backup_tbl dev (gh_no_of_parts h).

(** The loop over the entries of a table, from index [part_idx]. *)
Fixpoint add_parts (dev : bio_dev_t) (part_idx : Z) (ents : list gpt_part_table) : G Z :=
  match ents with
  | [] => gpt_write_tbl dev
  | ent :: ents =>
      bsz <- on_bio (bio_block_size dev) ;;
      rc <- gpt_add_part part_idx (u32 (pt_size ent / usz bsz)) (uuid_to_guid (pt_uu ent)) (pt_description ent) ;;
      if negb (rc =? PB_OK) then ret rc else add_parts dev (part_idx + 1) ents
  end.

Definition gpt_install_partition_table (dev : bio_dev_t) (variant : Z) : G Z :=
  w <- get ;;
  if (variant <? 0) || (Z.of_nat (length (tables (g_v w))) <=? variant) then ret (- PB_ERR_PARAM) else
  match tables (g_v w) !! Z.to_nat variant with
  | None => ret (- PB_ERR_PARAM)
  | Some tbl =>
      rc <- gpt_init_tbl dev ;;
      if negb (rc =? PB_OK) then ret rc else
      add_parts dev 0 (tl_table tbl)
  end.

(** [name[i] = p->name[2 * i]] for 36 characters, as a C string. *)
Definition part_name_of (p : gpt_part_hdr) : list Z :=
  c_string (map (fun i => default 0 (gp_name p !! (2 * i)%nat)) (seq 0 36)).

(** The loop that registers the partitions: [None] if [fuel] was not enough. *)
Fixpoint register_parts (fuel : nat) (dev : bio_dev_t) (i : Z) : G (option Z) :=
  match fuel with
  | O => ret None
  | S fuel =>
      p <- get_part (primary_part i) ;;
      if gp_first_lba p =? 0 then ret (Some PB_OK) else
      bsz <- on_bio (bio_block_size dev) ;;
      new_dev <- on_bio (bio_allocate_parent dev (u32 (gp_first_lba p)) (u32 (gp_last_lba p)) (usz bsz)
                           (uuid_to_guid (gp_uuid p)) (part_name_of p)) ;;
      if new_dev <? 0 then ret (Some new_dev) else register_parts fuel dev (i + 1)
  end.

Definition register_fuel : nat := S (Z.to_nat CONFIG_BIO_MAX_DEVS).

(** The recovery of the primary table from the backup. *)
Definition recover_primary (dev : bio_dev_t) : G Z :=
  rc <- gpt_has_valid_header backup_hdr ;;
  if negb (rc =? PB_OK) then ret (- PB_ERR) else
  rc <- gpt_has_valid_part_array backup_hdr (backup_part 0) ;;
  if negb (rc =? PB_OK) then ret (- PB_ERR) else
  mem_copy primary_hdr backup_hdr (sizeof gpt_header_c) ;;;
  hb <- get_hdr backup_hdr ;;
  mem_copy (primary_part 0) (backup_part 0) (parts_bytes (gh_no_of_parts hb)) ;;;
  last <- on_bio (bio_get_last_block dev) ;;
  mod_hdr primary_hdr (set_place (u64 last) 1 (1 + 1)) ;;;
  rc <- gpt_write_tbl dev ;;
  if negb (rc =? PB_OK) then ret (- PB_ERR) else ret PB_OK.

(** The recovery of the backup table from the primary. *)
Definition recover_backup (dev : bio_dev_t) : G Z :=
  rc <- gpt_has_valid_header primary_hdr ;;
  if negb (rc =? PB_OK) then ret (- PB_ERR) else
  rc <- gpt_has_valid_part_array primary_hdr (primary_part 0) ;;
  if negb (rc =? PB_OK) then ret (- PB_ERR) else
  mem_copy backup_hdr primary_hdr (sizeof gpt_header_c) ;;;
  hp <- get_hdr primary_hdr ;;
  mem_copy (backup_part 0) (primary_part 0) (parts_bytes (gh_no_of_parts hp)) ;;;
  last <- on_bio (bio_get_last_block dev) ;;
  mod_hdr backup_hdr (fun h =>
    set_place 1 (u64 last) (u64 (u64 last - parts_bytes (gh_no_of_parts h) / 512)) h) ;;;
  rc <- gpt_write_tbl dev ;;
  if negb (rc =? PB_OK) then ret (- PB_ERR) else ret PB_OK.

(** The validation of both tables and their repair. *)
Definition check_tables (dev : bio_dev_t) : G Z :=
  rc <- gpt_is_valid primary_hdr (primary_part 0) ;;
  rc <- (if negb (rc =? PB_OK) then recover_primary dev else ret PB_OK) ;;
  if negb (rc =? PB_OK) then ret rc else
  rc <- gpt_is_valid backup_hdr (backup_part 0) ;;
  if negb (rc =? PB_OK) then recover_backup dev else ret PB_OK.

Definition gpt_ptbl_init (dev : bio_dev_t) (default_tables : list gpt_table_list) : G (option Z) :=
  mod_v (fun v => GptVars (prng_state v) (gpt_pmbr v) dev default_tables) ;;;
  rc <- on_bio (bio_set_install_partition_cb dev gpt_install_cb) ;;
  if negb (rc =? PB_OK) then ret (Some rc) else
  let* (rc, bs) := on_bio (bio_read dev 1 TABLE_BYTES) in
  mem_write primary_at bs ;;;
  if negb (rc =? PB_OK) then ret (Some rc) else
  last <- on_bio (bio_get_last_block dev) ;;
  let backup_lba := usz (last - parts_bytes 128 / 512) in
  let* (rc, bs) := on_bio (bio_read dev (u32 backup_lba) TABLE_BYTES) in
  mem_write backup_at bs ;;;
  if negb (rc =? PB_OK) then ret (Some rc) else
  rc <- check_tables dev ;;
  if negb (rc =? PB_OK) then ret (Some rc) else
  register_parts register_fuel dev 0.

(** The driver behind the install command of the block layer. *)
Definition gpt_install_ops : InstallOps W :=
  bio_install_ops (fun cb dev variant =>
    if cb =? gpt_install_cb then gpt_install_partition_table dev variant else ret (- PB_ERR)).
End gpt.
