(* ===== verification/GptTables.v ===== *)
(** * GPT tables in memory and on disk

    What the routines of [Gpt] do to the two static tables and to the disk:
    validation, checksums, writing, reading back and recovery. *)

From S2P Require Import Prelude Errors Ram Crc Uuid Bio BlockIface Gpt.
Local Open Scope c_scope.

Section tables.
Context {arch : Arch} {kc : Kconfig} {HW T : Type} {drv : BioDriver HW} {st : GptStatics}.
Abbreviation W := (gpt_world HW T).
Abbreviation G := (M W).
Implicit Types (w : W) (b : bio_state HW).

(** ** Tables in memory

    The two copies are handled alike: a [side] is one of the two static
    objects, a [table] its contents (the entries as raw bytes). *)

Inductive side := Primary | Backup.

Definition side_at (s : side) : Z := match s with Primary => primary_at | Backup => backup_at end.
Definition hdr_at (s : side) : Z := match s with Primary => primary_hdr | Backup => backup_hdr end.
Definition part_at (s : side) : Z := match s with Primary => primary_part 0 | Backup => backup_part 0 end.

Record table := Table { t_hdr : gpt_header; t_parts : list Z }.

Definition array_bytes : nat := Z.to_nat 16384.
Definition table_bytes : nat := Z.to_nat 16896.

Definition table_wf (t : table) : Prop :=
  cwf gpt_header_c (t_hdr t) /\ length (t_parts t) = array_bytes /\ bytes (t_parts t).

Definition image (s : side) (t : table) : list Z :=
  match s with
  | Primary => cenc gpt_header_c (t_hdr t) ++ t_parts t
  | Backup => t_parts t ++ cenc gpt_header_c (t_hdr t)
  end.

(** The static object [s] contains the table [t]. *)
Definition holds (m : ram_t) (s : side) (t : table) : Prop :=
  table_wf t /\ ram_read m (side_at s) table_bytes = image s t.

(** Memory outside of the object [s] is as before. *)
Definition mem_only (s : side) (m m' : ram_t) : Prop :=
  forall x, x < side_at s \/ side_at s + Z.of_nat table_bytes <= x -> m' x = m x.

Definition statics_disjoint : Prop :=
  primary_at + Z.of_nat table_bytes <= backup_at \/ backup_at + Z.of_nat table_bytes <= primary_at.

Definition with_mem (m : ram_t) (w : W) : W := GptWorld (g_bio w) m (g_v w) (g_clk w).

Definition hdr_off (s : side) : nat := match s with Primary => 0 | Backup => array_bytes end.
Definition part_off (s : side) : nat := match s with Primary => 512 | Backup => 0 end.

Lemma hdr_at_off s : hdr_at s = side_at s + Z.of_nat (hdr_off s).
Proof. destruct s; unfold hdr_at, side_at, hdr_off, primary_hdr, backup_hdr; [lia | done]. Qed.

Lemma part_at_off s : part_at s = side_at s + Z.of_nat (part_off s).
Proof.
  destruct s; unfold part_at, side_at, part_off, primary_part, backup_part; rewrite Z.mul_0_l; [|lia].
  change (sizeof gpt_header_c) with 512. lia.
Qed.

Lemma length_hdr_enc h : cwf gpt_header_c h -> length (cenc gpt_header_c h) = 512%nat.
Proof. apply (cenc_length (c := gpt_header_c)). Qed.

Lemma length_image s t : table_wf t -> length (image s t) = table_bytes.
Proof.
  intros (Hh & Hl & _). apply length_hdr_enc in Hh.
  unfold table_bytes, array_bytes in *. destruct s; cbn [image]; rewrite length_app; lia.
Qed.

Lemma image_bytes s t : table_wf t -> bytes (image s t).
Proof.
  intros (Hh & _ & Hb). apply (cenc_bytes (c := gpt_header_c)) in Hh.
  destruct s; cbn [image]; by apply bytes_app.
Qed.

(** Reading and overwriting the members of an image. *)
Lemma slice_image_hdr s t : table_wf t -> slice (hdr_off s) 512 (image s t) = cenc gpt_header_c (t_hdr t).
Proof.
  intros (Hh & Hl & _). apply length_hdr_enc in Hh. unfold slice.
  destruct s; cbn [image hdr_off]; [by rewrite drop_0, take_app_length'|].
  rewrite drop_app_length' by done. rewrite take_ge by lia. done.
Qed.

Lemma slice_image_parts s t : table_wf t -> slice (part_off s) array_bytes (image s t) = t_parts t.
Proof.
  intros (Hh & Hl & _). apply length_hdr_enc in Hh. unfold slice.
  destruct s; cbn [image part_off]; [|by rewrite drop_0, take_app_length'].
  rewrite drop_app_length' by done. by rewrite take_ge by lia.
Qed.

Lemma splice_image_hdr s t h : table_wf t -> cwf gpt_header_c h ->
  splice (hdr_off s) (cenc gpt_header_c h) (image s t) = image s (Table h (t_parts t)).
Proof.
  intros (Hh & Hl & _) Hh'. apply length_hdr_enc in Hh, Hh'. unfold splice.
  destruct s; cbn [image hdr_off t_hdr t_parts]; rewrite Hh'.
  - by rewrite drop_app_length' by lia.
  - rewrite take_app_length' by done. rewrite drop_ge by (rewrite length_app; lia). by rewrite app_nil_r.
Qed.

Lemma splice_image_parts s t k bs : table_wf t -> (k + length bs <= array_bytes)%nat ->
  splice (part_off s + k) bs (image s t) = image s (Table (t_hdr t) (splice k bs (t_parts t))).
Proof.
  intros (Hh & Hl & _) Hk. apply length_hdr_enc in Hh. unfold splice.
  destruct s; cbn [image part_off t_hdr t_parts].
  - rewrite take_app_ge, drop_app_ge by lia. rewrite Hh, <- app_assoc. do 4 f_equal; lia.
  - rewrite take_app_le, drop_app_le by lia. by rewrite <- !app_assoc.
Qed.

(** What the code reads from an object that holds a table. *)
Lemma holds_read m s t k n : holds m s t -> (k + n <= table_bytes)%nat ->
  ram_read m (side_at s + Z.of_nat k) n = slice k n (image s t).
Proof. intros [_ <-] Hk. by rewrite slice_ram_read. Qed.

Lemma off_fits s : (hdr_off s + 512 <= table_bytes)%nat /\ (part_off s + array_bytes <= table_bytes)%nat.
Proof. destruct s; unfold hdr_off, part_off, table_bytes, array_bytes; lia. Qed.

Lemma holds_hdr_bytes m s t : holds m s t -> ram_read m (hdr_at s) 512 = cenc gpt_header_c (t_hdr t).
Proof.
  intros H. rewrite hdr_at_off, (holds_read m s t) by (done || apply off_fits).
  apply slice_image_hdr, H.
Qed.

Lemma holds_hdr m s t : holds m s t -> hdr_of m (hdr_at s) = t_hdr t.
Proof.
  intros H. unfold hdr_of. change (csize gpt_header_c) with 512%nat.
  rewrite (holds_hdr_bytes m s t) by done. apply (decode_cenc gpt_header_c), H.
Qed.

Lemma holds_parts m s t : holds m s t -> ram_read m (part_at s) array_bytes = t_parts t.
Proof.
  intros H. rewrite part_at_off, (holds_read m s t) by (done || apply off_fits).
  apply slice_image_parts, H.
Qed.

(** Writes inside of an object. *)
Lemma mem_only_refl s m : mem_only s m m.
Proof. by intros x. Qed.

Lemma mem_only_trans s m1 m2 m3 : mem_only s m1 m2 -> mem_only s m2 m3 -> mem_only s m1 m3.
Proof. intros H1 H2 x Hx. by rewrite H2, H1. Qed.

Lemma mem_only_write s m k bs : (k + length bs <= table_bytes)%nat ->
  mem_only s m (ram_write (side_at s + Z.of_nat k) bs m).
Proof. intros Hk x Hx. apply ram_write_out. lia. Qed.

Lemma holds_other m m' s s' t :
  statics_disjoint -> s <> s' -> mem_only s m m' -> holds m s' t -> holds m' s' t.
Proof.
  intros Hd Hs Hm [Hwf Hr]. split; [done|]. rewrite <- Hr. apply ram_read_ext.
  intros x Hx. apply Hm. destruct s, s'; try done; unfold side_at, statics_disjoint in *; lia.
Qed.

Lemma holds_write_hdr m s t h : holds m s t -> cwf gpt_header_c h ->
  holds (ram_write (hdr_at s) (cenc gpt_header_c h) m) s (Table h (t_parts t)).
Proof.
  intros [Hwf Hr] Hh. pose proof (length_hdr_enc h Hh). pose proof (off_fits s).
  split; [by destruct Hwf as (_ & ? & ?)|].
  by rewrite hdr_at_off, ram_read_write_sub, Hr, splice_image_hdr by (done || lia).
Qed.

Lemma holds_write_parts m s t k bs : holds m s t -> (k + length bs <= array_bytes)%nat -> bytes bs ->
  holds (ram_write (part_at s + Z.of_nat k) bs m) s (Table (t_hdr t) (splice k bs (t_parts t))).
Proof.
  intros [Hwf Hr] Hk Hb. pose proof (off_fits s). split.
  - destruct Hwf as (? & Hl & ?). split_and!; cbn [t_hdr t_parts]; [done | rewrite length_splice; lia | auto with pb].
  - rewrite part_at_off, <- Z.add_assoc, <- Nat2Z.inj_add.
    by rewrite ram_read_write_sub, Hr, splice_image_parts by (done || lia).
Qed.

(** Loading a whole table, and copying one object to the other member by
    member. *)
Lemma holds_load m s t : table_wf t -> holds (ram_write (side_at s) (image s t) m) s t.
Proof.
  intros Hwf. split; [done|]. rewrite <- (length_image s t) by done. apply ram_write_in.
Qed.

Lemma mem_only_load m s t : table_wf t -> mem_only s m (ram_write (side_at s) (image s t) m).
Proof. intros Hwf x Hx. apply ram_write_out. rewrite (length_image s t) by done. lia. Qed.

Lemma holds_copy m s t : table_wf t ->
  holds (ram_write (part_at s) (t_parts t) (ram_write (hdr_at s) (cenc gpt_header_c (t_hdr t)) m)) s t.
Proof.
  intros Hwf. split; [done|]. destruct Hwf as (Hh & Hl & Hb). apply length_hdr_enc in Hh.
  unfold array_bytes in Hl. rewrite hdr_at_off, part_at_off.
  destruct s; cbn [side_at hdr_off part_off image];
    [replace table_bytes with (length (cenc gpt_header_c (t_hdr t)) + length (t_parts t))%nat
       by (unfold table_bytes; lia)
    |replace table_bytes with (length (t_parts t) + length (cenc gpt_header_c (t_hdr t)))%nat
       by (unfold table_bytes; lia)]; rewrite ram_read_app, ?Z.add_0_r.
  - rewrite ram_read_write_out, ram_write_in, Hh by lia. f_equal. apply ram_write_in.
  - rewrite ram_write_in, ram_read_write_out by lia. f_equal.
    unfold array_bytes. rewrite Hl. apply ram_write_in.
Qed.

(** ** Validation and checksums *)

Definition crc_part (h : gpt_header) : list Z := take 92 (cenc gpt_header_c h).
Definition hdr_intact (h : gpt_header) : bool :=
  (gh_signature h =? gpt_header_signature) && (efi_crc32 (crc_part (set_hdr_crc 0 h)) =? gh_hdr_crc h).
Definition array_intact (t : table) : bool := efi_crc32 (t_parts t) =? gh_part_array_crc (t_hdr t).
Definition intact (t : table) : bool := hdr_intact (t_hdr t) && array_intact t.

(** The table with both checksums recomputed. *)
Definition seal (t : table) : table :=
  let h := set_array_crc (efi_crc32 (t_parts t)) (set_hdr_crc 0 (t_hdr t)) in
  Table (set_hdr_crc (efi_crc32 (crc_part h)) h) (t_parts t).

Lemma efi_crc32_range bs : bytes bs -> 0 <= efi_crc32 bs < 2 ^ 32.
Proof.
  intros Hb. apply lxor_lt; [lia | | lia]. apply crc32_range; [lia | done].
Qed.

Lemma cwf_set_hdr_crc c h : 0 <= c < 2 ^ 32 -> cwf gpt_header_c h -> cwf gpt_header_c (set_hdr_crc c h).
Proof. simpl. intros. intuition lia. Qed.

Lemma cwf_set_array_crc c h : 0 <= c < 2 ^ 32 -> cwf gpt_header_c h -> cwf gpt_header_c (set_array_crc c h).
Proof. simpl. intros. intuition lia. Qed.

Lemma cwf_hdr_crc h : cwf gpt_header_c h -> 0 <= gh_hdr_crc h < 2 ^ 32 /\ 0 <= gh_part_array_crc h < 2 ^ 32.
Proof. simpl. intros. intuition lia. Qed.

Lemma crc_part_bytes h : cwf gpt_header_c h -> bytes (crc_part h).
Proof. intros Hh. apply bytes_take. by apply (cenc_bytes (c := gpt_header_c)). Qed.

Lemma seal_wf t : table_wf t -> table_wf (seal t).
Proof.
  intros (Hh & Hl & Hb). split_and!; [|done..]. unfold seal. cbn [t_hdr].
  assert (Hi : cwf gpt_header_c (set_array_crc (efi_crc32 (t_parts t)) (set_hdr_crc 0 (t_hdr t)))).
  { apply cwf_set_array_crc; [by apply efi_crc32_range|]. apply cwf_set_hdr_crc; [lia | done]. }
  apply cwf_set_hdr_crc; [|done]. by apply efi_crc32_range, crc_part_bytes.
Qed.

Lemma seal_intact t : gh_signature (t_hdr t) = gpt_header_signature -> intact (seal t) = true.
Proof.
  intros Hs. unfold intact, hdr_intact, array_intact, seal. cbn [t_hdr t_parts].
  change (set_hdr_crc 0 (set_hdr_crc ?c ?h)) with (set_hdr_crc 0 h). cbn [set_hdr_crc set_array_crc
    gh_signature gh_hdr_crc gh_part_array_crc]. rewrite Hs, !Z.eqb_refl. done.
Qed.

Lemma mem_only_hdr s m h : cwf gpt_header_c h ->
  mem_only s m (ram_write (hdr_at s) (cenc gpt_header_c h) m).
Proof.
  intros Hh. rewrite hdr_at_off. apply mem_only_write. rewrite length_hdr_enc by done. apply off_fits.
Qed.

Lemma mod_hdr_run s t f w : holds (g_mem w) s t ->
  mod_hdr (hdr_at s) f w =
    (tt, with_mem (ram_write (hdr_at s) (cenc gpt_header_c (f (t_hdr t))) (g_mem w)) w).
Proof. intros H. unfold mod_hdr, get_hdr, mem_write. m_unfold. by rewrite (holds_hdr _ s t). Qed.

Lemma get_hdr_run s t w : holds (g_mem w) s t -> get_hdr (hdr_at s) w = (t_hdr t, w).
Proof. intros H. unfold get_hdr. m_unfold. by rewrite (holds_hdr _ s t). Qed.

Lemma crc_read_run s t w : holds (g_mem w) s t ->
  mem_read (hdr_at s) (sizeof gpt_header_c - Z.of_nat GPT_HEADER_RSZ) w = (crc_part (t_hdr t), w).
Proof.
  intros H. unfold mem_read. m_unfold. f_equal. change (Z.to_nat _) with 92%nat.
  unfold crc_part. rewrite <- (holds_hdr_bytes _ s t) by done. by rewrite take_ram_read by lia.
Qed.

Lemma array_len : Z.to_nat (u32 (parts_bytes 128)) = array_bytes.
Proof.
  unfold parts_bytes. change (128 * sizeof gpt_part_hdr_c) with 16384.
  rewrite usz_small by (pose proof ptr_bits_ge32; lia). by rewrite u32_small by lia.
Qed.

Lemma array_read_run s t w : holds (g_mem w) s t ->
  mem_read (part_at s) (u32 (parts_bytes 128)) w = (t_parts t, w).
Proof. intros H. unfold mem_read. m_unfold. by rewrite array_len, (holds_parts _ s t). Qed.

Lemma valid_header_run s t w : holds (g_mem w) s t ->
  exists m', gpt_has_valid_header (hdr_at s) w =
      (if hdr_intact (t_hdr t) then PB_OK else PB_ERR, with_mem m' w) /\
    mem_only s (g_mem w) m' /\ (hdr_intact (t_hdr t) = true -> holds m' s t).
Proof.
  intros H. unfold gpt_has_valid_header, hdr_intact. unfold bind at 1. rewrite (get_hdr_run s t) by done.
  destruct (gh_signature (t_hdr t) =? gpt_header_signature) eqn:Es; cbn [negb andb].
  2:{ exists (g_mem w). split_and!; [by destruct w | apply mem_only_refl | done]. }
  assert (Hh : cwf gpt_header_c (t_hdr t)) by apply H.
  assert (H0 : cwf gpt_header_c (set_hdr_crc 0 (t_hdr t))) by (apply cwf_set_hdr_crc; [lia | done]).
  unfold bind at 1. rewrite (mod_hdr_run s t) by done.
  pose proof (holds_write_hdr _ s t _ H H0) as H1.
  pose proof (mem_only_hdr s (g_mem w) _ H0) as O1.
  set (m1 := ram_write _ _ _) in *. unfold bind at 1.
  rewrite (crc_read_run s (Table (set_hdr_crc 0 (t_hdr t)) (t_parts t))) by done. cbn [t_hdr].
  destruct (efi_crc32 _ =? gh_hdr_crc (t_hdr t)); cbn [negb]; [|by exists m1].
  unfold bind at 1. rewrite (mod_hdr_run s (Table (set_hdr_crc 0 (t_hdr t)) (t_parts t))) by done. cbn [t_hdr].
  assert (E : set_hdr_crc (gh_hdr_crc (t_hdr t)) (set_hdr_crc 0 (t_hdr t)) = t_hdr t) by by destruct (t_hdr t).
  rewrite E. exists (ram_write (hdr_at s) (cenc gpt_header_c (t_hdr t)) m1). split_and!; [done | |].
  - eapply mem_only_trans; [done|]. by apply mem_only_hdr.
  - intros _. pose proof (holds_write_hdr _ s _ (t_hdr t) H1 Hh) as H2. by destruct t.
Qed.

Lemma valid_array_run s t w : holds (g_mem w) s t -> gh_no_of_parts (t_hdr t) = 128 ->
  exists m', gpt_has_valid_part_array (hdr_at s) (part_at s) w =
      (if array_intact t then PB_OK else PB_ERR, with_mem m' w) /\
    mem_only s (g_mem w) m' /\ holds m' s t.
Proof.
  intros H Hn. unfold gpt_has_valid_part_array, array_intact. unfold bind at 1.
  rewrite (get_hdr_run s t), Hn by done. unfold bind at 1. rewrite (array_read_run s t) by done.
  destruct (efi_crc32 (t_parts t) =? gh_part_array_crc (t_hdr t)); cbn [negb].
  2:{ exists (g_mem w). split_and!; [by destruct w | apply mem_only_refl | done]. }
  unfold bind at 1. rewrite (mod_hdr_run s t) by done.
  assert (E : set_array_crc (gh_part_array_crc (t_hdr t)) (t_hdr t) = t_hdr t) by by destruct (t_hdr t).
  rewrite E. assert (Hh : cwf gpt_header_c (t_hdr t)) by apply H.
  eexists. split_and!; [done | by apply mem_only_hdr |].
  pose proof (holds_write_hdr _ s t _ H Hh) as H1. by destruct t.
Qed.

Lemma is_valid_run s t w : holds (g_mem w) s t ->
  (hdr_intact (t_hdr t) = true -> gh_no_of_parts (t_hdr t) = 128) ->
  exists m' rc, gpt_is_valid (hdr_at s) (part_at s) w = (rc, with_mem m' w) /\
    (rc =? PB_OK) = intact t /\ mem_only s (g_mem w) m' /\ (intact t = true -> holds m' s t).
Proof.
  intros H Hn. unfold gpt_is_valid, intact. unfold bind at 1.
  destruct (valid_header_run s t w H) as (m1 & -> & O1 & H1).
  destruct (hdr_intact (t_hdr t)); cbn [negb andb]; [|by exists m1, PB_ERR].
  change (PB_OK =? PB_OK) with true. cbv beta iota. cbn [negb]. unfold bind at 1.
  destruct (valid_array_run s t (with_mem m1 w) (H1 eq_refl) (Hn eq_refl)) as (m2 & -> & O2 & H2).
  exists m2. destruct (array_intact t); eexists; (split; [done|]);
    (split; [done|]); eauto using mem_only_trans.
Qed.

Lemma seal_table_run s t w : holds (g_mem w) s t -> gh_no_of_parts (t_hdr t) = 128 ->
  exists m', seal_table (hdr_at s) (part_at s) w = (tt, with_mem m' w) /\
    mem_only s (g_mem w) m' /\ holds m' s (seal t).
Proof.
  intros H Hn. unfold seal_table. unfold bind at 1. rewrite (get_hdr_run s t), Hn by done.
  assert (Hh : cwf gpt_header_c (t_hdr t)) by apply H.
  assert (C0 : cwf gpt_header_c (set_hdr_crc 0 (t_hdr t))) by (apply cwf_set_hdr_crc; [lia | done]).
  unfold bind at 1. rewrite (mod_hdr_run s t) by done.
  pose proof (holds_write_hdr _ s t _ H C0) as H1. pose proof (mem_only_hdr s (g_mem w) _ C0) as O1.
  set (m1 := ram_write _ _ _) in *. set (t1 := Table _ _) in *.
  unfold bind at 1. rewrite (array_read_run s t1) by done.
  unfold bind at 1. rewrite (mod_hdr_run s t1) by done. cbn [t_parts t_hdr t1].
  assert (C1 : cwf gpt_header_c (set_array_crc (efi_crc32 (t_parts t)) (t_hdr t1))).
  { apply cwf_set_array_crc; [apply efi_crc32_range, H | done]. }
  pose proof (holds_write_hdr _ s t1 _ H1 C1) as H2. pose proof (mem_only_hdr s m1 _ C1) as O2.
  cbn [t_parts t_hdr t1] in *. change (g_mem (with_mem m1 w)) with m1.
  set (m2 := ram_write _ _ m1) in *. set (t2 := Table (set_array_crc _ _) _) in *.
  unfold bind at 1. rewrite (crc_read_run s t2) by done. rewrite (mod_hdr_run s t2) by done.
  assert (C2 : cwf gpt_header_c (set_hdr_crc (efi_crc32 (crc_part (t_hdr t2))) (t_hdr t2))).
  { apply cwf_set_hdr_crc; [by apply efi_crc32_range, crc_part_bytes | done]. }
  eexists. split; [done|]. split; [|exact (holds_write_hdr _ s t2 _ H2 C2)].
  eauto using mem_only_trans, mem_only_hdr.
Qed.

(** ** Tables on disk *)

Context {dl : DiskLaws (drv := drv)}.

(** A whole disk, in blocks of 512 bytes, with room for both tables. *)
Record gpt_disk (b : bio_state HW) (dev : bio_dev_t) : Prop := {
  gd_rw : bio_rw b dev;
  gd_unit : disk_unit = 512;
  gd_first : first_lba (dev_at b dev) = 0;
  gd_last : 66 <= last_lba (dev_at b dev) < 2 ^ 31;
  gd_bytes : bytes (disk_bytes (bio_hw b))
}.

Definition last_of (b : bio_state HW) (dev : bio_dev_t) : Z := last_lba (dev_at b dev).

(** The first block of a table, and the table on a disk that ends at [last]. *)
Definition place (last : Z) (s : side) : Z := match s with Primary => 1 | Backup => last - 32 end.
Definition place_off (last : Z) (s : side) : nat := Z.to_nat (place last s * 512).
Definition on_disk (D : list Z) (last : Z) (s : side) (t : table) : Prop :=
  slice (place_off last s) table_bytes D = image s t.

(** The backup copy of a primary table. *)
Definition backup_of (last : Z) (t : table) : table :=
  Table (set_place 1 last (last - 32) (t_hdr t)) (t_parts t).

(** What writing a table leaves on the disk. *)
Definition written (last : Z) (t : table) (D : list Z) : list Z :=
  splice (place_off last Backup) (image Backup (seal (backup_of last (seal t))))
    (splice (place_off last Primary) (image Primary (seal t)) (splice 0 (pmbr last) D)).

Lemma disk_dev_ok b dev : gpt_disk b dev -> dev_ok b dev = true /\ block_sz (dev_at b dev) = 512.
Proof. intros [(_ & Hok & _ & _ & Hb & _) Hu _ _ _]. by rewrite Hb, Hu. Qed.

Lemma last_block_run b dev : gpt_disk b dev -> bio_get_last_block dev b = (last_of b dev, b).
Proof.
  intros Hd. pose proof (gd_last _ _ Hd). unfold bio_get_last_block. m_unfold.
  rewrite check_dev_spec, (proj1 (disk_dev_ok _ _ Hd)).
  change (negb (PB_OK =? PB_OK)) with false. cbv beta iota. f_equal.
  unfold s32, last_of. rewrite Z.mod_small; lia.
Qed.

Lemma block_size_run b dev : gpt_disk b dev -> bio_block_size dev b = (512, b).
Proof.
  intros Hd. unfold bio_block_size. rewrite checked_dev.
  destruct (disk_dev_ok _ _ Hd) as [-> Hb]. m_unfold. rewrite Hb. f_equal. unfold ssz.
  destruct ptr_bits_ok as [-> | ->]; reflexivity.
Qed.

Lemma gpt_disk_hw b dev h' :
  gpt_disk b dev -> length (disk_bytes h') = length (disk_bytes (bio_hw b)) -> bytes (disk_bytes h') ->
  gpt_disk (BioState (bio_pool b) (n_bios b) h') dev.
Proof. intros [Hrw Hu Hf Hl Hb] Hlen Hb'. split; try done. by apply (bio_rw_hw b). Qed.

Lemma disk_room b dev : gpt_disk b dev ->
  (last_of b dev + 1) * 512 <= Z.of_nat (length (disk_bytes (bio_hw b))).
Proof. intros [(_ & _ & _ & _ & _ & _ & H & _) Hu _ _ _]. unfold last_of. by rewrite Hu in H. Qed.

Lemma place_fits b dev s : gpt_disk b dev ->
  1 <= place (last_of b dev) s /\ place (last_of b dev) s + 33 - 1 <= last_of b dev.
Proof. intros Hd. pose proof (gd_last _ _ Hd). unfold last_of, place. destruct s; lia. Qed.

Lemma disk_write_run b dev lba buf n : gpt_disk b dev -> bytes buf ->
  0 <= lba -> 0 < n -> Z.of_nat (length buf) = n * 512 -> lba + n - 1 <= last_of b dev ->
  exists h', bio_write dev lba (Z.of_nat (length buf)) buf b = (PB_OK, BioState (bio_pool b) (n_bios b) h') /\
    disk_bytes h' = splice (Z.to_nat (lba * 512)) buf (disk_bytes (bio_hw b)) /\
    gpt_disk (BioState (bio_pool b) (n_bios b) h') dev.
Proof.
  intros Hd Hb Hlba Hn Hlen Hin. pose proof Hd as [Hrw Hu Hf _ Hbytes].
  destruct (bio_write_at dev lba buf b) as (h' & E & Eh & El); rewrite ?Hu, ?Hf, ?Hlen;
    [done | lia | lia | apply Z.mod_mul; lia | rewrite Z.div_mul by lia; unfold last_of in *; lia |].
  rewrite Hu, Hf, Z.add_0_l in Eh. rewrite Hlen in E. exists h'. split_and!; [done..|].
  apply gpt_disk_hw; [done..|]. rewrite Eh. auto with pb.
Qed.

Lemma pmbr_bytes x : length (pmbr x) = 512%nat /\ bytes (pmbr x).
Proof.
  unfold pmbr. split.
  - rewrite !length_splice; rewrite ?length_splice, ?length_le_bytes; simpl; lia.
  - repeat apply bytes_splice; try apply bytes_zeros; try apply le_bytes_bytes;
      apply Forall_forall; intros y Hy; set_unfold in Hy; unfold is_byte; intuition lia.
Qed.

Definition with_bio (b : bio_state HW) (w : W) : W := GptWorld b (g_mem w) (g_v w) (g_clk w).

Lemma on_bio_run {A} (m : M (bio_state HW) A) a b' w : m (g_bio w) = (a, b') -> on_bio m w = (a, with_bio b' w).
Proof. intros E. unfold on_bio, lift. simpl. by rewrite E. Qed.

(** A whole table, read in one piece. *)
Lemma table_read_run s t w : holds (g_mem w) s t -> mem_read (side_at s) TABLE_BYTES w = (image s t, w).
Proof. intros [_ H]. unfold mem_read. m_unfold. f_equal. by rewrite <- H. Qed.

Lemma hdr_copy_run (s s' : side) t w : holds (g_mem w) s t ->
  mem_copy (hdr_at s') (hdr_at s) (sizeof gpt_header_c) w =
    (tt, with_mem (ram_write (hdr_at s') (cenc gpt_header_c (t_hdr t)) (g_mem w)) w).
Proof.
  intros H. unfold mem_copy, mem_read, mem_write. m_unfold.
  change (Z.to_nat (sizeof gpt_header_c)) with 512%nat. by rewrite (holds_hdr_bytes _ s t).
Qed.

Lemma parts_len : Z.to_nat (parts_bytes 128) = array_bytes.
Proof.
  unfold parts_bytes. change (128 * sizeof gpt_part_hdr_c) with 16384.
  by rewrite usz_small by (pose proof ptr_bits_ge32; lia).
Qed.

Lemma parts_copy_run (s s' : side) t w : holds (g_mem w) s t ->
  mem_copy (part_at s') (part_at s) (parts_bytes 128) w =
    (tt, with_mem (ram_write (part_at s') (t_parts t) (g_mem w)) w).
Proof.
  intros H. unfold mem_copy, mem_read, mem_write. m_unfold. by rewrite parts_len, (holds_parts _ s t).
Qed.

(** Copying the header and the entries makes the other object equal. *)
Lemma table_copy_holds (s s' : side) t m : statics_disjoint -> s <> s' -> holds m s t ->
  let m1 := ram_write (hdr_at s') (cenc gpt_header_c (t_hdr t)) m in
  let m2 := ram_write (part_at s') (t_parts t) m1 in
  holds m1 s t /\ holds m2 s t /\ holds m2 s' t /\ mem_only s' m m2.
Proof.
  intros Hd Hs H m1 m2. assert (Hwf : table_wf t) by apply H. pose proof Hwf as (Hh & Hl & _).
  assert (O1 : mem_only s' m m1) by by apply mem_only_hdr.
  assert (O2 : mem_only s' m1 m2).
  { unfold m2. rewrite part_at_off. apply mem_only_write. rewrite Hl. apply off_fits. }
  assert (H1 : holds m1 s t) by by apply (holds_other m m1 s' s).
  split_and!; [done | by apply (holds_other m1 m2 s' s) | by apply holds_copy | by eapply mem_only_trans].
Qed.

Lemma cwf_set_place x c e h : 0 <= x < 2 ^ 64 -> 0 <= c < 2 ^ 64 -> 0 <= e < 2 ^ 64 ->
  cwf gpt_header_c h -> cwf gpt_header_c (set_place x c e h).
Proof. simpl. intros. intuition lia. Qed.

Lemma backup_of_wf last t : 32 <= last < 2 ^ 32 -> table_wf t -> table_wf (backup_of last t).
Proof.
  intros Hl (Hh & ? & ?). split_and!; [|done..]. apply cwf_set_place; [lia..|done].
Qed.

(** A table is written to its place on the disk. *)
Lemma table_write_run dev s t b : gpt_disk b dev -> table_wf t ->
  exists h', bio_write dev (place (last_of b dev) s) TABLE_BYTES (image s t) b =
      (PB_OK, BioState (bio_pool b) (n_bios b) h') /\
    disk_bytes h' = splice (place_off (last_of b dev) s) (image s t) (disk_bytes (bio_hw b)) /\
    gpt_disk (BioState (bio_pool b) (n_bios b) h') dev.
Proof.
  intros Hd Hwf. pose proof (place_fits b dev s Hd) as [Hp Hq].
  destruct (disk_write_run b dev (place (last_of b dev) s) (image s t) 33 Hd) as (h' & E & D & Hd');
    [by apply image_bytes | lia | lia | rewrite length_image by done; reflexivity | done |].
  rewrite length_image in E by done. by exists h'.
Qed.

Lemma write_backup_run dev t w :
  statics_disjoint -> gpt_disk (g_bio w) dev -> holds (g_mem w) Primary t ->
  gh_no_of_parts (t_hdr t) = 128 -> gh_current_lba (t_hdr t) = 1 ->
  let last := last_of (g_bio w) dev in let tb := seal (backup_of last t) in
  exists m' h', write_backup_tbl dev 128 w =
      (PB_OK, GptWorld (BioState (bio_pool (g_bio w)) (n_bios (g_bio w)) h') m' (g_v w) (g_clk w)) /\
    disk_bytes h' = splice (place_off last Backup) (image Backup tb) (disk_bytes (bio_hw (g_bio w))) /\
    gpt_disk (BioState (bio_pool (g_bio w)) (n_bios (g_bio w)) h') dev /\
    holds m' Primary t /\ holds m' Backup tb.
Proof.
  intros Hdis Hd H Hn Hc last tb. pose proof (gd_last _ _ Hd) as Hll. fold (last_of (g_bio w) dev) last in Hll.
  assert (Hwb : table_wf (backup_of last t)) by (apply backup_of_wf; [lia | apply H]).
  unfold write_backup_tbl. fold (hdr_at Primary) (hdr_at Backup) (part_at Primary) (part_at Backup) (side_at Backup).
  destruct (table_copy_holds Primary Backup t (g_mem w)) as (H1 & H2 & H3 & _); [done..|].
  unfold bind at 1. rewrite (hdr_copy_run Primary Backup t) by done.
  unfold bind at 1. rewrite (parts_copy_run Primary Backup t) by done.
  cbn [g_mem with_mem]. set (m2 := ram_write (part_at Backup) _ _) in *.
  unfold bind at 1. rewrite (on_bio_run _ last (g_bio w)) by by apply last_block_run.
  unfold bind at 1. rewrite (on_bio_run _ 512 (g_bio w)) by by apply block_size_run.
  unfold bind at 1. rewrite (get_hdr_run Primary t), Hc by done.
  unfold bind at 1. rewrite (mod_hdr_run Backup t), Hn by done.
  assert (Ee : u64 (u64 last - parts_bytes 128 / usz 512) = last - 32).
  { unfold parts_bytes. change (128 * sizeof gpt_part_hdr_c) with 16384.
    rewrite !usz_small by (pose proof ptr_bits_ge32; lia). change (16384 / 512) with 32.
    unfold u64. rewrite !Z.mod_small by (rewrite ?Z.mod_small; lia). done. }
  assert (El : u64 last = last) by (unfold u64; rewrite Z.mod_small; lia).
  rewrite Ee, El. pose proof (holds_write_hdr m2 Backup t _ H3 (proj1 Hwb)) as H4.
  pose proof (mem_only_hdr Backup m2 _ (proj1 Hwb)) as O4. cbn [backup_of t_hdr] in H4, O4.
  cbn [g_mem with_mem with_bio]. set (m3 := ram_write (hdr_at Backup) _ m2) in *.
  pose proof (holds_other m2 m3 Backup Primary t Hdis ltac:(done) O4 H2) as H5.
  unfold bind at 1. match goal with |- context [seal_table _ _ ?w1] =>
    destruct (seal_table_run Backup (backup_of last t) w1 H4 Hn) as (m4 & -> & O6 & H6) end.
  pose proof (holds_other m3 m4 Backup Primary t Hdis ltac:(done) O6 H5) as H7.
  unfold bind at 1. rewrite (get_hdr_run Backup tb) by done.
  unfold bind at 1. rewrite (table_read_run Backup tb) by done.
  destruct (table_write_run dev Backup tb (g_bio w) Hd) as (h' & E & D & Hd'); [by apply seal_wf|].
  change (u32 (gh_entries_start_lba (t_hdr tb))) with (u32 (last - 32)). rewrite u32_small by lia.
  erewrite on_bio_run by exact E. by exists m4, h'.
Qed.

(** Writing the primary table at block 1 and the backup at the end. *)
Lemma write_tbl_run dev t w :
  statics_disjoint -> gpt_disk (g_bio w) dev -> holds (g_mem w) Primary t ->
  gh_no_of_parts (t_hdr t) = 128 -> gh_current_lba (t_hdr t) = 1 ->
  let last := last_of (g_bio w) dev in
  exists m' v' h', gpt_write_tbl dev w =
      (PB_OK, GptWorld (BioState (bio_pool (g_bio w)) (n_bios (g_bio w)) h') m' v' (g_clk w)) /\
    disk_bytes h' = written last t (disk_bytes (bio_hw (g_bio w))) /\
    gpt_disk (BioState (bio_pool (g_bio w)) (n_bios (g_bio w)) h') dev /\
    holds m' Primary (seal t) /\ holds m' Backup (seal (backup_of last (seal t))).
Proof.
  intros Hdis Hd H Hn Hc last. pose proof (gd_last _ _ Hd) as Hll. fold (last_of (g_bio w) dev) last in Hll.
  unfold gpt_write_tbl. fold (hdr_at Primary) (part_at Primary) (side_at Primary). unfold bind at 1.
  destruct (seal_table_run Primary t w H Hn) as (m1 & -> & O1 & H1).
  unfold bind at 1. rewrite (on_bio_run _ last (g_bio w)) by by apply last_block_run.
  unfold bind at 1, mod_v at 1, modify at 1. cbv beta iota.
  unfold bind at 1, get at 1. cbv beta iota. cbn [g_v gpt_pmbr]. rewrite u32_small by lia.
  destruct (pmbr_bytes last) as [Hpl Hpb].
  destruct (disk_write_run (g_bio w) dev 0 (pmbr last) 1 Hd Hpb) as (h1 & E1 & D1 & Hd1);
    [lia | lia | by rewrite Hpl | lia |].
  unfold bind at 1. rewrite Hpl in E1. change (Z.of_nat 512) with 512 in E1.
  erewrite on_bio_run by exact E1. change (negb (u32 PB_OK =? PB_OK)) with false. cbv beta iota.
  unfold bind at 1. rewrite (get_hdr_run Primary (seal t)) by done.
  unfold bind at 1. rewrite (table_read_run Primary (seal t)) by done.
  unfold bind at 1. cbn [seal t_hdr set_hdr_crc set_array_crc gh_current_lba gh_no_of_parts].
  rewrite Hc, Hn. change (u32 1) with (place last Primary).
  destruct (table_write_run dev Primary (seal t) _ Hd1) as (h2 & E2 & D2 & Hd2); [by apply seal_wf, H|].
  erewrite on_bio_run by exact E2. change (negb (u32 PB_OK =? PB_OK)) with false. cbv beta iota.
  match goal with |- context [write_backup_tbl _ _ ?w2] =>
    destruct (write_backup_run dev (seal t) w2 Hdis Hd2 H1 Hn Hc) as (m' & h' & -> & D3 & Hd3 & HP & HB) end.
  eexists m', _, h'. split_and!; [reflexivity | | done..].
  cbn [bio_hw g_bio with_bio] in D1, D2, D3. unfold written. by rewrite D3, D2, D1.
Qed.

(** ** Reading the tables back *)

(** The table the bytes at the place of [s] encode. *)
Definition disk_table (D : list Z) (last : Z) (s : side) : table :=
  let bs := slice (place_off last s) table_bytes D in
  Table (decode gpt_header_c (slice (hdr_off s) 512 bs)) (slice (part_off s) array_bytes bs).

Definition disk_fits (D : list Z) (last : Z) : Prop :=
  bytes D /\ 66 <= last /\ (last + 1) * 512 <= Z.of_nat (length D).

Lemma gpt_disk_fits b dev : gpt_disk b dev -> disk_fits (disk_bytes (bio_hw b)) (last_of b dev).
Proof. intros Hd. split_and!; [apply Hd | apply (gd_last _ _ Hd) | by apply disk_room]. Qed.

Lemma place_off_fits last s : 66 <= last -> (place_off last s + table_bytes <= Z.to_nat ((last + 1) * 512))%nat.
Proof. intros. unfold place_off, table_bytes. destruct s; unfold place; lia. Qed.

Lemma disk_table_wf D last s : disk_fits D last ->
  table_wf (disk_table D last s) /\ image s (disk_table D last s) = slice (place_off last s) table_bytes D.
Proof.
  intros (Hb & Hl & Hlen). pose proof (place_off_fits last s Hl) as Hp.
  unfold disk_table. set (bs := slice (place_off last s) table_bytes D).
  assert (Hbs : bytes bs) by (unfold bs, slice; auto with pb).
  assert (Hn : length bs = table_bytes) by (unfold bs, slice; rewrite length_take, length_drop; lia).
  assert (Hh : forall k, (k + 512 <= table_bytes)%nat -> bytes (slice k 512 bs) /\ length (slice k 512 bs) = csize gpt_header_c).
  { intros k Hk. unfold slice. split; [auto with pb|]. rewrite length_take, length_drop.
    change (csize gpt_header_c) with 512%nat. lia. }
  destruct (Hh (hdr_off s)) as [Hhb Hhl]; [apply off_fits|]. split.
  - split_and!; cbn [t_hdr t_parts].
    + apply (cdec_wf (c := gpt_header_c)); [done|]. by rewrite Hhl.
    + unfold slice. rewrite length_take, length_drop. pose proof (off_fits s). lia.
    + unfold slice. auto with pb.
  - unfold table_bytes in Hn.
    destruct s; cbn [image t_hdr t_parts]; rewrite (cenc_decode gpt_header_c) by done;
      unfold hdr_off, part_off, slice, array_bytes; rewrite drop_0.
    + rewrite (take_ge (drop 512 bs)) by (rewrite length_drop; lia). apply take_drop.
    + rewrite (take_ge (drop _ bs)) by (rewrite length_drop; lia). apply take_drop.
Qed.

(** A table that was put on the disk is the one that is found there. *)
Lemma image_inj s t t' : table_wf t -> table_wf t' -> image s t = image s t' -> t = t'.
Proof.
  intros Ht Ht' E. destruct t as [h ps], t' as [h' ps'].
  pose proof (slice_image_hdr s _ Ht) as E1. pose proof (slice_image_parts s _ Ht) as E2.
  rewrite E, slice_image_hdr in E1 by done. rewrite E, slice_image_parts in E2 by done.
  cbn [t_hdr t_parts] in *. subst ps'. f_equal.
  rewrite <- (decode_cenc gpt_header_c h), <- (decode_cenc gpt_header_c h') by apply Ht || apply Ht'.
  by rewrite E1.
Qed.

Lemma disk_table_on D last s t : disk_fits D last -> table_wf t -> on_disk D last s t -> disk_table D last s = t.
Proof.
  intros Hf Ht Ho. destruct (disk_table_wf D last s Hf) as [Hw Hi].
  apply (image_inj s); [done..|]. by rewrite Hi.
Qed.

Lemma table_read_disk dev s b : gpt_disk b dev ->
  exists h', bio_read dev (place (last_of b dev) s) TABLE_BYTES b =
      ((PB_OK, image s (disk_table (disk_bytes (bio_hw b)) (last_of b dev) s)), BioState (bio_pool b) (n_bios b) h') /\
    disk_bytes h' = disk_bytes (bio_hw b) /\ gpt_disk (BioState (bio_pool b) (n_bios b) h') dev.
Proof.
  intros Hd. pose proof (gpt_disk_fits b dev Hd) as Hf. destruct (disk_table_wf _ _ s Hf) as [_ ->].
  pose proof (place_fits b dev s Hd) as [Hp Hq]. pose proof Hd as [Hrw Hu Hfst _ Hb].
  destruct (bio_read_at dev (place (last_of b dev) s) TABLE_BYTES b) as (h' & E & Eh);
    rewrite ?Hu, ?Hfst; [done | lia | reflexivity | reflexivity | change (TABLE_BYTES / 512) with 33; unfold last_of in *; lia |].
  rewrite Hu, Hfst, Z.add_0_l in E. exists h'. split_and!; [done..|].
  apply gpt_disk_hw; [done | by rewrite Eh..].
Qed.

Lemma written_disk last t D : disk_fits D last -> last < 2 ^ 32 -> table_wf t ->
  disk_fits (written last t D) last /\ length (written last t D) = length D /\
  disk_table (written last t D) last Primary = seal t /\
  disk_table (written last t D) last Backup = seal (backup_of last (seal t)) /\
  (forall off n, (34 * 512 <= off)%nat -> (off + n <= place_off last Backup)%nat ->
     slice off n (written last t D) = slice off n D).
Proof.
  intros (Hb & Hl & Hlen) Hll Ht. unfold written.
  set (t1 := seal t). set (t2 := seal (backup_of last t1)).
  assert (H1 : table_wf t1) by by apply seal_wf.
  assert (H2 : table_wf t2) by (apply seal_wf, backup_of_wf; [lia | done]).
  pose proof (length_image Primary t1 H1) as L1. pose proof (length_image Backup t2 H2) as L2.
  pose proof (place_off_fits last Primary Hl) as F1. pose proof (place_off_fits last Backup Hl) as F2.
  destruct (pmbr_bytes last) as [Lp Bp].
  assert (Fo : (place_off last Primary = 512 /\ 512 + table_bytes <= place_off last Backup)%nat).
  { unfold place_off, place, table_bytes. lia. }
  set (D1 := splice 0 (pmbr last) D). set (D2 := splice (place_off last Primary) _ D1).
  assert (N1 : length D1 = length D) by (apply length_splice; lia).
  assert (N2 : length D2 = length D) by (unfold D2; rewrite length_splice; lia).
  set (D3 := splice (place_off last Backup) _ D2).
  assert (N3 : length D3 = length D) by (unfold D3; rewrite length_splice; lia).
  assert (Hf : disk_fits D3 last).
  { split_and!; [|done | lia]. unfold D3, D2, D1. auto using bytes_splice, image_bytes. }
  split_and!; [done | done | | |].
  - apply disk_table_on; [done..|]. unfold on_disk, D3. rewrite splice_elsewhere by lia.
    rewrite <- L1. apply slice_splice_same. lia.
  - apply disk_table_on; [done..|]. unfold on_disk, D3. rewrite <- L2. apply slice_splice_same. lia.
  - intros off n Ho Hn. unfold table_bytes in *. unfold D3. rewrite splice_elsewhere by lia.
    unfold D2. rewrite splice_elsewhere by lia. unfold D1. by rewrite splice_elsewhere by lia.
Qed.
End tables.
