(* ===== verification/GptProps.v ===== *)
(** * GPT initialisation and installation

    Registration of the partitions of a table, what [gpt_ptbl_init] makes of a
    disk, and the round trip of an installed table through a restart. *)

From S2P Require Import Prelude Errors Ram Crc Uuid Bio BlockIface Gpt GptTables.
Local Open Scope c_scope.

Section props.
Context {arch : Arch} {kc : Kconfig} {HW T : Type} {drv : BioDriver HW} {st : GptStatics} {dl : DiskLaws (drv := drv)}
  (plat_get_us_tick : M T Z).
Abbreviation W := (gpt_world HW T).
Abbreviation G := (M W).
Implicit Types (w : W) (b : bio_state HW).

(** ** Registering the partitions *)

(** The entries of an array up to the first one with [first_lba] 0. *)
Fixpoint used_entries (n : nat) (A : list Z) : list gpt_part_hdr :=
  match n with
  | O => []
  | S n =>
      let p := decode gpt_part_hdr_c (take 128 A) in
      if gp_first_lba p =? 0 then [] else p :: used_entries n (drop 128 A)
  end.

Definition partitions (t : table) : list gpt_part_hdr := used_entries 128 (t_parts t).

(** The loop of [gpt_ptbl_init] over a list of entries. *)
Fixpoint register_list (dev : bio_dev_t) (es : list gpt_part_hdr) : M (bio_state HW) Z :=
  match es with
  | [] => ret PB_OK
  | p :: es =>
      bsz <- bio_block_size dev ;;
      new_dev <- bio_allocate_parent dev (u32 (gp_first_lba p)) (u32 (gp_last_lba p)) (usz bsz)
                   (uuid_to_guid (gp_uuid p)) (part_name_of p) ;;
      if new_dev <? 0 then ret new_dev else register_list dev es
  end.

Lemma get_part_run t i w : holds (g_mem w) Primary t -> (i < 128)%nat ->
  get_part (primary_part (Z.of_nat i)) w = (decode gpt_part_hdr_c (slice (128 * i) 128 (t_parts t)), w).
Proof.
  intros H Hi. unfold get_part, part_of. m_unfold. change (csize gpt_part_hdr_c) with 128%nat. do 2 f_equal.
  rewrite <- (holds_parts _ Primary t H), slice_ram_read by (unfold array_bytes; lia).
  f_equal. unfold part_at, primary_part. change (sizeof gpt_part_hdr_c) with 128. lia.
Qed.

(** Every successful round uses up a slot of the device pool. *)
Lemma alloc_parent_counts parent f l bs u d (b : bio_state HW) :
  let '(r, b') := bio_allocate_parent parent f l bs u d b in
  0 <= r -> n_bios b' = n_bios b + 1 /\ n_bios b <> CONFIG_BIO_MAX_DEVS.
Proof.
  unfold bio_allocate_parent. rewrite checked_dev.
  destruct (dev_ok b parent); [|unfold PB_ERR_PARAM; lia]. m_unfold. rewrite bio_allocate_cases.
  destruct (Z.eqb_spec (n_bios b) CONFIG_BIO_MAX_DEVS); [simpl; unfold PB_ERR_MEM; lia|].
  destruct ((bs =? 0) || (l <? f)); [simpl; unfold PB_ERR_PARAM; lia|]. by destruct (n_bios b <? 0).
Qed.

Lemma register_parts_total fuel dev i (w : W) :
  n_bios (g_bio w) <= CONFIG_BIO_MAX_DEVS -> CONFIG_BIO_MAX_DEVS - n_bios (g_bio w) < Z.of_nat fuel ->
  is_Some (register_parts fuel dev i w).1.
Proof.
  revert i w. induction fuel as [|fuel IH]; intros i w Hn Hf; [lia|].
  cbn [register_parts]. unfold bind at 1, get_part, gets. cbv beta iota.
  destruct (_ =? 0); [by eexists|]. unfold bind at 1.
  assert (Hbs : (bio_block_size dev (g_bio w)).2 = g_bio w).
  { unfold bio_block_size. rewrite checked_dev. by destruct (dev_ok _ _). }
  destruct (bio_block_size dev (g_bio w)) as [bsz b1] eqn:E1. simpl in Hbs. subst b1.
  rewrite (on_bio_run _ _ _ _ E1). unfold bind at 1.
  match goal with |- context [on_bio ?m] => pose proof (alloc_parent_counts dev _ _ _ _ _ (g_bio w) : let '(r, b') := m (g_bio w) in _) as Ha;
    destruct (m (g_bio w)) as [r b2] eqn:E2; rewrite (on_bio_run m r b2 (with_bio (g_bio w) w) E2) end.
  destruct (Z.ltb_spec r 0); [by eexists|]. destruct (Ha ltac:(lia)) as [Hc Hne].
  apply IH; cbn [g_bio with_bio]; lia.
Qed.

Lemma register_parts_run fuel dev t j es w :
  holds (g_mem w) Primary t -> used_entries (128 - j) (drop (128 * j) (t_parts t)) = es ->
  (j + length es < 128)%nat -> n_bios (g_bio w) <= CONFIG_BIO_MAX_DEVS ->
  CONFIG_BIO_MAX_DEVS - n_bios (g_bio w) < Z.of_nat fuel ->
  register_parts fuel dev (Z.of_nat j) w =
    (let '(rc, b') := register_list dev es (g_bio w) in (Some rc, with_bio b' w)).
Proof.
  revert j es w. induction fuel as [|fuel IH]; intros j es w H He Hj Hn Hf; [lia|].
  cbn [register_parts]. unfold bind at 1. rewrite (get_part_run t) by (done || lia).
  replace (128 - j)%nat with (S (127 - j))%nat in He by lia. cbn [used_entries] in He.
  unfold slice. set (p := decode _ _) in *.
  destruct (gp_first_lba p =? 0); [subst es; simpl; by destruct w|].
  destruct es as [|p' es]; [done|]. injection He as <- He. cbn [register_list]. unfold bind at 1.
  destruct (bio_block_size dev (g_bio w)) as [bsz b1] eqn:E1.
  assert (b1 = g_bio w) as ->.
  { revert E1. unfold bio_block_size. rewrite checked_dev. by destruct (dev_ok _ _); intros [= _ <-]. }
  rewrite (on_bio_run _ _ _ _ E1). unfold bind at 1 2. rewrite E1. unfold bind at 1.
  match goal with |- context [on_bio ?m] => pose proof (alloc_parent_counts dev _ _ _ _ _ (g_bio w) : let '(r, b') := m (g_bio w) in _) as Ha;
    destruct (m (g_bio w)) as [r b2] eqn:E2; rewrite (on_bio_run m r b2 (with_bio (g_bio w) w) E2) end.
  destruct (Z.ltb_spec r 0); [done|]. destruct (Ha ltac:(lia)) as [Hc Hne].
  replace (Z.of_nat j + 1) with (Z.of_nat (S j)) by lia.
  rewrite (IH (S j) es); cbn [g_bio with_bio g_mem length] in *; [by destruct (register_list _ _ _) | done | | lia..].
  rewrite <- He, drop_drop. do 2 f_equal; lia.
Qed.

(** Entries the block layer accepts, and the devices they become. *)
Definition part_good (p : gpt_part_hdr) : Prop :=
  0 < gp_first_lba p <= gp_last_lba p /\ gp_last_lba p < 2 ^ 32 /\ uuid_wf (gp_uuid p).

Definition part_device (parent : bio_device) (p : gpt_part_hdr) : bio_device :=
  inherit_f parent (fresh_device (gp_first_lba p) (gp_last_lba p) (block_sz parent)
    (uuid_to_guid (gp_uuid p)) (part_name_of p)).

(** The devices with handles [n], [n + 1], ... are those of the entries. *)
Definition registered (parent : bio_device) (n : Z) (es : list gpt_part_hdr) (b : bio_state HW) : Prop :=
  forall k p, es !! k = Some p -> dev_at b (n + Z.of_nat k) = part_device parent p.

Lemma allocate_part dev p (b : bio_state HW) :
  bio_wf b -> dev_ok b dev = true -> block_sz (dev_at b dev) = 512 -> part_good p ->
  n_bios b < CONFIG_BIO_MAX_DEVS ->
  exists b', bio_allocate_parent dev (u32 (gp_first_lba p)) (u32 (gp_last_lba p)) 512
      (uuid_to_guid (gp_uuid p)) (part_name_of p) b = (n_bios b, b') /\
    bio_wf b' /\ n_bios b' = n_bios b + 1 /\ bio_hw b' = bio_hw b /\ older_kept b b' /\
    dev_at b' (n_bios b) = part_device (dev_at b dev) p.
Proof.
  intros Hwf Hok Hbs (Hf & Hl & Hu) Hn. rewrite !u32_small by lia. unfold part_device. rewrite Hbs.
  apply bio_allocate_parent_ok; [done | done | lia | lia | pose proof ptr_bits_ge32; lia | by apply uuid_to_guid_wf | done].
Qed.

Lemma register_list_ok dev es (b : bio_state HW) :
  bio_wf b -> dev_ok b dev = true -> block_sz (dev_at b dev) = 512 -> Forall part_good es ->
  n_bios b + Z.of_nat (length es) <= CONFIG_BIO_MAX_DEVS ->
  exists b', register_list dev es b = (PB_OK, b') /\ bio_wf b' /\
    n_bios b' = n_bios b + Z.of_nat (length es) /\ bio_hw b' = bio_hw b /\ older_kept b b' /\
    registered (dev_at b dev) (n_bios b) es b'.
Proof.
  revert b. induction es as [|p es IH]; intros b Hwf Hok Hbs Hes Hn.
  { exists b. split_and!; [done | done | simpl; lia | done | done | by intros k p]. }
  apply Forall_cons in Hes as [Hp Hes]. cbn [length] in Hn.
  destruct (allocate_part dev p b Hwf Hok Hbs Hp) as (b1 & E & Hwf1 & Hn1 & Hh1 & Hold & Hnew); [lia|].
  destruct (dev_ok_range b dev Hwf Hok) as (Hr & _). assert (Hdev : dev_at b1 dev = dev_at b dev) by by apply Hold.
  assert (Hok1 : dev_ok b1 dev = true) by (revert Hok; unfold dev_ok; by rewrite Hdev).
  destruct (IH b1) as (b' & E' & Hwf' & Hn' & Hh' & Hold' & Hreg); [done | done | by rewrite Hdev | done | lia |].
  cbn [register_list]. unfold bind at 1.
  assert (Ebs : bio_block_size dev b = (512, b)).
  { unfold bio_block_size. rewrite checked_dev, Hok. m_unfold. rewrite Hbs. f_equal. unfold ssz.
    destruct ptr_bits_ok as [-> | ->]; reflexivity. }
  rewrite Ebs, (usz_small 512) by (pose proof ptr_bits_ge32; lia). unfold bind at 1. rewrite E.
  pose proof Hwf as (Hb & _). rewrite (proj2 (Z.ltb_ge (n_bios b) 0)) by lia.
  exists b'. rewrite Hdev in Hreg. split_and!; [done | done | cbn [length]; lia | by rewrite Hh' | |].
  - intros d Hd. by rewrite Hold', Hold by lia.
  - intros [|k] q; cbn [lookup list_lookup].
    + intros [= <-]. rewrite Z.add_0_r, Hold' by lia. done.
    + intros Hk. specialize (Hreg k q Hk). by replace (n_bios b + Z.of_nat (S k)) with (n_bios b1 + Z.of_nat k) by lia.
Qed.

(** ** Recovery *)

(** The primary table rebuilt from a backup. *)
Definition primary_of (last : Z) (t : table) : table :=
  Table (set_place last 1 2 (t_hdr t)) (t_parts t).

(** Both copies were written from the primary table [t]. *)
Record rewrote (dev : bio_dev_t) (t : table) (w w' : W) : Prop := {
  rw_pool : bio_pool (g_bio w') = bio_pool (g_bio w);
  rw_n : n_bios (g_bio w') = n_bios (g_bio w);
  rw_disk : disk_bytes (bio_hw (g_bio w')) =
    written (last_of (g_bio w) dev) t (disk_bytes (bio_hw (g_bio w)));
  rw_ok : gpt_disk (g_bio w') dev;
  rw_primary : holds (g_mem w') Primary (seal t);
  rw_backup : holds (g_mem w') Backup (seal (backup_of (last_of (g_bio w) dev) (seal t)))
}.

Lemma write_tbl_rewrote dev t w :
  statics_disjoint -> gpt_disk (g_bio w) dev -> holds (g_mem w) Primary t ->
  gh_no_of_parts (t_hdr t) = 128 -> gh_current_lba (t_hdr t) = 1 ->
  exists w', gpt_write_tbl dev w = (PB_OK, w') /\ rewrote dev t w w'.
Proof.
  intros Hdis Hd H Hn Hc.
  destruct (write_tbl_run dev t w Hdis Hd H Hn Hc) as (m' & v' & h' & -> & D & Hd' & HP & HB).
  eexists. split; [done|]. by split.
Qed.

(** The header and array checks one after the other. *)
Lemma checks_run (s : side) t w (k : G Z) :
  holds (g_mem w) s t -> (hdr_intact (t_hdr t) = true -> gh_no_of_parts (t_hdr t) = 128) ->
  exists m', mem_only s (g_mem w) m' /\ (intact t = true -> holds m' s t) /\
    (rc <- gpt_has_valid_header (hdr_at s) ;;
     if negb (rc =? PB_OK) then ret (- PB_ERR) else
     rc <- gpt_has_valid_part_array (hdr_at s) (part_at s) ;;
     if negb (rc =? PB_OK) then ret (- PB_ERR) else k) w =
    (if intact t then k (with_mem m' w) else (- PB_ERR, with_mem m' w)).
Proof.
  intros H Hn. unfold intact. unfold bind at 1.
  destruct (valid_header_run s t w H) as (m1 & -> & O1 & H1).
  destruct (hdr_intact (t_hdr t)); [|by exists m1].
  change (negb (PB_OK =? PB_OK)) with false. cbn [andb]. cbv beta iota. unfold bind at 1.
  destruct (valid_array_run s t (with_mem m1 w) (H1 eq_refl) (Hn eq_refl)) as (m2 & -> & O2 & H2).
  exists m2. split; [eauto using mem_only_trans|]. split; [done|]. by destruct (array_intact t).
Qed.

Lemma primary_of_wf last t : 32 <= last < 2 ^ 32 -> table_wf t -> table_wf (primary_of last t).
Proof.
  intros Hl (Hh & ? & ?). split_and!; [|done..]. apply cwf_set_place; [lia..|done].
Qed.

Lemma intact_parts t : (hdr_intact (t_hdr t) = true -> gh_no_of_parts (t_hdr t) = 128) ->
  intact t = true -> gh_no_of_parts (t_hdr t) = 128.
Proof. intros Hn Hi. apply Hn. unfold intact in Hi. by zbool. Qed.

Lemma recover_primary_run dev t w :
  statics_disjoint -> gpt_disk (g_bio w) dev -> holds (g_mem w) Backup t ->
  (hdr_intact (t_hdr t) = true -> gh_no_of_parts (t_hdr t) = 128) ->
  exists w', recover_primary dev w = (if intact t then PB_OK else - PB_ERR, w') /\
    if intact t then rewrote dev (primary_of (last_of (g_bio w) dev) t) w w' else g_bio w' = g_bio w.
Proof.
  intros Hdis Hd H Hn. unfold recover_primary.
  fold (hdr_at Primary) (hdr_at Backup) (part_at Primary) (part_at Backup).
  match goal with |- context [bind (gpt_has_valid_part_array _ _) (fun rc => if negb (rc =? PB_OK) then _ else ?k)] =>
    destruct (checks_run Backup t w k H Hn) as (m1 & O1 & H1 & ->) end.
  destruct (intact t) eqn:Ei; [|by eexists]. specialize (H1 eq_refl).
  pose proof (intact_parts t Hn Ei) as Hp. pose proof (gd_last _ _ Hd) as Hll.
  set (last := last_of (g_bio w) dev). fold (last_of (g_bio w) dev) last in Hll.
  destruct (table_copy_holds Backup Primary t m1 Hdis ltac:(done) H1) as (H2 & _ & H3 & _).
  unfold bind at 1. rewrite (hdr_copy_run Backup Primary t) by done.
  unfold bind at 1. rewrite (get_hdr_run Backup t), Hp by done.
  unfold bind at 1. rewrite (parts_copy_run Backup Primary t) by done.
  unfold bind at 1. rewrite (on_bio_run _ last (g_bio w)) by by apply last_block_run.
  assert (El : u64 last = last) by (unfold u64; rewrite Z.mod_small; lia). rewrite El.
  unfold bind at 1. rewrite (mod_hdr_run Primary t) by done.
  assert (Hwp : table_wf (primary_of last t)) by (apply primary_of_wf; [lia | apply H]).
  pose proof (holds_write_hdr _ Primary t _ H3 (proj1 Hwp)) as H4.
  unfold bind at 1. match goal with |- context [gpt_write_tbl _ ?w1] =>
    destruct (write_tbl_rewrote dev (primary_of last t) w1 Hdis Hd H4 Hp eq_refl) as (w' & -> & Hr) end.
  exists w'. split; [done|]. by destruct Hr; split.
Qed.

Lemma recover_backup_run dev t w :
  statics_disjoint -> gpt_disk (g_bio w) dev -> holds (g_mem w) Primary t ->
  gh_no_of_parts (t_hdr t) = 128 -> gh_current_lba (t_hdr t) = 1 -> intact t = true ->
  exists w', recover_backup dev w = (PB_OK, w') /\ rewrote dev t w w'.
Proof.
  intros Hdis Hd H Hn Hc Hi. unfold recover_backup.
  fold (hdr_at Primary) (hdr_at Backup) (part_at Primary) (part_at Backup).
  match goal with |- context [bind (gpt_has_valid_part_array _ _) (fun rc => if negb (rc =? PB_OK) then _ else ?k)] =>
    destruct (checks_run Primary t w k H (fun _ => Hn)) as (m1 & O1 & H1 & ->) end.
  rewrite Hi. specialize (H1 Hi). pose proof (gd_last _ _ Hd) as Hll.
  set (last := last_of (g_bio w) dev). fold (last_of (g_bio w) dev) last in Hll.
  destruct (table_copy_holds Primary Backup t m1 Hdis ltac:(done) H1) as (H2 & H3 & H4 & _).
  unfold bind at 1. rewrite (hdr_copy_run Primary Backup t) by done.
  unfold bind at 1. rewrite (get_hdr_run Primary t), Hn by done.
  unfold bind at 1. rewrite (parts_copy_run Primary Backup t) by done.
  unfold bind at 1. rewrite (on_bio_run _ last (g_bio w)) by by apply last_block_run.
  unfold bind at 1. rewrite (mod_hdr_run Backup t), Hn by done.
  match goal with |- context [cenc gpt_header_c (set_place ?a ?b ?c ?h)] =>
    assert (Hw : cwf gpt_header_c (set_place a b c h)) end.
  { apply cwf_set_place; [lia | apply Z.mod_pos_bound; lia.. | apply H]. }
  cbn [g_mem with_mem with_bio]. set (m2 := ram_write (part_at Backup) _ _) in *.
  pose proof (holds_other m2 _ Backup Primary t Hdis ltac:(done) (mem_only_hdr Backup m2 _ Hw) H3) as H5.
  unfold bind at 1. match goal with |- context [gpt_write_tbl _ ?w1] =>
    destruct (write_tbl_rewrote dev t w1 Hdis Hd H5 Hn Hc) as (w' & -> & Hr) end.
  exists w'. split; [done|]. by destruct Hr; split.
Qed.

(** The table initialisation goes on with, and what it leaves on the disk. *)
Definition chosen (last : Z) (p k : table) : option table :=
  if intact p then Some p else if intact k then Some (primary_of last k) else None.
Definition repaired (last : Z) (p k : table) (D : list Z) : list Z :=
  match chosen last p k with
  | Some t => if intact p && intact k then D else written last t D
  | None => D
  end.

(** 128 entries, and a primary header that says it lies at block 1. *)
Definition standard (p k : table) : Prop :=
  (hdr_intact (t_hdr p) = true -> gh_no_of_parts (t_hdr p) = 128 /\ gh_current_lba (t_hdr p) = 1) /\
  (hdr_intact (t_hdr k) = true -> gh_no_of_parts (t_hdr k) = 128).

Lemma hdr_intact_signature h : hdr_intact h = true -> gh_signature h = gpt_header_signature.
Proof. unfold hdr_intact. intros H. by zbool. Qed.

Lemma intact_hdr t : intact t = true -> hdr_intact (t_hdr t) = true.
Proof. unfold intact. intros H. by zbool. Qed.

Lemma check_tables_run dev p k w :
  statics_disjoint -> gpt_disk (g_bio w) dev -> holds (g_mem w) Primary p -> holds (g_mem w) Backup k ->
  standard p k ->
  let last := last_of (g_bio w) dev in
  exists w' rc, check_tables dev w = (rc, w') /\
    bio_pool (g_bio w') = bio_pool (g_bio w) /\ n_bios (g_bio w') = n_bios (g_bio w) /\
    disk_bytes (bio_hw (g_bio w')) = repaired last p k (disk_bytes (bio_hw (g_bio w))) /\
    gpt_disk (g_bio w') dev /\
    match chosen last p k with
    | Some t => rc = PB_OK /\ exists t', holds (g_mem w') Primary t' /\ t_parts t' = t_parts t
    | None => rc = - PB_ERR
    end.
Proof.
  intros Hdis Hd HP HK [Sp Sk] last. unfold check_tables.
  fold (hdr_at Primary) (hdr_at Backup) (part_at Primary) (part_at Backup). unfold bind at 1.
  destruct (is_valid_run Primary p w HP) as (m1 & rc1 & -> & -> & O1 & H1); [intros Hi; apply (Sp Hi)|].
  pose proof (holds_other _ _ Primary Backup k Hdis ltac:(done) O1 HK) as HK1.
  unfold repaired, chosen. destruct (intact p) eqn:Ip; cbn [negb andb].
  - specialize (H1 eq_refl). destruct (Sp (intact_hdr p Ip)) as [Hn Hc]. unfold bind at 1, ret at 1.
    change (negb (PB_OK =? PB_OK)) with false. cbv beta iota. unfold bind at 1.
    destruct (is_valid_run Backup k (with_mem m1 w) HK1) as (m2 & rc2 & -> & -> & O2 & H2); [done|].
    pose proof (holds_other _ _ Backup Primary p Hdis ltac:(done) O2 H1) as H3.
    destruct (intact k); cbn [negb].
    + eexists _, _. split_and!; [reflexivity..| done | done | eauto].
    + destruct (recover_backup_run dev p (with_mem m2 (with_mem m1 w)) Hdis Hd H3 Hn Hc Ip) as (w' & -> & Hr).
      destruct Hr as [R1 R2 R3 R4 R5 R6]. eexists _, _. split_and!; [reflexivity | done.. | by exists (seal p)].
  - unfold bind at 1.
    destruct (recover_primary_run dev k (with_mem m1 w) Hdis Hd HK1 Sk) as (w1 & -> & Hr).
    destruct (intact k) eqn:Ik.
    2:{ change (negb (- PB_ERR =? PB_OK)) with true. cbv beta iota. eexists _, _.
        rewrite Hr. split_and!; [reflexivity | done..]. }
    destruct Hr as [R1 R2 R3 R4 R5 R6]. change (negb (PB_OK =? PB_OK)) with false. cbv beta iota.
    change (last_of (g_bio (with_mem m1 w)) dev) with last in *.
    set (t := primary_of last k) in *. unfold bind at 1.
    assert (Hg : gh_signature (t_hdr t) = gpt_header_signature) by exact (hdr_intact_signature (t_hdr k) (intact_hdr k Ik)).
    assert (Hi2 : intact (seal (backup_of last (seal t))) = true) by by apply seal_intact.
    destruct (is_valid_run Backup _ w1 R6) as (m2 & rc2 & -> & E2 & O2 & _).
    { intros _. apply (Sk (intact_hdr k Ik)). }
    rewrite E2, Hi2. cbn [negb].
    pose proof (holds_other _ _ Backup Primary _ Hdis ltac:(done) O2 R5) as H3.
    eexists _, _. split_and!; [reflexivity | done.. | eauto].
Qed.

(** ** Initialisation *)

Definition hooked (b : bio_state HW) (dev : bio_dev_t) : bio_state HW :=
  (upd_dev dev (set_install_f gpt_install_cb) b).2.

Lemma hook_run b dev : gpt_disk b dev ->
  bio_set_install_partition_cb dev gpt_install_cb b = (PB_OK, hooked b dev) /\
  gpt_disk (hooked b dev) dev /\ last_of (hooked b dev) dev = last_of b dev /\
  dev_at (hooked b dev) dev = set_install_f gpt_install_cb (dev_at b dev).
Proof.
  intros Hd. pose proof Hd as [Hrw Hu Hf Hl Hb].
  pose proof Hrw as (Hwf & Hok & Hr & Hw & Hs & Hll & Hin & Hsz).
  destruct (dev_ok_range b dev Hwf Hok) as (Hrange & _).
  pose proof (dev_at_upd dev (set_install_f gpt_install_cb) b dev Hok Hwf ltac:(lia)) as E.
  rewrite Z.eqb_refl in E. fold (hooked b dev) in E. split_and!.
  - unfold bio_set_install_partition_cb. unfold bind at 1. by rewrite check_dev_spec, Hok.
  - split; unfold bio_rw; rewrite ?E; try done. split_and!; try done.
    + apply (upd_dev_wf dev (set_install_f gpt_install_cb) b Hwf Hok). by unfold dev_wf.
    + revert Hok. unfold dev_ok. by rewrite E.
  - unfold last_of. by rewrite E.
  - done.
Qed.

(** Loading both tables, then checking them. *)
Lemma init_run dev tbls w :
  statics_disjoint -> gpt_disk (g_bio w) dev ->
  let D := disk_bytes (bio_hw (g_bio w)) in let last := last_of (g_bio w) dev in
  let p := disk_table D last Primary in let k := disk_table D last Backup in
  standard p k ->
  exists w', gpt_ptbl_init dev tbls w =
      (match chosen last p k with
       | Some _ => register_parts register_fuel dev 0 w'
       | None => (Some (- PB_ERR), w')
       end) /\
    bio_pool (g_bio w') = bio_pool (hooked (g_bio w) dev) /\ n_bios (g_bio w') = n_bios (g_bio w) /\
    disk_bytes (bio_hw (g_bio w')) = repaired last p k D /\ gpt_disk (g_bio w') dev /\
    (forall t, chosen last p k = Some t -> exists t', holds (g_mem w') Primary t' /\ t_parts t' = t_parts t).
Proof.
  intros Hdis Hd D last p k Hst. pose proof (gpt_disk_fits _ _ Hd) as Hfits.
  pose proof (disk_table_wf _ _ Primary Hfits) as [Wp _]. pose proof (disk_table_wf _ _ Backup Hfits) as [Wk _].
  pose proof (gd_last _ _ Hd) as Hll. fold (last_of (g_bio w) dev) last in Hll.
  destruct (hook_run (g_bio w) dev Hd) as (E0 & Hd0 & L0 & _).
  unfold gpt_ptbl_init. unfold bind at 1, mod_v at 1, modify at 1. cbv beta iota.
  unfold bind at 1. erewrite on_bio_run by exact E0. change (negb (PB_OK =? PB_OK)) with false. cbv beta iota.
  destruct (table_read_disk dev Primary _ Hd0) as (h1 & E1 & D1 & Hd1).
  rewrite L0 in E1. change (place (last_of (g_bio w) dev) Primary) with 1 in E1. unfold bind at 1.
  erewrite on_bio_run by exact E1. unfold bind at 1, mem_write at 1, modify at 1. cbv beta iota.
  change (negb (PB_OK =? PB_OK)) with false. cbv beta iota. unfold bind at 1.
  set (b1 := BioState _ _ h1) in *. assert (L1 : last_of b1 dev = last) by apply L0.
  erewrite on_bio_run by exact (last_block_run b1 dev Hd1). rewrite L1.
  destruct (table_read_disk dev Backup _ Hd1) as (h2 & E2 & D2 & Hd2). rewrite L1 in E2.
  assert (Ep : u32 (usz (last - parts_bytes 128 / 512)) = place last Backup).
  { unfold parts_bytes. change (128 * sizeof gpt_part_hdr_c) with 16384. pose proof ptr_bits_ge32.
    rewrite (usz_small 16384) by lia. change (16384 / 512) with 32. rewrite usz_small by lia.
    by rewrite u32_small by lia. }
  unfold bind at 1. rewrite Ep. erewrite on_bio_run by exact E2.
  unfold bind at 1, mem_write at 1, modify at 1. cbv beta iota.
  change (negb (PB_OK =? PB_OK)) with false. cbv beta iota. cbn [g_bio g_mem g_v g_clk with_bio].
  change (bio_hw b1) with h1. rewrite D1. change (bio_hw (hooked (g_bio w) dev)) with (bio_hw (g_bio w)).
  fold (side_at Primary) (side_at Backup). fold D last p k.
  pose proof (holds_load (g_mem w) Primary p Wp) as HP. set (m1 := ram_write (side_at Primary) _ _) in *.
  pose proof (holds_load m1 Backup k Wk) as HK.
  pose proof (holds_other m1 _ Backup Primary p Hdis ltac:(done) (mem_only_load m1 Backup k Wk) HP) as HP2.
  set (m2 := ram_write (side_at Backup) _ _) in *. set (b2 := BioState _ _ h2) in *.
  assert (L2 : last_of b2 dev = last) by apply L0. unfold bind at 1.
  match goal with |- context [check_tables dev ?w2] =>
    destruct (check_tables_run dev p k w2 Hdis Hd2 HP2 HK Hst) as (w' & rc & -> & R1 & R2 & R3 & R4 & R5) end.
  cbn [g_bio] in R1, R2, R3, R5. rewrite L2 in R3, R5.
  change (bio_hw b2) with h2 in R3. rewrite D2 in R3. change (bio_hw b1) with h1 in R3. rewrite D1 in R3.
  exists w'. destruct (chosen last p k) as [t|].
  - destruct R5 as (-> & t' & Ht' & Et'). change (negb (PB_OK =? PB_OK)) with false. cbv beta iota.
    split_and!; [done..|]. intros t0 [= <-]. eauto.
  - rewrite R5. change (negb (- PB_ERR =? PB_OK)) with true. cbv beta iota. by split_and!.
Qed.

(** ** Installation *)

(** The bytes of an array with the entries [ps] in front. *)
Definition entries (n : nat) (ps : list gpt_part_hdr) : list Z :=
  concat (map (cenc gpt_part_hdr_c) ps) ++ zeros (128 * (n - length ps)).

Lemma length_part_enc p : cwf gpt_part_hdr_c p -> length (cenc gpt_part_hdr_c p) = 128%nat.
Proof. apply (cenc_length (c := gpt_part_hdr_c)). Qed.

Lemma length_concat_parts ps : Forall (cwf gpt_part_hdr_c) ps ->
  length (concat (map (cenc gpt_part_hdr_c) ps)) = (128 * length ps)%nat.
Proof.
  induction 1 as [|p ps Hp _ IH]; [done|]. cbn [map concat length].
  rewrite length_app, length_part_enc, IH by done. lia.
Qed.

Lemma entries_bytes n ps : Forall (cwf gpt_part_hdr_c) ps -> bytes (entries n ps).
Proof.
  intros H. apply bytes_app; [|apply bytes_zeros].
  induction H; [constructor|]. apply bytes_app; [by apply (cenc_bytes (c := gpt_part_hdr_c)) | done].
Qed.

Lemma length_entries n ps : Forall (cwf gpt_part_hdr_c) ps -> (length ps <= n)%nat ->
  length (entries n ps) = (128 * n)%nat.
Proof. intros H Hn. unfold entries, zeros. rewrite length_app, length_concat_parts, length_replicate by done. lia. Qed.

Lemma entries_app n ps p : Forall (cwf gpt_part_hdr_c) ps -> cwf gpt_part_hdr_c p -> (length ps < n)%nat ->
  splice (128 * length ps) (cenc gpt_part_hdr_c p) (entries n ps) = entries n (ps ++ [p]).
Proof.
  intros Hps Hp Hn. pose proof (length_concat_parts ps Hps) as Hl. pose proof (length_part_enc p Hp) as Hp'.
  unfold splice, entries. rewrite take_app_length', drop_app_ge by lia.
  rewrite map_app, concat_app, <- app_assoc. cbn [map concat]. rewrite app_nil_r. do 2 f_equal.
  unfold zeros. rewrite drop_replicate, length_app. cbn [length]. f_equal. lia.
Qed.

Lemma entries_zero n ps : Forall (cwf gpt_part_hdr_c) ps -> (length ps < n)%nat ->
  splice (128 * length ps) (zeros 128) (entries n ps) = entries n ps /\
  slice (128 * length ps) 128 (entries n ps) = zeros 128.
Proof.
  intros Hps Hn. pose proof (length_concat_parts ps Hps) as Hl.
  unfold splice, slice, entries, zeros. rewrite take_app_length', !drop_app_ge, length_replicate by lia.
  rewrite !drop_replicate, take_replicate, <- replicate_add. split; [do 2 f_equal; lia | f_equal; lia].
Qed.

Lemma slice_entries n ps k p : Forall (cwf gpt_part_hdr_c) ps -> ps !! k = Some p ->
  slice (128 * k) 128 (entries n ps) = cenc gpt_part_hdr_c p.
Proof.
  intros Hps. unfold slice, entries. generalize (zeros (128 * (n - length ps))) as z. revert k.
  induction Hps as [|q ps Hq Hps IH]; intros [|k] z; try done; cbn [map concat lookup list_lookup].
  - intros [= ->]. rewrite <- app_assoc, Nat.mul_0_r, drop_0. apply take_app_length'. by rewrite length_part_enc.
  - intros Hk. rewrite <- app_assoc, drop_app_ge by (rewrite length_part_enc by done; lia).
    rewrite length_part_enc by done. replace (128 * S k - 128)%nat with (128 * k)%nat by lia. by apply IH.
Qed.

Lemma used_entries_all n ps : Forall (cwf gpt_part_hdr_c) ps -> Forall (fun p => gp_first_lba p <> 0) ps ->
  (length ps < n)%nat -> used_entries n (entries n ps) = ps.
Proof.
  intros Hps. revert n. induction Hps as [|p ps Hp Hps IH]; intros n Hf Hn; (destruct n as [|n]; [simpl in *; lia|]);
    cbn [used_entries].
  - destruct (entries_zero (S n) [] (List.Forall_nil _) Hn) as [_ E]. unfold slice in E.
    change (128 * length (@nil gpt_part_hdr))%nat with 0%nat in E. rewrite drop_0 in E. by rewrite E.
  - apply Forall_cons in Hf as [Hf0 Hf]. unfold entries. cbn [map concat].
    rewrite <- app_assoc, take_app_length', drop_app_length' by (by rewrite length_part_enc).
    rewrite (decode_cenc gpt_part_hdr_c) by done. rewrite (proj2 (Z.eqb_neq _ _) Hf0). f_equal.
    apply IH; [done | simpl in Hn; lia].
Qed.

(** The entry [gpt_add_part] makes. *)
Definition new_part (first blocks : Z) (u : uuid_t) (name : list Z) : gpt_part_hdr :=
  GptPart u u first (first + blocks - 1) [0; 0; 0; 0; 0; 0; PB_GPT_ATTR_OK; 0x80]
    (splice 0 (utf16 name) (zeros 72)).

(** A name that fits: at most 36 characters, none of them the terminator. *)
Definition name_ok (name : list Z) : Prop :=
  (length name <= GPT_PART_NAME_MAX_SIZE)%nat /\ Forall (fun c => 0 < c < 256) name.

Lemma utf16_spec name : name_ok name -> length (utf16 name) = (2 * length name)%nat /\ bytes (utf16 name).
Proof.
  intros [_ H]. unfold utf16. induction H as [|c name Hc _ IH]; [split; [done | constructor]|]. cbn [map concat length].
  rewrite length_app. destruct IH as [-> IH]. split; [simpl; lia|].
  apply bytes_app; [|done]. unfold bytes, is_byte. repeat constructor; lia.
Qed.

Lemma new_part_wf first blocks u name : 0 <= first -> 0 < blocks -> first + blocks < 2 ^ 64 -> uuid_wf u ->
  name_ok name -> cwf gpt_part_hdr_c (new_part first blocks u name).
Proof.
  intros Hf Hb Hl [Hu Hub] Hn. destruct (utf16_spec name Hn) as [Hlen Hby]. destruct Hn as [Hn _].
  unfold GPT_PART_NAME_MAX_SIZE in Hn.
  assert (Hs : length (splice 0 (utf16 name) (zeros 72)) = 72%nat).
  { rewrite length_splice; unfold zeros; rewrite length_replicate, ?Hlen; lia. }
  change (2 ^ 64) with (256 ^ Z.of_nat 8) in Hl.
  unfold new_part. simpl. split_and!; try done; try lia; [|auto with pb].
  change PB_GPT_ATTR_OK with 128. apply Forall_forall. intros y Hy. set_unfold in Hy. unfold is_byte.
  intuition lia.
Qed.

Lemma mod_part_run k t p f w : holds (g_mem w) Primary t -> (k < 128)%nat ->
  cwf gpt_part_hdr_c p -> slice (128 * k) 128 (t_parts t) = cenc gpt_part_hdr_c p ->
  cwf gpt_part_hdr_c (f p) ->
  exists m', mod_part (primary_part (Z.of_nat k)) f w = (tt, with_mem m' w) /\
    holds m' Primary (Table (t_hdr t) (splice (128 * k) (cenc gpt_part_hdr_c (f p)) (t_parts t))).
Proof.
  intros H Hk Hp Hs Hf. unfold mod_part. unfold bind at 1. rewrite (get_part_run t), Hs by done.
  rewrite (decode_cenc gpt_part_hdr_c) by done. eexists. split; [done|].
  assert (E : primary_part (Z.of_nat k) = part_at Primary + Z.of_nat (128 * k)).
  { unfold part_at, primary_part. change (sizeof gpt_part_hdr_c) with 128. lia. }
  rewrite E. apply holds_write_parts; [done | rewrite length_part_enc by done; unfold array_bytes; lia |].
  by apply (cenc_bytes (c := gpt_part_hdr_c)).
Qed.

Lemma slice_splice_part k bs A : (128 * k + 128 <= length A)%nat -> length bs = 128%nat ->
  slice (128 * k) 128 (splice (128 * k) bs A) = bs.
Proof. intros HA Hb. rewrite <- Hb at 2. apply slice_splice_same. lia. Qed.

Lemma splice_splice_same off a c (l : list Z) : length a = length c -> (off + length a <= length l)%nat ->
  splice off a (splice off c l) = splice off a l.
Proof.
  intros Hab Hl. unfold splice. rewrite take_app_le, take_take, Nat.min_id by (rewrite length_take; lia).
  do 2 f_equal. rewrite app_assoc, drop_app_ge by (rewrite length_app, length_take; lia).
  rewrite length_app, length_take, drop_drop. f_equal. lia.
Qed.

(** Where the next entry starts. *)
Definition next_lba (h : gpt_header) (ps : list gpt_part_hdr) : Z :=
  match last ps with Some p => u64 (gp_last_lba p + 1) | None => gh_first_lba h end.

Lemma prev_part_run h ps w : holds (g_mem w) Primary (Table h (entries 128 ps)) ->
  Forall (cwf gpt_part_hdr_c) ps -> (length ps < 128)%nat ->
  exists prev, get_part (primary_part (Z.of_nat (length ps) - 1)) w = (prev, w) /\
    (if Z.of_nat (length ps) =? 0 then gh_first_lba h else u64 (gp_last_lba prev + 1)) = next_lba h ps.
Proof.
  intros H Hps Hn. unfold next_lba. destruct (last ps) as [p|] eqn:El.
  - destruct ps as [|q ps' _] using rev_ind; [done|]. rewrite last_snoc in El. injection El as ->.
    rewrite length_app in *. cbn [length] in *.
    replace (Z.of_nat (length ps' + 1) - 1) with (Z.of_nat (length ps')) by lia.
    rewrite (get_part_run _ _ _ H) by lia. eexists. split; [done|].
    rewrite (proj2 (Z.eqb_neq _ _)) by lia. cbn [t_parts].
    rewrite (slice_entries 128 _ _ p) by (done || by rewrite lookup_app_r, Nat.sub_diag by lia).
    rewrite (decode_cenc gpt_part_hdr_c); [done|]. by apply Forall_app in Hps as [_ [? _]%Forall_cons].
  - apply last_None in El. subst ps. by eexists.
Qed.

(** The entry is cleared before it is filled in. *)
Lemma clear_part_run h ps w : holds (g_mem w) Primary (Table h (entries 128 ps)) ->
  Forall (cwf gpt_part_hdr_c) ps -> (length ps < 128)%nat ->
  exists m', mem_write (primary_part (Z.of_nat (length ps))) (zeros (csize gpt_part_hdr_c)) w = (tt, with_mem m' w) /\
    holds m' Primary (Table h (entries 128 ps)).
Proof.
  intros H Hps Hn. destruct (entries_zero 128 ps Hps Hn) as [Ez _].
  eexists. split; [done|]. change (zeros (csize gpt_part_hdr_c)) with (zeros 128).
  assert (E : primary_part (Z.of_nat (length ps)) = part_at Primary + Z.of_nat (128 * length ps)).
  { unfold part_at, primary_part. change (sizeof gpt_part_hdr_c) with 128. lia. }
  rewrite E. rewrite <- Ez. apply (holds_write_parts _ Primary (Table h (entries 128 ps)));
    [done | unfold zeros, array_bytes; rewrite length_replicate; lia | apply bytes_zeros].
Qed.

Lemma blank_part_wf first last : 0 <= first < 2 ^ 64 -> 0 <= last < 2 ^ 64 ->
  cwf gpt_part_hdr_c (GptPart (zeros 16) (zeros 16) first last (zeros 8) (zeros 72)).
Proof.
  change (2 ^ 64) with (256 ^ Z.of_nat 8). intros Hf Hl.
  simpl. split_and!; try done; try lia; try apply bytes_zeros.
Qed.

Lemma add_part_run h ps first blocks u name w :
  statics_disjoint -> holds (g_mem w) Primary (Table h (entries 128 ps)) ->
  Forall (cwf gpt_part_hdr_c) ps -> (length ps < 128)%nat -> next_lba h ps = first ->
  0 <= first -> 0 < blocks < 2 ^ 32 -> first + blocks - 1 < gh_last_lba h -> gh_last_lba h < 2 ^ 63 ->
  uuid_wf u -> name_ok name ->
  exists m', gpt_add_part (Z.of_nat (length ps)) blocks u name w = (PB_OK, with_mem m' w) /\
    holds m' Primary (Table h (entries 128 (ps ++ [new_part first blocks u name]))).
Proof.
  intros Hdis H Hps Hn Hnext Hf Hb Hlim Hmax Hu Hname. unfold gpt_add_part. fold (hdr_at Primary).
  destruct (clear_part_run h ps w H Hps Hn) as (m1 & E1 & H1). unfold bind at 1. rewrite E1.
  unfold bind at 1. rewrite (get_hdr_run Primary (Table h (entries 128 ps))) by done. cbn [t_hdr].
  destruct (prev_part_run h ps (with_mem m1 w) H1 Hps Hn) as (prev & Ep & Enext).
  unfold bind at 1. rewrite Ep, Enext, Hnext.
  assert (El : u64 (first + blocks - 1) = first + blocks - 1) by (unfold u64; rewrite Z.mod_small; lia). rewrite El.
  set (p1 := GptPart (zeros 16) (zeros 16) first (first + blocks - 1) (zeros 8) (zeros 72)).
  assert (W0 : cwf gpt_part_hdr_c zero_gpt_part) by (apply blank_part_wf; lia).
  assert (W1 : cwf gpt_part_hdr_c p1).
  { apply blank_part_wf; lia. }
  assert (W2 : cwf gpt_part_hdr_c (new_part first blocks u name)) by (apply new_part_wf; done || lia).
  destruct (entries_zero 128 ps Hps Hn) as [_ Ez]. pose proof (length_entries 128 ps Hps ltac:(lia)) as HA.
  unfold bind at 1. match goal with |- context [mod_part _ ?f _] =>
    destruct (mod_part_run (length ps) (Table h (entries 128 ps)) zero_gpt_part f (with_mem m1 w) H1 Hn W0 Ez W1)
      as (m2 & -> & H2) end.
  change (holds m2 Primary (Table h (splice (128 * length ps) (cenc gpt_part_hdr_c p1) (entries 128 ps)))) in H2.
  unfold bind at 1. erewrite (get_hdr_run Primary) by exact H2. cbn [t_hdr].
  rewrite (proj2 (Z.leb_gt _ _) Hlim), (proj2 (Z.ltb_ge _ _)) by (destruct Hname; lia).
  unfold bind at 1. match goal with |- context [mod_part _ ?f _] =>
    destruct (mod_part_run (length ps) _ p1 f (with_mem m2 (with_mem m1 w)) H2 Hn W1) as (m3 & -> & H3) end;
    [apply slice_splice_part; [lia | by apply length_part_enc] | done |].
  cbn [t_hdr t_parts] in H3. rewrite splice_splice_same in H3
    by (rewrite ?length_part_enc by done; done || (rewrite ?length_part_enc by done; lia)).
  change (holds m3 Primary (Table h (splice (128 * length ps)
    (cenc gpt_part_hdr_c (new_part first blocks u name)) (entries 128 ps)))) in H3.
  rewrite entries_app in H3 by done. eexists. split; [reflexivity|].
  eapply (holds_other m3 _ Backup Primary); [done | done | | done].
  replace (backup_part _) with (side_at Backup + Z.of_nat (128 * length ps))
    by (unfold side_at, backup_part; change (sizeof gpt_part_hdr_c) with 128; lia).
  apply mem_only_write. rewrite length_ram_read. change (Z.to_nat (sizeof gpt_part_hdr_c)) with 128%nat.
  unfold table_bytes. lia.
Qed.

(** The entries made from a table, starting at block [first]; the table fits
    below the block [limit]. *)
Definition ent_blocks (e : gpt_part_table) : Z := pt_size e / 512.

Fixpoint layout (first : Z) (ents : list gpt_part_table) : list gpt_part_hdr :=
  match ents with
  | [] => []
  | e :: ents =>
      new_part first (ent_blocks e) (uuid_to_guid (pt_uu e)) (pt_description e) ::
      layout (first + ent_blocks e) ents
  end.

Fixpoint ents_fit (first limit : Z) (ents : list gpt_part_table) : Prop :=
  match ents with
  | [] => True
  | e :: ents =>
      uuid_wf (pt_uu e) /\ name_ok (pt_description e) /\ 0 < ent_blocks e /\
      first + ent_blocks e - 1 < limit /\ ents_fit (first + ent_blocks e) limit ents
  end.

Lemma length_layout first ents : length (layout first ents) = length ents.
Proof. revert first. induction ents; intros; simpl; [done | by rewrite IHents]. Qed.

Lemma layout_wf first limit ents : 0 <= first -> limit <= 2 ^ 32 -> ents_fit first limit ents ->
  Forall (cwf gpt_part_hdr_c) (layout first ents).
Proof.
  revert first. induction ents as [|e ents IH]; intros first Hf Hl; cbn [layout ents_fit]; [done|].
  intros (Hu & Hn & Hb & Hlt & Hrest). constructor; [|apply IH; [lia | done..]].
  apply new_part_wf; [lia.. | by apply uuid_to_guid_wf | done].
Qed.

Lemma layout_good first limit ents : 0 < first -> limit <= 2 ^ 32 -> ents_fit first limit ents ->
  Forall part_good (layout first ents).
Proof.
  revert first. induction ents as [|e ents IH]; intros first Hf Hl; cbn [layout ents_fit]; [done|].
  intros (Hu & Hn & Hb & Hlt & Hrest). constructor; [|apply IH; [lia | done..]].
  split_and!; cbn [new_part gp_first_lba gp_last_lba gp_uuid]; [lia.. | by apply uuid_to_guid_wf].
Qed.

(** Adding the remaining entries of a table, then writing it. *)
Lemma add_parts_run dev h ps ents first w :
  statics_disjoint -> gpt_disk (g_bio w) dev -> holds (g_mem w) Primary (Table h (entries 128 ps)) ->
  Forall (cwf gpt_part_hdr_c) ps -> (length ps + length ents < 128)%nat -> next_lba h ps = first ->
  0 <= first -> gh_last_lba h < 2 ^ 32 -> ents_fit first (gh_last_lba h) ents ->
  exists m', add_parts dev (Z.of_nat (length ps)) ents w = gpt_write_tbl dev (with_mem m' w) /\
    holds m' Primary (Table h (entries 128 (ps ++ layout first ents))).
Proof.
  intros Hdis Hd. revert ps first w Hd. induction ents as [|e ents IH]; intros ps first w Hd H Hps Hn Hnext Hf Hl.
  { intros _. exists (g_mem w). rewrite app_nil_r. split; [by destruct w | done]. }
  intros (Hu & Hname & Hb & Hlt & Hrest). cbn [length] in Hn. cbn [add_parts layout].
  unfold bind at 1. erewrite on_bio_run by by apply block_size_run.
  rewrite (usz_small 512) by (pose proof ptr_bits_ge32; lia). change (pt_size e / 512) with (ent_blocks e).
  rewrite u32_small by lia. pose proof (uuid_to_guid_wf _ Hu) as Hg.
  replace (with_bio (g_bio w) w) with w by by destruct w. unfold bind at 1.
  destruct (add_part_run h ps first (ent_blocks e) (uuid_to_guid (pt_uu e)) (pt_description e) w) as (m1 & -> & H1);
    [done | done | done | lia | done | lia.. | done | done |].
  change (negb (PB_OK =? PB_OK)) with false. cbv beta iota.
  set (p := new_part _ _ _ _) in *. replace (Z.of_nat (length ps) + 1) with (Z.of_nat (length (ps ++ [p])))
    by (rewrite length_app; simpl; lia).
  destruct (IH (ps ++ [p]) (first + ent_blocks e) (with_mem m1 w)) as (m2 & -> & H2); try done.
  - apply Forall_app. split; [done|]. constructor; [|done]. apply new_part_wf; done || lia.
  - rewrite length_app. simpl. lia.
  - unfold next_lba. rewrite last_snoc. unfold p. cbn [new_part gp_last_lba].
    unfold u64. rewrite Z.mod_small; lia.
  - lia.
  - exists m2. split; [done|]. by rewrite <- app_assoc in H2.
Qed.

Lemma prng_bytes_run n w : exists l v', prng_bytes n w = (l, GptWorld (g_bio w) (g_mem w) v' (g_clk w)) /\
  length l = n /\ bytes l.
Proof.
  revert w. induction n as [|n IH]; intros w; cbn [prng_bytes].
  { exists [], (g_v w). split_and!; [by destruct w | done | constructor]. }
  unfold bind at 1, gpt_prng at 1. unfold bind at 1, get at 1. cbv beta iota.
  unfold bind at 1, mod_v at 1, modify at 1, ret at 1. cbv beta iota.
  unfold bind at 1.
  match goal with |- context [prng_bytes n ?w1] => destruct (IH w1) as (l & v' & E & Hl & Hb) end.
  rewrite E. eexists (_ :: l), v'. split_and!; [reflexivity | simpl; lia |].
  constructor; [apply Z.mod_pos_bound; lia | done].
Qed.

(** The header of a fresh table. *)
Definition fresh_hdr (last : Z) (u : list Z) : gpt_header :=
  GptHeader gpt_header_signature 0x00010000 92 0 0 1 last 34 (last - 32) u 2 128 128 0 (zeros GPT_HEADER_RSZ).

Lemma fresh_hdr_wf last u : 32 <= last < 2 ^ 32 -> length u = 16%nat -> bytes u ->
  cwf gpt_header_c (fresh_hdr last u).
Proof.
  intros Hl Hu Hb. assert (Hz : bytes (zeros GPT_HEADER_RSZ)) by apply bytes_zeros.
  change (2 ^ 32) with (256 ^ Z.of_nat 4) in Hl. assert (256 ^ Z.of_nat 4 < 256 ^ Z.of_nat 8) by done.
  unfold fresh_hdr. simpl. split_and!; try done; lia.
Qed.

(** An object full of zeros holds the zero table. *)
Lemma zero_table_holds m s :
  holds (ram_write (side_at s) (zeros (Z.to_nat TABLE_BYTES)) m) s
    (Table (decode gpt_header_c (zeros 512)) (zeros array_bytes)).
Proof.
  set (t := Table _ _).
  assert (Hwf : table_wf t).
  { split_and!; cbn [t t_hdr t_parts]; [|by unfold zeros; rewrite length_replicate | apply bytes_zeros].
    apply (cdec_wf (c := gpt_header_c)); [apply bytes_zeros|]. unfold zeros. rewrite length_replicate. done. }
  assert (E : image s t = zeros (Z.to_nat TABLE_BYTES)).
  { assert (Eh : cenc gpt_header_c (t_hdr t) = zeros 512).
    { apply (cenc_decode gpt_header_c); [apply bytes_zeros | unfold zeros; by rewrite length_replicate]. }
    unfold image. rewrite Eh. cbn [t t_parts]. unfold zeros. destruct s; rewrite <- replicate_add; f_equal. }
  rewrite <- E. by apply holds_load.
Qed.

Lemma init_tbl_run dev w : statics_disjoint -> gpt_disk (g_bio w) dev ->
  exists u m' v' c', gpt_init_tbl plat_get_us_tick dev w = (PB_OK, GptWorld (g_bio w) m' v' c') /\
    length u = 16%nat /\ bytes u /\
    holds m' Primary (Table (fresh_hdr (last_of (g_bio w) dev) u) (entries 128 [])).
Proof.
  intros Hdis Hd. pose proof (gd_last _ _ Hd) as Hll. set (last := last_of (g_bio w) dev).
  fold (last_of (g_bio w) dev) last in Hll. unfold gpt_init_tbl. fold (hdr_at Primary) (side_at Primary) (side_at Backup).
  unfold bind at 1. rewrite (on_bio_run _ last (g_bio w)) by by apply last_block_run.
  unfold bind at 1. unfold lift at 1. cbn [proj upd gpt_has_clk]. destruct (plat_get_us_tick _) as [tick c'].
  unfold bind at 1, mod_v at 1, modify at 1. cbv beta iota.
  unfold bind at 1, mem_write at 1, modify at 1. cbv beta iota.
  unfold bind at 1, mem_write at 1, modify at 1. cbv beta iota. cbn [g_mem g_bio g_v g_clk with_bio].
  pose proof (zero_table_holds (g_mem w) Primary) as H1. set (m1 := ram_write (side_at Primary) _ _) in *.
  assert (H2 : holds (ram_write (side_at Backup) (zeros (Z.to_nat TABLE_BYTES)) m1) Primary
    (Table (decode gpt_header_c (zeros 512)) (zeros array_bytes))).
  { eapply (holds_other m1 _ Backup Primary); [done | done | | done].
    intros x Hx. apply ram_write_out. unfold zeros. rewrite length_replicate. exact Hx. }
  set (m2 := ram_write (side_at Backup) _ _) in *. set (t0 := Table _ _) in *.
  rewrite u32_small by lia.
  assert (E32 : parts_bytes 128 / 512 = 32).
  { unfold parts_bytes. change (128 * sizeof gpt_part_hdr_c) with 16384.
    by rewrite usz_small by (pose proof ptr_bits_ge32; lia). }
  rewrite E32, usz_small by (pose proof ptr_bits_ge32; lia).
  unfold bind at 1. match goal with |- context [mod_hdr _ ?f ?w1] => rewrite (mod_hdr_run Primary t0 f w1 H2) end.
  pose proof (fresh_hdr_wf last (zeros 16) ltac:(lia) eq_refl (bytes_zeros 16)) as C1.
  pose proof (holds_write_hdr m2 Primary t0 _ H2 C1) as H3.
  unfold bind at 1. match goal with |- context [prng_bytes _ ?w1] => destruct (prng_bytes_run 16 w1) as (u & v' & -> & Hu & Hb) end.
  pose proof (fresh_hdr_wf last u ltac:(lia) Hu Hb) as C2. cbn [g_bio g_mem g_v g_clk with_mem].
  unfold bind at 1. match goal with |- context [mod_hdr _ ?f ?w1] =>
    rewrite (mod_hdr_run Primary (Table (fresh_hdr last (zeros 16)) (zeros array_bytes)) f w1 H3) end.
  eexists u, _, _, _. split_and!; [reflexivity | done.. |].
  exact (holds_write_hdr _ Primary _ _ H3 C2).
Qed.

(** ** Properties *)

Definition bio_count (b : bio_state HW) : Z := n_bios b.
Definition pool_count (w : W) : Z := n_bios (g_bio w).

Lemma on_bio_count {A} (m : M (bio_state HW) A) : Keeps bio_count m -> Keeps pool_count (on_bio m).
Proof.
  intros Hm w. unfold pool_count, on_bio, lift, bio_count in *. simpl. specialize (Hm (g_bio w)). by destruct (m (g_bio w)).
Qed.

Lemma check_dev_count dev : Keeps bio_count (check_dev dev).
Proof. intros b. by rewrite check_dev_spec. Qed.
Lemma range_count dev lba len : Keeps bio_count (check_lba_range dev lba len).
Proof. intros b. by rewrite check_lba_range_state. Qed.
Lemma call_drv_count {A} (f : HW -> A * HW) : Keeps bio_count (call_drv f).
Proof. intros b. unfold call_drv. by destruct (f (bio_hw b)). Qed.
Lemma upd_dev_count dev f : Keeps bio_count (upd_dev dev f).
Proof. done. Qed.
Lemma mem_write_count a bs : Keeps pool_count (mem_write a bs).
Proof. done. Qed.
Lemma mem_read_count a n : Keeps pool_count (mem_read a n).
Proof. done. Qed.
Lemma mod_v_count f : Keeps pool_count (mod_v f).
Proof. done. Qed.
Local Hint Resolve check_dev_count range_count call_drv_count upd_dev_count mem_write_count mem_read_count
  mod_v_count : keeps.

Lemma bio_calls_count :
  (forall dev lba len, Keeps bio_count (bio_read dev lba len)) /\
  (forall dev lba len buf, Keeps bio_count (bio_write dev lba len buf)) /\
  (forall dev cb, Keeps bio_count (bio_set_install_partition_cb dev cb)) /\
  (forall dev, Keeps bio_count (bio_get_last_block dev)) /\ (forall dev, Keeps bio_count (bio_block_size dev)).
Proof.
  split_and!; intros; unfold bio_read, bio_write, bio_set_install_partition_cb, bio_get_last_block, bio_block_size,
    checked; keeps_tac.
Qed.

Lemma gpt_calls_count :
  (forall hdr, Keeps pool_count (gpt_has_valid_header hdr)) /\
  (forall hdr part, Keeps pool_count (gpt_has_valid_part_array hdr part)) /\
  (forall dev, Keeps pool_count (gpt_write_tbl dev)).
Proof.
  destruct bio_calls_count as (Hr & Hw & _ & Hl & Hb).
  split_and!; intros; unfold gpt_has_valid_header, gpt_has_valid_part_array, gpt_write_tbl, write_backup_tbl,
    seal_table, mem_copy, mod_hdr, get_hdr; keeps_tac; eauto using on_bio_count.
Qed.

Lemma check_tables_count dev : Keeps pool_count (check_tables dev).
Proof.
  destruct bio_calls_count as (Hr & Hw & _ & Hl & Hb). destruct gpt_calls_count as (Hh & Ha & Ht).
  unfold check_tables, gpt_is_valid, recover_primary, recover_backup, mem_copy, mod_hdr, get_hdr;
    keeps_tac; eauto using on_bio_count.
Qed.

Lemma bind_count_total {A B} n (m : G A) (k : A -> G (option B)) w : Keeps pool_count m -> pool_count w = n ->
  (forall a w1, pool_count w1 = n -> is_Some (k a w1).1) -> is_Some (bind m k w).1.
Proof.
  intros Hm E Hk. unfold bind. specialize (Hm w). destruct (m w) as [a w1]. apply Hk. simpl in Hm. congruence.
Qed.

(** [C35] Initialisation always ends: whatever is on the disk, in memory and
    in the device pool (tables with more entries than the array has, or without
    an unused entry at the end, included), [gpt_ptbl_init] returns; the loop
    that registers partitions runs at most once per free slot of the pool. *)
Theorem gpt_init_terminates dev tbls (w : W) :
  n_bios (g_bio w) <= CONFIG_BIO_MAX_DEVS -> 0 <= n_bios (g_bio w) ->
  is_Some (gpt_ptbl_init dev tbls w).1.
Proof.
  intros Hn H0. destruct bio_calls_count as (Hr & Hw & Hs & Hl & _). unfold gpt_ptbl_init.
  repeat match goal with
  | |- is_Some (bind _ _ _).1 =>
      apply (bind_count_total (n_bios (g_bio w))); [eauto using on_bio_count, check_tables_count with keeps | done |]
  | |- forall _, _ => intros ?
  | |- is_Some ((if _ then _ else _) _).1 => case_match; [by eexists|]
  | |- is_Some ((let '(_, _) := ?p in _) _).1 => destruct p
  end.
  apply register_parts_total; unfold pool_count, register_fuel in *; lia.
Qed.

(** What initialisation registers from the table it chose. *)
Lemma init_registers dev tbls w t :
  statics_disjoint -> gpt_disk (g_bio w) dev ->
  let b := g_bio w in let D := disk_bytes (bio_hw b) in let last := last_of b dev in
  let p := disk_table D last Primary in let k := disk_table D last Backup in
  standard p k -> chosen last p k = Some t ->
  Forall part_good (partitions t) -> (length (partitions t) < 128)%nat ->
  n_bios b + Z.of_nat (length (partitions t)) <= CONFIG_BIO_MAX_DEVS ->
  exists w', gpt_ptbl_init dev tbls w = (Some PB_OK, w') /\ bio_wf (g_bio w') /\
    disk_bytes (bio_hw (g_bio w')) = repaired last p k D /\
    n_bios (g_bio w') = n_bios b + Z.of_nat (length (partitions t)) /\
    registered (dev_at b dev) (n_bios b) (partitions t) (g_bio w').
Proof.
  intros Hdis Hd b D last p k Hst Hc Hgood Hlen Hroom.
  destruct (init_run dev tbls w Hdis Hd Hst) as (w1 & E & R1 & R2 & R3 & R4 & R5).
  fold b D last p k in E, R1, R2, R3, R5. rewrite Hc in E. destruct (R5 t Hc) as (t' & Ht' & Ep).
  destruct (hook_run b dev Hd) as (_ & _ & _ & Edev).
  pose proof (gd_rw _ _ R4) as (Hwf1 & Hok1 & _). destruct (disk_dev_ok _ _ R4) as [_ Hbs1].
  assert (Hdev : dev_at (g_bio w1) dev = set_install_f gpt_install_cb (dev_at b dev)).
  { rewrite <- Edev. unfold dev_at. by rewrite R1. }
  destruct (register_list_ok dev (partitions t) (g_bio w1)) as (b' & El & Hwf' & Hn' & Hh' & _ & Hreg);
    [done | done | done | done | by rewrite R2 |].
  assert (Er : register_parts register_fuel dev 0 w1 =
    (let '(rc, b') := register_list dev (partitions t) (g_bio w1) in (Some rc, with_bio b' w1))).
  { apply (register_parts_run register_fuel dev t' 0); [done | | lia | apply Hwf1 |].
    { change (128 - 0)%nat with 128%nat. change (128 * 0)%nat with 0%nat. rewrite drop_0, Ep. reflexivity. }
    pose proof Hwf1 as (? & _). unfold register_fuel. lia. }
  rewrite Er, El in E. exists (with_bio b' w1). cbn [g_bio with_bio]. rewrite Hh', Hn', R2.
  split; [exact E|]. split; [exact Hwf'|]. split; [exact R3|]. split; [reflexivity|].
  intros i q Hq. specialize (Hreg i q Hq). rewrite Hdev, R2 in Hreg. exact Hreg.
Qed.

Lemma chosen_wf last p k t : 32 <= last < 2 ^ 32 -> table_wf p -> table_wf k -> chosen last p k = Some t ->
  table_wf t /\ gh_signature (t_hdr t) = gpt_header_signature.
Proof.
  intros Hl Hp Hk. unfold chosen. destruct (intact p) eqn:Ip.
  - intros [= <-]. split; [done|]. by apply hdr_intact_signature, intact_hdr.
  - destruct (intact k) eqn:Ik; [|done]. intros [= <-]. split; [by apply primary_of_wf|].
    exact (hdr_intact_signature _ (intact_hdr _ Ik)).
Qed.

(** [C26] Initialisation survives the loss of either table: on a disk whose
    intact headers are standard (128 entries, the primary one at block 1) it
    continues with the primary table if header and array checksum are good,
    else with the backup table.  If the used entries are fewer than 128, each
    with a non-empty block range below 2^32 that does not begin at block 0, and
    the device pool has room for them, it registers one block device per used
    entry, with the entry's block range, name and UUID and the I/O functions of
    the disk; afterwards both copies on the disk are good and describe these
    entries, and a disk with two good copies is left alone.  If both tables are
    damaged it fails with -PB_ERR, changes nothing on the disk and registers no
    device: of the pool only the install callback of the disk itself is set. *)
Theorem gpt_init_recovers dev tbls (w : W) :
  statics_disjoint -> gpt_disk (g_bio w) dev ->
  let b := g_bio w in let D := disk_bytes (bio_hw b) in let last := last_of b dev in
  let p := disk_table D last Primary in let k := disk_table D last Backup in
  standard p k ->
  match chosen last p k with
  | None => exists w', gpt_ptbl_init dev tbls w = (Some (- PB_ERR), w') /\ disk_bytes (bio_hw (g_bio w')) = D /\
      n_bios (g_bio w') = n_bios b /\ bio_pool (g_bio w') = bio_pool (hooked b dev)
  | Some t =>
      Forall part_good (partitions t) -> (length (partitions t) < 128)%nat ->
      n_bios b + Z.of_nat (length (partitions t)) <= CONFIG_BIO_MAX_DEVS ->
      exists w', gpt_ptbl_init dev tbls w = (Some PB_OK, w') /\ bio_wf (g_bio w') /\
        n_bios (g_bio w') = n_bios b + Z.of_nat (length (partitions t)) /\
        registered (dev_at b dev) (n_bios b) (partitions t) (g_bio w') /\
        let D' := disk_bytes (bio_hw (g_bio w')) in
        (if intact p && intact k then D' = D
         else forall s, intact (disk_table D' last s) = true /\ t_parts (disk_table D' last s) = t_parts t)
  end.
Proof.
  intros Hdis Hd b D last p k Hst. destruct (chosen last p k) as [t|] eqn:Hc.
  2:{ destruct (init_run dev tbls w Hdis Hd Hst) as (w' & E & Rp & Rn & R & _).
      fold b D last p k in E, R. unfold repaired in R. rewrite Hc in E, R. eauto. }
  intros Hg Hl Hr. destruct (init_registers dev tbls w t Hdis Hd Hst Hc Hg Hl Hr) as (w' & E & Hwf & HD & Hn & Hreg).
  exists w'. split; [exact E|]. split; [exact Hwf|]. split; [exact Hn|]. split; [exact Hreg|]. cbv zeta. rewrite HD. fold b D last p k. unfold repaired. rewrite Hc.
  destruct (intact p && intact k) eqn:Ei; [done|].
  pose proof (gpt_disk_fits _ _ Hd) as Hfits. fold b D last in Hfits. pose proof (gd_last _ _ Hd) as Hll.
  fold b (last_of b dev) last in Hll.
  pose proof (disk_table_wf _ _ Primary Hfits) as [Wp _]. pose proof (disk_table_wf _ _ Backup Hfits) as [Wk _].
  destruct (chosen_wf last p k t ltac:(lia) Wp Wk Hc) as [Wt St].
  destruct (written_disk last t D Hfits ltac:(lia) Wt) as (_ & _ & EP & EB & _).
  intros []; [rewrite EP | rewrite EB]; split; try done; apply seal_intact; done.
Qed.

(** The name of an entry, read back. *)
Lemma name_of_new_part first blocks u name : name_ok name -> part_name_of (new_part first blocks u name) = name.
Proof.
  intros Hn. destruct (utf16_spec name Hn) as [Hlen _]. destruct Hn as [Hl Hc]. unfold GPT_PART_NAME_MAX_SIZE in Hl.
  unfold part_name_of. cbn [new_part gp_name].
  assert (E : forall i, default 0 (splice 0 (utf16 name) (zeros 72) !! (2 * i)%nat) = default 0 (name !! i)).
  { intros i. unfold splice. rewrite take_0, app_nil_l, Nat.add_0_l, Hlen.
    destruct (decide (i < length name)%nat) as [Hi|Hi].
    - rewrite lookup_app_l by lia. f_equal. clear -Hi. revert i Hi. unfold utf16.
      induction name as [|c name IH]; intros [|i] Hi; simpl in Hi; try lia; [done|].
      replace (2 * S i)%nat with (S (S (2 * i))) by lia. cbn [map concat app lookup list_lookup]. apply IH. lia.
    - rewrite lookup_app_r, Hlen, (lookup_ge_None_2 name) by lia. cbn [default].
      unfold zeros. rewrite drop_replicate. destruct (replicate _ 0 !! _) as [z|] eqn:Ez; [|done].
      by apply lookup_replicate in Ez as [-> _]. }
  rewrite (map_ext _ _ E). clear E. assert (Hp : Forall (fun c => c <> 0) name).
  { eapply Forall_impl; [exact Hc|]. intros c ?. simpl in *. lia. }
  clear Hlen Hc. revert Hl. generalize 36%nat as n. induction Hp as [|c name Hc0 Hp IH]; intros n Hn.
  - destruct n; [done|]. by cbn [seq map c_string lookup list_lookup].
  - destruct n as [|n]; [simpl in Hn; lia|]. cbn [seq map c_string].
    change (default 0 ((c :: name) !! 0%nat)) with c. rewrite (proj2 (Z.eqb_neq _ _) Hc0). f_equal.
    rewrite <- seq_shift, map_map. apply IH. simpl in Hn. lia.
Qed.

(** Where the partition of entry [k] starts. *)
Definition start_of (first : Z) (ents : list gpt_part_table) (k : nat) : Z :=
  first + foldr Z.add 0 (map ent_blocks (take k ents)).

Lemma layout_lookup first ents k e : ents !! k = Some e ->
  layout first ents !! k = Some (new_part (start_of first ents k) (ent_blocks e) (uuid_to_guid (pt_uu e)) (pt_description e)).
Proof.
  revert first k. induction ents as [|e0 ents IH]; intros first [|k]; cbn [lookup list_lookup layout]; try done.
  - intros [= ->]. unfold start_of. cbn [take map foldr]. by rewrite Z.add_0_r.
  - intros H. rewrite (IH _ _ H). unfold start_of. cbn [take map foldr]. by rewrite Z.add_assoc.
Qed.

Lemma ents_fit_lookup first limit ents k e : ents_fit first limit ents -> ents !! k = Some e ->
  uuid_wf (pt_uu e) /\ name_ok (pt_description e).
Proof.
  revert first k. induction ents as [|e0 ents IH]; intros first [|k]; cbn [lookup list_lookup ents_fit]; try done.
  - by intros (? & ? & _) [= ->].
  - intros (_ & _ & _ & _ & H). by eapply IH.
Qed.

(** The table [gpt_install_partition_table] writes. *)
Definition install_table (last : Z) (u : list Z) (ents : list gpt_part_table) : table :=
  Table (fresh_hdr last u) (entries 128 (layout 34 ents)).

Lemma array_bytes_nat : array_bytes = (128 * 128)%nat.
Proof. unfold array_bytes. lia. Qed.

Lemma install_table_wf last u ents : 66 <= last < 2 ^ 31 -> length u = 16%nat -> bytes u ->
  (length ents < 128)%nat -> ents_fit 34 (last - 32) ents -> table_wf (install_table last u ents).
Proof.
  intros Hl Hu Hb Hlen Hfit. pose proof (layout_wf 34 (last - 32) ents ltac:(lia) ltac:(lia) Hfit) as Hlw.
  split_and!; [apply fresh_hdr_wf; [lia | done..] | | by apply entries_bytes].
  unfold install_table. cbn [t_parts]. rewrite length_entries, array_bytes_nat by (done || rewrite length_layout; lia).
  reflexivity.
Qed.

Lemma install_partitions last u ents : last < 2 ^ 31 -> (length ents < 128)%nat -> ents_fit 34 (last - 32) ents ->
  partitions (seal (install_table last u ents)) = layout 34 ents.
Proof.
  intros Hl Hlen Hfit. unfold partitions.
  change (t_parts (seal (install_table last u ents))) with (entries 128 (layout 34 ents)).
  apply used_entries_all; [apply (layout_wf 34 (last - 32)); done || lia | | rewrite length_layout; exact Hlen].
  eapply Forall_impl; [apply (layout_good 34 (last - 32)); done || lia|]. intros q [? _]. lia.
Qed.

Lemma install_run dev variant tbl w :
  statics_disjoint -> gpt_disk (g_bio w) dev -> 0 <= variant ->
  tables (g_v w) !! Z.to_nat variant = Some tbl -> (length (tl_table tbl) < 128)%nat ->
  ents_fit 34 (last_of (g_bio w) dev - 32) (tl_table tbl) ->
  exists w' w1 u, gpt_install_partition_table plat_get_us_tick dev variant w = (PB_OK, w') /\
    length u = 16%nat /\ bytes u /\ g_bio w1 = g_bio w /\
    rewrote dev (install_table (last_of (g_bio w) dev) u (tl_table tbl)) w1 w'.
Proof.
  intros Hdis Hd Hv Ht Hlen Hfit. pose proof (gd_last _ _ Hd) as Hll.
  set (last := last_of (g_bio w) dev) in *. fold (last_of (g_bio w) dev) last in Hll.
  unfold gpt_install_partition_table. unfold bind at 1, get at 1. cbv beta iota.
  pose proof (lookup_lt_Some _ _ _ Ht).
  rewrite (proj2 (Z.ltb_ge _ _)), (proj2 (Z.leb_gt _ _)), Ht by lia. cbn [orb].
  destruct (init_tbl_run dev w Hdis Hd) as (u & m1 & v1 & c1 & E1 & Hu & Hb & H1). unfold bind at 1. rewrite E1.
  change (negb (PB_OK =? PB_OK)) with false. cbv beta iota. fold last in H1.
  destruct (add_parts_run dev (fresh_hdr last u) [] (tl_table tbl) 34 (GptWorld (g_bio w) m1 v1 c1))
    as (m2 & E2 & H2); try done; try (cbn [fresh_hdr gh_last_lba length]; lia).
  change (Z.of_nat (length (@nil gpt_part_hdr))) with 0 in E2. rewrite E2.
  destruct (write_tbl_rewrote dev (install_table last u (tl_table tbl)) (with_mem m2 (GptWorld (g_bio w) m1 v1 c1))
    Hdis Hd H2 eq_refl eq_refl) as (w' & E3 & Hr).
  exists w', (with_mem m2 (GptWorld (g_bio w) m1 v1 c1)), u. split; [exact E3|]. done.
Qed.

(** With two good copies nothing is repaired. *)
Lemma init_both_good dev tbls w p k es :
  statics_disjoint -> gpt_disk (g_bio w) dev ->
  disk_table (disk_bytes (bio_hw (g_bio w))) (last_of (g_bio w) dev) Primary = p ->
  disk_table (disk_bytes (bio_hw (g_bio w))) (last_of (g_bio w) dev) Backup = k ->
  standard p k -> intact p = true -> intact k = true -> partitions p = es ->
  Forall part_good es -> (length es < 128)%nat ->
  n_bios (g_bio w) + Z.of_nat (length es) <= CONFIG_BIO_MAX_DEVS ->
  exists w', gpt_ptbl_init dev tbls w = (Some PB_OK, w') /\
    disk_bytes (bio_hw (g_bio w')) = disk_bytes (bio_hw (g_bio w)) /\
    n_bios (g_bio w') = n_bios (g_bio w) + Z.of_nat (length es) /\
    registered (dev_at (g_bio w) dev) (n_bios (g_bio w)) es (g_bio w').
Proof.
  intros Hdis Hd <- <- Hst Ip Ik <- Hg Hl Hr.
  assert (Hc : forall last q q', intact q = true -> chosen last q q' = Some q) by (unfold chosen; by intros ? ? ? ->).
  destruct (init_registers dev tbls w _ Hdis Hd Hst (Hc _ _ _ Ip) Hg Hl Hr) as (w' & E & _ & HD & Hn & Hreg).
  exists w'. split; [exact E|]. split; [|by split].
  rewrite HD. unfold repaired. by rewrite (Hc _ _ _ Ip), Ip, Ik.
Qed.

(** [C25] A partition table survives installation and restart: installing one
    of the board's tables whose entries fit on the disk succeeds and touches
    nothing between the two tables on the disk; after a reset with arbitrary
    memory contents, initialisation succeeds without repairing anything and
    registers, in order, one device per entry of the board's table, with its
    UUID and name, right behind its predecessor (the first one at block 34)
    and with exactly its number of blocks. *)
Theorem gpt_install_roundtrip dev variant tbl (w : W) :
  statics_disjoint -> gpt_disk (g_bio w) dev -> 0 <= variant ->
  tables (g_v w) !! Z.to_nat variant = Some tbl -> (length (tl_table tbl) < 128)%nat ->
  let b := g_bio w in let last := last_of b dev in let ents := tl_table tbl in
  ents_fit 34 (last - 32) ents -> n_bios b + Z.of_nat (length ents) <= CONFIG_BIO_MAX_DEVS ->
  exists w1, gpt_install_partition_table plat_get_us_tick dev variant w = (PB_OK, w1) /\
    (forall off n, (34 * 512 <= off)%nat -> (off + n <= place_off last Backup)%nat ->
       slice off n (disk_bytes (bio_hw (g_bio w1))) = slice off n (disk_bytes (bio_hw b))) /\
    forall tbls mem vars clk,
    exists w2, gpt_ptbl_init dev tbls (GptWorld (g_bio w1) mem vars clk) = (Some PB_OK, w2) /\
      disk_bytes (bio_hw (g_bio w2)) = disk_bytes (bio_hw (g_bio w1)) /\
      n_bios (g_bio w2) = n_bios b + Z.of_nat (length ents) /\
      forall k e, ents !! k = Some e ->
        let d := dev_at (g_bio w2) (n_bios b + Z.of_nat k) in
        uu d = pt_uu e /\ description d = strncpy_z 36 37 (pt_description e) /\
        first_lba d = start_of 34 ents k /\ last_lba d = first_lba d + ent_blocks e - 1 /\
        read d = read (dev_at b dev) /\ write d = write (dev_at b dev).
Proof.
  intros Hdis Hd Hv Ht Hlen b last ents Hfit Hroom.
  destruct (install_run dev variant tbl w Hdis Hd Hv Ht Hlen Hfit) as (w1 & w0 & u & E1 & Hu & Hb & E0 & Hr).
  fold b last ents in Hr. set (t := install_table last u ents) in *.
  exists w1. split; [exact E1|]. destruct Hr as [Rp Rn RD Rd _ _]. rewrite E0 in Rp, Rn, RD. fold b last in Rp, Rn, RD.
  pose proof (gd_last _ _ Hd) as Hll. fold b (last_of b dev) last in Hll.
  pose proof (gpt_disk_fits _ _ Hd) as Hfits. fold b last in Hfits.
  pose proof (layout_good 34 (last - 32) ents ltac:(lia) ltac:(lia) Hfit) as Hlg.
  pose proof (install_table_wf last u ents Hll Hu Hb Hlen Hfit) as Wt.
  pose proof (install_partitions last u ents (proj2 Hll) Hlen Hfit) as Hps. fold t in Wt, Hps.
  destruct (written_disk last t (disk_bytes (bio_hw b)) Hfits ltac:(lia) Wt) as (_ & _ & EP & EB & Emid).
  rewrite <- RD in EP, EB, Emid. split; [exact Emid|]. intros tbls mem vars clk.
  assert (Ld : last_of (g_bio w1) dev = last) by (unfold last_of, dev_at; rewrite Rp; done).
  assert (Dd : dev_at (g_bio w1) dev = dev_at b dev) by (unfold dev_at; rewrite Rp; done).
  destruct (init_both_good dev tbls (GptWorld (g_bio w1) mem vars clk) (seal t) (seal (backup_of last (seal t)))
    (layout 34 ents)) as (w2 & E2 & D2 & N2 & R2); cbn [g_bio]; rewrite ?Ld, ?length_layout, ?Rn;
    [done | done | done | done | done | by apply seal_intact.. | done | done | done | done |].
  cbn [g_bio] in D2, N2, R2. rewrite length_layout, Rn in N2. rewrite Rn, Dd in R2.
  exists w2. split; [exact E2|]. split; [exact D2|]. split; [exact N2|].
  intros k e Hk. cbv zeta. rewrite (R2 k _ (layout_lookup 34 ents k e Hk)).
  destruct (ents_fit_lookup _ _ _ _ _ Hfit Hk) as [Hue Hne].
  cbn [part_device inherit_f fresh_device uu description first_lba last_lba read write new_part gp_uuid gp_first_lba gp_last_lba].
  rewrite uuid_to_guid_invol by done. fold (new_part (start_of 34 ents k) (ent_blocks e) (uuid_to_guid (pt_uu e)) (pt_description e)).
  by rewrite name_of_new_part.
Qed.
End props.

(** ** A concrete disk *)

Module ToyGpt.

Existing Instances armv7a test_defconfig.

(** A disk of 100 blocks behind the first device. *)
Definition disk_of (D : list Z) : bio_state RamDisk.disk :=
  BioState (RamDisk.mkpart (replicate 16 1) 0 99 :: replicate 31 null_device) 1 D.

Definition ents : list gpt_part_table :=
  [PartEntry RamDisk.uuA [97; 98; 99] 2048; PartEntry RamDisk.uuB [100] 5120].
Definition boards : list gpt_table_list := [TableList [116] 0 ents].

Definition empty_disk : list Z := zeros (Z.to_nat 51200).
(** An installed table whose primary header was overwritten. *)
Definition damaged : list Z :=
  splice 512 (zeros 512) (written 99 (install_table 99 (zeros 16) ents) empty_disk).

#[export] Instance statics : GptStatics :=
  {| primary_at := 0x1000; backup_at := 0x8000; gpt_install_cb := 7 |}.

Lemma disjoint : statics_disjoint.
Proof. left. unfold table_bytes. cbn [primary_at backup_at statics]. lia. Qed.

Definition world (D : list Z) : gpt_world RamDisk.disk unit :=
  GptWorld (disk_of D) (fun _ => 0) (GptVars 0 [] 0 boards) tt.

Lemma disk_of_wf D : bio_wf (disk_of D).
Proof.
  split; [done|]. split; [done|]. intros i d Hi.
  destruct i as [|i]; [injection Hi as <-; vm_compute; repeat constructor; discriminate|].
  change (replicate 31 null_device !! i = Some d) in Hi.
  apply lookup_replicate in Hi as [-> _]. by rewrite decide_False by (simpl; lia).
Qed.

Lemma disk_ready D : length D = Z.to_nat 51200 -> bytes D -> gpt_disk (disk_of D) 0.
Proof.
  intros Hl Hb. assert (E : Z.of_nat (length D) = 51200) by lia.
  assert (H0 : dev_at (disk_of D) 0 = RamDisk.mkpart (replicate 16 1) 0 99) by reflexivity.
  split; [| reflexivity | reflexivity | rewrite H0; simpl; lia | exact Hb].
  split; [apply disk_of_wf|]. rewrite H0. split_and!; try done; simpl; lia.
Qed.

Lemma empty_ready : gpt_disk (disk_of empty_disk) 0.
Proof. apply disk_ready; [unfold empty_disk, zeros; by rewrite length_replicate | apply bytes_zeros]. Qed.

Lemma ents_ok : ents_fit 34 67 ents.
Proof.
  split_and!; vm_compute; repeat constructor; discriminate.
Qed.

(** The table and its two copies on the disk before the damage. *)
Definition installed : table := install_table 99 (zeros 16) ents.

Lemma installed_wf : table_wf installed.
Proof. apply install_table_wf; [lia | done | apply bytes_zeros | simpl; lia | apply ents_ok]. Qed.

Lemma damaged_ready : gpt_disk (disk_of damaged) 0 /\
  t_hdr (disk_table damaged 99 Primary) = decode gpt_header_c (zeros 512) /\
  disk_table damaged 99 Backup = seal (backup_of 99 (seal installed)).
Proof.
  pose proof (gpt_disk_fits _ _ empty_ready) as Hf. change (last_of (disk_of empty_disk) 0) with 99 in Hf.
  destruct (written_disk 99 installed empty_disk Hf ltac:(lia) installed_wf) as ((Hb & _) & Hl & _ & EB & _).
  assert (He : length empty_disk = Z.to_nat 51200) by (unfold empty_disk, zeros; by rewrite length_replicate).
  rewrite He in Hl.
  assert (Hz : length (zeros 512) = 512%nat) by (unfold zeros; by rewrite length_replicate).
  unfold damaged. fold installed. set (D := written _ _ _) in *. clearbody D.
  split; [|split].
  - apply disk_ready; [rewrite length_splice; rewrite ?Hz; lia | apply bytes_splice; [apply bytes_zeros | exact Hb]].
  - unfold disk_table. cbn [t_hdr hdr_off]. f_equal.
    replace (place_off 99 Primary) with 512%nat by reflexivity. unfold slice at 1. rewrite drop_0. unfold slice.
    rewrite take_take. replace (512 `min` table_bytes)%nat with 512%nat by (unfold table_bytes; lia).
    rewrite <- Hz at 1. apply (slice_splice_same 512). rewrite Hz. lia.
  - rewrite <- EB. unfold disk_table. rewrite splice_elsewhere; [reflexivity | rewrite Hz; lia |].
    rewrite Hz. left. unfold place_off, place. lia.
Qed.

Lemma recovered_partitions :
  partitions (primary_of 99 (seal (backup_of 99 (seal installed)))) = layout 34 ents.
Proof.
  assert (E : forall l l' t, partitions (primary_of l (seal (backup_of l' t))) = partitions t) by reflexivity.
  rewrite E. apply install_partitions; [lia | simpl; lia | apply ents_ok].
Qed.

End ToyGpt.

(** ** Witnesses *)

#[local] Existing Instances armv7a test_defconfig ToyGpt.statics.

Lemma gpt_init_terminates_witness :
  is_Some (gpt_ptbl_init 0 ToyGpt.boards (ToyGpt.world ToyGpt.damaged)).1.
Proof. apply gpt_init_terminates; cbn; lia. Defined.

(** The damaged disk is recovered from its backup and both partitions appear. *)
Lemma gpt_init_recovers_witness :
  exists w', gpt_ptbl_init 0 ToyGpt.boards (ToyGpt.world ToyGpt.damaged) = (Some PB_OK, w') /\
    n_bios (g_bio w') = 3 /\ uu (dev_at (g_bio w') 2) = RamDisk.uuB.
Proof.
  destruct ToyGpt.damaged_ready as (Hd & Hp & Hk).
  assert (Ip : hdr_intact (t_hdr (disk_table ToyGpt.damaged 99 Primary)) = false) by (rewrite Hp; reflexivity).
  assert (Ik : intact (disk_table ToyGpt.damaged 99 Backup) = true) by (rewrite Hk; by apply seal_intact).
  pose proof (gpt_init_recovers 0 ToyGpt.boards (ToyGpt.world ToyGpt.damaged)
    ToyGpt.disjoint Hd) as H. cbv zeta in H.
  change (last_of (g_bio (ToyGpt.world ToyGpt.damaged)) 0) with 99 in H.
  change (disk_bytes (bio_hw (g_bio (ToyGpt.world ToyGpt.damaged)))) with ToyGpt.damaged in H.
  assert (Hc : chosen 99 (disk_table ToyGpt.damaged 99 Primary) (disk_table ToyGpt.damaged 99 Backup) =
    Some (primary_of 99 (disk_table ToyGpt.damaged 99 Backup))).
  { unfold chosen, intact at 1. by rewrite Ip, Ik. }
  rewrite Hc in H.
  assert (E : partitions (primary_of 99 (disk_table ToyGpt.damaged 99 Backup)) = layout 34 ToyGpt.ents).
  { rewrite Hk. apply ToyGpt.recovered_partitions. }
  rewrite E in H. destruct H as (w' & Ew & _ & Hn & Hreg & _).
  - split; [by rewrite Ip|]. intros _. by rewrite Hk.
  - apply (layout_good 34 67); [lia | lia | apply ToyGpt.ents_ok].
  - rewrite length_layout. simpl. lia.
  - vm_compute. discriminate.
  - exists w'. split; [exact Ew|]. split; [exact Hn|].
    pose proof (Hreg 1%nat _ eq_refl) as H2. change (n_bios _ + Z.of_nat 1) with 2 in H2. by rewrite H2.
Defined.

Lemma gpt_install_roundtrip_witness :
  exists w1, gpt_install_partition_table (fun c => (42, c)) 0 0 (ToyGpt.world ToyGpt.empty_disk) = (PB_OK, w1) /\
    forall mem, exists w2,
      gpt_ptbl_init 0 [] (GptWorld (g_bio w1) mem (GptVars 0 [] 0 []) tt) = (Some PB_OK, w2) /\
      first_lba (dev_at (g_bio w2) 2) = 38 /\ last_lba (dev_at (g_bio w2) 2) = 47.
Proof.
  destruct (gpt_install_roundtrip (fun c => (42, c)) 0 0 (TableList [116] 0 ToyGpt.ents)
    (ToyGpt.world ToyGpt.empty_disk) ToyGpt.disjoint ToyGpt.empty_ready
    ltac:(lia) eq_refl ltac:(simpl; lia) ToyGpt.ents_ok ltac:(vm_compute; discriminate)) as (w1 & E1 & _ & H).
  exists w1. split; [exact E1|]. intros mem.
  destruct (H [] mem (GptVars 0 [] 0 []) tt) as (w2 & E2 & _ & _ & Hk). exists w2. split; [exact E2|].
  destruct (Hk 1%nat _ eq_refl) as (_ & _ & Hf & Hl & _). change (n_bios _ + Z.of_nat 1) with 2 in Hf, Hl.
  rewrite Hl, Hf. split; reflexivity.
Defined.
