(* ===== verification/StaticTable.v ===== *)
(** * Static partition tables

    [src/drivers/partition/static.c]: partitions from a table in the board
    code.  The table ends at the entry whose [uu] is NULL, so it is the list of
    the entries before it. *)

From S2P Require Import Prelude Errors Uuid Bio.
Local Open Scope c_scope.

(** ** Definitions *)

Record static_part_table := StaticEntry {
  st_uu : uuid_t;
  st_description : list Z;
  st_first_lba : lba_t;
  st_size : Z
}.

Section static.
Context {arch : Arch} {kc : Kconfig} {HW : Type}.
Abbreviation B := (M (bio_state HW)).

(** The loop over the entries; [next_start_lba] is the first free block. *)
Fixpoint static_loop (dev : bio_dev_t) (block_sz : Z) (next_start_lba : lba_t)
    (table : list static_part_table) : B Z :=
  match table with
  | [] => ret PB_OK
  | entry :: table =>
      let next_start_lba := if st_first_lba entry =? 0 then next_start_lba else st_first_lba entry in
      if negb (st_size entry mod block_sz =? 0) then ret (- PB_ERR_ALIGN) else
      let last_lba := u32 (usz (next_start_lba + st_size entry / block_sz - 1)) in
      new_dev <- bio_allocate_parent dev next_start_lba last_lba block_sz (st_uu entry) (st_description entry) ;;
      if new_dev <? 0 then ret new_dev else
      static_loop dev block_sz (u32 (last_lba + 1)) table
  end.

Definition static_ptbl_init (dev : bio_dev_t) (table : option (list static_part_table)) : B Z :=
  block_sz <- bio_block_size dev ;;
  match table with
  | None => ret (- PB_ERR_PARAM)
  | Some table => static_loop dev (usz block_sz) 0 table
  end.

(** ** Properties *)

(** The layout the table describes: first and last block of every entry, each
    one behind its predecessor unless it names its own first block. *)
Fixpoint static_layout (bs next : Z) (table : list static_part_table) : list (static_part_table * Z * Z) :=
  match table with
  | [] => []
  | e :: table =>
      let first := if st_first_lba e =? 0 then next else st_first_lba e in
      (e, first, first + st_size e / bs - 1) :: static_layout bs (first + st_size e / bs) table
  end.

Definition slot_ok (bs : Z) (x : static_part_table * Z * Z) : Prop :=
  let '(e, first, last) := x in
  0 <= first /\ last < 2 ^ 32 - 1 /\ bs <= st_size e < 2 ^ ptr_bits /\ st_size e mod bs = 0 /\ uuid_wf (st_uu e).

Definition slot_device (parent : bio_device) (x : static_part_table * Z * Z) : bio_device :=
  let '(e, first, last) := x in
  inherit_f parent (fresh_device first last (block_sz parent) (st_uu e) (st_description e)).

Lemma static_loop_ok dev bs next table (s : bio_state HW) :
  bio_wf s -> dev_ok s dev = true -> block_sz (dev_at s dev) = bs ->
  Forall (slot_ok bs) (static_layout bs next table) ->
  n_bios s + Z.of_nat (length table) <= CONFIG_BIO_MAX_DEVS ->
  exists s', static_loop dev bs next table s = (PB_OK, s') /\ bio_wf s' /\
    n_bios s' = n_bios s + Z.of_nat (length table) /\ older_kept s s' /\
    forall k x, static_layout bs next table !! k = Some x ->
      dev_at s' (n_bios s + Z.of_nat k) = slot_device (dev_at s dev) x.
Proof.
  revert next s. induction table as [|e table IH]; intros next s Hwf Hok Hbs Hl Hn.
  { exists s. split_and!; [done | done | simpl; lia | done | by intros k x]. }
  cbn [static_layout static_loop length] in *. set (first := if st_first_lba e =? 0 then next else st_first_lba e) in *.
  apply Forall_cons in Hl as [(Hf & Hlast & Hsz & Hal & Hu) Hl].
  destruct (dev_ok_range s dev Hwf Hok) as (Hr & _ & Hdw). unfold dev_wf in Hdw. rewrite Hbs in Hdw.
  assert (Hq : 1 <= st_size e / bs) by (apply Z.div_le_lower_bound; lia).
  rewrite Hal. change (negb (0 =? 0)) with false. cbv beta iota.
  rewrite (usz_small (first + st_size e / bs - 1)), (u32_small (first + st_size e / bs - 1))
    by (pose proof ptr_bits_ge32; lia).
  destruct (bio_allocate_parent_ok dev first (first + st_size e / bs - 1) bs (st_uu e) (st_description e) s)
    as (s1 & E & Hwf1 & Hn1 & _ & Hold & Hnew); [done | done | lia | lia | lia | done | lia |].
  unfold bind at 1. rewrite E. pose proof Hwf as (Hb & _). rewrite (proj2 (Z.ltb_ge (n_bios s) 0)) by lia.
  rewrite u32_small by lia. replace (first + st_size e / bs - 1 + 1) with (first + st_size e / bs) by lia.
  assert (Hdev : dev_at s1 dev = dev_at s dev) by by apply Hold.
  destruct (IH (first + st_size e / bs) s1) as (s' & E' & Hwf' & Hn' & Hold' & Hreg); [done | | by rewrite Hdev | done | lia |].
  { revert Hok. unfold dev_ok. by rewrite Hdev. }
  exists s'. split_and!; [exact E' | done | lia | |].
  - intros d Hd. rewrite Hold' by lia. by apply Hold.
  - intros [|k] x; cbn [lookup list_lookup].
    + intros [= <-]. rewrite Z.add_0_r, Hold' by lia. by rewrite Hnew, <- Hbs.
    + intros Hk. rewrite <- Hdev, <- (Hreg k x Hk). f_equal. lia.
Qed.

(** A static table is registered as the board wrote it: if every entry is
    a whole number of blocks and lies below the 32-bit block limit, and the
    pool has room, [static_ptbl_init] succeeds and adds, in order, one device
    per entry with its UUID, name and exactly its blocks, starting at the
    entry's own first block or right behind the entry before it; all older
    devices are unchanged.  A NULL table is refused with -PB_ERR_PARAM, and an
    entry that is not a whole number of blocks with -PB_ERR_ALIGN. *)
Theorem static_ptbl_init_registers dev table (s : bio_state HW) :
  bio_wf s -> dev_ok s dev = true -> block_sz (dev_at s dev) < 2 ^ (ptr_bits - 1) ->
  let bs := block_sz (dev_at s dev) in
  static_ptbl_init dev None s = (- PB_ERR_PARAM, s) /\
  (forall e rest, st_size e mod bs <> 0 -> static_ptbl_init dev (Some (e :: rest)) s = (- PB_ERR_ALIGN, s)) /\
  (Forall (slot_ok bs) (static_layout bs 0 table) ->
   n_bios s + Z.of_nat (length table) <= CONFIG_BIO_MAX_DEVS ->
   exists s', static_ptbl_init dev (Some table) s = (PB_OK, s') /\ bio_wf s' /\
     n_bios s' = n_bios s + Z.of_nat (length table) /\ older_kept s s' /\
     forall k x, static_layout bs 0 table !! k = Some x ->
       dev_at s' (n_bios s + Z.of_nat k) = slot_device (dev_at s dev) x).
Proof.
  intros Hwf Hok Hsz bs. destruct (dev_ok_range s dev Hwf Hok) as (_ & _ & Hdw). unfold dev_wf in Hdw. fold bs in Hdw, Hsz.
  assert (Hp : 2 ^ ptr_bits = 2 * 2 ^ (ptr_bits - 1)) by (destruct ptr_bits_ok as [-> | ->]; reflexivity).
  assert (Ebs : bio_block_size dev s = (bs, s)).
  { unfold bio_block_size. rewrite checked_dev, Hok. m_unfold. fold bs. f_equal. unfold ssz. rewrite Z.mod_small; lia. }
  unfold static_ptbl_init. unfold bind at 1 2 3. rewrite Ebs. rewrite (usz_small bs) by lia. split_and!.
  - done.
  - intros e rest He. cbn [static_loop]. by rewrite (proj2 (Z.eqb_neq _ _) He).
  - by apply static_loop_ok.
Qed.
End static.

(** ** Witness *)

Lemma static_ptbl_init_registers_witness :
  exists s', @static_ptbl_init armv7a test_defconfig _ 1
      (Some [StaticEntry RamDisk.uuA [97] 4 512; StaticEntry RamDisk.uuB [98] 0 1024]) RamDisk.two_parts = (PB_OK, s') /\
    first_lba (dev_at s' 3) = 5 /\ last_lba (dev_at s' 3) = 6.
Proof.
  destruct (@static_ptbl_init_registers armv7a test_defconfig _ 1
    [StaticEntry RamDisk.uuA [97] 4 512; StaticEntry RamDisk.uuB [98] 0 1024] RamDisk.two_parts
    RamDisk.two_parts_wf eq_refl ltac:(vm_compute; reflexivity)) as (_ & _ & H).
  destruct H as (s' & E & _ & _ & _ & Hk).
  - apply Forall_cons; split; [|apply Forall_cons; split; [|done]];
      (split_and!; [by vm_compute.. | split; [done | by apply Forall_replicate]]).
  - by vm_compute.
  - exists s'. split; [exact E|]. pose proof (Hk 1%nat _ eq_refl) as H1.
    change (n_bios _ + Z.of_nat 1) with 3 in H1. by rewrite H1.
Defined.
