(* ===== verification/AbState.v ===== *)
(** * A/B boot state

    [src/boot/ab_state.c]: which of the two system partitions is booted, kept
    in two checksummed copies on two partitions.  The static variables are
    [ab_vars]; the block layer underneath is any [BlockOps].  [Spec] is the
    promise of the module: a slot-generic state machine that the code,
    written once for A and once for B, refines. *)

From S2P Require Import Prelude Errors Crc Uuid Bio BlockIface.
Local Open Scope c_scope.

(** ** Data: [include/boot/pb_state_blob.h], [include/boot/ab_state.h] *)

Definition PB_STATE_MAGIC : Z := 0x026d4a65.
Definition PB_STATE_NO_OF_BOARD_REGS : Z := 4.
Definition PB_STATE_A_ENABLED : Z := 1.
Definition PB_STATE_B_ENABLED : Z := 2.
Definition PB_STATE_A_VERIFIED : Z := 1.
Definition PB_STATE_B_VERIFIED : Z := 2.
Definition PB_STATE_ERROR_A_ROLLBACK : Z := 1.
Definition PB_STATE_ERROR_B_ROLLBACK : Z := 2.

#[export] Hint Unfold PB_STATE_A_ENABLED PB_STATE_B_ENABLED PB_STATE_A_VERIFIED PB_STATE_B_VERIFIED
  PB_STATE_ERROR_A_ROLLBACK PB_STATE_ERROR_B_ROLLBACK : pbconst.

Record pb_boot_state := BootState {
  bs_magic : Z;
  bs_enable : Z;
  bs_verified : Z;
  bs_remaining_boot_attempts : Z;
  bs_error : Z;
  bs_rz : list Z;
  bs_board_regs : list Z;
  bs_crc : Z
}.

(** The packed layout, 512 bytes. *)
Definition pb_boot_state_c : codec pb_boot_state :=
  c_iso (fun s => (bs_magic s, (bs_enable s, (bs_verified s, (bs_remaining_boot_attempts s,
           (bs_error s, (bs_rz s, (bs_board_regs s, bs_crc s))))))))
        (fun '(m, (e, (v, (r, (err, (rz, (br, c))))))) => BootState m e v r err rz br c)
        (u32c ⊗ u32c ⊗ u32c ⊗ u32c ⊗ u32c ⊗ c_raw 472 ⊗ c_array 4 u32c ⊗ u32c)%codec.

#[export] Instance pb_boot_state_c_ok : CodecOK pb_boot_state_c.
Proof. solve_struct. Qed.

Inductive ab_rollback_mode := AB_ROLLBACK_MODE_NORMAL | AB_ROLLBACK_MODE_SPECULATIVE.

Record boot_ab_state_config := {
  primary_state_part_uu : uuid_t;
  backup_state_part_uu : uuid_t;
  sys_a_uu : uuid_t;
  sys_b_uu : uuid_t;
  rollback_mode : ab_rollback_mode
}.

(** The static variables; [cfg] is what the pointer set by
    [boot_ab_state_init] points to. *)
Record ab_vars := AbVars {
  primary_part : bio_dev_t;
  backup_part : bio_dev_t;
  boot_state : pb_boot_state;
  boot_state_backup : pb_boot_state;
  cfg : boot_ab_state_config
}.

Record ab_world (W : Type) := AbWorld { ab_blk : W; ab_v : ab_vars }.
Arguments AbWorld {W}.
Arguments ab_blk {W}.
Arguments ab_v {W}.

#[export] Instance ab_has_blk {W} : Has W (ab_world W) :=
  {| proj := ab_blk; upd b w := AbWorld b (ab_v w) |}.
#[export] Instance ab_has_vars {W} : Has ab_vars (ab_world W) :=
  {| proj := ab_v; upd v w := AbWorld (ab_blk w) v |}.

(** Assignments to the fields of the state and of the static variables. *)
Definition set_crc (c : Z) (s : pb_boot_state) : pb_boot_state :=
  BootState (bs_magic s) (bs_enable s) (bs_verified s) (bs_remaining_boot_attempts s) (bs_error s)
    (bs_rz s) (bs_board_regs s) c.
Definition set_attempts (r : Z) (s : pb_boot_state) : pb_boot_state :=
  BootState (bs_magic s) (bs_enable s) (bs_verified s) r (bs_error s)
    (bs_rz s) (bs_board_regs s) (bs_crc s).
Definition set_enable (e : Z) (s : pb_boot_state) : pb_boot_state :=
  BootState (bs_magic s) e (bs_verified s) (bs_remaining_boot_attempts s) (bs_error s)
    (bs_rz s) (bs_board_regs s) (bs_crc s).
Definition set_verified (v : Z) (s : pb_boot_state) : pb_boot_state :=
  BootState (bs_magic s) (bs_enable s) v (bs_remaining_boot_attempts s) (bs_error s)
    (bs_rz s) (bs_board_regs s) (bs_crc s).
Definition set_error (e : Z) (s : pb_boot_state) : pb_boot_state :=
  BootState (bs_magic s) (bs_enable s) (bs_verified s) (bs_remaining_boot_attempts s) e
    (bs_rz s) (bs_board_regs s) (bs_crc s).
Definition set_board_regs (r : list Z) (s : pb_boot_state) : pb_boot_state :=
  BootState (bs_magic s) (bs_enable s) (bs_verified s) (bs_remaining_boot_attempts s) (bs_error s)
    (bs_rz s) r (bs_crc s).

Definition with_parts (p b : bio_dev_t) (v : ab_vars) : ab_vars :=
  AbVars p b (boot_state v) (boot_state_backup v) (cfg v).
Definition with_state (s : pb_boot_state) (v : ab_vars) : ab_vars :=
  AbVars (primary_part v) (backup_part v) s (boot_state_backup v) (cfg v).
Definition with_backup (s : pb_boot_state) (v : ab_vars) : ab_vars :=
  AbVars (primary_part v) (backup_part v) (boot_state v) s (cfg v).
Definition with_cfg (c : boot_ab_state_config) (v : ab_vars) : ab_vars :=
  AbVars (primary_part v) (backup_part v) (boot_state v) (boot_state_backup v) c.

(** ** Operations *)

(** The checksum field is cleared whatever the outcome. *)
Definition validate (state : pb_boot_state) : Z * pb_boot_state :=
  let crc := bs_crc state in
  let state := set_crc 0 state in
  if negb (bs_magic state =? PB_STATE_MAGIC) then (- PB_ERR, state)
  else if negb (crc =? crc32 0 (cenc pb_boot_state_c state)) then (- PB_ERR, state)
  else (PB_OK, state).

Definition pb_boot_state_defaults : pb_boot_state :=
  BootState PB_STATE_MAGIC 0 0 0 0 (zeros 472) (replicate 4 0) 0.

(** [bio_read(.., sizeof(struct pb_boot_state), &state)]: the bytes the driver
    stored overlay the struct. *)
Definition overlay (bs : list Z) (s : pb_boot_state) : pb_boot_state :=
  decode pb_boot_state_c (splice 0 bs (cenc pb_boot_state_c s)).

(** The choice of [boot_ab_state_get]: an early return, or the [commit] flag
    and [boot_part_uu] it continues with. *)
Inductive ab_choice :=
| ChoiceRet (rc : Z)
| Choice (commit : bool) (boot_part_uu : option uuid_t).

Definition ab_select (c : boot_ab_state_config) (s : pb_boot_state) : ab_choice * pb_boot_state :=
  if negb (Z.land (bs_enable s) PB_STATE_A_ENABLED =? 0) then
    if (Z.land (bs_verified s) PB_STATE_A_VERIFIED =? 0) && (0 <? bs_remaining_boot_attempts s) then
      (Choice true (Some (sys_a_uu c)), set_attempts (u32 (bs_remaining_boot_attempts s - 1)) s)
    else if Z.land (bs_verified s) PB_STATE_A_VERIFIED =? 0 then
      if Z.land (bs_verified s) PB_STATE_B_VERIFIED =? 0 then
        match rollback_mode c with
        | AB_ROLLBACK_MODE_SPECULATIVE =>
            let s := set_enable PB_STATE_B_ENABLED s in
            let s := set_attempts 1 s in
            let s := set_error PB_STATE_ERROR_A_ROLLBACK s in
            (Choice true (Some (sys_b_uu c)), s)
        | _ => (ChoiceRet (- PB_ERR), s)
        end
      else
        let s := set_enable PB_STATE_B_ENABLED s in
        let s := set_error PB_STATE_ERROR_A_ROLLBACK s in
        (Choice true (Some (sys_b_uu c)), s)
    else (Choice false (Some (sys_a_uu c)), s)
  else if negb (Z.land (bs_enable s) PB_STATE_B_ENABLED =? 0) then
    if (Z.land (bs_verified s) PB_STATE_B_VERIFIED =? 0) && (0 <? bs_remaining_boot_attempts s) then
      (Choice true (Some (sys_b_uu c)), set_attempts (u32 (bs_remaining_boot_attempts s - 1)) s)
    else if Z.land (bs_verified s) PB_STATE_B_VERIFIED =? 0 then
      let rest s :=
        let s := set_enable PB_STATE_A_ENABLED s in
        let s := set_error PB_STATE_ERROR_B_ROLLBACK s in
        (Choice true (Some (sys_a_uu c)), s) in
      if Z.land (bs_verified s) PB_STATE_A_VERIFIED =? 0 then
        match rollback_mode c with
        | AB_ROLLBACK_MODE_SPECULATIVE =>
            let s := set_enable PB_STATE_A_ENABLED s in
            let s := set_attempts 1 s in
            let s := set_error PB_STATE_ERROR_B_ROLLBACK s in
            rest s
        | _ => (ChoiceRet (- PB_ERR), s)
        end
      else rest s
    else (Choice false (Some (sys_b_uu c)), s)
  else (Choice false None, s).

Section ab.
Context {W : Type} `{!BlockOps W}.
Abbreviation A := (M (ab_world W)).
Abbreviation blk := (lift (S := W) (W := ab_world W)) (only parsing).
Abbreviation mod_v f := (lift (S := ab_vars) (modify f)) (only parsing).
Abbreviation get_v := (lift (S := ab_vars) get) (only parsing).

Definition pb_boot_state_commit : A Z :=
  mod_v (fun v => with_state (set_crc 0 (boot_state v)) v) ;;;
  v <- get_v ;;
  let crc := crc32 0 (cenc pb_boot_state_c (boot_state v)) in
  mod_v (fun v => with_state (set_crc crc (boot_state v)) v) ;;;
  v <- get_v ;;
  rc <- blk (blk_write (primary_part v) 0 (sizeof pb_boot_state_c)
               (cenc pb_boot_state_c (boot_state v))) ;;
  if negb (rc =? PB_OK) then ret rc
  else blk (blk_write (backup_part v) 0 (sizeof pb_boot_state_c)
              (cenc pb_boot_state_c (boot_state v))).

(** The end of [boot_ab_state_init]: what is done about a damaged copy. *)
Definition ab_repair (primary_state_ok backup_state_ok : bool) : A Z :=
  if negb primary_state_ok && negb backup_state_ok then
    mod_v (with_state pb_boot_state_defaults) ;;;
    mod_v (with_backup pb_boot_state_defaults) ;;;
    pb_boot_state_commit
  else if negb backup_state_ok && primary_state_ok then
    mod_v (with_backup pb_boot_state_defaults) ;;;
    pb_boot_state_commit
  else if backup_state_ok && negb primary_state_ok then
    mod_v (fun v => with_state (boot_state_backup v) v) ;;;
    pb_boot_state_commit
  else ret PB_OK.

Definition boot_ab_state_init (state_cfg : boot_ab_state_config) : A Z :=
  mod_v (with_cfg state_cfg) ;;;
  dev <- blk (blk_find (Some (sys_a_uu state_cfg))) ;;
  if dev <? 0 then ret dev else
  blk (blk_clear_set_flags dev 0 BIO_FLAG_BOOTABLE) ;;;
  dev <- blk (blk_find (Some (sys_b_uu state_cfg))) ;;
  if dev <? 0 then ret dev else
  blk (blk_clear_set_flags dev 0 BIO_FLAG_BOOTABLE) ;;;
  primary <- blk (blk_find (Some (primary_state_part_uu state_cfg))) ;;
  backup <- blk (blk_find (Some (backup_state_part_uu state_cfg))) ;;
  mod_v (with_parts primary backup) ;;;
  let* (_, bs) := blk (blk_read primary 0 (sizeof pb_boot_state_c)) in
  mod_v (fun v => with_state (overlay bs (boot_state v)) v) ;;;
  v <- get_v ;;
  let '(rc, st) := validate (boot_state v) in
  mod_v (with_state st) ;;;
  let primary_state_ok := rc =? PB_OK in
  let* (_, bs) := blk (blk_read backup 0 (sizeof pb_boot_state_c)) in
  mod_v (fun v => with_backup (overlay bs (boot_state_backup v)) v) ;;;
  v <- get_v ;;
  let '(rc, st) := validate (boot_state_backup v) in
  mod_v (with_backup st) ;;;
  let backup_state_ok := rc =? PB_OK in
  ab_repair primary_state_ok backup_state_ok.

Definition boot_ab_state_get : A bio_dev_t :=
  v <- get_v ;;
  let '(choice, st) := ab_select (cfg v) (boot_state v) in
  mod_v (with_state st) ;;;
  match choice with
  | ChoiceRet rc => ret rc
  | Choice commit boot_part_uu =>
      rc <- (if commit then pb_boot_state_commit else ret PB_OK) ;;
      if negb (rc =? PB_OK) then ret rc else
      match boot_part_uu with
      | None => ret (- PB_ERR_NO_ACTIVE_BOOT_PARTITION)
      | Some u => blk (blk_find (Some u))
      end
  end.

Definition set_slots (e v : Z) (s : pb_boot_state) : pb_boot_state :=
  set_error 0 (set_verified v (set_enable e s)).

Definition boot_ab_state_set_boot_partition (part_uu : uuid_t) : A Z :=
  v <- get_v ;;
  if uuid_compare part_uu (sys_a_uu (cfg v)) =? 0 then
    mod_v (with_state (set_slots PB_STATE_A_ENABLED PB_STATE_A_VERIFIED (boot_state v))) ;;;
    pb_boot_state_commit
  else if uuid_compare part_uu (sys_b_uu (cfg v)) =? 0 then
    mod_v (with_state (set_slots PB_STATE_B_ENABLED PB_STATE_B_VERIFIED (boot_state v))) ;;;
    pb_boot_state_commit
  else if uuid_is_null part_uu then
    mod_v (with_state (set_slots 0 0 (boot_state v))) ;;;
    pb_boot_state_commit
  else
    mod_v (with_state (set_slots 0 0 (boot_state v))) ;;;
    ret (- PB_ERR_PART_NOT_BOOTABLE).

Definition boot_ab_state_get_boot_partition : A uuid_t :=
  v <- get_v ;;
  let e := bs_enable (boot_state v) in
  if e =? PB_STATE_A_ENABLED then ret (uuid_copy (sys_a_uu (cfg v)))
  else if e =? PB_STATE_B_ENABLED then ret (uuid_copy (sys_b_uu (cfg v)))
  else ret uuid_clear.

(** "A", "B" or "?". *)
Definition boot_ab_part_uu_to_name (part_uu : uuid_t) : A (list Z) :=
  v <- get_v ;;
  if uuid_compare part_uu (sys_a_uu (cfg v)) =? 0 then ret [65]
  else if uuid_compare part_uu (sys_b_uu (cfg v)) =? 0 then ret [66]
  else ret [63].

(** [index] is an unsigned int; the registers are stored in reverse. *)
Definition reg_index (index : Z) : nat := Z.to_nat (PB_STATE_NO_OF_BOARD_REGS - index - 1).

Definition boot_ab_state_read_board_reg (index : Z) : A (Z * option Z) :=
  if PB_STATE_NO_OF_BOARD_REGS - 1 <? index then ret (- PB_ERR_PARAM, None) else
  v <- get_v ;;
  ret (0, bs_board_regs (boot_state v) !! reg_index index).

Definition boot_ab_state_write_board_reg (index value : Z) : A Z :=
  if PB_STATE_NO_OF_BOARD_REGS - 1 <? index then ret (- PB_ERR_PARAM) else
  mod_v (fun v => with_state (set_board_regs
           (<[reg_index index := value]> (bs_board_regs (boot_state v))) (boot_state v)) v) ;;;
  pb_boot_state_commit.

End ab.

(** ** Specification *)

Module Spec.

Inductive slot := A | B.
Definition other (x : slot) : slot := match x with A => B | B => A end.

(** What the module keeps: the active slot, which slots are known good, the
    boot attempts an unverified slot has left and the slot last rolled back. *)
Record slots := Slots {
  active : option slot;
  verified_a : bool;
  verified_b : bool;
  attempts : Z;
  failed : option slot
}.

Definition verified (x : slot) (st : slots) : bool :=
  match x with A => verified_a st | B => verified_b st end.

Inductive outcome := NoActive | Refused | Boots (x : slot).

(** One boot: a verified slot boots; an unverified one uses up an attempt;
    with none left the other slot takes over if it is verified or if the
    policy is speculative, in which case it gets one attempt. *)
Definition step (speculative : bool) (st : slots) : outcome * slots :=
  match active st with
  | None => (NoActive, st)
  | Some x =>
      if verified x st then (Boots x, st)
      else if 0 <? attempts st then
        (Boots x, Slots (Some x) (verified_a st) (verified_b st) (attempts st - 1) (failed st))
      else if verified (other x) st then
        (Boots (other x), Slots (Some (other x)) (verified_a st) (verified_b st) (attempts st) (Some x))
      else if speculative then
        (Boots (other x), Slots (Some (other x)) (verified_a st) (verified_b st) 1 (Some x))
      else (Refused, st)
  end.

(** Consecutive boots: the outcomes in order and the final state. *)
Fixpoint run (speculative : bool) (n : nat) (st : slots) : list outcome * slots :=
  match n with
  | O => ([], st)
  | S n => let '(o, st) := step speculative st in
           let '(os, st) := run speculative n st in (o :: os, st)
  end.

(** An unverified slot gets exactly its attempts, then the verified other
    slot boots for good. *)
Lemma run_rollback speculative k x st :
  active st = Some x -> verified x st = false -> verified (other x) st = true -> 0 <= attempts st ->
  (run speculative (Z.to_nat (attempts st) + k) st).1 =
  replicate (Z.to_nat (attempts st)) (Boots x) ++ replicate k (Boots (other x)).
Proof.
  intros Ha Hx Ho Hn. remember (Z.to_nat (attempts st)) as n eqn:En.
  revert st Ha Hx Ho Hn En. induction n as [|n IH]; intros st Ha Hx Ho Hn En; simpl.
  - assert (Hz : (0 <? attempts st) = false) by (apply Z.ltb_ge; lia).
    destruct k as [|k]; simpl; [done|]. unfold step. rewrite Ha, Hx, Hz, Ho. simpl.
    destruct (run speculative k _) as [os st'] eqn:E. simpl. f_equal.
    change os with ((os, st').1). rewrite <- E. clear E.
    assert (Hs : forall j f a, verified (other x)
      (Slots (Some (other x)) (verified_a st) (verified_b st) a f) = true ->
      (run speculative j (Slots (Some (other x)) (verified_a st) (verified_b st) a f)).1 =
      replicate j (Boots (other x))).
    { induction j as [|j IHj]; intros f a Hv; simpl; [done|]. unfold step. simpl. rewrite Hv.
      specialize (IHj f a Hv). destruct (run speculative j _). simpl in *. by rewrite IHj. }
    apply Hs. by destruct x.
  - unfold step. rewrite Ha, Hx. assert (Hz : (0 <? attempts st) = true) by (apply Z.ltb_lt; lia).
    rewrite Hz. simpl.
    specialize (IH (Slots (Some x) (verified_a st) (verified_b st) (attempts st - 1) (failed st))).
    destruct (run speculative (n + k) _). simpl in *. f_equal. zbool.
    apply IH; first [done | lia | by destruct x].
Qed.

End Spec.

(** The abstract state of a state block. *)
Definition abs_state (s : pb_boot_state) : Spec.slots := {|
  Spec.active := if Z.testbit (bs_enable s) 0 then Some Spec.A
                 else if Z.testbit (bs_enable s) 1 then Some Spec.B else None;
  Spec.verified_a := Z.testbit (bs_verified s) 0;
  Spec.verified_b := Z.testbit (bs_verified s) 1;
  Spec.attempts := bs_remaining_boot_attempts s;
  Spec.failed := if bs_error s =? PB_STATE_ERROR_A_ROLLBACK then Some Spec.A
                 else if bs_error s =? PB_STATE_ERROR_B_ROLLBACK then Some Spec.B else None
|}.

Definition is_speculative (c : boot_ab_state_config) : bool :=
  match rollback_mode c with AB_ROLLBACK_MODE_SPECULATIVE => true | AB_ROLLBACK_MODE_NORMAL => false end.

Definition slot_uu (c : boot_ab_state_config) (x : Spec.slot) : uuid_t :=
  match x with Spec.A => sys_a_uu c | Spec.B => sys_b_uu c end.

(** ** Lemmas: state blocks *)

Definition sealed (s : pb_boot_state) : pb_boot_state :=
  set_crc (crc32 0 (cenc pb_boot_state_c (set_crc 0 s))) s.

Definition intact (s : pb_boot_state) : bool :=
  (bs_magic s =? PB_STATE_MAGIC) && (bs_crc s =? crc32 0 (cenc pb_boot_state_c (set_crc 0 s))).

(** A state the module can hold: C types, and the magic number in place. *)
Definition state_wf (s : pb_boot_state) : Prop :=
  cwf pb_boot_state_c s /\ bs_magic s = PB_STATE_MAGIC.

Lemma validate_intact s :
  validate s = (if intact s then PB_OK else - PB_ERR, set_crc 0 s).
Proof.
  unfold validate, intact. simpl. destruct (bs_magic s =? PB_STATE_MAGIC); simpl; [|done].
  by destruct (bs_crc s =? _).
Qed.

Lemma cwf_set_crc c s : 0 <= c < 2 ^ 32 -> cwf pb_boot_state_c s -> cwf pb_boot_state_c (set_crc c s).
Proof. simpl. intros. intuition lia. Qed.

Lemma sealed_cwf s : cwf pb_boot_state_c s -> cwf pb_boot_state_c (sealed s).
Proof.
  intros Hs. apply cwf_set_crc; [|done]. apply crc32_range; [lia|].
  apply cenc_bytes, cwf_set_crc; [lia|done].
Qed.

Lemma sealed_intact s : bs_magic s = PB_STATE_MAGIC -> intact (sealed s) = true.
Proof. intros Hm. unfold intact, sealed. simpl. by rewrite Hm, !Z.eqb_refl. Qed.

Lemma intact_sealed s : intact s = true -> s = sealed s /\ bs_magic s = PB_STATE_MAGIC.
Proof.
  unfold intact. intros H. zbool. split; [|done]. unfold sealed. rewrite <- H0. by destruct s.
Qed.

Lemma sealed_set_crc c s : sealed (set_crc c s) = sealed s.
Proof. done. Qed.

Lemma length_state_enc s : cwf pb_boot_state_c s -> length (cenc pb_boot_state_c s) = 512%nat.
Proof. intros Hs. by rewrite cenc_length. Qed.

Lemma overlay_full bs s :
  cwf pb_boot_state_c s -> length bs = 512%nat -> overlay bs s = decode pb_boot_state_c bs.
Proof.
  intros Hs Hl. unfold overlay, splice. rewrite drop_ge by (rewrite length_state_enc; [lia|done]).
  by rewrite app_nil_r.
Qed.

Lemma defaults_wf : state_wf pb_boot_state_defaults.
Proof.
  split; [|done]. unfold pb_boot_state_defaults. cbn -[zeros Z.pow].
  split_and!; first [lia | done | apply bytes_zeros | repeat constructor; lia].
Qed.

Lemma land_bit0 x : (Z.land x 1 =? 0) = negb (Z.testbit x 0).
Proof.
  change 1 with (Z.ones 1). rewrite Z.land_ones by lia. change (2 ^ 1) with 2.
  rewrite Zmod_even, Z.bit0_odd, <- Z.negb_even. by destruct (Z.even x).
Qed.

Lemma land_bit1 x : (Z.land x 2 =? 0) = negb (Z.testbit x 1).
Proof.
  destruct (Z.testbit x 1) eqn:E.
  - apply Z.eqb_neq. intros H. assert (Z.testbit (Z.land x 2) 1 = false) by (by rewrite H).
    rewrite Z.land_spec, E in *. done.
  - apply Z.eqb_eq, Z.bits_inj_iff'. intros i Hi. rewrite Z.land_spec, Z.bits_0.
    destruct (decide (i = 1)) as [->|]; [by rewrite E|].
    change 2 with (2 ^ 1). rewrite Z.pow2_bits_false by lia. apply andb_false_r.
Qed.

#[local] Arguments Z.testbit : simpl never.

(** The choice the code makes is the step of the specification. *)
Definition choice_ok (c : boot_ab_state_config) (s s' : pb_boot_state) (ch : ab_choice)
    (o : Spec.outcome) : Prop :=
  match o with
  | Spec.NoActive => ch = Choice false None /\ s' = s
  | Spec.Refused => ch = ChoiceRet (- PB_ERR) /\ s' = s
  | Spec.Boots x => exists commit, ch = Choice commit (Some (slot_uu c x)) /\ (commit = false -> s' = s)
  end.

Lemma ab_select_refines c s :
  state_wf s ->
  let '(ch, s') := ab_select c s in
  let '(o, st') := Spec.step (is_speculative c) (abs_state s) in
  abs_state s' = st' /\ state_wf s' /\ choice_ok c s s' ch o /\
  bs_board_regs s' = bs_board_regs s /\ bs_rz s' = bs_rz s.
Proof.
  intros [Hs Hm]. unfold ab_select, Spec.step, is_speculative, abs_state, choice_ok.
  pbconst. rewrite !land_bit0, !land_bit1.
  assert (Hr : 0 < bs_remaining_boot_attempts s ->
    u32 (bs_remaining_boot_attempts s - 1) = bs_remaining_boot_attempts s - 1 /\
    cwf pb_boot_state_c (set_attempts (u32 (bs_remaining_boot_attempts s - 1)) s)).
  { intros Hp. rewrite u32_small by (simpl in Hs; lia). split; [done|]. simpl in *. intuition lia. }
  assert (Hc : forall e r, 0 <= e < 2 ^ 32 -> 0 <= r < 2 ^ 32 ->
    cwf pb_boot_state_c (set_error r (set_enable e s))) by (intros; simpl in *; intuition lia).
  assert (Hc' : forall e a r, 0 <= e < 2 ^ 32 -> 0 <= a < 2 ^ 32 -> 0 <= r < 2 ^ 32 ->
    cwf pb_boot_state_c (set_error r (set_attempts a (set_enable e s))))
    by (intros; simpl in *; intuition lia).
  destruct (Z.testbit (bs_enable s) 0) eqn:Ea, (Z.testbit (bs_enable s) 1) eqn:Eb,
    (Z.testbit (bs_verified s) 0) eqn:Eva, (Z.testbit (bs_verified s) 1) eqn:Evb; simpl;
    try (destruct (Z.ltb_spec 0 (bs_remaining_boot_attempts s)) as [Hp|Hp];
         [destruct (Hr Hp) as [E Hw]; rewrite ?E in *|]);
    try (destruct (rollback_mode c)); simpl; rewrite ?Ea, ?Eb, ?Eva, ?Evb; simpl.
  all: split_and!; lazymatch goal with
    | |- state_wf _ => split; [|done]
    | |- exists _, _ => by eexists
    | |- _ => done
    end.
  all: lazymatch goal with
    | |- cwf _ (set_error _ (set_attempts _ _)) => apply Hc'; lia
    | |- cwf ?c (set_error 2 (set_enable 1 (set_error _ _))) =>
        change (cwf c (set_error 2 (set_attempts 1 (set_enable 1 s)))); apply Hc'; lia
    | |- cwf _ (set_error _ _) => apply Hc; lia
    | |- _ => assumption
    end.
Qed.

(** ** Lemmas: the module on working storage *)

Section laws.
Context {W : Type} `{BlockLaws W}.

(** The partitions the configuration names exist, and the two state
    partitions are usable, hold a state block and do not overlap. *)
Record ab_ready (c : boot_ab_state_config) (w : W) : Prop := {
  rdy_uuids : uuid_wf (sys_a_uu c) /\ uuid_wf (sys_b_uu c) /\
    uuid_wf (primary_state_part_uu c) /\ uuid_wf (backup_state_part_uu c);
  rdy_a : 0 <= blk_handle w (sys_a_uu c);
  rdy_b : 0 <= blk_handle w (sys_b_uu c);
  rdy_unit : 512 mod blk_unit = 0;
  rdy_rw : forall u, u = primary_state_part_uu c \/ u = backup_state_part_uu c ->
    blk_rw w (blk_handle w u) /\ (512 <= length (blk_data w (blk_handle w u)))%nat /\
    bytes (blk_data w (blk_handle w u));
  rdy_disjoint :
    blk_disjoint w (blk_handle w (primary_state_part_uu c)) (blk_handle w (backup_state_part_uu c)) /\
    blk_disjoint w (blk_handle w (backup_state_part_uu c)) (blk_handle w (primary_state_part_uu c))
}.

(** The state block on a partition. *)
Definition block_on (w : W) (u : uuid_t) : list Z := take 512 (blk_data w (blk_handle w u)).
Definition stored (w : W) (u : uuid_t) (s : pb_boot_state) : Prop :=
  block_on w u = cenc pb_boot_state_c (sealed s).
Definition state_on (w : W) (u : uuid_t) : pb_boot_state := decode pb_boot_state_c (block_on w u).

(** A running module: it knows its partitions, holds a proper state, and that
    state is the one the primary copy has. *)
Record ab_live (c : boot_ab_state_config) (w : ab_world W) : Prop := {
  live_ready : ab_ready c (ab_blk w);
  live_cfg : cfg (ab_v w) = c;
  live_primary : primary_part (ab_v w) = blk_handle (ab_blk w) (primary_state_part_uu c);
  live_backup : backup_part (ab_v w) = blk_handle (ab_blk w) (backup_state_part_uu c);
  live_state : state_wf (boot_state (ab_v w));
  live_stored : stored (ab_blk w) (primary_state_part_uu c) (boot_state (ab_v w))
}.

Lemma ready_same c w w' :
  ab_ready c w -> blk_same w w' ->
  (forall u, u = primary_state_part_uu c \/ u = backup_state_part_uu c ->
    bytes (blk_data w' (blk_handle w u)) /\
    (512 <= length (blk_data w' (blk_handle w u)))%nat) -> ab_ready c w'.
Proof.
  intros [? Ha Hb ? Hrw [? ?]] [Hh Hr Hd] Hl. split; rewrite ?Hh; auto.
  intros u Hu. rewrite Hh. destruct (Hrw u Hu) as (? & _ & _), (Hl u Hu). auto.
Qed.

Lemma ready_same_data c w w' :
  ab_ready c w -> blk_same w w' -> (forall d, blk_rw w d -> blk_data w' d = blk_data w d) ->
  ab_ready c w' /\ forall u, u = primary_state_part_uu c \/ u = backup_state_part_uu c ->
    block_on w' u = block_on w u.
Proof.
  intros Hr Hs Hd. split.
  - apply (ready_same c w); [done..|]. intros u Hu. destruct (rdy_rw c w Hr u Hu) as (? & ? & ?).
    by rewrite Hd.
  - intros u Hu. unfold block_on. destruct (rdy_rw c w Hr u Hu) as (? & ? & ?).
    by rewrite (same_handle _ _ Hs), Hd.
Qed.

(** Writing a block to one of the two copies. *)
Definition copy_uu (c : boot_ab_state_config) (p : bool) : uuid_t :=
  if p then primary_state_part_uu c else backup_state_part_uu c.

Lemma copy_uu_in c p : copy_uu c p = primary_state_part_uu c \/ copy_uu c p = backup_state_part_uu c.
Proof. destruct p; auto. Qed.

Lemma write_copy c p w bs :
  ab_ready c w -> length bs = 512%nat -> bytes bs ->
  exists w', blk_write (blk_handle w (copy_uu c p)) 0 512 bs w = (PB_OK, w') /\
    ab_ready c w' /\ blk_same w w' /\ block_on w' (copy_uu c p) = bs /\
    block_on w' (copy_uu c (negb p)) = block_on w (copy_uu c (negb p)).
Proof.
  intros Hr Hl Hb. destruct (rdy_rw c w Hr _ (copy_uu_in c p)) as (Hrw & Hd & Hby).
  destruct (rdy_rw c w Hr _ (copy_uu_in c (negb p))) as (Hrw' & Hd' & Hby').
  destruct (law_write w (blk_handle w (copy_uu c p)) bs Hrw) as (w' & E & Hs & Hw & Ho);
    [lia|rewrite Hl; apply (rdy_unit c w Hr)|].
  assert (Hdis : blk_disjoint w (blk_handle w (copy_uu c p)) (blk_handle w (copy_uu c (negb p)))).
  { destruct (rdy_disjoint c w Hr), p; done. }
  specialize (Ho _ Hrw' Hdis). rewrite Hl in E. exists w'. split; [done|].
  assert (Hlen : (512 <= length (blk_data w' (blk_handle w (copy_uu c p))))%nat).
  { rewrite Hw, length_splice; lia. }
  assert (Hbw : bytes (blk_data w' (blk_handle w (copy_uu c p)))) by (rewrite Hw; auto with pb).
  split_and!; [|done| |].
  - apply (ready_same c w); [done..|]. intros u Hu.
    assert (u = copy_uu c p \/ u = copy_uu c (negb p)) as [-> | ->] by (destruct p, Hu; auto).
    + done.
    + by rewrite Ho.
  - unfold block_on. rewrite (same_handle _ _ Hs), Hw. unfold splice. simpl.
    by rewrite take_app_length' by lia.
  - unfold block_on. by rewrite (same_handle _ _ Hs), Ho.
Qed.

(** A commit stores the sealed state on both partitions, the primary first. *)
Lemma commit_ok c b v :
  ab_ready c b -> cfg v = c ->
  primary_part v = blk_handle b (primary_state_part_uu c) ->
  backup_part v = blk_handle b (backup_state_part_uu c) -> state_wf (boot_state v) ->
  exists b', pb_boot_state_commit (AbWorld b v) = (PB_OK, AbWorld b' (with_state (sealed (boot_state v)) v)) /\
    ab_live c (AbWorld b' (with_state (sealed (boot_state v)) v)) /\ blk_same b b' /\
    stored b' (backup_state_part_uu c) (boot_state v).
Proof.
  intros Hr Hc Hp Hb [Hs Hm].
  assert (Hsw : cwf pb_boot_state_c (sealed (boot_state v))) by (by apply sealed_cwf).
  pose proof (length_state_enc _ Hsw) as Hl. pose proof (cenc_bytes _ Hsw) as Hby.
  destruct (write_copy c true b _ Hr Hl Hby) as (b1 & E1 & Hr1 & Hs1 & Hb1 & Ho1).
  destruct (write_copy c false b1 _ Hr1 Hl Hby) as (b2 & E2 & Hr2 & Hs2 & Hb2 & Ho2).
  cbn [copy_uu negb] in *. exists b2. split_and!.
  - unfold pb_boot_state_commit, lift. m_unfold. cbn -[blk_write sizeof cenc crc32]. rewrite Hp.
    change (sizeof pb_boot_state_c) with 512.
    change (set_crc (crc32 0 _) _) with (sealed (boot_state v)). rewrite E1.
    cbn -[blk_write cenc]. rewrite Hb, <- (same_handle _ _ Hs1), E2. done.
  - split; simpl; [done|done| | | |].
    + by rewrite (same_handle _ _ Hs2), (same_handle _ _ Hs1).
    + by rewrite (same_handle _ _ Hs2), (same_handle _ _ Hs1).
    + done.
    + unfold stored. by rewrite Ho2, Hb1.
  - eauto using blk_same_trans.
  - unfold stored. by rewrite Hb2.
Qed.

Lemma slot_uu_wf c b x : ab_ready c b -> uuid_wf (slot_uu c x) /\ 0 <= blk_handle b (slot_uu c x).
Proof. intros [[? [? _]] ? ? _ _ _]. by destruct x. Qed.

(** One call of [boot_ab_state_get] is one step of the specification. *)
Lemma get_step c w :
  ab_live c w ->
  let '(r, w') := boot_ab_state_get w in
  let '(o, st') := Spec.step (is_speculative c) (abs_state (boot_state (ab_v w))) in
  ab_live c w' /\ blk_same (ab_blk w) (ab_blk w') /\ abs_state (boot_state (ab_v w')) = st' /\
  r = match o with
      | Spec.NoActive => - PB_ERR_NO_ACTIVE_BOOT_PARTITION
      | Spec.Refused => - PB_ERR
      | Spec.Boots x => blk_handle (ab_blk w) (slot_uu c x)
      end /\
  (st' <> abs_state (boot_state (ab_v w)) ->
   stored (ab_blk w') (backup_state_part_uu c) (boot_state (ab_v w'))).
Proof.
  destruct w as [b v]. intros [Hr Hc Hp Hb Hs Hst]. simpl in *.
  pose proof (ab_select_refines c (boot_state v) Hs) as Hsel.
  unfold boot_ab_state_get, lift. m_unfold. cbn -[ab_select pb_boot_state_commit with_state]. rewrite Hc.
  destruct (ab_select c (boot_state v)) as [ch s'].
  destruct (Spec.step (is_speculative c) (abs_state (boot_state v))) as [o st'].
  destruct Hsel as (Ha & Hwf' & Hch & _ & _).
  assert (Hsame : s' = boot_state v -> with_state s' v = v) by (intros ->; by destruct v).
  destruct o as [| |x]; simpl in Hch.
  - destruct Hch as [-> E]. cbn [ab_blk ab_v]. rewrite (Hsame E). simpl. subst s'. by split_and!.
  - destruct Hch as [-> E]. cbn [ab_blk ab_v]. rewrite (Hsame E). simpl. subst s'. by split_and!.
  - destruct Hch as (commit & -> & Hcm). destruct (slot_uu_wf c b x Hr) as [Hu Hh].
    destruct commit; cbn [ab_blk ab_v].
    + destruct (commit_ok c b (with_state s' v) Hr Hc Hp Hb Hwf') as (b' & -> & Hl & Hsm & Hbk).
      cbn -[blk_find]. rewrite law_find by done. simpl. split_and!; try done.
      by rewrite (same_handle _ _ Hsm).
    + rewrite (Hsame (Hcm eq_refl)). cbn -[blk_find]. rewrite law_find by done. simpl.
      rewrite (Hcm eq_refl) in Ha. by split_and!.
Qed.

(** *** Initialisation *)

Definition recover (p b : pb_boot_state) : pb_boot_state :=
  if intact p then set_crc 0 p else if intact b then set_crc 0 b else pb_boot_state_defaults.

(** Steps that leave both copies and the handles alone. *)
Definition quiet (c : boot_ab_state_config) (w w' : W) : Prop :=
  ab_ready c w' /\ blk_same w w' /\ forall p, block_on w' (copy_uu c p) = block_on w (copy_uu c p).

Lemma quiet_of_data c w w' :
  ab_ready c w -> blk_same w w' -> (forall d, blk_rw w d -> blk_data w' d = blk_data w d) -> quiet c w w'.
Proof.
  intros Hr Hs Hd. destruct (ready_same_data c w w' Hr Hs Hd) as [? Hb].
  split_and!; [done..|]. intros p. apply Hb, copy_uu_in.
Qed.

Lemma quiet_trans c w1 w2 w3 : quiet c w1 w2 -> quiet c w2 w3 -> quiet c w1 w3.
Proof.
  intros (? & ? & H1') (? & ? & H2'). split_and!; [done|eauto with pb|].
  intros p. by rewrite H2', H1'.
Qed.

Lemma flags_quiet c w d cl fl :
  ab_ready c w -> 0 <= fl < 2 ^ 16 ->
  exists rc w', blk_clear_set_flags d cl fl w = (rc, w') /\ quiet c w w'.
Proof.
  intros Hr Hf. destruct (law_flags w d cl fl Hf) as (rc & w' & E & Hs & Hd).
  exists rc, w'. split; [done|]. by apply quiet_of_data.
Qed.

Lemma read_copy c p w :
  ab_ready c w ->
  exists w', blk_read (blk_handle w (copy_uu c p)) 0 512 w = ((PB_OK, block_on w (copy_uu c p)), w') /\
    quiet c w w'.
Proof.
  intros Hr. destruct (rdy_rw c w Hr _ (copy_uu_in c p)) as (Hrw & Hd & _).
  destruct (law_read w (blk_handle w (copy_uu c p)) 512 Hrw) as (w' & E & Hs & Hdd);
    [lia|apply (rdy_unit c w Hr)|].
  exists w'. split; [done|]. by apply quiet_of_data.
Qed.

Lemma length_block_on c p w : ab_ready c w ->
  length (block_on w (copy_uu c p)) = 512%nat /\ bytes (block_on w (copy_uu c p)).
Proof.
  intros Hr. destruct (rdy_rw c w Hr _ (copy_uu_in c p)) as (_ & Hd & Hb).
  unfold block_on. rewrite length_take_le by done. auto with pb.
Qed.

Lemma state_on_wf c p w : ab_ready c w -> cwf pb_boot_state_c (state_on w (copy_uu c p)).
Proof.
  intros Hr. destruct (length_block_on c p w Hr) as [Hl Hb].
  apply cdec_wf; [done|]. rewrite Hl. done.
Qed.

Lemma intact_stored c p w :
  ab_ready c w -> intact (state_on w (copy_uu c p)) = true ->
  stored w (copy_uu c p) (set_crc 0 (state_on w (copy_uu c p))) /\
  state_wf (set_crc 0 (state_on w (copy_uu c p))).
Proof.
  intros Hr Hi. destruct (length_block_on c p w Hr) as [Hl Hb].
  destruct (intact_sealed _ Hi) as [E Em]. split.
  - unfold stored. rewrite sealed_set_crc, <- E. unfold state_on. by rewrite (cenc_decode pb_boot_state_c).
  - split; [|done]. apply cwf_set_crc; [lia|]. by apply state_on_wf.
Qed.

Ltac run :=
  cbn -[blk_find blk_read blk_write blk_clear_set_flags pb_boot_state_commit overlay validate ab_repair
        with_parts with_state with_backup with_cfg].

(** What [boot_ab_state_init] leaves behind. *)
Definition init_post (c : boot_ab_state_config) (b : W) (w' : ab_world W) : Prop :=
  let p := state_on b (primary_state_part_uu c) in
  let k := state_on b (backup_state_part_uu c) in
  ab_live c w' /\ blk_same b (ab_blk w') /\
  set_crc 0 (boot_state (ab_v w')) = recover p k /\
  (if intact p && intact k
   then block_on (ab_blk w') (backup_state_part_uu c) = block_on b (backup_state_part_uu c)
   else stored (ab_blk w') (backup_state_part_uu c) (boot_state (ab_v w'))).

Lemma init_load c b v :
  ab_ready c b -> cwf pb_boot_state_c (boot_state v) -> cwf pb_boot_state_c (boot_state_backup v) ->
  let p := state_on b (primary_state_part_uu c) in
  let k := state_on b (backup_state_part_uu c) in
  exists b', quiet c b b' /\
    boot_ab_state_init c (AbWorld b v) =
    ab_repair (intact p) (intact k) (AbWorld b' (AbVars (blk_handle b' (primary_state_part_uu c))
      (blk_handle b' (backup_state_part_uu c)) (set_crc 0 p) (set_crc 0 k) c)).
Proof.
  intros Hr Hv Hvb p k. subst p k.
  destruct (rdy_uuids c b Hr) as (Hua & Hub & Hup & Huk).
  destruct (flags_quiet c b (blk_handle b (sys_a_uu c)) 0 BIO_FLAG_BOOTABLE Hr ltac:(done))
    as (rc1 & b1 & E1 & Q1). pose proof Q1 as (Hr1 & S1 & _).
  destruct (flags_quiet c b1 (blk_handle b1 (sys_b_uu c)) 0 BIO_FLAG_BOOTABLE Hr1 ltac:(done))
    as (rc2 & b2 & E2 & Q2). pose proof Q2 as (Hr2 & S2 & _).
  destruct (read_copy c true b2 Hr2) as (b3 & E3 & Q3). pose proof Q3 as (Hr3 & S3 & _).
  destruct (read_copy c false b3 Hr3) as (b4 & E4 & Q4).
  pose proof (quiet_trans _ _ _ _ Q1 (quiet_trans _ _ _ _ Q2 Q3)) as Q13.
  pose proof (quiet_trans _ _ _ _ Q13 Q4) as Q14.
  pose proof Q13 as (_ & S13 & B13). pose proof Q14 as (Hr4 & S14 & B14).
  pose proof (quiet_trans _ _ _ _ Q1 Q2) as (_ & S12 & B12).
  rewrite B12 in E3. rewrite B13 in E4. cbn [copy_uu] in E3, E4.
  unfold boot_ab_state_init, lift. m_unfold.
  run. rewrite law_find by done. run. rewrite (proj2 (Z.ltb_ge _ _) (rdy_a c b Hr)). run.
  rewrite E1. run. rewrite law_find by done. run.
  rewrite (proj2 (Z.ltb_ge _ _) (rdy_b c b1 Hr1)). run.
  rewrite E2. run. rewrite !law_find by done. run.
  change (sizeof pb_boot_state_c) with 512. rewrite E3. run.
  change (boot_state (with_state ?x _)) with x.
  change (boot_state (with_parts _ _ (with_cfg _ ?x))) with (boot_state x).
  rewrite overlay_full by (done || apply (length_block_on c true b Hr)).
  change (decode pb_boot_state_c (block_on b (primary_state_part_uu c)))
    with (state_on b (primary_state_part_uu c)).
  rewrite validate_intact. run. rewrite (same_handle _ _ S3) in E4. rewrite E4. run.
  change (boot_state_backup (with_backup ?x _)) with x.
  change (boot_state_backup (with_state _ (with_state _ (with_parts _ _ (with_cfg _ ?x)))))
    with (boot_state_backup x).
  rewrite overlay_full by (done || apply (length_block_on c false b Hr)).
  change (decode pb_boot_state_c (block_on b (backup_state_part_uu c)))
    with (state_on b (backup_state_part_uu c)).
  rewrite validate_intact. run. exists b4. split; [done|].
  pose proof (quiet_trans _ _ _ _ Q3 Q4) as (_ & S34 & _). rewrite !(same_handle _ _ S34).
  by destruct (intact (state_on b (primary_state_part_uu c))),
    (intact (state_on b (backup_state_part_uu c))).
Qed.

Lemma init_ok c b v :
  ab_ready c b -> cwf pb_boot_state_c (boot_state v) -> cwf pb_boot_state_c (boot_state_backup v) ->
  exists w', boot_ab_state_init c (AbWorld b v) = (PB_OK, w') /\ init_post c b w'.
Proof.
  intros Hr Hv Hvb. destruct (init_load c b v Hr Hv Hvb) as (b' & (Hr' & Hs & Hb) & ->).
  unfold init_post. set (p := state_on b _) in *. set (k := state_on b (backup_state_part_uu c)) in *.
  assert (Hp : intact p = true -> stored b' (primary_state_part_uu c) (set_crc 0 p) /\ state_wf (set_crc 0 p)).
  { intros Hi. destruct (intact_stored c true b Hr Hi) as [E ?]. split; [|done].
    exact (eq_trans (Hb true) E). }
  assert (Hk : intact k = true -> state_wf (set_crc 0 k)) by (intros; by apply (intact_stored c false b)).
  assert (Hgo : forall bk s, state_wf s -> exists b'',
    pb_boot_state_commit (AbWorld b' (AbVars (blk_handle b' (primary_state_part_uu c))
      (blk_handle b' (backup_state_part_uu c)) s bk c)) = (PB_OK, b'') /\
    ab_live c b'' /\ blk_same b (ab_blk b'') /\ set_crc 0 (boot_state (ab_v b'')) = set_crc 0 s /\
    stored (ab_blk b'') (backup_state_part_uu c) (boot_state (ab_v b''))).
  { intros bk s Hw. destruct (commit_ok c b' (AbVars (blk_handle b' (primary_state_part_uu c))
      (blk_handle b' (backup_state_part_uu c)) s bk c) Hr') as (b'' & E & Hl & Hsm & Hst); [done..|].
    eexists. split; [exact E|]. split; [done|]. simpl. split; [eauto with pb|done]. }
  unfold ab_repair, lift, recover. m_unfold. destruct (intact p) eqn:Ep, (intact k) eqn:Ek;
    cbn -[set_crc pb_boot_state_defaults pb_boot_state_commit].
  - eexists. split; [done|]. destruct (Hp eq_refl). split_and!; [by split | done | done |].
    simpl. apply (Hb false).
  - destruct (Hgo pb_boot_state_defaults (set_crc 0 p)) as (b'' & E & ?); [by apply Hp|].
    exists b''. by split.
  - destruct (Hgo (set_crc 0 k) (set_crc 0 k)) as (b'' & E & ?); [by apply Hk|].
    exists b''. by split.
  - destruct (Hgo pb_boot_state_defaults pb_boot_state_defaults defaults_wf) as (b'' & E & ?).
    exists b''. by split.
Qed.

(** *** Power cycles *)

Definition reset_vars (c : boot_ab_state_config) : ab_vars :=
  let z := BootState 0 0 0 0 0 (zeros 472) (replicate 4 0) 0 in AbVars 0 0 z z c.

(** One boot on storage [b]: the static variables are zero, the module is
    initialised and asked for the device to boot. *)
Definition boot_cycle (c : boot_ab_state_config) (b : W) : bio_dev_t * W :=
  let '(_, w) := boot_ab_state_init c (AbWorld b (reset_vars c)) in
  let '(r, w) := boot_ab_state_get w in (r, ab_blk w).

Fixpoint boot_cycles (c : boot_ab_state_config) (n : nat) (b : W) : list bio_dev_t * W :=
  match n with
  | O => ([], b)
  | S n => let '(r, b) := boot_cycle c b in let '(rs, b) := boot_cycles c n b in (r :: rs, b)
  end.

(** The state the module would start from on storage [b]. *)
Definition recovered (c : boot_ab_state_config) (b : W) : pb_boot_state :=
  recover (state_on b (primary_state_part_uu c)) (state_on b (backup_state_part_uu c)).

Definition outcome_rc (c : boot_ab_state_config) (b : W) (o : Spec.outcome) : Z :=
  match o with
  | Spec.NoActive => - PB_ERR_NO_ACTIVE_BOOT_PARTITION
  | Spec.Refused => - PB_ERR
  | Spec.Boots x => blk_handle b (slot_uu c x)
  end.

Lemma reset_vars_wf c : cwf pb_boot_state_c (boot_state (reset_vars c)).
Proof.
  unfold reset_vars. cbn -[zeros Z.pow].
  split_and!; first [lia | done | apply bytes_zeros | repeat constructor; lia].
Qed.

Lemma stored_state_on w u s : cwf pb_boot_state_c s -> stored w u s -> state_on w u = sealed s.
Proof.
  intros Hs E. unfold state_on. rewrite E. apply (decode_cenc pb_boot_state_c), sealed_cwf, Hs.
Qed.

Lemma live_recovered c w : ab_live c w -> recovered c (ab_blk w) = set_crc 0 (boot_state (ab_v w)).
Proof.
  intros [_ _ _ _ [Hs Hm] Hst]. unfold recovered, recover.
  by rewrite (stored_state_on _ _ _ Hs Hst), sealed_intact.
Qed.

Lemma boot_cycle_step c b :
  ab_ready c b ->
  let '(r, b') := boot_cycle c b in
  let '(o, st') := Spec.step (is_speculative c) (abs_state (recovered c b)) in
  r = outcome_rc c b o /\ ab_ready c b' /\ blk_same b b' /\ abs_state (recovered c b') = st'.
Proof.
  intros Hr. unfold boot_cycle.
  destruct (init_ok c b (reset_vars c) Hr (reset_vars_wf c) (reset_vars_wf c))
    as (w & -> & Hl & Hs & Hrec & _).
  pose proof (get_step c w Hl) as Hg. destruct (boot_ab_state_get w) as [r w'].
  fold (recovered c b) in Hrec.
  assert (E : abs_state (boot_state (ab_v w)) = abs_state (recovered c b)) by (by rewrite <- Hrec).
  rewrite E in Hg. destruct (Spec.step _ _) as [o st'].
  destruct Hg as (Hl' & Hs' & Ha & Hrc & _). split_and!.
  - rewrite Hrc. destruct o; simpl; [done..|]. by rewrite (same_handle _ _ Hs).
  - apply Hl'.
  - eauto with pb.
  - rewrite (live_recovered c w' Hl'). by rewrite <- Ha.
Qed.

Lemma boot_cycles_run c n b :
  ab_ready c b ->
  (boot_cycles c n b).1 =
  map (outcome_rc c b) (Spec.run (is_speculative c) n (abs_state (recovered c b))).1.
Proof.
  revert b. induction n as [|n IH]; intros b Hr; simpl; [done|].
  pose proof (boot_cycle_step c b Hr) as Hc. destruct (boot_cycle c b) as [r b'].
  destruct (Spec.step _ _) as [o st']. destruct Hc as (-> & Hr' & Hs & <-).
  specialize (IH b' Hr'). destruct (boot_cycles c n b') as [rs b''].
  destruct (Spec.run _ _ _) as [os st'']. simpl in *. rewrite IH. f_equal.
  apply map_ext. intros [| |x]; simpl; [done..|]. by rewrite (same_handle _ _ Hs).
Qed.

(** *** Power cuts

    Storage whose power fails in the middle of a write: [Live n] survives [n]
    writes; the next write leaves [torn buf] on the device instead of [buf],
    and from then on ([Dead]) nothing happens any more. *)
Inductive power := Live (n : nat) | Dead.

Definition cut_op {A} (dead : A) (m : M W A) : M (W * power) A :=
  fun '(w, p) => match p with
                 | Live n => let '(a, w') := m w in (a, (w', Live n))
                 | Dead => (dead, (w, Dead))
                 end.

Definition cut_write (torn : list Z -> list Z) (d lba len : Z) (buf : list Z) : M (W * power) Z :=
  fun '(w, p) =>
    match p with
    | Live (S n) => let '(rc, w') := blk_write d lba len buf w in (rc, (w', Live n))
    | Live O => let '(_, w') := blk_write d lba len (torn buf) w in (- PB_ERR_IO, (w', Dead))
    | Dead => (- PB_ERR_IO, (w, Dead))
    end.

Definition cut_ops (torn : list Z -> list Z) : BlockOps (W * power) := {|
  blk_find u := cut_op (- PB_ERR_IO) (blk_find u);
  blk_valid d := cut_op false (blk_valid d);
  blk_read d lba len := cut_op (- PB_ERR_IO, []) (blk_read d lba len);
  blk_write := cut_write torn;
  blk_erase d lba n := cut_op (- PB_ERR_IO) (blk_erase d lba n);
  blk_clear_set_flags d c s := cut_op (- PB_ERR_IO) (blk_clear_set_flags d c s);
  blk_get_flags d := cut_op (- PB_ERR_IO) (blk_get_flags d);
  blk_get_uu d := cut_op None (blk_get_uu d);
  blk_get_description d := cut_op None (blk_get_description d);
  blk_block_size d := cut_op (- PB_ERR_IO) (blk_block_size d);
  blk_no_of_blocks d := cut_op (- PB_ERR_IO) (blk_no_of_blocks d);
  blk_first_block d := cut_op (- PB_ERR_IO) (blk_first_block d);
  blk_last_block d := cut_op (- PB_ERR_IO) (blk_last_block d);
  blk_allocate_parent p f l bs u t := cut_op (- PB_ERR_IO) (blk_allocate_parent p f l bs u t);
  blk_set_install_cb d cb := cut_op (- PB_ERR_IO) (blk_set_install_cb d cb)
|}.

(** A write that tears leaves a block the checksum rejects, or one of the two
    blocks it should have left. *)
Definition tear_detected (torn : list Z -> list Z) (old new : pb_boot_state) : Prop :=
  let bs := torn (cenc pb_boot_state_c (sealed new)) in
  length bs = 512%nat /\ bytes bs /\
  (intact (decode pb_boot_state_c bs) = false \/
   bs = cenc pb_boot_state_c (sealed old) \/ bs = cenc pb_boot_state_c (sealed new)).

(** Whatever mix of old, new and rejected blocks is left, the recovered state
    is one of the old ones or the new one as long as one copy is good. *)
Definition good_block (old new : pb_boot_state) (bs : list Z) : Prop :=
  bs = cenc pb_boot_state_c (sealed old) \/ bs = cenc pb_boot_state_c (sealed new).

Lemma good_block_decode old new bs :
  state_wf old -> state_wf new -> good_block old new bs ->
  intact (decode pb_boot_state_c bs) = true /\
  (set_crc 0 (decode pb_boot_state_c bs) = set_crc 0 old \/
   set_crc 0 (decode pb_boot_state_c bs) = set_crc 0 new).
Proof.
  intros [Ho Hmo] [Hn Hmn] [-> | ->];
    rewrite (decode_cenc pb_boot_state_c) by (by apply sealed_cwf);
    rewrite sealed_intact by done; auto.
Qed.

Lemma recovered_mix c b oldp oldb new :
  state_wf oldp -> state_wf oldb -> state_wf new ->
  let P := primary_state_part_uu c in
  let K := backup_state_part_uu c in
  good_block oldp new (block_on b P) \/ intact (state_on b P) = false /\ stored b K oldb ->
  recovered c b = set_crc 0 oldp \/ recovered c b = set_crc 0 oldb \/ recovered c b = set_crc 0 new.
Proof.
  intros Hp Hk Hn P K. unfold recovered, recover. fold P K. unfold state_on. intros [Hg | [Hbad HK]].
  - destruct (good_block_decode oldp new (block_on b P) Hp Hn Hg) as [-> Hd]. tauto.
  - destruct (good_block_decode oldb oldb (block_on b K) Hk Hk (or_introl HK)) as [-> Hd]. rewrite Hbad. tauto.
Qed.

Lemma commit_cut c b v torn oldp oldb n :
  ab_ready c b -> cfg v = c ->
  primary_part v = blk_handle b (primary_state_part_uu c) ->
  backup_part v = blk_handle b (backup_state_part_uu c) ->
  state_wf (boot_state v) -> state_wf oldp -> state_wf oldb -> tear_detected torn oldp (boot_state v) ->
  stored b (primary_state_part_uu c) oldp -> stored b (backup_state_part_uu c) oldb ->
  let b' := (ab_blk (@pb_boot_state_commit _ (cut_ops torn) (AbWorld (b, Live n) v)).2).1 in
  ab_ready c b' /\ blk_same b b' /\
  (recovered c b' = set_crc 0 oldp \/ recovered c b' = set_crc 0 oldb \/ recovered c b' = set_crc 0 (boot_state v)).
Proof.
  intros Hr Hc Hp Hb Hwf Hop Hob (Htl & Htb & Htd) HsP HsK. set (new := boot_state v) in *.
  assert (Hsw : cwf pb_boot_state_c (sealed new)) by (apply sealed_cwf, Hwf).
  pose proof (length_state_enc _ Hsw) as Hl. pose proof (cenc_bytes _ Hsw) as Hby.
  destruct (write_copy c true b _ Hr Htl Htb) as (b0 & E0 & Hr0 & Hs0 & Hb0 & Ho0).
  destruct (write_copy c true b _ Hr Hl Hby) as (b1 & E1 & Hr1 & Hs1 & Hb1 & Ho1).
  destruct (write_copy c false b1 _ Hr1 Htl Htb) as (b2 & E2 & Hr2 & Hs2 & Hb2 & Ho2).
  destruct (write_copy c false b1 _ Hr1 Hl Hby) as (b3 & E3 & Hr3 & Hs3 & Hb3 & Ho3).
  cbn [copy_uu negb] in *. unfold stored in HsP, HsK.
  unfold pb_boot_state_commit, lift. m_unfold.
  cbn -[cut_write sizeof cenc crc32]. change (sizeof pb_boot_state_c) with 512.
  change (set_crc (crc32 0 _) _) with (sealed new). rewrite Hp.
  assert (Hpn : forall b', block_on b' (primary_state_part_uu c) = cenc pb_boot_state_c (sealed new) ->
    recovered c b' = set_crc 0 oldp \/ recovered c b' = set_crc 0 oldb \/ recovered c b' = set_crc 0 new).
  { intros b' E. apply recovered_mix; [done..|]. left. by right. }
  unfold cut_write, PB_ERR_IO in *.
  destruct n as [|[|n]]; rewrite ?E0, ?E1; cbn -[cenc];
    rewrite ?Hb, <- ?(same_handle _ _ Hs1), ?E2, ?E3;
    change (negb (- (7) =? PB_OK)) with true; cbn.
  - split_and!; [done..|]. apply recovered_mix; [done..|]. destruct Htd as [Hbad | Hg].
    + right. unfold state_on. rewrite Hb0. split; [done|]. unfold stored. by rewrite Ho0.
    + left. unfold good_block. by rewrite Hb0.
  - split_and!; [done|eauto with pb|]. apply Hpn. by rewrite Ho2.
  - split_and!; [done|eauto with pb|]. apply Hpn. by rewrite Ho3.
Qed.

(** A commit survives a power cycle. *)
Lemma commit_reboot c w f :
  ab_live c w -> state_wf (f (boot_state (ab_v w))) ->
  exists b1 w2,
    pb_boot_state_commit (AbWorld (ab_blk w) (with_state (f (boot_state (ab_v w))) (ab_v w))) =
      (PB_OK, AbWorld b1 (with_state (sealed (f (boot_state (ab_v w)))) (ab_v w))) /\
    boot_ab_state_init c (AbWorld b1 (reset_vars c)) = (PB_OK, w2) /\ ab_live c w2 /\
    set_crc 0 (boot_state (ab_v w2)) = set_crc 0 (f (boot_state (ab_v w))).
Proof.
  destruct w as [b v]. intros [Hr Hc Hp Hb Hs Hst] Hf. simpl in *.
  destruct (commit_ok c b (with_state (f (boot_state v)) v)) as (b1 & E & Hl & _ & _); [done..|].
  destruct (init_ok c b1 (reset_vars c) (live_ready _ _ Hl) (reset_vars_wf c) (reset_vars_wf c))
    as (w2 & E2 & Hl2 & _ & Hrec & _).
  exists b1, w2. split_and!; [exact E | done | done |].
  fold (recovered c b1) in Hrec. rewrite Hrec. apply (live_recovered c _ Hl).
Qed.

Lemma set_slots_wf e v s : 0 <= e < 2 ^ 32 -> 0 <= v < 2 ^ 32 -> state_wf s -> state_wf (set_slots e v s).
Proof. intros He Hv [Hs Hm]. split; [|done]. simpl in *. intuition lia. Qed.

Lemma set_board_regs_wf i v s :
  0 <= v < 2 ^ 32 -> state_wf s -> state_wf (set_board_regs (<[i := v]> (bs_board_regs s)) s).
Proof.
  intros Hv [Hs Hm]. split; [|done]. simpl in *. rewrite length_insert.
  intuition (try lia). apply Forall_insert; [done|]. lia.
Qed.

(** The slot bits [boot_ab_state_set_boot_partition] stores for a UUID. *)
Definition slot_bits (c : boot_ab_state_config) (u : uuid_t) : Z :=
  if bool_decide (u = sys_a_uu c) then PB_STATE_A_ENABLED
  else if bool_decide (u = sys_b_uu c) then PB_STATE_B_ENABLED else 0.

Definition bootable_uu (c : boot_ab_state_config) (u : uuid_t) : Prop :=
  u = sys_a_uu c \/ u = sys_b_uu c \/ u = uuid_clear.

Lemma compare_decide u1 u2 : uuid_wf u1 -> uuid_wf u2 -> (uuid_compare u1 u2 =? 0) = bool_decide (u1 = u2).
Proof.
  intros H1' H2'. pose proof (uuid_compare_eq u1 u2 H1' H2') as Hc.
  destruct (Z.eqb_spec (uuid_compare u1 u2) 0), (bool_decide_reflect (u1 = u2)); tauto.
Qed.

Lemma set_boot_partition_commits c w u :
  ab_live c w -> bootable_uu c u ->
  boot_ab_state_set_boot_partition u w =
  pb_boot_state_commit (AbWorld (ab_blk w)
    (with_state (set_slots (slot_bits c u) (slot_bits c u) (boot_state (ab_v w))) (ab_v w))).
Proof.
  destruct w as [b v]. intros [Hr Hc Hp Hb Hs Hst] Hu. simpl in *.
  destruct (rdy_uuids c b Hr) as (Hua & Hub & _).
  assert (Hw : uuid_wf u) by (destruct Hu as [-> | [-> | ->]]; auto using uuid_clear_wf).
  unfold boot_ab_state_set_boot_partition, slot_bits, lift. m_unfold. cbn -[set_slots]. rewrite Hc.
  rewrite !compare_decide by done.
  destruct (bool_decide_reflect (u = sys_a_uu c)); [done|].
  destruct (bool_decide_reflect (u = sys_b_uu c)); [done|].
  destruct Hu as [? | [? | ->]]; [done..|]. done.
Qed.

(** ** Properties *)

(** [C3] The A/B state machine of the code, written out once for A and once
    for B, refines the slot-generic specification: on working storage,
    [boot_ab_state_get] makes exactly the specified step, answers with the
    device of the specified slot or the specified error, and whenever the step
    changes the state, the new state is on both partitions before the device
    is handed out. *)
Theorem ab_get_refines_spec c w :
  ab_live c w ->
  let '(r, w') := boot_ab_state_get w in
  let '(o, st') := Spec.step (is_speculative c) (abs_state (boot_state (ab_v w))) in
  r = outcome_rc c (ab_blk w) o /\ abs_state (boot_state (ab_v w')) = st' /\ ab_live c w' /\
  (st' <> abs_state (boot_state (ab_v w)) ->
   stored (ab_blk w') (primary_state_part_uu c) (boot_state (ab_v w')) /\
   stored (ab_blk w') (backup_state_part_uu c) (boot_state (ab_v w'))).
Proof.
  intros Hl. pose proof (get_step c w Hl) as Hg. destruct (boot_ab_state_get w) as [r w'].
  destruct (Spec.step _ _) as [o st']. destruct Hg as (Hl' & _ & Ha & Hr & Hk).
  split_and!; [by destruct o | done | done |]. intros Hne. split; [apply Hl' | auto].
Qed.

(** [C10] Initialisation recovers: whatever the two copies hold, with both
    partitions usable [boot_ab_state_init] succeeds, continues with the primary
    copy if its magic and checksum are good, else with the backup if that one
    is good, else with the default state; afterwards the primary copy holds
    that state and the backup copy too, unless both copies were good, in which
    case the backup copy is left as it was. *)
Theorem ab_init_recovers c b v :
  ab_ready c b -> cwf pb_boot_state_c (boot_state v) -> cwf pb_boot_state_c (boot_state_backup v) ->
  let p := state_on b (primary_state_part_uu c) in
  let k := state_on b (backup_state_part_uu c) in
  exists w', boot_ab_state_init c (AbWorld b v) = (PB_OK, w') /\ ab_live c w' /\
    set_crc 0 (boot_state (ab_v w')) =
      (if intact p then set_crc 0 p else if intact k then set_crc 0 k else pb_boot_state_defaults) /\
    stored (ab_blk w') (primary_state_part_uu c) (boot_state (ab_v w')) /\
    (if intact p && intact k
     then block_on (ab_blk w') (backup_state_part_uu c) = block_on b (backup_state_part_uu c)
     else stored (ab_blk w') (backup_state_part_uu c) (boot_state (ab_v w'))).
Proof.
  intros Hr Hv Hvb p k. destruct (init_ok c b v Hr Hv Hvb) as (w' & -> & Hl & _ & Hrec & Hk).
  exists w'. split_and!; try done. apply Hl.
Qed.

(** [C5] Committing is safe against power cuts: cut the power during any write
    of [pb_boot_state_commit], leaving that block torn in a way the checksum
    notices (or not written, or written).  At the next power up the storage is
    usable and [boot_ab_state_init] continues with the new state, with the one
    that was in the primary copy or with the one that was in the backup copy.
    So with two equal copies it is the old or the new state.  The copies need
    not be equal, though: after a cut between the two writes both are intact,
    initialisation leaves them as they are, and a cut during the next commit
    can bring back the older state of the backup
    ([Example.unsynchronised_copies]). *)
Theorem ab_commit_crash_safe c b v torn oldp oldb n :
  ab_ready c b -> cfg v = c ->
  primary_part v = blk_handle b (primary_state_part_uu c) ->
  backup_part v = blk_handle b (backup_state_part_uu c) ->
  state_wf (boot_state v) -> state_wf oldp -> state_wf oldb -> tear_detected torn oldp (boot_state v) ->
  stored b (primary_state_part_uu c) oldp -> stored b (backup_state_part_uu c) oldb ->
  let b' := (ab_blk (@pb_boot_state_commit _ (cut_ops torn) (AbWorld (b, Live n) v)).2).1 in
  exists w', boot_ab_state_init c (AbWorld b' (reset_vars c)) = (PB_OK, w') /\ ab_live c w' /\
    (set_crc 0 (boot_state (ab_v w')) = set_crc 0 oldp \/
     set_crc 0 (boot_state (ab_v w')) = set_crc 0 oldb \/
     set_crc 0 (boot_state (ab_v w')) = set_crc 0 (boot_state v)).
Proof.
  intros Hr Hc Hp Hb Hwf Hop Hob Ht HsP HsK b'.
  destruct (commit_cut c b v torn oldp oldb n) as (Hr' & _ & Hrec); [done..|]. fold b' in Hr', Hrec.
  destruct (init_ok c b' (reset_vars c) Hr' (reset_vars_wf c) (reset_vars_wf c))
    as (w' & E & Hl & _ & Hs & _).
  exists w'. split_and!; [done..|]. fold (recovered c b') in Hs. by rewrite Hs.
Qed.

(** [C8] A failing update is rolled back after exactly its boot attempts: if
    the stored state has an active slot that is not verified, [n] remaining
    attempts and the other slot verified, then out of any number [n + k] of
    consecutive power cycles the first [n] boot the active slot and all the
    following ones boot the other slot. *)
Theorem ab_rollback_after_attempts c b x k :
  ab_ready c b ->
  let st := abs_state (recovered c b) in
  Spec.active st = Some x -> Spec.verified x st = false -> Spec.verified (Spec.other x) st = true ->
  0 <= Spec.attempts st ->
  (boot_cycles c (Z.to_nat (Spec.attempts st) + k) b).1 =
  replicate (Z.to_nat (Spec.attempts st)) (blk_handle b (slot_uu c x)) ++
  replicate k (blk_handle b (slot_uu c (Spec.other x))).
Proof.
  intros Hr st Ha Hx Ho Hn. rewrite boot_cycles_run by done. fold st.
  rewrite (Spec.run_rollback _ k x) by done. rewrite map_app.
  apply f_equal2; apply (fmap_replicate (outcome_rc c b)).
Qed.

(** Setting the boot partition round-trips through a power cycle: for
    system A, system B or the null UUID, [boot_ab_state_set_boot_partition]
    succeeds, and after a reset [boot_ab_state_init] followed by
    [boot_ab_state_get_boot_partition] returns that UUID; the next
    [boot_ab_state_get] boots that partition as verified, or reports that no
    partition is active. *)
Theorem ab_set_boot_partition_persists c w u :
  ab_live c w -> sys_a_uu c <> sys_b_uu c -> sys_a_uu c <> uuid_clear -> sys_b_uu c <> uuid_clear ->
  bootable_uu c u ->
  exists w1 w2,
    boot_ab_state_set_boot_partition u w = (PB_OK, w1) /\
    boot_ab_state_init c (AbWorld (ab_blk w1) (reset_vars c)) = (PB_OK, w2) /\
    (boot_ab_state_get_boot_partition w2).1 = u /\
    (boot_ab_state_get w2).1 =
      (if bool_decide (u = uuid_clear) then - PB_ERR_NO_ACTIVE_BOOT_PARTITION
       else blk_handle (ab_blk w2) u).
Proof.
  intros Hl Hab Ha0 Hb0 Hu. destruct (rdy_uuids c _ (live_ready _ _ Hl)) as (Hua & Hub & _).
  rewrite (set_boot_partition_commits c w u Hl Hu).
  assert (Hbits : 0 <= slot_bits c u < 2 ^ 32) by (unfold slot_bits; by repeat case_bool_decide).
  destruct (commit_reboot c w (set_slots (slot_bits c u) (slot_bits c u)) Hl) as (b1 & w2 & E1 & E2 & Hl2 & Hs2);
    [apply set_slots_wf; [done..|]; apply Hl|].
  exists (AbWorld b1 (with_state (sealed (set_slots (slot_bits c u) (slot_bits c u)
    (boot_state (ab_v w)))) (ab_v w))), w2. split_and!; [exact E1 | exact E2 | |].
  all: pose proof (f_equal bs_enable Hs2) as He; pose proof (f_equal bs_verified Hs2) as Hv;
    simpl in He, Hv; pose proof (live_cfg _ _ Hl2) as Hc2.
  - unfold boot_ab_state_get_boot_partition, lift. m_unfold. simpl. rewrite He, Hc2. unfold slot_bits.
    destruct Hu as [-> | [-> | ->]]; repeat case_bool_decide; try congruence; simpl;
      by rewrite ?uuid_copy_id.
  - pose proof (get_step c w2 Hl2) as Hg. destruct (boot_ab_state_get w2) as [r w3].
    unfold Spec.step, abs_state in Hg. simpl in Hg. rewrite He, Hv in Hg. unfold slot_bits in Hg.
    destruct Hu as [-> | [-> | ->]]; repeat case_bool_decide; try congruence; simpl in *;
      by destruct Hg as (_ & _ & _ & -> & _).
Qed.

(** Board registers round-trip through a power cycle: writing a 32-bit
    value to a register below PB_STATE_NO_OF_BOARD_REGS succeeds and after a
    reset and [boot_ab_state_init] reading it returns that value, while the
    other registers read as before; an index out of range is rejected by both
    operations with -PB_ERR_PARAM. *)
Theorem ab_board_reg_persists c w i x :
  ab_live c w -> 0 <= i -> 0 <= x < 2 ^ 32 ->
  if i <? PB_STATE_NO_OF_BOARD_REGS then
    exists w1 w2,
      boot_ab_state_write_board_reg i x w = (PB_OK, w1) /\
      boot_ab_state_init c (AbWorld (ab_blk w1) (reset_vars c)) = (PB_OK, w2) /\
      forall j, 0 <= j -> (boot_ab_state_read_board_reg j w2).1 =
        (if j =? i then (0, Some x) else (boot_ab_state_read_board_reg j w).1)
  else
    boot_ab_state_write_board_reg i x w = (- PB_ERR_PARAM, w) /\
    boot_ab_state_read_board_reg i w = ((- PB_ERR_PARAM, None), w).
Proof.
  intros Hl Hi Hx. unfold boot_ab_state_write_board_reg, boot_ab_state_read_board_reg,
    PB_STATE_NO_OF_BOARD_REGS, lift. m_unfold.
  destruct (Z.ltb_spec i 4) as [Hlt|Hge]; destruct (Z.ltb_spec (4 - 1) i); try lia; [|done].
  set (f s := set_board_regs (<[reg_index i := x]> (bs_board_regs s)) s).
  destruct (commit_reboot c w f Hl) as (b1 & w2 & E1 & E2 & Hl2 & Hs2);
    [apply set_board_regs_wf; [done|]; apply Hl|].
  exists (AbWorld b1 (with_state (sealed (f (boot_state (ab_v w)))) (ab_v w))), w2.
  split_and!; [exact E1 | exact E2|]. intros j Hj.
  pose proof (f_equal bs_board_regs Hs2) as Hb. simpl in Hb.
  assert (Hlen : length (bs_board_regs (boot_state (ab_v w))) = 4%nat)
    by (destruct (live_state _ _ Hl) as [Hw _]; simpl in Hw; tauto).
  destruct (Z.eqb_spec j i) as [->|Hne].
  - destruct (Z.ltb_spec (4 - 1) i); [lia|]. simpl. rewrite Hb.
    by rewrite list_lookup_insert_eq by (rewrite Hlen; unfold reg_index, PB_STATE_NO_OF_BOARD_REGS; lia).
  - destruct (Z.ltb_spec (4 - 1) j); [done|]. simpl. rewrite Hb. f_equal.
    apply list_lookup_insert_ne. unfold reg_index, PB_STATE_NO_OF_BOARD_REGS. lia.
Qed.

End laws.

(** ** An example system: a RAM disk with the two state partitions and the two
    systems, A active and not verified with two attempts left, B verified. *)

Module Example.

Definition config : boot_ab_state_config := {|
  primary_state_part_uu := replicate 16 1;
  backup_state_part_uu := replicate 16 2;
  sys_a_uu := RamDisk.uuA;
  sys_b_uu := RamDisk.uuB;
  rollback_mode := AB_ROLLBACK_MODE_NORMAL
|}.

Definition state : pb_boot_state :=
  BootState PB_STATE_MAGIC 1 2 2 0 (zeros 472) (replicate 4 0) 0.

Definition disk : list Z := Eval vm_compute in
  cenc pb_boot_state_c (sealed state) ++ cenc pb_boot_state_c (sealed state) ++ zeros 1024.

Definition pool : list bio_device :=
  RamDisk.mkpart (replicate 16 1) 0 0 :: RamDisk.mkpart (replicate 16 2) 1 1 ::
  RamDisk.mkpart RamDisk.uuA 2 2 :: RamDisk.mkpart RamDisk.uuB 3 3 :: replicate 28 null_device.

#[export] Existing Instances armv7a test_defconfig.

Definition blocks : bio_state RamDisk.disk := BioState pool 4 disk.

Definition world : ab_world (bio_state RamDisk.disk) := AbWorld blocks (AbVars 0 1 state state config).

Lemma blocks_wf : bio_wf blocks.
Proof.
  split; [done|]. split; [done|]. intros i d Hi.
  destruct i as [|[|[|[|i]]]];
    [injection Hi as <-; vm_compute; repeat constructor; discriminate ..|].
  change (replicate 28 null_device !! i = Some d) in Hi.
  apply lookup_replicate in Hi as [-> _]. by rewrite decide_False by (simpl; lia).
Qed.

Lemma uu_wf b : is_byte b -> uuid_wf (replicate 16 b).
Proof. intros Hb. split; [done|]. by apply Forall_replicate. Qed.

Lemma ready : ab_ready config blocks.
Proof.
  split; try done.
  - split_and!; by apply uu_wf.
  - intros u Hu. assert (Hh : blk_handle blocks u = 0 \/ blk_handle blocks u = 1)
      by (destruct Hu as [-> | ->]; vm_compute; auto).
    split_and!.
    + split; [apply blocks_wf|]. destruct Hh as [-> | ->]; vm_compute; by split_and!.
    + destruct Hh as [-> | ->]; vm_compute; lia.
    + destruct Hh as [-> | ->]; apply (bool_decide_unpack _); by vm_compute.
  - split; vm_compute; auto.
Qed.

Lemma state_ok : state_wf state.
Proof.
  split; [|done]. unfold state. cbn -[zeros Z.pow].
  split_and!; first [lia | done | apply bytes_zeros | repeat constructor; lia].
Qed.

Lemma live : ab_live config world.
Proof.
  split; [apply ready | done | by vm_compute | by vm_compute | apply state_ok | by vm_compute].
Qed.

Definition next_state : pb_boot_state := set_attempts 1 state.

(** Half of the block is written, the rest reads as erased flash. *)
Definition half_written (bs : list Z) : list Z := take 500 bs ++ replicate 12 255.

(** Nothing of the write reaches the block. *)
Definition not_written (bs : list Z) : list Z := cenc pb_boot_state_c (sealed state).

(** A commit of [s] to the storage [b] in which the write after the first [n]
    is torn, and the next start. *)
Definition cut_commit (torn : list Z -> list Z) (n : nat) (s : pb_boot_state) (b : bio_state RamDisk.disk) : bio_state RamDisk.disk :=
  (ab_blk (@pb_boot_state_commit _ (cut_ops torn) (AbWorld (b, Live n) (with_state s (ab_v world)))).2).1.
Definition restarted (b : bio_state RamDisk.disk) : ab_world (bio_state RamDisk.disk) :=
  (boot_ab_state_init config (AbWorld b (reset_vars config))).2.

(** Two attempts are left.  The power fails after the first write of a commit
    of one attempt; the next start continues with one attempt but leaves the
    backup copy with two.  The power fails in the first write of the next
    commit, and the start after it has two attempts again. *)
Example unsynchronised_copies :
  let w1 := restarted (cut_commit not_written 1 (set_attempts 1 state) blocks) in
  let w2 := restarted (cut_commit half_written 0 (set_attempts 0 state) (ab_blk w1)) in
  bs_remaining_boot_attempts (boot_state (ab_v w1)) = 1 /\ bs_remaining_boot_attempts (boot_state (ab_v w2)) = 2.
Proof. by vm_compute. Qed.

End Example.

(** ** Witnesses *)

Section witnesses.
Import Example.

Lemma ab_get_refines_spec_witness :
  (boot_ab_state_get world).1 = 2 /\
  let '(r, w') := boot_ab_state_get world in
  let '(o, st') := Spec.step (is_speculative config) (abs_state (boot_state (ab_v world))) in
  r = outcome_rc config (ab_blk world) o /\ abs_state (boot_state (ab_v w')) = st' /\
  ab_live config w' /\
  (st' <> abs_state (boot_state (ab_v world)) ->
   stored (ab_blk w') (primary_state_part_uu config) (boot_state (ab_v w')) /\
   stored (ab_blk w') (backup_state_part_uu config) (boot_state (ab_v w'))).
Proof. split; [by vm_compute | exact (ab_get_refines_spec config world live)]. Defined.

Lemma ab_init_recovers_witness :
  exists w', boot_ab_state_init config world = (PB_OK, w') /\ ab_live config w'.
Proof.
  destruct (ab_init_recovers config blocks (ab_v world) ready (proj1 state_ok) (proj1 state_ok))
    as (w' & E & Hl & _).
  exact (ex_intro _ w' (conj E Hl)).
Defined.

Lemma next_state_ok : state_wf next_state.
Proof.
  split; [|done]. unfold next_state, state. cbn -[zeros Z.pow].
  split_and!; first [lia | done | apply bytes_zeros | repeat constructor; lia].
Qed.

Lemma half_written_detected : tear_detected half_written state next_state.
Proof.
  split; [by vm_compute|]. split; [apply (bool_decide_unpack _); by vm_compute|].
  left. by vm_compute.
Qed.

Lemma ab_commit_crash_safe_witness :
  let v := with_state next_state (ab_v world) in
  let b' := (ab_blk (@pb_boot_state_commit _ (cut_ops half_written) (AbWorld (blocks, Live 0) v)).2).1 in
  exists w', boot_ab_state_init config (AbWorld b' (reset_vars config)) = (PB_OK, w') /\
    ab_live config w' /\
    (set_crc 0 (boot_state (ab_v w')) = set_crc 0 state \/
     set_crc 0 (boot_state (ab_v w')) = set_crc 0 state \/
     set_crc 0 (boot_state (ab_v w')) = set_crc 0 next_state).
Proof.
  apply (ab_commit_crash_safe config blocks (with_state next_state (ab_v world)) half_written state state 0 ready
    eq_refl ltac:(by vm_compute) ltac:(by vm_compute) next_state_ok state_ok state_ok half_written_detected
    (live_stored _ _ live)).
  by vm_compute.
Defined.

Lemma ab_rollback_after_attempts_witness :
  (boot_cycles config 4 blocks).1 = [2; 2; 3; 3].
Proof.
  exact (ab_rollback_after_attempts config blocks Spec.A 2 ready
    ltac:(by vm_compute) ltac:(by vm_compute) ltac:(by vm_compute) ltac:(by vm_compute)).
Defined.

Lemma ab_set_boot_partition_persists_witness :
  exists w1 w2,
    boot_ab_state_set_boot_partition RamDisk.uuB world = (PB_OK, w1) /\
    boot_ab_state_init config (AbWorld (ab_blk w1) (reset_vars config)) = (PB_OK, w2) /\
    (boot_ab_state_get_boot_partition w2).1 = RamDisk.uuB /\
    (boot_ab_state_get w2).1 = blk_handle (ab_blk w2) RamDisk.uuB.
Proof.
  apply (ab_set_boot_partition_persists config world RamDisk.uuB live);
    [done | done | done | right; left; reflexivity].
Defined.

Lemma ab_board_reg_persists_witness :
  exists w1 w2,
    boot_ab_state_write_board_reg 3 77 world = (PB_OK, w1) /\
    boot_ab_state_init config (AbWorld (ab_blk w1) (reset_vars config)) = (PB_OK, w2) /\
    forall j, 0 <= j -> (boot_ab_state_read_board_reg j w2).1 =
      (if j =? 3 then (0, Some 77) else (boot_ab_state_read_board_reg j world).1).
Proof. exact (ab_board_reg_persists config world 3 77 live ltac:(lia) ltac:(lia)). Defined.

End witnesses.
