(* ===== verification/PbState.v ===== *)
(** * The pbstate library

    [tools/pbstate/src/pbstate.c]: the running system edits the A/B state that
    [AbState] reads at the next boot.  The library works on the two state
    partitions as files; the system calls are [Posix], with what POSIX
    promises for block devices in [PosixLaws].  A loop of the source that
    waits for the system ([flock], [read], [write]) has fuel here, and a
    function is [None] where the fuel ends. *)

From S2P Require Import Prelude Errors Crc Uuid Bio BlockIface AbState.
Local Open Scope c_scope.

(** ** The system *)

Definition path : Type := list Z.

Definition EPERM : Z := 1.
Definition EINTR : Z := 4.
Definition EIO : Z := 5.
Definition EINVAL : Z := 22.
Definition O_RDONLY : Z := 0.
Definition O_WRONLY : Z := 1.
Definition O_RDWR : Z := 2.
Definition O_DSYNC : Z := 0x1000.
Definition LOCK_SH : Z := 1.
Definition LOCK_EX : Z := 2.
Definition LOCK_UN : Z := 8.

(** [lseek] is used with [SEEK_SET] only; [errno] is that of the last call. *)
Class Posix (U : Type) := {
  sys_open : path -> Z -> M U Z;
  sys_close : Z -> M U unit;
  sys_flock : Z -> Z -> M U Z;
  sys_lseek : Z -> Z -> M U Z;
  sys_read : Z -> Z -> M U (Z * list Z);
  sys_write : Z -> list Z -> M U Z;
  sys_sync : M U unit;
  errno : U -> Z
}.

(** ** The library *)

(** [enum pbstate_system] *)
Definition PBSTATE_SYSTEM_NONE : Z := 0.
Definition PBSTATE_SYSTEM_A : Z := 1.
Definition PBSTATE_SYSTEM_B : Z := 2.

(** The static variables [state], [primary_device] and [backup_device]. *)
Record pbstate_world (U : Type) := PbWorld {
  p_sys : U;
  p_state : pb_boot_state;
  primary_device : path;
  backup_device : path
}.
Arguments PbWorld {U}.
Arguments p_sys {U}.
Arguments p_state {U}.
Arguments primary_device {U}.
Arguments backup_device {U}.

Section pbstate.
Context {U : Type} `{!Posix U} (lock_fuel : nat).
Abbreviation P := (M (pbstate_world U)).

Definition sys {A} (m : M U A) : P A :=
  fun w => let '(a, u) := m (p_sys w) in (a, PbWorld u (p_state w) (primary_device w) (backup_device w)).
Definition get_errno : P Z := gets (fun w => errno (p_sys w)).
Definition get_state : P pb_boot_state := gets p_state.
Definition set_state (s : pb_boot_state) : P unit :=
  modify (fun w => PbWorld (p_sys w) s (primary_device w) (backup_device w)).

(** Sequencing of steps that may not end. *)
Definition then_ {A B} (m : P (option A)) (k : A -> P (option B)) : P (option B) :=
  bind m (fun o => match o with Some a => k a | None => ret None end).
Notation "x <~ m ;; k" := (then_ m (fun x => k)) (at level 100, m at next level, right associativity).
Definition ok {A} (a : A) : P (option A) := ret (Some a).

Definition verify_state : P Z :=
  state <- get_state ;;
  let crc := bs_crc state in
  set_state (set_crc 0 state) ;;;
  state <- get_state ;;
  if negb (bs_magic state =? PB_STATE_MAGIC) then ret (- EIO) else
  if negb (crc =? crc32 0 (cenc pb_boot_state_c state)) then ret (- EIO) else
  ret 0.

(** The loop of [write_state], with [write_sz] bytes written. *)
Fixpoint write_loop (fuel : nat) (fd write_sz : Z) : P (option Z) :=
  match fuel with
  | O => ret None
  | S fuel =>
      state <- get_state ;;
      write_now <- sys (sys_write fd (drop (Z.to_nat write_sz) (cenc pb_boot_state_c state))) ;;
      if write_now =? -1 then (e <- get_errno ;; ok (- e)) else
      let write_sz := write_sz + write_now in
      if write_sz <? sizeof pb_boot_state_c then write_loop fuel fd write_sz else ok 0
  end.

Definition io_fuel : nat := csize pb_boot_state_c.
Definition write_state (fd : Z) : P (option Z) := write_loop io_fuel fd 0.

(** The loop of [read_state], with [read_sz] bytes of the struct filled. *)
Fixpoint read_loop (fuel : nat) (fd read_sz : Z) : P (option Z) :=
  match fuel with
  | O => ret None
  | S fuel =>
      let* (read_now, bs) := sys (sys_read fd (sizeof pb_boot_state_c - read_sz)) in
      state <- get_state ;;
      set_state (decode pb_boot_state_c (splice (Z.to_nat read_sz) bs (cenc pb_boot_state_c state))) ;;;
      if read_now =? 0 then ok (- EIO) else
      if read_now =? -1 then (e <- get_errno ;; ok (- e)) else
      let read_sz := read_sz + read_now in
      if read_sz <? sizeof pb_boot_state_c then read_loop fuel fd read_sz else ok 0
  end.

Definition read_state (fd : Z) : P (option Z) := read_loop io_fuel fd 0.

(** [do { rc = flock(..) } while (rc == -1 && errno == EINTR)] *)
Fixpoint flock_loop (fuel : nat) (fd op : Z) : P (option Z) :=
  match fuel with
  | O => ret None
  | S fuel =>
      rc <- sys (sys_flock fd op) ;;
      e <- get_errno ;;
      if (rc =? -1) && (e =? EINTR) then flock_loop fuel fd op else ok rc
  end.

(** The error exits of [open_and_load_state]. *)
Definition err_close_out (fd rc : Z) : P (option Z) := sys (sys_close fd) ;;; ok rc.
Definition err_close_and_release_out (fd rc : Z) : P (option Z) :=
  sys (sys_flock fd LOCK_UN) ;;; err_close_out fd rc.
Definition err_close_backup_out (backup_fd fd rc : Z) : P (option Z) :=
  sys (sys_close backup_fd) ;;; err_close_and_release_out fd rc.

(** The second half of [open_and_load_state]: the primary copy is damaged. *)
Definition load_backup (fd : Z) (wr : bool) : P (option Z) :=
  w <- get ;;
  backup_fd <- sys (sys_open (backup_device w) (if wr then O_RDWR else O_RDONLY)) ;;
  if backup_fd =? -1 then (e <- get_errno ;; err_close_and_release_out fd (- e)) else
  rc <~ read_state backup_fd ;;
  if negb (rc =? 0) then err_close_backup_out backup_fd fd rc else
  rc <- verify_state ;;
  if negb (rc =? 0) then err_close_backup_out backup_fd fd rc else
  sys (sys_close backup_fd) ;;;
  ok fd.

Definition open_and_load_state (wr : bool) : P (option Z) :=
  w <- get ;;
  fd <- sys (sys_open (primary_device w) (if wr then Z.lor O_RDWR O_DSYNC else O_RDONLY)) ;;
  if fd =? -1 then (e <- get_errno ;; ok (- e)) else
  rc <~ flock_loop lock_fuel fd (if wr then LOCK_EX else LOCK_SH) ;;
  if negb (rc =? 0) then (e <- get_errno ;; err_close_out fd (- e)) else
  rc <~ read_state fd ;;
  if negb (rc =? 0) then err_close_and_release_out fd rc else
  rc <- verify_state ;;
  if rc =? 0 then ok fd else
  load_backup fd wr.

(** The common end of [close_and_save_state]. *)
Definition release_and_sync (fd rc : Z) : P (option Z) :=
  sys (sys_flock fd LOCK_UN) ;;; sys (sys_close fd) ;;; sys sys_sync ;;; ok rc.

Definition close_and_save_state (fd : Z) (wr : bool) : P (option Z) :=
  if negb wr then release_and_sync fd 0 else
  off <- sys (sys_lseek fd 0) ;;
  if off =? -1 then (e <- get_errno ;; release_and_sync fd (- e)) else
  state <- get_state ;;
  set_state (set_crc 0 state) ;;;
  state <- get_state ;;
  set_state (set_crc (crc32 0 (cenc pb_boot_state_c state)) state) ;;;
  rc <~ write_state fd ;;
  if negb (rc =? 0) then release_and_sync fd rc else
  w <- get ;;
  backup_fd <- sys (sys_open (backup_device w) (Z.lor O_WRONLY O_DSYNC)) ;;
  if backup_fd =? -1 then (e <- get_errno ;; release_and_sync fd (- e)) else
  rc <~ write_state backup_fd ;;
  sys (sys_close backup_fd) ;;;
  release_and_sync fd rc.

Definition pbstate_init (p_device b_device : path) : P Z :=
  modify (fun w => PbWorld (p_sys w) (p_state w) p_device b_device) ;;; ret 0.

(** [!!x] *)
Definition nonzero (x : Z) : Z := if x =? 0 then 0 else 1.

Definition pbstate_is_system_active (system : Z) : P (option Z) :=
  fd <~ open_and_load_state false ;;
  if fd <? 0 then ok fd else
  state <- get_state ;;
  let result :=
    if system =? PBSTATE_SYSTEM_A then nonzero (Z.land (bs_enable state) PB_STATE_A_ENABLED)
    else if system =? PBSTATE_SYSTEM_B then nonzero (Z.land (bs_enable state) PB_STATE_B_ENABLED)
    else if system =? PBSTATE_SYSTEM_NONE then nonzero (bs_enable state)
    else 0 in
  _ <~ close_and_save_state fd false ;;
  ok result.

Definition pbstate_is_system_verified (system : Z) : P (option Z) :=
  fd <~ open_and_load_state false ;;
  if fd <? 0 then ok fd else
  state <- get_state ;;
  let result :=
    if system =? PBSTATE_SYSTEM_A then nonzero (Z.land (bs_verified state) PB_STATE_A_VERIFIED)
    else if system =? PBSTATE_SYSTEM_B then nonzero (Z.land (bs_verified state) PB_STATE_B_VERIFIED)
    else if system =? PBSTATE_SYSTEM_NONE then nonzero (bs_enable state)
    else 0 in
  _ <~ close_and_save_state fd false ;;
  ok result.

(** The value behind the pointer is written on success only; [is_null] is
    [boot_attempts == NULL]. *)
Definition pbstate_get_remaining_boot_attempts (is_null : bool) : P (option (Z * option Z)) :=
  if is_null then ok (- EINVAL, None) else
  fd <~ open_and_load_state false ;;
  if fd <? 0 then ok (fd, None) else
  state <- get_state ;;
  _ <~ close_and_save_state fd false ;;
  ok (0, Some (bs_remaining_boot_attempts state)).

Definition pbstate_force_rollback : P (option Z) :=
  fd <~ open_and_load_state true ;;
  if fd <? 0 then ok fd else
  state <- get_state ;;
  if negb (Z.land (bs_enable state) PB_STATE_A_ENABLED =? 0)
     && negb (Z.land (bs_verified state) PB_STATE_A_VERIFIED =? 0)
  then (_ <~ close_and_save_state fd false ;; ok (- EPERM)) else
  if negb (Z.land (bs_enable state) PB_STATE_B_ENABLED =? 0)
     && negb (Z.land (bs_verified state) PB_STATE_B_VERIFIED =? 0)
  then (_ <~ close_and_save_state fd false ;; ok (- EPERM)) else
  set_state (set_attempts 0 state) ;;;
  rc <~ close_and_save_state fd true ;;
  if rc <? 0 then ok rc else ok 0.

Definition pbstate_get_errors : P (option (Z * option Z)) :=
  fd <~ open_and_load_state false ;;
  if fd <? 0 then ok (fd, None) else
  state <- get_state ;;
  _ <~ close_and_save_state fd false ;;
  ok (0, Some (bs_error state)).

(** [x &= ~mask] on a [uint32_t] *)
Definition clear_bits (x mask : Z) : Z := Z.ldiff x mask.

Definition pbstate_clear_error (mask : Z) : P (option Z) :=
  fd <~ open_and_load_state true ;;
  if fd <? 0 then ok fd else
  state <- get_state ;;
  set_state (set_error (clear_bits (bs_error state) mask) state) ;;;
  close_and_save_state fd true.

(** The switch of [pbstate_switch_system]; [None] for another value. *)
Definition switched (system boot_attempts : Z) (s : pb_boot_state) : option pb_boot_state :=
  if system =? PBSTATE_SYSTEM_A then
    let s := set_enable PB_STATE_A_ENABLED s in
    if 0 <? boot_attempts then
      let s := set_attempts boot_attempts s in
      let s := set_verified (clear_bits (bs_verified s) PB_STATE_A_VERIFIED) s in
      Some (set_error 0 s)
    else
      let s := set_verified (Z.lor (bs_verified s) PB_STATE_A_VERIFIED) s in
      let s := set_attempts 0 s in
      Some (set_error 0 s)
  else if system =? PBSTATE_SYSTEM_B then
    let s := set_enable PB_STATE_B_ENABLED s in
    if 0 <? boot_attempts then
      let s := set_attempts boot_attempts s in
      let s := set_verified (clear_bits (bs_verified s) PB_STATE_B_VERIFIED) s in
      Some (set_error 0 s)
    else
      let s := set_verified (Z.lor (bs_verified s) PB_STATE_B_VERIFIED) s in
      let s := set_attempts 0 s in
      Some (set_error 0 s)
  else if system =? PBSTATE_SYSTEM_NONE then
    let s := set_enable 0 s in
    Some (set_attempts 0 s)
  else None.

(** The end of the functions that change the state: the new state is saved,
    or nothing is ([None], the default branch of the switch). *)
Definition save_or_refuse (fd : Z) (s : option pb_boot_state) : P (option Z) :=
  match s with
  | Some s => set_state s ;;; close_and_save_state fd true
  | None => _ <~ close_and_save_state fd false ;; ok (- EINVAL)
  end.

Definition pbstate_switch_system (system boot_attempts : Z) : P (option Z) :=
  fd <~ open_and_load_state true ;;
  if fd <? 0 then ok fd else
  state <- get_state ;;
  save_or_refuse fd (switched system boot_attempts state).

Definition invalidated (system : Z) (s : pb_boot_state) : option pb_boot_state :=
  if system =? PBSTATE_SYSTEM_A then
    let s := set_enable (clear_bits (bs_enable s) PB_STATE_A_ENABLED) s in
    Some (set_verified (clear_bits (bs_verified s) PB_STATE_A_VERIFIED) s)
  else if system =? PBSTATE_SYSTEM_B then
    let s := set_enable (clear_bits (bs_enable s) PB_STATE_B_ENABLED) s in
    Some (set_verified (clear_bits (bs_verified s) PB_STATE_B_VERIFIED) s)
  else None.

Definition pbstate_invalidate_system (system : Z) : P (option Z) :=
  fd <~ open_and_load_state true ;;
  if fd <? 0 then ok fd else
  state <- get_state ;;
  save_or_refuse fd (invalidated system state).

Definition marked_verified (system : Z) (s : pb_boot_state) : option pb_boot_state :=
  if system =? PBSTATE_SYSTEM_A then
    Some (set_attempts 0 (set_verified (Z.lor (bs_verified s) PB_STATE_A_VERIFIED) s))
  else if system =? PBSTATE_SYSTEM_B then
    Some (set_attempts 0 (set_verified (Z.lor (bs_verified s) PB_STATE_B_VERIFIED) s))
  else if system =? PBSTATE_SYSTEM_NONE then Some s
  else None.

Definition pbstate_set_system_verified (system : Z) : P (option Z) :=
  fd <~ open_and_load_state true ;;
  if fd <? 0 then ok fd else
  state <- get_state ;;
  save_or_refuse fd (marked_verified system state).

Definition pbstate_read_board_reg (index : Z) : P (option (Z * option Z)) :=
  if PB_STATE_NO_OF_BOARD_REGS - 1 <? index then ok (- EINVAL, None) else
  fd <~ open_and_load_state false ;;
  if fd <? 0 then ok (fd, None) else
  state <- get_state ;;
  _ <~ close_and_save_state fd false ;;
  ok (0, bs_board_regs state !! reg_index index).

Definition pbstate_write_board_reg (index value : Z) : P (option Z) :=
  if PB_STATE_NO_OF_BOARD_REGS - 1 <? index then ok (- EINVAL) else
  fd <~ open_and_load_state true ;;
  if fd <? 0 then ok fd else
  state <- get_state ;;
  set_state (set_board_regs (<[reg_index index := value]> (bs_board_regs state)) state) ;;;
  close_and_save_state fd true.

Definition pbstate_clear_set_board_reg (index clear set : Z) : P (option Z) :=
  if PB_STATE_NO_OF_BOARD_REGS - 1 <? index then ok (- EINVAL) else
  fd <~ open_and_load_state true ;;
  if fd <? 0 then ok fd else
  state <- get_state ;;
  set_state (set_board_regs (alter (fun x => Z.lor (clear_bits x clear) set) (reg_index index) (bs_board_regs state)) state) ;;;
  close_and_save_state fd true.
End pbstate.

(** ** What the system promises *)

(** The contents of the device behind a path, the path and position of an
    open descriptor, and how many signals are still to interrupt [flock]. *)
Class PosixGhost (U : Type) := {
  dev_bytes : U -> path -> option (list Z);
  fd_at : U -> Z -> option (path * nat);
  interrupts : U -> nat
}.

Section ghost.
Context {U : Type} `{!PosixGhost U}.

Definition disk_same (u u' : U) : Prop := forall q, dev_bytes u' q = dev_bytes u q.
Definition fds_but (fd : Z) (u u' : U) : Prop := forall fd', fd' <> fd -> fd_at u' fd' = fd_at u fd'.

(** A call on descriptor [fd] that changes no device. *)
Definition only_fd (fd : Z) (u u' : U) : Prop := disk_same u u' /\ fds_but fd u u'.

Lemma only_fd_refl fd u : only_fd fd u u.
Proof. by split. Qed.
Lemma only_fd_trans fd u1 u2 u3 : only_fd fd u1 u2 -> only_fd fd u2 u3 -> only_fd fd u1 u3.
Proof. intros [H1 H1'] [H2 H2']. split; [intros q; by rewrite H2|intros fd' Hne; by rewrite H2', H1']. Qed.
End ghost.

(** Whole-device files that exist can be opened; reads and writes inside of
    the device transfer at least one byte; [flock] is interrupted finitely
    often and then succeeds.  No law is given for devices that report I/O
    errors. *)
Class PosixLaws (U : Type) `{Posix U, PosixGhost U} : Prop := {
  law_open : forall u q fl c, dev_bytes u q = Some c ->
    exists fd u', sys_open q fl u = (fd, u') /\ 0 <= fd /\ fd_at u fd = None /\ fd_at u' fd = Some (q, 0%nat) /\
      only_fd fd u u' /\ interrupts u' = interrupts u;
  law_close : forall u fd x, fd_at u fd = Some x ->
    exists u', sys_close fd u = (tt, u') /\ fd_at u' fd = None /\ only_fd fd u u';
  law_flock : forall u fd op x, fd_at u fd = Some x ->
    exists rc u', sys_flock fd op u = (rc, u') /\ fd_at u' fd = Some x /\ only_fd fd u u' /\
      (rc = 0 \/ rc = -1 /\ errno u' = EINTR /\ (interrupts u' < interrupts u)%nat);
  law_lseek : forall u fd q off, fd_at u fd = Some (q, off) ->
    exists u', sys_lseek fd 0 u = (0, u') /\ fd_at u' fd = Some (q, 0%nat) /\ only_fd fd u u';
  law_sys_read : forall u fd q off c len, fd_at u fd = Some (q, off) -> dev_bytes u q = Some c ->
    0 < len -> Z.of_nat off + len <= Z.of_nat (length c) ->
    exists k u', sys_read fd len u = ((Z.of_nat k, slice off k c), u') /\ (0 < k)%nat /\ Z.of_nat k <= len /\
      fd_at u' fd = Some (q, (off + k)%nat) /\ only_fd fd u u';
  law_sys_write : forall u fd q off c buf, fd_at u fd = Some (q, off) -> dev_bytes u q = Some c ->
    (0 < length buf)%nat -> (off + length buf <= length c)%nat ->
    exists k u', sys_write fd buf u = (Z.of_nat k, u') /\ (0 < k <= length buf)%nat /\
      fd_at u' fd = Some (q, (off + k)%nat) /\ fds_but fd u u' /\
      dev_bytes u' q = Some (splice off (take k buf) c) /\
      forall q', q' <> q -> dev_bytes u' q' = dev_bytes u q';
  law_sync : forall u, exists u', sys_sync u = (tt, u') /\ disk_same u u' /\ forall fd, fd_at u' fd = fd_at u fd
}.

(** ** The library on such a system *)

(** Runs the library's own steps. *)
Ltac pb_run :=
  unfold then_, sys, get_state, set_state, get_errno, ok; m_unfold;
  cbn [p_sys p_state primary_device backup_device].

Section working.
Context {U : Type} `{!Posix U, !PosixGhost U, !PosixLaws U} (lock_fuel : nat).
Implicit Types (u : U) (s : pb_boot_state) (p b q : path) (c : list Z).

(** A device that can hold the state. *)
Definition state_dev u q c : Prop := dev_bytes u q = Some c /\ (512 <= length c)%nat /\ bytes c.
Definition state_of c : pb_boot_state := decode pb_boot_state_c (take 512 c).

Lemma state_of_wf c : bytes c -> (512 <= length c)%nat -> cwf pb_boot_state_c (state_of c).
Proof.
  intros Hb Hl. apply cdec_wf; [by apply bytes_take|]. rewrite length_take. change (csize pb_boot_state_c) with 512%nat. lia.
Qed.

Lemma splice_extend off k c e : (off + k <= length c)%nat -> (off + k <= length e)%nat ->
  take off e = take off c -> take (off + k) (splice off (slice off k c) e) = take (off + k) c.
Proof.
  intros Hc He E. unfold splice, slice.
  assert (length (take k (drop off c)) = k) as Hk by (rewrite length_take, length_drop; lia).
  rewrite Hk, app_assoc, take_app_length' by (rewrite length_app, Hk, length_take; lia).
  rewrite E. apply take_take_drop.
Qed.

Lemma read_loop_ok fd q c p b fuel : (512 <= length c)%nat -> bytes c ->
  forall u s off, (512 - off <= fuel)%nat -> (off < 512)%nat ->
  fd_at u fd = Some (q, off) -> dev_bytes u q = Some c -> cwf pb_boot_state_c s ->
  take off (cenc pb_boot_state_c s) = take off c ->
  exists u', read_loop fuel fd (Z.of_nat off) (PbWorld u s p b) = (Some 0, PbWorld u' (state_of c) p b) /\
    only_fd fd u u' /\ fd_at u' fd = Some (q, 512%nat).
Proof.
  intros Hl Hb. induction fuel as [|fuel IH]; intros u s off Hfuel Hoff Hfd Hd Hs Ht; [lia|].
  cbn [read_loop]. pb_run.
  change (sizeof pb_boot_state_c) with 512.
  destruct (law_sys_read u fd q off c (512 - Z.of_nat off) Hfd Hd) as (k & u1 & -> & Hk & Hk' & Hfd1 & Ho); [lia|lia|].
  pose proof (length_state_enc s Hs) as Hle.
  set (bs := splice (Z.to_nat (Z.of_nat off)) (slice off k c) (cenc pb_boot_state_c s)).
  assert (Hlk : length (slice off k c) = k) by (unfold slice; rewrite length_take, length_drop; lia).
  assert (Hlb : length bs = 512%nat) by (unfold bs; rewrite length_splice; lia).
  assert (Hbb : bytes bs) by (apply bytes_splice; [unfold slice; auto with pb|by apply cenc_bytes]).
  assert (Htk : take (off + k) bs = take (off + k) c) by (unfold bs; rewrite Nat2Z.id; apply splice_extend; [lia|lia|done]).
  destruct (Z.eqb_spec (Z.of_nat k) 0); [lia|]. destruct (Z.eqb_spec (Z.of_nat k) (-1)); [lia|].
  destruct (Z.ltb_spec (Z.of_nat off + Z.of_nat k) 512).
  - rewrite <- Nat2Z.inj_add.
    destruct (IH u1 (decode pb_boot_state_c bs) (off + k)%nat) as (u2 & E & Ho2 & Hfd2);
      [lia|lia|done|by rewrite (proj1 Ho)| | |].
    + apply cdec_wf; [done|]. by rewrite Hlb.
    + rewrite (cenc_decode pb_boot_state_c bs Hbb Hlb). exact Htk.
    + exists u2. split; [exact E|]. split; [by apply (only_fd_trans _ _ u1)|done].
  - exists u1. assert (Hok : (off + k)%nat = 512%nat) by lia. rewrite Hok in *.
    split; [|by split]. unfold ok, state_of, ret. rewrite <- Htk, take_ge by lia. reflexivity.
Qed.

Lemma read_state_ok fd q c p b u s : state_dev u q c -> fd_at u fd = Some (q, 0%nat) -> cwf pb_boot_state_c s ->
  exists u', read_state fd (PbWorld u s p b) = (Some 0, PbWorld u' (state_of c) p b) /\
    only_fd fd u u' /\ fd_at u' fd = Some (q, 512%nat).
Proof.
  intros (Hd & Hl & Hb) Hfd Hs. apply (read_loop_ok fd q c p b io_fuel Hl Hb u s 0); try done; change io_fuel with 512%nat; lia.
Qed.

(** The first [off] bytes of a state block on a device. *)
Lemma splice_step off k (e c : list Z) : (off + k <= length e)%nat -> (length e <= length c)%nat ->
  splice off (take k (drop off e)) (splice 0 (take off e) c) = splice 0 (take (off + k) e) c.
Proof.
  intros He Hc. unfold splice. rewrite !take_0. cbn [app]. rewrite !length_take, length_drop, !Nat.add_0_l.
  rewrite take_app_length' by (rewrite length_take; lia).
  rewrite drop_app_ge by (rewrite length_take; lia). rewrite length_take, drop_drop.
  rewrite app_assoc, take_take_drop. do 2 f_equal. lia.
Qed.

Lemma write_loop_ok fd q c p b s fuel : (512 <= length c)%nat -> cwf pb_boot_state_c s ->
  forall u off, (512 - off <= fuel)%nat -> (off < 512)%nat -> fd_at u fd = Some (q, off) ->
  dev_bytes u q = Some (splice 0 (take off (cenc pb_boot_state_c s)) c) ->
  exists u', write_loop fuel fd (Z.of_nat off) (PbWorld u s p b) = (Some 0, PbWorld u' s p b) /\
    fds_but fd u u' /\ fd_at u' fd = Some (q, 512%nat) /\
    dev_bytes u' q = Some (splice 0 (cenc pb_boot_state_c s) c) /\
    forall q', q' <> q -> dev_bytes u' q' = dev_bytes u q'.
Proof.
  intros Hl Hs. pose proof (length_state_enc s Hs) as Hle. set (e := cenc pb_boot_state_c s) in *.
  induction fuel as [|fuel IH]; intros u off Hfuel Hoff Hfd Hd; [lia|].
  cbn [write_loop]. pb_run.
  change (sizeof pb_boot_state_c) with 512. fold e. rewrite Nat2Z.id.
  destruct (law_sys_write u fd q off _ (drop off e) Hfd Hd) as (k & u1 & -> & Hk & Hfd1 & Hf & Hd1 & Ho).
  { rewrite length_drop. lia. }
  { rewrite length_splice; rewrite length_drop || (rewrite length_take; simpl); lia. }
  rewrite length_drop in Hk. rewrite splice_step in Hd1 by lia.
  destruct (Z.eqb_spec (Z.of_nat k) (-1)); [lia|].
  destruct (Z.ltb_spec (Z.of_nat off + Z.of_nat k) 512).
  - rewrite <- Nat2Z.inj_add. destruct (IH u1 (off + k)%nat) as (u2 & E & Hf2 & Hfd2 & Hd2 & Ho2); [lia|lia|done|done|].
    exists u2. split; [exact E|]. split; [intros fd' ?; by rewrite Hf2, Hf|]. split; [done|]. split; [done|].
    intros q' ?. by rewrite Ho2, Ho.
  - exists u1. assert (Hok : (off + k)%nat = 512%nat) by lia. rewrite Hok in *.
    rewrite take_ge in Hd1 by lia. by split.
Qed.

Lemma write_state_ok fd q c p b u s : state_dev u q c -> fd_at u fd = Some (q, 0%nat) -> cwf pb_boot_state_c s ->
  exists u', write_state fd (PbWorld u s p b) = (Some 0, PbWorld u' s p b) /\
    fds_but fd u u' /\ fd_at u' fd = Some (q, 512%nat) /\
    dev_bytes u' q = Some (splice 0 (cenc pb_boot_state_c s) c) /\
    forall q', q' <> q -> dev_bytes u' q' = dev_bytes u q'.
Proof.
  intros (Hd & Hl & Hb) Hfd Hs. apply (write_loop_ok fd q c p b s io_fuel Hl Hs u 0); try done; change io_fuel with 512%nat; lia.
Qed.

Lemma verify_state_ok p b u s :
  verify_state (PbWorld u s p b) = (if intact s then 0 else - EIO, PbWorld u (set_crc 0 s) p b).
Proof.
  unfold verify_state, intact. pb_run.
  change (bs_magic (set_crc 0 s)) with (bs_magic s). destruct (bs_magic s =? PB_STATE_MAGIC); cbn [negb andb]; [|done].
  by destruct (bs_crc s =? _).
Qed.

Lemma flock_loop_ok fd op p b s x fuel u : (interrupts u < fuel)%nat -> fd_at u fd = Some x ->
  exists u', flock_loop fuel fd op (PbWorld u s p b) = (Some 0, PbWorld u' s p b) /\ only_fd fd u u' /\ fd_at u' fd = Some x.
Proof.
  revert u. induction fuel as [|fuel IH]; intros u Hi Hfd; [lia|].
  cbn [flock_loop]. pb_run.
  destruct (law_flock u fd op x Hfd) as (rc & u1 & -> & Hfd1 & Ho & [-> | (-> & He & Hi1)]).
  - exists u1. by split.
  - cbn [p_sys p_state primary_device backup_device Z.eqb Pos.eqb andb]. rewrite He.
    destruct (IH u1 ltac:(lia) Hfd1) as (u2 & E & Ho2 & Hfd2). exists u2.
    split; [exact E|]. split; [by apply (only_fd_trans _ _ u1)|done].
Qed.

(** *** Descriptors *)

(** [fd] was opened on [q] since [u]. *)
Definition opened q fd u u' : Prop :=
  fd_at u fd = None /\ (exists off, fd_at u' fd = Some (q, off)) /\ only_fd fd u u'.
(** The same devices and descriptors. *)
Definition untouched u u' : Prop := disk_same u u' /\ forall fd, fd_at u' fd = fd_at u fd.

Lemma untouched_trans u1 u2 u3 : untouched u1 u2 -> untouched u2 u3 -> untouched u1 u3.
Proof. intros [H1 H1'] [H2 H2']. split; [intros q; by rewrite H2|intros fd; by rewrite H2']. Qed.

Lemma opened_step q fd u0 u1 u2 off : opened q fd u0 u1 -> only_fd fd u1 u2 -> fd_at u2 fd = Some (q, off) -> opened q fd u0 u2.
Proof. intros (Hn & _ & Ho) Ho2 Hfd. split; [done|]. split; [by exists off|]. by apply (only_fd_trans _ _ u1). Qed.

Lemma opened_untouched q fd u0 u1 u2 : opened q fd u0 u1 -> untouched u1 u2 -> opened q fd u0 u2.
Proof.
  intros Ho [Hd Hf]. pose proof Ho as (_ & [off Hoff] & _). apply (opened_step _ _ _ u1 _ off); [done| |by rewrite Hf].
  split; [done|]. intros ? _. apply Hf.
Qed.

Lemma close_opened q fd u0 u1 : opened q fd u0 u1 ->
  exists u2, sys_close fd u1 = (tt, u2) /\ untouched u0 u2.
Proof.
  intros (Hn & [off Hfd] & Hd & Hf). destruct (law_close u1 fd _ Hfd) as (u2 & E & Hc & Hd2 & Hf2).
  exists u2. split; [done|]. split; [intros q'; by rewrite Hd2|]. intros fd'.
  destruct (decide (fd' = fd)) as [->|Hne]; [by rewrite Hc|by rewrite Hf2, Hf].
Qed.

Lemma unlock_opened q fd u0 u1 op : opened q fd u0 u1 -> exists rc u2, sys_flock fd op u1 = (rc, u2) /\ opened q fd u0 u2.
Proof.
  intros Ho. pose proof Ho as (_ & [off Hfd] & _). destruct (law_flock u1 fd op _ Hfd) as (rc & u2 & E & Hfd2 & Ho2 & _).
  exists rc, u2. split; [done|]. by apply (opened_step _ _ _ u1 _ off).
Qed.

Lemma release_out fd rc q u0 u1 s p b : opened q fd u0 u1 ->
  exists u2, err_close_and_release_out fd rc (PbWorld u1 s p b) = (Some rc, PbWorld u2 s p b) /\ untouched u0 u2.
Proof.
  intros Ho. unfold err_close_and_release_out, err_close_out. pb_run.
  destruct (unlock_opened q fd u0 u1 LOCK_UN Ho) as (r & u2 & -> & Ho2). cbn [p_sys p_state primary_device backup_device].
  destruct (close_opened q fd u0 u2 Ho2) as (u3 & -> & Hu). by exists u3.
Qed.

Lemma sync_run fd rc x u s p b : fd_at u fd = Some x ->
  exists u', release_and_sync fd rc (PbWorld u s p b) = (Some rc, PbWorld u' s p b) /\ only_fd fd u u' /\ fd_at u' fd = None.
Proof.
  intros Hfd. unfold release_and_sync. pb_run.
  destruct (law_flock u fd LOCK_UN _ Hfd) as (r & u1 & -> & Hfd1 & Ho1 & _). cbn [p_sys p_state primary_device backup_device].
  destruct (law_close u1 fd _ Hfd1) as (u2 & -> & Hc & Ho2). cbn [p_sys p_state primary_device backup_device].
  destruct (law_sync u2) as (u3 & -> & Hd & Hf). exists u3. split; [done|]. split; [|by rewrite Hf].
  apply (only_fd_trans _ _ u2); [by apply (only_fd_trans _ _ u1)|]. split; [done|]. intros ? _. apply Hf.
Qed.

(** *** Loading *)

(** The copy the library goes on with. *)
Definition loaded (cp cb : list Z) : option pb_boot_state :=
  if intact (state_of cp) then Some (set_crc 0 (state_of cp))
  else if intact (state_of cb) then Some (set_crc 0 (state_of cb)) else None.

Lemma state_dev_same u u' q c : disk_same u u' -> state_dev u q c -> state_dev u' q c.
Proof. intros Hd (H & ? & ?). split; [by rewrite Hd|done]. Qed.

Lemma open_ok u q c fl : state_dev u q c ->
  exists fd u', sys_open q fl u = (fd, u') /\ 0 <= fd /\ opened q fd u u' /\ fd_at u' fd = Some (q, 0%nat) /\
    interrupts u' = interrupts u.
Proof.
  intros (Hd & _ & _). destruct (law_open u q fl c Hd) as (fd & u' & E & H0 & Hn & Hfd & Ho & Hi).
  exists fd, u'. split; [done|]. split; [done|]. split; [|done]. split; [done|]. split; [by exists 0%nat|done].
Qed.

Lemma load_backup_ok fd wr u0 u s p b cb : opened p fd u0 u -> state_dev u b cb -> cwf pb_boot_state_c s ->
  exists u' rc, load_backup fd wr (PbWorld u s p b) = (Some rc, PbWorld u' (set_crc 0 (state_of cb)) p b) /\
    (if intact (state_of cb) then rc = fd /\ opened p fd u0 u' else rc = - EIO /\ untouched u0 u').
Proof.
  intros Ho Hb Hs. unfold load_backup. pb_run.
  destruct (open_ok u b cb (if wr then O_RDWR else O_RDONLY) Hb) as (bfd & u1 & -> & H0 & Hob & Hbfd & _).
  destruct (Z.eqb_spec bfd (-1)); [lia|]. cbn [p_sys p_state primary_device backup_device].
  assert (Hb1 : state_dev u1 b cb) by (apply (state_dev_same u); [apply Hob|done]).
  destruct (read_state_ok bfd b cb p b u1 s Hb1 Hbfd Hs) as (u2 & -> & Ho2 & Hfd2). cbn [Z.eqb negb].
  pose proof (opened_step _ _ _ _ _ _ Hob Ho2 Hfd2) as Hob2. rewrite verify_state_ok.
  destruct (close_opened b bfd u u2 Hob2) as (u3 & E3 & Hu3).
  pose proof (opened_untouched _ _ _ _ _ Ho Hu3) as Ho3. destruct (intact (state_of cb)).
  - cbn [p_sys p_state primary_device backup_device Z.eqb negb]. rewrite E3. by exists u3, fd.
  - change (negb (- EIO =? 0)) with true. cbv iota. unfold err_close_backup_out. pb_run. rewrite E3.
    destruct (release_out fd (- EIO) p u0 u3 (set_crc 0 (state_of cb)) p b Ho3) as (u4 & E4 & Hu4).
    exists u4, (- EIO). split; [exact E4|done].
Qed.

Lemma open_and_load_ok wr u s p b cp cb : state_dev u p cp -> state_dev u b cb -> cwf pb_boot_state_c s ->
  (interrupts u < lock_fuel)%nat ->
  exists u' rc s', open_and_load_state lock_fuel wr (PbWorld u s p b) = (Some rc, PbWorld u' s' p b) /\
    match loaded cp cb with
    | Some s1 => 0 <= rc /\ s' = s1 /\ opened p rc u u'
    | None => rc = - EIO /\ untouched u u'
    end.
Proof.
  intros Hp Hb Hs Hi. unfold open_and_load_state, loaded. pb_run.
  match goal with |- context [sys_open p ?fl u] => destruct (open_ok u p cp fl Hp) as (fd & u1 & -> & H0 & Ho & Hfd & Hi1) end.
  destruct (Z.eqb_spec fd (-1)); [lia|].
  match goal with |- context [flock_loop lock_fuel fd ?op] =>
    destruct (flock_loop_ok fd op p b s (p, 0%nat) lock_fuel u1 ltac:(lia) Hfd) as (u2 & -> & Ho2 & Hfd2) end.
  pose proof (opened_step _ _ _ _ _ _ Ho Ho2 Hfd2) as Hop2. cbn [Z.eqb negb].
  assert (Hp2 : state_dev u2 p cp) by (apply (state_dev_same u); [apply Hop2|done]).
  destruct (read_state_ok fd p cp p b u2 s Hp2 Hfd2 Hs) as (u3 & -> & Ho3 & Hfd3). cbn [Z.eqb negb].
  pose proof (opened_step _ _ _ _ _ _ Hop2 Ho3 Hfd3) as Hop3. rewrite verify_state_ok.
  destruct (intact (state_of cp)) eqn:Ep.
  - exists u3, fd, (set_crc 0 (state_of cp)). by split_and!.
  - change (- EIO =? 0) with false. cbv iota.
    destruct (load_backup_ok fd wr u u3 (set_crc 0 (state_of cp)) p b cb Hop3) as (u4 & rc & E4 & H4).
    { apply (state_dev_same u); [apply Hop3|done]. }
    { apply cwf_set_crc; [lia|]. apply state_of_wf; apply Hp. }
    exists u4, rc, (set_crc 0 (state_of cb)). split; [exact E4|]. destruct (intact (state_of cb)); [|done].
    by destruct H4 as [-> H4].
Qed.

(** *** Saving *)

Lemma save_ok u0 u fd s p b cp cb : opened p fd u0 u -> state_dev u p cp -> state_dev u b cb -> p <> b -> cwf pb_boot_state_c s ->
  exists u', close_and_save_state fd true (PbWorld u s p b) = (Some 0, PbWorld u' (sealed s) p b) /\
    (forall fd', fd_at u' fd' = fd_at u0 fd') /\
    dev_bytes u' p = Some (splice 0 (cenc pb_boot_state_c (sealed s)) cp) /\
    dev_bytes u' b = Some (splice 0 (cenc pb_boot_state_c (sealed s)) cb) /\
    forall q, q <> p -> q <> b -> dev_bytes u' q = dev_bytes u0 q.
Proof.
  intros Ho Hp Hb Hne Hs. unfold close_and_save_state. cbn [negb]. pb_run. pose proof Ho as (Hn0 & [off Hoff] & Hd0 & Hf0).
  destruct (law_lseek u fd p off Hoff) as (u1 & -> & Hfd1 & Hd1 & Hf1). cbn [Z.eqb p_sys p_state primary_device backup_device].
  change (set_crc (crc32 0 (cenc pb_boot_state_c (set_crc 0 s))) (set_crc 0 s)) with (sealed s).
  pose proof (sealed_cwf s Hs) as Hs'.
  destruct (write_state_ok fd p cp p b u1 (sealed s)) as (u2 & -> & Hf2 & Hfd2 & Hp2 & Hd2); [by apply (state_dev_same u)|done|done|].
  cbn [Z.eqb negb p_sys p_state primary_device backup_device].
  assert (Hb2 : state_dev u2 b cb).
  { destruct Hb as (Hb & ? & ?). split; [|done]. by rewrite Hd2, Hd1 by congruence. }
  match goal with |- context [sys_open b ?fl u2] => destruct (open_ok u2 b cb fl Hb2) as (bfd & u3 & -> & H0 & Hob & Hbfd & _) end.
  destruct (Z.eqb_spec bfd (-1)); [lia|].
  destruct (write_state_ok bfd b cb p b u3 (sealed s)) as (u4 & -> & Hf4 & Hfd4 & Hp4 & Hd4); [apply (state_dev_same u2); [apply Hob|done]|done|done|].
  cbn [p_sys p_state primary_device backup_device].
  pose proof Hob as (Hn3 & _ & Hd3 & Hf3). assert (bfd <> fd) by congruence.
  destruct (law_close u4 bfd _ Hfd4) as (u5 & -> & Hc5 & Hd5 & Hf5).
  assert (Hfin : forall u', disk_same u5 u' -> dev_bytes u' p = Some (splice 0 (cenc pb_boot_state_c (sealed s)) cp) /\
    dev_bytes u' b = Some (splice 0 (cenc pb_boot_state_c (sealed s)) cb) /\
    forall q, q <> p -> q <> b -> dev_bytes u' q = dev_bytes u0 q).
  { intros u' Hd'. split_and!.
    - by rewrite Hd', Hd5, Hd4, Hd3 by done.
    - by rewrite Hd', Hd5.
    - intros q ? ?. by rewrite Hd', Hd5, Hd4, Hd3, Hd2, Hd1, Hd0 by done. }
  destruct (sync_run fd 0 (p, 512%nat) u5 (sealed s) p b) as (u6 & E6 & [Hd6 Hf6] & Hn6).
  { by rewrite Hf5, Hf4, Hf3 by congruence. }
  exists u6. split; [exact E6|]. split; [|by apply Hfin].
  intros fd'. destruct (decide (fd' = fd)) as [->|]; [congruence|]. rewrite Hf6 by done.
  destruct (decide (fd' = bfd)) as [->|]; [rewrite Hc5, <- Hn3; symmetry|rewrite Hf5, Hf4, Hf3 by done].
  all: by rewrite <- (Hf0 _), <- (Hf1 _), <- (Hf2 _) by done.
Qed.

(** *** Updates *)

(** The calls that change the state. *)
Inductive update :=
  | Switch (system boot_attempts : Z)
  | Invalidate (system : Z)
  | SetVerified (system : Z)
  | ForceRollback
  | ClearError (mask : Z)
  | WriteReg (index value : Z)
  | ClearSetReg (index clear set : Z).

Definition run_update (op : update) : M (pbstate_world U) (option Z) :=
  match op with
  | Switch system n => pbstate_switch_system lock_fuel system n
  | Invalidate system => pbstate_invalidate_system lock_fuel system
  | SetVerified system => pbstate_set_system_verified lock_fuel system
  | ForceRollback => pbstate_force_rollback lock_fuel
  | ClearError mask => pbstate_clear_error lock_fuel mask
  | WriteReg i v => pbstate_write_board_reg lock_fuel i v
  | ClearSetReg i c s => pbstate_clear_set_board_reg lock_fuel i c s
  end.

(** The block with the flags and counters given and the rest of [s]. *)
Definition with_flags (enable verified attempts error : Z) (s : pb_boot_state) : pb_boot_state :=
  BootState (bs_magic s) enable verified attempts error (bs_rz s) (bs_board_regs s) (bs_crc s).

(** The bit that stands for a system in [enable] and in [verified]: system A
    (1) has bit 0, system B (2) has bit 1. *)
Definition system_bit (system : Z) : option Z := if system =? 1 then Some 0 else if system =? 2 then Some 1 else None.

(** What a call is to make of a state: an error, or the new state.  A switch
    enables one system and no other; with attempts that system has to prove
    itself again, without it counts as verified, and the errors are forgotten
    in both cases.  System 0 stands for none. *)
Definition update_spec (op : update) (s : pb_boot_state) : Z + pb_boot_state :=
  let en := bs_enable s in let ve := bs_verified s in let at_ := bs_remaining_boot_attempts s in let er := bs_error s in
  match op with
  | Switch system n =>
      match system_bit system with
      | Some k => inr (if 0 <? n then with_flags (2 ^ k) (Z.clearbit ve k) n 0 s else with_flags (2 ^ k) (Z.setbit ve k) 0 0 s)
      | None => if system =? 0 then inr (with_flags 0 ve 0 er s) else inl (- EINVAL)
      end
  | Invalidate system =>
      match system_bit system with
      | Some k => inr (with_flags (Z.clearbit en k) (Z.clearbit ve k) at_ er s)
      | None => inl (- EINVAL)
      end
  | SetVerified system =>
      match system_bit system with
      | Some k => inr (with_flags en (Z.setbit ve k) 0 er s)
      | None => if system =? 0 then inr s else inl (- EINVAL)
      end
  | ForceRollback =>
      if (Z.testbit en 0 && Z.testbit ve 0) || (Z.testbit en 1 && Z.testbit ve 1)
      then inl (- EPERM) else inr (with_flags en ve 0 er s)
  | ClearError mask => inr (with_flags en ve at_ (Z.ldiff er mask) s)
  | WriteReg i v => inr (set_board_regs (<[Z.to_nat (3 - i) := v]> (bs_board_regs s)) s)
  | ClearSetReg i c e =>
      inr (set_board_regs (alter (fun x => Z.lor (Z.ldiff x c) e) (Z.to_nat (3 - i)) (bs_board_regs s)) s)
  end.

Definition or_einval (o : option pb_boot_state) : Z + pb_boot_state := match o with Some s => inr s | None => inl (- EINVAL) end.

(** The registers are stored in reverse. *)
Lemma reg_index_spec i : Z.to_nat (3 - i) = reg_index i.
Proof. unfold reg_index, PB_STATE_NO_OF_BOARD_REGS. f_equal. lia. Qed.

(** The three switches of the code. *)
Lemma switched_spec y n s : or_einval (switched y n s) = update_spec (Switch y n) s.
Proof.
  cbn [update_spec]. unfold switched, system_bit, PBSTATE_SYSTEM_A, PBSTATE_SYSTEM_B, PBSTATE_SYSTEM_NONE.
  destruct (y =? 1); [by destruct (0 <? n)|]. destruct (y =? 2); [by destruct (0 <? n)|]. by destruct (y =? 0).
Qed.
Lemma invalidated_spec y s : or_einval (invalidated y s) = update_spec (Invalidate y) s.
Proof.
  cbn [update_spec]. unfold invalidated, system_bit, PBSTATE_SYSTEM_A, PBSTATE_SYSTEM_B. destruct (y =? 1); [done|]. by destruct (y =? 2).
Qed.
Lemma marked_verified_spec y s : or_einval (marked_verified y s) = update_spec (SetVerified y) s.
Proof.
  cbn [update_spec]. unfold marked_verified, system_bit, PBSTATE_SYSTEM_A, PBSTATE_SYSTEM_B, PBSTATE_SYSTEM_NONE.
  destruct (y =? 1); [done|]. destruct (y =? 2); [done|]. by destruct (y =? 0).
Qed.

Definition bad_index (op : update) : bool :=
  match op with WriteReg i _ | ClearSetReg i _ _ => 3 <? i | _ => false end.

(** The arguments have their C types. *)
Definition update_wf (op : update) : Prop :=
  match op with
  | Switch _ n => 0 <= n < 2 ^ 32
  | ClearError m => 0 <= m < 2 ^ 32
  | WriteReg i v => 0 <= i /\ 0 <= v < 2 ^ 32
  | ClearSetReg i c s => 0 <= i /\ 0 <= c < 2 ^ 32 /\ 0 <= s < 2 ^ 32
  | _ => True
  end.

(** The outcome of a call that found state [s1] on devices [cp] and [cb]. *)
Definition outcome (p b : path) (cp cb : list Z) (r : Z + pb_boot_state) u u' (rc : Z) : Prop :=
  (forall fd, fd_at u' fd = fd_at u fd) /\
  match r with
  | inl e => rc = e /\ disk_same u u'
  | inr s2 => rc = 0 /\
      dev_bytes u' p = Some (splice 0 (cenc pb_boot_state_c (sealed s2)) cp) /\
      dev_bytes u' b = Some (splice 0 (cenc pb_boot_state_c (sealed s2)) cb) /\
      forall q, q <> p -> q <> b -> dev_bytes u' q = dev_bytes u q
  end.

Lemma ldiff_range x m : 0 <= x < 2 ^ 32 -> 0 <= Z.ldiff x m < 2 ^ 32.
Proof.
  intros Hx. assert (0 <= Z.ldiff x m) by (apply Z.ldiff_nonneg; lia). split; [done|].
  apply Z.bounded_iff_bits_nonneg; [lia..|]. intros l Hl. by rewrite Z.ldiff_spec, (bits_above x 32).
Qed.

Lemma field_ranges s : state_wf s ->
  0 <= bs_enable s < 2 ^ 32 /\ 0 <= bs_verified s < 2 ^ 32 /\ 0 <= bs_error s < 2 ^ 32.
Proof. intros [Hs _]. simpl in Hs. intuition lia. Qed.
Lemma alter_regs_wf i (m e : Z) s : 0 <= e < 2 ^ 32 -> state_wf s ->
  state_wf (set_board_regs (alter (fun x => Z.lor (Z.ldiff x m) e) i (bs_board_regs s)) s).
Proof.
  intros He [Hs Hm]. split; [|done]. simpl in *. rewrite length_alter. intuition (try lia).
  apply Forall_alter; [done|]. intros x _ Hx.
  apply (lor_lt _ _ 32); [lia|by apply ldiff_range|lia].
Qed.

Lemma with_flags_wf e v n r s : 0 <= e < 2 ^ 32 -> 0 <= v < 2 ^ 32 -> 0 <= n < 2 ^ 32 -> 0 <= r < 2 ^ 32 -> state_wf s -> state_wf (with_flags e v n r s).
Proof. intros He Hv Hn Hr [Hs Hm]. split; [|done]. simpl in *. intuition lia. Qed.

Lemma system_bit_range y k : system_bit y = Some k -> k = 0 \/ k = 1.
Proof. unfold system_bit. repeat case_match; intros [=]; lia. Qed.

Lemma update_spec_wf op s s2 : update_wf op -> state_wf s -> update_spec op s = inr s2 -> state_wf s2.
Proof.
  intros Hop Hs. destruct (field_ranges s Hs) as (He & Hv & Hr). assert (Ha : 0 <= bs_remaining_boot_attempts s < 2 ^ 32) by (destruct Hs as [H _]; simpl in H; intuition lia).
  assert (Hset : forall k, k = 0 \/ k = 1 -> 0 <= Z.setbit (bs_verified s) k < 2 ^ 32) by (intros k [-> | ->]; apply (lor_lt _ _ 32); (done || lia || by vm_compute)).
  assert (Hp : forall k, k = 0 \/ k = 1 -> 0 <= 2 ^ k < 2 ^ 32) by (intros k [-> | ->]; by vm_compute).
  destruct op; cbn [update_spec update_wf] in *; repeat case_match; intros E; try discriminate E; injection E as <-;
    repeat match goal with H : system_bit _ = Some _ |- _ => apply system_bit_range in H end;
    try (apply with_flags_wf; auto; first [lia | by apply ldiff_range]).
  - apply set_board_regs_wf; [lia|done].
  - apply alter_regs_wf; [lia|done].
Qed.

(** The two ways a call ends. *)
Lemma refuse_ends fd e u u1 s p b cp cb : opened p fd u u1 ->
  exists u' s' rc, then_ (close_and_save_state fd false) (fun _ => ok e) (PbWorld u1 s p b) = (Some rc, PbWorld u' s' p b) /\
    outcome p b cp cb (inl e) u u' rc.
Proof.
  intros (Hn & [off Hfd] & Hd & Hf). unfold close_and_save_state. cbn [negb]. unfold then_, bind.
  destruct (sync_run fd 0 _ u1 s p b Hfd) as (u2 & -> & [Hd2 Hf2] & Hn2).
  exists u2, s, e. split; [done|]. split; [|split; [done|intros q; by rewrite Hd2]].
  intros fd'. destruct (decide (fd' = fd)) as [->|]; [congruence|]. by rewrite Hf2, Hf.
Qed.

Lemma save_ends fd s2 u u1 p b cp cb : opened p fd u u1 -> state_dev u p cp -> state_dev u b cb -> p <> b -> state_wf s2 ->
  exists u', close_and_save_state fd true (PbWorld u1 s2 p b) = (Some 0, PbWorld u' (sealed s2) p b) /\
    outcome p b cp cb (inr s2) u u' 0.
Proof.
  intros Ho Hp Hb Hne [Hs _]. pose proof Ho as (_ & _ & Hd & _).
  destruct (save_ok u u1 fd s2 p b cp cb Ho) as (u' & E & Hf & H); [by apply (state_dev_same u)..|done|done|].
  exists u'. split; [done|]. by split.
Qed.

Lemma loaded_wf u p b cp cb s1 : state_dev u p cp -> state_dev u b cb -> loaded cp cb = Some s1 -> state_wf s1.
Proof.
  intros (_ & Hl & Hb) (_ & Hl' & Hb'). unfold loaded.
  destruct (intact (state_of cp)) eqn:E; [|destruct (intact (state_of cb)) eqn:E'; [|done]]; intros [= <-].
  - split; [apply cwf_set_crc; [lia|by apply state_of_wf] | apply (intact_sealed _ E)].
  - split; [apply cwf_set_crc; [lia|by apply state_of_wf] | apply (intact_sealed _ E')].
Qed.

(** Open, look at the state, and go on with [k]. *)
Lemma update_by (k : Z -> M (pbstate_world U) (option Z)) op u s p b cp cb :
  state_dev u p cp -> state_dev u b cb -> p <> b -> cwf pb_boot_state_c s -> (interrupts u < lock_fuel)%nat -> update_wf op ->
  (forall fd u1 s1, opened p fd u u1 -> state_wf s1 ->
    match update_spec op s1 with
    | inl e => k fd (PbWorld u1 s1 p b) = then_ (close_and_save_state fd false) (fun _ => ok e) (PbWorld u1 s1 p b)
    | inr s2 => forall w, close_and_save_state fd true (PbWorld u1 s2 p b) = (Some 0, w) -> k fd (PbWorld u1 s1 p b) = (Some 0, w)
    end) ->
  exists u' s' rc,
    then_ (open_and_load_state lock_fuel true) (fun fd => if fd <? 0 then ok fd else k fd) (PbWorld u s p b) =
      (Some rc, PbWorld u' s' p b) /\
    outcome p b cp cb (match loaded cp cb with Some s1 => update_spec op s1 | None => inl (- EIO) end) u u' rc.
Proof.
  intros Hp Hb Hne Hs Hi Hop Hk. unfold then_ at 1. unfold bind.
  destruct (open_and_load_ok true u s p b cp cb Hp Hb Hs Hi) as (u1 & rc & s' & -> & H).
  destruct (loaded cp cb) as [s1|] eqn:El.
  - destruct H as (H0 & -> & Ho). rewrite (proj2 (Z.ltb_ge _ _) H0). pose proof (loaded_wf u p b cp cb s1 Hp Hb El) as Hw.
    specialize (Hk rc u1 s1 Ho Hw). destruct (update_spec op s1) as [e|s2] eqn:Eu.
    + rewrite Hk. by apply refuse_ends.
    + destruct (save_ends rc s2 u u1 p b cp cb Ho Hp Hb Hne) as (u' & E & Hout); [by apply (update_spec_wf op s1)|].
      exists u', (sealed s2), 0. split; [by apply Hk|done].
  - destruct H as [-> [Hd Hf]]. change (- EIO <? 0) with true. cbv iota. exists u1, s', (- EIO). by split_and!.
Qed.

Lemma force_guard s :
  ((Z.testbit (bs_enable s) 0 && Z.testbit (bs_verified s) 0) || (Z.testbit (bs_enable s) 1 && Z.testbit (bs_verified s) 1)) =
  (negb (Z.land (bs_enable s) PB_STATE_A_ENABLED =? 0) && negb (Z.land (bs_verified s) PB_STATE_A_VERIFIED =? 0)) ||
  (negb (Z.land (bs_enable s) PB_STATE_B_ENABLED =? 0) && negb (Z.land (bs_verified s) PB_STATE_B_VERIFIED =? 0)).
Proof.
  unfold PB_STATE_A_ENABLED, PB_STATE_A_VERIFIED, PB_STATE_B_ENABLED, PB_STATE_B_VERIFIED.
  by rewrite !land_bit0, !land_bit1, !negb_involutive.
Qed.

(** [C19] Every call of the library that changes the state is a transaction on
    both devices, as long as the two devices themselves work: opening, locking,
    seeking, reading and writing may be interrupted or short, but do not fail.
    Then the call returns; an out-of-range register index is refused before
    anything is opened; if neither copy is intact the call fails with -EIO; if
    it does not apply to the state found (the primary copy if that is intact,
    else the backup), because the system number is none of those it takes or a
    verified system is active, it fails with its error code; in all these cases
    no byte changes.  Otherwise it returns 0 and the first block of both
    devices holds, with its checksum, the state found with exactly the flags
    of the system named and the counters changed that [update_spec] gives, and
    everything else is unchanged.  All descriptors it opened are closed. *)
Theorem pbstate_update_transaction op u s p b cp cb :
  state_dev u p cp -> state_dev u b cb -> p <> b -> cwf pb_boot_state_c s -> (interrupts u < lock_fuel)%nat -> update_wf op ->
  exists u' s' rc, run_update op (PbWorld u s p b) = (Some rc, PbWorld u' s' p b) /\
    outcome p b cp cb
      (if bad_index op then inl (- EINVAL)
       else match loaded cp cb with Some s1 => update_spec op s1 | None => inl (- EIO) end) u u' rc.
Proof.
  intros Hp Hb Hne Hs Hi Hop. destruct op as [y n|y|y| |m|i v|i m e]; cbn [run_update bad_index].
  - apply (update_by _ (Switch y n)); [done..|]. intros fd u1 s1 _ _. rewrite <- switched_spec. pb_run. destruct (switched y n s1); by cbn [or_einval].
  - apply (update_by _ (Invalidate y)); [done..|]. intros fd u1 s1 _ _. rewrite <- invalidated_spec. pb_run. destruct (invalidated y s1); by cbn [or_einval].
  - apply (update_by _ (SetVerified y)); [done..|]. intros fd u1 s1 _ _. rewrite <- marked_verified_spec. pb_run. destruct (marked_verified y s1); by cbn [or_einval].
  - apply (update_by _ ForceRollback); [done..|]. intros fd u1 s1 _ _. cbn [update_spec]. rewrite force_guard. pb_run.
    destruct (_ && _); cbn [orb]; [done|]. destruct (_ && _); [done|]. intros w E.
    cbn [p_sys p_state primary_device backup_device]. change (set_attempts 0 s1) with (with_flags (bs_enable s1) (bs_verified s1) 0 (bs_error s1) s1). by rewrite E.
  - apply (update_by _ (ClearError m)); [done..|]. intros fd u1 s1 _ _ w E. exact E.
  - unfold pbstate_write_board_reg. change (PB_STATE_NO_OF_BOARD_REGS - 1) with 3. destruct (3 <? i).
    { by exists u, s, (- EINVAL). }
    apply (update_by _ (WriteReg i v)); [done..|]. intros fd u1 s1 _ _ w E. rewrite reg_index_spec in E. exact E.
  - unfold pbstate_clear_set_board_reg. change (PB_STATE_NO_OF_BOARD_REGS - 1) with 3. destruct (3 <? i).
    { by exists u, s, (- EINVAL). }
    apply (update_by _ (ClearSetReg i m e)); [done..|]. intros fd u1 s1 _ _ w E. rewrite reg_index_spec in E. exact E.
Qed.

(** *** The next boot *)

(** Bootloader storage [d] whose state partitions are the two devices. *)
Context {W : Type} `{!BlockOps W, !BlockGhost W, !BlockLaws W}.
Definition same_storage (cfg : boot_ab_state_config) (d : W) u p b : Prop :=
  dev_bytes u p = Some (blk_data d (blk_handle d (primary_state_part_uu cfg))) /\
  dev_bytes u b = Some (blk_data d (blk_handle d (backup_state_part_uu cfg))).

Lemma state_of_stored s2 c : state_wf s2 -> state_of (splice 0 (cenc pb_boot_state_c (sealed s2)) c) = sealed s2.
Proof.
  intros [Hs _]. pose proof (sealed_cwf s2 Hs) as Hs'. unfold state_of, splice. rewrite take_0. cbn [app].
  rewrite take_app_length' by (symmetry; by apply length_state_enc). by apply (decode_cenc pb_boot_state_c).
Qed.

Lemma recovered_after cfg d u p b s2 cp : same_storage cfg d u p b -> state_wf s2 ->
  dev_bytes u p = Some (splice 0 (cenc pb_boot_state_c (sealed s2)) cp) ->
  recovered cfg d = set_crc 0 s2.
Proof.
  intros [Hp _] Hs E. unfold recovered, recover, state_on, block_on. rewrite E in Hp. injection Hp as <-.
  change (decode pb_boot_state_c (take 512 ?x)) with (state_of x). rewrite state_of_stored by done.
  by rewrite sealed_intact by apply Hs.
Qed.

Lemma map_replicate {A B} (f : A -> B) n a : map f (replicate n a) = replicate n (f a).
Proof. induction n as [|n IH]; [done|]. cbn. by rewrite IH. Qed.

(** The slot a system number stands for. *)
Definition system_of (x : Spec.slot) : Z := match x with Spec.A => PBSTATE_SYSTEM_A | Spec.B => PBSTATE_SYSTEM_B end.

Lemma switched_slots x n s : 0 < n -> exists s2, switched (system_of x) n s = Some s2 /\
  abs_state s2 = let st := abs_state s in
    {| Spec.active := Some x;
       Spec.verified_a := match x with Spec.A => false | Spec.B => Spec.verified_a st end;
       Spec.verified_b := match x with Spec.A => Spec.verified_b st | Spec.B => false end;
       Spec.attempts := n; Spec.failed := None |}.
Proof.
  intros Hn. unfold switched. rewrite (proj2 (Z.ltb_lt _ _) Hn).
  destruct x; cbn [system_of PBSTATE_SYSTEM_A PBSTATE_SYSTEM_B Z.eqb Pos.eqb]; eexists; (split; [reflexivity|]);
    unfold abs_state, clear_bits; cbn -[Z.testbit Z.ldiff]; rewrite !Z.ldiff_spec; cbn; rewrite ?andb_true_r, ?andb_false_r; reflexivity.
Qed.

End working.

(** ** A system *)

(** Two devices, [/p] and [/b]; reads and writes are cut short at 200 bytes,
    and a number of signals interrupts the locks. *)
Module ToyPosix.
Record toy := Toy { t_p : list Z; t_b : list Z; t_fds : list (option (path * nat)); t_sig : nat }.

Definition pp : path := [47; 112].
Definition pb : path := [47; 98].

Definition dev (u : toy) (q : path) : option (list Z) :=
  if decide (q = pp) then Some (t_p u) else if decide (q = pb) then Some (t_b u) else None.
Definition set_dev (u : toy) (q : path) (c : list Z) : toy :=
  if decide (q = pp) then Toy c (t_b u) (t_fds u) (t_sig u)
  else if decide (q = pb) then Toy (t_p u) c (t_fds u) (t_sig u) else u.

Definition fd_get (u : toy) (fd : Z) : option (path * nat) :=
  if fd <? 0 then None else mjoin (t_fds u !! Z.to_nat fd).
Definition set_fd (u : toy) (fd : Z) (x : option (path * nat)) : toy :=
  Toy (t_p u) (t_b u) (<[Z.to_nat fd := x]> (t_fds u)) (t_sig u).

Definition t_read (fd len : Z) : M toy (Z * list Z) := fun u =>
  match fd_get u fd with
  | Some (q, off) =>
      match dev u q with
      | Some c => let k := Nat.min 200 (Z.to_nat len) in
          ((Z.of_nat k, slice off k c), set_fd u fd (Some (q, (off + k)%nat)))
      | None => ((-1, []), u)
      end
  | None => ((-1, []), u)
  end.

Definition t_write (fd : Z) (buf : list Z) : M toy Z := fun u =>
  match fd_get u fd with
  | Some (q, off) =>
      match dev u q with
      | Some c => let k := Nat.min 200 (length buf) in
          (Z.of_nat k, set_fd (set_dev u q (splice off (take k buf) c)) fd (Some (q, (off + k)%nat)))
      | None => (-1, u)
      end
  | None => (-1, u)
  end.

#[export] Instance posix : Posix toy := {|
  sys_open q _ u :=
    match dev u q with
    | Some _ => (Z.of_nat (length (t_fds u)), Toy (t_p u) (t_b u) (t_fds u ++ [Some (q, 0%nat)]) (t_sig u))
    | None => (-1, u)
    end;
  sys_close fd u := (tt, set_fd u fd None);
  sys_flock fd op u :=
    match t_sig u with O => (0, u) | S n => (-1, Toy (t_p u) (t_b u) (t_fds u) n) end;
  sys_lseek fd _ u := match fd_get u fd with Some (q, _) => (0, set_fd u fd (Some (q, 0%nat))) | None => (-1, u) end;
  sys_read := t_read;
  sys_write := t_write;
  sys_sync u := (tt, u);
  errno _ := EINTR
|}.

#[export] Instance ghost : PosixGhost toy := {| dev_bytes := dev; fd_at := fd_get; interrupts := t_sig |}.

Lemma fd_get_set u fd x y : fd_get u fd = Some x -> fd_get (set_fd u fd y) fd = y.
Proof.
  unfold fd_get, set_fd. cbn [t_fds]. destruct (fd <? 0); [done|]. destruct (t_fds u !! Z.to_nat fd) as [z|] eqn:E; [|done].
  intros _. rewrite list_lookup_insert_eq by (by apply lookup_lt_Some in E). done.
Qed.

Lemma set_fd_but u fd x y : fd_get u fd = Some x -> only_fd fd u (set_fd u fd y).
Proof.
  intros H. split; [done|]. intros fd' Hne. cbn [fd_at ghost]. unfold fd_get, set_fd in *. cbn [t_fds].
  destruct (Z.ltb_spec fd' 0); [done|]. destruct (Z.ltb_spec fd 0); [done|]. by rewrite list_lookup_insert_ne by lia.
Qed.

Lemma fd_get_dev u q c fd : fd_get (set_dev u q c) fd = fd_get u fd.
Proof. unfold set_dev. by repeat case_decide. Qed.

Lemma dev_set u q c c0 : dev u q = Some c0 -> dev (set_dev u q c) q = Some c /\ forall q', q' <> q -> dev (set_dev u q c) q' = dev u q'.
Proof.
  unfold dev, set_dev. intros H. repeat case_decide; subst; try done; (split; [done|]); intros q' Hq'; cbn [t_p t_b]; by repeat case_decide.
Qed.

#[export] Instance laws : PosixLaws toy.
Proof.
  split.
  - intros u q fl c Hd. cbn in *. rewrite Hd. eexists _, _. split; [reflexivity|]. split; [lia|].
    unfold fd_get, only_fd, fds_but. cbn [t_fds fd_at ghost]. rewrite (proj2 (Z.ltb_ge _ _)), Nat2Z.id by lia.
    rewrite lookup_ge_None_2 by lia. rewrite lookup_app_r, Nat.sub_diag by lia. split; [done|]. split; [done|]. split; [|done].
    split; [done|]. intros fd' Hne. unfold fd_get. cbn [t_fds]. destruct (Z.ltb_spec fd' 0); [done|].
    destruct (decide (Z.to_nat fd' < length (t_fds u))%nat); [by rewrite lookup_app_l|].
    rewrite lookup_app_r, !lookup_ge_None_2 by (cbn; lia). done.
  - intros u fd x H. eexists. split; [reflexivity|]. split; [by apply (fd_get_set u fd x)|by apply (set_fd_but u fd x)].
  - intros u fd op x H. cbn [sys_flock posix]. destruct (t_sig u) as [|n] eqn:E.
    + exists 0, u. split; [done|]. split; [done|]. split; [apply only_fd_refl|by left].
    + eexists _, _. split; [reflexivity|]. split; [done|]. split; [by split|]. right. split; [done|]. split; [done|]. cbn. lia.
  - intros u fd q off H. cbn in *. rewrite H. eexists. split; [reflexivity|]. split; [by apply (fd_get_set u fd (q, off))|by apply (set_fd_but u fd (q, off))].
  - intros u fd q off c len H Hd Hl Hb. cbn in *. unfold t_read. rewrite H, Hd. eexists _, _. split; [reflexivity|].
    split; [lia|]. split; [lia|]. split; [by apply (fd_get_set u fd (q, off))|by apply (set_fd_but u fd (q, off))].
  - intros u fd q off c buf H Hd Hl Hb. cbn in *. unfold t_write. rewrite H, Hd. set (k := Nat.min 200 (length buf)).
    assert (Hk : (0 < k <= length buf)%nat) by lia. clearbody k.
    eexists _, _. split; [reflexivity|]. split; [done|].
    set (u1 := set_dev u q _). assert (H1 : fd_get u1 fd = Some (q, off)) by (unfold u1; by rewrite fd_get_dev).
    destruct (set_fd_but u1 fd (q, off) (Some (q, (off + k)%nat)) H1) as [Hd1 Hf1].
    destruct (dev_set u q (splice off (take k buf) c) c Hd) as [Hq Ho].
    split; [by apply (fd_get_set u1 fd (q, off))|]. split; [|split; [exact Hq|exact Ho]].
    intros fd' Hne. rewrite Hf1 by done. apply fd_get_dev.
  - intros u. exists u. by split_and!.
Qed.
End ToyPosix.

(** ** Witnesses *)

#[local] Existing Instances ToyPosix.posix ToyPosix.ghost ToyPosix.laws armv7a test_defconfig.

(** Both devices hold the example state of [AbState]; the primary is damaged
    in [damaged]. *)
Module PbExample.
Import ToyPosix.

Definition block : list Z := take 512 Example.disk.
Definition sys (damaged : bool) : toy := Toy (if damaged then 0 :: drop 1 block else block) block [None] 2.
Definition world (damaged : bool) : pbstate_world toy := PbWorld (sys damaged) Example.state pp pb.

Lemma dev_p damaged : state_dev (sys damaged) pp (if damaged then 0 :: drop 1 block else block).
Proof. split; [by destruct damaged|]. destruct damaged; (split; [vm_compute; lia|]); apply (bool_decide_unpack _); by vm_compute. Qed.
Lemma dev_b damaged : state_dev (sys damaged) pb block.
Proof. split; [by destruct damaged|]. split; [vm_compute; lia|]. apply (bool_decide_unpack _); by vm_compute. Qed.
End PbExample.

Lemma pbstate_update_transaction_witness :
  exists u' s' rc, run_update 3 (Switch PBSTATE_SYSTEM_A 2) (PbExample.world true) = (Some rc, PbWorld u' s' ToyPosix.pp ToyPosix.pb) /\
    rc = 0 /\ forall fd, fd_at u' fd = fd_at (PbExample.sys true) fd.
Proof.
  destruct (pbstate_update_transaction 3 (Switch PBSTATE_SYSTEM_A 2) (PbExample.sys true) Example.state ToyPosix.pp ToyPosix.pb _ _
    (PbExample.dev_p true) (PbExample.dev_b true)) as (u' & s' & rc & E & Hf & H).
  - discriminate.
  - apply Example.state_ok.
  - cbn. lia.
  - cbn. lia.
  - exists u', s', rc. split; [exact E|]. split; [|exact Hf].
    assert (El : exists s1, loaded (0 :: drop 1 PbExample.block) PbExample.block = Some s1) by (vm_compute; by eexists).
    destruct El as [s1 El]. cbn [bad_index] in H. rewrite El in H. apply H.
Defined.

(** The storage after switching to system A with two attempts. *)
Module PbBoot.
Import ToyPosix.

Definition after : pbstate_world toy :=
  (pbstate_switch_system 3 PBSTATE_SYSTEM_A 2 (PbExample.world false)).2.
Definition disk : list Z := Eval vm_compute in t_p (p_sys after) ++ t_b (p_sys after) ++ zeros 1024.
Definition blocks : bio_state RamDisk.disk := BioState Example.pool 4 disk.

Lemma after_wf : bio_wf blocks.
Proof.
  split; [done|]. split; [done|]. intros i d Hi.
  destruct i as [|[|[|[|i]]]]; [injection Hi as <-; vm_compute; repeat constructor; discriminate ..|].
  change (replicate 28 null_device !! i = Some d) in Hi.
  apply lookup_replicate in Hi as [-> _]. by rewrite decide_False by (simpl; lia).
Qed.

Lemma after_ready : ab_ready Example.config blocks.
Proof.
  split; try done.
  - split_and!; by apply Example.uu_wf.
  - intros u Hu. assert (Hh : blk_handle blocks u = 0 \/ blk_handle blocks u = 1)
      by (destruct Hu as [-> | ->]; vm_compute; auto).
    split_and!.
    + split; [apply after_wf|]. destruct Hh as [-> | ->]; vm_compute; by split_and!.
    + destruct Hh as [-> | ->]; vm_compute; lia.
    + destruct Hh as [-> | ->]; apply (bool_decide_unpack _); by vm_compute.
  - split; vm_compute; auto.
Qed.

Lemma storage u s : after = PbWorld u s pp pb -> same_storage Example.config blocks u pp pb.
Proof.
  intros E. assert (u = p_sys after) as -> by (by rewrite E). split; by vm_compute.
Qed.
End PbBoot.

