(* ===== verification/Bpak.v ===== *)
(** * BPAK headers

    [src/lib/bpak.c], [include/bpak/bpak.h]: the 4096-byte header of a boot
    image.  A pointer into the [meta] or [parts] array is an index. *)

From S2P Require Import Prelude Errors.

(** ** Data *)

Definition BPAK_HEADER_MAGIC : Z := 0x42504132.
Definition BPAK_MAX_PARTS : nat := 32.
Definition BPAK_MAX_META : nat := 32.
Definition BPAK_METADATA_BYTES : Z := 1920.
Definition BPAK_PART_ALIGN : Z := 512.
Definition BPAK_META_ALIGN : Z := 8.
Definition BPAK_SIGNATURE_MAX_BYTES : Z := 512.

Definition BPAK_HASH_SHA256 : Z := 1.
Definition BPAK_HASH_SHA384 : Z := 2.
Definition BPAK_HASH_SHA512 : Z := 3.
Definition BPAK_SIGN_PRIME256v1 : Z := 2.

Definition BPAK_OK : Z := 0.
Definition BPAK_NOT_FOUND : Z := 2.
Definition BPAK_SIZE_ERROR : Z := 3.
Definition BPAK_NO_SPACE_LEFT : Z := 4.
Definition BPAK_BAD_ALIGNMENT : Z := 5.
Definition BPAK_NOT_SUPPORTED : Z := 7.
Definition BPAK_BAD_MAGIC : Z := 15.
Definition BPAK_EXISTS : Z := 30.

Definition BPAK_FLAG_TRANSPORT : Z := 2.
Definition BPAK_ID_PB_LOAD_ADDR : Z := 0xd1e64a4b.

#[export] Hint Unfold BPAK_OK BPAK_NOT_FOUND BPAK_SIZE_ERROR BPAK_NO_SPACE_LEFT BPAK_BAD_ALIGNMENT
  BPAK_NOT_SUPPORTED BPAK_BAD_MAGIC BPAK_EXISTS : pbconst.

Record bpak_meta_header := MetaHeader {
  meta_id : Z;
  meta_size : Z;
  meta_offset : Z;
  meta_part_id_ref : Z;
  meta_pad : list Z
}.

Record bpak_part_header := PartHeader {
  part_id : Z;
  part_size : Z;
  part_offset : Z;
  part_transport_size : Z;
  part_pad_bytes : Z;
  part_flags : Z;
  part_pad : Z
}.

Record bpak_header := BpakHeader {
  h_magic : Z;
  h_pad0 : list Z;
  h_meta : list bpak_meta_header;
  h_parts : list bpak_part_header;
  h_metadata : list Z;
  h_hash_kind : Z;
  h_signature_kind : Z;
  h_alignment : Z;
  h_payload_hash : list Z;
  h_key_id : Z;
  h_keystore_id : Z;
  h_pad1 : list Z;
  h_signature : list Z;
  h_signature_sz : Z
}.

Definition bpak_meta_header_c : codec bpak_meta_header :=
  c_iso (fun m => (meta_id m, (meta_size m, (meta_offset m, (meta_part_id_ref m, meta_pad m)))))
        (fun '(i, (s, (o, (r, p)))) => MetaHeader i s o r p)
        (u32c ⊗ u16c ⊗ u16c ⊗ u32c ⊗ c_raw 4)%codec.

Definition bpak_part_header_c : codec bpak_part_header :=
  c_iso (fun p => (part_id p, (part_size p, (part_offset p, (part_transport_size p,
                  (part_pad_bytes p, (part_flags p, part_pad p)))))))
        (fun '(i, (s, (o, (t, (b, (f, p)))))) => PartHeader i s o t b f p)
        (u32c ⊗ u64c ⊗ u64c ⊗ u64c ⊗ u16c ⊗ u8c ⊗ u8c)%codec.

Definition bpak_header_c : codec bpak_header :=
  c_iso (fun h => (h_magic h, (h_pad0 h, (h_meta h, (h_parts h, (h_metadata h, (h_hash_kind h,
                  (h_signature_kind h, (h_alignment h, (h_payload_hash h, (h_key_id h,
                  (h_keystore_id h, (h_pad1 h, (h_signature h, h_signature_sz h))))))))))))))
        (fun '(a, (b, (c, (d, (e, (f, (g, (h, (i, (j, (k, (l, (m, n))))))))))))) =>
           BpakHeader a b c d e f g h i j k l m n)
        (u32c ⊗ c_raw 4 ⊗ c_array 32 bpak_meta_header_c ⊗ c_array 32 bpak_part_header_c ⊗
         c_raw 1920 ⊗ u8c ⊗ u8c ⊗ u16c ⊗ c_raw 64 ⊗ u32c ⊗ u32c ⊗ c_raw 42 ⊗ c_raw 512 ⊗ u16c)%codec.

#[export] Instance bpak_meta_header_c_ok : CodecOK bpak_meta_header_c.
Proof. solve_struct. Qed.
#[export] Instance bpak_part_header_c_ok : CodecOK bpak_part_header_c.
Proof. solve_struct. Qed.
#[export] Instance bpak_header_c_ok : CodecOK bpak_header_c.
Proof. solve_struct. Qed.

Definition zero_meta : bpak_meta_header := MetaHeader 0 0 0 0 (zeros 4).
Definition zero_part : bpak_part_header := PartHeader 0 0 0 0 0 0 0.

Definition set_meta (l : list bpak_meta_header) (h : bpak_header) : bpak_header :=
  BpakHeader (h_magic h) (h_pad0 h) l (h_parts h) (h_metadata h) (h_hash_kind h) (h_signature_kind h)
    (h_alignment h) (h_payload_hash h) (h_key_id h) (h_keystore_id h) (h_pad1 h) (h_signature h)
    (h_signature_sz h).
Definition set_parts (l : list bpak_part_header) (h : bpak_header) : bpak_header :=
  BpakHeader (h_magic h) (h_pad0 h) (h_meta h) l (h_metadata h) (h_hash_kind h) (h_signature_kind h)
    (h_alignment h) (h_payload_hash h) (h_key_id h) (h_keystore_id h) (h_pad1 h) (h_signature h)
    (h_signature_sz h).
Definition set_metadata (l : list Z) (h : bpak_header) : bpak_header :=
  BpakHeader (h_magic h) (h_pad0 h) (h_meta h) (h_parts h) l (h_hash_kind h) (h_signature_kind h)
    (h_alignment h) (h_payload_hash h) (h_key_id h) (h_keystore_id h) (h_pad1 h) (h_signature h)
    (h_signature_sz h).
Definition set_signature (s : list Z) (sz : Z) (h : bpak_header) : bpak_header :=
  BpakHeader (h_magic h) (h_pad0 h) (h_meta h) (h_parts h) (h_metadata h) (h_hash_kind h)
    (h_signature_kind h) (h_alignment h) (h_payload_hash h) (h_key_id h) (h_keystore_id h)
    (h_pad1 h) s sz.
Definition set_key_ids (k ks : Z) (h : bpak_header) : bpak_header :=
  BpakHeader (h_magic h) (h_pad0 h) (h_meta h) (h_parts h) (h_metadata h) (h_hash_kind h)
    (h_signature_kind h) (h_alignment h) (h_payload_hash h) k ks (h_pad1 h) (h_signature h)
    (h_signature_sz h).

(** ** Operations *)

Definition BPAK_META_ALIGN_SIZE (x : Z) : Z :=
  Z.land (x + (BPAK_META_ALIGN - 1)) (Z.lnot (BPAK_META_ALIGN - 1)).

(** [bpak_foreach_meta] over the array, from index [i]. *)
Fixpoint get_meta_loop (l : list bpak_meta_header) (i : nat) (id part_id_ref : Z)
    (match_partref : bool) : option nat :=
  match l with
  | [] => None
  | m :: l =>
      if meta_id m =? id then
        if match_partref && negb (meta_part_id_ref m =? part_id_ref)
        then get_meta_loop l (S i) id part_id_ref match_partref
        else Some i
      else get_meta_loop l (S i) id part_id_ref match_partref
  end.

Definition bpak_get_meta_int (hdr : bpak_header) (id part_id_ref : Z) (match_partref : bool)
    : Z * option nat :=
  match get_meta_loop (h_meta hdr) 0 id part_id_ref match_partref with
  | Some i => (BPAK_OK, Some i)
  | None => (- BPAK_NOT_FOUND, None)
  end.

Definition bpak_get_meta (hdr : bpak_header) (id part_id_ref : Z) : Z * option nat :=
  bpak_get_meta_int hdr id part_id_ref true.

Definition bpak_get_meta_anyref (hdr : bpak_header) (id : Z) : Z * option nat :=
  bpak_get_meta_int hdr id 0 false.

(** The loop of [bpak_add_meta]: the return code, the entry and the array. *)
Fixpoint add_meta_loop (l : list bpak_meta_header) (i : nat) (new_offset id part_ref_id size : Z)
    : Z * option nat * list bpak_meta_header :=
  match l with
  | [] => (- BPAK_NO_SPACE_LEFT, None, [])
  | m :: l =>
      if meta_id m =? 0 then
        let m' := MetaHeader id size new_offset part_ref_id (meta_pad m) in
        if BPAK_METADATA_BYTES <? new_offset + size
        then (- BPAK_NO_SPACE_LEFT, None, m' :: l)
        else (BPAK_OK, Some i, m' :: l)
      else if (meta_id m =? id) && (meta_part_id_ref m =? part_ref_id)
      then (- BPAK_EXISTS, None, m :: l)
      else
        let new_offset := u16 (new_offset + meta_size m) in
        let new_offset := u16 (BPAK_META_ALIGN_SIZE new_offset) in
        let '(rc, p, l') := add_meta_loop l (S i) new_offset id part_ref_id size in
        (rc, p, m :: l')
  end.

Definition bpak_add_meta (hdr : bpak_header) (id part_ref_id size : Z)
    : Z * option nat * bpak_header :=
  let '(rc, p, l) := add_meta_loop (h_meta hdr) 0 0 id part_ref_id size in
  (rc, p, set_meta l hdr).

Fixpoint get_part_loop (l : list bpak_part_header) (i : nat) (id : Z) : option nat :=
  match l with
  | [] => None
  | p :: l => if part_id p =? id then Some i else get_part_loop l (S i) id
  end.

Definition bpak_get_part (hdr : bpak_header) (id : Z) : Z * option nat :=
  match get_part_loop (h_parts hdr) 0 id with
  | Some i => (BPAK_OK, Some i)
  | None => (- BPAK_NOT_FOUND, None)
  end.

Definition set_part_id (id : Z) (p : bpak_part_header) : bpak_part_header :=
  PartHeader id (part_size p) (part_offset p) (part_transport_size p) (part_pad_bytes p)
    (part_flags p) (part_pad p).

Fixpoint add_part_loop (l : list bpak_part_header) (i : nat) (id : Z)
    : Z * option nat * list bpak_part_header :=
  match l with
  | [] => (- BPAK_NO_SPACE_LEFT, None, [])
  | p :: l =>
      if part_id p =? 0 then (BPAK_OK, Some i, set_part_id id p :: l)
      else if part_id p =? id then (- BPAK_EXISTS, None, p :: l)
      else let '(rc, q, l') := add_part_loop l (S i) id in (rc, q, p :: l')
  end.

Definition bpak_add_part (hdr : bpak_header) (id : Z) : Z * option nat * bpak_header :=
  let '(rc, p, l) := add_part_loop (h_parts hdr) 0 id in (rc, p, set_parts l hdr).

(** The loop of [bpak_del_part] on the array from the deleted entry on. *)
Fixpoint del_part_loop (l : list bpak_part_header) : list bpak_part_header :=
  match l with
  | [] => []
  | [_] => [zero_part]
  | _ :: ((q :: rest) as tl) =>
      if part_id q =? 0 then zero_part :: tl else q :: del_part_loop tl
  end.

Definition bpak_del_part (hdr : bpak_header) (part : nat) : bpak_header :=
  set_parts (take part (h_parts hdr) ++ del_part_loop (drop part (h_parts hdr))) hdr.

Definition bpak_init_header : bpak_header :=
  BpakHeader BPAK_HEADER_MAGIC (zeros 4) (replicate BPAK_MAX_META zero_meta)
    (replicate BPAK_MAX_PARTS zero_part) (zeros 1920) BPAK_HASH_SHA256 BPAK_SIGN_PRIME256v1
    BPAK_PART_ALIGN (zeros 64) 0 0 (zeros 42) (zeros 512) 0.

Fixpoint parts_aligned (l : list bpak_part_header) : bool :=
  match l with
  | [] => true
  | p :: l =>
      if part_id p =? 0 then true
      else if negb (u64 (part_size p + part_pad_bytes p) mod BPAK_PART_ALIGN =? 0) then false
      else parts_aligned l
  end.

Fixpoint metas_in_bounds (l : list bpak_meta_header) : bool :=
  match l with
  | [] => true
  | m :: l =>
      if meta_id m =? 0 then true
      else if BPAK_METADATA_BYTES <? meta_size m + meta_offset m then false
      else metas_in_bounds l
  end.

Definition bpak_valid_header (hdr : bpak_header) : Z :=
  if negb (h_magic hdr =? BPAK_HEADER_MAGIC) then - BPAK_BAD_MAGIC
  else if negb (parts_aligned (h_parts hdr)) then - BPAK_BAD_ALIGNMENT
  else if negb (metas_in_bounds (h_meta hdr)) then - BPAK_SIZE_ERROR
  else if h_hash_kind hdr =? 0 then - BPAK_NOT_SUPPORTED
  else BPAK_OK.

(** Results of type [size_t] are converted to its width. *)
Definition bpak_part_size `{Arch} (p : bpak_part_header) : Z :=
  if negb (Z.land (part_flags p) BPAK_FLAG_TRANSPORT =? 0) then usz (part_transport_size p)
  else usz (u64 (part_size p + part_pad_bytes p)).

Definition bpak_part_size_wo_pad `{Arch} (p : bpak_part_header) : Z :=
  if negb (Z.land (part_flags p) BPAK_FLAG_TRANSPORT =? 0) then usz (part_transport_size p)
  else usz (part_size p).

(** [off_t] is 64 bits wide and signed. *)
Fixpoint part_offset_loop `{Arch} (l : list bpak_part_header) (id offset : Z) : Z :=
  match l with
  | [] => offset
  | p :: l =>
      if part_id p =? 0 then offset
      else if part_id p =? id then offset
      else part_offset_loop l id (s64 (offset + bpak_part_size p))
  end.

Definition bpak_part_offset `{Arch} (h : bpak_header) (part : bpak_part_header) : Z :=
  part_offset_loop (h_parts h) (part_id part) (sizeof bpak_header_c).

(** [signature] is a buffer of [size] bytes; the bytes stored at its front and
    the new [*size]. *)
Definition bpak_copyz_signature (header : bpak_header) (size : Z)
    : Z * list Z * Z * bpak_header :=
  if BPAK_SIGNATURE_MAX_BYTES <? h_signature_sz header then (- BPAK_SIZE_ERROR, [], size, header)
  else if h_signature_sz header =? 0 then (- BPAK_SIZE_ERROR, [], size, header)
  else if size <? h_signature_sz header then (- BPAK_SIZE_ERROR, [], size, header)
  else (BPAK_OK, take (Z.to_nat (h_signature_sz header)) (h_signature header),
        h_signature_sz header, set_signature (zeros 512) 0 header).

Definition bpak_set_key_id (hdr : bpak_header) (key_id : Z) : Z * bpak_header :=
  (BPAK_OK, set_key_ids key_id (h_keystore_id hdr) hdr).

Definition bpak_set_keystore_id (hdr : bpak_header) (keystore_id : Z) : Z * bpak_header :=
  (BPAK_OK, set_key_ids (h_key_id hdr) keystore_id hdr).

(** The struct [bpak_transport_meta] is written over the metadata at the new
    entry's offset; only its first two words are assigned. *)
Definition bpak_add_transport_meta (header : bpak_header) (pid encoder_id decoder_id : Z)
    : Z * bpak_header :=
  let '(rc, meta, header) := bpak_add_meta header 0x2d44bbfb pid (sizeof bpak_meta_header_c) in
  if negb (rc =? BPAK_OK) then (rc, header) else
  match meta with
  | None => (rc, header)
  | Some i =>
      let off := Z.to_nat (meta_offset (default zero_meta (h_meta header !! i))) in
      (BPAK_OK, set_metadata (splice off (le_bytes 4 encoder_id ++ le_bytes 4 decoder_id)
                                (h_metadata header)) header)
  end.

(** [*bpak_get_meta_ptr(hdr, m, uint64_t)]: eight bytes at the entry's offset
    into [metadata].  [behind] is the memory that follows the header. *)
Definition METADATA_OFFSET : nat := 1544.
Definition meta_u64 (behind : list Z) (hdr : bpak_header) (m : bpak_meta_header) : Z :=
  le_val (slice (METADATA_OFFSET + Z.to_nat (meta_offset m)) 8 (cenc bpak_header_c hdr ++ behind)).

(** ** Well-formed metadata

    Entries are used from the front of the array, each one placed at the next
    8-byte boundary after its predecessor and inside [metadata]. *)

Fixpoint metas_packed (off : Z) (l : list bpak_meta_header) : Prop :=
  match l with
  | [] => True
  | m :: l =>
      if meta_id m =? 0 then Forall (fun m => meta_id m = 0) l
      else meta_offset m = off /\ 0 <= meta_size m /\ off + meta_size m <= BPAK_METADATA_BYTES /\
           metas_packed (BPAK_META_ALIGN_SIZE (off + meta_size m)) l
  end.

(** ** Lemmas *)

Lemma align_size x : BPAK_META_ALIGN_SIZE x = (x + 7) / 8 * 8.
Proof.
  unfold BPAK_META_ALIGN_SIZE. change (BPAK_META_ALIGN - 1) with (Z.ones 3).
  rewrite <- Z.ldiff_land, Z.ldiff_ones_r by lia. rewrite Z.shiftl_mul_pow2, Z.shiftr_div_pow2 by lia. done.
Qed.

Lemma align_size_bounds x : 0 <= x <= 1920 ->
  x <= BPAK_META_ALIGN_SIZE x <= 1920 /\ BPAK_META_ALIGN_SIZE x mod 8 = 0.
Proof.
  rewrite align_size. intros. pose proof (Z.div_mod (x + 7) 8). pose proof (Z.mod_pos_bound (x + 7) 8).
  rewrite Z.mod_mul by lia. lia.
Qed.

Lemma u16_small x : 0 <= x < 2 ^ 16 -> u16 x = x.
Proof. apply Z.mod_small. Qed.

Definition meta_match (id ref : Z) (m : bpak_meta_header) : bool :=
  (meta_id m =? id) && (meta_part_id_ref m =? ref).

Lemma get_meta_loop_cons m l i id ref :
  get_meta_loop (m :: l) i id ref true =
  if meta_match id ref m then Some i else get_meta_loop l (S i) id ref true.
Proof.
  unfold meta_match. simpl.
  by destruct (meta_id m =? id), (meta_part_id_ref m =? ref).
Qed.

Lemma get_meta_loop_unused l i id ref :
  id <> 0 -> Forall (fun m => meta_id m = 0) l -> get_meta_loop l i id ref true = None.
Proof.
  intros Hid Hl. revert i. induction Hl as [|x l Hx _ IH]; intros i; simpl; [done|].
  rewrite Hx. destruct (Z.eqb_spec 0 id); [lia | apply IH].
Qed.

(** What [bpak_add_meta] does to a packed array: it takes the first unused
    entry, or finds the entry taken, or runs out of entries or space. *)
Definition add_meta_post (l : list bpak_meta_header) (i : nat) (off id ref size : Z)
    (r : Z * option nat * list bpak_meta_header) : Prop :=
  let '(rc, p, l') := r in
  (rc = BPAK_OK /\ exists k m, p = Some (i + k)%nat /\
     get_meta_loop l' i id ref true = Some (i + k)%nat /\
     l' !! k = Some m /\ meta_id m = id /\ meta_size m = size /\ meta_part_id_ref m = ref /\
     metas_packed off l' /\ get_meta_loop l i id ref true = None /\
     (forall j, j <> k -> l' !! j = l !! j)) \/
  (rc = - BPAK_EXISTS /\ p = None /\ l' = l /\ get_meta_loop l i id ref true <> None) \/
  (rc = - BPAK_NO_SPACE_LEFT /\ p = None /\ (l' = l \/ metas_in_bounds l' = false)).

Lemma add_meta_post_cons m l i off id ref size rc p l' :
  meta_id m <> 0 -> meta_offset m = off -> 0 <= meta_size m -> off + meta_size m <= BPAK_METADATA_BYTES ->
  meta_match id ref m = false ->
  add_meta_post l (S i) (BPAK_META_ALIGN_SIZE (off + meta_size m)) id ref size (rc, p, l') ->
  add_meta_post (m :: l) i off id ref size (rc, p, m :: l').
Proof.
  intros E0 Ho Hsz Hb Hm.
  intros [(-> & k & x & -> & Hg & Hx & H1 & H2 & H3 & Hpk & Hn & Hj) |
          [(-> & -> & -> & Hn) | (-> & -> & Hl)]].
  - left. split; [done|]. exists (S k), x. rewrite Nat.add_succ_r, !get_meta_loop_cons, Hm. simpl.
    destruct (Z.eqb_spec (meta_id m) 0); [done|]. split_and!; try done.
    intros [|j] Hjk; [done|]. apply Hj. lia.
  - right. left. by rewrite get_meta_loop_cons, Hm.
  - right. right. split_and!; [done..|]. destruct Hl as [-> | Hl]; [by left|]. right. simpl.
    destruct (Z.eqb_spec (meta_id m) 0); [done|]. by destruct (_ <? _).
Qed.

Lemma add_meta_loop_spec l i off id ref size :
  metas_packed off l -> 0 <= off <= 1920 -> id <> 0 -> 0 <= size ->
  add_meta_post l i off id ref size (add_meta_loop l i off id ref size).
Proof.
  revert i off. induction l as [|m l IH]; intros i off Hp Hoff Hid Hs; simpl.
  { right. right. auto. }
  simpl in Hp. fold (meta_match id ref m). destruct (Z.eqb_spec (meta_id m) 0) as [E0|E0].
  - pose proof (fun j => get_meta_loop_unused l j id ref Hid Hp) as Hnone.
    destruct (Z.ltb_spec BPAK_METADATA_BYTES (off + size)) as [Hlt|Hle].
    + right. right. split_and!; [done..|]. right. simpl.
      destruct (Z.eqb_spec id 0); [lia|]. by rewrite (proj2 (Z.ltb_lt _ _)) by lia.
    + left. split; [done|]. exists 0%nat, (MetaHeader id size off ref (meta_pad m)).
      assert (Em : meta_match id ref m = false)
        by (unfold meta_match; rewrite E0; by destruct (Z.eqb_spec 0 id); [lia|]).
      rewrite Nat.add_0_r, !get_meta_loop_cons, Em, Hnone. unfold meta_match at 1.
      cbn [meta_id meta_part_id_ref]. rewrite !Z.eqb_refl. split_and!; try done.
      * simpl. destruct (Z.eqb_spec id 0); [lia|]. split_and!; try done.
        destruct Hp as [|x l Hx Hf]; [done|]. simpl. by rewrite Hx.
      * by intros [|j].
  - destruct Hp as (Ho & Hsz & Hb & Hp).
    destruct (align_size_bounds (off + meta_size m)) as [Ha _]; [unfold BPAK_METADATA_BYTES in *; lia|].
    unfold BPAK_METADATA_BYTES in Hb. rewrite (u16_small (off + meta_size m)), u16_small by lia.
    destruct (meta_match id ref m) eqn:Em.
    { right. left. by rewrite get_meta_loop_cons, Em. }
    specialize (IH (S i) (BPAK_META_ALIGN_SIZE (off + meta_size m)) Hp ltac:(lia) Hid Hs).
    destruct (add_meta_loop l (S i) _ id ref size) as [[rc p] l'].
    by apply add_meta_post_cons.
Qed.

(** The regions of a packed array are in bounds, aligned and in order. *)
Lemma packed_regions l off i m :
  metas_packed off l -> 0 <= off <= 1920 -> off mod 8 = 0 -> l !! i = Some m -> meta_id m <> 0 ->
  off <= meta_offset m /\ meta_offset m mod 8 = 0 /\ 0 <= meta_size m /\
  meta_offset m + meta_size m <= BPAK_METADATA_BYTES /\
  forall j n, (i < j)%nat -> l !! j = Some n -> meta_id n <> 0 ->
    meta_offset m + meta_size m <= meta_offset n.
Proof.
  revert off i m. induction l as [|x l IH]; intros off i m Hp Ho Hm Hi Hid; [done|]. simpl in Hp.
  destruct (Z.eqb_spec (meta_id x) 0) as [E|E].
  - destruct i as [|i]; [by simplify_eq/=|]. simpl in Hi.
    exfalso. apply Hid. eapply (Forall_lookup_1 _ _ _ _ Hp Hi).
  - destruct Hp as (Hxo & Hxs & Hxb & Hp).
    destruct (align_size_bounds (off + meta_size x)) as [Ha Ha8]; [unfold BPAK_METADATA_BYTES in *; lia|].
    destruct i as [|i].
    + simplify_eq/=. split_and!; try lia. intros [|j] n Hj Hn Hnid; [lia|]. simpl in Hn.
      destruct (IH _ j n Hp ltac:(lia) Ha8 Hn Hnid) as (? & _). lia.
    + simpl in Hi. destruct (IH _ i m Hp ltac:(lia) Ha8 Hi Hid) as (? & ? & ? & ? & Hnext).
      split_and!; try lia. intros [|j] n Hj Hn; [lia|]. apply (Hnext j); [lia|done].
Qed.

Lemma packed_in_bounds l off : metas_packed off l -> metas_in_bounds l = true.
Proof.
  revert off. induction l as [|m l IH]; intros off Hp; simpl; [done|]. simpl in Hp.
  destruct (meta_id m =? 0); [done|]. destruct Hp as (Ho & Hs & Hb & Hp).
  destruct (Z.ltb_spec BPAK_METADATA_BYTES (meta_size m + meta_offset m)); [lia|]. by eapply IH.
Qed.

(** *** Parts *)

(** Parts are used from the front; unused entries are all zero. *)
Fixpoint parts_packed (l : list bpak_part_header) : Prop :=
  match l with
  | [] => True
  | p :: l => if part_id p =? 0 then p = zero_part /\ Forall (eq zero_part) l else parts_packed l
  end.

Lemma zero_tail_shift l : Forall (eq zero_part) l -> zero_part :: l = l ++ [zero_part].
Proof. induction 1 as [|x l <- _ IH]; simpl; [done|]. by rewrite <- IH. Qed.

Lemma del_part_loop_packed p l : parts_packed (p :: l) -> part_id p <> 0 -> del_part_loop (p :: l) = l ++ [zero_part].
Proof.
  revert p. induction l as [|q l IH]; intros p Hp Hid; [done|]. simpl in Hp.
  destruct (Z.eqb_spec (part_id p) 0); [done|]. cbn [del_part_loop].
  destruct (Z.eqb_spec (part_id q) 0) as [E|E].
  - destruct Hp as [-> Hl]. rewrite zero_tail_shift by (by constructor). done.
  - cbn [app]. f_equal. apply (IH q); [|done]. simpl. by destruct (Z.eqb_spec (part_id q) 0).
Qed.

Lemma parts_packed_drop k l : parts_packed l -> parts_packed (drop k l).
Proof.
  revert k. induction l as [|p l IH]; intros k Hp; [by destruct k|]. destruct k as [|k]; [done|].
  simpl in *. destruct (part_id p =? 0); [|by apply IH]. destruct Hp as [_ Hl]. apply IH.
  clear -Hl. destruct Hl as [|x l <- Hl]; simpl; auto.
Qed.

Definition add_part_post (l : list bpak_part_header) (i : nat) (id : Z)
    (r : Z * option nat * list bpak_part_header) : Prop :=
  let '(rc, p, l') := r in
  (rc = BPAK_OK /\ exists k, p = Some (i + k)%nat /\ (k < length l)%nat /\
     get_part_loop l i id = None /\ get_part_loop l' i id = Some (i + k)%nat /\
     l' = <[k := set_part_id id zero_part]> l /\ parts_packed l' /\
     take k l' ++ del_part_loop (drop k l') = l) \/
  (rc = - BPAK_EXISTS /\ p = None /\ l' = l /\ get_part_loop l i id <> None) \/
  (rc = - BPAK_NO_SPACE_LEFT /\ p = None /\ l' = l /\ get_part_loop l i id = None /\
     Forall (fun q => part_id q <> 0) l).

Lemma get_part_unused l i id : id <> 0 -> Forall (eq zero_part) l -> get_part_loop l i id = None.
Proof.
  intros Hid Hl. revert i. induction Hl as [|x l <- _ IH]; intros i; simpl; [done|].
  destruct id; [done| |]; apply IH.
Qed.

Lemma add_part_loop_spec l i id :
  parts_packed l -> id <> 0 -> add_part_post l i id (add_part_loop l i id).
Proof.
  intros Hp Hid. revert i Hp. induction l as [|p l IH]; intros i Hp; simpl.
  { right. right. auto. }
  simpl in Hp. destruct (Z.eqb_spec (part_id p) 0) as [E0|E0].
  - destruct Hp as [-> Hl]. left. split; [done|]. exists 0%nat. rewrite Nat.add_0_r.
    pose proof (get_part_unused l (S i) id Hid Hl) as Hn. cbn [get_part_loop].
    change (part_id zero_part) with 0. destruct (Z.eqb_spec 0 id); [lia|].
    change (part_id (set_part_id id zero_part)) with id. rewrite Z.eqb_refl.
    assert (Hpk : parts_packed (set_part_id id zero_part :: l)).
    { simpl. destruct (Z.eqb_spec id 0); [done|]. destruct Hl as [|x l <- Hl]; [done|]. by simpl. }
    split_and!; try done; [simpl; lia|]. cbn [drop take app]. rewrite del_part_loop_packed by done.
    by rewrite <- zero_tail_shift.
  - destruct (Z.eqb_spec (part_id p) id) as [E|E].
    { right. left. split_and!; try done. simpl. by destruct (Z.eqb_spec (part_id p) id). }
    specialize (IH (S i) Hp). destruct (add_part_loop l (S i) id) as [[rc q] l'].
    destruct IH as [(-> & k & -> & Hk & Hn & Hg & -> & Hpk & Hd) |
                    [(-> & -> & -> & Hn) | (-> & -> & -> & Hn & Hf)]].
    + left. split; [done|]. exists (S k). rewrite Nat.add_succ_r. simpl.
      destruct (Z.eqb_spec (part_id p) id); [done|]. destruct (Z.eqb_spec (part_id p) 0); [done|].
      split_and!; try done; [lia|]. by rewrite Hd.
    + right. left. split_and!; try done. simpl. by destruct (Z.eqb_spec (part_id p) id).
    + right. right. split_and!; try done; [simpl; by destruct (Z.eqb_spec (part_id p) id) | by constructor].
Qed.

Section arch.
Context `{Arch}.

(** The bytes of the first [k] parts. *)
Definition parts_before (h : bpak_header) (k : nat) : Z :=
  foldr Z.add 0 (map bpak_part_size (take k (h_parts h))).

Lemma bpak_part_size_range p : 0 <= bpak_part_size p < 2 ^ ptr_bits.
Proof. unfold bpak_part_size. case_if; apply usz_range. Qed.

Lemma part_offset_loop_sum l id off k p :
  l !! k = Some p -> part_id p = id -> id <> 0 -> 0 <= off ->
  (forall j q, (j < k)%nat -> l !! j = Some q -> part_id q <> 0 /\ part_id q <> id) ->
  off + foldr Z.add 0 (map bpak_part_size (take k l)) < 2 ^ 63 ->
  part_offset_loop l id off = off + foldr Z.add 0 (map bpak_part_size (take k l)).
Proof.
  revert off k. induction l as [|q l IH]; intros off k Hk Hid Hne Hoff Hpre Hsum; [done|].
  destruct k as [|k].
  - simplify_eq/=. destruct (Z.eqb_spec (part_id p) 0); [done|]. rewrite Z.eqb_refl. lia.
  - simpl in *. destruct (Hpre 0%nat q ltac:(lia) eq_refl) as [H0 H1].
    destruct (Z.eqb_spec (part_id q) 0), (Z.eqb_spec (part_id q) id); try done.
    pose proof (bpak_part_size_range q) as Hq.
    assert (Hpos : 0 <= foldr Z.add 0 (map bpak_part_size (take k l))).
    { clear. generalize (take k l). induction l0 as [|x l0 IH0]; simpl; [lia|].
      pose proof (bpak_part_size_range x). lia. }
    assert (Es : s64 (off + bpak_part_size q) = off + bpak_part_size q).
    { unfold s64. rewrite Z.mod_small by lia. lia. }
    rewrite Es, (IH _ k Hk Hid Hne); [lia|lia| |lia].
    intros j x Hj Hx. apply (Hpre (S j) x); [lia|done].
Qed.

End arch.

(** ** Properties *)

(** Adding metadata keeps the header in order: starting from entries that
    are packed, in bounds and 8-byte aligned, [bpak_add_meta] either succeeds,
    and then the entry it returns is the one [bpak_get_meta] finds, was not
    there before, has the requested size, lies inside [metadata] without
    overlapping any other entry, and all other entries are unchanged; or it
    reports -BPAK_EXISTS for an entry that was there, changing nothing; or it
    reports -BPAK_NO_SPACE_LEFT, and then either nothing changed or the entry
    it left behind makes the header invalid. *)
Theorem bpak_add_meta_spec h id ref size :
  metas_packed 0 (h_meta h) -> id <> 0 -> 0 <= size ->
  let '(rc, p, h') := bpak_add_meta h id ref size in
  (rc = BPAK_OK /\ exists k m, p = Some k /\ bpak_get_meta h' id ref = (BPAK_OK, Some k) /\
     bpak_get_meta h id ref = (- BPAK_NOT_FOUND, None) /\
     h_meta h' !! k = Some m /\ meta_size m = size /\ meta_offset m mod BPAK_META_ALIGN = 0 /\
     0 <= meta_offset m /\ meta_offset m + meta_size m <= BPAK_METADATA_BYTES /\
     metas_packed 0 (h_meta h') /\
     (forall j n, j <> k -> h_meta h' !! j = Some n ->
        h_meta h !! j = Some n /\
        (meta_id n <> 0 -> meta_offset n + meta_size n <= meta_offset m \/
                           meta_offset m + meta_size m <= meta_offset n))) \/
  (rc = - BPAK_EXISTS /\ h' = h /\ (bpak_get_meta h id ref).1 = BPAK_OK) \/
  (rc = - BPAK_NO_SPACE_LEFT /\ (h' = h \/ bpak_valid_header h' <> BPAK_OK)).
Proof.
  intros Hp Hid Hs. unfold bpak_add_meta, bpak_get_meta, bpak_get_meta_int.
  pose proof (add_meta_loop_spec (h_meta h) 0 0 id ref size Hp ltac:(lia) Hid Hs) as Hl.
  destruct (add_meta_loop (h_meta h) 0 0 id ref size) as [[rc p] l'].
  assert (Hset : set_meta (h_meta h) h = h) by (by destruct h).
  destruct Hl as [(-> & k & m & -> & Hg & Hk & H1 & H2 & H3 & Hpk & Hn & Hj) |
                  [(-> & -> & -> & Hn) | (-> & -> & Hb)]].
  - left. split; [done|]. exists k, m. simpl. rewrite Hg, Hn.
    destruct (packed_regions l' 0 k m Hpk ltac:(lia) eq_refl Hk ltac:(lia)) as (Ho & Ho8 & _ & Hb & Hnext).
    split_and!; try done. intros j n Hjk Hjn. split; [by rewrite <- Hj|]. intros Hnid.
    destruct (packed_regions l' 0 j n Hpk ltac:(lia) eq_refl Hjn Hnid) as (_ & _ & _ & _ & Hnext').
    destruct (Nat.lt_total j k) as [Hlt | [-> | Hlt]]; [|done|].
    + left. apply (Hnext' k m Hlt Hk). lia.
    + right. by apply (Hnext j n Hlt).
  - right. left. rewrite Hset. split_and!; try done.
    by destruct (get_meta_loop (h_meta h) 0 id ref true).
  - right. right. split; [done|]. destruct Hb as [-> | Hb]; [left; apply Hset|]. right.
    unfold bpak_valid_header. simpl. rewrite Hb. pbconst. by repeat case_if.
Qed.

(** Adding and deleting parts are inverse: on a header whose parts are
    used from the front, [bpak_add_part] of a new id succeeds unless all 32
    entries are used, the entry it returns is the one [bpak_get_part] finds,
    and [bpak_del_part] of that entry restores the header; an id that is
    already there is refused. *)
Theorem bpak_add_del_part h id :
  parts_packed (h_parts h) -> id <> 0 ->
  let '(rc, p, h') := bpak_add_part h id in
  (rc = BPAK_OK /\ exists k, p = Some k /\ (k < length (h_parts h))%nat /\
     bpak_get_part h id = (- BPAK_NOT_FOUND, None) /\
     bpak_get_part h' id = (BPAK_OK, Some k) /\
     h_parts h' = <[k := set_part_id id zero_part]> (h_parts h) /\ parts_packed (h_parts h') /\
     bpak_del_part h' k = h) \/
  (rc = - BPAK_EXISTS /\ h' = h /\ (bpak_get_part h id).1 = BPAK_OK) \/
  (rc = - BPAK_NO_SPACE_LEFT /\ h' = h /\ bpak_get_part h id = (- BPAK_NOT_FOUND, None) /\
     Forall (fun q => part_id q <> 0) (h_parts h)).
Proof.
  intros Hp Hid. unfold bpak_add_part, bpak_get_part.
  pose proof (add_part_loop_spec (h_parts h) 0 id Hp Hid) as Hl.
  destruct (add_part_loop (h_parts h) 0 id) as [[rc p] l'].
  assert (Hset : set_parts (h_parts h) h = h) by (by destruct h).
  destruct Hl as [(-> & k & -> & Hk & Hn & Hg & Hl' & Hpk & Hd) |
                  [(-> & -> & -> & Hn) | (-> & -> & -> & Hn & Hf)]].
  - left. split; [done|]. exists k. simpl. rewrite Hg, Hn. split_and!; try done.
    unfold bpak_del_part. simpl. rewrite Hd. by destruct h.
  - right. left. rewrite Hset. split_and!; try done. by destruct (get_part_loop (h_parts h) 0 id).
  - right. right. rewrite Hset, Hn. done.
Qed.

(** Part data is laid out back to back after the header: as long as the
    parts in front of it have distinct non-zero ids and the sizes do not
    overflow [off_t], the offset of part [k] is the size of the header plus the
    sizes of the parts before it. *)
Theorem bpak_part_offset_layout `{Arch} h k p :
  h_parts h !! k = Some p -> part_id p <> 0 ->
  (forall j q, (j < k)%nat -> h_parts h !! j = Some q -> part_id q <> 0 /\ part_id q <> part_id p) ->
  4096 + parts_before h k < 2 ^ 63 ->
  bpak_part_offset h p = 4096 + parts_before h k.
Proof.
  intros Hk Hid Hpre Hsum. by apply (part_offset_loop_sum _ _ _ k p).
Qed.

(** The header is exactly its 4096 bytes: encoding a header and reading
    it back gives the same header, and every 4096-byte block is the encoding
    of the header read from it. *)
Theorem bpak_header_roundtrip :
  sizeof bpak_header_c = 4096 /\
  (forall h, cwf bpak_header_c h -> length (cenc bpak_header_c h) = 4096%nat /\
     decode bpak_header_c (cenc bpak_header_c h) = h) /\
  (forall bs, bytes bs -> length bs = 4096%nat ->
     cwf bpak_header_c (decode bpak_header_c bs) /\ cenc bpak_header_c (decode bpak_header_c bs) = bs).
Proof.
  split; [done|]. split.
  - intros h Hh. split; [by apply (cenc_length (c := bpak_header_c)) | by apply (decode_cenc bpak_header_c)].
  - intros bs Hb Hl. split; [apply cdec_wf; [done|by rewrite Hl] | by apply (cenc_decode bpak_header_c)].
Qed.

(** ** Witnesses *)

Lemma bpak_add_meta_spec_witness :
  bpak_add_meta bpak_init_header 7 0 12 =
    (BPAK_OK, Some 0%nat, (bpak_add_meta bpak_init_header 7 0 12).2) /\
  let '(rc, p, h') := bpak_add_meta bpak_init_header 7 0 12 in
  (rc = BPAK_OK /\ exists k m, p = Some k /\ bpak_get_meta h' 7 0 = (BPAK_OK, Some k) /\
     bpak_get_meta bpak_init_header 7 0 = (- BPAK_NOT_FOUND, None) /\
     h_meta h' !! k = Some m /\ meta_size m = 12 /\ meta_offset m mod BPAK_META_ALIGN = 0 /\
     0 <= meta_offset m /\ meta_offset m + meta_size m <= BPAK_METADATA_BYTES /\
     metas_packed 0 (h_meta h') /\
     (forall j n, j <> k -> h_meta h' !! j = Some n ->
        h_meta bpak_init_header !! j = Some n /\
        (meta_id n <> 0 -> meta_offset n + meta_size n <= meta_offset m \/
                           meta_offset m + meta_size m <= meta_offset n))) \/
  (rc = - BPAK_EXISTS /\ h' = bpak_init_header /\ (bpak_get_meta bpak_init_header 7 0).1 = BPAK_OK) \/
  (rc = - BPAK_NO_SPACE_LEFT /\ (h' = bpak_init_header \/ bpak_valid_header h' <> BPAK_OK)).
Proof.
  split; [by vm_compute|].
  apply (bpak_add_meta_spec bpak_init_header 7 0 12); [vm_compute; by repeat constructor | done | done].
Defined.

Lemma bpak_add_del_part_witness :
  exists h', bpak_add_part bpak_init_header 5 = (BPAK_OK, Some 0%nat, h') /\
    bpak_del_part h' 0 = bpak_init_header.
Proof.
  pose proof (bpak_add_del_part bpak_init_header 5 ltac:(vm_compute; by repeat constructor)
    ltac:(done)) as Hs.
  destruct (bpak_add_part bpak_init_header 5) as [[rc p] h'] eqn:E.
  assert (rc = BPAK_OK /\ p = Some 0%nat) as [-> ->] by (vm_compute in E; by simplify_eq).
  exists h'. split; [done|].
  destruct Hs as [(_ & k & Hk & _ & _ & _ & _ & _ & Hd) | [(? & _) | (? & _)]]; [|done|done].
  injection Hk as <-. exact Hd.
Defined.

Definition two_part_header : bpak_header :=
  set_parts (PartHeader 1 1000 0 0 24 0 0 :: PartHeader 2 512 0 0 0 0 0 :: replicate 30 zero_part)
    bpak_init_header.

Lemma bpak_part_offset_layout_witness :
  @bpak_part_offset armv7a two_part_header (PartHeader 2 512 0 0 0 0 0) = 4096 + 1024.
Proof.
  apply (@bpak_part_offset_layout armv7a two_part_header 1 (PartHeader 2 512 0 0 0 0 0));
    [done | done | | by vm_compute].
  intros [|j] q Hj Hq; [simplify_eq/=; done | lia].
Defined.
