(* ===== verification/Crypto.v ===== *)
(** * Hash and signature front end

    [src/crypto.c]: the tables of registered hash and DSA providers and the
    currently active hash context.  The providers are drivers behind function
    pointers, [CryptoDriver]; [CryptoLaws] is what [include/pb/crypto.h]
    documents about the hash callbacks. *)

From S2P Require Import Prelude Errors Bio.
Local Open Scope c_scope.

(** ** Definitions *)

Definition HASH_MD5 : Z := 1.
Definition HASH_MD5_BROKEN : Z := 2.
Definition HASH_SHA256 : Z := 4.
Definition HASH_SHA384 : Z := 8.
Definition HASH_SHA512 : Z := 16.
Definition DSA_EC_SECP256r1 : Z := 1.
Definition DSA_EC_SECP384r1 : Z := 2.
Definition DSA_EC_SECP521r1 : Z := 4.

Record hash_ops_t := HashOps {
  ho_alg_bits : Z;
  ho_init : fptr;
  ho_update : fptr;
  ho_update_async : fptr;
  ho_copy_update : fptr;
  ho_final : fptr
}.

Record dsa_ops_t := DsaOps { do_alg_bits : Z; do_verify : fptr }.

(** The providers.  Buffers are passed by value; a digest or a copy comes back
    as the bytes stored at the front of the output buffer.  [None] for the
    verdict: the driver returned without assigning [*verified]. *)
Class CryptoDriver (H : Type) := {
  cd_init : fptr -> Z -> M H Z;
  cd_update : fptr -> list Z -> M H Z;
  cd_copy_update : fptr -> list Z -> M H (Z * list Z);
  cd_final : fptr -> Z -> M H (Z * list Z);
  cd_verify : fptr -> list Z -> list Z -> Z -> list Z -> M H (Z * option bool)
}.

Record crypto_state (H : Type) := CryptoState {
  dsa_ops : list (option dsa_ops_t);
  no_of_dsa_ops : Z;
  hash_ops : list (option hash_ops_t);
  no_of_hash_ops : Z;
  current_hash_ops : option hash_ops_t;
  crypto_hw : H
}.
Arguments CryptoState {H}.
Arguments dsa_ops {H}.
Arguments no_of_dsa_ops {H}.
Arguments hash_ops {H}.
Arguments no_of_hash_ops {H}.
Arguments current_hash_ops {H}.
Arguments crypto_hw {H}.

Section crypto.
Context {kc : Kconfig} {H : Type} {cd : CryptoDriver H}.
Abbreviation C := (M (crypto_state H)).

Definition set_current (o : option hash_ops_t) : C unit :=
  modify (fun s => CryptoState (dsa_ops s) (no_of_dsa_ops s) (hash_ops s) (no_of_hash_ops s) o (crypto_hw s)).

Definition call_crypto {A} (m : M H A) : C A :=
  fun s => let '(a, h) := m (crypto_hw s) in
    (a, CryptoState (dsa_ops s) (no_of_dsa_ops s) (hash_ops s) (no_of_hash_ops s) (current_hash_ops s) h).

(** The search loops over a provider table. *)
Fixpoint find_hash_ops (l : list (option hash_ops_t)) (alg : Z) : option hash_ops_t :=
  match l with
  | [] => None
  | Some o :: l => if negb (Z.land (ho_alg_bits o) alg =? 0) then Some o else find_hash_ops l alg
  | None :: l => find_hash_ops l alg
  end.

Fixpoint find_dsa_ops (l : list (option dsa_ops_t)) (alg : Z) : option dsa_ops_t :=
  match l with
  | [] => None
  | Some o :: l => if negb (Z.land (do_alg_bits o) alg =? 0) then Some o else find_dsa_ops l alg
  | None :: l => find_dsa_ops l alg
  end.

Definition hash_init (alg : Z) : C Z :=
  set_current None ;;;
  s <- get ;;
  match find_hash_ops (take (Z.to_nat CONFIG_CRYPTO_MAX_HASH_OPS) (hash_ops s)) alg with
  | Some o => set_current (Some o) ;;; call_crypto (cd_init (ho_init o) alg)
  | None => ret PB_ERR_NOT_SUPPORTED
  end.

Definition hash_update (buf : list Z) : C Z :=
  s <- get ;;
  match current_hash_ops s with
  | None => ret (- PB_ERR_STATE)
  | Some o => call_crypto (cd_update (ho_update o) buf)
  end.

Definition hash_update_async (buf : list Z) : C Z :=
  s <- get ;;
  match current_hash_ops s with
  | None => ret (- PB_ERR_STATE)
  | Some o =>
      if negb (ho_update_async o =? NULL) then call_crypto (cd_update (ho_update_async o) buf)
      else call_crypto (cd_update (ho_update o) buf)
  end.

(** The second component is what is stored at [dest]. *)
Definition hash_copy_update (src : list Z) : C (Z * list Z) :=
  s <- get ;;
  match current_hash_ops s with
  | None => ret (- PB_ERR_STATE, [])
  | Some o =>
      if negb (ho_copy_update o =? NULL) then call_crypto (cd_copy_update (ho_copy_update o) src)
      else rc <- call_crypto (cd_update (ho_update o) src) ;; ret (rc, src)
  end.

Definition hash_final (length : Z) : C (Z * list Z) :=
  s <- get ;;
  match current_hash_ops s with
  | None => ret (- PB_ERR_STATE, [])
  | Some o =>
      r <- call_crypto (cd_final (ho_final o) length) ;;
      set_current None ;;;
      ret r
  end.

Definition hash_add_ops (ops : hash_ops_t) : C Z :=
  s <- get ;;
  if CONFIG_CRYPTO_MAX_HASH_OPS <=? no_of_hash_ops s then ret (- PB_ERR_MEM)
  else
    put (CryptoState (dsa_ops s) (no_of_dsa_ops s)
           (<[Z.to_nat (no_of_hash_ops s) := Some ops]> (hash_ops s)) (no_of_hash_ops s + 1)
           (current_hash_ops s) (crypto_hw s)) ;;;
    ret PB_OK.

Definition dsa_verify (alg : Z) (der_signature der_key : list Z) (md_alg : Z) (md : list Z)
    : C (Z * option bool) :=
  s <- get ;;
  match find_dsa_ops (take (Z.to_nat CONFIG_CRYPTO_MAX_DSA_OPS) (dsa_ops s)) alg with
  | None => ret (- PB_ERR_NOT_SUPPORTED, None)
  | Some o => call_crypto (cd_verify (do_verify o) der_signature der_key md_alg md)
  end.

Definition dsa_add_ops (ops : dsa_ops_t) : C Z :=
  s <- get ;;
  if CONFIG_CRYPTO_MAX_DSA_OPS <=? no_of_dsa_ops s then ret (- PB_ERR_MEM)
  else
    put (CryptoState (<[Z.to_nat (no_of_dsa_ops s) := Some ops]> (dsa_ops s)) (no_of_dsa_ops s + 1)
           (hash_ops s) (no_of_hash_ops s) (current_hash_ops s) (crypto_hw s)) ;;;
    ret PB_OK.

(** The state after reset. *)
Definition crypto_reset (h : H) : crypto_state H :=
  CryptoState (replicate (Z.to_nat CONFIG_CRYPTO_MAX_DSA_OPS) None) 0
    (replicate (Z.to_nat CONFIG_CRYPTO_MAX_HASH_OPS) None) 0 None h.

(** Hashing a message in chunks, stopping at the first error. *)
Fixpoint hash_chunks (l : list (list Z)) : C Z :=
  match l with
  | [] => ret PB_OK
  | c :: l => hash_update_async c ;;? hash_chunks l
  end.

Definition hash_message (alg : Z) (chunks : list (list Z)) (len : Z) : C (Z * list Z) :=
  rc <- hash_init alg ;;
  if negb (rc =? PB_OK) then ret (rc, []) else
  rc <- hash_chunks chunks ;;
  if negb (rc =? PB_OK) then ret (rc, []) else hash_final len.

(** ** What the callbacks promise

    [digest] is the hash function, [cd_ctx]: the algorithm and the bytes hashed so far of the driver's
    context.  Calls that report success have done their work; [update] and
    [update_async] hash the same. *)
Definition digest_size (alg : Z) : nat :=
  if alg =? HASH_SHA256 then 32 else if alg =? HASH_SHA384 then 48
  else if alg =? HASH_SHA512 then 64 else 16.

Class CryptoLaws := {
  digest : Z -> list Z -> list Z;
  law_digest_size : forall alg m, length (digest alg m) = digest_size alg;
  law_digest_bytes : forall alg m, bytes (digest alg m);
  cd_ctx : H -> option (Z * list Z);
  law_init : forall f alg h h', cd_init f alg h = (PB_OK, h') -> cd_ctx h' = Some (alg, []);
  law_update : forall f alg m bs h h',
    cd_ctx h = Some (alg, m) -> cd_update f bs h = (PB_OK, h') -> cd_ctx h' = Some (alg, m ++ bs);
  law_final : forall f alg m n d h h',
    cd_ctx h = Some (alg, m) -> cd_final f n h = ((PB_OK, d), h') -> d = digest alg m
}.

Context {cl : CryptoLaws}.

(** A hash in progress: an active provider whose context is [alg] over [m]. *)
Definition hashing (alg : Z) (m : list Z) (s : crypto_state H) : Prop :=
  (exists o, current_hash_ops s = Some o) /\ cd_ctx (crypto_hw s) = Some (alg, m).

(** ** Lemmas *)

Lemma hash_init_hashing alg s s' : hash_init alg s = (PB_OK, s') -> hashing alg [] s'.
Proof.
  unfold hash_init, set_current, call_crypto. m_unfold. simpl.
  destruct (find_hash_ops _ alg) as [o|]; [|done]. simpl.
  destruct (cd_init (ho_init o) alg (crypto_hw s)) as [rc h] eqn:E. intros [= -> <-].
  split; [by eexists|]. by eapply law_init.
Qed.

Lemma hash_update_hashing alg m bs s s' :
  hashing alg m s -> hash_update bs s = (PB_OK, s') -> hashing alg (m ++ bs) s'.
Proof.
  intros [[o Ho] Hc]. unfold hash_update, call_crypto. m_unfold. rewrite Ho.
  destruct (cd_update (ho_update o) bs (crypto_hw s)) as [rc h] eqn:E. intros [= -> <-].
  split; [simpl; by eexists|]. by eapply law_update.
Qed.

Lemma hash_update_async_hashing alg m bs s s' :
  hashing alg m s -> hash_update_async bs s = (PB_OK, s') -> hashing alg (m ++ bs) s'.
Proof.
  intros [[o Ho] Hc]. unfold hash_update_async, call_crypto. m_unfold. rewrite Ho.
  case_if; [destruct (cd_update (ho_update_async o) bs (crypto_hw s)) as [rc h] eqn:E |
            destruct (cd_update (ho_update o) bs (crypto_hw s)) as [rc h] eqn:E];
    intros [= -> <-]; (split; [simpl; by eexists|]); by eapply law_update.
Qed.

Lemma hash_final_digest alg m n d s s' :
  hashing alg m s -> hash_final n s = ((PB_OK, d), s') -> d = digest alg m /\ current_hash_ops s' = None.
Proof.
  intros [[o Ho] Hc]. unfold hash_final, call_crypto, set_current. m_unfold. rewrite Ho.
  destruct (cd_final (ho_final o) n (crypto_hw s)) as [[rc d'] h] eqn:E. simpl. intros [= -> -> <-].
  split; [by eapply law_final | done].
Qed.

Lemma hash_chunks_hashing alg m l s s' :
  hashing alg m s -> hash_chunks l s = (PB_OK, s') -> hashing alg (m ++ concat l) s'.
Proof.
  revert m s. induction l as [|c l IH]; intros m s Hh; simpl.
  - intros [= <-]. by rewrite app_nil_r.
  - unfold checked. m_unfold. destruct (hash_update_async c s) as [rc s1] eqn:E.
    destruct (Z.eqb_spec rc PB_OK) as [->|]; [|by intros [= ? _]].
    intros Hl. rewrite app_assoc. eapply IH; [|done]. by eapply hash_update_async_hashing.
Qed.

(** ** Properties *)

(** Hashing is independent of the chunking: whenever init, any sequence
    of updates and final all report success, the digest is that of the
    concatenated message under the requested algorithm, and the context is
    closed, so that a further update is refused with -PB_ERR_STATE. *)
Theorem hash_message_chunking alg chunks len d s s' :
  hash_message alg chunks len s = ((PB_OK, d), s') ->
  d = digest alg (concat chunks) /\
  forall buf, hash_update buf s' = (- PB_ERR_STATE, s') /\ hash_update_async buf s' = (- PB_ERR_STATE, s').
Proof.
  unfold hash_message. m_unfold. destruct (hash_init alg s) as [rc s1] eqn:E1.
  destruct (Z.eqb_spec rc PB_OK) as [->|]; [|by intros [= ? _]]. simpl.
  destruct (hash_chunks chunks s1) as [rc s2] eqn:E2.
  destruct (Z.eqb_spec rc PB_OK) as [->|]; [|by intros [= ? _]]. simpl. intros E3.
  apply hash_init_hashing in E1. eapply hash_chunks_hashing in E2; [|done].
  destruct (hash_final_digest _ _ _ _ _ _ E2 E3) as [-> Hn]. split; [done|].
  intros buf. unfold hash_update, hash_update_async. m_unfold. by rewrite Hn.
Qed.

End crypto.
Arguments CryptoLaws H {cd}.

(** ** A toy provider: the "digest" is the algorithm followed by the sum of
    the message, a signature is valid if it is the key followed by that digest *)

Module ToyCrypto.

Definition ctx := option (Z * list Z).

Definition toy_digest (alg : Z) (m : list Z) : list Z :=
  [alg mod 256; foldr Z.add 0 m mod 256] ++ zeros (digest_size alg - 2).

#[global] Instance driver : CryptoDriver ctx := {|
  cd_init _ alg _ := (PB_OK, Some (alg, []));
  cd_update _ bs h := match h with
                      | Some (alg, m) => (PB_OK, Some (alg, m ++ bs))
                      | None => (- PB_ERR, None)
                      end;
  cd_copy_update _ bs h := match h with
                      | Some (alg, m) => ((PB_OK, bs), Some (alg, m ++ bs))
                      | None => ((- PB_ERR, []), None)
                      end;
  cd_final _ n h := match h with
                    | Some (alg, m) => ((PB_OK, toy_digest alg m), None)
                    | None => ((- PB_ERR, []), None)
                    end;
  cd_verify _ sig key md_alg md h := ((PB_OK, Some (bool_decide (sig = key ++ take 2 md))), h)
|}.

#[global] Instance laws : CryptoLaws ctx.
Proof.
  refine {| digest alg m := toy_digest alg m; cd_ctx h := h |}.
  - intros alg m. unfold toy_digest, digest_size. rewrite length_app. unfold zeros.
    rewrite length_replicate. simpl. by repeat case_if.
  - intros alg m. unfold toy_digest. apply bytes_app; [|apply bytes_zeros].
    repeat (apply Forall_cons; split; [apply Z.mod_pos_bound; lia|]). apply Forall_nil_2.
  - by intros f alg h h' [= <-].
  - intros f alg m bs h h' -> [= <-]. done.
  - intros f alg m n d h h' -> [= <- <-]. done.
Defined.

Definition ops : hash_ops_t := HashOps (Z.lor HASH_SHA256 HASH_SHA512) 1 2 NULL NULL 3.
Definition dsa : dsa_ops_t := DsaOps DSA_EC_SECP256r1 4.

Definition state : crypto_state ctx := CryptoState [Some dsa] 1 [Some ops] 1 None None.

End ToyCrypto.

(** ** Witnesses *)

Lemma hash_message_chunking_witness :
  exists s', hash_message (kc := test_defconfig) HASH_SHA256 [[1; 2]; []; [3]] 64 ToyCrypto.state =
    ((PB_OK, [4; 6] ++ zeros 30), s') /\ [4; 6] ++ zeros 30 = digest HASH_SHA256 [1; 2; 3].
Proof.
  eexists. split; [reflexivity|].
  exact (proj1 (hash_message_chunking (kc := test_defconfig) HASH_SHA256 [[1; 2]; []; [3]] 64 ([4; 6] ++ zeros 30)
    ToyCrypto.state _ eq_refl)).
Defined.
