(* ===== verification/DeviceUuid.v ===== *)
(** * The device identity

    [src/lib/uuid/uuid3.c] (name-based UUIDs) and [src/device_uuid.c] (the
    cached UUID of this device).  The platform's unique id and its name space
    are code of the platform port. *)

From S2P Require Import Prelude Errors Uuid Bio Crypto.
Local Open Scope c_scope.

(** ** Definitions *)

(** The fields are little-endian in memory: [time_hi_and_version] is the two
    bytes at offset 6, [clock_seq_hi_and_res] the byte at offset 8. *)
Definition stamp_version3 (raw : list Z) : list Z :=
  let hi := Z.lor (Z.land (le_val (slice 6 2 raw)) 0xFF0F) 0x0030 in
  let raw := splice 6 (le_bytes 2 hi) raw in
  splice 8 [Z.lor (Z.land (byte_at raw 8) 0x3F) 0x80] raw.

Section uuid3.
Context {kc : Kconfig} {H : Type} {cd : CryptoDriver H}.

(** [output_uu] is the buffer before the call; the result has it after. *)
Definition uuid_gen_uuid3 (namespace_uu unique output_uu : list Z) : M (crypto_state H) (Z * list Z) :=
  err <- hash_init HASH_MD5 ;;
  if negb (err =? PB_OK) then ret (err, output_uu) else
  err <- hash_update (take 16 namespace_uu) ;;
  if negb (err =? PB_OK) then ret (err, output_uu) else
  err <- hash_update unique ;;
  if negb (err =? PB_OK) then ret (err, output_uu) else
  let* (err, d) := hash_final 16 in
  let output_uu := splice 0 d output_uu in
  if negb (err =? PB_OK) then ret (err, output_uu) else
  ret (PB_OK, stamp_version3 output_uu).

(** The static [device_uu]. *)
Record device_uuid_vars := DeviceUuidVars { du_uu : uuid_t }.

Context {W : Type} `{!Has (crypto_state H) W, !Has device_uuid_vars W}.

(** [plat_get_unique_id]: the return code and the [plat_unique_len] bytes. *)
Context (plat_get_unique_id : M W (Z * list Z)) (platform_ns_uuid : list Z).

Definition set_du (u : uuid_t) : M W unit := lift (put (DeviceUuidVars u)).

(** The return code and what was stored at [uu], if anything. *)
Definition device_uuid : M W (Z * option uuid_t) :=
  v <- lift get ;;
  rc <- (if uuid_is_null (du_uu v) then
           let* (rc, plat_unique) := plat_get_unique_id in
           if negb (rc =? PB_OK) then ret rc else
           v <- lift get ;;
           let* (rc, u) := lift (uuid_gen_uuid3 platform_ns_uuid plat_unique (du_uu v)) in
           set_du u ;;;
           if negb (rc =? 0) then (set_du uuid_clear ;;; ret rc) else ret PB_OK
         else ret PB_OK) ;;
  if negb (rc =? PB_OK) then ret (rc, None) else
  v <- lift get ;;
  ret (PB_OK, Some (uuid_copy (du_uu v))).

(** ** Lemmas *)

(** The version nibble and the variant bits of a UUID. *)
Definition uuid_version (u : uuid_t) : Z := byte_at u 6 / 16.
Definition uuid_variant (u : uuid_t) : Z := byte_at u 8 / 64.

(** A decidable fact about all values of [bits] bits. *)
Lemma forall_bits (P : Z -> bool) n v :
  forallb P (seqZ 0 n) = true -> 0 <= v < n -> P v = true.
Proof.
  intros Hall Hv. rewrite forallb_forall in Hall. apply Hall, list_elem_of_In, elem_of_seqZ. lia.
Qed.

Lemma version_bits lo up : 0 <= lo < 256 -> 0 <= up < 256 ->
  let hi := Z.lor (Z.land (lo + 256 * (up + 256 * 0)) 0xFF0F) 0x0030 in
  hi mod 256 = 48 + lo mod 16 /\ hi / 256 mod 256 = up.
Proof.
  intros Hlo Hup hi.
  pose proof (forall_bits (fun up => forallb (fun lo =>
    let hi := Z.lor (Z.land (lo + 256 * (up + 256 * 0)) 0xFF0F) 0x0030 in
    (hi mod 256 =? 48 + lo mod 16) && (hi / 256 mod 256 =? up)) (seqZ 0 256)) 256 up) as HP.
  specialize (HP ltac:(vm_compute; reflexivity) Hup).
  apply (forall_bits _ _ _ HP) in Hlo. cbv beta zeta in Hlo. fold hi in Hlo. zbool. done.
Qed.

Lemma variant_bits v : 0 <= v < 256 ->
  let r := Z.lor (Z.land v 0x3F) 0x80 in r = 128 + v mod 64.
Proof.
  intros Hv r.
  pose proof (forall_bits (fun v => Z.lor (Z.land v 0x3F) 0x80 =? 128 + v mod 64) 256 v) as HP.
  specialize (HP ltac:(vm_compute; reflexivity) Hv). cbv beta in HP. zbool. done.
Qed.

(** Byte 6 and byte 8 are stamped, the others stay. *)
Lemma stamp_version3_eq a0 a1 a2 a3 a4 a5 a6 a7 a8 rest :
  is_byte a6 -> is_byte a7 -> is_byte a8 ->
  stamp_version3 ([a0; a1; a2; a3; a4; a5; a6; a7; a8] ++ rest) =
  [a0; a1; a2; a3; a4; a5; 48 + a6 mod 16; a7; 128 + a8 mod 64] ++ rest.
Proof.
  unfold is_byte. intros H6 H7 H8. unfold stamp_version3, slice, splice, byte_at.
  cbn -[Z.lor Z.land Z.div Z.modulo Z.mul Z.add]. rewrite variant_bits by done.
  destruct (version_bits a6 a7 H6 H7) as [-> ->]. by rewrite drop_0.
Qed.

Lemma stamp_version3_wf raw : uuid_wf raw ->
  uuid_wf (stamp_version3 raw) /\ uuid_version (stamp_version3 raw) = 3 /\
  uuid_variant (stamp_version3 raw) = 2 /\ uuid_is_null (stamp_version3 raw) = false.
Proof.
  intros Hwf. pose proof Hwf as [_ Hb]. apply uuid_wf_cases in Hwf.
  destruct Hwf as (a0&a1&a2&a3&a4&a5&a6&a7&a8&a9&b0&b1&b2&b3&b4&b5&->).
  repeat (apply Forall_cons in Hb as [? Hb]).
  change [a0; a1; a2; a3; a4; a5; a6; a7; a8; a9; b0; b1; b2; b3; b4; b5]
    with ([a0; a1; a2; a3; a4; a5; a6; a7; a8] ++ [a9; b0; b1; b2; b3; b4; b5]).
  rewrite stamp_version3_eq by done. unfold is_byte in *.
  pose proof (Z.mod_pos_bound a6 16 ltac:(lia)). pose proof (Z.mod_pos_bound a8 64 ltac:(lia)).
  split_and!.
  - split; [done|]. cbn [app]. repeat (apply Forall_cons_2; [unfold is_byte; lia|]). apply Forall_nil_2.
  - unfold uuid_version, byte_at. cbn [app nth]. Z.div_mod_to_equations. lia.
  - unfold uuid_variant, byte_at. cbn [app nth]. Z.div_mod_to_equations. lia.
  - apply not_true_is_false. intros Hn. unfold uuid_is_null in Hn. rewrite forallb_forall in Hn.
    specialize (Hn (48 + a6 mod 16) ltac:(simpl; tauto)). lia.
Qed.

Context {cl : CryptoLaws H}.

Lemma uuid_gen_uuid3_ok ns unique out u s s' :
  length out = 16%nat -> uuid_gen_uuid3 ns unique out s = ((PB_OK, u), s') ->
  u = stamp_version3 (digest HASH_MD5 (take 16 ns ++ unique)).
Proof.
  intros Hl. unfold uuid_gen_uuid3. m_unfold.
  destruct (hash_init HASH_MD5 s) as [rc s1] eqn:E1. rc_ok rc.
  destruct (hash_update _ s1) as [rc s2] eqn:E2. rc_ok rc.
  destruct (hash_update unique s2) as [rc s3] eqn:E3. rc_ok rc.
  destruct (hash_final 16 s3) as [[rc d] s4] eqn:E4. rc_ok rc. intros [= <- _].
  apply hash_init_hashing in E1. eapply hash_update_hashing in E2; [|done].
  eapply hash_update_hashing in E3; [|done]. apply (hash_final_digest _ _ _ _ _ _ E3) in E4 as [-> _].
  f_equal. unfold splice. rewrite (law_digest_size (H := H)). change (digest_size HASH_MD5) with 16%nat.
  cbn [take app Nat.add]. by rewrite drop_ge, app_nil_r by lia.
Qed.

Context `{!HasLaws (crypto_state H) W, !HasLaws device_uuid_vars W}.

Definition cached (w : W) : uuid_t := du_uu (proj w).

(** The two components are different static variables, and the platform's
    code does not touch [device_uu]. *)
Definition independent : Prop :=
  (forall (s : crypto_state H) (w : W), cached (upd s w) = cached w) /\ Keeps cached plat_get_unique_id.

Lemma device_uuid_cached w :
  uuid_wf (cached w) -> uuid_is_null (cached w) = false -> device_uuid w = ((PB_OK, Some (cached w)), w).
Proof.
  intros Hwf Hn. unfold device_uuid, lift. m_unfold. fold (cached w). rewrite Hn.
  change (negb (PB_OK =? PB_OK)) with false. cbv beta iota. rewrite !upd_proj. fold (cached w).
  unfold uuid_copy. by rewrite take_ge by (destruct Hwf as [-> _]; done).
Qed.

Lemma device_uuid_fresh w u w' :
  uuid_wf (cached w) -> independent -> uuid_is_null (cached w) = true ->
  device_uuid w = ((PB_OK, Some u), w') ->
  cached w' = u /\ exists unique, (plat_get_unique_id w).1 = (PB_OK, unique) /\
    u = stamp_version3 (digest HASH_MD5 (take 16 platform_ns_uuid ++ unique)).
Proof.
  intros Hwf [Hi Hp] Hn. unfold device_uuid, set_du, lift. m_unfold. fold (cached w). rewrite Hn, upd_proj.
  pose proof (Hp w) as Hc. destruct (plat_get_unique_id w) as [[rc unique] w1]. cbn [snd] in Hc.
  destruct (Z.eqb_spec rc PB_OK) as [->|Hrc]; cbn [negb].
  2:{ destruct (Z.eqb_spec rc PB_OK); [done|]. by intros [= ? _]. }
  rewrite upd_proj. fold (cached w1).
  destruct (uuid_gen_uuid3 _ _ _ (proj w1)) as [[rc g] s1] eqn:Eg.
  destruct (Z.eqb_spec rc 0) as [->|Hrc]; cbn [negb].
  2:{ destruct (Z.eqb_spec rc PB_OK); [done|]. by intros [= ? _]. }
  apply uuid_gen_uuid3_ok in Eg as ->; [|rewrite Hc; apply Hwf].
  change (PB_OK =? PB_OK) with true. cbn [negb]. rewrite upd_proj, proj_upd. cbn [du_uu].
  intros [= <- <-].
  set (g := stamp_version3 _). assert (uuid_copy g = g) as ->.
  { unfold uuid_copy. apply take_ge. unfold g, HASH_MD5.
    destruct (stamp_version3_wf (digest 1 (take 16 platform_ns_uuid ++ unique))) as [[-> _] _]; [|done].
    split; [by rewrite (law_digest_size (H := H)) | apply (law_digest_bytes (H := H))]. }
  split; [unfold cached; by rewrite proj_upd|]. by exists unique.
Qed.

(** ** Properties *)

(** The device identity is stable and well formed: a successful
    [device_uuid] yields a version 3, RFC 4122 variant UUID that is the MD5
    digest of name space and platform id with the version and variant bits
    stamped in (when it was not cached yet), remembers it, and every later
    call returns the same UUID without asking the platform or changing any
    state. *)
Theorem device_uuid_stable w u w' :
  uuid_wf (cached w) -> independent ->
  device_uuid w = ((PB_OK, Some u), w') ->
  (uuid_is_null (cached w) = false -> u = cached w) /\
  (uuid_is_null (cached w) = true ->
   uuid_version u = 3 /\ uuid_variant u = 2 /\
   exists unique, (plat_get_unique_id w).1 = (PB_OK, unique) /\
     u = stamp_version3 (digest HASH_MD5 (take 16 platform_ns_uuid ++ unique))) /\
  device_uuid w' = ((PB_OK, Some u), w').
Proof.
  intros Hwf Hi E. destruct (uuid_is_null (cached w)) eqn:Hn.
  - destruct (device_uuid_fresh w u w' Hwf Hi Hn E) as (Hc & unique & Hp & ->).
    assert (Hd : uuid_wf (digest HASH_MD5 (take 16 platform_ns_uuid ++ unique)))
      by (split; [by rewrite (law_digest_size (H := H)) | apply (law_digest_bytes (H := H))]).
    destruct (stamp_version3_wf _ Hd) as (Hs & Hv & Hr & Hnn).
    split_and!; [done | intros _; split_and!; eauto |].
    rewrite <- Hc in *. by apply device_uuid_cached.
  - rewrite device_uuid_cached in E by done. injection E as <- <-.
    split_and!; [done | done |]. by apply device_uuid_cached.
Qed.

End uuid3.

(** ** A witness: a platform with a four-byte unique id *)

Module ToyDevice.
Definition W : Type := crypto_state ToyCrypto.ctx * device_uuid_vars.
#[export] Instance has_crypto : Has (crypto_state ToyCrypto.ctx) W :=
  {| proj w := w.1; upd s w := (s, w.2) |}.
#[export] Instance has_vars : Has device_uuid_vars W := {| proj w := w.2; upd s w := (w.1, s) |}.
#[export] Instance has_crypto_laws : HasLaws (crypto_state ToyCrypto.ctx) W.
Proof. split; by intros; repeat match goal with w : W |- _ => destruct w end. Qed.
#[export] Instance has_vars_laws : HasLaws device_uuid_vars W.
Proof. split; by intros; repeat match goal with w : W |- _ => destruct w end. Qed.

(** [src/plat/qemu/plat.c] *)
Definition qemu_ns : list Z :=
  [0x3f; 0xaf; 0xc6; 0xd3; 0xc3; 0x42; 0x4e; 0xdf; 0xa5; 0xa6; 0x0e; 0xb1; 0x39; 0xa7; 0x83; 0xb5].
Definition unique : M W (Z * list Z) := ret (PB_OK, [1; 2; 3; 4]).
Definition ops : hash_ops_t := HashOps HASH_MD5 1 2 NULL NULL 3.
Definition start : W := (CryptoState [] 0 [Some ops] 1 None None, DeviceUuidVars uuid_clear).
Definition run := device_uuid (kc := test_defconfig) (W := W) unique qemu_ns.
End ToyDevice.

Section witnesses.
Import ToyDevice.

Lemma device_uuid_stable_witness :
  exists u w', ToyDevice.run ToyDevice.start = ((PB_OK, Some u), w') /\
    uuid_version u = 3 /\ uuid_variant u = 2 /\ ToyDevice.run w' = ((PB_OK, Some u), w').
Proof.
  destruct (ToyDevice.run ToyDevice.start) as [[rc u] w'] eqn:E.
  assert (rc = PB_OK) as -> by (change rc with (((rc, u), w').1.1); rewrite <- E; vm_compute; reflexivity).
  destruct u as [u|]; [|vm_compute in E; discriminate E].
  destruct (device_uuid_stable (kc := test_defconfig) (H := ToyCrypto.ctx) (W := ToyDevice.W) ToyDevice.unique ToyDevice.qemu_ns
    ToyDevice.start u w') as (_ & H2 & H3).
  - split; [reflexivity | apply bytes_zeros].
  - split; [by intros s [? ?] | by intros w].
  - exact E.
  - destruct (H2 eq_refl) as (Hv & Hr & _). exists u, w'. split_and!; [reflexivity | exact Hv | exact Hr | exact H3].
Defined.

End witnesses.
