(* ===== verification/Der.v ===== *)
(** * DER decoding of keys and signatures

    [src/lib/der_helpers.c], and the signature decoder of the CAAM driver
    ([src/drivers/crypto/caam/imx_caam.c]), which walk over DER bytes with a
    pointer and copy the integers and the key out.  A pointer is an address;
    the bytes are those of the memory it points into. *)

From S2P Require Import Prelude Errors Ram Uuid Crypto.

(** ** Definitions *)

(** The addresses of the constants. *)
Class DerConsts := {
  ec_identifier_at : Z;
  secp256r1_oid_at : Z;
  secp384r1_oid_at : Z;
  secp521r1_oid_at : Z
}.

Section der.
Context {arch : Arch} {dc : DerConsts}.

(** The length octets at [p]: an error code, or the length and the pointer
    behind them. *)
Definition asn1_size (m : ram_t) (p : Z) : Z + Z * Z :=
  if Z.land (m p) 0x80 =? 0 then inr (m p, p + 1) else
  let n := Z.land (m p) 0x7F in
  if n =? 1 then inr (m (p + 1), p + 2)
  else if n =? 2 then inr (Z.lor (Z.shiftl (m (p + 1)) 8) (m (p + 2)), p + 3)
  else if n =? 3 then
    inr (Z.lor (Z.lor (Z.shiftl (m (p + 1)) 16) (Z.shiftl (m (p + 2)) 8)) (m (p + 3)), p + 4)
  else if n =? 4 then
    inr (Z.lor (Z.lor (Z.lor (Z.shiftl (m (p + 1)) 24) (Z.shiftl (m (p + 2)) 16))
                      (Z.shiftl (m (p + 3)) 8)) (m (p + 4)), p + 5)
  else inl (- PB_ERR_ASN1).

(** [*p++ != tag], then the length: the common step of the decoders, with the
    error code of a wrong tag. *)
Definition expect (m : ram_t) (p tag err : Z) : Z + Z * Z :=
  if negb (m p =? tag) then inl err else asn1_size m (p + 1).

(** [memcpy(dst, src, n)] *)
Definition memcpy (m : ram_t) (dst src n : Z) : ram_t := ram_write dst (ram_read m src (Z.to_nat n)) m.

(** The leading zero of a positive integer, as [(p, sz)]. *)
Definition skip_zero (m : ram_t) (suppress : bool) (p sz : Z) : Z * Z :=
  if (m p =? 0) && negb (Z.land (m (p + 1)) 0x80 =? 0) && suppress then (p + 1, usz (sz - 1)) else (p, sz).

Definition der_ecsig_to_rs (m : ram_t) (sig r s length : Z) (suppress_leading_zero : bool) : Z * ram_t :=
  match expect m sig 0x30 (- PB_ERR_ASN1) with
  | inl rc => (rc, m)
  | inr (_, p) =>
      match expect m p 0x02 (- PB_ERR_ASN1) with
      | inl rc => (rc, m)
      | inr (sz, p) =>
          let '(p, sz) := skip_zero m suppress_leading_zero p sz in
          if length <? sz then (- PB_ERR_BUF_TOO_SMALL, m) else
          let m := memcpy m r p sz in
          match expect m (p + sz) 0x02 (- PB_ERR_ASN1) with
          | inl rc => (rc, m)
          | inr (sz, p) =>
              let '(p, sz) := skip_zero m suppress_leading_zero p sz in
              if length <? sz then (- PB_ERR_BUF_TOO_SMALL, m) else
              (PB_OK, memcpy m s p sz)
          end
      end
  end.

(** [MAX((int)(a - b), 0)] on [size_t] operands *)
Definition excess (a b : Z) : Z := Z.max (s32 (usz (a - b))) 0.

(** [memcpy(&r[MAX(..)], &p[MAX(..)], sz)] *)
Definition copy_aligned (m : ram_t) (dst rs_length p sz : Z) : ram_t :=
  memcpy m (dst + excess rs_length sz) (p + excess sz rs_length) sz.

Definition caam_der_ecsig_to_rs (m : ram_t) (sig rs_length r s : Z) : Z * ram_t :=
  match expect m sig 0x30 (- PB_ERR_ASN1) with
  | inl rc => (rc, m)
  | inr (_, p) =>
      match expect m p 0x02 (- PB_ERR_ASN1) with
      | inl rc => (rc, m)
      | inr (sz, p) =>
          let m := copy_aligned m r rs_length p sz in
          match expect m (p + sz) 0x02 (- PB_ERR_ASN1) with
          | inl rc => (rc, m)
          | inr (sz, p) => (PB_OK, copy_aligned m s rs_length p sz)
          end
      end
  end.

(** The constants: the bytes, and where the linker put them. *)
Definition ec_identifier : list Z := [0x2a; 0x86; 0x48; 0xce; 0x3d; 0x02; 0x01; 0].
Definition secp256r1_oid : list Z := [0x2a; 0x86; 0x48; 0xce; 0x3d; 0x03; 0x01; 0x07; 0].
Definition secp384r1_oid : list Z := [0x2b; 0x81; 0x04; 0x00; 0x22; 0].
Definition secp521r1_oid : list Z := [0x2b; 0x81; 0x04; 0x00; 0x23; 0].

(** [memcmp(p, id, s) == 0] *)
Definition same_id (m : ram_t) (p id s : Z) : bool :=
  memcmp (ram_read m p (Z.to_nat s)) (ram_read m id (Z.to_nat s)) (Z.to_nat s) =? 0.

(** The curve named at [p]. *)
Definition curve_of (m : ram_t) (p s : Z) : option Z :=
  if same_id m p secp256r1_oid_at s then Some DSA_EC_SECP256r1
  else if same_id m p secp384r1_oid_at s then Some DSA_EC_SECP384r1
  else if same_id m p secp521r1_oid_at s then Some DSA_EC_SECP521r1
  else None.

(** The return code, the key kind if it was written, and the memory. *)
Definition der_ec_public_key_data (m : ram_t) (pub_key_der output output_length : Z) : Z * option Z * ram_t :=
  match expect m pub_key_der 0x30 (- PB_ERR_ASN1) with
  | inl rc => (rc, None, m)
  | inr (_, p) =>
  match expect m p 0x30 (- PB_ERR_ASN1) with
  | inl rc => (rc, None, m)
  | inr (_, p) =>
  match expect m p 0x06 (-1) with
  | inl rc => (rc, None, m)
  | inr (s, p) =>
  if negb (same_id m p ec_identifier_at s) then (- PB_ERR_ASN1, None, m) else
  match expect m (p + s) 0x06 (-1) with
  | inl rc => (rc, None, m)
  | inr (s, p) =>
  match curve_of m p s with
  | None => (- PB_ERR_NOT_IMPLEMENTED, None, m)
  | Some kind =>
  match expect m (p + s) 0x03 (-1) with
  | inl rc => (rc, Some kind, m)
  | inr (s, p) =>
  let p := p + 2 in
  let s := usz (s - 2) in
  if output_length <? s then (- PB_ERR_BUF_TOO_SMALL, Some kind, m) else
  (PB_OK, Some kind, memcpy m output p s)
  end end end end end end.

(** ** Reading DER *)

(** The bytes [l] lie at address [p]. *)
Definition at_ (m : ram_t) (p : Z) (l : list Z) : Prop := ram_read m p (length l) = l.

Lemma at_cons m p x l : at_ m p (x :: l) <-> m p = x /\ at_ m (p + 1) l.
Proof.
  unfold at_. change (length (x :: l)) with (1 + length l)%nat. rewrite ram_read_app.
  unfold ram_read at 1. cbn [seq map app]. rewrite Z.add_0_r. change (Z.of_nat 1) with 1.
  split; [by intros [= -> ->]|by intros [-> ->]].
Qed.

Lemma at_app m p l k : at_ m p (l ++ k) <-> at_ m p l /\ at_ m (p + Z.of_nat (length l)) k.
Proof.
  unfold at_. rewrite length_app, ram_read_app. split.
  - intros H. apply app_inj_1 in H; [done|]. by rewrite length_ram_read.
  - by intros [-> ->].
Qed.

(** Length octets in their shortest form, up to 65535. *)
Definition der_len (n : Z) : list Z :=
  if n <? 128 then [n] else if n <? 256 then [0x81; n] else [0x82; n / 256; n mod 256].

(** A tag with its contents. *)
Definition tlv (tag : Z) (l : list Z) : list Z := tag :: der_len (Z.of_nat (length l)) ++ l.

Lemma asn1_size_der m p n : 0 <= n < 2 ^ 16 -> at_ m p (der_len n) ->
  asn1_size m p = inr (n, p + Z.of_nat (length (der_len n))).
Proof.
  intros Hn. unfold der_len, asn1_size. destruct (Z.ltb_spec n 128); [|destruct (Z.ltb_spec n 256)]; intros H'.
  - apply at_cons in H' as [-> _]. change 0x80 with (2 ^ 7).
    assert (Z.land n (2 ^ 7) = 0) as ->; [|reflexivity].
    apply Z.bits_inj_iff'. intros i Hi. rewrite Z.land_spec, Z.bits_0, Z.pow2_bits_eqb by lia.
    destruct (Z.eqb_spec 7 i) as [<-|]; [|apply andb_false_r]. by rewrite (bits_above n 7) by lia.
  - apply at_cons in H' as [-> H']. apply at_cons in H' as [-> _]. reflexivity.
  - apply at_cons in H' as [-> H']. apply at_cons in H' as [-> H']. apply at_cons in H' as [H3 _].
    replace (p + 1 + 1) with (p + 2) in H3 by lia. rewrite H3. cbn -[Z.div Z.modulo Z.lor Z.shiftl].
    rewrite lor_shiftl_low by (try apply Z.mod_pos_bound; lia). do 3 f_equal. pose proof (Z.div_mod n 256). lia.
Qed.

Lemma expect_tlv m p tag err l : Z.of_nat (length l) < 2 ^ 16 -> at_ m p (tlv tag l) ->
  exists q, expect m p tag err = inr (Z.of_nat (length l), q) /\ at_ m q l /\
    q + Z.of_nat (length l) = p + Z.of_nat (length (tlv tag l)).
Proof.
  intros Hl H. unfold tlv in H. apply at_cons in H as [Ht H]. apply at_app in H as [H1 H2].
  eexists. unfold expect. rewrite Ht, Z.eqb_refl. cbn [negb]. rewrite (asn1_size_der m (p + 1) (Z.of_nat (length l))) by (done || lia).
  split; [reflexivity|]. split; [exact H2|]. unfold tlv. cbn [length]. rewrite length_app. lia.
Qed.

(** ** Signatures *)

(** A big-endian number of [length l] bytes without its leading zeros, and its
    contents octets as an INTEGER: a zero in front if the top bit is set. *)
Fixpoint strip (l : list Z) : list Z :=
  match l with
  | 0 :: l => strip l
  | _ => l
  end.
Definition int_octets (l : list Z) : list Z :=
  let l := strip l in
  if 0x80 <=? hd 0 l then 0 :: l else l.

Definition der_sig (r s : list Z) : list Z := tlv 0x30 (tlv 0x02 (int_octets r) ++ tlv 0x02 (int_octets s)).

Lemma strip_zeros l : exists k, l = zeros k ++ strip l.
Proof.
  induction l as [|x l [k IH]]; [by exists 0%nat|]. destruct x as [|x|x]; [|by exists 0%nat..].
  exists (S k). cbn [strip]. rewrite IH at 1. done.
Qed.

Lemma int_octets_length l : (length (int_octets l) <= S (length l))%nat.
Proof.
  unfold int_octets. destruct (strip_zeros l) as [k E]. apply (f_equal length) in E. unfold zeros in E. rewrite length_app, length_replicate in E.
  destruct (_ <=? _); cbn [length]; lia.
Qed.

Lemma zeros_S_app k (l : list Z) : zeros (S k) ++ l = zeros k ++ 0 :: l.
Proof. induction k as [|k IH]; [done|]. exact (f_equal (cons 0) IH). Qed.

(** Right-aligned in [length l] bytes, the octets are the number. *)
Lemma int_octets_aligned l : l = zeros (length l - length (int_octets l)) ++ drop (length (int_octets l) - length l) (int_octets l).
Proof.
  unfold int_octets. destruct (strip_zeros l) as [k E]. pose proof (f_equal length E) as El. unfold zeros in El. rewrite length_app, length_replicate in El.
  destruct (_ <=? _); cbn [length].
  - destruct k as [|k].
    + replace (length l - S (length (strip l)))%nat with 0%nat by lia.
      replace (S (length (strip l)) - length l)%nat with 1%nat by lia. exact E.
    + replace (length l - S (length (strip l)))%nat with k by lia.
      replace (S (length (strip l)) - length l)%nat with 0%nat by lia. rewrite E at 1. rewrite drop_0. apply zeros_S_app.
  - replace (length l - length (strip l))%nat with k by lia. replace (length (strip l) - length l)%nat with 0%nat by lia. exact E.
Qed.

Lemma excess_small a b : 0 <= a < 2 ^ 16 -> 0 <= b < 2 ^ 16 -> excess a b = Z.max (a - b) 0.
Proof.
  intros Ha Hb. unfold excess, usz, s32. destruct (Z.leb_spec b a).
  - rewrite (Z.mod_small (a - b)) by (pose proof ptr_bits_ge32; lia). rewrite Z.mod_small; lia.
  - pose proof ptr_bits_ge32. assert (E : (a - b) mod 2 ^ ptr_bits = a - b + 2 ^ ptr_bits).
    { rewrite <- (Z.mod_small (a - b + 2 ^ ptr_bits) (2 ^ ptr_bits)) by lia. rewrite <- (Z_mod_plus_full (a - b) 1). f_equal. lia. }
    rewrite E. destruct ptr_bits_ok as [-> | ->].
    + replace ((a - b + 2 ^ 32 + 2 ^ 31) mod 2 ^ 32) with ((a - b + 2 ^ 31) mod 2 ^ 32).
      * rewrite Z.mod_small; lia.
      * rewrite <- (Z_mod_plus_full (a - b + 2 ^ 31) 1 (2 ^ 32)). f_equal. lia.
    + replace ((a - b + 2 ^ 64 + 2 ^ 31) mod 2 ^ 32) with ((a - b + 2 ^ 31) mod 2 ^ 32).
      * rewrite Z.mod_small; lia.
      * rewrite <- (Z_mod_plus_full (a - b + 2 ^ 31) (2 ^ 32) (2 ^ 32)). f_equal. lia.
Qed.

(** One integer: the buffer then holds the number, right-aligned; at most one
    byte behind it is written. *)
Lemma copy_aligned_ok m dst p l : 0 < Z.of_nat (length l) < 2 ^ 15 -> at_ m p (int_octets l) -> at_ m dst (zeros (length l)) ->
  let m' := copy_aligned m dst (Z.of_nat (length l)) p (Z.of_nat (length (int_octets l))) in
  at_ m' dst l /\ forall a, a < dst \/ dst + Z.of_nat (length l) < a -> m' a = m a.
Proof.
  intros Hl Hp Hz m'. pose proof (int_octets_length l) as Hlen. set (o := int_octets l) in *. set (L := length l) in *.
  unfold m', copy_aligned, memcpy. rewrite !excess_small, Nat2Z.id by lia.
  set (bs := ram_read m (p + Z.max (Z.of_nat (length o) - Z.of_nat L) 0) (length o)).
  assert (Hbs : length bs = length o) by apply length_ram_read.
  split; [|intros a Ha; apply ram_write_out; rewrite Hbs; lia].
  assert (Hal : l = zeros (L - length o) ++ drop (length o - L) o) by apply int_octets_aligned.
  assert (Hpre : take L (zeros (L - length o) ++ bs) = l).
  { rewrite Hal. destruct (decide (length o <= L)%nat).
    - replace (length o - L)%nat with 0%nat by lia. rewrite drop_0. rewrite take_ge by (rewrite length_app; unfold zeros; rewrite length_replicate; lia).
      f_equal. unfold bs. replace (Z.max _ 0) with 0 by lia. by rewrite Z.add_0_r.
    - replace (L - length o)%nat with 0%nat by lia. replace (length o - L)%nat with 1%nat by lia. cbn [zeros replicate app].
      unfold bs. replace (Z.max _ 0) with 1 by lia. rewrite take_ram_read by lia. unfold at_ in Hp.
      rewrite <- Hp. rewrite drop_ram_read by lia. f_equal. lia. }
  unfold at_. fold L. rewrite <- Hpre.
  assert (Hin : at_ (ram_write (dst + Z.max (Z.of_nat L - Z.of_nat (length o)) 0) bs m) dst (zeros (L - length o) ++ bs)).
  { apply at_app. unfold zeros. rewrite length_replicate. replace (Z.max _ 0) with (Z.of_nat (L - length o)) by lia. split.
    - unfold at_. rewrite length_replicate, ram_read_write_out by lia. unfold at_, zeros in Hz. rewrite length_replicate in Hz.
      rewrite <- (take_ram_read m dst L) by lia. rewrite Hz, take_replicate. f_equal. lia.
    - unfold at_. apply ram_write_in. }
  unfold at_ in Hin. rewrite <- Hin, take_ram_read; [done|]. rewrite length_app, Hbs. unfold zeros. rewrite length_replicate. lia.
Qed.

Lemma tlv_length_eq tag l : length (tlv tag l) = S (length (der_len (Z.of_nat (length l))) + length l).
Proof. unfold tlv. cbn [length]. by rewrite length_app. Qed.

Lemma tlv_length tag l : Z.of_nat (length l) < 2 ^ 15 -> (length (tlv tag l) <= length l + 4)%nat.
Proof. intros Hl. unfold tlv, der_len. cbn [length]. rewrite length_app. repeat destruct (_ <? _); cbn [length]; lia. Qed.

Lemma at_ext m m' p l : (forall a, p <= a < p + Z.of_nat (length l) -> m' a = m a) -> at_ m p l -> at_ m' p l.
Proof. intros E H. unfold at_. rewrite <- H at 2. apply ram_read_ext. intros a Ha. by apply E. Qed.

(** The CAAM driver reads ECDSA signatures back: for every pair of
    numbers of [rs_length] bytes, decoding their DER encoding (shortest
    lengths, leading zeros removed, a zero in front of a set top bit) into two
    zeroed buffers succeeds and leaves exactly the two numbers, right-aligned,
    provided the buffers have one byte to spare and lie apart. *)
Theorem caam_ecsig_roundtrip m sig r s rb sb :
  let L := Z.of_nat (length rb) in
  length sb = length rb -> 0 < L < 2 ^ 13 -> at_ m sig (der_sig rb sb) ->
  at_ m r (zeros (length rb)) -> at_ m s (zeros (length rb)) ->
  (r + L < s \/ s + L < r) -> (r + L < sig \/ sig + Z.of_nat (length (der_sig rb sb)) <= r) ->
  exists m', caam_der_ecsig_to_rs m sig L r s = (PB_OK, m') /\ at_ m' r rb /\ at_ m' s sb.
Proof.
  intros L Hlen HL Hsig Hr Hs Hrs Hrsig. unfold caam_der_ecsig_to_rs, der_sig in *.
  pose proof (int_octets_length rb). pose proof (int_octets_length sb).
  pose proof (tlv_length 0x02 (int_octets rb) ltac:(lia)). pose proof (tlv_length 0x02 (int_octets sb) ltac:(lia)).
  destruct (expect_tlv m sig 0x30 (- PB_ERR_ASN1) (tlv 0x02 (int_octets rb) ++ tlv 0x02 (int_octets sb)))
    as (p & -> & Hp & Ep); [rewrite length_app; lia|done|].
  apply at_app in Hp as [Hp1 Hp2].
  destruct (expect_tlv m p 0x02 (- PB_ERR_ASN1) (int_octets rb) ltac:(lia) Hp1) as (q & -> & Hq & Eq).
  destruct (copy_aligned_ok m r q rb ltac:(lia) Hq Hr) as [Hrb Ho]. fold L in Hrb, Ho.
  set (m1 := copy_aligned m r L q _) in *. rewrite Eq.
  assert (Hp2' : at_ m1 (p + Z.of_nat (length (tlv 0x02 (int_octets rb)))) (tlv 0x02 (int_octets sb))).
  { apply (at_ext m); [|done]. intros a Ha. apply Ho.
    rewrite tlv_length_eq in Ep, Hrsig. rewrite length_app in Ep, Hrsig. lia. }
  destruct (expect_tlv m1 _ 0x02 (- PB_ERR_ASN1) (int_octets sb) ltac:(lia) Hp2') as (q2 & -> & Hq2 & _).
  assert (Hs1 : at_ m1 s (zeros (length sb))).
  { rewrite Hlen. apply (at_ext m); [|done]. unfold zeros. rewrite length_replicate. intros a Ha. apply Ho. lia. }
  destruct (copy_aligned_ok m1 s q2 sb ltac:(lia) Hq2 Hs1) as [Hsb Ho2]. rewrite Hlen in Hsb, Ho2. fold L in Hsb, Ho2.
  eexists. split; [reflexivity|]. split; [|exact Hsb]. apply (at_ext m1); [|done]. intros a Ha. apply Ho2. lia.
Qed.

(** Its buffers are not protected: the length of an INTEGER is taken from
    the signature as it is.  For every length [sz] from [rs_length] up, the
    decoder writes [sz] bytes from [r] on, with the bytes behind the integer's
    first [sz - rs_length] ones, whatever it returns. *)
Theorem caam_ecsig_overflow m sig r s L n sz :
  0 <= n < 2 ^ 16 -> 0 < L <= sz -> sz < 2 ^ 15 ->
  at_ m sig (0x30 :: der_len n ++ 0x02 :: der_len sz) ->
  let p := sig + Z.of_nat (2 + length (der_len n) + length (der_len sz)) in
  forall j, 0 <= j < sz -> r + j < s -> (caam_der_ecsig_to_rs m sig L r s).2 (r + j) = m (p + (sz - L) + j).
Proof.
  intros Hn HL Hsz Hat p j Hj Hjs. unfold caam_der_ecsig_to_rs, expect.
  apply at_cons in Hat as [-> Hat]. apply at_app in Hat as [Hn1 Hat]. cbn [Z.eqb Pos.eqb negb].
  rewrite (asn1_size_der m (sig + 1) n) by (done || lia). apply at_cons in Hat as [-> Hat]. cbn [Z.eqb Pos.eqb negb].
  rewrite (asn1_size_der m _ sz) by (done || lia).
  replace (sig + 1 + Z.of_nat (length (der_len n)) + 1 + Z.of_nat (length (der_len sz))) with p by lia.
  assert (Hc : copy_aligned m r L p sz (r + j) = m (p + (sz - L) + j)).
  { unfold copy_aligned, memcpy. rewrite !excess_small by lia. replace (Z.max (L - sz) 0) with 0 by lia.
    replace (Z.max (sz - L) 0) with (sz - L) by lia. rewrite Z.add_0_r. unfold ram_write.
    rewrite length_ram_read, (proj2 (Z.leb_le _ _)), (proj2 (Z.ltb_lt _ _)) by lia. cbn [andb].
    unfold ram_read. rewrite (nth_indep _ 0 (m (p + (sz - L) + Z.of_nat 0))) by (rewrite length_map, length_seq; lia).
    rewrite (map_nth (fun i => m (p + (sz - L) + Z.of_nat i)) (seq 0 (Z.to_nat sz)) 0%nat), seq_nth by lia. f_equal. lia. }
  set (m1 := copy_aligned m r L p sz) in *. destruct (m1 (p + sz) =? 2); cbn [negb]; [|exact Hc].
  destruct (asn1_size m1 (p + sz + 1)) as [rc|[sz2 p2]]; [exact Hc|]. cbn [snd].
  unfold copy_aligned, memcpy. rewrite ram_write_out; [exact Hc|]. left. unfold excess. lia.
Qed.

(** The general decoder stays inside of its buffers: whatever bytes it is
    given, it changes no memory outside of the [length] bytes at [r] and the
    [length] bytes at [s]. *)
Theorem der_ecsig_confined m sig r s len suppress a :
  (a < r \/ r + len <= a) -> (a < s \/ s + len <= a) -> 0 <= len ->
  (der_ecsig_to_rs m sig r s len suppress).2 a = m a.
Proof.
  intros Hr Hs Hl. unfold der_ecsig_to_rs.
  destruct (expect m sig 0x30 _) as [rc|[n0 p0]]; [done|]. destruct (expect m p0 0x02 _) as [rc|[n1 p1]]; [done|].
  destruct (skip_zero m suppress p1 n1) as [p2 n2]. destruct (Z.ltb_spec len n2); [done|].
  assert (H1 : memcpy m r p2 n2 a = m a) by (apply ram_write_out; rewrite length_ram_read; lia).
  set (m1 := memcpy m r p2 n2) in *. destruct (expect m1 _ 0x02 _) as [rc|[n3 p3]]; [done|].
  destruct (skip_zero m1 suppress p3 n3) as [p4 n4]. destruct (Z.ltb_spec len n4); [done|].
  cbn [snd]. rewrite <- H1. apply ram_write_out. rewrite length_ram_read. lia.
Qed.

(** ** Public keys *)

(** The constants are in memory. *)
Definition consts_in (m : ram_t) : Prop :=
  at_ m ec_identifier_at ec_identifier /\ at_ m secp256r1_oid_at secp256r1_oid /\
  at_ m secp384r1_oid_at secp384r1_oid /\ at_ m secp521r1_oid_at secp521r1_oid.

Lemma same_id_spec m p c id x : at_ m c id -> at_ m p x -> (length x <= length id)%nat ->
  same_id m p c (Z.of_nat (length x)) = (memcmp x (take (length x) id) (length x) =? 0).
Proof.
  intros Hc Hp Hl. unfold same_id. rewrite Nat2Z.id. unfold at_ in *. rewrite Hp. do 3 f_equal.
  rewrite <- (take_ram_read m c (length id)) by done. by rewrite Hc.
Qed.

Inductive curve := P256 | P384 | P521.
Definition curve_oid (c : curve) : list Z :=
  match c with
  | P256 => take 8 secp256r1_oid
  | P384 => take 5 secp384r1_oid
  | P521 => take 5 secp521r1_oid
  end.
Definition curve_kind (c : curve) : Z :=
  match c with P256 => DSA_EC_SECP256r1 | P384 => DSA_EC_SECP384r1 | P521 => DSA_EC_SECP521r1 end.

(** A SubjectPublicKeyInfo with an uncompressed point. *)
Definition der_key (c : curve) (point : list Z) : list Z :=
  tlv 0x30 (tlv 0x30 (tlv 0x06 (take 7 ec_identifier) ++ tlv 0x06 (curve_oid c)) ++ tlv 0x03 (0 :: 4 :: point)).

(** The objects behind one another. *)
Lemma curve_of_oid m p c : consts_in m -> at_ m p (curve_oid c) ->
  curve_of m p (Z.of_nat (length (curve_oid c))) = Some (curve_kind c).
Proof.
  intros (_ & H2 & H3 & H5) Hp. unfold curve_of. destruct c.
  - by rewrite (same_id_spec m p _ _ _ H2 Hp ltac:(cbn; lia)).
  - by rewrite (same_id_spec m p _ _ _ H2 Hp ltac:(cbn; lia)), (same_id_spec m p _ _ _ H3 Hp ltac:(cbn; lia)).
  - by rewrite (same_id_spec m p _ _ _ H2 Hp ltac:(cbn; lia)), (same_id_spec m p _ _ _ H3 Hp ltac:(cbn; lia)),
      (same_id_spec m p _ _ _ H5 Hp ltac:(cbn; lia)).
Qed.

(** Public keys read back: the DER encoding of an EC public key on one of
    the three curves is recognised, and the raw point is copied to the output
    buffer if that is large enough; if it is not, the call reports it and no
    memory changes. *)
Theorem der_public_key_roundtrip m key out out_len c point :
  consts_in m -> at_ m key (der_key c point) -> Z.of_nat (length point) < 2 ^ 14 ->
  let '(rc, kind, m') := der_ec_public_key_data m key out out_len in
  kind = Some (curve_kind c) /\
  if out_len <? Z.of_nat (length point) then rc = - PB_ERR_BUF_TOO_SMALL /\ m' = m
  else rc = PB_OK /\ at_ m' out point.
Proof.
  intros Hc Hk Hl. unfold der_ec_public_key_data, der_key in *.
  set (alg := tlv 0x06 (take 7 ec_identifier) ++ tlv 0x06 (curve_oid c)) in *.
  assert (Ha : (length alg <= 30)%nat) by (destruct c; vm_compute; lia).
  pose proof (tlv_length 0x30 alg ltac:(lia)). pose proof (tlv_length 0x03 (0 :: 4 :: point) ltac:(cbn [length]; lia)) as Hb.
  cbn [length] in Hb.
  destruct (expect_tlv m key 0x30 (- PB_ERR_ASN1) (tlv 0x30 alg ++ tlv 0x03 (0 :: 4 :: point))) as (p0 & -> & H0 & _);
    [rewrite length_app; lia|done|]. apply at_app in H0 as [H1 H2].
  destruct (expect_tlv m p0 0x30 (- PB_ERR_ASN1) alg ltac:(lia) H1) as (p1 & -> & H3 & E1). apply at_app in H3 as [H3 H4].
  destruct (expect_tlv m p1 0x06 (-1) (take 7 ec_identifier) ltac:(cbn; lia) H3) as (p2 & -> & H5 & E2).
  rewrite (same_id_spec m p2 _ _ _ (proj1 Hc) H5 ltac:(cbn; lia)). cbn [negb memcmp Z.eqb]. rewrite E2.
  destruct (expect_tlv m _ 0x06 (-1) (curve_oid c) ltac:(by destruct c) H4) as (p3 & -> & H6 & E3).
  rewrite (curve_of_oid m p3 c Hc H6), E3.
  rewrite <- E1 in H2. unfold alg in H2. rewrite length_app, Nat2Z.inj_add, Z.add_assoc in H2.
  destruct (expect_tlv m _ 0x03 (-1) (0 :: 4 :: point) ltac:(cbn [length]; lia) H2) as (p4 & -> & H7 & _).
  cbn [length]. pose proof ptr_bits_ge32. rewrite usz_small by lia.
  replace (Z.of_nat (S (S (length point))) - 2) with (Z.of_nat (length point)) by lia.
  apply at_cons in H7 as [_ H7]. apply at_cons in H7 as [_ H7]. replace (p4 + 1 + 1) with (p4 + 2) in H7 by lia.
  destruct (out_len <? _); [by split|]. split; [done|]. split; [done|].
  unfold memcpy, at_ in *. rewrite Nat2Z.id, H7. apply ram_write_in.
Qed.
End der.

(** ** Witnesses *)

Module ToyDer.
Definition rb : list Z := 0 :: 0x85 :: replicate 30 7.
Definition sb : list Z := 0x91 :: replicate 31 9.

(** A signature at 1000, zeroed buffers at 2000 and 2100, the constants from
    3000 on and a key at 4000. *)
#[export] Instance consts : DerConsts :=
  {| ec_identifier_at := 3000; secp256r1_oid_at := 3010; secp384r1_oid_at := 3020; secp521r1_oid_at := 3030 |}.
Definition mem : ram_t :=
  ram_write 1000 (der_sig rb sb) (ram_write 3000 ec_identifier (ram_write 3010 secp256r1_oid
    (ram_write 3020 secp384r1_oid (ram_write 3030 secp521r1_oid
      (ram_write 4000 (der_key P384 (replicate 96 5)) (fun _ => 0)))))).

(** A signature that claims an integer of 100 bytes. *)
Definition hostile : ram_t := ram_write 1000 (0x30 :: der_len 120 ++ 0x02 :: der_len 100) (fun a => if 1000 <=? a then 0xaa else 0).
End ToyDer.

#[local] Existing Instances armv7a ToyDer.consts.

Lemma caam_ecsig_roundtrip_witness :
  exists m', caam_der_ecsig_to_rs ToyDer.mem 1000 32 2000 2100 = (PB_OK, m') /\ at_ m' 2000 ToyDer.rb /\ at_ m' 2100 ToyDer.sb.
Proof.
  apply (caam_ecsig_roundtrip ToyDer.mem 1000 2000 2100 ToyDer.rb ToyDer.sb);
    [reflexivity | cbn; lia | by vm_compute | by vm_compute | by vm_compute | cbn; lia | vm_compute; left + right; discriminate].
Defined.

Lemma caam_ecsig_overflow_witness :
  (caam_der_ecsig_to_rs ToyDer.hostile 1000 32 2000 2100).2 2099 = 0xaa.
Proof.
  change 2099 with (2000 + 99).
  rewrite (caam_ecsig_overflow ToyDer.hostile 1000 2000 2100 32 120 100); [by vm_compute | lia | lia | lia | by vm_compute | lia | lia].
Defined.

Lemma der_ecsig_confined_witness :
  (der_ecsig_to_rs ToyDer.hostile 1000 2000 2100 32 true).2 2032 = ToyDer.hostile 2032.
Proof. apply der_ecsig_confined; lia. Defined.

Lemma der_public_key_roundtrip_witness :
  let '(rc, kind, m') := der_ec_public_key_data ToyDer.mem 4000 5000 132 in
  kind = Some (curve_kind P384) /\ rc = PB_OK /\ at_ m' 5000 (replicate 96 5).
Proof.
  apply (der_public_key_roundtrip ToyDer.mem 4000 5000 132 P384 (replicate 96 5)).
  - repeat split; by vm_compute.
  - by vm_compute.
  - cbn. lia.
Defined.
