(* ===== verification/Rot.v ===== *)
(** * Root of trust and security life cycle

    [src/rot.c] (key slots, revocation, the bundled key store) and
    [src/slc.c] (the security life cycle).  The board's callbacks act on
    hardware of type [HW]; the key store is linked into the binary by the
    build. *)

From S2P Require Import Prelude Errors Crypto.
Local Open Scope c_scope.

(** ** Key store, [include/bpak/key.h], [include/bpak/keystore.h] *)

Definition BPAK_KEY_PUB_PRIME256v1 : Z := 2.
Definition BPAK_KEY_PUB_SECP384r1 : Z := 3.
Definition BPAK_KEY_PUB_SECP521r1 : Z := 4.

(** [key_data] is the [size] bytes of the flexible array. *)
Record bpak_key := BpakKey { key_kind : Z; key_kid : Z; key_data : list Z }.

(** ** Root of trust *)

Record rot_key := RotKey { rk_id : Z; rk_param1 : Z; rk_param2 : Z }.

(** A NULL callback is [None]; [key_map] holds [key_map_length] entries. *)
Record rot_config (HW : Type) := RotConfig {
  revoke_key : option (rot_key -> M HW Z);
  read_key_status : option (rot_key -> M HW Z);
  key_map : list rot_key
}.
Arguments RotConfig {HW}.
Arguments revoke_key {HW}.
Arguments read_key_status {HW}.
Arguments key_map {HW}.

Record rot_state (HW : Type) := RotState { rot_cfg : option (rot_config HW); rot_hw : HW }.
Arguments RotState {HW}.
Arguments rot_cfg {HW}.
Arguments rot_hw {HW}.

Definition key_map_length {HW} (c : rot_config HW) : Z := Z.of_nat (length (key_map c)).

Section rot.
Context {arch : Arch} {HW : Type} (keystore_pb : list bpak_key).
Abbreviation R := (M (rot_state HW)).

Definition call_rot {A} (m : M HW A) : R A :=
  fun s => let '(a, h) := m (rot_hw s) in (a, RotState (rot_cfg s) h).

Fixpoint key_ids_match (ks : list bpak_key) (map : list rot_key) : bool :=
  match ks, map with
  | [], _ => true
  | k :: ks, m :: map => if negb (key_kid k =? rk_id m) then false else key_ids_match ks map
  | _ :: _, [] => false
  end.

Definition rot_init (cfg_ : rot_config HW) : R Z :=
  if negb (Z.of_nat (length keystore_pb) =? key_map_length cfg_) then ret (- PB_ERR_PARAM)
  else if negb (key_ids_match keystore_pb (key_map cfg_)) then ret (- PB_ERR_PARAM)
  else modify (fun s => RotState (Some cfg_) (rot_hw s)) ;;; ret PB_OK.

(** The search loop for a key id. *)
Fixpoint find_key (map : list rot_key) (id : Z) : option rot_key :=
  match map with
  | [] => None
  | k :: map => if rk_id k =? id then Some k else find_key map id
  end.

Definition rot_read_key_status (id : Z) : R Z :=
  s <- get ;;
  match rot_cfg s with
  | Some c =>
      match read_key_status c with
      | Some f => match find_key (key_map c) id with
                  | Some k => call_rot (f k)
                  | None => ret (- PB_ERR_KEY_NOT_FOUND)
                  end
      | None => ret (- PB_ERR_NOT_SUPPORTED)
      end
  | None => ret (- PB_ERR_NOT_SUPPORTED)
  end.

(** The error value is converted to [size_t]. *)
Definition rot_no_of_keys : R Z :=
  s <- get ;;
  match rot_cfg s with
  | None => ret (usz (- PB_ERR_NOT_SUPPORTED))
  | Some c => ret (key_map_length c)
  end.

Definition rot_read_key_status_by_idx (index : Z) : R Z :=
  s <- get ;;
  match rot_cfg s with
  | Some c =>
      match read_key_status c with
      | Some f => if negb (index <? key_map_length c) then ret (- PB_ERR_PARAM) else
                  match key_map c !! Z.to_nat index with
                  | Some k => call_rot (f k)
                  | None => ret (- PB_ERR_PARAM)
                  end
      | None => ret (- PB_ERR_NOT_SUPPORTED)
      end
  | None => ret (- PB_ERR_NOT_SUPPORTED)
  end.

(** [key_id_t] is a 32-bit unsigned integer. *)
Definition rot_key_idx_to_id (index : Z) : R Z :=
  s <- get ;;
  match rot_cfg s with
  | None => ret (u32 (- PB_ERR_NOT_SUPPORTED))
  | Some c => if negb (index <? key_map_length c) then ret (u32 (- PB_ERR_PARAM)) else
              ret (default 0 (rk_id <$> key_map c !! Z.to_nat index))
  end.

Definition rot_revoke_key (id : Z) : R Z :=
  s <- get ;;
  match rot_cfg s with
  | Some c =>
      match revoke_key c with
      | Some f => match find_key (key_map c) id with
                  | Some k => call_rot (f k)
                  | None => ret (- PB_ERR_KEY_NOT_FOUND)
                  end
      | None => ret (- PB_ERR_NOT_SUPPORTED)
      end
  | None => ret (- PB_ERR_NOT_SUPPORTED)
  end.

Fixpoint find_bpak_key (ks : list bpak_key) (id : Z) : option bpak_key :=
  match ks with
  | [] => None
  | k :: ks => if key_kid k =? id then Some k else find_bpak_key ks id
  end.

Definition dsa_of_kind (kind : Z) : option Z :=
  if kind =? BPAK_KEY_PUB_PRIME256v1 then Some DSA_EC_SECP256r1
  else if kind =? BPAK_KEY_PUB_SECP384r1 then Some DSA_EC_SECP384r1
  else if kind =? BPAK_KEY_PUB_SECP521r1 then Some DSA_EC_SECP521r1
  else None.

(** The outputs [*dsa_kind] and the DER data are set on success only. *)
Definition rot_get_dsa_key (id : Z) : R (Z * option (Z * list Z)) :=
  s <- get ;;
  match rot_cfg s with
  | None => ret (- PB_ERR_NOT_SUPPORTED, None)
  | Some c =>
      if key_map_length c =? 0 then ret (- PB_ERR_NOT_SUPPORTED, None) else
      rc <- rot_read_key_status id ;;
      if negb (rc =? PB_OK) then ret (rc, None) else
      match find_bpak_key keystore_pb id with
      | None => ret (- PB_ERR_KEY_NOT_FOUND, None)
      | Some key =>
          match dsa_of_kind (key_kind key) with
          | None => ret (- PB_ERR_NOT_SUPPORTED, None)
          | Some d => ret (PB_OK, Some (d, key_data key))
          end
      end
  end.

(** *** Lemmas *)

Lemma find_key_spec map id k : find_key map id = Some k -> k ∈ map /\ rk_id k = id.
Proof.
  induction map as [|x map IH]; simpl; [done|]. destruct (Z.eqb_spec (rk_id x) id) as [E|E].
  - intros [= <-]. split; [left | done].
  - intros Hk. destruct (IH Hk). split; [by right | done].
Qed.

Lemma find_bpak_key_spec ks id k : find_bpak_key ks id = Some k -> k ∈ ks /\ key_kid k = id.
Proof.
  induction ks as [|x ks IH]; simpl; [done|]. destruct (Z.eqb_spec (key_kid x) id) as [E|E].
  - intros [= <-]. split; [left | done].
  - intros Hk. destruct (IH Hk). split; [by right | done].
Qed.

(** A board slot has a key in the store exactly when [rot_init] accepted. *)
Lemma key_ids_match_find ks map id :
  length ks = length map -> key_ids_match ks map = true ->
  is_Some (find_key map id) <-> is_Some (find_bpak_key ks id).
Proof.
  revert map. induction ks as [|k ks IH]; intros [|m map] Hl Hm; try done; [split; by intros [? ?]|].
  simpl in *.
  destruct (Z.eqb_spec (key_kid k) (rk_id m)) as [->|]; [|done]. simpl in Hm.
  destruct (rk_id m =? id); [by split; intros; eexists|]. apply IH; [lia|done].
Qed.

Lemma rot_init_cfg c s s' :
  rot_init c s = (PB_OK, s') ->
  s' = RotState (Some c) (rot_hw s) /\ length keystore_pb = length (key_map c) /\
  key_ids_match keystore_pb (key_map c) = true.
Proof.
  unfold rot_init, key_map_length. m_unfold.
  destruct (Z.eqb_spec (Z.of_nat (length keystore_pb)) (Z.of_nat (length (key_map c)))); [|done]. simpl.
  destruct (key_ids_match keystore_pb (key_map c)); [|done]. simpl. intros [= <-]. split_and!; [done|lia|done].
Qed.

(** The board says that key [id] is active: it has a slot and the slot's
    status is PB_OK. *)
Definition key_active (s : rot_state HW) (id : Z) : Prop :=
  exists c f k, rot_cfg s = Some c /\ read_key_status c = Some f /\ find_key (key_map c) id = Some k /\
    (f k (rot_hw s)).1 = PB_OK.

Lemma rot_read_key_status_ok id s s' :
  rot_read_key_status id s = (PB_OK, s') -> key_active s id /\ rot_cfg s' = rot_cfg s.
Proof.
  unfold rot_read_key_status, call_rot, key_active. m_unfold.
  destruct (rot_cfg s) as [c|] eqn:Ec; [|done]. destruct (read_key_status c) as [f|] eqn:Ef; [|done].
  destruct (find_key (key_map c) id) as [k|] eqn:Ek; [|done].
  destruct (f k (rot_hw s)) as [rc h] eqn:Er. intros [= -> <-]. simpl. split; [|done].
  exists c, f, k. by rewrite Er.
Qed.

Lemma rot_get_dsa_key_ok id d der s s' :
  rot_get_dsa_key id s = ((PB_OK, Some (d, der)), s') ->
  key_active s id /\ rot_cfg s' = rot_cfg s /\
  exists key, key ∈ keystore_pb /\ key_kid key = id /\ key_data key = der /\ dsa_of_kind (key_kind key) = Some d.
Proof.
  unfold rot_get_dsa_key. m_unfold. destruct (rot_cfg s) as [c|] eqn:Ec; [|done].
  destruct (key_map_length c =? 0); [done|].
  destruct (rot_read_key_status id s) as [rc s1] eqn:E.
  destruct (Z.eqb_spec rc PB_OK) as [->|Hne]; [|by intros [= ? ?]]. simpl.
  destruct (find_bpak_key keystore_pb id) as [key|] eqn:Ek; [|done].
  destruct (dsa_of_kind (key_kind key)) as [d'|] eqn:Ed; [|done]. intros [= -> <- <-].
  destruct (rot_read_key_status_ok _ _ _ E) as [Ha Hc]. rewrite Ec in Hc. split_and!; [done|done|].
  destruct (find_bpak_key_spec _ _ _ Ek). by exists key.
Qed.

Lemma rot_get_dsa_key_some id r s s' :
  rot_get_dsa_key id s = ((PB_OK, r), s') -> is_Some r.
Proof.
  unfold rot_get_dsa_key. m_unfold. destruct (rot_cfg s) as [c|]; [|done].
  destruct (key_map_length c =? 0); [done|].
  destruct (rot_read_key_status id s) as [rc s1].
  destruct (Z.eqb_spec rc PB_OK) as [->|Hne]; simpl; [|by intros [= ? ?]].
  destruct (find_bpak_key keystore_pb id) as [key|]; [|done].
  destruct (dsa_of_kind (key_kind key)); [|done]. intros [= <- _]. by eexists.
Qed.

(** *** Properties *)

(** The root of trust hands out a key only if the board vouches for it:
    when [rot_get_dsa_key] reports success, the board has a slot with that key
    id whose status is PB_OK (so a revoked or unknown key is never returned),
    and the DER data and algorithm are those of a key with that id in the
    bundled key store. *)
Theorem rot_get_dsa_key_sound id d der s s' :
  rot_get_dsa_key id s = ((PB_OK, Some (d, der)), s') ->
  key_active s id /\
  exists key, key ∈ keystore_pb /\ key_kid key = id /\ key_data key = der /\ dsa_of_kind (key_kind key) = Some d.
Proof. intros E. by destruct (rot_get_dsa_key_ok _ _ _ _ _ E) as (? & _ & ?). Qed.

(** After a successful [rot_init] no key can go missing between the board
    configuration and the key store: for every id whose board slot reports
    PB_OK, [rot_get_dsa_key] returns the key, or reports -PB_ERR_NOT_SUPPORTED
    for a key that is not one of the three supported elliptic curves; ids
    without a slot give -PB_ERR_KEY_NOT_FOUND. *)
Theorem rot_init_complete c f s s' id :
  rot_init c s = (PB_OK, s') -> read_key_status c = Some f -> key_map c <> [] ->
  match find_key (key_map c) id with
  | None => (rot_get_dsa_key id s').1 = (- PB_ERR_KEY_NOT_FOUND, None)
  | Some k =>
      let status := (f k (rot_hw s)).1 in
      status <> PB_OK /\ (rot_get_dsa_key id s').1 = (status, None) \/
      status = PB_OK /\ exists key, key ∈ keystore_pb /\ key_kid key = id /\
        (rot_get_dsa_key id s').1 =
          match dsa_of_kind (key_kind key) with
          | Some d => (PB_OK, Some (d, key_data key))
          | None => (- PB_ERR_NOT_SUPPORTED, None)
          end
  end.
Proof.
  intros Hi Hf Hne. destruct (rot_init_cfg c s s' Hi) as (-> & Hl & Hm).
  pose proof (key_ids_match_find keystore_pb (key_map c) id Hl Hm) as Hiff.
  unfold rot_get_dsa_key, rot_read_key_status, call_rot, key_map_length. m_unfold. simpl.
  destruct (Z.eqb_spec (Z.of_nat (length (key_map c))) 0) as [E|_]; [by destruct (key_map c)|].
  simpl. rewrite Hf.
  destruct (find_key (key_map c) id) as [k|]; [|done].
  destruct (proj1 Hiff) as [key Ek]; [by eexists|]. destruct (find_bpak_key_spec _ _ _ Ek) as [Hin Hid].
  destruct (f k (rot_hw s)) as [rc h] eqn:Efk. simpl. rewrite Efk.
  destruct (Z.eqb_spec rc PB_OK) as [->|Hrc]; simpl.
  - right. split; [done|]. exists key. rewrite Ek. split_and!; [done..|]. by destruct (dsa_of_kind _).
  - left. done.
Qed.

End rot.

(** ** Security life cycle *)

Definition SLC_INVALID : Z := 0.
Definition SLC_NOT_CONFIGURED : Z := 1.
Definition SLC_CONFIGURATION : Z := 2.
Definition SLC_CONFIGURATION_LOCKED : Z := 3.
Definition SLC_EOL : Z := 4.

Record slc_config (HW : Type) := SlcConfig {
  slc_read_status_f : option (M HW Z);
  slc_set_configuration_f : option (M HW Z);
  slc_set_configuration_locked_f : option (M HW Z);
  slc_set_eol_f : option (M HW Z)
}.
Arguments SlcConfig {HW}.
Arguments slc_read_status_f {HW}.
Arguments slc_set_configuration_f {HW}.
Arguments slc_set_configuration_locked_f {HW}.
Arguments slc_set_eol_f {HW}.

Record slc_state (HW : Type) := SlcState { slc_cfg : option (slc_config HW); slc_hw : HW }.
Arguments SlcState {HW}.
Arguments slc_cfg {HW}.
Arguments slc_hw {HW}.

Section slc.
(** [null_call] is what a call through a NULL pointer does. *)
Context {HW : Type} (null_call : M HW Z).
Abbreviation S := (M (slc_state HW)).

Definition call_slc {A} (m : M HW A) : S A :=
  fun s => let '(a, h) := m (slc_hw s) in (a, SlcState (slc_cfg s) h).

Definition slc_init (cfg_ : slc_config HW) : S Z :=
  modify (fun s => SlcState (Some cfg_) (slc_hw s)) ;;; ret PB_OK.

(** A call through a callback that is checked for NULL first. *)
Definition slc_call (field : slc_config HW -> option (M HW Z)) : S Z :=
  s <- get ;;
  match slc_cfg s with
  | None => ret (- PB_ERR_NOT_SUPPORTED)
  | Some c => match field c with
              | None => ret (- PB_ERR_NOT_SUPPORTED)
              | Some f => call_slc f
              end
  end.

Definition slc_read_status : S Z := slc_call slc_read_status_f.
Definition slc_set_configuration : S Z := slc_call slc_set_configuration_f.
Definition slc_set_configuration_locked : S Z := slc_call slc_set_configuration_locked_f.

(** The guard tests [set_configuration_locked]; the call goes through
    [set_eol]. *)
Definition slc_set_eol : S Z :=
  s <- get ;;
  match slc_cfg s with
  | None => ret (- PB_ERR_NOT_SUPPORTED)
  | Some c => match slc_set_configuration_locked_f c with
              | None => ret (- PB_ERR_NOT_SUPPORTED)
              | Some _ => call_slc (default null_call (slc_set_eol_f c))
              end
  end.

(** The end-of-life operation of the life cycle checks the wrong
    callback: with a configuration that can lock but has no [set_eol]
    callback, [slc_set_eol] calls through the NULL pointer, while with a
    [set_eol] callback and no lock callback it refuses to run it. *)
Theorem slc_set_eol_wrong_guard c s :
  slc_cfg s = Some c ->
  (slc_set_eol_f c = None -> slc_set_configuration_locked_f c <> None ->
   slc_set_eol s = call_slc null_call s) /\
  (slc_set_eol_f c <> None -> slc_set_configuration_locked_f c = None ->
   slc_set_eol s = (- PB_ERR_NOT_SUPPORTED, s)).
Proof.
  intros Hc. unfold slc_set_eol. m_unfold. rewrite Hc. split.
  - intros He Hl. destruct (slc_set_configuration_locked_f c); [|done]. by rewrite He.
  - intros He Hl. by rewrite Hl.
Qed.

End slc.

(** ** Witnesses *)

Module ToyRot.
Definition keys : list bpak_key := [BpakKey 2 0xa90f9680 [11; 12]; BpakKey 2 0x52c1eda0 [21; 22]].
(** The hardware is the list of revoked slots. *)
Definition config : rot_config (list Z) := RotConfig
  (Some (fun k h => (PB_OK, rk_param1 k :: h)))
  (Some (fun k h => (if bool_decide (rk_param1 k ∈ h) then - PB_ERR_KEY_REVOKED else PB_OK, h)))
  [RotKey 0xa90f9680 0 0; RotKey 0x52c1eda0 1 0].
Definition state : rot_state (list Z) := RotState (Some config) [0].
End ToyRot.

Lemma rot_get_dsa_key_sound_witness :
  key_active ToyRot.state 0x52c1eda0 /\
  exists key, key ∈ ToyRot.keys /\ key_kid key = 0x52c1eda0 /\ key_data key = [21; 22] /\
    dsa_of_kind (key_kind key) = Some DSA_EC_SECP256r1.
Proof.
  apply (rot_get_dsa_key_sound ToyRot.keys 0x52c1eda0 DSA_EC_SECP256r1 [21; 22] ToyRot.state ToyRot.state).
  reflexivity.
Defined.

Lemma rot_init_complete_witness :
  (rot_get_dsa_key ToyRot.keys 0x52c1eda0 ToyRot.state).1 = (PB_OK, Some (DSA_EC_SECP256r1, [21; 22])).
Proof.
  destruct (rot_init_complete ToyRot.keys ToyRot.config _ (RotState None [0]) ToyRot.state 0x52c1eda0
    eq_refl eq_refl ltac:(done)) as [[H _] | (_ & key & Hin & Hid & E)].
  - exfalso. apply H. reflexivity.
  - etransitivity; [exact E|].
    apply elem_of_cons in Hin as [-> | Hin]; [discriminate|].
    apply elem_of_cons in Hin as [-> | Hin]; [reflexivity | by apply elem_of_nil in Hin].
Defined.

Lemma slc_set_eol_wrong_guard_witness :
  slc_set_eol (fun h => (0xdead, h))
    (SlcState (Some (SlcConfig None None (Some (fun h => (PB_OK, h))) None)) tt) =
  (0xdead, SlcState (Some (SlcConfig None None (Some (fun h => (PB_OK, h))) None)) tt).
Proof.
  exact (proj1 (slc_set_eol_wrong_guard (fun h => (0xdead, h)) _
    (SlcState (Some (SlcConfig None None (Some (fun h => (PB_OK, h))) None)) tt) eq_refl)
    eq_refl ltac:(done)).
Defined.
