(* ===== verification/Ocotp.v ===== *)
(** * The i.MX fuse controller

    [src/drivers/fuse/imx_ocotp.c]: reading and programming one-time
    programmable words through the registers of the OCOTP block.  [OcotpOps]
    and [OcotpLaws] are what the platform code relies on; [ocotp_driver_laws]
    shows that the driver provides it on a controller with the registers
    [OcotpHw] describes.  The width of its address field is a parameter: the
    source says that the reference manual gives six bits and other drivers use
    seven. *)

From S2P Require Import Prelude Errors.
Local Open Scope c_scope.

(** ** The driver *)

(** [include/pb/mmio.h]: volatile accesses. *)
Class Mmio (HW : Type) := {
  mmio_read_32 : Z -> M HW Z;
  mmio_write_32 : Z -> Z -> M HW unit
}.

Definition OCOTP_CTRL : Z := 0x0000.
Definition OCOTP_TIMING : Z := 0x0010.
Definition OCOTP_DATA : Z := 0x0020.
Definition OCOTP_READ_CTRL : Z := 0x0030.
Definition OCOTP_READ_FUSE_DATA : Z := 0x0040.
Definition OCOTP_CTRL_BUSY : Z := Z.shiftl 1 8.
Definition OCOTP_CTRL_ERROR : Z := Z.shiftl 1 9.
Definition OCOTP_CTRL_WR_KEY : Z := 0x3E77.

(** The static variables [base] and [wpb], next to the hardware. *)
Record ocotp_st (HW : Type) := OcotpSt { o_hw : HW; o_base : Z; o_wpb : Z }.
Arguments OcotpSt {HW}.
Arguments o_hw {HW}.
Arguments o_base {HW}.
Arguments o_wpb {HW}.

Section driver.
(** [busy_fuel]: how many polls of the busy flag the model follows. *)
Context {HW : Type} `{!Mmio HW} (busy_fuel : nat).
Abbreviation D := (M (ocotp_st HW)).

Definition reg_read (off : Z) : D Z :=
  fun w => let '(v, h) := mmio_read_32 (o_base w + off) (o_hw w) in (v, OcotpSt h (o_base w) (o_wpb w)).
Definition reg_write (off v : Z) : D unit :=
  fun w => let '(_, h) := mmio_write_32 (o_base w + off) v (o_hw w) in (tt, OcotpSt h (o_base w) (o_wpb w)).

Definition imx_ocotp_init (base_ words_per_bank : Z) : D Z :=
  modify (fun w => OcotpSt (o_hw w) base_ words_per_bank) ;;;
  if words_per_bank <? 4 then ret (- PB_ERR_PARAM) else ret PB_OK.

(** [while (mmio_read_32(base + OCOTP_CTRL) & OCOTP_CTRL_BUSY)]; [false] if
    the flag is still set after [fuel] polls. *)
Fixpoint wait_busy (fuel : nat) : D bool :=
  match fuel with
  | O => ret false
  | S fuel =>
      v <- reg_read OCOTP_CTRL ;;
      if Z.land v OCOTP_CTRL_BUSY =? 0 then ret true else wait_busy fuel
  end.

(** The wait for the busy flag and the check of the error flag, which is
    cleared; [None] if the flag stays set. *)
Definition ready_or_error : D (option Z) :=
  idle <- wait_busy busy_fuel ;;
  if negb idle then ret None else
  tmp <- reg_read OCOTP_CTRL ;;
  if negb (Z.land tmp OCOTP_CTRL_ERROR =? 0)
  then reg_write OCOTP_CTRL (Z.land tmp (Z.ldiff 0xffffffff OCOTP_CTRL_ERROR)) ;;; ret (Some (- PB_ERR_IO))
  else ret (Some PB_OK).

(** [((bank * wpb) + row) & 0x7F] on 32 bits *)
Definition word_addr (wpb bank row : Z) : Z := Z.land (u32 (u32 (bank * wpb) + row)) 0x7F.

Definition OCOTP_TIMING_VALUE : Z :=
  Z.lor (Z.lor (Z.lor (Z.shiftl 5 22) (Z.shiftl 0x06 16)) (Z.shiftl 1 12)) 0x299.

Notation "m ';;?' k" := (bind m (fun r => match r with Some 0 => k | _ => ret r end))
  (at level 100, right associativity).

Definition ocotp_write (bank row value : Z) : D (option Z) :=
  ready_or_error ;;?
  (reg_write OCOTP_TIMING OCOTP_TIMING_VALUE ;;;
  ready_or_error ;;?
  (tmp <- gets (fun w => word_addr (o_wpb w) bank row) ;;
  reg_write OCOTP_CTRL (Z.lor (Z.shiftl OCOTP_CTRL_WR_KEY 16) tmp) ;;;
  reg_write OCOTP_DATA value ;;;
  ready_or_error)).

(** The return code and, on success, the word. *)
Definition ocotp_read (bank row : Z) : D (option Z * Z) :=
  r <- ready_or_error ;;
  match r with
  | Some 0 =>
      tmp <- gets (fun w => word_addr (o_wpb w) bank row) ;;
      reg_write OCOTP_CTRL tmp ;;;
      reg_write OCOTP_READ_CTRL 1 ;;;
      idle <- wait_busy busy_fuel ;;
      if negb idle then ret (None, 0) else
      value <- reg_read OCOTP_READ_FUSE_DATA ;;
      ret (Some PB_OK, value)
  | _ => ret (r, 0)
  end.
End driver.

(** ** The interface of the platform code *)

Class OcotpOps (W : Type) := {
  imx_ocotp_read : Z -> Z -> M W (Z * Z);
  imx_ocotp_write : Z -> Z -> Z -> M W Z
}.

(** The words of a controller with sixteen banks of eight words. *)
Definition ocotp_slot (bank row : Z) : Prop := 0 <= bank < 16 /\ 0 <= row < 8.

Class OcotpGhost (W : Type) := {
  ocotp_ready : W -> Prop;
  fuse_at : W -> Z -> Z -> Z
}.

(** A read returns the fused word; programming can only set bits, of the one
    word that is addressed. *)
Class OcotpLaws (W : Type) `{OcotpOps W, OcotpGhost W} : Prop := {
  law_fuse_read : forall w b r, ocotp_ready w -> ocotp_slot b r ->
    exists w', imx_ocotp_read b r w = ((PB_OK, fuse_at w b r), w') /\ ocotp_ready w' /\
      forall b' r', ocotp_slot b' r' -> fuse_at w' b' r' = fuse_at w b' r';
  law_fuse_write : forall w b r v, ocotp_ready w -> ocotp_slot b r -> 0 <= v < 2 ^ 32 ->
    exists w', imx_ocotp_write b r v w = (PB_OK, w') /\ ocotp_ready w' /\
      fuse_at w' b r = Z.lor (fuse_at w b r) v /\
      forall b' r', ocotp_slot b' r' -> (b', r') <> (b, r) -> fuse_at w' b' r' = fuse_at w b' r'
}.

(** A busy flag that never clears is reported as a code no caller treats as
    success; on a working controller it does not happen. *)
Definition ocotp_driver_ops {HW} `{!Mmio HW} (busy_fuel : nat) : OcotpOps (ocotp_st HW) := {|
  imx_ocotp_read b r := let* (rc, v) := ocotp_read busy_fuel b r in ret (default (- PB_ERR_TIMEOUT) rc, v);
  imx_ocotp_write b r v := rc <- ocotp_write busy_fuel b r v ;; ret (default (- PB_ERR_TIMEOUT) rc)
|}.

(** ** The controller *)

(** The registers behind the bus: how many more reads of CTRL show the busy
    flag, the error flag, the address and unlock key of the last write of
    CTRL, the read data register, the fuse words, and which words are locked
    against programming. *)
Record ocotp_regs := OcotpRegs {
  r_busy : nat;
  r_error : bool;
  r_addr : Z;
  r_unlocked : bool;
  r_data : Z;
  r_fuses : list Z;
  r_locked : Z -> bool
}.

Definition ctrl_word (r : ocotp_regs) : Z :=
  Z.lor (Z.lor (if decide (r_busy r = 0%nat) then 0 else OCOTP_CTRL_BUSY)
               (if r_error r then OCOTP_CTRL_ERROR else 0)) (r_addr r).

Definition tick (r : ocotp_regs) : ocotp_regs :=
  OcotpRegs (pred (r_busy r)) (r_error r) (r_addr r) (r_unlocked r) (r_data r) (r_fuses r) (r_locked r).

Definition set_ctrl (bits v : Z) (r : ocotp_regs) : ocotp_regs :=
  OcotpRegs (r_busy r) (r_error r && Z.testbit v 9) (Z.land v (Z.ones bits)) (Z.shiftr v 16 =? OCOTP_CTRL_WR_KEY)
    (r_data r) (r_fuses r) (r_locked r).

(** Without the key nothing is programmed; a locked word raises the error
    flag. *)
Definition program_word (n : nat) (v : Z) (r : ocotp_regs) : ocotp_regs :=
  let refused := r_unlocked r && r_locked r (r_addr r) in
  OcotpRegs n (r_error r || refused) (r_addr r) false (r_data r)
    (if r_unlocked r && negb refused then alter (fun x => Z.lor x v) (Z.to_nat (r_addr r)) (r_fuses r) else r_fuses r) (r_locked r).

Definition sense_word (n : nat) (r : ocotp_regs) : ocotp_regs :=
  OcotpRegs n (r_error r) (r_addr r) (r_unlocked r) (default 0 (r_fuses r !! Z.to_nat (r_addr r))) (r_fuses r) (r_locked r).

(** A controller with these registers at [base]: an operation keeps it busy
    for at most [busy_max] polls, and the read data is only there when it is
    not busy any more; nothing is said of the register before.  Words can be
    read; locks against reading are not part of the model. *)
Class OcotpHw (HW : Type) `{Mmio HW} (base : Z) (busy_max : nat) := {
  regs : HW -> ocotp_regs;
  addr_bits : Z;
  addr_bits_ok : addr_bits = 6 \/ addr_bits = 7;
  hw_ctrl : forall h, exists h',
    mmio_read_32 (base + OCOTP_CTRL) h = (ctrl_word (regs h), h') /\ regs h' = tick (regs h);
  hw_fuse_data : forall h, r_busy (regs h) = 0%nat -> exists h',
    mmio_read_32 (base + OCOTP_READ_FUSE_DATA) h = (r_data (regs h), h') /\ regs h' = regs h;
  hw_set_ctrl : forall h v, r_busy (regs h) = 0%nat ->
    regs (mmio_write_32 (base + OCOTP_CTRL) v h).2 = set_ctrl addr_bits v (regs h);
  hw_timing : forall h v, r_busy (regs h) = 0%nat ->
    regs (mmio_write_32 (base + OCOTP_TIMING) v h).2 = regs h;
  hw_program : forall h v, r_busy (regs h) = 0%nat -> exists n, (n <= busy_max)%nat /\
    regs (mmio_write_32 (base + OCOTP_DATA) v h).2 = program_word n v (regs h);
  hw_sense : forall h, r_busy (regs h) = 0%nat -> exists n, (n <= busy_max)%nat /\
    regs (mmio_write_32 (base + OCOTP_READ_CTRL) 1 h).2 = sense_word n (regs h)
}.

(** ** Bits *)


Lemma land_pow2 v i : 0 <= i -> (Z.land v (2 ^ i) =? 0) = negb (Z.testbit v i).
Proof.
  intros Hi. destruct (Z.testbit v i) eqn:E; cbn [negb].
  - apply Z.eqb_neq. intros H. assert (Z.testbit (Z.land v (2 ^ i)) i = false) as H0 by (rewrite H; apply Z.bits_0).
    by rewrite Z.land_spec, E, Z.pow2_bits_true in H0.
  - apply Z.eqb_eq, Z.bits_inj_iff'. intros n Hn. rewrite Z.land_spec, Z.bits_0.
    destruct (decide (n = i)) as [->|]; [by rewrite E|]. by rewrite Z.pow2_bits_false, andb_false_r.
Qed.

Lemma land_pow2_full v i : 0 <= i -> (Z.land v (2 ^ i) =? 2 ^ i) = Z.testbit v i.
Proof.
  intros Hi. destruct (Z.testbit v i) eqn:E.
  - apply Z.eqb_eq, Z.bits_inj_iff'. intros n Hn. rewrite Z.land_spec.
    destruct (decide (n = i)) as [->|]; [by rewrite E, Z.pow2_bits_true|]. by rewrite Z.pow2_bits_false, andb_false_r.
  - pose proof (land_pow2 v i Hi) as H. rewrite E in H. apply Z.eqb_eq in H. rewrite H. apply Z.eqb_neq.
    pose proof (Z.pow_pos_nonneg 2 i). lia.
Qed.

Lemma s32_testbit x i : 0 <= x < 2 ^ 32 -> 0 <= i < 32 -> Z.testbit (s32 x) i = Z.testbit x i.
Proof.
  intros Hx Hi. rewrite <- (Z.mod_pow2_bits_low (s32 x) 32), <- (Z.mod_pow2_bits_low x 32) by lia. f_equal.
  unfold s32. rewrite Zminus_mod_idemp_l. f_equal. lia.
Qed.

Lemma ctrl_busy r : 0 <= r_addr r < 128 ->
  (Z.land (ctrl_word r) OCOTP_CTRL_BUSY =? 0) = bool_decide (r_busy r = 0%nat).
Proof.
  intros Ha. change OCOTP_CTRL_BUSY with (2 ^ 8). rewrite land_pow2 by lia. unfold ctrl_word.
  rewrite !Z.lor_spec, (bits_above (r_addr r) 7) by lia.
  rewrite bool_decide_decide. destruct (decide _), (r_error r); reflexivity.
Qed.

Lemma ctrl_error r : 0 <= r_addr r < 128 -> (Z.land (ctrl_word r) OCOTP_CTRL_ERROR =? 0) = negb (r_error r).
Proof.
  intros Ha. change OCOTP_CTRL_ERROR with (2 ^ 9). rewrite land_pow2 by lia. unfold ctrl_word.
  rewrite !Z.lor_spec, (bits_above (r_addr r) 7) by lia. destruct (decide _), (r_error r); reflexivity.
Qed.

Lemma ones_addr bits a : bits = 6 \/ bits = 7 -> 0 <= a < 2 ^ bits -> Z.land a (Z.ones bits) = a /\ 0 <= a < 128.
Proof. intros [-> | ->] Ha; rewrite Z.land_ones, Z.mod_small by lia; lia. Qed.

Lemma set_ctrl_addr bits a r : bits = 6 \/ bits = 7 -> 0 <= a < 2 ^ bits -> r_error r = false ->
  set_ctrl bits a r = OcotpRegs (r_busy r) false a false (r_data r) (r_fuses r) (r_locked r).
Proof.
  intros Hbits Ha He. destruct (ones_addr bits a Hbits Ha) as [Ho Hl]. unfold set_ctrl. rewrite He, Ho. cbn [andb].
  rewrite Z.shiftr_div_pow2, Z.div_small by lia. reflexivity.
Qed.

Lemma set_ctrl_key bits a r : bits = 6 \/ bits = 7 -> 0 <= a < 2 ^ bits -> r_error r = false ->
  set_ctrl bits (Z.lor (Z.shiftl OCOTP_CTRL_WR_KEY 16) a) r =
    OcotpRegs (r_busy r) false a true (r_data r) (r_fuses r) (r_locked r).
Proof.
  intros Hbits Ha He. destruct (ones_addr bits a Hbits Ha) as [Ho Hl]. unfold set_ctrl. rewrite He. cbn [andb].
  rewrite lor_shiftl_low by lia. rewrite Z.shiftr_div_pow2 by lia. rewrite (Z.add_comm (_ * _) a), Z.div_add, Z.div_small by lia.
  assert (Z.land (a + OCOTP_CTRL_WR_KEY * 2 ^ 16) (Z.ones bits) = a) as ->; [|done].
  destruct Hbits as [-> | ->]; rewrite Z.land_ones by lia.
  - replace (2 ^ 16) with (2 ^ 10 * 2 ^ 6) by reflexivity. rewrite Z.mul_assoc, Z.mod_add, Z.mod_small by lia. reflexivity.
  - replace (2 ^ 16) with (2 ^ 9 * 2 ^ 7) by reflexivity. rewrite Z.mul_assoc, Z.mod_add, Z.mod_small by lia. reflexivity.
Qed.

(** ** The driver on a working controller *)

Section driver_laws.
Context {HW : Type} `{!Mmio HW} {base : Z} {busy_max : nat} {hw : OcotpHw HW base busy_max}.
Context (busy_fuel : nat) (wpb : Z).
Implicit Types w : ocotp_st HW.

(** The words the controller can address, with [wpb] words per bank. *)
Definition slot (b r : Z) : Prop := 0 <= b /\ 0 <= r < wpb /\ wpb * b + r < 2 ^ addr_bits.

Lemma word_addr_slot b r : slot b r -> word_addr wpb b r = wpb * b + r /\ 0 <= wpb * b + r < 2 ^ addr_bits.
Proof.
  intros (Hb & Hr & Ha). assert (0 <= wpb * b) by nia. assert (2 ^ addr_bits <= 128) by (destruct addr_bits_ok as [-> | ->]; lia).
  unfold word_addr. rewrite !u32_small by (rewrite ?u32_small; lia). change 0x7F with (Z.ones 7). rewrite Z.land_ones, Z.mod_small by lia. lia.
Qed.

Definition o_regs w : ocotp_regs := regs (o_hw w).

(** A controller of this base and bank size between two operations. *)
Record driver_ready w : Prop := {
  dr_base : o_base w = base;
  dr_wpb : o_wpb w = wpb;
  dr_busy : (r_busy (o_regs w) <= busy_max)%nat;
  dr_error : r_error (o_regs w) = false;
  dr_addr : 0 <= r_addr (o_regs w) < 128;
  dr_fuses : length (r_fuses (o_regs w)) = Z.to_nat (2 ^ addr_bits)
}.

Lemma reg_read_ctrl w : o_base w = base ->
  exists w', reg_read OCOTP_CTRL w = (ctrl_word (o_regs w), w') /\ o_regs w' = tick (o_regs w) /\
    o_base w' = base /\ o_wpb w' = o_wpb w.
Proof.
  intros Hb. unfold reg_read. rewrite Hb. destruct (hw_ctrl (o_hw w)) as (h & E & Hh). rewrite E.
  eexists. split; [reflexivity|]. auto.
Qed.

Lemma reg_write_run off v w :
  exists w', reg_write off v w = (tt, w') /\ o_regs w' = regs (mmio_write_32 (o_base w + off) v (o_hw w)).2 /\
    o_base w' = o_base w /\ o_wpb w' = o_wpb w.
Proof. unfold reg_write. destruct (mmio_write_32 _ _ _) as [? h]. eexists. split; [reflexivity|]. auto. Qed.

(** The state after the wait: as before, but idle. *)
Definition idle (r : ocotp_regs) : ocotp_regs :=
  OcotpRegs 0 (r_error r) (r_addr r) (r_unlocked r) (r_data r) (r_fuses r) (r_locked r).

Lemma wait_busy_ok fuel w : o_base w = base -> 0 <= r_addr (o_regs w) < 128 ->
  (r_busy (o_regs w) < fuel)%nat ->
  exists w', wait_busy fuel w = (true, w') /\ o_regs w' = idle (o_regs w) /\ o_base w' = base /\ o_wpb w' = o_wpb w.
Proof.
  revert w. induction fuel as [|fuel IH]; intros w Hb Ha Hf; [lia|]. cbn [wait_busy]. m_unfold.
  destruct (reg_read_ctrl w Hb) as (w1 & -> & Hr & Hb1 & Hw1).
  rewrite ctrl_busy by done. case_bool_decide as H0.
  - eexists. split; [reflexivity|]. rewrite Hr. unfold tick, idle. rewrite H0. auto.
  - destruct (IH w1 Hb1) as (w2 & E & Hr2 & Hb2 & Hw2); [by rewrite Hr| rewrite Hr; cbn; lia|].
    exists w2. rewrite E, Hr2, Hr, Hw2, Hw1. auto.
Qed.

Lemma ready_or_error_ok w : driver_ready w -> (busy_max < busy_fuel)%nat ->
  exists w', ready_or_error busy_fuel w = (Some PB_OK, w') /\ o_regs w' = idle (o_regs w) /\
    o_base w' = base /\ o_wpb w' = wpb.
Proof.
  intros [Hb Hw Hu He Ha Hl] Hf. unfold ready_or_error. m_unfold.
  destruct (wait_busy_ok busy_fuel w Hb Ha ltac:(lia)) as (w1 & -> & Hr & Hb1 & Hw1). cbn [negb].
  destruct (reg_read_ctrl w1 Hb1) as (w2 & -> & Hr2 & Hb2 & Hw2). rewrite Hr in *.
  rewrite ctrl_error by done. cbn [r_error idle]. rewrite He. cbn [negb].
  eexists. split; [reflexivity|]. by rewrite Hr2, Hw2, Hw1.
Qed.

Lemma driver_ready_idle w w' : driver_ready w -> o_regs w' = idle (o_regs w) -> o_base w' = base -> o_wpb w' = wpb ->
  driver_ready w'.
Proof. intros [] E ? ?. split; rewrite ?E; cbn; auto with lia. Qed.

(** The error flag: reported once, and cleared. *)
Lemma ready_or_error_clears w : o_base w = base -> o_wpb w = wpb -> (r_busy (o_regs w) < busy_fuel)%nat ->
  0 <= r_addr (o_regs w) < 128 -> length (r_fuses (o_regs w)) = Z.to_nat (2 ^ addr_bits) -> r_error (o_regs w) = true ->
  exists w', ready_or_error busy_fuel w = (Some (- PB_ERR_IO), w') /\ driver_ready w' /\
    r_fuses (o_regs w') = r_fuses (o_regs w) /\ r_locked (o_regs w') = r_locked (o_regs w).
Proof.
  intros Hb Hw Hu Ha Hl He. unfold ready_or_error. m_unfold.
  destruct (wait_busy_ok busy_fuel w Hb Ha Hu) as (w1 & -> & Hr & Hb1 & Hw1). cbn [negb].
  destruct (reg_read_ctrl w1 Hb1) as (w2 & -> & Hr2 & Hb2 & Hw2). rewrite Hr in *.
  rewrite ctrl_error by done. cbn [r_error idle]. rewrite He. cbn [negb].
  match goal with |- context [reg_write OCOTP_CTRL ?v w2] => destruct (reg_write_run OCOTP_CTRL v w2) as (w3 & -> & Hr3 & Hb3 & Hw3) end.
  assert (H0 : r_busy (regs (o_hw w2)) = 0%nat) by (change (r_busy (o_regs w2) = 0%nat); rewrite Hr2; reflexivity).
  rewrite Hb2, (hw_set_ctrl _ _ H0) in Hr3.
  change (regs (o_hw w2)) with (o_regs w2) in Hr3. rewrite Hr2 in Hr3. unfold set_ctrl in Hr3.
  cbn [r_busy r_error r_addr r_unlocked r_data r_fuses r_locked tick idle pred] in Hr3.
  eexists. split; [reflexivity|]. split; [|by rewrite Hr3].
  split; rewrite ?Hr3; cbn [r_busy r_error r_addr r_fuses]; [congruence..|lia| | |done].
  - rewrite He, Z.land_spec. apply andb_false_r.
  - destruct addr_bits_ok as [-> | ->]; rewrite Z.land_ones by lia; [pose proof (Z.mod_pos_bound (Z.land (ctrl_word (idle (o_regs w))) (Z.ldiff 4294967295 OCOTP_CTRL_ERROR)) (2 ^ 6))|pose proof (Z.mod_pos_bound (Z.land (ctrl_word (idle (o_regs w))) (Z.ldiff 4294967295 OCOTP_CTRL_ERROR)) (2 ^ 7))]; lia.
Qed.

Definition word_at w (b r : Z) : Z := default 0 (r_fuses (o_regs w) !! Z.to_nat (wpb * b + r)).

Lemma ocotp_read_ok w b r : driver_ready w -> slot b r -> (busy_max < busy_fuel)%nat ->
  exists w', ocotp_read busy_fuel b r w = ((Some PB_OK, word_at w b r), w') /\ driver_ready w' /\
    r_fuses (o_regs w') = r_fuses (o_regs w) /\ r_locked (o_regs w') = r_locked (o_regs w).
Proof.
  intros Hd Hs Hf. unfold ocotp_read. m_unfold. destruct (word_addr_slot b r Hs) as [Hwa Hba].
  destruct (ready_or_error_ok w Hd Hf) as (w1 & -> & Hr1 & Hb1 & Hw1). cbn [PB_OK]. rewrite Hw1, Hwa.
  destruct Hd as [Hwb Hww Hu He Ha Hl]. destruct (ones_addr _ _ addr_bits_ok Hba) as [_ Hsm].
  destruct (reg_write_run OCOTP_CTRL (wpb * b + r) w1) as (w2 & -> & Hr2 & Hb2 & Hw2).
  rewrite Hb1 in Hr2. rewrite hw_set_ctrl in Hr2 by (by change (r_busy (o_regs w1) = 0%nat); rewrite Hr1).
  change (regs (o_hw w1)) with (o_regs w1) in Hr2. rewrite set_ctrl_addr in Hr2 by (rewrite ?Hr1; cbn; auto using addr_bits_ok).
  destruct (reg_write_run OCOTP_READ_CTRL 1 w2) as (w3 & -> & Hr3 & Hb3 & Hw3).
  rewrite Hb2, Hb1 in Hr3. destruct (hw_sense (o_hw w2)) as (n & Hn & En).
  { change (r_busy (o_regs w2) = 0%nat). by rewrite Hr2, Hr1. }
  rewrite En in Hr3. change (regs (o_hw w2)) with (o_regs w2) in Hr3. rewrite Hr2, Hr1 in Hr3. unfold sense_word in Hr3. cbn in Hr3.
  destruct (wait_busy_ok busy_fuel w3) as (w4 & -> & Hr4 & Hb4 & Hw4); [congruence| rewrite Hr3; cbn; lia..|].
  cbn [negb]. unfold reg_read. rewrite Hb4. destruct (hw_fuse_data (o_hw w4)) as (h & -> & Eh).
  { change (r_busy (o_regs w4) = 0%nat). by rewrite Hr4. }
  change (regs (o_hw w4)) with (o_regs w4) in *. rewrite Hr4, Hr3 in *.
  eexists. split; [reflexivity|]. unfold o_regs. cbn. rewrite Eh. cbn. split; [|done].
  split; unfold o_regs; cbn; rewrite ?Eh; cbn; auto; [congruence|lia].
Qed.

(** Programming: a locked word is refused and left alone. *)
Lemma ocotp_write_ok w b r v : driver_ready w -> slot b r -> (busy_max < busy_fuel)%nat ->
  let locked := r_locked (o_regs w) (wpb * b + r) in
  exists w', ocotp_write busy_fuel b r v w = (Some (if locked then - PB_ERR_IO else PB_OK), w') /\ driver_ready w' /\
    r_fuses (o_regs w') = (if locked then r_fuses (o_regs w) else alter (fun x => Z.lor x v) (Z.to_nat (wpb * b + r)) (r_fuses (o_regs w))) /\
    r_locked (o_regs w') = r_locked (o_regs w).
Proof.
  intros Hd Hs Hf locked. unfold ocotp_write. m_unfold. destruct (word_addr_slot b r Hs) as [Hwa Hba].
  destruct (ready_or_error_ok w Hd Hf) as (w1 & -> & Hr1 & Hb1 & Hw1). cbn [PB_OK].
  destruct (reg_write_run OCOTP_TIMING OCOTP_TIMING_VALUE w1) as (w2 & -> & Hr2 & Hb2 & Hw2).
  rewrite Hb1 in Hr2. rewrite hw_timing in Hr2 by (by change (r_busy (o_regs w1) = 0%nat); rewrite Hr1).
  change (regs (o_hw w1)) with (o_regs w1) in Hr2.
  assert (Hd2 : driver_ready w2) by (apply (driver_ready_idle w); congruence).
  destruct (ready_or_error_ok w2 Hd2 Hf) as (w3 & -> & Hr3 & Hb3 & Hw3). cbn [PB_OK].
  rewrite Hw3, Hwa. destruct Hd as [Hwb Hww Hu He Ha Hl]. destruct (ones_addr _ _ addr_bits_ok Hba) as [_ Hsm].
  destruct (reg_write_run OCOTP_CTRL (Z.lor (Z.shiftl OCOTP_CTRL_WR_KEY 16) (wpb * b + r)) w3) as (w4 & -> & Hr4 & Hb4 & Hw4).
  rewrite Hb3 in Hr4. rewrite hw_set_ctrl in Hr4 by (by change (r_busy (o_regs w3) = 0%nat); rewrite Hr3).
  change (regs (o_hw w3)) with (o_regs w3) in Hr4.
  rewrite set_ctrl_key in Hr4 by (rewrite ?Hr3, ?Hr2, ?Hr1; cbn; auto using addr_bits_ok).
  destruct (reg_write_run OCOTP_DATA v w4) as (w5 & -> & Hr5 & Hb5 & Hw5).
  rewrite Hb4, Hb3 in Hr5. destruct (hw_program (o_hw w4) v) as (n & Hn & En).
  { change (r_busy (o_regs w4) = 0%nat). by rewrite Hr4, Hr3. }
  rewrite En in Hr5. change (regs (o_hw w4)) with (o_regs w4) in Hr5. rewrite Hr4, Hr3, Hr2, Hr1 in Hr5.
  unfold program_word in Hr5. cbn in Hr5. fold locked in Hr5. destruct locked; cbn in Hr5.
  - destruct (ready_or_error_clears w5) as (w6 & -> & Hd6 & Hf6 & Hl6); rewrite ?Hr5; cbn; auto; [congruence|congruence|lia|].
    exists w6. split_and!; try done; [by rewrite Hf6, Hr5|by rewrite Hl6, Hr5].
  - assert (Hd5 : driver_ready w5).
    { split; rewrite ?Hr5; cbn; auto; [congruence..|]. by rewrite length_alter. }
    destruct (ready_or_error_ok w5 Hd5 Hf) as (w6 & -> & Hr6 & Hb6 & Hw6).
    exists w6. split; [done|]. split; [by apply (driver_ready_idle w5)|]. by rewrite Hr6, Hr5.
Qed.

Lemma alter_slot b r b' r' v (l : list Z) : slot b r -> slot b' r' -> length l = Z.to_nat (2 ^ addr_bits) ->
  default 0 (alter (fun x => Z.lor x v) (Z.to_nat (wpb * b + r)) l !! Z.to_nat (wpb * b' + r')) =
    (if decide ((b', r') = (b, r)) then Z.lor (default 0 (l !! Z.to_nat (wpb * b + r))) v
     else default 0 (l !! Z.to_nat (wpb * b' + r'))).
Proof.
  intros Hs Hs' Hl. destruct (word_addr_slot b r Hs) as [_ Ha]. destruct (word_addr_slot b' r' Hs') as [_ Ha'].
  destruct Hs as (Hb & Hr & _), Hs' as (Hb' & Hr' & _). case_decide as E.
  - injection E as -> ->. rewrite list_lookup_alter_eq.
    destruct (lookup_lt_is_Some_2 l (Z.to_nat (wpb * b + r)) ltac:(lia)) as [x ->]. done.
  - rewrite list_lookup_alter_ne; [done|]. intros Eq. apply E. assert (wpb * b + r = wpb * b' + r') by lia. assert (b = b') as -> by nia. f_equal. lia.
Qed.

(** [C29] Reading back.  On an idle controller with an address field of six or
    seven bits, whose error flag may be set, after [imx_ocotp_init] at its base
    with at least four words per bank: an error flag left by an earlier
    operation is first reported once, with nothing programmed; programming a
    word within the reach of the address field then answers [-PB_ERR_IO] if
    the word is locked, and [PB_OK] otherwise; and a later read of any word
    within reach returns [PB_OK] and the value it had, with the programmed bits
    added for the addressed word, unless that is locked, and for no other.
    Beyond the reach of six bits a word of another bank is programmed:
    [ocotp_six_bits]. *)
Theorem ocotp_program_read w b r v b' r' :
  (busy_max < busy_fuel)%nat -> 4 <= wpb -> slot b r -> slot b' r' -> 0 <= v < 2 ^ 32 ->
  r_busy (o_regs w) = 0%nat -> 0 <= r_addr (o_regs w) < 128 -> length (r_fuses (o_regs w)) = Z.to_nat (2 ^ addr_bits) ->
  let locked := r_locked (o_regs w) (wpb * b + r) in
  exists w0 w1 w2 w3, imx_ocotp_init base wpb w = (PB_OK, w0) /\
    (if r_error (o_regs w) then ocotp_write busy_fuel b r v w0 = (Some (- PB_ERR_IO), w1) else w1 = w0) /\
    ocotp_write busy_fuel b r v w1 = (Some (if locked then - PB_ERR_IO else PB_OK), w2) /\
    ocotp_read busy_fuel b' r' w2 =
      ((Some PB_OK, if decide ((b', r') = (b, r) /\ locked = false) then Z.lor (word_at w b r) v else word_at w b' r'), w3).
Proof.
  intros Hf Hwpb Hs Hs' Hv Hb Ha Hl locked. set (w0 := OcotpSt (o_hw w) base wpb).
  assert (exists w1, (if r_error (o_regs w) then ocotp_write busy_fuel b r v w0 = (Some (- PB_ERR_IO), w1) else w1 = w0) /\
    driver_ready w1 /\ r_fuses (o_regs w1) = r_fuses (o_regs w) /\ r_locked (o_regs w1) = r_locked (o_regs w)) as (w1 & H1 & Hd & Ef & El).
  { destruct (r_error (o_regs w)) eqn:He.
    - destruct (ready_or_error_clears w0) as (w1 & E & Hd & Ef); [done..| |done|done|done|].
      { change (r_busy (o_regs w) < busy_fuel)%nat. lia. }
      exists w1. unfold ocotp_write. m_unfold. by rewrite E.
    - exists w0. split; [done|]. split; [|done]. split; try done. change (r_busy (o_regs w) <= busy_max)%nat. lia. }
  destruct (ocotp_write_ok w1 b r v Hd Hs Hf) as (w2 & E2 & Hd2 & Ef2 & _). rewrite El in E2, Ef2. fold locked in E2, Ef2.
  destruct (ocotp_read_ok w2 b' r' Hd2 Hs' Hf) as (w3 & E3 & _).
  exists w0, w1, w2, w3. split; [unfold imx_ocotp_init; m_unfold; by rewrite (proj2 (Z.ltb_ge _ _) Hwpb)|]. split; [done|]. split; [done|].
  rewrite E3. unfold word_at. rewrite Ef2, Ef. destruct locked; [by rewrite decide_False by (by intros [])|].
  rewrite alter_slot by done. destruct (decide ((b', r') = (b, r))) as [E|E]; [by rewrite decide_True|]. rewrite decide_False; [done|]. by intros [].
Qed.
End driver_laws.

(** Eight words per bank and seven bits: what the platform code relies on. *)
Section platform_laws.
Context {HW : Type} `{!Mmio HW} {base : Z} {busy_max : nat} {hw : OcotpHw HW base busy_max}.

(** Nothing is locked. *)
#[export] Instance driver_ghost : OcotpGhost (ocotp_st HW) := {|
  ocotp_ready w := driver_ready (hw := hw) 8 w /\ forall a, r_locked (o_regs (hw := hw) w) a = false;
  fuse_at := word_at (hw := hw) 8
|}.

Lemma ocotp_driver_laws busy_fuel : addr_bits = 7 -> (busy_max < busy_fuel)%nat -> @OcotpLaws (ocotp_st HW) (ocotp_driver_ops busy_fuel) driver_ghost.
Proof.
  intros H7 Hf. assert (Hsl : forall b r, ocotp_slot b r -> slot (hw := hw) 8 b r) by (intros b r [Hb Hr]; unfold slot; rewrite H7; lia).
  split; intros w b r.
  - intros [Hd Hk] Hs. destruct (ocotp_read_ok busy_fuel 8 w b r Hd (Hsl _ _ Hs) Hf) as (w' & E & Hd' & Ef & El). exists w'. cbn. m_unfold.
    rewrite E. split; [done|]. split; [split; [done|intros a; by rewrite El]|]. intros b' r' _. unfold word_at. by rewrite Ef.
  - intros v [Hd Hk] Hs Hv. destruct (ocotp_write_ok busy_fuel 8 w b r v Hd (Hsl _ _ Hs) Hf) as (w' & E & Hd' & Ef & El). rewrite Hk in E, Ef.
    exists w'. cbn. m_unfold. rewrite E. split; [done|]. split; [split; [done|intros a; by rewrite El]|]. destruct Hd as [? ? ? ? ? Hl].
    split; [|intros b' r' Hs' Hne]; unfold word_at; rewrite Ef, (alter_slot (hw := hw)) by auto; [by rewrite decide_True|by rewrite decide_False].
Qed.
End platform_laws.

(** ** A controller *)

(** The registers themselves, busy for three polls after each operation, at
    the i.MX6UL's address; while it is busy the data register reads as ones. *)
Module ToyOcotp.
Definition base : Z := 0x021BC000.

Definition read (a : Z) : M ocotp_regs Z := fun r =>
  if a =? base + OCOTP_CTRL then (ctrl_word r, tick r)
  else if a =? base + OCOTP_READ_FUSE_DATA then (if decide (r_busy r = 0%nat) then r_data r else 0xffffffff, r) else (0, r).

Definition write (bits a v : Z) : M ocotp_regs unit := fun r =>
  (tt, if a =? base + OCOTP_CTRL then set_ctrl bits v r
       else if a =? base + OCOTP_DATA then program_word 3 v r
       else if a =? base + OCOTP_READ_CTRL then sense_word 3 r else r).

Definition mmio_bits (bits : Z) : Mmio ocotp_regs := {| mmio_read_32 := read; mmio_write_32 := write bits |}.
#[export] Instance mmio : Mmio ocotp_regs := mmio_bits 7.

#[export] Instance hw : OcotpHw ocotp_regs base 3.
Proof.
  refine {| regs := fun r => r; addr_bits := 7 |}.
  - by right.
  - intros h. eexists. split; reflexivity.
  - intros h H0. exists h. cbn. unfold read. cbn [Z.eqb]. rewrite decide_True by done. done.
  - reflexivity.
  - reflexivity.
  - intros h v _. exists 3%nat. split; [lia|reflexivity].
  - intros h _. exists 3%nat. split; [lia|reflexivity].
Defined.

(** The first word of bank 9 is locked. *)
Definition init : ocotp_regs := OcotpRegs 0 true 0 false 0 (replicate 128 1) (fun a => a =? 72).

(** On a controller with six address bits, programming the first word of bank 8
    programs the first word of bank 0. *)
Example ocotp_six_bits :
  let w := OcotpSt (OcotpRegs 0 false 0 false 0 (zeros 64) (fun _ => false)) base 8 in
  let w' := (ocotp_write (Mmio0 := mmio_bits 6) 4 8 0 5 w).2 in
  (ocotp_write (Mmio0 := mmio_bits 6) 4 8 0 5 w).1 = Some PB_OK /\ (ocotp_read (Mmio0 := mmio_bits 6) 4 0 0 w').1 = (Some PB_OK, 5).
Proof. by vm_compute. Qed.
End ToyOcotp.

#[local] Existing Instances ToyOcotp.mmio ToyOcotp.hw.

Lemma ocotp_program_read_witness : exists w0 w1 w2 w3, imx_ocotp_init ToyOcotp.base 8 (OcotpSt ToyOcotp.init 0 0) = (PB_OK, w0) /\
  ocotp_write 4 5 7 4 w0 = (Some (- PB_ERR_IO), w1) /\
  ocotp_write 4 5 7 4 w1 = (Some PB_OK, w2) /\ ocotp_read 4 5 7 w2 = ((Some PB_OK, 5), w3).
Proof.
  destruct (ocotp_program_read (HW := ocotp_regs) (base := ToyOcotp.base) 4 8 (OcotpSt ToyOcotp.init 0 0) 5 7 4 5 7)
    as (w0 & w1 & w2 & w3 & H0 & H1 & H2 & H3); [lia | lia | by vm_compute | by vm_compute | lia | reflexivity | | reflexivity |].
  { change (0 <= 0 < 128). lia. }
  exists w0, w1, w2, w3. exact (conj H0 (conj H1 (conj H2 H3))).
Defined.
