(* ===== verification/Fuses.v ===== *)
(** * Fuses: key revocation and life cycle of the platforms

    What stands behind the callbacks of [Rot]: the fuse box emulator of the
    test platform ([src/drivers/fuse/test_fuse_bio.c], [src/plat/qemu]) on top
    of a block device, and the i.MX6UL and i.MX RT helpers ([src/plat/imx6ul],
    [src/plat/imxrt]) on top of the OCOTP fuse controller. *)

From S2P Require Import Prelude Errors Uuid Bio BlockIface Crypto Rot Ocotp.
Local Open Scope c_scope.

(** [1 << key->param1], as the 32-bit value that is used; the shift is by less
    than the width of [int]. *)
Definition key_bit (key : rot_key) : Z := u32 (Z.shiftl 1 (rk_param1 key)).

(** ** The fuse box of the test platform *)

Definition TEST_FUSE_ADDR_MAX : Z := 128.
Definition FUSE_REVOKE : Z := 8.
Definition FUSE_SEC : Z := 9.
Definition SEC_CONF_LOCKED : Z := Z.shiftl 1 0.
Definition SEC_CONF_EOL : Z := Z.shiftl 1 1.

Definition fuse_box_c : codec (list Z) := c_array 128 u32c.

(** The static variables [fuse_box] and [dev] and the block layer. *)
Record fuse_world (W : Type) := FuseWorld { f_blk : W; fuse_box : list Z; f_dev : bio_dev_t }.
Arguments FuseWorld {W}.
Arguments f_blk {W}.
Arguments fuse_box {W}.
Arguments f_dev {W}.

Section test_fuse.
Context {W : Type} `{!BlockOps W}.
Abbreviation F := (M (fuse_world W)).

Definition on_disk {A} (m : M W A) : F A :=
  fun w => let '(a, b) := m (f_blk w) in (a, FuseWorld b (fuse_box w) (f_dev w)).

Definition test_fuse_init (dev_ : bio_dev_t) : F Z :=
  modify (fun w => FuseWorld (f_blk w) (fuse_box w) dev_) ;;;
  let* (rc, bs) := on_disk (blk_read dev_ 0 (TEST_FUSE_ADDR_MAX * 4)) in
  modify (fun w => FuseWorld (f_blk w) (decode fuse_box_c (splice 0 bs (cenc fuse_box_c (fuse_box w)))) (f_dev w)) ;;;
  if rc <? 0 then ret rc else ret PB_OK.

Definition test_fuse_write (addr value : Z) : F Z :=
  if TEST_FUSE_ADDR_MAX <=? addr then ret (- PB_ERR_PARAM) else
  modify (fun w => FuseWorld (f_blk w) (alter (fun x => Z.lor x value) (Z.to_nat addr) (fuse_box w)) (f_dev w)) ;;;
  w <- get ;;
  on_disk (blk_write (f_dev w) 0 (TEST_FUSE_ADDR_MAX * 4) (cenc fuse_box_c (fuse_box w))).

(** The [uint32_t] is returned as an [int]. *)
Definition test_fuse_read (addr : Z) : F Z :=
  if TEST_FUSE_ADDR_MAX <=? addr then ret (- PB_ERR_PARAM) else
  gets (fun w => s32 (default 0 (fuse_box w !! Z.to_nat addr))).

(** [src/plat/qemu/rot_helpers.c]; a read error is only logged. *)
Definition qemu_revoke_key (key : rot_key) : F Z :=
  _ <- test_fuse_read FUSE_REVOKE ;;
  test_fuse_write 8 (key_bit key).

Definition qemu_read_key_status (key : rot_key) : F Z :=
  val <- test_fuse_read FUSE_REVOKE ;;
  if negb (Z.land val (s32 (key_bit key)) =? 0) then ret (- PB_ERR_KEY_REVOKED) else ret PB_OK.

(** [src/plat/qemu/slc_helpers.c] *)
Definition qemu_slc_read_status : F Z :=
  val <- test_fuse_read FUSE_SEC ;;
  if negb (Z.land val SEC_CONF_EOL =? 0) then ret SLC_EOL
  else if negb (Z.land val SEC_CONF_LOCKED =? 0) then ret SLC_CONFIGURATION_LOCKED
  else ret SLC_CONFIGURATION.

Definition qemu_slc_set_configuration_locked : F Z := test_fuse_write FUSE_SEC SEC_CONF_LOCKED.
Definition qemu_slc_set_eol : F Z := test_fuse_write FUSE_SEC SEC_CONF_EOL.
End test_fuse.

(** ** i.MX6UL and i.MX RT: the OCOTP fuse controller *)

Definition IMX6UL_FUSE_LOCK_BANK : Z := 0.
Definition IMX6UL_FUSE_LOCK_WORD : Z := 6.
Definition IMX6UL_FUSE_REVOKE_BANK : Z := 5.
Definition IMX6UL_FUSE_REVOKE_WORD : Z := 7.
Definition IMX6UL_FUSE_SRK_BANK : Z := 3.
Definition IS_HAB_ENABLED_BIT : Z := 2.

Section imx.
(** [hab_has_no_errors] asks the boot ROM. *)
Context {HW : Type} `{!OcotpOps HW} (hab_has_no_errors : M HW Z).

Definition hab_secureboot_active : M HW (Z * bool) :=
  let* (ret_, reg) := imx_ocotp_read 0 6 in
  if negb (ret_ =? PB_OK) then ret (- PB_ERR_IO, false) else
  ret (PB_OK, Z.land reg IS_HAB_ENABLED_BIT =? IS_HAB_ENABLED_BIT).

(** The loop over the eight words of the SRK bank, from word [n]. *)
Fixpoint srk_fused_loop (k : nat) (n : Z) : M HW bool :=
  match k with
  | O => ret false
  | S k =>
      let* (rc, fuse_val) := imx_ocotp_read IMX6UL_FUSE_SRK_BANK n in
      if negb (rc =? PB_OK) then ret false else
      if negb (fuse_val =? 0) then ret true else srk_fused_loop k (n + 1)
  end.

Definition imx6ul_is_srk_fused : M HW bool := srk_fused_loop 8 0.

(** The check of the fuses against the new values, from word [n]: a return
    code and [perform_srk_fusing]. *)
Fixpoint srk_check_loop (srk : list Z) (n : Z) (perform : bool) : M HW (Z * bool) :=
  match srk with
  | [] => ret (PB_OK, perform)
  | v :: srk =>
      let* (rc, val) := imx_ocotp_read IMX6UL_FUSE_SRK_BANK n in
      if negb (rc =? PB_OK) then ret (rc, perform) else
      if negb (val =? 0) && negb (val =? v) then ret (- PB_ERR_MEM, perform)
      else if negb (val =? 0) && (val =? v) then srk_check_loop srk (n + 1) perform
      else srk_check_loop srk (n + 1) true
  end.

Fixpoint srk_write_loop (srk : list Z) (n : Z) : M HW Z :=
  match srk with
  | [] => ret PB_OK
  | v :: srk =>
      rc <- imx_ocotp_write IMX6UL_FUSE_SRK_BANK n v ;;
      if negb (rc =? PB_OK) then ret rc else srk_write_loop srk (n + 1)
  end.

(** [fuses->srk] has eight words; NULL is [None]. *)
Definition imx6ul_fuse_write_srk (fuses : option (list Z)) : M HW Z :=
  match fuses with
  | None => ret (- PB_ERR_PARAM)
  | Some srk =>
      if existsb (Z.eqb 0) srk then ret (- PB_ERR_PARAM) else
      let* (rc, perform_srk_fusing) := srk_check_loop srk 0 false in
      if negb (rc =? PB_OK) then ret rc else
      if perform_srk_fusing then srk_write_loop srk 0 else ret PB_OK
  end.

Definition imx6ul_revoke_key (key : rot_key) : M HW Z :=
  rc <- hab_has_no_errors ;;
  if negb (rc =? PB_OK) then ret (- PB_ERR_STATE) else
  let* (rc, current_revoke_bits) := imx_ocotp_read IMX6UL_FUSE_REVOKE_BANK IMX6UL_FUSE_REVOKE_WORD in
  if negb (rc =? PB_OK) then ret rc else
  let revoke_value := key_bit key in
  if Z.land current_revoke_bits revoke_value =? revoke_value then ret PB_OK else
  let revoke_value := Z.lor revoke_value current_revoke_bits in
  imx_ocotp_write IMX6UL_FUSE_REVOKE_BANK IMX6UL_FUSE_REVOKE_WORD revoke_value.

(** The second argument of the read is the bank, as in the source. *)
Definition imx6ul_read_key_status (key : rot_key) : M HW Z :=
  let* (rc, current_revoke_bits) := imx_ocotp_read IMX6UL_FUSE_REVOKE_BANK IMX6UL_FUSE_REVOKE_BANK in
  if negb (rc =? PB_OK) then ret rc else
  let revoke_value := key_bit key in
  if Z.land current_revoke_bits revoke_value =? revoke_value then ret (- PB_ERR_KEY_REVOKED) else ret PB_OK.

Definition imx6ul_slc_read_status : M HW Z :=
  let* (rc, sec_boot_active) := hab_secureboot_active in
  if negb (rc =? PB_OK) then ret rc else
  if (sec_boot_active : bool) then ret SLC_CONFIGURATION_LOCKED else
  fused <- imx6ul_is_srk_fused ;;
  ret (if (fused : bool) then SLC_CONFIGURATION else SLC_NOT_CONFIGURED).

Definition imx6ul_slc_set_configuration_locked : M HW Z :=
  fused <- imx6ul_is_srk_fused ;;
  if negb fused then ret (- PB_ERR_STATE) else
  slc <- imx6ul_slc_read_status ;;
  if slc <? 0 then ret slc else
  if slc =? SLC_CONFIGURATION_LOCKED then ret PB_OK else
  if negb (slc =? SLC_CONFIGURATION) then ret (- PB_ERR_STATE) else
  imx_ocotp_write IMX6UL_FUSE_LOCK_BANK IMX6UL_FUSE_LOCK_WORD 2.

(** [src/plat/imxrt]: the same fuses, but neither keys nor life cycle can be
    changed; bank 3 holds the SRK as well. *)
Definition imxrt_revoke_key (key : rot_key) : M HW Z := ret (- PB_ERR_STATE).
Definition imxrt_read_key_status (key : rot_key) : M HW Z := ret PB_OK.
Definition imxrt_is_srk_fused : M HW bool := srk_fused_loop 8 0.
Definition imxrt_slc_read_status : M HW Z :=
  let* (rc, tmp) := imx_ocotp_read 0 6 in
  if negb (rc =? PB_OK) then ret rc else
  if negb (Z.land tmp 2 =? 0) then ret SLC_CONFIGURATION_LOCKED else
  fused <- imxrt_is_srk_fused ;;
  ret (if (fused : bool) then SLC_CONFIGURATION else SLC_NOT_CONFIGURED).
Definition imxrt_slc_set_configuration_locked : M HW Z := ret (- PB_ERR_STATE).
End imx.

(** ** Bits *)

Lemma key_bit_pow2 k : 0 <= rk_param1 k < 32 -> key_bit k = 2 ^ rk_param1 k.
Proof.
  intros Hk. unfold key_bit. rewrite Z.shiftl_1_l. apply u32_small. split; [apply Z.pow_nonneg; lia|].
  apply Z.pow_lt_mono_r; lia.
Qed.

Lemma key_bit_s32 k : 0 <= rk_param1 k < 31 -> s32 (key_bit k) = 2 ^ rk_param1 k.
Proof.
  intros Hk. rewrite key_bit_pow2 by lia.
  assert (2 ^ rk_param1 k < 2 ^ 31) by (apply Z.pow_lt_mono_r; lia).
  pose proof (Z.pow_nonneg 2 (rk_param1 k)). unfold s32. rewrite Z.mod_small; lia.
Qed.

(** ** The emulated fuse box *)

Section emulator.
Context {W : Type} `{!BlockOps W, !BlockGhost W, !BlockLaws W}.
Implicit Types w : fuse_world W.

Definition box_bytes : nat := 512.

(** The fuse box of device [d] in memory, as it is stored. *)
Record fuse_ready (d : bio_dev_t) w : Prop := {
  fr_dev : f_dev w = d;
  fr_rw : blk_rw (f_blk w) d;
  fr_size : (box_bytes <= length (blk_data (f_blk w) d))%nat;
  fr_unit : Z.of_nat box_bytes mod blk_unit = 0;
  fr_box : cwf fuse_box_c (fuse_box w);
  fr_sync : take box_bytes (blk_data (f_blk w) d) = cenc fuse_box_c (fuse_box w)
}.

Lemma lor_box addr v box : cwf fuse_box_c box -> 0 <= v < 2 ^ 32 ->
  cwf fuse_box_c (alter (fun x => Z.lor x v) addr box).
Proof.
  intros [Hl Hf] Hv. split; [by rewrite length_alter|]. rewrite Forall_lookup in *. intros i x Hx.
  destruct (decide (i = addr)) as [->|]; [|rewrite list_lookup_alter_ne in Hx by done; by apply (Hf i)].
  rewrite list_lookup_alter_eq in Hx. destruct (box !! addr) eqn:E; [|done]. injection Hx as <-.
  apply (lor_lt _ _ 32); [lia| by apply (Hf addr) |lia].
Qed.

Lemma fuse_write_run d w addr v : fuse_ready d w -> 0 <= addr < 128 -> 0 <= v < 2 ^ 32 ->
  exists w', test_fuse_write addr v w = (PB_OK, w') /\ fuse_ready d w' /\
    fuse_box w' = alter (fun x => Z.lor x v) (Z.to_nat addr) (fuse_box w).
Proof.
  intros [Hd Hrw Hsz Hu Hb Hs] Ha Hv. unfold test_fuse_write, TEST_FUSE_ADDR_MAX.
  destruct (Z.leb_spec 128 addr); [lia|]. m_unfold. unfold on_disk. cbn [f_blk fuse_box f_dev]. rewrite Hd.
  pose proof (lor_box (Z.to_nat addr) v _ Hb Hv) as Hb'.
  set (box := alter _ _ _) in *. clearbody box.
  pose proof (cenc_length (c := fuse_box_c) _ Hb') as Hl. set (buf := cenc fuse_box_c box) in *.
  change (csize fuse_box_c) with 512%nat in Hl. unfold box_bytes in *.
  destruct (law_write (f_blk w) d buf Hrw) as (b & E & Hsame & Hdata & _); [lia|by rewrite Hl|].
  rewrite Hl in E. change (128 * 4) with (Z.of_nat 512). rewrite E.
  eexists. split; [reflexivity|]. split; [|done]. split; cbn; auto.
  - by apply (same_rw _ _ Hsame).
  - rewrite Hdata, length_splice by lia. done.
  - rewrite Hdata. unfold splice. rewrite take_0. cbn [app]. by apply take_app_length'.
Qed.

Lemma fuse_init_run d w box0 dev0 : fuse_ready d w -> cwf fuse_box_c box0 ->
  exists w', test_fuse_init d (FuseWorld (f_blk w) box0 dev0) = (PB_OK, w') /\ fuse_ready d w' /\
    fuse_box w' = fuse_box w.
Proof.
  intros [Hd Hrw Hsz Hu Hb Hs] Hb0. unfold test_fuse_init, TEST_FUSE_ADDR_MAX. m_unfold. unfold on_disk. cbn [f_blk fuse_box f_dev].
  unfold box_bytes in *. change (128 * 4) with (Z.of_nat 512).
  destruct (law_read (f_blk w) d (Z.of_nat 512) Hrw) as (b & E & Hsame & Hdata); [lia|done|].
  assert (Hdec : decode fuse_box_c (splice 0 (cenc fuse_box_c (fuse_box w)) (cenc fuse_box_c box0)) = fuse_box w).
  { unfold splice, decode. rewrite take_0. cbn [app]. by rewrite (cdec_cenc (c := fuse_box_c)). }
  rewrite E, Nat2Z.id, Hs. cbn [f_blk fuse_box f_dev]. rewrite Hdec. eexists. split; [reflexivity|]. split; [|done]. split; cbn; auto.
  - by apply (same_rw _ _ Hsame).
  - by rewrite Hdata.
  - by rewrite Hdata.
Qed.

(** A read of a fuse word is a function of the box. *)
Definition box_bit (addr : nat) (i : Z) w : bool := Z.testbit (default 0 (fuse_box w !! addr)) i.

Lemma box_word_range addr w : cwf fuse_box_c (fuse_box w) -> 0 <= default 0 (fuse_box w !! addr) < 2 ^ 32.
Proof.
  intros [_ Hf]. destruct (fuse_box w !! addr) eqn:E; [|cbn; lia]. rewrite Forall_lookup in Hf. by apply (Hf addr).
Qed.

Lemma key_status_bit key w : cwf fuse_box_c (fuse_box w) -> 0 <= rk_param1 key < 31 ->
  (qemu_read_key_status key w).1 = if box_bit 8 (rk_param1 key) w then - PB_ERR_KEY_REVOKED else PB_OK.
Proof.
  intros Hc Hk. unfold qemu_read_key_status, test_fuse_read, box_bit. m_unfold. cbn.
  change (Pos.to_nat 8) with 8%nat. rewrite key_bit_s32, land_pow2, negb_involutive by lia.
  rewrite s32_testbit by (try apply box_word_range; done || lia). by destruct (Z.testbit _ _).
Qed.

Lemma slc_status_bits w : cwf fuse_box_c (fuse_box w) ->
  (qemu_slc_read_status w).1 =
    if box_bit 9 1 w then SLC_EOL else if box_bit 9 0 w then SLC_CONFIGURATION_LOCKED else SLC_CONFIGURATION.
Proof.
  intros Hc. unfold qemu_slc_read_status, test_fuse_read, box_bit. m_unfold.
  change (TEST_FUSE_ADDR_MAX <=? FUSE_SEC) with false. cbn iota beta.
  change (Z.to_nat FUSE_SEC) with 9%nat. change SEC_CONF_EOL with (2 ^ 1). change SEC_CONF_LOCKED with (2 ^ 0).
  rewrite !land_pow2, !negb_involutive by lia.
  rewrite !s32_testbit by (try apply box_word_range; done || lia). by repeat destruct (Z.testbit _ _).
Qed.

Lemma box_bit_alter addr v a i w w' : (addr < 128)%nat -> 0 <= i -> cwf fuse_box_c (fuse_box w) ->
  fuse_box w' = alter (fun x => Z.lor x v) addr (fuse_box w) ->
  box_bit a i w' = if decide (a = addr) then box_bit a i w || Z.testbit v i else box_bit a i w.
Proof.
  intros Ha Hi [Hl _] E. unfold box_bit. rewrite E. case_decide as Eq.
  - subst a. rewrite list_lookup_alter_eq.
    destruct (lookup_lt_is_Some_2 (fuse_box w) addr ltac:(lia)) as [x ->]. cbn. apply Z.lor_spec.
  - by rewrite list_lookup_alter_ne by done.
Qed.

(** What can happen to the fuse box: the operations the security code
    performs, and a restart, where the static variables start from anything
    and the box is read again. *)
Inductive fuse_op :=
  | OpRevoke (key : rot_key)
  | OpLock
  | OpEol
  | OpRestart (box0 : list Z) (dev0 : bio_dev_t).

Definition op_ok (op : fuse_op) : Prop :=
  match op with
  | OpRevoke key => 0 <= rk_param1 key < 31
  | OpRestart box0 _ => cwf fuse_box_c box0
  | _ => True
  end.

Definition run_op (d : bio_dev_t) (op : fuse_op) : M (fuse_world W) Z :=
  match op with
  | OpRevoke key => qemu_revoke_key key
  | OpLock => qemu_slc_set_configuration_locked
  | OpEol => qemu_slc_set_eol
  | OpRestart box0 dev0 => modify (fun w => FuseWorld (f_blk w) box0 dev0) ;;; test_fuse_init d
  end.

Fixpoint run_ops (d : bio_dev_t) (ops : list fuse_op) : M (fuse_world W) (list Z) :=
  match ops with
  | [] => ret []
  | op :: ops => rc <- run_op d op ;; rcs <- run_ops d ops ;; ret (rc :: rcs)
  end.

Definition is_lock (op : fuse_op) : bool := match op with OpLock => true | _ => false end.
Definition is_eol (op : fuse_op) : bool := match op with OpEol => true | _ => false end.

(** The bit an operation sets. *)
Definition sets (op : fuse_op) (a : nat) (i : Z) : bool :=
  match op with
  | OpRevoke key => bool_decide (a = 8%nat /\ i = rk_param1 key)
  | OpLock => bool_decide (a = 9%nat /\ i = 0)
  | OpEol => bool_decide (a = 9%nat /\ i = 1)
  | OpRestart _ _ => false
  end.

Lemma set_bit_run d w addr j : fuse_ready d w -> 0 <= addr < 128 -> 0 <= j < 32 ->
  exists w', test_fuse_write addr (2 ^ j) w = (PB_OK, w') /\ fuse_ready d w' /\
    forall a i, 0 <= i -> box_bit a i w' = box_bit a i w || bool_decide (a = Z.to_nat addr /\ i = j).
Proof.
  intros Hr Ha Hj. destruct (fuse_write_run d w addr (2 ^ j) Hr Ha) as (w' & E & Hr' & Eb).
  { split; [apply Z.pow_nonneg; lia | apply Z.pow_lt_mono_r; lia]. }
  exists w'. split; [done|]. split; [done|]. intros a i Hi.
  rewrite (box_bit_alter (Z.to_nat addr) (2 ^ j) a i w w') by (done || lia || apply (fr_box _ _ Hr)).
  rewrite Z.pow2_bits_eqb by lia. case_decide as Ea.
  - f_equal. destruct (Z.eqb_spec j i); [rewrite bool_decide_true|rewrite bool_decide_false]; intuition congruence.
  - rewrite bool_decide_false by tauto. by rewrite orb_false_r.
Qed.

Lemma run_op_bits d op w : fuse_ready d w -> op_ok op ->
  exists w', run_op d op w = (PB_OK, w') /\ fuse_ready d w' /\
    forall a i, 0 <= i -> box_bit a i w' = box_bit a i w || sets op a i.
Proof.
  intros Hr Hop. destruct op as [key| | |box0 dev0]; cbn [run_op op_ok sets] in *.
  - unfold qemu_revoke_key, test_fuse_read. cbn. m_unfold. rewrite key_bit_pow2 by lia.
    apply (set_bit_run d w 8 (rk_param1 key)); [done|lia|lia].
  - apply (set_bit_run d w 9 0); [done|lia|lia].
  - apply (set_bit_run d w 9 1); [done|lia|lia].
  - destruct (fuse_init_run d w box0 dev0 Hr Hop) as (w' & E & Hr' & Eb). exists w'. m_unfold. rewrite E.
    split; [done|]. split; [done|]. intros a i _. unfold box_bit. by rewrite Eb, orb_false_r.
Qed.

Lemma run_ops_bits d ops w : fuse_ready d w -> Forall op_ok ops ->
  exists w', run_ops d ops w = (replicate (length ops) PB_OK, w') /\ fuse_ready d w' /\
    forall a i, 0 <= i -> box_bit a i w' = box_bit a i w || existsb (fun op => sets op a i) ops.
Proof.
  intros Hr Hops. revert w Hr. induction Hops as [|op ops Hop _ IH]; intros w Hr; cbn [run_ops].
  - exists w. split; [done|]. split; [done|]. intros. by rewrite orb_false_r.
  - m_unfold. destruct (run_op_bits d op w Hr Hop) as (w1 & -> & Hr1 & H1).
    destruct (IH w1 Hr1) as (w2 & E & Hr2 & H2). exists w2. rewrite E. split; [done|]. split; [done|].
    intros a i Hi. cbn [existsb]. by rewrite H2, H1, orb_assoc by done.
Qed.

Lemma sets_revoke i ops : existsb (fun op => sets op 8 i) ops = true <-> exists k, OpRevoke k ∈ ops /\ rk_param1 k = i.
Proof.
  rewrite existsb_exists. setoid_rewrite <- list_elem_of_In. split.
  - intros (op & Hin & Hs). destruct op as [k| | |]; cbn in Hs; try done; apply bool_decide_eq_true in Hs; [|lia..].
    exists k. by destruct Hs as [_ ->].
  - intros (k & Hin & <-). exists (OpRevoke k). split; [done|]. by apply bool_decide_eq_true.
Qed.

Lemma sets_lock ops : existsb (fun op => sets op 9 0) ops = existsb is_lock ops.
Proof. induction ops as [|[] ops IH]; cbn; rewrite ?IH; done. Qed.

Lemma sets_eol ops : existsb (fun op => sets op 9 1) ops = existsb is_eol ops.
Proof. induction ops as [|[] ops IH]; cbn; rewrite ?IH; done. Qed.

(** [C27] The test platform's fuse box is a set that only grows, across power
    cycles: from any stored fuse box, every sequence of revocations, life
    cycle changes and restarts succeeds step by step; afterwards exactly the
    keys revoked before or revoked in the sequence read as revoked, and the
    life cycle is the furthest state ever requested. *)
Theorem qemu_fuses_grow d ops w key : fuse_ready d w -> Forall op_ok ops -> 0 <= rk_param1 key < 31 ->
  exists w', run_ops d ops w = (replicate (length ops) PB_OK, w') /\
    ((qemu_read_key_status key w').1 = - PB_ERR_KEY_REVOKED <->
      (qemu_read_key_status key w).1 = - PB_ERR_KEY_REVOKED \/
      exists k, OpRevoke k ∈ ops /\ rk_param1 k = rk_param1 key) /\
    (qemu_slc_read_status w').1 =
      Z.max (qemu_slc_read_status w).1
        (if existsb is_eol ops then SLC_EOL
         else if existsb is_lock ops then SLC_CONFIGURATION_LOCKED else SLC_CONFIGURATION).
Proof.
  intros Hr Hops Hk. destruct (run_ops_bits d ops w Hr Hops) as (w' & E & Hr' & Hbit). exists w'. split; [done|].
  rewrite !key_status_bit, !slc_status_bits, !Hbit by (done || lia || by eapply fr_box). split.
  - rewrite <- sets_revoke. destruct (box_bit 8 _ w), (existsb _ ops); cbn; intuition congruence.
  - rewrite sets_lock, sets_eol.
    destruct (box_bit 9 1 w), (box_bit 9 0 w), (existsb is_eol ops), (existsb is_lock ops); reflexivity.
Qed.
End emulator.

(** ** The i.MX6UL on a working controller *)

Section imx6ul.
Context {W : Type} `{!OcotpOps W, !OcotpGhost W, !OcotpLaws W} (hab_has_no_errors : M W Z).
Implicit Types w : W.

Definition same_fuses w w' : Prop :=
  ocotp_ready w' /\ forall b r, ocotp_slot b r -> fuse_at w' b r = fuse_at w b r.

Lemma same_fuses_trans w1 w2 w3 : same_fuses w1 w2 -> same_fuses w2 w3 -> same_fuses w1 w3.
Proof. intros [_ H1] [Hr H2]. split; [done|]. intros b r Hs. by rewrite H2, H1. Qed.

Lemma fuse_read w b r : ocotp_ready w -> ocotp_slot b r ->
  exists w', imx_ocotp_read b r w = ((PB_OK, fuse_at w b r), w') /\ same_fuses w w'.
Proof. intros Hr Hs. destruct (law_fuse_read w b r Hr Hs) as (w' & E & H). by exists w'. Qed.

Lemma srk_slot n : 0 <= n < 8 -> ocotp_slot IMX6UL_FUSE_SRK_BANK n.
Proof. intros. unfold ocotp_slot, IMX6UL_FUSE_SRK_BANK. lia. Qed.

(** Is a word of the bank, from word [n], other than zero? *)
Fixpoint srk_fused_from w (k : nat) (n : Z) : bool :=
  match k with
  | O => false
  | S k => negb (fuse_at w 3 n =? 0) || srk_fused_from w k (n + 1)
  end.
Definition srk_fused w : bool := srk_fused_from w 8 0.

Lemma srk_fused_same w w' k n : same_fuses w w' -> 0 <= n -> n + Z.of_nat k <= 8 ->
  srk_fused_from w' k n = srk_fused_from w k n.
Proof.
  intros Hs. revert n. induction k as [|k IH]; intros n Hn Hk; [done|]. cbn [srk_fused_from].
  rewrite (proj2 Hs 3 n) by (apply srk_slot; lia). rewrite IH by lia. done.
Qed.

Lemma srk_fused_loop_ok k n w : ocotp_ready w -> 0 <= n -> n + Z.of_nat k <= 8 ->
  exists w', srk_fused_loop k n w = (srk_fused_from w k n, w') /\ same_fuses w w'.
Proof.
  revert n w. induction k as [|k IH]; intros n w Hr Hn Hk; cbn [srk_fused_loop].
  - exists w. by repeat split.
  - cbn [srk_fused_from]. m_unfold.
    destruct (fuse_read w 3 n Hr) as (w1 & E & Hs1); [apply srk_slot; lia|].
    unfold IMX6UL_FUSE_SRK_BANK. rewrite E. cbn [PB_OK Z.eqb negb].
    destruct (fuse_at w 3 n =? 0) eqn:E0; cbn [negb orb]; [|by exists w1].
    destruct (IH (n + 1) w1) as (w2 & E2 & Hs2); [apply Hs1|lia|lia|]. exists w2. rewrite E2.
    split; [|by apply (same_fuses_trans _ w1)]. f_equal. apply srk_fused_same; [done|lia|lia].
Qed.

(** The life cycle the fuses stand for. *)
Definition slc_of w : Z :=
  if Z.testbit (fuse_at w 0 6) 1 then SLC_CONFIGURATION_LOCKED
  else if srk_fused w then SLC_CONFIGURATION else SLC_NOT_CONFIGURED.

Lemma slc_of_same w w' : same_fuses w w' -> slc_of w' = slc_of w.
Proof.
  intros Hs. unfold slc_of, srk_fused. rewrite (proj2 Hs 0 6) by (unfold ocotp_slot; lia).
  by rewrite (srk_fused_same w w') by (done || lia).
Qed.

Lemma slc_status_run w : ocotp_ready w ->
  exists w', imx6ul_slc_read_status w = (slc_of w, w') /\ same_fuses w w'.
Proof.
  intros Hr. unfold imx6ul_slc_read_status, hab_secureboot_active, slc_of. m_unfold.
  destruct (fuse_read w 0 6 Hr) as (w1 & E & Hs1); [unfold ocotp_slot; lia|]. rewrite E. cbn [PB_OK Z.eqb negb].
  change IS_HAB_ENABLED_BIT with (2 ^ 1). rewrite land_pow2_full by lia.
  destruct (Z.testbit _ 1); [by exists w1|]. unfold imx6ul_is_srk_fused.
  destruct (srk_fused_loop_ok 8 0 w1) as (w2 & E2 & Hs2); [apply Hs1|lia|lia|]. rewrite E2. exists w2.
  split; [|by apply (same_fuses_trans _ w1)]. unfold srk_fused. by rewrite <- (srk_fused_same w w1) by (done || lia).
Qed.

(** Locking an i.MX6UL: refused with nothing programmed while no SRK
    hash is fused; otherwise the call succeeds, the life cycle then reads as
    locked, and no fuse but the secure boot bit of bank 0 word 6 differs. *)
Theorem imx6ul_lock w : ocotp_ready w ->
  exists rc w', imx6ul_slc_set_configuration_locked w = (rc, w') /\ ocotp_ready w' /\
    (if srk_fused w then rc = PB_OK /\ (imx6ul_slc_read_status w').1 = SLC_CONFIGURATION_LOCKED
     else rc = - PB_ERR_STATE /\ same_fuses w w') /\
    (forall b r, ocotp_slot b r -> (b, r) <> (0, 6) -> fuse_at w' b r = fuse_at w b r) /\
    (forall i, 0 <= i -> i <> 1 -> Z.testbit (fuse_at w' 0 6) i = Z.testbit (fuse_at w 0 6) i).
Proof.
  intros Hr. unfold imx6ul_slc_set_configuration_locked, imx6ul_is_srk_fused. m_unfold.
  destruct (srk_fused_loop_ok 8 0 w Hr) as (w1 & E1 & Hs1); [lia|lia|]. rewrite E1.
  change (srk_fused_from w 8 0) with (srk_fused w).
  assert (H06 : ocotp_slot 0 6) by (unfold ocotp_slot; lia).
  destruct (srk_fused w) eqn:Ef; cbn [negb].
  2: { exists (- PB_ERR_STATE), w1. pose proof Hs1 as [? Hf1]. split_and!; auto; intros; by rewrite Hf1. }
  destruct (slc_status_run w1 (proj1 Hs1)) as (w2 & E2 & Hs2). rewrite E2, (slc_of_same w w1 Hs1).
  pose proof (same_fuses_trans _ _ _ Hs1 Hs2) as Hs. unfold slc_of. rewrite Ef.
  destruct (Z.testbit (fuse_at w 0 6) 1) eqn:Et; cbn.
  - exists PB_OK, w2. pose proof Hs as [Hr2 Hf]. split_and!; auto; [|intros; by rewrite Hf].
    destruct (slc_status_run w2 Hr2) as (w3 & E3 & _). rewrite E3, (slc_of_same w w2 Hs). unfold slc_of. by rewrite Et.
  - destruct (law_fuse_write w2 0 6 2 (proj1 Hs) H06 ltac:(lia)) as (w3 & E3 & Hr3 & Hf3 & Ho3).
    exists PB_OK, w3. unfold IMX6UL_FUSE_LOCK_BANK, IMX6UL_FUSE_LOCK_WORD.
    split_and!; auto.
    + destruct (slc_status_run w3 Hr3) as (w4 & E4 & _). rewrite E4. unfold slc_of. rewrite Hf3, Z.lor_spec.
      change (Z.testbit 2 1) with true. by rewrite orb_true_r.
    + intros b r Hbr Hne. rewrite Ho3 by done. by apply Hs.
    + intros i Hi Hne. rewrite Hf3, Z.lor_spec, (proj2 Hs 0 6 H06). change 2 with (2 ^ 1).
      rewrite Z.pow2_bits_false by lia. apply orb_false_r.
Qed.

(** *** The SRK hash *)

(** Word [n + i] is empty, or already holds the new value. *)
Definition srk_fits w (srk : list Z) (n : Z) : Prop :=
  forall i v, srk !! i = Some v -> fuse_at w 3 (n + Z.of_nat i) = 0 \/ fuse_at w 3 (n + Z.of_nat i) = v.

Lemma srk_fits_cons w v srk n :
  srk_fits w (v :: srk) n <-> (fuse_at w 3 n = 0 \/ fuse_at w 3 n = v) /\ srk_fits w srk (n + 1).
Proof.
  unfold srk_fits. split.
  - intros H. split; [rewrite <- (Z.add_0_r n); by apply (H 0%nat)|]. intros i x Hi.
    replace (n + 1 + Z.of_nat i) with (n + Z.of_nat (S i)) by lia. by apply (H (S i)).
  - intros [H0 H] [|i] x Hi; [injection Hi as <-; by rewrite Z.add_0_r|].
    replace (n + Z.of_nat (S i)) with (n + 1 + Z.of_nat i) by lia. by apply H.
Qed.

Lemma srk_fits_same w w' srk n : same_fuses w w' -> 0 <= n -> n + Z.of_nat (length srk) <= 8 ->
  srk_fits w' srk n <-> srk_fits w srk n.
Proof.
  intros Hs Hn Hl. unfold srk_fits. split; intros H i v Hi; pose proof (lookup_lt_Some _ _ _ Hi);
    pose proof (proj2 Hs 3 (n + Z.of_nat i) (srk_slot (n + Z.of_nat i) ltac:(lia))) as E; specialize (H i v Hi); by rewrite E in *.
Qed.

(** [perform]: some word is empty. *)
Lemma srk_check_ok srk n perform w : ocotp_ready w -> 0 <= n -> n + Z.of_nat (length srk) <= 8 ->
  exists rc p w', srk_check_loop srk n perform w = ((rc, p), w') /\ same_fuses w w' /\
    (rc = PB_OK /\ srk_fits w srk n /\
       (p = false -> perform = false /\ forall i v, srk !! i = Some v -> fuse_at w 3 (n + Z.of_nat i) = v) \/
     rc = - PB_ERR_MEM /\ ~ srk_fits w srk n).
Proof.
  revert n perform w. induction srk as [|v srk IH]; intros n perform w Hr Hn Hl; cbn [srk_check_loop length] in *.
  - exists PB_OK, perform, w. split; [done|]. split; [by split|]. left. split; [done|]. by split.
  - m_unfold. unfold IMX6UL_FUSE_SRK_BANK. destruct (fuse_read w 3 n Hr) as (w1 & E & Hs); [apply srk_slot; lia|].
    rewrite E. cbn [PB_OK Z.eqb negb]. setoid_rewrite srk_fits_cons.
    destruct (Z.eqb_spec (fuse_at w 3 n) 0) as [H0|H0], (Z.eqb_spec (fuse_at w 3 n) v) as [Hv|Hv]; cbn [negb andb].
    3: destruct (IH (n + 1) perform w1) as (rc & p & w2 & E2 & Hs2 & H); [apply Hs|lia|lia|].
    1,2: destruct (IH (n + 1) true w1) as (rc & p & w2 & E2 & Hs2 & H); [apply Hs|lia|lia|].
    4: { exists (- PB_ERR_MEM), perform, w1. split; [done|]. split; [done|]. right. split; [done|]. tauto. }
    all: exists rc, p, w2; rewrite E2; split; [done|]; split; [by apply (same_fuses_trans _ w1)|].
    all: rewrite (srk_fits_same w w1) in H by (done || lia).
    1,2: destruct H as [(-> & Hf & Hp)|[-> Hf]]; [left|right; tauto]; split; [done|]; split; [tauto|]; intros ->; by destruct Hp.
    destruct H as [(-> & Hf & Hp)|[-> Hf]]; [left|right; tauto]. split; [done|]. split; [tauto|]. intros ->.
    destruct Hp as [-> Hp]; [done|]. split; [done|]. intros [|i] x Hi; [injection Hi as <-; by rewrite Z.add_0_r|].
    pose proof (lookup_lt_Some _ _ _ Hi) as Hlt. cbn in Hlt.
    rewrite <- (proj2 Hs 3) by (apply srk_slot; lia). rewrite <- (Hp i x Hi). f_equal. lia.
Qed.

Lemma srk_write_ok srk n w : ocotp_ready w -> 0 <= n -> n + Z.of_nat (length srk) <= 8 ->
  Forall (fun v => 0 <= v < 2 ^ 32) srk -> srk_fits w srk n ->
  exists w', srk_write_loop srk n w = (PB_OK, w') /\ ocotp_ready w' /\
    (forall i v, srk !! i = Some v -> fuse_at w' 3 (n + Z.of_nat i) = v) /\
    (forall b r, ocotp_slot b r -> (b <> 3 \/ r < n) -> fuse_at w' b r = fuse_at w b r).
Proof.
  revert n w. induction srk as [|v srk IH]; intros n w Hr Hn Hl Hf Hfit; cbn [srk_write_loop length] in *.
  - exists w. by split_and!.
  - m_unfold. inversion_clear Hf as [|? ? Hv Hf']. apply srk_fits_cons in Hfit as [H0 Hfit]. unfold IMX6UL_FUSE_SRK_BANK.
    destruct (law_fuse_write w 3 n v Hr (srk_slot n ltac:(lia)) Hv) as (w1 & -> & Hr1 & Hn1 & Ho1). cbn [PB_OK Z.eqb negb].
    destruct (IH (n + 1) w1 Hr1) as (w2 & E & Hr2 & Hi2 & Ho2); [lia|lia|done| |].
    { intros i x Hi. pose proof (lookup_lt_Some _ _ _ Hi).
      rewrite Ho1; [by apply Hfit | apply srk_slot; lia | intros Eq; injection Eq; lia]. }
    exists w2. split; [done|]. split; [done|]. split.
    + intros [|i] x Hi.
      * injection Hi as <-. rewrite Z.add_0_r, Ho2, Hn1 by (apply srk_slot || right; lia).
        destruct H0 as [-> | ->]; [done|apply Z.lor_diag].
      * replace (n + Z.of_nat (S i)) with (n + 1 + Z.of_nat i) by lia. by apply Hi2.
    + intros b r Hs Hbr. rewrite Ho2, Ho1; [done|done|intros Eq; injection Eq; lia|done|lia].
Qed.

(** [C28] Fusing the SRK hash: a hash with an empty word, and one that differs
    from a word already fused, are refused with nothing programmed; otherwise
    the call succeeds, the eight words then read as the given hash (also when
    an interrupted attempt had fused some of them), and no fuse outside of
    the SRK bank differs. *)
Theorem imx6ul_fuse_srk w srk : ocotp_ready w -> length srk = 8%nat -> Forall (fun v => 0 <= v < 2 ^ 32) srk ->
  exists rc w', imx6ul_fuse_write_srk (Some srk) w = (rc, w') /\
    (rc = PB_OK /\ (forall i v, srk !! i = Some v -> fuse_at w' 3 (Z.of_nat i) = v /\ v <> 0) /\
       srk_fits w srk 0 /\ (forall b r, ocotp_slot b r -> b <> 3 -> fuse_at w' b r = fuse_at w b r) \/
     rc = - PB_ERR_PARAM /\ 0 ∈ srk /\ w' = w \/
     rc = - PB_ERR_MEM /\ ~ srk_fits w srk 0 /\ same_fuses w w').
Proof.
  intros Hr Hl Hf. unfold imx6ul_fuse_write_srk. destruct (existsb (Z.eqb 0) srk) eqn:E0.
  { exists (- PB_ERR_PARAM), w. split; [done|]. right. left. split; [done|]. split; [|done].
    apply existsb_exists in E0 as (x & Hx & <-%Z.eqb_eq). by apply list_elem_of_In. }
  assert (Hnz : forall i v, srk !! i = Some v -> v <> 0).
  { intros i v Hi ->. apply not_true_iff_false in E0. apply E0, existsb_exists. exists 0. split; [|done].
    by apply list_elem_of_In, (list_elem_of_lookup_2 _ i). }
  m_unfold. destruct (srk_check_ok srk 0 false w Hr) as (rc & p & w1 & E & Hs & H); [lia|lia|]. rewrite E.
  destruct H as [(-> & Hfit & Hp)|[-> Hfit]]; cbn [PB_OK Z.eqb negb].
  2: { exists (- PB_ERR_MEM), w1. split; [done|]. auto. }
  destruct p.
  - destruct (srk_write_ok srk 0 w1 (proj1 Hs)) as (w2 & E2 & Hr2 & Hi2 & Ho2); [lia|lia|done| |].
    { apply (srk_fits_same w w1); [done|lia|lia|done]. }
    exists PB_OK, w2. split; [done|]. left. split; [done|]. split; [|split; [done|]].
    + intros i v Hi. split; [by apply (Hi2 i)|by apply (Hnz i)].
    + intros b r Hbr Hne. rewrite Ho2 by auto. by apply Hs.
  - destruct Hp as [_ Hp]; [done|]. exists PB_OK, w1. split; [done|]. left. split; [done|]. split; [|split; [done|]].
    + intros i v Hi. pose proof (lookup_lt_Some _ _ _ Hi). split; [|by apply (Hnz i)].
      rewrite (proj2 Hs 3) by (apply srk_slot; lia). by apply (Hp i).
    + intros b r Hbr _. by apply Hs.
Qed.

(** What the boot ROM's event check leaves alone. *)
Context (hab_fine : forall w, ocotp_ready w -> exists w', hab_has_no_errors w = (PB_OK, w') /\ same_fuses w w').

(** Revoking a key on the i.MX6UL programs its bit in bank 5 word 7, but
    [imx6ul_read_key_status] looks at bank 5 word 5: after a successful
    revocation every key, the revoked one included, has the status it had. *)
Theorem imx6ul_revocation_invisible w key : ocotp_ready w -> 0 <= rk_param1 key < 32 ->
  0 <= fuse_at w 5 7 < 2 ^ 32 ->
  exists w', imx6ul_revoke_key hab_has_no_errors key w = (PB_OK, w') /\
    (forall i, 0 <= i -> Z.testbit (fuse_at w' 5 7) i = Z.testbit (fuse_at w 5 7) i || (i =? rk_param1 key)) /\
    forall key', (imx6ul_read_key_status key' w').1 = (imx6ul_read_key_status key' w).1.
Proof.
  intros Hr Hk Hw. unfold imx6ul_revoke_key. m_unfold.
  destruct (hab_fine w Hr) as (w0 & E0 & Hs0). rewrite E0. cbn [PB_OK Z.eqb negb].
  assert (H57 : ocotp_slot 5 7) by (unfold ocotp_slot; lia). assert (H55 : ocotp_slot 5 5) by (unfold ocotp_slot; lia).
  unfold IMX6UL_FUSE_REVOKE_BANK, IMX6UL_FUSE_REVOKE_WORD.
  destruct (fuse_read w0 5 7 (proj1 Hs0) H57) as (w1 & E1 & Hs1). rewrite E1. cbn [PB_OK Z.eqb negb].
  pose proof (same_fuses_trans _ _ _ Hs0 Hs1) as Hs. rewrite (proj2 Hs0 5 7 H57).
  rewrite key_bit_pow2, land_pow2_full by lia.
  assert (Hstat : forall w', ocotp_ready w' -> fuse_at w' 5 5 = fuse_at w 5 5 ->
    forall key', (imx6ul_read_key_status key' w').1 = (imx6ul_read_key_status key' w).1).
  { intros w' Hr' H5 key'. unfold imx6ul_read_key_status, IMX6UL_FUSE_REVOKE_BANK. m_unfold.
    destruct (fuse_read w' 5 5 Hr' H55) as (? & E' & _). destruct (fuse_read w 5 5 Hr H55) as (? & E & _).
    rewrite E', E, H5. cbn [PB_OK Z.eqb negb]. by destruct (_ =? _). }
  destruct (Z.testbit (fuse_at w 5 7) (rk_param1 key)) eqn:Et.
  - exists w1. split_and!; [done| |apply Hstat; [apply Hs|by apply Hs]].
    intros i Hi. rewrite (proj2 Hs 5 7 H57). destruct (Z.eqb_spec i (rk_param1 key)) as [->|]; [by rewrite Et|by rewrite orb_false_r].
  - destruct (law_fuse_write w1 5 7 (Z.lor (2 ^ rk_param1 key) (fuse_at w 5 7)) (proj1 Hs) H57) as (w2 & E2 & Hr2 & Hf2 & Ho2).
    { apply lor_lt; [lia| |lia]. split; [apply Z.pow_nonneg; lia|apply Z.pow_lt_mono_r; lia]. }
    exists w2. split_and!; [done| |apply Hstat; [done|rewrite Ho2 by done; by apply Hs]].
    intros i Hi. rewrite Hf2, !Z.lor_spec, (proj2 Hs 5 7 H57), Z.pow2_bits_eqb, (Z.eqb_sym i) by lia.
    by destruct (Z.testbit _ i), (_ =? i).
Qed.
End imx6ul.

(** ** Witnesses *)

Module ToyFuses.
#[local] Existing Instances ToyOcotp.mmio ToyOcotp.hw.

Definition key1 : rot_key := RotKey 1 1 0.

(** The emulated box on the first partition of the RAM disk. *)
Definition box_world : fuse_world (bio_state RamDisk.disk) := FuseWorld RamDisk.two_parts (zeros 128) 0.

(** An i.MX6UL with an open life cycle and, if [srk], a fused hash. *)
Definition words (srk : bool) : list Z :=
  replicate 24 0 ++ (if srk then replicate 8 7 else replicate 8 0) ++ replicate 96 0.
Definition chip (srk : bool) : ocotp_st ocotp_regs :=
  OcotpSt (OcotpRegs 0 false 0 false 0 (words srk) (fun _ => false)) ToyOcotp.base 8.

#[export] Instance ops : OcotpOps (ocotp_st ocotp_regs) := ocotp_driver_ops 4.
#[export] Instance ghost : OcotpGhost (ocotp_st ocotp_regs) := driver_ghost (hw := ToyOcotp.hw).
#[export] Instance laws : OcotpLaws (ocotp_st ocotp_regs) := ocotp_driver_laws 4 eq_refl (Nat.lt_succ_diag_r 3).

Lemma chip_ready srk : ocotp_ready (chip srk).
Proof. split; [|done]. split; [reflexivity | reflexivity | vm_compute; lia | reflexivity | vm_compute; split; congruence | by destruct srk]. Qed.

End ToyFuses.

#[local] Existing Instances armv7a test_defconfig ToyOcotp.mmio ToyOcotp.hw ToyFuses.ops ToyFuses.ghost ToyFuses.laws.

Lemma qemu_fuses_grow_witness :
  exists w', run_ops 0 [OpRevoke ToyFuses.key1; OpRestart (zeros 128) 7; OpEol; OpLock] ToyFuses.box_world =
      ([PB_OK; PB_OK; PB_OK; PB_OK], w') /\
    (qemu_slc_read_status w').1 = SLC_EOL.
Proof.
  destruct (qemu_fuses_grow 0 [OpRevoke ToyFuses.key1; OpRestart (zeros 128) 7; OpEol; OpLock]
    ToyFuses.box_world ToyFuses.key1) as (w' & E & _ & H).
  - split; [reflexivity | | vm_compute; lia | reflexivity | | by vm_compute].
    + split; [apply RamDisk.two_parts_wf|]. vm_compute. by split_and!.
    + split; [reflexivity|]. apply Forall_replicate. cbn. lia.
  - repeat constructor; cbn; lia.
  - cbn. lia.
  - exists w'. split; [exact E|exact H].
Defined.

Lemma imx6ul_lock_witness : exists rc w',
  imx6ul_slc_set_configuration_locked (ToyFuses.chip true) = (rc, w') /\
  rc = PB_OK /\ (imx6ul_slc_read_status w').1 = SLC_CONFIGURATION_LOCKED.
Proof.
  destruct (imx6ul_lock (ToyFuses.chip true) (ToyFuses.chip_ready true)) as (rc & w' & E & _ & H & _).
  exists rc, w'. split; [exact E|exact H].
Defined.

Lemma imx6ul_fuse_srk_witness : exists rc w', imx6ul_fuse_write_srk (Some (replicate 8 7)) (ToyFuses.chip false) = (rc, w') /\
  (rc = - PB_ERR_MEM \/ fuse_at w' 3 0 = 7).
Proof.
  destruct (imx6ul_fuse_srk (ToyFuses.chip false) (replicate 8 7) (ToyFuses.chip_ready false)) as (rc & w' & E & H).
  - reflexivity.
  - apply Forall_replicate. lia.
  - exists rc, w'. split; [exact E|]. destruct H as [(_ & H & _)|[(_ & H & _)|[H _]]]; [right|exfalso|left; exact H].
    + apply (H 0%nat 7 eq_refl).
    + apply elem_of_replicate in H. destruct H as [H _]. discriminate H.
Defined.

Lemma imx6ul_revocation_invisible_witness : exists w',
  imx6ul_revoke_key (ret PB_OK) ToyFuses.key1 (ToyFuses.chip true) = (PB_OK, w') /\
  Z.testbit (fuse_at w' 5 7) 1 = true /\
  (imx6ul_read_key_status ToyFuses.key1 w').1 = PB_OK.
Proof.
  destruct (imx6ul_revocation_invisible (ret PB_OK) (fun w Hr => ex_intro _ w (conj eq_refl (conj Hr (fun _ _ _ => eq_refl))))
    (ToyFuses.chip true) ToyFuses.key1 (ToyFuses.chip_ready true)) as (w' & E & Hb & Hk).
  - cbn. lia.
  - vm_compute. split; congruence.
  - exists w'. split; [exact E|]. split; [rewrite (Hb 1 ltac:(lia)); reflexivity | rewrite Hk; by vm_compute].
Defined.
