(* ===== verification/Scu.v ===== *)
(** * The system controller of the i.MX8X

    On the i.MX8X fuses, life cycle, clocks and the watchdog belong to firmware
    on another core.  [src/plat/imx8x/sci/imx8_mu.c] and [ipc.c] exchange
    messages with it through the registers of a message unit; the clients under
    [sci/svc] fill in the messages ([ScuClients]).  [sc_rpc_msg_t] is its
    32 bytes. *)

From stdpp Require Import functions.
From S2P Require Import Prelude Errors Ocotp.
Local Open Scope c_scope.

(** ** The message unit, [imx8_mu.h] *)

Definition MU_ATR0_OFFSET1 : Z := 0x0.
Definition MU_ARR0_OFFSET1 : Z := 0x10.
Definition MU_ASR_OFFSET1 : Z := 0x20.
Definition MU_ACR_OFFSET1 : Z := 0x24.
Definition MU_CR_GIEn_MASK1 : Z := Z.shiftl 0xF 28.
Definition MU_CR_RIEn_MASK1 : Z := Z.shiftl 0xF 24.
Definition MU_CR_TIEn_MASK1 : Z := Z.shiftl 0xF 20.
Definition MU_CR_GIRn_MASK1 : Z := Z.shiftl 0xF 16.
Definition MU_CR_NMI_MASK1 : Z := Z.shiftl 1 3.
Definition MU_CR_Fn_MASK1 : Z := 0x7.
Definition MU_CR_GIE0_MASK1 : Z := Z.shiftl 1 31.
Definition MU_SR_TE0_MASK1 : Z := Z.shiftl 1 23.
Definition MU_SR_RF0_MASK1 : Z := Z.shiftl 1 27.
Definition MU_CR_RIE0_MASK1 : Z := Z.shiftl 1 27.
Definition MU_TR_COUNT : Z := 4.
Definition MU_RR_COUNT : Z := 4.

Definition SC_RPC_VERSION : Z := 1.
Definition SCFW_API_VERSION_MAJOR : Z := 1.
Definition SCFW_API_VERSION_MINOR : Z := 31.
Definition SC_RPC_MAX_MSG : Z := 8.
Definition SC_ERR_NONE : Z := 0.
Definition SC_ERR_IPC : Z := 9.

Section ipc.
Context {HW : Type} `{!Mmio HW}.
(** How many polls of the status register the model follows. *)
Context (poll_fuel : nat).
Abbreviation U := (M HW).

(** [while (!(mmio_read_32(base + MU_ASR_OFFSET1) & mask))] *)
Fixpoint mu_wait (fuel : nat) (base mask : Z) : U bool :=
  match fuel with
  | O => ret false
  | S fuel => v <- mmio_read_32 (base + MU_ASR_OFFSET1) ;; if Z.land v mask =? 0 then mu_wait fuel base mask else ret true
  end.

(** A wait that takes longer than the model follows leaves the register
    alone. *)
Definition MU_SendMessage (base regIndex msg : Z) : U unit :=
  ok <- mu_wait poll_fuel base (Z.shiftr MU_SR_TE0_MASK1 regIndex) ;;
  if ok then mmio_write_32 (base + MU_ATR0_OFFSET1 + regIndex * 4) msg else ret tt.
Definition MU_ReceiveMsg (base regIndex : Z) : U Z :=
  ok <- mu_wait poll_fuel base (Z.shiftr MU_SR_RF0_MASK1 regIndex) ;;
  if ok then mmio_read_32 (base + MU_ARR0_OFFSET1 + regIndex * 4) else ret 0.

Definition MU_EnableRxFullInt (base index : Z) : U unit :=
  reg <- mmio_read_32 (base + MU_ACR_OFFSET1) ;;
  let reg := Z.land reg (u32 (Z.lnot (Z.lor MU_CR_GIRn_MASK1 MU_CR_NMI_MASK1))) in
  mmio_write_32 (base + MU_ACR_OFFSET1) (Z.lor reg (Z.shiftr MU_CR_RIE0_MASK1 index)).

Definition MU_EnableGeneralInt (base index : Z) : U unit :=
  reg <- mmio_read_32 (base + MU_ACR_OFFSET1) ;;
  let reg := Z.land reg (u32 (Z.lnot (Z.lor MU_CR_GIRn_MASK1 MU_CR_NMI_MASK1))) in
  mmio_write_32 (base + MU_ACR_OFFSET1) (Z.lor reg (Z.shiftr MU_CR_GIE0_MASK1 index)).

Definition MU_Init (base : Z) : U unit :=
  reg <- mmio_read_32 (base + MU_ACR_OFFSET1) ;;
  mmio_write_32 (base + MU_ACR_OFFSET1)
    (Z.land reg (u32 (Z.lnot (fold_left Z.lor [MU_CR_RIEn_MASK1; MU_CR_TIEn_MASK1; MU_CR_GIRn_MASK1; MU_CR_Fn_MASK1] MU_CR_GIEn_MASK1)))).

Definition enable_all_rx (base : Z) : U unit :=
  MU_EnableRxFullInt base 0 ;;; MU_EnableRxFullInt base 1 ;;; MU_EnableRxFullInt base 2 ;;; MU_EnableRxFullInt base 3.
Definition MU_Resume (base : Z) : U unit := MU_Init base ;;; enable_all_rx base.

(** ** Messages *)

Definition msg_word (msg : list Z) (i : nat) : Z := le_val (slice (4 * i) 4 msg).
Definition msg_size (msg : list Z) : Z := nth 1 msg 0.
Definition put_word (i : nat) (v : Z) (msg : list Z) : list Z := splice (4 * i) (le_bytes 4 v) msg.

(** The error code, and the handle if the channel was opened. *)
Definition sc_ipc_open (id : Z) : U (Z * option Z) :=
  if id =? 0 then ret (SC_ERR_IPC, None) else
  MU_Init id ;;;
  enable_all_rx id ;;;
  ret (SC_ERR_NONE, Some id).
Definition sc_ipc_close (ipc : Z) : U unit := if ipc =? 0 then ret tt else MU_Init ipc.

(** [while (count < msg->size)]: [n] words are left. *)
Fixpoint send_words (n count : nat) (base : Z) (msg : list Z) : U unit :=
  match n with
  | O => ret tt
  | S n => MU_SendMessage base (Z.of_nat count mod MU_TR_COUNT) (msg_word msg count) ;;; send_words n (S count) base msg
  end.
Definition sc_ipc_write (ipc : Z) (msg : list Z) : U unit :=
  if ipc =? 0 then ret tt else
  if SC_RPC_MAX_MSG <? msg_size msg then ret tt else
  MU_SendMessage ipc 0 (msg_word msg 0) ;;;
  send_words (Z.to_nat (msg_size msg - 1)) 1 ipc msg.

Fixpoint receive_words (n count : nat) (base : Z) (msg : list Z) : U (list Z) :=
  match n with
  | O => ret msg
  | S n => v <- MU_ReceiveMsg base (Z.of_nat count mod MU_RR_COUNT) ;; receive_words n (S count) base (put_word count v msg)
  end.
Definition sc_ipc_read (ipc : Z) (msg : list Z) : U (list Z) :=
  if ipc =? 0 then ret msg else
  v <- MU_ReceiveMsg ipc 0 ;;
  let msg := put_word 0 v msg in
  if SC_RPC_MAX_MSG <? msg_size msg then ret (put_word 0 0 msg) else
  receive_words (Z.to_nat (msg_size msg - 1)) 1 ipc msg.

Definition sc_call_rpc (ipc : Z) (msg : list Z) (no_resp : bool) : U (list Z) :=
  sc_ipc_write ipc msg ;;;
  if no_resp then ret msg else sc_ipc_read ipc msg.

(** ** Clients *)

(** What is on the stack where the message lies. *)
Context (stack : list Z) (ipc : Z).

Definition RPC_R8 (msg : list Z) : Z := nth 3 msg 0.
Definition RPC_U32 (msg : list Z) (i : nat) : Z := le_val (slice (4 + i) 4 msg).
Definition RPC_U16 (msg : list Z) (i : nat) : Z := le_val (slice (4 + i) 2 msg).
Definition RPC_U8 (msg : list Z) (i : nat) : Z := nth (4 + i) msg 0.
Definition f32 (i : nat) (v : Z) : nat * list Z := (i, le_bytes 4 (u32 v)).
Definition f16 (i : nat) (v : Z) : nat * list Z := (i, le_bytes 2 (u16 v)).
Definition f8 (i : nat) (v : Z) : nat * list Z := (i, le_bytes 1 (u8 v)).
Definition RPC_U64 (msg : list Z) (i : nat) : Z := Z.lor (Z.shiftl (RPC_U32 msg i) 32) (RPC_U32 msg (i + 4)).
Definition RPC_I16 (msg : list Z) (i : nat) : Z := (RPC_U16 msg i + 2 ^ 15) mod 2 ^ 16 - 2 ^ 15.
Definition RPC_I8 (msg : list Z) (i : nat) : Z := (RPC_U8 msg i + 2 ^ 7) mod 2 ^ 8 - 2 ^ 7.
Definition U2B (v : Z) : bool := negb (v =? 0).
Definition B2U8 (b : bool) : Z := if b then 1 else 0.

(** Header, fields, exchange. *)
Definition request (svc func size : Z) (fields : list (nat * list Z)) : list Z :=
  fold_left (fun m '(i, bs) => splice (4 + i) bs m) fields (splice 0 [SC_RPC_VERSION; size; svc; func] stack).
Definition rpc (svc func size : Z) (fields : list (nat * list Z)) : U (list Z) := sc_call_rpc ipc (request svc func size fields) false.
Definition rpc_noresp (svc func size : Z) (fields : list (nat * list Z)) : U (list Z) := sc_call_rpc ipc (request svc func size fields) true.
End ipc.

Definition SC_RPC_SVC_PM : Z := 2.
Definition SC_RPC_SVC_RM : Z := 3.
Definition SC_RPC_SVC_TIMER : Z := 5.
Definition SC_RPC_SVC_PAD : Z := 6.
Definition SC_RPC_SVC_MISC : Z := 7.
Definition SC_RPC_SVC_IRQ : Z := 8.
Definition SC_RPC_SVC_SECO : Z := 9.
