(* ===== verification/ScuClients.v ===== *)
(** * Clients of the system controller

    The functions of [src/plat/imx8x/sci/svc]: each fills in a message,
    exchanges it and takes the reply apart.  A result that the source stores
    through a pointer unless it is NULL is a component of the value; a value
    that is passed in and out through one pointer is an argument too. *)

From S2P Require Import Prelude Errors Ocotp Scu.
Local Open Scope c_scope.

Section clients.
Context {HW : Type} `{!Mmio HW} (poll_fuel : nat) (stack : list Z) (ipc : Z).
Abbreviation U := (M HW).
#[local] Abbreviation rpc := (rpc poll_fuel stack ipc).
#[local] Abbreviation rpc_noresp := (rpc_noresp poll_fuel stack ipc).

(** ** Miscellaneous, [svc/misc/misc_rpc_clnt.c] *)

Definition sc_misc_set_control (resource ctrl val : Z) : U Z :=
  m <- rpc SC_RPC_SVC_MISC 1 4 [f32 0 ctrl; f32 4 val; f16 8 resource] ;; ret (RPC_R8 m).
Definition sc_misc_get_control (resource ctrl : Z) : U (Z * Z) :=
  m <- rpc SC_RPC_SVC_MISC 2 3 [f32 0 ctrl; f16 4 resource] ;; ret (RPC_R8 m, RPC_U32 m 0).
Definition sc_misc_set_max_dma_group (pt max : Z) : U Z :=
  m <- rpc SC_RPC_SVC_MISC 4 2 [f8 0 pt; f8 1 max] ;; ret (RPC_R8 m).
Definition sc_misc_set_dma_group (resource group : Z) : U Z :=
  m <- rpc SC_RPC_SVC_MISC 5 2 [f16 0 resource; f8 2 group] ;; ret (RPC_R8 m).
Definition sc_misc_debug_out (ch : Z) : U unit := rpc SC_RPC_SVC_MISC 10 2 [f8 0 ch] ;;; ret tt.
Definition sc_misc_waveform_capture (enable : bool) : U Z :=
  m <- rpc SC_RPC_SVC_MISC 6 2 [f8 0 (B2U8 enable)] ;; ret (RPC_R8 m).
Definition sc_misc_build_info : U (Z * Z) := m <- rpc SC_RPC_SVC_MISC 15 1 [] ;; ret (RPC_U32 m 0, RPC_U32 m 4).
Definition sc_misc_api_ver : U (Z * Z * Z * Z) :=
  m <- rpc SC_RPC_SVC_MISC 35 1 [] ;; ret (SCFW_API_VERSION_MAJOR, SCFW_API_VERSION_MINOR, RPC_U16 m 4, RPC_U16 m 6).
Definition sc_misc_unique_id : U (Z * Z) := m <- rpc SC_RPC_SVC_MISC 19 1 [] ;; ret (RPC_U32 m 0, RPC_U32 m 4).
Definition sc_misc_set_ari (resource resource_mst ari : Z) (enable : bool) : U Z :=
  m <- rpc SC_RPC_SVC_MISC 3 3 [f16 0 resource; f16 2 resource_mst; f16 4 ari; f8 6 (B2U8 enable)] ;; ret (RPC_R8 m).
Definition sc_misc_boot_status (status : Z) : U unit := rpc_noresp SC_RPC_SVC_MISC 7 2 [f8 0 status] ;;; ret tt.
Definition sc_misc_boot_done (cpu : Z) : U Z := m <- rpc SC_RPC_SVC_MISC 14 2 [f16 0 cpu] ;; ret (RPC_R8 m).
Definition sc_misc_otp_fuse_read (word : Z) : U (Z * Z) :=
  m <- rpc SC_RPC_SVC_MISC 11 2 [f32 0 word] ;; ret (RPC_R8 m, RPC_U32 m 0).
Definition sc_misc_otp_fuse_write (word val : Z) : U Z :=
  m <- rpc SC_RPC_SVC_MISC 17 3 [f32 0 word; f32 4 val] ;; ret (RPC_R8 m).
Definition sc_misc_set_temp (resource temp celsius tenths : Z) : U Z :=
  m <- rpc SC_RPC_SVC_MISC 12 3 [f16 0 resource; f16 2 celsius; f8 4 temp; f8 5 tenths] ;; ret (RPC_R8 m).
Definition sc_misc_get_temp (resource temp : Z) : U (Z * Z * Z) :=
  m <- rpc SC_RPC_SVC_MISC 13 2 [f16 0 resource; f8 2 temp] ;; ret (RPC_R8 m, RPC_I16 m 0, RPC_I8 m 2).
Definition sc_misc_get_boot_dev : U Z := m <- rpc SC_RPC_SVC_MISC 16 1 [] ;; ret (RPC_U16 m 0).
Definition sc_misc_get_boot_type : U (Z * Z) := m <- rpc SC_RPC_SVC_MISC 33 1 [] ;; ret (RPC_R8 m, RPC_U8 m 0).
Definition sc_misc_get_boot_container : U (Z * Z) := m <- rpc SC_RPC_SVC_MISC 36 1 [] ;; ret (RPC_R8 m, RPC_U8 m 0).
Definition sc_misc_get_button_status : U bool := m <- rpc SC_RPC_SVC_MISC 18 1 [] ;; ret (U2B (RPC_U8 m 0)).
Definition sc_misc_rompatch_checksum : U (Z * Z) := m <- rpc SC_RPC_SVC_MISC 26 1 [] ;; ret (RPC_R8 m, RPC_U32 m 0).
Definition sc_misc_board_ioctl (parm1 parm2 parm3 : Z) : U (Z * Z * Z * Z) :=
  m <- rpc SC_RPC_SVC_MISC 34 4 [f32 0 parm1; f32 4 parm2; f32 8 parm3] ;; ret (RPC_R8 m, RPC_U32 m 0, RPC_U32 m 4, RPC_U32 m 8).

(** ** Pads, [svc/pad/pad_rpc_clnt.c] *)

Definition sc_pad_set_mux (pad mux config iso : Z) : U Z :=
  m <- rpc SC_RPC_SVC_PAD 1 3 [f16 0 pad; f8 2 mux; f8 3 config; f8 4 iso] ;; ret (RPC_R8 m).
Definition sc_pad_get_mux (pad : Z) : U (Z * Z * Z * Z) :=
  m <- rpc SC_RPC_SVC_PAD 6 2 [f16 0 pad] ;; ret (RPC_R8 m, RPC_U8 m 0, RPC_U8 m 1, RPC_U8 m 2).
Definition sc_pad_set_gp (pad ctrl : Z) : U Z :=
  m <- rpc SC_RPC_SVC_PAD 2 3 [f32 0 ctrl; f16 4 pad] ;; ret (RPC_R8 m).
Definition sc_pad_get_gp (pad : Z) : U (Z * Z) :=
  m <- rpc SC_RPC_SVC_PAD 7 2 [f16 0 pad] ;; ret (RPC_R8 m, RPC_U32 m 0).
Definition sc_pad_set_wakeup (pad wakeup : Z) : U Z :=
  m <- rpc SC_RPC_SVC_PAD 4 2 [f16 0 pad; f8 2 wakeup] ;; ret (RPC_R8 m).
Definition sc_pad_get_wakeup (pad : Z) : U (Z * Z) :=
  m <- rpc SC_RPC_SVC_PAD 9 2 [f16 0 pad] ;; ret (RPC_R8 m, RPC_U8 m 0).
Definition sc_pad_set_all (pad mux config iso ctrl wakeup : Z) : U Z :=
  m <- rpc SC_RPC_SVC_PAD 5 4 [f32 0 ctrl; f16 4 pad; f8 6 mux; f8 7 config; f8 8 iso; f8 9 wakeup] ;; ret (RPC_R8 m).
Definition sc_pad_get_all (pad : Z) : U (Z * Z * Z * Z * Z * Z) :=
  m <- rpc SC_RPC_SVC_PAD 10 2 [f16 0 pad] ;; ret (RPC_R8 m, RPC_U32 m 0, RPC_U8 m 4, RPC_U8 m 5, RPC_U8 m 6, RPC_U8 m 7).
Definition sc_pad_set (pad val : Z) : U Z := m <- rpc SC_RPC_SVC_PAD 15 3 [f32 0 val; f16 4 pad] ;; ret (RPC_R8 m).
Definition sc_pad_get (pad : Z) : U (Z * Z) :=
  m <- rpc SC_RPC_SVC_PAD 16 2 [f16 0 pad] ;; ret (RPC_R8 m, RPC_U32 m 0).
Definition sc_pad_config (pad val : Z) : U Z := m <- rpc SC_RPC_SVC_PAD 17 3 [f32 0 val; f16 4 pad] ;; ret (RPC_R8 m).
Definition sc_pad_set_gp_28fdsoi (pad dse ps : Z) : U Z :=
  m <- rpc SC_RPC_SVC_PAD 11 2 [f16 0 pad; f8 2 dse; f8 3 ps] ;; ret (RPC_R8 m).
Definition sc_pad_get_gp_28fdsoi (pad : Z) : U (Z * Z * Z) :=
  m <- rpc SC_RPC_SVC_PAD 12 2 [f16 0 pad] ;; ret (RPC_R8 m, RPC_U8 m 0, RPC_U8 m 1).
Definition sc_pad_set_gp_28fdsoi_hsic (pad dse : Z) (hys : bool) (pus : Z) (pke pue : bool) : U Z :=
  m <- rpc SC_RPC_SVC_PAD 3 3 [f16 0 pad; f8 2 dse; f8 3 pus; f8 4 (B2U8 hys); f8 5 (B2U8 pke); f8 6 (B2U8 pue)] ;; ret (RPC_R8 m).
Definition sc_pad_get_gp_28fdsoi_hsic (pad : Z) : U (Z * Z * Z * bool * bool * bool) :=
  m <- rpc SC_RPC_SVC_PAD 8 2 [f16 0 pad] ;; ret (RPC_R8 m, RPC_U8 m 0, RPC_U8 m 1, U2B (RPC_U8 m 2), U2B (RPC_U8 m 3), U2B (RPC_U8 m 4)).
Definition sc_pad_set_gp_28fdsoi_comp (pad compen : Z) (fastfrz : bool) (rasrcp rasrcn : Z) (nasrc_sel psw_ovr : bool) : U Z :=
  m <- rpc SC_RPC_SVC_PAD 13 3 [f16 0 pad; f8 2 compen; f8 3 rasrcp; f8 4 rasrcn; f8 5 (B2U8 fastfrz); f8 6 (B2U8 nasrc_sel); f8 7 (B2U8 psw_ovr)] ;; ret (RPC_R8 m).
Definition sc_pad_get_gp_28fdsoi_comp (pad : Z) : U (Z * Z * Z * Z * Z * bool * bool * bool * bool) :=
  m <- rpc SC_RPC_SVC_PAD 14 2 [f16 0 pad] ;; ret (RPC_R8 m, RPC_U8 m 0, RPC_U8 m 1, RPC_U8 m 2, RPC_U8 m 3, U2B (RPC_U8 m 4), U2B (RPC_U8 m 5), U2B (RPC_U8 m 6), U2B (RPC_U8 m 7)).

(** ** Power, clocks and reset, [svc/pm/pm_rpc_clnt.c] *)

Definition sc_pm_set_sys_power_mode (mode : Z) : U Z := m <- rpc SC_RPC_SVC_PM 19 2 [f8 0 mode] ;; ret (RPC_R8 m).
Definition sc_pm_set_partition_power_mode (pt mode : Z) : U Z :=
  m <- rpc SC_RPC_SVC_PM 1 2 [f8 0 pt; f8 1 mode] ;; ret (RPC_R8 m).
Definition sc_pm_partition_power_off : U unit := rpc_noresp SC_RPC_SVC_PM 30 1 [] ;;; ret tt.
Definition sc_pm_get_sys_power_mode (pt : Z) : U (Z * Z) :=
  m <- rpc SC_RPC_SVC_PM 2 2 [f8 0 pt] ;; ret (RPC_R8 m, RPC_U8 m 0).
Definition sc_pm_partition_wake (pt : Z) : U Z := m <- rpc SC_RPC_SVC_PM 28 2 [f8 0 pt] ;; ret (RPC_R8 m).
Definition sc_pm_set_resource_power_mode (resource mode : Z) : U Z :=
  m <- rpc SC_RPC_SVC_PM 3 2 [f16 0 resource; f8 2 mode] ;; ret (RPC_R8 m).
Definition sc_pm_set_resource_power_mode_all (pt mode exclude : Z) : U Z :=
  m <- rpc SC_RPC_SVC_PM 22 2 [f16 0 exclude; f8 2 pt; f8 3 mode] ;; ret (RPC_R8 m).
Definition sc_pm_get_resource_power_mode (resource : Z) : U (Z * Z) :=
  m <- rpc SC_RPC_SVC_PM 4 2 [f16 0 resource] ;; ret (RPC_R8 m, RPC_U8 m 0).
Definition sc_pm_req_low_power_mode (resource mode : Z) : U Z :=
  m <- rpc SC_RPC_SVC_PM 16 2 [f16 0 resource; f8 2 mode] ;; ret (RPC_R8 m).
Definition sc_pm_req_cpu_low_power_mode (resource mode wake_src : Z) : U Z :=
  m <- rpc SC_RPC_SVC_PM 20 2 [f16 0 resource; f8 2 mode; f8 3 wake_src] ;; ret (RPC_R8 m).
Definition sc_pm_set_cpu_resume_addr (resource address : Z) : U Z :=
  m <- rpc SC_RPC_SVC_PM 17 4 [f32 0 (Z.shiftr address 32); f32 4 address; f16 8 resource] ;; ret (RPC_R8 m).
Definition sc_pm_set_cpu_resume (resource : Z) (isPrimary : bool) (address : Z) : U Z :=
  m <- rpc SC_RPC_SVC_PM 21 4 [f32 0 (Z.shiftr address 32); f32 4 address; f16 8 resource; f8 10 (B2U8 isPrimary)] ;; ret (RPC_R8 m).
Definition sc_pm_req_sys_if_power_mode (resource sys_if hpm lpm : Z) : U Z :=
  m <- rpc SC_RPC_SVC_PM 18 3 [f16 0 resource; f8 2 sys_if; f8 3 hpm; f8 4 lpm] ;; ret (RPC_R8 m).
Definition sc_pm_set_clock_rate (resource clk rate : Z) : U (Z * Z) :=
  m <- rpc SC_RPC_SVC_PM 5 3 [f32 0 rate; f16 4 resource; f8 6 clk] ;; ret (RPC_R8 m, RPC_U32 m 0).
Definition sc_pm_get_clock_rate (resource clk : Z) : U (Z * Z) :=
  m <- rpc SC_RPC_SVC_PM 6 2 [f16 0 resource; f8 2 clk] ;; ret (RPC_R8 m, RPC_U32 m 0).
Definition sc_pm_clock_enable (resource clk : Z) (enable autog : bool) : U Z :=
  m <- rpc SC_RPC_SVC_PM 7 3 [f16 0 resource; f8 2 clk; f8 3 (B2U8 enable); f8 4 (B2U8 autog)] ;; ret (RPC_R8 m).
Definition sc_pm_set_clock_parent (resource clk parent : Z) : U Z :=
  m <- rpc SC_RPC_SVC_PM 14 2 [f16 0 resource; f8 2 clk; f8 3 parent] ;; ret (RPC_R8 m).
Definition sc_pm_get_clock_parent (resource clk : Z) : U (Z * Z) :=
  m <- rpc SC_RPC_SVC_PM 15 2 [f16 0 resource; f8 2 clk] ;; ret (RPC_R8 m, RPC_U8 m 0).
Definition sc_pm_reset (type_ : Z) : U Z := m <- rpc SC_RPC_SVC_PM 13 2 [f8 0 type_] ;; ret (RPC_R8 m).
Definition sc_pm_reset_stage (stage : Z) : U Z := m <- rpc SC_RPC_SVC_PM 31 2 [f8 0 stage] ;; ret (RPC_R8 m).
Definition sc_pm_reset_reason : U (Z * Z) := m <- rpc SC_RPC_SVC_PM 10 1 [] ;; ret (RPC_R8 m, RPC_U8 m 0).
Definition sc_pm_get_reset_part : U (Z * Z) := m <- rpc SC_RPC_SVC_PM 26 1 [] ;; ret (RPC_R8 m, RPC_U8 m 0).
Definition sc_pm_boot (pt resource_cpu boot_addr resource_mu resource_dev : Z) : U Z :=
  m <- rpc SC_RPC_SVC_PM 8 5 [f32 0 (Z.shiftr boot_addr 32); f32 4 boot_addr; f16 8 resource_cpu; f16 10 resource_mu; f16 12 resource_dev; f8 14 pt] ;; ret (RPC_R8 m).
Definition sc_pm_set_boot_parm (resource_cpu boot_addr resource_mu resource_dev : Z) : U Z :=
  m <- rpc SC_RPC_SVC_PM 27 5 [f32 0 (Z.shiftr boot_addr 32); f32 4 boot_addr; f16 8 resource_cpu; f16 10 resource_mu; f16 12 resource_dev] ;; ret (RPC_R8 m).
Definition sc_pm_reboot (type_ : Z) : U unit := rpc_noresp SC_RPC_SVC_PM 9 2 [f8 0 type_] ;;; ret tt.
Definition sc_pm_reboot_partition (pt type_ : Z) : U Z :=
  m <- rpc SC_RPC_SVC_PM 12 2 [f8 0 pt; f8 1 type_] ;; ret (RPC_R8 m).
Definition sc_pm_reboot_continue (pt : Z) : U Z := m <- rpc SC_RPC_SVC_PM 25 2 [f8 0 pt] ;; ret (RPC_R8 m).
Definition sc_pm_cpu_start (resource : Z) (enable : bool) (address : Z) : U Z :=
  m <- rpc SC_RPC_SVC_PM 11 4 [f32 0 (Z.shiftr address 32); f32 4 address; f16 8 resource; f8 10 (B2U8 enable)] ;; ret (RPC_R8 m).
Definition sc_pm_cpu_reset (resource address : Z) : U unit :=
  rpc_noresp SC_RPC_SVC_PM 23 4 [f32 0 (Z.shiftr address 32); f32 4 address; f16 8 resource] ;;; ret tt.
Definition sc_pm_resource_reset (resource : Z) : U Z :=
  m <- rpc SC_RPC_SVC_PM 29 2 [f16 0 resource] ;; ret (RPC_R8 m).
Definition sc_pm_is_partition_started (pt : Z) : U bool :=
  m <- rpc SC_RPC_SVC_PM 24 2 [f8 0 pt] ;; ret (U2B (RPC_R8 m)).

(** ** Resources and partitions, [svc/rm/rm_rpc_clnt.c] *)

Definition sc_rm_partition_alloc (secure isolated restricted grant coherent : bool) : U (Z * Z) :=
  m <- rpc SC_RPC_SVC_RM 1 3 [f8 0 (B2U8 secure); f8 1 (B2U8 isolated); f8 2 (B2U8 restricted); f8 3 (B2U8 grant); f8 4 (B2U8 coherent)] ;; ret (RPC_R8 m, RPC_U8 m 0).
Definition sc_rm_set_confidential (pt : Z) (retro : bool) : U Z :=
  m <- rpc SC_RPC_SVC_RM 31 2 [f8 0 pt; f8 1 (B2U8 retro)] ;; ret (RPC_R8 m).
Definition sc_rm_partition_free (pt : Z) : U Z := m <- rpc SC_RPC_SVC_RM 2 2 [f8 0 pt] ;; ret (RPC_R8 m).
Definition sc_rm_get_did : U Z := m <- rpc SC_RPC_SVC_RM 26 1 [] ;; ret (RPC_R8 m).
Definition sc_rm_partition_static (pt did : Z) : U Z :=
  m <- rpc SC_RPC_SVC_RM 3 2 [f8 0 pt; f8 1 did] ;; ret (RPC_R8 m).
Definition sc_rm_partition_lock (pt : Z) : U Z := m <- rpc SC_RPC_SVC_RM 4 2 [f8 0 pt] ;; ret (RPC_R8 m).
Definition sc_rm_get_partition : U (Z * Z) := m <- rpc SC_RPC_SVC_RM 5 1 [] ;; ret (RPC_R8 m, RPC_U8 m 0).
Definition sc_rm_set_parent (pt pt_parent : Z) : U Z :=
  m <- rpc SC_RPC_SVC_RM 6 2 [f8 0 pt; f8 1 pt_parent] ;; ret (RPC_R8 m).
Definition sc_rm_move_all (pt_src pt_dst : Z) (move_rsrc move_pads : bool) : U Z :=
  m <- rpc SC_RPC_SVC_RM 7 2 [f8 0 pt_src; f8 1 pt_dst; f8 2 (B2U8 move_rsrc); f8 3 (B2U8 move_pads)] ;; ret (RPC_R8 m).
Definition sc_rm_assign_resource (pt resource : Z) : U Z :=
  m <- rpc SC_RPC_SVC_RM 8 2 [f16 0 resource; f8 2 pt] ;; ret (RPC_R8 m).
Definition sc_rm_set_resource_movable (resource_fst resource_lst : Z) (movable : bool) : U Z :=
  m <- rpc SC_RPC_SVC_RM 9 3 [f16 0 resource_fst; f16 2 resource_lst; f8 4 (B2U8 movable)] ;; ret (RPC_R8 m).
Definition sc_rm_set_subsys_rsrc_movable (resource : Z) (movable : bool) : U Z :=
  m <- rpc SC_RPC_SVC_RM 28 2 [f16 0 resource; f8 2 (B2U8 movable)] ;; ret (RPC_R8 m).
Definition sc_rm_set_master_attributes (resource sa pa : Z) (smmu_bypass : bool) : U Z :=
  m <- rpc SC_RPC_SVC_RM 10 3 [f16 0 resource; f8 2 sa; f8 3 pa; f8 4 (B2U8 smmu_bypass)] ;; ret (RPC_R8 m).
Definition sc_rm_set_master_sid (resource sid : Z) : U Z :=
  m <- rpc SC_RPC_SVC_RM 11 2 [f16 0 resource; f16 2 sid] ;; ret (RPC_R8 m).
Definition sc_rm_set_peripheral_permissions (resource pt perm : Z) : U Z :=
  m <- rpc SC_RPC_SVC_RM 12 2 [f16 0 resource; f8 2 pt; f8 3 perm] ;; ret (RPC_R8 m).
Definition sc_rm_is_resource_owned (resource : Z) : U bool :=
  m <- rpc SC_RPC_SVC_RM 13 2 [f16 0 resource] ;; ret (U2B (RPC_R8 m)).
Definition sc_rm_get_resource_owner (resource : Z) : U (Z * Z) :=
  m <- rpc SC_RPC_SVC_RM 33 2 [f16 0 resource] ;; ret (RPC_R8 m, RPC_U8 m 0).
Definition sc_rm_is_resource_master (resource : Z) : U bool :=
  m <- rpc SC_RPC_SVC_RM 14 2 [f16 0 resource] ;; ret (U2B (RPC_R8 m)).
Definition sc_rm_is_resource_peripheral (resource : Z) : U bool :=
  m <- rpc SC_RPC_SVC_RM 15 2 [f16 0 resource] ;; ret (U2B (RPC_R8 m)).
Definition sc_rm_get_resource_info (resource : Z) : U (Z * Z) :=
  m <- rpc SC_RPC_SVC_RM 16 2 [f16 0 resource] ;; ret (RPC_R8 m, RPC_U16 m 0).
Definition sc_rm_memreg_alloc (addr_start addr_end : Z) : U (Z * Z) :=
  m <- rpc SC_RPC_SVC_RM 17 5 [f32 0 (Z.shiftr addr_start 32); f32 4 addr_start; f32 8 (Z.shiftr addr_end 32); f32 12 addr_end] ;; ret (RPC_R8 m, RPC_U8 m 0).
Definition sc_rm_memreg_split (mr addr_start addr_end : Z) : U (Z * Z) :=
  m <- rpc SC_RPC_SVC_RM 29 6 [f32 0 (Z.shiftr addr_start 32); f32 4 addr_start; f32 8 (Z.shiftr addr_end 32); f32 12 addr_end; f8 16 mr] ;; ret (RPC_R8 m, RPC_U8 m 0).
Definition sc_rm_memreg_frag (addr_start addr_end : Z) : U (Z * Z) :=
  m <- rpc SC_RPC_SVC_RM 32 5 [f32 0 (Z.shiftr addr_start 32); f32 4 addr_start; f32 8 (Z.shiftr addr_end 32); f32 12 addr_end] ;; ret (RPC_R8 m, RPC_U8 m 0).
Definition sc_rm_memreg_free (mr : Z) : U Z := m <- rpc SC_RPC_SVC_RM 18 2 [f8 0 mr] ;; ret (RPC_R8 m).
Definition sc_rm_find_memreg (addr_start addr_end : Z) : U (Z * Z) :=
  m <- rpc SC_RPC_SVC_RM 30 5 [f32 0 (Z.shiftr addr_start 32); f32 4 addr_start; f32 8 (Z.shiftr addr_end 32); f32 12 addr_end] ;; ret (RPC_R8 m, RPC_U8 m 0).
Definition sc_rm_assign_memreg (pt mr : Z) : U Z := m <- rpc SC_RPC_SVC_RM 19 2 [f8 0 pt; f8 1 mr] ;; ret (RPC_R8 m).
Definition sc_rm_set_memreg_permissions (mr pt perm : Z) : U Z :=
  m <- rpc SC_RPC_SVC_RM 20 2 [f8 0 mr; f8 1 pt; f8 2 perm] ;; ret (RPC_R8 m).
Definition sc_rm_set_memreg_iee (mr det rmsg : Z) : U Z :=
  m <- rpc SC_RPC_SVC_RM 34 2 [f8 0 mr; f8 1 det; f8 2 rmsg] ;; ret (RPC_R8 m).
Definition sc_rm_is_memreg_owned (mr : Z) : U bool := m <- rpc SC_RPC_SVC_RM 21 2 [f8 0 mr] ;; ret (U2B (RPC_R8 m)).
Definition sc_rm_get_memreg_info (mr : Z) : U (Z * Z * Z) :=
  m <- rpc SC_RPC_SVC_RM 22 2 [f8 0 mr] ;; ret (RPC_R8 m, RPC_U64 m 0, RPC_U64 m 8).
Definition sc_rm_assign_pad (pt pad : Z) : U Z := m <- rpc SC_RPC_SVC_RM 23 2 [f16 0 pad; f8 2 pt] ;; ret (RPC_R8 m).
Definition sc_rm_set_pad_movable (pad_fst pad_lst : Z) (movable : bool) : U Z :=
  m <- rpc SC_RPC_SVC_RM 24 3 [f16 0 pad_fst; f16 2 pad_lst; f8 4 (B2U8 movable)] ;; ret (RPC_R8 m).
Definition sc_rm_is_pad_owned (pad : Z) : U bool := m <- rpc SC_RPC_SVC_RM 25 2 [f16 0 pad] ;; ret (U2B (RPC_R8 m)).
Definition sc_rm_dump : U unit := rpc SC_RPC_SVC_RM 27 1 [] ;;; ret tt.

(** ** Security controller, [svc/seco/seco_rpc_clnt.c] *)

Definition sc_seco_image_load (addr_src addr_dst len : Z) (fw : bool) : U Z :=
  m <- rpc SC_RPC_SVC_SECO 1 7 [f32 0 (Z.shiftr addr_src 32); f32 4 addr_src; f32 8 (Z.shiftr addr_dst 32); f32 12 addr_dst; f32 16 len; f8 20 (B2U8 fw)] ;; ret (RPC_R8 m).
Definition sc_seco_authenticate (cmd addr : Z) : U Z :=
  m <- rpc SC_RPC_SVC_SECO 2 4 [f32 0 (Z.shiftr addr 32); f32 4 addr; f8 8 cmd] ;; ret (RPC_R8 m).
Definition sc_seco_enh_authenticate (cmd addr mask1 mask2 : Z) : U Z :=
  m <- rpc SC_RPC_SVC_SECO 24 6 [f32 0 (Z.shiftr addr 32); f32 4 addr; f32 8 mask1; f32 12 mask2; f8 16 cmd] ;; ret (RPC_R8 m).
Definition sc_seco_forward_lifecycle (change : Z) : U Z :=
  m <- rpc SC_RPC_SVC_SECO 3 2 [f32 0 change] ;; ret (RPC_R8 m).
Definition sc_seco_return_lifecycle (addr : Z) : U Z :=
  m <- rpc SC_RPC_SVC_SECO 4 3 [f32 0 (Z.shiftr addr 32); f32 4 addr] ;; ret (RPC_R8 m).
Definition sc_seco_commit (info : Z) : U (Z * Z) :=
  m <- rpc SC_RPC_SVC_SECO 5 2 [f32 0 info] ;; ret (RPC_R8 m, RPC_U32 m 0).
Definition sc_seco_attest_mode (mode : Z) : U Z := m <- rpc SC_RPC_SVC_SECO 6 2 [f32 0 mode] ;; ret (RPC_R8 m).
Definition sc_seco_attest (nonce : Z) : U Z :=
  m <- rpc SC_RPC_SVC_SECO 7 3 [f32 0 (Z.shiftr nonce 32); f32 4 nonce] ;; ret (RPC_R8 m).
Definition sc_seco_get_attest_pkey (addr : Z) : U Z :=
  m <- rpc SC_RPC_SVC_SECO 8 3 [f32 0 (Z.shiftr addr 32); f32 4 addr] ;; ret (RPC_R8 m).
Definition sc_seco_get_attest_sign (addr : Z) : U Z :=
  m <- rpc SC_RPC_SVC_SECO 9 3 [f32 0 (Z.shiftr addr 32); f32 4 addr] ;; ret (RPC_R8 m).
Definition sc_seco_attest_verify (addr : Z) : U Z :=
  m <- rpc SC_RPC_SVC_SECO 10 3 [f32 0 (Z.shiftr addr 32); f32 4 addr] ;; ret (RPC_R8 m).
Definition sc_seco_gen_key_blob (id load_addr export_addr max_size : Z) : U Z :=
  m <- rpc SC_RPC_SVC_SECO 11 7 [f32 0 (Z.shiftr load_addr 32); f32 4 load_addr; f32 8 (Z.shiftr export_addr 32); f32 12 export_addr; f32 16 id; f16 20 max_size] ;; ret (RPC_R8 m).
Definition sc_seco_load_key (id addr : Z) : U Z :=
  m <- rpc SC_RPC_SVC_SECO 12 4 [f32 0 (Z.shiftr addr 32); f32 4 addr; f32 8 id] ;; ret (RPC_R8 m).
Definition sc_seco_get_mp_key (dst_addr dst_size : Z) : U Z :=
  m <- rpc SC_RPC_SVC_SECO 13 4 [f32 0 (Z.shiftr dst_addr 32); f32 4 dst_addr; f16 8 dst_size] ;; ret (RPC_R8 m).
Definition sc_seco_update_mpmr (addr size lock : Z) : U Z :=
  m <- rpc SC_RPC_SVC_SECO 14 4 [f32 0 (Z.shiftr addr 32); f32 4 addr; f8 8 size; f8 9 lock] ;; ret (RPC_R8 m).
Definition sc_seco_get_mp_sign (msg_addr msg_size dst_addr dst_size : Z) : U Z :=
  m <- rpc SC_RPC_SVC_SECO 15 6 [f32 0 (Z.shiftr msg_addr 32); f32 4 msg_addr; f32 8 (Z.shiftr dst_addr 32); f32 12 dst_addr; f16 16 msg_size; f16 18 dst_size] ;; ret (RPC_R8 m).
Definition sc_seco_v2x_build_info : U (Z * Z * Z) :=
  m <- rpc SC_RPC_SVC_SECO 30 1 [] ;; ret (RPC_R8 m, RPC_U32 m 0, RPC_U32 m 4).
Definition sc_seco_set_mono_counter_partition_hsm (she hsm : Z) : U (Z * Z * Z) :=
  m <- rpc SC_RPC_SVC_SECO 32 2 [f16 0 she; f16 2 hsm] ;; ret (RPC_R8 m, RPC_U16 m 0, RPC_U16 m 2).
Definition sc_seco_fips_info : U (Z * Z * Z) :=
  m <- rpc SC_RPC_SVC_SECO 34 1 [] ;; ret (RPC_R8 m, RPC_U8 m 0, RPC_U8 m 1).
Definition sc_seco_set_fips_mode (mode : Z) : U (Z * Z) :=
  m <- rpc SC_RPC_SVC_SECO 29 2 [f8 0 mode] ;; ret (RPC_R8 m, RPC_U32 m 0).
Definition sc_seco_fips_degrade (addr : Z) : U (Z * Z) :=
  m <- rpc SC_RPC_SVC_SECO 35 3 [f32 0 (Z.shiftr addr 32); f32 4 addr] ;; ret (RPC_R8 m, RPC_U32 m 0).
Definition sc_seco_fips_key_zero (addr : Z) : U Z :=
  m <- rpc SC_RPC_SVC_SECO 31 3 [f32 0 (Z.shiftr addr 32); f32 4 addr] ;; ret (RPC_R8 m).
Definition sc_seco_build_info : U (Z * Z) := m <- rpc SC_RPC_SVC_SECO 16 1 [] ;; ret (RPC_U32 m 0, RPC_U32 m 4).
Definition sc_seco_chip_info : U (Z * Z * Z * Z * Z) :=
  m <- rpc SC_RPC_SVC_SECO 17 1 [] ;; ret (RPC_R8 m, RPC_U32 m 0, RPC_U32 m 4, RPC_U16 m 8, RPC_U16 m 10).
Definition sc_seco_enable_debug (addr : Z) : U Z :=
  m <- rpc SC_RPC_SVC_SECO 18 3 [f32 0 (Z.shiftr addr 32); f32 4 addr] ;; ret (RPC_R8 m).
Definition sc_seco_get_event (idx : Z) : U (Z * Z) :=
  m <- rpc SC_RPC_SVC_SECO 19 2 [f8 0 idx] ;; ret (RPC_R8 m, RPC_U32 m 0).
Definition sc_seco_fuse_write (addr : Z) : U Z :=
  m <- rpc SC_RPC_SVC_SECO 20 3 [f32 0 (Z.shiftr addr 32); f32 4 addr] ;; ret (RPC_R8 m).
Definition sc_seco_patch (addr : Z) : U Z :=
  m <- rpc SC_RPC_SVC_SECO 21 3 [f32 0 (Z.shiftr addr 32); f32 4 addr] ;; ret (RPC_R8 m).
Definition sc_seco_set_mono_counter_partition (she : Z) : U (Z * Z) :=
  m <- rpc SC_RPC_SVC_SECO 28 2 [f16 0 she] ;; ret (RPC_R8 m, RPC_U16 m 0).
Definition sc_seco_start_rng : U (Z * Z) := m <- rpc SC_RPC_SVC_SECO 22 1 [] ;; ret (RPC_R8 m, RPC_U32 m 0).
Definition sc_seco_sab_msg (addr : Z) : U Z :=
  m <- rpc SC_RPC_SVC_SECO 23 3 [f32 0 (Z.shiftr addr 32); f32 4 addr] ;; ret (RPC_R8 m).
Definition sc_seco_caam_td_config (resource : Z) (allow lock : bool) : U Z :=
  m <- rpc SC_RPC_SVC_SECO 33 2 [f16 0 resource; f8 2 (B2U8 allow); f8 3 (B2U8 lock)] ;; ret (RPC_R8 m).
Definition sc_seco_secvio_enable : U Z := m <- rpc SC_RPC_SVC_SECO 25 1 [] ;; ret (RPC_R8 m).
Definition sc_seco_secvio_config (id access data0 data1 data2 data3 data4 size : Z) : U (Z * Z * Z * Z * Z * Z) :=
  m <- rpc SC_RPC_SVC_SECO 26 7 [f32 0 data0; f32 4 data1; f32 8 data2; f32 12 data3; f32 16 data4; f8 20 id; f8 21 access; f8 22 size] ;; ret (RPC_R8 m, RPC_U32 m 0, RPC_U32 m 4, RPC_U32 m 8, RPC_U32 m 12, RPC_U32 m 16).
Definition sc_seco_secvio_dgo_config (id access data : Z) : U (Z * Z) :=
  m <- rpc SC_RPC_SVC_SECO 27 3 [f32 0 data; f8 4 id; f8 5 access] ;; ret (RPC_R8 m, RPC_U32 m 0).

(** ** Watchdog and clock, [svc/timer/timer_rpc_clnt.c] *)

Definition sc_timer_set_wdog_timeout (timeout : Z) : U Z :=
  m <- rpc SC_RPC_SVC_TIMER 1 2 [f32 0 timeout] ;; ret (RPC_R8 m).
Definition sc_timer_set_wdog_pre_timeout (pre_timeout : Z) : U Z :=
  m <- rpc SC_RPC_SVC_TIMER 12 2 [f32 0 pre_timeout] ;; ret (RPC_R8 m).
Definition sc_timer_set_wdog_window (window : Z) : U Z :=
  m <- rpc SC_RPC_SVC_TIMER 19 2 [f32 0 window] ;; ret (RPC_R8 m).
Definition sc_timer_start_wdog (lock : bool) : U Z :=
  m <- rpc SC_RPC_SVC_TIMER 2 2 [f8 0 (B2U8 lock)] ;; ret (RPC_R8 m).
Definition sc_timer_stop_wdog : U Z := m <- rpc SC_RPC_SVC_TIMER 3 1 [] ;; ret (RPC_R8 m).
Definition sc_timer_ping_wdog : U Z := m <- rpc SC_RPC_SVC_TIMER 4 1 [] ;; ret (RPC_R8 m).
Definition sc_timer_get_wdog_status : U (Z * Z * Z * Z) :=
  m <- rpc SC_RPC_SVC_TIMER 5 1 [] ;; ret (RPC_R8 m, RPC_U32 m 0, RPC_U32 m 4, RPC_U32 m 8).
Definition sc_timer_pt_get_wdog_status (pt : Z) : U (Z * Z * Z * bool) :=
  m <- rpc SC_RPC_SVC_TIMER 13 2 [f8 0 pt] ;; ret (RPC_R8 m, RPC_U32 m 0, RPC_U32 m 4, U2B (RPC_U8 m 8)).
Definition sc_timer_set_wdog_action (pt action : Z) : U Z :=
  m <- rpc SC_RPC_SVC_TIMER 10 2 [f8 0 pt; f8 1 action] ;; ret (RPC_R8 m).
Definition sc_timer_set_rtc_time (year mon day hour min sec : Z) : U Z :=
  m <- rpc SC_RPC_SVC_TIMER 6 3 [f16 0 year; f8 2 mon; f8 3 day; f8 4 hour; f8 5 min; f8 6 sec] ;; ret (RPC_R8 m).
Definition sc_timer_get_rtc_time : U (Z * Z * Z * Z * Z * Z * Z) :=
  m <- rpc SC_RPC_SVC_TIMER 7 1 [] ;; ret (RPC_R8 m, RPC_U16 m 0, RPC_U8 m 2, RPC_U8 m 3, RPC_U8 m 4, RPC_U8 m 5, RPC_U8 m 6).
Definition sc_timer_get_rtc_sec1970 : U (Z * Z) := m <- rpc SC_RPC_SVC_TIMER 9 1 [] ;; ret (RPC_R8 m, RPC_U32 m 0).
Definition sc_timer_set_rtc_alarm (year mon day hour min sec : Z) : U Z :=
  m <- rpc SC_RPC_SVC_TIMER 8 3 [f16 0 year; f8 2 mon; f8 3 day; f8 4 hour; f8 5 min; f8 6 sec] ;; ret (RPC_R8 m).
Definition sc_timer_set_rtc_periodic_alarm (sec : Z) : U Z :=
  m <- rpc SC_RPC_SVC_TIMER 14 2 [f32 0 sec] ;; ret (RPC_R8 m).
Definition sc_timer_cancel_rtc_alarm : U Z := m <- rpc SC_RPC_SVC_TIMER 15 1 [] ;; ret (RPC_R8 m).
Definition sc_timer_set_rtc_calb (count : Z) : U Z := m <- rpc SC_RPC_SVC_TIMER 11 2 [f8 0 count] ;; ret (RPC_R8 m).
Definition sc_timer_set_sysctr_alarm (ticks : Z) : U Z :=
  m <- rpc SC_RPC_SVC_TIMER 16 3 [f32 0 (Z.shiftr ticks 32); f32 4 ticks] ;; ret (RPC_R8 m).
Definition sc_timer_set_sysctr_periodic_alarm (ticks : Z) : U Z :=
  m <- rpc SC_RPC_SVC_TIMER 17 3 [f32 0 (Z.shiftr ticks 32); f32 4 ticks] ;; ret (RPC_R8 m).
Definition sc_timer_cancel_sysctr_alarm : U Z := m <- rpc SC_RPC_SVC_TIMER 18 1 [] ;; ret (RPC_R8 m).
(** ** Interrupts, [svc/irq/irq_rpc_clnt.c] *)

Definition sc_irq_enable (resource group mask : Z) (enable : bool) : U Z :=
  m <- rpc SC_RPC_SVC_IRQ 1 3 [f32 0 mask; f16 4 resource; f8 6 group; f8 7 (B2U8 enable)] ;; ret (RPC_R8 m).
Definition sc_irq_status (resource group : Z) : U (Z * Z) :=
  m <- rpc SC_RPC_SVC_IRQ 2 2 [f16 0 resource; f8 2 group] ;; ret (RPC_R8 m, RPC_U32 m 0).
End clients.
