(* ===== verification/ScuFw.v ===== *)
(** * The firmware behind the message unit

    The message unit as a device with a latency, the firmware as a server with
    documented laws, and what the clients and the i.MX8X helpers of [Scu] then
    do. *)

From stdpp Require Import functions.
From S2P Require Import Prelude Errors Ocotp Scu ScuClients.
Local Open Scope c_scope.

(** ** Device *)

(** [m_in]: the words of the request so far; [m_out]: the words of the reply
    that were not read, the next of which is number [m_next]; [m_lat]: for how
    many more reads the status register shows nothing. *)
Record mu (S : Type) := {
  m_in : list Z; m_out : list Z; m_next : nat; m_lat : nat; m_acr : Z; m_scu : S
}.
Arguments Build_mu {S}.
Arguments m_in {S}.
Arguments m_out {S}.
Arguments m_next {S}.
Arguments m_lat {S}.
Arguments m_acr {S}.
Arguments m_scu {S}.

(** The second byte of the first word counts the words. *)
Definition words_size (ws : list Z) : Z := hd 0 ws / 256 mod 256.

Section device.
Context {S : Type} (serve : S -> list Z -> list Z * S) (latency : nat) (base : Z).

Definition mu_status (w : mu S) : Z :=
  Z.lor (Z.shiftl 0xF 20)
    (match m_out w with [] => 0 | _ => Z.shiftr MU_SR_RF0_MASK1 (Z.of_nat (m_next w) mod 4) end).

Definition mu_read (a : Z) (w : mu S) : Z * mu S :=
  let off := a - base in
  if off =? MU_ASR_OFFSET1 then
    match m_lat w with
    | O => (mu_status w, w)
    | Datatypes.S n => (0, Build_mu (m_in w) (m_out w) (m_next w) n (m_acr w) (m_scu w))
    end
  else if off =? MU_ACR_OFFSET1 then (m_acr w, w)
  else
    match m_out w with
    | v :: out =>
        if off =? MU_ARR0_OFFSET1 + (Z.of_nat (m_next w) mod 4) * 4
        then (v, Build_mu (m_in w) out (Datatypes.S (m_next w)) latency (m_acr w) (m_scu w)) else (0, w)
    | [] => (0, w)
    end.

(** The firmware answers once the request is complete. *)
Definition mu_write (a v : Z) (w : mu S) : unit * mu S :=
  let off := a - base in
  if off =? MU_ACR_OFFSET1 then (tt, Build_mu (m_in w) (m_out w) (m_next w) (m_lat w) v (m_scu w))
  else if off =? MU_ATR0_OFFSET1 + (Z.of_nat (length (m_in w)) mod 4) * 4 then
    let ws := m_in w ++ [v] in
    if Z.of_nat (length ws) =? words_size ws
    then let '(reply, s) := serve (m_scu w) ws in (tt, Build_mu [] reply 0 latency (m_acr w) s)
    else (tt, Build_mu ws (m_out w) (m_next w) latency (m_acr w) (m_scu w))
  else (tt, w).

Definition mu_mmio : Mmio (mu S) := {| mmio_read_32 := mu_read; mmio_write_32 := mu_write |}.
End device.

(** ** Messages as words *)

Definition msg_words (n : nat) (msg : list Z) : list Z := map (msg_word msg) (seq 0 n).
Definition words_bytes (ws : list Z) : list Z := concat (map (le_bytes 4) ws).

Lemma mod4_cases (n : nat) (P : Z -> Prop) : P 0 -> P 1 -> P 2 -> P 3 -> P (Z.of_nat n mod 4).
Proof. intros. pose proof (Z.mod_pos_bound (Z.of_nat n) 4). by assert (Z.of_nat n mod 4 = 0 \/ Z.of_nat n mod 4 = 1 \/ Z.of_nat n mod 4 = 2 \/ Z.of_nat n mod 4 = 3) as [->|[->|[->| ->]]] by lia. Qed.

Lemma msg_words_S n msg : msg_words (Datatypes.S n) msg = msg_words n msg ++ [msg_word msg n].
Proof. unfold msg_words. by rewrite seq_S, map_app. Qed.

Lemma msg_words_hd n msg : (0 < n)%nat -> words_size (msg_words n msg) = msg_word msg 0 / 256 mod 256.
Proof. destruct n; [lia|done]. Qed.

(** A reply the firmware may send. *)
Definition reply_ok (r : list Z) : Prop := (1 <= length r <= 8)%nat /\ words_size r = Z.of_nat (length r).

Lemma msg_size_word msg : bytes msg -> (4 <= length msg)%nat -> msg_word msg 0 / 256 mod 256 = msg_size msg.
Proof.
  intros Hb Hl. destruct msg as [|b0 [|b1 [|b2 [|b3 msg]]]]; cbn [length] in Hl; try lia.
  repeat (apply Forall_cons in Hb as [? Hb]). unfold is_byte in *. unfold msg_word, msg_size, slice. cbn [Nat.mul Nat.add take drop le_val nth].
  Z.div_mod_to_equations. lia.
Qed.

Lemma put_word_0_size v msg : msg_size (put_word 0 v msg) = v / 256 mod 256.
Proof. done. Qed.

Definition header (svc func size : Z) : Z := SC_RPC_VERSION + 256 * size + 65536 * svc + 16777216 * func.
Definition field_fits (size : Z) (f : nat * list Z) : Prop := bytes f.2 /\ Z.of_nat (f.1 + length f.2) <= 4 * (size - 1).

(** The size in the first word, and the word itself, of a message with a header. *)
Lemma shape_header svc func size msg : take 4 msg = [SC_RPC_VERSION; size; svc; func] ->
  msg_size msg = size /\ msg_word msg 0 = header svc func size.
Proof.
  intros Ht. rewrite <- (take_drop 4 msg), Ht. split; [done|].
  unfold msg_word, slice, header. cbn [Nat.mul Nat.add drop take app le_val]. rewrite take_0. cbn [le_val]. lia.
Qed.

Lemma f32_fits size i v : Z.of_nat (i + 4) <= 4 * (size - 1) -> field_fits size (f32 i v).
Proof. intros H. split; [apply le_bytes_bytes|]. unfold f32. cbn [fst snd]. by rewrite length_le_bytes. Qed.
Lemma f16_fits size i v : Z.of_nat (i + 2) <= 4 * (size - 1) -> field_fits size (f16 i v).
Proof. intros H. split; [apply le_bytes_bytes|]. unfold f16. cbn [fst snd]. by rewrite length_le_bytes. Qed.
Lemma f8_fits size i v : Z.of_nat (i + 1) <= 4 * (size - 1) -> field_fits size (f8 i v).
Proof. intros H. split; [apply le_bytes_bytes|]. unfold f8. cbn [fst snd]. by rewrite length_le_bytes. Qed.

Ltac fields_fit :=
  repeat (apply Forall_cons_2;
    [lazymatch goal with
     | |- field_fits _ (f32 _ _) => apply f32_fits
     | |- field_fits _ (f16 _ _) => apply f16_fits
     | |- field_fits _ (f8 _ _) => apply f8_fits
     end; discriminate|]);
  apply Forall_nil_2.

Lemma reply_code svc err n ws msg : 0 <= svc < 256 -> 0 <= err < 256 -> 0 <= n < 256 ->
  RPC_R8 (splice 0 (words_bytes (header svc err n :: ws)) msg) = err.
Proof.
  intros Hv He Hn. change (header svc err n / 256 / 256 / 256 mod 256 = err).
  unfold header, SC_RPC_VERSION. Z.div_mod_to_equations. lia.
Qed.

Lemma reply_word h v ws msg : 0 <= v < 2 ^ 32 -> RPC_U32 (splice 0 (words_bytes (h :: v :: ws)) msg) 0 = v.
Proof. intros Hv. change (le_val (le_bytes 4 v) = v). by apply le_val_le_bytes. Qed.

Lemma header_reply_ok svc err ws : 0 <= svc < 256 -> 0 <= err < 256 -> (length ws <= 7)%nat ->
  reply_ok (header svc err (Z.of_nat (Datatypes.S (length ws))) :: ws).
Proof.
  intros Hv He Hl. split; [cbn [length]; lia|]. unfold words_size, header, SC_RPC_VERSION. cbn [hd length].
  Z.div_mod_to_equations. lia.
Qed.

(** The service and the function in a first word. *)
Definition first_call (ws : list Z) : Z := hd 0 ws / 65536.
Definition call_code (svc func : Z) : Z := svc + 256 * func.

Lemma first_header svc func size : 0 <= svc < 256 -> 0 <= func < 256 -> 1 <= size <= 8 -> first_call [header svc func size] = call_code svc func.
Proof. intros Hv Hf Hz. unfold first_call, header, call_code, SC_RPC_VERSION. cbn [hd]. Z.div_mod_to_equations. lia. Qed.

Section request.
(** What lies on the stack where a client puts its message. *)
Context (stack : list Z).
Hypothesis Hstack : bytes stack.
Hypothesis Hlength : length stack = 32%nat.

Lemma request_shape svc func size fields : 0 <= svc < 256 -> 0 <= func < 256 -> 1 <= size <= 8 -> Forall (field_fits size) fields ->
  let msg := request stack svc func size fields in
  bytes msg /\ length msg = 32%nat /\ take 4 msg = [SC_RPC_VERSION; size; svc; func].
Proof.
  intros Hv Hf Hz Hfit. unfold request.
  assert (bytes (splice 0 [SC_RPC_VERSION; size; svc; func] stack) /\ length (splice 0 [SC_RPC_VERSION; size; svc; func] stack) = 32%nat /\
    take 4 (splice 0 [SC_RPC_VERSION; size; svc; func] stack) = [SC_RPC_VERSION; size; svc; func]) as Hm.
  { split; [|split; [by rewrite length_splice; cbn [length]; lia|done]]. apply bytes_splice; [|done].
    unfold bytes, is_byte, SC_RPC_VERSION. repeat constructor; lia. }
  revert Hm. generalize (splice 0 [SC_RPC_VERSION; size; svc; func] stack).
  induction Hfit as [|[i bs] fields [Hb Hi] _ IH]; intros m (Hm & Hl & Ht); [done|]. cbn [fold_left]. cbn [fst snd] in *. apply IH. split; [by apply bytes_splice|].
  split; [rewrite length_splice; lia|]. rewrite <- Ht. unfold splice. rewrite take_app_le by (rewrite length_take; lia).
  by rewrite take_take.
Qed.

Definition request_words (svc func size : Z) (fields : list (nat * list Z)) : list Z :=
  msg_words (Z.to_nat size) (request stack svc func size fields).

Lemma request_words_first svc func size fields : 0 <= svc < 256 -> 0 <= func < 256 -> 1 <= size <= 8 -> Forall (field_fits size) fields ->
  first_call (request_words svc func size fields) = call_code svc func.
Proof.
  intros Hv Hf Hz Hfit. destruct (request_shape svc func size fields Hv Hf Hz Hfit) as (_ & _ & Ht).
  destruct (shape_header _ _ _ _ Ht) as [_ Hw]. unfold first_call, request_words, msg_words.
  destruct (Z.to_nat size) eqn:E; [lia|]. cbn [seq map hd]. rewrite Hw. unfold header, call_code, SC_RPC_VERSION.
  Z.div_mod_to_equations. lia.
Qed.

Lemma request_words_complete svc func size fields : 0 <= svc < 256 -> 0 <= func < 256 -> 1 <= size <= 8 -> Forall (field_fits size) fields ->
  words_size (request_words svc func size fields) = Z.of_nat (length (request_words svc func size fields)) /\
  (1 <= length (request_words svc func size fields) <= 8)%nat.
Proof.
  intros Hv Hf Hz Hfit. destruct (request_shape svc func size fields Hv Hf Hz Hfit) as (_ & _ & Ht).
  destruct (shape_header _ _ _ _ Ht) as [_ Hw]. unfold request_words. rewrite msg_words_hd, Hw by lia.
  unfold msg_words, header, SC_RPC_VERSION. rewrite length_map, length_seq. split; [|lia]. Z.div_mod_to_equations. lia.
Qed.

Lemma request_words_none svc func : 0 <= svc < 256 -> 0 <= func < 256 -> request_words svc func 1 [] = [header svc func 1].
Proof.
  intros Hv Hf. destruct (request_shape svc func 1 [] Hv Hf ltac:(lia) (Forall_nil_2 _)) as (_ & _ & Ht).
  destruct (shape_header _ _ _ _ Ht) as [_ Hw].
  change (request_words svc func 1 []) with [msg_word (request stack svc func 1 []) 0]. by rewrite Hw.
Qed.

Lemma request_words_one svc func v : 0 <= svc < 256 -> 0 <= func < 256 -> 0 <= v < 2 ^ 32 ->
  request_words svc func 2 [f32 0 v] = [header svc func 2; v].
Proof.
  intros Hv Hf Hr. assert (Forall (field_fits 2) [f32 0 v]) as Hfit by fields_fit.
  destruct (request_shape svc func 2 [f32 0 v] Hv Hf ltac:(lia) Hfit) as (_ & _ & Ht).
  destruct (shape_header _ _ _ _ Ht) as [_ Hw].
  change (request_words svc func 2 [f32 0 v]) with [msg_word (request stack svc func 2 [f32 0 v]) 0; msg_word (request stack svc func 2 [f32 0 v]) 1].
  rewrite Hw. do 2 f_equal. unfold msg_word, request. cbn [fold_left f32]. unfold f32. cbv beta iota.
  change (4 * 1)%nat with (4 + 0)%nat. rewrite <- (length_le_bytes 4 (u32 v)) at 2.
  rewrite slice_splice_same by (rewrite length_le_bytes, length_splice; cbn [length]; lia).
  unfold u32. rewrite (Z.mod_small v) by done. by apply le_val_le_bytes.
Qed.
End request.

(** ** The exchange of two messages *)

Section exchange.
Context {S : Type} (serve : S -> list Z -> list Z * S) (latency poll_fuel : nat) (base : Z).
Hypothesis Hfuel : (latency < poll_fuel)%nat.
Hypothesis Hbase : base <> 0.
#[local] Existing Instance mu_mmio.
#[local] Instance dev : Mmio (mu S) := mu_mmio serve latency base.

Definition mu_idle (w : mu S) : Prop := m_in w = [] /\ m_out w = [] /\ (m_lat w <= latency)%nat.
Definition settled (w : mu S) : mu S := Build_mu (m_in w) (m_out w) (m_next w) 0 (m_acr w) (m_scu w).

Lemma mu_wait_ok mask fuel w : (m_lat w < fuel)%nat -> Z.land (mu_status w) mask <> 0 ->
  mu_wait (HW := mu S) fuel base mask w = (true, settled w).
Proof.
  revert w. induction fuel as [|fuel IH]; [lia|]. intros [i o nx lat acr s] Hl Hm. cbn in Hl.
  cbn [mu_wait]. m_unfold. cbn [mmio_read_32 dev mu_mmio]. unfold mu_read.
  replace (base + MU_ASR_OFFSET1 - base) with MU_ASR_OFFSET1 by lia. rewrite Z.eqb_refl. cbn [m_lat].
  destruct lat as [|lat]; [by rewrite (proj2 (Z.eqb_neq _ _) Hm)|].
  cbn [m_in m_out m_next m_acr m_scu]. rewrite Z.land_0_l. cbn [Z.eqb]. rewrite IH; [done|cbn; lia|done].
Qed.

Lemma mu_tx_ready (w : mu S) n : Z.land (mu_status w) (Z.shiftr MU_SR_TE0_MASK1 (Z.of_nat n mod 4)) <> 0.
Proof.
  unfold mu_status. rewrite Z.land_lor_distr_l, Z.lor_eq_0_iff. intros [H _]. revert H.
  apply mod4_cases; done.
Qed.

Lemma mu_rx_ready (w : mu S) : m_out w <> [] ->
  Z.land (mu_status w) (Z.shiftr MU_SR_RF0_MASK1 (Z.of_nat (m_next w) mod 4)) <> 0.
Proof.
  unfold mu_status. intros Ho. destruct (m_out w); [done|]. rewrite Z.land_lor_distr_l, Z.lor_eq_0_iff. intros [_ H].
  revert H. apply mod4_cases; done.
Qed.

Lemma mu_send_ok v w : (m_lat w <= latency)%nat ->
  MU_SendMessage poll_fuel base (Z.of_nat (length (m_in w)) mod MU_TR_COUNT) v w =
  (tt, let ws := m_in w ++ [v] in
       if Z.of_nat (length ws) =? words_size ws
       then let '(reply, s) := serve (m_scu w) ws in Build_mu [] reply 0 latency (m_acr w) s
       else Build_mu ws (m_out w) (m_next w) latency (m_acr w) (m_scu w)).
Proof.
  intros Hl. unfold MU_SendMessage. m_unfold. unfold MU_TR_COUNT.
  rewrite mu_wait_ok by (try apply mu_tx_ready; lia). cbn [mmio_write_32 dev mu_mmio]. unfold mu_write, settled.
  cbn [m_in m_out m_next m_acr m_scu].
  set (j := Z.of_nat (length (m_in w)) mod 4). assert (0 <= j < 4) by (apply Z.mod_pos_bound; lia).
  replace (base + MU_ATR0_OFFSET1 + j * 4 - base) with (MU_ATR0_OFFSET1 + j * 4) by lia.
  rewrite (proj2 (Z.eqb_neq _ _)) by (unfold MU_ATR0_OFFSET1, MU_ACR_OFFSET1; lia). rewrite Z.eqb_refl.
  case_match; [|done]. by destruct (serve _ _).
Qed.

Lemma mu_receive_ok w v out : (m_lat w <= latency)%nat -> m_out w = v :: out ->
  MU_ReceiveMsg poll_fuel base (Z.of_nat (m_next w) mod MU_RR_COUNT) w =
  (v, Build_mu (m_in w) out (Datatypes.S (m_next w)) latency (m_acr w) (m_scu w)).
Proof.
  intros Hl Ho. unfold MU_ReceiveMsg. m_unfold. unfold MU_RR_COUNT.
  rewrite mu_wait_ok by (try (apply mu_rx_ready; by rewrite Ho); lia). cbn [mmio_read_32 dev mu_mmio]. unfold mu_read, settled.
  cbn [m_in m_out m_next m_acr m_scu]. rewrite Ho.
  set (j := Z.of_nat (m_next w) mod 4). assert (0 <= j < 4) by (apply Z.mod_pos_bound; lia).
  replace (base + MU_ARR0_OFFSET1 + j * 4 - base) with (MU_ARR0_OFFSET1 + j * 4) by lia.
  rewrite !(proj2 (Z.eqb_neq _ _)) by (unfold MU_ARR0_OFFSET1, MU_ASR_OFFSET1, MU_ACR_OFFSET1; lia). by rewrite Z.eqb_refl.
Qed.

Lemma send_words_ok msg n : forall count w, (0 < n)%nat -> m_in w = msg_words count msg -> (m_lat w <= latency)%nat ->
  msg_word msg 0 / 256 mod 256 = Z.of_nat (count + n) ->
  send_words poll_fuel n count base msg w =
  (tt, let '(reply, s) := serve (m_scu w) (msg_words (count + n) msg) in Build_mu [] reply 0 latency (m_acr w) s).
Proof.
  induction n as [|n IH]; [lia|]. intros count w _ Hi Hl Hs. cbn [send_words]. m_unfold.
  assert (length (m_in w) = count) as Hc by (rewrite Hi; unfold msg_words; by rewrite length_map, length_seq).
  replace (Z.of_nat count mod MU_TR_COUNT) with (Z.of_nat (length (m_in w)) mod MU_TR_COUNT) by (by rewrite Hc). rewrite mu_send_ok by done. cbv zeta. rewrite Hi, <- msg_words_S, msg_words_hd, Hs by lia.
  replace (length (msg_words (Datatypes.S count) msg)) with (Datatypes.S count) by (unfold msg_words; by rewrite length_map, length_seq).
  destruct n as [|n].
  - rewrite (proj2 (Z.eqb_eq _ _)) by lia. replace (count + 1)%nat with (Datatypes.S count) by lia. by destruct (serve _ _).
  - rewrite (proj2 (Z.eqb_neq _ _)) by lia. rewrite IH; cbn [m_in m_lat]; try done; try lia.
    by replace (Datatypes.S count + Datatypes.S n)%nat with (count + Datatypes.S (Datatypes.S n))%nat by lia.
Qed.

Lemma receive_words_ok out : forall count msg w, m_out w = out -> m_next w = count -> (m_lat w <= latency)%nat ->
  m_in w = [] -> length msg = 32%nat -> (count + length out <= 8)%nat ->
  exists w', receive_words poll_fuel (length out) count base msg w = (splice (4 * count) (words_bytes out) msg, w') /\
    mu_idle w' /\ m_scu w' = m_scu w.
Proof.
  induction out as [|v out IH]; intros count msg w Ho Hn Hl Hi Hm Hc; cbn [receive_words length] in *.
  - exists w. unfold words_bytes. cbn [map concat]. by rewrite splice_nil_at.
  - m_unfold. replace (Z.of_nat count mod MU_RR_COUNT) with (Z.of_nat (m_next w) mod MU_RR_COUNT) by (by rewrite Hn). rewrite (mu_receive_ok w v out) by done.
    assert (length (put_word count v msg) = 32%nat) as Hp by (unfold put_word; rewrite length_splice; rewrite ?length_le_bytes; lia).
    edestruct (IH (Datatypes.S count) (put_word count v msg) (Build_mu (m_in w) out (Datatypes.S (m_next w)) latency (m_acr w) (m_scu w)))
      as (w' & -> & Hw' & Hs'); cbn [m_out m_next m_lat m_in]; try done; try lia.
    exists w'. split; [|done]. f_equal. unfold words_bytes. cbn [map concat]. unfold put_word.
    rewrite <- splice_splice_app by lia. rewrite length_le_bytes. by replace (4 * Datatypes.S count)%nat with (4 * count + 4)%nat by lia.
Qed.

Lemma sc_ipc_read_ok msg w : reply_ok (m_out w) -> m_next w = 0%nat -> (m_lat w <= latency)%nat -> m_in w = [] ->
  length msg = 32%nat ->
  exists w', sc_ipc_read poll_fuel base msg w = (splice 0 (words_bytes (m_out w)) msg, w') /\ mu_idle w' /\ m_scu w' = m_scu w.
Proof.
  intros [Hr Hs] Hn Hl Hi Hm. unfold sc_ipc_read. rewrite (proj2 (Z.eqb_neq _ _) Hbase). m_unfold.
  destruct (m_out w) as [|v out] eqn:Ho; cbn [length] in Hr; [lia|]. unfold words_size in Hs. cbn [hd length] in Hs.
  assert (MU_ReceiveMsg poll_fuel base 0 w = (v, Build_mu (m_in w) out 1 latency (m_acr w) (m_scu w))) as ->
    by (rewrite <- Hn; rewrite <- (mu_receive_ok w v out) by done; by rewrite Hn).
  cbv zeta. rewrite put_word_0_size, Hs. rewrite (proj2 (Z.ltb_ge _ _)) by (unfold SC_RPC_MAX_MSG; lia).
  replace (Z.to_nat (Z.of_nat (Datatypes.S (length out)) - 1)) with (length out) by lia.
  edestruct (receive_words_ok out 1 (put_word 0 v msg)) as (w' & -> & Hw' & Hs');
    [..|exists w'; split; [|by rewrite Hs']]; cbn [m_out m_next m_lat m_in]; try done; try lia.
  - unfold put_word. rewrite length_splice; rewrite ?length_le_bytes; lia.
  - f_equal. unfold words_bytes. cbn [map concat]. unfold put_word. by rewrite <- splice_splice_app by lia.
Qed.

Lemma sc_ipc_write_ok msg w reply s : mu_idle w -> bytes msg -> length msg = 32%nat -> 1 <= msg_size msg <= 8 ->
  serve (m_scu w) (msg_words (Z.to_nat (msg_size msg)) msg) = (reply, s) ->
  sc_ipc_write poll_fuel base msg w = (tt, Build_mu [] reply 0 latency (m_acr w) s).
Proof.
  intros (Hi & Ho & Hl) Hb Hm Hz Hs. unfold sc_ipc_write. rewrite (proj2 (Z.eqb_neq _ _) Hbase).
  rewrite (proj2 (Z.ltb_ge _ _)) by (unfold SC_RPC_MAX_MSG; lia).
  pose proof (send_words_ok msg (Z.to_nat (msg_size msg)) 0 w) as Hw. cbn [Nat.add] in Hw; rewrite Hs in Hw.
  specialize (Hw ltac:(lia) ltac:(done) Hl ltac:(rewrite msg_size_word by (done || lia); lia)).
  replace (Z.to_nat (msg_size msg)) with (Datatypes.S (Z.to_nat (msg_size msg - 1))) in Hw by lia. cbn [send_words] in Hw.
  by change (Z.of_nat 0 mod MU_TR_COUNT) with 0 in Hw.
Qed.

Lemma sc_call_rpc_exchange msg w reply s : mu_idle w -> bytes msg -> length msg = 32%nat -> 1 <= msg_size msg <= 8 ->
  serve (m_scu w) (msg_words (Z.to_nat (msg_size msg)) msg) = (reply, s) -> reply_ok reply ->
  exists w', sc_call_rpc poll_fuel base msg false w = (splice 0 (words_bytes reply) msg, w') /\ mu_idle w' /\ m_scu w' = s.
Proof.
  intros Hw Hb Hm Hz Hs Hr. unfold sc_call_rpc, bind. rewrite (sc_ipc_write_ok msg w reply s) by done.
  apply (sc_ipc_read_ok msg (Build_mu [] reply 0 latency (m_acr w) s)); done.
Qed.

(** ** Calls *)

Context (stack : list Z).
Hypothesis Hstack : bytes stack.
Hypothesis Hlength : length stack = 32%nat.

Lemma rpc_exchange svc func size fields w reply s : mu_idle w -> 0 <= svc < 256 -> 0 <= func < 256 -> 1 <= size <= 8 ->
  Forall (field_fits size) fields -> serve (m_scu w) (request_words stack svc func size fields) = (reply, s) -> reply_ok reply ->
  exists w', rpc poll_fuel stack base svc func size fields w =
      (splice 0 (words_bytes reply) (request stack svc func size fields), w') /\ mu_idle w' /\ m_scu w' = s.
Proof.
  intros Hw Hv Hf Hz Hfit Hs Hr. destruct (request_shape stack Hstack Hlength svc func size fields Hv Hf Hz Hfit) as (Hb & Hl & Ht).
  destruct (shape_header _ _ _ _ Ht) as [Hsize _]. unfold rpc. apply sc_call_rpc_exchange; try done; by rewrite Hsize.
Qed.

Lemma rpc_noresp_exchange svc func size fields w s : mu_idle w -> 0 <= svc < 256 -> 0 <= func < 256 -> 1 <= size <= 8 ->
  Forall (field_fits size) fields -> serve (m_scu w) (request_words stack svc func size fields) = ([], s) ->
  exists w', rpc_noresp poll_fuel stack base svc func size fields w = (request stack svc func size fields, w') /\
    mu_idle w' /\ m_scu w' = s.
Proof.
  intros (Hi & Ho & Hlat) Hv Hf Hz Hfit Hs. destruct (request_shape stack Hstack Hlength svc func size fields Hv Hf Hz Hfit) as (Hb & Hl & Ht).
  destruct (shape_header _ _ _ _ Ht) as [Hsize _]. unfold rpc_noresp, sc_call_rpc, bind.
  rewrite (sc_ipc_write_ok _ w [] s); rewrite ?Hsize; try done.
  by exists (Build_mu [] [] 0 latency (m_acr w) s).
Qed.

(** ** Clients *)

(** The calls the firmware does not answer. *)
Definition unanswered (ws : list Z) : bool :=
  existsb (Z.eqb (first_call ws))
    [call_code SC_RPC_SVC_MISC 7; call_code SC_RPC_SVC_PM 9; call_code SC_RPC_SVC_PM 23; call_code SC_RPC_SVC_PM 30].

(** Every other call gets one complete message. *)
Definition firmware_answers : Prop :=
  forall s ws, if unanswered ws then (serve s ws).1 = [] else reply_ok (serve s ws).1.

(** A call as the firmware's interface documents it: the service, the function,
    the length in words, and the arguments as their offsets behind the first
    word, their widths in bytes and their values. *)
Record scu_call := Call { cl_svc : Z; cl_func : Z; cl_size : Z; cl_args : list (nat * nat * Z) }.

(** The words of a request that makes a call: the first word, as many words as
    that says, and every argument at its place, low byte first. *)
Record makes (cl : scu_call) (ws : list Z) : Prop := {
  makes_header : hd 0 ws = header (cl_svc cl) (cl_func cl) (cl_size cl);
  makes_size : Z.of_nat (length ws) = cl_size cl;
  makes_args : forall o n v, (o, n, v) ∈ cl_args cl -> le_val (slice (4 + o) n (words_bytes ws)) = v mod 256 ^ Z.of_nat n
}.

(** A client makes exactly the call [cl] and returns what [k] finds in the
    message after the reply has been written over the request; nothing of the
    reply is left. *)
Definition exchanges {A} (c : M (mu S) A) (cl : scu_call) (k : list Z -> A) : Prop :=
  forall w, mu_idle w -> exists ws msg w', makes cl ws /\ length msg = 32%nat /\ take (4 * length ws) msg = words_bytes ws /\
    c w = (k (splice 0 (words_bytes (serve (m_scu w) ws).1) msg), w') /\ mu_idle w' /\ m_scu w' = (serve (m_scu w) ws).2.

(** The fields of the arguments; whether they fit and do not overlap. *)
Definition wire (a : nat * nat * Z) : nat * list Z := let '(o, n, v) := a in (o, le_bytes n (v mod 256 ^ Z.of_nat n)).
Fixpoint apart (l : list (nat * nat * Z)) : bool :=
  match l with
  | [] => true
  | (o, n, _) :: l => forallb (fun '(o', n', _) => (o + n <=? o')%nat || (o' + n' <=? o)%nat) l && apart l
  end.
Definition call_fits (cl : scu_call) : bool :=
  (0 <=? cl_svc cl) && (cl_svc cl <? 256) && (0 <=? cl_func cl) && (cl_func cl <? 256) && (1 <=? cl_size cl) && (cl_size cl <=? 8) &&
  forallb (fun '(o, n, _) => Z.of_nat (o + n) <=? 4 * (cl_size cl - 1)) (cl_args cl) && apart (cl_args cl).

Lemma fold_fields l : forall m size, Z.of_nat (length m) >= 4 * size -> Forall (fun '(o, n, _) => Z.of_nat (o + n) <= 4 * (size - 1)) l ->
  forall o n, forallb (fun '(o', n', _) => (o + n <=? o')%nat || (o' + n' <=? o)%nat) l = true ->
  slice (4 + o) n (fold_left (fun m '(i, bs) => splice (4 + i) bs m) (map wire l) m) = slice (4 + o) n m.
Proof.
  induction l as [|[[o1 n1] v1] l IH]; intros m size Hm Hl o n Hd; [done|]. cbn [map fold_left wire]. cbn [forallb] in Hd. apply andb_true_iff in Hd as [Hd1 Hd].
  apply Forall_cons in Hl as [Hl1 Hl]. assert (Hlen : length (le_bytes n1 (v1 mod 256 ^ Z.of_nat n1)) = n1) by apply length_le_bytes.
  rewrite (IH _ size) by (try done; rewrite length_splice; lia). apply splice_elsewhere; rewrite ?Hlen; [lia|].
  apply orb_true_iff in Hd1 as [H%Nat.leb_le|H%Nat.leb_le]; lia.
Qed.

Lemma args_placed l : forall m size, Z.of_nat (length m) >= 4 * size -> Forall (fun '(o, n, _) => Z.of_nat (o + n) <= 4 * (size - 1)) l -> apart l = true ->
  forall o n v, (o, n, v) ∈ l ->
    slice (4 + o) n (fold_left (fun m '(i, bs) => splice (4 + i) bs m) (map wire l) m) = le_bytes n (v mod 256 ^ Z.of_nat n).
Proof.
  induction l as [|[[o1 n1] v1] l IH]; intros m size Hm Hl Ha o n v Hin; [by apply not_elem_of_nil in Hin|]. cbn [map fold_left wire].
  cbn [apart] in Ha. apply andb_true_iff in Ha as [Ha1 Ha]. apply Forall_cons in Hl as [Hl1 Hl].
  assert (Hlen : length (le_bytes n1 (v1 mod 256 ^ Z.of_nat n1)) = n1) by apply length_le_bytes.
  apply elem_of_cons in Hin as [[= -> -> ->]|Hin]; [|by apply (IH _ size); try done; rewrite length_splice; lia].
  rewrite (fold_fields l _ size) by (try done; rewrite length_splice; lia). rewrite <- Hlen at 1. apply slice_splice_same. lia.
Qed.

Lemma call_fits_inv cl : call_fits cl = true -> 0 <= cl_svc cl < 256 /\ 0 <= cl_func cl < 256 /\ 1 <= cl_size cl <= 8 /\
  Forall (fun '(o, n, _) => Z.of_nat (o + n) <= 4 * (cl_size cl - 1)) (cl_args cl) /\ Forall (field_fits (cl_size cl)) (map wire (cl_args cl)) /\ apart (cl_args cl) = true.
Proof.
  unfold call_fits. rewrite !andb_true_iff. intros [[[[[[[H1 H2] H3] H4] H5] H6] H7] H8]. zbool.
  assert (Hf : Forall (fun '(o, n, _) => Z.of_nat (o + n) <= 4 * (cl_size cl - 1)) (cl_args cl)).
  { apply Forall_forall. intros [[o n] v] Hin. rewrite forallb_forall in H7. apply list_elem_of_In in Hin. specialize (H7 _ Hin). by apply Z.leb_le in H7. }
  split_and!; try lia; try done. apply Forall_map. eapply Forall_impl; [exact Hf|]. intros [[o n] v] Ho. split; [apply le_bytes_bytes|].
  unfold wire. cbn [fst snd]. by rewrite length_le_bytes.
Qed.

Lemma msg_words_bytes n : forall msg, bytes msg -> (4 * n <= length msg)%nat -> words_bytes (msg_words n msg) = take (4 * n) msg.
Proof.
  induction n as [|n IH]; intros msg Hb Hl; [done|]. rewrite msg_words_S. unfold words_bytes. rewrite map_app, concat_app. fold (words_bytes (msg_words n msg)).
  rewrite IH by (done || lia). cbn [map concat]. rewrite app_nil_r. unfold msg_word.
  assert (Hs : length (slice (4 * n) 4 msg) = 4%nat) by (unfold slice; rewrite length_take, length_drop; lia).
  assert (Hbs : bytes (slice (4 * n) 4 msg)) by (unfold slice; by apply Forall_take, Forall_drop).
  pose proof (le_bytes_le_val _ Hbs) as ->%(eq_trans (f_equal (fun k => le_bytes k _) (eq_sym Hs))). unfold slice. rewrite take_take_drop. f_equal. lia.
Qed.

(** The words of the request make the call. *)
Lemma request_makes cl : call_fits cl = true ->
  let msg := request stack (cl_svc cl) (cl_func cl) (cl_size cl) (map wire (cl_args cl)) in
  let ws := request_words stack (cl_svc cl) (cl_func cl) (cl_size cl) (map wire (cl_args cl)) in
  makes cl ws /\ length msg = 32%nat /\ take (4 * length ws) msg = words_bytes ws.
Proof.
  intros Hc msg ws. destruct (call_fits_inv cl Hc) as (Hv & Hf & Hz & Hpos & Hfit & Hap).
  destruct (request_shape stack Hstack Hlength _ _ _ _ Hv Hf Hz Hfit) as (Hb & Hl & Ht). fold msg in Hb, Hl, Ht. destruct (shape_header _ _ _ _ Ht) as [_ Hw].
  assert (Hlw : length ws = Z.to_nat (cl_size cl)) by (unfold ws, request_words, msg_words; by rewrite length_map, length_seq).
  assert (Hwb : words_bytes ws = take (4 * length ws) msg) by (rewrite Hlw; apply msg_words_bytes; [done|lia]).
  split; [|done]. split; [|lia|].
  - unfold ws, request_words, msg_words. destruct (Z.to_nat (cl_size cl)) eqn:E; [lia|]. cbn [seq map hd]. exact Hw.
  - intros o n v Hin. rewrite Forall_forall in Hpos. pose proof (Hpos _ Hin) as Ho. cbn beta iota in Ho.
    assert (slice (4 + o) n (words_bytes ws) = slice (4 + o) n msg) as ->.
    { rewrite Hwb. unfold slice. rewrite skipn_firstn_comm, take_take. f_equal. lia. }
    assert (Hst : Z.of_nat (length (splice 0 [SC_RPC_VERSION; cl_size cl; cl_svc cl; cl_func cl] stack)) >= 4 * cl_size cl) by (rewrite length_splice; cbn [length]; lia).
    assert (slice (4 + o) n msg = le_bytes n (v mod 256 ^ Z.of_nat n)) as ->.
    { apply (args_placed (cl_args cl) _ (cl_size cl)); [exact Hst|by apply Forall_forall|done|done]. }
    apply le_val_le_bytes. apply Z.mod_pos_bound. apply Z.pow_pos_nonneg; lia.
Qed.

Lemma rpc_exchanges {A} cl (k : list Z -> A) : firmware_answers -> call_fits cl = true ->
  unanswered [header (cl_svc cl) (cl_func cl) (cl_size cl)] = false ->
  exchanges (m <- rpc poll_fuel stack base (cl_svc cl) (cl_func cl) (cl_size cl) (map wire (cl_args cl)) ;; ret (k m)) cl k.
Proof.
  intros Hfw Hc Hu w Hw. destruct (request_makes cl Hc) as (Hm & Hl & Ht). destruct (call_fits_inv cl Hc) as (Hv & Hf & Hz & _ & Hfit & _).
  pose proof (Hfw (m_scu w) (request_words stack (cl_svc cl) (cl_func cl) (cl_size cl) (map wire (cl_args cl)))) as Hr.
  unfold unanswered in Hr, Hu. rewrite request_words_first in Hr by done. rewrite first_header in Hu by done. rewrite Hu in Hr.
  destruct (serve (m_scu w) (request_words stack _ _ _ _)) as [reply s] eqn:Hs.
  destruct (rpc_exchange _ _ _ _ w reply s Hw Hv Hf Hz Hfit Hs Hr) as (w' & E & Hi & Hs').
  eexists _, _, w'. split; [exact Hm|]. split; [exact Hl|]. split; [exact Ht|]. unfold bind. rewrite E, Hs. done.
Qed.

Lemma rpc_noresp_exchanges {A} cl (k : list Z -> A) : firmware_answers -> call_fits cl = true ->
  unanswered [header (cl_svc cl) (cl_func cl) (cl_size cl)] = true ->
  exchanges (m <- rpc_noresp poll_fuel stack base (cl_svc cl) (cl_func cl) (cl_size cl) (map wire (cl_args cl)) ;; ret (k m)) cl k.
Proof.
  intros Hfw Hc Hu w Hw. destruct (request_makes cl Hc) as (Hm & Hl & Ht). destruct (call_fits_inv cl Hc) as (Hv & Hf & Hz & _ & Hfit & _).
  pose proof (Hfw (m_scu w) (request_words stack (cl_svc cl) (cl_func cl) (cl_size cl) (map wire (cl_args cl)))) as Hr.
  unfold unanswered in Hr, Hu. rewrite request_words_first in Hr by done. rewrite first_header in Hu by done. rewrite Hu in Hr.
  destruct (serve (m_scu w) (request_words stack _ _ _ _)) as [reply s] eqn:Hs. cbn [fst] in Hr. subst reply.
  destruct (rpc_noresp_exchange _ _ _ _ w s Hw Hv Hf Hz Hfit Hs) as (w' & E & Hi & Hs').
  eexists _, _, w'. split; [exact Hm|]. split; [exact Hl|]. split; [exact Ht|]. unfold bind. rewrite E, Hs. cbn [fst snd].
  unfold words_bytes. cbn [map concat]. by rewrite splice_nil_at.
Qed.

(** Parts of a message by their offset: bytes, words and signed numbers, low
    byte first; a 64-bit number has its high word first. *)
Definition b8 (o : nat) (m : list Z) : Z := nth o m 0.
Definition w16 (o : nat) (m : list Z) : Z := le_val (slice o 2 m).
Definition w32 (o : nat) (m : list Z) : Z := le_val (slice o 4 m).
Definition w64 (o : nat) (m : list Z) : Z := Z.lor (Z.shiftl (w32 o m) 32) (w32 (o + 4) m).
Definition i8 (o : nat) (m : list Z) : Z := (b8 o m + 2 ^ 7) mod 2 ^ 8 - 2 ^ 7.
Definition i16 (o : nat) (m : list Z) : Z := (w16 o m + 2 ^ 15) mod 2 ^ 16 - 2 ^ 15.
Definition truth (v : Z) : bool := negb (v =? 0).

Definition arg (o n : nat) (v : Z) : nat * nat * Z := (o, n, v).

(** The interface of the firmware: the clients, the call each stands for, and
    where the results are in the reply. *)
Inductive client : forall {A}, M (mu S) A -> scu_call -> (list Z -> A) -> Prop :=
| client_misc_set_control resource ctrl val : client (sc_misc_set_control poll_fuel stack base resource ctrl val)
    (Call 7 1 4 [arg 0 4 ctrl; arg 4 4 val; arg 8 2 resource]) (fun m => b8 3 m)
| client_misc_get_control resource ctrl : client (sc_misc_get_control poll_fuel stack base resource ctrl)
    (Call 7 2 3 [arg 0 4 ctrl; arg 4 2 resource]) (fun m => (b8 3 m, w32 4 m))
| client_misc_set_max_dma_group pt max : client (sc_misc_set_max_dma_group poll_fuel stack base pt max)
    (Call 7 4 2 [arg 0 1 pt; arg 1 1 max]) (fun m => b8 3 m)
| client_misc_set_dma_group resource group : client (sc_misc_set_dma_group poll_fuel stack base resource group)
    (Call 7 5 2 [arg 0 2 resource; arg 2 1 group]) (fun m => b8 3 m)
| client_misc_debug_out ch : client (sc_misc_debug_out poll_fuel stack base ch)
    (Call 7 10 2 [arg 0 1 ch]) (fun _ => tt)
| client_misc_waveform_capture enable : client (sc_misc_waveform_capture poll_fuel stack base enable)
    (Call 7 6 2 [arg 0 1 (Z.b2z enable)]) (fun m => b8 3 m)
| client_misc_build_info : client (sc_misc_build_info poll_fuel stack base)
    (Call 7 15 1 []) (fun m => (w32 4 m, w32 8 m))
| client_misc_api_ver : client (sc_misc_api_ver poll_fuel stack base)
    (Call 7 35 1 []) (fun m => (1, 31, w16 8 m, w16 10 m))
| client_misc_unique_id : client (sc_misc_unique_id poll_fuel stack base)
    (Call 7 19 1 []) (fun m => (w32 4 m, w32 8 m))
| client_misc_set_ari resource resource_mst ari enable : client (sc_misc_set_ari poll_fuel stack base resource resource_mst ari enable)
    (Call 7 3 3 [arg 0 2 resource; arg 2 2 resource_mst; arg 4 2 ari; arg 6 1 (Z.b2z enable)]) (fun m => b8 3 m)
| client_misc_boot_status status : client (sc_misc_boot_status poll_fuel stack base status)
    (Call 7 7 2 [arg 0 1 status]) (fun _ => tt)
| client_misc_boot_done cpu : client (sc_misc_boot_done poll_fuel stack base cpu)
    (Call 7 14 2 [arg 0 2 cpu]) (fun m => b8 3 m)
| client_misc_otp_fuse_read word : client (sc_misc_otp_fuse_read poll_fuel stack base word)
    (Call 7 11 2 [arg 0 4 word]) (fun m => (b8 3 m, w32 4 m))
| client_misc_otp_fuse_write word val : client (sc_misc_otp_fuse_write poll_fuel stack base word val)
    (Call 7 17 3 [arg 0 4 word; arg 4 4 val]) (fun m => b8 3 m)
| client_misc_set_temp resource temp celsius tenths : client (sc_misc_set_temp poll_fuel stack base resource temp celsius tenths)
    (Call 7 12 3 [arg 0 2 resource; arg 2 2 celsius; arg 4 1 temp; arg 5 1 tenths]) (fun m => b8 3 m)
| client_misc_get_temp resource temp : client (sc_misc_get_temp poll_fuel stack base resource temp)
    (Call 7 13 2 [arg 0 2 resource; arg 2 1 temp]) (fun m => (b8 3 m, i16 4 m, i8 6 m))
| client_misc_get_boot_dev : client (sc_misc_get_boot_dev poll_fuel stack base)
    (Call 7 16 1 []) (fun m => w16 4 m)
| client_misc_get_boot_type : client (sc_misc_get_boot_type poll_fuel stack base)
    (Call 7 33 1 []) (fun m => (b8 3 m, b8 4 m))
| client_misc_get_boot_container : client (sc_misc_get_boot_container poll_fuel stack base)
    (Call 7 36 1 []) (fun m => (b8 3 m, b8 4 m))
| client_misc_get_button_status : client (sc_misc_get_button_status poll_fuel stack base)
    (Call 7 18 1 []) (fun m => truth (b8 4 m))
| client_misc_rompatch_checksum : client (sc_misc_rompatch_checksum poll_fuel stack base)
    (Call 7 26 1 []) (fun m => (b8 3 m, w32 4 m))
| client_misc_board_ioctl parm1 parm2 parm3 : client (sc_misc_board_ioctl poll_fuel stack base parm1 parm2 parm3)
    (Call 7 34 4 [arg 0 4 parm1; arg 4 4 parm2; arg 8 4 parm3]) (fun m => (b8 3 m, w32 4 m, w32 8 m, w32 12 m))
| client_pad_set_mux pad mux config iso : client (sc_pad_set_mux poll_fuel stack base pad mux config iso)
    (Call 6 1 3 [arg 0 2 pad; arg 2 1 mux; arg 3 1 config; arg 4 1 iso]) (fun m => b8 3 m)
| client_pad_get_mux pad : client (sc_pad_get_mux poll_fuel stack base pad)
    (Call 6 6 2 [arg 0 2 pad]) (fun m => (b8 3 m, b8 4 m, b8 5 m, b8 6 m))
| client_pad_set_gp pad ctrl : client (sc_pad_set_gp poll_fuel stack base pad ctrl)
    (Call 6 2 3 [arg 0 4 ctrl; arg 4 2 pad]) (fun m => b8 3 m)
| client_pad_get_gp pad : client (sc_pad_get_gp poll_fuel stack base pad)
    (Call 6 7 2 [arg 0 2 pad]) (fun m => (b8 3 m, w32 4 m))
| client_pad_set_wakeup pad wakeup : client (sc_pad_set_wakeup poll_fuel stack base pad wakeup)
    (Call 6 4 2 [arg 0 2 pad; arg 2 1 wakeup]) (fun m => b8 3 m)
| client_pad_get_wakeup pad : client (sc_pad_get_wakeup poll_fuel stack base pad)
    (Call 6 9 2 [arg 0 2 pad]) (fun m => (b8 3 m, b8 4 m))
| client_pad_set_all pad mux config iso ctrl wakeup : client (sc_pad_set_all poll_fuel stack base pad mux config iso ctrl wakeup)
    (Call 6 5 4 [arg 0 4 ctrl; arg 4 2 pad; arg 6 1 mux; arg 7 1 config; arg 8 1 iso; arg 9 1 wakeup]) (fun m => b8 3 m)
| client_pad_get_all pad : client (sc_pad_get_all poll_fuel stack base pad)
    (Call 6 10 2 [arg 0 2 pad]) (fun m => (b8 3 m, w32 4 m, b8 8 m, b8 9 m, b8 10 m, b8 11 m))
| client_pad_set pad val : client (sc_pad_set poll_fuel stack base pad val)
    (Call 6 15 3 [arg 0 4 val; arg 4 2 pad]) (fun m => b8 3 m)
| client_pad_get pad : client (sc_pad_get poll_fuel stack base pad)
    (Call 6 16 2 [arg 0 2 pad]) (fun m => (b8 3 m, w32 4 m))
| client_pad_config pad val : client (sc_pad_config poll_fuel stack base pad val)
    (Call 6 17 3 [arg 0 4 val; arg 4 2 pad]) (fun m => b8 3 m)
| client_pad_set_gp_28fdsoi pad dse ps : client (sc_pad_set_gp_28fdsoi poll_fuel stack base pad dse ps)
    (Call 6 11 2 [arg 0 2 pad; arg 2 1 dse; arg 3 1 ps]) (fun m => b8 3 m)
| client_pad_get_gp_28fdsoi pad : client (sc_pad_get_gp_28fdsoi poll_fuel stack base pad)
    (Call 6 12 2 [arg 0 2 pad]) (fun m => (b8 3 m, b8 4 m, b8 5 m))
| client_pad_set_gp_28fdsoi_hsic pad dse hys pus pke pue : client (sc_pad_set_gp_28fdsoi_hsic poll_fuel stack base pad dse hys pus pke pue)
    (Call 6 3 3 [arg 0 2 pad; arg 2 1 dse; arg 3 1 pus; arg 4 1 (Z.b2z hys); arg 5 1 (Z.b2z pke); arg 6 1 (Z.b2z pue)]) (fun m => b8 3 m)
| client_pad_get_gp_28fdsoi_hsic pad : client (sc_pad_get_gp_28fdsoi_hsic poll_fuel stack base pad)
    (Call 6 8 2 [arg 0 2 pad]) (fun m => (b8 3 m, b8 4 m, b8 5 m, truth (b8 6 m), truth (b8 7 m), truth (b8 8 m)))
| client_pad_set_gp_28fdsoi_comp pad compen fastfrz rasrcp rasrcn nasrc_sel psw_ovr : client (sc_pad_set_gp_28fdsoi_comp poll_fuel stack base pad compen fastfrz rasrcp rasrcn nasrc_sel psw_ovr)
    (Call 6 13 3 [arg 0 2 pad; arg 2 1 compen; arg 3 1 rasrcp; arg 4 1 rasrcn; arg 5 1 (Z.b2z fastfrz); arg 6 1 (Z.b2z nasrc_sel); arg 7 1 (Z.b2z psw_ovr)]) (fun m => b8 3 m)
| client_pad_get_gp_28fdsoi_comp pad : client (sc_pad_get_gp_28fdsoi_comp poll_fuel stack base pad)
    (Call 6 14 2 [arg 0 2 pad]) (fun m => (b8 3 m, b8 4 m, b8 5 m, b8 6 m, b8 7 m, truth (b8 8 m), truth (b8 9 m), truth (b8 10 m), truth (b8 11 m)))
| client_pm_set_sys_power_mode mode : client (sc_pm_set_sys_power_mode poll_fuel stack base mode)
    (Call 2 19 2 [arg 0 1 mode]) (fun m => b8 3 m)
| client_pm_set_partition_power_mode pt mode : client (sc_pm_set_partition_power_mode poll_fuel stack base pt mode)
    (Call 2 1 2 [arg 0 1 pt; arg 1 1 mode]) (fun m => b8 3 m)
| client_pm_partition_power_off : client (sc_pm_partition_power_off poll_fuel stack base)
    (Call 2 30 1 []) (fun _ => tt)
| client_pm_get_sys_power_mode pt : client (sc_pm_get_sys_power_mode poll_fuel stack base pt)
    (Call 2 2 2 [arg 0 1 pt]) (fun m => (b8 3 m, b8 4 m))
| client_pm_partition_wake pt : client (sc_pm_partition_wake poll_fuel stack base pt)
    (Call 2 28 2 [arg 0 1 pt]) (fun m => b8 3 m)
| client_pm_set_resource_power_mode resource mode : client (sc_pm_set_resource_power_mode poll_fuel stack base resource mode)
    (Call 2 3 2 [arg 0 2 resource; arg 2 1 mode]) (fun m => b8 3 m)
| client_pm_set_resource_power_mode_all pt mode exclude : client (sc_pm_set_resource_power_mode_all poll_fuel stack base pt mode exclude)
    (Call 2 22 2 [arg 0 2 exclude; arg 2 1 pt; arg 3 1 mode]) (fun m => b8 3 m)
| client_pm_get_resource_power_mode resource : client (sc_pm_get_resource_power_mode poll_fuel stack base resource)
    (Call 2 4 2 [arg 0 2 resource]) (fun m => (b8 3 m, b8 4 m))
| client_pm_req_low_power_mode resource mode : client (sc_pm_req_low_power_mode poll_fuel stack base resource mode)
    (Call 2 16 2 [arg 0 2 resource; arg 2 1 mode]) (fun m => b8 3 m)
| client_pm_req_cpu_low_power_mode resource mode wake_src : client (sc_pm_req_cpu_low_power_mode poll_fuel stack base resource mode wake_src)
    (Call 2 20 2 [arg 0 2 resource; arg 2 1 mode; arg 3 1 wake_src]) (fun m => b8 3 m)
| client_pm_set_cpu_resume_addr resource address : client (sc_pm_set_cpu_resume_addr poll_fuel stack base resource address)
    (Call 2 17 4 [arg 0 4 (Z.shiftr address 32); arg 4 4 address; arg 8 2 resource]) (fun m => b8 3 m)
| client_pm_set_cpu_resume resource isPrimary address : client (sc_pm_set_cpu_resume poll_fuel stack base resource isPrimary address)
    (Call 2 21 4 [arg 0 4 (Z.shiftr address 32); arg 4 4 address; arg 8 2 resource; arg 10 1 (Z.b2z isPrimary)]) (fun m => b8 3 m)
| client_pm_req_sys_if_power_mode resource sys_if hpm lpm : client (sc_pm_req_sys_if_power_mode poll_fuel stack base resource sys_if hpm lpm)
    (Call 2 18 3 [arg 0 2 resource; arg 2 1 sys_if; arg 3 1 hpm; arg 4 1 lpm]) (fun m => b8 3 m)
| client_pm_set_clock_rate resource clk rate : client (sc_pm_set_clock_rate poll_fuel stack base resource clk rate)
    (Call 2 5 3 [arg 0 4 rate; arg 4 2 resource; arg 6 1 clk]) (fun m => (b8 3 m, w32 4 m))
| client_pm_get_clock_rate resource clk : client (sc_pm_get_clock_rate poll_fuel stack base resource clk)
    (Call 2 6 2 [arg 0 2 resource; arg 2 1 clk]) (fun m => (b8 3 m, w32 4 m))
| client_pm_clock_enable resource clk enable autog : client (sc_pm_clock_enable poll_fuel stack base resource clk enable autog)
    (Call 2 7 3 [arg 0 2 resource; arg 2 1 clk; arg 3 1 (Z.b2z enable); arg 4 1 (Z.b2z autog)]) (fun m => b8 3 m)
| client_pm_set_clock_parent resource clk parent : client (sc_pm_set_clock_parent poll_fuel stack base resource clk parent)
    (Call 2 14 2 [arg 0 2 resource; arg 2 1 clk; arg 3 1 parent]) (fun m => b8 3 m)
| client_pm_get_clock_parent resource clk : client (sc_pm_get_clock_parent poll_fuel stack base resource clk)
    (Call 2 15 2 [arg 0 2 resource; arg 2 1 clk]) (fun m => (b8 3 m, b8 4 m))
| client_pm_reset type_ : client (sc_pm_reset poll_fuel stack base type_)
    (Call 2 13 2 [arg 0 1 type_]) (fun m => b8 3 m)
| client_pm_reset_stage stage : client (sc_pm_reset_stage poll_fuel stack base stage)
    (Call 2 31 2 [arg 0 1 stage]) (fun m => b8 3 m)
| client_pm_reset_reason : client (sc_pm_reset_reason poll_fuel stack base)
    (Call 2 10 1 []) (fun m => (b8 3 m, b8 4 m))
| client_pm_get_reset_part : client (sc_pm_get_reset_part poll_fuel stack base)
    (Call 2 26 1 []) (fun m => (b8 3 m, b8 4 m))
| client_pm_boot pt resource_cpu boot_addr resource_mu resource_dev : client (sc_pm_boot poll_fuel stack base pt resource_cpu boot_addr resource_mu resource_dev)
    (Call 2 8 5 [arg 0 4 (Z.shiftr boot_addr 32); arg 4 4 boot_addr; arg 8 2 resource_cpu; arg 10 2 resource_mu; arg 12 2 resource_dev; arg 14 1 pt]) (fun m => b8 3 m)
| client_pm_set_boot_parm resource_cpu boot_addr resource_mu resource_dev : client (sc_pm_set_boot_parm poll_fuel stack base resource_cpu boot_addr resource_mu resource_dev)
    (Call 2 27 5 [arg 0 4 (Z.shiftr boot_addr 32); arg 4 4 boot_addr; arg 8 2 resource_cpu; arg 10 2 resource_mu; arg 12 2 resource_dev]) (fun m => b8 3 m)
| client_pm_reboot type_ : client (sc_pm_reboot poll_fuel stack base type_)
    (Call 2 9 2 [arg 0 1 type_]) (fun _ => tt)
| client_pm_reboot_partition pt type_ : client (sc_pm_reboot_partition poll_fuel stack base pt type_)
    (Call 2 12 2 [arg 0 1 pt; arg 1 1 type_]) (fun m => b8 3 m)
| client_pm_reboot_continue pt : client (sc_pm_reboot_continue poll_fuel stack base pt)
    (Call 2 25 2 [arg 0 1 pt]) (fun m => b8 3 m)
| client_pm_cpu_start resource enable address : client (sc_pm_cpu_start poll_fuel stack base resource enable address)
    (Call 2 11 4 [arg 0 4 (Z.shiftr address 32); arg 4 4 address; arg 8 2 resource; arg 10 1 (Z.b2z enable)]) (fun m => b8 3 m)
| client_pm_cpu_reset resource address : client (sc_pm_cpu_reset poll_fuel stack base resource address)
    (Call 2 23 4 [arg 0 4 (Z.shiftr address 32); arg 4 4 address; arg 8 2 resource]) (fun _ => tt)
| client_pm_resource_reset resource : client (sc_pm_resource_reset poll_fuel stack base resource)
    (Call 2 29 2 [arg 0 2 resource]) (fun m => b8 3 m)
| client_pm_is_partition_started pt : client (sc_pm_is_partition_started poll_fuel stack base pt)
    (Call 2 24 2 [arg 0 1 pt]) (fun m => truth (b8 3 m))
| client_rm_partition_alloc secure isolated restricted grant coherent : client (sc_rm_partition_alloc poll_fuel stack base secure isolated restricted grant coherent)
    (Call 3 1 3 [arg 0 1 (Z.b2z secure); arg 1 1 (Z.b2z isolated); arg 2 1 (Z.b2z restricted); arg 3 1 (Z.b2z grant); arg 4 1 (Z.b2z coherent)]) (fun m => (b8 3 m, b8 4 m))
| client_rm_set_confidential pt retro : client (sc_rm_set_confidential poll_fuel stack base pt retro)
    (Call 3 31 2 [arg 0 1 pt; arg 1 1 (Z.b2z retro)]) (fun m => b8 3 m)
| client_rm_partition_free pt : client (sc_rm_partition_free poll_fuel stack base pt)
    (Call 3 2 2 [arg 0 1 pt]) (fun m => b8 3 m)
| client_rm_get_did : client (sc_rm_get_did poll_fuel stack base)
    (Call 3 26 1 []) (fun m => b8 3 m)
| client_rm_partition_static pt did : client (sc_rm_partition_static poll_fuel stack base pt did)
    (Call 3 3 2 [arg 0 1 pt; arg 1 1 did]) (fun m => b8 3 m)
| client_rm_partition_lock pt : client (sc_rm_partition_lock poll_fuel stack base pt)
    (Call 3 4 2 [arg 0 1 pt]) (fun m => b8 3 m)
| client_rm_get_partition : client (sc_rm_get_partition poll_fuel stack base)
    (Call 3 5 1 []) (fun m => (b8 3 m, b8 4 m))
| client_rm_set_parent pt pt_parent : client (sc_rm_set_parent poll_fuel stack base pt pt_parent)
    (Call 3 6 2 [arg 0 1 pt; arg 1 1 pt_parent]) (fun m => b8 3 m)
| client_rm_move_all pt_src pt_dst move_rsrc move_pads : client (sc_rm_move_all poll_fuel stack base pt_src pt_dst move_rsrc move_pads)
    (Call 3 7 2 [arg 0 1 pt_src; arg 1 1 pt_dst; arg 2 1 (Z.b2z move_rsrc); arg 3 1 (Z.b2z move_pads)]) (fun m => b8 3 m)
| client_rm_assign_resource pt resource : client (sc_rm_assign_resource poll_fuel stack base pt resource)
    (Call 3 8 2 [arg 0 2 resource; arg 2 1 pt]) (fun m => b8 3 m)
| client_rm_set_resource_movable resource_fst resource_lst movable : client (sc_rm_set_resource_movable poll_fuel stack base resource_fst resource_lst movable)
    (Call 3 9 3 [arg 0 2 resource_fst; arg 2 2 resource_lst; arg 4 1 (Z.b2z movable)]) (fun m => b8 3 m)
| client_rm_set_subsys_rsrc_movable resource movable : client (sc_rm_set_subsys_rsrc_movable poll_fuel stack base resource movable)
    (Call 3 28 2 [arg 0 2 resource; arg 2 1 (Z.b2z movable)]) (fun m => b8 3 m)
| client_rm_set_master_attributes resource sa pa smmu_bypass : client (sc_rm_set_master_attributes poll_fuel stack base resource sa pa smmu_bypass)
    (Call 3 10 3 [arg 0 2 resource; arg 2 1 sa; arg 3 1 pa; arg 4 1 (Z.b2z smmu_bypass)]) (fun m => b8 3 m)
| client_rm_set_master_sid resource sid : client (sc_rm_set_master_sid poll_fuel stack base resource sid)
    (Call 3 11 2 [arg 0 2 resource; arg 2 2 sid]) (fun m => b8 3 m)
| client_rm_set_peripheral_permissions resource pt perm : client (sc_rm_set_peripheral_permissions poll_fuel stack base resource pt perm)
    (Call 3 12 2 [arg 0 2 resource; arg 2 1 pt; arg 3 1 perm]) (fun m => b8 3 m)
| client_rm_is_resource_owned resource : client (sc_rm_is_resource_owned poll_fuel stack base resource)
    (Call 3 13 2 [arg 0 2 resource]) (fun m => truth (b8 3 m))
| client_rm_get_resource_owner resource : client (sc_rm_get_resource_owner poll_fuel stack base resource)
    (Call 3 33 2 [arg 0 2 resource]) (fun m => (b8 3 m, b8 4 m))
| client_rm_is_resource_master resource : client (sc_rm_is_resource_master poll_fuel stack base resource)
    (Call 3 14 2 [arg 0 2 resource]) (fun m => truth (b8 3 m))
| client_rm_is_resource_peripheral resource : client (sc_rm_is_resource_peripheral poll_fuel stack base resource)
    (Call 3 15 2 [arg 0 2 resource]) (fun m => truth (b8 3 m))
| client_rm_get_resource_info resource : client (sc_rm_get_resource_info poll_fuel stack base resource)
    (Call 3 16 2 [arg 0 2 resource]) (fun m => (b8 3 m, w16 4 m))
| client_rm_memreg_alloc addr_start addr_end : client (sc_rm_memreg_alloc poll_fuel stack base addr_start addr_end)
    (Call 3 17 5 [arg 0 4 (Z.shiftr addr_start 32); arg 4 4 addr_start; arg 8 4 (Z.shiftr addr_end 32); arg 12 4 addr_end]) (fun m => (b8 3 m, b8 4 m))
| client_rm_memreg_split mr addr_start addr_end : client (sc_rm_memreg_split poll_fuel stack base mr addr_start addr_end)
    (Call 3 29 6 [arg 0 4 (Z.shiftr addr_start 32); arg 4 4 addr_start; arg 8 4 (Z.shiftr addr_end 32); arg 12 4 addr_end; arg 16 1 mr]) (fun m => (b8 3 m, b8 4 m))
| client_rm_memreg_frag addr_start addr_end : client (sc_rm_memreg_frag poll_fuel stack base addr_start addr_end)
    (Call 3 32 5 [arg 0 4 (Z.shiftr addr_start 32); arg 4 4 addr_start; arg 8 4 (Z.shiftr addr_end 32); arg 12 4 addr_end]) (fun m => (b8 3 m, b8 4 m))
| client_rm_memreg_free mr : client (sc_rm_memreg_free poll_fuel stack base mr)
    (Call 3 18 2 [arg 0 1 mr]) (fun m => b8 3 m)
| client_rm_find_memreg addr_start addr_end : client (sc_rm_find_memreg poll_fuel stack base addr_start addr_end)
    (Call 3 30 5 [arg 0 4 (Z.shiftr addr_start 32); arg 4 4 addr_start; arg 8 4 (Z.shiftr addr_end 32); arg 12 4 addr_end]) (fun m => (b8 3 m, b8 4 m))
| client_rm_assign_memreg pt mr : client (sc_rm_assign_memreg poll_fuel stack base pt mr)
    (Call 3 19 2 [arg 0 1 pt; arg 1 1 mr]) (fun m => b8 3 m)
| client_rm_set_memreg_permissions mr pt perm : client (sc_rm_set_memreg_permissions poll_fuel stack base mr pt perm)
    (Call 3 20 2 [arg 0 1 mr; arg 1 1 pt; arg 2 1 perm]) (fun m => b8 3 m)
| client_rm_set_memreg_iee mr det rmsg : client (sc_rm_set_memreg_iee poll_fuel stack base mr det rmsg)
    (Call 3 34 2 [arg 0 1 mr; arg 1 1 det; arg 2 1 rmsg]) (fun m => b8 3 m)
| client_rm_is_memreg_owned mr : client (sc_rm_is_memreg_owned poll_fuel stack base mr)
    (Call 3 21 2 [arg 0 1 mr]) (fun m => truth (b8 3 m))
| client_rm_get_memreg_info mr : client (sc_rm_get_memreg_info poll_fuel stack base mr)
    (Call 3 22 2 [arg 0 1 mr]) (fun m => (b8 3 m, w64 4 m, w64 12 m))
| client_rm_assign_pad pt pad : client (sc_rm_assign_pad poll_fuel stack base pt pad)
    (Call 3 23 2 [arg 0 2 pad; arg 2 1 pt]) (fun m => b8 3 m)
| client_rm_set_pad_movable pad_fst pad_lst movable : client (sc_rm_set_pad_movable poll_fuel stack base pad_fst pad_lst movable)
    (Call 3 24 3 [arg 0 2 pad_fst; arg 2 2 pad_lst; arg 4 1 (Z.b2z movable)]) (fun m => b8 3 m)
| client_rm_is_pad_owned pad : client (sc_rm_is_pad_owned poll_fuel stack base pad)
    (Call 3 25 2 [arg 0 2 pad]) (fun m => truth (b8 3 m))
| client_rm_dump : client (sc_rm_dump poll_fuel stack base)
    (Call 3 27 1 []) (fun _ => tt)
| client_seco_image_load addr_src addr_dst len fw : client (sc_seco_image_load poll_fuel stack base addr_src addr_dst len fw)
    (Call 9 1 7 [arg 0 4 (Z.shiftr addr_src 32); arg 4 4 addr_src; arg 8 4 (Z.shiftr addr_dst 32); arg 12 4 addr_dst; arg 16 4 len; arg 20 1 (Z.b2z fw)]) (fun m => b8 3 m)
| client_seco_authenticate cmd addr : client (sc_seco_authenticate poll_fuel stack base cmd addr)
    (Call 9 2 4 [arg 0 4 (Z.shiftr addr 32); arg 4 4 addr; arg 8 1 cmd]) (fun m => b8 3 m)
| client_seco_enh_authenticate cmd addr mask1 mask2 : client (sc_seco_enh_authenticate poll_fuel stack base cmd addr mask1 mask2)
    (Call 9 24 6 [arg 0 4 (Z.shiftr addr 32); arg 4 4 addr; arg 8 4 mask1; arg 12 4 mask2; arg 16 1 cmd]) (fun m => b8 3 m)
| client_seco_forward_lifecycle change : client (sc_seco_forward_lifecycle poll_fuel stack base change)
    (Call 9 3 2 [arg 0 4 change]) (fun m => b8 3 m)
| client_seco_return_lifecycle addr : client (sc_seco_return_lifecycle poll_fuel stack base addr)
    (Call 9 4 3 [arg 0 4 (Z.shiftr addr 32); arg 4 4 addr]) (fun m => b8 3 m)
| client_seco_commit info : client (sc_seco_commit poll_fuel stack base info)
    (Call 9 5 2 [arg 0 4 info]) (fun m => (b8 3 m, w32 4 m))
| client_seco_attest_mode mode : client (sc_seco_attest_mode poll_fuel stack base mode)
    (Call 9 6 2 [arg 0 4 mode]) (fun m => b8 3 m)
| client_seco_attest nonce : client (sc_seco_attest poll_fuel stack base nonce)
    (Call 9 7 3 [arg 0 4 (Z.shiftr nonce 32); arg 4 4 nonce]) (fun m => b8 3 m)
| client_seco_get_attest_pkey addr : client (sc_seco_get_attest_pkey poll_fuel stack base addr)
    (Call 9 8 3 [arg 0 4 (Z.shiftr addr 32); arg 4 4 addr]) (fun m => b8 3 m)
| client_seco_get_attest_sign addr : client (sc_seco_get_attest_sign poll_fuel stack base addr)
    (Call 9 9 3 [arg 0 4 (Z.shiftr addr 32); arg 4 4 addr]) (fun m => b8 3 m)
| client_seco_attest_verify addr : client (sc_seco_attest_verify poll_fuel stack base addr)
    (Call 9 10 3 [arg 0 4 (Z.shiftr addr 32); arg 4 4 addr]) (fun m => b8 3 m)
| client_seco_gen_key_blob id load_addr export_addr max_size : client (sc_seco_gen_key_blob poll_fuel stack base id load_addr export_addr max_size)
    (Call 9 11 7 [arg 0 4 (Z.shiftr load_addr 32); arg 4 4 load_addr; arg 8 4 (Z.shiftr export_addr 32); arg 12 4 export_addr; arg 16 4 id; arg 20 2 max_size]) (fun m => b8 3 m)
| client_seco_load_key id addr : client (sc_seco_load_key poll_fuel stack base id addr)
    (Call 9 12 4 [arg 0 4 (Z.shiftr addr 32); arg 4 4 addr; arg 8 4 id]) (fun m => b8 3 m)
| client_seco_get_mp_key dst_addr dst_size : client (sc_seco_get_mp_key poll_fuel stack base dst_addr dst_size)
    (Call 9 13 4 [arg 0 4 (Z.shiftr dst_addr 32); arg 4 4 dst_addr; arg 8 2 dst_size]) (fun m => b8 3 m)
| client_seco_update_mpmr addr size lock : client (sc_seco_update_mpmr poll_fuel stack base addr size lock)
    (Call 9 14 4 [arg 0 4 (Z.shiftr addr 32); arg 4 4 addr; arg 8 1 size; arg 9 1 lock]) (fun m => b8 3 m)
| client_seco_get_mp_sign msg_addr msg_size dst_addr dst_size : client (sc_seco_get_mp_sign poll_fuel stack base msg_addr msg_size dst_addr dst_size)
    (Call 9 15 6 [arg 0 4 (Z.shiftr msg_addr 32); arg 4 4 msg_addr; arg 8 4 (Z.shiftr dst_addr 32); arg 12 4 dst_addr; arg 16 2 msg_size; arg 18 2 dst_size]) (fun m => b8 3 m)
| client_seco_v2x_build_info : client (sc_seco_v2x_build_info poll_fuel stack base)
    (Call 9 30 1 []) (fun m => (b8 3 m, w32 4 m, w32 8 m))
| client_seco_set_mono_counter_partition_hsm she hsm : client (sc_seco_set_mono_counter_partition_hsm poll_fuel stack base she hsm)
    (Call 9 32 2 [arg 0 2 she; arg 2 2 hsm]) (fun m => (b8 3 m, w16 4 m, w16 6 m))
| client_seco_fips_info : client (sc_seco_fips_info poll_fuel stack base)
    (Call 9 34 1 []) (fun m => (b8 3 m, b8 4 m, b8 5 m))
| client_seco_set_fips_mode mode : client (sc_seco_set_fips_mode poll_fuel stack base mode)
    (Call 9 29 2 [arg 0 1 mode]) (fun m => (b8 3 m, w32 4 m))
| client_seco_fips_degrade addr : client (sc_seco_fips_degrade poll_fuel stack base addr)
    (Call 9 35 3 [arg 0 4 (Z.shiftr addr 32); arg 4 4 addr]) (fun m => (b8 3 m, w32 4 m))
| client_seco_fips_key_zero addr : client (sc_seco_fips_key_zero poll_fuel stack base addr)
    (Call 9 31 3 [arg 0 4 (Z.shiftr addr 32); arg 4 4 addr]) (fun m => b8 3 m)
| client_seco_build_info : client (sc_seco_build_info poll_fuel stack base)
    (Call 9 16 1 []) (fun m => (w32 4 m, w32 8 m))
| client_seco_chip_info : client (sc_seco_chip_info poll_fuel stack base)
    (Call 9 17 1 []) (fun m => (b8 3 m, w32 4 m, w32 8 m, w16 12 m, w16 14 m))
| client_seco_enable_debug addr : client (sc_seco_enable_debug poll_fuel stack base addr)
    (Call 9 18 3 [arg 0 4 (Z.shiftr addr 32); arg 4 4 addr]) (fun m => b8 3 m)
| client_seco_get_event idx : client (sc_seco_get_event poll_fuel stack base idx)
    (Call 9 19 2 [arg 0 1 idx]) (fun m => (b8 3 m, w32 4 m))
| client_seco_fuse_write addr : client (sc_seco_fuse_write poll_fuel stack base addr)
    (Call 9 20 3 [arg 0 4 (Z.shiftr addr 32); arg 4 4 addr]) (fun m => b8 3 m)
| client_seco_patch addr : client (sc_seco_patch poll_fuel stack base addr)
    (Call 9 21 3 [arg 0 4 (Z.shiftr addr 32); arg 4 4 addr]) (fun m => b8 3 m)
| client_seco_set_mono_counter_partition she : client (sc_seco_set_mono_counter_partition poll_fuel stack base she)
    (Call 9 28 2 [arg 0 2 she]) (fun m => (b8 3 m, w16 4 m))
| client_seco_start_rng : client (sc_seco_start_rng poll_fuel stack base)
    (Call 9 22 1 []) (fun m => (b8 3 m, w32 4 m))
| client_seco_sab_msg addr : client (sc_seco_sab_msg poll_fuel stack base addr)
    (Call 9 23 3 [arg 0 4 (Z.shiftr addr 32); arg 4 4 addr]) (fun m => b8 3 m)
| client_seco_caam_td_config resource allow lock : client (sc_seco_caam_td_config poll_fuel stack base resource allow lock)
    (Call 9 33 2 [arg 0 2 resource; arg 2 1 (Z.b2z allow); arg 3 1 (Z.b2z lock)]) (fun m => b8 3 m)
| client_seco_secvio_enable : client (sc_seco_secvio_enable poll_fuel stack base)
    (Call 9 25 1 []) (fun m => b8 3 m)
| client_seco_secvio_config id access data0 data1 data2 data3 data4 size : client (sc_seco_secvio_config poll_fuel stack base id access data0 data1 data2 data3 data4 size)
    (Call 9 26 7 [arg 0 4 data0; arg 4 4 data1; arg 8 4 data2; arg 12 4 data3; arg 16 4 data4; arg 20 1 id; arg 21 1 access; arg 22 1 size]) (fun m => (b8 3 m, w32 4 m, w32 8 m, w32 12 m, w32 16 m, w32 20 m))
| client_seco_secvio_dgo_config id access data : client (sc_seco_secvio_dgo_config poll_fuel stack base id access data)
    (Call 9 27 3 [arg 0 4 data; arg 4 1 id; arg 5 1 access]) (fun m => (b8 3 m, w32 4 m))
| client_timer_set_wdog_timeout timeout : client (sc_timer_set_wdog_timeout poll_fuel stack base timeout)
    (Call 5 1 2 [arg 0 4 timeout]) (fun m => b8 3 m)
| client_timer_set_wdog_pre_timeout pre_timeout : client (sc_timer_set_wdog_pre_timeout poll_fuel stack base pre_timeout)
    (Call 5 12 2 [arg 0 4 pre_timeout]) (fun m => b8 3 m)
| client_timer_set_wdog_window window : client (sc_timer_set_wdog_window poll_fuel stack base window)
    (Call 5 19 2 [arg 0 4 window]) (fun m => b8 3 m)
| client_timer_start_wdog lock : client (sc_timer_start_wdog poll_fuel stack base lock)
    (Call 5 2 2 [arg 0 1 (Z.b2z lock)]) (fun m => b8 3 m)
| client_timer_stop_wdog : client (sc_timer_stop_wdog poll_fuel stack base)
    (Call 5 3 1 []) (fun m => b8 3 m)
| client_timer_ping_wdog : client (sc_timer_ping_wdog poll_fuel stack base)
    (Call 5 4 1 []) (fun m => b8 3 m)
| client_timer_get_wdog_status : client (sc_timer_get_wdog_status poll_fuel stack base)
    (Call 5 5 1 []) (fun m => (b8 3 m, w32 4 m, w32 8 m, w32 12 m))
| client_timer_pt_get_wdog_status pt : client (sc_timer_pt_get_wdog_status poll_fuel stack base pt)
    (Call 5 13 2 [arg 0 1 pt]) (fun m => (b8 3 m, w32 4 m, w32 8 m, truth (b8 12 m)))
| client_timer_set_wdog_action pt action : client (sc_timer_set_wdog_action poll_fuel stack base pt action)
    (Call 5 10 2 [arg 0 1 pt; arg 1 1 action]) (fun m => b8 3 m)
| client_timer_set_rtc_time year mon day hour min sec : client (sc_timer_set_rtc_time poll_fuel stack base year mon day hour min sec)
    (Call 5 6 3 [arg 0 2 year; arg 2 1 mon; arg 3 1 day; arg 4 1 hour; arg 5 1 min; arg 6 1 sec]) (fun m => b8 3 m)
| client_timer_get_rtc_time : client (sc_timer_get_rtc_time poll_fuel stack base)
    (Call 5 7 1 []) (fun m => (b8 3 m, w16 4 m, b8 6 m, b8 7 m, b8 8 m, b8 9 m, b8 10 m))
| client_timer_get_rtc_sec1970 : client (sc_timer_get_rtc_sec1970 poll_fuel stack base)
    (Call 5 9 1 []) (fun m => (b8 3 m, w32 4 m))
| client_timer_set_rtc_alarm year mon day hour min sec : client (sc_timer_set_rtc_alarm poll_fuel stack base year mon day hour min sec)
    (Call 5 8 3 [arg 0 2 year; arg 2 1 mon; arg 3 1 day; arg 4 1 hour; arg 5 1 min; arg 6 1 sec]) (fun m => b8 3 m)
| client_timer_set_rtc_periodic_alarm sec : client (sc_timer_set_rtc_periodic_alarm poll_fuel stack base sec)
    (Call 5 14 2 [arg 0 4 sec]) (fun m => b8 3 m)
| client_timer_cancel_rtc_alarm : client (sc_timer_cancel_rtc_alarm poll_fuel stack base)
    (Call 5 15 1 []) (fun m => b8 3 m)
| client_timer_set_rtc_calb count : client (sc_timer_set_rtc_calb poll_fuel stack base count)
    (Call 5 11 2 [arg 0 1 count]) (fun m => b8 3 m)
| client_timer_set_sysctr_alarm ticks : client (sc_timer_set_sysctr_alarm poll_fuel stack base ticks)
    (Call 5 16 3 [arg 0 4 (Z.shiftr ticks 32); arg 4 4 ticks]) (fun m => b8 3 m)
| client_timer_set_sysctr_periodic_alarm ticks : client (sc_timer_set_sysctr_periodic_alarm poll_fuel stack base ticks)
    (Call 5 17 3 [arg 0 4 (Z.shiftr ticks 32); arg 4 4 ticks]) (fun m => b8 3 m)
| client_timer_cancel_sysctr_alarm : client (sc_timer_cancel_sysctr_alarm poll_fuel stack base)
    (Call 5 18 1 []) (fun m => b8 3 m)
| client_irq_enable resource group mask enable : client (sc_irq_enable poll_fuel stack base resource group mask enable)
    (Call 8 1 3 [arg 0 4 mask; arg 4 2 resource; arg 6 1 group; arg 7 1 (Z.b2z enable)]) (fun m => b8 3 m)
| client_irq_status resource group : client (sc_irq_status poll_fuel stack base resource group)
    (Call 8 2 2 [arg 0 2 resource; arg 2 1 group]) (fun m => (b8 3 m, w32 4 m)).

Ltac client_call Hfw :=
  lazymatch goal with |- exchanges ?c ?cl ?k =>
    first
      [change (exchanges (m <- rpc poll_fuel stack base (cl_svc cl) (cl_func cl) (cl_size cl) (map wire (cl_args cl)) ;; ret (k m)) cl k);
       apply (rpc_exchanges cl k Hfw); reflexivity
      |change (exchanges (m <- rpc_noresp poll_fuel stack base (cl_svc cl) (cl_func cl) (cl_size cl) (map wire (cl_args cl)) ;; ret (k m)) cl k);
       apply (rpc_noresp_exchanges cl k Hfw); reflexivity]
  end.

(** [C23] Whatever client is called, with whatever arguments, on an idle channel
    to firmware that answers every call but the four that have no answer with
    one complete message: the firmware has received exactly one message, with
    the service, function and length of this client and every argument at its
    place in it; the call returns what the table says of the reply, written
    over the request, and the channel is idle again with no word of the reply
    left for the next call. *)
Theorem client_one_exchange {A} (c : M (mu S) A) cl k : firmware_answers -> client c cl k -> exchanges c cl k.
Proof. intros Hfw []; client_call Hfw. Qed.

End exchange.

(** Firmware that acknowledges every call and does nothing. *)
Definition idle_firmware (s : unit) (ws : list Z) : list Z * unit := (if unanswered ws then [] else [header 0 0 1], s).

Lemma client_one_exchange_witness :
  exchanges idle_firmware 1 (sc_misc_otp_fuse_read (Mmio0 := mu_mmio idle_firmware 1 0x5d1b0000) 2 (zeros 32) 0x5d1b0000 730)
    (Call 7 11 2 [arg 0 4 730]) (fun m => (b8 3 m, w32 4 m)).
Proof.
  apply (client_one_exchange idle_firmware 1 2 0x5d1b0000 ltac:(lia) ltac:(discriminate) (zeros 32) ltac:(apply bytes_zeros) eq_refl).
  - intros s ws. unfold idle_firmware. case_match; cbn [fst]; [done|]. split; [cbn; lia|done].
  - apply client_misc_otp_fuse_read.
Defined.
