(* ===== verification/Imx8x.v ===== *)
(** * The i.MX8X platform

    Fuses, key revocation and life cycle of [src/plat/imx8x], by way of the
    system controller. *)

From Stdlib Require Import String.
From S2P Require Import Prelude Errors Ocotp Rot Scu ScuClients ScuFw.
Local Open Scope c_scope.

Section imx8x.
Context {HW : Type} `{!Mmio HW} (poll_fuel : nat) (stack : list Z) (ipc : Z).
Abbreviation U := (M HW).
#[local] Abbreviation sc_misc_unique_id := (sc_misc_unique_id poll_fuel stack ipc).
#[local] Abbreviation sc_misc_get_control := (sc_misc_get_control poll_fuel stack ipc).
#[local] Abbreviation sc_pm_reset := (sc_pm_reset poll_fuel stack ipc).
#[local] Abbreviation sc_pm_reset_reason := (sc_pm_reset_reason poll_fuel stack ipc).
#[local] Abbreviation sc_pm_set_resource_power_mode := (sc_pm_set_resource_power_mode poll_fuel stack ipc).
#[local] Abbreviation sc_pm_set_clock_rate := (sc_pm_set_clock_rate poll_fuel stack ipc).
#[local] Abbreviation sc_pm_clock_enable := (sc_pm_clock_enable poll_fuel stack ipc).
#[local] Abbreviation sc_rm_get_partition := (sc_rm_get_partition poll_fuel stack ipc).
#[local] Abbreviation sc_timer_set_wdog_action := (sc_timer_set_wdog_action poll_fuel stack ipc).
#[local] Abbreviation sc_timer_set_wdog_timeout := (sc_timer_set_wdog_timeout poll_fuel stack ipc).
#[local] Abbreviation sc_timer_start_wdog := (sc_timer_start_wdog poll_fuel stack ipc).
#[local] Abbreviation sc_timer_ping_wdog := (sc_timer_ping_wdog poll_fuel stack ipc).
#[local] Abbreviation sc_misc_otp_fuse_write := (sc_misc_otp_fuse_write poll_fuel stack ipc).
#[local] Abbreviation sc_misc_otp_fuse_read := (sc_misc_otp_fuse_read poll_fuel stack ipc).
#[local] Abbreviation sc_seco_commit := (sc_seco_commit poll_fuel stack ipc).
#[local] Abbreviation sc_seco_chip_info := (sc_seco_chip_info poll_fuel stack ipc).
#[local] Abbreviation sc_seco_forward_lifecycle := (sc_seco_forward_lifecycle poll_fuel stack ipc).

(** ** [src/plat/imx8x]

    Each of the three files keeps the handle in a variable of its own;
    [plat_init] sets all of them to the one channel it opened. *)

Definition IMX8X_FUSE_REVOKE : Z := 11.

(** [dry_run]: the Kconfig option [IMX8X_FUSE_DRY_RUN]. *)
Context (dry_run : bool).

(** [ipc] is unsigned, so [ipc <= 0] means that it is zero. *)
Definition imx8x_fuse_write (addr value : Z) : U Z :=
  if ipc =? 0 then ret (- PB_ERR) else
  if dry_run then ret PB_OK else
  err <- sc_misc_otp_fuse_write addr value ;;
  if err =? SC_ERR_NONE then ret PB_OK else ret (- PB_ERR_IO).

(** What was stored at [result], if anything: the word of the reply also when
    the firmware reports an error. *)
Definition imx8x_fuse_read (addr : Z) : U (Z * option Z) :=
  if ipc =? 0 then ret (- PB_ERR, None) else
  let* (err, val) := sc_misc_otp_fuse_read addr in
  if err =? SC_ERR_NONE then ret (PB_OK, Some val) else ret (- PB_ERR_IO, Some val).

Fixpoint write_srk_loop (n : Z) (srk : list Z) : U Z :=
  match srk with
  | [] => ret PB_OK
  | v :: srk => rc <- imx8x_fuse_write (730 + n) v ;; if negb (rc =? PB_OK) then ret rc else write_srk_loop (n + 1) srk
  end.
Definition imx8x_fuse_write_srk (srk : list Z) : U Z :=
  if existsb (fun v => v =? 0) srk then ret (- PB_ERR_PARAM) else write_srk_loop 0 srk.

(** [val] keeps its value when nothing is stored. *)
Fixpoint srk_fused_loop (k : nat) (n val : Z) : U bool :=
  match k with
  | O => ret false
  | S k =>
      let* (_, v) := imx8x_fuse_read (730 + n) in
      let val := default val v in
      if negb (val =? 0) then ret true else srk_fused_loop k (n + 1) val
  end.
Definition imx8x_is_srk_fused : U bool := srk_fused_loop 16 0 (RPC_U32 stack 0).

(** The key is not looked at: the header of the image says which one it is. *)
Definition imx8x_revoke_key : U Z :=
  fused <- imx8x_is_srk_fused ;;
  if negb fused then ret (- PB_ERR) else
  let* (rc, _) := imx8x_fuse_read IMX8X_FUSE_REVOKE in
  if negb (rc =? PB_OK) then ret rc else
  let* (rc, _) := sc_seco_commit 0x10 in
  if negb (rc =? SC_ERR_NONE) then ret (- PB_ERR_IO) else
  let* (rc, _) := imx8x_fuse_read IMX8X_FUSE_REVOKE in
  if negb (rc =? PB_OK) then ret rc else ret PB_OK.

Definition imx8x_read_key_status (param1 : Z) : U Z :=
  let* (rc, bits) := imx8x_fuse_read IMX8X_FUSE_REVOKE in
  if negb (rc =? PB_OK) then ret rc else
  let revoke_value := u32 (Z.shiftl 1 param1) in
  let rom_key_mask := Z.land (Z.shiftr (default 0xffffffff bits) 8) 0x0f in
  if Z.land rom_key_mask revoke_value =? revoke_value then ret (- PB_ERR_KEY_REVOKED) else ret PB_OK.

(** The result of [sc_seco_chip_info] is not looked at. *)
Definition imx8x_slc_read_status : U Z :=
  let* (_, _, _, lc, _) := sc_seco_chip_info in
  if lc =? 128 then ret SLC_CONFIGURATION_LOCKED else
  fused <- imx8x_is_srk_fused ;;
  ret (if fused then SLC_CONFIGURATION else SLC_NOT_CONFIGURED).

Definition imx8x_slc_set_configuration_locked : U Z :=
  fused <- imx8x_is_srk_fused ;;
  if negb fused then ret (- PB_ERR_STATE) else
  let* (_, _, _, lc, _) := sc_seco_chip_info in
  if lc =? 128 then ret PB_OK else
  err <- sc_seco_forward_lifecycle 16 ;;
  if negb (err =? SC_ERR_NONE) then ret (- PB_ERR_IO) else ret PB_OK.

(** *** [plat.c] *)

Definition SC_R_GPT_0 : Z := 207.
Definition SC_R_SYSTEM : Z := 355.
Definition SC_C_ID : Z := 14.
Definition SC_PM_PW_MODE_ON : Z := 3.
Definition SC_PM_RESET_TYPE_BOARD : Z := 2.
Definition SC_TIMER_WDOG_ACTION_BOARD : Z := 3.

(** The code, and with it the bytes and their number unless the buffer of
    [length] bytes is too small. *)
Definition plat_get_unique_id (length : Z) : U (Z * option (list Z)) :=
  if length <? 8 then ret (- PB_ERR_BUF_TOO_SMALL, None) else
  let* (uid_l, uid_h) := sc_misc_unique_id in
  ret (PB_OK, Some (le_bytes 4 uid_l ++ le_bytes 4 uid_h)).

(** The code, and the identity and revision of the chip. *)
Definition get_soc_rev : U (Z * option (Z * Z)) :=
  let* (err, id) := sc_misc_get_control SC_R_SYSTEM SC_C_ID in
  if negb (err =? SC_ERR_NONE) then ret (err, None) else
  ret (0, Some (Z.land id 0x1f, Z.land (Z.shiftr id 5) 0xf)).

Definition plat_reset : U Z := sc_pm_reset SC_PM_RESET_TYPE_BOARD.

(** With [CONFIG_ENABLE_WATCHDOG] and a timeout in seconds. *)
Definition imx8x_wdog_init (timeout : Z) : U Z :=
  let* (err, partition) := sc_rm_get_partition in
  if negb (err =? 0) then ret err else
  err <- sc_timer_set_wdog_action partition SC_TIMER_WDOG_ACTION_BOARD ;;
  if negb (err =? 0) then ret err else
  err <- sc_timer_set_wdog_timeout (timeout * 1000) ;;
  if negb (err =? 0) then ret err else
  err <- sc_timer_start_wdog false ;;
  if negb (err =? 0) then ret err else ret 0.

Definition plat_wdog_kick : U Z := sc_timer_ping_wdog.

(** [imx_gpt_init rate]: the driver of the timer. *)
Definition imx8x_systick_setup (imx_gpt_init : Z -> U Z) : U unit :=
  sc_pm_set_resource_power_mode SC_R_GPT_0 SC_PM_PW_MODE_ON ;;;
  let* (_, rate) := sc_pm_set_clock_rate SC_R_GPT_0 2 24000000 in
  rc <- sc_pm_clock_enable SC_R_GPT_0 2 true false ;;
  if negb (rc =? SC_ERR_NONE) then plat_reset ;;; ret tt else
  rc <- imx_gpt_init rate ;;
  if rc =? 0 then ret tt else plat_reset ;;; ret tt.

(** [boot_reason], [plat.soc_id] and [plat.soc_rev] afterwards. *)
Definition imx8x_load_boot_reason : U (Z * Z * Z) :=
  let* (rc, reason) := sc_pm_reset_reason in
  let boot_reason := if rc =? 0 then reason else - rc in
  let* (rc, soc) := get_soc_rev in
  let '(soc_id, soc_rev) := default (0, 0) soc in
  ret (boot_reason, soc_id, soc_rev).

End imx8x.

Local Open Scope string_scope.
Definition plat_boot_reason_str (boot_reason : Z) : string :=
  match boot_reason with
  | 0 => "POR" | 1 => "JTAG" | 2 => "SW" | 3 => "WDOG" | 4 => "LOCKUP" | 5 => "SNVS" | 6 => "TEMP" | 7 => "MSI"
  | 8 => "UECC" | 9 => "SCFW WDOG" | 10 => "ROM WDOG" | 11 => "SECO" | 12 => "SCFW Fault" | _ => "Unknown"
  end.
Local Close Scope string_scope.

(** ** What the firmware promises *)

Class ScfwGhost (S : Type) := { otp_word : S -> Z -> Z; lifecycle : S -> Z }.

(** [err]: the code in the reply.  Reading changes nothing and may be refused;
    a refusal may come with a word that means nothing or without one.  A refused
    step of the life cycle changes nothing; one that is accepted closes the
    device. *)
Class ScfwLaws {S : Type} (serve : S -> list Z -> list Z * S) `{ScfwGhost S} : Prop := {
  law_otp_range : forall s a, 0 <= otp_word s a < 2 ^ 32;
  law_otp_read : forall s a, 0 <= a < 1024 -> exists err ws, 0 <= err < 256 /\ (length ws <= 1)%nat /\ Forall (fun v => 0 <= v < 2 ^ 32) ws /\
    serve s [header SC_RPC_SVC_MISC 11 2; a] = (header SC_RPC_SVC_MISC err (Z.of_nat (Datatypes.S (length ws))) :: ws, s) /\
    (err = SC_ERR_NONE -> ws = [otp_word s a]);
  law_lifecycle_range : forall s, 0 <= lifecycle s < 2 ^ 16;
  law_chip_info : forall s, exists err ws, 0 <= err < 256 /\ (length ws <= 3)%nat /\
    serve s [header SC_RPC_SVC_SECO 17 1] = (header SC_RPC_SVC_SECO err (Z.of_nat (Datatypes.S (length ws))) :: ws, s) /\
    (err = SC_ERR_NONE -> exists monotonic uid_l uid_h, 0 <= monotonic < 2 ^ 16 /\ ws = [uid_l; uid_h; lifecycle s + 2 ^ 16 * monotonic]);
  law_forward : forall s, exists err s', 0 <= err < 256 /\
    serve s [header SC_RPC_SVC_SECO 3 2; 16] = ([header SC_RPC_SVC_SECO err 1], s') /\
    (err = SC_ERR_NONE -> lifecycle s' = 128 /\ forall a, otp_word s' a = otp_word s a) /\ (err <> SC_ERR_NONE -> s' = s);
  law_commit : forall s info, 0 <= info < 2 ^ 32 -> exists err info' s', 0 <= err < 256 /\
    serve s [header SC_RPC_SVC_SECO 5 2; info] = ([header SC_RPC_SVC_SECO err 2; info'], s') /\
    (err <> SC_ERR_NONE -> s' = s) /\ lifecycle s' = lifecycle s /\
    (forall a, otp_word s' a = Z.lor (otp_word s a) (otp_word s' a)) /\
    (forall a, a <> IMX8X_FUSE_REVOKE -> otp_word s' a = otp_word s a)
}.

Section device.
Context {S : Type} (serve : S -> list Z -> list Z * S) `{!ScfwGhost S} (Hlaws : ScfwLaws serve).
Context (latency poll_fuel : nat) (base : Z) (stack : list Z).
Hypothesis Hfuel : (latency < poll_fuel)%nat.
Hypothesis Hbase : base <> 0.
Hypothesis Hstack : bytes stack.
Hypothesis Hlength : length stack = 32%nat.
#[local] Instance scu_dev : Mmio (mu S) := mu_mmio serve latency base.
#[local] Abbreviation idle := (mu_idle latency).

Lemma call_ok svc func size fields w reply s' : idle w -> 0 <= svc < 256 -> 0 <= func < 256 -> 1 <= size <= 8 ->
  Forall (field_fits size) fields -> serve (m_scu w) (request_words stack svc func size fields) = (reply, s') -> reply_ok reply ->
  exists w', rpc poll_fuel stack base svc func size fields w =
      (splice 0 (words_bytes reply) (request stack svc func size fields), w') /\ idle w' /\ m_scu w' = s'.
Proof. by apply rpc_exchange. Qed.

(** The code in the reply to a request. *)
Definition fw_answer (s : S) (ws : list Z) : Z := RPC_R8 (words_bytes (serve s ws).1).

(** The firmware lets a fuse word be read, and the life cycle. *)
Definition otp_readable (s : S) (a : Z) : Prop := fw_answer s [header SC_RPC_SVC_MISC 11 2; a] = SC_ERR_NONE.
Definition chip_readable (s : S) : Prop := fw_answer s [header SC_RPC_SVC_SECO 17 1] = SC_ERR_NONE.
Definition srk_readable (s : S) : Prop := forall n, 0 <= n < 16 -> otp_readable s (730 + n).

Lemma answer_code s req svc err n ws s' : serve s req = (header svc err n :: ws, s') -> 0 <= svc < 256 -> 0 <= err < 256 -> 0 <= n < 256 -> fw_answer s req = err.
Proof.
  intros E Hv He Hn. unfold fw_answer. rewrite E. cbn [fst]. pose proof (reply_code svc err n ws [] Hv He Hn) as H. unfold splice in H.
  cbn [take drop app] in H. by rewrite drop_nil, app_nil_r in H.
Qed.

Lemma otp_read_ok a w : idle w -> 0 <= a < 1024 -> otp_readable (m_scu w) a ->
  exists w', sc_misc_otp_fuse_read poll_fuel stack base a w = ((SC_ERR_NONE, otp_word (m_scu w) a), w') /\ idle w' /\ m_scu w' = m_scu w.
Proof.
  intros Hw Ha Hr. destruct (law_otp_read (serve := serve) (m_scu w) a Ha) as (err & ws & He & Hl & _ & Hserve & Hok).
  unfold otp_readable in Hr. rewrite (answer_code _ _ _ _ _ _ _ Hserve) in Hr by (done || lia). subst err. rewrite (Hok eq_refl) in Hserve.
  unfold sc_misc_otp_fuse_read, bind.
  edestruct (call_ok SC_RPC_SVC_MISC 11 2 [f32 0 a] w) as (w' & -> & Hi & Hs); [done|done|done|lia|fields_fit| | |].
  - rewrite request_words_one by (done || lia). exact Hserve.
  - by apply (header_reply_ok SC_RPC_SVC_MISC SC_ERR_NONE [_]); try (cbn; lia).
  - exists w'. split; [|done]. unfold ret. by rewrite reply_code, reply_word by (apply law_otp_range || done).
Qed.

Lemma chip_info_ok w : idle w -> chip_readable (m_scu w) -> exists uid_l uid_h monotonic w',
  sc_seco_chip_info poll_fuel stack base w = ((SC_ERR_NONE, uid_l, uid_h, lifecycle (m_scu w), monotonic), w') /\
  idle w' /\ m_scu w' = m_scu w.
Proof.
  intros Hw Hr. destruct (law_chip_info (serve := serve) (m_scu w)) as (err & ws & He & Hl & Hserve & Hok).
  unfold chip_readable in Hr. rewrite (answer_code _ _ _ _ _ _ _ Hserve) in Hr by (done || lia). subst err.
  destruct (Hok eq_refl) as (mono & ul & uh & Hm & ->).
  unfold sc_seco_chip_info, bind.
  edestruct (call_ok SC_RPC_SVC_SECO 17 1 [] w) as (w' & -> & Hi & Hs); [done|done|done|lia|fields_fit| | |].
  - by rewrite request_words_none by done.
  - by apply (header_reply_ok SC_RPC_SVC_SECO SC_ERR_NONE [_; _; _]); try (cbn; lia).
  - eexists _, _, _, w'. split; [|done]. unfold ret. rewrite reply_code by done. do 3 f_equal.
    set (v := lifecycle (m_scu w) + 2 ^ 16 * mono) in *.
    change (v mod 256 + 256 * (v / 256 mod 256 + 256 * 0) = lifecycle (m_scu w)).
    pose proof (law_lifecycle_range (serve := serve) (m_scu w)). unfold v. Z.div_mod_to_equations. lia.
Qed.

Lemma forward_ok w : idle w -> exists err w', sc_seco_forward_lifecycle poll_fuel stack base 16 w = (err, w') /\ idle w' /\
  (err = SC_ERR_NONE -> lifecycle (m_scu w') = 128 /\ forall a, otp_word (m_scu w') a = otp_word (m_scu w) a) /\
  (err <> SC_ERR_NONE -> m_scu w' = m_scu w).
Proof.
  intros Hw. destruct (law_forward (serve := serve) (m_scu w)) as (err & s' & He & Hserve & Hok & Hbad).
  unfold sc_seco_forward_lifecycle, bind.
  edestruct (call_ok SC_RPC_SVC_SECO 3 2 [f32 0 16] w) as (w' & -> & Hi & Hs); [done|done|done|lia|fields_fit| | |].
  - by rewrite request_words_one by (done || lia).
  - by apply (header_reply_ok SC_RPC_SVC_SECO err []); try (cbn; lia).
  - exists err, w'. unfold ret. rewrite reply_code by done. by rewrite Hs.
Qed.

(** One of the sixteen words of the key hash is not zero. *)
Definition srk_fused (s : S) : bool := existsb (fun n => negb (otp_word s (730 + Z.of_nat n) =? 0)) (seq 0 16).

Lemma imx8x_srk_loop_ok k : forall n val w, idle w -> srk_readable (m_scu w) -> (n + k <= 16)%nat ->
  exists w', srk_fused_loop poll_fuel stack base k (Z.of_nat n) val w =
      (existsb (fun n => negb (otp_word (m_scu w) (730 + Z.of_nat n) =? 0)) (seq n k), w') /\ idle w' /\ m_scu w' = m_scu w.
Proof.
  induction k as [|k IH]; intros n val w Hw Hr Hn; [by exists w|]. cbn [srk_fused_loop seq existsb]. unfold imx8x_fuse_read.
  rewrite (proj2 (Z.eqb_neq _ _) Hbase). m_unfold.
  destruct (otp_read_ok (730 + Z.of_nat n) w Hw ltac:(lia) ltac:(apply Hr; lia)) as (w1 & -> & Hi & Hs). cbn [Z.eqb SC_ERR_NONE default id].
  destruct (negb _) eqn:E; [by exists w1|]. replace (Z.of_nat n + 1) with (Z.of_nat (Datatypes.S n)) by lia.
  destruct (IH (Datatypes.S n) (otp_word (m_scu w) (730 + Z.of_nat n)) w1 Hi ltac:(by rewrite Hs) ltac:(lia)) as (w2 & -> & Hi2 & Hs2).
  exists w2. by rewrite Hs2, Hs.
Qed.

Lemma is_srk_fused_ok w : idle w -> srk_readable (m_scu w) ->
  exists w', imx8x_is_srk_fused poll_fuel stack base w = (srk_fused (m_scu w), w') /\ idle w' /\ m_scu w' = m_scu w.
Proof. intros Hw Hr. by apply (imx8x_srk_loop_ok 16 0). Qed.

Lemma slc_read_locked w : idle w -> chip_readable (m_scu w) -> lifecycle (m_scu w) = 128 ->
  exists w', imx8x_slc_read_status poll_fuel stack base w = (SLC_CONFIGURATION_LOCKED, w').
Proof.
  intros Hw Hr Hl. unfold imx8x_slc_read_status. m_unfold. destruct (chip_info_ok w Hw Hr) as (? & ? & ? & w1 & -> & _). rewrite Hl. by exists w1.
Qed.

(** [C22] The life cycle of an i.MX8X is only moved on when a key hash is fused,
    provided the firmware lets the sixteen words of the hash and the life cycle
    be read: without a hash, [imx8x_slc_set_configuration_locked] is refused and
    nothing changes.  It succeeds only on a device that is then closed and, if
    the life cycle can still be read, whose status reads as locked; when the
    firmware refuses the step, the device is as it was.  When the hash cannot
    be read the code decides on a word that is not the fuse:
    [lock_when_unreadable]. *)
Theorem imx8x_lock_safe w : idle w -> srk_readable (m_scu w) -> chip_readable (m_scu w) ->
  exists rc w', imx8x_slc_set_configuration_locked poll_fuel stack base w = (rc, w') /\ idle w' /\
    (srk_fused (m_scu w) = false -> rc = - PB_ERR_STATE) /\
    (rc = PB_OK -> srk_fused (m_scu w) = true /\ lifecycle (m_scu w') = 128 /\
       (chip_readable (m_scu w') -> exists w'', imx8x_slc_read_status poll_fuel stack base w' = (SLC_CONFIGURATION_LOCKED, w''))) /\
    (rc <> PB_OK -> m_scu w' = m_scu w).
Proof.
  intros Hw Hsr Hcr. unfold imx8x_slc_set_configuration_locked. m_unfold.
  destruct (is_srk_fused_ok w Hw Hsr) as (w1 & -> & Hi1 & Hs1). destruct (srk_fused (m_scu w)) eqn:Hsrk; cbn [negb]; [|by exists (- PB_ERR_STATE), w1].
  destruct (chip_info_ok w1 Hi1 ltac:(by rewrite Hs1)) as (? & ? & ? & w2 & -> & Hi2 & Hs2). rewrite Hs1 in *.
  destruct (Z.eqb_spec (lifecycle (m_scu w)) 128) as [Hlc|Hlc].
  - exists PB_OK, w2. split_and!; try done. intros _. split_and!; [done|by rewrite Hs2|]. intros Hr. apply slc_read_locked; [done|done|by rewrite Hs2].
  - destruct (forward_ok w2 Hi2) as (err & w3 & -> & Hi3 & Hok & Hbad).
    destruct (Z.eqb_spec err SC_ERR_NONE) as [He|He]; cbn [negb].
    + destruct (Hok He) as [Hl _]. exists PB_OK, w3. split_and!; try done. intros _. split_and!; [done|done|]. intros Hr. by apply slc_read_locked.
    + exists (- PB_ERR_IO), w3. rewrite (Hbad He), Hs2. done.
Qed.

Lemma read_key_status_ok p w : idle w -> 0 <= p < 4 -> otp_readable (m_scu w) IMX8X_FUSE_REVOKE ->
  exists w', imx8x_read_key_status poll_fuel stack base p w =
    ((if Z.testbit (otp_word (m_scu w) IMX8X_FUSE_REVOKE) (8 + p) then - PB_ERR_KEY_REVOKED else PB_OK), w') /\ idle w' /\ m_scu w' = m_scu w.
Proof.
  intros Hw Hp Hrd. unfold imx8x_read_key_status, imx8x_fuse_read. rewrite (proj2 (Z.eqb_neq _ _) Hbase). m_unfold.
  destruct (otp_read_ok IMX8X_FUSE_REVOKE w Hw) as (w1 & -> & Hi & Hs); [by vm_compute|done|].
  cbn [Z.eqb SC_ERR_NONE PB_OK negb default id]. exists w1. split; [|done].
  set (x := otp_word (m_scu w) IMX8X_FUSE_REVOKE).
  assert (Z.land (Z.land (Z.shiftr x 8) 15) (u32 (Z.shiftl 1 p)) = if Z.testbit x (8 + p) then u32 (Z.shiftl 1 p) else 0) as ->.
  { assert (u32 (Z.shiftl 1 p) = 2 ^ p) as ->.
    { unfold u32. rewrite Z.shiftl_mul_pow2, Z.mul_1_l by lia. apply Z.mod_small. split; [apply Z.pow_nonneg; lia|apply Z.pow_lt_mono_r; lia]. }
    apply Z.bits_inj'. intros i Hi0. rewrite !Z.land_spec, Z.shiftr_spec, Z.pow2_bits_eqb by lia.
    destruct (Z.eqb_spec p i) as [<-|Hne]; [|rewrite andb_false_r; case_match; [by rewrite Z.pow2_bits_false by lia|by rewrite Z.bits_0]].
    rewrite andb_true_r, (Z.add_comm p 8). change 15 with (Z.ones 4). rewrite Z.ones_spec_low, andb_true_r by lia.
    destruct (Z.testbit x (8 + p)); [by rewrite Z.pow2_bits_true by lia|by rewrite Z.bits_0]. }
  assert (u32 (Z.shiftl 1 p) <> 0) as Hne by (assert (p = 0 \/ p = 1 \/ p = 2 \/ p = 3) as [->|[->|[->| ->]]] by lia; done).
  destruct (Z.testbit x (8 + p)); [by rewrite Z.eqb_refl|]. by rewrite (proj2 (Z.eqb_neq _ _)) by done.
Qed.

Lemma seco_commit_ok info w : idle w -> 0 <= info < 2 ^ 32 -> exists err out w', sc_seco_commit poll_fuel stack base info w = ((err, out), w') /\ idle w' /\
  lifecycle (m_scu w') = lifecycle (m_scu w) /\
  (forall a, otp_word (m_scu w') a = Z.lor (otp_word (m_scu w) a) (otp_word (m_scu w') a)) /\
  (forall a, a <> IMX8X_FUSE_REVOKE -> otp_word (m_scu w') a = otp_word (m_scu w) a).
Proof.
  intros Hw Hin. destruct (law_commit (serve := serve) (m_scu w) info Hin) as (err & out & s' & He & Hserve & _ & Hlc & Hor & Hsame).
  unfold sc_seco_commit, bind.
  edestruct (call_ok SC_RPC_SVC_SECO 5 2 [f32 0 info] w) as (w' & -> & Hi & Hs); [done|done|done|lia|fields_fit| | |].
  - by rewrite request_words_one by (done || lia).
  - by apply (header_reply_ok SC_RPC_SVC_SECO err [_]); try (cbn; lia).
  - unfold ret. eexists _, _, w'. by rewrite Hs.
Qed.

(** Whatever the firmware answers, reading changes nothing. *)
Lemma otp_read_any a w : idle w -> 0 <= a < 1024 ->
  exists err v w', sc_misc_otp_fuse_read poll_fuel stack base a w = ((err, v), w') /\ idle w' /\ m_scu w' = m_scu w.
Proof.
  intros Hw Ha. destruct (law_otp_read (serve := serve) (m_scu w) a Ha) as (err & ws & He & Hl & _ & Hserve & _).
  unfold sc_misc_otp_fuse_read, bind.
  edestruct (call_ok SC_RPC_SVC_MISC 11 2 [f32 0 a] w) as (w' & -> & Hi & Hs); [done|done|done|lia|fields_fit| | |].
  - rewrite request_words_one by (done || lia). exact Hserve.
  - apply header_reply_ok; [done|done|lia].
  - by eexists _, _, w'.
Qed.

Lemma srk_loop_any k : forall n val w, idle w -> (n + k <= 16)%nat ->
  exists b w', srk_fused_loop poll_fuel stack base k (Z.of_nat n) val w = (b, w') /\ idle w' /\ m_scu w' = m_scu w.
Proof.
  induction k as [|k IH]; intros n val w Hw Hn; [by exists false, w|]. cbn [srk_fused_loop]. unfold imx8x_fuse_read.
  rewrite (proj2 (Z.eqb_neq _ _) Hbase). m_unfold.
  destruct (otp_read_any (730 + Z.of_nat n) w Hw ltac:(lia)) as (err & v & w1 & -> & Hi & Hs).
  replace (Z.of_nat n + 1) with (Z.of_nat (Datatypes.S n)) by lia.
  destruct (err =? SC_ERR_NONE); cbn [default id]; (destruct (negb _); [by exists true, w1|]);
    destruct (IH (Datatypes.S n) v w1 Hi ltac:(lia)) as (b & w2 & -> & Hi2 & Hs2); exists b, w2; by rewrite Hs2.
Qed.

(** Whatever is revoked, fuses are only set, and only in the revocation word,
    also when reads fail; without a key hash that can be read nothing is asked
    of the firmware. *)
Lemma imx8x_revoke_key_ok w : idle w ->
  exists rc w', imx8x_revoke_key poll_fuel stack base w = (rc, w') /\ idle w' /\
    (srk_readable (m_scu w) -> srk_fused (m_scu w) = false -> rc = - PB_ERR /\ m_scu w' = m_scu w) /\
    lifecycle (m_scu w') = lifecycle (m_scu w) /\
    (forall a, otp_word (m_scu w') a = Z.lor (otp_word (m_scu w) a) (otp_word (m_scu w') a)) /\
    (forall a, a <> IMX8X_FUSE_REVOKE -> otp_word (m_scu w') a = otp_word (m_scu w) a).
Proof.
  intros Hw. unfold imx8x_revoke_key, imx8x_fuse_read. rewrite (proj2 (Z.eqb_neq _ _) Hbase). m_unfold.
  destruct (srk_loop_any 16 0 (RPC_U32 stack 0) w Hw ltac:(lia)) as (b & w1 & E1 & Hi1 & Hs1).
  change (imx8x_is_srk_fused poll_fuel stack base w = (b, w1)) in E1. rewrite E1.
  assert (Hb : srk_readable (m_scu w) -> b = srk_fused (m_scu w)) by (intros Hr; destruct (is_srk_fused_ok w Hw Hr) as (w' & E & _); congruence).
  assert (Hkept : forall rc w', m_scu w' = m_scu w -> idle w' -> (srk_readable (m_scu w) -> srk_fused (m_scu w) = false -> rc = - PB_ERR) ->
    exists rc0 w0, (rc, w') = (rc0, w0) /\ idle w0 /\ (srk_readable (m_scu w) -> srk_fused (m_scu w) = false -> rc0 = - PB_ERR /\ m_scu w0 = m_scu w) /\
    lifecycle (m_scu w0) = lifecycle (m_scu w) /\ (forall a, otp_word (m_scu w0) a = Z.lor (otp_word (m_scu w) a) (otp_word (m_scu w0) a)) /\
    (forall a, a <> IMX8X_FUSE_REVOKE -> otp_word (m_scu w0) a = otp_word (m_scu w) a)).
  { intros rc w' E Hi Hrc. exists rc, w'. rewrite E. split_and!; try done; [by intros; split; [apply Hrc|]|]. intros a. by rewrite Z.lor_diag. }
  destruct b; cbn [negb]; [|by apply Hkept].
  destruct (otp_read_any IMX8X_FUSE_REVOKE w1 Hi1) as (e2 & v2 & w2 & -> & Hi2 & Hs2); [by vm_compute|].
  assert (Hno : srk_readable (m_scu w) -> srk_fused (m_scu w) = false -> False) by (intros Hr; rewrite <- (Hb Hr); done).
  destruct (e2 =? SC_ERR_NONE); cbn [Z.eqb PB_OK negb]; [|apply Hkept; [congruence|done|intros Hr Hf; by destruct (Hno Hr Hf)]].
  destruct (seco_commit_ok 0x10 w2 Hi2 ltac:(lia)) as (err & out & w3 & -> & Hi3 & Hlc & Hor & Hsame). rewrite Hs2, Hs1 in Hlc, Hor, Hsame.
  destruct (negb (err =? SC_ERR_NONE)); [exists (- PB_ERR_IO), w3; split_and!; try done; intros Hr Hf; by destruct (Hno Hr Hf)|].
  destruct (otp_read_any IMX8X_FUSE_REVOKE w3 Hi3) as (e4 & v4 & w4 & -> & Hi4 & Hs4); [by vm_compute|].
  destruct (e4 =? SC_ERR_NONE); cbn [Z.eqb negb]; eexists _, w4; rewrite Hs4; (split; [done|]); split_and!; try done; intros Hr Hf; by destruct (Hno Hr Hf).
Qed.
End device.

(** ** A firmware *)

Module Fw.
(** Fuses, whether reading them is refused (with [SC_ERR_NOACCESS] and no
    word), life cycle and the revocations primed by the header of the image. *)
Record fw := { fw_otp : list (Z * Z); fw_deny : bool; fw_lc : Z; fw_revoke : Z }.

Fixpoint lookup (l : list (Z * Z)) (a : Z) : Z :=
  match l with [] => 0 | (b, v) :: l => if a =? b then u32 v else lookup l a end.

#[global] Instance fw_ghost : ScfwGhost fw := {| otp_word s a := lookup (fw_otp s) a; lifecycle s := fw_lc s mod 2 ^ 16 |}.

Definition fw_serve (s : fw) (ws : list Z) : list Z * fw :=
  let h := hd 0 ws in
  let arg := nth 1 ws 0 in
  if h =? header SC_RPC_SVC_MISC 11 2 then
    if fw_deny s then ([header SC_RPC_SVC_MISC 4 1], s) else ([header SC_RPC_SVC_MISC SC_ERR_NONE 2; otp_word s arg], s)
  else if h =? header SC_RPC_SVC_SECO 17 1 then ([header SC_RPC_SVC_SECO SC_ERR_NONE 4; 0; 0; lifecycle s], s)
  else if h =? header SC_RPC_SVC_SECO 3 2 then ([header SC_RPC_SVC_SECO SC_ERR_NONE 1], {| fw_otp := fw_otp s; fw_deny := fw_deny s; fw_lc := 128; fw_revoke := fw_revoke s |})
  else if h =? header SC_RPC_SVC_SECO 5 2 then
    ([header SC_RPC_SVC_SECO SC_ERR_NONE 2; arg],
     {| fw_otp := (IMX8X_FUSE_REVOKE, Z.lor (otp_word s IMX8X_FUSE_REVOKE) (fw_revoke s)) :: fw_otp s; fw_deny := fw_deny s; fw_lc := fw_lc s; fw_revoke := 0 |})
  else ([header 0 3 1], s).

Lemma lookup_range l a : 0 <= lookup l a < 2 ^ 32.
Proof. induction l as [|[b v] l IH]; cbn [lookup]; [lia|]. case_match; [|done]. apply Z.mod_pos_bound. lia. Qed.

Lemma lor_absorb x y : 0 <= x < 2 ^ 32 -> u32 (Z.lor x y) = Z.lor x (u32 (Z.lor x y)).
Proof.
  intros Hx. unfold u32. rewrite <- !Z.land_ones by lia. apply Z.bits_inj'. intros i Hi.
  rewrite Z.lor_spec, !Z.land_spec, Z.lor_spec, Z.testbit_ones_nonneg by lia.
  destruct (Z.ltb_spec i 32); [by destruct (Z.testbit x i), (Z.testbit y i)|].
  rewrite andb_false_r, orb_false_r. symmetry. rewrite <- (Z.mod_small x (2 ^ 32)) by done. by apply Z.mod_pow2_bits_high.
Qed.

#[global] Instance fw_laws : ScfwLaws fw_serve.
Proof.
  split.
  - intros. apply lookup_range.
  - intros s a _. change (fw_serve s [header SC_RPC_SVC_MISC 11 2; a]) with
      (if fw_deny s then ([header SC_RPC_SVC_MISC 4 1], s) else ([header SC_RPC_SVC_MISC SC_ERR_NONE 2; otp_word s a], s)).
    destruct (fw_deny s); [exists 4, []|exists 0, [otp_word s a]]; split_and!; try done; [cbn; lia|]. apply Forall_singleton, lookup_range.
  - intros. apply Z.mod_pos_bound. lia.
  - intros s. exists 0, [0; 0; lifecycle s]. split_and!; try done. intros _. exists 0, 0, 0. split; [lia|]. by rewrite Z.mul_0_r, Z.add_0_r.
  - intros s. eexists _, _. split; [|split; [reflexivity|]]; done.
  - intros s info Hi. eexists _, _, _. split; [|split; [reflexivity|]]; [done|]. cbn -[Z.lor IMX8X_FUSE_REVOKE u32 Z.eqb].
    split_and!; try done.
    + intros a. destruct (Z.eqb_spec a IMX8X_FUSE_REVOKE) as [->|]; [apply lor_absorb, lookup_range|by rewrite Z.lor_diag].
    + intros a Ha. by rewrite (proj2 (Z.eqb_neq _ _) Ha).
Qed.

Definition device (deny : bool) (otp : list (Z * Z)) : mu fw := Build_mu [] [] 0 1 0 {| fw_otp := otp; fw_deny := deny; fw_lc := 32; fw_revoke := 0x200 |}.
#[local] Instance fw_dev : Mmio (mu fw) := mu_mmio fw_serve 1 0x5d1b0000.

Example lock_without_srk :
  let '(rc, w) := imx8x_slc_set_configuration_locked 2 (zeros 32) 0x5d1b0000 (device false []) in
  (rc, m_scu w) = (- PB_ERR_STATE, m_scu (device false [])).
Proof. vm_compute. reflexivity. Qed.

(** A device without a key hash whose fuses cannot be read: what is left of the
    request in the message is taken for the hash, and the device is closed. *)
Example lock_when_unreadable :
  let '(rc, w) := imx8x_slc_set_configuration_locked 2 (zeros 32) 0x5d1b0000 (device true []) in
  rc = PB_OK /\ lifecycle (m_scu (device true [])) = 32 /\ lifecycle (m_scu w) = 128 /\ srk_fused (m_scu w) = false.
Proof. vm_compute. done. Qed.

Example revoke_then_status :
  fst ((let* _ := imx8x_revoke_key 2 (zeros 32) 0x5d1b0000 in
   a <- imx8x_read_key_status 2 (zeros 32) 0x5d1b0000 1 ;; b <- imx8x_read_key_status 2 (zeros 32) 0x5d1b0000 0 ;; ret (a, b))
    (device false [(733, 7)])) = (- PB_ERR_KEY_REVOKED, PB_OK).
Proof. vm_compute. reflexivity. Qed.
End Fw.

Lemma imx8x_lock_safe_witness :
  exists rc w', imx8x_slc_set_configuration_locked (Mmio0 := mu_mmio Fw.fw_serve 1 0x5d1b0000) 2 (zeros 32) 0x5d1b0000 (Fw.device false [(733, 7)]) = (rc, w') /\
    rc = PB_OK /\ lifecycle (m_scu w') = 128.
Proof.
  destruct (imx8x_lock_safe Fw.fw_serve Fw.fw_laws 1 2 0x5d1b0000 (zeros 32) ltac:(lia) ltac:(discriminate) ltac:(apply bytes_zeros) eq_refl
    (Fw.device false [(733, 7)])) as (rc & w' & E & _ & _ & Hok & _); [by split| | |].
  { intros n Hn. assert (Hin : In n (map Z.of_nat (seq 0 16))) by (apply in_map_iff; exists (Z.to_nat n); rewrite in_seq; lia).
    cbn [map seq] in Hin. repeat (destruct Hin as [<-|Hin]; [vm_compute; reflexivity|]). destruct Hin. }
  { vm_compute. reflexivity. }
  exists rc, w'. split; [done|]. assert (rc = PB_OK) as Hrc by (apply (f_equal fst) in E; vm_compute in E; by rewrite <- E).
  split; [done|by apply Hok].
Defined.
