(* ===== verification/Image.v ===== *)
(** * Image authentication and loading

    [src/boot/image_helpers.c]: header authentication against the root of
    trust, placement checks, loading and hashing the parts, and the payload
    comparison.  The world has the crypto front end, the root of trust, the RAM
    images are loaded to, the static [signature] buffer, and everything else
    ([i_rest]), which only the callbacks touch. *)

From S2P Require Import Prelude Errors Ram Bio Bpak Crypto Rot.
Local Open Scope c_scope.

(** The linker's bounds of the bootloader's own segments, and the memory that
    follows the header in RAM. *)
Class Layout := {
  stack_start : Z; stack_end : Z;
  data_start : Z; data_end : Z;
  bss_start : Z; bss_end : Z;
  code_start : Z; code_end : Z;
  no_init_start : Z; no_init_end : Z;
  behind_header : list Z
}.

Record img_world (HC HR X : Type) := ImgWorld {
  i_cry : crypto_state HC;
  i_rot : rot_state HR;
  i_ram : ram_t;
  i_signature : list Z;
  i_rest : X
}.
Arguments ImgWorld {HC HR X}.
Arguments i_cry {HC HR X}.
Arguments i_rot {HC HR X}.
Arguments i_ram {HC HR X}.
Arguments i_signature {HC HR X}.
Arguments i_rest {HC HR X}.

Section image.
Context {arch : Arch} {kc : Kconfig} {lay : Layout} {HC HR X : Type} {cd : CryptoDriver HC}
  (keystore_pb : list bpak_key).
Abbreviation W := (img_world HC HR X).
Abbreviation I := (M W).

Definition on_cry {A} (m : M (crypto_state HC) A) : I A :=
  fun w => let '(a, s) := m (i_cry w) in (a, ImgWorld s (i_rot w) (i_ram w) (i_signature w) (i_rest w)).
Definition on_rot {A} (m : M (rot_state HR) A) : I A :=
  fun w => let '(a, s) := m (i_rot w) in (a, ImgWorld (i_cry w) s (i_ram w) (i_signature w) (i_rest w)).
Definition set_ram (r : ram_t) : I unit :=
  modify (fun w => ImgWorld (i_cry w) (i_rot w) r (i_signature w) (i_rest w)).
Definition set_sigbuf (s : list Z) : I unit :=
  modify (fun w => ImgWorld (i_cry w) (i_rot w) (i_ram w) s (i_rest w)).

(** The [switch (hdr->hash_kind)]: the algorithm and the digest length. *)
Definition hash_of_kind (kind : Z) : option (Z * Z) :=
  if kind =? BPAK_HASH_SHA256 then Some (HASH_SHA256, 32)
  else if kind =? BPAK_HASH_SHA384 then Some (HASH_SHA384, 48)
  else if kind =? BPAK_HASH_SHA512 then Some (HASH_SHA512, 64)
  else None.

(** ** Operations *)

(** [digest0] is the initial contents of the local [header_digest]. *)
Definition boot_image_auth_header (digest0 : list Z) (hdr : bpak_header) : I (Z * bpak_header) :=
  if negb (bpak_valid_header hdr =? BPAK_OK) then ret (- PB_ERR_BAD_HEADER, hdr) else
  rc <- on_rot (rot_read_key_status (h_key_id hdr)) ;;
  if negb (rc =? PB_OK) then ret (rc, hdr) else
  let* (rc, key) := on_rot (rot_get_dsa_key keystore_pb (h_key_id hdr)) in
  if negb (rc =? PB_OK) then ret (rc, hdr) else
  let '(dsa_kind, key_der_data) := default (0, []) key in
  match hash_of_kind (h_hash_kind hdr) with
  | None => ret (- PB_ERR_UNKNOWN_HASH, hdr)
  | Some (hash_kind, _) =>
      rc <- on_cry (hash_init hash_kind) ;;
      if negb (rc =? PB_OK) then ret (rc, hdr) else
      let '(rc, sig, signature_length, hdr) := bpak_copyz_signature hdr 512 in
      if negb (rc =? BPAK_OK) then ret (- PB_ERR_BUF_TOO_SMALL, hdr) else
      w <- get ;;
      set_sigbuf (splice 0 sig (i_signature w)) ;;;
      rc <- on_cry (hash_update (cenc bpak_header_c hdr)) ;;
      if negb (rc =? PB_OK) then ret (rc, hdr) else
      let* (rc, d) := on_cry (hash_final 64) in
      if negb (rc =? PB_OK) then ret (rc, hdr) else
      w <- get ;;
      let* (rc, v) := on_cry (dsa_verify dsa_kind (take (Z.to_nat signature_length) (i_signature w))
                                key_der_data hash_kind (splice 0 d digest0)) in
      let verified := default false v in
      if (rc =? 0) && verified then ret (rc, hdr)
      else ret (- PB_ERR_AUTHENTICATION_FAILED, hdr)
  end.

Definition CHECK_OVERLAP (addr len start end_ : Z) : bool :=
  (addr <=? end_) && (start <=? usz (addr + len)).

(** The load address of a part: the pb-load-addr metadata that refers to it. *)
Definition load_addr_of (hdr : bpak_header) (p : bpak_part_header) : option Z :=
  match bpak_get_meta hdr BPAK_ID_PB_LOAD_ADDR (part_id p) with
  | (_, Some i) => Some (usz (meta_u64 behind_header hdr (default zero_meta (h_meta hdr !! i))))
  | (_, None) => None
  end.

Fixpoint verify_parts_loop (hdr : bpak_header) (l : list bpak_part_header) (rc : Z) : Z :=
  match l with
  | [] => rc
  | p :: l =>
      if part_id p =? 0 then rc else
      match load_addr_of hdr p with
      | None => - PB_ERR_BAD_META
      | Some load_addr =>
          let bytes_to_read := bpak_part_size p in
          if CHECK_OVERLAP load_addr bytes_to_read stack_start stack_end then - PB_ERR_MEM
          else if CHECK_OVERLAP load_addr bytes_to_read data_start data_end then - PB_ERR_MEM
          else if CHECK_OVERLAP load_addr bytes_to_read bss_start bss_end then - PB_ERR_MEM
          else if CHECK_OVERLAP load_addr bytes_to_read code_start code_end then - PB_ERR_MEM
          else if CHECK_OVERLAP load_addr bytes_to_read no_init_start no_init_end then - PB_ERR_MEM
          else verify_parts_loop hdr l PB_OK
      end
  end.

Definition boot_image_verify_parts (hdr : bpak_header) : Z :=
  if negb (bpak_valid_header hdr =? BPAK_OK) then - PB_ERR_BAD_HEADER
  else verify_parts_loop hdr (h_parts hdr) PB_OK.

(** [boot_read_cb_t] with the bytes it stores at the front of the buffer, and
    [boot_result_cb_t]; NULL is [None]. *)
Definition boot_read_cb_t : Type := Z -> Z -> I (Z * list Z).
Definition boot_result_cb_t : Type := Z -> I Z.

(** [(offset + bpak_part_offset(hdr, p) - sizeof(struct bpak_header)) / 512]
    as a [size_t]: [off_t] arithmetic where [size_t] is narrower. *)
Definition read_lba_of (hdr : bpak_header) (p : bpak_part_header) (offset : Z) : Z :=
  let x := offset + bpak_part_offset hdr p - sizeof bpak_header_c in
  usz (Z.quot (if ptr_bits =? 64 then u64 x else s64 x) 512).

(** The [while (bytes_to_read)] loop.  [fuel] bounds the iterations: each one
    loads a full chunk or the rest of the part (the chunk size is a positive
    build-time constant). *)
Fixpoint load_part_loop (fuel : nat) (hdr : bpak_header) (p : bpak_part_header) (load_chunk_size : Z)
    (read_f : option boot_read_cb_t) (load_addr bytes_to_read offset rc : Z) : I Z :=
  match fuel with
  | O => ret rc
  | S fuel =>
      if bytes_to_read =? 0 then ret rc else
      let chunk_size := if load_chunk_size <? bytes_to_read then load_chunk_size else bytes_to_read in
      let addr := usz (load_addr + offset) in
      rc <- match read_f with
            | None => ret rc
            | Some f =>
                let* (rc, data) := f (s32 (read_lba_of hdr p offset)) chunk_size in
                w <- get ;;
                set_ram (ram_write addr data (i_ram w)) ;;;
                ret rc
            end ;;
      if (match read_f with None => false | Some _ => negb (rc =? PB_OK) end) then ret rc else
      w <- get ;;
      rc <- on_cry (hash_update_async (ram_read (i_ram w) addr (Z.to_nat chunk_size))) ;;
      if negb (rc =? PB_OK) then ret rc else
      load_part_loop fuel hdr p load_chunk_size read_f load_addr (bytes_to_read - chunk_size)
        (usz (offset + chunk_size)) rc
  end.

Definition load_fuel (load_chunk_size bytes : Z) : nat :=
  Z.to_nat ((bytes + load_chunk_size - 1) / load_chunk_size).

(** The loop over the parts. *)
Fixpoint load_parts_loop (hdr : bpak_header) (load_chunk_size : Z) (read_f : option boot_read_cb_t)
    (result_f : option boot_result_cb_t) (l : list bpak_part_header) (rc : Z) : I Z :=
  match l with
  | [] => ret rc
  | p :: l =>
      if part_id p =? 0 then ret rc else
      match load_addr_of hdr p with
      | None => ret (- PB_ERR_BAD_META)
      | Some load_addr =>
          let bytes_to_read := bpak_part_size p in
          rc <- load_part_loop (load_fuel load_chunk_size bytes_to_read) hdr p load_chunk_size
                  read_f load_addr bytes_to_read 0 BPAK_OK ;;
          rc <- match result_f with Some f => f rc | None => ret rc end ;;
          if negb (rc =? PB_OK) then ret rc
          else load_parts_loop hdr load_chunk_size read_f result_f l rc
      end
  end.

(** The result is the return code and the bytes stored in [payload_digest]. *)
Definition boot_image_load_and_hash (hdr : bpak_header) (load_chunk_size : Z)
    (read_f : option boot_read_cb_t) (result_f : option boot_result_cb_t)
    (payload_digest_size : Z) : I (Z * list Z) :=
  if negb (bpak_valid_header hdr =? BPAK_OK) then ret (- PB_ERR_BAD_HEADER, []) else
  match hash_of_kind (h_hash_kind hdr) with
  | None => ret (- PB_ERR_UNKNOWN_HASH, [])
  | Some (hash_kind, hash_length) =>
      if payload_digest_size <? hash_length then ret (- PB_ERR_PARAM, []) else
      rc <- on_cry (hash_init hash_kind) ;;
      if negb (rc =? PB_OK) then ret (rc, []) else
      rc <- load_parts_loop hdr load_chunk_size read_f result_f (h_parts hdr) rc ;;
      if rc =? PB_OK then on_cry (hash_final payload_digest_size) else ret (rc, [])
  end.

Fixpoint copy_parts_loop (hdr : bpak_header) (source_address destination_address : Z)
    (l : list bpak_part_header) (rc : Z) : I Z :=
  match l with
  | [] => ret rc
  | p :: l =>
      if part_id p =? 0 then ret rc else
      let bytes_to_copy := bpak_part_size p in
      let poff := usz (bpak_part_offset hdr p - sizeof bpak_header_c) in
      let src_addr := usz (source_address + poff) in
      let dst_addr := usz (destination_address + poff) in
      w <- get ;;
      set_ram (ram_write dst_addr (ram_read (i_ram w) src_addr (Z.to_nat bytes_to_copy)) (i_ram w)) ;;;
      w <- get ;;
      rc <- on_cry (hash_update_async (ram_read (i_ram w) dst_addr (Z.to_nat bytes_to_copy))) ;;
      if negb (rc =? PB_OK) then ret rc
      else copy_parts_loop hdr source_address destination_address l rc
  end.

(** The sizes of the source and destination areas are not used. *)
Definition boot_image_copy_and_hash (hdr : bpak_header) (source_address source_size : Z)
    (destination_address destination_size payload_digest_size : Z) : I (Z * list Z) :=
  if negb (bpak_valid_header hdr =? BPAK_OK) then ret (- PB_ERR_BAD_HEADER, []) else
  match hash_of_kind (h_hash_kind hdr) with
  | None => ret (- PB_ERR_UNKNOWN_HASH, [])
  | Some (hash_kind, hash_length) =>
      if payload_digest_size <? hash_length then ret (- PB_ERR_PARAM, []) else
      rc <- on_cry (hash_init hash_kind) ;;
      if negb (rc =? PB_OK) then ret (rc, []) else
      rc <- copy_parts_loop hdr source_address destination_address (h_parts hdr) rc ;;
      if rc =? PB_OK then on_cry (hash_final payload_digest_size) else ret (rc, [])
  end.

Definition boot_image_verify_payload (hdr : bpak_header) (payload_digest : list Z) : Z :=
  if negb (bpak_valid_header hdr =? BPAK_OK) then - PB_ERR_BAD_HEADER else
  match hash_of_kind (h_hash_kind hdr) with
  | None => - PB_ERR_UNKNOWN_HASH
  | Some (_, digest_length) =>
      if negb (memeq (Z.to_nat digest_length) (h_payload_hash hdr) payload_digest)
      then - PB_ERR_BAD_PAYLOAD else PB_OK
  end.

(** ** Lemmas *)

(** A read callback that reads what it is asked for and leaves RAM and the
    crypto front end alone. *)
Definition reads_well (f : boot_read_cb_t) : Prop :=
  forall lba len w rc data w', f lba len w = ((rc, data), w') ->
    i_cry w' = i_cry w /\ i_ram w' = i_ram w /\ (rc = PB_OK -> length data = Z.to_nat len).

Context {cl : CryptoLaws HC}.

Lemma on_cry_inv {A} (m : M (crypto_state HC) A) w a w' :
  on_cry m w = (a, w') ->
  m (i_cry w) = (a, i_cry w') /\ i_ram w' = i_ram w /\ i_rot w' = i_rot w /\
  i_signature w' = i_signature w /\ i_rest w' = i_rest w.
Proof. unfold on_cry. destruct (m (i_cry w)). by intros [= <- <-]. Qed.

Lemma on_rot_inv {A} (m : M (rot_state HR) A) w a w' :
  on_rot m w = (a, w') ->
  m (i_rot w) = (a, i_rot w') /\ i_ram w' = i_ram w /\ i_cry w' = i_cry w /\
  i_signature w' = i_signature w /\ i_rest w' = i_rest w.
Proof. unfold on_rot. destruct (m (i_rot w)). by intros [= <- <-]. Qed.

(** One iteration of the chunk loop. *)
Definition chunk_of (load_chunk_size bytes : Z) : Z :=
  if load_chunk_size <? bytes then load_chunk_size else bytes.

Lemma chunk_of_range c r : 0 < c -> 0 < r -> 0 < chunk_of c r <= r.
Proof. unfold chunk_of. intros. destruct (Z.ltb_spec c r); lia. Qed.

Lemma load_fuel_step c r fuel :
  0 < c -> 0 < r -> (load_fuel c r <= S fuel)%nat -> (load_fuel c (r - chunk_of c r) <= fuel)%nat.
Proof.
  unfold load_fuel, chunk_of. intros Hc Hr Hf. destruct (Z.ltb_spec c r) as [Hlt|Hge].
  - replace (r + c - 1) with ((r - c + c - 1) + 1 * c) in Hf by lia. rewrite Z.div_add in Hf by lia.
    pose proof (Z.div_pos (r - c + c - 1) c). lia.
  - rewrite Z.sub_diag, Z.div_small by lia. lia.
Qed.

Lemma load_fuel_pos c r : 0 < c -> 0 < r -> (1 <= load_fuel c r)%nat.
Proof.
  intros Hc Hr. unfold load_fuel. assert (1 <= (r + c - 1) / c) by (apply Z.div_le_lower_bound; lia). lia.
Qed.

Definition fetch_chunk (hdr : bpak_header) (p : bpak_part_header) (read_f : option boot_read_cb_t)
    (addr chunk offset rc : Z) : I Z :=
  match read_f with
  | None => ret rc
  | Some f =>
      let* (rc, data) := f (s32 (read_lba_of hdr p offset)) chunk in
      w <- get ;;
      set_ram (ram_write addr data (i_ram w)) ;;;
      ret rc
  end.

Lemma fetch_chunk_ok hdr p read_f addr chunk offset w w' :
  (forall f, read_f = Some f -> reads_well f) -> 0 <= chunk ->
  fetch_chunk hdr p read_f addr chunk offset PB_OK w = (PB_OK, w') ->
  i_cry w' = i_cry w /\ (forall x, x < addr \/ addr + chunk <= x -> i_ram w' x = i_ram w x).
Proof.
  intros Hf Hc. unfold fetch_chunk. m_unfold. destruct read_f as [f|]; [|by intros [= <-]].
  destruct (f (s32 (read_lba_of hdr p offset)) chunk w) as [[rc data] w1] eqn:E.
  destruct (Hf f eq_refl _ _ _ _ _ _ E) as (H1 & H2 & H3). unfold set_ram. m_unfold.
  intros [= -> <-]. simpl. rewrite H1, H2. split; [done|]. intros x Hx. apply ram_write_out.
  rewrite H3 by done. lia.
Qed.

(** The chunk loop hashes the whole part as it ends up in memory and writes
    nowhere else. *)
Lemma load_part_loop_ok fuel hdr p c read_f A r o w w' alg m :
  0 < c -> (forall f, read_f = Some f -> reads_well f) -> 0 <= r -> 0 <= o -> 0 <= A ->
  A + o + r < 2 ^ ptr_bits -> (load_fuel c r <= fuel)%nat ->
  hashing alg (m ++ ram_read (i_ram w) A (Z.to_nat o)) (i_cry w) ->
  load_part_loop fuel hdr p c read_f A r o PB_OK w = (PB_OK, w') ->
  hashing alg (m ++ ram_read (i_ram w') A (Z.to_nat (o + r))) (i_cry w') /\
  (forall x, x < A + o \/ A + o + r <= x -> i_ram w' x = i_ram w x).
Proof.
  intros Hc Hf. revert r o w. induction fuel as [|fuel IH]; intros r o w Hr Ho HA Hlim Hfuel Hh.
  { destruct (Z.eq_dec r 0) as [->|]; [|pose proof (load_fuel_pos c r Hc); lia].
    simpl. intros [= <-]. by rewrite Z.add_0_r. }
  cbn [load_part_loop]. destruct (Z.eqb_spec r 0) as [->|Hr0].
  { intros [= <-]. by rewrite Z.add_0_r. }
  fold (chunk_of c r). destruct (chunk_of_range c r Hc) as [Hk Hkr]; [lia|]. set (k := chunk_of c r) in *.
  rewrite (usz_small (A + o)) by lia. fold (fetch_chunk hdr p read_f (A + o) k o PB_OK). m_unfold.
  destruct (fetch_chunk hdr p read_f (A + o) k o PB_OK w) as [rc w1] eqn:E1.
  assert (Hrc : (match read_f with None => false | Some _ => negb (rc =? PB_OK) end) = negb (rc =? PB_OK)).
  { destruct read_f; [done|]. unfold fetch_chunk in E1. m_unfold. by simplify_eq. }
  rewrite Hrc. rc_ok rc.
  destruct (fetch_chunk_ok _ _ _ _ _ _ _ _ Hf (Z.lt_le_incl _ _ Hk) E1) as [Hcry1 Hram1].
  destruct (on_cry (hash_update_async _) w1) as [rc w2] eqn:E2. rc_ok rc.
  apply on_cry_inv in E2 as (E2 & Hram2 & _). rewrite Hcry1 in E2.
  apply (hash_update_async_hashing alg (m ++ ram_read (i_ram w) A (Z.to_nat o))) in E2; [|done].
  rewrite (usz_small (o + k)) by lia. intros Hloop.
  apply IH in Hloop; [| lia | lia | lia | lia | apply load_fuel_step; [done|lia|done] |].
  - destruct Hloop as [Hh' Hram']. replace (o + k + (r - k)) with (o + r) in Hh' by lia.
    split; [done|]. intros x Hx. rewrite Hram', Hram2 by lia. apply Hram1. lia.
  - replace (Z.to_nat (o + k)) with (Z.to_nat o + Z.to_nat k)%nat by lia.
    rewrite ram_read_app, app_assoc, Hram2. replace (A + Z.of_nat (Z.to_nat o)) with (A + o) by lia.
    rewrite (ram_read_ext (i_ram w1) (i_ram w) A) by (intros; apply Hram1; lia). done.
Qed.

(** The parts in use and where they go. *)
Fixpoint used_parts (l : list bpak_part_header) : list bpak_part_header :=
  match l with
  | [] => []
  | p :: l => if part_id p =? 0 then [] else p :: used_parts l
  end.

Definition part_addr (hdr : bpak_header) (p : bpak_part_header) : Z := default 0 (load_addr_of hdr p).

(** An address inside the region a part is loaded to. *)
Definition in_part (hdr : bpak_header) (p : bpak_part_header) (x : Z) : Prop :=
  part_addr hdr p <= x < part_addr hdr p + bpak_part_size p.

(** No part runs past the end of the address space, and no two of them share
    an address. *)
Definition parts_fit (hdr : bpak_header) (l : list bpak_part_header) : Prop :=
  Forall (fun p => part_addr hdr p + bpak_part_size p < 2 ^ ptr_bits) (used_parts l) /\
  ForallOrdPairs (fun p q => forall x, in_part hdr p x -> ~ in_part hdr q x) (used_parts l).

(** The payload as it lies in memory. *)
Definition payload_in_ram (hdr : bpak_header) (ram : ram_t) (l : list bpak_part_header) : list Z :=
  concat (map (fun p => ram_read ram (part_addr hdr p) (Z.to_nat (bpak_part_size p))) (used_parts l)).

Lemma load_addr_range hdr p a : load_addr_of hdr p = Some a -> 0 <= a < 2 ^ ptr_bits.
Proof.
  unfold load_addr_of. destruct (bpak_get_meta _ _ _) as [rc [i|]]; [|done].
  intros [= <-]. apply usz_range.
Qed.

Lemma load_parts_loop_ok hdr c read_f l w w' alg m :
  0 < c -> (forall f, read_f = Some f -> reads_well f) -> parts_fit hdr l ->
  hashing alg m (i_cry w) ->
  load_parts_loop hdr c read_f None l PB_OK w = (PB_OK, w') ->
  hashing alg (m ++ payload_in_ram hdr (i_ram w') l) (i_cry w') /\
  (forall x, Forall (fun p => ~ in_part hdr p x) (used_parts l) -> i_ram w' x = i_ram w x).
Proof.
  intros Hc Hf. revert m w. induction l as [|p l IH]; intros m w Hfit Hh.
  { simpl. intros [= <-]. unfold payload_in_ram. simpl. by rewrite app_nil_r. }
  unfold parts_fit, payload_in_ram in *. cbn [used_parts load_parts_loop] in *.
  destruct (part_id p =? 0).
  { intros [= <-]. simpl. by rewrite app_nil_r. }
  destruct Hfit as [Hw Hd]. inversion_clear Hw as [|? ? Hp Hw']. inversion_clear Hd as [|? ? Hpd Hd'].
  destruct (load_addr_of hdr p) as [A|] eqn:EA; [|by intros [= ?]].
  destruct (load_addr_range _ _ _ EA) as [HA _].
  assert (EpA : part_addr hdr p = A) by (unfold part_addr; by rewrite EA). rewrite EpA in Hp.
  pose proof (bpak_part_size_range p) as [Hs _]. m_unfold.
  destruct (load_part_loop _ hdr p c read_f A (bpak_part_size p) 0 BPAK_OK w) as [rc w1] eqn:E1. rc_ok rc.
  apply (load_part_loop_ok _ _ _ _ _ _ _ _ _ _ alg m) in E1; try done; try lia;
    [|by rewrite app_nil_r]. rewrite Z.add_0_l, Z.add_0_r in E1. destruct E1 as [Hh1 Hr1].
  intros Hloop. apply (IH _ _ (conj Hw' Hd') Hh1) in Hloop as [Hh' Hr']. split.
  - rewrite EpA, app_assoc. erewrite (ram_read_ext (i_ram w')); [exact Hh'|].
    intros x Hx. apply Hr'. eapply Forall_impl; [exact Hpd|]. intros q Hq. apply Hq.
    unfold in_part. rewrite EpA. lia.
  - intros x Hx. inversion_clear Hx as [|? ? Hxp Hxl]. rewrite Hr' by done. apply Hr1.
    unfold in_part in Hxp. rewrite EpA in Hxp. lia.
Qed.

Lemma load_and_hash_ok hdr c read_f n d w w' :
  0 < c -> (forall f, read_f = Some f -> reads_well f) -> parts_fit hdr (h_parts hdr) ->
  boot_image_load_and_hash hdr c read_f None n w = ((PB_OK, d), w') ->
  exists alg len, hash_of_kind (h_hash_kind hdr) = Some (alg, len) /\ len <= n /\
    d = digest alg (payload_in_ram hdr (i_ram w') (h_parts hdr)) /\
    (forall x, Forall (fun p => ~ in_part hdr p x) (used_parts (h_parts hdr)) -> i_ram w' x = i_ram w x).
Proof.
  intros Hc Hf Hfit. unfold boot_image_load_and_hash. m_unfold.
  destruct (bpak_valid_header hdr =? BPAK_OK); [|done]. simpl.
  destruct (hash_of_kind (h_hash_kind hdr)) as [[alg len]|]; [|done].
  destruct (Z.ltb_spec n len); [done|].
  destruct (on_cry (hash_init alg) w) as [rc w1] eqn:E1. rc_ok rc.
  destruct (load_parts_loop hdr c read_f None (h_parts hdr) PB_OK w1) as [rc w2] eqn:E2. rc_ok rc. intros E3.
  apply on_cry_inv in E1 as (E1 & Hram1 & _). apply hash_init_hashing in E1.
  apply (load_parts_loop_ok _ _ _ _ _ _ alg []) in E2 as [Hh2 Hr2]; [|done..].
  apply on_cry_inv in E3 as (E3 & Hram3 & _).
  destruct (hash_final_digest _ _ _ _ _ _ Hh2 E3) as [-> _].
  exists alg, len. rewrite Hram3. split_and!; [done|lia|done|]. intros x Hx. by rewrite Hr2, Hram1.
Qed.

(** What the read callback leaves alone in the rest of the world, loading
    leaves alone. *)
Lemma load_part_loop_rest {T} (g : X -> T) fuel hdr p c read_f A r o rc w :
  (forall f lba len w, read_f = Some f -> g (i_rest (f lba len w).2) = g (i_rest w)) ->
  g (i_rest (load_part_loop fuel hdr p c read_f A r o rc w).2) = g (i_rest w).
Proof.
  intros Hg. revert r o rc w. induction fuel as [|fuel IH]; intros r o rc w; [done|].
  cbn [load_part_loop]. destruct (r =? 0); [done|]. fold (chunk_of c r).
  fold (fetch_chunk hdr p read_f (usz (A + o)) (chunk_of c r) o rc). m_unfold.
  assert (H1 : g (i_rest (fetch_chunk hdr p read_f (usz (A + o)) (chunk_of c r) o rc w).2) = g (i_rest w)).
  { unfold fetch_chunk. m_unfold. destruct read_f as [f|]; [|done].
    specialize (Hg f (s32 (read_lba_of hdr p o)) (chunk_of c r) w eq_refl).
    destruct (f (s32 (read_lba_of hdr p o)) (chunk_of c r) w) as [[rc1 data] w1]. by rewrite <- Hg. }
  destruct (fetch_chunk hdr p read_f (usz (A + o)) (chunk_of c r) o rc w) as [rc1 w1]. simpl in H1.
  case_if; [done|]. destruct (on_cry (hash_update_async _) w1) as [rc2 w2] eqn:E2.
  apply on_cry_inv in E2 as (_ & _ & _ & _ & X2). destruct (negb (rc2 =? PB_OK)); [by rewrite <- H1, <- X2|].
  by rewrite IH, X2.
Qed.

Lemma load_parts_loop_rest {T} (g : X -> T) hdr c read_f l rc w :
  (forall f lba len w, read_f = Some f -> g (i_rest (f lba len w).2) = g (i_rest w)) ->
  g (i_rest (load_parts_loop hdr c read_f None l rc w).2) = g (i_rest w).
Proof.
  intros Hg. revert rc w. induction l as [|p l IH]; intros rc w; simpl; [done|].
  destruct (part_id p =? 0); [done|]. destruct (load_addr_of hdr p) as [A|]; [|done]. m_unfold.
  pose proof (load_part_loop_rest g (load_fuel c (bpak_part_size p)) hdr p c read_f A (bpak_part_size p)
    0 BPAK_OK w Hg) as H1.
  destruct (load_part_loop _ hdr p c read_f A (bpak_part_size p) 0 BPAK_OK w) as [rc1 w1]. simpl in H1.
  destruct (negb (rc1 =? PB_OK)); [done|]. by rewrite IH.
Qed.

Lemma load_and_hash_rest {T} (g : X -> T) hdr c read_f n w :
  (forall f lba len w, read_f = Some f -> g (i_rest (f lba len w).2) = g (i_rest w)) ->
  g (i_rest (boot_image_load_and_hash hdr c read_f None n w).2) = g (i_rest w).
Proof.
  intros Hg. unfold boot_image_load_and_hash. m_unfold. case_if; [done|].
  destruct (hash_of_kind (h_hash_kind hdr)) as [[alg len]|]; [|done]. case_if; [done|].
  destruct (on_cry (hash_init alg) w) as [rc w1] eqn:E1. apply on_cry_inv in E1 as (_ & _ & _ & _ & X1).
  case_if; [by simpl; rewrite X1|].
  pose proof (load_parts_loop_rest g hdr c read_f (h_parts hdr) rc w1 Hg) as H2.
  destruct (load_parts_loop hdr c read_f None (h_parts hdr) rc w1) as [rc2 w2]. simpl in H2.
  case_if; [|by simpl; rewrite H2, X1].
  destruct (on_cry (hash_final n) w2) as [r w3] eqn:E3. apply on_cry_inv in E3 as (_ & _ & _ & _ & X3).
  simpl. by rewrite X3, H2, X1.
Qed.

(** *** Authentication *)

(** The header as it is signed: without its signature. *)
Definition signed_bytes (hdr : bpak_header) : list Z :=
  cenc bpak_header_c (set_signature (zeros 512) 0 hdr).

(** Some DSA provider accepted the header's signature over its digest for a
    key of the key store that has the header's key id. *)
Definition signature_accepted (hdr : bpak_header) : Prop :=
  exists alg len key f pad h,
    hash_of_kind (h_hash_kind hdr) = Some (alg, len) /\
    key ∈ keystore_pb /\ key_kid key = h_key_id hdr /\
    (cd_verify f (take (Z.to_nat (h_signature_sz hdr)) (h_signature hdr)) (key_data key) alg
       (splice 0 (digest alg (signed_bytes hdr)) pad) h).1 = (PB_OK, Some true).

Lemma dsa_verify_accepts alg sig key md_alg md s s' :
  dsa_verify alg sig key md_alg md s = ((0, Some true), s') ->
  exists f, (cd_verify f sig key md_alg md (crypto_hw s)).1 = (PB_OK, Some true).
Proof.
  unfold dsa_verify, call_crypto. m_unfold. destruct (find_dsa_ops _ alg) as [o|]; [|done].
  destruct (cd_verify (do_verify o) sig key md_alg md (crypto_hw s)) as [r h] eqn:E.
  intros [= -> <-]. exists (do_verify o). by rewrite E.
Qed.

Lemma copyz_ok hdr size sig n hdr' :
  bpak_copyz_signature hdr size = (BPAK_OK, sig, n, hdr') ->
  sig = take (Z.to_nat (h_signature_sz hdr)) (h_signature hdr) /\ n = h_signature_sz hdr /\
  hdr' = set_signature (zeros 512) 0 hdr /\ 0 <> n /\ n <= BPAK_SIGNATURE_MAX_BYTES.
Proof.
  unfold bpak_copyz_signature. destruct (Z.ltb_spec BPAK_SIGNATURE_MAX_BYTES (h_signature_sz hdr)); [done|].
  destruct (Z.eqb_spec (h_signature_sz hdr) 0); [done|]. destruct (_ <? _); [done|].
  intros [= <- <- <-]. split_and!; try done; lia.
Qed.

Lemma take_splice0 (sig buf : list Z) : take (length sig) (splice 0 sig buf) = sig.
Proof. unfold splice. simpl. apply take_app_length. Qed.

Lemma length_copied hdr :
  cwf bpak_header_c hdr -> h_signature_sz hdr <= BPAK_SIGNATURE_MAX_BYTES ->
  length (take (Z.to_nat (h_signature_sz hdr)) (h_signature hdr)) = Z.to_nat (h_signature_sz hdr).
Proof.
  intros Hw Hn. apply length_take_le. unfold BPAK_SIGNATURE_MAX_BYTES in Hn.
  destruct Hw as (_ & _ & _ & _ & _ & _ & _ & _ & _ & _ & _ & _ & [Hl _] & _). simpl in Hl. lia.
Qed.

Lemma auth_header_ok digest0 hdr hdr' w w' :
  cwf bpak_header_c hdr ->
  boot_image_auth_header digest0 hdr w = ((PB_OK, hdr'), w') ->
  hdr' = set_signature (zeros 512) 0 hdr /\ bpak_valid_header hdr = BPAK_OK /\
  key_active (i_rot w) (h_key_id hdr) /\ signature_accepted hdr /\
  i_ram w' = i_ram w /\ i_rest w' = i_rest w.
Proof.
  intros Hw. unfold boot_image_auth_header. m_unfold.
  destruct (Z.eqb_spec (bpak_valid_header hdr) BPAK_OK) as [Hv|]; [|done]. simpl.
  destruct (on_rot (rot_read_key_status _) w) as [rc w1] eqn:E1. rc_ok rc.
  destruct (on_rot (rot_get_dsa_key _ _) w1) as [[rc key] w2] eqn:E2. rc_ok rc.
  destruct (default (0, []) key) as [dk der] eqn:Ek.
  destruct (hash_of_kind (h_hash_kind hdr)) as [[alg len]|] eqn:Eh; [|done].
  destruct (on_cry (hash_init alg) w2) as [rc w3] eqn:E3. rc_ok rc.
  destruct (bpak_copyz_signature hdr 512) as [[[rc sig] n] hdr1] eqn:E4.
  destruct (Z.eqb_spec rc BPAK_OK) as [->|]; simpl; [|by intros [= ?]].
  destruct (copyz_ok _ _ _ _ _ E4) as (-> & -> & -> & Hn0 & Hn).
  destruct (on_cry (hash_update _) _) as [rc w4] eqn:E5. rc_ok rc.
  destruct (on_cry (hash_final 64) w4) as [[rc d] w5] eqn:E6. rc_ok rc.
  destruct (on_cry (dsa_verify _ _ _ _ _) w5) as [[rc v] w6] eqn:E7.
  destruct (Z.eqb_spec rc 0) as [->|]; simpl; [|by intros [= ?]].
  destruct v as [[|]|]; simpl; [|by intros [= ?]|by intros [= ?]]. intros [= <- <-].
  apply on_rot_inv in E1 as (E1 & R1 & C1 & S1 & X1).
  apply on_rot_inv in E2 as (E2 & R2 & C2 & S2 & X2).
  apply on_cry_inv in E3 as (E3 & R3 & T3 & S3 & X3).
  apply on_cry_inv in E5 as (E5 & R5 & T5 & S5 & X5).
  apply on_cry_inv in E6 as (E6 & R6 & T6 & S6 & X6).
  apply on_cry_inv in E7 as (E7 & R7 & T7 & S7 & X7). simpl in *.
  apply hash_init_hashing in E3. eapply hash_update_hashing in E5; [|exact E3]. simpl in E5.
  destruct (hash_final_digest _ _ _ _ _ _ E5 E6) as [-> _].
  rewrite S6, S5 in E7.
  rewrite <- (length_copied hdr Hw Hn) in E7 at 1. rewrite take_splice0 in E7.
  destruct (dsa_verify_accepts _ _ _ _ _ _ _ E7) as [f Hacc].
  destruct (rot_read_key_status_ok _ _ _ E1) as [Hact _].
  split_and!; [done|done|done| |congruence|congruence].
  destruct (rot_get_dsa_key_some _ _ _ _ _ E2) as [[dk' der'] ->]. injection Ek as -> ->.
  destruct (rot_get_dsa_key_ok _ _ _ _ _ _ E2) as (_ & _ & key & Hin & Hid & <- & _).
  by exists alg, len, key, f, digest0, (crypto_hw (i_cry w5)).
Qed.

(** *** Placement *)

Lemma check_overlap_ok a n s e :
  0 <= a -> 0 <= n -> a + n < 2 ^ ptr_bits -> CHECK_OVERLAP a n s e = false ->
  forall x, a <= x < a + n -> x < s \/ e < x.
Proof.
  intros Ha Hn Hw. unfold CHECK_OVERLAP. rewrite usz_small by lia.
  destruct (Z.leb_spec a e), (Z.leb_spec s (a + n)); simpl; try done; lia.
Qed.

(** An address outside of the five segments the code looks at. *)
Definition outside_bootloader (x : Z) : Prop :=
  (x < stack_start \/ stack_end < x) /\ (x < data_start \/ data_end < x) /\
  (x < bss_start \/ bss_end < x) /\ (x < code_start \/ code_end < x) /\
  (x < no_init_start \/ no_init_end < x).

Lemma verify_parts_loop_ok hdr l rc :
  verify_parts_loop hdr l rc = PB_OK ->
  Forall (fun p => part_addr hdr p + bpak_part_size p < 2 ^ ptr_bits) (used_parts l) ->
  Forall (fun p => is_Some (load_addr_of hdr p) /\ forall x, in_part hdr p x -> outside_bootloader x)
    (used_parts l).
Proof.
  revert rc. induction l as [|p l IH]; intros rc; simpl; [constructor|].
  destruct (part_id p =? 0); [constructor|]. intros Hv Hw. inversion_clear Hw as [|? ? Hp Hl].
  unfold in_part, part_addr in *. destruct (load_addr_of hdr p) as [a|] eqn:Ea; [|done]. simpl in *.
  destruct (load_addr_range _ _ _ Ea). pose proof (bpak_part_size_range p).
  repeat match type of Hv with context [CHECK_OVERLAP a ?n ?s ?e] =>
    let E := fresh "E" in destruct (CHECK_OVERLAP a n s e) eqn:E; [done|];
    pose proof (check_overlap_ok a n s e ltac:(lia) ltac:(lia) ltac:(lia) E); clear E end.
  constructor; [|by eapply IH]. rewrite Ea. split; [by eexists|]. intros x Hx. split_and!; auto.
Qed.


Lemma verify_payload_ok hdr pd :
  boot_image_verify_payload hdr pd = PB_OK ->
  exists alg len, hash_of_kind (h_hash_kind hdr) = Some (alg, len) /\
    take (Z.to_nat len) (h_payload_hash hdr) = take (Z.to_nat len) pd.
Proof.
  unfold boot_image_verify_payload. destruct (bpak_valid_header hdr =? BPAK_OK); [|done]. simpl.
  destruct (hash_of_kind (h_hash_kind hdr)) as [[alg len]|]; [|done]. unfold memeq.
  case_bool_decide; [|done]. intros _. by exists alg, len.
Qed.

(** ** Properties *)

(** [C2] Header authentication is sound: [boot_image_auth_header] reports
    success only if the header passed the format check, the board has an
    active (not revoked) slot for the header's key id, and a DSA provider
    accepted the header's signature over the digest of exactly the header with
    its signature fields zeroed, under a key of the key store with that id.
    The header is left with its signature zeroed and RAM is untouched. *)
Theorem image_auth_sound digest0 hdr hdr' w w' :
  cwf bpak_header_c hdr ->
  boot_image_auth_header digest0 hdr w = ((PB_OK, hdr'), w') ->
  hdr' = set_signature (zeros 512) 0 hdr /\ bpak_valid_header hdr = BPAK_OK /\
  key_active (i_rot w) (h_key_id hdr) /\ signature_accepted hdr /\ i_ram w' = i_ram w.
Proof.
  intros Hw E. by destruct (auth_header_ok _ _ _ _ _ Hw E) as (? & ? & ? & ? & ? & _).
Qed.

(** [C9] What was hashed is what is in memory: without a result callback, with
    a read callback (if there is one) whose successful reads fill the buffer,
    and for a header no part of which wraps around the address space or
    overlaps another one, a successful load returns the digest of the parts as
    they lie in RAM at the end, in header order, whatever the chunk size, so
    every chunk was read and hashed exactly once; RAM outside of the parts is
    unchanged. *)
Theorem image_load_hash_sound hdr c read_f n d w w' :
  0 < c -> (forall f, read_f = Some f -> reads_well f) -> parts_fit hdr (h_parts hdr) ->
  boot_image_load_and_hash hdr c read_f None n w = ((PB_OK, d), w') ->
  exists alg len, hash_of_kind (h_hash_kind hdr) = Some (alg, len) /\ len <= n /\
    d = digest alg (payload_in_ram hdr (i_ram w') (h_parts hdr)) /\
    (forall x, Forall (fun p => ~ in_part hdr p x) (used_parts (h_parts hdr)) -> i_ram w' x = i_ram w x).
Proof. apply load_and_hash_ok. Qed.

(** [C30] The placement check protects the bootloader from parts that end
    within the address space: if [boot_image_verify_parts] accepts a header and
    no part runs past the end of the address space, every part has a load
    address and no byte of it falls into the stack, data, bss, code or no-init
    segment.  (For a part that does, the sum in [CHECK_OVERLAP] wraps around and
    the check says nothing: [ToyImage.verify_parts_wraps].) *)
Theorem image_verify_parts_protects hdr :
  boot_image_verify_parts hdr = PB_OK ->
  Forall (fun p => part_addr hdr p + bpak_part_size p < 2 ^ ptr_bits) (used_parts (h_parts hdr)) ->
  Forall (fun p => is_Some (load_addr_of hdr p) /\ forall x, in_part hdr p x -> outside_bootloader x)
    (used_parts (h_parts hdr)).
Proof.
  unfold boot_image_verify_parts. destruct (bpak_valid_header hdr =? BPAK_OK); [|done].
  apply verify_parts_loop_ok.
Qed.

End image.

(** ** An example image: two parts of 512 bytes for 0x10000 and 0x20000 *)

Module ToyImage.

#[export] Existing Instances armv7a test_defconfig.

#[export] Instance layout : Layout := {|
  stack_start := 0x1000; stack_end := 0x2000; data_start := 0x2000; data_end := 0x3000;
  bss_start := 0x3000; bss_end := 0x4000; code_start := 0x4000; code_end := 0x8000;
  no_init_start := 0x8000; no_init_end := 0xa000; behind_header := [] |}.

Definition parts : list bpak_part_header :=
  PartHeader 7 500 0 0 12 0 0 :: PartHeader 8 512 0 0 0 0 0 :: replicate 30 zero_part.
Definition metas : list bpak_meta_header :=
  MetaHeader BPAK_ID_PB_LOAD_ADDR 8 0 7 (zeros 4) ::
  MetaHeader BPAK_ID_PB_LOAD_ADDR 8 8 8 (zeros 4) :: replicate 30 zero_meta.

Definition payload_a : list Z := replicate 512 3.
Definition payload_b : list Z := replicate 512 5.

Definition unsigned : bpak_header :=
  BpakHeader BPAK_HEADER_MAGIC (zeros 4) metas parts
    (le_bytes 8 0x10000 ++ le_bytes 8 0x20000 ++ zeros 1904) BPAK_HASH_SHA256 BPAK_SIGN_PRIME256v1 512
    (digest HASH_SHA256 (payload_a ++ payload_b) ++ zeros 32) 0x52c1eda0 0 (zeros 42) (zeros 512) 0.

(** The signature is the key's data followed by the start of the digest. *)
Definition header : bpak_header :=
  set_signature ([21; 22] ++ take 2 (digest HASH_SHA256 (cenc bpak_header_c unsigned)) ++ zeros 508) 4
    unsigned.

(** RAM with the two parts in place. *)
Definition ram : ram_t := ram_write 0x20000 payload_b (ram_write 0x10000 payload_a (fun _ => 0)).

Definition world {X} (x : X) : img_world ToyCrypto.ctx (list Z) X :=
  ImgWorld ToyCrypto.state ToyRot.state ram (zeros 512) x.

Lemma parts_fit_ok : parts_fit header (h_parts header).
Proof.
  assert (E1 : part_addr header (PartHeader 7 500 0 0 12 0 0) = 0x10000) by (by vm_compute).
  assert (E2 : part_addr header (PartHeader 8 512 0 0 0 0 0) = 0x20000) by (by vm_compute).
  assert (Eu : used_parts (h_parts header) =
    [PartHeader 7 500 0 0 12 0 0; PartHeader 8 512 0 0 0 0 0]) by done.
  unfold parts_fit. rewrite Eu. split.
  - rewrite !Forall_cons, E1, E2. split_and!; [by vm_compute|by vm_compute|constructor].
  - apply FOP_cons; [|apply FOP_cons; [done|apply FOP_nil]]. apply Forall_cons. split; [|done].
    intros x. unfold in_part. rewrite E1, E2. vm_compute (bpak_part_size _). lia.
Qed.

Lemma header_cwf : cwf bpak_header_c header.
Proof.
  assert (E : decode bpak_header_c (cenc bpak_header_c header) = header) by (vm_compute; reflexivity).
  rewrite <- E. apply cdec_wf.
  - apply (bool_decide_unpack _). vm_compute. exact I.
  - apply Nat.leb_le. vm_compute. reflexivity.
Qed.

(** One part of 16 KiB that begins 4 KiB below the end of the address space. *)
Definition wrapping : bpak_header :=
  BpakHeader BPAK_HEADER_MAGIC (zeros 4) metas (PartHeader 7 0x4000 0 0 0 0 0 :: replicate 31 zero_part)
    (le_bytes 8 0xfffff000 ++ zeros 1912) BPAK_HASH_SHA256 BPAK_SIGN_PRIME256v1 512 (zeros 64) 0x52c1eda0 0 (zeros 42) (zeros 512) 0.

(** The placement check accepts a part that wraps around the address space and
    comes to lie on the stack of the bootloader: the sum in [CHECK_OVERLAP]
    wraps around too. *)
Example verify_parts_wraps :
  boot_image_verify_parts wrapping = PB_OK /\
  let p := PartHeader 7 0x4000 0 0 0 0 0 in
  used_parts (h_parts wrapping) = [p] /\ usz (part_addr wrapping p + 0x2000) = stack_start /\ 0x2000 < bpak_part_size p.
Proof. vm_compute. done. Qed.

End ToyImage.

(** ** Witnesses *)

Section witnesses.
Import ToyImage.

Lemma image_load_hash_sound_witness :
  exists alg len w', hash_of_kind (h_hash_kind header) = Some (alg, len) /\ len <= 64 /\
    boot_image_load_and_hash header 200 None None 64 (world tt) =
      ((PB_OK, digest alg (payload_in_ram header (i_ram w') (h_parts header))), w').
Proof.
  destruct (boot_image_load_and_hash header 200 None None 64 (world tt)) as [[rc d] w'] eqn:E.
  assert (rc = PB_OK) as ->
    by (change rc with (((rc, d), w').1.1); rewrite <- E; vm_compute; reflexivity).
  destruct (image_load_hash_sound header 200 None 64 d (world tt) w' ltac:(lia) ltac:(done)
    parts_fit_ok E) as (alg & len & Hk & Hlen & -> & _).
  exact (ex_intro _ alg (ex_intro _ len (ex_intro _ w' (conj Hk (conj Hlen eq_refl))))).
Defined.

Lemma image_auth_sound_witness :
  exists hdr' w', boot_image_auth_header ToyRot.keys (zeros 64) header (world tt) = ((PB_OK, hdr'), w') /\
    key_active (i_rot (world tt)) (h_key_id header) /\ signature_accepted ToyRot.keys header.
Proof.
  destruct (boot_image_auth_header ToyRot.keys (zeros 64) header (world tt)) as [[rc hdr'] w'] eqn:E.
  assert (rc = PB_OK) as ->
    by (change rc with (((rc, hdr'), w').1.1); rewrite <- E; vm_compute; reflexivity).
  destruct (image_auth_sound ToyRot.keys (zeros 64) header hdr' (world tt) w' header_cwf E)
    as (_ & _ & Hk & Hs & _).
  exact (ex_intro _ hdr' (ex_intro _ w' (conj eq_refl (conj Hk Hs)))).
Defined.

Lemma image_verify_parts_protects_witness :
  Forall (fun p => is_Some (load_addr_of header p) /\ forall x, in_part header p x -> outside_bootloader x)
    (used_parts (h_parts header)).
Proof.
  refine (image_verify_parts_protects header _ (proj1 parts_fit_ok)). vm_compute. reflexivity.
Defined.
End witnesses.
