(* ===== verification/Boot.v ===== *)
(** * The boot flow

    [src/boot/boot.c]: choosing a boot source, loading, authenticating and
    verifying an image, and handing over control.  The module's static
    variables and the block layer are the [i_rest] of the image world; the
    board's callbacks are the [boot_driver]s, addressed by pointer. *)

From S2P Require Import Prelude Errors Ram Uuid Bio BlockIface Bpak Crypto Rot Image.
Local Open Scope c_scope.

(** ** Data *)

Definition BOOT_SOURCE_INVALID : Z := 0.
Definition BOOT_SOURCE_BIO : Z := 1.
Definition BOOT_SOURCE_IN_MEM : Z := 2.
Definition BOOT_SOURCE_CB : Z := 3.
Definition BOOT_SOURCE_CUSTOM : Z := 4.
Definition BOOT_SOURCE_END : Z := 5.
Definition BOOT_FLAG_CMD : Z := 1.
Definition BOOT_FLAG_VERBOSE : Z := 2.

(** [header_ptr] points to the static [header], or to a header elsewhere in
    memory that a board callback supplied. *)
Inductive header_ref := HdrStatic | HdrExternal.

(** The static variables.  [external_header] is the header at an external
    [header_ptr]; [jumps] counts the calls of the driver's [jump]. *)
Record boot_vars := BootVars {
  boot_cfg : fptr;
  header : bpak_header;
  header_ptr : header_ref;
  external_header : bpak_header;
  boot_flags : Z;
  boot_device : bio_dev_t;
  boot_source : Z;
  boot_part_uu : uuid_t;
  payload_digest : list Z;
  read_cb : fptr;
  result_cb : fptr;
  jumps : nat
}.

Record boot_rest (B Y : Type) := BootRest { r_blk : B; r_boot : boot_vars; r_other : Y }.
Arguments BootRest {B Y}.
Arguments r_blk {B Y}.
Arguments r_boot {B Y}.
Arguments r_other {B Y}.

(** [struct boot_driver]; NULL is [None].  A callback that is given
    [&header_ptr] may point it to another header. *)
Record boot_driver (W : Type) := BootDriver {
  default_boot_source : Z;
  early_boot_cb : option (M W Z);
  get_boot_bio_device : option (M W Z);
  set_boot_partition : option (uuid_t -> M W Z);
  get_boot_partition : option (M W uuid_t);
  get_in_mem_image : option (M W (Z * option bpak_header));
  authenticate_image : option (M W (Z * option bpak_header));
  prepare : option (bpak_header -> uuid_t -> M W Z);
  late_boot_cb : option (bpak_header -> uuid_t -> M W Z);
  jump : option (M W unit)
}.
Arguments BootDriver {W}.
Arguments default_boot_source {W}.
Arguments early_boot_cb {W}.
Arguments get_boot_bio_device {W}.
Arguments set_boot_partition {W}.
Arguments get_boot_partition {W}.
Arguments get_in_mem_image {W}.
Arguments authenticate_image {W}.
Arguments prepare {W}.
Arguments late_boot_cb {W}.
Arguments jump {W}.

Definition set_boot_cfg (c : fptr) (src : Z) (v : boot_vars) : boot_vars :=
  BootVars c (header v) (header_ptr v) (external_header v) 0 (-1) src (boot_part_uu v)
    (payload_digest v) (read_cb v) (result_cb v) (jumps v).
Definition set_header (h : bpak_header) (v : boot_vars) : boot_vars :=
  BootVars (boot_cfg v) h (header_ptr v) (external_header v) (boot_flags v) (boot_device v)
    (boot_source v) (boot_part_uu v) (payload_digest v) (read_cb v) (result_cb v) (jumps v).
Definition set_external (h : bpak_header) (v : boot_vars) : boot_vars :=
  BootVars (boot_cfg v) (header v) HdrExternal h (boot_flags v) (boot_device v)
    (boot_source v) (boot_part_uu v) (payload_digest v) (read_cb v) (result_cb v) (jumps v).
Definition set_flags (f : Z) (v : boot_vars) : boot_vars :=
  BootVars (boot_cfg v) (header v) (header_ptr v) (external_header v) f (boot_device v)
    (boot_source v) (boot_part_uu v) (payload_digest v) (read_cb v) (result_cb v) (jumps v).
Definition set_device (d : Z) (v : boot_vars) : boot_vars :=
  BootVars (boot_cfg v) (header v) (header_ptr v) (external_header v) (boot_flags v) d
    (boot_source v) (boot_part_uu v) (payload_digest v) (read_cb v) (result_cb v) (jumps v).
Definition set_source (s : Z) (v : boot_vars) : boot_vars :=
  BootVars (boot_cfg v) (header v) (header_ptr v) (external_header v) (boot_flags v) (boot_device v)
    s (boot_part_uu v) (payload_digest v) (read_cb v) (result_cb v) (jumps v).
Definition set_part_uu (u : uuid_t) (v : boot_vars) : boot_vars :=
  BootVars (boot_cfg v) (header v) (header_ptr v) (external_header v) (boot_flags v) (boot_device v)
    (boot_source v) u (payload_digest v) (read_cb v) (result_cb v) (jumps v).
Definition set_digest (d : list Z) (v : boot_vars) : boot_vars :=
  BootVars (boot_cfg v) (header v) (header_ptr v) (external_header v) (boot_flags v) (boot_device v)
    (boot_source v) (boot_part_uu v) d (read_cb v) (result_cb v) (jumps v).
Definition set_cbs (r f : fptr) (v : boot_vars) : boot_vars :=
  BootVars (boot_cfg v) (header v) (header_ptr v) (external_header v) (boot_flags v) (boot_device v)
    (boot_source v) (boot_part_uu v) (payload_digest v) r f (jumps v).
Definition count_jump (v : boot_vars) : boot_vars :=
  BootVars (boot_cfg v) (header v) (header_ptr v) (external_header v) (boot_flags v) (boot_device v)
    (boot_source v) (boot_part_uu v) (payload_digest v) (read_cb v) (result_cb v) (S (jumps v)).

(** [*header_ptr] *)
Definition pointed_header (v : boot_vars) : bpak_header :=
  match header_ptr v with HdrStatic => header v | HdrExternal => external_header v end.
Definition set_pointed (h : bpak_header) (v : boot_vars) : boot_vars :=
  match header_ptr v with HdrStatic => set_header h v | HdrExternal => set_external h v end.

Section boot.
Context {arch : Arch} {kc : Kconfig} {lay : Layout} {HC HR B Y : Type} {cd : CryptoDriver HC}
  `{!BlockOps B} (keystore_pb : list bpak_key) (digest0 : list Z).
Abbreviation W := (img_world HC HR (boot_rest B Y)).
Abbreviation I := (M W).

(** The code behind the pointers the module stores. *)
Context (drivers : fptr -> boot_driver W)
  (read_cbs : fptr -> Z -> Z -> I (Z * list Z)) (result_cbs : fptr -> Z -> I Z).

Definition vars (w : W) : boot_vars := r_boot (i_rest w).
Definition with_rest (x : boot_rest B Y) (w : W) : W :=
  ImgWorld (i_cry w) (i_rot w) (i_ram w) (i_signature w) x.
Definition mod_vars (f : boot_vars -> boot_vars) : I unit :=
  modify (fun w => with_rest (BootRest (r_blk (i_rest w)) (f (vars w)) (r_other (i_rest w))) w).
Definition on_blk {A} (m : M B A) : I A :=
  fun w => let '(a, b) := m (r_blk (i_rest w)) in
    (a, with_rest (BootRest b (vars w) (r_other (i_rest w))) w).

(** ** Operations *)

Definition boot_init (cfg : fptr) : I Z :=
  if cfg =? NULL then ret (- PB_ERR_PARAM) else
  match jump (drivers cfg) with
  | None => ret (- PB_ERR_PARAM)
  | Some _ => mod_vars (set_boot_cfg cfg (default_boot_source (drivers cfg))) ;;; ret PB_OK
  end.

Definition boot_set_source (source : Z) : I Z :=
  if (source <=? BOOT_SOURCE_INVALID) || (BOOT_SOURCE_END <=? source) then ret (- PB_ERR_PARAM)
  else mod_vars (set_source source) ;;; ret PB_OK.

Definition boot_configure_load_cb (read_f result_f : fptr) : I unit := mod_vars (set_cbs read_f result_f).

Definition boot_get_flags : I Z := gets (fun w => boot_flags (vars w)).

Definition boot_clear_set_flags (clear_flags set_fl : Z) : I unit :=
  mod_vars (fun v => set_flags (Z.lor (Z.land (boot_flags v) (u32 (Z.lnot clear_flags))) set_fl) v).

(** A NULL argument is [None]. *)
Definition boot_set_boot_partition (part_uu : option uuid_t) : I Z :=
  match part_uu with
  | None => ret (- PB_ERR_PARAM)
  | Some u =>
      w <- get ;;
      if boot_cfg (vars w) =? NULL then ret (- PB_ERR_NOT_SUPPORTED) else
      match set_boot_partition (drivers (boot_cfg (vars w))) with
      | None => ret (- PB_ERR_NOT_SUPPORTED)
      | Some f => f u
      end
  end.

(** The UUID stored in the caller's buffer. *)
Definition boot_get_boot_partition : I uuid_t :=
  w <- get ;;
  if boot_cfg (vars w) =? NULL then ret uuid_clear else
  match get_boot_partition (drivers (boot_cfg (vars w))) with
  | None => ret uuid_clear
  | Some f => f
  end.

(** [block_offset] is converted to [lba_t]. *)
Definition boot_bio_read (block_offset len : Z) : I (Z * list Z) :=
  w <- get ;;
  on_blk (blk_read (boot_device (vars w)) (u32 block_offset) len).

(** [boot_image_auth_header(&header)] and the like on the static header or on
    [header_ptr]. *)
Definition auth_header_at (get_hdr : boot_vars -> bpak_header)
    (put_hdr : bpak_header -> boot_vars -> boot_vars) : I Z :=
  w <- get ;;
  let* (rc, h) := boot_image_auth_header keystore_pb digest0 (get_hdr (vars w)) in
  mod_vars (put_hdr h) ;;;
  ret rc.

Definition verify_parts_at (get_hdr : boot_vars -> bpak_header) : I Z :=
  gets (fun w => boot_image_verify_parts (get_hdr (vars w))).

Definition load_and_hash_at (get_hdr : boot_vars -> bpak_header)
    (read_f : option (boot_read_cb_t (HC := HC))) (result_f : option (boot_result_cb_t (HC := HC))) : I Z :=
  w <- get ;;
  let* (rc, d) := boot_image_load_and_hash (get_hdr (vars w)) (CONFIG_BOOT_LOAD_CHUNK_kB * 1024)
                    read_f result_f 64 in
  mod_vars (fun v => set_digest (splice 0 d (payload_digest v)) v) ;;;
  ret rc.

Definition verify_payload_at (get_hdr : boot_vars -> bpak_header) : I Z :=
  gets (fun w => boot_image_verify_payload (get_hdr (vars w)) (payload_digest (vars w))).

(** The device and UUID the block source boots from; a negative device is an
    error. *)
Definition select_boot_device (get_dev : I Z) : I Z :=
  w <- get ;;
  if uuid_is_null (boot_part_uu (vars w)) then
    dev <- get_dev ;;
    mod_vars (set_device dev) ;;;
    if dev <? 0 then ret dev else
    u <- on_blk (blk_get_uu dev) ;;
    mod_vars (set_part_uu (uuid_copy (default uuid_clear u))) ;;;
    ret PB_OK
  else
    dev <- on_blk (blk_find (Some (boot_part_uu (vars w)))) ;;
    mod_vars (set_device dev) ;;;
    if dev <? 0 then ret dev else ret PB_OK.

(** The header is read into [header] from the end of the partition. *)
Definition read_header_from_bio : I Z :=
  w <- get ;;
  let dev := boot_device (vars w) in
  nb <- on_blk (blk_no_of_blocks dev) ;;
  bs <- on_blk (blk_block_size dev) ;;
  let header_lba := u32 (nb - sizeof bpak_header_c / usz bs) in
  let* (rc, data) := on_blk (blk_read dev header_lba (sizeof bpak_header_c)) in
  mod_vars (fun v => set_header (decode bpak_header_c (splice 0 data (cenc bpak_header_c (header v)))) v) ;;;
  ret rc.

Definition load_auth_verify_from_bio : I Z :=
  w <- get ;;
  match get_boot_bio_device (drivers (boot_cfg (vars w))) with
  | None => ret (- PB_ERR_NOT_SUPPORTED)
  | Some get_dev =>
      select_boot_device get_dev ;;?
      w <- get ;;
      fl <- on_blk (blk_get_flags (boot_device (vars w))) ;;
      if Z.land fl BIO_FLAG_BOOTABLE =? 0 then ret (- PB_ERR_PART_NOT_BOOTABLE) else
      read_header_from_bio ;;?
      auth_header_at header set_header ;;?
      verify_parts_at header ;;?
      load_and_hash_at header (Some boot_bio_read) None ;;?
      verify_payload_at header
  end.

Definition auth_verify_in_mem : I Z :=
  w <- get ;;
  match get_in_mem_image (drivers (boot_cfg (vars w))) with
  | None => ret (- PB_ERR_NOT_SUPPORTED)
  | Some f =>
      let* (rc, h) := f in
      (match h with Some h => mod_vars (set_external h) | None => ret tt end) ;;;
      if negb (rc =? PB_OK) then ret rc else
      auth_header_at pointed_header set_pointed ;;?
      verify_parts_at pointed_header ;;?
      load_and_hash_at pointed_header None None ;;?
      verify_payload_at pointed_header
  end.

(** [if (result_cb) result_cb(rc);] *)
Definition report (rc : Z) : I unit :=
  w <- get ;;
  if result_cb (vars w) =? NULL then ret tt else (result_cbs (result_cb (vars w)) rc ;;; ret tt).

Definition load_auth_verify_from_cb : I Z :=
  w <- get ;;
  if read_cb (vars w) =? NULL then ret (- PB_ERR_NOT_SUPPORTED) else
  let* (rc, data) := read_cbs (read_cb (vars w)) (-8) (sizeof bpak_header_c) in
  mod_vars (fun v => set_header (decode bpak_header_c (splice 0 data (cenc bpak_header_c (header v)))) v) ;;;
  if negb (rc =? PB_OK) then ret rc else
  rc <- auth_header_at header set_header ;;
  if negb (rc =? PB_OK) then (report rc ;;; ret rc) else
  rc <- verify_parts_at header ;;
  report rc ;;;
  if negb (rc =? PB_OK) then ret rc else
  w <- get ;;
  load_and_hash_at header (Some (read_cbs (read_cb (vars w))))
    (if result_cb (vars w) =? NULL then None else Some (result_cbs (result_cb (vars w)))) ;;?
  rc <- verify_payload_at header ;;
  report rc ;;;
  ret rc.

Definition authenticate_custom : I Z :=
  w <- get ;;
  match authenticate_image (drivers (boot_cfg (vars w))) with
  | None => ret (- PB_ERR_NOT_SUPPORTED)
  | Some f =>
      let* (rc, h) := f in
      (match h with Some h => mod_vars (set_external h) | None => ret tt end) ;;;
      ret rc
  end.

(** The [switch (boot_source)]. *)
Definition load_by_source : I Z :=
  w <- get ;;
  let src := boot_source (vars w) in
  if src =? BOOT_SOURCE_BIO then load_auth_verify_from_bio
  else if src =? BOOT_SOURCE_IN_MEM then auth_verify_in_mem
  else if src =? BOOT_SOURCE_CB then load_auth_verify_from_cb
  else if src =? BOOT_SOURCE_CUSTOM then authenticate_custom
  else ret (- PB_ERR_PARAM).

(** What [boot_load] does up to [err_out]. *)
Definition boot_load_body (boot_part_override_uu : option uuid_t) : I Z :=
  w <- get ;;
  let drv := drivers (boot_cfg (vars w)) in
  match jump drv with
  | None => ret (- PB_ERR_NOT_SUPPORTED)
  | Some _ =>
      (match early_boot_cb drv with Some f => f | None => ret PB_OK end) ;;?
      mod_vars (set_part_uu uuid_clear) ;;;
      (match boot_part_override_uu with
       | Some u => mod_vars (set_part_uu (uuid_copy u))
       | None => ret tt
       end) ;;;
      load_by_source ;;?
      w <- get ;;
      match prepare (drivers (boot_cfg (vars w))) with
      | Some f => f (pointed_header (vars w)) (boot_part_uu (vars w))
      | None => ret PB_OK
      end
  end.

Definition boot_load (boot_part_override_uu : option uuid_t) : I Z :=
  w <- get ;;
  if boot_cfg (vars w) =? NULL then ret (- PB_ERR_PARAM) else
  rc <- boot_load_body boot_part_override_uu ;;
  mod_vars (set_flags 0) ;;;
  ret rc.

(** [jump] does not come back when it works. *)
Definition boot_jump : I Z :=
  w <- get ;;
  (match late_boot_cb (drivers (boot_cfg (vars w))) with
   | Some f => f (pointed_header (vars w)) (boot_part_uu (vars w))
   | None => ret PB_OK
   end) ;;?
  mod_vars count_jump ;;;
  w <- get ;;
  (match jump (drivers (boot_cfg (vars w))) with Some f => f | None => ret tt end) ;;;
  ret (- PB_ERR).

Definition boot (boot_part_override_uu : option uuid_t) : I Z :=
  boot_load boot_part_override_uu ;;? boot_jump.

(** ** What a booted image is *)

Context {cl : CryptoLaws HC}.

(** The header [h] was authenticated (its signature has been taken out of it),
    its parts lie outside of the bootloader, and the payload in [ram] has the
    digest the header names.  Placement is judged for parts that do not wrap
    around the address space, the payload for parts that do not overlap. *)
Definition verified_image (h : bpak_header) (ram : ram_t) : Prop :=
  bpak_valid_header h = BPAK_OK /\
  (exists hdr, h = set_signature (zeros 512) 0 hdr /\ signature_accepted keystore_pb hdr) /\
  (Forall (fun p => part_addr h p + bpak_part_size p < 2 ^ ptr_bits) (used_parts (h_parts h)) ->
   Forall (fun p => is_Some (load_addr_of h p) /\ forall x, in_part h p x -> outside_bootloader x)
     (used_parts (h_parts h))) /\
  (parts_fit h (h_parts h) ->
   exists alg len, hash_of_kind (h_hash_kind h) = Some (alg, len) /\
     take (Z.to_nat len) (h_payload_hash h) = digest alg (payload_in_ram h ram (h_parts h))).

(** Reads from the block layer that succeed fill the buffer with bytes. *)
Definition block_reads_fill : Prop :=
  forall d lba len b data b', blk_read d lba len b = ((PB_OK, data), b') ->
    length data = Z.to_nat len /\ bytes data.

(** Board code that keeps the promises of the driver interface: it leaves the
    module's static variables alone, apart from the contents of a header it
    supplied itself. *)
Definition keeps_vars {A} (m : I A) : Prop := forall w, vars (m w).2 = vars w.

(** ** Lemmas *)

Lemma mod_vars_run f w :
  mod_vars f w = (tt, with_rest (BootRest (r_blk (i_rest w)) (f (vars w)) (r_other (i_rest w))) w).
Proof. done. Qed.

Lemma vars_with_rest b v y w : vars (with_rest (BootRest b v y) w) = v.
Proof. done. Qed.

Lemma on_blk_keeps {A} (m : M B A) w a w' :
  on_blk m w = (a, w') -> vars w' = vars w /\ i_ram w' = i_ram w /\ i_cry w' = i_cry w /\ i_rot w' = i_rot w.
Proof. unfold on_blk. destruct (m (r_blk (i_rest w))). by intros [= <- <-]. Qed.

(** A pair of accessors for one of the two headers. *)
Definition header_lens (get_hdr : boot_vars -> bpak_header)
    (put_hdr : bpak_header -> boot_vars -> boot_vars) : Prop :=
  forall h v, get_hdr (put_hdr h v) = h.
Definition digest_free (get_hdr : boot_vars -> bpak_header) : Prop :=
  forall d v, get_hdr (set_digest d v) = get_hdr v.

Lemma static_lens : header_lens header set_header /\ digest_free header.
Proof. done. Qed.
Lemma pointed_lens : header_lens pointed_header set_pointed /\ digest_free pointed_header.
Proof. split; [|done]. intros h v. unfold pointed_header, set_pointed. by destruct v as [? ? [] ? ? ? ? ? ? ? ? ?]. Qed.

Lemma auth_header_at_ok gh ph w w' :
  header_lens gh ph -> cwf bpak_header_c (gh (vars w)) ->
  auth_header_at gh ph w = (PB_OK, w') ->
  gh (vars w') = set_signature (zeros 512) 0 (gh (vars w)) /\
  vars w' = ph (gh (vars w')) (vars w) /\
  bpak_valid_header (gh (vars w)) = BPAK_OK /\ key_active (i_rot w) (h_key_id (gh (vars w))) /\
  signature_accepted keystore_pb (gh (vars w)) /\ i_ram w' = i_ram w.
Proof.
  intros Hl Hw. unfold auth_header_at. m_unfold.
  destruct (boot_image_auth_header _ _ _ w) as [[rc h] w1] eqn:E. rewrite mod_vars_run. cbv beta iota.
  intros [= -> <-]. destruct (auth_header_ok _ _ _ _ _ _ Hw E) as (-> & Hv & Hk & Hs & Hr & Hx).
  assert (Ev : vars w1 = vars w) by (unfold vars; by rewrite Hx).
  rewrite !vars_with_rest, Ev, Hl. by split_and!.
Qed.

Lemma load_and_hash_at_ok gh read_f w w' :
  digest_free gh -> 0 < CONFIG_BOOT_LOAD_CHUNK_kB ->
  (forall f, read_f = Some f -> reads_well f) ->
  (forall f lba len w, read_f = Some f -> vars (f lba len w).2 = vars w) ->
  load_and_hash_at gh read_f None w = (PB_OK, w') ->
  gh (vars w') = gh (vars w) /\ boot_cfg (vars w') = boot_cfg (vars w) /\
  header_ptr (vars w') = header_ptr (vars w) /\ header (vars w') = header (vars w) /\
  jumps (vars w') = jumps (vars w) /\
  (parts_fit (gh (vars w)) (h_parts (gh (vars w))) ->
   exists alg len, hash_of_kind (h_hash_kind (gh (vars w))) = Some (alg, len) /\
     take (Z.to_nat len) (payload_digest (vars w')) =
     digest alg (payload_in_ram (gh (vars w)) (i_ram w') (h_parts (gh (vars w))))).
Proof.
  intros Hd Hc Hrw Hrv. unfold load_and_hash_at. m_unfold.
  destruct (boot_image_load_and_hash _ _ read_f None 64 w) as [[rc d] w1] eqn:E. rewrite mod_vars_run.
  cbv beta iota. intros [= -> <-].
  assert (Ev : vars w1 = vars w).
  { pose proof (load_and_hash_rest r_boot (gh (vars w)) (CONFIG_BOOT_LOAD_CHUNK_kB * 1024) read_f 64 w Hrv) as Hx.
    rewrite E in Hx. exact Hx. }
  rewrite !vars_with_rest, Ev. split_and!; try done.
  assert (Hc' : 0 < CONFIG_BOOT_LOAD_CHUNK_kB * 1024) by lia.
  intros Hfit. destruct (load_and_hash_ok _ _ _ _ _ _ _ Hc' Hrw Hfit E) as (alg & len & Hk & _ & -> & _).
  exists alg, len. split; [done|].
  assert (Hlen : length (digest alg (payload_in_ram (gh (vars w)) (i_ram w1) (h_parts (gh (vars w))))) = Z.to_nat len).
  { rewrite law_digest_size. unfold hash_of_kind in Hk. unfold digest_size.
    repeat case_if; simplify_eq; done. }
  rewrite <- Hlen. apply take_splice0.
Qed.

(** The sequence every built-in source ends with: authenticate, check the
    placement, load and hash, compare. *)
Lemma verify_tail_ok gh ph read_f w w' :
  header_lens gh ph -> digest_free gh ->
  (forall h v, jumps (ph h v) = jumps v /\ boot_cfg (ph h v) = boot_cfg v /\ header_ptr (ph h v) = header_ptr v) ->
  0 < CONFIG_BOOT_LOAD_CHUNK_kB -> (forall f, read_f = Some f -> reads_well f) ->
  (forall f lba len w, read_f = Some f -> vars (f lba len w).2 = vars w) ->
  cwf bpak_header_c (gh (vars w)) ->
  (auth_header_at gh ph ;;? verify_parts_at gh ;;? load_and_hash_at gh read_f None ;;? verify_payload_at gh) w =
    (PB_OK, w') ->
  key_active (i_rot w) (h_key_id (gh (vars w))) /\
  gh (vars w') = set_signature (zeros 512) 0 (gh (vars w)) /\ verified_image (gh (vars w')) (i_ram w') /\
  jumps (vars w') = jumps (vars w) /\ boot_cfg (vars w') = boot_cfg (vars w) /\
  header_ptr (vars w') = header_ptr (vars w).
Proof.
  intros Hl Hdf Hph Hc Hrw Hrv Hcwf H.
  apply checked_ok in H as (w1 & E1 & H). apply checked_ok in H as (w2 & E2 & H).
  apply checked_ok in H as (w3 & E3 & E4).
  destruct (auth_header_at_ok _ _ _ _ Hl Hcwf E1) as (Hh1 & Hv1 & Hvalid & Hk & Hs & Hr1).
  unfold verify_parts_at in E2. m_unfold. injection E2 as E2 <-.
  destruct (load_and_hash_at_ok _ _ _ _ Hdf Hc Hrw Hrv E3) as (Hh3 & Hcfg & Hptr & _ & Hj & Hpay).
  unfold verify_payload_at in E4. m_unfold. injection E4 as E4 <-.
  destruct (Hph (gh (vars w1)) (vars w)) as (Pj & Pc & Pp). rewrite <- Hv1 in Pj, Pc, Pp.
  rewrite Hh3, Hh1 in *.
  split_and!; [done | done | | congruence..].
  split; [exact Hvalid|]. split; [by eexists|]. split.
  - unfold boot_image_verify_parts in E2. destruct (bpak_valid_header _ =? BPAK_OK); [|done].
    exact (verify_parts_loop_ok _ _ _ E2).
  - intros Hfit. destruct (Hpay Hfit) as (alg & len & Hk1 & Hd). exists alg, len. split; [done|].
    apply verify_payload_ok in E4 as (alg' & len' & Hk2 & Heq). rewrite Hk1 in Hk2. simplify_eq.
    by rewrite Heq.
Qed.

Lemma boot_bio_read_reads : block_reads_fill -> reads_well boot_bio_read.
Proof.
  intros Hb lba len w rc data w' E. unfold boot_bio_read in E. m_unfold.
  pose proof (on_blk_keeps _ _ _ _ E) as (_ & Hr & Hc & _). split_and!; [done|done|]. intros ->.
  unfold on_blk in E. destruct (blk_read _ _ len (r_blk (i_rest w))) as [r b'] eqn:Er. injection E as -> _.
  by destruct (Hb _ _ _ _ _ _ Er).
Qed.

Lemma boot_bio_read_vars lba len w : vars (boot_bio_read lba len w).2 = vars w.
Proof.
  destruct (boot_bio_read lba len w) as [r w'] eqn:E. unfold boot_bio_read in E. m_unfold.
  by destruct (on_blk_keeps _ _ _ _ E).
Qed.

(** Reading a header block leaves a proper header in [header]. *)
Lemma decode_overlay data h :
  cwf bpak_header_c h -> length data = 4096%nat -> bytes data ->
  decode bpak_header_c (splice 0 data (cenc bpak_header_c h)) = decode bpak_header_c data /\
  cwf bpak_header_c (decode bpak_header_c data).
Proof.
  intros Hh Hl Hb. assert (Hlen : length (cenc bpak_header_c h) = 4096%nat) by (by apply (cenc_length (c := bpak_header_c))).
  split.
  - unfold splice. rewrite drop_ge by (rewrite Hlen; lia). simpl. by rewrite app_nil_r.
  - apply cdec_wf; [done|]. rewrite Hl. done.
Qed.

Lemma read_header_ok w w' :
  block_reads_fill -> cwf bpak_header_c (header (vars w)) ->
  read_header_from_bio w = (PB_OK, w') ->
  cwf bpak_header_c (header (vars w')) /\ jumps (vars w') = jumps (vars w) /\
  boot_cfg (vars w') = boot_cfg (vars w) /\ header_ptr (vars w') = header_ptr (vars w) /\
  i_rot w' = i_rot w.
Proof.
  intros Hb Hw. unfold read_header_from_bio. m_unfold.
  destruct (on_blk (blk_no_of_blocks _) w) as [nb w1] eqn:E1.
  destruct (on_blk (blk_block_size _) w1) as [bs w2] eqn:E2.
  destruct (on_blk (blk_read _ _ _) w2) as [[rc data] w3] eqn:E3. rewrite mod_vars_run. cbv beta iota.
  intros [= -> <-]. rewrite vars_with_rest.
  destruct (on_blk_keeps _ _ _ _ E1) as (V1 & _ & _ & R1), (on_blk_keeps _ _ _ _ E2) as (V2 & _ & _ & R2),
    (on_blk_keeps _ _ _ _ E3) as (V3 & _ & _ & R3).
  unfold on_blk in E3. destruct (blk_read _ _ _ (r_blk (i_rest w2))) as [r b'] eqn:Er.
  injection E3 as -> _. destruct (Hb _ _ _ _ _ _ Er) as [Hl Hby].
  rewrite V3, V2, V1. destruct (decode_overlay data (header (vars w)) Hw Hl Hby) as [Ed Hcwf].
  cbn [header set_header jumps boot_cfg header_ptr]. rewrite Ed. split; [exact Hcwf|].
  split_and!; [done..|]. cbn. congruence.
Qed.

(** The variables a load leaves alone. *)
Definition same_control (v v' : boot_vars) : Prop :=
  jumps v' = jumps v /\ boot_cfg v' = boot_cfg v /\ header_ptr v' = header_ptr v /\
  external_header v' = external_header v.

Lemma select_boot_device_ok get_dev w rc w' :
  keeps_vars get_dev -> select_boot_device get_dev w = (rc, w') ->
  header (vars w') = header (vars w) /\ same_control (vars w) (vars w').
Proof.
  intros Hk. unfold select_boot_device. m_unfold. destruct (uuid_is_null _).
  - pose proof (Hk w) as V. destruct (get_dev w) as [dev w1]. simpl in V. rewrite mod_vars_run. cbv beta iota.
    destruct (dev <? 0); [intros [= <- <-]; rewrite vars_with_rest, V; done|].
    destruct (on_blk (blk_get_uu dev) _) as [u w2] eqn:E2.
    destruct (on_blk_keeps _ _ _ _ E2) as (V2 & _). rewrite vars_with_rest in V2. rewrite mod_vars_run.
    cbv beta iota. intros [= <- <-]. rewrite vars_with_rest, V2, V. done.
  - destruct (on_blk (blk_find _) w) as [dev w1] eqn:E1. destruct (on_blk_keeps _ _ _ _ E1) as (V1 & _).
    rewrite mod_vars_run. cbv beta iota.
    by destruct (dev <? 0); intros [= <- <-]; rewrite vars_with_rest, V1.
Qed.

Lemma from_bio_ok w w' get_dev :
  get_boot_bio_device (drivers (boot_cfg (vars w))) = Some get_dev -> keeps_vars get_dev ->
  block_reads_fill -> 0 < CONFIG_BOOT_LOAD_CHUNK_kB -> cwf bpak_header_c (header (vars w)) ->
  load_auth_verify_from_bio w = (PB_OK, w') ->
  verified_image (header (vars w')) (i_ram w') /\ jumps (vars w') = jumps (vars w) /\
  boot_cfg (vars w') = boot_cfg (vars w) /\ header_ptr (vars w') = header_ptr (vars w).
Proof.
  intros Hd Hk Hb Hc Hw. unfold load_auth_verify_from_bio, bind, get. rewrite Hd. intros H.
  apply checked_ok in H as (w1 & E1 & H). m_unfold.
  destruct (on_blk (blk_get_flags _) w1) as [fl w2] eqn:E2. destruct (on_blk_keeps _ _ _ _ E2) as (V2 & _).
  destruct (Z.land fl BIO_FLAG_BOOTABLE =? 0); [done|]. apply checked_ok in H as (w3 & E3 & H).
  destruct (select_boot_device_ok _ _ _ _ Hk E1) as (Hh1 & J1 & C1 & P1 & _).
  destruct (read_header_ok w2 w3 Hb) as (Hcwf & J3 & C3 & P3 & _); [by rewrite V2, Hh1 | done |].
  destruct (verify_tail_ok header set_header (Some boot_bio_read) w3 w') as (_ & _ & Hv & J & C & P);
    [done|done|done|done| | |done|done|].
  - intros f [= <-]. by apply boot_bio_read_reads.
  - intros f lba len w4 [= <-]. apply boot_bio_read_vars.
  - rewrite J, C, P, J3, C3, P3, V2. done.
Qed.

Lemma set_pointed_control h v :
  jumps (set_pointed h v) = jumps v /\ boot_cfg (set_pointed h v) = boot_cfg v /\
  header_ptr (set_pointed h v) = header_ptr v.
Proof. by destruct v as [? ? [] ? ? ? ? ? ? ? ? ?]. Qed.

(** An image callback that keeps the variables and supplies proper headers. *)
Definition supplies_header (f : I (Z * option bpak_header)) : Prop :=
  keeps_vars f /\ forall w rc h w', f w = ((rc, Some h), w') -> cwf bpak_header_c h.

Lemma in_mem_ok w w' f :
  get_in_mem_image (drivers (boot_cfg (vars w))) = Some f -> supplies_header f ->
  0 < CONFIG_BOOT_LOAD_CHUNK_kB -> cwf bpak_header_c (pointed_header (vars w)) ->
  auth_verify_in_mem w = (PB_OK, w') ->
  verified_image (pointed_header (vars w')) (i_ram w') /\ jumps (vars w') = jumps (vars w) /\
  boot_cfg (vars w') = boot_cfg (vars w).
Proof.
  intros Hd [Hk Hs] Hc Hw. unfold auth_verify_in_mem, bind, get. rewrite Hd. cbv beta iota.
  pose proof (Hk w) as V. pose proof (Hs w) as Hh. destruct (f w) as [[rc h] w1]. simpl in V.
  set (w2 := ((match h with Some h => mod_vars (set_external h) | None => ret tt end) w1).2).
  assert (E2 : (match h with Some h => mod_vars (set_external h) | None => ret tt end) w1 = (tt, w2))
    by (by destruct h). rewrite E2. rc_ok rc. intros H.
  assert (Hw2 : cwf bpak_header_c (pointed_header (vars w2)) /\ jumps (vars w2) = jumps (vars w) /\
    boot_cfg (vars w2) = boot_cfg (vars w)).
  { subst w2. destruct h as [h|]; [|unfold ret; cbn [snd]; by rewrite V]. split; [exact (Hh _ _ _ eq_refl)|].
    rewrite mod_vars_run. cbn [snd]. rewrite vars_with_rest, V. done. }
  destruct Hw2 as (Hw2 & J2 & C2). destruct pointed_lens as [Hl Hdf].
  destruct (verify_tail_ok pointed_header set_pointed None w2 w') as (_ & _ & Hv & J & C & _);
    [done|done|apply set_pointed_control|done|done|done|exact Hw2|exact H|].
  rewrite J, C. done.
Qed.

(** A driver whose callbacks keep the promises of the interface. *)
Record driver_ok (d : boot_driver W) : Prop := {
  ok_early : forall f, early_boot_cb d = Some f -> keeps_vars f;
  ok_get_dev : forall f, get_boot_bio_device d = Some f -> keeps_vars f;
  ok_in_mem : forall f, get_in_mem_image d = Some f -> supplies_header f;
  ok_prepare : forall f h u, prepare d = Some f -> keeps_vars (f h u);
  ok_late : forall f h u, late_boot_cb d = Some f -> keeps_vars (f h u);
  ok_jump : forall f, jump d = Some f -> keeps_vars f
}.

(** The header a built-in source authenticates. *)
Definition booted_header (v : boot_vars) : bpak_header :=
  if boot_source v =? BOOT_SOURCE_IN_MEM then pointed_header v else header v.

Definition builtin_source (src : Z) : Prop := src = BOOT_SOURCE_BIO \/ src = BOOT_SOURCE_IN_MEM.

Definition vars_wf (v : boot_vars) : Prop :=
  cwf bpak_header_c (header v) /\ cwf bpak_header_c (external_header v).

Lemma vars_wf_pointed v : vars_wf v -> cwf bpak_header_c (pointed_header v).
Proof. intros [? ?]. unfold pointed_header. by destruct (header_ptr v). Qed.

(** The header that was verified, named without the source variable, which the
    load does not change. *)
Definition verified_by (src : Z) (w : W) : Prop :=
  verified_image (if src =? BOOT_SOURCE_IN_MEM then pointed_header (vars w) else header (vars w)) (i_ram w).

Lemma load_by_source_ok w w' :
  driver_ok (drivers (boot_cfg (vars w))) -> block_reads_fill -> 0 < CONFIG_BOOT_LOAD_CHUNK_kB ->
  vars_wf (vars w) -> builtin_source (boot_source (vars w)) ->
  load_by_source w = (PB_OK, w') ->
  verified_by (boot_source (vars w)) w' /\ jumps (vars w') = jumps (vars w) /\
  boot_cfg (vars w') = boot_cfg (vars w) /\
  (boot_source (vars w) = BOOT_SOURCE_BIO -> header_ptr (vars w') = header_ptr (vars w)).
Proof.
  intros Hd Hb Hc Hw Hsrc. unfold load_by_source, verified_by. m_unfold. destruct Hsrc as [-> | ->]; simpl.
  - intros H. destruct (get_boot_bio_device (drivers (boot_cfg (vars w)))) as [f|] eqn:Ef.
    2:{ unfold load_auth_verify_from_bio in H. m_unfold. by rewrite Ef in H. }
    destruct (from_bio_ok w w' f Ef (ok_get_dev _ Hd _ Ef) Hb Hc (proj1 Hw) H) as (? & ? & ? & ?). done.
  - intros H. destruct (get_in_mem_image (drivers (boot_cfg (vars w)))) as [f|] eqn:Ef.
    2:{ unfold auth_verify_in_mem in H. m_unfold. by rewrite Ef in H. }
    destruct (in_mem_ok w w' f Ef (ok_in_mem _ Hd _ Ef) Hc (vars_wf_pointed _ Hw) H) as (? & ? & ?). done.
Qed.

(** The second half of [boot_load]. *)
Definition load_and_prepare : I Z :=
  load_by_source ;;?
  w <- get ;;
  match prepare (drivers (boot_cfg (vars w))) with
  | Some f => f (pointed_header (vars w)) (boot_part_uu (vars w))
  | None => ret PB_OK
  end.

(** The first half: the early callback and the partition override. *)
Definition before_load (u : option uuid_t) : I Z :=
  w <- get ;;
  (match early_boot_cb (drivers (boot_cfg (vars w))) with Some f => f | None => ret PB_OK end) ;;?
  mod_vars (set_part_uu uuid_clear) ;;;
  (match u with Some u => mod_vars (set_part_uu (uuid_copy u)) | None => ret tt end) ;;;
  ret PB_OK.

(** The first half ends in an error with the variables untouched, or sets the
    partition override and goes on. *)
Lemma boot_load_body_split u w :
  driver_ok (drivers (boot_cfg (vars w))) ->
  (exists rc w1, boot_load_body u w = (rc, w1) /\ rc <> PB_OK /\ vars w1 = vars w) \/
  (exists w1 uu, before_load u w = (PB_OK, w1) /\ boot_load_body u w = load_and_prepare w1 /\ vars w1 = set_part_uu uu (vars w)).
Proof.
  intros Hd. unfold boot_load_body, before_load, bind, get.
  destruct (jump (drivers (boot_cfg (vars w)))) eqn:Ej; [|left; by eexists _, w].
  set (early := match early_boot_cb _ with Some f => f | None => ret PB_OK end).
  assert (Hk : keeps_vars early).
  { subst early. destruct (early_boot_cb _) as [f|] eqn:Ef; [by apply (ok_early _ Hd) | done]. }
  rewrite !(checked_run early). pose proof (Hk w) as V. destruct (early w) as [rc we]. simpl in V.
  destruct (Z.eqb_spec rc PB_OK) as [->|Hrc]; [|left; by exists rc, we].
  right. rewrite mod_vars_run. cbv beta iota. destruct u as [u|].
  - rewrite mod_vars_run. cbv beta iota. eexists _, (uuid_copy u). split; [reflexivity|]. split; [reflexivity|].
    rewrite !vars_with_rest, V. done.
  - unfold ret at 1. cbv beta iota. eexists _, uuid_clear. split; [reflexivity|]. split; [reflexivity|].
    rewrite vars_with_rest, V. done.
Qed.

(** The run of a successful [boot_load] from [w] to [w']: the first half ends
    in [w0], loading in [w1], where the image is verified, and [prepare] accepts
    it there. *)
Definition loaded (u : option uuid_t) (w w' : W) : Prop :=
  exists w0 w1 w2, before_load u w = (PB_OK, w0) /\ load_by_source w0 = (PB_OK, w1) /\ verified_by (boot_source (vars w)) w1 /\
    (boot_source (vars w) = BOOT_SOURCE_BIO -> header_ptr (vars w1) = header_ptr (vars w)) /\
    (match prepare (drivers (boot_cfg (vars w))) with
     | Some f => f (pointed_header (vars w1)) (boot_part_uu (vars w1)) | None => ret PB_OK end) w1 = (PB_OK, w2) /\
    mod_vars (set_flags 0) w2 = (tt, w').

Lemma boot_load_ok u w w' :
  driver_ok (drivers (boot_cfg (vars w))) -> block_reads_fill -> 0 < CONFIG_BOOT_LOAD_CHUNK_kB ->
  vars_wf (vars w) -> builtin_source (boot_source (vars w)) ->
  boot_load u w = (PB_OK, w') ->
  boot_cfg (vars w') = boot_cfg (vars w) /\ loaded u w w'.
Proof.
  intros Hd Hb Hc Hw Hsrc. unfold boot_load. m_unfold. destruct (boot_cfg (vars w) =? NULL); [done|].
  destruct (boot_load_body_split u w Hd) as [(rc & w1 & -> & Hrc & _) | (w3 & uu & E3 & -> & V3)].
  { cbv beta iota. rewrite mod_vars_run. intros [= ? _]. done. }
  destruct (load_and_prepare w3) as [rc wb] eqn:E. rewrite mod_vars_run. cbv beta iota. intros [= -> <-].
  apply checked_ok in E as (w4 & E4 & E). m_unfold.
  destruct (load_by_source_ok w3 w4) as (Hv & J4 & C4 & P4); try (rewrite V3; done); try done.
  rewrite V3 in Hv, P4, C4. cbn [boot_source boot_cfg header_ptr set_part_uu] in Hv, P4, C4.
  rewrite C4 in E. rewrite vars_with_rest. cbn [boot_cfg set_flags]. split.
  - destruct (prepare (drivers (boot_cfg (vars w)))) as [f|] eqn:Ef; [|by injection E as <-].
    pose proof (ok_prepare _ Hd f (pointed_header (vars w4)) (boot_part_uu (vars w4)) Ef w4) as Vp.
    rewrite E in Vp. cbn [snd] in Vp. by rewrite Vp.
  - exists w3, w4, wb. split_and!; [done..|]. by rewrite mod_vars_run.
Qed.

(** *** Nothing but [boot_jump] hands over control *)

Definition njumps (w : W) : nat := jumps (vars w).

Lemma keeps_vars_njumps {A} (m : I A) : keeps_vars m -> Keeps njumps m.
Proof. intros Hk w. unfold njumps. by rewrite Hk. Qed.

Lemma on_blk_njumps {A} (m : M B A) : Keeps njumps (on_blk m).
Proof. intros w. unfold on_blk. by destruct (m (r_blk (i_rest w))). Qed.

Lemma on_cry_njumps {A} (m : M (crypto_state HC) A) : Keeps njumps (on_cry m).
Proof. intros w. unfold on_cry. by destruct (m (i_cry w)). Qed.

Lemma on_rot_njumps {A} (m : M (rot_state HR) A) : Keeps njumps (on_rot m).
Proof. intros w. unfold on_rot. by destruct (m (i_rot w)). Qed.

Lemma mod_vars_njumps f : (forall v, jumps (f v) = jumps v) -> Keeps njumps (mod_vars f).
Proof. intros Hf w. unfold njumps. rewrite mod_vars_run. apply Hf. Qed.

Lemma set_sigbuf_njumps s : Keeps njumps (set_sigbuf s).
Proof. done. Qed.

Local Hint Resolve on_blk_njumps on_cry_njumps on_rot_njumps set_sigbuf_njumps keeps_vars_njumps : keeps.
Local Hint Extern 3 (Keeps njumps (mod_vars _)) => apply mod_vars_njumps; done : keeps.

Lemma auth_header_njumps h : Keeps njumps (boot_image_auth_header keystore_pb digest0 h).
Proof. unfold boot_image_auth_header. keeps. Qed.

Lemma load_and_hash_njumps h c read_f n :
  (forall f lba len, read_f = Some f -> Keeps njumps (f lba len)) ->
  Keeps njumps (boot_image_load_and_hash h c read_f None n).
Proof.
  intros Hf w. apply (load_and_hash_rest (fun x => jumps (r_boot x))). intros f lba len w1 E.
  exact (Hf f lba len E w1).
Qed.

Lemma boot_bio_read_njumps lba len : Keeps njumps (boot_bio_read lba len).
Proof. unfold boot_bio_read. keeps. Qed.
Local Hint Resolve auth_header_njumps boot_bio_read_njumps : keeps.

Lemma tail_njumps gh ph read_f :
  (forall h v, jumps (ph h v) = jumps v) ->
  (forall f lba len, read_f = Some f -> Keeps njumps (f lba len)) ->
  Keeps njumps (auth_header_at gh ph) /\ Keeps njumps (load_and_hash_at gh read_f None) /\
  Keeps njumps (verify_parts_at gh) /\ Keeps njumps (verify_payload_at gh).
Proof.
  intros Hp Hf. split_and!; [| |done|done].
  - unfold auth_header_at. keeps.
  - unfold load_and_hash_at. apply keeps_bind; [done|]. intros w. apply keeps_bind; [|keeps].
    by apply load_and_hash_njumps.
Qed.

Lemma load_by_source_njumps w :
  driver_ok (drivers (boot_cfg (vars w))) -> builtin_source (boot_source (vars w)) ->
  njumps (load_by_source w).2 = njumps w.
Proof.
  intros Hd Hsrc. unfold load_by_source, bind at 1, get at 1.
  destruct (tail_njumps header set_header (Some boot_bio_read)) as (T1 & T2 & T3 & T4); [done| |].
  { intros f lba len [= <-]. apply boot_bio_read_njumps. }
  destruct (tail_njumps pointed_header set_pointed None) as (U1 & U2 & U3 & U4);
    [apply set_pointed_control|done|].
  destruct Hsrc as [-> | ->]; simpl.
  - unfold load_auth_verify_from_bio, bind at 1, get at 1.
    destruct (get_boot_bio_device (drivers (boot_cfg (vars w)))) as [f|] eqn:Ef; [|done].
    pose proof (ok_get_dev _ Hd f Ef) as Hf. revert w Hd Ef. intros w _ _.
    match goal with |- njumps (?m w).2 = _ => enough (Hm : Keeps njumps m) by apply Hm end.
    unfold select_boot_device, read_header_from_bio. keeps.
  - unfold auth_verify_in_mem, bind at 1, get at 1.
    destruct (get_in_mem_image (drivers (boot_cfg (vars w)))) as [f|] eqn:Ef; [|done].
    destruct (ok_in_mem _ Hd f Ef) as [Hf _].
    match goal with |- njumps (?m w).2 = _ => enough (Hm : Keeps njumps m) by apply Hm end. keeps.
Qed.

Lemma boot_load_njumps u w :
  (forall p, driver_ok (drivers p)) -> builtin_source (boot_source (vars w)) ->
  njumps (boot_load u w).2 = njumps w.
Proof.
  intros Hd Hsrc. unfold boot_load. m_unfold. destruct (boot_cfg (vars w) =? NULL); [done|].
  destruct (boot_load_body_split u w (Hd _)) as [(rc & w1 & -> & _ & V) | (w3 & uu & _ & -> & V)].
  { cbv beta iota. rewrite mod_vars_run. unfold njumps. cbn [snd]. by rewrite vars_with_rest, V. }
  assert (Hn : njumps (load_and_prepare w3).2 = njumps w).
  { pose proof (load_by_source_njumps w3 (Hd _)) as Hl. unfold load_and_prepare. rewrite checked_run.
    rewrite V in Hl. specialize (Hl Hsrc). destruct (load_by_source w3) as [rc w4]. cbn [snd] in Hl.
    assert (Hw : njumps w4 = njumps w) by (rewrite Hl; unfold njumps; by rewrite V).
    destruct (rc =? PB_OK); [|done]. m_unfold.
    destruct (prepare (drivers (boot_cfg (vars w4)))) as [f|] eqn:Ef; [|done].
    rewrite <- Hw.
    apply (keeps_vars_njumps (f (pointed_header (vars w4)) (boot_part_uu (vars w4)))).
    exact (ok_prepare _ (Hd _) f _ _ Ef). }
  destruct (load_and_prepare w3) as [rc wb]. rewrite mod_vars_run. exact Hn.
Qed.

(** ** Properties *)

(** [C1] Secure boot: for the block device and in-memory sources, with driver
    callbacks that leave the loader's variables alone and block reads that fill
    their buffer, control is handed over only for a verified image.  If [boot]
    calls the driver's [jump], then [boot_load] succeeded, and in the state its
    loading step ended in, a header passed the format check and its signature
    was accepted under a key of the key store with the header's key id; if no
    part of that header wraps around the address space, its parts lie outside
    of the bootloader's segments, and if moreover no two parts overlap, the
    digest of the payload as it lies in memory there is the payload hash of the
    header.  From that state [prepare] accepted the image.  (Parts that do wrap
    around are not refused, see [Image.ToyImage.verify_parts_wraps].) *)
Theorem secure_boot u w :
  (forall p, driver_ok (drivers p)) -> block_reads_fill -> 0 < CONFIG_BOOT_LOAD_CHUNK_kB ->
  vars_wf (vars w) -> builtin_source (boot_source (vars w)) ->
  jumps (vars (boot u w).2) <> jumps (vars w) ->
  exists w', boot_load u w = (PB_OK, w') /\ loaded u w w'.
Proof.
  intros Hd Hb Hc Hw Hsrc Hj. pose proof (boot_load_njumps u w Hd Hsrc) as Hn.
  unfold boot in Hj. rewrite checked_run in Hj. destruct (boot_load u w) as [rc w'] eqn:E. cbn [snd] in Hn.
  destruct (Z.eqb_spec rc PB_OK) as [->|Hrc]; [|done].
  exists w'. split; [done|]. by apply (boot_load_ok u).
Qed.

(** The header handed to [prepare] can be stale: when an earlier attempt
    left [header_ptr] on a header supplied by a board callback, authenticated
    or not, a later successful load from the block device verifies the header
    read from the partition but leaves [header_ptr] on the old one. *)
Theorem boot_bio_stale_header w w' get_dev :
  get_boot_bio_device (drivers (boot_cfg (vars w))) = Some get_dev -> keeps_vars get_dev ->
  block_reads_fill -> 0 < CONFIG_BOOT_LOAD_CHUNK_kB -> cwf bpak_header_c (header (vars w)) ->
  load_auth_verify_from_bio w = (PB_OK, w') -> header_ptr (vars w) = HdrExternal ->
  verified_image (header (vars w')) (i_ram w') /\ pointed_header (vars w') = external_header (vars w').
Proof.
  intros Hg Hk Hb Hc Hw E Hp. destruct (from_bio_ok w w' get_dev Hg Hk Hb Hc Hw E) as (Hv & _ & _ & P).
  split; [done|]. unfold pointed_header. by rewrite P, Hp.
Qed.

(** Boot flags do not outlive a load: whatever [boot_load] returns once a
    driver is configured, the flags are zero afterwards, so a late callback
    or a second attempt never sees the flags of the first. *)
Theorem boot_load_clears_flags u w :
  boot_cfg (vars w) <> NULL -> boot_flags (vars (boot_load u w).2) = 0.
Proof.
  intros Hc. unfold boot_load. m_unfold. rewrite (proj2 (Z.eqb_neq _ _) Hc).
  by destruct (boot_load_body u w) as [rc w1].
Qed.

End boot.

(** ** An example system: the toy image on a ten-block RAM disk *)

Module ToyBoot.
Import ToyImage.

(** A RAM disk that hands out bytes. *)
Definition drive : BioDriver RamDisk.disk := {|
  drv_read f dev lba len h :=
    let '((rc, bs), h) := drv_read (BioDriver := RamDisk.ram_driver) f dev lba len h in ((rc, map u8 bs), h);
  drv_write := drv_write (BioDriver := RamDisk.ram_driver);
  drv_erase := drv_erase (BioDriver := RamDisk.ram_driver)
|}.
#[export] Existing Instance drive.

Lemma u8_byte x : is_byte (u8 x).
Proof. apply Z.mod_pos_bound. lia. Qed.

Lemma reads_fill : block_reads_fill (B := bio_state RamDisk.disk).
Proof.
  intros d lba len b data b' E. simpl in E. unfold bio_read in E. m_unfold.
  destruct (check_dev d b) as [rc b1]. destruct (Z.eqb_spec rc PB_OK); simpl in E; [|by simplify_eq].
  destruct (read (dev_at b1 d) =? NULL); [done|].
  destruct (check_lba_range d lba len b1) as [rc2 b2]. destruct (rc2 =? 0); [|done]. simpl in E.
  unfold call_drv in E. simpl in E.
  destruct (RamDisk.in_disk (bio_hw b2) (u32 (first_lba (dev_at b1 d) + lba)) len) eqn:Ei; [|done].
  injection E as <- _. unfold RamDisk.in_disk in Ei. zbool. split.
  - unfold slice. rewrite length_map, length_take, length_drop. lia.
  - apply Forall_map, Forall_true. intros x. apply u8_byte.
Qed.

Definition blocks : list Z := payload_a ++ payload_b ++ cenc bpak_header_c ToyImage.header.

Definition device : bio_device := {|
  uu := RamDisk.uuA; description := zeros 37; first_lba := 0; last_lba := 9; flags := 0x65;
  block_sz := 512; read := 1; write := 2; erase := 3; install_partition_table := NULL;
  private := 0; valid := true |}.

Definition bio : bio_state RamDisk.disk :=
  BioState (device :: replicate 31 null_device) 1 blocks.

(** An unsigned header, as an in-memory source might supply. *)
Definition vars0 (ptr : header_ref) : boot_vars :=
  BootVars 1 bpak_init_header ptr bpak_init_header 0 (-1) BOOT_SOURCE_BIO uuid_clear (zeros 64) NULL NULL 0.

Abbreviation W := (img_world ToyCrypto.ctx (list Z) (boot_rest (bio_state RamDisk.disk) unit)).

Definition world0 (ptr : header_ref) : W :=
  ImgWorld ToyCrypto.state ToyRot.state (fun _ => 0) (zeros 512) (BootRest bio (vars0 ptr) tt).

Definition driver (p : fptr) : boot_driver W :=
  BootDriver BOOT_SOURCE_BIO None (Some (ret 0)) None None None None
    (Some (fun _ _ => ret PB_OK)) None (Some (ret tt)).

Definition no_read (p : fptr) (lba len : Z) : M W (Z * list Z) := ret (- PB_ERR_IO, []).
Definition no_result (p : fptr) (rc : Z) : M W Z := ret rc.

Lemma driver_fine p : driver_ok (driver p).
Proof. by split; intros; simplify_eq/=. Qed.

Lemma init_header_cwf : cwf bpak_header_c bpak_init_header.
Proof.
  assert (E : decode bpak_header_c (cenc bpak_header_c bpak_init_header) = bpak_init_header)
    by (vm_compute; reflexivity).
  rewrite <- E. apply cdec_wf.
  - apply (bool_decide_unpack _). vm_compute. exact I.
  - apply Nat.leb_le. vm_compute. reflexivity.
Qed.

End ToyBoot.

(** ** Witnesses *)

Section witnesses.
Import ToyImage ToyBoot.

Abbreviation run_boot := (boot ToyRot.keys (zeros 64) ToyBoot.driver no_read no_result None).

Lemma secure_boot_witness :
  jumps (vars (run_boot (world0 HdrStatic)).2) = 1%nat /\
  exists w', boot_load ToyRot.keys (zeros 64) ToyBoot.driver no_read no_result None (world0 HdrStatic) = (PB_OK, w') /\
    loaded ToyRot.keys (zeros 64) ToyBoot.driver no_read no_result None (world0 HdrStatic) w'.
Proof.
  assert (Hj : jumps (vars (run_boot (world0 HdrStatic)).2) = 1%nat) by (vm_compute; reflexivity).
  split; [exact Hj|].
  apply (secure_boot ToyRot.keys (zeros 64) ToyBoot.driver no_read no_result None (world0 HdrStatic)
    driver_fine reads_fill).
  - vm_compute. reflexivity.
  - split; apply init_header_cwf.
  - left. reflexivity.
  - intros E. rewrite Hj in E. discriminate E.
Defined.

Lemma boot_bio_stale_header_witness :
  exists w', load_auth_verify_from_bio ToyRot.keys (zeros 64) ToyBoot.driver (world0 HdrExternal) = (PB_OK, w') /\
    verified_image ToyRot.keys (Boot.header (vars w')) (i_ram w') /\
    pointed_header (vars w') = external_header (vars w').
Proof.
  destruct (load_auth_verify_from_bio ToyRot.keys (zeros 64) ToyBoot.driver (world0 HdrExternal))
    as [rc w'] eqn:E.
  assert (rc = PB_OK) as -> by (change rc with ((rc, w').1); rewrite <- E; vm_compute; reflexivity).
  exists w'. split; [reflexivity|].
  apply (boot_bio_stale_header ToyRot.keys (zeros 64) ToyBoot.driver (world0 HdrExternal) w' (ret 0)
    eq_refl (fun _ => eq_refl) reads_fill); [vm_compute; reflexivity | apply init_header_cwf | exact E | reflexivity].
Defined.

Lemma boot_load_clears_flags_witness :
  boot_flags (vars (boot_load ToyRot.keys (zeros 64) ToyBoot.driver no_read no_result None
    (world0 HdrStatic)).2) = 0.
Proof.
  apply (boot_load_clears_flags ToyRot.keys (zeros 64) ToyBoot.driver no_read no_result None
    (world0 HdrStatic)). discriminate.
Defined.
End witnesses.
