(* ===== verification/Linux.v ===== *)
(** * Hand-over to Linux and to a bare-metal image

    [src/boot/linux.c]: the addresses of kernel, device tree and ram disk are
    taken from the header, and the [chosen] node of the tree is filled with what
    the loader knows.  The device tree library is an interface, [Fdt], with what
    its documentation promises in [FdtLaws].  [src/boot/armv7m_baremetal.c]: the
    entry of an image that runs where it was loaded. *)

From Stdlib Require Import String Ascii.
From S2P Require Import Prelude Errors Uuid UuidText Bpak Rot.
Local Open Scope c_scope.

(** The characters of a literal. *)
Definition chars (s : string) : list Z := List.map (fun c => Z.of_N (N_of_ascii c)) (list_ascii_of_string s).

(** ** The device tree library

    Operations on the tree at an address; [T] is the memory that holds it. *)
Class Fdt (T : Type) := {
  fdt_check_header : Z -> M T Z;
  (** offset and depth *)
  fdt_next_node : Z -> Z -> Z -> M T (Z * Z);
  fdt_get_name : Z -> Z -> M T (option (list Z));
  fdt_setprop : Z -> Z -> list Z -> list Z -> M T Z;
  fdt_delprop : Z -> Z -> list Z -> M T Z;
  fdt_appendprop : Z -> Z -> list Z -> list Z -> M T Z
}.

(** [cpu_to_fdt32]: big endian *)
Definition fdt32 (v : Z) : list Z := rev (le_bytes 4 (u32 v)).
Definition fdt_setprop_u32 `{Fdt T} (fdt off : Z) (name : list Z) (val : Z) : M T Z := fdt_setprop fdt off name (fdt32 val).
Definition fdt_appendprop_u32 `{Fdt T} (fdt off : Z) (name : list Z) (val : Z) : M T Z := fdt_appendprop fdt off name (fdt32 val).
Definition fdt_setprop_string `{Fdt T} (fdt off : Z) (name str : list Z) : M T Z := fdt_setprop fdt off name (str ++ [0]).

(** What a property holds. *)
Class FdtLaws (T : Type) `{Fdt T} := {
  fdt_prop : T -> Z -> Z -> list Z -> option (list Z);
  query_law : forall fdt off depth t, (fdt_check_header fdt t).2 = t /\ (fdt_next_node fdt off depth t).2 = t /\ (fdt_get_name fdt off t).2 = t;
  setprop_law : forall fdt off name v t t', fdt_setprop fdt off name v t = (0, t') ->
    forall n, fdt_prop t' fdt off n = if decide (n = name) then Some v else fdt_prop t fdt off n;
  delprop_law : forall fdt off name t t', fdt_delprop fdt off name t = (0, t') ->
    forall n, fdt_prop t' fdt off n = if decide (n = name) then None else fdt_prop t fdt off n;
  appendprop_law : forall fdt off name v t t', fdt_appendprop fdt off name v t = (0, t') ->
    forall n, fdt_prop t' fdt off n = if decide (n = name) then Some (default [] (fdt_prop t fdt off name) ++ v) else fdt_prop t fdt off n
}.

(** ** The driver *)

Record boot_driver_linux_config (T : Type) := LinuxConfig {
  image_bpak_id : Z;
  dtb_bpak_id : Z;
  ramdisk_bpak_id : Z;
  dtb_patch_cb : option (Z -> Z -> M T Z);
  resolve_part_name : option (uuid_t -> list Z);
  set_dtb_boot_arg : bool
}.
Arguments LinuxConfig {T}. Arguments image_bpak_id {T}. Arguments dtb_bpak_id {T}. Arguments ramdisk_bpak_id {T}.
Arguments dtb_patch_cb {T}. Arguments resolve_part_name {T}. Arguments set_dtb_boot_arg {T}.

(** The static variables, next to the state of the parts it calls and the
    memory of the tree. *)
Record linux_st (T HR HS X : Type) := LinuxSt {
  l_cfg : option (boot_driver_linux_config T); jump_addr : Z; ramdisk_addr : Z; dtb_addr : Z;
  l_rot : rot_state HR; l_slc : slc_state HS; l_tree : T; l_rest : X
}.
Arguments LinuxSt {T HR HS X}. Arguments l_cfg {T HR HS X}. Arguments jump_addr {T HR HS X}. Arguments ramdisk_addr {T HR HS X}.
Arguments dtb_addr {T HR HS X}. Arguments l_rot {T HR HS X}. Arguments l_slc {T HR HS X}. Arguments l_tree {T HR HS X}. Arguments l_rest {T HR HS X}.

Definition p_device_uuid := chars "pb,device-uuid".
Definition p_slc := chars "pb,slc".
Definition p_active_key := chars "pb,slc-active-key".
Definition p_available_keys := chars "pb,slc-available-keys".
Definition p_initrd_start := chars "linux,initrd-start".
Definition p_initrd_end := chars "linux,initrd-end".
Definition p_active_system := chars "pb,active-system".

Section linux.
Context {arch : Arch} {T HR HS X : Type} `{!Fdt T}.
Abbreviation W := (linux_st T HR HS X).
Abbreviation L := (M W).
(** [device_uuid], what the stack holds where it stores nothing, the memory
    behind the header, and what is read through [mh] when it is NULL. *)
Context (device_uuid : M X (Z * option uuid_t)) (device_uu0 : uuid_t) (behind : list Z) (null_meta : bpak_meta_header).
(** How many nodes of the tree the model looks at; the jump. *)
Context (node_fuel : nat) (arch_disable_mmu : L unit) (arch_jump : Z -> Z -> L unit).

Definition on_tree {A} (m : M T A) : L A := fun w =>
  let '(a, t) := m (l_tree w) in (a, LinuxSt (l_cfg w) (jump_addr w) (ramdisk_addr w) (dtb_addr w) (l_rot w) (l_slc w) t (l_rest w)).
Definition on_lrot {A} (m : M (rot_state HR) A) : L A := fun w =>
  let '(a, r) := m (l_rot w) in (a, LinuxSt (l_cfg w) (jump_addr w) (ramdisk_addr w) (dtb_addr w) r (l_slc w) (l_tree w) (l_rest w)).
Definition on_lslc {A} (m : M (slc_state HS) A) : L A := fun w =>
  let '(a, s) := m (l_slc w) in (a, LinuxSt (l_cfg w) (jump_addr w) (ramdisk_addr w) (dtb_addr w) (l_rot w) s (l_tree w) (l_rest w)).
Definition on_lrest {A} (m : M X A) : L A := fun w =>
  let '(a, x) := m (l_rest w) in (a, LinuxSt (l_cfg w) (jump_addr w) (ramdisk_addr w) (dtb_addr w) (l_rot w) (l_slc w) (l_tree w) x).
Definition set_jump (a : Z) : L unit := modify (fun w => LinuxSt (l_cfg w) a (ramdisk_addr w) (dtb_addr w) (l_rot w) (l_slc w) (l_tree w) (l_rest w)).
Definition set_ramdisk (a : Z) : L unit := modify (fun w => LinuxSt (l_cfg w) (jump_addr w) a (dtb_addr w) (l_rot w) (l_slc w) (l_tree w) (l_rest w)).
Definition set_dtb (a : Z) : L unit := modify (fun w => LinuxSt (l_cfg w) (jump_addr w) (ramdisk_addr w) a (l_rot w) (l_slc w) (l_tree w) (l_rest w)).

Definition boot_driver_linux_init (cfg_in : boot_driver_linux_config T) : L Z :=
  modify (fun w => LinuxSt (Some cfg_in) (jump_addr w) (ramdisk_addr w) (dtb_addr w) (l_rot w) (l_slc w) (l_tree w) (l_rest w)) ;;;
  if image_bpak_id cfg_in =? 0 then ret (- PB_ERR_PARAM) else ret PB_OK.

(** [(uintptr_t) *bpak_get_meta_ptr(hdr, mh, uint64_t)] *)
Definition meta_addr (hdr : bpak_header) (m : bpak_meta_header) : Z := usz (meta_u64 behind hdr m).
Definition meta_at (hdr : bpak_header) (i : option nat) : bpak_meta_header :=
  match i with Some i => default zero_meta (h_meta hdr !! i) | None => null_meta end.

(** The search for the node, its offset if it is found. *)
Fixpoint find_chosen (fuel : nat) (fdt offset depth : Z) : L (option Z) :=
  match fuel with
  | O => ret None
  | S fuel =>
      let* (offset, depth) := on_tree (fdt_next_node fdt offset depth) in
      if offset <? 0 then ret None else
      name <- on_tree (fdt_get_name fdt offset) ;;
      match name with
      | None => find_chosen fuel fdt offset depth
      | Some name => if decide (name = chars "chosen") then ret (Some offset) else find_chosen fuel fdt offset depth
      end
  end.

(** The loop over the keys; [n] is the number of indexes that are left. *)
Fixpoint append_keys (fuel : nat) (fdt offset i : Z) : L Z :=
  n <- on_lrot rot_no_of_keys ;;
  if negb (i <? n) then ret 0 else
  match fuel with
  | O => ret (- PB_ERR_TIMEOUT)
  | S fuel =>
      st <- on_lrot (rot_read_key_status_by_idx i) ;;
      if st =? PB_OK then
        id <- on_lrot (rot_key_idx_to_id i) ;;
        rc <- on_tree (fdt_appendprop_u32 fdt offset p_available_keys id) ;;
        if negb (rc =? 0) then ret (-1) else append_keys fuel fdt offset (i + 1)
      else append_keys fuel fdt offset (i + 1)
  end.
Definition linux_add_keys (fdt offset : Z) : L Z :=
  n <- on_lrot rot_no_of_keys ;; append_keys (Z.to_nat n) fdt offset 0.

(** The life cycle state and the keys. *)
Definition linux_patch_slc (hdr : bpak_header) (fdt offset : Z) : L Z :=
  slc <- on_lslc slc_read_status ;;
  if slc <? 0 then ret slc else
  rc <- on_tree (fdt_setprop_u32 fdt offset p_slc slc) ;;
  if negb (rc =? 0) then ret (- PB_ERR) else
  rc <- on_tree (fdt_setprop_u32 fdt offset p_active_key (h_key_id hdr)) ;;
  if negb (rc =? 0) then ret (- PB_ERR) else
  rc <- on_tree (fdt_delprop fdt offset p_available_keys) ;;
  if negb (rc =? 0) then ret (-1) else
  linux_add_keys fdt offset.

Definition linux_patch_ramdisk (cfg : boot_driver_linux_config T) (hdr : bpak_header) (fdt offset : Z) : L Z :=
  if ramdisk_bpak_id cfg =? 0 then ret PB_OK else
  match bpak_get_part hdr (ramdisk_bpak_id cfg) with
  | (rc, Some i) =>
      w <- get ;;
      let ramdisk_length := bpak_part_size (default zero_part (h_parts hdr !! i)) in
      rc <- on_tree (fdt_setprop_u32 fdt offset p_initrd_start (ramdisk_addr w)) ;;
      if negb (rc =? 0) then ret (- PB_ERR) else
      rc <- on_tree (fdt_setprop_u32 fdt offset p_initrd_end (ramdisk_addr w + ramdisk_length)) ;;
      if negb (rc =? 0) then ret (- PB_ERR) else ret PB_OK
  | (_, None) => ret (- PB_ERR_BAD_META)
  end.

Definition linux_patch_dtb (cfg : boot_driver_linux_config T) (hdr : bpak_header) (boot_part_uu : uuid_t) (device_uu_str : list Z) (fdt : Z) : L Z :=
  rc <- on_tree (fdt_check_header fdt) ;;
  if rc <? 0 then ret (- PB_ERR) else
  chosen <- find_chosen node_fuel fdt 0 0 ;;
  match chosen with
  | None => ret (- PB_ERR)
  | Some offset =>
      rc <- on_tree (fdt_setprop_string fdt offset p_device_uuid device_uu_str) ;;
      if negb (rc =? 0) then ret (-1) else
      rc <- match dtb_patch_cb cfg with Some cb => on_tree (cb fdt offset) | None => ret PB_OK end ;;
      if negb (rc =? PB_OK) then ret rc else
      rc <- linux_patch_slc hdr fdt offset ;;
      if negb (rc =? 0) then ret rc else
      rc <- linux_patch_ramdisk cfg hdr fdt offset ;;
      if negb (rc =? PB_OK) then ret rc else
      match resolve_part_name cfg with
      | Some f => rc <- on_tree (fdt_setprop_string fdt offset p_active_system (f boot_part_uu)) ;; if negb (rc =? PB_OK) then ret (-1) else ret PB_OK
      | None => ret PB_OK
      end
  end.

(** The result of [device_uuid] is not looked at.  The cache has no effect
    here. *)
Definition boot_driver_linux_prepare (hdr : bpak_header) (boot_part_uu : uuid_t) : L Z :=
  w <- get ;;
  match l_cfg w with
  | None => ret (- PB_ERR)
  | Some cfg =>
      match bpak_get_meta hdr BPAK_ID_PB_LOAD_ADDR (image_bpak_id cfg) with
      | (_, None) => ret (- PB_ERR_BAD_META)
      | (_, Some i) =>
          set_jump (meta_addr hdr (meta_at hdr (Some i))) ;;;
          let* (_, u) := on_lrest device_uuid in
          let device_uu_str := default [] (uuid_unparse (default device_uu0 u)) in
          rc <- (if ramdisk_bpak_id cfg =? 0 then ret PB_OK else
                 let '(rc, i) := bpak_get_meta hdr BPAK_ID_PB_LOAD_ADDR (ramdisk_bpak_id cfg) in
                 set_ramdisk (meta_addr hdr (meta_at hdr i)) ;;;
                 if rc =? PB_OK then ret PB_OK else ret (- PB_ERR_BAD_META)) ;;
          if negb (rc =? PB_OK) then ret rc else
          if dtb_bpak_id cfg =? 0 then ret PB_OK else
          match bpak_get_part hdr (dtb_bpak_id cfg), bpak_get_meta hdr BPAK_ID_PB_LOAD_ADDR (dtb_bpak_id cfg) with
          | (_, None), _ => ret (- PB_ERR_BAD_META)
          | _, (_, None) => ret (- PB_ERR_BAD_META)
          | (_, Some _), (_, Some j) =>
              let dtb := meta_addr hdr (meta_at hdr (Some j)) in
              set_dtb dtb ;;;
              linux_patch_dtb cfg hdr boot_part_uu device_uu_str dtb
          end
      end
  end.

(** NULL is 0. *)
Definition boot_driver_linux_jump : L unit :=
  arch_disable_mmu ;;;
  w <- get ;;
  match l_cfg w with
  | Some cfg => if set_dtb_boot_arg cfg then arch_jump (jump_addr w) (dtb_addr w) else arch_jump (jump_addr w) 0
  | None => ret tt
  end.
End linux.

(** ** The armv7m driver *)

Record boot_driver_armv7m_baremetal_config := BaremetalConfig { image_base_address : Z; image_size : Z; boot_partition_id : Z }.
Record baremetal_st := BaremetalSt { b_cfg : boot_driver_armv7m_baremetal_config; jump_part_offset : Z }.

Section baremetal.
Context {arch : Arch}.
Abbreviation B := (M baremetal_st).

(** [sizeof(struct bpak_header)] is 4096. *)
Definition boot_driver_armv7m_baremetal_init (cfg_in : boot_driver_armv7m_baremetal_config) : B Z :=
  modify (fun s => BaremetalSt cfg_in (jump_part_offset s)) ;;;
  if (image_base_address cfg_in =? 0) || (image_size cfg_in <? 4096) || (boot_partition_id cfg_in =? 0)
  then ret (- PB_ERR_PARAM) else ret PB_OK.

(** The loop over the parts of the header. *)
Fixpoint find_jump (hdr : bpak_header) (l : list bpak_part_header) (id : Z) : option Z :=
  match l with
  | [] => None
  | p :: l => if part_id p =? 0 then None else if part_id p =? id then Some (usz (bpak_part_offset hdr p - 4096)) else find_jump hdr l id
  end.

Definition boot_driver_armv7m_baremetal_prepare (hdr : bpak_header) (boot_part_uu : uuid_t) : B Z :=
  s <- get ;;
  match find_jump hdr (h_parts hdr) (boot_partition_id (b_cfg s)) with
  | Some off => modify (fun s => BaremetalSt (b_cfg s) off) ;;; ret PB_OK
  | None => ret (- PB_ERR_BAD_META)
  end.

(** The address that control goes to. *)
Definition boot_driver_armv7m_baremetal_jump (arch_jump : Z -> B unit) : B unit :=
  s <- get ;; arch_jump (usz (image_base_address (b_cfg s) + jump_part_offset s)).
End baremetal.

Lemma find_jump_inv `{Arch} hdr l id off : find_jump hdr l id = Some off -> exists k p, l !! k = Some p /\ part_id p = id /\ id <> 0 /\
  (forall j q, (j < k)%nat -> l !! j = Some q -> part_id q <> 0 /\ part_id q <> id) /\ off = usz (bpak_part_offset hdr p - 4096).
Proof.
  induction l as [|p l IH]; cbn [find_jump]; [done|]. destruct (Z.eqb_spec (part_id p) 0); [done|]. destruct (Z.eqb_spec (part_id p) id) as [<- |].
  - intros [= <-]. exists 0%nat, p. split_and!; try done. intros j q Hj. lia.
  - intros (k & p' & Hk & Hid & Hne & Hpre & ->)%IH. exists (S k), p'. split_and!; try done. intros [|j] q Hj Hq; [by injection Hq as <-|]. apply (Hpre j); [lia|done].
Qed.

(** The entry of a bare-metal image: the prepared address is where the chosen
    part lies behind the image's base, after all parts before it. *)
Theorem baremetal_entry `{Arch} hdr uu s s' : boot_driver_armv7m_baremetal_prepare hdr uu s = (PB_OK, s') ->
  exists k p, h_parts hdr !! k = Some p /\ part_id p = boot_partition_id (b_cfg s) /\ b_cfg s' = b_cfg s /\
    (parts_before hdr k < 2 ^ 31 -> jump_part_offset s' = parts_before hdr k).
Proof.
  unfold boot_driver_armv7m_baremetal_prepare, bind, get. destruct (find_jump _ _ _) as [off|] eqn:E; [|done]. intros [= <-].
  apply find_jump_inv in E as (k & p & Hk & Hid & Hne & Hpre & ->). exists k, p. split_and!; try done. cbn [jump_part_offset]. intros Hb.
  assert (Hpos : 0 <= parts_before hdr k).
  { unfold parts_before. clear. induction (take k (h_parts hdr)) as [|x l IH]; cbn; [lia|]. pose proof (bpak_part_size_range x). lia. }
  unfold bpak_part_offset. rewrite Hid. change (sizeof bpak_header_c) with 4096.
  rewrite (part_offset_loop_sum (h_parts hdr) (boot_partition_id (b_cfg s)) 4096 k p Hk Hid Hne ltac:(lia) Hpre); fold (parts_before hdr k); [|lia].
  pose proof ptr_bits_ge32. rewrite Z.add_simpl_l. apply Z.mod_small. lia.
Qed.

(** ** What Linux is told *)

Lemma bind_inv {W A B} (m : M W A) (k : A -> M W B) w r w' : bind m k w = (r, w') -> exists a w1, m w = (a, w1) /\ k a w1 = (r, w').
Proof. unfold bind. destruct (m w) as [a w1]. eauto. Qed.

(** Takes the next call of a run apart. *)
Ltac step H := let a := fresh "a" in let w := fresh "w" in let E := fresh "E" in apply bind_inv in H as (a & w & E & H).

Section proofs.
Context {arch : Arch} {T HR HS X : Type} `{!Fdt T, !FdtLaws T}.
Abbreviation W := (linux_st T HR HS X).
Implicit Types w : W.
Context (device_uuid : M X (Z * option uuid_t)) (device_uu0 : uuid_t) (behind : list Z) (null_meta : bpak_meta_header) (node_fuel : nat).

(** The variables and the keys are as before. *)
Definition kept (w w' : W) : Prop :=
  l_cfg w' = l_cfg w /\ jump_addr w' = jump_addr w /\ ramdisk_addr w' = ramdisk_addr w /\ dtb_addr w' = dtb_addr w /\ l_rot w' = l_rot w.
Lemma kept_trans w1 w2 w3 : kept w1 w2 -> kept w2 w3 -> kept w1 w3.
Proof. unfold kept. intuition congruence. Qed.

Lemma tree_inv {A} (m : M T A) w a w' : on_tree m w = (a, w') -> m (l_tree w) = (a, l_tree w') /\ kept w w' /\ l_slc w' = l_slc w.
Proof. unfold on_tree. destruct (m (l_tree w)) as [x t]. by intros [= <- <-]. Qed.

(** What the node at [off] says. *)
Definition said w (fdt off : Z) (n : list Z) : option (list Z) := fdt_prop (l_tree w) fdt off n.

Lemma setprop_inv fdt off name v w w' : on_tree (fdt_setprop fdt off name v) w = (0, w') ->
  kept w w' /\ l_slc w' = l_slc w /\ forall n, said w' fdt off n = if decide (n = name) then Some v else said w fdt off n.
Proof. intros (E & K & Ks)%tree_inv. split; [done|]. split; [done|]. intros n. by apply setprop_law. Qed.

(** *** Keys *)

(** The key map, the state of the fuses, and which status a key has there. *)
Context (c : rot_config HR) (h : HR) (status : rot_key -> Z).
Hypothesis status_ok : exists f, read_key_status c = Some f /\ forall k, f k h = (status k, h).

(** The ids of the keys that are active, as the property holds them. *)
Definition key_cells (ks : list rot_key) : list Z := concat (map (fun k => fdt32 (rk_id k)) (filter (fun k => status k = PB_OK) ks)).

Lemma lrot_run {A} (m : M (rot_state HR) A) a w : m (l_rot w) = (a, l_rot w) -> on_lrot m w = (a, w).
Proof. unfold on_lrot. intros ->. by destruct w. Qed.
Lemma count_run w : l_rot w = RotState (Some c) h -> on_lrot rot_no_of_keys w = (key_map_length c, w).
Proof. intros E. apply lrot_run. unfold rot_no_of_keys, bind, get. by rewrite E. Qed.
Lemma key_run i k w : l_rot w = RotState (Some c) h -> key_map c !! i = Some k ->
  on_lrot (rot_read_key_status_by_idx (Z.of_nat i)) w = (status k, w) /\ on_lrot (rot_key_idx_to_id (Z.of_nat i)) w = (rk_id k, w).
Proof using status_ok.
  intros E Hk. destruct status_ok as (f & Ef & Hf). pose proof (lookup_lt_Some _ _ _ Hk). split; apply lrot_run;
    unfold rot_read_key_status_by_idx, rot_key_idx_to_id, bind, get; rewrite E; cbn [rot_cfg]; rewrite ?Ef; unfold key_map_length;
    rewrite (proj2 (Z.ltb_lt _ _)) by lia; cbn [negb]; rewrite Nat2Z.id, Hk; [|done].
  unfold call_rot. cbn [rot_hw rot_cfg]. by rewrite Hf.
Qed.

Lemma append_keys_ok fuel fdt off i w w' : l_rot w = RotState (Some c) h -> length (key_map c) = (i + fuel)%nat ->
  append_keys fuel fdt off (Z.of_nat i) w = (0, w') ->
  kept w w' /\ forall n, said w' fdt off n =
    if decide (n = p_available_keys /\ key_cells (drop i (key_map c)) <> []) then Some (default [] (said w fdt off n) ++ key_cells (drop i (key_map c)))
    else said w fdt off n.
Proof using status_ok FdtLaws0.
  revert i w. induction fuel as [|fuel IH]; intros i w Hc Hl H; cbn [append_keys] in H; unfold bind at 1 in H; rewrite count_run in H by done.
  - rewrite (proj2 (Z.ltb_ge _ _)) in H by (unfold key_map_length; lia). injection H as <-. split; [done|]. intros n.
    rewrite drop_ge by lia. destruct (decide _) as [[_ []]|]; done.
  - rewrite (proj2 (Z.ltb_lt _ _)) in H by (unfold key_map_length; lia). cbn [negb] in H.
    destruct (lookup_lt_is_Some_2 (key_map c) i) as [k Hk]; [lia|]. destruct (key_run i k w Hc Hk) as [E1 E2].
    unfold bind at 1 in H. rewrite E1 in H. rewrite (drop_S _ _ _ Hk). unfold key_cells. cbn [filter list_filter].
    replace (Z.of_nat i + 1) with (Z.of_nat (S i)) in H by lia. fold (key_cells (drop (S i) (key_map c))).
    destruct (Z.eqb_spec (status k) PB_OK) as [Es|Es]; [rewrite decide_True by done|rewrite decide_False by done; apply IH; [done|lia|done]].
    unfold bind at 1 in H. rewrite E2 in H. step H. destruct (Z.eqb_spec a 0) as [-> |]; [|done]. cbn [negb] in H.
    apply tree_inv in E as (E & K & _). pose proof (appendprop_law _ _ _ _ _ _ E) as Hap.
    apply IH in H as [K' Hs]; [|by destruct K as (_ & _ & _ & _ & ->)|lia]. split; [by eapply kept_trans|].
    intros n. rewrite Hs. unfold said. rewrite Hap. cbn [map concat]. fold (key_cells (drop (S i) (key_map c))).
    change (filter _ _) with (filter (fun k => status k = PB_OK) (drop (S i) (key_map c))) in *.
    change (concat (map _ (filter _ (drop (S i) (key_map c))))) with (key_cells (drop (S i) (key_map c))).
    set (kc := key_cells _). destruct (decide (n = p_available_keys)) as [-> |Hn]; [|by rewrite !decide_False by (by intros [])].
    rewrite (decide_True (P := p_available_keys = p_available_keys /\ fdt32 (rk_id k) ++ kc <> [])) by (split; [done|unfold fdt32; by destruct (rev _) eqn:Er; [apply (f_equal length) in Er; rewrite length_rev, length_le_bytes in Er|]]).
    destruct (decide (_ /\ kc <> [])) as [_|Hk0]; [cbn; by rewrite <- app_assoc|].
    assert (kc = []) as -> by (destruct (decide (kc = [])); [done|by exfalso; apply Hk0]). by rewrite app_nil_r.
Qed.

(** *** The node *)

Lemma chosen_inv fuel fdt off depth w o w' : find_chosen fuel fdt off depth w = (o, w') ->
  kept w w' /\ l_slc w' = l_slc w /\ forall x, o = Some x -> (fdt_get_name fdt x (l_tree w)).1 = Some (chars "chosen").
Proof using FdtLaws0.
  revert off depth w. induction fuel as [|fuel IH]; intros off depth w H; cbn [find_chosen] in H; [by injection H as <- <-|].
  step H. destruct a as [off1 depth1]. apply tree_inv in E as (E & K1 & S1). pose proof (query_law fdt off depth (l_tree w)) as (_ & Q1 & _). rewrite E in Q1.
  cbn in Q1. destruct (off1 <? 0); [by injection H as <- <-|].
  step H. apply tree_inv in E0 as (E0 & K2 & S2). pose proof (query_law fdt off1 0 (l_tree w0)) as (_ & _ & Q2). rewrite E0 in Q2. cbn in Q2.
  assert (K : kept w w1 /\ l_slc w1 = l_slc w /\ l_tree w1 = l_tree w) by (split; [by eapply kept_trans|by rewrite S2, Q2]).
  destruct K as (K & S & Q).
  assert (Hgo : find_chosen fuel fdt off1 depth1 w1 = (o, w') -> kept w w' /\ l_slc w' = l_slc w /\ forall x, o = Some x -> (fdt_get_name fdt x (l_tree w)).1 = Some (chars "chosen")).
  { intros (K3 & S3 & H3)%IH. rewrite Q in H3. split; [by eapply kept_trans|]. by rewrite S3. }
  destruct a as [name|]; [|by apply Hgo]. destruct (decide (name = chars "chosen")) as [-> |]; [|by apply Hgo].
  injection H as <- <-. split; [done|]. split; [done|]. intros x [= <-]. by rewrite <- Q1, E0.
Qed.

Lemma slc_inv hdr fdt off w w' : l_rot w = RotState (Some c) h -> linux_patch_slc hdr fdt off w = (0, w') ->
  kept w w' /\ exists slc, (slc_read_status (l_slc w)).1 = slc /\ 0 <= slc /\
    said w' fdt off p_slc = Some (fdt32 slc) /\ said w' fdt off p_active_key = Some (fdt32 (h_key_id hdr)) /\
    said w' fdt off p_available_keys = (if decide (key_cells (key_map c) = []) then None else Some (key_cells (key_map c))) /\
    said w' fdt off p_device_uuid = said w fdt off p_device_uuid.
Proof using status_ok FdtLaws0.
  intros Hc H. unfold linux_patch_slc in H. step H.
  assert (Es : (slc_read_status (l_slc w)).1 = a /\ kept w w0 /\ l_tree w0 = l_tree w).
  { unfold on_lslc in E. destruct (slc_read_status (l_slc w)) as [x s0]. by injection E as <- <-. }
  destruct Es as (Es & K0 & Et). destruct (Z.ltb_spec a 0); [by injection H as -> _; lia|].
  step H. destruct (Z.eqb_spec a0 0) as [-> |]; [|done]. apply setprop_inv in E0 as (K1 & _ & P1). cbn [negb] in H.
  step H. destruct (Z.eqb_spec a0 0) as [-> |]; [|done]. apply setprop_inv in E0 as (K2 & _ & P2). cbn [negb] in H.
  step H. destruct (Z.eqb_spec a0 0) as [-> |]; [|done]. apply tree_inv in E0 as (Ed & K3 & _). pose proof (delprop_law _ _ _ _ _ Ed) as P3. cbn [negb] in H.
  assert (K : kept w w3) by (do 3 (eapply kept_trans; [eassumption|]); done). pose proof K as (_ & _ & _ & _ & Kr).
  unfold linux_add_keys, bind in H. rewrite count_run in H by (by rewrite Kr). unfold key_map_length in H. rewrite Nat2Z.id in H.
  apply (append_keys_ok _ _ _ 0) in H as [K4 P4]; [|by rewrite Kr|done]. rewrite drop_0 in P4.
  split; [by eapply kept_trans|]. exists a. split; [done|]. split; [done|].
  rewrite !P4. unfold said in *. rewrite !P3, !P2, !P1, Et.
  split_and!; try done. destruct (decide (key_cells (key_map c) = [])) as [-> |Hk]; [by rewrite decide_False by (by intros [])|]. by rewrite decide_True.
Qed.

Lemma ramdisk_inv cfg hdr fdt off w w' : linux_patch_ramdisk cfg hdr fdt off w = (PB_OK, w') ->
  kept w w' /\ (forall n, n <> p_initrd_start -> n <> p_initrd_end -> said w' fdt off n = said w fdt off n) /\
  (ramdisk_bpak_id cfg <> 0 -> exists i, bpak_get_part hdr (ramdisk_bpak_id cfg) = (BPAK_OK, Some i) /\
    said w' fdt off p_initrd_start = Some (fdt32 (ramdisk_addr w)) /\
    said w' fdt off p_initrd_end = Some (fdt32 (ramdisk_addr w + bpak_part_size (default zero_part (h_parts hdr !! i))))).
Proof using FdtLaws0.
  unfold linux_patch_ramdisk. destruct (Z.eqb_spec (ramdisk_bpak_id cfg) 0) as [Hz|Hz]; [by intros [= <-]|]. intros H.
  assert (Hp : forall rc i, bpak_get_part hdr (ramdisk_bpak_id cfg) = (rc, Some i) -> rc = BPAK_OK).
  { intros rc i. unfold bpak_get_part. destruct (get_part_loop _ _ _); congruence. }
  destruct (bpak_get_part hdr (ramdisk_bpak_id cfg)) as [rc [i|]]; [|done]. rewrite (Hp rc i eq_refl) in *.
  unfold bind at 1, get in H. step H. destruct (Z.eqb_spec a 0) as [-> |]; [|done]. apply setprop_inv in E as (K1 & _ & P1). cbn [negb] in H.
  step H. destruct (Z.eqb_spec a 0) as [-> |]; [|done]. apply setprop_inv in E as (K2 & _ & P2). cbn [negb] in H. injection H as <-.
  split; [by eapply kept_trans|]. split.
  - intros n H1 H2. rewrite P2, P1. by rewrite !decide_False.
  - intros _. exists i. split; [done|]. by rewrite !P2, !P1.
Qed.

(** What the [chosen] node says after the hand-over was prepared. *)
Record told (cfg : boot_driver_linux_config T) (hdr : bpak_header) (boot_part_uu : uuid_t) (uuid_text : list Z) (slc : Z) w (off : Z) : Prop := {
  told_uuid : said w (dtb_addr w) off p_device_uuid = Some (uuid_text ++ [0]);
  told_slc : said w (dtb_addr w) off p_slc = Some (fdt32 slc);
  told_key : said w (dtb_addr w) off p_active_key = Some (fdt32 (h_key_id hdr));
  told_keys : said w (dtb_addr w) off p_available_keys = (if decide (key_cells (key_map c) = []) then None else Some (key_cells (key_map c)));
  told_ramdisk : ramdisk_bpak_id cfg <> 0 -> exists i, bpak_get_part hdr (ramdisk_bpak_id cfg) = (BPAK_OK, Some i) /\
    said w (dtb_addr w) off p_initrd_start = Some (fdt32 (ramdisk_addr w)) /\
    said w (dtb_addr w) off p_initrd_end = Some (fdt32 (ramdisk_addr w + bpak_part_size (default zero_part (h_parts hdr !! i))));
  told_system : forall f, resolve_part_name cfg = Some f -> said w (dtb_addr w) off p_active_system = Some (f boot_part_uu ++ [0])
}.

(** The board's callback leaves the identity of the device alone. *)
Definition patch_ok (cfg : boot_driver_linux_config T) : Prop := forall cb, dtb_patch_cb cfg = Some cb ->
  forall fdt off t t', cb fdt off t = (PB_OK, t') -> fdt_prop t' fdt off p_device_uuid = fdt_prop t fdt off p_device_uuid.

Lemma patch_inv cfg hdr uu text w w' : patch_ok cfg -> l_rot w = RotState (Some c) h ->
  linux_patch_dtb node_fuel cfg hdr uu text (dtb_addr w) w = (PB_OK, w') ->
  kept w w' /\ exists off, (fdt_get_name (dtb_addr w) off (l_tree w)).1 = Some (chars "chosen") /\
    let slc := (slc_read_status (l_slc w)).1 in 0 <= slc /\ told cfg hdr uu text slc w' off.
Proof using status_ok FdtLaws0.
  intros Hcb Hc H. unfold linux_patch_dtb in H. step H. apply tree_inv in E as (E & K0 & L0).
  pose proof (query_law (dtb_addr w) 0 0 (l_tree w)) as (Q0 & _). rewrite E in Q0. cbn in Q0. destruct (a <? 0); [done|].
  step H. apply chosen_inv in E0 as (K1 & L1 & Ho). destruct a0 as [off|]; [|done]. specialize (Ho off eq_refl). rewrite Q0 in Ho.
  step H. destruct (Z.eqb_spec a0 0) as [-> |]; [|done]. apply setprop_inv in E0 as (K2 & L2 & P2). cbn [negb] in H.
  step H. destruct (Z.eqb_spec a0 PB_OK) as [-> |Hne]; [|by injection H as -> _; destruct Hne]. cbn [negb] in H.
  assert (K3 : kept w2 w3 /\ l_slc w3 = l_slc w2 /\ said w3 (dtb_addr w) off p_device_uuid = said w2 (dtb_addr w) off p_device_uuid).
  { destruct (dtb_patch_cb cfg) as [cb|] eqn:Ecb; [|by injection E0 as <-]. apply tree_inv in E0 as (E0 & K & L). split_and!; [done..|]. by eapply Hcb. }
  destruct K3 as (K3 & L3 & P3). assert (K : kept w w3) by (do 3 (eapply kept_trans; [eassumption|]); done).
  step H. destruct (Z.eqb_spec a0 0) as [-> |Hne]; [|by injection H as -> _; destruct Hne]. cbn [negb] in H.
  apply slc_inv in E1 as (K4 & slc & Es & Hs & S1 & S2 & S3 & S4); [|by destruct K as (_ & _ & _ & _ & ->)].
  rewrite L3, L2, L1, L0 in Es.
  step H. destruct (Z.eqb_spec a0 PB_OK) as [-> |Hne]; [|by injection H as -> _; destruct Hne]. cbn [negb] in H.
  apply ramdisk_inv in E1 as (K5 & R1 & R2). assert (K' : kept w w5) by (do 2 (eapply kept_trans; [eassumption|]); done).
  assert (Hlast : kept w5 w' /\ (forall n, n <> p_active_system -> said w' (dtb_addr w) off n = said w5 (dtb_addr w) off n) /\
    forall f, resolve_part_name cfg = Some f -> said w' (dtb_addr w) off p_active_system = Some (f uu ++ [0])).
  { destruct (resolve_part_name cfg) as [f|]; [|by injection H as <-]. step H. destruct (Z.eqb_spec a0 PB_OK) as [-> |]; [|done].
    injection H as <-. apply setprop_inv in E1 as (K6 & _ & P6). split; [done|]. split; [intros n Hn; by rewrite P6, decide_False|].
    intros f0 [= <-]. by rewrite P6, decide_True. }
  destruct Hlast as (K6 & P6 & Q6). assert (Kw : kept w w') by (by eapply kept_trans). split; [done|].
  exists off. split; [done|]. rewrite Es. split; [done|]. destruct Kw as (_ & _ & Kra & Kd & _).
  assert (Hra : ramdisk_addr w4 = ramdisk_addr w') by (destruct K5 as (_ & _ & E5 & _), K6 as (_ & _ & E6 & _); by rewrite E6, E5).
  rewrite !P2 in P3. split; rewrite ?Kd; [by rewrite P6, R1, ?S4, ?P3, ?S1, ?S2, ?S3 by done..| |done].
  intros Hr. rewrite <- Hra. destruct (R2 Hr) as (i & Hi & Q1 & Q2). exists i. by rewrite !P6.
Qed.

(** [C21] What Linux is told: when the UUID of the device can be read, a device
    tree is configured, the board's callback leaves the UUID alone, and the
    hand-over is prepared, control will go to the load address that the
    authenticated header gives for the kernel, the device tree and the ram disk
    are at the load addresses the header gives for them, and the [chosen] node
    of the tree says: the UUID of the device, the life cycle state as it was
    read, the key of the header, exactly the keys that are not revoked in the
    order of the key map, the low 32 bits of where the ram disk begins and of
    where its part ends, and the partition that was booted. *)
Theorem linux_prepare_tells hdr boot_part_uu cfg uu text w w' : l_cfg w = Some cfg -> dtb_bpak_id cfg <> 0 -> patch_ok cfg -> l_rot w = RotState (Some c) h ->
  (device_uuid (l_rest w)).1 = (PB_OK, Some uu) -> uuid_unparse uu = Some text ->
  boot_driver_linux_prepare device_uuid device_uu0 behind null_meta node_fuel hdr boot_part_uu w = (PB_OK, w') ->
  let load_addr id a := exists i, bpak_get_meta hdr BPAK_ID_PB_LOAD_ADDR id = (BPAK_OK, Some i) /\ a = meta_addr behind hdr (default zero_meta (h_meta hdr !! i)) in
  load_addr (image_bpak_id cfg) (jump_addr w') /\ load_addr (dtb_bpak_id cfg) (dtb_addr w') /\
  (ramdisk_bpak_id cfg <> 0 -> load_addr (ramdisk_bpak_id cfg) (ramdisk_addr w')) /\
  exists off, (fdt_get_name (dtb_addr w') off (l_tree w)).1 = Some (chars "chosen") /\
    let slc := (slc_read_status (l_slc w)).1 in 0 <= slc /\ told cfg hdr boot_part_uu text slc w' off.
Proof using status_ok FdtLaws0.
  intros Hcfg Hdtb Hcb Hc Huu Htext H load_addr. unfold boot_driver_linux_prepare in H. unfold bind at 1, get in H. rewrite Hcfg in H.
  assert (Hm : forall id rc i, bpak_get_meta hdr BPAK_ID_PB_LOAD_ADDR id = (rc, i) -> match i with Some _ => rc = BPAK_OK | None => rc <> BPAK_OK end).
  { intros id rc i. unfold bpak_get_meta, bpak_get_meta_int. destruct (get_meta_loop _ _ _ _ _); intros [= <- <-]; done. }
  destruct (bpak_get_meta hdr BPAK_ID_PB_LOAD_ADDR (image_bpak_id cfg)) as [rc [i|]] eqn:Ei; [|done]. pose proof (Hm _ _ _ Ei) as Hrc. cbn iota in Hrc. subst rc.
  unfold bind at 1, set_jump, modify in H. step H. unfold on_lrest in E. cbn [l_rest] in E.
  destruct (device_uuid (l_rest w)) as [[rcu u] x] eqn:Eu. injection E as <- <-. cbn [fst snd] in Huu. injection Huu as -> ->. change (uuid_unparse (default device_uu0 (Some uu))) with (uuid_unparse uu) in H. rewrite Htext in H. step H.
  destruct (Z.eqb_spec a PB_OK) as [-> |Hne]; [|by injection H as -> _; destruct Hne]. cbn [negb] in H.
  assert (Kw : jump_addr w0 = meta_addr behind hdr (default zero_meta (h_meta hdr !! i)) /\ l_rot w0 = RotState (Some c) h /\ l_slc w0 = l_slc w /\ l_tree w0 = l_tree w /\
    (ramdisk_bpak_id cfg <> 0 -> load_addr (ramdisk_bpak_id cfg) (ramdisk_addr w0))).
  { destruct (Z.eqb_spec (ramdisk_bpak_id cfg) 0); [by injection E as <-|].
    destruct (bpak_get_meta hdr BPAK_ID_PB_LOAD_ADDR (ramdisk_bpak_id cfg)) as [rr ir] eqn:Er. unfold bind, set_ramdisk, modify in E. apply Hm in Er as Hr.
    destruct (Z.eqb_spec rr PB_OK) as [-> |]; [|done]. injection E as <-. destruct ir as [ir|]; [|done]. split_and!; try done. intros _. by exists ir. }
  destruct Kw as (Kj & Kr & Ks & Kt & Kram). rewrite (proj2 (Z.eqb_neq _ _)) in H by done.
  destruct (bpak_get_part hdr (dtb_bpak_id cfg)) as [rp [ip|]]; [|done].
  destruct (bpak_get_meta hdr BPAK_ID_PB_LOAD_ADDR (dtb_bpak_id cfg)) as [rd [j|]] eqn:Ej; [|done]. pose proof (Hm _ _ _ Ej) as Hrd. cbn iota in Hrd. subst rd.
  unfold bind, set_dtb, modify in H. set (w1 := LinuxSt _ _ _ _ _ _ _ _) in H.
  change (meta_addr behind hdr (meta_at null_meta hdr (Some j))) with (dtb_addr w1) in H.
  apply patch_inv in H as (K & off & Ht & Hs0 & HT); [|done|done]. destruct K as (_ & Kj' & Kra & Kd' & _).
  cbn [l_slc l_tree w1] in Hs0, HT, Ht. rewrite Ks in Hs0, HT. rewrite Kt in Ht.
  split; [exists i; split; [done|by rewrite Kj']|]. split; [exists j; split; [done|by rewrite Kd']|]. split; [by rewrite Kra|].
  exists off. rewrite Kd'. done.
Qed.
End proofs.

(** ** A tree of three nodes *)

Module ToyTree.
(** A node's offset is its number. *)
Abbreviation tree := (list (list Z * (list Z -> option (list Z)))).
Definition edit (off : Z) (f : (list Z -> option (list Z)) -> list Z -> option (list Z)) : M tree Z := fun t =>
  if (0 <=? off) && (off <? Z.of_nat (length t)) then (0, alter (fun '(n, p) => (n, f p)) (Z.to_nat off) t) else (-1, t).
Definition prop (t : tree) (fdt off : Z) (n : list Z) : option (list Z) := if 0 <=? off then '(_, p) ← t !! Z.to_nat off; p n else None.
#[global] Instance ops : Fdt tree := {|
  fdt_check_header := fun _ => ret 0;
  fdt_next_node := fun _ off depth t => ((if off + 1 <? Z.of_nat (length t) then off + 1 else -1, depth), t);
  fdt_get_name := fun _ off t => (fst <$> t !! Z.to_nat off, t);
  fdt_setprop := fun _ off n v => edit off (fun p x => if decide (x = n) then Some v else p x);
  fdt_delprop := fun _ off n => edit off (fun p x => if decide (x = n) then None else p x);
  fdt_appendprop := fun _ off n v => edit off (fun p x => if decide (x = n) then Some (default [] (p n) ++ v) else p x)
|}.
Lemma edit_law off f t t' fdt n : edit off f t = (0, t') -> prop t' fdt off n = f (prop t fdt off) n.
Proof.
  unfold edit, prop. destruct ((0 <=? off) && (off <? Z.of_nat (length t))) eqn:E; [|done]. zbool. intros [= <-].
  rewrite (proj2 (Z.leb_le 0 off)) by done. rewrite list_lookup_alter. destruct (lookup_lt_is_Some_2 t (Z.to_nat off)) as [[m p] ->]; [lia|]. by rewrite decide_True.
Qed.
#[global] Instance laws : FdtLaws tree.
Proof.
  refine {| fdt_prop := prop |}; [done|..]; intros fdt off name; intros; by rewrite (edit_law off _ _ _ fdt n H).
Qed.

Definition config : boot_driver_linux_config tree := LinuxConfig 7 8 8 None (Some (fun u => chars "A")) true.
Definition slc : slc_state unit := SlcState (Some (SlcConfig (Some (ret 3)) None None None)) tt.
Definition start : linux_st tree (list Z) unit unit :=
  LinuxSt (Some config) 0 0 0 ToyRot.state slc [(chars "", fun _ => None); (chars "memory", fun _ => None); (chars "chosen", fun _ => None)] tt.
Definition header : bpak_header :=
  BpakHeader BPAK_HEADER_MAGIC (zeros 4)
    (MetaHeader BPAK_ID_PB_LOAD_ADDR 8 0 7 (zeros 4) :: MetaHeader BPAK_ID_PB_LOAD_ADDR 8 8 8 (zeros 4) :: replicate 30 zero_meta)
    (PartHeader 7 500 0 0 12 0 0 :: PartHeader 8 512 0 0 0 0 0 :: replicate 30 zero_part)
    (le_bytes 8 0x10000 ++ le_bytes 8 0x20000 ++ zeros 1904) 1 2 512 (zeros 64) 0x52c1eda0 0 (zeros 42) (zeros 512) 0.
Abbreviation run := (boot_driver_linux_prepare (arch := armv8a) (ret (PB_OK, Some (replicate 16 0xab))) [] [] zero_meta 5 header (zeros 16) start).
End ToyTree.

Lemma toy_ok : ToyTree.run.1 = PB_OK /\ dtb_addr ToyTree.run.2 = 0x20000 /\ jump_addr ToyTree.run.2 = 0x10000 /\ ramdisk_addr ToyTree.run.2 = 0x20000.
Proof. vm_compute. done. Qed.
Lemma toy_run : boot_driver_linux_prepare (arch := armv8a) (ret (PB_OK, Some (replicate 16 0xab))) [] [] zero_meta 5 ToyTree.header (zeros 16) ToyTree.start
  = (PB_OK, ToyTree.run.2).
Proof. rewrite <- (proj1 toy_ok). apply surjective_pairing. Qed.
Definition toy_status (k : rot_key) : Z := if bool_decide (rk_param1 k ∈ [0]) then - PB_ERR_KEY_REVOKED else PB_OK.
Lemma toy_keys : exists f, read_key_status ToyRot.config = Some f /\ forall k, f k [0] = (toy_status k, [0]).
Proof. by eexists. Qed.
Lemma toy_patch : patch_ok ToyTree.config.
Proof. intros cb [=]. Qed.
Lemma toy_part : bpak_get_part ToyTree.header 8 = (BPAK_OK, Some 1%nat).
Proof. done. Qed.

(** The first key is revoked, the second is reported; the ram disk of the
    example is the part with the tree. *)
Lemma linux_prepare_tells_witness : exists off, let w' := ToyTree.run.2 in
  said w' 0x20000 off p_available_keys = Some [0x52; 0xc1; 0xed; 0xa0] /\ said w' 0x20000 off p_initrd_end = Some [0; 2; 2; 0].
Proof.
  pose proof (linux_prepare_tells (arch := armv8a) (ret (PB_OK, Some (replicate 16 0xab))) [] [] zero_meta 5 ToyRot.config [0]
    toy_status toy_keys ToyTree.header (zeros 16) ToyTree.config (replicate 16 0xab) (default [] (uuid_unparse (replicate 16 0xab)))
    ToyTree.start ToyTree.run.2 eq_refl ltac:(discriminate) toy_patch eq_refl eq_refl eq_refl toy_run) as H.
  destruct H as (_ & _ & _ & off & _ & _ & HT). destruct toy_ok as (_ & Edtb & _ & Era).
  exists off. destruct HT as [_ _ _ Hk Hr _]. rewrite Edtb in Hk, Hr. rewrite Era in Hr.
  split; [exact Hk|]. destruct (Hr ltac:(discriminate)) as (ip & Eip & _ & H2).
  pose proof (eq_trans (eq_sym toy_part) Eip) as E. injection E as <-. exact H2.
Defined.
