(* ===== verification/Usb.v ===== *)
(** * The USB device stack

    [src/drivers/usb/usbd.c], the part of the USB stack between the controller
    drivers and command mode: it answers the setup packets of the host from
    the descriptors of the device class and carries the bulk transfers;
    [src/drivers/usb/pb_dev_cls.c], the device class of command mode.  The
    controller driver is a record of functions, [usbd_hal_ops]. *)

From stdpp Require Import gmap.
From S2P Require Import Prelude Errors Uuid UuidText.
Local Open Scope c_scope.

(** ** Data: [include/drivers/usb/usbd.h] *)

(** [usb_ep_t], by its numbers *)
Definition USB_EP0_OUT : Z := 0.
Definition USB_EP0_IN : Z := 1.
Definition USB_EP1_IN : Z := 3.
Definition USB_EP2_OUT : Z := 4.

Record usb_setup_packet := SetupPacket {
  bRequestType : Z; bRequest : Z; wValue : Z; wIndex : Z; wLength : Z
}.

Record usb_language_descriptor := LanguageDesc { la_bLength : Z; la_bDescriptorType : Z; la_wLang : Z }.
Definition usb_language_descriptor_c : codec usb_language_descriptor :=
  c_iso (fun d => (la_bLength d, (la_bDescriptorType d, la_wLang d)))
        (fun '(a, (b, c)) => LanguageDesc a b c) (u8c ⊗ u8c ⊗ u16c)%codec.

Record usb_string_descriptor := StringDesc { st_bLength : Z; st_bDescriptorType : Z; st_unicode : list Z }.
Definition usb_string_descriptor_c : codec usb_string_descriptor :=
  c_iso (fun d => (st_bLength d, (st_bDescriptorType d, st_unicode d)))
        (fun '(a, (b, c)) => StringDesc a b c) (u8c ⊗ u8c ⊗ c_array 127 u16c)%codec.

Record usb_qualifier_descriptor := QualifierDesc {
  qu_bLength : Z; qu_bDescriptorType : Z; qu_bcdUSB : Z; qu_bDeviceClass : Z; qu_bDeviceSubClass : Z;
  qu_bDeviceProtocol : Z; qu_bMaxPacketSize0 : Z; qu_bNumConfigurations : Z; qu_bReserved : Z
}.
Definition usb_qualifier_descriptor_c : codec usb_qualifier_descriptor :=
  c_iso (fun d => (qu_bLength d, (qu_bDescriptorType d, (qu_bcdUSB d, (qu_bDeviceClass d, (qu_bDeviceSubClass d,
           (qu_bDeviceProtocol d, (qu_bMaxPacketSize0 d, (qu_bNumConfigurations d, qu_bReserved d)))))))))
        (fun '(a, (b, (c, (d, (e, (f, (g, (h, i)))))))) => QualifierDesc a b c d e f g h i)
        (u8c ⊗ u8c ⊗ u16c ⊗ u8c ⊗ u8c ⊗ u8c ⊗ u8c ⊗ u8c ⊗ u8c)%codec.

Record usb_device_descriptor := DeviceDesc {
  de_bLength : Z; de_bDescriptorType : Z; de_bcdUSB : Z; de_bDeviceClass : Z; de_bDeviceSubClass : Z;
  de_bDeviceProtocol : Z; de_bMaxPacketSize : Z; de_idVendor : Z; de_idProduct : Z; de_bcdDevice : Z;
  de_iManufacturer : Z; de_iProduct : Z; de_iSerialNumber : Z; de_bNumConfigurations : Z
}.
Definition usb_device_descriptor_c : codec usb_device_descriptor :=
  c_iso (fun d => (de_bLength d, (de_bDescriptorType d, (de_bcdUSB d, (de_bDeviceClass d, (de_bDeviceSubClass d,
           (de_bDeviceProtocol d, (de_bMaxPacketSize d, (de_idVendor d, (de_idProduct d, (de_bcdDevice d,
           (de_iManufacturer d, (de_iProduct d, (de_iSerialNumber d, de_bNumConfigurations d))))))))))))))
        (fun '(a, (b, (c, (d, (e, (f, (g, (h, (i, (j, (k, (l, (m, n))))))))))))) =>
           DeviceDesc a b c d e f g h i j k l m n)
        (u8c ⊗ u8c ⊗ u16c ⊗ u8c ⊗ u8c ⊗ u8c ⊗ u8c ⊗ u16c ⊗ u16c ⊗ u16c ⊗ u8c ⊗ u8c ⊗ u8c ⊗ u8c)%codec.

Record usb_configuration_descriptor := ConfigDesc {
  co_bLength : Z; co_bDescriptorType : Z; co_wTotalLength : Z; co_bNumInterfaces : Z;
  co_bConfigurationValue : Z; co_iConfiguration : Z; co_bmAttributes : Z; co_MaxPower : Z
}.
Definition usb_configuration_descriptor_c : codec usb_configuration_descriptor :=
  c_iso (fun d => (co_bLength d, (co_bDescriptorType d, (co_wTotalLength d, (co_bNumInterfaces d,
           (co_bConfigurationValue d, (co_iConfiguration d, (co_bmAttributes d, co_MaxPower d))))))))
        (fun '(a, (b, (c, (d, (e, (f, (g, h))))))) => ConfigDesc a b c d e f g h)
        (u8c ⊗ u8c ⊗ u16c ⊗ u8c ⊗ u8c ⊗ u8c ⊗ u8c ⊗ u8c)%codec.

Record usb_interface_descriptor := InterfaceDesc {
  in_bLength : Z; in_bDescriptorType : Z; in_bInterfaceNumber : Z; in_bAlternateSetting : Z; in_bNumEndpoints : Z;
  in_bInterfaceClass : Z; in_bInterfaceSubClass : Z; in_bInterfaceProtocol : Z; in_iInterface : Z
}.
Definition usb_interface_descriptor_c : codec usb_interface_descriptor :=
  c_iso (fun d => (in_bLength d, (in_bDescriptorType d, (in_bInterfaceNumber d, (in_bAlternateSetting d, (in_bNumEndpoints d,
           (in_bInterfaceClass d, (in_bInterfaceSubClass d, (in_bInterfaceProtocol d, in_iInterface d)))))))))
        (fun '(a, (b, (c, (d, (e, (f, (g, (h, i)))))))) => InterfaceDesc a b c d e f g h i)
        (u8c ⊗ u8c ⊗ u8c ⊗ u8c ⊗ u8c ⊗ u8c ⊗ u8c ⊗ u8c ⊗ u8c)%codec.

Record usb_endpoint_descriptor := EndpointDesc {
  ep_bLength : Z; ep_bDescriptorType : Z; ep_bEndpointAddress : Z; ep_bmAttributes : Z; ep_wMaxPacketSize : Z; ep_bInterval : Z
}.
Definition usb_endpoint_descriptor_c : codec usb_endpoint_descriptor :=
  c_iso (fun d => (ep_bLength d, (ep_bDescriptorType d, (ep_bEndpointAddress d, (ep_bmAttributes d,
           (ep_wMaxPacketSize d, ep_bInterval d))))))
        (fun '(a, (b, (c, (d, (e, f))))) => EndpointDesc a b c d e f)
        (u8c ⊗ u8c ⊗ u8c ⊗ u8c ⊗ u16c ⊗ u8c)%codec.

#[export] Instance usb_language_descriptor_ok : CodecOK usb_language_descriptor_c.
Proof. solve_struct. Qed.
#[export] Instance usb_string_descriptor_ok : CodecOK usb_string_descriptor_c.
Proof. solve_struct. Qed.
#[export] Instance usb_qualifier_descriptor_ok : CodecOK usb_qualifier_descriptor_c.
Proof. solve_struct. Qed.
#[export] Instance usb_device_descriptor_ok : CodecOK usb_device_descriptor_c.
Proof. solve_struct. Qed.
#[export] Instance usb_configuration_descriptor_ok : CodecOK usb_configuration_descriptor_c.
Proof. solve_struct. Qed.
#[export] Instance usb_interface_descriptor_ok : CodecOK usb_interface_descriptor_c.
Proof. solve_struct. Qed.
#[export] Instance usb_endpoint_descriptor_ok : CodecOK usb_endpoint_descriptor_c.
Proof. solve_struct. Qed.

Record usbd_descriptors := UsbdDescriptors {
  d_language : usb_language_descriptor;
  d_qualifier : usb_qualifier_descriptor;
  d_device : usb_device_descriptor;
  d_config : usb_configuration_descriptor;
  d_interface : usb_interface_descriptor;
  d_eps : list usb_endpoint_descriptor
}.

(** The packed struct from [interface] on, and from [config] on. *)
Definition interface_bytes (d : usbd_descriptors) : list Z :=
  cenc usb_interface_descriptor_c (d_interface d) ++ concat (map (cenc usb_endpoint_descriptor_c) (d_eps d)).
Definition config_bytes (d : usbd_descriptors) : list Z :=
  cenc usb_configuration_descriptor_c (d_config d) ++ interface_bytes d.

(** A transfer buffer: the bytes behind the pointer for what usbd sends
    itself, the address for the buffers of its client. *)
Inductive usb_buf := BufBytes (bs : list Z) | BufAt (addr : Z).

(** The driver; [hal_complete]: none of the five pointers that are checked is
    NULL; [hal_stops]: [stop] is not NULL. *)
Record usbd_hal_ops (HW : Type) := UsbdHalOps {
  hal_init : M HW Z;
  hal_stop : M HW Z;
  hal_xfer_start : Z -> usb_buf -> Z -> M HW Z;
  hal_xfer_complete : Z -> M HW Z;
  hal_xfer_cancel : Z -> M HW unit;
  hal_poll_setup_pkt : M HW (Z * usb_setup_packet);
  hal_set_configuration : list usb_endpoint_descriptor -> Z -> M HW Z;
  hal_set_address : Z -> M HW Z;
  hal_ep0_xfer_zlp : Z -> M HW Z;
  hal_complete : bool;
  hal_stops : bool
}.
Arguments hal_init {HW}.
Arguments hal_stop {HW}.
Arguments hal_xfer_start {HW}.
Arguments hal_xfer_complete {HW}.
Arguments hal_xfer_cancel {HW}.
Arguments hal_poll_setup_pkt {HW}.
Arguments hal_set_configuration {HW}.
Arguments hal_set_address {HW}.
Arguments hal_ep0_xfer_zlp {HW}.
Arguments hal_complete {HW}.
Arguments hal_stops {HW}.

Record usbd_cls_config (HW : Type) := UsbdClsConfig {
  cls_desc : usbd_descriptors;
  cls_get_string_descriptor : Z -> M HW usb_string_descriptor
}.
Arguments UsbdClsConfig {HW}.
Arguments cls_desc {HW}.
Arguments cls_get_string_descriptor {HW}.

(** The static variables of [usbd.c]; NULL is [None]. *)
Record usbd_st (HW : Type) := UsbdSt {
  ud_hw : HW;
  hal_ops : option (usbd_hal_ops HW);
  cls_config : option (usbd_cls_config HW);
  enumerated : bool;
  cur_xfer_ep : Z;
  cur_xfer_buf : usb_buf;
  cur_xfer_length : Z
}.
Arguments UsbdSt {HW}.
Arguments ud_hw {HW}.
Arguments hal_ops {HW}.
Arguments cls_config {HW}.
Arguments enumerated {HW}.
Arguments cur_xfer_ep {HW}.
Arguments cur_xfer_buf {HW}.
Arguments cur_xfer_length {HW}.

(** ** [usbd.c] *)

Definition USB_GET_DESCRIPTOR : Z := 0x8006.
Definition USB_SET_CONFIGURATION : Z := 0x0009.
Definition USB_SET_IDLE : Z := 0x210A.
Definition USB_SET_ADDRESS : Z := 0x0005.
Definition USB_GET_STATUS : Z := 0x8000.
Definition USB_GET_VENDOR : Z := 0xc001.

(** The two constant Microsoft descriptors, as bytes. *)
Definition msft_os_descriptor : list Z :=
  [18; 3; 0x4D; 0x00; 0x53; 0x00; 0x46; 0x00; 0x54; 0x00; 0x31; 0x00; 0x30; 0x00; 0x30; 0x00; 1; 0].
Definition msft_comp_id_feature : list Z :=
  le_bytes 4 40 ++ [0x00; 0x01] ++ le_bytes 2 4 ++ [1] ++ zeros 7 ++ [0] ++ [0] ++
  [0x57; 0x49; 0x4E; 0x55; 0x53; 0x42; 0x00; 0x00] ++ zeros 8 ++ zeros 6.

Section usbd.
(** [busy_fuel]: how many polls of a control transfer the model follows. *)
Context {HW : Type} (busy_fuel : nat).
Abbreviation U := (M (usbd_st HW)).

Definition on_hal {A} (m : M HW A) : U A :=
  fun w => let '(a, h) := m (ud_hw w) in
    (a, UsbdSt h (hal_ops w) (cls_config w) (enumerated w) (cur_xfer_ep w) (cur_xfer_buf w) (cur_xfer_length w)).
Definition set_enumerated (b : bool) : U unit :=
  modify (fun w => UsbdSt (ud_hw w) (hal_ops w) (cls_config w) b (cur_xfer_ep w) (cur_xfer_buf w) (cur_xfer_length w)).

Section with_hal.
Context (hal : usbd_hal_ops HW).

(** [do { rc = .. } while (rc == -PB_ERR_AGAIN)] *)
Fixpoint wait_loop (fuel : nat) (ep : Z) : U Z :=
  match fuel with
  | O => ret (- PB_ERR_AGAIN)
  | S fuel =>
      rc <- on_hal (hal_xfer_complete hal ep) ;;
      if rc =? - PB_ERR_AGAIN then wait_loop fuel ep else ret rc
  end.
Definition wait_for_completion (ep : Z) : U Z := wait_loop busy_fuel ep.

(** [bfr] is the object the pointer points to, with what follows it. *)
Definition ep0_tx (bfr : list Z) (length : Z) : U Z :=
  rc <- on_hal (hal_xfer_start hal USB_EP0_IN (BufBytes (take (Z.to_nat length) bfr)) length) ;;
  if negb (rc =? PB_OK) then ret rc else
  rc <- wait_for_completion USB_EP0_IN ;;
  if negb (rc =? PB_OK) then ret rc else
  on_hal (hal_ep0_xfer_zlp hal USB_EP0_OUT).

(** [MIN(setup->wLength, n)], then the transfer. *)
Definition reply (setup : usb_setup_packet) (bfr : list Z) (n : Z) : U Z := ep0_tx bfr (Z.min (wLength setup) n).

Definition get_descriptor (cls : usbd_cls_config HW) (setup : usb_setup_packet) : U Z :=
  let d := cls_desc cls in
  if wValue setup =? 0x0600 then
    reply setup (cenc usb_qualifier_descriptor_c (d_qualifier d)) (sizeof usb_qualifier_descriptor_c)
  else if wValue setup =? 0x0100 then
    reply setup (cenc usb_device_descriptor_c (d_device d)) (sizeof usb_device_descriptor_c)
  else if wValue setup =? 0x0200 then
    reply setup (config_bytes d) (co_wTotalLength (d_config d))
  else if wValue setup =? 0x0A00 then
    reply setup (interface_bytes d) (in_bLength (d_interface d))
  else if Z.land (wValue setup) 0xFF00 =? 0x0300 then
    let str_desc_idx := Z.land (wValue setup) 0xFF in
    if str_desc_idx =? 0 then
      reply setup (cenc usb_language_descriptor_c (d_language d)) (sizeof usb_language_descriptor_c)
    else if str_desc_idx =? 0xee then
      reply setup msft_os_descriptor (Z.of_nat (length msft_os_descriptor))
    else
      str_desc <- on_hal (cls_get_string_descriptor cls str_desc_idx) ;;
      reply setup (cenc usb_string_descriptor_c str_desc) (st_bLength str_desc)
  else ret (- PB_ERR_IO).

Definition usbd_enumerate (cls : usbd_cls_config HW) (setup : usb_setup_packet) : U Z :=
  let request := Z.lor (Z.shiftl (bRequestType setup) 8) (bRequest setup) in
  if request =? USB_GET_DESCRIPTOR then get_descriptor cls setup
  else if request =? USB_SET_ADDRESS then
    rc <- on_hal (hal_set_address hal (wValue setup)) ;;
    if negb (rc =? PB_OK) then ret rc else
    on_hal (hal_ep0_xfer_zlp hal USB_EP0_IN) ;;; ret rc
  else if request =? USB_SET_CONFIGURATION then
    on_hal (hal_ep0_xfer_zlp hal USB_EP0_IN) ;;;
    rc <- on_hal (hal_set_configuration hal (d_eps (cls_desc cls)) (in_bNumEndpoints (d_interface (cls_desc cls)))) ;;
    if negb (rc =? PB_OK) then ret rc else
    set_enumerated true ;;; ret rc
  else if request =? USB_SET_IDLE then
    on_hal (hal_ep0_xfer_zlp hal USB_EP0_IN) ;;;
    on_hal (hal_ep0_xfer_zlp hal USB_EP0_OUT) ;;;
    ret (- PB_ERR)
  else if request =? USB_GET_STATUS then ep0_tx (le_bytes 2 0) 2
  else if request =? USB_GET_VENDOR then
    if wIndex setup =? 0x04 then reply setup msft_comp_id_feature (Z.of_nat (length msft_comp_id_feature))
    else ret (- PB_ERR)
  else ret (- PB_ERR).
End with_hal.

Definition usbd_init_hal_ops (ops : usbd_hal_ops HW) : U Z :=
  modify (fun w => UsbdSt (ud_hw w) (Some ops) (cls_config w) (enumerated w) (cur_xfer_ep w) (cur_xfer_buf w) (cur_xfer_length w)) ;;;
  if negb (hal_complete ops) then ret (- PB_ERR_PARAM) else ret PB_OK.

Definition usbd_init_cls (cfg : option (usbd_cls_config HW)) : U Z :=
  modify (fun w => UsbdSt (ud_hw w) (hal_ops w) cfg (enumerated w) (cur_xfer_ep w) (cur_xfer_buf w) (cur_xfer_length w)) ;;;
  match cfg with None => ret (- PB_ERR_PARAM) | Some _ => ret PB_OK end.

(** [hal_ops == NULL] *)
Definition with_hal_ops {A} (null : A) (k : usbd_hal_ops HW -> U A) : U A :=
  w <- get ;; match hal_ops w with None => ret null | Some hal => k hal end.

Definition usbd_init : U Z := with_hal_ops (- PB_ERR_IO) (fun hal => on_hal (hal_init hal)).

(** The packet is answered only with a device class; without one the source
    dereferences NULL. *)
Definition answer (hal : usbd_hal_ops HW) (pkt : usb_setup_packet) : U Z :=
  w <- get ;; match cls_config w with None => ret (- PB_ERR) | Some cls => usbd_enumerate hal cls pkt end.

Definition usbd_connect : U Z := with_hal_ops (- PB_ERR_IO) (fun hal =>
  let* (rc, pkt) := on_hal (hal_poll_setup_pkt hal) in
  if negb (rc =? PB_OK) then ret rc else
  rc <- answer hal pkt ;;
  if negb (rc =? PB_OK) then ret rc else
  w <- get ;;
  if negb (enumerated w) then ret (- PB_ERR_AGAIN) else ret PB_OK).

Definition usbd_disconnect : U Z := with_hal_ops (- PB_ERR_IO) (fun hal =>
  if hal_stops hal then on_hal (hal_stop hal) else ret PB_OK).

Definition usbd_xfer_start (ep : Z) (buf : usb_buf) (length : Z) : U Z := with_hal_ops (- PB_ERR_IO) (fun hal =>
  modify (fun w => UsbdSt (ud_hw w) (hal_ops w) (cls_config w) (enumerated w) ep buf length) ;;;
  on_hal (hal_xfer_start hal ep buf length)).

Definition usbd_xfer_cancel : U Z := with_hal_ops (- PB_ERR_IO) (fun hal =>
  w <- get ;; on_hal (hal_xfer_cancel hal (cur_xfer_ep w)) ;;; ret PB_OK).

Definition usbd_xfer_complete : U Z := with_hal_ops (- PB_ERR_IO) (fun hal =>
  let* (rc, pkt) := on_hal (hal_poll_setup_pkt hal) in
  rc <- (if rc =? PB_OK then
           w <- get ;;
           on_hal (hal_xfer_cancel hal (cur_xfer_ep w)) ;;;
           rc <- answer hal pkt ;;
           if negb (rc =? PB_OK) then ret rc else
           w <- get ;;
           on_hal (hal_xfer_start hal (cur_xfer_ep w) (cur_xfer_buf w) (cur_xfer_length w))
         else ret PB_OK) ;;
  if negb (rc =? PB_OK) then ret rc else
  w <- get ;;
  on_hal (hal_xfer_complete hal (cur_xfer_ep w))).
End usbd.

(** ** [pb_dev_cls.c] *)

Definition PB_USB_VID : Z := 0x1209.
Definition PB_USB_PID : Z := 0x2019.

Definition descriptors : usbd_descriptors := {|
  d_language := LanguageDesc 0x04 0x03 0x0409;
  d_qualifier := QualifierDesc 0x0A 0x06 0x0200 0x00 0x00 0x00 0x40 0x01 0;
  d_device := DeviceDesc 0x12 0x01 0x0200 0x00 0x00 0x00 0x40 PB_USB_VID PB_USB_PID 0x0000 0x01 0x01 0x02 0x01;
  d_config := ConfigDesc 0x09 0x02 0x20 0x01 0x01 0x00 0x80 0xfa;
  d_interface := InterfaceDesc 0x09 0x04 0x00 0x00 0x02 0xFF 0xFF 0xFF 0;
  d_eps := [EndpointDesc 0x07 0x05 0x81 0x2 0x0200 0x00; EndpointDesc 0x07 0x05 0x02 0x2 0x0200 0x00]
|}.

(** A string descriptor with room for 127 characters; [str] without its
    terminator. *)
Definition usb_string (str : list Z) : usb_string_descriptor :=
  StringDesc (u8 (Z.of_nat (length str) * 2 + 2)) 0x03 (splice 0 str (zeros 127)).

Section pb_dev_cls.
Context {HW : Type} (device_uuid : M HW (Z * option uuid_t)) (stack_uu : uuid_t).

(** "Punchboot" *)
Definition product_name : list Z := [80; 117; 110; 99; 104; 98; 111; 111; 116].

(** The text of the UUID in [device_uu], if it was written. *)
Definition serial_text (device_uu : option uuid_t) : list Z :=
  c_string (default [] (uuid_unparse (default stack_uu device_uu))).

(** The return code of [device_uuid] is ignored: on an error the variable
    holds what was on the stack. *)
Definition get_string_descriptor (idx : Z) : M HW usb_string_descriptor :=
  if idx =? 1 then ret (usb_string product_name)
  else if idx =? 2 then
    let* (_, uu) := device_uuid in
    ret (usb_string (serial_text uu))
  else ret (usb_string []).

Definition pb_cls_config : usbd_cls_config HW := UsbdClsConfig descriptors get_string_descriptor.

Definition pb_dev_cls_init : M (usbd_st HW) Z := usbd_init_cls (Some pb_cls_config).
Definition pb_dev_cls_write (buf length : Z) : M (usbd_st HW) Z := usbd_xfer_start USB_EP1_IN (BufAt buf) length.
Definition pb_dev_cls_read (buf length : Z) : M (usbd_st HW) Z := usbd_xfer_start USB_EP2_OUT (BufAt buf) length.
Definition pb_dev_cls_xfer_complete (busy_fuel : nat) : M (usbd_st HW) Z := usbd_xfer_complete busy_fuel.
End pb_dev_cls.

(** ** What the controller promises *)

(** The controller as the stack sees it: setup packets from the host in
    order, transfers that are under way, how many polls a control transfer
    still takes, the address and endpoints that are set, and what the host
    has received on the control endpoint. *)
Record usb_view := UsbView {
  v_pkts : list usb_setup_packet;
  v_xfers : gmap Z (usb_buf * Z);
  v_busy : nat;
  v_addr : Z;
  v_eps : list usb_endpoint_descriptor;
  v_sent : list (list Z)
}.

Definition sent_by (x : option (usb_buf * Z)) : list (list Z) :=
  match x with Some (BufBytes bs, _) => [bs] | _ => [] end.

(** A driver that follows its contract; every call of the control endpoint
    succeeds after at most [busy_max] polls. *)
Class HalLaws (HW : Type) (hal : usbd_hal_ops HW) (busy_max : nat) := {
  view : HW -> usb_view;
  law_poll : forall h, exists rc p h', hal_poll_setup_pkt hal h = ((rc, p), h') /\
    match v_pkts (view h) with
    | [] => rc = - PB_ERR_AGAIN /\ view h' = view h
    | q :: qs => rc = PB_OK /\ p = q /\
        view h' = UsbView qs (v_xfers (view h)) (v_busy (view h)) (v_addr (view h)) (v_eps (view h)) (v_sent (view h))
    end;
  law_xfer_start : forall h ep b n, exists h' k, hal_xfer_start hal ep b n h = (PB_OK, h') /\ (k <= busy_max)%nat /\
    view h' = UsbView (v_pkts (view h)) (<[ep := (b, n)]> (v_xfers (view h))) k (v_addr (view h)) (v_eps (view h)) (v_sent (view h));
  law_xfer_complete : forall h, exists h',
    match v_busy (view h) with
    | S k => hal_xfer_complete hal USB_EP0_IN h = (- PB_ERR_AGAIN, h') /\
        view h' = UsbView (v_pkts (view h)) (v_xfers (view h)) k (v_addr (view h)) (v_eps (view h)) (v_sent (view h))
    | O => hal_xfer_complete hal USB_EP0_IN h = (PB_OK, h') /\
        view h' = UsbView (v_pkts (view h)) (delete USB_EP0_IN (v_xfers (view h))) 0 (v_addr (view h)) (v_eps (view h))
          (v_sent (view h) ++ sent_by (v_xfers (view h) !! USB_EP0_IN))
    end;
  law_xfer_cancel : forall h ep,
    view (hal_xfer_cancel hal ep h).2 =
      UsbView (v_pkts (view h)) (delete ep (v_xfers (view h))) (v_busy (view h)) (v_addr (view h)) (v_eps (view h)) (v_sent (view h));
  law_zlp : forall h ep, exists h', hal_ep0_xfer_zlp hal ep h = (PB_OK, h') /\ view h' = view h;
  law_set_address : forall h a, exists h', hal_set_address hal a h = (PB_OK, h') /\
    view h' = UsbView (v_pkts (view h)) (v_xfers (view h)) (v_busy (view h)) a (v_eps (view h)) (v_sent (view h));
  law_set_configuration : forall h eps n, exists h', hal_set_configuration hal eps n h = (PB_OK, h') /\
    view h' = UsbView (v_pkts (view h)) (v_xfers (view h)) (v_busy (view h)) (v_addr (view h)) eps (v_sent (view h))
}.

(** ** What the host sees *)

(** The bytes of a descriptor the host asks for by [wValue]: the device, its
    qualifier, the configuration with everything that belongs to it, the
    interface, and the strings. *)
Definition descriptor_for (serial : list Z) (value : Z) : option (list Z) :=
  let d := descriptors in
  let str s := Some (take (Z.to_nat (st_bLength (usb_string s))) (cenc usb_string_descriptor_c (usb_string s))) in
  if value =? 0x0600 then Some (cenc usb_qualifier_descriptor_c (d_qualifier d))
  else if value =? 0x0100 then Some (cenc usb_device_descriptor_c (d_device d))
  else if value =? 0x0200 then Some (config_bytes d)
  else if value =? 0x0A00 then Some (cenc usb_interface_descriptor_c (d_interface d))
  else if (0x0300 <=? value) && (value <? 0x0400) then
    if value =? 0x0300 then Some (cenc usb_language_descriptor_c (d_language d))
    else if value =? 0x03ee then Some msft_os_descriptor
    else if value =? 0x0301 then str product_name
    else if value =? 0x0302 then str serial
    else str []
  else None.

(** What the host has asked for: data, an address, the configuration, or
    something the device refuses with the given code. *)
Inductive usb_request := ReqData (bs : list Z) | ReqAddress (a : Z) | ReqConfigure | ReqRefuse (rc : Z).

Definition host_request (serial : list Z) (p : usb_setup_packet) : usb_request :=
  let n := Z.to_nat (wLength p) in
  let asks t r := (bRequestType p =? t) && (bRequest p =? r) in
  if asks 0x80 0x06 then
    match descriptor_for serial (wValue p) with Some d => ReqData (take n d) | None => ReqRefuse (- PB_ERR_IO) end
  else if asks 0x00 0x05 then ReqAddress (wValue p)
  else if asks 0x00 0x09 then ReqConfigure
  else if asks 0x80 0x00 then ReqData [0; 0]
  else if asks 0xc0 0x01 && (wIndex p =? 4) then ReqData (take n msft_comp_id_feature)
  else ReqRefuse (- PB_ERR).

Definition serve (r : usb_request) (v : usb_view) : usb_view :=
  match r with
  | ReqData bs => UsbView (v_pkts v) (delete USB_EP0_IN (v_xfers v)) 0 (v_addr v) (v_eps v) (v_sent v ++ [bs])
  | ReqAddress a => UsbView (v_pkts v) (v_xfers v) (v_busy v) a (v_eps v) (v_sent v)
  | ReqConfigure => UsbView (v_pkts v) (v_xfers v) (v_busy v) (v_addr v) (d_eps descriptors) (v_sent v)
  | ReqRefuse _ => v
  end.
Definition request_rc (r : usb_request) : Z := match r with ReqRefuse rc => rc | _ => PB_OK end.
Definition configures (r : usb_request) : bool := match r with ReqConfigure => true | _ => false end.

Definition pkt_wf (p : usb_setup_packet) : Prop :=
  0 <= bRequestType p < 2 ^ 8 /\ 0 <= bRequest p < 2 ^ 8 /\ 0 <= wValue p < 2 ^ 16 /\
  0 <= wIndex p < 2 ^ 16 /\ 0 <= wLength p < 2 ^ 16.

(** Descriptors are chained by their first byte. *)
Fixpoint chain (fuel : nat) (bs : list Z) : option (list Z) :=
  match fuel, bs with
  | _, [] => Some []
  | O, _ => None
  | S fuel, n :: _ =>
      if (n <? 1) || (Z.of_nat (length bs) <? n) then None
      else option_map (cons n) (chain fuel (drop (Z.to_nat n) bs))
  end.

(** ** Answering the host *)

Section working.
Context {HW : Type} {hal : usbd_hal_ops HW} {busy_max : nat} {laws : HalLaws HW hal busy_max}.
Context (busy_fuel : nat) (busy_ok : (busy_max < busy_fuel)%nat).
Implicit Types (w : usbd_st HW) (h : HW).

Definition with_hw h w : usbd_st HW :=
  UsbdSt h (hal_ops w) (cls_config w) (enumerated w) (cur_xfer_ep w) (cur_xfer_buf w) (cur_xfer_length w).
Definition view_of w : usb_view := view (ud_hw w).

Lemma on_hal_run {A} (m : M HW A) a h' w : m (ud_hw w) = (a, h') -> on_hal m w = (a, with_hw h' w).
Proof. intros E. unfold on_hal. by rewrite E. Qed.

(** The view after a reply. *)
Definition replied (bs : list Z) (v : usb_view) : usb_view :=
  UsbView (v_pkts v) (delete USB_EP0_IN (v_xfers v)) 0 (v_addr v) (v_eps v) (v_sent v ++ [bs]).

Lemma wait_loop_ok fuel w : (v_busy (view_of w) < fuel)%nat ->
  exists h', wait_loop hal fuel USB_EP0_IN w = (PB_OK, with_hw h' w) /\
    view h' = UsbView (v_pkts (view_of w)) (delete USB_EP0_IN (v_xfers (view_of w))) 0 (v_addr (view_of w)) (v_eps (view_of w))
      (v_sent (view_of w) ++ sent_by (v_xfers (view_of w) !! USB_EP0_IN)).
Proof.
  revert w. induction fuel as [|fuel IH]; intros w Hf; [lia|]. cbn [wait_loop]. unfold bind.
  destruct (law_xfer_complete (ud_hw w)) as (h & H). unfold view_of in *. destruct (v_busy (view (ud_hw w))) as [|k] eqn:Eb.
  - destruct H as [E Hv]. rewrite (on_hal_run _ _ _ _ E). by exists h.
  - destruct H as [E Hv]. rewrite (on_hal_run _ _ _ _ E). rewrite Z.eqb_refl.
    destruct (IH (with_hw h w)) as (h2 & E2 & Hv2); [cbn; rewrite Hv; cbn; lia|].
    exists h2. rewrite E2. split; [done|]. rewrite Hv2. cbn [ud_hw with_hw]. by rewrite Hv.
Qed.

Lemma ep0_tx_ok bfr n w :
  exists h', ep0_tx busy_fuel hal bfr n w = (PB_OK, with_hw h' w) /\ view h' = replied (take (Z.to_nat n) bfr) (view_of w).
Proof.
  unfold ep0_tx, wait_for_completion, bind. set (bs := take _ bfr).
  destruct (law_xfer_start (ud_hw w) USB_EP0_IN (BufBytes bs) n) as (h1 & k & E1 & Hk & Hv1).
  rewrite (on_hal_run _ _ _ _ E1). cbn [PB_OK Z.eqb negb].
  destruct (wait_loop_ok busy_fuel (with_hw h1 w)) as (h2 & E2 & Hv2); [unfold view_of; cbn; rewrite Hv1; cbn; lia|].
  rewrite E2. cbn [PB_OK Z.eqb negb]. destruct (law_zlp h2 USB_EP0_OUT) as (h3 & E3 & Hv3).
  rewrite (on_hal_run _ PB_OK h3 (with_hw h2 (with_hw h1 w)) E3). exists h3. split; [done|]. rewrite Hv3, Hv2.
  unfold view_of, replied. cbn [ud_hw with_hw]. rewrite Hv1. cbn. rewrite lookup_insert_eq. cbn.
  by rewrite delete_insert_eq.
Qed.

(** *** The device class *)

Context (device_uuid : M HW (Z * option uuid_t)) (stack_uu uu : uuid_t).
Context (device_uuid_ok : forall h, exists rc h', device_uuid h = ((rc, Some uu), h') /\ view h' = view h).

Abbreviation cls := (pb_cls_config device_uuid stack_uu).
Definition serial : list Z := serial_text stack_uu (Some uu).

Lemma land_high v : 0 <= v < 2 ^ 16 -> Z.land v 0xFF00 = v / 256 * 256.
Proof.
  intros Hv. change 256 with (2 ^ 8). rewrite <- Z.shiftr_div_pow2, <- Z.shiftl_mul_pow2 by lia.
  change 0xFF00 with (Z.shiftl (Z.ones 8) 8). apply Z.bits_inj_iff'. intros i Hi.
  rewrite Z.land_spec, !Z.shiftl_spec by lia. destruct (Z.ltb_spec i 8).
  - rewrite (Z.testbit_neg_r (Z.ones 8) (i - 8)), (Z.testbit_neg_r (Z.shiftr v 8) (i - 8)) by lia. apply andb_false_r.
  - rewrite Z.shiftr_spec by lia. replace (i - 8 + 8) with i by lia.
    destruct (Z.ltb_spec i 16); [by rewrite Z.ones_spec_low, andb_true_r by lia|].
    by rewrite (bits_above v 16) by lia.
Qed.

Lemma string_value v : 0 <= v < 2 ^ 16 ->
  (Z.land v 0xFF00 =? 0x0300) = (0x0300 <=? v) && (v <? 0x0400) /\
  (0x0300 <= v < 0x0400 -> Z.land v 0xFF = v - 0x0300).
Proof.
  intros Hv. rewrite land_high by done. pose proof (Z.div_mod v 256). pose proof (Z.mod_pos_bound v 256). split.
  - destruct (Z.leb_spec 0x0300 v), (Z.ltb_spec v 0x0400); cbn [andb]; [apply Z.eqb_eq|apply Z.eqb_neq..]; lia.
  - intros Hs. change 0xFF with (Z.ones 8). rewrite Z.land_ones by lia. change (2 ^ 8) with 256. lia.
Qed.

Lemma reply_ok setup bfr m w : 0 <= wLength setup ->
  0 <= m -> exists h', reply busy_fuel hal setup bfr m w = (PB_OK, with_hw h' w) /\
    view h' = replied (take (Z.to_nat (wLength setup)) (take (Z.to_nat m) bfr)) (view_of w).
Proof.
  intros Hn Hm. unfold reply. destruct (ep0_tx_ok bfr (Z.min (wLength setup) m) w) as (h & E & Hv).
  exists h. split; [done|]. rewrite Hv, take_take. do 2 f_equal. lia.
Qed.

Lemma reply_whole setup bfr m d w : 0 <= wLength setup -> 0 <= m -> take (Z.to_nat m) bfr = d ->
  exists h', reply busy_fuel hal setup bfr m w = (PB_OK, with_hw h' w) /\
    view h' = replied (take (Z.to_nat (wLength setup)) d) (view_of w).
Proof. intros Hn Hm <-. by apply reply_ok. Qed.

Lemma get_descriptor_ok setup w : 0 <= wLength setup -> 0 <= wValue setup < 2 ^ 16 ->
  match descriptor_for serial (wValue setup) with
  | Some d => exists h', get_descriptor busy_fuel hal cls setup w = (PB_OK, with_hw h' w) /\
      view h' = replied (take (Z.to_nat (wLength setup)) d) (view_of w)
  | None => get_descriptor busy_fuel hal cls setup w = (- PB_ERR_IO, w)
  end.
Proof.
  intros Hn Hv. destruct (string_value (wValue setup) Hv) as [Es Ei]. unfold get_descriptor, descriptor_for. cbn [cls_desc pb_cls_config].
  rewrite Es. set (v := wValue setup) in *. clearbody v.
  destruct (v =? 0x0600); [by apply (reply_whole setup _ (sizeof usb_qualifier_descriptor_c))|].
  destruct (v =? 0x0100); [by apply (reply_whole setup _ (sizeof usb_device_descriptor_c))|].
  destruct (v =? 0x0200); [by apply (reply_whole setup _ 32)|].
  destruct (v =? 0x0A00); [by apply (reply_whole setup _ 9)|].
  destruct ((0x0300 <=? v) && (v <? 0x0400)) eqn:Er; [|done]. zbool. rewrite Ei by lia.
  destruct (Z.eqb_spec (v - 0x0300) 0), (Z.eqb_spec v 0x0300); try lia; [by apply (reply_whole setup _ (sizeof usb_language_descriptor_c))|].
  destruct (Z.eqb_spec (v - 0x0300) 0xee), (Z.eqb_spec v 0x03ee); try lia; [by apply (reply_whole setup _ 18)|].
  cbn [cls_get_string_descriptor pb_cls_config]. unfold get_string_descriptor.
  assert (Hret : forall s, on_hal (ret (usb_string s)) w = (usb_string s, w)) by (by destruct w).
  assert (Hstr : forall s w', exists h', reply busy_fuel hal setup (cenc usb_string_descriptor_c (usb_string s)) (st_bLength (usb_string s)) w' =
    (PB_OK, with_hw h' w') /\ view h' = replied (take (Z.to_nat (wLength setup))
      (take (Z.to_nat (st_bLength (usb_string s))) (cenc usb_string_descriptor_c (usb_string s)))) (view_of w')).
  { intros s w'. apply reply_ok; [done|]. apply Z.mod_pos_bound. lia. }
  destruct (Z.eqb_spec (v - 0x0300) 1), (Z.eqb_spec v 0x0301); try lia; [unfold bind; rewrite Hret; apply (Hstr product_name)|].
  destruct (Z.eqb_spec (v - 0x0300) 2), (Z.eqb_spec v 0x0302); try lia; [|unfold bind; rewrite Hret; apply (Hstr [])].
  destruct (device_uuid_ok (ud_hw w)) as (rc & h1 & E1 & Hv1).
  assert (Hu : on_hal (let* (_, u) := device_uuid in ret (usb_string (serial_text stack_uu u))) w =
    (usb_string serial, with_hw h1 w)).
  { unfold serial. generalize (serial_text stack_uu). intros text. unfold on_hal, bind. rewrite E1. reflexivity. }
  unfold bind at 1. rewrite Hu.
  destruct (Hstr serial (with_hw h1 w)) as (h2 & E2 & Hv2). exists h2. split; [exact E2|].
  rewrite Hv2. unfold view_of. cbn [ud_hw with_hw]. by rewrite Hv1.
Qed.

(** *** One setup packet *)

Definition with_enum (b : bool) w : usbd_st HW :=
  UsbdSt (ud_hw w) (hal_ops w) (cls_config w) b (cur_xfer_ep w) (cur_xfer_buf w) (cur_xfer_length w).

Lemma request_eqb t r x : 0 <= t < 2 ^ 8 -> 0 <= r < 2 ^ 8 -> 0 <= x < 2 ^ 16 ->
  (Z.lor (Z.shiftl t 8) r =? x) = (t =? x / 256) && (r =? x mod 256).
Proof.
  intros Ht Hr Hx. rewrite lor_shiftl_low by lia. rewrite ?Z.shiftl_mul_pow2 by lia. change (2 ^ 8) with 256 in *.
  pose proof (Z.div_mod x 256). pose proof (Z.mod_pos_bound x 256).
  destruct (Z.eqb_spec t (x / 256)), (Z.eqb_spec r (x mod 256)); cbn [andb]; [apply Z.eqb_eq|apply Z.eqb_neq..]; lia.
Qed.

(** The two bytes of a request constant. *)
Ltac request_bytes := repeat match goal with
  | |- context [?c / 256] => let v := eval vm_compute in (c / 256) in change (c / 256) with v
  | |- context [?c mod 256] => let v := eval vm_compute in (c mod 256) in change (c mod 256) with v
  end.

Lemma enum_same h w : with_enum (enumerated w || false) (with_hw h w) = with_hw h w.
Proof. by rewrite orb_false_r. Qed.

(** Two empty packets on the control endpoint. *)
Lemma zlp_ok ep w : exists h', on_hal (hal_ep0_xfer_zlp hal ep) w = (PB_OK, with_hw h' w) /\ view h' = view_of w.
Proof. destruct (law_zlp (ud_hw w) ep) as (h & E & Hv). exists h. split; [by apply on_hal_run|done]. Qed.

Lemma set_address_ok a w : exists h', (rc <- on_hal (hal_set_address hal a) ;;
    if negb (rc =? PB_OK) then ret rc else on_hal (hal_ep0_xfer_zlp hal USB_EP0_IN) ;;; ret rc) w = (PB_OK, with_hw h' w) /\
  view h' = serve (ReqAddress a) (view_of w).
Proof.
  unfold bind. destruct (law_set_address (ud_hw w) a) as (h1 & E1 & Hv1). rewrite (on_hal_run _ _ _ _ E1).
  cbn [PB_OK Z.eqb negb]. destruct (zlp_ok USB_EP0_IN (with_hw h1 w)) as (h2 & E2 & Hv2). rewrite E2.
  exists h2. split; [done|]. rewrite Hv2. exact Hv1.
Qed.

Lemma set_configuration_ok eps n w : eps = d_eps descriptors -> exists h', (on_hal (hal_ep0_xfer_zlp hal USB_EP0_IN) ;;;
    rc <- on_hal (hal_set_configuration hal eps n) ;;
    if negb (rc =? PB_OK) then ret rc else set_enumerated true ;;; ret rc) w = (PB_OK, with_enum true (with_hw h' w)) /\
  view h' = serve ReqConfigure (view_of w).
Proof.
  intros ->. unfold bind. destruct (zlp_ok USB_EP0_IN w) as (h1 & E1 & Hv1). rewrite E1.
  destruct (law_set_configuration h1 (d_eps descriptors) n) as (h2 & E2 & Hv2).
  rewrite (on_hal_run _ PB_OK h2 (with_hw h1 w) E2). exists h2. split; [done|]. by rewrite Hv2, Hv1.
Qed.

Lemma set_idle_ok w : exists h', (on_hal (hal_ep0_xfer_zlp hal USB_EP0_IN) ;;;
    on_hal (hal_ep0_xfer_zlp hal USB_EP0_OUT) ;;; ret (- PB_ERR)) w = (- PB_ERR, with_hw h' w) /\ view h' = view_of w.
Proof.
  unfold bind. destruct (zlp_ok USB_EP0_IN w) as (h1 & E1 & Hv1). rewrite E1.
  destruct (zlp_ok USB_EP0_OUT (with_hw h1 w)) as (h2 & E2 & Hv2). rewrite E2. exists h2. by rewrite Hv2.
Qed.

Lemma usbd_enumerate_ok setup w : pkt_wf setup ->
  let r := host_request serial setup in
  exists h', usbd_enumerate busy_fuel hal cls setup w = (request_rc r, with_enum (enumerated w || configures r) (with_hw h' w)) /\
    view h' = serve r (view_of w).
Proof.
  intros (Ht & Hr & Hv & Hi & Hn). unfold usbd_enumerate, host_request.
  rewrite !request_eqb by (done || (split; by vm_compute)). request_bytes.
  assert (Hid : forall rc : Z, exists h', (rc, w) = (rc, with_hw h' w) /\ view h' = view_of w) by (exists (ud_hw w); by destruct w).
  destruct ((bRequestType setup =? 0x80) && (bRequest setup =? 0x06)).
  { pose proof (get_descriptor_ok setup w ltac:(lia) Hv) as H. destruct (descriptor_for _ _) as [d|]; cbn [request_rc configures serve];
      setoid_rewrite enum_same; [exact H|rewrite H; apply Hid]. }
  destruct ((bRequestType setup =? 0x00) && (bRequest setup =? 0x05)).
  { cbn [configures request_rc]. setoid_rewrite enum_same. apply set_address_ok. }
  destruct ((bRequestType setup =? 0x00) && (bRequest setup =? 0x09)).
  { cbn [configures request_rc]. rewrite orb_true_r. by apply set_configuration_ok. }
  destruct ((bRequestType setup =? 0x21) && (bRequest setup =? 0x0A)) eqn:Ei.
  { apply andb_true_iff in Ei as [->%Z.eqb_eq ->%Z.eqb_eq]. cbn [Z.eqb Pos.eqb andb configures request_rc serve].
    setoid_rewrite enum_same. apply set_idle_ok. }
  destruct ((bRequestType setup =? 0x80) && (bRequest setup =? 0x00)).
  { cbn [configures request_rc serve]. setoid_rewrite enum_same. apply ep0_tx_ok. }
  destruct ((bRequestType setup =? 0xc0) && (bRequest setup =? 0x01)); cbn [andb]; [destruct (wIndex setup =? 4)|];
    cbn [configures request_rc serve]; setoid_rewrite enum_same; [|apply Hid..].
  apply reply_whole; [lia|done..].
Qed.

(** *** Enumeration *)

(** The stack after [usbd_init_hal_ops] and [pb_dev_cls_init]. *)
Definition ready w : Prop := hal_ops w = Some hal /\ cls_config w = Some cls.

Lemma with_hal_ops_ready {A} (null : A) k w : ready w -> with_hal_ops null k w = k hal w.
Proof. intros [E _]. unfold with_hal_ops, bind, get, gets. cbv beta iota. by rewrite E. Qed.

Lemma answer_ready q w : ready w -> answer busy_fuel hal q w = usbd_enumerate busy_fuel hal cls q w.
Proof. intros [_ E]. unfold answer, bind, get, gets. cbv beta iota. by rewrite E. Qed.

(** [n] calls of [usbd_connect], with their return codes. *)
Fixpoint connects (n : nat) : M (usbd_st HW) (list Z) :=
  match n with
  | O => ret []
  | S n => rc <- usbd_connect busy_fuel ;; rcs <- connects n ;; ret (rc :: rcs)
  end.

(** The controller after it has handed over the first packet. *)
Definition popped (qs : list usb_setup_packet) (v : usb_view) : usb_view :=
  UsbView qs (v_xfers v) (v_busy v) (v_addr v) (v_eps v) (v_sent v).

Lemma usbd_connect_ok q qs w : ready w -> pkt_wf q -> v_pkts (view_of w) = q :: qs ->
  let r := host_request serial q in
  exists h', usbd_connect busy_fuel w =
      ((if negb (request_rc r =? PB_OK) then request_rc r
        else if enumerated w || configures r then PB_OK else - PB_ERR_AGAIN),
       with_enum (enumerated w || configures r) (with_hw h' w)) /\
    view h' = serve r (popped qs (view_of w)).
Proof.
  intros Hr Hq Ep r. unfold usbd_connect. rewrite with_hal_ops_ready by done. unfold bind.
  destruct (law_poll (ud_hw w)) as (rc & p & h1 & E1 & H). unfold view_of in Ep. rewrite Ep in H. destruct H as (-> & -> & Hv1).
  rewrite (on_hal_run _ _ _ _ E1). cbn [PB_OK Z.eqb negb]. rewrite answer_ready by exact Hr.
  destruct (usbd_enumerate_ok q (with_hw h1 w) Hq) as (h2 & E2 & Hv2). rewrite E2. exists h2. split.
  - cbn [enumerated with_hw with_enum]. fold r. destruct (negb (request_rc r =? PB_OK)); [done|].
    cbn. by destruct (enumerated w || configures r).
  - rewrite Hv2. unfold view_of. cbn [ud_hw with_hw]. by rewrite Hv1.
Qed.

Lemma serve_popped r qs v : popped qs (serve r v) = serve r (popped qs v).
Proof. by destruct r. Qed.

(** A packet other than the one that sets the configuration. *)
Definition before_configuration (q : usb_setup_packet) : Prop := pkt_wf q /\ configures (host_request serial q) = false.

(** What [usbd_connect] answers for it on a device not yet enumerated. *)
Definition early_rc (q : usb_setup_packet) : Z :=
  if request_rc (host_request serial q) =? PB_OK then - PB_ERR_AGAIN else request_rc (host_request serial q).

Definition serve_all (qs : list usb_setup_packet) (v : usb_view) : usb_view :=
  fold_left (fun v q => serve (host_request serial q) v) qs v.

(** [C24] Enumeration by the host ends connected: on a device that is not
    enumerated, whatever the host asks first, once it sets the configuration
    the calls of [usbd_connect] have returned, for every packet before it,
    [-PB_ERR_AGAIN] if the stack supports the request and the error of the
    request if it does not (SET_IDLE is one of those, see
    [usb_set_idle_fails]), and [PB_OK] for the configuration; the host has
    received exactly the data it asked for, in order, the address is set and so
    are the endpoints of the device class.  (A device that was enumerated before
    a disconnection ends too early: [usb_reconnect_early].) *)
Theorem usb_enumeration pre c post w : ready w -> enumerated w = false ->
  Forall before_configuration pre -> pkt_wf c -> host_request serial c = ReqConfigure ->
  v_pkts (view_of w) = pre ++ c :: post ->
  exists h', connects (S (length pre)) w = (map early_rc pre ++ [PB_OK], with_enum true (with_hw h' w)) /\
    view h' = serve_all (pre ++ [c]) (popped post (view_of w)) /\ v_eps (view h') = d_eps descriptors.
Proof.
  intros Hr He Hpre Hc Ec. revert w Hr He. induction Hpre as [|q pre (Hq & Econf) _ IH]; intros w Hr He Ep.
  - destruct (usbd_connect_ok c post w Hr Hc Ep) as (h & E & Hv). exists h. cbn [connects length]. unfold bind.
    rewrite E, Ec. cbn [configures request_rc]. rewrite orb_true_r. split; [done|]. rewrite Hv. unfold serve_all. cbn [fold_left app]. by rewrite Ec.
  - destruct (usbd_connect_ok q (pre ++ c :: post) w Hr Hq Ep) as (h & E & Hv).
    cbn [length]. remember (S (length pre)) as n eqn:En. cbn [connects]. unfold bind. rewrite E, Econf, He. cbn [orb].
    destruct (IH (with_enum false (with_hw h w))) as (h' & E' & Hv' & He'); [exact Hr|done|unfold view_of; cbn [ud_hw with_enum with_hw]; by rewrite Hv, <- serve_popped|].
    exists h'. rewrite E'. split; [cbn [map app]; unfold early_rc at 2; by destruct (request_rc (host_request serial q) =? PB_OK)|]. split; [|done].
    rewrite Hv'. cbn [serve_all fold_left app]. unfold serve_all. f_equal.
    rewrite <- serve_popped. unfold view_of. cbn [ud_hw with_enum with_hw]. by rewrite Hv, !serve_popped.
Qed.

(** *** Transfers of the client *)

(** The transfer the client started is under way in the controller. *)
Definition under_way w : Prop := v_xfers (view_of w) !! cur_xfer_ep w = Some (cur_xfer_buf w, cur_xfer_length w).

(** Cancel and answer; start again unless the answer is an error. *)
Lemma restart_ok q w : ready w -> pkt_wf q -> let r := host_request serial q in
  exists h', (w <- get ;; on_hal (hal_xfer_cancel hal (cur_xfer_ep w)) ;;;
      rc <- answer busy_fuel hal q ;;
      if negb (rc =? PB_OK) then ret rc else
      w <- get ;; on_hal (hal_xfer_start hal (cur_xfer_ep w) (cur_xfer_buf w) (cur_xfer_length w))) w =
    (request_rc r, with_enum (enumerated w || configures r) (with_hw h' w)) /\
    v_xfers (view h') !! cur_xfer_ep w = (if request_rc r =? PB_OK then Some (cur_xfer_buf w, cur_xfer_length w) else None) /\
    v_sent (view h') = v_sent (serve r (view_of w)).
Proof.
  intros Hr Hq r. unfold bind, get, gets.
  pose proof (law_xfer_cancel (ud_hw w) (cur_xfer_ep w)) as Hv1. unfold on_hal at 1. destruct (hal_xfer_cancel hal (cur_xfer_ep w) (ud_hw w)) as [[] h1].
  cbn [snd] in Hv1. fold (with_hw h1 w). rewrite answer_ready by exact Hr.
  destruct (usbd_enumerate_ok q (with_hw h1 w) Hq) as (h2 & E2 & Hv2). rewrite E2. fold r.
  assert (Hs : v_sent (view h2) = v_sent (serve r (view_of w))).
  { rewrite Hv2. fold r. unfold view_of. cbn [ud_hw with_hw]. rewrite Hv1. by destruct r. }
  destruct (Z.eqb_spec (request_rc r) PB_OK) as [Erc|Erc]; cbn [negb].
  - destruct (law_xfer_start h2 (cur_xfer_ep w) (cur_xfer_buf w) (cur_xfer_length w)) as (h3 & k & E3 & _ & Hv3). rewrite Erc. exists h3. split; [|split].
    + exact (on_hal_run _ PB_OK h3 (with_enum (enumerated w || configures r) (with_hw h2 (with_hw h1 w))) E3).
    + rewrite Hv3. apply lookup_insert_eq.
    + by rewrite Hv3.
  - exists h2. split_and!; [done| |done]. rewrite Hv2. fold r. unfold view_of. cbn [ud_hw with_hw]. rewrite Hv1.
    destruct r; try done; apply lookup_delete_eq.
Qed.

(** [C32] Control requests in the middle of a transfer of the client: when the
    host has sent one, [usbd_xfer_complete] cancels the transfer and answers
    the request.  If that ends with [PB_OK], the same transfer (same endpoint,
    buffer and length) is under way again and its result is what the controller
    is asked for.  If the stack does not support the request, the error of the
    request is returned and the transfer is not restarted: it is lost.  Without
    a request nothing is cancelled or restarted. *)
Theorem usb_xfer_survives_setup w : ready w ->
  match v_pkts (view_of w) with
  | [] => exists h', usbd_xfer_complete busy_fuel w = on_hal (hal_xfer_complete hal (cur_xfer_ep w)) (with_hw h' w) /\
      view h' = view_of w
  | q :: _ => pkt_wf q -> let r := host_request serial q in
      exists h', let w' := with_enum (enumerated w || configures r) (with_hw h' w) in
        v_sent (view h') = v_sent (serve r (view_of w)) /\
        if request_rc r =? PB_OK
        then usbd_xfer_complete busy_fuel w = on_hal (hal_xfer_complete hal (cur_xfer_ep w)) w' /\ under_way w'
        else usbd_xfer_complete busy_fuel w = (request_rc r, w') /\ v_xfers (view h') !! cur_xfer_ep w = None
  end.
Proof.
  intros Hr. destruct (law_poll (ud_hw w)) as (rc & p & h1 & E1 & H). change (view (ud_hw w)) with (view_of w) in H.
  destruct (v_pkts (view_of w)) as [|q qs].
  - destruct H as [-> Hv1]. exists h1. split; [|done]. unfold usbd_xfer_complete. rewrite with_hal_ops_ready by done. unfold bind at 1.
    rewrite (on_hal_run _ _ _ _ E1). by destruct w.
  - destruct H as (-> & -> & Hv1). intros Hq r. destruct (restart_ok q (with_hw h1 w) Hr Hq) as (h2 & E2 & Hv2 & Hs2). fold r in E2, Hv2, Hs2.
    exists h2. split; [rewrite Hs2; unfold view_of; cbn [ud_hw with_hw]; rewrite Hv1; by destruct r|].
    assert (E : usbd_xfer_complete busy_fuel w = (if negb (request_rc r =? PB_OK) then ret (request_rc r) else
      w <- get ;; on_hal (hal_xfer_complete hal (cur_xfer_ep w))) (with_enum (enumerated w || configures r) (with_hw h2 w))).
    { unfold usbd_xfer_complete. rewrite with_hal_ops_ready by done. unfold bind at 1. rewrite (on_hal_run _ _ _ _ E1). cbn [PB_OK Z.eqb].
      unfold bind at 1. by rewrite E2. }
    rewrite E. by destruct (request_rc r =? PB_OK).
Qed.

(** *** Where enumeration goes wrong *)

(** SET_IDLE is acknowledged on the bus, but its case never sets [rc]: the
    connection attempt fails with [-PB_ERR], and a transfer that is interrupted
    by it is not restarted. *)
Lemma usb_set_idle_fails q qs w : ready w -> pkt_wf q -> bRequestType q = 0x21 -> bRequest q = 0x0A ->
  v_pkts (view_of w) = q :: qs -> fst (usbd_connect busy_fuel w) = - PB_ERR.
Proof.
  intros Hr Hq Et Eb Ep. destruct (usbd_connect_ok q qs w Hr Hq Ep) as (h & -> & _).
  unfold host_request. by rewrite Et, Eb.
Qed.

(** [usbd_disconnect] keeps [enumerated]: the next [usbd_connect] returns
    [PB_OK] after the first packet of the new host, here one that sets the
    address, with no configuration set. *)
Lemma usb_reconnect_early q qs w : ready w -> pkt_wf q -> bRequestType q = 0x00 -> bRequest q = 0x05 ->
  enumerated w = true -> let w' := snd (usbd_disconnect w) in v_pkts (view_of w') = q :: qs ->
  fst (usbd_connect busy_fuel w') = PB_OK /\ v_eps (view_of (snd (usbd_connect busy_fuel w'))) = v_eps (view_of w').
Proof.
  intros Hr Hq Et Eb He w' Ep.
  assert (Hk : exists h, w' = with_hw h w).
  { unfold w', usbd_disconnect. rewrite with_hal_ops_ready by done. destruct (hal_stops hal); [|exists (ud_hw w); by destruct w].
    unfold on_hal. destruct (hal_stop hal (ud_hw w)) as [rc h]. by exists h. }
  destruct Hk as [h1 ->]. destruct (usbd_connect_ok q qs (with_hw h1 w) Hr Hq Ep) as (h & E & Hv). rewrite E.
  change (enumerated (with_hw h1 w)) with (enumerated w). rewrite He. unfold view_of at 1. cbn [snd ud_hw with_enum with_hw]. rewrite Hv.
  unfold host_request. by rewrite Et, Eb.
Qed.
End working.

(** ** The descriptors of the device class *)

Lemma le_bytes_one x : 0 <= x < 2 ^ 8 -> le_bytes 1 x = [x].
Proof. intros Hx. cbn [le_bytes]. by rewrite Z.mod_small by (change 256 with (2 ^ 8); lia). Qed.

(** The bytes of a string descriptor that are sent. *)
Definition string_bytes (s : list Z) : list Z := Z.of_nat (2 * length s + 2) :: 3 :: concat (map (le_bytes 2) s).

Lemma length_words s : length (concat (map (le_bytes 2) s)) = (2 * length s)%nat.
Proof. induction s as [|c s IH]; [done|]. cbn [map concat length]. rewrite length_app, IH, length_le_bytes. lia. Qed.

Lemma string_enc d : cenc usb_string_descriptor_c d =
  le_bytes 1 (st_bLength d) ++ le_bytes 1 (st_bDescriptorType d) ++ concat (map (le_bytes 2) (st_unicode d)).
Proof. done. Qed.

Lemma string_bytes_sent s : (length s <= 126)%nat ->
  take (Z.to_nat (st_bLength (usb_string s))) (cenc usb_string_descriptor_c (usb_string s)) = string_bytes s.
Proof.
  intros Hs. unfold string_bytes. rewrite string_enc. unfold usb_string. cbn [st_bLength st_bDescriptorType st_unicode]. unfold u8.
  rewrite Z.mod_small by (change (2 ^ 8) with 256; lia). rewrite !le_bytes_one by (change (2 ^ 8) with 256; lia).
  replace (Z.to_nat (Z.of_nat (length s) * 2 + 2)) with (S (S (2 * length s))) by lia. cbn [app take].
  unfold splice. rewrite take_0. cbn [app]. rewrite map_app, concat_app, take_app_le by (rewrite length_words; lia).
  rewrite take_ge by (rewrite length_words; lia). do 2 f_equal. lia.
Qed.

Lemma string_bytes_length s : Z.of_nat (length (string_bytes s)) = Z.of_nat (2 * length s + 2).
Proof. cbn [string_bytes length]. rewrite length_words. lia. Qed.

Lemma chain_one d n t : d = n :: t -> n = Z.of_nat (length d) -> chain (length d) d = Some [n].
Proof.
  intros -> Hn. cbn [length chain] in *. destruct (Z.ltb_spec n 1); [lia|]. destruct (Z.ltb_spec (Z.of_nat (S (length t))) n); [lia|].
  cbn [orb]. rewrite drop_ge by (cbn [length]; lia). by destruct (length t).
Qed.

(** [C33] What the device says of itself is well formed: every descriptor that
    is sent starts with its own length; the configuration, read the way a host
    reads it, is the chain of a configuration (9 bytes), an interface (9) and
    as many endpoints (7 each) as the interface announces, exactly
    [wTotalLength] bytes long; a string of at most 126 characters
    has the length that its first byte says. *)
Theorem usb_descriptors_wf serial value d : (length serial <= 126)%nat -> descriptor_for serial value = Some d ->
  (exists ns, chain (length d) d = Some ns /\ (value = 0x0200 -> ns = [9; 9] ++ replicate (Z.to_nat (in_bNumEndpoints (d_interface descriptors))) 7)) /\
  (value = 0x0200 -> Z.of_nat (length d) = co_wTotalLength (d_config descriptors)) /\
  (value <> 0x0200 -> exists t, d = Z.of_nat (length d) :: t).
Proof.
  intros Hs. unfold descriptor_for.
  assert (Hone : forall d' t, value <> 0x0200 -> Some d' = Some d -> d' = Z.of_nat (length d') :: t ->
    (exists ns, chain (length d) d = Some ns /\ (value = 0x0200 -> ns = [9; 9] ++ replicate (Z.to_nat (in_bNumEndpoints (d_interface descriptors))) 7)) /\
    (value = 0x0200 -> Z.of_nat (length d) = co_wTotalLength (d_config descriptors)) /\ (value <> 0x0200 -> exists t, d = Z.of_nat (length d) :: t)).
  { intros d' t Hv [= ->] E. split; [|split; [done|by exists t]]. exists [Z.of_nat (length d)]. split; [|done]. by apply (chain_one d _ t). }
  assert (Hstr : forall s, value <> 0x0200 -> (length s <= 126)%nat ->
    Some (take (Z.to_nat (st_bLength (usb_string s))) (cenc usb_string_descriptor_c (usb_string s))) = Some d -> _)
    by (intros s Hv Hl E; rewrite string_bytes_sent in E by done; apply (Hone (string_bytes s) (tail (string_bytes s)) Hv E);
        rewrite string_bytes_length; reflexivity).
  destruct (Z.eqb_spec value 0x0600) as [->|_]; [intros E; by eapply Hone|].
  destruct (Z.eqb_spec value 0x0100) as [->|_]; [intros E; by eapply Hone|].
  destruct (Z.eqb_spec value 0x0200) as [->|Hv]; [intros [= <-]; split; [by eexists|done]|].
  destruct (Z.eqb_spec value 0x0A00) as [->|_]; [intros E; by eapply Hone|].
  destruct ((0x0300 <=? value) && (value <? 0x0400)); [|done].
  destruct (value =? 0x0300); [intros E; by eapply Hone|]. destruct (value =? 0x03ee); [intros E; by eapply Hone|].
  destruct (value =? 0x0301); [apply Hstr; [done|cbn; lia]|]. destruct (value =? 0x0302); apply Hstr; (done || cbn; lia).
Qed.

(** ** A controller that follows the contract *)

Module QueueHal.
Definition put (f : usb_view -> usb_view) : M usb_view Z := modify f ;;; ret PB_OK.

(** The controller is its view; every transfer takes one poll. *)
Definition hal : usbd_hal_ops usb_view := {|
  hal_init := ret PB_OK;
  hal_stop := ret PB_OK;
  hal_xfer_start ep b n := put (fun v => UsbView (v_pkts v) (<[ep := (b, n)]> (v_xfers v)) 1 (v_addr v) (v_eps v) (v_sent v));
  hal_xfer_complete ep := fun v =>
    match v_busy v with
    | S k => (- PB_ERR_AGAIN, UsbView (v_pkts v) (v_xfers v) k (v_addr v) (v_eps v) (v_sent v))
    | O => (PB_OK, UsbView (v_pkts v) (delete ep (v_xfers v)) 0 (v_addr v) (v_eps v) (v_sent v ++ sent_by (v_xfers v !! ep)))
    end;
  hal_xfer_cancel ep := modify (fun v => UsbView (v_pkts v) (delete ep (v_xfers v)) (v_busy v) (v_addr v) (v_eps v) (v_sent v));
  hal_poll_setup_pkt := fun v =>
    match v_pkts v with
    | [] => ((- PB_ERR_AGAIN, SetupPacket 0 0 0 0 0), v)
    | q :: qs => ((PB_OK, q), UsbView qs (v_xfers v) (v_busy v) (v_addr v) (v_eps v) (v_sent v))
    end;
  hal_set_configuration eps n := put (fun v => UsbView (v_pkts v) (v_xfers v) (v_busy v) (v_addr v) eps (v_sent v));
  hal_set_address a := put (fun v => UsbView (v_pkts v) (v_xfers v) (v_busy v) a (v_eps v) (v_sent v));
  hal_ep0_xfer_zlp ep := ret PB_OK;
  hal_complete := true;
  hal_stops := true
|}.

#[export] Instance laws : HalLaws usb_view hal 1.
Proof.
  refine {| view := fun v => v |}.
  - intros v. destruct (v_pkts v) as [|q qs] eqn:E; cbn; rewrite E; by do 3 eexists.
  - intros v ep b n. eexists _, 1%nat. by repeat split.
  - intros v. destruct (v_busy v) as [|k] eqn:E; cbn; rewrite E; by eexists.
  - done.
  - intros v ep. by exists v.
  - intros v a. by eexists.
  - intros v eps n. by eexists.
Defined.

Definition uu : uuid_t := zeros 16.
Definition uuid_source : M usb_view (Z * option uuid_t) := ret (PB_OK, Some uu).
Definition start (pkts : list usb_setup_packet) (xfers : gmap Z (usb_buf * Z)) : usbd_st usb_view :=
  UsbdSt (UsbView pkts xfers 0 0 [] []) (Some hal) (Some (pb_cls_config uuid_source uu)) false USB_EP2_OUT (BufAt 0x80000000) 512.

(** The host asks for the device descriptor, gives an address, sends SET_IDLE
    and asks for the configuration. *)
Definition first_packets : list usb_setup_packet :=
  [SetupPacket 0x80 0x06 0x0100 0 64; SetupPacket 0x00 0x05 7 0 0; SetupPacket 0x21 0x0A 0 0 0; SetupPacket 0x80 0x06 0x0200 0 9].
Definition configure : usb_setup_packet := SetupPacket 0x00 0x09 1 0 0.

Lemma uuid_source_fine h : exists rc h', uuid_source h = ((rc, Some uu), h') /\ view h' = view h.
Proof. by exists PB_OK, h. Qed.
End QueueHal.

#[local] Existing Instance QueueHal.laws.

Lemma usb_enumeration_witness : let w := QueueHal.start (QueueHal.first_packets ++ [QueueHal.configure]) ∅ in
  exists h', connects 2 5 w = ([- PB_ERR_AGAIN; - PB_ERR_AGAIN; - PB_ERR; - PB_ERR_AGAIN; PB_OK], with_enum true (with_hw h' w)) /\
    h' = serve_all QueueHal.uu QueueHal.uu (QueueHal.first_packets ++ [QueueHal.configure]) (popped [] (ud_hw w)) /\
    v_eps h' = d_eps descriptors.
Proof.
  intros w. apply (@usb_enumeration _ _ 1 QueueHal.laws 2 (le_n 2) QueueHal.uuid_source QueueHal.uu QueueHal.uu QueueHal.uuid_source_fine
    QueueHal.first_packets QueueHal.configure [] w); [done|done| |unfold pkt_wf; cbn; lia|done|done].
  unfold before_configuration, pkt_wf, QueueHal.first_packets. repeat (apply Forall_cons; split); [..|by apply Forall_nil]; cbn; repeat split; lia.
Defined.

(** A status request in the middle of a transfer to endpoint 2, and SET_IDLE. *)
Lemma usb_xfer_survives_setup_witness :
  let w q := QueueHal.start [q] {[ USB_EP2_OUT := (BufAt 0x80000000, 512) ]} in
  (exists h', let w' := with_enum false (with_hw h' (w (SetupPacket 0x80 0x00 0 0 2))) in
    v_sent h' = [[0; 0]] /\ usbd_xfer_complete 2 (w (SetupPacket 0x80 0x00 0 0 2)) = on_hal (hal_xfer_complete QueueHal.hal USB_EP2_OUT) w' /\
    @under_way _ _ _ QueueHal.laws w') /\
  (exists h', let w' := with_enum false (with_hw h' (w (SetupPacket 0x21 0x0A 0 0 0))) in
    v_sent h' = [] /\ usbd_xfer_complete 2 (w (SetupPacket 0x21 0x0A 0 0 0)) = (- PB_ERR, w') /\ v_xfers h' !! USB_EP2_OUT = None).
Proof.
  intros w. split.
  - exact (@usb_xfer_survives_setup _ _ 1 QueueHal.laws 2 (le_n 2) QueueHal.uuid_source QueueHal.uu QueueHal.uu QueueHal.uuid_source_fine
      (w (SetupPacket 0x80 0x00 0 0 2)) (conj eq_refl eq_refl) ltac:(by vm_compute)).
  - exact (@usb_xfer_survives_setup _ _ 1 QueueHal.laws 2 (le_n 2) QueueHal.uuid_source QueueHal.uu QueueHal.uu QueueHal.uuid_source_fine
      (w (SetupPacket 0x21 0x0A 0 0 0)) (conj eq_refl eq_refl) ltac:(by vm_compute)).
Defined.

Lemma usb_descriptors_wf_witness : let d := config_bytes descriptors in
  (exists ns, chain (length d) d = Some ns /\ (0x0200 = 0x0200 -> ns = [9; 9] ++ replicate (Z.to_nat (in_bNumEndpoints (d_interface descriptors))) 7)) /\
  (0x0200 = 0x0200 -> Z.of_nat (length d) = co_wTotalLength (d_config descriptors)) /\
  (0x0200 <> 0x0200 -> exists t, d = Z.of_nat (length d) :: t).
Proof. intros d. apply (usb_descriptors_wf [] 0x0200 d); [cbn; lia|reflexivity]. Defined.
