(* ===== verification/Delay.v ===== *)
(** * Timeouts

    [src/delay.c]: deadlines on the free-running 32-bit microsecond counter of
    the platform, [plat_get_us_tick]. *)

From S2P Require Import Prelude Errors.
Local Open Scope c_scope.

(** ** Definitions *)

Record pb_timeout := PbTimeout { ts_start : Z; ts_end : Z; rollover : bool }.

Section delay.
Context {W : Type} (plat_get_us_tick : M W Z).

(** The timeout is written on success only; [None]: left as it was. *)
Definition pb_timeout_init_us (timeout_us : Z) : M W (Z * option pb_timeout) :=
  if (timeout_us =? 0) || (timeout_us =? 0xffffffff) then ret (- PB_ERR, None) else
  ts <- plat_get_us_tick ;;
  if u32 (0xffffffff - ts) <=? timeout_us
  then ret (PB_OK, Some (PbTimeout ts (u32 (timeout_us - u32 (0xffffffff - ts))) true))
  else ret (PB_OK, Some (PbTimeout ts (u32 (ts + timeout_us)) false)).

Definition pb_timeout_has_expired (timeout : pb_timeout) : M W bool :=
  ts <- plat_get_us_tick ;;
  ret (if rollover timeout then (ts_end timeout <=? ts) && (ts <? ts_start timeout)
       else ts_end timeout <=? ts).

(** The polling loop of [pb_delay_us]; [fuel] bounds the number of polls. *)
Fixpoint delay_loop (fuel : nat) (to : pb_timeout) : M W bool :=
  match fuel with
  | O => ret false
  | S fuel => e <- pb_timeout_has_expired to ;; if e then ret true else delay_loop fuel to
  end.

(** [true]: the delay has elapsed. *)
Definition pb_delay_us (fuel : nat) (us : Z) : M W bool :=
  let* (rc, to) := pb_timeout_init_us us in
  match to with
  | Some to => if rc =? PB_OK then delay_loop fuel to else ret true
  | None => ret true
  end.

Definition pb_delay_ms (fuel : nat) (delay : Z) : M W bool := pb_delay_us fuel (u32 (delay * 1000)).

(** ** Properties *)

(** A delay changes nothing but the counter. *)
Lemma delay_loop_keeps {T} (g : W -> T) fuel to : Keeps g plat_get_us_tick -> Keeps g (delay_loop fuel to).
Proof. intros Hg. induction fuel; cbn [delay_loop]; unfold pb_timeout_has_expired; keeps. Qed.

Lemma pb_delay_us_keeps {T} (g : W -> T) fuel us : Keeps g plat_get_us_tick -> Keeps g (pb_delay_us fuel us).
Proof. intros Hg. unfold pb_delay_us, pb_timeout_init_us. keeps; by apply delay_loop_keeps. Qed.

Lemma pb_delay_keeps {T} (g : W -> T) fuel ms : Keeps g plat_get_us_tick -> Keeps g (pb_delay_ms fuel ms).
Proof. apply pb_delay_us_keeps. Qed.

(** Microseconds from [a] to [b] on the counter. *)
Definition elapsed (a b : Z) : Z := u32 (b - a).

Lemma elapsed_cases a b : 0 <= a < 2 ^ 32 -> 0 <= b < 2 ^ 32 ->
  elapsed a b = if a <=? b then b - a else b - a + 2 ^ 32.
Proof.
  intros. unfold elapsed, u32. destruct (Z.leb_spec a b); [apply Z.mod_small; lia|].
  rewrite <- (Z_mod_plus_full (b - a) 1 (2 ^ 32)), Z.mul_1_l. apply Z.mod_small. lia.
Qed.

(** Deadlines across the wrap-around of the counter: for every start and
    every accepted timeout, a poll never reports expiry early (fewer than
    [timeout_us] microseconds after the start); a timeout that does not cross
    the counter's end expires exactly on time, one that does expires one
    microsecond late; in both cases a poll made after expiry and before the
    counter next passes its end, or its start value, respectively, reports
    it. *)
Theorem pb_timeout_exact timeout_us w to w1 w2 ts w3 :
  pb_timeout_init_us timeout_us w = ((PB_OK, Some to), w1) ->
  0 <= timeout_us < 2 ^ 32 -> 0 <= (plat_get_us_tick w).1 < 2 ^ 32 ->
  plat_get_us_tick w2 = (ts, w3) -> 0 <= ts < 2 ^ 32 ->
  let start := (plat_get_us_tick w).1 in
  (pb_timeout_has_expired to w2).1 =
    if rollover to then timeout_us + 1 <=? elapsed start ts
    else (timeout_us <=? elapsed start ts) && (elapsed start ts <? 2 ^ 32 - start).
Proof.
  intros E Ht Hs E2 Hts start. unfold pb_timeout_init_us in E. m_unfold.
  destruct ((timeout_us =? 0) || (timeout_us =? 0xffffffff)) eqn:Eg; [done|]. zbool.
  subst start. destruct (plat_get_us_tick w) as [s w0]. cbn [fst] in *.
  unfold pb_timeout_has_expired. m_unfold. rewrite E2. cbn [fst].
  assert (Hr : u32 (0xffffffff - s) = 0xffffffff - s) by (apply Z.mod_small; lia).
  rewrite Hr in E. clear Hr.
  destruct (Z.leb_spec (0xffffffff - s) timeout_us); injection E as <- _; cbn [rollover ts_end ts_start].
  - assert (u32 (timeout_us - (0xffffffff - s)) = timeout_us - (0xffffffff - s)) as -> by (apply Z.mod_small; lia).
    rewrite elapsed_cases by done.
    apply eq_true_iff_eq. rewrite andb_true_iff, !Z.leb_le, Z.ltb_lt. destruct (Z.leb_spec s ts); lia.
  - assert (u32 (s + timeout_us) = s + timeout_us) as -> by (apply Z.mod_small; lia).
    rewrite elapsed_cases by done.
    apply eq_true_iff_eq. rewrite andb_true_iff, !Z.leb_le, Z.ltb_lt. destruct (Z.leb_spec s ts); lia.
Qed.

End delay.

(** ** A witness: a counter that advances by one per read, about to wrap *)

Lemma pb_timeout_exact_witness :
  let tick : M Z Z := fun t => (t, u32 (t + 1)) in
  exists to w1, pb_timeout_init_us tick 10 0xfffffffa = ((PB_OK, Some to), w1) /\ rollover to = true /\
    (pb_timeout_has_expired tick to 4).1 = false /\ (pb_timeout_has_expired tick to 5).1 = true.
Proof.
  intros tick. exists (PbTimeout 0xfffffffa 5 true), 0xfffffffb. split; [reflexivity|]. split; [reflexivity|]. split.
  - exact (pb_timeout_exact tick 10 0xfffffffa _ _ 4 4 5 eq_refl ltac:(lia) ltac:(simpl; lia) eq_refl ltac:(lia)).
  - exact (pb_timeout_exact tick 10 0xfffffffa _ _ 5 5 6 eq_refl ltac:(lia) ltac:(simpl; lia) eq_refl ltac:(lia)).
Defined.
