(* ===== verification/Mmc.v ===== *)
(** * eMMC cards

    [src/drivers/mmc/mmc_core.c]: enumerating a card, selecting one of its
    hardware partitions and moving blocks.  The static variables are
    [mmc_st], next to the hardware, whose memory the host controller accesses
    directly; the controller is a record of operations, [mmc_hal].  The card
    registers its partitions with the block layer, so the set-up and the
    callbacks it hands out are programs over [bio_state (mmc_st HW)]. *)

From S2P Require Import Prelude Errors Ram Uuid Bio Delay.
Local Open Scope c_scope.

(** ** Constants of [mmc_core.h] *)

Definition MMC_CMD_GO_IDLE_STATE : Z := 0.
Definition MMC_CMD_SEND_OP_COND : Z := 1.
Definition MMC_CMD_ALL_SEND_CID : Z := 2.
Definition MMC_CMD_SET_RELATIVE_ADDR : Z := 3.
Definition MMC_CMD_SWITCH : Z := 6.
Definition MMC_CMD_SELECT_CARD : Z := 7.
Definition MMC_CMD_SEND_EXT_CSD : Z := 8.
Definition MMC_CMD_SEND_CSD : Z := 9.
Definition MMC_CMD_SEND_STATUS : Z := 13.
Definition MMC_CMD_READ_SINGLE_BLOCK : Z := 17.
Definition MMC_CMD_READ_MULTIPLE_BLOCK : Z := 18.
Definition MMC_CMD_SEND_TUNING_BLOCK_HS200 : Z := 21.
Definition MMC_CMD_SET_BLOCK_COUNT : Z := 23.
Definition MMC_CMD_WRITE_SINGLE_BLOCK : Z := 24.
Definition MMC_CMD_WRITE_MULTIPLE_BLOCK : Z := 25.

Definition EXT_CSD_POWER_OFF_NOTIFICATION : Z := 34.
Definition EXT_CSD_RPMB_MULT : Z := 168.
Definition EXT_CSD_BOOT_BUS_CONDITIONS : Z := 177.
Definition EXT_CSD_PART_CONFIG : Z := 179.
Definition EXT_CSD_BUS_WIDTH : Z := 183.
Definition EXT_CSD_HS_TIMING : Z := 185.
Definition EXT_CSD_PART_SWITCH_TIME : Z := 199.
Definition EXT_CSD_SEC_CNT : Z := 212.
Definition EXT_CSD_BOOT_MULT : Z := 226.
Definition EXT_CSD_POWER_OFF_LONG_TIME : Z := 247.
Definition EXT_CSD_GENERIC_CMD6_TIME : Z := 248.

Definition EXT_CSD_BUS_WIDTH_1 : Z := 0.
Definition EXT_CSD_BUS_WIDTH_4 : Z := 1.
Definition EXT_CSD_BUS_WIDTH_8 : Z := 2.
Definition EXT_CSD_BUS_WIDTH_4_DDR : Z := 5.
Definition EXT_CSD_BUS_WIDTH_8_DDR : Z := 6.
Definition EXT_CSD_BUS_WIDTH_STROBE : Z := Z.shiftl 1 7.
Definition EXT_CSD_TIMING_HS : Z := 1.
Definition EXT_CSD_TIMING_HS200 : Z := 2.
Definition EXT_CSD_TIMING_HS400 : Z := 3.

Definition MMC_RSP_R1 : Z := 0x15.
Definition MMC_RSP_R1b : Z := 0x1d.
Definition MMC_RSP_R2 : Z := 0x7.
Definition MMC_RSP_R3 : Z := 0x1.

Definition MMC_FIX_RCA : Z := 10.
Definition RCA_SHIFT_OFFSET : Z := 16.

Definition OCR_POWERUP : Z := Z.shiftl 1 31.
Definition OCR_SECTOR_MODE : Z := Z.shiftl 2 29.
Definition OCR_VDD_MIN_2V7 : Z := 0x00ff8000.
Definition OCR_VDD_MIN_1V7 : Z := Z.shiftl 1 7.

Definition MMC_GET_STATE (x : Z) : Z := Z.land (Z.shiftr x 9) 0xf.
Definition MMC_STATE_IDLE : Z := 0.
Definition MMC_STATE_READY : Z := 1.
Definition MMC_STATE_IDENT : Z := 2.
Definition MMC_STATE_STBY : Z := 3.
Definition MMC_STATE_TRAN : Z := 4.
Definition MMC_STATE_DATA : Z := 5.
Definition MMC_STATE_RCV : Z := 6.
Definition MMC_STATE_PRG : Z := 7.

Definition STATUS_READY_FOR_DATA : Z := Z.shiftl 1 8.
Definition STATUS_SWITCH_ERROR : Z := Z.shiftl 1 7.

Definition EXTCSD_WRITE_BYTES : Z := Z.shiftl 3 24.
Definition EXTCSD_CMD (x : Z) : Z := Z.shiftl (Z.land x 0xff) 16.
Definition EXTCSD_VALUE (x : Z) : Z := Z.shiftl (Z.land x 0xff) 8.
Definition EXTCSD_CMD_SET_NORMAL : Z := 1.

Definition MMC_BLOCK_SIZE : Z := 512.

Definition MMC_BIO_FLAG_BOOT0 : Z := Z.shiftl 1 0.
Definition MMC_BIO_FLAG_BOOT1 : Z := Z.shiftl 1 1.
Definition MMC_BIO_FLAG_RPMB : Z := Z.shiftl 1 2.
Definition MMC_BIO_FLAG_USER : Z := Z.shiftl 1 3.

Definition MMC_DEFAULT_TIMEOUT_ms : Z := 15.
Definition SEND_OP_COND_MAX_RETRIES : nat := 100.

(** ** Types *)

Inductive mmc_part := MMC_PART_USER | MMC_PART_BOOT0 | MMC_PART_BOOT1 | MMC_PART_RPMB | MMC_PART_END.
Inductive mmc_bus_mode := MMC_BUS_MODE_INVALID | MMC_BUS_MODE_DDR52 | MMC_BUS_MODE_HS200 | MMC_BUS_MODE_HS400 | MMC_BUS_MODE_END.
Inductive mmc_bus_width :=
  | MMC_BUS_WIDTH_INVALID | MMC_BUS_WIDTH_1BIT | MMC_BUS_WIDTH_4BIT | MMC_BUS_WIDTH_8BIT
  | MMC_BUS_WIDTH_4BIT_DDR | MMC_BUS_WIDTH_8BIT_DDR | MMC_BUS_WIDTH_8BIT_DDR_STROBE.

#[export] Instance mmc_part_eq_dec : EqDecision mmc_part.
Proof. solve_decision. Defined.

(** [mmc_cmd_resp_t]: the words a command has answered with. *)
Abbreviation mmc_cmd_resp_t := (list Z) (only parsing).

(** A host controller.  The last argument of [mh_send_cmd] says whether the
    caller wants the response ([result] is not NULL).  A transfer reads or writes the memory that is part of
    [HW], at the address given to [mh_prepare]. *)
Record mmc_hal (HW : Type) := MmcHal {
  mh_init : M HW Z;
  mh_send_cmd : Z -> Z -> Z -> bool -> M HW (Z * mmc_cmd_resp_t);
  mh_set_bus_clock : Z -> M HW Z;
  mh_set_bus_width : mmc_bus_width -> M HW Z;
  mh_prepare : Z -> Z -> Z -> M HW Z;
  mh_read : Z -> Z -> Z -> M HW Z;
  mh_write : Z -> Z -> Z -> M HW Z;
  mh_set_delay_tap : Z -> M HW Z;
  mh_max_chunk_bytes : Z
}.
Arguments mh_init {HW}. Arguments mh_send_cmd {HW}. Arguments mh_set_bus_clock {HW}. Arguments mh_set_bus_width {HW}.
Arguments mh_prepare {HW}. Arguments mh_read {HW}. Arguments mh_write {HW}. Arguments mh_set_delay_tap {HW}. Arguments mh_max_chunk_bytes {HW}.

Record mmc_device_info := MmcDeviceInfo { di_block_size : Z; di_ocr_voltage : Z; di_mode : mmc_bus_mode; di_width : mmc_bus_width }.

Record mmc_device_config := MmcDeviceConfig {
  mc_mode : mmc_bus_mode;
  mc_width : mmc_bus_width;
  mc_boot0_uu : uuid_t;
  mc_boot1_uu : uuid_t;
  mc_rpmb_uu : uuid_t;
  mc_user_uu : uuid_t;
  mc_flags : Z;
  mc_boot_mode : Z
}.

(** The static variables; what the pointers point to after [mmc_init]. *)
Record mmc_st (HW : Type) := MmcSt {
  mm_hw : HW;
  mm_hal : mmc_hal HW;
  mm_cfg : mmc_device_config;
  mmc_ocr_value : Z;
  mmc_dev_info : mmc_device_info;
  rca : Z;
  mmc_csd : mmc_cmd_resp_t;
  mmc_current_part_config : Z;
  mmc_current_part : mmc_part;
  power_off_long_time_ms : Z;
  generic_cmd6_time_ms : Z;
  partition_switch_time_ms : Z
}.
Arguments MmcSt {HW}. Arguments mm_hw {HW}. Arguments mm_hal {HW}. Arguments mm_cfg {HW}. Arguments mmc_ocr_value {HW}.
Arguments mmc_dev_info {HW}. Arguments rca {HW}. Arguments mmc_csd {HW}. Arguments mmc_current_part_config {HW}.
Arguments mmc_current_part {HW}. Arguments power_off_long_time_ms {HW}. Arguments generic_cmd6_time_ms {HW}.
Arguments partition_switch_time_ms {HW}.

Section setters.
Context {HW : Type}.
Implicit Types (w : mmc_st HW).
Definition with_hw (h : HW) w := MmcSt h (mm_hal w) (mm_cfg w) (mmc_ocr_value w) (mmc_dev_info w) (rca w) (mmc_csd w)
  (mmc_current_part_config w) (mmc_current_part w) (power_off_long_time_ms w) (generic_cmd6_time_ms w) (partition_switch_time_ms w).
Definition set_hal_cfg hal cfg w := MmcSt (mm_hw w) hal cfg (mmc_ocr_value w) (mmc_dev_info w) (rca w) (mmc_csd w)
  (mmc_current_part_config w) (mmc_current_part w) (power_off_long_time_ms w) (generic_cmd6_time_ms w) (partition_switch_time_ms w).
Definition set_ocr v w := MmcSt (mm_hw w) (mm_hal w) (mm_cfg w) v (mmc_dev_info w) (rca w) (mmc_csd w)
  (mmc_current_part_config w) (mmc_current_part w) (power_off_long_time_ms w) (generic_cmd6_time_ms w) (partition_switch_time_ms w).
Definition set_block_size v w := MmcSt (mm_hw w) (mm_hal w) (mm_cfg w) (mmc_ocr_value w)
  (MmcDeviceInfo v (di_ocr_voltage (mmc_dev_info w)) (di_mode (mmc_dev_info w)) (di_width (mmc_dev_info w))) (rca w) (mmc_csd w)
  (mmc_current_part_config w) (mmc_current_part w) (power_off_long_time_ms w) (generic_cmd6_time_ms w) (partition_switch_time_ms w).
Definition set_rca v w := MmcSt (mm_hw w) (mm_hal w) (mm_cfg w) (mmc_ocr_value w) (mmc_dev_info w) v (mmc_csd w)
  (mmc_current_part_config w) (mmc_current_part w) (power_off_long_time_ms w) (generic_cmd6_time_ms w) (partition_switch_time_ms w).
Definition set_csd v w := MmcSt (mm_hw w) (mm_hal w) (mm_cfg w) (mmc_ocr_value w) (mmc_dev_info w) (rca w) v
  (mmc_current_part_config w) (mmc_current_part w) (power_off_long_time_ms w) (generic_cmd6_time_ms w) (partition_switch_time_ms w).
Definition set_part_config v w := MmcSt (mm_hw w) (mm_hal w) (mm_cfg w) (mmc_ocr_value w) (mmc_dev_info w) (rca w) (mmc_csd w)
  v (mmc_current_part w) (power_off_long_time_ms w) (generic_cmd6_time_ms w) (partition_switch_time_ms w).
Definition set_part v w := MmcSt (mm_hw w) (mm_hal w) (mm_cfg w) (mmc_ocr_value w) (mmc_dev_info w) (rca w) (mmc_csd w)
  (mmc_current_part_config w) v (power_off_long_time_ms w) (generic_cmd6_time_ms w) (partition_switch_time_ms w).
Definition set_times po cmd6 sw w := MmcSt (mm_hw w) (mm_hal w) (mm_cfg w) (mmc_ocr_value w) (mmc_dev_info w) (rca w) (mmc_csd w)
  (mmc_current_part_config w) (mmc_current_part w) po cmd6 sw.
End setters.

(** Build-time options of the driver. *)
Class MmcKconfig := {
  CONFIG_MMC_CORE_HS200_TUNE : bool;
  CONFIG_MMC_CORE_BOOT_PART_SZ_KiB : option Z  (** with [CONFIG_MMC_CORE_OVERRIDE_BOOT_PART_SZ] *)
}.

(** ** Commands and registers of the card *)

Section mmc_core.
Context {arch : Arch} {mkc : MmcKconfig} {HW : Type}.
(** The memory, the arrays [mmc_ext_csd] and [mmc_tuning_rsp] in it, and the
    counter behind the delays.  [poll_fuel] and [delay_fuel]: how many polls of
    the card's state and of the counter the model follows; a loop that does
    not end within them is left with [-PB_ERR_TIMEOUT]. *)
Context (mem : HW -> ram_t) (mmc_ext_csd mmc_tuning_rsp : Z).
Context (plat_get_us_tick : M HW Z) (poll_fuel delay_fuel : nat).
Abbreviation C := (M (mmc_st HW)).

Definition on_hw {A} (m : M HW A) : C A := fun w => let '(a, h) := m (mm_hw w) in (a, with_hw h w).
Definition hal_call {A} (f : mmc_hal HW -> M HW A) : C A := fun w => on_hw (f (mm_hal w)) w.
Definition delay_ms (ms : Z) : C unit := on_hw (pb_delay_ms plat_get_us_tick delay_fuel ms) ;;; ret tt.

(** [mmc_ext_csd[field]] *)
Definition ext_csd_at (w : mmc_st HW) (field : Z) : Z := mem (mm_hw w) (mmc_ext_csd + field).

(** [result[0]] *)
Definition resp0 (r : mmc_cmd_resp_t) : Z := nth 0 r 0.

Definition mmc_send_cmd (cmd_idx arg resp_type : Z) : C (Z * mmc_cmd_resp_t) :=
  hal_call (fun hal => mh_send_cmd hal cmd_idx arg resp_type true).

(** [mmc_send_cmd(.., NULL)] *)
Definition mmc_command (cmd_idx arg resp_type : Z) : C Z :=
  let* (rc, _) := hal_call (fun hal => mh_send_cmd hal cmd_idx arg resp_type false) in ret rc.

Definition mmc_reset_to_idle : C Z :=
  mmc_command MMC_CMD_GO_IDLE_STATE 0 0 ;;?
  delay_ms 2 ;;;
  ret PB_OK.

(** The loop over [n], with the tries that are left. *)
Fixpoint op_cond_loop (tries : nat) : C Z :=
  match tries with
  | O => ret (- PB_ERR_IO)
  | S tries =>
      let* (rc, resp_data) := mmc_send_cmd MMC_CMD_SEND_OP_COND
        (Z.lor (Z.lor OCR_SECTOR_MODE OCR_VDD_MIN_2V7) OCR_VDD_MIN_1V7) MMC_RSP_R3 in
      if negb (rc =? 0) then ret rc else
      if negb (Z.land (resp0 resp_data) OCR_POWERUP =? 0)
      then modify (set_ocr (resp0 resp_data)) ;;; ret 0
      else delay_ms 10 ;;; op_cond_loop tries
  end.

Definition mmc_send_op_cond : C Z :=
  mmc_reset_to_idle ;;?
  op_cond_loop SEND_OP_COND_MAX_RETRIES.

(** [rca << RCA_SHIFT_OFFSET] *)
Definition rca_arg (w : mmc_st HW) : Z := u32 (Z.shiftl (rca w) RCA_SHIFT_OFFSET).

Fixpoint device_state_loop (timeout : nat) : C Z :=
  match timeout with
  | O => ret (- PB_ERR_IO)
  | S timeout =>
      arg <- gets rca_arg ;;
      let* (rc, resp_data) := mmc_send_cmd MMC_CMD_SEND_STATUS arg MMC_RSP_R1 in
      if (rc =? PB_OK) && negb (Z.land (resp0 resp_data) STATUS_SWITCH_ERROR =? 0) then ret (- PB_ERR_IO) else
      if (rc =? PB_OK) && negb (Z.land (resp0 resp_data) STATUS_READY_FOR_DATA =? 0)
      then ret (MMC_GET_STATE (resp0 resp_data))
      else delay_ms 1 ;;; device_state_loop timeout
  end.

Definition mmc_device_state (timeout : Z) : C Z := device_state_loop (Z.to_nat timeout).

(** [do { ret = mmc_device_state(timeout); if (ret < 0) return ret; }
    while (!until(ret));] *)
Fixpoint state_loop (fuel : nat) (timeout : Z) (until : Z -> bool) : C Z :=
  match fuel with
  | O => ret (- PB_ERR_TIMEOUT)
  | S fuel =>
      rc <- mmc_device_state timeout ;;
      if rc <? 0 then ret rc else
      if until rc then ret PB_OK else state_loop fuel timeout until
  end.
Definition wait_state (timeout : Z) (until : Z -> bool) : C Z := state_loop poll_fuel timeout until.

Definition mmc_extcsd_reload : C Z :=
  modify (set_block_size MMC_BLOCK_SIZE) ;;;
  hal_call (fun hal => mh_prepare hal 0 512 mmc_ext_csd) ;;?
  mmc_command MMC_CMD_SEND_EXT_CSD 0 MMC_RSP_R1 ;;?
  hal_call (fun hal => mh_read hal 0 512 mmc_ext_csd) ;;?
  wait_state MMC_DEFAULT_TIMEOUT_ms (fun rc => rc =? MMC_STATE_TRAN).

Definition switch_arg (ext_cmd value : Z) : Z :=
  Z.lor (Z.lor (Z.lor EXTCSD_WRITE_BYTES (EXTCSD_CMD ext_cmd)) (EXTCSD_VALUE value)) EXTCSD_CMD_SET_NORMAL.

Definition mmc_set_ext_csd (ext_cmd value timeout : Z) : C Z :=
  timeout <- (if timeout =? 0 then gets generic_cmd6_time_ms else ret timeout) ;;
  mmc_command MMC_CMD_SWITCH (switch_arg ext_cmd value) MMC_RSP_R1b ;;?
  wait_state timeout (fun rc => negb (rc =? MMC_STATE_PRG)).

Definition mmc_extcsd_write (field_id value : Z) : C Z :=
  if 512 <=? field_id then ret (- PB_ERR_PARAM) else mmc_set_ext_csd field_id value 0.

(** [value] is not NULL; the second component is what is stored there. *)
Definition mmc_extcsd_read (field_id : Z) : C (Z * option Z) :=
  if 512 <=? field_id then ret (- PB_ERR_PARAM, None) else
  v <- gets (fun w => ext_csd_at w field_id) ;; ret (0, Some v).

Definition mmc_set_bus_clock (clk_hz : Z) : C Z := hal_call (fun hal => mh_set_bus_clock hal clk_hz).

(** The value of EXT_CSD BUS_WIDTH; [None]: the default label. *)
Definition bus_width_value (bus_width : mmc_bus_width) : option Z :=
  match bus_width with
  | MMC_BUS_WIDTH_1BIT => Some EXT_CSD_BUS_WIDTH_1
  | MMC_BUS_WIDTH_4BIT => Some EXT_CSD_BUS_WIDTH_4
  | MMC_BUS_WIDTH_8BIT => Some EXT_CSD_BUS_WIDTH_8
  | MMC_BUS_WIDTH_4BIT_DDR => Some EXT_CSD_BUS_WIDTH_4_DDR
  | MMC_BUS_WIDTH_8BIT_DDR => Some EXT_CSD_BUS_WIDTH_8_DDR
  | MMC_BUS_WIDTH_8BIT_DDR_STROBE => Some (Z.lor EXT_CSD_BUS_WIDTH_8_DDR EXT_CSD_BUS_WIDTH_STROBE)
  | MMC_BUS_WIDTH_INVALID => None
  end.

Definition mmc_set_bus_width (bus_width : mmc_bus_width) : C Z :=
  match bus_width_value bus_width with
  | None => ret (- PB_ERR_PARAM)
  | Some value =>
      mmc_set_ext_csd EXT_CSD_BUS_WIDTH value 0 ;;?
      hal_call (fun hal => mh_set_bus_width hal bus_width)
  end.

(** ** Hardware partitions and transfers *)

(** Which partition is accessed and which one is bootable; [None]: the default
    label. *)
Definition part_config_value (part : mmc_part) : option Z :=
  match part with
  | MMC_PART_BOOT0 => Some (Z.lor (Z.shiftl 2 3) 0x01)
  | MMC_PART_BOOT1 => Some (Z.lor (Z.shiftl 1 3) 0x02)
  | MMC_PART_RPMB => Some (Z.lor (Z.shiftl 1 3) 0x03)
  | MMC_PART_USER => Some (Z.shiftl 1 3)
  | MMC_PART_END => None
  end.

Definition mmc_part_switch (part : mmc_part) : C Z :=
  match part_config_value part with
  | None => ret (- PB_ERR_IO)
  | Some value =>
      modify (set_part part) ;;;
      w <- get ;;
      if negb (value =? mmc_current_part_config w) then
        modify (set_part_config value) ;;;
        mmc_set_ext_csd EXT_CSD_PART_CONFIG value (partition_switch_time_ms w)
      else ret PB_OK
  end.

(** The length is within what the controller moves at once. *)
Definition chunk_fits (length : Z) : C bool :=
  gets (fun w => negb ((0 <? mh_max_chunk_bytes (mm_hal w)) && (mh_max_chunk_bytes (mm_hal w) <? length))).

(** The block count for the RPMB, and the command. *)
Definition data_command (single multiple lba length : Z) : C Z :=
  w <- get ;;
  if decide (mmc_current_part w = MMC_PART_RPMB) then
    mmc_command MMC_CMD_SET_BLOCK_COUNT (u32 (length / 512)) MMC_RSP_R1 ;;?
    mmc_command multiple lba MMC_RSP_R1
  else mmc_command (if MMC_BLOCK_SIZE <? length then multiple else single) lba MMC_RSP_R1.

Definition mmc_read (lba length buf : Z) : C Z :=
  fits <- chunk_fits length ;;
  if negb fits then ret (- PB_ERR_IO) else
  hal_call (fun hal => mh_prepare hal lba length buf) ;;?
  data_command MMC_CMD_READ_SINGLE_BLOCK MMC_CMD_READ_MULTIPLE_BLOCK lba length ;;?
  hal_call (fun hal => mh_read hal lba length buf) ;;?
  wait_state MMC_DEFAULT_TIMEOUT_ms (fun rc => (rc =? MMC_STATE_TRAN) || (rc =? MMC_STATE_DATA)).

Definition mmc_write (lba length buf : Z) : C Z :=
  fits <- chunk_fits length ;;
  if negb fits then ret (- PB_ERR_IO) else
  hal_call (fun hal => mh_prepare hal lba length buf) ;;?
  data_command MMC_CMD_WRITE_SINGLE_BLOCK MMC_CMD_WRITE_MULTIPLE_BLOCK lba length ;;?
  hal_call (fun hal => mh_write hal lba length buf) ;;?
  wait_state MMC_DEFAULT_TIMEOUT_ms (fun rc => (rc =? MMC_STATE_TRAN) || (rc =? MMC_STATE_RCV)).

Definition mmc_power_off : C Z :=
  mmc_set_ext_csd EXT_CSD_POWER_OFF_NOTIFICATION 0x01 0 ;;?
  t <- gets power_off_long_time_ms ;;
  mmc_set_ext_csd EXT_CSD_POWER_OFF_NOTIFICATION 0x03 t.

(** ** HS200 tuning *)

Definition tuning_blk_pattern_8bit : list Z := [
  0xff; 0xff; 0x00; 0xff; 0xff; 0xff; 0x00; 0x00; 0xff; 0xff; 0xcc; 0xcc; 0xcc; 0x33; 0xcc; 0xcc;
  0xcc; 0x33; 0x33; 0xcc; 0xcc; 0xcc; 0xff; 0xff; 0xff; 0xee; 0xff; 0xff; 0xff; 0xee; 0xee; 0xff;
  0xff; 0xff; 0xdd; 0xff; 0xff; 0xff; 0xdd; 0xdd; 0xff; 0xff; 0xff; 0xbb; 0xff; 0xff; 0xff; 0xbb;
  0xbb; 0xff; 0xff; 0xff; 0x77; 0xff; 0xff; 0xff; 0x77; 0x77; 0xff; 0x77; 0xbb; 0xdd; 0xee; 0xff;
  0xff; 0xff; 0xff; 0x00; 0xff; 0xff; 0xff; 0x00; 0x00; 0xff; 0xff; 0xcc; 0xcc; 0xcc; 0x33; 0xcc;
  0xcc; 0xcc; 0x33; 0x33; 0xcc; 0xcc; 0xcc; 0xff; 0xff; 0xff; 0xee; 0xff; 0xff; 0xff; 0xee; 0xee;
  0xff; 0xff; 0xff; 0xdd; 0xff; 0xff; 0xff; 0xdd; 0xdd; 0xff; 0xff; 0xff; 0xbb; 0xff; 0xff; 0xff;
  0xbb; 0xbb; 0xff; 0xff; 0xff; 0x77; 0xff; 0xff; 0xff; 0x77; 0x77; 0xff; 0x77; 0xbb; 0xdd; 0xee].

(** The transfer of the tuning block at one tap; any error makes the tap bad. *)
Definition tune_xfer : C Z :=
  hal_call (fun hal => mh_prepare hal 0 128 mmc_tuning_rsp) ;;?
  mmc_command MMC_CMD_SEND_TUNING_BLOCK_HS200 0 MMC_RSP_R1 ;;?
  hal_call (fun hal => mh_read hal 0 128 mmc_tuning_rsp) ;;?
  wait_state MMC_DEFAULT_TIMEOUT_ms (fun rc => rc =? MMC_STATE_TRAN).

(** [result[i]] *)
Definition tune_tap (i : Z) : C bool :=
  hal_call (fun hal => mh_set_delay_tap hal i) ;;;
  delay_ms 10 ;;;
  rc <- tune_xfer ;;
  if negb (rc =? PB_OK) then ret false else
  gets (fun w => memeq 128 tuning_blk_pattern_8bit (ram_read (mem (mm_hw w)) mmc_tuning_rsp 128)).

Fixpoint tune_taps (i : Z) (n : nat) : C (list bool) :=
  match n with
  | O => ret []
  | S n => r <- tune_tap i ;; rs <- tune_taps (i + 1) n ;; ret (r :: rs)
  end.

(** The variables of the loop that looks for the widest run of good taps;
    [None]: [selected_tap] has not been assigned. *)
Record tap_search := TapSearch {
  start_tap : Z; find_next_good : bool; high_score : Z; selected_tap : option Z; good_count : Z
}.
Definition tap_search_init : tap_search := TapSearch 0 true 0 None 0.

(** One iteration; the loop ends before [i == 127] could hold. *)
Definition tap_step (i : Z) (good : bool) (s : tap_search) : tap_search :=
  let count := good_count s + Z.b2z good in
  if find_next_good s then
    if good then TapSearch i false (high_score s) (selected_tap s) count
    else TapSearch (start_tap s) true (high_score s) (selected_tap s) count
  else if negb good || (i =? 127) then
    let end_tap := u32 (i - 1) in
    let pass_count := u32 (end_tap - start_tap s) in
    let center_tap := u32 (start_tap s + pass_count / 2) in
    if high_score s <? pass_count
    then TapSearch 0 true pass_count (Some center_tap) count
    else TapSearch 0 true (high_score s) (selected_tap s) count
  else TapSearch (start_tap s) false (high_score s) (selected_tap s) count.

Fixpoint tap_loop (i : Z) (results : list bool) (s : tap_search) : tap_search :=
  match results with
  | [] => s
  | r :: results => tap_loop (i + 1) results (tap_step i r s)
  end.

(** [stack_tap]: what the unassigned [selected_tap] holds. *)
Definition hs200_tune (stack_tap : Z) : C Z :=
  results <- tune_taps 0 127 ;;
  let s := tap_loop 0 results tap_search_init in
  if good_count s =? 0 then ret (- PB_ERR) else
  hal_call (fun hal => mh_set_delay_tap hal (default stack_tap (selected_tap s))) ;;;
  ret PB_OK.

(** ** Enumeration *)

(** [MHz(x)] *)
Definition MHz (x : Z) : Z := x * 1000000.

(** The switch over the bus mode. *)
Definition mmc_set_mode (stack_tap : Z) (mode : mmc_bus_mode) (width : mmc_bus_width) : C Z :=
  match mode with
  | MMC_BUS_MODE_DDR52 =>
      mmc_set_ext_csd EXT_CSD_HS_TIMING EXT_CSD_TIMING_HS 0 ;;?
      mmc_set_bus_width width ;;?
      mmc_set_bus_clock (MHz 52)
  | MMC_BUS_MODE_HS200 =>
      mmc_set_bus_width width ;;?
      mmc_set_ext_csd EXT_CSD_HS_TIMING EXT_CSD_TIMING_HS200 0 ;;?
      mmc_set_bus_clock (MHz 200) ;;?
      (if CONFIG_MMC_CORE_HS200_TUNE then hs200_tune stack_tap else ret PB_OK)
  | MMC_BUS_MODE_HS400 =>
      mmc_set_ext_csd EXT_CSD_HS_TIMING EXT_CSD_TIMING_HS 0 ;;?
      mmc_set_bus_width width ;;?
      mmc_set_ext_csd EXT_CSD_HS_TIMING EXT_CSD_TIMING_HS400 0 ;;?
      mmc_set_bus_clock (MHz 200)
  | _ => ret (- PB_ERR_NOT_IMPLEMENTED)
  end.

(** From the controller's reset to the selected card. *)
Definition mmc_identify : C Z :=
  hal_call mh_init ;;?
  mmc_set_bus_clock (400 * 1000) ;;?
  mmc_send_op_cond ;;?
  mmc_command MMC_CMD_ALL_SEND_CID 0 MMC_RSP_R2 ;;?
  (modify (set_rca MMC_FIX_RCA) ;;;
  arg <- gets rca_arg ;;
  mmc_command MMC_CMD_SET_RELATIVE_ADDR arg MMC_RSP_R1 ;;?
  (let* (rc, resp_data) := mmc_send_cmd MMC_CMD_SEND_CSD arg MMC_RSP_R2 in
  if negb (rc =? 0) then ret rc else
  modify (set_csd resp_data) ;;;
  mmc_command MMC_CMD_SELECT_CARD arg MMC_RSP_R1 ;;?
  wait_state MMC_DEFAULT_TIMEOUT_ms (fun rc => rc =? MMC_STATE_TRAN))).

(** The time-outs and the boot bus conditions, from the card's register. *)
Definition mmc_read_times : C Z :=
  mmc_extcsd_reload ;;?
  (modify (fun w => set_times (ext_csd_at w EXT_CSD_POWER_OFF_LONG_TIME * 10)
     (ext_csd_at w EXT_CSD_GENERIC_CMD6_TIME * 10) (ext_csd_at w EXT_CSD_PART_SWITCH_TIME * 10) w) ;;;
  w <- get ;;
  (if negb (ext_csd_at w EXT_CSD_BOOT_BUS_CONDITIONS =? mc_boot_mode (mm_cfg w))
   then mmc_set_ext_csd EXT_CSD_BOOT_BUS_CONDITIONS (mc_boot_mode (mm_cfg w)) 0 else ret PB_OK) ;;?
  modify (fun w => set_part_config (ext_csd_at w EXT_CSD_PART_CONFIG) w) ;;;
  ret PB_OK).

(** [size_t sectors]: the four bytes are combined as [int]. *)
Definition sectors (w : mmc_st HW) : Z :=
  let b i := ext_csd_at w (EXT_CSD_SEC_CNT + i) in
  usz (s32 (Z.lor (Z.lor (Z.lor (b 0) (Z.shiftl (b 1) 8)) (Z.shiftl (b 2) 16)) (Z.shiftl (b 3) 24))).

Definition boot_part_last_lba (w : mmc_st HW) : Z :=
  match CONFIG_MMC_CORE_BOOT_PART_SZ_KiB with
  | Some kib => u32 (kib * 2 - 1)
  | None => u32 (ext_csd_at w EXT_CSD_BOOT_MULT * 256 - 1)
  end.
Definition rpmb_part_last_lba (w : mmc_st HW) : Z := u32 (ext_csd_at w EXT_CSD_RPMB_MULT * 256 - 1).
End mmc_core.

(** ** The callbacks of the block layer, and the set-up *)

Section mmc_bio.
Context {arch : Arch} {kc : Kconfig} {mkc : MmcKconfig} {HW : Type}.
Context (mem : HW -> ram_t) (mmc_ext_csd mmc_tuning_rsp : Z).
Context (plat_get_us_tick : M HW Z) (poll_fuel delay_fuel : nat).
(** The addresses of [mmc_bio_read] and [mmc_bio_write]. *)
Context (bio_read_p bio_write_p : fptr).
Abbreviation S := (M (bio_state (mmc_st HW))).

Definition on_mmc {A} (m : M (mmc_st HW) A) : S A := call_drv m.

Definition select_part (dev : bio_dev_t) : S unit :=
  flags <- bio_get_hal_flags dev ;;
  let switch p := on_mmc (mmc_part_switch plat_get_us_tick poll_fuel delay_fuel p) ;;; ret tt in
  if negb (Z.land flags MMC_BIO_FLAG_USER =? 0) then switch MMC_PART_USER
  else if negb (Z.land flags MMC_BIO_FLAG_BOOT0 =? 0) then switch MMC_PART_BOOT0
  else if negb (Z.land flags MMC_BIO_FLAG_BOOT1 =? 0) then switch MMC_PART_BOOT1
  else if negb (Z.land flags MMC_BIO_FLAG_RPMB =? 0) then switch MMC_PART_RPMB
  else ret tt.

(** The loop over the chunks of a transfer [xfer lba length buf]; [fuel]: how
    many chunks are moved. *)
Fixpoint chunk_loop (xfer : Z -> Z -> Z -> M (mmc_st HW) Z) (block_sz : Z) (fuel : nat) (rc lba bytes buf_ptr : Z) : S Z :=
  match fuel with
  | O => ret (- PB_ERR_TIMEOUT)
  | Datatypes.S fuel =>
      if bytes =? 0 then ret rc else
      max_len <- gets (fun s => mh_max_chunk_bytes (mm_hal (bio_hw s))) ;;
      let chunk_len := if max_len <? bytes then max_len else bytes in
      rc <- on_mmc (xfer lba chunk_len buf_ptr) ;;
      if rc <? 0 then ret rc else
      chunk_loop xfer block_sz fuel rc (u32 (lba + chunk_len / block_sz)) (usz (bytes - chunk_len)) (usz (buf_ptr + chunk_len))
  end.

Definition mmc_bio_io (xfer : Z -> Z -> Z -> M (mmc_st HW) Z) (fuel : nat) (dev : bio_dev_t) (lba length buf : Z) : S Z :=
  block_sz <- bio_block_size dev ;;
  if block_sz <? 0 then ret (s32 block_sz) else
  select_part dev ;;;
  chunk_loop xfer block_sz fuel (-1) lba length buf.

Definition mmc_bio_read : nat -> bio_dev_t -> Z -> Z -> Z -> S Z :=
  mmc_bio_io (mmc_read plat_get_us_tick poll_fuel delay_fuel).
Definition mmc_bio_write : nat -> bio_dev_t -> Z -> Z -> Z -> S Z :=
  mmc_bio_io (mmc_write plat_get_us_tick poll_fuel delay_fuel).

(** [if (rc < 0) return rc;] *)
Definition unless_neg (m k : S Z) : S Z := rc <- m ;; if rc <? 0 then ret rc else k.

(** Allocation of one of the card's partitions; the RPMB has no flags. *)
Definition mmc_register (last : lba_t) (u : uuid_t) (desc : list Z) (hal_flag : Z) (fl : option Z) (k : S Z) : S Z :=
  d <- bio_allocate 0 last 512 u desc ;;
  if d <? 0 then ret d else
  unless_neg (bio_set_hal_flags d hal_flag) (
  unless_neg (match fl with Some fl => bio_set_flags d fl | None => ret PB_OK end) (
  unless_neg (bio_set_ios d bio_read_p bio_write_p) k)).

(** ["eMMC BOOT0"], ["eMMC BOOT1"], ["eMMC RPMB"], ["eMMC USER"] *)
Definition name_boot0 : list Z := [0x65; 0x4d; 0x4d; 0x43; 0x20; 0x42; 0x4f; 0x4f; 0x54; 0x30].
Definition name_boot1 : list Z := [0x65; 0x4d; 0x4d; 0x43; 0x20; 0x42; 0x4f; 0x4f; 0x54; 0x31].
Definition name_rpmb : list Z := [0x65; 0x4d; 0x4d; 0x43; 0x20; 0x52; 0x50; 0x4d; 0x42].
Definition name_user : list Z := [0x65; 0x4d; 0x4d; 0x43; 0x20; 0x55; 0x53; 0x45; 0x52].

Definition mmc_register_parts : S Z :=
  w <- gets bio_hw ;;
  let cfg := mm_cfg w in
  let boot_last := boot_part_last_lba mem mmc_ext_csd w in
  let rpmb_last := rpmb_part_last_lba mem mmc_ext_csd w in
  let user_last := u32 (usz (sectors mem mmc_ext_csd w - 1)) in
  let fl := Some (Z.lor BIO_FLAG_VISIBLE BIO_FLAG_WRITABLE) in
  mmc_register boot_last (mc_boot0_uu cfg) name_boot0 MMC_BIO_FLAG_BOOT0 fl (
  mmc_register boot_last (mc_boot1_uu cfg) name_boot1 MMC_BIO_FLAG_BOOT1 fl (
  mmc_register rpmb_last (mc_rpmb_uu cfg) name_rpmb MMC_BIO_FLAG_RPMB None (
  mmc_register user_last (mc_user_uu cfg) name_user MMC_BIO_FLAG_USER fl (ret PB_OK)))).

Definition mmc_setup (stack_tap : Z) : S Z :=
  on_mmc (mmc_identify plat_get_us_tick poll_fuel delay_fuel) ;;?
  (cfg <- gets (fun s => mm_cfg (bio_hw s)) ;;
  on_mmc (mmc_set_mode mem mmc_tuning_rsp plat_get_us_tick poll_fuel delay_fuel stack_tap (mc_mode cfg) (mc_width cfg)) ;;?
  on_mmc (mmc_read_times mem mmc_ext_csd plat_get_us_tick poll_fuel delay_fuel) ;;?
  mmc_register_parts).

(** [cfg] is read before it is compared with NULL, so it is not NULL here. *)
Definition mmc_init (stack_tap : Z) (hal : option (mmc_hal HW)) (cfg : mmc_device_config) : S Z :=
  match mc_mode cfg, hal with
  | (MMC_BUS_MODE_INVALID | MMC_BUS_MODE_END), _ | _, None => ret (- PB_ERR_PARAM)
  | _, Some hal => on_mmc (modify (set_hal_cfg hal cfg)) ;;; mmc_setup stack_tap
  end.
End mmc_bio.

(** ** Tuning picks the middle of a run of good taps *)

(** The taps [a] to [b] are good, the one before is not, and the one behind
    is bad: a run that the search sees the end of. *)
Definition good_run (rs : list bool) (a b : nat) : Prop :=
  (a <= b)%nat /\ (forall k, (a <= k <= b)%nat -> rs !! k = Some true) /\ rs !! S b = Some false /\
  (forall k, S k = a -> rs !! k = Some false).

(** The tap that was selected so far: none while no run of two or more taps has
    ended, else the middle of a run that is as wide as any. *)
Definition best_so_far (rs : list bool) (s : tap_search) : Prop :=
  match selected_tap s with
  | None => high_score s = 0 /\ forall a b, good_run rs a b -> a = b
  | Some c => exists a b, good_run rs a b /\ (a < b)%nat /\ high_score s = Z.of_nat (b - a) /\
      c = Z.of_nat (a + (b - a) / 2) /\ forall a' b', good_run rs a' b' -> (b' - a' <= b - a)%nat
  end.

(** The run that is not over yet. *)
Definition open_run (rs : list bool) (s : tap_search) : Prop :=
  if find_next_good s then forall k, S k = length rs -> rs !! k = Some false
  else exists a, (a < length rs)%nat /\ start_tap s = Z.of_nat a /\
    (forall k, (a <= k < length rs)%nat -> rs !! k = Some true) /\ forall k, S k = a -> rs !! k = Some false.

Lemma good_run_app rs r a b : good_run rs a b -> good_run (rs ++ [r]) a b.
Proof.
  intros (H1 & H2 & H3 & H4). split; [done|]. split; [|split].
  - intros k Hk. by apply lookup_app_l_Some, H2.
  - by apply lookup_app_l_Some.
  - intros k Hk. by apply lookup_app_l_Some, H4.
Qed.

(** A run of the longer list is one of the shorter, or ends with the new tap. *)
Lemma good_run_snoc rs r a b : good_run (rs ++ [r]) a b -> good_run rs a b \/ (S b = length rs /\ r = false /\
  (forall k, (a <= k <= b)%nat -> rs !! k = Some true) /\ (a <= b)%nat /\ forall k, S k = a -> rs !! k = Some false).
Proof.
  intros (H1 & H2 & H3 & H4). pose proof (lookup_lt_Some _ _ _ H3) as Hlt. rewrite length_app in Hlt. cbn in Hlt.
  assert (Hin : forall k v, (k < length rs)%nat -> (rs ++ [r]) !! k = Some v -> rs !! k = Some v) by (intros k v Hk; by rewrite lookup_app_l).
  destruct (decide (S b < length rs)%nat) as [Hb|Hb].
  - left. split; [done|]. split; [intros k Hk; apply Hin; [lia|by apply H2]|]. split; [by apply Hin|]. intros k Hk. apply Hin; [lia|by apply H4].
  - right. assert (E : S b = length rs) by lia. rewrite E, lookup_app_r, Nat.sub_diag in H3 by lia. cbn in H3.
    split; [done|]. split; [congruence|]. split; [intros k Hk; apply Hin; [lia|by apply H2]|]. split; [done|]. intros k Hk. apply Hin; [lia|by apply H4].
Qed.

Lemma best_snoc_kept rs r s s' : best_so_far rs s -> selected_tap s' = selected_tap s -> high_score s' = high_score s ->
  (forall a b, good_run (rs ++ [r]) a b -> good_run rs a b \/ Z.of_nat (b - a) <= high_score s) -> best_so_far (rs ++ [r]) s'.
Proof.
  unfold best_so_far. intros H -> -> Hnew. destruct (selected_tap s) as [c|].
  - destruct H as (a & b & Hg & Hlt & Hs & Hc & Hmax). exists a, b. split_and!; [by apply good_run_app|done..|].
    intros a' b' Hg'. destruct (Hnew a' b' Hg') as [?|?]; [by apply Hmax|lia].
  - destruct H as (Hs & Hall). split; [done|]. intros a b Hg. destruct (Hnew a b Hg) as [?|?]; [by apply Hall|]. destruct Hg as (? & _). lia.
Qed.

(** One step while no run is open, and inside of one. *)
Lemma tap_step_search rs r s : find_next_good s = true -> best_so_far rs s -> open_run rs s -> 0 <= high_score s ->
  let s' := tap_step (Z.of_nat (length rs)) r s in best_so_far (rs ++ [r]) s' /\ open_run (rs ++ [r]) s' /\ 0 <= high_score s'.
Proof.
  intros Ef Hb Ho Hhs. unfold open_run in *. unfold tap_step. rewrite Ef in *.
  assert (Hnone : forall a b, good_run (rs ++ [r]) a b -> good_run rs a b \/ Z.of_nat (b - a) <= high_score s).
  { intros a b Hg. destruct (good_run_snoc rs r a b Hg) as [?|(E & _ & Hall & Hab & _)]; [by left|].
    specialize (Ho b E). rewrite Hall in Ho by lia. done. }
  destruct r; cbn [find_next_good selected_tap high_score start_tap].
  + split_and!; [by eapply best_snoc_kept| |done]. exists (length rs). rewrite length_app. cbn [length]. split_and!; [lia|done| |].
    * intros k Hk. assert (k = length rs) as -> by lia. by rewrite lookup_app_r, Nat.sub_diag by lia.
    * intros k Hk. apply lookup_app_l_Some, Ho. lia.
  + split_and!; [by eapply best_snoc_kept| |done]. intros k Hk. rewrite length_app in Hk. cbn in Hk. assert (k = length rs) as -> by lia.
    by rewrite lookup_app_r, Nat.sub_diag by lia.
Qed.

Lemma tap_step_run rs r s : find_next_good s = false -> (length rs < 127)%nat -> best_so_far rs s -> open_run rs s -> 0 <= high_score s ->
  let s' := tap_step (Z.of_nat (length rs)) r s in best_so_far (rs ++ [r]) s' /\ open_run (rs ++ [r]) s' /\ 0 <= high_score s'.
Proof.
  intros Ef Hlen Hb Ho Hhs. unfold open_run in *. unfold tap_step. rewrite Ef in *.
  destruct Ho as (a & Ha & Hst & Hgood & Hbefore). rewrite (proj2 (Z.eqb_neq (Z.of_nat (length rs)) 127)), orb_false_r by lia. destruct r; cbn [negb].
  + split_and!; [|exists a; rewrite length_app; cbn [length find_next_good start_tap]; split_and!; [lia|done| |]|done].
    * eapply best_snoc_kept; [done..|]. intros a' b' Hg. destruct (good_run_snoc rs true a' b' Hg) as [?|(_ & [=] & _)]. by left.
    * intros k Hk. destruct (decide (k < length rs)%nat); [apply lookup_app_l_Some, Hgood; lia|].
      assert (k = length rs) as -> by lia. by rewrite lookup_app_r, Nat.sub_diag by lia.
    * intros k Hk. by apply lookup_app_l_Some, Hbefore.
  + set (b := (length rs - 1)%nat). assert (Hrun : good_run (rs ++ [false]) a b).
    { split; [lia|]. split; [intros k Hk; apply lookup_app_l_Some, Hgood; lia|]. split; [|intros k Hk; by apply lookup_app_l_Some, Hbefore].
      rewrite lookup_app_r by lia. by replace (S b - length rs)%nat with 0%nat by lia. }
    assert (Hnew : forall a' b', good_run (rs ++ [false]) a' b' -> good_run rs a' b' \/ (a' = a /\ b' = b)).
    { intros a' b' Hg. destruct (good_run_snoc rs false a' b' Hg) as [?|(E & _ & Hall & Hab & Hbef)]; [by left|right].
      split; [|lia]. destruct (lt_eq_lt_dec a' a) as [[H|H]|H]; [|done|].
      - destruct a as [|a0]; [lia|]. specialize (Hbefore a0 eq_refl). rewrite Hall in Hbefore by lia. done.
      - destruct a' as [|a0]; [lia|]. specialize (Hbef a0 eq_refl). rewrite Hgood in Hbef by lia. done. }
    assert (Hcount : u32 (u32 (Z.of_nat (length rs) - 1) - start_tap s) = Z.of_nat (b - a)) by (rewrite Hst, (u32_small (Z.of_nat (length rs) - 1)), u32_small; lia).
    rewrite Hcount. assert (Hopen : forall k, S k = length (rs ++ [false]) -> (rs ++ [false]) !! k = Some false).
    { intros k Hk. rewrite length_app in Hk. cbn in Hk. assert (k = length rs) as -> by lia. by rewrite lookup_app_r, Nat.sub_diag by lia. }
    destruct (Z.ltb_spec (high_score s) (Z.of_nat (b - a))) as [Hlt|Hge]; (split_and!; [|exact Hopen|cbn; lia]).
    * unfold best_so_far. cbn [selected_tap high_score]. exists a, b. split_and!; [done|lia|done| |].
      -- rewrite Hst, (Nat2Z.inj_add a), Nat2Z.inj_div. apply u32_small. Z.to_euclidean_division_equations. lia.
      -- intros a' b' Hg. destruct (Hnew a' b' Hg) as [Hold|[-> ->]]; [|done]. unfold best_so_far in Hb. destruct (selected_tap s).
         ++ destruct Hb as (x & y & _ & _ & Hs & _ & Hmax). specialize (Hmax a' b' Hold). lia.
         ++ destruct Hb as [_ Hall]. specialize (Hall a' b' Hold). lia.
    * eapply best_snoc_kept; [done..|]. intros a' b' Hg. destruct (Hnew a' b' Hg) as [?|[-> ->]]; [by left|by right].
Qed.

Lemma tap_loop_app rs l : forall i s, tap_loop i (rs ++ l) s = tap_loop (i + Z.of_nat (length rs)) l (tap_loop i rs s).
Proof.
  induction rs as [|r rs IH]; intros i s; cbn [app tap_loop length]; [by rewrite Z.add_0_r|]. rewrite IH. f_equal. lia.
Qed.

Lemma tap_loop_ok rs : (length rs <= 127)%nat ->
  let s := tap_loop 0 rs tap_search_init in best_so_far rs s /\ open_run rs s /\ 0 <= high_score s.
Proof.
  induction rs as [|r rs IH] using rev_ind; intros Hl.
  - split; [|split; [by intros k|done]]. split; [done|]. intros a b (_ & _ & H & _). done.
  - rewrite length_app in Hl. cbn in Hl. destruct IH as (Hb & Ho & Hs); [lia|]. cbv zeta. rewrite tap_loop_app. cbn [tap_loop].
    change (0 + Z.of_nat (length rs)) with (Z.of_nat (length rs)). destruct (find_next_good (tap_loop 0 rs tap_search_init)) eqn:Ef.
    + by apply tap_step_search.
    + apply tap_step_run; [done|lia|done..].
Qed.

Lemma good_count_ok rs : forall i s, good_count (tap_loop i rs s) = good_count s + Z.of_nat (length (filter Is_true rs)).
Proof.
  induction rs as [|r rs IH]; intros i s; cbn [tap_loop]; [cbn; lia|]. rewrite IH.
  assert (Hc : good_count (tap_step i r s) = good_count s + Z.b2z r) by (unfold tap_step; repeat case_if; done).
  rewrite Hc. destruct r; [rewrite filter_cons_True by done|rewrite filter_cons_False by (by intros [])]; cbn [length Z.b2z]; lia.
Qed.

Section tuning.
Context {HW : Type} (mem : HW -> ram_t) (mmc_tuning_rsp : Z) (tick : M HW Z) (poll_fuel delay_fuel : nat).

Lemma length_tune_taps n : forall i (w : mmc_st HW), length (tune_taps mem mmc_tuning_rsp tick poll_fuel delay_fuel i n w).1 = n.
Proof.
  induction n as [|n IH]; intros i w; [done|]. cbn [tune_taps]. unfold bind, ret. destruct (tune_tap _ _ _ _ _ i w) as [r w1].
  specialize (IH (i + 1) w1). destruct (tune_taps _ _ _ _ _ (i + 1) n w1) as [rs w2]. cbn in *. by rewrite IH.
Qed.

(** Tuning after the 127 taps were tried, with the results [rs]: without a good
    tap it fails; else it selects the middle of a widest run of good taps,
    among the runs of two or more taps that end before the last tap.  Without
    such a run it reports success with a tap it never computed. *)
Theorem hs200_tune_selects stack_tap (w : mmc_st HW) : let '(rs, w1) := tune_taps mem mmc_tuning_rsp tick poll_fuel delay_fuel 0 127 w in
  let '(rc, w') := hs200_tune mem mmc_tuning_rsp tick poll_fuel delay_fuel stack_tap w in
  if decide (filter Is_true rs = []) then rc = - PB_ERR /\ w' = w1
  else rc = PB_OK /\ exists tap, w' = (hal_call (fun hal => mh_set_delay_tap hal tap) w1).2 /\
    ((tap = stack_tap /\ forall a b, good_run rs a b -> a = b) \/
     exists a b, good_run rs a b /\ (a < b)%nat /\ tap = Z.of_nat (a + (b - a) / 2) /\ forall a' b', good_run rs a' b' -> (b' - a' <= b - a)%nat).
Proof.
  unfold hs200_tune. pose proof (length_tune_taps 127 0 w) as Hl. unfold bind at 1. destruct (tune_taps _ _ _ _ _ 0 127 w) as [rs w1]. cbn [fst] in Hl.
  destruct (tap_loop_ok rs) as (Hb & _ & _); [lia|]. pose proof (good_count_ok rs 0 tap_search_init) as Hc. cbn [good_count tap_search_init] in Hc.
  set (s := tap_loop 0 rs tap_search_init) in *. rewrite Z.add_0_l in Hc. destruct (decide (filter Is_true rs = [])) as [E|E].
  - by rewrite Hc, E.
  - rewrite (proj2 (Z.eqb_neq (good_count s) 0)) by (rewrite Hc; destruct (filter Is_true rs); [done|cbn; lia]). unfold bind, ret.
    destruct (hal_call _ w1) as [rc0 w'] eqn:Ehal. split; [done|]. exists (default stack_tap (selected_tap s)). split; [by rewrite Ehal|].
    unfold best_so_far in Hb. destruct (selected_tap s) as [c|]; cbn [default]; [right|left; split; [done|apply Hb]].
    destruct Hb as (a & b & H1 & H2 & _ & H4 & H5). by exists a, b.
Qed.
End tuning.

(** With all taps good no run ends before the last tap. *)
Lemma hs200_all_good_untuned : selected_tap (tap_loop 0 (replicate 127 true) tap_search_init) = None /\
  good_count (tap_loop 0 (replicate 127 true) tap_search_init) = 127.
Proof. done. Qed.

(** ** Error paths *)

Section errors.
Context {HW : Type} (tick : M HW Z) (poll_fuel delay_fuel : nat).

(** Waiting for the card leaves what the driver takes for selected. *)
Definition part_vars (w : mmc_st HW) : Z * mmc_part := (mmc_current_part_config w, mmc_current_part w).

Lemma on_hw_keeps {A} (m : M HW A) : Keeps part_vars (on_hw m).
Proof. intros w. unfold on_hw. by destruct (m (mm_hw w)). Qed.
Lemma hal_call_keeps {A} (f : mmc_hal HW -> M HW A) : Keeps part_vars (hal_call f).
Proof. intros w. apply on_hw_keeps. Qed.
#[local] Hint Resolve on_hw_keeps hal_call_keeps : keeps.

Lemma device_state_keeps n : Keeps part_vars (device_state_loop tick delay_fuel n).
Proof. induction n; cbn [device_state_loop]; unfold delay_ms, mmc_send_cmd; keeps. Qed.
#[local] Hint Resolve device_state_keeps : keeps.

Lemma state_loop_keeps fuel t u : Keeps part_vars (state_loop tick delay_fuel fuel t u).
Proof. induction fuel; cbn [state_loop]; unfold mmc_device_state; keeps. Qed.
#[local] Hint Resolve state_loop_keeps : keeps.

Lemma set_ext_csd_keeps f v t : Keeps part_vars (mmc_set_ext_csd tick poll_fuel delay_fuel f v t).
Proof. unfold mmc_set_ext_csd, mmc_command, wait_state. keeps. Qed.

(** Once [mmc_part_switch] was asked for a partition it takes it for selected,
    whether the switch succeeded or not: a second call does nothing and
    returns [PB_OK]. *)
Theorem mmc_switch_failure_sticks part (w : mmc_st HW) : part <> MMC_PART_END ->
  let w1 := (mmc_part_switch tick poll_fuel delay_fuel part w).2 in mmc_part_switch tick poll_fuel delay_fuel part w1 = (PB_OK, w1).
Proof.
  intros Hp w1. assert (exists v, part_config_value part = Some v) as [v Ev] by (destruct part; [by eexists..|done]).
  assert (Hw1 : part_vars w1 = (v, part)).
  { unfold w1, mmc_part_switch. rewrite Ev. unfold bind, modify, get.
    destruct (Z.eqb_spec v (mmc_current_part_config (set_part part w))) as [->|E]; cbn [negb]; [done|]. by rewrite set_ext_csd_keeps. }
  injection Hw1 as Hc Hcur. unfold mmc_part_switch. rewrite Ev. unfold bind, modify, get.
  assert (Hid : set_part part w1 = w1) by (destruct w1; cbn in Hcur; by subst). by rewrite Hid, Hc, Z.eqb_refl.
Qed.

(** A field from 256 on is written to the field 256 below. *)
Theorem mmc_extcsd_write_aliases f v : 0 <= f < 256 ->
  @mmc_extcsd_write HW tick poll_fuel delay_fuel (f + 256) v = mmc_extcsd_write tick poll_fuel delay_fuel f v.
Proof.
  intros Hf. unfold mmc_extcsd_write, mmc_set_ext_csd, switch_arg, EXTCSD_CMD.
  rewrite (proj2 (Z.leb_gt 512 (f + 256))), (proj2 (Z.leb_gt 512 f)) by lia.
  change 0xff with (Z.ones 8). rewrite !Z.land_ones by lia. replace ((f + 256) mod 2 ^ 8) with (f mod 2 ^ 8) by (Z.to_euclidean_division_equations; lia). done.
Qed.
End errors.
