(* ===== verification/Emmc.v ===== *)
(** * A card behind the driver

    What the eMMC standard says of a card, as far as [Mmc] uses it ([emmc],
    [card_cmd]), what the driver expects of a controller with such a card
    ([EmmcLaws]), and the proof that the driver then provides what its four
    block devices promise: enumeration registers the partitions the card
    reports, and reads and writes through the block layer act on the one
    hardware partition they are meant for. *)

From stdpp Require Import functions.
From S2P Require Import Prelude Errors Ram Uuid Bio Delay Mmc.
Local Open Scope c_scope.

(** ** The card *)

(** Its state (negative: no card answers), address and EXT_CSD register, the contents of the hardware
    partitions, the transfer the controller is prepared for (address and
    length), the memory of the system, and for how many more polls the card
    is busy. *)
Record emmc := Emmc {
  em_state : Z;
  em_rca : Z;
  em_ext_csd : list Z;
  em_area : mmc_part -> list Z;
  em_dma : Z * Z;
  em_ram : ram_t;
  em_busy : nat
}.

Definition em_set_state v e := Emmc v (em_rca e) (em_ext_csd e) (em_area e) (em_dma e) (em_ram e) (em_busy e).
Definition em_set_rca v e := Emmc (em_state e) v (em_ext_csd e) (em_area e) (em_dma e) (em_ram e) (em_busy e).
Definition em_set_ext_csd v e := Emmc (em_state e) (em_rca e) v (em_area e) (em_dma e) (em_ram e) (em_busy e).
Definition em_set_area (p : mmc_part) (v : list Z) e := Emmc (em_state e) (em_rca e) (em_ext_csd e) (<[p := v]> (em_area e)) (em_dma e) (em_ram e) (em_busy e).
Definition em_set_dma v e := Emmc (em_state e) (em_rca e) (em_ext_csd e) (em_area e) v (em_ram e) (em_busy e).
Definition em_set_ram v e := Emmc (em_state e) (em_rca e) (em_ext_csd e) (em_area e) (em_dma e) v (em_busy e).
Definition em_set_busy v e := Emmc (em_state e) (em_rca e) (em_ext_csd e) (em_area e) (em_dma e) (em_ram e) v.

(** The byte [field] of EXT_CSD. *)
Definition csd_byte (e : emmc) (field : Z) : Z := nth (Z.to_nat field) (em_ext_csd e) 0.

(** PARTITION_ACCESS, the low three bits of PARTITION_CONFIG, says where data
    commands go.  The RPMB is not an array of blocks; no statement is made of
    data commands to it. *)
Definition accessed (e : emmc) : option mmc_part :=
  let a := Z.land (csd_byte e EXT_CSD_PART_CONFIG) 7 in
  if a =? 0 then Some MMC_PART_USER else if a =? 1 then Some MMC_PART_BOOT0 else if a =? 2 then Some MMC_PART_BOOT1 else None.

(** The blocks from [lba] on that a transfer of [len] bytes covers. *)
Definition blocks_in (lba len : Z) (area : list Z) : bool :=
  (0 <=? lba) && (0 <? len) && (len mod 512 =? 0) && (lba * 512 + len <=? Z.of_nat (length area)).

Definition card_read (e : emmc) (lba : Z) : option emmc :=
  let '(buf, len) := em_dma e in
  match accessed e with
  | Some p => if blocks_in lba len (em_area e p)
              then Some (em_set_ram (ram_write buf (slice (Z.to_nat (lba * 512)) (Z.to_nat len) (em_area e p)) (em_ram e)) e)
              else None
  | None => None
  end.
Definition card_write (e : emmc) (lba : Z) : option emmc :=
  let '(buf, len) := em_dma e in
  match accessed e with
  | Some p => if blocks_in lba len (em_area e p)
              then Some (em_set_area p (splice (Z.to_nat (lba * 512)) (ram_read (em_ram e) buf (Z.to_nat len)) (em_area e p)) e)
              else None
  | None => None
  end.

(** The effect of the commands that the card accepts in its state; [None]:
    nothing is known. *)
Definition card_cmd (e : emmc) (idx arg : Z) : option emmc :=
  let mine := Z.shiftr arg 16 =? em_rca e in
  let in_state s := (em_state e =? s) && (em_busy e =? 0)%nat in
  if idx =? MMC_CMD_GO_IDLE_STATE then if 0 <=? em_state e then Some (em_set_state MMC_STATE_IDLE e) else None
  else if idx =? MMC_CMD_ALL_SEND_CID then
    if in_state MMC_STATE_READY then Some (em_set_state MMC_STATE_IDENT e) else None
  else if idx =? MMC_CMD_SET_RELATIVE_ADDR then
    if in_state MMC_STATE_IDENT then Some (em_set_rca (Z.shiftr arg 16) (em_set_state MMC_STATE_STBY e)) else None
  else if idx =? MMC_CMD_SEND_CSD then
    if in_state MMC_STATE_STBY && mine then Some e else None
  else if idx =? MMC_CMD_SELECT_CARD then
    if in_state MMC_STATE_STBY && mine then Some (em_set_state MMC_STATE_TRAN e) else None
  else if negb (in_state MMC_STATE_TRAN) then None
  else if idx =? MMC_CMD_SWITCH then
    if Z.shiftr arg 24 =? 3
    then Some (em_set_ext_csd (<[Z.to_nat (Z.land (Z.shiftr arg 16) 0xff) := Z.land (Z.shiftr arg 8) 0xff]> (em_ext_csd e)) e)
    else None
  else if idx =? MMC_CMD_SEND_EXT_CSD then
    if (em_dma e).2 =? 512 then Some (em_set_ram (ram_write (em_dma e).1 (em_ext_csd e) (em_ram e)) e) else None
  else if idx =? MMC_CMD_READ_SINGLE_BLOCK then if (em_dma e).2 =? 512 then card_read e arg else None
  else if idx =? MMC_CMD_READ_MULTIPLE_BLOCK then card_read e arg
  else if idx =? MMC_CMD_WRITE_SINGLE_BLOCK then if (em_dma e).2 =? 512 then card_write e arg else None
  else if idx =? MMC_CMD_WRITE_MULTIPLE_BLOCK then card_write e arg
  else None.

(** Commands after which a card is never busy. *)
Definition identifies (idx : Z) : bool :=
  (idx =? MMC_CMD_ALL_SEND_CID) || (idx =? MMC_CMD_SET_RELATIVE_ADDR) || (idx =? MMC_CMD_SEND_CSD).

(** A controller that reaches the memory below [dma_limit] and a card that
    work: commands succeed and have the effect
    above, a busy card says so for at most [busy_max] polls, and a data
    command has moved its data when it returns.  While it is busy the card
    may fail to answer the status command. *)
Class EmmcLaws (HW : Type) (hal : mmc_hal HW) (mem : HW -> ram_t) (tick : M HW Z) (busy_max : nat) := {
  card : HW -> emmc;
  emmc_mem : forall h, mem h = em_ram (card h);
  emmc_tick : Keeps card tick;
  emmc_init : forall h, exists h', mh_init hal h = (PB_OK, h') /\ card h' = card h;
  emmc_clock : forall h hz, 0 < hz < 2 ^ 31 -> exists h', mh_set_bus_clock hal hz h = (PB_OK, h') /\ card h' = card h;
  emmc_width_ok : mmc_bus_width -> bool;
  emmc_width : forall h width, emmc_width_ok width = true -> exists h', mh_set_bus_width hal width h = (PB_OK, h') /\ card h' = card h;
  dma_limit : Z;
  emmc_prepare : forall h lba len buf, 0 < len -> (0 < mh_max_chunk_bytes hal -> len <= mh_max_chunk_bytes hal) ->
    len mod 512 = 0 -> 0 <= buf -> buf + len <= dma_limit ->
    exists h', mh_prepare hal lba len buf h = (PB_OK, h') /\ card h' = em_set_dma (buf, len) (card h);
  emmc_read : forall h lba len buf, exists h', mh_read hal lba len buf h = (PB_OK, h') /\ card h' = card h;
  emmc_write : forall h lba len buf, exists h', mh_write hal lba len buf h = (PB_OK, h') /\ card h' = card h;
  emmc_cmd : forall h idx arg rt want e, card_cmd (card h) idx arg = Some e ->
    exists r h' k, mh_send_cmd hal idx arg rt want h = ((PB_OK, r), h') /\ (k <= if identifies idx then 0 else busy_max)%nat /\
      card h' = em_set_busy k e;
  emmc_op_cond : forall h arg, em_state (card h) = MMC_STATE_IDLE -> Z.testbit arg 30 = true ->
    exists r h', mh_send_cmd hal MMC_CMD_SEND_OP_COND arg MMC_RSP_R3 true h = ((PB_OK, r), h') /\
      match em_busy (card h) with
      | O => Z.land (resp0 r) OCR_POWERUP <> 0 /\ card h' = em_set_state MMC_STATE_READY (card h)
      | S k => Z.land (resp0 r) OCR_POWERUP = 0 /\ card h' = em_set_busy k (card h)
      end;
  emmc_status : forall h arg, Z.shiftr arg 16 = em_rca (card h) -> 0 <= em_state (card h) < 16 ->
    exists rc r h', mh_send_cmd hal MMC_CMD_SEND_STATUS arg MMC_RSP_R1 true h = ((rc, r), h') /\
      match em_busy (card h) with
      | O => rc = PB_OK /\ Z.land (resp0 r) STATUS_SWITCH_ERROR = 0 /\ Z.land (resp0 r) STATUS_READY_FOR_DATA <> 0 /\
             MMC_GET_STATE (resp0 r) = em_state (card h) /\ card h' = card h
      | S k => (rc = PB_OK -> Z.land (resp0 r) STATUS_SWITCH_ERROR = 0 /\
                  (Z.land (resp0 r) STATUS_READY_FOR_DATA <> 0 -> MMC_GET_STATE (resp0 r) = MMC_STATE_PRG)) /\
               card h' = em_set_busy k (card h)
      end
}.

(** ** Commands *)

Section working.
Context {HW : Type} {hal : mmc_hal HW} {mem : HW -> ram_t} {tick : M HW Z} {busy_max : nat} {laws : EmmcLaws HW hal mem tick busy_max}.
Context (poll_fuel delay_fuel : nat) (fuel_ok : (busy_max < poll_fuel)%nat) (busy_ok : Z.of_nat busy_max < MMC_DEFAULT_TIMEOUT_ms).
Implicit Types (w : mmc_st HW) (h : HW) (e : emmc).

Definition card_of w : emmc := card (mm_hw w).

(** [w'] is [w] with the hardware changed so that the card is [e]. *)
Definition moved w e w' : Prop := exists h, w' = with_hw h w /\ card h = e.

Lemma moved_card w e w' : moved w e w' -> card_of w' = e.
Proof. by intros (h & -> & E). Qed.

Lemma moved_trans w e w1 e' w2 : moved w e w1 -> moved w1 e' w2 -> moved w e' w2.
Proof. intros (h & -> & _) (h' & -> & E). by exists h'. Qed.

Lemma moved_same w : moved w (card_of w) w.
Proof. exists (mm_hw w). split; [by destruct w|done]. Qed.

Lemma on_hw_moved {A} (m : M HW A) a w e :
  (exists h, m (mm_hw w) = (a, h) /\ card h = e) -> exists w', on_hw m w = (a, w') /\ moved w e w'.
Proof. intros (h & E & Hc). exists (with_hw h w). unfold on_hw. rewrite E. split; [done|]. by exists h. Qed.

Lemma delay_moved ms w : exists w', delay_ms tick delay_fuel ms w = (tt, w') /\ moved w (card_of w) w'.
Proof.
  unfold delay_ms, bind, on_hw. pose proof (pb_delay_keeps tick card delay_fuel ms emmc_tick (mm_hw w)) as Hk.
  destruct (pb_delay_ms tick delay_fuel ms (mm_hw w)) as [b h]. exists (with_hw h w). split; [done|]. by exists h.
Qed.

(** A successful call of the controller. *)
Lemma hal_moved (f : mmc_hal HW -> M HW Z) w e : mm_hal w = hal ->
  (exists h, f hal (mm_hw w) = (PB_OK, h) /\ card h = e) -> exists w', hal_call f w = (PB_OK, w') /\ moved w e w'.
Proof. intros Hh H. unfold hal_call. rewrite Hh. by apply on_hw_moved. Qed.

(** A command, whether its response is asked for or not. *)
Lemma cmd_moved idx arg rt want w e : mm_hal w = hal -> card_cmd (card_of w) idx arg = Some e ->
  exists r k w', hal_call (fun hal => mh_send_cmd hal idx arg rt want) w = ((PB_OK, r), w') /\ (k <= if identifies idx then 0 else busy_max)%nat /\
    moved w (em_set_busy k e) w'.
Proof.
  intros Hh Hc. destruct (emmc_cmd _ _ _ rt want _ Hc) as (r & h & k & E & Hk & Ec). exists r, k, (with_hw h w).
  unfold hal_call, on_hw. rewrite Hh, E. split_and!; [done..|]. by exists h.
Qed.

Lemma command_moved idx arg rt w e : mm_hal w = hal -> card_cmd (card_of w) idx arg = Some e ->
  exists k w', mmc_command idx arg rt w = (PB_OK, w') /\ (k <= busy_max)%nat /\ moved w (em_set_busy k e) w'.
Proof.
  intros Hh Hc. destruct (cmd_moved idx arg rt false w e Hh Hc) as (r & k & w' & E & Hk & Hm). exists k, w'.
  unfold mmc_command, bind. rewrite E. split_and!; [done| |done]. destruct (identifies idx); lia.
Qed.

(** Commands of the identification leave the card ready for the next. *)
Lemma identify_moved idx arg rt want w e : mm_hal w = hal -> identifies idx = true -> card_cmd (card_of w) idx arg = Some e ->
  exists r w', hal_call (fun hal => mh_send_cmd hal idx arg rt want) w = ((PB_OK, r), w') /\ moved w (em_set_busy 0 e) w'.
Proof.
  intros Hh Hi Hc. destruct (cmd_moved idx arg rt want w e Hh Hc) as (r & k & w' & E & Hk & Hm). exists r, w'.
  rewrite Hi in Hk. by assert (k = 0%nat) as -> by lia.
Qed.

(** ** Waiting for the card *)

Definition addressed w : Prop := mm_hal w = hal /\ rca w = em_rca (card_of w) /\ 0 <= rca w < 2 ^ 16.

Lemma addressed_moved w e w' : addressed w -> moved w e w' -> em_rca e = em_rca (card_of w) -> addressed w'.
Proof. intros (Hh & Hr & Hb) (h & -> & E) He. unfold addressed, card_of in *. cbn. by rewrite E, He. Qed.

Lemma rca_arg_shift w : addressed w -> Z.shiftr (rca_arg w) 16 = em_rca (card_of w).
Proof.
  intros (_ & <- & Hr). unfold rca_arg, RCA_SHIFT_OFFSET. rewrite Z.shiftl_mul_pow2, u32_small, Z.shiftr_div_pow2 by lia.
  apply Z.div_mul. lia.
Qed.

Lemma set_busy_busy k l e : em_set_busy k (em_set_busy l e) = em_set_busy k e.
Proof. done. Qed.

Lemma set_busy_same e : em_set_busy (em_busy e) e = e.
Proof. by destruct e. Qed.

(** One call of [mmc_device_state]: the card is done, or it says so later. *)
Lemma device_state_ok n : forall w, addressed w -> 0 <= em_state (card_of w) < 16 -> (em_busy (card_of w) < n)%nat ->
  exists st b w', device_state_loop tick delay_fuel n w = (st, w') /\ moved w (em_set_busy b (card_of w)) w' /\
    ((b = 0%nat /\ st = em_state (card_of w)) \/ (st = MMC_STATE_PRG /\ (b < em_busy (card_of w))%nat)).
Proof.
  induction n as [|n IH]; intros w Ha Hst0 Hb; [lia|]. cbn [device_state_loop]. unfold bind at 1 2, gets.
  pose proof Ha as (Hh & _). destruct (emmc_status (mm_hw w) (rca_arg w) (rca_arg_shift w Ha) Hst0) as (rc & r & h & E & H).
  unfold mmc_send_cmd, hal_call, on_hw. rewrite Hh, E. fold (card_of w) in H. destruct (em_busy (card_of w)) as [|k] eqn:Eb.
  - destruct H as (-> & Hs & Hr & Hst & Ec). rewrite Hs, (proj2 (Z.eqb_neq _ _) Hr). cbn [PB_OK Z.eqb negb andb].
    exists (MMC_GET_STATE (resp0 r)), 0%nat, (with_hw h w). split; [done|]. split; [|by left].
    exists h. split; [done|]. by rewrite Ec, <- Eb, set_busy_same.
  - destruct H as (Hok & Ec). assert (Hm : moved w (em_set_busy k (card_of w)) (with_hw h w)) by by exists h.
    assert (Hdelay : exists st b w', (delay_ms tick delay_fuel 1 ;;; device_state_loop tick delay_fuel n) (with_hw h w) = (st, w') /\
      moved w (em_set_busy b (card_of w)) w' /\
      ((b = 0%nat /\ st = em_state (card_of w)) \/ (st = MMC_STATE_PRG /\ (b < S k)%nat))).
    { destruct (delay_moved 1 (with_hw h w)) as (w1 & E1 & Hm1). unfold bind. rewrite E1.
      rewrite (moved_card _ _ _ Hm) in Hm1. pose proof (moved_trans _ _ _ _ _ Hm Hm1) as Hw1.
      pose proof (moved_card _ _ _ Hw1) as Hc1. destruct (IH w1) as (st & b & w2 & E2 & Hm2 & Hcase);
        [by eapply addressed_moved|by rewrite Hc1|rewrite Hc1; cbn; lia|]. rewrite Hc1 in Hm2, Hcase. cbn in Hcase.
      exists st, b, w2. split; [done|]. split; [by eapply moved_trans|]. destruct Hcase as [?|[? ?]]; [by left|right; split; [done|lia]]. }
    destruct (Z.eqb_spec rc PB_OK) as [->|]; [|exact Hdelay]. destruct (Hok eq_refl) as (Hs & Hprg). rewrite Hs. cbn [PB_OK Z.eqb negb andb].
    destruct (Z.eqb_spec (Z.land (resp0 r) STATUS_READY_FOR_DATA) 0) as [|Hne]; cbn [negb]; [exact Hdelay|].
    exists (MMC_GET_STATE (resp0 r)), k, (with_hw h w). split; [done|]. split; [done|]. right. split; [by apply Hprg|lia].
Qed.

(** The waits end when the card is done. *)
Lemma state_loop_ok fuel timeout until : until MMC_STATE_PRG = false -> Z.of_nat busy_max < timeout ->
  forall w, addressed w -> (em_busy (card_of w) <= busy_max)%nat -> (em_busy (card_of w) < fuel)%nat ->
  0 <= em_state (card_of w) < 16 -> until (em_state (card_of w)) = true ->
  exists w', state_loop tick delay_fuel fuel timeout until w = (PB_OK, w') /\ moved w (em_set_busy 0 (card_of w)) w'.
Proof.
  intros Hprg Ht. induction fuel as [|fuel IH]; intros w Ha Hb Hf Hs Hu; [lia|]. cbn [state_loop]. unfold bind, mmc_device_state.
  destruct (device_state_ok (Z.to_nat timeout) w Ha Hs) as (st & b & w1 & E & Hm & H); [lia|]. rewrite E.
  destruct H as [(-> & ->)|(-> & Hlt)].
  - rewrite (proj2 (Z.ltb_ge _ _) (proj1 Hs)), Hu. by exists w1.
  - change (MMC_STATE_PRG <? 0) with false. cbv beta iota. rewrite Hprg. pose proof (moved_card _ _ _ Hm) as Hc.
    destruct (IH w1) as (w' & E' & Hm'); rewrite ?Hc; [by eapply addressed_moved|cbn; lia|cbn; lia|done|done|].
    rewrite Hc in Hm'. exists w'. split; [done|]. by eapply moved_trans.
Qed.

Lemma wait_state_ok timeout until w : until MMC_STATE_PRG = false -> Z.of_nat busy_max < timeout -> addressed w ->
  (em_busy (card_of w) <= busy_max)%nat -> 0 <= em_state (card_of w) < 16 -> until (em_state (card_of w)) = true ->
  exists w', wait_state tick poll_fuel delay_fuel timeout until w = (PB_OK, w') /\ moved w (em_set_busy 0 (card_of w)) w'.
Proof. intros. apply state_loop_ok; auto. lia. Qed.

(** ** Switching, reading and writing *)

(** The card is selected and has nothing to do. *)
Record in_tran w : Prop := {
  tran_addressed : addressed w;
  tran_state : em_state (card_of w) = MMC_STATE_TRAN;
  tran_busy : em_busy (card_of w) = 0%nat;
  tran_csd : length (em_ext_csd (card_of w)) = 512%nat
}.

Lemma switch_arg_val f v : 0 <= f < 256 -> 0 <= v < 256 -> switch_arg f v = 3 * 2 ^ 24 + f * 2 ^ 16 + v * 2 ^ 8 + 1.
Proof.
  intros Hf Hv. unfold switch_arg, EXTCSD_WRITE_BYTES, EXTCSD_CMD, EXTCSD_VALUE, EXTCSD_CMD_SET_NORMAL.
  change 0xff with (Z.ones 8). rewrite !Z.land_ones, !Z.mod_small by lia.
  rewrite <- !Z.lor_assoc, (lor_shiftl_low v 1 8), (lor_shiftl_low f _ 16), lor_shiftl_low by lia. lia.
Qed.

Lemma switch_arg_fields f v : 0 <= f < 256 -> 0 <= v < 256 ->
  Z.shiftr (switch_arg f v) 24 = 3 /\ Z.land (Z.shiftr (switch_arg f v) 16) 0xff = f /\ Z.land (Z.shiftr (switch_arg f v) 8) 0xff = v.
Proof.
  intros Hf Hv. rewrite switch_arg_val by done. change 0xff with (Z.ones 8).
  rewrite !Z.land_ones, !Z.shiftr_div_pow2 by lia. Z.to_euclidean_division_equations. lia.
Qed.

Lemma set_ext_csd_ok f v t w : in_tran w -> 0 <= f < 256 -> 0 <= v < 256 ->
  Z.of_nat busy_max < (if t =? 0 then generic_cmd6_time_ms w else t) ->
  exists w', mmc_set_ext_csd tick poll_fuel delay_fuel f v t w = (PB_OK, w') /\
    moved w (em_set_ext_csd (<[Z.to_nat f := v]> (em_ext_csd (card_of w))) (card_of w)) w'.
Proof.
  intros [Ha Hs Hb Hl] Hf Hv Ht. unfold mmc_set_ext_csd. unfold bind at 1.
  assert (Et : (if t =? 0 then gets generic_cmd6_time_ms else ret t) w = (if t =? 0 then generic_cmd6_time_ms w else t, w)) by by destruct (t =? 0).
  rewrite Et. destruct (switch_arg_fields f v Hf Hv) as (E1 & E2 & E3).
  destruct (command_moved MMC_CMD_SWITCH (switch_arg f v) MMC_RSP_R1b w (em_set_ext_csd (<[Z.to_nat f := v]> (em_ext_csd (card_of w))) (card_of w)))
    as (k & w1 & E & Hk & Hm); [apply Ha|unfold card_cmd; cbn [Z.eqb]; by rewrite Hs, Hb, E1, E2, E3|].
  rewrite checked_run, E. cbn [PB_OK Z.eqb]. pose proof (moved_card _ _ _ Hm) as Hc.
  destruct (wait_state_ok (if t =? 0 then generic_cmd6_time_ms w else t) (fun rc => negb (rc =? MMC_STATE_PRG)) w1) as (w' & E' & Hm');
    rewrite ?Hc; cbn [em_set_busy em_set_ext_csd em_state em_busy]; rewrite ?Hs; [done|done|by eapply addressed_moved|done|done|done|].
  exists w'. split; [exact E'|]. rewrite Hc in Hm'. pose proof (moved_trans _ _ _ _ _ Hm Hm') as H.
  cbn in H. rewrite <- Hb in H. destruct (card_of w). exact H.
Qed.

Lemma in_tran_moved w e w' : in_tran w -> moved w e w' -> em_rca e = em_rca (card_of w) -> em_state e = MMC_STATE_TRAN ->
  em_busy e = 0%nat -> length (em_ext_csd e) = 512%nat -> in_tran w'.
Proof.
  intros [Ha _ _ _] Hm Hr Hs Hb Hl. pose proof (moved_card _ _ _ Hm) as Hc. split; rewrite ?Hc; [by eapply addressed_moved|done..].
Qed.

(** Data commands: [effect] is what the card does on [multiple], and on
    [single] for one block. *)
Definition data_pair (single multiple : Z) (effect : emmc -> Z -> option emmc) : Prop :=
  forall e lba, em_state e = MMC_STATE_TRAN -> em_busy e = 0%nat ->
    card_cmd e multiple lba = effect e lba /\ ((em_dma e).2 = 512 -> card_cmd e single lba = effect e lba).

Lemma read_pair : data_pair MMC_CMD_READ_SINGLE_BLOCK MMC_CMD_READ_MULTIPLE_BLOCK card_read.
Proof. intros e lba Hs Hb. unfold card_cmd. rewrite Hs, Hb. split; [done|]. intros Hd. by rewrite Hd. Qed.
Lemma write_pair : data_pair MMC_CMD_WRITE_SINGLE_BLOCK MMC_CMD_WRITE_MULTIPLE_BLOCK card_write.
Proof. intros e lba Hs Hb. unfold card_cmd. rewrite Hs, Hb. split; [done|]. intros Hd. by rewrite Hd. Qed.

(** The transfer of one chunk. *)
Definition xfer single multiple (hal_op : mmc_hal HW -> Z -> Z -> Z -> M HW Z) (until : Z -> bool) lba len buf : M (mmc_st HW) Z :=
  fits <- chunk_fits len ;;
  if negb fits then ret (- PB_ERR_IO) else
  hal_call (fun hal => mh_prepare hal lba len buf) ;;?
  data_command single multiple lba len ;;?
  hal_call (fun hal => hal_op hal lba len buf) ;;?
  wait_state tick poll_fuel delay_fuel MMC_DEFAULT_TIMEOUT_ms until.

Lemma xfer_ok single multiple effect hal_op until lba len buf w e : data_pair single multiple effect ->
  (forall h, exists h', hal_op hal lba len buf h = (PB_OK, h') /\ card h' = card h) ->
  until MMC_STATE_PRG = false -> until MMC_STATE_TRAN = true ->
  in_tran w -> mmc_current_part w <> MMC_PART_RPMB -> 0 < len -> len mod 512 = 0 -> 0 <= buf -> buf + len <= dma_limit ->
  (0 < mh_max_chunk_bytes hal -> len <= mh_max_chunk_bytes hal) ->
  effect (em_set_dma (buf, len) (card_of w)) lba = Some e ->
  em_state e = MMC_STATE_TRAN -> em_rca e = em_rca (card_of w) -> em_busy e = 0%nat ->
  exists w', xfer single multiple hal_op until lba len buf w = (PB_OK, w') /\ moved w e w'.
Proof.
  intros Hpair Hop Hprg Htran [Ha Hs Hb Hl] Hp Hlen Hmod Hbuf Hlim Hmax He Hes Her Heb. pose proof Ha as (Hh & _). unfold xfer, chunk_fits. unfold bind at 1, gets.
  assert (Hfit : negb ((0 <? mh_max_chunk_bytes (mm_hal w)) && (mh_max_chunk_bytes (mm_hal w) <? len)) = true).
  { rewrite Hh. destruct (Z.ltb_spec 0 (mh_max_chunk_bytes hal)), (Z.ltb_spec (mh_max_chunk_bytes hal) len); [lia|done..]. }
  rewrite Hfit. cbn [negb]. destruct (hal_moved (fun hal => mh_prepare hal lba len buf) w _ Hh (emmc_prepare _ lba len buf Hlen Hmax Hmod Hbuf Hlim)) as (w1 & E1 & Hm1).
  rewrite checked_run, E1. cbn [PB_OK Z.eqb]. pose proof (moved_card _ _ _ Hm1) as Hc1. fold (card_of w) in Hc1, Hm1.
  assert (Hh1 : mm_hal w1 = hal) by by destruct Hm1 as (? & -> & _).
  assert (Hp1 : mmc_current_part w1 = mmc_current_part w) by by destruct Hm1 as (? & -> & _).
  destruct (Hpair (card_of w1) lba) as [Hmul Hsin]; [by rewrite Hc1..|].
  rewrite checked_run. unfold data_command. unfold bind at 1, get. rewrite Hp1, decide_False by done.
  assert (Hcmd : card_cmd (card_of w1) (if MMC_BLOCK_SIZE <? len then multiple else single) lba = Some e).
  { unfold MMC_BLOCK_SIZE. destruct (Z.ltb_spec 512 len); [by rewrite Hmul, Hc1|].
    rewrite Hsin, Hc1 by (rewrite Hc1; cbn; Z.to_euclidean_division_equations; lia). done. }
  destruct (command_moved _ lba MMC_RSP_R1 w1 e Hh1 Hcmd) as (k & w2 & E2 & Hk & Hm2). rewrite E2. cbn [PB_OK Z.eqb].
  pose proof (moved_trans _ _ _ _ _ Hm1 Hm2) as Hm. pose proof (moved_card _ _ _ Hm2) as Hc2.
  assert (Hh2 : mm_hal w2 = hal) by by destruct Hm as (? & -> & _).
  destruct (hal_moved (fun hal => hal_op hal lba len buf) w2 _ Hh2 (Hop _)) as (w3 & E3 & Hm3). fold (card_of w2) in Hm3. rewrite Hc2 in Hm3.
  rewrite checked_run, E3. cbn [PB_OK Z.eqb]. pose proof (moved_trans _ _ _ _ _ Hm Hm3) as Hw3. pose proof (moved_card _ _ _ Hw3) as Hc3.
  destruct (wait_state_ok MMC_DEFAULT_TIMEOUT_ms until w3) as (w4 & E4 & Hm4);
    rewrite ?Hc3; cbn [em_set_busy em_state em_busy]; rewrite ?Hes; [done|done|by eapply addressed_moved|done|done|done|].
  exists w4. split; [exact E4|]. rewrite Hc3, set_busy_busy in Hm4. rewrite <- Heb, set_busy_same in Hm4. by eapply moved_trans.
Qed.

(** ** The invariant of the driver *)

(** The card is selected and idle, the driver knows its PARTITION_CONFIG, and
    its time-outs are longer than the card is busy. *)
Record emmc_ready w : Prop := {
  ready_tran : in_tran w;
  ready_config : mmc_current_part_config w = csd_byte (card_of w) EXT_CSD_PART_CONFIG;
  ready_cmd6 : Z.of_nat busy_max < generic_cmd6_time_ms w;
  ready_switch : partition_switch_time_ms w = 0 \/ Z.of_nat busy_max < partition_switch_time_ms w
}.

Lemma ready_hal w : emmc_ready w -> mm_hal w = hal.
Proof. intros [[(H & _) _ _ _] _ _ _]. done. Qed.

Lemma ready_moved w e w' : emmc_ready w -> moved w e w' -> em_rca e = em_rca (card_of w) -> em_state e = MMC_STATE_TRAN ->
  em_busy e = 0%nat -> em_ext_csd e = em_ext_csd (card_of w) -> emmc_ready w'.
Proof.
  intros [Ht Hc H6 Hs] Hm Hr Hst Hb Hx. pose proof (in_tran_moved w e w' Ht Hm Hr Hst Hb) as Ht'. pose proof (moved_card _ _ _ Hm) as Hcard.
  split; [apply Ht'; rewrite Hx; apply Ht| |by destruct Hm as (? & -> & _)..].
  unfold csd_byte. rewrite Hcard, Hx. by destruct Hm as (? & -> & _).
Qed.

(** The partitions that are arrays of blocks. *)
Definition linear (p : mmc_part) : Prop := p = MMC_PART_USER \/ p = MMC_PART_BOOT0 \/ p = MMC_PART_BOOT1.

Lemma config_accessed p v e : linear p -> part_config_value p = Some v -> length (em_ext_csd e) = 512%nat ->
  csd_byte e EXT_CSD_PART_CONFIG = v -> accessed e = Some p.
Proof. intros Hp Hv Hl He. unfold accessed. rewrite He. destruct Hp as [->|[->| ->]]; injection Hv as <-; done. Qed.

Lemma part_switch_ok p w : linear p -> emmc_ready w ->
  exists w', mmc_part_switch tick poll_fuel delay_fuel p w = (PB_OK, w') /\ emmc_ready w' /\ mmc_current_part w' = p /\
    accessed (card_of w') = Some p /\ em_area (card_of w') = em_area (card_of w) /\ em_ram (card_of w') = em_ram (card_of w).
Proof.
  intros Hp Hr. unfold mmc_part_switch. assert (exists v, part_config_value p = Some v /\ 0 <= v < 256) as (v & Ev & Hv)
    by (destruct Hp as [->|[->| ->]]; eexists; (split; [reflexivity|vm_compute; split; congruence])).
  rewrite Ev. unfold bind at 1 2, modify, get. set (w1 := set_part p w).
  assert (Hr1 : emmc_ready w1) by by destruct Hr as [[(? & ? & ?) ? ? ?] ? ? ?]. change (card_of w) with (card_of w1).
  destruct (Z.eqb_spec v (mmc_current_part_config w1)) as [Hc|Hne]; cbn [negb].
  { exists w1. split_and!; [done|done|done| |done|done]. destruct Hr1 as [[] ? ? ?]. eapply config_accessed; [done|done|done|congruence]. }
  unfold bind. set (w2 := set_part_config v w1).
  assert (Ht2 : in_tran w2) by by destruct Hr1 as [[(? & ? & ?) ? ? ?] ? ? ?].
  destruct Hr1 as [_ Hcfg H6 Hsw]. destruct Ht2 as [Ha Hs Hb Hl] eqn:Et2.
  destruct (set_ext_csd_ok EXT_CSD_PART_CONFIG v (partition_switch_time_ms w1) w2 Ht2 ltac:(unfold EXT_CSD_PART_CONFIG; lia) Hv) as (w3 & E & Hm).
  { destruct (Z.eqb_spec (partition_switch_time_ms w1) 0); [exact H6|]. destruct Hsw; [done|lia]. }
  exists w3. rewrite E. pose proof (moved_card _ _ _ Hm) as Hc3.
  assert (Hlen : length (em_ext_csd (card_of w3)) = 512%nat) by (rewrite Hc3; cbn; by rewrite length_insert).
  assert (Hbyte : csd_byte (card_of w3) EXT_CSD_PART_CONFIG = v).
  { rewrite Hc3. unfold csd_byte. cbn [em_set_ext_csd em_ext_csd]. apply nth_lookup_Some, list_lookup_insert_eq. rewrite Hl. vm_compute. lia. }
  split; [done|]. split; [|split_and!; [by destruct Hm as (? & -> & _)|by eapply config_accessed|by rewrite Hc3..]].
  split; [eapply in_tran_moved; [exact Ht2|exact Hm|done|exact Hs|exact Hb|by rewrite <- Hc3]| |by destruct Hm as (? & -> & _)..].
  rewrite Hbyte. by destruct Hm as (? & -> & _).
Qed.

(** ** Transfers through the block layer *)

Context {arch : Arch} {kc : Kconfig}.
Context (max_ok : 0 < mh_max_chunk_bytes hal) (max_blocks : mh_max_chunk_bytes hal mod 512 = 0).
Implicit Types (s : bio_state (mmc_st HW)).

Definition with_mmc w s : bio_state (mmc_st HW) := BioState (bio_pool s) (n_bios s) w.

(** The loop over the chunks keeps [Inv k], what holds after [k] bytes. *)
Lemma chunk_loop_inv X (Inv : Z -> mmc_st HW -> Prop) lba len buf :
  (forall k w, Inv k w -> mm_hal w = hal) ->
  (forall k c w, Inv k w -> 0 <= k -> k mod 512 = 0 -> 0 < c -> c mod 512 = 0 -> c <= mh_max_chunk_bytes hal -> k + c <= len ->
     exists w', X (lba + k / 512) c (buf + k) w = (PB_OK, w') /\ Inv (k + c) w') ->
  0 <= lba -> len mod 512 = 0 -> lba + len / 512 < 2 ^ 32 -> 0 <= buf -> buf + len < 2 ^ ptr_bits ->
  forall fuel k rc s, Inv k (bio_hw s) -> 0 <= k <= len -> k mod 512 = 0 -> len - k < Z.of_nat fuel ->
  exists w', chunk_loop X 512 fuel rc (lba + k / 512) (len - k) (buf + k) s = (if len =? k then rc else PB_OK, with_mmc w' s) /\ Inv len w'.
Proof.
  intros Hhal HX Hlba Hmod Hend Hbuf Hfit. induction fuel as [|fuel IH]; intros k rc s HI Hk Hkm Hf; [lia|]. cbn [chunk_loop].
  destruct (Z.eqb_spec (len - k) 0) as [E|Hne].
  { assert (len = k) as -> by lia. rewrite Z.eqb_refl. exists (bio_hw s). by destruct s. }
  rewrite (proj2 (Z.eqb_neq len k)) by lia. unfold bind at 1, gets. rewrite (Hhal _ _ HI). set (c := if _ <? _ then _ else _).
  assert (Hc : 0 < c <= len - k /\ c mod 512 = 0 /\ c <= mh_max_chunk_bytes hal).
  { unfold c. destruct (Z.ltb_spec (mh_max_chunk_bytes hal) (len - k)); split_and!; try (lia || done). Z.to_euclidean_division_equations. lia. }
  clearbody c. destruct Hc as (Hc1 & Hc2 & Hc3). destruct (HX k c (bio_hw s) HI) as (w1 & E1 & HI1); [lia|done|lia|done|done|lia|].
  unfold bind, on_mmc, call_drv. rewrite E1. change (PB_OK <? 0) with false. cbv beta iota.
  assert (Hadd : (k + c) mod 512 = 0) by (Z.to_euclidean_division_equations; lia).
  destruct (IH (k + c) PB_OK (with_mmc w1 s) HI1) as (w' & E' & HI'); [lia|done|lia|]. exists w'. split; [|done].
  rewrite (usz_small (buf + k + c)), (usz_small (len - k - c)), u32_small by (Z.to_euclidean_division_equations; lia).
  replace (lba + k / 512 + c / 512) with (lba + (k + c) / 512) by (Z.to_euclidean_division_equations; lia).
  replace (len - k - c) with (len - (k + c)) by lia. rewrite <- Z.add_assoc.
  change (BioState (bio_pool s) (n_bios s) w1) with (with_mmc w1 s). rewrite E'. by destruct (len =? k + c).
Qed.

(** A device of the block layer that stands for the partition [p]. *)
Definition device_of s (dev : Z) (p : mmc_part) : Prop :=
  linear p /\ dev_ok s dev = true /\ block_sz (dev_at s dev) = 512 /\
  Z.land (Z.shiftr (flags (dev_at s dev)) 24) 0xff =
    match p with MMC_PART_USER => MMC_BIO_FLAG_USER | MMC_PART_BOOT0 => MMC_BIO_FLAG_BOOT0 | _ => MMC_BIO_FLAG_BOOT1 end.

Lemma block_size_512 s dev p : device_of s dev p -> bio_block_size dev s = (512, s).
Proof.
  intros (_ & Hok & Hb & _). unfold bio_block_size. rewrite checked_dev, Hok. unfold gets. rewrite Hb. f_equal.
  unfold ssz. destruct ptr_bits_ok as [-> | ->]; reflexivity.
Qed.

Lemma select_part_ok s dev p : device_of s dev p -> emmc_ready (bio_hw s) ->
  exists w', select_part tick poll_fuel delay_fuel dev s = (tt, with_mmc w' s) /\ emmc_ready w' /\ mmc_current_part w' = p /\
    accessed (card_of w') = Some p /\ em_area (card_of w') = em_area (card_of (bio_hw s)) /\ em_ram (card_of w') = em_ram (card_of (bio_hw s)).
Proof.
  intros (Hp & Hok & _ & Hf) Hr. unfold select_part. unfold bind at 1, bio_get_hal_flags. rewrite checked_dev, Hok. unfold gets. rewrite Hf.
  destruct (part_switch_ok p (bio_hw s) Hp Hr) as (w' & E & H). exists w'. split; [|done].
  destruct Hp as [->|[->| ->]]; repeat match goal with |- context [negb (Z.land ?a ?b =? 0)] =>
      let r := eval vm_compute in (negb (Z.land a b =? 0)) in replace (negb (Z.land a b =? 0)) with r by reflexivity end;
    cbv beta iota zeta; unfold bind, on_mmc, call_drv; rewrite E; reflexivity.
Qed.

(** What a transfer of [len] bytes at block [lba] may ask for. *)
Definition xfer_ok_at (area : list Z) (lba len buf : Z) : Prop :=
  0 <= lba /\ 0 < len /\ len mod 512 = 0 /\ lba * 512 + len <= Z.of_nat (length area) /\ lba + len / 512 < 2 ^ 32 /\
  0 <= buf /\ buf + len < 2 ^ ptr_bits /\ buf + len <= dma_limit.

Lemma blocks_in_part area lba len buf k c : xfer_ok_at area lba len buf -> 0 <= k -> k mod 512 = 0 -> 0 < c -> c mod 512 = 0 -> k + c <= len ->
  blocks_in (lba + k / 512) c area = true /\ (lba + k / 512) * 512 = lba * 512 + k.
Proof.
  intros (H1 & H2 & H3 & H4 & H5 & _) Hk Hkm Hc Hcm Hkc. assert ((lba + k / 512) * 512 = lba * 512 + k) as E by (Z.to_euclidean_division_equations; lia).
  split; [|done]. unfold blocks_in. rewrite E. rewrite !andb_true_iff, !Z.leb_le, Z.ltb_lt, Z.eqb_eq. Z.to_euclidean_division_equations. lia.
Qed.

(** What holds after [k] bytes of a read from, or a write to, the partition
    [p], which held [A p] at the start, with [R] in memory. *)
Definition selected (p : mmc_part) w : Prop :=
  emmc_ready w /\ mmc_current_part w = p /\ accessed (card_of w) = Some p.

Definition read_so_far p (A : mmc_part -> list Z) (R : ram_t) lba buf k w : Prop :=
  selected p w /\ em_area (card_of w) = A /\
  forall a, em_ram (card_of w) a = ram_write buf (slice (Z.to_nat (lba * 512)) (Z.to_nat k) (A p)) R a.

Definition written_so_far p (A : mmc_part -> list Z) (R : ram_t) lba buf k w : Prop :=
  selected p w /\ em_ram (card_of w) = R /\
  forall q, em_area (card_of w) q = if decide (q = p) then splice (Z.to_nat (lba * 512)) (ram_read R buf (Z.to_nat k)) (A p) else A q.

Lemma selected_moved p w e w' : selected p w -> moved w e w' -> em_rca e = em_rca (card_of w) -> em_state e = em_state (card_of w) ->
  em_busy e = em_busy (card_of w) -> em_ext_csd e = em_ext_csd (card_of w) -> selected p w'.
Proof.
  intros (Hr & Hp & Ha) Hm H1 H2 H3 H4. pose proof (moved_card _ _ _ Hm) as Hc. pose proof (ready_tran _ Hr) as Ht. split_and!.
  - eapply ready_moved; [done|done|done|rewrite H2; apply Ht|rewrite H3; apply Ht|done].
  - by destruct Hm as (? & -> & _).
  - revert Ha. unfold accessed, csd_byte. by rewrite Hc, H4.
Qed.

Lemma linear_not_rpmb p : linear p -> p <> MMC_PART_RPMB.
Proof. by intros [->|[->| ->]]. Qed.

Lemma slice_length off n (l : list Z) : (off + n <= length l)%nat -> length (slice off n l) = n.
Proof. intros H. unfold slice. rewrite length_take, length_drop. lia. Qed.

Lemma read_chunk p A R lba len buf k c w : linear p -> xfer_ok_at (A p) lba len buf ->
  read_so_far p A R lba buf k w -> 0 <= k -> k mod 512 = 0 -> 0 < c -> c mod 512 = 0 -> c <= mh_max_chunk_bytes hal -> k + c <= len ->
  exists w', mmc_read tick poll_fuel delay_fuel (lba + k / 512) c (buf + k) w = (PB_OK, w') /\ read_so_far p A R lba buf (k + c) w'.
Proof.
  intros Hp Hx (Hsel & HA & HR) Hk Hkm Hc Hcm Hcmax Hkc. pose proof Hsel as (Hr & Hcur & Hacc). pose proof (ready_tran _ Hr) as Ht.
  destruct (blocks_in_part _ _ _ _ k c Hx Hk Hkm Hc Hcm Hkc) as [Hin Hoff]. destruct Hx as (H1 & H2 & H3 & H4 & _ & H6 & _ & H7).
  set (e := em_set_dma (buf + k, c) (card_of w)).
  set (e' := em_set_ram (ram_write (buf + k) (slice (Z.to_nat ((lba + k / 512) * 512)) (Z.to_nat c) (A p)) (em_ram (card_of w))) e).
  destruct (xfer_ok _ _ card_read mh_read (fun rc => (rc =? MMC_STATE_TRAN) || (rc =? MMC_STATE_DATA)) (lba + k / 512) c (buf + k) w e' read_pair)
    as (w' & E & Hm); [intros; apply emmc_read|done|done|done|rewrite Hcur; by apply linear_not_rpmb|done|done|lia|lia|lia| |apply Ht|done|apply Ht|].
  { unfold card_read, e', e. cbn [em_dma em_set_dma em_area em_ram]. change (accessed (em_set_dma _ _)) with (accessed (card_of w)).
    by rewrite Hacc, HA, Hin. }
  exists w'. split; [exact E|]. pose proof (moved_card _ _ _ Hm) as Hc'. split_and!.
  - by eapply selected_moved.
  - by rewrite Hc'.
  - intros a. rewrite Hc'. unfold e', e. cbn [em_ram em_set_ram em_set_dma]. rewrite Hoff. rewrite (ram_write_ext _ _ _ _ _ HR).
    replace (buf + k) with (buf + Z.of_nat (length (slice (Z.to_nat (lba * 512)) (Z.to_nat k) (A p)))) by (rewrite slice_length; lia).
    rewrite ram_write_app. rewrite (Z2Nat.inj_add (lba * 512) k) by lia. rewrite slice_cons_app. rewrite (Z2Nat.inj_add k c) by lia. done.
Qed.

Lemma write_chunk_ok p A R lba len buf k c w : linear p -> xfer_ok_at (A p) lba len buf ->
  written_so_far p A R lba buf k w -> 0 <= k -> k mod 512 = 0 -> 0 < c -> c mod 512 = 0 -> c <= mh_max_chunk_bytes hal -> k + c <= len ->
  exists w', mmc_write tick poll_fuel delay_fuel (lba + k / 512) c (buf + k) w = (PB_OK, w') /\ written_so_far p A R lba buf (k + c) w'.
Proof.
  intros Hp Hx (Hsel & HR & HA) Hk Hkm Hc Hcm Hcmax Hkc. pose proof Hsel as (Hr & Hcur & Hacc). pose proof (ready_tran _ Hr) as Ht.
  destruct (blocks_in_part _ _ _ _ k c Hx Hk Hkm Hc Hcm Hkc) as [Hin Hoff]. destruct Hx as (H1 & H2 & H3 & H4 & _ & H6 & _ & H7).
  pose proof (HA p) as HAp. rewrite decide_True in HAp by done.
  set (B := splice (Z.to_nat (lba * 512)) (ram_read R buf (Z.to_nat k)) (A p)) in *.
  assert (HB : length B = length (A p)) by (apply length_splice; rewrite length_ram_read; lia).
  set (e := em_set_dma (buf + k, c) (card_of w)).
  set (e' := em_set_area p (splice (Z.to_nat ((lba + k / 512) * 512)) (ram_read R (buf + k) (Z.to_nat c)) B) e).
  destruct (xfer_ok _ _ card_write mh_write (fun rc => (rc =? MMC_STATE_TRAN) || (rc =? MMC_STATE_RCV)) (lba + k / 512) c (buf + k) w e' write_pair)
    as (w' & E & Hm); [intros; apply emmc_write|done|done|done|rewrite Hcur; by apply linear_not_rpmb|done|done|lia|lia|lia| |apply Ht|done|apply Ht|].
  { unfold card_write, e', e. cbn [em_dma em_set_dma em_area em_ram]. change (accessed (em_set_dma _ _)) with (accessed (card_of w)).
    rewrite Hacc, HAp, HR. revert Hin. unfold blocks_in. by rewrite HB; intros ->. }
  exists w'. split; [exact E|]. pose proof (moved_card _ _ _ Hm) as Hc'. split_and!.
  - by eapply selected_moved.
  - rewrite Hc'. exact HR.
  - intros q. rewrite Hc'. unfold e', e. cbn [em_area em_set_area em_set_dma]. rewrite Hoff. unfold insert, fn_insert.
    destruct (decide (p = q)) as [<-|Hne]; [|rewrite decide_False by done; rewrite HA; by rewrite decide_False by done].
    rewrite decide_True by done. unfold B. rewrite (Z2Nat.inj_add (lba * 512) k) by lia.
    rewrite <- (length_ram_read R buf (Z.to_nat k)) at 1. rewrite splice_splice_app by lia.
    rewrite (Z2Nat.inj_add k c), ram_read_app by lia. by rewrite Z2Nat.id by lia.
Qed.

(** ** The block devices of a card *)

Inductive access := Access (writes : bool) (dev lba len buf : Z).

(** The partitions and the memory as the accesses are meant to change them. *)
Definition areas_t : Type := (mmc_part -> list Z) * ram_t.
Definition access_spec (part : Z -> mmc_part) (x : access) (ar : areas_t) : areas_t :=
  let '(Access writes dev lba len buf) := x in
  let p := part dev in
  if writes then (<[p := splice (Z.to_nat (lba * 512)) (ram_read ar.2 buf (Z.to_nat len)) (ar.1 p)]> ar.1, ar.2)
  else (ar.1, ram_write buf (slice (Z.to_nat (lba * 512)) (Z.to_nat len) (ar.1 p)) ar.2).

Definition mmc_bio_access (fuel : nat) (x : access) : M (bio_state (mmc_st HW)) Z :=
  let '(Access writes dev lba len buf) := x in
  (if writes then mmc_bio_write else mmc_bio_read) tick poll_fuel delay_fuel fuel dev lba len buf.

Fixpoint mmc_bio_accesses (fuel : nat) (xs : list access) : M (bio_state (mmc_st HW)) (list Z) :=
  match xs with
  | [] => ret []
  | x :: xs => rc <- mmc_bio_access fuel x ;; rcs <- mmc_bio_accesses fuel xs ;; ret (rc :: rcs)
  end.

(** The specification's state and the machine's. *)
Definition agrees (ar : areas_t) w : Prop :=
  emmc_ready w /\ (forall p, em_area (card_of w) p = ar.1 p) /\ forall a, em_ram (card_of w) a = ar.2 a.

Definition access_fits (fuel : nat) (part : Z -> mmc_part) (ar : areas_t) s (x : access) : Prop :=
  let '(Access _ dev lba len buf) := x in
  device_of s dev (part dev) /\ xfer_ok_at (ar.1 (part dev)) lba len buf /\ len < Z.of_nat fuel.

(** The common part of the callbacks: the partition is selected, then the
    chunks follow. *)
Lemma bio_io_ok X (Inv : mmc_part -> Z -> mmc_st HW -> Prop) fuel dev p lba len buf s area :
  (forall k w, Inv p k w -> mm_hal w = hal) ->
  (forall k c w, Inv p k w -> 0 <= k -> k mod 512 = 0 -> 0 < c -> c mod 512 = 0 -> c <= mh_max_chunk_bytes hal -> k + c <= len ->
     exists w', X (lba + k / 512) c (buf + k) w = (PB_OK, w') /\ Inv p (k + c) w') ->
  (forall w, selected p w -> em_area (card_of w) = em_area (card_of (bio_hw s)) -> em_ram (card_of w) = em_ram (card_of (bio_hw s)) -> Inv p 0 w) ->
  device_of s dev p -> emmc_ready (bio_hw s) -> xfer_ok_at area lba len buf -> len < Z.of_nat fuel ->
  exists w', mmc_bio_io tick poll_fuel delay_fuel X fuel dev lba len buf s = (PB_OK, with_mmc w' s) /\ Inv p len w'.
Proof.
  intros Hhal Hstep Hinit Hdev Hr (H1 & H2 & H3 & H4 & H5 & H6 & H7 & _) Hf. unfold mmc_bio_io. unfold bind at 1. rewrite (block_size_512 _ _ _ Hdev).
  change (512 <? 0) with false. cbv beta iota. destruct (select_part_ok s dev p Hdev Hr) as (w1 & E1 & Hr1 & Hp1 & Ha1 & HA1 & HR1).
  unfold bind. rewrite E1. destruct (chunk_loop_inv X (Inv p) lba len buf Hhal Hstep H1 H3 H5 H6 H7 fuel 0 (-1) (with_mmc w1 s)) as (w2 & E2 & HI);
    [by apply Hinit|lia|done|lia|]. change (0 / 512) with 0 in E2. rewrite !Z.add_0_r, Z.sub_0_r in E2. exists w2. split; [|done].
  rewrite E2. by rewrite (proj2 (Z.eqb_neq len 0)) by lia.
Qed.

Lemma ram_write_nil buf R a : ram_write buf [] R a = R a.
Proof. unfold ram_write. destruct (Z.leb_spec buf a), (Z.ltb_spec a (buf + Z.of_nat (length (@nil Z)))); cbn [andb]; [cbn in *; lia|done..]. Qed.

Lemma access_ok fuel part ar s x : agrees ar (bio_hw s) -> access_fits fuel part ar s x ->
  exists w', mmc_bio_access fuel x s = (PB_OK, with_mmc w' s) /\ agrees (access_spec part x ar) w'.
Proof.
  intros (Hr & HA & HR) Hx. destruct x as [writes dev lba len buf]. destruct Hx as (Hdev & Hx & Hf). pose proof Hdev as (Hlin & _).
  set (p := part dev) in *. set (A := em_area (card_of (bio_hw s))) in *. set (R := em_ram (card_of (bio_hw s))) in *.
  assert (Hx' : xfer_ok_at (A p) lba len buf) by by rewrite HA.
  cbn [mmc_bio_access access_spec]. fold p. destruct writes.
  - destruct (bio_io_ok (mmc_write tick poll_fuel delay_fuel) (fun p k w => written_so_far p A R lba buf k w) fuel dev p lba len buf s (A p))
      as (w' & E & (Hr' & _) & HR' & HA'); [intros k w [[? _] _]; by apply ready_hal|intros; by eapply write_chunk_ok| |done|done|done|done|].
    { intros w Hs HA0 HR0. split_and!; [done|done|]. intros q. rewrite HA0. change (ram_read R buf (Z.to_nat 0)) with (@nil Z).
      rewrite splice_nil_at. by destruct (decide (q = p)) as [->|]. }
    exists w'. split; [exact E|]. split_and!; [done| |intros a; rewrite HR'; apply HR]. intros q. rewrite HA'. cbn [fst]. unfold insert, fn_insert.
    destruct (decide (q = p)) as [->|Hne]; [|rewrite decide_False by done; apply HA]. rewrite decide_True by done. rewrite HA. f_equal.
    apply ram_read_ext. intros a _. apply HR.
  - destruct (bio_io_ok (mmc_read tick poll_fuel delay_fuel) (fun p k w => read_so_far p A R lba buf k w) fuel dev p lba len buf s (A p))
      as (w' & E & (Hr' & _) & HA' & HR'); [intros k w [[? _] _]; by apply ready_hal|intros; by eapply read_chunk| |done|done|done|done|].
    { intros w Hs HA0 HR0. split_and!; [done|done|]. intros a. rewrite HR0. change (slice _ (Z.to_nat 0) (A p)) with (@nil Z). by rewrite ram_write_nil. }
    exists w'. split; [exact E|]. split_and!; [done|intros q; rewrite HA'; apply HA|]. intros a. rewrite HR'. cbn [snd]. rewrite HA.
    apply ram_write_ext, HR.
Qed.

Lemma access_spec_length fuel part ar s x p : access_fits fuel part ar s x -> length ((access_spec part x ar).1 p) = length (ar.1 p).
Proof.
  destruct x as [[] dev lba len buf]; [|done]. intros (_ & (H1 & H2 & _ & H4 & _) & _). cbn [access_spec fst]. unfold insert, fn_insert.
  destruct (decide (part dev = p)) as [<-|]; [|done]. apply length_splice. rewrite length_ram_read. lia.
Qed.

Lemma access_fits_length fuel part ar ar' s s' x : bio_pool s' = bio_pool s -> (forall p, length (ar'.1 p) = length (ar.1 p)) ->
  access_fits fuel part ar s x -> access_fits fuel part ar' s' x.
Proof.
  intros Hp Hl. destruct x as [writes dev lba len buf]. unfold access_fits, device_of, xfer_ok_at, dev_ok, dev_at. by rewrite Hp, Hl.
Qed.

Lemma accesses_refine fuel part xs s ar : agrees ar (bio_hw s) -> Forall (access_fits fuel part ar s) xs ->
  exists w', mmc_bio_accesses fuel xs s = (replicate (length xs) PB_OK, with_mmc w' s) /\
    agrees (fold_left (fun ar x => access_spec part x ar) xs ar) w'.
Proof.
  revert s ar. induction xs as [|x xs IH]; intros s ar Ha Hx; cbn [mmc_bio_accesses fold_left length replicate].
  { exists (bio_hw s). split; [by destruct s|done]. }
  apply Forall_cons in Hx as [Hx Hxs]. destruct (access_ok fuel part ar s x Ha Hx) as (w1 & E1 & Ha1). unfold bind at 1. rewrite E1.
  destruct (IH (with_mmc w1 s) (access_spec part x ar) Ha1) as (w2 & E2 & Ha2).
  { eapply Forall_impl; [exact Hxs|]. intros y. apply access_fits_length; [done|]. intros p. by eapply access_spec_length. }
  exists w2. unfold bind. by rewrite E2.
Qed.

(** [C12] The block devices of a card are what they promise: any sequence of
    reads and writes of whole blocks through the callbacks, in any order of
    the user and the two boot partitions, succeeds and changes the hardware
    partitions and the memory exactly as the accesses say.  The driver's
    switching of partitions, which it does from a cached register, its
    splitting into chunks and its waiting for the card are invisible, and its
    invariant holds again at the end. *)
Theorem emmc_refines_areas fuel part xs s ar : agrees ar (bio_hw s) -> Forall (access_fits fuel part ar s) xs ->
  exists w', mmc_bio_accesses fuel xs s = (replicate (length xs) PB_OK, with_mmc w' s) /\
    agrees (fold_left (fun ar x => access_spec part x ar) xs ar) w'.
Proof. apply accesses_refine. Qed.

(** ** Enumeration *)

(** The variables that identification does not touch. *)
Definition settings w :=
  (mm_hal w, mm_cfg w, power_off_long_time_ms w, generic_cmd6_time_ms w, partition_switch_time_ms w, mmc_current_part w).

(** What a step of the enumeration does: the settings stay, the card is [e]. *)
Definition evolved w e w' : Prop := settings w' = settings w /\ card_of w' = e.

Lemma settings_eq w w' : settings w' = settings w -> mm_hal w' = mm_hal w /\ mm_cfg w' = mm_cfg w /\
  generic_cmd6_time_ms w' = generic_cmd6_time_ms w /\ partition_switch_time_ms w' = partition_switch_time_ms w.
Proof. unfold settings. by intros [= ? ? ? ? ? ?]. Qed.

Lemma moved_evolved w e w' : moved w e w' -> evolved w e w' /\ rca w' = rca w.
Proof. intros (h & -> & E). by repeat split. Qed.

Lemma evolved_trans w e w1 e' w2 : evolved w e w1 -> evolved w1 e' w2 -> evolved w e' w2.
Proof. intros [H _] [H' E]. split; [congruence|done]. Qed.

Lemma evolved_hal w e w' : evolved w e w' -> mm_hal w = hal -> mm_hal w' = hal.
Proof. intros [H _] E. by apply settings_eq in H as [-> _]. Qed.

Lemma op_cond_ok tries : forall w, mm_hal w = hal -> em_state (card_of w) = MMC_STATE_IDLE -> (em_busy (card_of w) < tries)%nat ->
  exists w', op_cond_loop tick delay_fuel tries w = (PB_OK, w') /\ evolved w (em_set_busy 0 (em_set_state MMC_STATE_READY (card_of w))) w'.
Proof.
  induction tries as [|n IH]; intros w Hh Hs Hb; [lia|]. cbn [op_cond_loop]. unfold bind at 1, mmc_send_cmd, hal_call, on_hw.
  destruct (emmc_op_cond (mm_hw w) (Z.lor (Z.lor OCR_SECTOR_MODE OCR_VDD_MIN_2V7) OCR_VDD_MIN_1V7) Hs eq_refl) as (r & h & E & H).
  rewrite Hh, E. change (negb (PB_OK =? 0)) with false. cbv beta iota. fold (card_of w) in H. destruct (em_busy (card_of w)) as [|k] eqn:Eb.
  - destruct H as (Hp & Hc). rewrite (proj2 (Z.eqb_neq _ _) Hp). cbn [negb]. unfold bind, modify, ret. eexists. split; [done|]. split; [done|].
    unfold card_of at 1. cbn [set_ocr mm_hw with_hw]. rewrite Hc, <- Eb. by destruct (card_of w).
  - destruct H as (Hp & Hc). rewrite Hp. cbn [Z.eqb negb]. destruct (delay_moved 10 (with_hw h w)) as (w1 & E1 & Hm). unfold bind. rewrite E1.
    apply moved_evolved in Hm as [Hm _]. unfold card_of in Hm at 1. cbn [mm_hw with_hw] in Hm. rewrite Hc in Hm.
    assert (Hw : evolved w (em_set_busy k (card_of w)) w1) by (destruct Hm as [H1 H2]; by split).
    destruct (IH w1) as (w' & E' & Hw'); [by eapply evolved_hal|by rewrite (proj2 Hw)|rewrite (proj2 Hw); cbn; lia|].
    exists w'. split; [done|]. rewrite (proj2 Hw) in Hw'. by eapply evolved_trans.
Qed.

Lemma send_op_cond_ok w : mm_hal w = hal -> 0 <= em_state (card_of w) -> exists w', mmc_send_op_cond tick delay_fuel w = (PB_OK, w') /\
  evolved w (em_set_busy 0 (em_set_state MMC_STATE_READY (card_of w))) w'.
Proof.
  intros Hh Hp. unfold mmc_send_op_cond. rewrite checked_run. unfold mmc_reset_to_idle. rewrite checked_run.
  destruct (command_moved MMC_CMD_GO_IDLE_STATE 0 0 w (em_set_state MMC_STATE_IDLE (card_of w)) Hh) as (k & w1 & E1 & Hk & Hm1).
  { unfold card_cmd. cbn [Z.eqb MMC_CMD_GO_IDLE_STATE]. by rewrite (proj2 (Z.leb_le _ _) Hp). }
  rewrite E1. cbn [PB_OK Z.eqb]. destruct (delay_moved 2 w1) as (w2 & E2 & Hm2). unfold bind, ret. rewrite E2. cbn [PB_OK Z.eqb].
  rewrite (moved_card _ _ _ Hm1) in Hm2. destruct (moved_evolved _ _ _ (moved_trans _ _ _ _ _ Hm1 Hm2)) as [Hw2 _]. pose proof (proj2 Hw2) as Hc2.
  destruct (op_cond_ok SEND_OP_COND_MAX_RETRIES w2) as (w' & E' & Hw'); [by eapply evolved_hal|by rewrite Hc2| |].
  { rewrite Hc2. cbn. unfold SEND_OP_COND_MAX_RETRIES. unfold MMC_DEFAULT_TIMEOUT_ms in busy_ok. lia. }
  exists w'. split; [exact E'|]. rewrite Hc2 in Hw'. by eapply evolved_trans.
Qed.

(** The card after identification. *)
Definition identified (e : emmc) : emmc := em_set_busy 0 (em_set_rca MMC_FIX_RCA (em_set_state MMC_STATE_TRAN e)).

Lemma clock_ok hz w : mm_hal w = hal -> 0 < hz < 2 ^ 31 -> exists w', mmc_set_bus_clock hz w = (PB_OK, w') /\ moved w (card_of w) w'.
Proof. intros Hh Hz. by apply (hal_moved (fun hal => mh_set_bus_clock hal hz) w _ Hh), emmc_clock. Qed.

(** From the controller's reset to a card that is powered up. *)
Lemma power_up_ok w (k : M (mmc_st HW) Z) : mm_hal w = hal -> 0 <= em_state (card_of w) -> exists w1, evolved w (em_set_busy 0 (em_set_state MMC_STATE_READY (card_of w))) w1 /\
  (hal_call mh_init ;;? mmc_set_bus_clock (400 * 1000) ;;? mmc_send_op_cond tick delay_fuel ;;? k) w = k w1.
Proof.
  intros Hh Hp. rewrite checked_run. destruct (hal_moved mh_init w _ Hh (emmc_init _)) as (w1 & E1 & Hm1). rewrite E1. cbn [PB_OK Z.eqb].
  fold (card_of w) in Hm1. apply moved_evolved in Hm1 as [Hw1 _]. pose proof (evolved_hal _ _ _ Hw1 Hh) as Hh1. rewrite checked_run.
  destruct (clock_ok (400 * 1000) w1 Hh1) as (w2 & E2 & Hm2); [lia|]. rewrite E2. cbn [PB_OK Z.eqb]. rewrite (proj2 Hw1) in Hm2.
  apply moved_evolved in Hm2 as [Hm2 _]. pose proof (evolved_trans _ _ _ _ _ Hw1 Hm2) as Hw2.
  rewrite checked_run. destruct (send_op_cond_ok w2 (evolved_hal _ _ _ Hw2 Hh) ltac:(by rewrite (proj2 Hw2))) as (w3 & E3 & Hw3). rewrite E3. cbn [PB_OK Z.eqb].
  rewrite (proj2 Hw2) in Hw3. exists w3. split; [by eapply evolved_trans|done].
Qed.

Lemma identify_ok w : mm_hal w = hal -> 0 <= em_state (card_of w) -> exists w', mmc_identify tick poll_fuel delay_fuel w = (PB_OK, w') /\
  evolved w (identified (card_of w)) w' /\ rca w' = MMC_FIX_RCA.
Proof.
  intros Hh Hp. unfold mmc_identify. edestruct power_up_ok as (w3 & H3 & E3); [exact Hh|exact Hp|]. rewrite E3. clear E3. pose proof (evolved_hal _ _ _ H3 Hh) as Hh3.
  rewrite checked_run. destruct (identify_moved MMC_CMD_ALL_SEND_CID 0 MMC_RSP_R2 false w3 (em_set_state MMC_STATE_IDENT (card_of w3)) Hh3 eq_refl)
    as (r4 & w4 & E4 & Hm4); [unfold card_cmd; by rewrite (proj2 H3)|]. unfold mmc_command at 1, bind at 1. rewrite E4. unfold ret at 1. cbn [PB_OK Z.eqb]. rewrite (proj2 H3) in Hm4.
  apply moved_evolved in Hm4 as [Hm4 _]. pose proof (evolved_trans _ _ _ _ _ H3 Hm4) as H4. clear Hm4. unfold bind at 1 2, modify, gets.
  set (w5 := set_rca MMC_FIX_RCA w4). change (rca_arg w5) with 655360.
  assert (H5 : evolved w (em_set_busy 0 (em_set_state MMC_STATE_IDENT (card_of w))) w5) by (destruct H4 as [H H']; by split).
  pose proof (evolved_hal _ _ _ H5 Hh) as Hh5. rewrite checked_run.
  destruct (identify_moved MMC_CMD_SET_RELATIVE_ADDR 655360 MMC_RSP_R1 false w5 (em_set_rca MMC_FIX_RCA (em_set_state MMC_STATE_STBY (card_of w5))) Hh5 eq_refl)
    as (r6 & w6 & E6 & Hm6); [unfold card_cmd; by rewrite (proj2 H5)|]. unfold mmc_command at 1, bind at 1. rewrite E6. unfold ret at 1. cbn [PB_OK Z.eqb]. rewrite (proj2 H5) in Hm6.
  pose proof (moved_card _ _ _ Hm6) as Hc6. assert (Hh6 : mm_hal w6 = hal) by by destruct Hm6 as (? & -> & _). unfold bind at 1.
  destruct (identify_moved MMC_CMD_SEND_CSD 655360 MMC_RSP_R2 true w6 (card_of w6) Hh6 eq_refl) as (r & w7 & E7 & Hm7);
    [unfold card_cmd; by rewrite Hc6|]. unfold mmc_send_cmd. rewrite E7. change (negb (PB_OK =? 0)) with false. cbv beta iota. unfold bind.
  rewrite Hc6 in Hm7. pose proof (moved_trans _ _ _ _ _ Hm6 Hm7) as Hm. set (w8 := set_csd r w7).
  pose proof (moved_evolved _ _ _ Hm) as [Hw7 Hr7]. change (rca w5) with MMC_FIX_RCA in Hr7.
  assert (H8 : evolved w (em_set_busy 0 (em_set_rca MMC_FIX_RCA (em_set_state MMC_STATE_STBY (card_of w)))) w8)
    by (destruct (evolved_trans _ _ _ _ _ H5 Hw7) as [H H']; by split).
  rewrite checked_run. destruct (command_moved MMC_CMD_SELECT_CARD 655360 MMC_RSP_R1 w8 (em_set_state MMC_STATE_TRAN (card_of w8)) (evolved_hal _ _ _ H8 Hh))
    as (k & w9 & E9 & Hk & Hm9); [unfold card_cmd; by rewrite (proj2 H8)|]. rewrite E9. cbn [PB_OK Z.eqb]. rewrite (proj2 H8) in Hm9.
  destruct (moved_evolved _ _ _ Hm9) as [Hw9 Hr9]. change (rca w8) with (rca w7) in Hr9. rewrite Hr7 in Hr9.
  pose proof (evolved_trans _ _ _ _ _ H8 Hw9) as H9. pose proof (proj2 H9) as Hc9.
  destruct (wait_state_ok MMC_DEFAULT_TIMEOUT_ms (fun rc => rc =? MMC_STATE_TRAN) w9) as (w' & E' & Hm'); rewrite ?Hc9; [done|done| |done|done|done|].
  { unfold addressed. rewrite Hc9, Hr9. split_and!; [by eapply evolved_hal|done|by vm_compute|by vm_compute]. }
  exists w'. split; [exact E'|]. rewrite Hc9 in Hm'. destruct (moved_evolved _ _ _ Hm') as [Hw' Hr']. split; [by eapply evolved_trans|congruence].
Qed.

(** A selected card with another bus mode: the fields of EXT_CSD that say how
    the bus is used may differ, nothing else does. *)
Definition bus_fields : list Z := [EXT_CSD_BOOT_BUS_CONDITIONS; EXT_CSD_BUS_WIDTH; EXT_CSD_HS_TIMING].

Lemma bus_fields_in : EXT_CSD_BOOT_BUS_CONDITIONS ∈ bus_fields /\ EXT_CSD_BUS_WIDTH ∈ bus_fields /\ EXT_CSD_HS_TIMING ∈ bus_fields.
Proof. unfold bus_fields. set_solver. Qed.

Record tuned w w' : Prop := {
  tuned_settings : settings w' = settings w;
  tuned_tran : in_tran w';
  tuned_area : em_area (card_of w') = em_area (card_of w);
  tuned_ram : em_ram (card_of w') = em_ram (card_of w);
  tuned_csd : forall f, 0 <= f -> f ∉ bus_fields -> csd_byte (card_of w') f = csd_byte (card_of w) f
}.

Lemma tuned_refl w : in_tran w -> tuned w w.
Proof. done. Qed.

Lemma tuned_trans w w1 w2 : tuned w w1 -> tuned w1 w2 -> tuned w w2.
Proof.
  intros [S1 T1 A1 R1 C1] [S2 T2 A2 R2 C2]. split; [congruence|done|congruence|congruence|]. intros f H0 Hf. by rewrite C2, C1.
Qed.

Lemma tuned_moved w w' : in_tran w -> moved w (card_of w) w' -> tuned w w'.
Proof.
  intros Ht Hm. destruct (moved_evolved _ _ _ Hm) as [[Hs Hc] _]. split; rewrite ?Hc; [done| |done..].
  destruct Ht as [? ? ? ?] eqn:E. by eapply in_tran_moved.
Qed.

Lemma set_field_ok f v w : in_tran w -> f ∈ bus_fields -> 0 <= v < 256 -> Z.of_nat busy_max < generic_cmd6_time_ms w ->
  exists w', mmc_set_ext_csd tick poll_fuel delay_fuel f v 0 w = (PB_OK, w') /\ tuned w w'.
Proof.
  intros Ht Hf Hv Hb. assert (Hr : 0 <= f < 256) by (unfold bus_fields in Hf; set_unfold in Hf; destruct Hf as [->|[->|[->|[]]]]; by vm_compute).
  destruct (set_ext_csd_ok f v 0 w Ht Hr Hv Hb) as (w' & E & Hm). exists w'. split; [done|].
  destruct (moved_evolved _ _ _ Hm) as [[Hs Hc] _]. destruct Ht as [H1 H2 H3 H4] eqn:Et. split; rewrite ?Hc; [done| |done|done|].
  - eapply in_tran_moved; [exact Ht|exact Hm|done|done|done|]. cbn. by rewrite length_insert.
  - intros g Hg Hgf. unfold csd_byte. cbn [em_set_ext_csd em_ext_csd]. rewrite !nth_lookup. rewrite list_lookup_insert_ne; [done|].
    intros E'. apply Z2Nat.inj in E'; [|lia..]. by subst.
Qed.

Lemma set_width_ok width v w : in_tran w -> bus_width_value width = Some v -> emmc_width_ok width = true ->
  Z.of_nat busy_max < generic_cmd6_time_ms w -> exists w', mmc_set_bus_width tick poll_fuel delay_fuel width w = (PB_OK, w') /\ tuned w w'.
Proof.
  intros Ht Ev Hw Hb. unfold mmc_set_bus_width. rewrite Ev. assert (Hv : 0 <= v < 256) by (destruct width; inversion Ev; by vm_compute).
  destruct (set_field_ok EXT_CSD_BUS_WIDTH v w Ht) as (w1 & E1 & Ht1); [apply bus_fields_in|done|done|]. rewrite checked_run, E1. cbn [PB_OK Z.eqb].
  destruct (hal_moved (fun hal => mh_set_bus_width hal width) w1 _ (proj1 (tran_addressed _ (tuned_tran _ _ Ht1))) (emmc_width _ width Hw)) as (w2 & E2 & Hm2).
  exists w2. split; [exact E2|]. eapply tuned_trans; [exact Ht1|]. apply tuned_moved; [apply Ht1|exact Hm2].
Qed.

(** The modes a board can ask for; tuning is switched off. *)
Lemma set_mode_ok {mkc : MmcKconfig} tuning stack_tap mode width v w : in_tran w -> bus_width_value width = Some v -> emmc_width_ok width = true ->
  mode <> MMC_BUS_MODE_INVALID -> mode <> MMC_BUS_MODE_END -> (mode = MMC_BUS_MODE_HS200 -> CONFIG_MMC_CORE_HS200_TUNE = false) ->
  Z.of_nat busy_max < generic_cmd6_time_ms w ->
  exists w', mmc_set_mode mem tuning tick poll_fuel delay_fuel stack_tap mode width w = (PB_OK, w') /\ tuned w w'.
Proof.
  intros Ht Ev Hw Hm1 Hm2 Htune Hb.
  assert (Hfield : forall v w1, tuned w w1 -> 0 <= v < 256 -> exists w2, mmc_set_ext_csd tick poll_fuel delay_fuel EXT_CSD_HS_TIMING v 0 w1 = (PB_OK, w2) /\ tuned w w2).
  { intros v0 w1 H1 Hv0. pose proof H1 as [S1 T1 _ _ _]. apply settings_eq in S1 as (_ & _ & S1 & _).
    destruct (set_field_ok EXT_CSD_HS_TIMING v0 w1 T1) as (w2 & E2 & H2); [apply bus_fields_in|done|by rewrite S1|].
    exists w2. split; [done|by eapply tuned_trans]. }
  assert (Hwidth : forall w1, tuned w w1 -> exists w2, mmc_set_bus_width tick poll_fuel delay_fuel width w1 = (PB_OK, w2) /\ tuned w w2).
  { intros w1 H1. pose proof H1 as [S1 T1 _ _ _]. apply settings_eq in S1 as (_ & _ & S1 & _).
    destruct (set_width_ok width v w1 T1 Ev Hw) as (w2 & E2 & H2); [by rewrite S1|]. exists w2. split; [done|by eapply tuned_trans]. }
  assert (Hclock : forall w1 hz, tuned w w1 -> 0 < hz < 2 ^ 31 -> exists w2, mmc_set_bus_clock hz w1 = (PB_OK, w2) /\ tuned w w2).
  { intros w1 hz H1 Hz. pose proof (tuned_tran _ _ H1) as T1. destruct (clock_ok hz w1 (proj1 (tran_addressed _ T1)) Hz) as (w2 & E2 & Hmv).
    exists w2. split; [done|]. eapply tuned_trans; [exact H1|by apply tuned_moved]. }
  pose proof (tuned_refl w Ht) as H0. unfold mmc_set_mode. destruct mode; try done.
  - destruct (Hfield EXT_CSD_TIMING_HS w H0) as (w1 & E1 & H1); [by vm_compute|]. rewrite checked_run, E1. cbn [PB_OK Z.eqb].
    destruct (Hwidth w1 H1) as (w2 & E2 & H2). rewrite checked_run, E2. cbn [PB_OK Z.eqb]. by apply Hclock.
  - destruct (Hwidth w H0) as (w1 & E1 & H1). rewrite checked_run, E1. cbn [PB_OK Z.eqb].
    destruct (Hfield EXT_CSD_TIMING_HS200 w1 H1) as (w2 & E2 & H2); [by vm_compute|]. rewrite checked_run, E2. cbn [PB_OK Z.eqb].
    destruct (Hclock w2 (MHz 200) H2) as (w3 & E3 & H3); [by vm_compute|]. rewrite checked_run, E3, (Htune eq_refl). cbn [PB_OK Z.eqb]. by exists w3.
  - destruct (Hfield EXT_CSD_TIMING_HS w H0) as (w1 & E1 & H1); [by vm_compute|]. rewrite checked_run, E1. cbn [PB_OK Z.eqb].
    destruct (Hwidth w1 H1) as (w2 & E2 & H2). rewrite checked_run, E2. cbn [PB_OK Z.eqb].
    destruct (Hfield EXT_CSD_TIMING_HS400 w2 H2) as (w3 & E3 & H3); [by vm_compute|]. rewrite checked_run, E3. cbn [PB_OK Z.eqb]. by apply Hclock.
Qed.

(** ** The EXT_CSD register in memory *)

Context (mmc_ext_csd : Z) (csd_reachable : 0 <= mmc_ext_csd /\ mmc_ext_csd + 512 <= dma_limit).

(** The copy in memory is what the card has said. *)
Definition csd_loaded (csd : list Z) w : Prop := forall f, 0 <= f < 512 -> ext_csd_at mem mmc_ext_csd w f = nth (Z.to_nat f) csd 0.

Lemma ram_write_nth a bs R f : 0 <= f < Z.of_nat (length bs) -> ram_write a bs R (a + f) = nth (Z.to_nat f) bs 0.
Proof.
  intros Hf. unfold ram_write. rewrite (proj2 (Z.leb_le a (a + f))), (proj2 (Z.ltb_lt (a + f) _)) by lia. cbn [andb]. f_equal. lia.
Qed.

Lemma max_block : 512 <= mh_max_chunk_bytes hal.
Proof. clear - max_ok max_blocks. Z.to_euclidean_division_equations. lia. Qed.

Lemma reload_ok w : in_tran w -> exists w', mmc_extcsd_reload mmc_ext_csd tick poll_fuel delay_fuel w = (PB_OK, w') /\
  settings w' = settings w /\ in_tran w' /\ em_area (card_of w') = em_area (card_of w) /\ em_ext_csd (card_of w') = em_ext_csd (card_of w) /\
  em_ram (card_of w') = ram_write mmc_ext_csd (em_ext_csd (card_of w)) (em_ram (card_of w)).
Proof.
  intros Ht. unfold mmc_extcsd_reload. unfold bind at 1, modify. set (w0 := set_block_size MMC_BLOCK_SIZE w).
  assert (Ht0 : in_tran w0) by by destruct Ht as [(? & ? & ?) ? ? ?]. change (settings w) with (settings w0). change (card_of w) with (card_of w0).
  clearbody w0. clear w Ht. rename w0 into w, Ht0 into Ht. pose proof Ht as [Ha Hs Hb Hl]. pose proof (proj1 Ha) as Hh. pose proof max_block.
  destruct (hal_moved (fun hal => mh_prepare hal 0 512 mmc_ext_csd) w _ Hh (emmc_prepare _ 0 512 mmc_ext_csd eq_refl (fun _ => max_block) eq_refl (proj1 csd_reachable) (proj2 csd_reachable))) as (w1 & E1 & Hm1).
  rewrite checked_run, E1. cbn [PB_OK Z.eqb]. fold (card_of w) in Hm1. pose proof (moved_card _ _ _ Hm1) as Hc1.
  assert (Hh1 : mm_hal w1 = hal) by by destruct Hm1 as (? & -> & _).
  destruct (command_moved MMC_CMD_SEND_EXT_CSD 0 MMC_RSP_R1 w1
    (em_set_ram (ram_write mmc_ext_csd (em_ext_csd (card_of w)) (em_ram (card_of w))) (card_of w1)) Hh1) as (k & w2 & E2 & Hk & Hm2).
  { unfold card_cmd. rewrite Hc1. cbn [em_set_dma em_state em_busy em_dma]. by rewrite Hs, Hb. }
  rewrite checked_run, E2. cbn [PB_OK Z.eqb]. pose proof (moved_trans _ _ _ _ _ Hm1 Hm2) as Hm. pose proof (moved_card _ _ _ Hm2) as Hc2.
  assert (Hh2 : mm_hal w2 = hal) by by destruct Hm as (? & -> & _).
  destruct (hal_moved (fun hal => mh_read hal 0 512 mmc_ext_csd) w2 _ Hh2 (emmc_read _ _ _ _)) as (w3 & E3 & Hm3). fold (card_of w2) in Hm3.
  rewrite checked_run, E3. cbn [PB_OK Z.eqb]. rewrite Hc2 in Hm3. pose proof (moved_trans _ _ _ _ _ Hm Hm3) as Hw3. pose proof (moved_card _ _ _ Hw3) as Hc3.
  assert (Ha3 : addressed w3) by (eapply addressed_moved; [exact Ha|exact Hw3|cbn; by rewrite Hc1]).
  destruct (wait_state_ok MMC_DEFAULT_TIMEOUT_ms (fun rc => rc =? MMC_STATE_TRAN) w3) as (w4 & E4 & Hm4);
    rewrite ?Hc3, ?Hc1; cbn [em_set_busy em_set_ram em_set_dma em_state em_busy]; rewrite ?Hs; [done..|].
  exists w4. split; [exact E4|]. rewrite Hc3, Hc1 in Hm4. destruct (moved_evolved _ _ _ Hw3) as [[S3 _] _].
  destruct (moved_evolved _ _ _ Hm4) as [[S4 C4] _]. split_and!; [congruence| |by rewrite C4..].
  eapply in_tran_moved; [exact Ht|by eapply moved_trans|done|exact Hs|done|exact Hl].
Qed.

Lemma loaded_after w csd R : length csd = 512%nat -> em_ram (card_of w) = ram_write mmc_ext_csd csd R -> csd_loaded csd w.
Proof.
  intros Hl Hw f Hf. unfold ext_csd_at. rewrite emmc_mem. fold (card_of w). rewrite Hw. apply ram_write_nth. lia.
Qed.

(** Whether the boot bus conditions have to be written or not. *)
Lemma boot_mode_ok w mode b : in_tran w -> 0 <= mode < 256 -> Z.of_nat busy_max < generic_cmd6_time_ms w ->
  exists w', (if negb b then mmc_set_ext_csd tick poll_fuel delay_fuel EXT_CSD_BOOT_BUS_CONDITIONS mode 0 else ret PB_OK) w = (PB_OK, w') /\ tuned w w'.
Proof.
  intros Ht Hm Hb. destruct b; cbn [negb]; [exists w; split; [done|by apply tuned_refl]|]. apply set_field_ok; [done|apply bus_fields_in|done|done].
Qed.

(** The times the card announces are longer than it is busy. *)
Definition times_ok (e : emmc) : Prop :=
  Z.of_nat busy_max < csd_byte e EXT_CSD_GENERIC_CMD6_TIME * 10 /\
  (csd_byte e EXT_CSD_PART_SWITCH_TIME = 0 \/ Z.of_nat busy_max < csd_byte e EXT_CSD_PART_SWITCH_TIME * 10).

Lemma read_times_ok w : in_tran w -> 0 <= mc_boot_mode (mm_cfg w) < 256 -> times_ok (card_of w) ->
  exists w', mmc_read_times mem mmc_ext_csd tick poll_fuel delay_fuel w = (PB_OK, w') /\ emmc_ready w' /\ mm_cfg w' = mm_cfg w /\
    csd_loaded (em_ext_csd (card_of w)) w' /\ em_area (card_of w') = em_area (card_of w) /\
    em_ram (card_of w') = ram_write mmc_ext_csd (em_ext_csd (card_of w)) (em_ram (card_of w)).
Proof.
  intros Ht Hmode (T6 & Tsw). unfold mmc_read_times. destruct (reload_ok w Ht) as (w1 & E1 & S1 & Ht1 & A1 & C1 & R1).
  rewrite checked_run, E1. cbn [PB_OK Z.eqb]. pose proof (tran_csd _ Ht) as Hl. pose proof (loaded_after w1 _ _ Hl R1) as L1.
  unfold bind at 1 2, modify, get. rewrite !L1 by by vm_compute. set (w2 := set_times _ _ _ w1).
  assert (Ht2 : in_tran w2) by by destruct Ht1 as [(? & ? & ?) ? ? ?]. assert (Hcfg : mm_cfg w2 = mm_cfg w) by by apply settings_eq in S1 as (_ & H & _).
  destruct (boot_mode_ok w2 (mc_boot_mode (mm_cfg w2)) (ext_csd_at mem mmc_ext_csd w2 EXT_CSD_BOOT_BUS_CONDITIONS =? mc_boot_mode (mm_cfg w2)) Ht2)
    as (w3 & E3 & [S3 T3 A3 R3 C3]); [by rewrite Hcfg|done|]. rewrite checked_run, E3. cbn [PB_OK Z.eqb]. unfold bind, modify, ret.
  assert (R3' : em_ram (card_of w3) = ram_write mmc_ext_csd (em_ext_csd (card_of w)) (em_ram (card_of w))) by (rewrite R3; exact R1).
  pose proof (loaded_after w3 _ _ Hl R3') as L3. rewrite L3 by by vm_compute. set (w4 := set_part_config _ w3). exists w4. split; [done|].
  assert (Hp : csd_byte (card_of w3) EXT_CSD_PART_CONFIG = nth (Z.to_nat EXT_CSD_PART_CONFIG) (em_ext_csd (card_of w)) 0).
  { rewrite C3; [unfold csd_byte; change (card_of w2) with (card_of w1); by rewrite C1|by vm_compute|]. unfold bus_fields. set_unfold. intros [|[|[|[]]]]; done. }
  apply settings_eq in S3 as (H3a & H3b & H3d & H3e). split_and!; [split| |exact L3|change (card_of w4) with (card_of w3); rewrite A3; exact A1|exact R3'].
  - by destruct T3 as [(? & ? & ?) ? ? ?].
  - symmetry. exact Hp.
  - change (generic_cmd6_time_ms w4) with (generic_cmd6_time_ms w3). rewrite H3d. exact T6.
  - change (partition_switch_time_ms w4) with (partition_switch_time_ms w3). rewrite H3e. unfold w2. cbn [set_times partition_switch_time_ms].
    unfold csd_byte in Tsw. destruct Tsw as [T|T]; [left; by rewrite T|by right].
  - change (mm_cfg w4) with (mm_cfg w3). congruence.
Qed.

(** ** Registering the partitions *)

Context (bio_read_p bio_write_p : fptr).

(** The flags [mmc_setup] gives to a device. *)
Definition part_flags (hal_flag : Z) (fl : option Z) : Z := Z.lor (Z.shiftl hal_flag 24) (default 0 fl).
Definition part_device (last : Z) (u : uuid_t) (desc : list Z) (hal_flag : Z) (fl : option Z) : bio_device :=
  set_ios_f bio_read_p bio_write_p (set_flags_f (part_flags hal_flag fl) (fresh_device 0 last 512 u desc)).

Lemma set_hal_flags_run dev hf s : dev_ok s dev = true -> flags (dev_at s dev) = 0 -> 0 <= hf < 256 ->
  bio_set_hal_flags dev hf s = (PB_OK, (upd_dev dev (set_flags_f (Z.shiftl hf 24)) s).2).
Proof.
  intros Hok Hf Hr. unfold bio_set_hal_flags. rewrite checked_dev, Hok. unfold bind, get. rewrite Hf, Z.land_0_l, Z.lor_0_l.
  rewrite u32_small by (rewrite Z.shiftl_mul_pow2; lia). done.
Qed.

Lemma set_flags_run dev hf fl s : dev_ok s dev = true -> flags (dev_at s dev) = Z.shiftl hf 24 -> 0 <= hf < 256 -> 0 <= fl < 2 ^ 16 ->
  bio_set_flags dev fl s = (PB_OK, (upd_dev dev (set_flags_f (Z.lor (Z.shiftl hf 24) fl)) s).2).
Proof.
  intros Hok Hf Hr Hfl. rewrite bio_set_flags_upd by done. do 5 f_equal.
  - rewrite Hf. change (u32 (Z.lnot 0xffff)) with (Z.shiftl (Z.ones 16) 16). apply Z.bits_inj_iff'. intros i Hi.
    rewrite Z.land_spec, !Z.shiftl_spec by lia. destruct (Z.ltb_spec i 24) as [H|H].
    + by rewrite (Z.testbit_neg_r hf) by lia.
    + destruct (Z.ltb_spec (i - 16) 16); [by rewrite Z.ones_spec_low, andb_true_r by lia|].
      by rewrite (bits_above hf 8) by lia.
  - change 0xffff with (Z.ones 16). rewrite Z.land_ones by lia. by apply Z.mod_small.
Qed.

Lemma fresh_wf last u desc : 0 <= last < 2 ^ 32 -> uuid_wf u -> dev_wf (fresh_device 0 last 512 u desc).
Proof. intros Hl Hu. pose proof ptr_bits_ge32. apply fresh_device_wf; (done || lia). Qed.

Lemma part_flags_range hf fl : 0 <= hf < 256 -> 0 <= default 0 fl < 2 ^ 16 -> 0 <= Z.shiftl hf 24 < 2 ^ 32 /\ 0 <= part_flags hf fl < 2 ^ 32.
Proof.
  intros Hh Hf. assert (0 <= Z.shiftl hf 24 < 2 ^ 32) by (rewrite Z.shiftl_mul_pow2; lia). split; [done|]. apply lor_lt; lia.
Qed.

Lemma register_ok last u desc hf fl k s : bio_wf s -> n_bios s < CONFIG_BIO_MAX_DEVS -> 0 <= last < 2 ^ 32 -> uuid_wf u ->
  0 <= hf < 256 -> 0 <= default 0 fl < 2 ^ 16 ->
  exists s1, mmc_register bio_read_p bio_write_p last u desc hf fl k s = k s1 /\ bio_wf s1 /\ n_bios s1 = n_bios s + 1 /\ bio_hw s1 = bio_hw s /\
    older_kept s s1 /\ dev_at s1 (n_bios s) = part_device last u desc hf fl.
Proof.
  intros Hwf Hn Hl Hu Hh Hfl. pose proof (proj1 Hwf) as Hb. pose proof ptr_bits_ge32. destruct (part_flags_range hf fl Hh Hfl) as [Hr1 Hr2].
  pose proof (fresh_wf last u desc Hl Hu) as Hfw. unfold mmc_register. unfold bind at 1.
  destruct (bio_allocate_ok 0 last 512 u desc s) as (s1 & E1 & W1 & N1 & B1 & O1 & K1 & D1); [done|lia|lia|lia|done|done|].
  rewrite E1, (proj2 (Z.ltb_ge (n_bios s) 0)) by lia. unfold unless_neg, bind.
  rewrite (set_hal_flags_run _ hf s1) by (rewrite ?D1; done). change (PB_OK <? 0) with false. cbv beta iota.
  destruct (upd_last_ok (set_flags_f (Z.shiftl hf 24)) s s1 _ W1 N1 (proj1 Hb) O1 K1 D1) as (W2 & N2 & B2 & O2 & K2 & D2); [by apply set_flags_f_wf|].
  set (s2 := (upd_dev (n_bios s) (set_flags_f (Z.shiftl hf 24)) s1).2) in *. clearbody s2.
  assert (exists s3, (match fl with Some f => bio_set_flags (n_bios s) f | None => ret PB_OK end) s2 = (PB_OK, s3) /\ bio_wf s3 /\
    n_bios s3 = n_bios s + 1 /\ bio_hw s3 = bio_hw s2 /\ older_kept s s3 /\ dev_ok s3 (n_bios s) = true /\
    dev_at s3 (n_bios s) = set_flags_f (part_flags hf fl) (fresh_device 0 last 512 u desc)) as (s3 & E3 & W3 & N3 & B3 & O3 & K3 & D3).
  { destruct fl as [f|]; [|exists s2; unfold part_flags; cbn [default]; rewrite Z.lor_0_r; done].
    rewrite (set_flags_run _ hf f s2) by (rewrite ?D2; done). eexists. split; [done|].
    destruct (upd_last_ok (set_flags_f (Z.lor (Z.shiftl hf 24) f)) s s2 _ W2 N2 (proj1 Hb) O2 K2 D2) as (? & ? & ? & ? & ? & D);
      [apply set_flags_f_wf; [exact Hr2|by apply set_flags_f_wf]|].
    split_and!; try done. }
  rewrite E3. change (PB_OK <? 0) with false. cbv beta iota. unfold bio_set_ios. rewrite checked_dev, K3. unfold bind.
  change (upd_dev ?d ?f s3) with (tt, (upd_dev d f s3).2). cbv beta iota. unfold ret. change (PB_OK <? 0) with false. cbv beta iota.
  eexists. split; [done|]. destruct (upd_last_ok (set_ios_f bio_read_p bio_write_p) s s3 _ W3 N3 (proj1 Hb) O3 K3 D3) as (W4 & N4 & B4 & O4 & K4 & D4).
  { revert Hr2 Hfw. clear. unfold dev_wf. cbn. intuition. }
  split_and!; [done|done|congruence|done|done].
Qed.

(** ** What the card says of itself, and the devices registered for it *)

Context {mkc : MmcKconfig}.

(** The sizes in blocks. *)
Definition user_blocks (e : emmc) : Z :=
  csd_byte e EXT_CSD_SEC_CNT + csd_byte e (EXT_CSD_SEC_CNT + 1) * 2 ^ 8 +
  csd_byte e (EXT_CSD_SEC_CNT + 2) * 2 ^ 16 + csd_byte e (EXT_CSD_SEC_CNT + 3) * 2 ^ 24.
Definition boot_blocks (e : emmc) : Z :=
  match CONFIG_MMC_CORE_BOOT_PART_SZ_KiB with Some kib => kib * 2 | None => csd_byte e EXT_CSD_BOOT_MULT * 256 end.
Definition rpmb_blocks (e : emmc) : Z := csd_byte e EXT_CSD_RPMB_MULT * 256.

Record card_ok (e : emmc) : Prop := {
  card_powered : 0 <= em_state e;
  card_csd : length (em_ext_csd e) = 512%nat;
  card_bytes : bytes (em_ext_csd e);
  card_user : 0 < user_blocks e;
  card_boot : 0 < boot_blocks e <= 2 ^ 32;
  card_rpmb : 0 < rpmb_blocks e;
  card_times : times_ok e
}.

Definition card_devices (cfg : mmc_device_config) (e : emmc) : list bio_device :=
  let fl := Some (Z.lor BIO_FLAG_VISIBLE BIO_FLAG_WRITABLE) in
  [part_device (boot_blocks e - 1) (mc_boot0_uu cfg) name_boot0 MMC_BIO_FLAG_BOOT0 fl;
   part_device (boot_blocks e - 1) (mc_boot1_uu cfg) name_boot1 MMC_BIO_FLAG_BOOT1 fl;
   part_device (rpmb_blocks e - 1) (mc_rpmb_uu cfg) name_rpmb MMC_BIO_FLAG_RPMB None;
   part_device (user_blocks e - 1) (mc_user_uu cfg) name_user MMC_BIO_FLAG_USER fl].

Lemma csd_byte_range e f : bytes (em_ext_csd e) -> 0 <= csd_byte e f < 256.
Proof.
  intros Hb. unfold csd_byte. destruct (nth_in_or_default (Z.to_nat f) (em_ext_csd e) 0) as [Hin| ->]; [|lia].
  unfold bytes in Hb. rewrite Forall_forall in Hb. apply Hb. by apply list_elem_of_In.
Qed.

Lemma int_of_bytes b0 b1 b2 b3 : is_byte b0 -> is_byte b1 -> is_byte b2 -> is_byte b3 ->
  Z.lor (Z.lor (Z.lor b0 (Z.shiftl b1 8)) (Z.shiftl b2 16)) (Z.shiftl b3 24) = b0 + b1 * 2 ^ 8 + b2 * 2 ^ 16 + b3 * 2 ^ 24.
Proof.
  unfold is_byte. intros. rewrite (Z.lor_comm b0), (lor_shiftl_low b1 b0 8) by lia.
  rewrite (Z.lor_comm (b1 * _ + _)), (lor_shiftl_low b2) by lia. rewrite Z.lor_comm, (lor_shiftl_low b3) by lia. lia.
Qed.

Lemma last_sector n : 0 < n < 2 ^ 32 -> u32 (usz (usz (s32 n) - 1)) = n - 1.
Proof. intros Hn. unfold u32, usz, s32. destruct ptr_bits_ok as [-> | ->]; Z.to_euclidean_division_equations; lia. Qed.

Lemma loaded_byte csd w e f : csd_loaded csd w -> (forall f, 0 <= f -> f ∉ bus_fields -> nth (Z.to_nat f) csd 0 = csd_byte e f) ->
  0 <= f < 512 -> f ∉ bus_fields -> ext_csd_at mem mmc_ext_csd w f = csd_byte e f.
Proof. intros Hl Hc Hf Hn. rewrite Hl by done. apply Hc; [lia|done]. Qed.

(** The sizes the driver computes from its copy of the register. *)
Lemma sizes_ok csd w e : csd_loaded csd w -> (forall f, 0 <= f -> f ∉ bus_fields -> nth (Z.to_nat f) csd 0 = csd_byte e f) -> card_ok e ->
  boot_part_last_lba mem mmc_ext_csd w = boot_blocks e - 1 /\ rpmb_part_last_lba mem mmc_ext_csd w = rpmb_blocks e - 1 /\
  u32 (usz (sectors mem mmc_ext_csd w - 1)) = user_blocks e - 1 /\
  boot_blocks e - 1 < 2 ^ 32 /\ rpmb_blocks e - 1 < 2 ^ 32 /\ user_blocks e - 1 < 2 ^ 32.
Proof.
  intros Hl Hc [_ H1 Hb Hu Hbo Hrp _]. pose proof (fun f => loaded_byte csd w e f Hl Hc) as Hat.
  assert (Hnot : forall f, In f [EXT_CSD_BOOT_MULT; EXT_CSD_RPMB_MULT; EXT_CSD_SEC_CNT + 0; EXT_CSD_SEC_CNT + 1; EXT_CSD_SEC_CNT + 2; EXT_CSD_SEC_CNT + 3] ->
    ext_csd_at mem mmc_ext_csd w f = csd_byte e f).
  { intros f Hf. apply Hat; repeat (destruct Hf as [<-|Hf]; [first [by vm_compute|unfold bus_fields; set_unfold; intros [|[|[|[]]]]; done]|]); by destruct Hf. }
  unfold boot_part_last_lba, rpmb_part_last_lba, sectors, boot_blocks, rpmb_blocks, user_blocks in *. rewrite !Hnot by (cbn; tauto). rewrite Z.add_0_r.
  pose proof (fun f => csd_byte_range e f Hb) as Hr. pose proof (Hr EXT_CSD_SEC_CNT). pose proof (Hr (EXT_CSD_SEC_CNT + 1)).
  pose proof (Hr (EXT_CSD_SEC_CNT + 2)). pose proof (Hr (EXT_CSD_SEC_CNT + 3)). pose proof (Hr EXT_CSD_BOOT_MULT). pose proof (Hr EXT_CSD_RPMB_MULT).
  rewrite int_of_bytes by done. rewrite last_sector by lia. rewrite (u32_small (csd_byte e EXT_CSD_RPMB_MULT * 256 - 1)) by lia.
  destruct CONFIG_MMC_CORE_BOOT_PART_SZ_KiB; rewrite u32_small by lia; split_and!; (done || lia).
Qed.

Lemma register_parts_ok e s : let cfg := mm_cfg (bio_hw s) in
  (exists csd, csd_loaded csd (bio_hw s) /\ forall f, 0 <= f -> f ∉ bus_fields -> nth (Z.to_nat f) csd 0 = csd_byte e f) -> card_ok e ->
  bio_wf s -> n_bios s + 4 <= CONFIG_BIO_MAX_DEVS -> Forall uuid_wf [mc_boot0_uu cfg; mc_boot1_uu cfg; mc_rpmb_uu cfg; mc_user_uu cfg] ->
  exists s', mmc_register_parts mem mmc_ext_csd bio_read_p bio_write_p s = (PB_OK, s') /\ bio_wf s' /\ n_bios s' = n_bios s + 4 /\ bio_hw s' = bio_hw s /\
    older_kept s s' /\ forall k d, card_devices cfg e !! k = Some d -> dev_at s' (n_bios s + Z.of_nat k) = d.
Proof.
  intros cfg (csd & Hl & Hc) He Hwf Hn Hu. destruct (sizes_ok csd (bio_hw s) e Hl Hc He) as (Eb & Er & Es & Lb & Lr & Lu). destruct He as [_ _ _ Pu Pb Pr _].
  unfold mmc_register_parts. unfold bind at 1, gets. fold cfg. rewrite Eb, Er, Es. pose proof (proj1 Hwf) as H0.
  rewrite !Forall_cons in Hu. destruct Hu as (U0 & U1 & U2 & U3 & _).
  edestruct register_ok as (s1 & -> & W1 & N1 & B1 & O1 & D1); [exact Hwf|lia|split; [|exact Lb]; lia|exact U0|by vm_compute|by vm_compute|].
  edestruct register_ok as (s2 & -> & W2 & N2 & B2 & O2 & D2); [exact W1|lia|split; [|exact Lb]; lia|exact U1|by vm_compute|by vm_compute|].
  edestruct register_ok as (s3 & -> & W3 & N3 & B3 & O3 & D3); [exact W2|lia|split; [|exact Lr]; lia|exact U2|by vm_compute|by vm_compute|].
  edestruct register_ok as (s4 & -> & W4 & N4 & B4 & O4 & D4); [exact W3|lia|split; [|exact Lu]; lia|exact U3|by vm_compute|by vm_compute|].
  exists s4. split_and!; [done|done|lia|congruence|intros d Hd; rewrite O4, O3, O2 by lia; by apply O1|].
  intros [|[|[|[|k]]]] d; [..|by intros [=]]; intros [= <-].
  - rewrite Z.add_0_r, O4, O3, O2 by lia. exact D1.
  - change (Z.of_nat 1) with 1. rewrite <- N1, O4, O3 by lia. exact D2.
  - change (Z.of_nat 2) with 2. replace (n_bios s + 2) with (n_bios s2) by lia. rewrite O4 by lia. exact D3.
  - change (Z.of_nat 3) with 3. replace (n_bios s + 3) with (n_bios s3) by lia. exact D4.
Qed.

(** A registered device is one of its partition. *)
Lemma part_device_of s dev p last u desc hf : linear p -> dev_ok s dev = true ->
  dev_at s dev = part_device last u desc hf (Some (Z.lor BIO_FLAG_VISIBLE BIO_FLAG_WRITABLE)) ->
  hf = match p with MMC_PART_USER => MMC_BIO_FLAG_USER | MMC_PART_BOOT0 => MMC_BIO_FLAG_BOOT0 | _ => MMC_BIO_FLAG_BOOT1 end -> device_of s dev p.
Proof.
  intros Hp Hok Hd ->. split_and!; [done|done|by rewrite Hd|]. rewrite Hd. cbn [part_device set_ios_f set_flags_f flags].
  by destruct Hp as [->|[->| ->]].
Qed.

(** The card from reset to the registered devices, without [mmc_init]'s own
    checks. *)
Lemma setup_ok tuning stack_tap v s : let cfg := mm_cfg (bio_hw s) in let e := card_of (bio_hw s) in
  mm_hal (bio_hw s) = hal ->
  mc_mode cfg <> MMC_BUS_MODE_INVALID -> mc_mode cfg <> MMC_BUS_MODE_END ->
  (mc_mode cfg = MMC_BUS_MODE_HS200 -> CONFIG_MMC_CORE_HS200_TUNE = false) ->
  bus_width_value (mc_width cfg) = Some v -> emmc_width_ok (mc_width cfg) = true -> 0 <= mc_boot_mode cfg < 256 ->
  Forall uuid_wf [mc_boot0_uu cfg; mc_boot1_uu cfg; mc_rpmb_uu cfg; mc_user_uu cfg] -> bio_wf s -> n_bios s + 4 <= CONFIG_BIO_MAX_DEVS ->
  Z.of_nat busy_max < generic_cmd6_time_ms (bio_hw s) -> card_ok e ->
  exists s', mmc_setup mem mmc_ext_csd tuning tick poll_fuel delay_fuel bio_read_p bio_write_p stack_tap s = (PB_OK, s') /\
    bio_wf s' /\ n_bios s' = n_bios s + 4 /\ older_kept s s' /\
    (forall k d, card_devices cfg e !! k = Some d -> dev_at s' (n_bios s + Z.of_nat k) = d) /\
    emmc_ready (bio_hw s') /\ em_area (card_of (bio_hw s')) = em_area e /\
    forall a, a < mmc_ext_csd \/ mmc_ext_csd + 512 <= a -> em_ram (card_of (bio_hw s')) a = em_ram e a.
Proof.
  intros cfg e Hh Hm1 Hm2 Htune Hw Hwok Hmode Hu Hwf Hn H6 He. unfold mmc_setup. rewrite checked_run.
  destruct (identify_ok (bio_hw s) Hh (card_powered _ He)) as (w1 & E1 & [S1 C1] & Hrca). unfold on_mmc at 1, call_drv. rewrite E1. cbn [PB_OK Z.eqb].
  apply settings_eq in S1 as (Hh1 & Hcfg1 & H61 & _). unfold bind at 1, gets. cbn [bio_hw]. rewrite Hcfg1. fold cfg. fold e in C1.
  assert (Ht1 : in_tran w1).
  { split; rewrite ?C1; [|done|done|apply He]. split; [congruence|]. rewrite C1, Hrca. split; [done|by vm_compute]. }
  rewrite checked_run. destruct (set_mode_ok tuning stack_tap (mc_mode cfg) (mc_width cfg) v w1) as (w2 & E2 & [S2 Ht2 A2 R2 C2]); try done; [by rewrite H61|].
  unfold on_mmc at 1, call_drv. cbn [bio_hw bio_pool n_bios]. rewrite E2. cbn [PB_OK Z.eqb]. apply settings_eq in S2 as (_ & Hcfg2 & _).
  assert (Hbyte : forall f, 0 <= f -> f ∉ bus_fields -> csd_byte (card_of w2) f = csd_byte e f) by (intros f H0 Hf; rewrite C2, C1 by done; done).
  rewrite checked_run. destruct (read_times_ok w2 Ht2) as (w3 & E3 & Hr3 & Hcfg3 & L3 & A3 & R3); [by rewrite Hcfg2, Hcfg1| |].
  { destruct (card_times _ He) as [T6 Tsw]. unfold times_ok. rewrite !Hbyte; [done|..];
      first [by vm_compute|unfold bus_fields; set_unfold; intros [|[|[|[]]]]; done]. }
  unfold on_mmc at 1, call_drv. cbn [bio_hw bio_pool n_bios]. rewrite E3. cbn [PB_OK Z.eqb].
  destruct (register_parts_ok e (with_mmc w3 s)) as (s' & E' & W' & N' & B' & O' & D').
  - exists (em_ext_csd (card_of w2)). split; [exact L3|exact Hbyte].
  - exact He.
  - exact Hwf.
  - exact Hn.
  - cbn [with_mmc bio_hw]. by rewrite Hcfg3, Hcfg2, Hcfg1.
  - exists s'. cbn [with_mmc bio_hw] in *. rewrite Hcfg3, Hcfg2, Hcfg1 in D'. rewrite B'. split_and!; [exact E'|done|exact N'|exact O'|exact D'|done| |].
    + rewrite A3, A2, C1. done.
    + intros a Ha. rewrite R3, ram_write_out by (rewrite (tran_csd _ Ht2); lia). rewrite R2, C1. done.
Qed.

(** The devices after [mmc_init]. *)
Lemma mmc_init_ok tuning stack_tap cfg v s : let e := card_of (bio_hw s) in
  mc_mode cfg <> MMC_BUS_MODE_INVALID -> mc_mode cfg <> MMC_BUS_MODE_END ->
  (mc_mode cfg = MMC_BUS_MODE_HS200 -> CONFIG_MMC_CORE_HS200_TUNE = false) ->
  bus_width_value (mc_width cfg) = Some v -> emmc_width_ok (mc_width cfg) = true -> 0 <= mc_boot_mode cfg < 256 ->
  Forall uuid_wf [mc_boot0_uu cfg; mc_boot1_uu cfg; mc_rpmb_uu cfg; mc_user_uu cfg] -> bio_wf s -> n_bios s + 4 <= CONFIG_BIO_MAX_DEVS ->
  Z.of_nat busy_max < generic_cmd6_time_ms (bio_hw s) -> card_ok e ->
  let init := mmc_init mem mmc_ext_csd tuning tick poll_fuel delay_fuel bio_read_p bio_write_p stack_tap in
  exists s', init (Some hal) cfg s = (PB_OK, s') /\ bio_wf s' /\ n_bios s' = n_bios s + 4 /\ older_kept s s' /\
    (forall k d, card_devices cfg e !! k = Some d -> dev_at s' (n_bios s + Z.of_nat k) = d) /\
    device_of s' (n_bios s) MMC_PART_BOOT0 /\ device_of s' (n_bios s + 1) MMC_PART_BOOT1 /\ device_of s' (n_bios s + 3) MMC_PART_USER /\
    emmc_ready (bio_hw s') /\ em_area (card_of (bio_hw s')) = em_area e /\
    forall a, a < mmc_ext_csd \/ mmc_ext_csd + 512 <= a -> em_ram (card_of (bio_hw s')) a = em_ram e a.
Proof.
  intros e Hm1 Hm2 Htune Hw Hwok Hmode Hu Hwf Hn H6 He init.
  destruct (setup_ok tuning stack_tap v (with_mmc (set_hal_cfg hal cfg (bio_hw s)) s)) as (s' & E & W & N & O & D & R & A & M); try done.
  cbn [with_mmc n_bios] in N, D. exists s'. pose proof (proj1 Hwf) as H0.
  assert (Hok : forall k, (k < 4)%nat -> dev_ok s' (n_bios s + Z.of_nat k) = true).
  { intros k Hk. replace (n_bios s + Z.of_nat k) with (Z.of_nat (Z.to_nat (n_bios s) + k)) by lia. apply dev_ok_of_index; [done|lia]. }
  split_and!; [|done|done|exact O|exact D| | | |done|exact A|exact M].
  - unfold init, mmc_init. unfold bind. change (on_mmc (modify (set_hal_cfg hal cfg)) s) with (tt, with_mmc (set_hal_cfg hal cfg (bio_hw s)) s).
    destruct (mc_mode cfg); done.
  - rewrite <- (Z.add_0_r (n_bios s)). eapply part_device_of; [by right; left|exact (Hok 0%nat ltac:(lia))|exact (D 0%nat _ eq_refl)|done].
  - eapply part_device_of; [by right; right|exact (Hok 1%nat ltac:(lia))|exact (D 1%nat _ eq_refl)|done].
  - eapply part_device_of; [by left|exact (Hok 3%nat ltac:(lia))|exact (D 3%nat _ eq_refl)|done].
Qed.

(** Enumeration of a card: from any state of a working card and a
    controller that supports the width, [mmc_init] returns [PB_OK]; the two boot
    partitions, the RPMB and the user partition are registered in this order
    with the sizes the card reports and their names, UUIDs and flags, and the
    devices of the block partitions are wired to their hardware partition.
    Older devices, the contents of the card and memory outside of
    [mmc_ext_csd] are untouched, and the driver's invariant holds.  Without a
    controller the call is refused and nothing is done. *)
Theorem mmc_init_registers tuning stack_tap cfg v s : let e := card_of (bio_hw s) in
  mc_mode cfg <> MMC_BUS_MODE_INVALID -> mc_mode cfg <> MMC_BUS_MODE_END ->
  (mc_mode cfg = MMC_BUS_MODE_HS200 -> CONFIG_MMC_CORE_HS200_TUNE = false) ->
  bus_width_value (mc_width cfg) = Some v -> emmc_width_ok (mc_width cfg) = true -> 0 <= mc_boot_mode cfg < 256 ->
  Forall uuid_wf [mc_boot0_uu cfg; mc_boot1_uu cfg; mc_rpmb_uu cfg; mc_user_uu cfg] -> bio_wf s -> n_bios s + 4 <= CONFIG_BIO_MAX_DEVS ->
  Z.of_nat busy_max < generic_cmd6_time_ms (bio_hw s) -> card_ok e ->
  let init := mmc_init mem mmc_ext_csd tuning tick poll_fuel delay_fuel bio_read_p bio_write_p stack_tap in
  init None cfg s = (- PB_ERR_PARAM, s) /\
  exists s', init (Some hal) cfg s = (PB_OK, s') /\ bio_wf s' /\ n_bios s' = n_bios s + 4 /\ older_kept s s' /\
    (forall k d, card_devices cfg e !! k = Some d -> dev_at s' (n_bios s + Z.of_nat k) = d) /\
    device_of s' (n_bios s) MMC_PART_BOOT0 /\ device_of s' (n_bios s + 1) MMC_PART_BOOT1 /\ device_of s' (n_bios s + 3) MMC_PART_USER /\
    emmc_ready (bio_hw s') /\ em_area (card_of (bio_hw s')) = em_area e /\
    forall a, a < mmc_ext_csd \/ mmc_ext_csd + 512 <= a -> em_ram (card_of (bio_hw s')) a = em_ram e a.
Proof.
  intros e Hm1 Hm2 Htune Hw Hwok Hmode Hu Hwf Hn H6 He init. split; [unfold init, mmc_init; by destruct (mc_mode cfg)|]. by eapply mmc_init_ok.
Qed.
End working.

(** ** A card that answers *)

(** The first word of the response and the card afterwards; [busy_after] says
    for how many polls it is busy. *)
Definition card_respond (busy_after : Z -> nat) (e : emmc) (idx arg : Z) : option (Z * emmc) :=
  if idx =? MMC_CMD_SEND_OP_COND then
    match em_busy e with
    | O => Some (OCR_POWERUP, em_set_state MMC_STATE_READY e)
    | S k => Some (0, em_set_busy k e)
    end
  else if idx =? MMC_CMD_SEND_STATUS then
    match em_busy e with
    | O => Some (em_state e * 2 ^ 9 + 2 ^ 8, e)
    | S k => Some (MMC_STATE_PRG * 2 ^ 9 + 2 ^ 8, em_set_busy k e)
    end
  else match card_cmd e idx arg with
       | Some e' => Some (0, em_set_busy (busy_after idx) e')
       | None => None
       end.

Lemma card_cmd_idx e idx arg e' : card_cmd e idx arg = Some e' -> 0 <= idx < 64 /\ idx <> MMC_CMD_SEND_OP_COND /\ idx <> MMC_CMD_SEND_STATUS.
Proof.
  unfold card_cmd. repeat match goal with |- context [idx =? ?c] => destruct (Z.eqb_spec idx c) as [->|]; [by vm_compute|] end.
  by destruct (negb _).
Qed.

Lemma respond_cmd busy_after e idx arg e' : card_cmd e idx arg = Some e' ->
  card_respond busy_after e idx arg = Some (0, em_set_busy (busy_after idx) e').
Proof.
  intros E. destruct (card_cmd_idx _ _ _ _ E) as (_ & H1 & H2). unfold card_respond.
  by rewrite (proj2 (Z.eqb_neq _ _) H1), (proj2 (Z.eqb_neq _ _) H2), E.
Qed.

Lemma respond_op_cond busy_after e arg : exists r e', card_respond busy_after e MMC_CMD_SEND_OP_COND arg = Some (r, e') /\
  match em_busy e with
  | O => Z.land r OCR_POWERUP <> 0 /\ e' = em_set_state MMC_STATE_READY e
  | S k => Z.land r OCR_POWERUP = 0 /\ e' = em_set_busy k e
  end.
Proof. unfold card_respond. cbn [Z.eqb MMC_CMD_SEND_OP_COND]. destruct (em_busy e); do 2 eexists; (split; [done|]); by vm_compute. Qed.

Lemma status_ready st : 0 <= st < 16 -> let r := st * 2 ^ 9 + 2 ^ 8 in
  Z.land r STATUS_SWITCH_ERROR = 0 /\ Z.land r STATUS_READY_FOR_DATA <> 0 /\ MMC_GET_STATE r = st.
Proof.
  intros Hs. assert (Hin : In st (map Z.of_nat (seq 0 16))) by (replace st with (Z.of_nat (Z.to_nat st)) by lia; apply in_map, in_seq; lia).
  cbn in Hin. repeat (destruct Hin as [<-|Hin]; [by vm_compute|]). done.
Qed.

Lemma respond_status busy_after e arg : 0 <= em_state e < 16 -> exists r e', card_respond busy_after e MMC_CMD_SEND_STATUS arg = Some (r, e') /\
  match em_busy e with
  | O => Z.land r STATUS_SWITCH_ERROR = 0 /\ Z.land r STATUS_READY_FOR_DATA <> 0 /\ MMC_GET_STATE r = em_state e /\ e' = e
  | S k => Z.land r STATUS_SWITCH_ERROR = 0 /\ MMC_GET_STATE r = MMC_STATE_PRG /\ e' = em_set_busy k e
  end.
Proof.
  intros Hs. unfold card_respond. cbn [Z.eqb Pos.eqb MMC_CMD_SEND_STATUS MMC_CMD_SEND_OP_COND]. destruct (em_busy e) eqn:Eb; do 2 eexists; (split; [done|]).
  - destruct (status_ready (em_state e) Hs) as (H1 & H2 & H3). done.
  - by vm_compute.
Qed.

(** ** A small card *)

Module ToyCard.
(** The card and a clock. *)
Definition hw : Type := emmc * Z.
Definition tick : M hw Z := fun '(e, t) => (t, (e, u32 (t + 1000))).
Definition on_card {A} (f : emmc -> A * emmc) : M hw A := fun '(e, t) => let '(a, e') := f e in (a, (e', t)).

(** A card that is busy for one poll after every command that may take time. *)
Definition busy_after (idx : Z) : nat := if identifies idx then 0 else 1.
Definition send (idx arg : Z) (_ : Z) (_ : bool) : M hw (Z * list Z) := on_card (fun e =>
  match card_respond busy_after e idx arg with
  | Some (r, e') => ((PB_OK, [r]), e')
  | None => ((- PB_ERR_IO, []), e)
  end).

(** One block at a time. *)
Definition hal : mmc_hal hw := MmcHal hw (ret PB_OK) send (fun _ => ret PB_OK) (fun _ => ret PB_OK)
  (fun _ len buf => on_card (fun e => (PB_OK, em_set_dma (buf, len) e))) (fun _ _ _ => ret PB_OK) (fun _ _ _ => ret PB_OK) (fun _ => ret PB_OK) 512.

Definition mem (h : hw) : ram_t := em_ram h.1.

#[export] Instance laws : EmmcLaws hw hal mem tick 1.
Proof.
  refine {| card h := h.1; emmc_width_ok _ := true; dma_limit := 2 ^ 32 |}.
  - done.
  - by intros [e t].
  - intros h. by exists h.
  - intros h hz _. by exists h.
  - intros h width _. by exists h.
  - intros [e t] lba len buf _ _ _ _ _. by eexists.
  - intros h lba len buf. by exists h.
  - intros h lba len buf. by exists h.
  - intros [e t] idx arg rt want e' E. cbn [fst mh_send_cmd hal] in *. unfold send, on_card. rewrite (respond_cmd _ _ _ _ _ E).
    do 3 eexists. split; [done|]. split; [|done]. unfold busy_after. by destruct (identifies idx).
  - intros [e t] arg Hs _. cbn [fst mh_send_cmd hal] in *. unfold send, on_card. destruct (respond_op_cond busy_after e arg) as (r & e' & -> & H).
    by do 2 eexists.
  - intros [e t] arg _ Hs. cbn [fst mh_send_cmd hal] in *. unfold send, on_card. destruct (respond_status busy_after e arg Hs) as (r & e' & -> & H).
    do 3 eexists. split; [done|]. destruct (em_busy e) as [|k]; [by destruct H as (? & ? & ? & ->)|]. destruct H as (? & ? & ->). by split.
Defined.

Definition csd : list Z := <[168%nat := 1]> (<[199%nat := 2]> (<[212%nat := 4]> (<[226%nat := 1]> (<[248%nat := 2]> (zeros 512))))).
Definition areas (p : mmc_part) : list Z := zeros (match p with MMC_PART_USER => 2048 | _ => 1024 end).
Definition e0 : emmc := Emmc MMC_STATE_TRAN MMC_FIX_RCA csd areas (0, 0) (fun a => a mod 256) 0.
Definition cfg : mmc_device_config :=
  MmcDeviceConfig MMC_BUS_MODE_HS200 MMC_BUS_WIDTH_8BIT RamDisk.uuA RamDisk.uuB (zeros 16) (zeros 16) 0 0.
Definition vars : mmc_st hw := MmcSt (e0, 0) hal cfg 0 (MmcDeviceInfo 0 0 MMC_BUS_MODE_INVALID MMC_BUS_WIDTH_INVALID) MMC_FIX_RCA []
  0 MMC_PART_USER 2550 2550 2550.
#[export] Instance kconfig : MmcKconfig := {| CONFIG_MMC_CORE_HS200_TUNE := false; CONFIG_MMC_CORE_BOOT_PART_SZ_KiB := None |}.

(** A pool with BOOT0 and the user partition. *)
Definition fl : option Z := Some (Z.lor BIO_FLAG_VISIBLE BIO_FLAG_WRITABLE).
Definition pool : bio_state (mmc_st hw) := BioState
  (part_device 1 2 1 RamDisk.uuA name_boot0 MMC_BIO_FLAG_BOOT0 fl :: part_device 1 2 3 RamDisk.uuB name_user MMC_BIO_FLAG_USER fl :: replicate 30 null_device)
  2 vars.
Definition part (dev : Z) : mmc_part := if dev =? 0 then MMC_PART_BOOT0 else MMC_PART_USER.
Definition ops : list access := [Access false 1 0 1024 0x1000; Access true 0 1 512 0x1200; Access true 1 2 1024 0x1000].

Lemma vars_ready : emmc_ready vars.
Proof. split; [split; [split_and!|..]|..]; try (by vm_compute); by right. Qed.
End ToyCard.

#[local] Existing Instance ToyCard.laws.
#[local] Existing Instance ToyCard.kconfig.
#[local] Existing Instance armv8a.
#[local] Existing Instance test_defconfig.

Lemma emmc_refines_areas_witness : exists w',
  mmc_bio_accesses (tick := ToyCard.tick) 2 3 1025 ToyCard.ops ToyCard.pool = ([PB_OK; PB_OK; PB_OK], with_mmc w' ToyCard.pool) /\
  agrees (fold_left (fun ar x => access_spec ToyCard.part x ar) ToyCard.ops (ToyCard.areas, fun a => a mod 256)) w'.
Proof.
  apply (emmc_refines_areas (hal := ToyCard.hal) 2 3 (le_n 2) eq_refl eq_refl eq_refl 1025 ToyCard.part ToyCard.ops ToyCard.pool (ToyCard.areas, fun a => a mod 256)).
  - split; [exact ToyCard.vars_ready|done].
  - repeat (apply Forall_cons; split); [..|by apply Forall_nil];
      (split; [split_and!; [by (left + (right; left))|by vm_compute..]|split; [|lia]]; split_and!; by vm_compute).
Defined.

Lemma mmc_init_registers_witness : exists s',
  mmc_init ToyCard.mem 0x8000 0x9000 ToyCard.tick 2 3 1 2 0 (Some ToyCard.hal) ToyCard.cfg (bio_init ToyCard.vars) = (PB_OK, s') /\
  n_bios s' = 4 /\ last_lba (dev_at s' 0) = 255 /\ last_lba (dev_at s' 3) = 3 /\ emmc_ready (bio_hw s').
Proof.
  assert (Hr : 0 <= 0x8000 /\ 0x8000 + 512 <= dma_limit (EmmcLaws := ToyCard.laws)) by by vm_compute.
  destruct (mmc_init_registers (hal := ToyCard.hal) (mem := ToyCard.mem) 2 3 (le_n 2) eq_refl eq_refl eq_refl 0x8000 Hr 1 2 0x9000 0 ToyCard.cfg
    2 (bio_init ToyCard.vars)) as (_ & s' & E & _ & N & _ & D & _ & _ & _ & R & _).
  - done.
  - done.
  - done.
  - done.
  - done.
  - by vm_compute.
  - repeat (apply Forall_cons; split); [..|by apply Forall_nil]; (split; [done|by apply Forall_replicate]).
  - by apply bio_init_wf.
  - by vm_compute.
  - by vm_compute.
  - split; [by vm_compute|done| |by vm_compute..|split; [by vm_compute|right; by vm_compute]]. apply (bool_decide_unpack _). by vm_compute.
  - exists s'. pose proof (D 0%nat _ eq_refl) as D0. pose proof (D 3%nat _ eq_refl) as D3. change (n_bios _ + Z.of_nat 0) with 0 in D0.
    change (n_bios _ + Z.of_nat 3) with 3 in D3. split_and!; [exact E|exact N|by rewrite D0|by rewrite D3|exact R].
Defined.
