(* ===== verification/Usdhc.v ===== *)
(** * The i.MX USDHC controller

    [src/drivers/mmc/imx_usdhc.c]: the host controller behind [Mmc], at the
    level of its registers.  Registers are accessed through [Mmio]; the
    descriptor table [tbl], which the controller reads by itself, is an object
    of its own ([UsdhcHw]). *)

From stdpp Require Import functions.
From S2P Require Import Prelude Errors Ram Uuid Bio Ocotp Delay Mmc Emmc.
Local Open Scope c_scope.

(** ** Registers, [imx_usdhc_private.h] *)

Definition USDHC_BLK_ATT : Z := 0x0004.
Definition USDHC_CMD_ARG : Z := 0x0008.
Definition USDHC_CMD_RSP0 : Z := 0x0010.
Definition USDHC_CMD_RSP1 : Z := 0x0014.
Definition USDHC_CMD_RSP2 : Z := 0x0018.
Definition USDHC_CMD_RSP3 : Z := 0x001C.
Definition USDHC_PRES_STATE : Z := 0x0024.
Definition USDHC_PROT_CTRL : Z := 0x0028.
Definition USDHC_SYSCTRL : Z := 0x002c.
Definition USDHC_INT_STATUS : Z := 0x0030.
Definition USDHC_INT_STATUS_EN : Z := 0x0034.
Definition USDHC_WTMK_LVL : Z := 0x0044.
Definition USDHC_MIX_CTRL : Z := 0x0048.
Definition USDHC_ADMA_SYS_ADDR : Z := 0x0058.
Definition USDHC_DLL_CTRL : Z := 0x0060.
Definition USDHC_CLK_TUNE_CTRL_STATUS : Z := 0x0068.
Definition USDHC_VEND_SPEC : Z := 0x00C0.
Definition USDHC_MMC_BOOT : Z := 0x00C4.
Definition INTSIGEN : Z := 0x038.
Definition XFERTYPE : Z := 0x00c.
Definition PSTATE : Z := 0x024.

Definition BIT (n : Z) : Z := Z.shiftl 1 n.
Definition USDHC_SYSCTRL_RSTD : Z := BIT 26.
Definition USDHC_SYSCTRL_RSTC : Z := BIT 25.
Definition USDHC_SYSCTRL_RSTA : Z := BIT 24.
Definition USDHC_SYSCTRL_INITA : Z := BIT 27.
Definition USDHC_SYSCTRL_RSTT : Z := BIT 28.
Definition USDHC_SYSCTRL_CLOCK_MASK : Z := 0x0000fff0.
Definition USDHC_SYSCTRL_TIMEOUT_MASK : Z := 0x000f0000.
Definition USDHC_SYSCTRL_TIMEOUT (x : Z) : Z := Z.shiftl (Z.land 0xf x) 16.
Definition WMKLV_MASK : Z := Z.lor 0xff 0x00ff0000.
Definition VENDSPEC_CARD_CLKEN : Z := BIT 14.
Definition VENDSPEC_PER_CLKEN : Z := BIT 13.
Definition VENDSPEC_INIT : Z := fold_left Z.lor (map BIT [29; 14; 13; 12; 11; 3; 0]) 0.
Definition CMD_ERR : Z := Z.lor (Z.lor (BIT 19) (BIT 18)) (BIT 17).
Definition DATA_ERR : Z := Z.lor (Z.lor (Z.lor (BIT 28) (BIT 22)) (BIT 21)) (BIT 20).
Definition INTSTATEN_DTOE : Z := BIT 20.
Definition INTSTATEN_CTOE : Z := BIT 16.
Definition INTSTATEN_TC : Z := BIT 1.
Definition INTSTATEN_CC : Z := BIT 0.
Definition EMMC_INTSTATEN_BITS : Z := fold_left Z.lor (map BIT [0; 1; 3; 4; 5; 8; 16; 17; 18; 19; 20; 21; 22]) 0.
Definition XFERTYPE_CMD (x : Z) : Z := Z.shiftl (Z.land x 0x3f) 24.
Definition XFERTYPE_CMDTYP_ABORT : Z := Z.shiftl 3 22.
Definition XFERTYPE_DPSEL : Z := BIT 21.
Definition XFERTYPE_CICEN : Z := BIT 20.
Definition XFERTYPE_CCCEN : Z := BIT 19.
Definition XFERTYPE_RSPTYP_136 : Z := BIT 16.
Definition XFERTYPE_RSPTYP_48 : Z := BIT 17.
Definition XFERTYPE_RSPTYP_48_BUSY : Z := Z.lor (BIT 16) (BIT 17).
Definition MIXCTRL_MSBSEL : Z := BIT 5.
Definition MIXCTRL_DTDSEL : Z := BIT 4.
Definition MIXCTRL_DDREN : Z := BIT 3.
Definition MIXCTRL_AC12EN : Z := BIT 2.
Definition MIXCTRL_BCEN : Z := BIT 1.
Definition MIXCTRL_DMAEN : Z := BIT 0.
Definition MIXCTRL_DATMASK : Z := 0x7f.
Definition PSTATE_DLA : Z := BIT 2.
Definition PSTATE_CDIHB : Z := BIT 1.
Definition PSTATE_CIHB : Z := BIT 0.
Definition PROTCTRL_LE : Z := BIT 5.
Definition PROTCTRL_WIDTH_4 : Z := BIT 1.
Definition PROTCTRL_WIDTH_8 : Z := BIT 2.
Definition PROTCTRL_WIDTH_MASK : Z := 0x6.
Definition ADMA2_TRAN_VALID : Z := 0x21.
Definition ADMA2_END : Z := 0x2.
Definition ADMA2_MAX_BYTES_PER_DESC : Z := 65024.
Definition MMC_RSP_PRESENT : Z := Z.shiftl 1 0.
Definition MMC_RSP_136 : Z := Z.shiftl 1 1.
Definition MMC_RSP_CRC : Z := Z.shiftl 1 2.
Definition MMC_RSP_BUSY : Z := Z.shiftl 1 3.
Definition MMC_CMD_STOP_TRANSMISSION : Z := 12.
Definition USDHC_CMD_RETRIES : nat := 1000.

(** ** State *)

Record usdhc_adma2_desc := AdmaDesc { ad_cmd : Z; ad_len : Z; ad_addr : Z }.

(** The table in memory: [tbl_put i d] is [tbl[i] = d], [tbl_addr] its
    address. *)
Class UsdhcHw (HW : Type) := {
  usdhc_mmio :: Mmio HW;
  tbl_addr : Z;
  tbl_put : Z -> usdhc_adma2_desc -> M HW unit
}.

Record imx_usdhc_config := UsdhcConfig { uc_base : Z; uc_delay_tap : Z; uc_mmc_config : mmc_device_config }.

(** The static variable [bus_ddr_enable], next to the hardware. *)
Record usdhc_st (HW : Type) := UsdhcSt { u_hw : HW; bus_ddr_enable : bool }.
Arguments UsdhcSt {HW}. Arguments u_hw {HW}. Arguments bus_ddr_enable {HW}.

Section usdhc.
Context {arch : Arch} {HW : Type} `{!UsdhcHw HW}.
(** [poll_fuel]: how many polls of a register the model follows; a loop that
    does not end within them is left with [-PB_ERR_TIMEOUT]. *)
Context (plat_get_us_tick : M HW Z) (poll_fuel delay_fuel : nat).
(** The static variables that [imx_usdhc_init] sets before it hands out the
    functions below, and nothing changes afterwards. *)
Context (usdhc : imx_usdhc_config) (input_clock_hz : Z).
Abbreviation U := (M (usdhc_st HW)).

Definition on_uhw {A} (m : M HW A) : U A :=
  fun w => let '(a, h) := m (u_hw w) in (a, UsdhcSt h (bus_ddr_enable w)).

(** Accesses at [usdhc->base + off] *)
Definition rd (off : Z) : U Z := on_uhw (mmio_read_32 (uc_base usdhc + off)).
Definition wr (off v : Z) : U unit := on_uhw (mmio_write_32 (uc_base usdhc + off) v).
Definition mmio_clrsetbits_32 (off clear set : Z) : U unit :=
  v <- rd off ;; wr off (Z.lor (Z.land v (Z.ldiff 0xffffffff clear)) set).
Definition mmio_clrbits_32 (off clear : Z) : U unit := v <- rd off ;; wr off (Z.land v (Z.ldiff 0xffffffff clear)).
Definition mmio_setbits_32 (off set : Z) : U unit := v <- rd off ;; wr off (Z.lor v set).
Definition delay_us (us : Z) : U unit := on_uhw (pb_delay_us plat_get_us_tick delay_fuel us) ;;; ret tt.

(** [do v = read(off); while (!done(v))]; the last value, [None] if it was
    never right. *)
Fixpoint poll_loop (fuel : nat) (off : Z) (done : Z -> bool) : U (option Z) :=
  match fuel with
  | O => ret None
  | S fuel => v <- rd off ;; if done v then ret (Some v) else poll_loop fuel off done
  end.
Definition poll (off : Z) (done : Z -> bool) : U (option Z) := poll_loop poll_fuel off done.

(** A wait that is followed by [k]. *)
Definition wait_for (off : Z) (done : Z -> bool) (k : U Z) : U Z :=
  r <- poll off done ;; match r with None => ret (- PB_ERR_TIMEOUT) | Some _ => k end.

Definition clear (mask v : Z) : bool := Z.land v mask =? 0.
Definition set (mask v : Z) : bool := negb (Z.land v mask =? 0).

(** ** Clock *)

Fixpoint pre_div_loop (fuel : nat) (input clk_hz pre_div : Z) : Z :=
  match fuel with
  | O => pre_div
  | S fuel => if (clk_hz <? input / (16 * pre_div)) && (pre_div <? 256) then pre_div_loop fuel input clk_hz (pre_div * 2) else pre_div
  end.
Fixpoint div_loop (fuel : nat) (input clk_hz div : Z) : Z :=
  match fuel with
  | O => div
  | S fuel => if (clk_hz <? input / div) && (div <? 16) then div_loop fuel input clk_hz (div + 1) else div
  end.
(** [pre_div] doubles at most eight times, [div] counts to 16. *)
Definition clock_divs (input clk_hz : Z) : Z * Z := (pre_div_loop 9 input clk_hz 1, div_loop 16 input clk_hz 1).
Definition clk_reg (divs : Z * Z) : Z := u16 (Z.lor (Z.shiftl (Z.shiftr divs.1 1) 8) (Z.shiftl (divs.2 - 1) 4)).

Definition imx_usdhc_set_bus_clock (clk_hz : Z) : U Z :=
  w <- get ;;
  let clk_hz := if bus_ddr_enable w then u32 (clk_hz * 2) else clk_hz in
  if clk_hz <=? 0 then ret (- PB_ERR_PARAM) else
  mmio_clrbits_32 USDHC_VEND_SPEC VENDSPEC_CARD_CLKEN ;;;
  mmio_clrsetbits_32 USDHC_SYSCTRL USDHC_SYSCTRL_CLOCK_MASK (clk_reg (clock_divs input_clock_hz clk_hz)) ;;;
  wait_for USDHC_PRES_STATE (set (Z.shiftl 1 3)) (
  mmio_setbits_32 USDHC_VEND_SPEC (Z.lor VENDSPEC_PER_CLKEN VENDSPEC_CARD_CLKEN) ;;;
  delay_us 100 ;;;
  ret PB_OK).

(** [((tap & 0x7f) << 9) | BIT(8)] *)
Definition dll_tap (tap : Z) : Z := Z.lor (Z.shiftl (Z.land tap 0x7f) 9) (BIT 8).

Definition imx_usdhc_setup : U Z :=
  mmio_setbits_32 USDHC_SYSCTRL (Z.lor USDHC_SYSCTRL_RSTA USDHC_SYSCTRL_RSTT) ;;;
  wait_for USDHC_SYSCTRL (clear USDHC_SYSCTRL_RSTA) (
  mmio_setbits_32 USDHC_SYSCTRL USDHC_SYSCTRL_INITA ;;;
  wait_for USDHC_SYSCTRL (clear USDHC_SYSCTRL_INITA) (
  wr USDHC_MMC_BOOT 0 ;;;
  wr USDHC_MIX_CTRL 0 ;;;
  wr USDHC_CLK_TUNE_CTRL_STATUS 0 ;;;
  wr USDHC_VEND_SPEC VENDSPEC_INIT ;;;
  wr USDHC_DLL_CTRL 0 ;;;
  wr USDHC_INT_STATUS_EN EMMC_INTSTATEN_BITS ;;;
  wr USDHC_PROT_CTRL (Z.lor (Z.lor PROTCTRL_LE (Z.shiftl 2 8)) (Z.shiftl 1 27)) ;;;
  mmio_clrsetbits_32 USDHC_SYSCTRL USDHC_SYSCTRL_TIMEOUT_MASK (USDHC_SYSCTRL_TIMEOUT 15) ;;;
  mmio_clrsetbits_32 USDHC_WTMK_LVL WMKLV_MASK (Z.lor 16 (Z.shiftl 16 16)) ;;;
  wr USDHC_DLL_CTRL (dll_tap (uc_delay_tap usdhc)) ;;;
  ret PB_OK)).

Definition imx_usdhc_set_delay_tap (tap : Z) : U Z := wr USDHC_DLL_CTRL (dll_tap tap) ;;; ret PB_OK.

(** ** Commands *)

(** What the switch over the command sets: the command type, MIX_CTRL, whether
    several blocks are moved, and whether data is. *)
Definition cmd_kind (idx : Z) : Z * Z * bool * bool :=
  if idx =? MMC_CMD_STOP_TRANSMISSION then (XFERTYPE_CMDTYP_ABORT, 0, false, false)
  else if idx =? MMC_CMD_READ_MULTIPLE_BLOCK then (0, MIXCTRL_DTDSEL, true, true)
  else if (idx =? MMC_CMD_SEND_TUNING_BLOCK_HS200) || (idx =? MMC_CMD_READ_SINGLE_BLOCK) || (idx =? MMC_CMD_SEND_EXT_CSD)
  then (0, MIXCTRL_DTDSEL, false, true)
  else if idx =? MMC_CMD_WRITE_MULTIPLE_BLOCK then (0, 0, true, true)
  else if idx =? MMC_CMD_WRITE_SINGLE_BLOCK then (0, 0, false, true)
  else (0, 0, false, false).

(** The values for MIX_CTRL and XFERTYPE. *)
Definition mix_ctrl (idx : Z) (ddr : bool) : Z :=
  let '(_, mixctl, multiple, data) := cmd_kind idx in
  let mixctl := if multiple then Z.lor (Z.lor (Z.lor mixctl MIXCTRL_MSBSEL) MIXCTRL_BCEN) MIXCTRL_AC12EN else mixctl in
  if data then let mixctl := Z.lor mixctl MIXCTRL_DMAEN in if ddr then Z.lor mixctl MIXCTRL_DDREN else mixctl else mixctl.
Definition xfer_type (idx resp_type : Z) : Z :=
  let '(xfertype, _, _, data) := cmd_kind idx in
  let xfertype := if data then Z.lor xfertype XFERTYPE_DPSEL else xfertype in
  let xfertype := if set MMC_RSP_PRESENT resp_type && negb (resp_type =? MMC_RSP_R2) then Z.lor xfertype XFERTYPE_RSPTYP_48
    else if set MMC_RSP_136 resp_type then Z.lor xfertype XFERTYPE_RSPTYP_136
    else if set MMC_RSP_BUSY resp_type then Z.lor xfertype XFERTYPE_RSPTYP_48_BUSY else xfertype in
  let xfertype := if set MMC_RSP_BUSY resp_type then Z.lor xfertype XFERTYPE_CICEN else xfertype in
  let xfertype := if set MMC_RSP_CRC resp_type then Z.lor xfertype XFERTYPE_CCCEN else xfertype in
  Z.lor xfertype (XFERTYPE_CMD idx).

(** The wait for the end of the command, with the tries that are left; whether
    the tries are used up, and the last status. *)
Fixpoint cmd_wait (tries : nat) (first : bool) : U (bool * Z) :=
  state <- rd USDHC_INT_STATUS ;;
  (if first then ret tt else delay_us 1) ;;;
  if set (Z.lor INTSTATEN_CC INTSTATEN_CTOE) state then ret (false, state) else
  match tries with
  | O => ret (true, state)
  | S tries => cmd_wait tries false
  end.

(** The response registers, if there is a place for them. *)
Definition read_response (resp_type : Z) : U (list Z) :=
  if set MMC_RSP_136 resp_type then
    cmdrsp3 <- rd USDHC_CMD_RSP3 ;;
    cmdrsp2 <- rd USDHC_CMD_RSP2 ;;
    cmdrsp1 <- rd USDHC_CMD_RSP1 ;;
    cmdrsp0 <- rd USDHC_CMD_RSP0 ;;
    let word a b := Z.lor (u32 (Z.shiftl a 8)) (Z.shiftr b 24) in
    ret [u32 (Z.shiftl cmdrsp0 8); word cmdrsp1 cmdrsp0; word cmdrsp2 cmdrsp1; word cmdrsp3 cmdrsp2]
  else r <- rd USDHC_CMD_RSP0 ;; ret [r].

(** The wait for the end of the transfer: [-PB_ERR_IO] on an error flag. *)
Definition data_wait : U Z :=
  let done state := set (Z.lor INTSTATEN_DTOE DATA_ERR) state || (Z.land state INTSTATEN_TC =? INTSTATEN_TC) in
  r <- poll USDHC_INT_STATUS done ;;
  match r with
  | None => ret (- PB_ERR_TIMEOUT)
  | Some state => if set (Z.lor INTSTATEN_DTOE DATA_ERR) state then ret (- PB_ERR_IO) else ret PB_OK
  end.

(** From the label [out]. *)
Definition cmd_out (data : bool) (err : Z) : U Z :=
  let finish := wr USDHC_INT_STATUS 0xffffffff ;;; ret err in
  if err =? 0 then finish else
  mmio_setbits_32 USDHC_SYSCTRL USDHC_SYSCTRL_RSTC ;;;
  wait_for USDHC_SYSCTRL (clear USDHC_SYSCTRL_RSTC) (
  if data then
    mmio_setbits_32 USDHC_SYSCTRL USDHC_SYSCTRL_RSTD ;;;
    wait_for USDHC_SYSCTRL (clear USDHC_SYSCTRL_RSTD) finish
  else finish).

(** After the command was started. *)
Definition cmd_finish (resp_type : Z) (want data : bool) : U (Z * list Z) :=
  let* (used_up, state) := cmd_wait (USDHC_CMD_RETRIES - 1) true in
  if set (Z.lor INTSTATEN_CTOE CMD_ERR) state || used_up then
    rc <- cmd_out data (if used_up then - PB_ERR_TIMEOUT else - PB_ERR_IO) ;; ret (rc, [])
  else
    result <- (if want then read_response resp_type else ret []) ;;
    err <- (if data then data_wait else ret PB_OK) ;;
    rc <- cmd_out data err ;;
    ret (rc, result).

Definition imx_usdhc_send_cmd (idx arg resp_type : Z) (want : bool) : U (Z * list Z) :=
  let '(_, _, _, data) := cmd_kind idx in
  wr USDHC_INT_STATUS 0xffffffff ;;;
  r1 <- poll PSTATE (clear (Z.lor PSTATE_CDIHB PSTATE_CIHB)) ;;
  r2 <- poll PSTATE (clear PSTATE_DLA) ;;
  match r1, r2 with
  | Some _, Some _ =>
      wr INTSIGEN 0 ;;;
      delay_us 1000 ;;;
      w <- get ;;
      mmio_clrsetbits_32 USDHC_MIX_CTRL MIXCTRL_DATMASK (mix_ctrl idx (bus_ddr_enable w)) ;;;
      wr USDHC_CMD_ARG arg ;;;
      wr XFERTYPE (xfer_type idx resp_type) ;;;
      cmd_finish resp_type want data
  | _, _ => ret (- PB_ERR_TIMEOUT, [])
  end.

Definition set_ddr (b : bool) : U unit := modify (fun w => UsdhcSt (u_hw w) b).

Definition imx_usdhc_set_bus_width (width : mmc_bus_width) : U Z :=
  set_ddr false ;;;
  match width with
  | MMC_BUS_WIDTH_4BIT => mmio_clrsetbits_32 USDHC_PROT_CTRL PROTCTRL_WIDTH_MASK PROTCTRL_WIDTH_4 ;;; ret 0
  | MMC_BUS_WIDTH_4BIT_DDR => mmio_clrsetbits_32 USDHC_PROT_CTRL PROTCTRL_WIDTH_MASK PROTCTRL_WIDTH_4 ;;; set_ddr true ;;; ret 0
  | MMC_BUS_WIDTH_8BIT => mmio_clrsetbits_32 USDHC_PROT_CTRL PROTCTRL_WIDTH_MASK PROTCTRL_WIDTH_8 ;;; ret 0
  | MMC_BUS_WIDTH_8BIT_DDR => mmio_clrsetbits_32 USDHC_PROT_CTRL PROTCTRL_WIDTH_MASK PROTCTRL_WIDTH_8 ;;; set_ddr true ;;; ret 0
  | _ => ret (-1)
  end.

(** ** Transfers *)

(** The descriptors of a buffer, from [bytes] on; one more than the bytes hold
    is always enough. *)
Fixpoint descriptors_loop (fuel : nat) (buf_ptr bytes : Z) : list usdhc_adma2_desc :=
  match fuel with
  | O => []
  | S fuel =>
      let chunk_length := if ADMA2_MAX_BYTES_PER_DESC <? bytes then ADMA2_MAX_BYTES_PER_DESC else bytes in
      let bytes := usz (bytes - chunk_length) in
      let cmd := if bytes =? 0 then Z.lor ADMA2_TRAN_VALID ADMA2_END else ADMA2_TRAN_VALID in
      AdmaDesc cmd (u16 chunk_length) (u32 buf_ptr) ::
      (if bytes =? 0 then [] else descriptors_loop fuel (usz (buf_ptr + chunk_length)) bytes)
  end.
Definition adma_descriptors (buf length : Z) : list usdhc_adma2_desc :=
  descriptors_loop (S (Z.to_nat (length / ADMA2_MAX_BYTES_PER_DESC))) buf length.

Fixpoint put_descriptors (i : Z) (ds : list usdhc_adma2_desc) : U unit :=
  match ds with
  | [] => ret tt
  | d :: ds => on_uhw (tbl_put i d) ;;; put_descriptors (i + 1) ds
  end.

(** The value for BLK_ATT: block size and count. *)
Definition blk_att (length : Z) : Z :=
  if 512 <? length then u32 (Z.lor 0x200 (Z.shiftl (length / 512) 16)) else Z.lor (Z.shiftl 1 16) (u16 length).

(** The maintenance of the cache has no effect here. *)
Definition imx_usdhc_prepare (lba length buf : Z) : U Z :=
  if 0xffff <? length / 512 then ret (- PB_ERR_IO) else
  put_descriptors 0 (adma_descriptors buf length) ;;;
  wr USDHC_ADMA_SYS_ADDR (u32 tbl_addr) ;;;
  wr USDHC_BLK_ATT (blk_att length) ;;;
  ret 0.

Definition imx_usdhc_read (lba length buf : Z) : U Z := ret 0.
Definition imx_usdhc_write (lba length buf : Z) : U Z := ret 0.

Definition imx_usdhc_hal : mmc_hal (usdhc_st HW) := {|
  mh_init := imx_usdhc_setup;
  mh_send_cmd := imx_usdhc_send_cmd;
  mh_set_bus_clock := imx_usdhc_set_bus_clock;
  mh_set_bus_width := imx_usdhc_set_bus_width;
  mh_prepare := imx_usdhc_prepare;
  mh_read := imx_usdhc_read;
  mh_write := imx_usdhc_write;
  mh_set_delay_tap := imx_usdhc_set_delay_tap;
  mh_max_chunk_bytes := 30 * 1024 * 1024
|}.
End usdhc.

Section init.
Context {arch : Arch} {kc : Kconfig} {mkc : MmcKconfig} {HW : Type} `{!UsdhcHw HW}.
Context (mem : HW -> ram_t) (mmc_ext_csd mmc_tuning_rsp : Z) (plat_get_us_tick : M HW Z) (poll_fuel delay_fuel : nat) (bio_read_p bio_write_p : fptr).

Definition imx_usdhc_init (stack_tap : Z) (cfg : imx_usdhc_config) (clk_hz : Z) : M (bio_state (mmc_st (usdhc_st HW))) Z :=
  mmc_init (fun w => mem (u_hw w)) mmc_ext_csd mmc_tuning_rsp (on_uhw plat_get_us_tick) poll_fuel delay_fuel bio_read_p bio_write_p stack_tap
    (Some (imx_usdhc_hal plat_get_us_tick poll_fuel delay_fuel cfg clk_hz)) (uc_mmc_config cfg).
End init.

(** ** The descriptor table *)

(** The descriptors cover [len] bytes from [buf] on, in order, and only the
    last one ends the list. *)
Fixpoint tiled (buf len : Z) (ds : list usdhc_adma2_desc) : Prop :=
  match ds with
  | [] => False
  | [d] => d = AdmaDesc (Z.lor ADMA2_TRAN_VALID ADMA2_END) len buf /\ 0 < len <= ADMA2_MAX_BYTES_PER_DESC
  | d :: ds => d = AdmaDesc ADMA2_TRAN_VALID (ad_len d) buf /\ 0 < ad_len d <= ADMA2_MAX_BYTES_PER_DESC /\
      tiled (buf + ad_len d) (len - ad_len d) ds
  end.

Definition desc_count (len : Z) : Z := (len - 1) / ADMA2_MAX_BYTES_PER_DESC + 1.

Section descriptors.
Context {arch : Arch}.

Lemma descriptors_tile fuel : forall buf len, 0 <= buf -> 0 < len -> buf + len <= 2 ^ 32 -> (len - 1) / ADMA2_MAX_BYTES_PER_DESC < Z.of_nat fuel ->
  tiled buf len (descriptors_loop fuel buf len) /\ Z.of_nat (length (descriptors_loop fuel buf len)) = desc_count len.
Proof.
  induction fuel as [|fuel IH]; intros buf len Hb Hl Hbl Hf; [unfold ADMA2_MAX_BYTES_PER_DESC in Hf; Z.to_euclidean_division_equations; lia|].
  pose proof ptr_bits_ge32. cbn [descriptors_loop]. unfold desc_count, ADMA2_MAX_BYTES_PER_DESC in *. destruct (Z.ltb_spec 65024 len) as [Hgt|Hle].
  - rewrite (usz_small (len - 65024)), (usz_small (buf + 65024)), (u32_small buf) by lia. rewrite (proj2 (Z.eqb_neq (len - 65024) 0)) by lia.
    destruct (IH (buf + 65024) (len - 65024)) as [Ht Hc]; [lia..| |]. { replace (len - 65024 - 1) with (len - 1 + (-1) * 65024) by lia. rewrite Z.div_add by lia. lia. }
    split.
    + cbn [tiled]. destruct (descriptors_loop fuel (buf + 65024) (len - 65024)); [done|]. change (u16 65024) with 65024. split; [done|]. split; [by vm_compute|exact Ht].
    + cbn [length]. rewrite Nat2Z.inj_succ, Hc. replace (len - 65024 - 1) with (len - 1 + (-1) * 65024) by lia. rewrite Z.div_add by lia. lia.
  - rewrite Z.sub_diag, (usz_small 0), (u32_small buf), Z.eqb_refl by lia. unfold u16. rewrite Z.mod_small by lia. split; [done|].
    cbn [length]. rewrite Z.div_small by lia. done.
Qed.

Lemma adma_descriptors_tile buf len : 0 <= buf -> 0 < len -> buf + len <= 2 ^ 32 ->
  tiled buf len (adma_descriptors buf len) /\ Z.of_nat (length (adma_descriptors buf len)) = desc_count len.
Proof.
  intros Hb Hl Hbl. apply descriptors_tile; [done..|]. unfold ADMA2_MAX_BYTES_PER_DESC.
  assert (0 <= (len - 1) / 65024 <= len / 65024) by (split; [apply Z.div_pos|apply Z.div_le_mono]; lia). lia.
Qed.

(** The descriptor table of a transfer: for every buffer below 4 GiB and
    every length, the descriptors cover exactly the buffer, in order, each
    with at most 65024 bytes, and only the last one carries the end flag.  A
    transfer within [max_chunk_bytes] needs at most 484 of the 512 entries of
    the table; the check in [imx_usdhc_prepare] on its own would let 517
    through. *)
Theorem usdhc_descriptors_fit buf len : 0 <= buf -> 0 < len -> buf + len <= 2 ^ 32 ->
  let ds := adma_descriptors buf len in
  tiled buf len ds /\ (len <= 30 * 1024 * 1024 -> (length ds <= 484)%nat) /\ (len / 512 <= 0xffff -> (length ds <= 517)%nat) /\
  (len = 0xffff * 512 -> length ds = 517%nat).
Proof.
  intros Hb Hl Hbl ds. destruct (adma_descriptors_tile buf len Hb Hl Hbl) as [Ht Hc]. fold ds in Ht, Hc. split; [exact Ht|].
  unfold desc_count, ADMA2_MAX_BYTES_PER_DESC in Hc. split_and!; intros H; Z.to_euclidean_division_equations; lia.
Qed.
End descriptors.

(** ** The bus clock *)

Lemma pre_div_loop_ok input clk fuel : forall p k, p = 2 ^ k -> 0 <= k <= 8 -> 8 - k < Z.of_nat fuel ->
  let q := pre_div_loop fuel input clk p in
  (exists j, q = 2 ^ j /\ k <= j <= 8) /\ (q = 256 \/ input / (16 * q) <= clk) /\ (q = p \/ clk < input / (16 * (q / 2))).
Proof.
  induction fuel as [|fuel IH]; intros p k Hp Hk Hf; [lia|]. cbn [pre_div_loop].
  destruct (Z.ltb_spec clk (input / (16 * p))) as [Hlt|Hge]; cbn [andb]; [|split_and!; [by exists k; split; [done|lia]|by right|by left]].
  destruct (Z.ltb_spec p 256) as [Hp2|Hp2].
  - assert (Hk8 : k < 8) by (destruct (Z.eq_dec k 8) as [->|]; [subst p; lia|lia]).
    destruct (IH (p * 2) (k + 1)) as ((j & Hq & Hj) & Hle & Hlast); [subst p; rewrite Z.pow_add_r by lia; lia|lia|lia|].
    split_and!; [exists j; split; [done|lia]|done|]. right. destruct Hlast as [->|]; [|done]. by rewrite Z.div_mul by lia.
  - split_and!; [by exists k; split; [done|lia]| |by left]. left. subst p. assert (2 ^ k <= 2 ^ 8) by (apply Z.pow_le_mono_r; lia). lia.
Qed.

Lemma div_loop_ok input clk fuel : forall d, 1 <= d <= 16 -> 16 - d < Z.of_nat fuel ->
  let q := div_loop fuel input clk d in d <= q <= 16 /\ (q = 16 \/ input / q <= clk).
Proof.
  induction fuel as [|fuel IH]; intros d Hd Hf; [lia|]. cbn [div_loop].
  destruct (Z.ltb_spec clk (input / d)); cbn [andb]; [|split; [lia|by right]].
  destruct (Z.ltb_spec d 16); [|split; [lia|left; lia]]. destruct (IH (d + 1)) as [? ?]; [lia..|]. split; [lia|done].
Qed.

Lemma clk_reg_val p d : 1 <= p <= 256 -> 1 <= d <= 16 -> clk_reg (p, d) = p / 2 * 2 ^ 8 + (d - 1) * 2 ^ 4.
Proof.
  intros Hp Hd. unfold clk_reg, u16. cbn [fst snd]. assert (0 <= p / 2 <= 128) by (Z.to_euclidean_division_equations; lia).
  rewrite (Z.shiftr_div_pow2 p 1), (Z.shiftl_mul_pow2 (d - 1)) by lia. change (2 ^ 1) with 2. rewrite lor_shiftl_low by lia. apply Z.mod_small. lia.
Qed.

(** The bus never runs faster than asked: for every input clock and every
    rate that the dividers can reach, the dividers [imx_usdhc_set_bus_clock]
    computes give at most that rate, are in the range of the register, and are
    encoded as it wants them, the prescaler halved in bits 8 to 15 and the
    divisor less one in bits 4 to 7. *)
Theorem usdhc_clock_limit input clk : 0 <= input -> 0 < clk -> input / (16 * 256) <= clk ->
  let '(p, d) := clock_divs input clk in
  input / (p * d) <= clk /\ (exists j, p = 2 ^ j /\ 0 <= j <= 8) /\ 1 <= d <= 16 /\
  Z.shiftr (clk_reg (p, d)) 8 = p / 2 /\ Z.land (Z.shiftr (clk_reg (p, d)) 4) 0xf = d - 1.
Proof.
  intros Hi Hc Hreach. unfold clock_divs. destruct (pre_div_loop_ok input clk 9 1 0) as ((j & Hp & Hj) & Hle & Hlast); [done|lia|lia|].
  destruct (div_loop_ok input clk 16 1) as (Hd & Hdle); [lia|lia|]. set (p := pre_div_loop 9 input clk 1) in *. set (d := div_loop 16 input clk 1) in *.
  assert (Hp1 : 1 <= p <= 256) by (rewrite Hp; split; [change 1 with (2 ^ 0) at 1|change 256 with (2 ^ 8)]; apply Z.pow_le_mono_r; lia).
  assert (Hslow : input / (16 * p) <= clk) by (destruct Hle as [->|]; done).
  split_and!; [|by exists j|lia|lia|..].
  - destruct Hdle as [->|Hdle]; [by rewrite Z.mul_comm|]. destruct Hlast as [->|Hlast]; [by rewrite Z.mul_1_l|].
    apply Z.le_trans with (input / d); [|done]. apply Z.div_le_compat_l; nia.
  - rewrite clk_reg_val, Z.shiftr_div_pow2 by lia. Z.to_euclidean_division_equations. lia.
  - rewrite clk_reg_val by lia. change 0xf with (Z.ones 4). rewrite Z.land_ones, Z.shiftr_div_pow2 by lia. Z.to_euclidean_division_equations. lia.
Qed.

(** ** Witnesses *)

Lemma usdhc_descriptors_fit_witness :
  tiled 0x80000000 70000 (@adma_descriptors armv8a 0x80000000 70000) /\ length (@adma_descriptors armv8a 0x80000000 70000) = 2%nat.
Proof. split; [|done]. apply (@usdhc_descriptors_fit armv8a 0x80000000 70000); lia. Defined.

Lemma usdhc_clock_limit_witness : clock_divs 200000000 400000 = (32, 16) /\ 200000000 / (32 * 16) <= 400000.
Proof. split; [done|]. refine (proj1 (usdhc_clock_limit 200000000 400000 _ _ _)); by vm_compute. Defined.
