(* ===== verification/UsdhcCard.v ===== *)
(** * Card, controller and driver together

    A model of the USDHC's registers with a card behind it ([ctl]): what the
    reference manual says of the registers that [Usdhc] uses.  On it the
    register level driver keeps what [Emmc] expects of a controller
    ([EmmcLaws]), so that enumeration and block accesses hold for the whole
    stack down to the registers. *)

From stdpp Require Import functions.
From S2P Require Import Prelude Errors Ram Uuid Bio Ocotp Delay Mmc Emmc Usdhc.
Local Open Scope c_scope.

(** ** The controller *)

(** Something the controller is about to do: after [ev_polls] more polls of the
    interrupt status it raises [ev_bits]; the response and the card, with the
    memory of the system, are then [ev_rsp] and [ev_card]. *)
Record event := Event { ev_polls : nat; ev_bits : Z; ev_rsp : Z; ev_card : emmc }.

(** The card, the registers that only store, the interrupt status, what is
    still to happen, the response, the descriptor table and the clock. *)
Record ctl := Ctl {
  c_card : emmc;
  c_reg : Z -> Z;
  c_int : Z;
  c_due : list event;
  c_rsp : Z;
  c_tbl : Z -> usdhc_adma2_desc;
  c_time : Z
}.

(** The descriptor at an address: the table is at [at], an entry has eight
    bytes, and there is no valid descriptor anywhere else. *)
Definition fetch (at_ : Z) (tbl : Z -> usdhc_adma2_desc) (addr : Z) : usdhc_adma2_desc :=
  if (at_ <=? addr) && ((addr - at_) mod 8 =? 0) then tbl ((addr - at_) / 8) else AdmaDesc 0 0 0.

(** A valid transfer descriptor. *)
Definition transfers (d : usdhc_adma2_desc) : bool := Z.land (ad_cmd d) 0x31 =? 0x21.

(** The buffer the descriptors from address [addr] on describe, if it
    continues the one seen so far. *)
Fixpoint adma_walk (fuel : nat) (rd : Z -> usdhc_adma2_desc) (addr buf len : Z) : option (Z * Z) :=
  match fuel with
  | O => None
  | S fuel =>
      if transfers (rd addr) && (ad_addr (rd addr) =? buf + len) then
        if Z.testbit (ad_cmd (rd addr)) 1 then Some (buf, len + ad_len (rd addr))
        else adma_walk fuel rd (addr + 8) buf (len + ad_len (rd addr))
      else None
  end.

(** The data commands of the standard, and whether the card sends the data;
    those that move several blocks. *)
Definition data_cmd (idx : Z) : option bool :=
  if existsb (Z.eqb idx) [8; 17; 18; 21] then Some true else if existsb (Z.eqb idx) [24; 25] then Some false else None.
Definition multiple_cmd (idx : Z) : bool := (idx =? 18) || (idx =? 25).

(** MIX_CTRL is right for the command: DMAEN, the direction in DTDSEL, and for
    several blocks MSBSEL, BCEN and the stop command AC12EN. *)
Definition data_set_up (idx mix : Z) (reads : bool) : bool :=
  Z.testbit mix 0 && Bool.eqb (Z.testbit mix 4) reads &&
  (if multiple_cmd idx then Z.testbit mix 5 && Z.testbit mix 1 && Z.testbit mix 2 else negb (Z.testbit mix 5)).

Section model.
(** Where the registers and the descriptor table are, how many polls a command
    and the transfer of its data take, and for how many polls the card is busy
    afterwards. *)
Context (base tbl_at : Z) (latency : nat) (data_latency : Z -> nat) (busy_after : Z -> nat).

(** The transfer the controller is prepared for: what the descriptors from
    ADMA_SYS_ADDR on describe, if it is as many bytes as BLK_ATT says. *)
Definition c_dma (c : ctl) : Z * Z :=
  let rd := fetch tbl_at (c_tbl c) in
  let addr := c_reg c USDHC_ADMA_SYS_ADDR in
  match adma_walk 512 rd addr (ad_addr (rd addr)) 0 with
  | Some (buf, len) =>
      if Z.land (c_reg c USDHC_BLK_ATT) 0x1fff * Z.shiftr (c_reg c USDHC_BLK_ATT) 16 =? len then (buf, len) else (0, 0)
  | None => (0, 0)
  end.

(** The walk is compared, not computed. *)
#[local] Strategy 1000 [c_dma adma_walk].

(** What a write to XFERTYPE starts.  A command without an answer times out.
    Otherwise it completes, and the response registers change if XFERTYPE says
    what response to expect.  The data of a data command moves later, and only
    if XFERTYPE selects a data phase and MIX_CTRL is right; a data phase that
    is not right ends with a data timeout, one that was not selected never
    happens. *)
Definition started (v : Z) (c : ctl) : list event :=
  let idx := Z.land (Z.shiftr v 24) 0x3f in
  match card_respond busy_after (em_set_dma (c_dma c) (c_card c)) idx (c_reg c USDHC_CMD_ARG) with
  | None => [Event latency INTSTATEN_CTOE (c_rsp c) (c_card c)]
  | Some (r, e) =>
      let rsp := if Z.land (Z.shiftr v 16) 3 =? 0 then c_rsp c else r in
      match data_cmd idx, Z.testbit v 21 with
      | None, false => [Event latency INTSTATEN_CC rsp e]
      | None, true => [Event latency INTSTATEN_CC rsp e; Event (data_latency idx) INTSTATEN_DTOE rsp e]
      | Some _, false => [Event latency INTSTATEN_CC rsp (c_card c)]
      | Some reads, true =>
          Event latency INTSTATEN_CC rsp (c_card c) ::
          (if data_set_up idx (c_reg c USDHC_MIX_CTRL) reads then [Event (data_latency idx) INTSTATEN_TC rsp e]
           else [Event (data_latency idx) INTSTATEN_DTOE rsp (c_card c)])
      end
  end.

(** A command that is given while another is not finished is lost. *)
Definition exec (v : Z) (c : ctl) : ctl :=
  match c_due c with
  | [] => Ctl (c_card c) (c_reg c) (c_int c) (started v c) (c_rsp c) (c_tbl c) (c_time c)
  | _ => c
  end.

Definition self_clearing : Z := Z.lor (Z.lor (Z.lor USDHC_SYSCTRL_RSTA USDHC_SYSCTRL_RSTC) USDHC_SYSCTRL_RSTD) USDHC_SYSCTRL_INITA.

(** Time is counted in polls of the interrupt status.  Until a command and its
    data are seen through, the lines are inhibited. *)
Definition ctl_read (addr : Z) : M ctl Z := fun c =>
  let off := addr - base in
  if off =? USDHC_INT_STATUS then
    match c_due c with
    | [] => (c_int c, c)
    | Event O b r e :: l => (Z.lor (c_int c) b, Ctl e (c_reg c) (Z.lor (c_int c) b) l r (c_tbl c) (c_time c))
    | Event (S n) b r e :: l => (c_int c, Ctl (c_card c) (c_reg c) (c_int c) (Event n b r e :: l) (c_rsp c) (c_tbl c) (c_time c))
    end
  else if off =? USDHC_PRES_STATE then
    (Z.lor (Z.shiftl 1 3) (match c_due c with [] => 0 | _ => Z.lor (Z.lor PSTATE_CIHB PSTATE_CDIHB) PSTATE_DLA end), c)
  else if off =? USDHC_SYSCTRL then (Z.ldiff (c_reg c off) self_clearing, c)
  else if off =? USDHC_CMD_RSP0 then (c_rsp c, c)
  else (c_reg c off, c).

Definition ctl_write (addr v : Z) : M ctl unit := fun c =>
  let off := addr - base in
  (tt, if off =? USDHC_INT_STATUS then Ctl (c_card c) (c_reg c) (u32 (Z.ldiff (c_int c) v)) (c_due c) (c_rsp c) (c_tbl c) (c_time c)
       else if off =? XFERTYPE then exec v c
       else Ctl (c_card c) (<[off := v]> (c_reg c)) (c_int c) (c_due c) (c_rsp c) (c_tbl c) (c_time c)).

#[local] Instance ctl_mmio : Mmio ctl := {| mmio_read_32 := ctl_read; mmio_write_32 := ctl_write |}.
#[local] Instance ctl_hw : UsdhcHw ctl := {|
  usdhc_mmio := ctl_mmio;
  tbl_addr := tbl_at;
  tbl_put i d := fun c => (tt, Ctl (c_card c) (c_reg c) (c_int c) (c_due c) (c_rsp c) (<[i := d]> (c_tbl c)) (c_time c))
|}.

Definition ctl_tick : M ctl Z := fun c => (c_time c, Ctl (c_card c) (c_reg c) (c_int c) (c_due c) (c_rsp c) (c_tbl c) (u32 (c_time c + 1))).
Definition ctl_mem (c : ctl) : ram_t := em_ram (c_card c).

(** ** The driver on it *)

Context {arch : Arch} (poll_fuel delay_fuel : nat) (poll_ok : (0 < poll_fuel)%nat) (latency_ok : (latency <= 999)%nat).
Context (data_latency_ok : forall idx, (data_latency idx < poll_fuel)%nat) (tbl_ok : 0 <= tbl_at /\ tbl_at + 8 * 512 <= 2 ^ 32).
Context (cfg : imx_usdhc_config) (base_ok : uc_base cfg = base) (clk : Z).
Implicit Types (w : usdhc_st ctl).

(** The card as the next command finds it: while something is still to happen
    it takes no commands. *)
Definition u_card w : emmc :=
  let e := em_set_dma (c_dma (u_hw w)) (c_card (u_hw w)) in
  match c_due (u_hw w) with [] => e | _ => em_set_state (-1) e end.

(** What decides it. *)
Definition wiring w :=
  (c_card (u_hw w), c_tbl (u_hw w), (c_reg (u_hw w) USDHC_BLK_ATT, c_reg (u_hw w) USDHC_ADMA_SYS_ADDR), c_due (u_hw w)).

Lemma wiring_card w w' : wiring w' = wiring w -> u_card w' = u_card w.
Proof. unfold wiring, u_card, c_dma. by intros [= -> -> -> -> ->]. Qed.

Lemma dma_ext c c' : c_tbl c = c_tbl c' -> c_reg c = c_reg c' -> c_dma c = c_dma c'.
Proof. unfold c_dma. by intros -> ->. Qed.

Lemma awake w : 0 <= em_state (u_card w) -> c_due (u_hw w) = [].
Proof. unfold u_card. destruct (c_due (u_hw w)); [done|]. cbn. lia. Qed.

Abbreviation rd := (rd cfg).
Abbreviation wr := (wr cfg).

Lemma rd_run off w : rd off w = let '(v, c) := ctl_read (base + off) (u_hw w) in (v, UsdhcSt c (bus_ddr_enable w)).
Proof. unfold Usdhc.rd, on_uhw. by rewrite base_ok. Qed.

Lemma wr_run off v w : wr off v w = (tt, UsdhcSt (ctl_write (base + off) v (u_hw w)).2 (bus_ddr_enable w)).
Proof. unfold Usdhc.wr, on_uhw. by rewrite base_ok. Qed.

(** Everything but the clock. *)
Definition core w := (c_card (u_hw w), c_reg (u_hw w), c_int (u_hw w), c_due (u_hw w), c_rsp (u_hw w), c_tbl (u_hw w)).

Lemma core_wiring w w' : core w' = core w -> wiring w' = wiring w.
Proof. unfold core, wiring. intros [= E1 E2 E3 E4 E5 E6]. by rewrite E1, E2, E4, E6. Qed.

(** Registers other than the interrupt status are read without effect. *)
Lemma rd_plain off w : off <> USDHC_INT_STATUS -> exists v, rd off w = (v, w) /\ (off = USDHC_CMD_RSP0 -> v = c_rsp (u_hw w)).
Proof.
  intros Ho. rewrite rd_run. unfold ctl_read. rewrite Z.add_simpl_l, (proj2 (Z.eqb_neq _ _) Ho).
  destruct (Z.eqb_spec off USDHC_PRES_STATE) as [->|_]; [eexists; split; [by destruct w|done]|].
  destruct (Z.eqb_spec off USDHC_SYSCTRL) as [->|_]; [eexists; split; [by destruct w|done]|].
  destruct (Z.eqb_spec off USDHC_CMD_RSP0) as [->|]; eexists; (split; [by destruct w|done]).
Qed.

Lemma rd_keeps off : off <> USDHC_INT_STATUS -> Keeps wiring (rd off).
Proof. intros Ho w. by destruct (rd_plain off w Ho) as (v & -> & _). Qed.

(** Registers that only store. *)
Definition stores (off : Z) : bool := negb (existsb (Z.eqb off) [USDHC_INT_STATUS; XFERTYPE; USDHC_BLK_ATT; USDHC_ADMA_SYS_ADDR]).

Lemma wr_store off v w : off <> USDHC_INT_STATUS -> off <> XFERTYPE -> wr off v w = (tt, UsdhcSt
  (Ctl (c_card (u_hw w)) (<[off := v]> (c_reg (u_hw w))) (c_int (u_hw w)) (c_due (u_hw w)) (c_rsp (u_hw w)) (c_tbl (u_hw w)) (c_time (u_hw w))) (bus_ddr_enable w)).
Proof. intros Hi Hx. rewrite wr_run. unfold ctl_write. by rewrite Z.add_simpl_l, (proj2 (Z.eqb_neq _ _) Hi), (proj2 (Z.eqb_neq _ _) Hx). Qed.

Lemma wr_keeps off v : stores off = true -> Keeps wiring (wr off v).
Proof.
  unfold stores. cbn [existsb]. rewrite orb_false_r, !negb_orb, !andb_true_iff, !negb_true_iff, !Z.eqb_neq. intros (Hi & Hx & Hb & Ha) w.
  rewrite wr_store by done. unfold wiring. cbn [snd u_hw c_card c_tbl c_reg c_due]. unfold insert, fn_insert. by rewrite !decide_False by done.
Qed.

(** The interrupt status is cleared. *)
Lemma wr_clear w : wr USDHC_INT_STATUS 0xffffffff w = (tt, UsdhcSt
  (Ctl (c_card (u_hw w)) (c_reg (u_hw w)) 0 (c_due (u_hw w)) (c_rsp (u_hw w)) (c_tbl (u_hw w)) (c_time (u_hw w))) (bus_ddr_enable w)).
Proof.
  rewrite wr_run. unfold ctl_write. rewrite Z.add_simpl_l, Z.eqb_refl. do 2 f_equal. cbn [snd]. f_equal. unfold u32.
  change 0xffffffff with (Z.ones 32). rewrite <- Z.land_ones by done. apply Z.land_ldiff.
Qed.

(** Time passes, nothing else. *)
Lemma delay_core us : Keeps (fun w => (core w, bus_ddr_enable w)) (delay_us ctl_tick delay_fuel us).
Proof.
  unfold delay_us. apply keeps_bind; [|intros ?; by intros w]. intros w. unfold on_uhw, core.
  pose proof (pb_delay_us_keeps ctl_tick (fun c => (c_card c, c_reg c, c_int c, c_due c, c_rsp c, c_tbl c))
    delay_fuel us (fun _ => eq_refl) (u_hw w)) as H.
  destruct (pb_delay_us ctl_tick delay_fuel us (u_hw w)). cbn [snd u_hw bus_ddr_enable] in *. by rewrite H.
Qed.

Lemma delay_run us w : exists w', delay_us ctl_tick delay_fuel us w = (tt, w') /\ core w' = core w /\ bus_ddr_enable w' = bus_ddr_enable w.
Proof.
  pose proof (delay_core us w) as H. destruct (delay_us ctl_tick delay_fuel us w) as [[] w']. exists w'.
  split; [done|]. split; [exact (f_equal fst H)|exact (f_equal snd H)].
Qed.

Lemma delay_keeps us : Keeps wiring (delay_us ctl_tick delay_fuel us).
Proof. intros w. apply core_wiring. exact (f_equal fst (delay_core us w)). Qed.

Lemma ddr_keeps b : Keeps wiring (set_ddr b).
Proof. by intros w. Qed.
#[local] Hint Resolve delay_keeps ddr_keeps : keeps.
#[local] Hint Extern 1 (Keeps wiring (Usdhc.rd _ _)) => (apply rd_keeps; by vm_compute) : keeps.
#[local] Hint Extern 1 (Keeps wiring (Usdhc.wr _ _ _)) => (apply wr_keeps; by vm_compute) : keeps.

Lemma update_keeps off (f : Z -> Z) : stores off = true -> Keeps wiring (v <- rd off ;; wr off (f v)).
Proof.
  intros H. assert (off <> USDHC_INT_STATUS) by (intros ->; by vm_compute in H).
  apply keeps_bind; [by apply rd_keeps|]. intros v. by apply wr_keeps.
Qed.
#[local] Hint Extern 1 (Keeps wiring (mmio_clrsetbits_32 _ _ _ _)) => (apply (update_keeps _ (fun v => _)); by vm_compute) : keeps.
#[local] Hint Extern 1 (Keeps wiring (mmio_clrbits_32 _ _ _)) => (apply (update_keeps _ (fun v => _)); by vm_compute) : keeps.
#[local] Hint Extern 1 (Keeps wiring (mmio_setbits_32 _ _ _)) => (apply (update_keeps _ (fun v => _)); by vm_compute) : keeps.

(** [m] ends with [a] and leaves the wiring alone, as far as [m] and [k] do. *)
Definition quiet {A} (m : M (usdhc_st ctl) A) (a : A) : Prop := forall w, exists w', m w = (a, w') /\ wiring w' = wiring w.

Lemma quiet_ret {A} (a : A) : quiet (ret a) a.
Proof. intros w. by exists w. Qed.

Lemma quiet_step {A B} (m : M (usdhc_st ctl) A) (k : A -> M (usdhc_st ctl) B) b : Keeps wiring m -> (forall a, quiet (k a) b) -> quiet (bind m k) b.
Proof.
  intros Hm Hk w. pose proof (Hm w) as H. destruct (m w) as [a w1] eqn:E. destruct (Hk a w1) as (w' & E' & H').
  exists w'. unfold bind. rewrite E, E'. split; [done|]. by rewrite H'.
Qed.

(** A register that already has the value waited for. *)
Lemma poll_run off done v w : ctl_read (base + off) (u_hw w) = (v, u_hw w) -> done v = true -> poll poll_fuel cfg off done w = (Some v, w).
Proof.
  intros E Hd. unfold poll. destruct poll_fuel as [|n]; [lia|]. cbn [poll_loop]. unfold bind. rewrite rd_run, E, Hd. by destruct w.
Qed.

Lemma wait_quiet off done k a : (forall w, exists v, ctl_read (base + off) (u_hw w) = (v, u_hw w) /\ done v = true) -> quiet k a ->
  quiet (wait_for poll_fuel cfg off done k) a.
Proof. intros H Hk w. destruct (H w) as (v & E & Hd). unfold wait_for, bind. rewrite (poll_run off done v w E Hd). apply Hk. Qed.

Lemma sysctrl_clear mask w : Z.land self_clearing mask = mask -> exists v, ctl_read (base + USDHC_SYSCTRL) (u_hw w) = (v, u_hw w) /\ clear mask v = true.
Proof.
  intros Hm. unfold ctl_read. rewrite Z.add_simpl_l. cbn [Z.eqb Pos.eqb USDHC_SYSCTRL USDHC_INT_STATUS USDHC_PRES_STATE].
  eexists. split; [done|]. unfold clear. apply Z.eqb_eq. rewrite <- Hm. apply Z.bits_inj. intros m.
  rewrite Z.bits_0, !Z.land_spec, Z.ldiff_spec. by destruct (Z.testbit self_clearing m); cbn; rewrite ?andb_false_r.
Qed.

Lemma pres_state_run w : exists v, ctl_read (base + USDHC_PRES_STATE) (u_hw w) = (v, u_hw w) /\ set (Z.shiftl 1 3) v = true /\
  (c_due (u_hw w) = [] -> v = Z.shiftl 1 3).
Proof. unfold ctl_read. rewrite Z.add_simpl_l. eexists. split; [done|]. by destruct (c_due (u_hw w)). Qed.

(** ** Set-up, clock and width *)

Lemma setup_quiet : quiet (imx_usdhc_setup poll_fuel cfg) PB_OK.
Proof.
  unfold imx_usdhc_setup. apply quiet_step; [keeps|intros _]. apply wait_quiet; [intros w; by apply sysctrl_clear|].
  apply quiet_step; [keeps|intros _]. apply wait_quiet; [intros w; by apply sysctrl_clear|].
  repeat (apply quiet_step; [keeps|intros _]). apply quiet_ret.
Qed.

Lemma clock_quiet hz : 0 < hz < 2 ^ 31 -> quiet (imx_usdhc_set_bus_clock ctl_tick poll_fuel delay_fuel cfg clk hz) PB_OK.
Proof.
  intros Hz w0. unfold imx_usdhc_set_bus_clock, bind at 1, get. rewrite (proj2 (Z.leb_gt _ 0)) by (destruct (bus_ddr_enable w0); [rewrite u32_small by lia|]; lia).
  revert w0. refine (fun w0 => quiet_step _ _ PB_OK _ _ w0); [keeps|intros _]. apply quiet_step; [keeps|intros _].
  apply wait_quiet; [intros w; destruct (pres_state_run w) as (v & E & Hv & _); by exists v|]. repeat (apply quiet_step; [keeps|intros _]). apply quiet_ret.
Qed.

Definition width_ok (width : mmc_bus_width) : bool :=
  match width with MMC_BUS_WIDTH_4BIT | MMC_BUS_WIDTH_4BIT_DDR | MMC_BUS_WIDTH_8BIT | MMC_BUS_WIDTH_8BIT_DDR => true | _ => false end.

Lemma width_quiet width : width_ok width = true -> quiet (imx_usdhc_set_bus_width cfg width) PB_OK.
Proof.
  intros Hw. unfold imx_usdhc_set_bus_width. apply quiet_step; [keeps|intros _].
  destruct width; try done; repeat (apply quiet_step; [keeps|intros _]); apply quiet_ret.
Qed.

(** ** Transfers *)

Lemma fetch_entry tbl i : 0 <= i -> fetch tbl_at tbl (tbl_at + 8 * i) = tbl i.
Proof.
  intros Hi. unfold fetch. rewrite Z.add_simpl_l, (proj2 (Z.leb_le _ _)), (Z.mul_comm 8), Z_mod_mult, Z_div_mult by lia. done.
Qed.

Lemma walk_tiled ds : forall fuel tbl i buf0 len0 len, (length ds <= fuel)%nat -> 0 <= i -> (forall j d, ds !! j = Some d -> tbl (i + Z.of_nat j) = d) ->
  tiled (buf0 + len0) len ds -> adma_walk fuel (fetch tbl_at tbl) (tbl_at + 8 * i) buf0 len0 = Some (buf0, len0 + len).
Proof.
  induction ds as [|d ds IH]; intros fuel tbl i buf0 len0 len Hf Hi Ht Hd; [done|]. destruct fuel as [|fuel]; [cbn in Hf; lia|]. cbn [adma_walk].
  pose proof (Ht 0%nat d eq_refl) as Hd0. rewrite Z.add_0_r in Hd0. rewrite fetch_entry, Hd0 by done. cbn [tiled] in Hd. destruct ds as [|d' ds].
  - destruct Hd as [-> _]. cbn [transfers ad_addr ad_cmd ad_len]. rewrite Z.eqb_refl. done.
  - destruct Hd as (Hd & Hl & Hds). rewrite Hd. cbn [transfers ad_addr ad_cmd ad_len]. rewrite Z.eqb_refl.
    change (Z.land ADMA2_TRAN_VALID 0x31 =? 0x21) with true. change (Z.testbit ADMA2_TRAN_VALID 1) with false. cbn [andb].
    replace (tbl_at + 8 * i + 8) with (tbl_at + 8 * (i + 1)) by lia.
    rewrite (IH fuel tbl (i + 1) buf0 (len0 + ad_len d) (len - ad_len d)); [f_equal; f_equal; lia|cbn in *; lia|lia| |by rewrite Z.add_assoc].
    intros j x Hj. rewrite <- (Ht (S j) x Hj). f_equal. lia.
Qed.

Lemma put_run ds : forall i w, exists w', put_descriptors i ds w = (tt, w') /\
  (c_card (u_hw w'), c_due (u_hw w')) = (c_card (u_hw w), c_due (u_hw w)) /\
  (forall k, k < i -> c_tbl (u_hw w') k = c_tbl (u_hw w) k) /\ forall j d, ds !! j = Some d -> c_tbl (u_hw w') (i + Z.of_nat j) = d.
Proof.
  induction ds as [|d ds IH]; intros i w; [by exists w|]. cbn [put_descriptors]. unfold bind, on_uhw. cbn [tbl_put ctl_hw].
  match goal with |- exists _, put_descriptors _ _ ?x = _ /\ _ => destruct (IH (i + 1) x) as (w' & E & Hc & Hk & Hj) end.
  exists w'. split; [exact E|]. split; [exact Hc|]. split.
  - intros k Hlt. rewrite Hk by lia. cbn. unfold insert, fn_insert. by rewrite decide_False by lia.
  - intros [|j] x Hx; cbn in Hx.
    + simplify_eq. rewrite Hk by lia. cbn. unfold insert, fn_insert. by rewrite decide_True by lia.
    + rewrite <- (Hj j x Hx). f_equal. lia.
Qed.

Lemma blk_att_val len : 0 < len -> len mod 512 = 0 -> len / 512 <= 0xffff -> Z.land (blk_att len) 0x1fff * Z.shiftr (blk_att len) 16 = len.
Proof.
  intros Hl Hm Hn. unfold blk_att. destruct (Z.ltb_spec 512 len) as [Hg|Hg].
  - assert (len = 512 * (len / 512)) as Hlen by (apply Z_div_exact_full_2; lia). set (n := len / 512) in *.
    rewrite Z.lor_comm, lor_shiftl_low, u32_small by lia. change 0x1fff with (Z.ones 13).
    rewrite Z.land_ones, Z.shiftr_div_pow2 by lia. replace (n * 2 ^ 16 + 512) with (512 + n * 8 * 2 ^ 13) by lia. rewrite Z.mod_add by lia.
    replace (512 + n * 8 * 2 ^ 13) with (512 + n * 2 ^ 16) by lia. rewrite Z.div_add by lia. change (512 mod 2 ^ 13) with 512. change (512 / 2 ^ 16) with 0. lia.
  - assert (len = 512) as -> by (Z.to_euclidean_division_equations; lia). done.
Qed.

Lemma dma_tiled c ds buf len : tiled buf len ds -> (length ds <= 512)%nat -> (forall j d, ds !! j = Some d -> c_tbl c (Z.of_nat j) = d) ->
  c_reg c USDHC_ADMA_SYS_ADDR = tbl_at -> c_reg c USDHC_BLK_ATT = blk_att len -> 0 < len -> len mod 512 = 0 -> len / 512 <= 0xffff -> c_dma c = (buf, len).
Proof.
  intros Ht Hn Htbl Ha Hr Hl Hm Hc. unfold c_dma. rewrite Ha. replace tbl_at with (tbl_at + 8 * 0) at 2 4 by lia. rewrite fetch_entry by done.
  assert (ad_addr (c_tbl c 0) = buf) as ->.
  { destruct ds as [|d ds]; [done|]. pose proof (Htbl 0%nat d eq_refl) as H0. change (Z.of_nat 0) with 0 in H0. rewrite H0. cbn [tiled] in Ht. destruct ds; destruct Ht as [-> _]; done. }
  rewrite (walk_tiled ds 512 (c_tbl c) 0 buf 0 len); [|done|done|exact Htbl|by rewrite Z.add_0_r]. by rewrite Hr, blk_att_val, Z.add_0_l, Z.eqb_refl.
Qed.

Lemma prepare_ok lba len buf w : 0 < len <= 30 * 1024 * 1024 -> len mod 512 = 0 -> 0 <= buf -> buf + len <= 2 ^ 32 ->
  exists w', imx_usdhc_prepare cfg lba len buf w = (PB_OK, w') /\ u_card w' = em_set_dma (buf, len) (u_card w).
Proof.
  intros Hl Hm Hb Hbl. destruct (adma_descriptors_tile buf len) as [Ht Hc]; [lia..|]. assert (len / 512 <= 0xffff) by (Z.to_euclidean_division_equations; lia).
  unfold imx_usdhc_prepare. rewrite (proj2 (Z.ltb_ge _ _)) by lia.
  destruct (put_run (adma_descriptors buf len) 0 w) as (w1 & E & [= Hcard Hdue] & _ & Htbl). unfold bind. rewrite E, !wr_store by done.
  eexists. split; [done|]. unfold u_card. erewrite dma_tiled; [|exact Ht| |exact Htbl| |done|lia|done|done].
  - cbn [u_hw c_card c_due]. rewrite Hcard, Hdue. by destruct (c_due (u_hw w)).
  - unfold desc_count, ADMA2_MAX_BYTES_PER_DESC in Hc. Z.to_euclidean_division_equations. lia.
  - cbn [u_hw c_reg]. unfold insert, fn_insert. cbn [tbl_addr ctl_hw]. rewrite decide_False, decide_True by done. apply u32_small. lia.
Qed.

(** ** Commands *)

(** The index arrives in the controller. *)
Lemma xfer_type_index idx rt : 0 <= idx < 64 -> idx <> MMC_CMD_STOP_TRANSMISSION -> Z.land (Z.shiftr (xfer_type idx rt) 24) 0x3f = idx.
Proof.
  intros Hi Hs. unfold xfer_type. destruct (cmd_kind idx) as [[[x m] mu] da] eqn:Ek.
  assert (Z.shiftr x 24 = 0) as Hx.
  { revert Ek. unfold cmd_kind. rewrite (proj2 (Z.eqb_neq _ _) Hs). intros Ek. repeat case_match; by simplify_eq. }
  unfold XFERTYPE_CMD. rewrite (Z.land_comm idx). change 0x3f with (Z.ones 6) in *. rewrite (Z.land_comm (Z.ones 6)), !Z.land_ones, (Z.mod_small idx) by lia.
  rewrite Z.shiftr_lor, Z.shiftr_shiftl_l, Z.shiftl_0_r by lia.
  match goal with |- Z.lor ?a _ mod _ = _ => assert (a = 0) as -> end; [|rewrite Z.lor_0_l; apply Z.mod_small; lia].
  destruct da, (set MMC_RSP_CRC rt), (set MMC_RSP_BUSY rt), (set MMC_RSP_PRESENT rt && _), (set MMC_RSP_136 rt);
    rewrite ?Z.shiftr_lor, Hx; done.
Qed.

(** The data phase is selected exactly for the commands that have one, and
    MIX_CTRL, whose other bits the driver keeps, is right for it. *)
Definition is_data (idx : Z) : bool := (cmd_kind idx).2.

Lemma xfer_type_data idx rt : Z.testbit (xfer_type idx rt) 21 = is_data idx.
Proof.
  unfold xfer_type, is_data. destruct (cmd_kind idx) as [[[x m] mu] da] eqn:Ek. cbn [snd].
  assert (Z.testbit x 21 = false) as Hx by (revert Ek; unfold cmd_kind; intros Ek; repeat case_match; by simplify_eq).
  assert (Z.testbit (XFERTYPE_CMD idx) 21 = false) as Hc by (unfold XFERTYPE_CMD; by apply Z.shiftl_spec_low).
  destruct da, (set MMC_RSP_CRC rt), (set MMC_RSP_BUSY rt), (set MMC_RSP_PRESENT rt && _), (set MMC_RSP_136 rt);
    rewrite ?Z.lor_spec, Hx, Hc; done.
Qed.

Lemma data_cmd_is_data idx : is_data idx = match data_cmd idx with Some _ => true | None => false end.
Proof.
  unfold is_data, cmd_kind, data_cmd. cbn [existsb]. unfold MMC_CMD_STOP_TRANSMISSION, MMC_CMD_READ_MULTIPLE_BLOCK, MMC_CMD_SEND_TUNING_BLOCK_HS200,
    MMC_CMD_READ_SINGLE_BLOCK, MMC_CMD_SEND_EXT_CSD, MMC_CMD_WRITE_MULTIPLE_BLOCK, MMC_CMD_WRITE_SINGLE_BLOCK.
  repeat match goal with |- context [idx =? ?c] => destruct (Z.eqb_spec idx c) as [->|]; [done|] end. done.
Qed.

(** MIX_CTRL after the driver has set it for a command. *)
Definition mixed (old idx : Z) (ddr : bool) : Z := Z.lor (Z.land old (Z.ldiff 0xffffffff MIXCTRL_DATMASK)) (mix_ctrl idx ddr).

Lemma mixed_bit old idx ddr k : Z.testbit (Z.ldiff 0xffffffff MIXCTRL_DATMASK) k = false -> Z.testbit (mixed old idx ddr) k = Z.testbit (mix_ctrl idx ddr) k.
Proof. intros Hk. unfold mixed. by rewrite Z.lor_spec, Z.land_spec, Hk, andb_false_r. Qed.

Lemma data_set_up_ok old idx ddr reads : data_cmd idx = Some reads -> data_set_up idx (mixed old idx ddr) reads = true.
Proof.
  unfold data_set_up. rewrite !mixed_bit by done. unfold data_cmd. cbn [existsb].
  repeat match goal with |- context [idx =? ?c] => destruct (Z.eqb_spec idx c) as [->|] end; cbn [orb]; intros [=]; subst; by destruct ddr.
Qed.

(** The status comes within the tries. *)
Lemma cmd_wait_ok tries : forall first w n b r e l, c_due (u_hw w) = Event n b r e :: l -> c_int (u_hw w) = 0 -> (n <= tries)%nat ->
  set (Z.lor INTSTATEN_CC INTSTATEN_CTOE) b = true ->
  exists w', cmd_wait ctl_tick delay_fuel cfg tries first w = ((false, b), w') /\ core w' = (e, c_reg (u_hw w), b, l, r, c_tbl (u_hw w)).
Proof.
  assert (Hd : forall (first : bool) w1, exists w2, (if first then ret tt else delay_us ctl_tick delay_fuel 1) w1 = (tt, w2) /\ core w2 = core w1).
  { intros [] w1; [by exists w1|]. destruct (delay_run 1 w1) as (w2 & E & H & _). by exists w2. }
  assert (H0 : forall tries first w b r e l, c_due (u_hw w) = Event 0 b r e :: l -> c_int (u_hw w) = 0 -> set (Z.lor INTSTATEN_CC INTSTATEN_CTOE) b = true ->
    exists w', cmd_wait ctl_tick delay_fuel cfg tries first w = ((false, b), w') /\ core w' = (e, c_reg (u_hw w), b, l, r, c_tbl (u_hw w))).
  { intros tr first w b r e l Hdue Hi Hb. destruct tr; cbn [cmd_wait]; unfold bind at 1; rewrite rd_run; unfold ctl_read; rewrite Z.add_simpl_l, Z.eqb_refl, Hdue, Hi, Z.lor_0_l;
      (match goal with |- context [bind _ _ ?x] => destruct (Hd first x) as (w2 & E & Hc) end); unfold bind; rewrite E, Hb; by exists w2. }
  induction tries as [|tries IH]; intros first w [|n] b r e l Hdue Hi Hn Hb; [by apply H0|lia|by apply H0|].
  cbn [cmd_wait]; unfold bind at 1; rewrite rd_run; unfold ctl_read; rewrite Z.add_simpl_l, Z.eqb_refl, Hdue, Hi.
  match goal with |- context [bind _ _ ?x] => destruct (Hd first x) as (w2 & E & Hc) end. unfold bind. rewrite E. cbn [set Z.land Z.eqb negb].
  injection Hc as H1 H2 H3 H4 H5 H6. destruct (IH false w2 n b r e l) as (w' & E' & Hs'); [done|done|lia|done|].
  exists w'. split; [exact E'|]. by rewrite Hs', H2, H6.
Qed.

(** The transfer ends within the polls. *)
Lemma data_wait_ok w n r e : c_due (u_hw w) = [Event n INTSTATEN_TC r e] -> c_int (u_hw w) = INTSTATEN_CC -> (n < poll_fuel)%nat ->
  exists w', data_wait poll_fuel cfg w = (PB_OK, w') /\ core w' = (e, c_reg (u_hw w), Z.lor INTSTATEN_CC INTSTATEN_TC, [], r, c_tbl (u_hw w)).
Proof.
  unfold data_wait, poll. cbv zeta. set (until := fun state : Z => set (Z.lor INTSTATEN_DTOE DATA_ERR) state || (Z.land state INTSTATEN_TC =? INTSTATEN_TC)). clear poll_ok data_latency_ok. revert w n. induction poll_fuel as [|fuel IH]; intros w n Hdue Hi Hn; [lia|].
  cbn [poll_loop]. unfold bind. rewrite rd_run. unfold ctl_read. rewrite Z.add_simpl_l, Z.eqb_refl, Hdue, Hi. destruct n as [|n].
  - change (until (Z.lor INTSTATEN_CC INTSTATEN_TC)) with true. cbn iota. by eexists.
  - change (until INTSTATEN_CC) with false. cbn iota.
    match goal with |- context [poll_loop _ _ _ _ ?x] => destruct (IH x n) as (w' & E & Hc); [done|done|lia|] end.
    exists w'. unfold bind in E. destruct (poll_loop cfg fuel USDHC_INT_STATUS until _) as [o w1]. split; [exact E|exact Hc].
Qed.

Lemma response_run rt w : exists l, read_response cfg rt w = (l, w) /\ (set MMC_RSP_136 rt = false -> resp0 l = c_rsp (u_hw w)).
Proof.
  unfold read_response. destruct (set MMC_RSP_136 rt).
  - destruct (rd_plain USDHC_CMD_RSP3 w) as (v3 & E3 & _); [done|]. destruct (rd_plain USDHC_CMD_RSP2 w) as (v2 & E2 & _); [done|].
    destruct (rd_plain USDHC_CMD_RSP1 w) as (v1 & E1 & _); [done|]. destruct (rd_plain USDHC_CMD_RSP0 w) as (v0 & E0 & _); [done|].
    eexists. unfold bind. rewrite E3, E2, E1, E0. done.
  - destruct (rd_plain USDHC_CMD_RSP0 w) as (v0 & E0 & H0); [done|]. eexists. unfold bind. rewrite E0. split; [done|]. intros _. by apply H0.
Qed.

(** What is due when the card accepts a command that is set up right. *)
Definition granted (idx r : Z) (old e : emmc) : list event :=
  if is_data idx then [Event latency INTSTATEN_CC r old; Event (data_latency idx) INTSTATEN_TC r e] else [Event latency INTSTATEN_CC r e].

(** After the card has answered. *)
Lemma finish_ok idx rt want w r old e : c_int (u_hw w) = 0 -> c_due (u_hw w) = granted idx r old e ->
  exists l w', cmd_finish ctl_tick poll_fuel delay_fuel cfg rt want (is_data idx) w = ((PB_OK, l), w') /\
    core w' = (e, c_reg (u_hw w), 0, [], r, c_tbl (u_hw w)) /\ (want = true -> set MMC_RSP_136 rt = false -> resp0 l = r).
Proof.
  intros Hi Hdue. unfold granted in Hdue.
  set (mid := if is_data idx then old else e). set (rest := if is_data idx then [Event (data_latency idx) INTSTATEN_TC r e] else []).
  destruct (cmd_wait_ok (USDHC_CMD_RETRIES - 1) true w latency INTSTATEN_CC r mid rest) as (w1 & E1 & C1);
    [rewrite Hdue; unfold mid, rest; by destruct (is_data idx)|done|exact latency_ok|done|].
  unfold cmd_finish, bind at 1. rewrite E1. change (set (Z.lor INTSTATEN_CTOE CMD_ERR) INTSTATEN_CC || false) with false. cbn iota.
  injection C1 as Hc Hr Hn Hd Hrs Ht.
  assert (Hresp : exists l, (if want then read_response cfg rt else ret []) w1 = (l, w1) /\ (want = true -> set MMC_RSP_136 rt = false -> resp0 l = r)).
  { destruct want; [|by eexists]. destruct (response_run rt w1) as (l & E & H). rewrite Hrs in H. by exists l. }
  destruct Hresp as (l & E2 & Hl). unfold bind at 1. rewrite E2.
  assert (Hdata : exists w2 b, (if is_data idx then data_wait poll_fuel cfg else ret PB_OK) w1 = (PB_OK, w2) /\ core w2 = (e, c_reg (u_hw w1), b, [], r, c_tbl (u_hw w1))).
  { unfold rest, mid in *. destruct (is_data idx).
    - destruct (data_wait_ok w1 (data_latency idx) r e Hd Hn (data_latency_ok idx)) as (w2 & E & C). by exists w2, (Z.lor INTSTATEN_CC INTSTATEN_TC).
    - exists w1, INTSTATEN_CC. split; [done|]. unfold core. by rewrite Hc, Hn, Hd, Hrs. }
  destruct Hdata as (w2 & b & E3 & C2). unfold bind at 1. rewrite E3. unfold cmd_out. cbn [PB_OK Z.eqb]. unfold bind. rewrite wr_clear.
  injection C2 as Hc2 Hr2 Hn2 Hd2 Hrs2 Ht2. do 2 eexists. split; [done|]. split; [|exact Hl]. unfold core. cbn [u_hw c_card c_reg c_int c_due c_rsp c_tbl].
  by rewrite Hc2, Hr2, Hd2, Hrs2, Ht2, Hr, Ht.
Qed.

Lemma respond_dma e idx arg r e' : card_respond busy_after e idx arg = Some (r, e') -> em_dma e' = em_dma e.
Proof. unfold card_respond, card_cmd, card_read, card_write. intros H. repeat case_match; by simplify_eq. Qed.

(** Up to the write to XFERTYPE. *)
Lemma start_ok idx arg rt w : c_due (u_hw w) = [] -> exists w' old ddr, wiring w' = wiring w /\ c_int (u_hw w') = 0 /\
  c_reg (u_hw w') USDHC_CMD_ARG = arg /\ c_reg (u_hw w') USDHC_MIX_CTRL = mixed old idx ddr /\
  forall want, imx_usdhc_send_cmd ctl_tick poll_fuel delay_fuel cfg idx arg rt want w =
    (wr XFERTYPE (xfer_type idx rt) ;;; cmd_finish ctl_tick poll_fuel delay_fuel cfg rt want (is_data idx)) w'.
Proof.
  intros Hdue. unfold imx_usdhc_send_cmd, is_data. destruct (cmd_kind idx) as [[[x m] mu] da]. cbn [snd].
  unfold bind at 1. rewrite wr_clear. match goal with |- context [bind _ _ ?s] => set (w1 := s) end.
  destruct (pres_state_run w1) as (v & E & _ & Hv). rewrite (Hv Hdue) in E.
  unfold bind at 1 2. rewrite (poll_run PSTATE _ (Z.shiftl 1 3) w1 E eq_refl), (poll_run PSTATE _ (Z.shiftl 1 3) w1 E eq_refl).
  unfold bind at 1. rewrite wr_store by done. match goal with |- context [bind _ _ ?s] => set (w2 := s) end.
  destruct (delay_run 1000 w2) as (w3 & E3 & C3 & B3). unfold bind at 1. rewrite E3. unfold bind at 1, get.
  destruct (rd_plain USDHC_MIX_CTRL w3) as (old & Eold & _); [done|]. unfold mmio_clrsetbits_32. unfold bind at 1 2. rewrite Eold, wr_store by done.
  unfold bind at 1. rewrite wr_store by done. injection C3 as H1 H2 H3 H4 H5 H6.
  eexists. exists old, (bus_ddr_enable w3). split; [|split; [|split; [|split; [|done]]]].
  - unfold wiring. cbn [u_hw c_card c_reg c_int c_due c_rsp c_tbl]. unfold insert, fn_insert. rewrite !decide_False, H1, H2, H4, H6 by done. done.
  - exact H3.
  - cbn [u_hw c_reg]. unfold insert, fn_insert. by rewrite decide_True.
  - cbn [u_hw c_reg]. unfold insert, fn_insert. by rewrite decide_False, decide_True.
Qed.

Lemma started_ok idx rt c old ddr r e : 0 <= idx < 64 -> idx <> MMC_CMD_STOP_TRANSMISSION -> c_reg c USDHC_MIX_CTRL = mixed old idx ddr ->
  card_respond busy_after (em_set_dma (c_dma c) (c_card c)) idx (c_reg c USDHC_CMD_ARG) = Some (r, e) ->
  exists r', started (xfer_type idx rt) c = granted idx r' (c_card c) e /\ (Z.land (Z.shiftr (xfer_type idx rt) 16) 3 <> 0 -> r' = r).
Proof.
  intros Hi Hs Hmix Hr. unfold started. rewrite xfer_type_index, Hr, xfer_type_data by done. unfold granted. rewrite data_cmd_is_data.
  exists (if Z.land (Z.shiftr (xfer_type idx rt) 16) 3 =? 0 then c_rsp c else r). split; [|intros H; by rewrite (proj2 (Z.eqb_neq _ _) H)].
  destruct (data_cmd idx) as [reads|] eqn:Ed; [|done]. by rewrite Hmix, data_set_up_ok.
Qed.

Lemma send_ok idx arg rt want w r e : 0 <= idx < 64 -> idx <> MMC_CMD_STOP_TRANSMISSION -> 0 <= em_state (u_card w) ->
  card_respond busy_after (u_card w) idx arg = Some (r, e) ->
  exists l w', imx_usdhc_send_cmd ctl_tick poll_fuel delay_fuel cfg idx arg rt want w = ((PB_OK, l), w') /\ u_card w' = e /\
    (want = true -> set MMC_RSP_136 rt = false -> Z.land (Z.shiftr (xfer_type idx rt) 16) 3 <> 0 -> resp0 l = r).
Proof.
  intros Hi Hs Hup Hr. pose proof (awake w Hup) as Hdue. destruct (start_ok idx arg rt w Hdue) as (w1 & old & ddr & H1 & Hint & Harg & Hmix & E1).
  rewrite E1. unfold bind. rewrite wr_run. unfold ctl_write. rewrite Z.add_simpl_l. cbn [Z.eqb Pos.eqb XFERTYPE USDHC_INT_STATUS snd].
  assert (Hdue1 : c_due (u_hw w1) = []) by (injection H1 as _ _ _ _ ->; done). unfold exec. rewrite Hdue1.
  rewrite <- (wiring_card _ _ H1) in Hr. unfold u_card in Hr. rewrite Hdue1, <- Harg in Hr.
  destruct (started_ok idx rt (u_hw w1) old ddr r e Hi Hs Hmix Hr) as (r' & Est & Hr').
  match goal with |- context [cmd_finish _ _ _ _ _ _ _ ?x] => destruct (finish_ok idx rt want x r' (c_card (u_hw w1)) e Hint Est) as (l & w' & E & C & Hl) end.
  exists l, w'. split; [exact E|]. split; [|intros ? ? Hp; rewrite <- (Hr' Hp); by apply Hl]. injection C as Hc Hg _ Hd _ Ht. cbn [u_hw c_reg c_tbl] in Hg, Ht.
  apply respond_dma in Hr. unfold u_card. rewrite Hd, Hc. replace (c_dma (u_hw w')) with (em_dma e); [by destruct e|].
  transitivity (c_dma (u_hw w1)); [exact Hr|]. apply dma_ext; by symmetry.
Qed.

(** ** What the block devices rely on *)

Context (busy_max : nat) (busy_after_ok : forall idx, (busy_after idx <= if identifies idx then 0 else busy_max)%nat).

Definition usdhc_mem w : ram_t := ctl_mem (u_hw w).
Definition usdhc_tick : M (usdhc_st ctl) Z := on_uhw ctl_tick.
Definition usdhc_hal : mmc_hal (usdhc_st ctl) := imx_usdhc_hal ctl_tick poll_fuel delay_fuel cfg clk.

Lemma quiet_card (m : M (usdhc_st ctl) Z) w : quiet m PB_OK -> exists w', m w = (PB_OK, w') /\ u_card w' = u_card w.
Proof. intros H. destruct (H w) as (w' & E & Hw). exists w'. split; [exact E|by apply wiring_card]. Qed.

Lemma card_cmd_powered e idx arg e' : card_cmd e idx arg = Some e' -> 0 <= em_state e.
Proof.
  unfold card_cmd. intros H. destruct (Z.le_gt_cases 0 (em_state e)) as [|Hn]; [done|]. exfalso. rewrite (proj2 (Z.leb_gt _ _) Hn) in H.
  assert (Hs : forall s, 0 <= s -> (em_state e =? s) = false) by (intros s Hs; apply Z.eqb_neq; lia).
  rewrite !Hs in H by done. cbn [andb negb] in H. repeat case_match; done.
Qed.

#[local] Instance usdhc_laws : EmmcLaws (usdhc_st ctl) usdhc_hal usdhc_mem usdhc_tick busy_max.
Proof.
  refine {| card := u_card; emmc_width_ok := width_ok; dma_limit := 2 ^ 32 |}.
  - intros w. unfold u_card. by destruct (c_due (u_hw w)).
  - intros w. by apply wiring_card.
  - intros w. apply quiet_card, setup_quiet.
  - intros w hz Hz. by apply quiet_card, clock_quiet.
  - intros w width Hw. by apply quiet_card, width_quiet.
  - intros w lba len buf Hl Hmax Hm Hb Hbl. apply prepare_ok; [|done..]. split; [done|]. by apply Hmax.
  - intros w lba len buf. by exists w.
  - intros w lba len buf. by exists w.
  - intros w idx arg rt want e Hc. destruct (card_cmd_idx _ _ _ _ Hc) as (Hi & _). pose proof (card_cmd_powered _ _ _ _ Hc) as Hup.
    assert (Hs : idx <> MMC_CMD_STOP_TRANSMISSION) by (intros ->; revert Hc; unfold card_cmd; cbn; by destruct (negb _)).
    destruct (send_ok idx arg rt want w _ _ Hi Hs Hup (respond_cmd busy_after _ _ _ _ Hc)) as (l & w' & E & He & _).
    exists l, w', (busy_after idx). split_and!; [exact E|apply busy_after_ok|exact He].
  - intros w arg Hst _. destruct (respond_op_cond busy_after (u_card w) arg) as (r & e' & Er & H).
    destruct (send_ok MMC_CMD_SEND_OP_COND arg MMC_RSP_R3 true w r e') as (l & w' & E & He & Hl); [by vm_compute|done|by rewrite Hst|exact Er|].
    exists l, w'. split; [exact E|]. rewrite (Hl eq_refl eq_refl ltac:(by vm_compute)), He. exact H.
  - intros w arg _ Hst. destruct (respond_status busy_after (u_card w) arg Hst) as (r & e' & Er & H).
    destruct (send_ok MMC_CMD_SEND_STATUS arg MMC_RSP_R1 true w r e') as (l & w' & E & He & Hl); [by vm_compute|done|apply Hst|exact Er|].
    exists PB_OK, l, w'. split; [exact E|]. rewrite (Hl eq_refl eq_refl ltac:(by vm_compute)), He. destruct (em_busy (u_card w)); [done|].
    destruct H as (? & ? & ->). by split.
Defined.

(** ** The whole stack *)

Context {kc : Kconfig} {mkc : MmcKconfig} (busy_short : Z.of_nat busy_max < MMC_DEFAULT_TIMEOUT_ms) (busy_fuel : (busy_max < poll_fuel)%nat).
Context (mmc_ext_csd : Z) (csd_reachable : 0 <= mmc_ext_csd /\ mmc_ext_csd + 512 <= 2 ^ 32) (bio_read_p bio_write_p : fptr).

(** [C13] From reset to block accesses, down to the registers.  The controller
    answers a command within 999 polls; the response is only there then, and
    the data only moves, and transfer complete is only raised, some polls
    later, with the descriptors fetched from ADMA_SYS_ADDR, the length of
    BLK_ATT and the direction, DMA and block count bits of MIX_CTRL.  A command
    given earlier is lost.  Behind such a controller and for a card that
    answers and is never busy for longer than the driver waits,
    [imx_usdhc_init] returns [PB_OK] for every bus width the controller has
    (HS200 without tuning) and registers the partitions the card reports,
    without touching their contents; afterwards every sequence of reads and
    writes of whole blocks of the user and boot partitions, with buffers below
    4 GiB, succeeds and changes the partitions and the memory exactly as the
    accesses say.  Transfer errors, PROT_CTRL and the caches are not part of
    the model. *)
Theorem usdhc_block_devices tuning stack_tap v (s : bio_state (mmc_st (usdhc_st ctl))) : let mcfg := uc_mmc_config cfg in let e := u_card (mm_hw (bio_hw s)) in
  mc_mode mcfg <> MMC_BUS_MODE_INVALID -> mc_mode mcfg <> MMC_BUS_MODE_END ->
  (mc_mode mcfg = MMC_BUS_MODE_HS200 -> CONFIG_MMC_CORE_HS200_TUNE = false) ->
  bus_width_value (mc_width mcfg) = Some v -> width_ok (mc_width mcfg) = true -> 0 <= mc_boot_mode mcfg < 256 ->
  Forall uuid_wf [mc_boot0_uu mcfg; mc_boot1_uu mcfg; mc_rpmb_uu mcfg; mc_user_uu mcfg] -> bio_wf s -> n_bios s + 4 <= CONFIG_BIO_MAX_DEVS ->
  Z.of_nat busy_max < generic_cmd6_time_ms (bio_hw s) -> card_ok (busy_max := busy_max) e ->
  exists s', imx_usdhc_init ctl_mem mmc_ext_csd tuning ctl_tick poll_fuel delay_fuel bio_read_p bio_write_p stack_tap cfg clk s = (PB_OK, s') /\
    n_bios s' = n_bios s + 4 /\ older_kept s s' /\
    (forall k d, card_devices bio_read_p bio_write_p mcfg e !! k = Some d -> dev_at s' (n_bios s + Z.of_nat k) = d) /\
    device_of s' (n_bios s) MMC_PART_BOOT0 /\ device_of s' (n_bios s + 1) MMC_PART_BOOT1 /\ device_of s' (n_bios s + 3) MMC_PART_USER /\
    forall fuel part xs, let ar := (em_area e, usdhc_mem (mm_hw (bio_hw s'))) in Forall (access_fits fuel part ar s') xs ->
      exists m', mmc_bio_accesses (tick := usdhc_tick) poll_fuel delay_fuel fuel xs s' = (replicate (length xs) PB_OK, with_mmc m' s') /\
        agrees (fold_left (fun ar x => access_spec part x ar) xs ar) m'.
Proof.
  intros mcfg e Hm1 Hm2 Htune Hw Hwok Hmode Hu Hwf Hn H6 He.
  destruct (mmc_init_ok (laws := usdhc_laws) poll_fuel delay_fuel busy_fuel busy_short eq_refl eq_refl mmc_ext_csd csd_reachable bio_read_p bio_write_p tuning stack_tap mcfg v s
    Hm1 Hm2 Htune Hw Hwok Hmode Hu Hwf Hn H6 He) as (s' & E & _ & N & O & D & D0 & D1 & D3 & R & A & _).
  exists s'. split_and!; [exact E|exact N|exact O|exact D|exact D0|exact D1|exact D3|].
  intros fuel part xs ar Hx. apply (accesses_refine (laws := usdhc_laws)); [done..| |exact Hx]. split_and!; [exact R|intros p; by rewrite A|].
  intros a. exact (f_equal (fun f => f a) (eq_sym (emmc_mem (EmmcLaws := usdhc_laws) (mm_hw (bio_hw s'))))).
Qed.
End model.

(** ** Witness *)

#[local] Existing Instance ToyCard.kconfig.
#[local] Existing Instance armv8a.
#[local] Existing Instance test_defconfig.

Module ToyUsdhc.
Definition cfg : imx_usdhc_config := UsdhcConfig 0x5B010000 0 ToyCard.cfg.
Definition c0 : ctl := Ctl ToyCard.e0 (fun _ => 0) 0 [] 0 (fun _ => AdmaDesc 0 0 0) 0.
Definition data_latency (idx : Z) : nat := if idx =? MMC_CMD_SEND_EXT_CSD then 0 else 4.
Definition vars : mmc_st (usdhc_st ctl) :=
  MmcSt (UsdhcSt c0 false) (usdhc_hal 0x5B010000 0x80000 3 data_latency ToyCard.busy_after 5 1100 cfg 200000000) ToyCard.cfg 0
    (MmcDeviceInfo 0 0 MMC_BUS_MODE_INVALID MMC_BUS_WIDTH_INVALID) MMC_FIX_RCA [] 0 MMC_PART_USER 2550 2550 2550.
Definition part (dev : Z) : mmc_part := if dev =? 0 then MMC_PART_BOOT0 else MMC_PART_USER.
Definition ops : list access := [Access false 3 0 1024 0x1000; Access true 0 1 512 0x1200; Access true 3 2 1024 0x1000].
End ToyUsdhc.

Lemma toy_busy idx : (ToyCard.busy_after idx <= if identifies idx then 0 else 1)%nat.
Proof. unfold ToyCard.busy_after. by destruct (identifies idx). Qed.

Lemma toy_data_latency idx : (ToyUsdhc.data_latency idx < 5)%nat.
Proof. unfold ToyUsdhc.data_latency. case_match; lia. Qed.

Lemma usdhc_block_devices_witness : exists s' m',
  imx_usdhc_init (UsdhcHw0 := ctl_hw 0x5B010000 0x80000 3 ToyUsdhc.data_latency ToyCard.busy_after) ctl_mem 0x8000 0x9000 ctl_tick 5 1100 1 2 0 ToyUsdhc.cfg 200000000
    (bio_init ToyUsdhc.vars) = (PB_OK, s') /\ n_bios s' = 4 /\ device_of s' 0 MMC_PART_BOOT0 /\ device_of s' 3 MMC_PART_USER /\
  mmc_bio_accesses (tick := usdhc_tick) 5 1100 1025 ToyUsdhc.ops s' = ([PB_OK; PB_OK; PB_OK], with_mmc m' s').
Proof.
  destruct (usdhc_block_devices 0x5B010000 0x80000 3 ToyUsdhc.data_latency ToyCard.busy_after 5 1100 ltac:(lia) ltac:(lia) toy_data_latency ltac:(lia)
    ToyUsdhc.cfg eq_refl 200000000 1 toy_busy eq_refl ltac:(lia) 0x8000 ltac:(lia) 1 2 0x9000 0 2 (bio_init ToyUsdhc.vars)) as (s' & E & N & _ & _ & D0 & _ & D3 & H).
  - done.
  - done.
  - done.
  - done.
  - done.
  - by vm_compute.
  - repeat (apply Forall_cons; split); [..|by apply Forall_nil]; (split; [done|by apply Forall_replicate]).
  - by apply bio_init_wf.
  - by vm_compute.
  - by vm_compute.
  - split; [by vm_compute|done| |by vm_compute..|split; [by vm_compute|right; by vm_compute]]. apply (bool_decide_unpack _). by vm_compute.
  - destruct (H 1025%nat ToyUsdhc.part ToyUsdhc.ops) as (m' & E' & _).
    { repeat (apply Forall_cons; split); [..|by apply Forall_nil]; (split; [assumption|split; [|lia]]; split_and!; by vm_compute). }
    exists s', m'. exact (conj E (conj N (conj D0 (conj D3 E')))). 
Defined.
