(* ===== verification/ImxUdc.v ===== *)
(** * The ChipIdea USB device controller

    [src/drivers/usb/imx_ci_udc.c]: a transfer is a chain of descriptors in
    memory, each of up to five pages, which the controller follows on its own
    ([CiHw]).  [ImxUdcDev] has the controller. *)

From S2P Require Import Prelude Errors Ram Usb Ocotp Usdhc.
Local Open Scope c_scope.

(** ** Registers *)

Definition IMX_CI_UDC_USBSTS : Z := 0x144.
Definition USBSTS_URI : Z := BIT 6.
Definition IMX_CI_UDC_ENDPTCOMPLETE : Z := 0x1bc.
Definition IMX_CI_UDC_USB_MODE : Z := 0x1a8.
Definition USB_MODE_SDIS : Z := BIT 4.
Definition USB_MODE_SLOM : Z := BIT 3.
Definition USB_MODE_CM_DEVICE : Z := 2.
Definition IMX_CI_UDC_ENDPTLISTADDR : Z := 0x158.
Definition IMX_CI_UDC_ENDPTSETUPSTAT : Z := 0x1ac.
Definition IMX_CI_UDC_CMD : Z := 0x140.
Definition CMD_RS : Z := BIT 0.
Definition CMD_RST : Z := BIT 1.
Definition CMD_SUTW : Z := BIT 13.
Definition CMD_ITC (x : Z) : Z := Z.land (u16 (Z.shiftl x 16)) 0xFFFF.
Definition IMX_CI_UDC_ENDPTPRIME : Z := 0x1b0.
Definition IMX_CI_UDC_PORTSC1 : Z := 0x184.
Definition IMX_CI_UDC_ENDPTFLUSH : Z := 0x1b4.
Definition IMX_CI_UDC_DEVICEADDR : Z := 0x154.
Definition DEVICEADDR_ADDR (x : Z) : Z := Z.shiftl (Z.land x 0x7f) 25.
Definition DEVICEADDR_USBADRA : Z := BIT 24.
(** [IMX_CI_UDC_ENDPTCTRL1] to [7] *)
Definition IMX_CI_UDC_ENDPTCTRL (n : Z) : Z := 0x1c0 + 4 * n.
Definition IMX_CI_UDC_NO_OF_EPS : nat := 8.
Definition IMX_CI_UDC_NO_OF_DESCRIPTORS `{Kconfig} : Z := 1 + CONFIG_CM_BUF_SIZE_KiB / 20.
Definition IMX_CI_UDC_SZ_64B : Z := 0x40.
Definition IMX_CI_UDC_PAGE_SZ : Z := 4096.
Definition EPQH_CAP_IOS : Z := BIT 15.
Definition USB_EP_END : Z := 16.

(** ** Descriptors *)

(** Transfer descriptors and queue heads; [setup] as bytes. *)
Record imx_ci_udc_transfer_head := Dtd { dtd_next : Z; dtd_token : Z; dtd_page : list Z }.
Record imx_ci_udc_queue_head := Qh { qh_caps : Z; qh_current_dtd : Z; qh_next : Z; qh_token : Z; qh_setup : list Z }.

(** What the controller shares with the driver: [dtds], [dqhs] and the rest of
    memory. *)
Record ci_mem := CiMem { cm_dtds : list imx_ci_udc_transfer_head; cm_dqhs : list imx_ci_udc_queue_head; cm_ram : ram_t }.
Class CiHw (HW : Type) := {
  ci_mmio :: Mmio HW;
  mem_of : HW -> ci_mem;
  set_mem : ci_mem -> HW -> HW
}.

(** The static variables of the driver; [xfer_head] is an index into [dtds]. *)
Record ci_st (HW : Type) := CiSt {
  ci_hw : HW; imx_ci_udc_base : Z; xfer_bfr : Z; xfer_length : Z; xfer_head : option nat; xfer_ep : Z
}.
Arguments CiSt {HW}.
Arguments ci_hw {HW}.
Arguments imx_ci_udc_base {HW}.
Arguments xfer_bfr {HW}.
Arguments xfer_length {HW}.
Arguments xfer_head {HW}.
Arguments xfer_ep {HW}.

Definition set_next (v : Z) (d : imx_ci_udc_transfer_head) := Dtd v (dtd_token d) (dtd_page d).
Definition set_token (v : Z) (d : imx_ci_udc_transfer_head) := Dtd (dtd_next d) v (dtd_page d).
Definition set_page (n : nat) (v : Z) (d : imx_ci_udc_transfer_head) := Dtd (dtd_next d) (dtd_token d) (<[n := v]> (dtd_page d)).
Definition set_caps (v : Z) (q : imx_ci_udc_queue_head) := Qh v (qh_current_dtd q) (qh_next q) (qh_token q) (qh_setup q).
Definition set_qnext (v : Z) (q : imx_ci_udc_queue_head) := Qh (qh_caps q) (qh_current_dtd q) v (qh_token q) (qh_setup q).

Section driver.
Context {arch : Arch} {kc : Kconfig} {HW : Type} `{!CiHw HW}.
(** The addresses of [dtds], [dqhs] and [align_buffer]; how many polls of a
    register the model follows. *)
Context (dtds_p dqhs_p align_p : Z) (poll_fuel : nat).
Abbreviation C := (M (ci_st HW)).

Definition on_ci {A} (m : M HW A) : C A :=
  fun w => let '(a, h) := m (ci_hw w) in (a, CiSt h (imx_ci_udc_base w) (xfer_bfr w) (xfer_length w) (xfer_head w) (xfer_ep w)).
Definition creg_read (off : Z) : C Z := fun w => on_ci (mmio_read_32 (imx_ci_udc_base w + off)) w.
Definition creg_write (off v : Z) : C unit := fun w => on_ci (mmio_write_32 (imx_ci_udc_base w + off) (u32 v)) w.
Definition creg_clrset (off clear set : Z) : C unit :=
  v <- creg_read off ;; creg_write off (Z.lor (Z.land v (u32 (Z.lnot clear))) set).
Definition get_mem : C ci_mem := gets (fun w => mem_of (ci_hw w)).
Definition mod_mem (f : ci_mem -> ci_mem) : C unit := on_ci (modify (fun h => set_mem (f (mem_of h)) h)).
Definition mod_dtd (i : nat) (f : imx_ci_udc_transfer_head -> imx_ci_udc_transfer_head) : C unit :=
  mod_mem (fun m => CiMem (alter f i (cm_dtds m)) (cm_dqhs m) (cm_ram m)).
Definition mod_qh (i : nat) (f : imx_ci_udc_queue_head -> imx_ci_udc_queue_head) : C unit :=
  mod_mem (fun m => CiMem (cm_dtds m) (alter f i (cm_dqhs m)) (cm_ram m)).
(** [memcpy(dest, src, n)] *)
Definition copy_mem (dest src n : Z) : C unit :=
  mod_mem (fun m => CiMem (cm_dtds m) (cm_dqhs m) (ram_write dest (ram_read (cm_ram m) src (Z.to_nat n)) (cm_ram m))).
Definition set_xfer (bfr length : Z) (head : option nat) (ep : Z) : C unit :=
  modify (fun w => CiSt (ci_hw w) (imx_ci_udc_base w) bfr length head ep).

(** [while (stay (mmio_read_32(base + off)))]; [false] if that is still so
    after [fuel] reads. *)
Fixpoint creg_wait (fuel : nat) (off : Z) (stay : Z -> bool) : C bool :=
  match fuel with
  | O => ret false
  | S fuel => v <- creg_read off ;; if stay v then creg_wait fuel off stay else ret true
  end.
Definition has_bits (mask v : Z) : bool := negb (Z.land v mask =? 0).

Definition imx_ci_udc_reset_queues : C unit :=
  mod_mem (fun m => CiMem (cm_dtds m)
    (map (fun q => Qh 0 0 0xDEAD0001 0 (qh_setup q)) (take (IMX_CI_UDC_NO_OF_EPS * 2) (cm_dqhs m)) ++ drop (IMX_CI_UDC_NO_OF_EPS * 2) (cm_dqhs m)) (cm_ram m)) ;;;
  set_xfer 0 0 None 0.

Definition imx_ci_udc_reset : C unit :=
  creg_write IMX_CI_UDC_USBSTS 0xFFFFFFFF ;;;
  creg_write IMX_CI_UDC_ENDPTSETUPSTAT 0xFFFF ;;;
  creg_write IMX_CI_UDC_ENDPTCOMPLETE (Z.lor (Z.shiftl 0xff 16) 0xff) ;;;
  creg_wait poll_fuel IMX_CI_UDC_ENDPTPRIME (fun v => negb (v =? 0)) ;;;
  creg_write IMX_CI_UDC_ENDPTFLUSH 0xFFFFFFFF ;;;
  creg_wait poll_fuel IMX_CI_UDC_PORTSC1 (has_bits (Z.shiftl 1 8)) ;;;
  ret tt.

Definition imx_ci_udc_config_ep (ep size flags : Z) : C unit :=
  mod_qh (Z.to_nat ep) (set_caps (u32 (Z.lor (Z.lor (Z.shiftl 1 29) (Z.shiftl size 16)) flags))).

Definition imx_ci_udc_irq_process : C Z :=
  sts <- creg_read IMX_CI_UDC_USBSTS ;;
  epc <- creg_read IMX_CI_UDC_ENDPTCOMPLETE ;;
  creg_write IMX_CI_UDC_USBSTS 0xFFFFFFFF ;;;
  creg_write IMX_CI_UDC_ENDPTCOMPLETE epc ;;;
  (if negb (Z.land sts USBSTS_URI =? 0) then
     creg_write IMX_CI_UDC_ENDPTFLUSH 0x00FF00FF ;;;
     creg_wait poll_fuel IMX_CI_UDC_ENDPTFLUSH (fun v => v =? 0x00FF00FF) ;;;
     tmp <- creg_read IMX_CI_UDC_ENDPTSETUPSTAT ;;
     creg_write IMX_CI_UDC_ENDPTSETUPSTAT tmp ;;;
     tmp <- creg_read IMX_CI_UDC_ENDPTCOMPLETE ;;
     creg_write IMX_CI_UDC_ENDPTCOMPLETE tmp ;;;
     creg_write IMX_CI_UDC_DEVICEADDR 0
   else ret tt) ;;;
  (if negb (Z.land sts (BIT 1) =? 0) then creg_write IMX_CI_UDC_USBSTS 2 else ret tt) ;;;
  ret PB_OK.

(** *** Descriptors of a transfer *)

(** The five pages of descriptor [i] from page [n] on.  [align_length] is zero
    for an aligned buffer.  The code, [bytes_to_tx] and [buf_ptr]. *)
Fixpoint fill_pages (k n i : nat) (align_length bytes_to_tx buf_ptr : Z) : C (Z * Z * Z) :=
  match k with
  | O => ret (PB_OK, bytes_to_tx, buf_ptr)
  | S k =>
      let '(page, bytes_to_tx, buf_ptr) :=
        if negb (align_length =? 0) then (u32 align_p, usz (bytes_to_tx - align_length), usz (buf_ptr + align_length))
        else if IMX_CI_UDC_PAGE_SZ <=? bytes_to_tx then (u32 buf_ptr, bytes_to_tx - IMX_CI_UDC_PAGE_SZ, usz (buf_ptr + IMX_CI_UDC_PAGE_SZ))
        else (u32 buf_ptr, 0, usz (buf_ptr + bytes_to_tx)) in
      mod_dtd i (set_page n page) ;;;
      if negb (Z.land page 0xfff =? 0) then ret (- PB_ERR_ALIGN, bytes_to_tx, buf_ptr) else
      if bytes_to_tx =? 0 then mod_dtd i (fun d => set_token (Z.lor (dtd_token d) (Z.shiftl 1 15)) d) ;;; ret (PB_OK, 0, 0)
      else fill_pages k (S n) i align_length bytes_to_tx buf_ptr
  end.

(** [while (bytes_to_tx)], from descriptor [i] on: the code and the last
    descriptor.  Each turn takes one of the descriptors that are left. *)
Fixpoint fill_dtds (fuel i : nat) (align_length bytes_to_tx buf_ptr : Z) : C (Z * nat) :=
  if bytes_to_tx =? 0 then ret (PB_OK, i) else
  match fuel with
  | O => ret (- PB_ERR_MEM, i)
  | S fuel =>
      let total := if 5 * IMX_CI_UDC_PAGE_SZ <? bytes_to_tx then 5 * IMX_CI_UDC_PAGE_SZ else bytes_to_tx in
      mod_dtd i (fun d => set_token (Z.lor 0x80 (u32 (Z.shiftl total 16))) (set_next 0xDEAD0001 d)) ;;;
      let* (rc, bytes_to_tx, buf_ptr) := fill_pages 5 0 i align_length bytes_to_tx buf_ptr in
      if negb (rc =? PB_OK) then ret (rc, i) else
      if bytes_to_tx =? 0 then ret (PB_OK, i) else
      if Z.of_nat (S i) =? IMX_CI_UDC_NO_OF_DESCRIPTORS then ret (- PB_ERR_MEM, S i) else
      mod_dtd i (set_next (u32 (dtds_p + 32 * Z.of_nat (S i)))) ;;;
      fill_dtds fuel (S i) align_length bytes_to_tx buf_ptr
  end.

(** How many bytes go through the alignment buffer. *)
Definition align_len (bfr length : Z) : Z :=
  if (0 <? length) && negb (Z.land bfr 0xfff =? 0)
  then if 4096 <? length then Z.land (4096 - Z.land bfr 0xfff) 0xfff else length
  else 0.
Definition ep_bit (ep : Z) : Z :=
  if negb (Z.land ep 1 =? 0) then Z.shiftl 1 ((ep - 1) / 2 + 16) else Z.shiftl 1 (ep / 2).

Definition imx_ci_udc_xfer_start (ep bfr length : Z) : C Z :=
  if USB_EP_END <=? ep then ret (- PB_ERR_PARAM) else
  (if length =? 0 then mod_dtd 0 (fun d => set_token (Z.lor 0x80 (Z.shiftl 1 15)) (set_next 0xDEAD0001 d)) else ret tt) ;;;
  let align_length := align_len bfr length in
  (if negb (align_length =? 0) && (Z.land ep 1 =? 1) then copy_mem align_p bfr align_length else ret tt) ;;;
  let* (rc, last) := fill_dtds (Z.to_nat IMX_CI_UDC_NO_OF_DESCRIPTORS) 0 align_length length bfr in
  if negb (rc =? PB_OK) then ret rc else
  mod_qh (Z.to_nat ep) (set_qnext (u32 dtds_p)) ;;;
  creg_write IMX_CI_UDC_ENDPTPRIME (ep_bit ep) ;;;
  creg_wait poll_fuel IMX_CI_UDC_ENDPTPRIME (has_bits (ep_bit ep)) ;;;
  set_xfer bfr length (Some last) ep ;;;
  ret PB_OK.

Definition imx_ci_udc_xfer_complete (ep : Z) : C Z :=
  if USB_EP_END <=? ep then ret (- PB_ERR_PARAM) else
  rc <- imx_ci_udc_irq_process ;;
  if negb (rc =? PB_OK) then ret rc else
  w <- get ;;
  match xfer_head w with
  | None => ret (- PB_ERR)
  | Some i =>
      m <- get_mem ;;
      if negb (Z.land (default 0 (dtd_token <$> cm_dtds m !! i)) 0x80 =? 0) then ret (- PB_ERR_AGAIN) else
      let align_length := align_len (xfer_bfr w) (xfer_length w) in
      (if negb (align_length =? 0) && (Z.land ep 1 =? 0) then copy_mem (xfer_bfr w) align_p align_length else ret tt) ;;;
      ret PB_OK
  end.

Definition imx_ci_udc_flush_ep (ep : Z) : C unit :=
  if negb ((0 <=? ep) && (ep <? USB_EP_END)) then ret tt else
  let idx := ep / 2 in
  let flush_cmd := Z.lor (Z.shiftl 1 (16 + idx)) (Z.shiftl 1 idx) in
  creg_write IMX_CI_UDC_ENDPTFLUSH flush_cmd ;;;
  creg_wait poll_fuel IMX_CI_UDC_ENDPTFLUSH (has_bits flush_cmd) ;;;
  ret tt.

(** [no_of_eps] is the length of the array; the type is [bmAttributes + 1], of
    which one to four are valid. *)
Fixpoint imx_ci_udc_set_configuration (eps : list usb_endpoint_descriptor) : C Z :=
  match eps with
  | [] => ret PB_OK
  | e :: eps =>
      let ep_in := negb (Z.land (ep_bEndpointAddress e) 0x80 =? 0) in
      let ep := Z.land (ep_bEndpointAddress e) 0x7f * 2 + (if ep_in then 1 else 0) in
      let ep_type := ep_bmAttributes e in
      if negb (ep_type <? 4) then ret (- PB_ERR_PARAM) else
      if negb ((2 <=? ep) && (ep <? USB_EP_END)) then ret (- PB_ERR_PARAM) else
      let ep_reg := if ep_in then Z.lor (Z.lor (Z.shiftl 1 23) (Z.shiftl ep_type 18)) (Z.shiftl 1 6)
                    else Z.lor (Z.lor (Z.shiftl 1 7) (Z.shiftl ep_type 2)) (Z.shiftl 1 6) in
      creg_write (IMX_CI_UDC_ENDPTCTRL (ep / 2)) ep_reg ;;;
      imx_ci_udc_config_ep ep (ep_wMaxPacketSize e) 0 ;;;
      imx_ci_udc_set_configuration eps
  end.

(** [do ... while (!(mmio_read_32(CMD) & CMD_SUTW))]: the packet of the last
    turn. *)
Fixpoint setup_loop (fuel : nat) (pkt : list Z) : C (list Z) :=
  match fuel with
  | O => ret pkt
  | S fuel =>
      creg_clrset IMX_CI_UDC_CMD 0 CMD_SUTW ;;;
      m <- get_mem ;;
      let pkt := take 8 (default [] (qh_setup <$> cm_dqhs m !! Z.to_nat USB_EP0_OUT)) in
      v <- creg_read IMX_CI_UDC_CMD ;;
      if Z.land v CMD_SUTW =? 0 then setup_loop fuel pkt else ret pkt
  end.
Definition imx_ci_udc_poll_setup_pkt : C (Z * list Z) :=
  stat <- creg_read IMX_CI_UDC_ENDPTSETUPSTAT ;;
  if negb (Z.land stat 1 =? 0) then
    pkt <- setup_loop poll_fuel [] ;;
    creg_write IMX_CI_UDC_ENDPTSETUPSTAT 1 ;;;
    creg_clrset IMX_CI_UDC_CMD CMD_SUTW 0 ;;;
    creg_write IMX_CI_UDC_ENDPTFLUSH (Z.lor (Z.shiftl 1 16) 1) ;;;
    creg_wait poll_fuel IMX_CI_UDC_ENDPTSETUPSTAT (has_bits 1) ;;;
    ret (PB_OK, pkt)
  else imx_ci_udc_irq_process ;;; ret (- PB_ERR_AGAIN, []).

Definition imx_ci_udc_init_internal : C Z :=
  creg_clrset IMX_CI_UDC_CMD 0 CMD_RST ;;;
  creg_wait poll_fuel IMX_CI_UDC_CMD (has_bits CMD_RST) ;;;
  imx_ci_udc_reset_queues ;;;
  creg_write IMX_CI_UDC_DEVICEADDR 0 ;;;
  imx_ci_udc_config_ep USB_EP0_IN IMX_CI_UDC_SZ_64B 0 ;;;
  imx_ci_udc_config_ep USB_EP0_OUT IMX_CI_UDC_SZ_64B EPQH_CAP_IOS ;;;
  creg_write IMX_CI_UDC_ENDPTLISTADDR (u32 dqhs_p) ;;;
  creg_write IMX_CI_UDC_USB_MODE (Z.lor (Z.lor USB_MODE_SDIS USB_MODE_SLOM) USB_MODE_CM_DEVICE) ;;;
  creg_write IMX_CI_UDC_CMD (Z.lor (CMD_ITC 0x40) CMD_RS) ;;;
  imx_ci_udc_reset ;;;
  ret PB_OK.

Definition imx_ci_udc_set_address (addr : Z) : C Z :=
  creg_write IMX_CI_UDC_DEVICEADDR (Z.lor (DEVICEADDR_ADDR addr) DEVICEADDR_USBADRA) ;;; ret PB_OK.

Definition imx_ci_udc_stop : C Z :=
  creg_clrset IMX_CI_UDC_CMD CMD_RS 0 ;;;
  imx_ci_udc_reset_queues ;;;
  imx_ci_udc_reset ;;;
  creg_write IMX_CI_UDC_DEVICEADDR 0 ;;;
  creg_clrset IMX_CI_UDC_CMD 0 CMD_RST ;;;
  creg_wait poll_fuel IMX_CI_UDC_CMD (has_bits CMD_RST) ;;;
  ret PB_OK.

(** [do rc = xfer_complete(ep); while (rc == -PB_ERR_AGAIN)] *)
Fixpoint udc_complete_loop (fuel : nat) (ep : Z) : C Z :=
  match fuel with
  | O => ret (- PB_ERR_TIMEOUT)
  | S fuel => rc <- imx_ci_udc_xfer_complete ep ;; if rc =? - PB_ERR_AGAIN then udc_complete_loop fuel ep else ret rc
  end.
Definition imx_ci_udc_xfer_zlp (ep : Z) : C Z :=
  rc <- imx_ci_udc_xfer_start ep 0 0 ;;
  if negb (rc =? PB_OK) then ret rc else udc_complete_loop poll_fuel ep.

(** [register]: [usbd_init_hal_ops] with the functions above. *)
Definition imx_ci_udc_init (register : C Z) (base : Z) : C Z :=
  modify (fun w => CiSt (ci_hw w) base (xfer_bfr w) (xfer_length w) (xfer_head w) (xfer_ep w)) ;;; register.
End driver.
