(* ===== verification/ImxUdcDev.v ===== *)
(** * The controller of [ImxUdc]

    A controller that follows a primed chain of descriptors after any delay
    and moves the bytes between memory and the host, and the proof that a
    transfer of the driver moves exactly the buffer it was given. *)

From stdpp Require Import list_numbers.
From S2P Require Import Prelude Errors Ram Usb Ocotp Usdhc ImxUdc.
Local Open Scope c_scope.

(** ** Device *)

(** The addresses a descriptor stands for: from each of its pages up to the
    end of the page, as many bytes as the token says. *)
Definition page_addrs (p : Z) : list Z := seqZ p (4096 - p mod 4096).
Definition dtd_total (d : imx_ci_udc_transfer_head) : Z := Z.land (Z.shiftr (dtd_token d) 16) 0x7fff.
Definition dtd_addrs (d : imx_ci_udc_transfer_head) : list Z :=
  take (Z.to_nat (dtd_total d)) (concat (map page_addrs (dtd_page d))).

Section chain.
Context (dtds_p : Z).

(** The chain that begins at address [next]; an odd address ends it. *)
Fixpoint chain_addrs (fuel : nat) (ds : list imx_ci_udc_transfer_head) (next : Z) : list Z :=
  match fuel with
  | O => []
  | S fuel =>
      if Z.odd next then [] else
      match ds !! Z.to_nat ((next - dtds_p) / 32) with
      | Some d => dtd_addrs d ++ chain_addrs fuel ds (dtd_next d)
      | None => []
      end
  end.
End chain.

(** [dv_out]: what the host will send; [dv_in]: what it has received;
    [dv_lat]: for how many more polls the primed endpoint stays busy. *)
Record ci_dev := CiDev {
  dv_mem : ci_mem; dv_primed : option Z; dv_lat : nat; dv_out : list Z; dv_in : list Z
}.

Section device.
Context (dtds_p base : Z) (latency : nat).

Definition scatter (addrs data : list Z) (r : ram_t) : ram_t :=
  foldl (fun r '(a, b) => ram_write a [b] r) r (zip addrs data).

Definition retired (d : imx_ci_udc_transfer_head) := set_token (Z.ldiff (dtd_token d) 0x80) d.

(** The whole transfer of endpoint [ep]. *)
Definition transfer (ep : Z) (v : ci_dev) : ci_dev :=
  let m := dv_mem v in
  let addrs := chain_addrs dtds_p (length (cm_dtds m)) (cm_dtds m) (default 1 (qh_next <$> cm_dqhs m !! Z.to_nat ep)) in
  let ds := map retired (cm_dtds m) in
  if Z.odd ep
  then CiDev (CiMem ds (cm_dqhs m) (cm_ram m)) None 0 (dv_out v) (dv_in v ++ map (cm_ram m) addrs)
  else CiDev (CiMem ds (cm_dqhs m) (scatter addrs (dv_out v) (cm_ram m))) None 0 (drop (length addrs) (dv_out v)) (dv_in v).

Definition ci_read (a : Z) (v : ci_dev) : Z * ci_dev :=
  if a - base =? IMX_CI_UDC_USBSTS then
    match dv_primed v, dv_lat v with
    | None, _ => (0, v)
    | Some ep, O => (0, transfer ep v)
    | Some ep, S n => (0, CiDev (dv_mem v) (Some ep) n (dv_out v) (dv_in v))
    end
  else (0, v).

Definition ep_of_bit (bit : Z) : option Z := List.find (fun ep => ep_bit ep =? bit) (map Z.of_nat (seq 0 16)).

Definition ci_write (a x : Z) (v : ci_dev) : unit * ci_dev :=
  if a - base =? IMX_CI_UDC_ENDPTPRIME then (tt, CiDev (dv_mem v) (ep_of_bit x) latency (dv_out v) (dv_in v)) else (tt, v).

Definition ci_mmio_dev : Mmio ci_dev := {| mmio_read_32 := ci_read; mmio_write_32 := ci_write |}.
Definition ci_dev_hw : CiHw ci_dev := {|
  ci_mmio := ci_mmio_dev;
  mem_of := dv_mem;
  set_mem m v := CiDev m (dv_primed v) (dv_lat v) (dv_out v) (dv_in v)
|}.
End device.

(** ** Addresses *)

Lemma seqZ_app_eq p a b : 0 <= a -> 0 <= b -> seqZ p a ++ seqZ (p + a) b = seqZ p (a + b).
Proof. intros. by rewrite seqZ_app. Qed.

Lemma take_seqZ p a n : 0 <= n <= a -> take (Z.to_nat n) (seqZ p a) = seqZ p n.
Proof.
  intros H. replace a with (n + (a - n)) by lia. rewrite <- seqZ_app_eq by lia.
  rewrite take_app_length'; [done|rewrite length_seqZ; lia].
Qed.

(** Pages that follow each other are one range. *)
Lemma concat_pages p m : p mod 4096 = 0 -> concat (map page_addrs (map (fun j => p + 4096 * Z.of_nat j) (seq 0 m))) = seqZ p (4096 * Z.of_nat m).
Proof.
  intros Hp. induction m as [|m IH]; [done|]. rewrite seq_S, !map_app, concat_app, IH. cbn [map concat Nat.add].
  rewrite app_nil_r. unfold page_addrs. replace ((p + 4096 * Z.of_nat m) mod 4096) with 0 by (Z.div_mod_to_equations; lia).
  rewrite seqZ_app_eq by lia. f_equal. lia.
Qed.

Lemma pages_prefix p m (l : list Z) : (forall j, (j < m)%nat -> l !! j = Some (p + 4096 * Z.of_nat j)) ->
  exists rest, l = map (fun j => p + 4096 * Z.of_nat j) (seq 0 m) ++ rest.
Proof.
  intros H. exists (drop m l). rewrite <- (take_drop m l) at 1. f_equal. apply list_eq. intros i.
  change (map ?f ?l) with (f <$> l). rewrite list_lookup_fmap. destruct (decide (i < m)%nat) as [Hi|Hi].
  - rewrite lookup_take_lt, H, lookup_seq_lt by done. done.
  - rewrite lookup_take_ge, lookup_seq_ge by lia. done.
Qed.

(** A descriptor whose pages follow each other. *)
Lemma dtd_addrs_range p total d : p mod 4096 = 0 -> 0 <= total <= 20480 -> dtd_total d = total ->
  (forall j, (j < 5)%nat -> 4096 * Z.of_nat j < total -> dtd_page d !! j = Some (p + 4096 * Z.of_nat j)) -> dtd_addrs d = seqZ p total.
Proof.
  intros Hp Ht Hd Hpages. unfold dtd_addrs. rewrite Hd.
  set (m := Z.to_nat ((total + 4095) / 4096)).
  assert (total <= 4096 * Z.of_nat m < total + 4096) by (unfold m; Z.div_mod_to_equations; lia).
  destruct (pages_prefix p m (dtd_page d)) as [rest ->]; [intros j Hj; apply Hpages; lia|].
  rewrite map_app, concat_app, concat_pages by done.
  rewrite take_app_le by (rewrite length_seqZ; lia). apply take_seqZ. lia.
Qed.

Lemma map_seqZ (r : ram_t) a n : map r (seqZ a n) = ram_read r a (Z.to_nat n).
Proof. unfold seqZ, ram_read. change (?f <$> ?l) with (map f l). rewrite map_map. apply map_ext. intros i. f_equal. lia. Qed.

Lemma ram_write_cons a b data r x : ram_write (a + 1) data (ram_write a [b] r) x = ram_write a (b :: data) r x.
Proof.
  unfold ram_write. cbn [length]. destruct (decide (x = a)) as [->|Hne].
  - rewrite (proj2 (Z.leb_gt (a + 1) a)), Z.leb_refl, !(proj2 (Z.ltb_lt a _)), Z.sub_diag by lia. done.
  - destruct (Z.leb_spec a x).
    + replace (a + 1 + Z.of_nat (length data)) with (a + Z.of_nat (S (length data))) by lia. rewrite (proj2 (Z.leb_le (a + 1) x)) by lia.
      destruct (x <? a + Z.of_nat (S (length data))); cbn [andb].
      * replace (Z.to_nat (x - a)) with (S (Z.to_nat (x - (a + 1)))) by lia. done.
      * by rewrite (proj2 (Z.ltb_ge x _)) by lia.
    + by rewrite (proj2 (Z.leb_gt (a + 1) x)) by lia.
Qed.

(** Bytes that follow each other are scattered as one block. *)
Lemma scatter_range data : forall a rest r x, scatter (seqZ a (Z.of_nat (length data))) (data ++ rest) r x = ram_write a data r x.
Proof.
  induction data as [|b data IH]; intros a rest r x; [change (r x = ram_write a [] r x); rewrite ram_write_out; [done|cbn; lia]|].
  cbn [length]. rewrite seqZ_cons by lia. cbn [app]. unfold scatter in *. cbn [zip_with zip foldl].
  replace (Z.pred (Z.of_nat (S (length data)))) with (Z.of_nat (length data)) by lia. rewrite IH.
  replace (Z.succ a) with (a + 1) by lia. apply ram_write_cons.
Qed.

(** ** Filling the descriptors *)

Section fill.
Context {arch : Arch} {kc : Kconfig} (dtds_p dqhs_p align_p base : Z) (latency poll_fuel : nat).
#[local] Instance hw : CiHw ci_dev := ci_dev_hw dtds_p base latency.
#[local] Abbreviation st := (ci_st ci_dev).

Definition dtds (w : st) : list imx_ci_udc_transfer_head := cm_dtds (dv_mem (ci_hw w)).
Definition put_mem (m : ci_mem) (w : st) : st :=
  let v := ci_hw w in
  CiSt (CiDev m (dv_primed v) (dv_lat v) (dv_out v) (dv_in v)) (imx_ci_udc_base w) (xfer_bfr w) (xfer_length w) (xfer_head w) (xfer_ep w).
Definition put_dtds (ds : list imx_ci_udc_transfer_head) (w : st) : st :=
  put_mem (CiMem ds (cm_dqhs (dv_mem (ci_hw w))) (cm_ram (dv_mem (ci_hw w)))) w.

Lemma mod_dtd_run i f w d : dtds w !! i = Some d -> mod_dtd i f w = (tt, put_dtds (<[i := f d]> (dtds w)) w).
Proof.
  intros H. unfold mod_dtd, mod_mem, on_ci, modify, put_dtds, put_mem. cbn.
  change (cm_dtds (dv_mem (ci_hw w))) with (dtds w). do 4 f_equal.
  apply list_eq. intros j. destruct (decide (i = j)) as [<-|Hn].
  - rewrite list_lookup_alter_eq, H, list_lookup_insert_eq; [done|]. by eapply lookup_lt_Some.
  - by rewrite list_lookup_alter_ne, list_lookup_insert_ne.
Qed.

Lemma put_dtds_put ds ds' w : put_dtds ds (put_dtds ds' w) = put_dtds ds w.
Proof. done. Qed.
Lemma dtds_put ds w : dtds (put_dtds ds w) = ds.
Proof. done. Qed.

(** The pages of one descriptor over an aligned buffer. *)
Lemma fill_pages_ok k : forall n i b p w d, dtds w !! i = Some d -> length (dtd_page d) = 5%nat -> (n + k = 5)%nat ->
  p mod 4096 = 0 -> 0 < b -> 0 <= p -> p + b <= 2 ^ 32 ->
  exists d' p', fill_pages align_p k n i 0 b p w =
      ((PB_OK, (if b <=? 4096 * Z.of_nat k then 0 else b - 4096 * Z.of_nat k), p'), put_dtds (<[i := d']> (dtds w)) w) /\
    dtd_next d' = dtd_next d /\ length (dtd_page d') = 5%nat /\ (4096 * Z.of_nat k < b -> p' = p + 4096 * Z.of_nat k) /\
    dtd_token d' = (if b <=? 4096 * Z.of_nat k then Z.lor (dtd_token d) 0x8000 else dtd_token d) /\
    (forall j, (j < n)%nat -> dtd_page d' !! j = dtd_page d !! j) /\
    (forall j, (j < k)%nat -> 4096 * Z.of_nat j < b -> dtd_page d' !! (n + j)%nat = Some (p + 4096 * Z.of_nat j)).
Proof.
  assert (2 ^ 32 <= 2 ^ ptr_bits) by (destruct ptr_bits_ok as [-> | ->]; lia).
  induction k as [|k IH]; intros n i b p w d Hi Hl Hk Hp Hb Hp0 Hpb.
  { exists d, p. cbn [fill_pages]. rewrite (proj2 (Z.leb_gt _ _)) by lia. unfold ret. rewrite list_insert_id by done.
    split_and!; try done; try lia. f_equal; [f_equal; f_equal; lia|]. by destruct w as [[[] ? ? ? ?] ? ? ? ? ?]. }
  assert (u32 p = p) as Hu by (apply Z.mod_small; lia).
  assert (Z.land p 4095 = 0) as Hand by (change 4095 with (Z.ones 12); by rewrite Z.land_ones).
  set (d1 := set_page n p d).
  assert (forall f, mod_dtd i f (put_dtds (<[i := d1]> (dtds w)) w) = (tt, put_dtds (<[i := f d1]> (dtds w)) w)) as Hmod.
  { intros f. rewrite (mod_dtd_run i f _ d1); [by rewrite dtds_put, put_dtds_put, list_insert_insert_eq|].
    rewrite dtds_put. apply list_lookup_insert_eq. by eapply lookup_lt_Some. }
  assert (Hn : dtd_page d1 !! n = Some p) by (apply list_lookup_insert_eq; lia).
  assert (Ho : forall j, (j < n)%nat -> dtd_page d1 !! j = dtd_page d !! j) by (intros; apply list_lookup_insert_ne; lia).
  assert (Hl1 : length (dtd_page d1) = 5%nat) by (cbn; by rewrite length_insert).
  destruct (Z.leb_spec b 4096) as [Hle|Hgt].
  - assert (Hrun : fill_pages align_p (S k) n i 0 b p w = ((PB_OK, 0, 0), put_dtds (<[i := set_token (Z.lor (dtd_token d1) 0x8000) d1]> (dtds w)) w)).
    { cbn [fill_pages]. cbn [Z.eqb negb]. unfold IMX_CI_UDC_PAGE_SZ.
      destruct (Z.leb_spec 4096 b) as [Hge|Hlt]; cbv beta iota; rewrite Hu; unfold bind;
        rewrite (mod_dtd_run i _ w d Hi), Hand; cbn [Z.eqb negb]; fold d1; [rewrite (proj2 (Z.eqb_eq (b - 4096) 0)) by lia|];
        rewrite Hmod; done. }
    eexists _, _. rewrite Hrun. rewrite (proj2 (Z.leb_le _ _)) by lia. split_and!; try done; try lia.
    intros j Hj Hjb. assert (j = 0%nat) as -> by lia. rewrite Nat.add_0_r, Z.add_0_r. done.
  - cbn [fill_pages]. cbn [Z.eqb negb]. unfold IMX_CI_UDC_PAGE_SZ. rewrite (proj2 (Z.leb_le 4096 b)) by lia. cbv beta iota.
    rewrite Hu. unfold bind. rewrite (mod_dtd_run i _ w d Hi), Hand. cbn [Z.eqb negb]. fold d1.
    rewrite (proj2 (Z.eqb_neq (b - 4096) 0)) by lia.
    assert (usz (p + 4096) = p + 4096) as -> by (apply Z.mod_small; lia).
    destruct (IH (S n) i (b - 4096) (p + 4096) (put_dtds (<[i := d1]> (dtds w)) w) d1) as (d' & p' & E & H1 & H2 & H3 & H4 & H5 & H6);
      [rewrite dtds_put; apply list_lookup_insert_eq; by eapply lookup_lt_Some|done|lia|Z.div_mod_to_equations; lia|lia|lia|lia|].
    rewrite E, dtds_put, put_dtds_put, list_insert_insert_eq. exists d', p'.
    replace (b <=? 4096 * Z.of_nat (S k)) with (b - 4096 <=? 4096 * Z.of_nat k) by (apply eq_true_iff_eq; rewrite !Z.leb_le; lia).
    split_and!; try done.
    + do 2 f_equal. f_equal. case_match; lia.
    + intros Hb'. rewrite H3 by lia. lia.
    + intros j Hj. rewrite H5 by lia. by apply Ho.
    + intros j Hj Hjb. destruct j as [|j]; [rewrite Nat.add_0_r, Z.add_0_r, H5 by lia; done|].
      replace (n + S j)%nat with (S n + j)%nat by lia. rewrite H6 by lia. f_equal. lia.
Qed.

Definition dtds_wf (ds : list imx_ci_udc_transfer_head) : Prop :=
  Z.of_nat (length ds) = IMX_CI_UDC_NO_OF_DESCRIPTORS /\ Forall (fun d => length (dtd_page d) = 5%nat) ds.
Definition active (d : imx_ci_udc_transfer_head) : bool := negb (Z.land (dtd_token d) 0x80 =? 0).

Lemma dtds_wf_lookup ds i : dtds_wf ds -> Z.of_nat i < IMX_CI_UDC_NO_OF_DESCRIPTORS -> exists d, ds !! i = Some d /\ length (dtd_page d) = 5%nat.
Proof.
  intros [Hl Hf] Hi. destruct (lookup_lt_is_Some_2 ds i) as [d Hd]; [lia|]. exists d. split; [done|]. by eapply (Forall_lookup_1 _ _ _ _ Hf).
Qed.

Lemma dtds_wf_insert ds i d : dtds_wf ds -> length (dtd_page d) = 5%nat -> dtds_wf (<[i := d]> ds).
Proof. intros [Hl Hf] Hd. split; [by rewrite length_insert|by apply Forall_insert]. Qed.

(** The token of a descriptor of [total] bytes, with or without the flag of the
    last one. *)
Lemma token_total total flag : 0 <= total <= 20480 -> flag = 0 \/ flag = 0x8000 ->
  let t := Z.lor (Z.lor 0x80 (u32 (Z.shiftl total 16))) flag in
  Z.land (Z.shiftr t 16) 0x7fff = total /\ Z.land t 0x80 <> 0.
Proof.
  intros Ht Hf t. assert (u32 (Z.shiftl total 16) = Z.shiftl total 16) as Hu
    by (unfold u32; rewrite Z.shiftl_mul_pow2 by lia; apply Z.mod_small; lia).
  unfold t. rewrite Hu. split.
  - rewrite !Z.shiftr_lor, Z.shiftr_shiftl_l by lia. replace (Z.shiftr flag 16) with 0 by (by destruct Hf; subst).
    change (Z.shiftr 128 16) with 0. rewrite Z.lor_0_r, Z.lor_0_l. change 0x7fff with (Z.ones 15). rewrite Z.land_ones by lia.
    change (16 - 16) with 0. rewrite Z.shiftl_0_r. apply Z.mod_small. lia.
  - rewrite !Z.land_lor_distr_l. change (Z.land 128 128) with 128. intros H%Z.lor_eq_0_iff. destruct H as [H%Z.lor_eq_0_iff _]. by destruct H.
Qed.

Hypothesis Haligned : dtds_p mod 32 = 0.
Hypothesis Hlow : 0 <= dtds_p /\ dtds_p + 32 * IMX_CI_UDC_NO_OF_DESCRIPTORS <= 2 ^ 32.

Lemma chain_step fuel ds i d : ds !! i = Some d ->
  chain_addrs dtds_p (S fuel) ds (dtds_p + 32 * Z.of_nat i) = dtd_addrs d ++ chain_addrs dtds_p fuel ds (dtd_next d).
Proof.
  intros Hd. cbn [chain_addrs]. replace (Z.odd (dtds_p + 32 * Z.of_nat i)) with false.
  - replace (Z.to_nat _) with i by (replace (dtds_p + 32 * Z.of_nat i - dtds_p) with (Z.of_nat i * 32) by lia; rewrite Z.div_mul; lia). by rewrite Hd.
  - symmetry. apply not_true_is_false. rewrite Z.odd_spec. intros [k Hk]. Z.div_mod_to_equations. lia.
Qed.

Lemma chain_end fuel ds : chain_addrs dtds_p fuel ds 0xDEAD0001 = [].
Proof. by destruct fuel. Qed.

Lemma fill_dtds_ok fuel : forall i b p w, Z.of_nat (i + fuel) = IMX_CI_UDC_NO_OF_DESCRIPTORS -> 0 < b <= 20480 * Z.of_nat fuel ->
  p mod 4096 = 0 -> 0 <= p -> p + b <= 2 ^ 32 -> dtds_wf (dtds w) ->
  exists ds last d, fill_dtds dtds_p align_p fuel i 0 b p w = ((PB_OK, last), put_dtds ds w) /\ dtds_wf ds /\
    (forall j, (j < i)%nat -> ds !! j = dtds w !! j) /\ ds !! last = Some d /\ active d = true /\
    chain_addrs dtds_p fuel ds (dtds_p + 32 * Z.of_nat i) = seqZ p b.
Proof.
  induction fuel as [|fuel IH]; intros i b p w Hi Hb Hp Hp0 Hpb Hwf; [lia|]. cbn [fill_dtds].
  rewrite (proj2 (Z.eqb_neq b 0)) by lia. cbv zeta. unfold IMX_CI_UDC_PAGE_SZ. change (5 * 4096) with 20480.
  set (total := if 20480 <? b then 20480 else b). assert (Ht : 0 < total <= 20480 /\ total <= b) by (unfold total; destruct (Z.ltb_spec 20480 b); lia).
  destruct (dtds_wf_lookup (dtds w) i) as (d & Hd & Hl); [done|lia|]. assert (Hlt : (i < length (dtds w))%nat) by (by eapply lookup_lt_Some).
  unfold bind at 1. rewrite (mod_dtd_run i _ w d Hd). set (d0 := set_token _ (set_next _ d)).
  destruct (fill_pages_ok 5 0 i b p (put_dtds (<[i := d0]> (dtds w)) w) d0) as (d1 & p' & E & Hn1 & Hl1 & Hp' & Ht1 & _ & Hpg);
    [rewrite dtds_put; by apply list_lookup_insert_eq|done|lia|done|lia|lia|lia|].
  change (4096 * Z.of_nat 5) with 20480 in *.
  unfold bind at 1. rewrite E, dtds_put, put_dtds_put, list_insert_insert_eq. cbn [PB_OK Z.eqb negb].
  assert (Htok : dtd_total d1 = total /\ active d1 = true).
  { unfold dtd_total, active. rewrite Ht1. destruct (token_total total 0 ltac:(lia) (or_introl eq_refl)) as [A1 A2].
    destruct (token_total total 0x8000 ltac:(lia) (or_intror eq_refl)) as [B1 B2].
    rewrite Z.lor_0_r in A1, A2. cbn [d0 dtd_token set_token set_next]. destruct (b <=? 20480); (split; [done|]); by apply negb_true_iff, Z.eqb_neq. }
  assert (Ha : dtd_addrs d1 = seqZ p total).
  { apply dtd_addrs_range; [done|lia|apply Htok|]. intros j Hj Hjt. apply (Hpg j Hj). lia. }
  destruct (Z.leb_spec b 20480) as [Hle|Hgt].
  - cbn [Z.eqb]. exists (<[i := d1]> (dtds w)), i, d1. split_and!; try done.
    + by apply dtds_wf_insert.
    + intros j Hj. apply list_lookup_insert_ne. lia.
    + by apply list_lookup_insert_eq.
    + apply Htok.
    + rewrite (chain_step _ _ _ d1) by (by apply list_lookup_insert_eq). rewrite Hn1, Ha. cbn [d0 set_token dtd_next set_next]. rewrite chain_end, app_nil_r.
      f_equal. unfold total. rewrite (proj2 (Z.ltb_ge 20480 b)) by lia. done.
  - rewrite (proj2 (Z.eqb_neq (b - 20480) 0)) by lia. rewrite (proj2 (Z.eqb_neq (Z.of_nat (S i)) _)) by lia.
    unfold bind. rewrite (mod_dtd_run i _ _ d1) by (rewrite dtds_put; by apply list_lookup_insert_eq).
    rewrite dtds_put, put_dtds_put, list_insert_insert_eq. set (d2 := set_next _ d1).
    rewrite Hp' by lia.
    destruct (IH (S i) (b - 20480) (p + 20480) (put_dtds (<[i := d2]> (dtds w)) w)) as (ds & last & dl & E2 & Hwf2 & Hpre & Hlast & Hact & Hch);
      [lia|lia|Z.div_mod_to_equations; lia|lia|lia|rewrite dtds_put; by apply dtds_wf_insert|].
    exists ds, last, dl. rewrite E2, put_dtds_put. rewrite dtds_put in Hpre. split_and!; try done.
    + intros j Hj. rewrite Hpre by lia. apply list_lookup_insert_ne. lia.
    + rewrite (chain_step _ _ _ d2) by (rewrite Hpre by lia; by apply list_lookup_insert_eq). cbn [d2 set_next dtd_next].
      change (dtd_addrs d2) with (dtd_addrs d1). rewrite Ha. unfold u32. rewrite Z.mod_small by lia. rewrite Hch.
      unfold total. rewrite (proj2 (Z.ltb_lt 20480 b)) by lia. rewrite seqZ_app_eq by lia. f_equal. lia.
Qed.

Hypothesis Halign_p : align_p mod 4096 = 0 /\ 0 <= align_p /\ align_p + 4096 <= 2 ^ 32.

(** A small buffer that is not aligned: one page, the alignment buffer. *)
Lemma fill_small fuel n p w d : 0 < n <= 4096 -> dtds w !! 0%nat = Some d -> length (dtd_page d) = 5%nat ->
  exists d', fill_dtds dtds_p align_p (S fuel) 0 n n p w = ((PB_OK, 0%nat), put_dtds (<[0%nat := d']> (dtds w)) w) /\
    length (dtd_page d') = 5%nat /\ active d' = true /\ dtd_next d' = 0xDEAD0001 /\ dtd_addrs d' = seqZ align_p n.
Proof.
  destruct Halign_p as (Ha & Ha0 & Ha1). intros Hn Hd Hl. assert (0 < length (dtds w))%nat by (by eapply lookup_lt_Some).
  cbn [fill_dtds]. rewrite (proj2 (Z.eqb_neq n 0)) by lia. cbv zeta.
  rewrite (proj2 (Z.ltb_ge _ n)) by (unfold IMX_CI_UDC_PAGE_SZ; lia).
  unfold bind at 1. rewrite (mod_dtd_run 0 _ w d Hd). set (d0 := set_token _ (set_next _ d)). cbn [fill_pages].
  rewrite (proj2 (Z.eqb_neq n 0)) by lia. cbn [negb]. rewrite Z.sub_diag. change (usz 0) with (0 mod 2 ^ ptr_bits). rewrite Zmod_0_l.
  assert (u32 align_p = align_p) as -> by (apply Z.mod_small; lia). unfold bind.
  rewrite (mod_dtd_run 0 _ _ d0) by (rewrite dtds_put; by apply list_lookup_insert_eq). rewrite dtds_put, put_dtds_put, list_insert_insert_eq.
  change 4095 with (Z.ones 12). rewrite Z.land_ones by lia. change (2 ^ 12) with 4096. rewrite Ha. cbn [Z.eqb negb].
  rewrite (mod_dtd_run 0 _ _ (set_page 0 align_p d0)) by (rewrite dtds_put; by apply list_lookup_insert_eq).
  rewrite dtds_put, put_dtds_put, list_insert_insert_eq. cbn [PB_OK Z.eqb negb]. eexists. split; [reflexivity|].
  destruct (token_total n 0x8000 ltac:(lia) (or_intror eq_refl)) as [Ht Hact].
  split_and!; [cbn; by rewrite length_insert|by apply negb_true_iff, Z.eqb_neq|done|].
  apply dtd_addrs_range; [done|lia|done|]. intros j Hj Hjn. assert (j = 0%nat) as -> by lia. cbn [Z.of_nat Z.mul]. rewrite Z.add_0_r.
  apply list_lookup_insert_eq. cbn. lia.
Qed.

(** ** A transfer *)

Definition ci_ram (w : st) : ram_t := cm_ram (dv_mem (ci_hw w)).
Record ci_ready (w : st) : Prop := {
  rd_base : imx_ci_udc_base w = base;
  rd_dtds : dtds_wf (dtds w);
  rd_dqhs : length (cm_dqhs (dv_mem (ci_hw w))) = 16%nat
}.

Lemma ep_of_bit_ok ep : 0 <= ep < 16 -> ep_of_bit (u32 (ep_bit ep)) = Some ep.
Proof.
  intros H. assert (forallb (fun ep => bool_decide (ep_of_bit (u32 (ep_bit ep)) = Some ep)) (map Z.of_nat (seq 0 16)) = true) as Hall by reflexivity.
  rewrite forallb_forall in Hall. apply (bool_decide_eq_true_1 _), Hall, in_map_iff. exists (Z.to_nat ep). rewrite in_seq. lia.
Qed.

(** Where the controller finds the bytes. *)
Definition dma_target (bfr length : Z) : Z := if bfr mod 4096 =? 0 then bfr else if length =? 0 then bfr else align_p.

(** The state once endpoint [ep] is primed, [n] polls before the end. *)
Record primed (n : nat) (ep bfr len : Z) (w w1 : st) : Prop := {
  pr_ready : ci_ready w1;
  pr_ep : dv_primed (ci_hw w1) = Some ep;
  pr_lat : dv_lat (ci_hw w1) = n;
  pr_host : dv_out (ci_hw w1) = dv_out (ci_hw w) /\ dv_in (ci_hw w1) = dv_in (ci_hw w);
  pr_xfer : xfer_bfr w1 = bfr /\ xfer_length w1 = len;
  pr_head : exists last d, xfer_head w1 = Some last /\ dtds w1 !! last = Some d /\ active d = true;
  pr_chain : exists q, cm_dqhs (dv_mem (ci_hw w1)) !! Z.to_nat ep = Some q /\
    chain_addrs dtds_p (length (dtds w1)) (dtds w1) (qh_next q) = seqZ (dma_target bfr len) len;
  pr_ram : ci_ram w1 = (if negb (align_len bfr len =? 0) && Z.odd ep
    then ram_write align_p (ram_read (ci_ram w) bfr (Z.to_nat len)) (ci_ram w) else ci_ram w)
}.

Hypothesis Hkib : 0 <= CONFIG_CM_BUF_SIZE_KiB.
Hypothesis Hpoll : (0 < poll_fuel)%nat.

(** What may be transferred: up to the size of the command buffer, aligned to
    a page or at most a page long, clear of the alignment buffer. *)
Record transferable (bfr len : Z) : Prop := {
  tr_low : 0 <= bfr /\ 0 <= len /\ bfr + len <= 2 ^ 32;
  tr_size : len <= CONFIG_CM_BUF_SIZE_KiB * 1024;
  tr_page : bfr mod 4096 = 0 \/ len <= 4096;
  tr_clear : bfr + len <= align_p \/ align_p + 4096 <= bfr
}.

Lemma land_fff x : Z.land x 0xfff = x mod 4096.
Proof. change 0xfff with (Z.ones 12). by rewrite Z.land_ones by lia. Qed.
Lemma land_1 x : Z.land x 1 = if Z.odd x then 1 else 0.
Proof. change 1 with (Z.ones 1) at 1. rewrite Z.land_ones by lia. apply Zmod_odd. Qed.

Lemma align_len_ok bfr len : transferable bfr len -> align_len bfr len = if bfr mod 4096 =? 0 then 0 else len.
Proof.
  intros [Hl _ Hp _]. unfold align_len. rewrite land_fff. destruct (Z.eqb_spec (bfr mod 4096) 0) as [E|E]; cbn [negb]; [by rewrite andb_false_r|].
  rewrite andb_true_r. destruct (Z.ltb_spec 0 len); [|lia]. by rewrite (proj2 (Z.ltb_ge 4096 len)) by lia.
Qed.

Lemma ci_ram_put ds qs r w : ci_ram (put_mem (CiMem ds qs r) w) = r.
Proof. done. Qed.

Lemma copy_mem_run d sr n w : copy_mem d sr n w =
  (tt, put_mem (CiMem (dtds w) (cm_dqhs (dv_mem (ci_hw w))) (ram_write d (ram_read (ci_ram w) sr (Z.to_nat n)) (ci_ram w))) w).
Proof. done. Qed.

(** The descriptors that are filled in for a transfer. *)
Lemma fill_ok bfr len w : ci_ready w -> transferable bfr len -> 0 < len ->
  exists ds last d, fill_dtds dtds_p align_p (Z.to_nat IMX_CI_UDC_NO_OF_DESCRIPTORS) 0 (align_len bfr len) len bfr w = ((PB_OK, last), put_dtds ds w) /\
    dtds_wf ds /\ ds !! last = Some d /\ active d = true /\
    chain_addrs dtds_p (length ds) ds dtds_p = seqZ (dma_target bfr len) len.
Proof.
  intros [_ Hwf _] Ht Hlen. pose proof (align_len_ok _ _ Ht) as Hal. destruct Ht as [Hl Hs Hp _].
  assert (HN : 0 < IMX_CI_UDC_NO_OF_DESCRIPTORS /\ len <= 20480 * IMX_CI_UDC_NO_OF_DESCRIPTORS)
    by (unfold IMX_CI_UDC_NO_OF_DESCRIPTORS; Z.div_mod_to_equations; lia).
  assert (Hw : dtds_p + 32 * Z.of_nat 0 = dtds_p) by lia. unfold dma_target. rewrite Hal.
  destruct (Z.eqb_spec (bfr mod 4096) 0) as [E|E].
  - destruct (fill_dtds_ok (Z.to_nat IMX_CI_UDC_NO_OF_DESCRIPTORS) 0 len bfr w) as (ds & last & d & Er & Hwf' & _ & Hd & Ha & Hc);
      [lia|lia|done|lia|lia|done|]. exists ds, last, d. split_and!; try done. rewrite Hw in Hc.
    replace (length ds) with (Z.to_nat IMX_CI_UDC_NO_OF_DESCRIPTORS) by (destruct Hwf'; lia). done.
  - rewrite (proj2 (Z.eqb_neq len 0)) by lia. destruct (dtds_wf_lookup (dtds w) 0 Hwf) as (d & Hd & Hpg); [lia|].
    replace (Z.to_nat IMX_CI_UDC_NO_OF_DESCRIPTORS) with (S (pred (Z.to_nat IMX_CI_UDC_NO_OF_DESCRIPTORS))) by lia.
    destruct (fill_small (pred (Z.to_nat IMX_CI_UDC_NO_OF_DESCRIPTORS)) len bfr w d) as (d' & Er & Hpg' & Ha & Hn & Hadr); [lia|done|done|].
    assert (Hlt : (0 < length (dtds w))%nat) by (by eapply lookup_lt_Some).
    exists (<[0%nat := d']> (dtds w)), 0%nat, d'. split_and!; try done; [by apply dtds_wf_insert|by apply list_lookup_insert_eq|].
    assert (Hins : <[0%nat := d']> (dtds w) !! 0%nat = Some d') by (by apply list_lookup_insert_eq).
    rewrite length_insert. destruct (length (dtds w)) as [|k]; [lia|]. rewrite <- Hw at 2.
    rewrite (chain_step _ _ _ d') by done. by rewrite Hn, chain_end, app_nil_r.
Qed.

Lemma prime_ok ep bfr len last w : imx_ci_udc_base w = base -> 0 <= ep < 16 ->
  (mod_qh (Z.to_nat ep) (set_qnext (u32 dtds_p)) ;;;
   creg_write IMX_CI_UDC_ENDPTPRIME (ep_bit ep) ;;;
   creg_wait poll_fuel IMX_CI_UDC_ENDPTPRIME (has_bits (ep_bit ep)) ;;;
   set_xfer bfr len (Some last) ep ;;;
   ret PB_OK) w =
  (PB_OK, CiSt (CiDev (CiMem (dtds w) (alter (set_qnext (u32 dtds_p)) (Z.to_nat ep) (cm_dqhs (dv_mem (ci_hw w)))) (ci_ram w))
                 (Some ep) latency (dv_out (ci_hw w)) (dv_in (ci_hw w))) base bfr len (Some last) ep).
Proof.
  intros Hb He. destruct w as [[[ds qs ram] pr lat out inp] b xb xl xh xe]. cbn in Hb. subst b.
  destruct poll_fuel as [|f]; [lia|]. cbn [creg_wait].
  unfold bind, mod_qh, mod_mem, creg_write, creg_read, on_ci, modify, set_xfer, ret, dtds, ci_ram.
  cbn [ci_hw imx_ci_udc_base mem_of set_mem hw ci_dev_hw dv_mem dv_primed dv_lat dv_out dv_in cm_dtds cm_dqhs cm_ram mmio_read_32 mmio_write_32 ci_mmio ci_mmio_dev xfer_bfr xfer_length xfer_head xfer_ep].
  unfold ci_write, ci_read. rewrite !Z.add_simpl_l. cbn [Z.eqb IMX_CI_UDC_ENDPTPRIME IMX_CI_UDC_USBSTS Pos.eqb].
  rewrite ep_of_bit_ok by done. unfold has_bits, modify. cbn -[ep_bit u32 Z.sub Z.add]. rewrite ?Z.add_simpl_l. reflexivity.
Qed.

Lemma chain_zero fuel d : dtd_total d = 0 -> dtd_next d = 0xDEAD0001 -> forall ds, ds !! 0%nat = Some d -> chain_addrs dtds_p (S fuel) ds dtds_p = [].
Proof.
  intros Ht Hn ds Hd. replace dtds_p with (dtds_p + 32 * Z.of_nat 0) at 2 by lia. rewrite (chain_step _ _ _ d) by done.
  unfold dtd_addrs. by rewrite Ht, Hn, chain_end.
Qed.

Lemma ready_ne w : ci_ready w -> exists d, dtds w !! 0%nat = Some d /\ length (dtd_page d) = 5%nat.
Proof. intros [_ Hwf _]. apply dtds_wf_lookup; [done|]. unfold IMX_CI_UDC_NO_OF_DESCRIPTORS. Z.div_mod_to_equations. lia. Qed.

(** The part of [xfer_start] in front of the controller: the descriptors are
    filled in, and the alignment buffer when the host will read from it. *)
Lemma udc_prepare_ok ep bfr len w : ci_ready w -> transferable bfr len -> exists ds last d,
  dtds_wf ds /\ ds !! last = Some d /\ active d = true /\
  chain_addrs dtds_p (length ds) ds dtds_p = seqZ (dma_target bfr len) len /\
  forall k : Z -> nat -> M st Z,
  ((if len =? 0 then mod_dtd 0 (fun d => set_token (Z.lor 0x80 (Z.shiftl 1 15)) (set_next 0xDEAD0001 d)) else ret tt) ;;;
   (if negb (align_len bfr len =? 0) && (Z.land ep 1 =? 1) then copy_mem align_p bfr (align_len bfr len) else ret tt) ;;;
   let* (rc, last) := fill_dtds dtds_p align_p (Z.to_nat IMX_CI_UDC_NO_OF_DESCRIPTORS) 0 (align_len bfr len) len bfr in k rc last) w =
  k PB_OK last (put_mem (CiMem ds (cm_dqhs (dv_mem (ci_hw w)))
     (if negb (align_len bfr len =? 0) && Z.odd ep then ram_write align_p (ram_read (ci_ram w) bfr (Z.to_nat len)) (ci_ram w) else ci_ram w)) w).
Proof.
  intros Hw Ht. pose proof (align_len_ok _ _ Ht) as Hal. pose proof (tr_low _ _ Ht) as Hlo.
  replace (Z.land ep 1 =? 1) with (Z.odd ep) by (rewrite land_1; by destruct (Z.odd ep)).
  destruct (Z.eqb_spec len 0) as [->|Hne].
  - destruct (ready_ne w Hw) as (d & Hd & Hl). assert (0 < length (dtds w))%nat by (by eapply lookup_lt_Some).
    assert (align_len bfr 0 = 0) as -> by (rewrite Hal; by case_match). cbn [Z.eqb negb andb].
    set (d' := set_token (Z.lor 0x80 (Z.shiftl 1 15)) (set_next 0xDEAD0001 d)).
    assert (Hins : <[0%nat := d']> (dtds w) !! 0%nat = Some d') by (by apply list_lookup_insert_eq).
    exists (<[0%nat := d']> (dtds w)), 0%nat, d'. split_and!; [by apply dtds_wf_insert; [apply Hw|]|done|done| |].
    + rewrite length_insert. destruct (length (dtds w)) as [|k]; [lia|]. by rewrite (chain_zero k d').
    + intros k. unfold bind. rewrite (mod_dtd_run 0 _ w d Hd). unfold ret. cbn [Z.eqb].
      destruct (Z.to_nat IMX_CI_UDC_NO_OF_DESCRIPTORS); done.
  - set (w0 := put_mem (CiMem (dtds w) (cm_dqhs (dv_mem (ci_hw w)))
      (if negb (align_len bfr len =? 0) && Z.odd ep then ram_write align_p (ram_read (ci_ram w) bfr (Z.to_nat len)) (ci_ram w) else ci_ram w)) w).
    assert (Hw0 : ci_ready w0) by (split; apply Hw).
    destruct (fill_ok bfr len w0 Hw0 Ht ltac:(lia)) as (ds & last & d & Er & Hwf & Hd & Ha & Hc).
    exists ds, last, d. split_and!; try done. intros k. unfold bind, ret.
    assert ((if negb (align_len bfr len =? 0) && Z.odd ep then copy_mem align_p bfr (align_len bfr len) else (fun w => (tt, w))) w = (tt, w0)) as ->.
    { unfold w0. rewrite Hal. destruct (bfr mod 4096 =? 0); cbn [Z.eqb negb andb]; [by destruct w as [[[] ? ? ? ?] ? ? ? ? ?]|].
      rewrite (proj2 (Z.eqb_neq len 0)) by done. cbn [negb andb]. destruct (Z.odd ep); [by rewrite copy_mem_run|by destruct w as [[[] ? ? ? ?] ? ? ? ? ?]]. }
    by rewrite Er.
Qed.

Lemma xfer_start_ok ep bfr len w : ci_ready w -> transferable bfr len -> 0 <= ep < 16 ->
  exists w1, imx_ci_udc_xfer_start dtds_p align_p poll_fuel ep bfr len w = (PB_OK, w1) /\ primed latency ep bfr len w w1.
Proof.
  intros Hw Ht He. unfold imx_ci_udc_xfer_start. rewrite (proj2 (Z.leb_gt _ ep)) by (unfold USB_EP_END; lia).
  destruct (udc_prepare_ok ep bfr len w Hw Ht) as (ds & last & d & Hwf & Hlast & Hact & Hch & Hrun).
  cbv zeta. rewrite Hrun. cbn [PB_OK Z.eqb negb]. rewrite prime_ok by (done || apply Hw). eexists. split; [reflexivity|].
  assert (Hu : u32 dtds_p = dtds_p) by (apply Z.mod_small; unfold IMX_CI_UDC_NO_OF_DESCRIPTORS in *; Z.div_mod_to_equations; lia).
  destruct (lookup_lt_is_Some_2 (cm_dqhs (dv_mem (ci_hw w))) (Z.to_nat ep)) as [q Hq]; [rewrite (rd_dqhs w Hw); lia|].
  split; try done.
  - split; [done|done|]. cbn. rewrite length_alter. apply Hw.
  - by exists last, d.
  - exists (set_qnext (u32 dtds_p) q). cbn. rewrite list_lookup_alter_eq, Hq. split; [done|]. by rewrite Hu.
Qed.

Definition with_dev (v : ci_dev) (w : st) : st := CiSt v (imx_ci_udc_base w) (xfer_bfr w) (xfer_length w) (xfer_head w) (xfer_ep w).

Lemma creg_read_run off w : imx_ci_udc_base w = base ->
  creg_read off w = (0, with_dev (ci_read dtds_p base (base + off) (ci_hw w)).2 w).
Proof.
  intros Hb. unfold creg_read, on_ci, with_dev. cbn [mmio_read_32 ci_mmio hw ci_dev_hw ci_mmio_dev]. rewrite Hb.
  destruct (ci_read dtds_p base (base + off) (ci_hw w)) as [x v'] eqn:E.
  by assert (x = 0) as -> by (unfold ci_read in E; repeat case_match; congruence).
Qed.

Lemma with_dev_id w : with_dev (ci_hw w) w = w.
Proof. by destruct w. Qed.

Lemma creg_read_other off w : imx_ci_udc_base w = base -> (off =? IMX_CI_UDC_USBSTS) = false -> creg_read off w = (0, w).
Proof. intros Hb Ho. rewrite creg_read_run by done. unfold ci_read. rewrite Z.add_simpl_l, Ho. by destruct w. Qed.

Lemma creg_write_other off v w : imx_ci_udc_base w = base -> (off =? IMX_CI_UDC_ENDPTPRIME) = false -> creg_write off v w = (tt, w).
Proof.
  intros Hb Ho. unfold creg_write, on_ci. cbn [mmio_write_32 ci_mmio hw ci_dev_hw ci_mmio_dev]. unfold ci_write. rewrite Hb, Z.add_simpl_l, Ho.
  rewrite <- Hb. by destruct w.
Qed.

Lemma irq_process_ok w : imx_ci_udc_base w = base ->
  imx_ci_udc_irq_process poll_fuel w = (PB_OK, with_dev (ci_read dtds_p base (base + IMX_CI_UDC_USBSTS) (ci_hw w)).2 w).
Proof.
  intros Hb. unfold imx_ci_udc_irq_process. unfold bind at 1. rewrite creg_read_run by done. set (w1 := with_dev _ w).
  assert (Hb1 : imx_ci_udc_base w1 = base) by done. unfold bind at 1. rewrite creg_read_other by done.
  unfold bind at 1. rewrite creg_write_other by done. unfold bind at 1. rewrite creg_write_other by done. done.
Qed.

Lemma poll_busy v ep n : dv_primed v = Some ep -> dv_lat v = S n ->
  (ci_read dtds_p base (base + IMX_CI_UDC_USBSTS) v).2 = CiDev (dv_mem v) (Some ep) n (dv_out v) (dv_in v).
Proof. intros Hp Hl. unfold ci_read. by rewrite Z.add_simpl_l, Z.eqb_refl, Hp, Hl. Qed.

Lemma poll_done v ep : dv_primed v = Some ep -> dv_lat v = 0%nat ->
  (ci_read dtds_p base (base + IMX_CI_UDC_USBSTS) v).2 = transfer dtds_p ep v.
Proof. intros Hp Hl. unfold ci_read. by rewrite Z.add_simpl_l, Z.eqb_refl, Hp, Hl. Qed.

Lemma xfer_again n ep bfr len w w1 : primed (S n) ep bfr len w w1 -> 0 <= ep < 16 ->
  exists w2, imx_ci_udc_xfer_complete align_p poll_fuel ep w1 = (- PB_ERR_AGAIN, w2) /\ primed n ep bfr len w w2.
Proof.
  intros [Hr Hep Hl Hh Hx (last & d & Hhd & Hd & Ha) Hc Hm] He. unfold imx_ci_udc_xfer_complete.
  rewrite (proj2 (Z.leb_gt _ ep)) by (unfold USB_EP_END; lia). unfold bind. rewrite irq_process_ok by apply Hr.
  rewrite (poll_busy _ ep n) by done. cbn [PB_OK Z.eqb negb]. unfold get. cbn [xfer_head with_dev snd]. rewrite Hhd.
  unfold get_mem, gets. cbn [with_dev ci_hw mem_of hw ci_dev_hw dv_mem]. change (cm_dtds (dv_mem (ci_hw w1))) with (dtds w1). rewrite Hd. cbn [default fmap option_fmap option_map id].
  unfold active in Ha. rewrite Ha. eexists. split; [reflexivity|]. split; try done; [by split; apply Hr|by exists last, d].
Qed.

Lemma transfer_complete ep bfr len w w1 : primed 0 ep bfr len w w1 -> 0 <= ep < 16 ->
  imx_ci_udc_xfer_complete align_p poll_fuel ep w1 =
  ((if negb (align_len bfr len =? 0) && (Z.land ep 1 =? 0) then copy_mem bfr align_p (align_len bfr len) else ret tt) ;;; ret PB_OK)
    (with_dev (transfer dtds_p ep (ci_hw w1)) w1).
Proof.
  intros [Hr Hep Hl Hh [Hb Hlen] (last & d & Hhd & Hd & Ha) Hc Hm] He. unfold imx_ci_udc_xfer_complete.
  rewrite (proj2 (Z.leb_gt _ ep)) by (unfold USB_EP_END; lia). unfold bind at 1. rewrite irq_process_ok by apply Hr.
  rewrite (poll_done _ ep) by done. cbn [PB_OK Z.eqb negb]. unfold bind at 1, get. cbn [xfer_head with_dev snd xfer_bfr xfer_length]. rewrite Hhd, Hb, Hlen.
  unfold bind at 1, get_mem, gets. cbn [with_dev ci_hw mem_of hw ci_dev_hw].
  assert (cm_dtds (dv_mem (transfer dtds_p ep (ci_hw w1))) = map retired (dtds w1)) as -> by (unfold transfer; by destruct (Z.odd ep)).
  change (map retired (dtds w1)) with (retired <$> dtds w1). rewrite list_lookup_fmap, Hd. cbn [fmap option_fmap option_map default id retired set_token dtd_token].
  by rewrite Z.land_ldiff.
Qed.

(** The chain of a primed endpoint leads the controller to the buffer. *)
Lemma transfer_addrs n ep bfr len w w1 : primed n ep bfr len w w1 ->
  chain_addrs dtds_p (length (cm_dtds (dv_mem (ci_hw w1)))) (cm_dtds (dv_mem (ci_hw w1)))
    (default 1 (qh_next <$> cm_dqhs (dv_mem (ci_hw w1)) !! Z.to_nat ep)) = seqZ (dma_target bfr len) len.
Proof. intros [_ _ _ _ _ _ (q & Hq & Hc) _]. by rewrite Hq. Qed.

Lemma transfer_ready ep w1 : ci_ready w1 -> ci_ready (with_dev (transfer dtds_p ep (ci_hw w1)) w1).
Proof.
  intros [Hb [Hl Hf] Hq]. unfold transfer. assert (dtds_wf (map retired (dtds w1))) as Hm
    by (split; [by rewrite length_map|by apply Forall_map]).
  by destruct (Z.odd ep); split.
Qed.

Definition outside (bfr len x : Z) : Prop := ~ (bfr <= x < bfr + len) /\ ~ (align_p <= x < align_p + 4096).

Lemma complete_in ep bfr len w w1 : primed 0 ep bfr len w w1 -> transferable bfr len -> 0 <= ep < 16 -> Z.odd ep = true ->
  exists w', imx_ci_udc_xfer_complete align_p poll_fuel ep w1 = (PB_OK, w') /\ ci_ready w' /\
    (forall x, outside bfr len x -> ci_ram w' x = ci_ram w x) /\
    ram_read (ci_ram w') bfr (Z.to_nat len) = ram_read (ci_ram w) bfr (Z.to_nat len) /\
    dv_in (ci_hw w') = dv_in (ci_hw w) ++ ram_read (ci_ram w) bfr (Z.to_nat len) /\ dv_out (ci_hw w') = dv_out (ci_hw w).
Proof.
  intros Hpr Ht He Ho. rewrite (transfer_complete _ _ _ w) by done. rewrite land_1, Ho, andb_false_r. unfold bind, ret.
  eexists. split; [reflexivity|]. split; [apply transfer_ready, Hpr|].
  pose proof (align_len_ok _ _ Ht) as Hal. destruct (tr_low _ _ Ht) as (? & ? & ?). pose proof (tr_clear _ _ Ht) as Hcl. pose proof (tr_page _ _ Ht) as Hpg.
  unfold transfer. rewrite (transfer_addrs _ _ _ _ _ _ Hpr), Ho. destruct Hpr as [_ _ _ [Hout Hin] _ _ _ Hram].
  unfold ci_ram in *. cbn [with_dev ci_hw dv_mem cm_ram dv_in dv_out]. rewrite Hram, Hin, Hout, map_seqZ, Hal, Ho, andb_true_r.
  unfold dma_target. destruct (Z.eqb_spec (bfr mod 4096) 0) as [E|E]; cbn [Z.eqb negb]; [done|].
  destruct (Z.eqb_spec len 0) as [->|Hn]; [done|]. cbn [negb]. pose proof (length_ram_read (cm_ram (dv_mem (ci_hw w))) bfr (Z.to_nat len)) as Hlen.
  split_and!; try done.
  - intros x [_ Hx]. apply ram_write_out. rewrite Hlen. lia.
  - apply ram_read_write_out. rewrite Hlen. lia.
  - f_equal. revert Hlen. generalize (ram_read (cm_ram (dv_mem (ci_hw w))) bfr (Z.to_nat len)). intros bs <-. apply ram_write_in.
Qed.

Lemma complete_out ep bfr len data rest w w1 : primed 0 ep bfr len w w1 -> transferable bfr len -> 0 <= ep < 16 -> Z.odd ep = false ->
  dv_out (ci_hw w) = data ++ rest -> Z.of_nat (length data) = len ->
  exists w', imx_ci_udc_xfer_complete align_p poll_fuel ep w1 = (PB_OK, w') /\ ci_ready w' /\
    (forall x, outside bfr len x -> ci_ram w' x = ci_ram w x) /\
    ram_read (ci_ram w') bfr (Z.to_nat len) = data /\ dv_in (ci_hw w') = dv_in (ci_hw w) /\ dv_out (ci_hw w') = rest.
Proof.
  intros Hpr Ht He Ho Hd Hlen. rewrite (transfer_complete _ _ _ w) by done. rewrite land_1, Ho, andb_true_r.
  pose proof (align_len_ok _ _ Ht) as Hal. destruct (tr_low _ _ Ht) as (? & ? & ?). pose proof (tr_clear _ _ Ht) as Hcl. pose proof (tr_page _ _ Ht) as Hpg.
  pose proof (transfer_ready ep w1 (pr_ready _ _ _ _ _ _ Hpr)) as Hready. set (w2 := with_dev (transfer dtds_p ep (ci_hw w1)) w1) in *.
  assert (Hw2 : (forall x, ci_ram w2 x = ram_write (dma_target bfr len) data (ci_ram w) x) /\ dv_in (ci_hw w2) = dv_in (ci_hw w) /\ dv_out (ci_hw w2) = rest).
  { unfold w2, transfer. rewrite (transfer_addrs _ _ _ _ _ _ Hpr), Ho. destruct Hpr as [_ _ _ [Hout Hin] _ _ _ Hram].
    rewrite Ho, andb_false_r in Hram. unfold ci_ram in *. cbn [with_dev ci_hw dv_mem cm_ram dv_in dv_out]. rewrite Hout, Hd, Hin, Hram, <- Hlen.
    split_and!; [intros x; apply scatter_range|done|]. rewrite length_seqZ, Nat2Z.id. by rewrite drop_app_length. }
  destruct Hw2 as (Hram & Hin & Hout). replace (Z.to_nat len) with (length data) by lia.
  unfold dma_target in Hram. rewrite Hal. destruct (Z.eqb_spec (bfr mod 4096) 0) as [E|E]; cbn [Z.eqb negb].
  { exists w2. split_and!; try done; [intros x [Hx _]; rewrite Hram; apply ram_write_out; lia|].
    rewrite (ram_read_ext _ (ram_write bfr data (ci_ram w))) by (intros; apply Hram). apply ram_write_in. }
  destruct (Z.eqb_spec len 0) as [E0|Hn]; cbn [negb].
  { exists w2. destruct data; [|cbn in Hlen; lia]. split_and!; try done. intros x [Hx _]. rewrite Hram. apply ram_write_out. cbn. lia. }
  unfold bind. rewrite copy_mem_run. eexists. split; [reflexivity|]. split; [split; apply Hready|].
  assert (Hr : ram_read (ci_ram w2) align_p (Z.to_nat len) = data).
  { replace (Z.to_nat len) with (length data) by lia. rewrite (ram_read_ext _ (ram_write align_p data (ci_ram w))) by (intros; apply Hram). apply ram_write_in. }
  rewrite ci_ram_put, Hr. split_and!; try done.
  - intros x [Hx1 Hx2]. rewrite ram_write_out by lia. rewrite Hram. apply ram_write_out. lia.
  - apply ram_write_in.
Qed.

Lemma udc_complete_loop_ok ep bfr len w (post : Z -> st -> Prop) : 0 <= ep < 16 ->
  (forall w1, primed 0 ep bfr len w w1 -> exists w', imx_ci_udc_xfer_complete align_p poll_fuel ep w1 = (PB_OK, w') /\ post PB_OK w') ->
  forall n fuel w1, (n < fuel)%nat -> primed n ep bfr len w w1 ->
  exists w', udc_complete_loop align_p poll_fuel fuel ep w1 = (PB_OK, w') /\ post PB_OK w'.
Proof.
  intros He Hdone n. induction n as [|n IH]; intros [|fuel] w1 Hf Hpr; try lia; cbn [udc_complete_loop]; unfold bind.
  - destruct (Hdone w1 Hpr) as (w' & -> & Hp). by exists w'.
  - destruct (xfer_again _ _ _ _ _ _ Hpr He) as (w2 & -> & Hpr2). rewrite Z.eqb_refl. apply IH; [lia|done].
Qed.

(** [C17] A transfer that the driver starts and waits for, of a buffer that is
    page aligned or at most 4096 bytes long, no longer than the command buffer,
    below 4 GiB and clear of the alignment buffer, with an idle driver: it ends
    with [PB_OK] and moves exactly the buffer.  What the host receives on an IN
    endpoint is the buffer, which keeps its contents; what the host sends on an
    OUT endpoint, as many bytes as the buffer has, is in the buffer afterwards.
    No other byte of memory changes but those of the alignment buffer, and the
    driver is ready for the next transfer.  Longer buffers that are not page
    aligned are transferred wrongly or refused:
    [SmallUdc.udc_unaligned_large], [SmallUdc.udc_unaligned_wraps]. *)
Theorem ci_transfer ep bfr len data rest fuel w : ci_ready w -> transferable bfr len -> 0 <= ep < 16 -> (latency < fuel)%nat ->
  dv_out (ci_hw w) = data ++ rest -> (Z.odd ep = false -> Z.of_nat (length data) = len) ->
  exists w', (rc <- imx_ci_udc_xfer_start dtds_p align_p poll_fuel ep bfr len ;;
              if negb (rc =? PB_OK) then ret rc else udc_complete_loop align_p poll_fuel fuel ep) w = (PB_OK, w') /\
    ci_ready w' /\ (forall x, outside bfr len x -> ci_ram w' x = ci_ram w x) /\
    if Z.odd ep
    then ram_read (ci_ram w') bfr (Z.to_nat len) = ram_read (ci_ram w) bfr (Z.to_nat len) /\
      dv_in (ci_hw w') = dv_in (ci_hw w) ++ ram_read (ci_ram w) bfr (Z.to_nat len) /\ dv_out (ci_hw w') = dv_out (ci_hw w)
    else ram_read (ci_ram w') bfr (Z.to_nat len) = data /\ dv_in (ci_hw w') = dv_in (ci_hw w) /\ dv_out (ci_hw w') = rest.
Proof.
  intros Hw Ht He Hf Hd Hl. unfold bind. destruct (xfer_start_ok ep bfr len w Hw Ht He) as (w1 & -> & Hpr). cbn [PB_OK Z.eqb negb].
  destruct (Z.odd ep) eqn:Ho.
  - by apply (udc_complete_loop_ok ep bfr len w (fun _ w' => _) He (fun w1 Hp => complete_in ep bfr len w w1 Hp Ht He Ho) latency).
  - by apply (udc_complete_loop_ok ep bfr len w (fun _ w' => _) He (fun w1 Hp => complete_out ep bfr len data rest w w1 Hp Ht He Ho Hd (Hl eq_refl)) latency).
Qed.
End fill.

(** ** A small device *)

Module SmallUdc.
(** [dtds], [dqhs] and the alignment buffer at fixed addresses; the command
    buffer of the test configuration takes [n_descriptors] descriptors. *)
Definition n_descriptors : nat := Z.to_nat (IMX_CI_UDC_NO_OF_DESCRIPTORS (H := test_defconfig)).
Definition memory : ram_t := fun a => a mod 251.
Definition start (out : list Z) : ci_st ci_dev :=
  CiSt (CiDev (CiMem (replicate n_descriptors (Dtd 0 0 (replicate 5 0))) (replicate 16 (Qh 0 0 0 0 (zeros 8))) memory) None 0 out []) 0x30b10000 0 0 None 0.
#[local] Instance dev : CiHw ci_dev := ci_dev_hw 0x10000 0x30b10000 2.

Lemma small_ready out : ci_ready (kc := test_defconfig) 0x30b10000 (start out).
Proof.
  split; [done| |done]. split; [done|]. apply Forall_replicate. done.
Qed.

(** Memory that the chain of an endpoint leads to. *)
Definition addrs_of (ep : Z) (w : ci_st ci_dev) : list Z :=
  let m := dv_mem (ci_hw w) in
  chain_addrs 0x10000 (length (cm_dtds m)) (cm_dtds m) (default 1 (qh_next <$> cm_dqhs m !! Z.to_nat ep)).

(** A buffer of 6144 bytes, 2048 bytes into its page: the whole transfer is
    made of the alignment buffer, which holds its first 2048 bytes. *)
Example udc_unaligned_large :
  let '(rc, w) := imx_ci_udc_xfer_start (arch := armv7a) (kc := test_defconfig) 0x10000 0x20000 1 USB_EP1_IN 0x80000800 6144 (start []) in
  rc = PB_OK /\ Z.of_nat (length (addrs_of USB_EP1_IN w)) = 6144 /\
  forallb (fun a => (0x20000 <=? a) && (a <? 0x21000)) (addrs_of USB_EP1_IN w) = true.
Proof. vm_compute. done. Qed.

(** With 8192 bytes the count wraps around and the descriptors run out. *)
Example udc_unaligned_wraps :
  fst (imx_ci_udc_xfer_start (arch := armv7a) (kc := test_defconfig) 0x10000 0x20000 1 USB_EP1_IN 0x80000810 8192 (start [])) = - PB_ERR_MEM.
Proof. vm_compute. done. Qed.

Lemma ci_transfer_witness :
  exists w', (rc <- imx_ci_udc_xfer_start (arch := armv7a) (kc := test_defconfig) 0x10000 0x20000 1 USB_EP2_OUT 0x80000010 4 ;;
              if negb (rc =? PB_OK) then ret rc else udc_complete_loop 0x20000 1 3 USB_EP2_OUT) (start [1; 2; 3; 4; 5]) = (PB_OK, w') /\
    ram_read (ci_ram w') 0x80000010 4 = [1; 2; 3; 4] /\ dv_out (ci_hw w') = [5].
Proof.
  destruct (ci_transfer (arch := armv7a) (kc := test_defconfig) 0x10000 0x20000 0x30b10000 2 1 eq_refl ltac:(vm_compute; split; discriminate)
    ltac:(vm_compute; split_and!; done) ltac:(vm_compute; discriminate) ltac:(lia) USB_EP2_OUT 0x80000010 4 [1; 2; 3; 4] [5] 3 (start [1; 2; 3; 4; 5]))
    as (w' & E & _ & _ & Hd & _ & Ho).
  - apply small_ready.
  - split; [lia|vm_compute; discriminate|lia|lia].
  - split; vm_compute; done.
  - lia.
  - done.
  - done.
  - exists w'. split; [exact E|split; [exact Hd|exact Ho]].
Defined.
End SmallUdc.
