(* ===== verification/Virtio.v ===== *)
(** * The virtio disk

    [src/drivers/virtio/virtio_block.c] and the queues it shares with the
    serial driver ([virtio_queue.h], [virtio_mmio.h]): requests are posted as
    chains of descriptors in memory and the device answers in memory
    ([VirtioHw]).  [VirtioDev] has the device. *)

From S2P Require Import Prelude Errors Ram Uuid Bio Ocotp.
Local Open Scope c_scope.

(** ** Registers, [virtio_mmio.h] *)

Definition VIRTIO_MMIO_DEVICE_ID : Z := 0x008.
Definition VIRTIO_MMIO_DEVICE_FEATURES : Z := 0x010.
Definition VIRTIO_MMIO_DEVICE_FEATURES_SEL : Z := 0x014.
Definition VIRTIO_MMIO_GUEST_PAGE_SIZE : Z := 0x028.
Definition VIRTIO_MMIO_QUEUE_SEL : Z := 0x030.
Definition VIRTIO_MMIO_QUEUE_NUM_MAX : Z := 0x034.
Definition VIRTIO_MMIO_QUEUE_NUM : Z := 0x038.
Definition VIRTIO_MMIO_QUEUE_ALIGN : Z := 0x03c.
Definition VIRTIO_MMIO_QUEUE_PFN : Z := 0x040.
Definition VIRTIO_MMIO_QUEUE_NOTIFY : Z := 0x050.
Definition VIRTIO_MMIO_STATUS : Z := 0x070.
Definition VIRTIO_MMIO_CONFIG : Z := 0x100.
Definition VIRTIO_STATUS_ACKNOWLEDGE : Z := 1.
Definition VIRTIO_STATUS_DRIVER : Z := 2.
Definition VIRTIO_STATUS_FEATURES_OK : Z := 8.
Definition VIRTIO_STATUS_DRIVER_OK : Z := 4.

(** ** Queues, [virtio_queue.h] *)

Definition VIRTQ_DESC_F_NEXT : Z := 1.
Definition VIRTQ_DESC_F_WRITE : Z := 2.
Definition VIRTIO_F_EVENT_IDX : Z := 29.

Record virtq_desc := VirtqDesc { vd_addr : Z; vd_len : Z; vd_flags : Z; vd_next : Z }.
Definition virtq_desc_c : codec virtq_desc :=
  c_iso (fun d => (vd_addr d, (vd_len d, (vd_flags d, vd_next d))))
        (fun '(a, (b, (c, d))) => VirtqDesc a b c d) (u64c ⊗ u32c ⊗ u16c ⊗ u16c)%codec.
#[export] Instance virtq_desc_ok : CodecOK virtq_desc_c.
Proof. solve_struct. Qed.

Record virtq := Virtq { vq_num : Z; vq_desc : Z; vq_avail : Z; vq_used : Z }.

(** [a] is a power of two. *)
Definition VIRTIO_QUEUE_AVAIL_OFFSET (n a : Z) : Z := Z.land (16 * n + a - 1) (Z.lnot (a - 1)).
Definition VIRTIO_QUEUE_USED_OFFSET (n a : Z) : Z := Z.land (16 * n + 4 + 2 * n + a - 1) (Z.lnot (a - 1)).
Definition VIRTIO_QUEUE_SZ (n a : Z) : Z := VIRTIO_QUEUE_USED_OFFSET n a + 4 + 8 * n.

(** Memory that the device reads and writes too, next to its registers. *)
Class VirtioHw (HW : Type) := {
  virtio_mmio :: Mmio HW;
  mem_load : Z -> nat -> M HW (list Z);
  mem_store : Z -> list Z -> M HW unit
}.

(** A driver's static variables [base] and the queues, next to the hardware. *)
Record virtio_st (HW Q : Type) := VirtioSt { vs_hw : HW; vs_base : Z; vs_q : Q }.
Arguments VirtioSt {HW Q}. Arguments vs_hw {HW Q}. Arguments vs_base {HW Q}. Arguments vs_q {HW Q}.

Section queues.
Context {HW Q : Type} `{!VirtioHw HW}.
Abbreviation V := (M (virtio_st HW Q)).

Definition on_vhw {A} (m : M HW A) : V A :=
  fun w => let '(a, h) := m (vs_hw w) in (a, VirtioSt h (vs_base w) (vs_q w)).
Definition load16 (a : Z) : V Z := bs <- on_vhw (mem_load a 2) ;; ret (le_val bs).
Definition store16 (a v : Z) : V unit := on_vhw (mem_store a (le_bytes 2 v)).
(** Registers at [base + off] *)
Definition vreg_read (off : Z) : V Z := fun w => on_vhw (mmio_read_32 (vs_base w + off)) w.
Definition vreg_write (off v : Z) : V unit := fun w => on_vhw (mmio_write_32 (vs_base w + off) v) w.
(** [mmio_clrsetbits_32(base + off, 0, bits)] *)
Definition vreg_set (off bits : Z) : V unit := v <- vreg_read off ;; vreg_write off (Z.lor v bits).

(** Addresses of [q->desc[i]], [q->avail->idx], [q->avail->ring[i]] and
    [q->used->idx]. *)
Definition desc_p (q : virtq) (i : Z) : Z := vq_desc q + 16 * i.
Definition avail_idx_p (q : virtq) : Z := vq_avail q + 2.
Definition avail_ring_p (q : virtq) (i : Z) : Z := vq_avail q + 4 + 2 * i.
Definition used_idx_p (q : virtq) : Z := vq_used q + 2.

(** [q->desc[i] = d] *)
Definition put_desc (q : virtq) (i : Z) (d : virtq_desc) : V unit := on_vhw (mem_store (desc_p q i) (cenc virtq_desc_c d)).
(** [q->avail->idx++] *)
Definition avail_inc (q : virtq) : V unit := i <- load16 (avail_idx_p q) ;; store16 (avail_idx_p q) (u16 (i + 1)).
End queues.

(** ** The disk driver *)

Definition VIRTIO_BLK_T_IN : Z := 0.
Definition VIRTIO_BLK_T_OUT : Z := 1.
Definition VIRTIO_BLK_S_OK : Z := 0.
Definition VIRTIO_BLK_S_IOERR : Z := 1.
Definition VIRTIO_BLK_S_UNSUPP : Z := 2.
Definition VIRTIO_BLK_QUEUE_SZ : Z := 4.

Record virtio_blk_req := BlkReq { vr_type : Z; vr_reserved : Z; vr_sector_low : Z; vr_sector_hi : Z }.
Definition virtio_blk_req_c : codec virtio_blk_req :=
  c_iso (fun r => (vr_type r, (vr_reserved r, (vr_sector_low r, vr_sector_hi r))))
        (fun '(a, (b, (c, d))) => BlkReq a b c d) (u32c ⊗ u32c ⊗ u32c ⊗ u32c)%codec.
#[export] Instance virtio_blk_req_ok : CodecOK virtio_blk_req_c.
Proof. solve_struct. Qed.

(** ["Virtio disk"] *)
Definition name_virtio : list Z := [0x56; 0x69; 0x72; 0x74; 0x69; 0x6f; 0x20; 0x64; 0x69; 0x73; 0x6b].

Section block.
Context {arch : Arch} {kc : Kconfig} {HW : Type} `{!VirtioHw HW}.
(** The addresses of [queue_data], [request] and [status]; how many polls of
    the used ring the model follows; the functions registered as callbacks. *)
Context (queue_data request status_p : Z) (poll_fuel : nat) (bio_read_p bio_write_p : fptr).
Abbreviation V := (M (virtio_st HW virtq)).

(** [while (queue.avail->idx != queue.used->idx)]; [false] if they still
    differ after [fuel] polls. *)
Fixpoint used_wait (fuel : nat) (q : virtq) : V bool :=
  match fuel with
  | O => ret false
  | S fuel =>
      a <- load16 (avail_idx_p q) ;;
      u <- load16 (used_idx_p q) ;;
      if a =? u then ret true else used_wait fuel q
  end.

(** The maintenance of the cache has no effect here. *)
Definition virtio_xfer (dev : bio_dev_t) (read : bool) (lba : lba_t) (length buf : Z) : V Z :=
  q <- gets vs_q ;;
  i <- load16 (avail_idx_p q) ;;
  let idx := u16 (i mod vq_num q) in
  on_vhw (mem_store status_p [VIRTIO_BLK_S_UNSUPP]) ;;;
  on_vhw (mem_store request (cenc virtio_blk_req_c
    (BlkReq (if read then VIRTIO_BLK_T_IN else VIRTIO_BLK_T_OUT) 0 (Z.land lba 0xffffffff) 0))) ;;;
  put_desc q 0 (VirtqDesc (u32 request) 16 VIRTQ_DESC_F_NEXT 1) ;;;
  put_desc q 1 (VirtqDesc (u32 buf) (u32 length) (Z.lor VIRTQ_DESC_F_NEXT (if read then VIRTQ_DESC_F_WRITE else 0)) 2) ;;;
  put_desc q 2 (VirtqDesc (u32 status_p) 1 VIRTQ_DESC_F_WRITE 0) ;;;
  store16 (avail_ring_p q idx) 0 ;;;
  avail_inc q ;;;
  vreg_write VIRTIO_MMIO_QUEUE_NOTIFY 0 ;;;
  ok <- used_wait poll_fuel q ;;
  if negb ok then ret (- PB_ERR_TIMEOUT) else
  st <- on_vhw (mem_load status_p 1) ;;
  if negb (le_val st =? VIRTIO_BLK_S_OK) then ret (- PB_ERR_IO) else
  ret PB_OK.

Definition virtio_bio_read (dev : bio_dev_t) (lba : lba_t) (length buf : Z) : V Z := virtio_xfer dev true lba length buf.
Definition virtio_bio_write (dev : bio_dev_t) (lba : lba_t) (length buf : Z) : V Z := virtio_xfer dev false lba length buf.

(** [cfg->capacity] and [cfg->blk_size] *)
Definition cfg_capacity : V Z :=
  lo <- vreg_read VIRTIO_MMIO_CONFIG ;; hi <- vreg_read (VIRTIO_MMIO_CONFIG + 4) ;; ret (hi * 2 ^ 32 + lo).
Definition cfg_blk_size : V Z := vreg_read (VIRTIO_MMIO_CONFIG + 20).

Abbreviation S := (M (bio_state (virtio_st HW virtq))).
Definition on_virtio {A} (m : V A) : S A := call_drv m.

(** From the check of the device to DRIVER_OK. *)
Definition virtio_block_setup : V unit :=
  vreg_write VIRTIO_MMIO_STATUS 0 ;;;
  vreg_write VIRTIO_MMIO_STATUS (Z.lor VIRTIO_STATUS_ACKNOWLEDGE VIRTIO_STATUS_DRIVER) ;;;
  vreg_write VIRTIO_MMIO_GUEST_PAGE_SIZE 4096 ;;;
  modify (fun w => VirtioSt (vs_hw w) (vs_base w) (Virtq VIRTIO_BLK_QUEUE_SZ queue_data
    (queue_data + VIRTIO_QUEUE_AVAIL_OFFSET VIRTIO_BLK_QUEUE_SZ 64) (queue_data + VIRTIO_QUEUE_USED_OFFSET VIRTIO_BLK_QUEUE_SZ 64))) ;;;
  vreg_write VIRTIO_MMIO_QUEUE_SEL 0 ;;;
  vreg_write VIRTIO_MMIO_QUEUE_NUM VIRTIO_BLK_QUEUE_SZ ;;;
  vreg_write VIRTIO_MMIO_QUEUE_ALIGN 64 ;;;
  vreg_write VIRTIO_MMIO_QUEUE_PFN (u32 (Z.shiftr queue_data 12)) ;;;
  vreg_set VIRTIO_MMIO_STATUS VIRTIO_STATUS_DRIVER_OK.

Definition virtio_block_init (base_ : Z) (u : uuid_t) : S Z :=
  on_virtio (modify (fun w => VirtioSt (vs_hw w) base_ (vs_q w))) ;;;
  device_id <- on_virtio (vreg_read VIRTIO_MMIO_DEVICE_ID) ;;
  if negb (device_id =? 2) then ret (- PB_ERR_IO) else
  on_virtio virtio_block_setup ;;;
  capacity <- on_virtio cfg_capacity ;;
  blk_size <- on_virtio cfg_blk_size ;;
  dev <- bio_allocate 0 (u32 (capacity - 1)) blk_size u name_virtio ;;
  if dev <? 0 then ret dev else
  rc <- bio_set_ios dev bio_read_p bio_write_p ;;
  if rc <? 0 then ret rc else
  rc <- bio_set_flags dev (Z.lor BIO_FLAG_VISIBLE BIO_FLAG_WRITABLE) ;;
  if rc <? 0 then ret rc else
  ret dev.
End block.
