(* ===== verification/VirtioDev.v ===== *)
(** * A virtio device

    A device with the legacy MMIO transport, as the virtio standard describes
    it ([machine]), and behind it a disk ([blk_handle]): the device takes
    chains of descriptors off the available ring, works on the memory they
    describe and returns them on the used ring, some time after it was
    notified.  On it the driver of [Virtio] moves the blocks it is asked to,
    so that the block layer can rely on it ([virtio_disk_laws]). *)

From stdpp Require Import functions.
From S2P Require Import Prelude Errors Ram Uuid Bio BlockIface Ocotp Virtio.
Local Open Scope c_scope.

(** ** The transport *)

(** Memory, the state of the device proper, the registers, how far each
    available ring has been worked off, and the notification that has not been
    acted upon: the queue and the number of memory accesses until then. *)
Record machine (D : Type) := Machine {
  vm_ram : ram_t;
  vm_dev : D;
  vm_status : Z;
  vm_page : Z;
  vm_sel : Z;
  vm_num : Z -> Z;
  vm_align : Z -> Z;
  vm_pfn : Z -> Z;
  vm_last : Z -> Z;
  vm_kick : option (Z * nat)
}.
Arguments Machine {D}. Arguments vm_ram {D}. Arguments vm_dev {D}. Arguments vm_status {D}. Arguments vm_page {D}. Arguments vm_sel {D}.
Arguments vm_num {D}. Arguments vm_align {D}. Arguments vm_pfn {D}. Arguments vm_last {D}. Arguments vm_kick {D}.

Section transport.
Context {D : Type}.
Implicit Types (m : machine D).

Definition set_ram (r : ram_t) m := Machine r (vm_dev m) (vm_status m) (vm_page m) (vm_sel m) (vm_num m) (vm_align m) (vm_pfn m) (vm_last m) (vm_kick m).
Definition set_kick k m := Machine (vm_ram m) (vm_dev m) (vm_status m) (vm_page m) (vm_sel m) (vm_num m) (vm_align m) (vm_pfn m) (vm_last m) k.

(** The legacy layout of a queue: the available ring follows the descriptors,
    with a field after its entries, the used ring starts at the next multiple
    of the alignment. *)
Definition q_desc m (q : Z) : Z := vm_pfn m q * vm_page m.
Definition q_avail m (q : Z) : Z := q_desc m q + 16 * vm_num m q.
Definition q_used m (q : Z) : Z :=
  q_desc m q + (16 * vm_num m q + 2 * (3 + vm_num m q) + vm_align m q - 1) / vm_align m q * vm_align m q.

Definition rd16 (r : ram_t) (a : Z) : Z := le_val (ram_read r a 2).
Definition desc_at (r : ram_t) (a i : Z) : virtq_desc := decode virtq_desc_c (ram_read r (a + 16 * i) 16).

(** The chain from descriptor [i] on. *)
Fixpoint chain (fuel : nat) (r : ram_t) (a i : Z) : list virtq_desc :=
  match fuel with
  | O => []
  | S fuel =>
      let d := desc_at r a i in
      d :: if Z.testbit (vd_flags d) 0 then chain fuel r a (vd_next d) else []
  end.

(** What the device does with a chain: the memory, its state and the number of
    bytes written; [None] to leave the chain where it is for now. *)
Context (handle : ram_t -> D -> list virtq_desc -> option (ram_t * D * Z)).

(** One chain of queue [q], the one at the place [vm_last]. *)
Definition take_chain (q : Z) m : option (machine D) :=
  let n := vm_num m q in
  let i := vm_last m q in
  let head := rd16 (vm_ram m) (q_avail m q + 4 + 2 * (i mod n)) in
  match handle (vm_ram m) (vm_dev m) (chain (Z.to_nat n) (vm_ram m) (q_desc m q) head) with
  | None => None
  | Some (r, d, written) =>
      let r := ram_write (q_used m q + 4 + 8 * (i mod n)) (le_bytes 4 head ++ le_bytes 4 written) r in
      let r := ram_write (q_used m q + 2) (le_bytes 2 (u16 (i + 1))) r in
      Some (Machine r d (vm_status m) (vm_page m) (vm_sel m) (vm_num m) (vm_align m) (vm_pfn m) (<[q := u16 (i + 1)]> (vm_last m)) (vm_kick m))
  end.

Fixpoint serve_loop (fuel : nat) (q : Z) m : machine D :=
  match fuel with
  | O => m
  | S fuel => match take_chain q m with Some m => serve_loop fuel q m | None => m end
  end.

(** All chains that are available now. *)
Definition serve (q : Z) m : machine D :=
  if Z.testbit (vm_status m) 2
  then serve_loop (Z.to_nat (u16 (rd16 (vm_ram m) (q_avail m q + 2) - vm_last m q))) q m else m.

(** The device catches up before the processor's next access to memory. *)
Definition advance m : machine D :=
  match vm_kick m with
  | None => m
  | Some (q, O) => serve q (set_kick None m)
  | Some (q, S n) => set_kick (Some (q, n)) m
  end.

(** Where the registers are, the device's identifier and configuration space,
    and how long it takes to react. *)
Context (base device_id : Z) (config : Z -> Z) (latency : nat).

Definition vm_read (addr : Z) : M (machine D) Z := fun m =>
  let off := addr - base in
  (if off =? VIRTIO_MMIO_DEVICE_ID then device_id
   else if off =? VIRTIO_MMIO_QUEUE_NUM_MAX then 1024
   else if off =? VIRTIO_MMIO_STATUS then vm_status m
   else if VIRTIO_MMIO_CONFIG <=? off then config (off - VIRTIO_MMIO_CONFIG)
   else 0, m).

Definition vm_write (addr v : Z) : M (machine D) unit := fun m =>
  let off := addr - base in
  let '(Machine r d st pg sel num al pfn la ki) := m in
  (tt,
   if off =? VIRTIO_MMIO_STATUS then
     if v =? 0 then Machine r d 0 pg sel (fun _ => 0) (fun _ => 0) (fun _ => 0) (fun _ => 0) None
     else Machine r d v pg sel num al pfn la ki
   else if off =? VIRTIO_MMIO_GUEST_PAGE_SIZE then Machine r d st v sel num al pfn la ki
   else if off =? VIRTIO_MMIO_QUEUE_SEL then Machine r d st pg v num al pfn la ki
   else if off =? VIRTIO_MMIO_QUEUE_NUM then Machine r d st pg sel (<[sel := v]> num) al pfn la ki
   else if off =? VIRTIO_MMIO_QUEUE_ALIGN then Machine r d st pg sel num (<[sel := v]> al) pfn la ki
   else if off =? VIRTIO_MMIO_QUEUE_PFN then Machine r d st pg sel num al (<[sel := v]> pfn) la ki
   else if off =? VIRTIO_MMIO_QUEUE_NOTIFY then Machine r d st pg sel num al pfn la (Some (v, latency))
   else m).

Definition vm_load (a : Z) (n : nat) : M (machine D) (list Z) := fun m => let m := advance m in (ram_read (vm_ram m) a n, m).
Definition vm_store (a : Z) (bs : list Z) : M (machine D) unit := fun m => let m := advance m in (tt, set_ram (ram_write a bs (vm_ram m)) m).

#[local] Instance vm_mmio : Mmio (machine D) := {| mmio_read_32 := vm_read; mmio_write_32 := vm_write |}.
#[local] Instance vm_hw : VirtioHw (machine D) := {| virtio_mmio := vm_mmio; mem_load := vm_load; mem_store := vm_store |}.

(** ** Runs while nothing is pending *)

Lemma advance_idle m : vm_kick m = None -> advance m = m.
Proof. unfold advance. by intros ->. Qed.

Context {Q : Type}.
Implicit Types (w : virtio_st (machine D) Q).
Definition with_m m w : virtio_st (machine D) Q := VirtioSt m (vs_base w) (vs_q w).
Abbreviation ram_of w := (vm_ram (vs_hw w)).

Lemma store_run a bs w : vm_kick (vs_hw w) = None ->
  on_vhw (mem_store a bs) w = (tt, with_m (set_ram (ram_write a bs (ram_of w)) (vs_hw w)) w).
Proof. intros H. unfold on_vhw. cbn [mem_store vm_hw]. unfold vm_store. by rewrite advance_idle. Qed.

Lemma load_run a n w : vm_kick (vs_hw w) = None -> on_vhw (mem_load a n) w = (ram_read (ram_of w) a n, w).
Proof. intros H. unfold on_vhw. cbn [mem_load vm_hw]. unfold vm_load. rewrite advance_idle by done. by destruct w. Qed.

Lemma load16_run a w : vm_kick (vs_hw w) = None -> load16 a w = (rd16 (ram_of w) a, w).
Proof. intros H. unfold load16, bind. by rewrite load_run. Qed.

Lemma load16_any a w : load16 a w = (rd16 (vm_ram (advance (vs_hw w))) a, with_m (advance (vs_hw w)) w).
Proof. done. Qed.

(** The two indices, read while the device may be at work: either it is done,
    or nothing has happened but time. *)
Lemma poll_pair_ok (qi : Z) (q : virtq) m' n w : vm_kick (vs_hw w) = Some (qi, n) -> serve qi (set_kick None (vs_hw w)) = m' -> vm_kick m' = None ->
  rd16 (ram_of w) (avail_idx_p q) <> rd16 (ram_of w) (used_idx_p q) ->
  rd16 (vm_ram m') (avail_idx_p q) = rd16 (ram_of w) (avail_idx_p q) -> rd16 (vm_ram m') (used_idx_p q) = rd16 (ram_of w) (avail_idx_p q) ->
  exists a u w1, load16 (avail_idx_p q) w = (a, w1) /\ exists w2, load16 (used_idx_p q) w1 = (u, w2) /\
    (a = u /\ w2 = with_m m' w \/ a <> u /\ exists n', n = S (S n') /\ w2 = with_m (set_kick (Some (qi, n')) (vs_hw w)) w).
Proof.
  intros Hk Hs Hi Hne Ha Hu. rewrite load16_any. unfold advance. rewrite Hk. destruct n as [|[|n]].
  - do 3 eexists. split; [done|]. rewrite Hs, load16_run by exact Hi. eexists. split; [done|]. left. cbn [vs_hw with_m]. by rewrite Ha, Hu.
  - do 3 eexists. split; [done|]. rewrite load16_any. unfold advance. cbn [vs_hw with_m vm_kick set_kick].
    change (set_kick None (set_kick (Some (qi, 0%nat)) (vs_hw w))) with (set_kick None (vs_hw w)). rewrite Hs. eexists. split; [done|]. left. by rewrite Hu.
  - do 3 eexists. split; [done|]. rewrite load16_any. unfold advance. cbn [vs_hw with_m vm_kick set_kick]. eexists. split; [done|].
    right. split; [exact Hne|]. by exists n.
Qed.
End transport.

(** ** Memory with known fields *)

Lemma ram_read_at r a bs n : length bs = n -> ram_read (ram_write a bs r) a n = bs.
Proof. intros <-. apply ram_write_in. Qed.

Lemma rd16_at r a v : 0 <= v < 2 ^ 16 -> rd16 (ram_write a (le_bytes 2 v) r) a = v.
Proof. intros H. unfold rd16. rewrite ram_read_at by apply length_le_bytes. by apply le_val_le_bytes. Qed.

Lemma rd16_out r a bs b : b + 2 <= a \/ a + Z.of_nat (length bs) <= b -> rd16 (ram_write a bs r) b = rd16 r b.
Proof. intros H. unfold rd16. by rewrite ram_read_write_out by lia. Qed.

Lemma desc_at_here r a i p d : p = a + 16 * i -> cwf virtq_desc_c d -> desc_at (ram_write p (cenc virtq_desc_c d) r) a i = d.
Proof. intros -> H. unfold desc_at. rewrite ram_read_at by exact (cenc_length (c := virtq_desc_c) d H). exact (decode_cenc virtq_desc_c d H). Qed.

Lemma desc_at_out r p bs a i : a + 16 * i + 16 <= p \/ p + Z.of_nat (length bs) <= a + 16 * i -> desc_at (ram_write p bs r) a i = desc_at r a i.
Proof. intros H. unfold desc_at. by rewrite ram_read_write_out by lia. Qed.

(** ** A disk *)

(** A request is a header, a buffer and a byte for the status; sectors have 512
    bytes whatever [blk_size] says. *)
Definition blk_handle (r : ram_t) (disk : list Z) (ds : list virtq_desc) : option (ram_t * list Z * Z) :=
  match ds with
  | [h; d; s] =>
      let req := decode virtio_blk_req_c (ram_read r (vd_addr h) 16) in
      let sector := vr_sector_hi req * 2 ^ 32 + vr_sector_low req in
      let writes := Z.testbit (vd_flags d) 1 in
      let fits := (vd_len d mod 512 =? 0) && (sector * 512 + vd_len d <=? Z.of_nat (length disk)) in
      let '(r, disk, st, n) :=
        if (vr_type req =? VIRTIO_BLK_T_IN) && writes then
          if fits then (ram_write (vd_addr d) (slice (Z.to_nat (sector * 512)) (Z.to_nat (vd_len d)) disk) r, disk, VIRTIO_BLK_S_OK, vd_len d)
          else (r, disk, VIRTIO_BLK_S_IOERR, 0)
        else if (vr_type req =? VIRTIO_BLK_T_OUT) && negb writes then
          if fits then (r, splice (Z.to_nat (sector * 512)) (ram_read r (vd_addr d) (Z.to_nat (vd_len d))) disk, VIRTIO_BLK_S_OK, 0)
          else (r, disk, VIRTIO_BLK_S_IOERR, 0)
        else (r, disk, VIRTIO_BLK_S_UNSUPP, 0) in
      Some (ram_write (vd_addr s) [st] r, disk, n + 1)
  | _ => None
  end.

Section disk.
Context {arch : Arch} {kc : Kconfig}.
Context (base : Z) (config : Z -> Z) (latency poll_fuel : nat) (fuel_ok : (latency < poll_fuel)%nat) (bio_read_p bio_write_p : fptr).
(** Where the linker put the driver's variables. *)
Context (queue_data request status_p : Z).
Context (queue_ok : 0 <= queue_data /\ queue_data mod 4096 = 0 /\ queue_data + VIRTIO_QUEUE_SZ 4 64 <= 2 ^ 32).
Context (request_ok : 0 <= request /\ request + 16 <= 2 ^ 32) (status_ok : 0 <= status_p < 2 ^ 32).

Definition apart (a n b m : Z) : Prop := a + n <= b \/ b + m <= a.
Context (vars_apart : apart queue_data (VIRTIO_QUEUE_SZ 4 64) request 16 /\ apart queue_data (VIRTIO_QUEUE_SZ 4 64) status_p 1 /\ apart request 16 status_p 1).

#[local] Hint Extern 0 (VirtioHw (machine (list Z))) => exact (vm_hw blk_handle base 2 config latency) : typeclass_instances.
Abbreviation vdisk := (virtio_st (machine (list Z)) virtq).
Implicit Types (w : vdisk) (m : machine (list Z)).

Definition the_queue : virtq := Virtq 4 queue_data (queue_data + 64) (queue_data + 128).

(** The device is set up for the queue, and nothing is under way. *)
Record blk_ready w : Prop := {
  ready_base : vs_base w = base;
  ready_q : vs_q w = the_queue;
  ready_status : Z.testbit (vm_status (vs_hw w)) 2 = true;
  ready_num : vm_num (vs_hw w) 0 = 4;
  ready_desc : q_desc (vs_hw w) 0 = queue_data;
  ready_align : vm_align (vs_hw w) 0 = 64;
  ready_last : 0 <= vm_last (vs_hw w) 0 < 2 ^ 16;
  ready_avail : rd16 (vm_ram (vs_hw w)) (queue_data + 66) = vm_last (vs_hw w) 0;
  ready_used : rd16 (vm_ram (vs_hw w)) (queue_data + 130) = vm_last (vs_hw w) 0;
  ready_idle : vm_kick (vs_hw w) = None
}.

(** Addresses of none of the driver's variables. *)
Definition foreign (a : Z) : Prop :=
  (a < queue_data \/ queue_data + VIRTIO_QUEUE_SZ 4 64 <= a) /\ (a < request \/ request + 16 <= a) /\ a <> status_p.

(** A buffer that the caller may use. *)
Definition buffer_ok (buf len : Z) : Prop :=
  0 <= buf /\ 0 < len /\ buf + len <= 2 ^ 32 /\ apart queue_data (VIRTIO_QUEUE_SZ 4 64) buf len /\ apart request 16 buf len /\ apart status_p 1 buf len.

(** The memory when the device is notified. *)
Definition req_of (read : bool) (lba : Z) : virtio_blk_req := BlkReq (if read then VIRTIO_BLK_T_IN else VIRTIO_BLK_T_OUT) 0 (Z.land lba 0xffffffff) 0.
Definition d0 : virtq_desc := VirtqDesc (u32 request) 16 VIRTQ_DESC_F_NEXT 1.
Definition d1 (read : bool) (buf len : Z) : virtq_desc :=
  VirtqDesc (u32 buf) (u32 len) (Z.lor VIRTQ_DESC_F_NEXT (if read then VIRTQ_DESC_F_WRITE else 0)) 2.
Definition d2 : virtq_desc := VirtqDesc (u32 status_p) 1 VIRTQ_DESC_F_WRITE 0.
Definition posted (r : ram_t) (i : Z) (read : bool) (lba len buf : Z) : ram_t :=
  let r := ram_write status_p [VIRTIO_BLK_S_UNSUPP] r in
  let r := ram_write request (cenc virtio_blk_req_c (req_of read lba)) r in
  let r := ram_write (queue_data + 16 * 0) (cenc virtq_desc_c d0) r in
  let r := ram_write (queue_data + 16 * 1) (cenc virtq_desc_c (d1 read buf len)) r in
  let r := ram_write (queue_data + 16 * 2) (cenc virtq_desc_c d2) r in
  let r := ram_write (queue_data + 64 + 4 + 2 * (i mod 4)) (le_bytes 2 0) r in
  ram_write (queue_data + 64 + 2) (le_bytes 2 (u16 (i + 1))) r.

Lemma queue_size : VIRTIO_QUEUE_SZ 4 64 = 164.
Proof. done. Qed.

(** Fields are within their widths. *)
Lemma desc_wf a l f n : 0 <= a < 2 ^ 32 -> 0 <= l < 2 ^ 32 -> 0 <= f < 2 ^ 16 -> 0 <= n < 2 ^ 16 -> cwf virtq_desc_c (VirtqDesc a l f n).
Proof. intros. cbn. lia. Qed.

Lemma d0_wf : cwf virtq_desc_c d0.
Proof. apply desc_wf; (apply u32_range || done). Qed.
Lemma d1_wf read buf len : cwf virtq_desc_c (d1 read buf len).
Proof. apply desc_wf; (apply u32_range || by destruct read). Qed.
Lemma d2_wf : cwf virtq_desc_c d2.
Proof. apply desc_wf; (apply u32_range || done). Qed.
Lemma req_wf read lba : cwf virtio_blk_req_c (req_of read lba).
Proof.
  assert (0 <= Z.land lba 0xffffffff < 2 ^ 32). { change 0xffffffff with (Z.ones 32). rewrite Z.land_ones by lia. by apply Z.mod_pos_bound. }
  unfold req_of. generalize dependent (Z.land lba 0xffffffff). intros x Hx. unfold VIRTIO_BLK_T_IN, VIRTIO_BLK_T_OUT. destruct read; cbn; lia.
Qed.

Lemma u16_range x : 0 <= u16 x < 2 ^ 16.
Proof. by apply Z.mod_pos_bound. Qed.

(** The fields of the memory when the device is notified. *)
Record posted_ok (r p : ram_t) (i : Z) (read : bool) (lba len buf : Z) : Prop := {
  po_avail : rd16 p (queue_data + 66) = u16 (i + 1);
  po_used : rd16 p (queue_data + 130) = rd16 r (queue_data + 130);
  po_ring : rd16 p (queue_data + 64 + 4 + 2 * (i mod 4)) = 0;
  po_d0 : desc_at p queue_data 0 = d0;
  po_d1 : desc_at p queue_data 1 = d1 read buf len;
  po_d2 : desc_at p queue_data 2 = d2;
  po_req : ram_read p request 16 = cenc virtio_blk_req_c (req_of read lba);
  po_foreign : forall a, foreign a -> p a = r a
}.

Lemma posted_fields r i read lba len buf : posted_ok r (posted r i read lba len buf) i read lba len buf.
Proof.
  pose proof (cenc_length (c := virtq_desc_c) d0 d0_wf) as L0. pose proof (cenc_length (c := virtq_desc_c) (d1 read buf len) (d1_wf _ _ _)) as L1.
  pose proof (cenc_length (c := virtq_desc_c) d2 d2_wf) as L2. pose proof (cenc_length (c := virtio_blk_req_c) (req_of read lba) (req_wf _ _)) as L3.
  change (csize virtq_desc_c) with 16%nat in *. change (csize virtio_blk_req_c) with 16%nat in *.
  pose proof (Z.mod_pos_bound i 4 eq_refl) as Hi. set (k := i mod 4) in *. unfold apart in vars_apart. rewrite queue_size in *. unfold posted. fold k. cbv zeta.
  assert (Hl : forall v, length (le_bytes 2 v) = 2%nat) by (intros; apply length_le_bytes).
  split.
  - replace (queue_data + 66) with (queue_data + 64 + 2) by lia. apply rd16_at, u16_range.
  - by rewrite !rd16_out by (rewrite ?L0, ?L1, ?L2, ?L3, ?Hl; cbn [length]; lia).
  - rewrite rd16_out by (rewrite Hl; lia). by apply rd16_at.
  - rewrite !desc_at_out by (rewrite ?L1, ?L2, ?Hl; lia). by apply desc_at_here, d0_wf.
  - rewrite !desc_at_out by (rewrite ?L2, ?Hl; lia). by apply desc_at_here, d1_wf.
  - rewrite !desc_at_out by (rewrite ?Hl; lia). by apply desc_at_here, d2_wf.
  - rewrite !ram_read_write_out by (rewrite ?L0, ?L1, ?L2, ?Hl; lia). by apply ram_read_at.
  - intros a (Ha & Hr & Hs). rewrite queue_size in Ha. by rewrite !ram_write_out by (rewrite ?L0, ?L1, ?L2, ?L3, ?Hl; cbn [length]; lia).
Qed.

(** What a transfer is to do: the return code, the memory and the disk. *)
Definition fits (lba len : Z) (disk : list Z) : bool := (len mod 512 =? 0) && (lba * 512 + len <=? Z.of_nat (length disk)).
Definition xfer_spec (read : bool) (lba len buf : Z) (r : ram_t) (disk : list Z) : Z * ram_t * list Z :=
  if fits lba len disk then
    if read then (PB_OK, ram_write buf (slice (Z.to_nat (lba * 512)) (Z.to_nat len) disk) r, disk)
    else (PB_OK, r, splice (Z.to_nat (lba * 512)) (ram_read r buf (Z.to_nat len)) disk)
  else (- PB_ERR_IO, r, disk).

(** The device's part of it. *)
Lemma handle_ok r p i read lba len buf disk : posted_ok r p i read lba len buf -> buffer_ok buf len -> 0 <= lba < 2 ^ 32 ->
  let '(rc, r', disk') := xfer_spec read lba len buf p disk in
  exists st n, blk_handle p disk [d0; d1 read buf len; d2] = Some (ram_write status_p [st] r', disk', n) /\
    (st = VIRTIO_BLK_S_OK /\ rc = PB_OK \/ st = VIRTIO_BLK_S_IOERR /\ rc = - PB_ERR_IO).
Proof.
  intros Hp (Hb & Hl & Hbl & Ha & _) Hlba. unfold apart in Ha. rewrite queue_size in *. unfold blk_handle, d0, d1, d2. cbn [vd_addr vd_len vd_flags].
  rewrite (u32_small request), (u32_small buf), (u32_small len), (u32_small status_p) by lia. rewrite (po_req _ _ _ _ _ _ _ Hp), (decode_cenc virtio_blk_req_c) by apply req_wf.
  unfold req_of. cbn [vr_type vr_sector_low vr_sector_hi]. change 0xffffffff with (Z.ones 32). rewrite Z.land_ones, (Z.mod_small lba) by lia.
  rewrite Z.mul_0_l, Z.add_0_l. unfold xfer_spec, fits. destruct read; cbn [Z.eqb Z.testbit Z.lor negb andb VIRTIO_BLK_T_IN VIRTIO_BLK_T_OUT VIRTQ_DESC_F_NEXT VIRTQ_DESC_F_WRITE Pos.lor Pos.testbit];
    destruct (_ && _); do 2 eexists; (split; [reflexivity|]); by (left + right).
Qed.

Definition disk_of w : list Z := vm_dev (vs_hw w).
Definition ram_of w : ram_t := vm_ram (vs_hw w).

Lemma q_avail_ready w : blk_ready w -> q_avail (vs_hw w) 0 = queue_data + 64 /\ q_used (vs_hw w) 0 = queue_data + 128.
Proof. intros [? ? ? Hn Hd Ha _ _ _ _]. unfold q_avail, q_used. by rewrite Hn, Hd, Ha. Qed.

(** The wait ends when the device has worked off the queue. *)
Lemma used_wait_ok q m' fuel : forall n w, vm_kick (vs_hw w) = Some (0, n) -> (n < fuel)%nat ->
  serve blk_handle 0 (set_kick None (vs_hw w)) = m' -> vm_kick m' = None ->
  rd16 (ram_of w) (avail_idx_p q) <> rd16 (ram_of w) (used_idx_p q) ->
  rd16 (vm_ram m') (avail_idx_p q) = rd16 (ram_of w) (avail_idx_p q) -> rd16 (vm_ram m') (used_idx_p q) = rd16 (ram_of w) (avail_idx_p q) ->
  used_wait fuel q w = (true, with_m m' w).
Proof.
  induction fuel as [|fuel IH]; intros n w Hk Hn Hs Hi Hne Ha Hu; [lia|]. cbn [used_wait]. unfold bind.
  destruct (poll_pair_ok blk_handle base 2 config latency 0 q m' n w Hk Hs Hi Hne Ha Hu) as (a & u & w1 & -> & w2 & -> & [[-> ->]|[Hau (n' & -> & ->)]]).
  - by rewrite Z.eqb_refl.
  - rewrite (proj2 (Z.eqb_neq _ _) Hau), (IH n'); try done. lia.
Qed.

Lemma buffer_foreign buf len a : buffer_ok buf len -> buf <= a < buf + len -> foreign a.
Proof. intros (_ & _ & _ & H1 & H2 & H3) Ha. unfold apart in *. split_and!; lia. Qed.

(** Only foreign memory matters to a transfer. *)
Lemma xfer_spec_ext read lba len buf r p disk : buffer_ok buf len -> (forall a, foreign a -> p a = r a) ->
  let '(rc, r', disk') := xfer_spec read lba len buf r disk in
  exists p', xfer_spec read lba len buf p disk = (rc, p', disk') /\ (forall a, foreign a -> p' a = r' a) /\
    forall a, ~ (buf <= a < buf + len) -> p' a = p a.
Proof.
  intros Hb H. unfold xfer_spec. destruct (fits lba len disk) eqn:Ef; [|by eexists]. pose proof Hb as (_ & Hl & _).
  assert (Hd : (length (slice (Z.to_nat (lba * 512)) (Z.to_nat len) disk) <= Z.to_nat len)%nat) by (unfold slice; rewrite length_take; lia).
  destruct read.
  - eexists. split; [done|]. split; intros a Ha; [|apply ram_write_out; lia]. unfold ram_write. by rewrite H.
  - eexists. split; [|split; [exact H|done]]. f_equal. f_equal. apply ram_read_ext. intros a Ha. apply H. eapply buffer_foreign; [done|lia].
Qed.

Lemma one_pending i : u16 (u16 (i + 1) - i) = 1.
Proof. unfold u16. rewrite Zminus_mod_idemp_l. by replace (i + 1 - i) with 1 by lia. Qed.

(** The memory after the device's answer. *)
Definition answered (i st n : Z) (r : ram_t) : ram_t :=
  ram_write (queue_data + 130) (le_bytes 2 (u16 (i + 1)))
    (ram_write (queue_data + 132 + 8 * (i mod 4)) (le_bytes 4 0 ++ le_bytes 4 n) (ram_write status_p [st] r)).

Lemma answered_fields i st n r : let r' := answered i st n r in
  rd16 r' (queue_data + 66) = rd16 r (queue_data + 66) /\ rd16 r' (queue_data + 130) = u16 (i + 1) /\ ram_read r' status_p 1 = [st] /\
  forall a, foreign a -> r' a = r a.
Proof.
  unfold answered. pose proof (Z.mod_pos_bound i 4 eq_refl). unfold apart in vars_apart. rewrite queue_size in *.
  assert (L8 : length (le_bytes 4 0 ++ le_bytes 4 n) = 8%nat) by by rewrite length_app, !length_le_bytes. split_and!.
  - by rewrite !rd16_out by (rewrite ?L8, ?length_le_bytes; cbn [length]; lia).
  - apply rd16_at, u16_range.
  - rewrite !ram_read_write_out by (rewrite ?L8, ?length_le_bytes; lia). by apply ram_read_at.
  - intros a (H1 & H2 & H3). rewrite queue_size in *. by rewrite !ram_write_out by (rewrite ?L8, ?length_le_bytes; cbn [length]; lia).
Qed.

Lemma serve_run w p read lba len buf : blk_ready w -> let i := vm_last (vs_hw w) 0 in
  posted_ok (ram_of w) p i read lba len buf ->
  forall r' disk' n, blk_handle p (disk_of w) [d0; d1 read buf len; d2] = Some (r', disk', n) ->
  serve blk_handle 0 (set_ram p (vs_hw w)) =
    Machine (ram_write (queue_data + 130) (le_bytes 2 (u16 (i + 1))) (ram_write (queue_data + 132 + 8 * (i mod 4)) (le_bytes 4 0 ++ le_bytes 4 n) r')) disk'
      (vm_status (vs_hw w)) (vm_page (vs_hw w)) (vm_sel (vs_hw w)) (vm_num (vs_hw w)) (vm_align (vs_hw w)) (vm_pfn (vs_hw w))
      (<[0 := u16 (i + 1)]> (vm_last (vs_hw w))) None.
Proof.
  intros Hr i Hp r' disk' n Hh. destruct (q_avail_ready w Hr) as [Qa Qu]. pose proof Hr as [_ _ Hst Hn Hd _ _ _ _ Hk].
  unfold serve. cbn [vm_status vm_ram vm_last set_ram]. rewrite Hst.
  change (q_avail (set_ram p (vs_hw w)) 0) with (q_avail (vs_hw w) 0). rewrite Qa.
  replace (queue_data + 64 + 2) with (queue_data + 66) by lia. rewrite (po_avail _ _ _ _ _ _ _ Hp), one_pending. change (Z.to_nat 1) with 1%nat. cbn [serve_loop].
  unfold take_chain. cbn [vm_num vm_last vm_ram vm_dev vm_status vm_page vm_sel vm_align vm_pfn vm_kick set_ram]. fold i.
  change (q_avail (set_ram p (vs_hw w)) 0) with (q_avail (vs_hw w) 0). change (q_desc (set_ram p (vs_hw w)) 0) with (q_desc (vs_hw w) 0).
  change (q_used (set_ram p (vs_hw w)) 0) with (q_used (vs_hw w) 0). rewrite Qa, Qu, Hn, Hd, (po_ring _ _ _ _ _ _ _ Hp).
  change (Z.to_nat 4) with 4%nat. cbn [chain]. rewrite (po_d0 _ _ _ _ _ _ _ Hp). change (Z.testbit (vd_flags d0) 0) with true. cbn iota.
  change (vd_next d0) with 1. rewrite (po_d1 _ _ _ _ _ _ _ Hp). replace (Z.testbit (vd_flags (d1 read buf len)) 0) with true by by destruct read.
  change (vd_next (d1 read buf len)) with 2. rewrite (po_d2 _ _ _ _ _ _ _ Hp). change (Z.testbit (vd_flags d2) 0) with false. cbn iota.
  unfold disk_of in Hh. rewrite Hh, Hk. do 2 f_equal; [|f_equal]; lia.
Qed.

Lemma ready_advanced w r d : blk_ready w -> rd16 r (queue_data + 66) = u16 (vm_last (vs_hw w) 0 + 1) ->
  rd16 r (queue_data + 130) = u16 (vm_last (vs_hw w) 0 + 1) ->
  blk_ready (with_m (Machine r d (vm_status (vs_hw w)) (vm_page (vs_hw w)) (vm_sel (vs_hw w)) (vm_num (vs_hw w)) (vm_align (vs_hw w)) (vm_pfn (vs_hw w))
      (<[0 := u16 (vm_last (vs_hw w) 0 + 1)]> (vm_last (vs_hw w))) None) w).
Proof. intros [Hb Hq Hst Hn Hd Ha _ _ _ _] H1 H2. split; try done. cbn. apply u16_range. Qed.

Lemma notify_run v w : vs_base w = base -> vreg_write VIRTIO_MMIO_QUEUE_NOTIFY v w = (tt, with_m (set_kick (Some (v, latency)) (vs_hw w)) w).
Proof.
  destruct w as [[] b q]. cbn [vs_base]. intros ->. unfold vreg_write, on_vhw. cbn [mmio_write_32 virtio_mmio vm_hw vm_mmio vs_base vs_hw]. unfold vm_write.
  by rewrite Z.add_simpl_l.
Qed.

(** The index in the available ring before it is advanced. *)
Lemma posted_avail r i read lba len buf :
  let r' := ram_write (queue_data + 64 + 4 + 2 * (i mod 4)) (le_bytes 2 0)
    (ram_write (queue_data + 16 * 2) (cenc virtq_desc_c d2)
    (ram_write (queue_data + 16 * 1) (cenc virtq_desc_c (d1 read buf len))
    (ram_write (queue_data + 16 * 0) (cenc virtq_desc_c d0)
    (ram_write request (cenc virtio_blk_req_c (req_of read lba)) (ram_write status_p [VIRTIO_BLK_S_UNSUPP] r))))) in
  rd16 r' (queue_data + 66) = rd16 r (queue_data + 66).
Proof.
  pose proof (cenc_length (c := virtq_desc_c) d0 d0_wf) as L0. pose proof (cenc_length (c := virtq_desc_c) (d1 read buf len) (d1_wf _ _ _)) as L1.
  pose proof (cenc_length (c := virtq_desc_c) d2 d2_wf) as L2. pose proof (cenc_length (c := virtio_blk_req_c) (req_of read lba) (req_wf _ _)) as L3.
  change (csize virtq_desc_c) with 16%nat in *. change (csize virtio_blk_req_c) with 16%nat in *.
  pose proof (Z.mod_pos_bound i 4 eq_refl). unfold apart in vars_apart. rewrite queue_size in *. cbv zeta.
  by rewrite !rd16_out by (rewrite ?L0, ?L1, ?L2, ?L3, ?length_le_bytes; cbn [length]; lia).
Qed.

(** The driver's part, up to the notification. *)
Lemma post_run w dev read lba len buf : blk_ready w -> let i := vm_last (vs_hw w) 0 in
  virtio_xfer request status_p poll_fuel dev read lba len buf w =
    (ok <- used_wait poll_fuel the_queue ;;
     if negb ok then ret (- PB_ERR_TIMEOUT) else
     st <- on_vhw (mem_load status_p 1) ;;
     if negb (le_val st =? VIRTIO_BLK_S_OK) then ret (- PB_ERR_IO) else ret PB_OK)
    (with_m (set_kick (Some (0, latency)) (set_ram (posted (ram_of w) i read lba len buf) (vs_hw w))) w).
Proof.
  intros Hr i. pose proof Hr as [Hb Hq _ _ _ _ Hl Ha _ Hk]. unfold virtio_xfer, bind at 1, gets. rewrite Hq.
  unfold bind at 1. rewrite load16_run by done. change (avail_idx_p the_queue) with (queue_data + 64 + 2).
  replace (queue_data + 64 + 2) with (queue_data + 66) by lia. rewrite Ha. fold i.
  change (vq_num the_queue) with 4. replace (u16 (i mod 4)) with (i mod 4) by (symmetry; apply Z.mod_small; pose proof (Z.mod_pos_bound i 4 eq_refl); lia).
  unfold bind at 1. rewrite store_run by done. unfold bind at 1. rewrite store_run by done.
  unfold put_desc. do 3 (unfold bind at 1; rewrite store_run by done). unfold store16 at 1, bind at 1. rewrite store_run by done.
  unfold avail_inc, bind at 1. unfold bind at 1. rewrite load16_run by done. unfold store16. rewrite store_run by done.
  unfold bind at 1. rewrite notify_run by exact Hb.
  match goal with |- context [u16 (rd16 ?r ?a + 1)] => replace (rd16 r a) with i; [reflexivity|] end.
  cbn [vm_ram vs_hw with_m set_ram]. change (avail_idx_p the_queue) with (queue_data + 64 + 2).
  replace (queue_data + 64 + 2) with (queue_data + 66) by lia. unfold i. rewrite <- Ha. symmetry. apply posted_avail.
Qed.

Lemma disk_xfer_ok w dev read lba len buf : blk_ready w -> buffer_ok buf len -> 0 <= lba < 2 ^ 32 ->
  let '(rc, r', disk') := xfer_spec read lba len buf (ram_of w) (disk_of w) in
  exists w', virtio_xfer request status_p poll_fuel dev read lba len buf w = (rc, w') /\ blk_ready w' /\ disk_of w' = disk' /\
    forall a, foreign a -> ram_of w' a = r' a.
Proof.
  intros Hr Hb Hl. set (i := vm_last (vs_hw w) 0). set (p := posted (ram_of w) i read lba len buf).
  pose proof (posted_fields (ram_of w) i read lba len buf) as Hp. fold p in Hp.
  pose proof (xfer_spec_ext read lba len buf (ram_of w) p (disk_of w) Hb (po_foreign _ _ _ _ _ _ _ Hp)) as Hx.
  destruct (xfer_spec read lba len buf (ram_of w) (disk_of w)) as [[rc r'] disk']. destruct Hx as (p' & Ep & Hp' & Hout).
  pose proof (handle_ok _ _ _ _ _ _ _ (disk_of w) Hp Hb Hl) as Hh. rewrite Ep in Hh. destruct Hh as (st & n & Eh & Hst).
  pose proof (serve_run w p read lba len buf Hr Hp _ _ _ Eh) as Es. fold i in Es. fold (answered i st n p') in Es.
  destruct (answered_fields i st n p') as (F1 & F2 & F3 & F4). pose proof Hb as (_ & _ & _ & Hq & _). unfold apart in Hq. rewrite queue_size in Hq.
  assert (F1' : rd16 (answered i st n p') (queue_data + 66) = u16 (i + 1)).
  { rewrite F1, <- (po_avail _ _ _ _ _ _ _ Hp). unfold rd16. f_equal. apply ram_read_ext. intros a Ha. apply Hout. lia. }
  rewrite post_run by done. fold i. fold p. unfold bind at 1.
  assert (Ea : avail_idx_p the_queue = queue_data + 66) by (unfold avail_idx_p, the_queue; cbn; lia).
  assert (Eu : used_idx_p the_queue = queue_data + 130) by (unfold used_idx_p, the_queue; cbn; lia).
  assert (Hk : set_kick None (vs_hw w) = vs_hw w) by (pose proof (ready_idle _ Hr) as H; destruct (vs_hw w); cbn in H; by rewrite H).
  match type of Es with _ = ?x => set (m' := x) in Es end. assert (Hi : 0 <= i < 2 ^ 16) by apply Hr.
  rewrite (used_wait_ok the_queue m' poll_fuel latency); [|done|exact fuel_ok|rewrite <- Es, <- Hk; reflexivity|done|..];
    rewrite ?Ea, ?Eu; change (ram_of (with_m _ w)) with p; rewrite ?(po_avail _ _ _ _ _ _ _ Hp), ?(po_used _ _ _ _ _ _ _ Hp).
  - cbn [negb]. unfold bind. rewrite load_run by done. cbn [vs_hw with_m vm_ram m']. rewrite F3. exists (with_m m' w).
    split; [|split_and!; [by apply ready_advanced|done|intros a Ha; cbn; rewrite F4 by done; by apply Hp']].
    destruct Hst as [[-> ->]|[-> ->]]; done.
  - unfold ram_of. rewrite (ready_used _ Hr). fold i. unfold u16. intros H. Z.to_euclidean_division_equations. lia.
  - exact F1'.
  - exact F2.
Qed.

(** ** Sequences of accesses *)

Inductive blk_access := BlkAccess (reads : bool) (lba len buf : Z).

Definition virtio_access (x : blk_access) : M vdisk Z :=
  let '(BlkAccess reads lba len buf) := x in
  (if reads then virtio_bio_read else virtio_bio_write) request status_p poll_fuel 0 lba len buf.
Fixpoint virtio_accesses (xs : list blk_access) : M vdisk (list Z) :=
  match xs with
  | [] => ret []
  | x :: xs => rc <- virtio_access x ;; rcs <- virtio_accesses xs ;; ret (rc :: rcs)
  end.

Lemma access_xfer reads lba len buf : virtio_access (BlkAccess reads lba len buf) = virtio_xfer request status_p poll_fuel 0 reads lba len buf.
Proof. by destruct reads. Qed.

(** The return codes, the memory and the disk as they are meant to be. *)
Fixpoint accesses_spec (xs : list blk_access) (r : ram_t) (disk : list Z) : list Z * ram_t * list Z :=
  match xs with
  | [] => ([], r, disk)
  | BlkAccess reads lba len buf :: xs =>
      let '(rc, r, disk) := xfer_spec reads lba len buf r disk in
      let '(rcs, r, disk) := accesses_spec xs r disk in (rc :: rcs, r, disk)
  end.

Definition access_ok (x : blk_access) : Prop := let '(BlkAccess _ lba len buf) := x in buffer_ok buf len /\ 0 <= lba < 2 ^ 32.

(** The specification looks at foreign memory only. *)
Lemma accesses_spec_ext xs : forall r p disk, Forall access_ok xs -> (forall a, foreign a -> p a = r a) ->
  let '(rcs, r', disk') := accesses_spec xs r disk in
  exists p', accesses_spec xs p disk = (rcs, p', disk') /\ forall a, foreign a -> p' a = r' a.
Proof.
  induction xs as [|[reads lba len buf] xs IH]; intros r p disk Hx H; cbn [accesses_spec]; [by exists p|].
  apply Forall_cons in Hx as [[Hb Hl] Hx]. pose proof (xfer_spec_ext reads lba len buf r p disk Hb H) as H1.
  destruct (xfer_spec reads lba len buf r disk) as [[rc r1] k1]. destruct H1 as (p1 & -> & H1 & _). specialize (IH r1 p1 k1 Hx H1).
  destruct (accesses_spec xs r1 k1) as [[rcs r'] k']. destruct IH as (p' & -> & H'). by exists p'.
Qed.

(** [C14] The virtio disk is a disk: any sequence of reads and writes through
    the callbacks, however long, has for each access the return code, and for
    memory and disk the contents that the accesses say; an access past the end
    or with a length that is not a multiple of the sector fails with
    [-PB_ERR_IO] and changes nothing.  The wait for the device ends for every
    delay, the 16-bit indices of the rings may wrap any number of times, and
    apart from its variables the driver touches only the buffers it is
    given. *)
Theorem virtio_refines_disk xs w : blk_ready w -> Forall access_ok xs ->
  let '(rcs, r', disk') := accesses_spec xs (ram_of w) (disk_of w) in
  exists w', virtio_accesses xs w = (rcs, w') /\ blk_ready w' /\ disk_of w' = disk' /\ forall a, foreign a -> ram_of w' a = r' a.
Proof.
  revert w. induction xs as [|[reads lba len buf] xs IH]; intros w Hr Hx; cbn [accesses_spec virtio_accesses]; [by exists w|].
  apply Forall_cons in Hx as [[Hb Hl] Hx]. pose proof (disk_xfer_ok w 0 reads lba len buf Hr Hb Hl) as H1.
  destruct (xfer_spec reads lba len buf (ram_of w) (disk_of w)) as [[rc r1] k1]. destruct H1 as (w1 & E1 & Hr1 & Hk1 & H1).
  specialize (IH w1 Hr1 Hx). pose proof (accesses_spec_ext xs r1 (ram_of w1) k1 Hx H1) as Hext. rewrite Hk1 in IH.
  destruct (accesses_spec xs r1 k1) as [[rcs r'] k']. destruct Hext as (p' & Ep & Hp). rewrite Ep in IH. destruct IH as (w2 & E2 & Hr2 & Hk2 & H2).
  exists w2. rewrite access_xfer. unfold bind. rewrite E1, E2. split_and!; [done..|]. intros a Ha. rewrite H2 by done. by apply Hp.
Qed.

(** ** Set-up *)

(** From reset: the variables of the queue are zero. *)
Definition queue_zero w : Prop := rd16 (ram_of w) (queue_data + 66) = 0 /\ rd16 (ram_of w) (queue_data + 130) = 0.

Lemma vreg_write_run off v w : vs_base w = base -> vreg_write off v w = (tt, with_m (vm_write base latency (base + off) v (vs_hw w)).2 w).
Proof. destruct w as [m b q]. cbn [vs_base]. intros ->. unfold vreg_write, on_vhw. cbn [mmio_write_32 virtio_mmio vm_hw vm_mmio vs_base vs_hw]. by destruct (vm_write _ _ _ _ _) as [[] ?]. Qed.

Lemma vreg_read_run off w : vs_base w = base -> vreg_read off w = ((vm_read base 2 config (base + off) (vs_hw w)).1, w).
Proof. destruct w as [m b q]. cbn [vs_base]. by intros ->. Qed.

Lemma capacity_run w : vs_base w = base -> cfg_capacity w = (config 4 * 2 ^ 32 + config 0, w).
Proof. intros Hb. unfold cfg_capacity, bind. rewrite !vreg_read_run by done. unfold vm_read. by rewrite !Z.add_simpl_l. Qed.

Lemma blk_size_run w : vs_base w = base -> cfg_blk_size w = (config 20, w).
Proof. intros Hb. unfold cfg_blk_size. rewrite vreg_read_run by done. unfold vm_read. by rewrite Z.add_simpl_l. Qed.

Lemma setup_run w : vs_base w = base -> queue_zero w -> exists w', virtio_block_setup queue_data w = (tt, w') /\
  blk_ready w' /\ disk_of w' = disk_of w /\ ram_of w' = ram_of w.
Proof using queue_ok.
  clear fuel_ok request_ok status_ok vars_apart. intros Hb [H1 H2]. unfold virtio_block_setup. do 3 (unfold bind at 1; rewrite vreg_write_run by done).
  unfold bind at 1, modify. do 4 (unfold bind at 1; rewrite vreg_write_run by done). unfold vreg_set, bind. rewrite vreg_read_run, vreg_write_run by done.
  destruct w as [[r d st pg sel num al pfn la ki] b q]. cbn [vs_base] in Hb. subst b. cbn [vs_hw with_m vs_base vs_q]. unfold vm_write, vm_read. cbn [fst snd].
  rewrite !Z.add_simpl_l. eexists. split; [reflexivity|]. split; [|split; reflexivity].
  assert (Hpfn : u32 (Z.shiftr queue_data 12) * 4096 = queue_data).
  { clear -queue_ok. rewrite queue_size in *. rewrite Z.shiftr_div_pow2 by lia. change (2 ^ 12) with 4096. rewrite u32_small; Z.to_euclidean_division_equations; lia. }
  split; done.
Qed.

(** The disk is found and set up: for a device that reports itself as a
    disk, [virtio_block_init] registers a device of the size and block size the
    disk reports, with the driver's callbacks, visible and writable, and leaves
    the queue ready for transfers; the disk and memory are untouched. *)
Theorem virtio_block_init_registers u (s : bio_state vdisk) :
  let capacity := config 4 * 2 ^ 32 + config 0 in
  bio_wf s -> n_bios s < CONFIG_BIO_MAX_DEVS -> uuid_wf u -> 0 < capacity <= 2 ^ 32 -> 0 < config 20 < 2 ^ 32 -> queue_zero (bio_hw s) ->
  exists s', virtio_block_init queue_data bio_read_p bio_write_p base u s = (n_bios s, s') /\ bio_wf s' /\ n_bios s' = n_bios s + 1 /\ older_kept s s' /\
    dev_at s' (n_bios s) = driver_device (capacity - 1) (config 20) u name_virtio bio_read_p bio_write_p (Z.lor BIO_FLAG_VISIBLE BIO_FLAG_WRITABLE) /\
    blk_ready (bio_hw s') /\ disk_of (bio_hw s') = disk_of (bio_hw s) /\ ram_of (bio_hw s') = ram_of (bio_hw s).
Proof using queue_ok.
  clear fuel_ok request_ok status_ok vars_apart.
  intros capacity Hwf Hn Hu Hc Hbs Hz. pose proof ptr_bits_ge32. pose proof Hwf as ((Hn0 & _) & _).
  set (w0 := VirtioSt (vs_hw (bio_hw s)) base (vs_q (bio_hw s))). destruct (setup_run w0 eq_refl Hz) as (w1 & E1 & R1 & D1 & M1).
  set (s1 := BioState (bio_pool s) (n_bios s) w1). pose proof (ready_base _ R1) as Hb1.
  destruct (register_driver_ok (u32 (capacity - 1)) (config 20) u name_virtio bio_read_p bio_write_p (Z.lor BIO_FLAG_VISIBLE BIO_FLAG_WRITABLE) s1)
    as (s2 & s3 & s4 & E2 & E3 & E4 & W4 & N4 & B4 & O4 & K4 & D4); [done|done|apply u32_range|lia|done|by vm_compute|].
  exists s4. rewrite (u32_small (capacity - 1)) in D4 by lia. rewrite B4. split_and!; try done.
  unfold virtio_block_init, bind, on_virtio, call_drv, modify. cbn [bio_hw]. fold w0. rewrite vreg_read_run by done.
  cbn [vm_read fst]. unfold vm_read. rewrite Z.add_simpl_l. cbn [fst Z.eqb Pos.eqb VIRTIO_MMIO_DEVICE_ID negb bio_pool n_bios bio_hw].
  rewrite E1. cbn [bio_hw bio_pool n_bios]. rewrite capacity_run by done. cbn [bio_hw bio_pool n_bios]. rewrite blk_size_run by done.
  cbn [bio_pool n_bios]. fold s1. change (config 4 * 2 ^ 32 + config 0) with capacity. rewrite E2. change (n_bios s1) with (n_bios s) in *.
  rewrite (proj2 (Z.ltb_ge _ _) Hn0), E3. change (PB_OK <? 0) with false. cbv beta iota. by rewrite E4.
Qed.

(** ** What the block layer relies on *)

(** The buffer of the caller, and the largest disk that fits it. *)
Context (cbuf cmax : Z) (cbuf_ok : buffer_ok cbuf cmax).

#[export] Instance virtq_eq_dec : EqDecision virtq.
Proof. solve_decision. Defined.

Definition blk_readyb w : bool :=
  (vs_base w =? base) && bool_decide (vs_q w = the_queue) && Z.testbit (vm_status (vs_hw w)) 2 && (vm_num (vs_hw w) 0 =? 4) &&
  (q_desc (vs_hw w) 0 =? queue_data) && (vm_align (vs_hw w) 0 =? 64) && (0 <=? vm_last (vs_hw w) 0) && (vm_last (vs_hw w) 0 <? 2 ^ 16) &&
  (rd16 (ram_of w) (queue_data + 66) =? vm_last (vs_hw w) 0) && (rd16 (ram_of w) (queue_data + 130) =? vm_last (vs_hw w) 0) &&
  match vm_kick (vs_hw w) with None => true | Some _ => false end.

Lemma blk_readyb_iff w : blk_readyb w = true <-> blk_ready w.
Proof.
  unfold blk_readyb. rewrite !andb_true_iff, !Z.eqb_eq, bool_decide_eq_true, Z.leb_le, Z.ltb_lt. split.
  - intros ((((((((((? & ?) & ?) & ?) & ?) & ?) & ?) & ?) & ?) & ?) & Hk). split; try done. by destruct (vm_kick (vs_hw w)).
  - intros [? ? ? ? ? ? [? ?] ? ? Hk]. by rewrite Hk.
Qed.

(** A write to the caller's buffer. *)
Definition poke (bs : list Z) w : vdisk := with_m (set_ram (ram_write cbuf bs (ram_of w)) (vs_hw w)) w.

(** The driver as the block layer calls it, with data in the caller's
    buffer. *)
#[local] Instance virtio_driver : BioDriver vdisk := {|
  drv_read _ dev lba len w :=
    let '(rc, w) := virtio_bio_read request status_p poll_fuel dev lba len cbuf w in ((rc, ram_read (ram_of w) cbuf (Z.to_nat len)), w);
  drv_write _ dev lba len bs w := virtio_bio_write request status_p poll_fuel dev lba len cbuf (poke bs w);
  drv_erase _ _ _ _ w := (- PB_ERR_NOT_IMPLEMENTED, w)
|}.

Lemma poke_ready bs w : (Z.of_nat (length bs) <= cmax) -> blk_ready w -> blk_ready (poke bs w).
Proof.
  intros Hl [? ? ? ? ? ? ? Ha Hu ?]. destruct cbuf_ok as (_ & _ & _ & Hq & _). unfold apart in Hq. rewrite queue_size in Hq.
  split; try done; cbn [poke with_m vs_hw vm_ram set_ram vm_last]; unfold ram_of; by rewrite rd16_out by lia.
Qed.

Lemma buffer_sub len : 0 < len <= cmax -> buffer_ok cbuf len.
Proof. intros Hl. destruct cbuf_ok as (? & ? & ? & ? & ? & ?). unfold buffer_ok, apart in *. lia. Qed.

(** The contents of a disk that is ready and fits the buffer. *)
Definition virtio_bytes w : list Z := if blk_readyb w && (Z.of_nat (length (disk_of w)) <=? cmax) then disk_of w else [].

Lemma virtio_bytes_some w n : 0 < n <= Z.of_nat (length (virtio_bytes w)) ->
  blk_ready w /\ virtio_bytes w = disk_of w /\ Z.of_nat (length (disk_of w)) <= cmax.
Proof.
  unfold virtio_bytes. destruct (blk_readyb w && _) eqn:E; [|cbn; lia]. apply andb_true_iff in E as [E1 E2].
  apply blk_readyb_iff in E1. apply Z.leb_le in E2. done.
Qed.

Lemma virtio_bytes_ready w : blk_ready w -> Z.of_nat (length (disk_of w)) <= cmax -> virtio_bytes w = disk_of w.
Proof. intros H1 H2. unfold virtio_bytes. by rewrite (proj2 (blk_readyb_iff w) H1), (proj2 (Z.leb_le _ _) H2). Qed.

#[export] Instance virtio_disk_laws : DiskLaws (HW := vdisk).
Proof.
  pose proof ptr_bits_ge32. destruct cbuf_ok as (Hc0 & _ & Hc & _). refine {| disk_unit := 512; disk_bytes := virtio_bytes |}; [lia|..].
  - intros f dev lba len w H0 Hl Hm Hfit. destruct (virtio_bytes_some w (lba * 512 + len)) as (Hr & E & Hmax); [lia|]. rewrite E in Hfit |- *.
    pose proof (disk_xfer_ok w dev true lba len cbuf Hr (buffer_sub len ltac:(lia)) ltac:(lia)) as Hx. unfold xfer_spec, fits in Hx.
    rewrite (proj2 (Z.eqb_eq _ _) Hm), (proj2 (Z.leb_le _ _) Hfit) in Hx. cbn [andb] in Hx. destruct Hx as (w' & Ew & Hr' & Hd & Hmem).
    exists w'. cbn [drv_read virtio_driver]. unfold virtio_bio_read. rewrite Ew.
    assert (Hs : length (slice (Z.to_nat (lba * 512)) (Z.to_nat len) (disk_of w)) = Z.to_nat len) by (unfold slice; rewrite length_take, length_drop; lia).
    split; [|by rewrite virtio_bytes_ready by (rewrite ?Hd; done)]. do 2 f_equal. rewrite <- (ram_read_at (ram_of w) cbuf _ _ Hs) at 1.
    apply ram_read_ext. intros a Ha. apply Hmem. eapply buffer_foreign; [apply (buffer_sub len); lia|lia].
  - intros f dev lba bs w H0 Hl Hm Hfit. set (len := Z.of_nat (length bs)) in *.
    destruct (virtio_bytes_some w (lba * 512 + len)) as (Hr & E & Hmax); [lia|]. rewrite E in Hfit |- *.
    pose proof (disk_xfer_ok (poke bs w) dev false lba len cbuf (poke_ready bs w ltac:(lia) Hr) (buffer_sub len ltac:(lia)) ltac:(lia)) as Hx.
    unfold xfer_spec, fits in Hx. change (disk_of (poke bs w)) with (disk_of w) in Hx.
    rewrite (proj2 (Z.eqb_eq _ _) Hm), (proj2 (Z.leb_le _ _) Hfit) in Hx. cbn [andb] in Hx. destruct Hx as (w' & Ew & Hr' & Hd & Hmem).
    change (ram_of (poke bs w)) with (ram_write cbuf bs (ram_of w)) in Hd. rewrite ram_read_at in Hd by (unfold len; lia).
    exists w'. split; [exact Ew|]. rewrite virtio_bytes_ready; [exact Hd|done|]. rewrite Hd, length_splice by lia. done.
Defined.
End disk.

(** ** Witnesses *)

#[local] Existing Instance armv7a.
#[local] Existing Instance test_defconfig.

Module ToyVirtio.
Definition base : Z := 0x0A003C00.
Definition queue_data : Z := 0x40001000.
Definition request : Z := 0x40002000.
Definition status_p : Z := 0x40002040.
(** Four sectors of 512 bytes. *)
Definition config (off : Z) : Z := if off =? 0 then 4 else if off =? 20 then 512 else 0.
Definition m0 : machine (list Z) :=
  Machine (fun a => if a <? 0x40003000 then 0 else a mod 256) (zeros 2048) 0 0 0 (fun _ => 0) (fun _ => 0) (fun _ => 0) (fun _ => 0) None.
Definition reset : virtio_st (machine (list Z)) virtq := VirtioSt m0 0 (Virtq 0 0 0 0).
(** The indices are about to wrap. *)
Definition m1 : machine (list Z) :=
  Machine (ram_write (queue_data + 66) [255; 255] (ram_write (queue_data + 130) [255; 255] (vm_ram m0))) (zeros 2048) 7 4096 0
    (fun _ => 4) (fun _ => 64) (fun _ => queue_data / 4096) (fun _ => 0xffff) None.
Definition running : virtio_st (machine (list Z)) virtq := VirtioSt m1 base (the_queue queue_data).
Definition ops : list blk_access := [BlkAccess false 1 512 0x40003000; BlkAccess true 1 1024 0x40004000; BlkAccess true 3 1024 0x40004000].

Lemma queue_ok : 0 <= queue_data /\ queue_data mod 4096 = 0 /\ queue_data + VIRTIO_QUEUE_SZ 4 64 <= 2 ^ 32.
Proof. by vm_compute. Qed.
Lemma request_ok : 0 <= request /\ request + 16 <= 2 ^ 32.
Proof. by vm_compute. Qed.
Lemma status_ok : 0 <= status_p < 2 ^ 32.
Proof. by vm_compute. Qed.
Lemma vars_apart : apart queue_data (VIRTIO_QUEUE_SZ 4 64) request 16 /\ apart queue_data (VIRTIO_QUEUE_SZ 4 64) status_p 1 /\ apart request 16 status_p 1.
Proof. unfold apart. split_and!; left; by vm_compute. Qed.
Lemma running_ready : blk_ready base queue_data running.
Proof. split; by vm_compute. Qed.
End ToyVirtio.

Lemma virtio_refines_disk_witness : exists w',
  virtio_accesses ToyVirtio.base ToyVirtio.config 3 4 ToyVirtio.request ToyVirtio.status_p ToyVirtio.ops ToyVirtio.running =
    ([PB_OK; PB_OK; - PB_ERR_IO], w') /\ slice 512 4 (disk_of w') = [0; 1; 2; 3] /\ ram_read (ram_of w') 0x40004000 4 = [0; 1; 2; 3].
Proof.
  pose proof (virtio_refines_disk ToyVirtio.base ToyVirtio.config 3 4 (le_n 4) ToyVirtio.queue_data ToyVirtio.request ToyVirtio.status_p
    ToyVirtio.queue_ok ToyVirtio.request_ok ToyVirtio.status_ok ToyVirtio.vars_apart ToyVirtio.ops ToyVirtio.running ToyVirtio.running_ready) as H.
  destruct (accesses_spec ToyVirtio.ops (ram_of ToyVirtio.running) (disk_of ToyVirtio.running)) as [[rcs r'] disk'] eqn:E.
  destruct H as (w' & Ew & _ & Hd & Hr).
  { repeat (apply Forall_cons; split); [..|by apply Forall_nil]; (split; [split_and!; try (by vm_compute); (left + right); by vm_compute|by vm_compute]). }
  assert (rcs = [PB_OK; PB_OK; - PB_ERR_IO]) as -> by (change rcs with (rcs, r', disk').1.1; rewrite <- E; by vm_compute).
  exists w'. split; [exact Ew|]. rewrite Hd. split; [change disk' with (([PB_OK; PB_OK; - PB_ERR_IO], r', disk').2); rewrite <- E; by vm_compute|].
  transitivity (ram_read r' 0x40004000 4).
  - apply ram_read_ext. intros a Ha. apply Hr. split_and!; unfold ToyVirtio.queue_data, ToyVirtio.request, ToyVirtio.status_p; rewrite ?queue_size; lia.
  - change r' with (([PB_OK; PB_OK; - PB_ERR_IO], r', disk').1.2). rewrite <- E. by vm_compute.
Defined.

Lemma virtio_block_init_registers_witness : exists s',
  virtio_block_init (VirtioHw0 := vm_hw blk_handle ToyVirtio.base 2 ToyVirtio.config 3) ToyVirtio.queue_data 1 2 ToyVirtio.base RamDisk.uuA
    (bio_init ToyVirtio.reset) = (0, s') /\ last_lba (dev_at s' 0) = 3 /\ blk_ready ToyVirtio.base ToyVirtio.queue_data (bio_hw s').
Proof.
  destruct (virtio_block_init_registers ToyVirtio.base ToyVirtio.config 3 1 2 ToyVirtio.queue_data ToyVirtio.queue_ok RamDisk.uuA (bio_init ToyVirtio.reset))
    as (s' & E & _ & _ & _ & D & R & _).
  - by apply bio_init_wf.
  - by vm_compute.
  - split; [done|by apply Forall_replicate].
  - by vm_compute.
  - by vm_compute.
  - by vm_compute.
  - exists s'. change (n_bios (bio_init ToyVirtio.reset)) with 0 in D. split; [exact E|]. split; [by rewrite D|exact R].
Defined.
