(* ===== verification/VirtioSerial.v ===== *)
(** * The virtio serial port

    [src/drivers/virtio/virtio_serial.c], the transport of command mode on the
    test platform, and a device that sends what it is given and hands out what
    it has received, in full buffers or in short ones ([serial_handle]). *)

From stdpp Require Import functions.
From S2P Require Import Prelude Errors Ram Ocotp Virtio VirtioDev.
Local Open Scope c_scope.

(** ** The driver *)

Definition VIRTIO_SERIAL_QSZ : Z := 1024.
Definition VIRTIO_CONSOLE_PORT_OPEN : Z := 6.
(** [BIT(7)] in the flags of a descriptor *)
Definition DESC_F_BIT7 : Z := Z.shiftl 1 7.

Record virtio_serial_control := SerialControl { vc_id : Z; vc_event : Z; vc_value : Z }.
Definition virtio_serial_control_c : codec virtio_serial_control :=
  c_iso (fun c => (vc_id c, (vc_event c, vc_value c))) (fun '(a, (b, c)) => SerialControl a b c) (u32c ⊗ u16c ⊗ u16c)%codec.

(** The queues [rx], [tx], [ctrl_rx] and [ctrl_tx], and [cur_xfer_q] as a
    pointer to one of them. *)
Inductive queue_name := Q_rx | Q_tx | Q_ctrl_rx | Q_ctrl_tx.
Record serial_qs := SerialQs { sq : queue_name -> virtq; cur_xfer_q : option queue_name }.

#[export] Instance queue_name_eq_dec : EqDecision queue_name.
Proof. solve_decision. Defined.

Section serial.
Context {arch : Arch} {HW : Type} `{!VirtioHw HW}.
(** The addresses of the queues' memory and of [ctrlm]; how many polls of the
    used ring the model follows. *)
Context (data_p : queue_name -> Z) (ctrlm : Z) (poll_fuel : nat).
Abbreviation V := (M (virtio_st HW serial_qs)).

(** The assignments to [addr], [len] and [flags] of a descriptor; [next] is
    left as it is. *)
Definition put_desc3 (q : virtq) (i addr len flags : Z) : V unit :=
  on_vhw (mem_store (desc_p q i) (le_bytes 8 addr ++ le_bytes 4 len ++ le_bytes 2 flags)).

(** The loop posts one descriptor for every 4096 bytes. *)
Fixpoint xfer_loop (fuel : nat) (q : virtq) (read : bool) (bytes buf_p desc_count : Z) : V unit :=
  match fuel with
  | O => ret tt
  | S fuel =>
      if bytes =? 0 then ret tt else
      i <- load16 (avail_idx_p q) ;;
      let idx := u16 (i mod vq_num q) in
      let chunk := if 4096 <? bytes then 4096 else bytes in
      put_desc3 q desc_count (u32 buf_p) (u32 chunk) (Z.lor (if read then VIRTQ_DESC_F_WRITE else 0) DESC_F_BIT7) ;;;
      store16 (avail_ring_p q idx) (u16 desc_count) ;;;
      avail_inc q ;;;
      xfer_loop fuel q read (usz (bytes - chunk)) (usz (buf_p + chunk)) (usz (desc_count + 1))
  end.

Definition virtio_xfer (q : queue_name) (read : bool) (queue_index buf length : Z) : V Z :=
  if VIRTIO_SERIAL_QSZ * 4096 <? length then ret (- PB_ERR_IO) else
  w <- get ;;
  xfer_loop (S (Z.to_nat ((length + 4095) / 4096))) (sq (vs_q w) q) read length buf 0 ;;;
  vreg_write VIRTIO_MMIO_QUEUE_NOTIFY queue_index ;;;
  ret PB_OK.

Definition virtio_xfer_complete (q : queue_name) : V Z :=
  w <- get ;;
  let q := sq (vs_q w) q in
  a <- load16 (avail_idx_p q) ;;
  u <- load16 (used_idx_p q) ;;
  ret (if a =? u then PB_OK else - PB_ERR_AGAIN).

(** [do rc = virtio_xfer_complete(q); while (rc == -PB_ERR_AGAIN)]; the last
    code if the device is not done within [fuel] polls. *)
Fixpoint complete_loop (fuel : nat) (q : queue_name) : V Z :=
  match fuel with
  | O => ret (- PB_ERR_AGAIN)
  | S fuel => rc <- virtio_xfer_complete q ;; if rc =? - PB_ERR_AGAIN then complete_loop fuel q else ret rc
  end.

Definition virtio_serial_write (buf length : Z) : V Z :=
  rc <- virtio_xfer Q_tx false 5 buf length ;;
  if negb (rc =? PB_OK) then ret rc else
  complete_loop poll_fuel Q_tx.

Definition virtio_serial_read (buf length : Z) : V Z :=
  rc <- virtio_xfer Q_rx true 4 buf length ;;
  if negb (rc =? PB_OK) then ret rc else
  complete_loop poll_fuel Q_rx.

Definition set_cur (q : queue_name) : V unit := modify (fun w => VirtioSt (vs_hw w) (vs_base w) (SerialQs (sq (vs_q w)) (Some q))).

Definition virtio_serial_async_write (buf length : Z) : V Z := set_cur Q_tx ;;; virtio_xfer Q_tx false 5 buf length.
Definition virtio_serial_async_read (buf length : Z) : V Z := set_cur Q_rx ;;; virtio_xfer Q_rx true 4 buf length.

(** [cur_xfer_q] is not NULL after a transfer was started; the model returns
    [-PB_ERR] where the code would read address 0. *)
Definition virtio_serial_async_complete : V Z :=
  w <- get ;; match cur_xfer_q (vs_q w) with Some q => virtio_xfer_complete q | None => ret (- PB_ERR) end.

Definition queue_init (q : queue_name) (buf queue_id : Z) : V unit :=
  modify (fun w => VirtioSt (vs_hw w) (vs_base w) (SerialQs (fun q' => if decide (q' = q) then
    Virtq VIRTIO_SERIAL_QSZ buf (buf + VIRTIO_QUEUE_AVAIL_OFFSET VIRTIO_SERIAL_QSZ 64) (buf + VIRTIO_QUEUE_USED_OFFSET VIRTIO_SERIAL_QSZ 64)
    else sq (vs_q w) q') (cur_xfer_q (vs_q w)))) ;;;
  vreg_write VIRTIO_MMIO_QUEUE_SEL queue_id ;;;
  vreg_write VIRTIO_MMIO_QUEUE_NUM VIRTIO_SERIAL_QSZ ;;;
  vreg_write VIRTIO_MMIO_QUEUE_ALIGN 64 ;;;
  vreg_write VIRTIO_MMIO_QUEUE_PFN (u32 (Z.shiftr buf 12)).

(** [cfg->cols] and [cfg->rows] are the two halves of a word. *)
Definition virtio_serial_init (base_ : Z) : V Z :=
  modify (fun w => VirtioSt (vs_hw w) base_ (vs_q w)) ;;;
  device_id <- vreg_read VIRTIO_MMIO_DEVICE_ID ;;
  if negb (device_id =? 3) then ret (- PB_ERR_IO) else
  features <- vreg_read VIRTIO_MMIO_DEVICE_FEATURES ;;
  vreg_write VIRTIO_MMIO_STATUS 0 ;;;
  vreg_set VIRTIO_MMIO_STATUS (Z.lor VIRTIO_STATUS_ACKNOWLEDGE VIRTIO_STATUS_DRIVER) ;;;
  vreg_write VIRTIO_MMIO_DEVICE_FEATURES_SEL VIRTIO_F_EVENT_IDX ;;;
  vreg_write VIRTIO_MMIO_DEVICE_FEATURES_SEL 0 ;;;
  vreg_write VIRTIO_MMIO_GUEST_PAGE_SIZE 4096 ;;;
  vreg_write VIRTIO_MMIO_CONFIG 0 ;;;
  vreg_write (VIRTIO_MMIO_CONFIG + 4) 0 ;;;
  vreg_write (VIRTIO_MMIO_CONFIG + 8) 0 ;;;
  vreg_set VIRTIO_MMIO_STATUS VIRTIO_STATUS_FEATURES_OK ;;;
  queue_init Q_rx (data_p Q_rx) 4 ;;;
  queue_init Q_tx (data_p Q_tx) 5 ;;;
  queue_init Q_ctrl_rx (data_p Q_ctrl_rx) 2 ;;;
  queue_init Q_ctrl_tx (data_p Q_ctrl_tx) 3 ;;;
  vreg_set VIRTIO_MMIO_STATUS VIRTIO_STATUS_DRIVER_OK ;;;
  on_vhw (mem_store ctrlm (cenc virtio_serial_control_c (SerialControl 1 VIRTIO_CONSOLE_PORT_OPEN 1))) ;;;
  virtio_xfer Q_ctrl_tx false 3 ctrlm 8.
End serial.

(** ** A serial device *)

(** What it has sent and what it has received and not yet handed out. *)
Record uart := Uart { ut_out : list Z; ut_in : list Z }.

(** A buffer is filled when there is enough to fill it.  When there is not, a
    [greedy] device hands the buffer back with what there is, if anything, and
    reports the length in the used ring; the other device waits for more. *)
Definition serial_handle (greedy : bool) (r : ram_t) (d : uart) (ds : list virtq_desc) : option (ram_t * uart * Z) :=
  match ds with
  | [x] =>
      if Z.testbit (vd_flags x) 1 then
        if vd_len x <=? Z.of_nat (length (ut_in d))
        then Some (ram_write (vd_addr x) (take (Z.to_nat (vd_len x)) (ut_in d)) r, Uart (ut_out d) (drop (Z.to_nat (vd_len x)) (ut_in d)), vd_len x)
        else if greedy && negb (Nat.eqb (length (ut_in d)) 0)
        then Some (ram_write (vd_addr x) (ut_in d) r, Uart (ut_out d) [], Z.of_nat (length (ut_in d)))
        else None
      else Some (r, Uart (ut_out d ++ ram_read r (vd_addr x) (Z.to_nat (vd_len x))) (ut_in d), 0)
  | _ => None
  end.

Lemma decode_desc3 a l f r : 0 <= a < 2 ^ 64 -> 0 <= l < 2 ^ 32 -> 0 <= f < 2 ^ 16 -> length r = 2%nat ->
  decode virtq_desc_c (le_bytes 8 a ++ le_bytes 4 l ++ le_bytes 2 f ++ r) = VirtqDesc a l f (le_val r).
Proof.
  intros Ha Hl Hf Hr. cbv [decode virtq_desc_c c_iso c_pair c_uint cdec fst].
  rewrite !(take_app_length' _ _ 8), !(drop_app_length' _ _ 8) by (by rewrite length_le_bytes).
  rewrite !(take_app_length' _ _ 4), !(drop_app_length' _ _ 4) by (by rewrite length_le_bytes).
  rewrite !(take_app_length' _ _ 2), !(drop_app_length' _ _ 2) by (by rewrite length_le_bytes).
  rewrite !le_val_le_bytes by done. by rewrite take_ge by lia.
Qed.

Section machine.
Context {arch : Arch} (greedy : bool) (base : Z) (config : Z -> Z) (latency poll_fuel : nat) (fuel_ok : (latency < poll_fuel)%nat).
#[local] Hint Extern 0 (VirtioHw (machine uart)) => exact (vm_hw (serial_handle greedy) base 3 config latency) : typeclass_instances.
Abbreviation vserial := (virtio_st (machine uart) serial_qs).
Implicit Types (w : vserial) (m : machine uart) (r : ram_t).

(** ** One queue *)

Context (qd qi : Z) (qd_ok : 0 <= qd).

Definition queue_of : virtq := Virtq 1024 qd (qd + 16384) (qd + 18496).
Definition QSZ : Z := 26692.

Lemma queue_size_serial : VIRTIO_QUEUE_SZ VIRTIO_SERIAL_QSZ 64 = QSZ.
Proof. done. Qed.

Record q_idle m : Prop := {
  qi_num : vm_num m qi = 1024;
  qi_desc : q_desc m qi = qd;
  qi_align : vm_align m qi = 64;
  qi_last : 0 <= vm_last m qi < 2 ^ 16;
  qi_avail : rd16 (vm_ram m) (qd + 16386) = vm_last m qi;
  qi_used : rd16 (vm_ram m) (qd + 18498) = vm_last m qi
}.

Definition outside (a : Z) : Prop := a < qd \/ qd + QSZ <= a.

Section transfer.
Context (read : bool) (buf len : Z) (buf_ok : 0 <= buf) (len_ok : 0 < len <= 1024 * 4096) (fits32 : buf + len <= 2 ^ 32) (buf_apart : apart qd QSZ buf len).
Context (last : Z) (r0 : ram_t) (last_ok : 0 <= last < 2 ^ 16).

Definition chunk_len (j : Z) : Z := Z.min 4096 (len - 4096 * j).
Definition n_chunks : Z := (len + 4095) / 4096.
Definition xflags : Z := Z.lor (if read then VIRTQ_DESC_F_WRITE else 0) DESC_F_BIT7.
Definition slot (j : Z) : Z := qd + 16388 + 2 * ((last + j) mod 1024).

(** Memory when [k] descriptors have been posted. *)
Record posted (k : Z) r : Prop := {
  ps_avail : rd16 r (qd + 16386) = u16 (last + k);
  ps_used : rd16 r (qd + 18498) = last;
  ps_ring : forall j, 0 <= j < k -> rd16 r (slot j) = j;
  ps_desc : forall j, 0 <= j < k -> exists nx, desc_at r qd j = VirtqDesc (buf + 4096 * j) (chunk_len j) xflags nx;
  ps_out : forall a, outside a -> r a = r0 a
}.

Definition post_one (k : Z) r : ram_t :=
  ram_write (qd + 16386) (le_bytes 2 (u16 (u16 (last + k) + 1)))
    (ram_write (slot k) (le_bytes 2 k) (ram_write (qd + 16 * k) (le_bytes 8 (buf + 4096 * k) ++ le_bytes 4 (chunk_len k) ++ le_bytes 2 xflags) r)).

Lemma slot_range j : qd + 16388 <= slot j <= qd + 18434.
Proof. unfold slot. pose proof (Z.mod_pos_bound (last + j) 1024 eq_refl). lia. Qed.

Lemma slot_ne j k : 0 <= j < k -> k < 1024 -> slot j + 2 <= slot k \/ slot k + 2 <= slot j.
Proof.
  intros Hj Hk. unfold slot. destruct (Z.eq_dec ((last + j) mod 1024) ((last + k) mod 1024)); [|lia].
  exfalso. Z.to_euclidean_division_equations. lia.
Qed.

Lemma xflags_range : 0 <= xflags < 2 ^ 16.
Proof. unfold xflags. by destruct read. Qed.

Lemma post_one_ok k r : 0 <= k < n_chunks -> posted k r -> posted (k + 1) (post_one k r).
Proof.
  intros Hk [Pa Pu Pr Pd Po]. assert (Hk1 : k < 1024 /\ 4096 * k < len) by (unfold n_chunks in Hk; Z.to_euclidean_division_equations; lia).
  pose proof (slot_range k). pose proof xflags_range. assert (Hc : 0 < chunk_len k <= 4096) by (unfold chunk_len; lia).
  assert (L14 : length (le_bytes 8 (buf + 4096 * k) ++ le_bytes 4 (chunk_len k) ++ le_bytes 2 xflags) = 14%nat) by by rewrite !length_app, !length_le_bytes.
  unfold post_one. split.
  - rewrite rd16_at by apply u16_range. unfold u16. rewrite Zplus_mod_idemp_l. f_equal. lia.
  - by rewrite !rd16_out by (rewrite ?L14, ?length_le_bytes; lia).
  - intros j Hj. pose proof (slot_range j). rewrite rd16_out by (rewrite length_le_bytes; lia). destruct (Z.eq_dec j k) as [->|Hne]; [apply rd16_at; lia|].
    pose proof (slot_ne j k). rewrite !rd16_out by (rewrite ?L14, ?length_le_bytes; lia). apply Pr. lia.
  - intros j Hj. rewrite !(desc_at_out _ _ (le_bytes 2 _)) by (rewrite length_le_bytes; lia). destruct (Z.eq_dec j k) as [->|Hne].
    + eexists. unfold desc_at. change 16%nat with (14 + 2)%nat. rewrite ram_read_app, (ram_read_at _ _ _ _ L14), <- !app_assoc.
      apply decode_desc3; [lia..|done|by rewrite length_ram_read].
    + rewrite desc_at_out by (rewrite L14; lia). apply Pd. lia.
  - intros a Ha. unfold outside, QSZ in Ha. rewrite !ram_write_out by (rewrite ?L14, ?length_le_bytes; lia). by apply Po.
Qed.

Lemma body_run fuel k w : 0 <= k < n_chunks -> posted k (vm_ram (vs_hw w)) -> vm_kick (vs_hw w) = None ->
  xfer_loop (S fuel) queue_of read (len - 4096 * k) (buf + 4096 * k) k w =
  xfer_loop fuel queue_of read (usz (len - 4096 * k - chunk_len k)) (usz (buf + 4096 * k + chunk_len k)) (usz (k + 1))
    (with_m (set_ram (post_one k (vm_ram (vs_hw w))) (vs_hw w)) w).
Proof.
  intros Hk Hp Hidle. assert (Hk1 : k < 1024 /\ 4096 * k < len) by (unfold n_chunks in Hk; Z.to_euclidean_division_equations; lia).
  cbn [xfer_loop]. rewrite (proj2 (Z.eqb_neq _ 0)) by lia. unfold bind at 1. rewrite load16_run by done.
  change (avail_idx_p queue_of) with (qd + 16384 + 2). replace (qd + 16384 + 2) with (qd + 16386) by lia. rewrite (ps_avail _ _ Hp).
  replace (u16 (u16 (last + k) mod vq_num queue_of)) with ((last + k) mod 1024)
    by (cbn [vq_num queue_of]; unfold u16; Z.to_euclidean_division_equations; lia).
  replace (if 4096 <? len - 4096 * k then 4096 else len - 4096 * k) with (chunk_len k)
    by (unfold chunk_len; destruct (Z.ltb_spec 4096 (len - 4096 * k)); lia).
  assert (Hc : 0 < chunk_len k <= 4096) by (unfold chunk_len; lia). rewrite (u32_small (buf + 4096 * k)), (u32_small (chunk_len k)) by lia.
  unfold put_desc3, bind at 1. rewrite store_run by done. unfold store16 at 1, bind at 1. rewrite store_run by done.
  unfold avail_inc, bind at 1. unfold bind at 1. rewrite load16_run by done. unfold store16. rewrite store_run by done.
  match goal with |- context [u16 (rd16 ?x ?a + 1)] => replace (rd16 x a) with (u16 (last + k)) end.
  - f_equal. unfold post_one, with_m, set_ram, slot. cbn [vs_hw vm_ram]. unfold desc_p, avail_ring_p, avail_idx_p. cbn [queue_of vq_desc vq_avail].
    replace (u16 k) with k by (unfold u16; rewrite Z.mod_small; lia). fold xflags.
    replace (qd + 16384 + 2) with (qd + 16386) by lia. replace (qd + 16384 + 4) with (qd + 16388) by lia. done.
  - cbn [vs_hw with_m vm_ram set_ram]. change (avail_idx_p queue_of) with (qd + 16384 + 2). replace (qd + 16384 + 2) with (qd + 16386) by lia.
    pose proof (Z.mod_pos_bound (last + k) 1024 eq_refl). unfold desc_p, avail_ring_p. cbn [queue_of vq_desc vq_avail].
    rewrite !rd16_out by (rewrite ?length_app, ?length_le_bytes; lia). by rewrite (ps_avail _ _ Hp).
Qed.

Lemma loop_ok fuel : forall k w, 0 <= k < n_chunks -> posted k (vm_ram (vs_hw w)) -> vm_kick (vs_hw w) = None -> n_chunks - k < Z.of_nat fuel ->
  exists r', xfer_loop fuel queue_of read (len - 4096 * k) (buf + 4096 * k) k w = (tt, with_m (set_ram r' (vs_hw w)) w) /\ posted n_chunks r'.
Proof.
  induction fuel as [|fuel IH]; intros k w Hk Hp Hidle Hf; [lia|]. pose proof ptr_bits_ge32. rewrite body_run by done.
  assert (Hk1 : k < 1024 /\ 4096 * k < len) by (unfold n_chunks in Hk; Z.to_euclidean_division_equations; lia).
  pose proof (post_one_ok k _ Hk Hp) as Hp1. destruct (Z.eq_dec (k + 1) n_chunks) as [E|E].
  - rewrite E in Hp1. eexists. split; [|exact Hp1].
    replace (len - 4096 * k - chunk_len k) with 0 by (unfold n_chunks, chunk_len in *; Z.to_euclidean_division_equations; lia).
    rewrite (usz_small 0) by lia. by destruct fuel.
  - assert (Hc : chunk_len k = 4096 /\ 4096 * (k + 1) < len) by (unfold n_chunks, chunk_len in *; Z.to_euclidean_division_equations; lia).
    destruct Hc as [-> Hl]. rewrite !usz_small by lia. replace (len - 4096 * k - 4096) with (len - 4096 * (k + 1)) by lia.
    replace (buf + 4096 * k + 4096) with (buf + 4096 * (k + 1)) by lia.
    set (w1 := with_m (set_ram (post_one k (vm_ram (vs_hw w))) (vs_hw w)) w). destruct (IH (k + 1) w1) as (r' & -> & Hr'); [lia|exact Hp1|done|lia|]. by exists r'.
Qed.

(** *** The device's part *)

Context (d0 : uart) (enough : read = true -> len <= Z.of_nat (length (ut_in d0))).
Context (m0 : machine uart) (m0_idle : q_idle m0) (m0_status : Z.testbit (vm_status m0) 2 = true) (m0_last : vm_last m0 qi = last).

(** Memory outside of the queue and the device after [k] descriptors. *)
Definition done_len (k : Z) : nat := Z.to_nat (Z.min (4096 * k) len).
Definition mem_after (k : Z) : ram_t := if read then ram_write buf (take (done_len k) (ut_in d0)) r0 else r0.
Definition dev_after (k : Z) : uart :=
  if read then Uart (ut_out d0) (drop (done_len k) (ut_in d0)) else Uart (ut_out d0 ++ ram_read r0 buf (done_len k)) (ut_in d0).

Record served (k : Z) m : Prop := {
  sv_status : vm_status m = vm_status m0;
  sv_page : vm_page m = vm_page m0;
  sv_num : vm_num m = vm_num m0;
  sv_align : vm_align m = vm_align m0;
  sv_pfn : vm_pfn m = vm_pfn m0;
  sv_kick : vm_kick m = None;
  sv_last : vm_last m qi = u16 (last + k);
  sv_other : forall q, q <> qi -> vm_last m q = vm_last m0 q;
  sv_dev : vm_dev m = dev_after k;
  sv_avail : rd16 (vm_ram m) (qd + 16386) = u16 (last + n_chunks);
  sv_used : rd16 (vm_ram m) (qd + 18498) = u16 (last + k);
  sv_ring : forall j, 0 <= j < n_chunks -> rd16 (vm_ram m) (slot j) = j;
  sv_desc : forall j, 0 <= j < n_chunks -> exists nx, desc_at (vm_ram m) qd j = VirtqDesc (buf + 4096 * j) (chunk_len j) xflags nx;
  sv_out : forall a, outside a -> vm_ram m a = mem_after k a
}.

Lemma layout m : vm_page m = vm_page m0 -> vm_num m = vm_num m0 -> vm_align m = vm_align m0 -> vm_pfn m = vm_pfn m0 ->
  q_desc m qi = qd /\ q_avail m qi = qd + 16384 /\ q_used m qi = qd + 18496 /\ vm_num m qi = 1024.
Proof.
  intros Hp Hn Ha Hf. destruct m0_idle as [In Id Ia _ _ _]. unfold q_avail, q_used. assert (E : q_desc m qi = qd) by (unfold q_desc in *; by rewrite Hf, Hp).
  rewrite E, Hn, Ha, In, Ia. by split_and!.
Qed.

Lemma serial_chain_one n r a i : (0 < n)%nat -> Z.testbit (vd_flags (desc_at r a i)) 0 = false -> chain n r a i = [desc_at r a i].
Proof. intros Hn Hf. destruct n; [lia|]. cbn [chain]. by rewrite Hf. Qed.

(** The handler on the [k]th descriptor. *)
Lemma handle_chunk k r nx : 0 <= k < n_chunks -> (forall a, outside a -> r a = mem_after k a) ->
  exists r' n, (serial_handle greedy) r (dev_after k) [VirtqDesc (buf + 4096 * k) (chunk_len k) xflags nx] = Some (r', dev_after (k + 1), n) /\
    (forall a, outside a -> r' a = mem_after (k + 1) a) /\ forall a, ~ outside a -> r' a = r a.
Proof.
  intros Hk Hr. assert (Hk1 : k < 1024 /\ 4096 * k < len) by (unfold n_chunks in Hk; Z.to_euclidean_division_equations; lia).
  assert (Hd : done_len k = Z.to_nat (4096 * k) /\ done_len (k + 1) = (Z.to_nat (4096 * k) + Z.to_nat (chunk_len k))%nat) by (unfold done_len, chunk_len; lia).
  destruct Hd as [D0 D1]. assert (Hc : 0 < chunk_len k <= 4096 /\ 4096 * k + chunk_len k <= len) by (unfold chunk_len; lia). unfold apart, QSZ in buf_apart.
  unfold serial_handle, mem_after, dev_after, xflags in *. cbn [vd_flags vd_len vd_addr] in *. rewrite D0 in Hr. rewrite D0, D1. destruct read.
  - change (Z.testbit (Z.lor VIRTQ_DESC_F_WRITE DESC_F_BIT7) 1) with true. cbn [ut_in ut_out]. specialize (enough eq_refl).
    rewrite length_drop, (proj2 (Z.leb_le _ _)) by lia. do 2 eexists. split; [by rewrite drop_drop|].
    rewrite <- take_take_drop. assert (Ht : length (take (Z.to_nat (4096 * k)) (ut_in d0)) = Z.to_nat (4096 * k)) by (rewrite length_take; lia).
    assert (Hl : length (take (Z.to_nat (chunk_len k)) (drop (Z.to_nat (4096 * k)) (ut_in d0))) = Z.to_nat (chunk_len k)) by (rewrite length_take, length_drop; lia).
    split; intros a Ha.
    + rewrite <- ram_write_app, Ht. replace (buf + Z.of_nat (Z.to_nat (4096 * k))) with (buf + 4096 * k) by lia. unfold ram_write at 1 2. by rewrite Hr.
    + apply ram_write_out. unfold outside, QSZ in Ha. lia.
  - change (Z.testbit (Z.lor 0 DESC_F_BIT7) 1) with false. cbn [ut_in ut_out]. do 2 eexists. split; [|done]. do 3 f_equal.
    rewrite ram_read_app, app_assoc. f_equal. f_equal. replace (buf + Z.of_nat (Z.to_nat (4096 * k))) with (buf + 4096 * k) by lia.
    apply ram_read_ext. intros a Ha. apply Hr. unfold outside, QSZ. lia.
Qed.

Lemma take_chain_ok k m : 0 <= k < n_chunks -> served k m -> exists m', take_chain (serial_handle greedy) qi m = Some m' /\ served (k + 1) m'.
Proof.
  intros Hk [S1 S2 S3 S4 S5 S6 S7 S8 S9 Sa Su Sr Sd So].
  assert (Hk1 : k < 1024 /\ 4096 * k < len /\ n_chunks <= 1024) by (unfold n_chunks in *; Z.to_euclidean_division_equations; lia).
  destruct (layout m S2 S3 S4 S5) as (Ld & La & Lu & Ln). unfold take_chain. rewrite Ln, S7, Ld, La, Lu, S9.
  replace (u16 (last + k) mod 1024) with ((last + k) mod 1024) by (unfold u16; Z.to_euclidean_division_equations; lia).
  replace (qd + 16384 + 4 + 2 * ((last + k) mod 1024)) with (slot k) by (unfold slot; lia). rewrite (Sr k) by lia.
  destruct (Sd k ltac:(lia)) as (nx & Ed). rewrite serial_chain_one; [|lia|rewrite Ed; cbn [vd_flags]; unfold xflags; by destruct read]. rewrite Ed.
  destruct (handle_chunk k (vm_ram m) nx ltac:(lia) So) as (r' & n & -> & Hout & Hin).
  pose proof (Z.mod_pos_bound (last + k) 1024 eq_refl). set (i := (last + k) mod 1024) in *.
  assert (L8 : length (le_bytes 4 k ++ le_bytes 4 n) = 8%nat) by by rewrite length_app, !length_le_bytes.
  assert (H16 : forall a, qd <= a -> a + 2 <= qd + QSZ -> rd16 r' a = rd16 (vm_ram m) a).
  { intros a H1 H2. unfold rd16. f_equal. apply ram_read_ext. intros x Hx. apply Hin. unfold outside. lia. }
  assert (Hdesc : forall j, 0 <= j < n_chunks -> desc_at r' qd j = desc_at (vm_ram m) qd j).
  { intros j Hj. unfold desc_at. f_equal. apply ram_read_ext. intros x Hx. apply Hin. unfold outside, QSZ. lia. }
  unfold QSZ in H16. eexists. split; [done|]. split; cbn [vm_status vm_page vm_num vm_align vm_pfn vm_kick vm_last vm_dev vm_ram]; try done.
  - unfold insert, fn_insert. rewrite decide_True by done. unfold u16. rewrite Zplus_mod_idemp_l. f_equal. lia.
  - intros q Hq. unfold insert, fn_insert. rewrite decide_False by done. by apply S8.
  - rewrite !rd16_out by (rewrite ?L8, ?length_le_bytes; lia). by rewrite H16 by lia.
  - replace (qd + 18496 + 2) with (qd + 18498) by lia. rewrite rd16_at by apply u16_range. unfold u16. rewrite Zplus_mod_idemp_l. f_equal. lia.
  - intros j Hj. pose proof (slot_range j). rewrite !rd16_out by (rewrite ?L8, ?length_le_bytes; lia). rewrite H16 by lia. by apply Sr.
  - intros j Hj. rewrite !desc_at_out by (rewrite ?L8, ?length_le_bytes; lia). rewrite Hdesc by done. by apply Sd.
  - intros a Ha. rewrite <- Hout by done. unfold outside, QSZ in Ha. by rewrite !ram_write_out by (rewrite ?L8, ?length_le_bytes; lia).
Qed.

Lemma serve_loop_ok f : forall k m, 0 <= k -> k + Z.of_nat f = n_chunks -> served k m -> served n_chunks (serve_loop (serial_handle greedy) f qi m).
Proof.
  induction f as [|f IH]; intros k m Hk Hf Hs; cbn [serve_loop]; [by replace n_chunks with k by lia|].
  destruct (take_chain_ok k m ltac:(lia) Hs) as (m' & -> & Hs'). apply (IH (k + 1)); [lia|lia|done].
Qed.

Lemma serve_all r : posted n_chunks r -> vm_kick m0 = None -> vm_dev m0 = d0 -> served n_chunks (serve (serial_handle greedy) qi (set_ram r m0)).
Proof.
  intros [Pa Pu Pr Pd Po] Hk Hd. unfold serve. cbn [vm_status set_ram]. rewrite m0_status. cbn [vm_ram set_ram vm_last].
  change (q_avail (set_ram r m0) qi) with (q_avail m0 qi). destruct (layout m0 eq_refl eq_refl eq_refl eq_refl) as (_ & -> & _ & _).
  replace (qd + 16384 + 2) with (qd + 16386) by lia. rewrite Pa, m0_last.
  assert (Hn : 0 < n_chunks <= 1024) by (unfold n_chunks; Z.to_euclidean_division_equations; lia).
  assert (E : u16 (u16 (last + n_chunks) - last) = n_chunks).
  { unfold u16. rewrite Zminus_mod_idemp_l. replace (last + n_chunks - last) with n_chunks by lia. rewrite Z.mod_small; lia. }
  rewrite E. apply (serve_loop_ok _ 0); [lia|lia|]. split; cbn [vm_status vm_page vm_num vm_align vm_pfn vm_kick vm_last vm_dev vm_ram set_ram]; try done.
  - rewrite m0_last, Z.add_0_r. unfold u16. by rewrite Z.mod_small by lia.
  - rewrite Hd. unfold dev_after, done_len. rewrite Z.min_l by lia. change (Z.to_nat (4096 * 0)) with 0%nat. destruct read; [by destruct d0|].
    change (ram_read r0 buf 0) with (@nil Z). rewrite app_nil_r. by destruct d0.
  - rewrite Pu, Z.add_0_r. unfold u16. by rewrite Z.mod_small by lia.
  - intros a Ha. rewrite Po by done. unfold mem_after, done_len. rewrite Z.min_l by lia. change (Z.to_nat (4096 * 0)) with 0%nat. destruct read; [|done].
    rewrite take_0, ram_write_out by (cbn [length]; lia). done.
Qed.
End transfer.

(** ** A transfer and the wait for its end *)

Lemma complete_loop_ok qn m' fuel : forall n w, sq (vs_q w) qn = queue_of -> vm_kick (vs_hw w) = Some (qi, n) -> (n < fuel)%nat ->
  serve (serial_handle greedy) qi (set_kick None (vs_hw w)) = m' -> vm_kick m' = None ->
  rd16 (vm_ram (vs_hw w)) (avail_idx_p queue_of) <> rd16 (vm_ram (vs_hw w)) (used_idx_p queue_of) ->
  rd16 (vm_ram m') (avail_idx_p queue_of) = rd16 (vm_ram (vs_hw w)) (avail_idx_p queue_of) ->
  rd16 (vm_ram m') (used_idx_p queue_of) = rd16 (vm_ram (vs_hw w)) (avail_idx_p queue_of) ->
  complete_loop fuel qn w = (PB_OK, with_m m' w).
Proof.
  induction fuel as [|fuel IH]; intros n w Hq Hk Hn Hs Hi Hne Ha Hu; [lia|]. cbn [complete_loop]. unfold virtio_xfer_complete, bind, get. rewrite Hq.
  destruct (poll_pair_ok (serial_handle greedy) base 3 config latency qi queue_of m' n w Hk Hs Hi Hne Ha Hu) as (a & u & w1 & -> & w2 & -> & [[-> ->]|[Hau (n' & -> & ->)]]).
  - by rewrite Z.eqb_refl.
  - rewrite (proj2 (Z.eqb_neq _ _) Hau). cbn [ret]. change (- PB_ERR_AGAIN =? - PB_ERR_AGAIN) with true. cbv iota. rewrite (IH n'); try done. lia.
Qed.

Lemma notify_serial v w : vs_base w = base -> vreg_write VIRTIO_MMIO_QUEUE_NOTIFY v w = (tt, with_m (set_kick (Some (v, latency)) (vs_hw w)) w).
Proof.
  destruct w as [[] b q]. cbn [vs_base]. intros ->. unfold vreg_write, on_vhw. cbn [mmio_write_32 virtio_mmio vm_hw vm_mmio vs_base vs_hw]. unfold vm_write.
  by rewrite Z.add_simpl_l.
Qed.

Lemma transfer_ok qn (read : bool) buf len w : sq (vs_q w) qn = queue_of -> vs_base w = base -> q_idle (vs_hw w) ->
  Z.testbit (vm_status (vs_hw w)) 2 = true -> vm_kick (vs_hw w) = None ->
  0 <= buf -> 0 < len <= 1024 * 4096 -> buf + len <= 2 ^ 32 -> apart qd QSZ buf len ->
  (read = true -> len <= Z.of_nat (length (ut_in (vm_dev (vs_hw w))))) ->
  exists m', (rc <- virtio_xfer qn read qi buf len ;; if negb (rc =? PB_OK) then ret rc else complete_loop poll_fuel qn) w = (PB_OK, with_m m' w) /\
    served read buf len (vm_last (vs_hw w) qi) (vm_ram (vs_hw w)) (vm_dev (vs_hw w)) (vs_hw w) (n_chunks len) m'.
Proof.
  intros Hq Hb Hi Hst Hk Hb0 Hl Hbl Ha He. set (last := vm_last (vs_hw w) qi). pose proof (qi_last _ Hi) as Hlast. fold last in Hlast.
  assert (Hn : 0 < n_chunks len <= 1024) by (unfold n_chunks; Z.to_euclidean_division_equations; lia).
  assert (P0 : posted read buf len last (vm_ram (vs_hw w)) 0 (vm_ram (vs_hw w))).
  { destruct Hi as [_ _ _ _ I5 I6]. split; [rewrite Z.add_0_r; unfold u16; by rewrite Z.mod_small by lia|done|lia|lia|done]. }
  destruct (loop_ok read buf len Hb0 Hl Hbl last (vm_ram (vs_hw w)) Hlast (S (Z.to_nat (n_chunks len))) 0 w) as (r' & El & Hp); [lia|exact P0|done|lia|].
  rewrite Z.mul_0_r, Z.sub_0_r, Z.add_0_r in El. unfold virtio_xfer, bind at 1. rewrite (proj2 (Z.ltb_ge _ _)) by (unfold VIRTIO_SERIAL_QSZ; lia).
  unfold bind at 1, get. rewrite Hq. unfold bind at 1. fold (n_chunks len). rewrite El. unfold bind. rewrite notify_serial by done. cbn [ret].
  change (negb (PB_OK =? PB_OK)) with false. cbv iota.
  assert (Hs : served read buf len last (vm_ram (vs_hw w)) (vm_dev (vs_hw w)) (vs_hw w) (n_chunks len) (serve (serial_handle greedy) qi (set_ram r' (vs_hw w))))
    by (apply serve_all; done).
  set (m' := serve (serial_handle greedy) qi (set_ram r' (vs_hw w))) in *. exists m'. split; [|exact Hs].
  assert (Hset : set_kick None (vs_hw w) = vs_hw w) by (destruct (vs_hw w); cbn in Hk; by rewrite Hk).
  assert (Ea : avail_idx_p queue_of = qd + 16386) by (unfold avail_idx_p, queue_of; cbn; lia).
  assert (Eu : used_idx_p queue_of = qd + 18498) by (unfold used_idx_p, queue_of; cbn; lia).
  rewrite (complete_loop_ok qn m' poll_fuel latency); [done|exact Hq|done|exact fuel_ok| |apply Hs|..];
    rewrite ?Ea, ?Eu; cbn [vs_hw with_m vm_ram set_kick set_ram].
  - unfold m'. rewrite <- Hset at 2. done.
  - destruct Hp as [-> -> _ _ _]. unfold u16. intros H. Z.to_euclidean_division_equations. lia.
  - etransitivity; [apply Hs|]. symmetry. apply Hp.
  - etransitivity; [apply Hs|]. symmetry. apply Hp.
Qed.
End machine.

(** ** The port *)

Section port.
Context {arch : Arch} (greedy : bool) (base : Z) (config : Z -> Z) (latency poll_fuel : nat) (fuel_ok : (latency < poll_fuel)%nat).
Context (data_p : queue_name -> Z) (data_ok : 0 <= data_p Q_rx /\ 0 <= data_p Q_tx) (data_apart : apart (data_p Q_rx) QSZ (data_p Q_tx) QSZ).
#[local] Hint Extern 0 (VirtioHw (machine uart)) => exact (vm_hw (serial_handle greedy) base 3 config latency) : typeclass_instances.
Abbreviation vserial := (virtio_st (machine uart) serial_qs).
Implicit Types (w : vserial).

(** Both queues are set up, and nothing is under way. *)
Record serial_ready w : Prop := {
  sr_base : vs_base w = base;
  sr_rx : sq (vs_q w) Q_rx = queue_of (data_p Q_rx);
  sr_tx : sq (vs_q w) Q_tx = queue_of (data_p Q_tx);
  sr_status : Z.testbit (vm_status (vs_hw w)) 2 = true;
  sr_kick : vm_kick (vs_hw w) = None;
  sr_rx_idle : q_idle (data_p Q_rx) 4 (vs_hw w);
  sr_tx_idle : q_idle (data_p Q_tx) 5 (vs_hw w)
}.

Abbreviation sent w := (ut_out (vm_dev (vs_hw w))).
Abbreviation received w := (ut_in (vm_dev (vs_hw w))).
Abbreviation mem w := (vm_ram (vs_hw w)).

Definition port_buffer (buf len : Z) : Prop :=
  0 <= buf /\ 0 < len /\ buf + len <= 2 ^ 32 /\ apart (data_p Q_rx) QSZ buf len /\ apart (data_p Q_tx) QSZ buf len.

(** Memory of neither queue. *)
Definition free_of_queues (a : Z) : Prop := outside (data_p Q_rx) a /\ outside (data_p Q_tx) a.

(** A queue that was not used is idle as before. *)
Lemma idle_other qd qi qd' qi' read buf len last r0 d0 m0 k m : apart qd QSZ qd' QSZ -> apart qd' QSZ buf len -> 0 < len ->
  Z.of_nat (length (take (done_len len k) (ut_in d0))) <= len -> (forall a, r0 a = vm_ram m0 a) ->
  qi <> qi' -> served qd qi read buf len last r0 d0 m0 k m -> q_idle qd' qi' m0 -> q_idle qd' qi' m.
Proof.
  intros Ha Hb Hl Ht Hr0 Hne Hs [I1 I2 I3 I4 I5 I6]. destruct Hs as [S1 S2 S3 S4 S5 S6 S7 S8 S9 Sa Su Sr Sd So].
  assert (H16 : forall a, qd' <= a -> a + 2 <= qd' + QSZ -> rd16 (vm_ram m) a = rd16 (vm_ram m0) a).
  { intros a H1 H2. unfold rd16. f_equal. apply ram_read_ext. intros x Hx. rewrite So by (unfold outside, apart in *; lia).
    unfold mem_after. destruct read; [|apply Hr0]. rewrite ram_write_out by (unfold apart in *; lia). apply Hr0. }
  unfold QSZ in H16. split; rewrite ?S3, ?S4, ?S8 by done; try done.
  - unfold q_desc in *. by rewrite S5, S2.
  - by rewrite H16 by lia.
  - by rewrite H16 by lia.
Qed.

Lemma idle_same qd qi read buf len last r0 d0 m0 m : q_idle qd qi m0 ->
  served qd qi read buf len last r0 d0 m0 (n_chunks len) m -> q_idle qd qi m.
Proof.
  intros [I1 I2 I3 I4 I5 I6] [S1 S2 S3 S4 S5 S6 S7 S8 S9 Sa Su Sr Sd So].
  split; rewrite ?S3, ?S4, ?S7; try done; [|apply u16_range]. unfold q_desc in *. by rewrite S5, S2.
Qed.

Lemma done_all len : 0 < len -> done_len len (n_chunks len) = Z.to_nat len.
Proof. intros Hl. unfold done_len, n_chunks. Z.to_euclidean_division_equations. lia. Qed.

(** [C18] The serial port: a write of up to 4 MiB ends with [PB_OK] when the
    device has sent exactly the bytes of the buffer, in order, and a read of as
    much, when the device has already received at least as many bytes as the
    read asks for, ends with [PB_OK] when the buffer holds exactly the next of
    them.  This holds for every delay of the device, for a device that waits
    for enough to fill a buffer and for one that returns buffers partly filled,
    and for every position of the 16-bit ring indices.  The port must be set up
    with nothing under way, and the buffer must be not empty, below 4 GiB and
    clear of the queues.  The port is then ready for the next transfer and no other
    memory is changed.  A transfer that needs more than the 1024 descriptors is
    refused and nothing is started.  A read of more than has been received is
    not covered: from a device that returns short buffers it is reported as
    complete, see [ToySerial.short_read_reported_ok]. *)
Theorem virtio_serial_transfers w buf len : serial_ready w -> port_buffer buf len ->
  (len <= 1024 * 4096 -> exists w', virtio_serial_write poll_fuel buf len w = (PB_OK, w') /\ serial_ready w' /\
     sent w' = sent w ++ ram_read (mem w) buf (Z.to_nat len) /\ received w' = received w /\ forall a, free_of_queues a -> mem w' a = mem w a) /\
  (len <= 1024 * 4096 -> len <= Z.of_nat (length (received w)) ->
   exists w', virtio_serial_read poll_fuel buf len w = (PB_OK, w') /\ serial_ready w' /\ sent w' = sent w /\ received w' = drop (Z.to_nat len) (received w) /\
     ram_read (mem w') buf (Z.to_nat len) = take (Z.to_nat len) (received w) /\
     forall a, free_of_queues a -> ~ (buf <= a < buf + len) -> mem w' a = mem w a) /\
  (1024 * 4096 < len -> virtio_serial_write poll_fuel buf len w = (- PB_ERR_IO, w) /\ virtio_serial_read poll_fuel buf len w = (- PB_ERR_IO, w)).
Proof.
  intros [Rb Rr Rt Rs Rk Ir It] (Hb & Hl & Hbl & Ar & At). destruct data_ok as [Or Ot]. split_and!.
  - intros Hmax. destruct (transfer_ok greedy base config latency poll_fuel fuel_ok (data_p Q_tx) 5 Q_tx false buf len w) as (m' & E & Hs); try done.
    pose proof (done_all len Hl) as Hd. exists (with_m m' w). split; [exact E|]. cbn [vs_hw with_m]. pose proof Hs as [S1 _ _ _ _ S6 _ _ S9 _ _ _ _ So].
    split_and!; [|by rewrite S9; unfold dev_after; rewrite Hd|by rewrite S9|intros a [_ Ha]; by apply So].
    split; cbn [vs_hw with_m vs_base vs_q]; try done; [by rewrite S1| |by eapply idle_same].
    eapply (idle_other (data_p Q_tx) 5 (data_p Q_rx) 4); [unfold apart in *; lia|exact Ar|done| |done| |exact Hs|exact Ir]; [|done]. rewrite length_take, Hd. lia.
  - intros Hmax He. destruct (transfer_ok greedy base config latency poll_fuel fuel_ok (data_p Q_rx) 4 Q_rx true buf len w) as (m' & E & Hs); try done.
    pose proof (done_all len Hl) as Hd. exists (with_m m' w). split; [exact E|]. cbn [vs_hw with_m]. pose proof Hs as [S1 _ _ _ _ S6 _ _ S9 _ _ _ _ So].
    assert (Ht : length (take (Z.to_nat len) (received w)) = Z.to_nat len) by (rewrite length_take; lia).
    unfold mem_after in So. rewrite Hd in So. split_and!; [|by rewrite S9|by rewrite S9; unfold dev_after; rewrite Hd|..].
    + split; cbn [vs_hw with_m vs_base vs_q]; try done; [by rewrite S1|by eapply idle_same|].
      eapply idle_other; [exact data_apart|exact At|done| |done| |exact Hs|exact It]; [|done]. rewrite length_take, Hd. lia.
    + etransitivity; [|exact (ram_read_at (mem w) buf _ _ Ht)]. apply ram_read_ext. intros a Ha. apply So. unfold outside, apart in *. lia.
    + intros a [Ha _] Hn. rewrite So by done. apply ram_write_out. lia.
  - intros Hbig. unfold virtio_serial_write, virtio_serial_read, bind, virtio_xfer. rewrite (proj2 (Z.ltb_lt _ _)) by (unfold VIRTIO_SERIAL_QSZ; lia). done.
Qed.
End port.

(** ** Witness *)

#[local] Existing Instance armv7a.

Module ToySerial.
Definition base : Z := 0x0A003E00.
Definition data_p (q : queue_name) : Z := match q with Q_rx => 0x40000000 | Q_tx => 0x40010000 | Q_ctrl_rx => 0x40020000 | Q_ctrl_tx => 0x40030000 end.
Definition m0 : machine uart := Machine (fun a => if a <? 0x40040000 then 0 else a mod 256) (Uart [] (zeros 100)) 7 4096 0
  (fun _ => 1024) (fun _ => 64) (fun q => (if q =? 4 then 0x40000000 else 0x40010000) / 4096) (fun _ => 0) None.
Definition w0 : virtio_st (machine uart) serial_qs := VirtioSt m0 base (SerialQs (fun q => queue_of (data_p q)) None).

(** Three bytes have been received and eight are asked for.  A device that
    returns what it has makes the read end with [PB_OK], the three bytes in
    front of five that were in the buffer before; a device that waits leaves
    the loop polling. *)
Definition w3 : virtio_st (machine uart) serial_qs := VirtioSt (Machine (vm_ram m0) (Uart [] [200; 201; 202]) 7 4096 0
  (fun _ => 1024) (fun _ => 64) (fun q => (if q =? 4 then 0x40000000 else 0x40010000) / 4096) (fun _ => 0) None) base (SerialQs (fun q => queue_of (data_p q)) None).
Definition read8 (greedy : bool) : Z * list Z :=
  let '(rc, w) := virtio_serial_read (VirtioHw0 := vm_hw (serial_handle greedy) base 3 (fun _ => 0) 2) 9 0x40050010 8 w3 in
  (rc, ram_read (vm_ram (vs_hw w)) 0x40050010 8).

Example short_read_reported_ok :
  read8 true = (PB_OK, [200; 201; 202; 19; 20; 21; 22; 23]) /\ read8 false = (- PB_ERR_AGAIN, [16; 17; 18; 19; 20; 21; 22; 23]).
Proof. by vm_compute. Qed.
End ToySerial.

Lemma virtio_serial_transfers_witness : exists w',
  virtio_serial_write (VirtioHw0 := vm_hw (serial_handle true) ToySerial.base 3 (fun _ => 0) 2) 3 0x40050000 5000 ToySerial.w0 = (PB_OK, w') /\
  length (ut_out (vm_dev (vs_hw w'))) = 5000%nat /\ serial_ready ToySerial.base ToySerial.data_p w'.
Proof.
  destruct (virtio_serial_transfers true ToySerial.base (fun _ => 0) 2 3 (le_n 3) ToySerial.data_p) with (w := ToySerial.w0) (buf := 0x40050000) (len := 5000)
    as (H & _).
  - by vm_compute.
  - left. by vm_compute.
  - split; [reflexivity|reflexivity|reflexivity|reflexivity|reflexivity|split; by vm_compute|split; by vm_compute].
  - split_and!; try (by vm_compute); (left; by vm_compute).
  - destruct H as (w' & E & R & S & _); [by vm_compute|]. exists w'. split; [exact E|]. rewrite S, length_app, length_ram_read. split; [done|exact R].
Defined.
