(* ===== verification/Flexspi.v ===== *)
(** * The FlexSPI flash controller

    [src/drivers/memc/imx_flexspi.c]: serial NOR flash behind the i.MX RT's
    FlexSPI, at the level of its registers: command sequences, the transfer
    FIFOs, page programming and block erase as callbacks of the block layer. *)

From S2P Require Import Prelude Errors Ram Uuid Bio Ocotp Delay.
Local Open Scope c_scope.

(** ** Registers, [imx_flexspi_private.h] *)

Definition FLEXSPI_MCR0 : Z := 0x0000.
Definition FLEXSPI_MCR1 : Z := 0x0004.
Definition FLEXSPI_MCR2 : Z := 0x0008.
Definition FLEXSPI_AHBCR : Z := 0x000C.
Definition FLEXSPI_INTR : Z := 0x0014.
Definition FLEXSPI_INTR_AHBCMDERR_MASK : Z := 0x10.
Definition FLEXSPI_INTR_IPCMDERR_MASK : Z := 0x8.
Definition FLEXSPI_INTR_AHBCMDGE_MASK : Z := 0x4.
Definition FLEXSPI_INTR_IPCMDGE_MASK : Z := 0x2.
Definition FLEXSPI_INT_IPTXWEEN : Z := 0x40.
Definition FLEXSPI_INT_IPRXWAEN : Z := 0x20.
Definition FLEXSPI_INT_SEQTIMEOUTEN : Z := 0x800.
Definition FLEXSPI_INT_IPCMDERREN : Z := 0x8.
Definition FLEXSPI_INT_IPCMDGEEN : Z := 0x2.
Definition FLEXSPI_AHBRXBUFCR0 (n : Z) : Z := 0x0020 + n * 4.
Definition FLEXSPI_FLSHCR0 (n : Z) : Z := 0x0060 + n * 4.
Definition FLEXSPI_FLSHCR1 (n : Z) : Z := 0x0070 + n * 4.
Definition FLEXSPI_FLSHCR2 (n : Z) : Z := 0x0080 + n * 4.
Definition FLEXSPI_FLSHCR4 : Z := 0x0094.
Definition FLEXSPI_IPCR0 : Z := 0x00A0.
Definition FLEXSPI_DLLACR : Z := 0x00C0.
Definition FLEXSPI_DLLBCR : Z := 0x00C4.
Definition FLEXSPI_LUTKEY : Z := 0x0018.
Definition FLEXSPI_LUTCR : Z := 0x001C.
Definition FLEXSPI_LUT : Z := 0x0200.
Definition FLEXSPI_IPCR1 : Z := 0x00A4.
Definition FLEXSPI_IPCR1_IDATSZ (x : Z) : Z := Z.land (u32 x) 0xFFFF.
Definition FLEXSPI_IPCR1_ISEQID (x : Z) : Z := Z.land (u32 (Z.shiftl x 16)) 0xF0000.
Definition FLEXSPI_IPCR1_ISEQNUM (x : Z) : Z := Z.land (u32 (Z.shiftl x 24)) 0x7000000.
Definition FLEXSPI_IPCMD : Z := 0x00B0.
Definition FLEXSPI_IPCMD_TRG_MASK : Z := 0x1.
Definition FLEXSPI_IPTXFCR : Z := 0x00BC.
Definition FLEXSPI_IPTXFCR_CLRIPTXF_MASK : Z := 0x1.
Definition FLEXSPI_IPTXFCR_TXWMRK_MASK : Z := 0x3C.
Definition FLEXSPI_IPTXFCR_TXWMRK_SHIFT : Z := 2.
Definition FLEXSPI_IPTXFCR_TXWMRK (n : Z) : Z := n / 8 - 1.
Definition FLEXSPI_IPRXFCR : Z := 0x00B8.
Definition FLEXSPI_IPRXFCR_CLRIPRXF_MASK : Z := 0x1.
Definition FLEXSPI_IPRXFCR_RXWMRK_MASK : Z := Z.shiftl 0xf 2.
Definition FLEXSPI_IPRXFCR_RXWMRK (n : Z) : Z := n / 8 - 1.
Definition FLEXSPI_IPRXFCR_RXWMRK_SHIFT : Z := 2.
Definition FLEXSPI_STS0 : Z := 0x00E0.
Definition FLEXSPI_IPRXFSTS : Z := 0x00F0.
Definition FLEXSPI_IPRXFSTS_FILL_MASK : Z := 0xFF.
Definition FLEXSPI_IPRXFSTS_FILL_SHIFT : Z := 0.
Definition FLEXSPI_RFDR0 : Z := 0x0100.
Definition FLEXSPI_TFDR0 : Z := 0x0180.
Definition FLEXSPI_MCR0_SWRESET : Z := Z.shiftl 1 0.
Definition FLEXSPI_MCR0_MDIS : Z := Z.shiftl 1 1.
Definition FLEXSPI_MCR2_RESUMEWAIT (n : Z) : Z := Z.shiftl n 24.
Definition FLEXSPI_MCR2_RESUMEWAIT_MASK : Z := FLEXSPI_MCR2_RESUMEWAIT 0xff.
Definition FLEXSPI_MCR2_SCKBDIFFOPT : Z := Z.shiftl 1 19.
Definition FLEXSPI_MCR2_SAMEDEVICEEN : Z := Z.shiftl 1 15.
Definition FLEXSPI_MCR2_CLRAHBBUFOPT : Z := Z.shiftl 1 11.
Definition FLEXSPI_AHBCR_CACHABLEEN : Z := Z.shiftl 1 3.
Definition FLEXSPI_AHBCR_BUFFERABLEEN : Z := Z.shiftl 1 4.
Definition FLEXSPI_AHBCR_PREFETCHEN : Z := Z.shiftl 1 5.
Definition FLEXSPI_AHBCR_READADDROPT : Z := Z.shiftl 1 6.
Definition FLEXSPI_AHBRXBUFCR0_BUFSZ (sz : Z) : Z := sz / 8.
Definition FLEXSPI_STS0_SEQIDLE : Z := Z.shiftl 1 0.
Definition FLEXSPI_STS0_ARBIDLE : Z := Z.shiftl 1 1.
Definition FLEXSPI_FLSHA1CR2 : Z := 0x0080.
Definition FLEXSPI_FLSHA2CR2 : Z := 0x0084.
Definition FLEXSPI_FLSHB1CR2 : Z := 0x0088.
Definition FLEXSPI_FLSHB2CR2 : Z := 0x008C.
Definition FLEXSPI_FLSHCR2_CLRINSTRPTR_MASK : Z := 0x80000000.
Definition FLEXSPI_LUT_KEY_VAL : Z := 0x5AF05AF0.

(** ** Configuration, [imx_flexspi.h] *)

Inductive flexspi_port := FLEXSPI_PORT_A1 | FLEXSPI_PORT_A2 | FLEXSPI_PORT_B1 | FLEXSPI_PORT_B2 | FLEXSPI_PORT_COUNT.
Definition port_number (p : flexspi_port) : Z :=
  match p with FLEXSPI_PORT_A1 => 0 | FLEXSPI_PORT_A2 => 1 | FLEXSPI_PORT_B1 => 2 | FLEXSPI_PORT_B2 => 3 | FLEXSPI_PORT_COUNT => 4 end.
Inductive flexspi_command_type := FLEXSPI_COMMAND | FLEXSPI_CONFIG | FLEXSPI_READ | FLEXSPI_WRITE.

Record flexspi_nor_erase_cmds := EraseCmd { ec_block_size : Z; ec_erase_time_ms : Z; ec_lut_id : Z }.
Record flexspi_nor_config := NorConfig {
  nc_name : list Z;
  nc_uuid : uuid_t;
  nc_port : flexspi_port;
  nc_capacity : Z;
  nc_block_size : Z;
  nc_page_size : Z;
  nc_mfg_id : Z;
  nc_mfg_device_type : Z;
  nc_mfg_capacity : Z;
  nc_time_page_program_ms : Z;
  nc_cr1 : Z;
  nc_cr2 : Z;
  nc_erase_cmds : list flexspi_nor_erase_cmds;
  nc_lut_id_read_status : Z;
  nc_lut_id_read_id : Z;
  nc_lut_id_read : Z;
  nc_lut_id_write : Z;
  nc_lut_id_wr_enable : Z;
  nc_lut_id_wr_disable : Z
}.
Record flexspi_core_config := CoreConfig {
  fc_base : Z; fc_cr4 : Z; fc_dllacr : Z; fc_dllbcr : Z; fc_lut : list Z; fc_mem : list flexspi_nor_config
}.

(** ** The driver *)

Section driver.
Context {arch : Arch} {HW : Type} `{!Mmio HW}.
(** [poll_fuel]: how many polls of a register, and of the flash, the model
    follows; a wait that takes longer is left with [-PB_ERR_TIMEOUT]. *)
Context (tick : M HW Z) (poll_fuel delay_fuel : nat) (cfg : flexspi_core_config).
Abbreviation F := (M HW).

Definition freg_read (off : Z) : F Z := mmio_read_32 (fc_base cfg + off).
Definition freg_write (off v : Z) : F unit := mmio_write_32 (fc_base cfg + off) v.
Definition freg_clrset (off clear set : Z) : F unit :=
  v <- freg_read off ;; freg_write off (Z.lor (Z.land v (Z.ldiff 0xffffffff clear)) set).

Definition imx_flexspi_getbusidle : F bool :=
  let mask := Z.lor FLEXSPI_STS0_SEQIDLE FLEXSPI_STS0_ARBIDLE in
  val <- freg_read FLEXSPI_STS0 ;;
  ret (Z.land val mask =? mask).

Definition imx_flexspi_checkandclearerror (status : Z) : F Z :=
  let status := Z.land status (Z.lor (Z.lor FLEXSPI_INT_SEQTIMEOUTEN FLEXSPI_INT_IPCMDERREN) FLEXSPI_INT_IPCMDGEEN) in
  if status =? 0 then ret 0 else
  let rc := if negb (Z.land status FLEXSPI_INT_SEQTIMEOUTEN =? 0) then - PB_ERR_TIMEOUT else - PB_ERR_IO in
  freg_write FLEXSPI_INTR status ;;;
  freg_clrset FLEXSPI_IPTXFCR 0 FLEXSPI_IPTXFCR_CLRIPTXF_MASK ;;;
  freg_clrset FLEXSPI_IPRXFCR 0 FLEXSPI_IPRXFCR_CLRIPRXF_MASK ;;;
  ret rc.

(** A buffer to send, as the bytes from its address on; [word_of b i] is
    the [i]th word. *)
Definition buffer := Z -> Z.
Definition word_of (b : buffer) (i : Z) : Z := le_val (ram_read b (4 * i) 4).
Definition skip (n : Z) (b : buffer) : buffer := fun i => b (n + i).

(** [for (i = 0; i < n; i++)]: [n] words to the transmit window, [n] words
    from the receive window. *)
Fixpoint put_words (n : nat) (i : Z) (b : buffer) : F unit :=
  match n with
  | O => ret tt
  | S n => freg_write (FLEXSPI_TFDR0 + i * 4) (word_of b i) ;;; put_words n (i + 1) b
  end.
Fixpoint get_words (n : nat) (i : Z) : F (list Z) :=
  match n with
  | O => ret []
  | S n => v <- freg_read (FLEXSPI_RFDR0 + i * 4) ;; r <- get_words n (i + 1) ;; ret (le_bytes 4 v ++ r)
  end.

(** [do status = read(INTR); while (!(status & bit))] *)
Fixpoint intr_wait (fuel : nat) (bit : Z) : F (option Z) :=
  match fuel with
  | O => ret None
  | S fuel => status <- freg_read FLEXSPI_INTR ;; if Z.land status bit =? 0 then intr_wait fuel bit else ret (Some status)
  end.

(** The watermark of a FIFO in units of 8 bytes. *)
Definition watermark (off mask shift : Z) : F Z := v <- freg_read off ;; ret (u8 (Z.shiftr (Z.land (u8 v) mask) shift + 1)).

Fixpoint write_loop (fuel : nat) (wm : Z) (b : buffer) (size : Z) : F Z :=
  if size =? 0 then ret 0 else
  match fuel with
  | O => ret (- PB_ERR_TIMEOUT)
  | S fuel =>
      st <- intr_wait poll_fuel FLEXSPI_INT_IPTXWEEN ;;
      match st with
      | None => ret (- PB_ERR_TIMEOUT)
      | Some status =>
          rc <- imx_flexspi_checkandclearerror status ;;
          if negb (rc =? 0) then ret rc else
          let full := 8 * wm <=? size in
          put_words (Z.to_nat (if full then 2 * wm else size / 4 + 1)) 0 b ;;;
          freg_clrset FLEXSPI_INTR 0 FLEXSPI_INT_IPTXWEEN ;;;
          write_loop fuel wm (skip (8 * wm) b) (if full then usz (size - 8 * wm) else 0)
      end
  end.
(** Every turn but the last sends 8 bytes at least. *)
Definition imx_flexspi_writeblocking (b : buffer) (size : Z) : F Z :=
  wm <- watermark FLEXSPI_IPTXFCR FLEXSPI_IPTXFCR_TXWMRK_MASK FLEXSPI_IPTXFCR_TXWMRK_SHIFT ;;
  write_loop (S (Z.to_nat (size / 8))) wm b size.

(** The waits for data, which check for errors at every poll. *)
Fixpoint rx_wait (fuel : nat) (wm size : Z) : F Z :=
  match fuel with
  | O => ret (- PB_ERR_TIMEOUT)
  | S fuel =>
      if 8 * wm <=? size then
        status <- freg_read FLEXSPI_INTR ;;
        if negb (Z.land status FLEXSPI_INT_IPRXWAEN =? 0) then ret 0 else
        rc <- imx_flexspi_checkandclearerror status ;;
        if negb (rc =? 0) then ret rc else rx_wait fuel wm size
      else
        fill <- freg_read FLEXSPI_IPRXFSTS ;;
        if size <=? u32 (Z.shiftr (Z.land fill FLEXSPI_IPRXFSTS_FILL_MASK) FLEXSPI_IPRXFSTS_FILL_SHIFT * 8) then ret 0 else
        status <- freg_read FLEXSPI_INTR ;;
        rc <- imx_flexspi_checkandclearerror status ;;
        if negb (rc =? 0) then ret rc else rx_wait fuel wm size
  end.

Fixpoint read_loop (fuel : nat) (wm size : Z) : F (Z * list Z) :=
  if size =? 0 then ret (0, []) else
  match fuel with
  | O => ret (- PB_ERR_TIMEOUT, [])
  | S fuel =>
      rc <- rx_wait poll_fuel wm size ;;
      if negb (rc =? 0) then ret (rc, []) else
      status <- freg_read FLEXSPI_INTR ;;
      rc <- imx_flexspi_checkandclearerror status ;;
      if negb (rc =? 0) then ret (rc, []) else
      let full := 8 * wm <=? size in
      data <- get_words (Z.to_nat (if full then 2 * wm else size / 4)) 0 ;;
      freg_clrset FLEXSPI_INTR 0 FLEXSPI_INT_IPRXWAEN ;;;
      let* (rc, more) := read_loop fuel wm (if full then usz (size - 8 * wm) else 0) in
      ret (rc, data ++ more)
  end.
Definition imx_flexspi_readblocking (size : Z) : F (Z * list Z) :=
  wm <- watermark FLEXSPI_IPRXFCR FLEXSPI_IPRXFCR_RXWMRK_MASK FLEXSPI_IPRXFCR_RXWMRK_SHIFT ;;
  read_loop (S (Z.to_nat (size / 8))) wm size.

(** [while (!imx_flexspi_getbusidle())] *)
Fixpoint idle_wait (fuel : nat) : F bool :=
  match fuel with
  | O => ret false
  | S fuel => idle <- imx_flexspi_getbusidle ;; if idle then ret true else idle_wait fuel
  end.

Definition port_off (p : flexspi_port) : option Z :=
  match p with
  | FLEXSPI_PORT_A1 => Some FLEXSPI_FLSHA1CR2
  | FLEXSPI_PORT_A2 => Some FLEXSPI_FLSHA2CR2
  | FLEXSPI_PORT_B1 => Some FLEXSPI_FLSHB1CR2
  | FLEXSPI_PORT_B2 => Some FLEXSPI_FLSHB2CR2
  | FLEXSPI_PORT_COUNT => None
  end.

Definition xfer_start (off lut_command address : Z) (command_type : flexspi_command_type) (data_length : Z) : F unit :=
  freg_clrset off 0 FLEXSPI_FLSHCR2_CLRINSTRPTR_MASK ;;;
  freg_clrset FLEXSPI_INTR 0 (Z.lor (Z.lor (Z.lor FLEXSPI_INTR_AHBCMDERR_MASK FLEXSPI_INTR_IPCMDERR_MASK) FLEXSPI_INTR_AHBCMDGE_MASK) FLEXSPI_INTR_IPCMDGE_MASK) ;;;
  freg_write FLEXSPI_IPCR0 address ;;;
  freg_clrset FLEXSPI_IPTXFCR 0 FLEXSPI_IPTXFCR_CLRIPTXF_MASK ;;;
  freg_clrset FLEXSPI_IPRXFCR 0 FLEXSPI_IPRXFCR_CLRIPRXF_MASK ;;;
  let size := match command_type with FLEXSPI_COMMAND => 0 | _ => FLEXSPI_IPCR1_IDATSZ data_length end in
  freg_write FLEXSPI_IPCR1 (Z.lor size (Z.lor (FLEXSPI_IPCR1_ISEQID lut_command) (FLEXSPI_IPCR1_ISEQNUM 0))) ;;;
  freg_clrset FLEXSPI_IPCMD 0 FLEXSPI_IPCMD_TRG_MASK.

(** The return code, and the data of a read. *)
Definition imx_flexspi_xfer (p : flexspi_port) (lut_command address : Z) (command_type : flexspi_command_type) (data : buffer) (data_length : Z)
    : F (Z * list Z) :=
  match port_off p with
  | None => ret (- PB_ERR_INVALID_ARGUMENT, [])
  | Some off =>
      xfer_start off lut_command address command_type data_length ;;;
      let finish rc bytes :=
        idle <- idle_wait poll_fuel ;;
        if negb idle then ret (- PB_ERR_TIMEOUT, bytes) else
        match command_type with
        | FLEXSPI_COMMAND => status <- freg_read FLEXSPI_INTR ;; rc <- imx_flexspi_checkandclearerror status ;; ret (rc, bytes)
        | _ => ret (rc, bytes)
        end in
      match command_type with
      | FLEXSPI_WRITE | FLEXSPI_CONFIG => rc <- imx_flexspi_writeblocking data data_length ;; finish rc []
      | FLEXSPI_READ =>
          if negb (data_length mod 4 =? 0) then ret (- PB_ERR_INVALID_ARGUMENT, []) else
          let* (rc, bytes) := imx_flexspi_readblocking data_length in finish rc bytes
      | FLEXSPI_COMMAND => finish 0 []
      end
  end.

Definition no_data : buffer := fun _ => 0.
Definition flexspi_command (n : flexspi_nor_config) (lut address : Z) : F Z :=
  let* (rc, _) := imx_flexspi_xfer (nc_port n) lut address FLEXSPI_COMMAND no_data 0 in ret rc.
Definition flexspi_delay (us : Z) : F unit := pb_delay_us tick delay_fuel us ;;; ret tt.

Fixpoint busy_loop (fuel : nat) (n : flexspi_nor_config) (polling_time_us : Z) : F Z :=
  match fuel with
  | O => ret (- PB_ERR_TIMEOUT)
  | S fuel =>
      let* (rc, sts) := imx_flexspi_xfer (nc_port n) (nc_lut_id_read_status n) 0 FLEXSPI_READ no_data 4 in
      if negb (rc =? 0) then ret rc else
      if Z.land (nth 0 sts 0) 1 =? 0 then ret PB_OK else
      flexspi_delay polling_time_us ;;; busy_loop fuel n polling_time_us
  end.
Definition imx_flexspi_busy_wait (n : flexspi_nor_config) (polling_time_us : Z) : F Z := busy_loop poll_fuel n polling_time_us.

(** [page_size - (address & (page_size - 1))] *)
Definition bytes_to_next_page (n : flexspi_nor_config) (address : Z) : Z :=
  u32 (u32 (nc_page_size n) - Z.land address (u32 (nc_page_size n - 1))).

Definition imx_flexspi_pp (n : flexspi_nor_config) (address : Z) (data : buffer) (size : Z) : F Z :=
  if (bytes_to_next_page n address <? size) || (nc_page_size n <? size) then ret (- PB_ERR_IO) else
  rc <- flexspi_command n (nc_lut_id_wr_enable n) 0 ;;
  if negb (rc =? PB_OK) then ret rc else
  let* (rc, _) := imx_flexspi_xfer (nc_port n) (nc_lut_id_write n) address FLEXSPI_WRITE data size in
  if negb (rc =? PB_OK) then ret rc else
  rc <- flexspi_command n (nc_lut_id_wr_disable n) 0 ;;
  if negb (rc =? PB_OK) then ret rc else
  imx_flexspi_busy_wait n (nc_time_page_program_ms n).

(** ** Callbacks of the block layer

    [n] is the configuration that the device's private pointer leads to,
    [block_size] what [bio_block_size] gives for it. *)

Definition imx_flexspi_read (n : flexspi_nor_config) (block_size lba length : Z) : F (Z * list Z) :=
  let address := u32 (lba * block_size) in
  imx_flexspi_busy_wait n 100 ;;;
  imx_flexspi_xfer (nc_port n) (nc_lut_id_read n) address FLEXSPI_READ no_data length.

(** [while (length > page_size)], then the rest. *)
Fixpoint pages_loop (fuel : nat) (n : flexspi_nor_config) (address : Z) (data : buffer) (length : Z) : F Z :=
  if length <=? nc_page_size n then
    if 0 <? length then imx_flexspi_pp n address data length else ret 0
  else
    match fuel with
    | O => ret (- PB_ERR_TIMEOUT)
    | S fuel =>
        rc <- imx_flexspi_pp n address data (nc_page_size n) ;;
        if negb (rc =? PB_OK) then ret rc else
        pages_loop fuel n (u32 (address + nc_page_size n)) (skip (nc_page_size n) data) (usz (length - nc_page_size n))
    end.

Definition imx_flexspi_write (n : flexspi_nor_config) (block_size lba length : Z) (data : buffer) : F Z :=
  let address := u32 (lba * block_size) in
  let first := bytes_to_next_page n address in
  let rest address data length := pages_loop (Z.to_nat (length / nc_page_size n)) n address data length in
  if (first <? nc_page_size n) && (first <? length) then
    rc <- imx_flexspi_pp n address data first ;;
    if negb (rc =? PB_OK) then ret rc else
    rest (u32 (address + first)) (skip first data) (usz (length - first))
  else rest address data length.

(** The first command in the table, up to the entry without sequence, whose
    block is not larger than [bytes]; [cur] if there is none. *)
Fixpoint smaller_erase (bytes : Z) (cmds : list flexspi_nor_erase_cmds) (cur : flexspi_nor_erase_cmds) : flexspi_nor_erase_cmds :=
  match cmds with
  | [] => cur
  | c :: cmds => if ec_lut_id c =? 0 then cur else if ec_block_size c <=? bytes then c else smaller_erase bytes cmds cur
  end.

(** The results of write enable and of the wait are not looked at. *)
Fixpoint erase_loop (fuel : nat) (n : flexspi_nor_config) (start erased bytes : Z) (cur : flexspi_nor_erase_cmds) : F Z :=
  if bytes =? 0 then flexspi_command n (nc_lut_id_wr_disable n) 0 else
  match fuel with
  | O => ret (- PB_ERR_TIMEOUT)
  | S fuel =>
      let cur := if bytes <? ec_block_size cur then smaller_erase bytes (nc_erase_cmds n) cur else cur in
      flexspi_command n (nc_lut_id_wr_enable n) 0 ;;;
      rc <- flexspi_command n (ec_lut_id cur) (u32 (start + erased)) ;;
      if negb (rc =? 0) then ret rc else
      imx_flexspi_busy_wait n (ec_erase_time_ms cur) ;;;
      erase_loop fuel n start (usz (erased + ec_block_size cur)) (usz (bytes - Z.min (ec_block_size cur) bytes)) cur
  end.

Definition imx_flexspi_erase_part (n : flexspi_nor_config) (block_size first_lba count : Z) : F Z :=
  let start := u32 (first_lba * block_size) in
  let bytes := usz (count * block_size) in
  let cur := nth 0 (nc_erase_cmds n) (EraseCmd 0 0 0) in
  if ec_block_size cur =? 0 then ret (- PB_ERR_IO) else
  erase_loop (Z.to_nat bytes) n start 0 bytes cur.

(** ** Set-up *)

Fixpoint put_regs (off i : Z) (vs : list Z) : F unit :=
  match vs with [] => ret tt | v :: vs => freg_write (off + 4 * i) v ;;; put_regs off (i + 1) vs end.

(** Waits without an end are given up after [poll_fuel] polls. *)
Definition imx_flexspi_config_lut : F unit :=
  idle_wait poll_fuel ;;;
  freg_write FLEXSPI_LUTKEY FLEXSPI_LUT_KEY_VAL ;;;
  freg_write FLEXSPI_LUTCR 0x02 ;;;
  put_regs FLEXSPI_LUT 0 (fc_lut cfg) ;;;
  freg_write FLEXSPI_LUTKEY FLEXSPI_LUT_KEY_VAL ;;;
  freg_write FLEXSPI_LUTCR 0x01.

Definition imx_flexspi_mem_config (n : flexspi_nor_config) : F Z :=
  idle_wait poll_fuel ;;;
  freg_write (FLEXSPI_FLSHCR0 (port_number (nc_port n))) (u32 (nc_capacity n / 1024)) ;;;
  freg_write (FLEXSPI_FLSHCR1 (port_number (nc_port n))) (nc_cr1 n) ;;;
  freg_write (FLEXSPI_FLSHCR2 (port_number (nc_port n))) (nc_cr2 n) ;;;
  ret PB_OK.
End driver.

Section init.
Context {arch : Arch} {kc : Kconfig} {HW : Type} `{!Mmio HW}.
(** The callbacks that are registered, and the address of a configuration. *)
Context (poll_fuel : nat) (read_p write_p erase_p : fptr) (config_p : flexspi_nor_config -> Z).
Abbreviation S := (M (bio_state HW)).

Definition id_matches (n : flexspi_nor_config) (id : list Z) : bool :=
  (nth 0 id 0 =? nc_mfg_id n) && (nth 1 id 0 =? nc_mfg_device_type n) && (nth 2 id 0 =? nc_mfg_capacity n).

(** The results of setting flags and the private pointer are not looked at. *)
Definition imx_flexspi_mem_probe (cfg : flexspi_core_config) (n : flexspi_nor_config) : S Z :=
  let* (rc, cmd_buf) := call_drv (imx_flexspi_xfer poll_fuel cfg (nc_port n) (nc_lut_id_read_id n) 0 FLEXSPI_READ no_data 4) in
  if negb (rc =? 0) then ret rc else
  if negb (id_matches n cmd_buf) then ret (- PB_ERR_NOT_FOUND) else
  d <- bio_allocate 0 (u32 (nc_capacity n / nc_block_size n - 1)) (nc_block_size n) (nc_uuid n) (nc_name n) ;;
  if d <? 0 then ret d else
  bio_set_flags d (Z.lor (Z.lor BIO_FLAG_WRITABLE BIO_FLAG_VISIBLE) BIO_FLAG_ERASE_BEFORE_WRITE) ;;;
  rc <- bio_set_ios d read_p write_p ;;
  if negb (rc =? 0) then ret rc else
  rc <- bio_set_ios_erase d erase_p ;;
  if negb (rc =? 0) then ret rc else
  bio_set_private d (config_p n) ;;;
  ret PB_OK.

(** [while (mmio_read_32(MCR0) & SWRESET)] *)
Fixpoint reset_wait (fuel : nat) (cfg : flexspi_core_config) : M HW unit :=
  match fuel with
  | O => ret tt
  | Datatypes.S fuel => v <- freg_read cfg FLEXSPI_MCR0 ;; if Z.land v FLEXSPI_MCR0_SWRESET =? 0 then ret tt else reset_wait fuel cfg
  end.

Fixpoint mem_configs (cfg : flexspi_core_config) (ms : list flexspi_nor_config) : M HW Z :=
  match ms with
  | [] => ret PB_OK
  | n :: ms =>
      if negb (nc_capacity n mod nc_block_size n =? 0) then ret (- PB_ERR_ALIGN) else
      rc <- imx_flexspi_mem_config poll_fuel cfg n ;;
      if negb (rc =? 0) then ret rc else mem_configs cfg ms
  end.
Fixpoint mem_probes (cfg : flexspi_core_config) (ms : list flexspi_nor_config) : S Z :=
  match ms with
  | [] => ret PB_OK
  | n :: ms => rc <- imx_flexspi_mem_probe cfg n ;; if negb (rc =? 0) then ret rc else mem_probes cfg ms
  end.

Definition flexspi_controller_init (cfg : flexspi_core_config) : M HW unit :=
  v <- freg_read cfg FLEXSPI_MCR0 ;;
  freg_write cfg FLEXSPI_MCR0 (Z.land v (Z.ldiff 0xffffffff FLEXSPI_MCR0_MDIS)) ;;;
  freg_clrset cfg FLEXSPI_MCR0 0 FLEXSPI_MCR0_SWRESET ;;;
  reset_wait poll_fuel cfg ;;;
  freg_write cfg FLEXSPI_MCR0 (fold_left Z.lor [Z.shiftl 1 12; Z.shiftl 0xFF 16; Z.shiftl 0xFF 24] FLEXSPI_MCR0_MDIS) ;;;
  freg_write cfg FLEXSPI_MCR1 (Z.lor (Z.shiftl 0xFFFF 16) 0xFFFF) ;;;
  freg_clrset cfg FLEXSPI_MCR2 (fold_left Z.lor [FLEXSPI_MCR2_SCKBDIFFOPT; FLEXSPI_MCR2_SAMEDEVICEEN; FLEXSPI_MCR2_CLRAHBBUFOPT] FLEXSPI_MCR2_RESUMEWAIT_MASK)
    (FLEXSPI_MCR2_RESUMEWAIT 20) ;;;
  let ahb := fold_left Z.lor [FLEXSPI_AHBCR_BUFFERABLEEN; FLEXSPI_AHBCR_PREFETCHEN; FLEXSPI_AHBCR_READADDROPT] FLEXSPI_AHBCR_CACHABLEEN in
  freg_clrset cfg FLEXSPI_AHBCR ahb ahb ;;;
  put_regs cfg (FLEXSPI_AHBRXBUFCR0 0) 0 (replicate 4 (FLEXSPI_AHBRXBUFCR0_BUFSZ 256)) ;;;
  put_regs cfg (FLEXSPI_FLSHCR0 0) 0 (replicate 4 0) ;;;
  freg_write cfg FLEXSPI_DLLACR (fc_dllacr cfg) ;;;
  freg_write cfg FLEXSPI_DLLBCR (fc_dllbcr cfg).

Definition flexspi_enable (cfg : flexspi_core_config) : M HW unit :=
  freg_write cfg FLEXSPI_FLSHCR4 (fc_cr4 cfg) ;;;
  freg_clrset cfg FLEXSPI_MCR0 FLEXSPI_MCR0_MDIS 0 ;;;
  freg_clrset cfg FLEXSPI_IPRXFCR FLEXSPI_IPRXFCR_RXWMRK_MASK (FLEXSPI_IPRXFCR_RXWMRK 8) ;;;
  freg_clrset cfg FLEXSPI_IPTXFCR FLEXSPI_IPTXFCR_TXWMRK_MASK (FLEXSPI_IPTXFCR_TXWMRK 8) ;;;
  imx_flexspi_config_lut poll_fuel cfg ;;;
  freg_clrset cfg FLEXSPI_MCR0 0 FLEXSPI_MCR0_SWRESET ;;;
  reset_wait poll_fuel cfg.

Definition imx_flexspi_init (cfg : flexspi_core_config) : S Z :=
  call_drv (flexspi_controller_init cfg) ;;;
  rc <- call_drv (mem_configs cfg (fc_mem cfg)) ;;
  if negb (rc =? 0) then ret rc else
  call_drv (flexspi_enable cfg) ;;;
  mem_probes cfg (fc_mem cfg).
End init.
