(* ===== verification/FlexspiNor.v ===== *)
(** * Flash behind the FlexSPI controller

    The controller's registers and FIFOs as the reference manual describes
    them, with a serial NOR flash behind ([fspi], [nor]).  On it the driver of
    [Flexspi] reads, programs across pages and erases what it is asked to. *)

From stdpp Require Import functions.
From S2P Require Import Prelude Errors Ram Uuid Bio Ocotp Delay Flexspi.
Local Open Scope c_scope.

(** ** The flash *)

(** Contents, the write enable latch, for how many more status reads the flash
    is busy, and its identification. *)
Record nor := Nor { n_mem : list Z; n_wel : bool; n_busy : nat; n_id : list Z }.

Inductive nor_cmd := NRead | NReadStatus | NReadId | NWriteEnable | NWriteDisable | NProgram | NErase (block : Z).

Definition n_idle (n : nor) : bool := (n_busy n =? 0)%nat.

(** Programming clears bits within a page, erasing sets all bits of the block
    that contains the address; a busy flash ignores both, and so does one that
    is not enabled. *)
Definition program_mem (addr : Z) (data mem : list Z) : list Z :=
  splice (Z.to_nat addr) (zip_with Z.land data (slice (Z.to_nat addr) (length data) mem)) mem.
Definition erase_mem (addr block : Z) (mem : list Z) : list Z :=
  splice (Z.to_nat (addr / block * block)) (replicate (Z.to_nat block) 255) mem.

Lemma length_program_mem addr data mem : (Z.to_nat addr + length data <= length mem)%nat -> length (program_mem addr data mem) = length mem.
Proof. intros H. apply length_splice. rewrite length_zip_with, length_slice by lia. lia. Qed.

Lemma program_mem_app addr d e mem : 0 <= addr -> (Z.to_nat addr + length d + length e <= length mem)%nat ->
  program_mem addr (d ++ e) mem = program_mem (addr + Z.of_nat (length d)) e (program_mem addr d mem).
Proof.
  intros Ha H. unfold program_mem. set (a := Z.to_nat addr) in *.
  replace (Z.to_nat (addr + Z.of_nat (length d))) with (a + length d)%nat by lia.
  set (d' := zip_with Z.land d (slice a (length d) mem)).
  assert (Hd : length d' = length d) by (subst d'; rewrite length_zip_with, length_slice; lia).
  rewrite <- Hd, slice_after_splice, splice_splice_app by lia. f_equal.
  rewrite length_app, <- slice_cons_app, zip_with_app by (rewrite length_slice; lia). by rewrite Hd.
Qed.

Section nor.
(** The page size and how long the flash is busy. *)
Context (page : Z) (program_busy erase_busy : nat).

Definition nor_program (addr : Z) (data : list Z) (n : nor) : nor :=
  let len := Z.of_nat (length data) in
  if n_idle n && n_wel n && (addr mod page + len <=? page) && (addr + len <=? Z.of_nat (length (n_mem n)))
  then Nor (program_mem addr data (n_mem n)) false program_busy (n_id n) else n.
Definition nor_erase (addr block : Z) (n : nor) : nor :=
  if n_idle n && n_wel n && (addr / block * block + block <=? Z.of_nat (length (n_mem n)))
  then Nor (erase_mem addr block (n_mem n)) false erase_busy (n_id n) else n.
Definition nor_latch (b : bool) (n : nor) : nor := if n_idle n then Nor (n_mem n) b (n_busy n) (n_id n) else n.
Definition nor_status (n : nor) : Z := if n_idle n then 0 else 1.
Definition nor_poll (n : nor) : nor := Nor (n_mem n) (n_wel n) (pred (n_busy n)) (n_id n).
(** A busy flash drives nothing. *)
Definition nor_read (addr len : Z) (n : nor) : list Z :=
  if n_idle n then slice (Z.to_nat addr) (Z.to_nat len) (n_mem n) else zeros (Z.to_nat len).

(** ** The controller *)

(** The flash, the registers that only store, the FIFOs, a page program that
    waits for its data (address and size), and the clock. *)
Record fspi := Fspi { f_nor : nor; f_reg : Z -> Z; f_rx : list Z; f_tx : list Z; f_prog : option (Z * Z); f_time : Z }.

(** What the sequences of the look-up table do; where the registers are. *)
Context (seq : Z -> option nor_cmd) (base : Z).

Definition wm_bytes (v : Z) : Z := 8 * (Z.shiftr (Z.land v 0x3c) 2 + 1).
Definition rx_word (l : list Z) (i : nat) : Z := le_val (take 4 (drop i l)).

Definition fspi_get (off : Z) (f : fspi) : Z :=
  if off =? FLEXSPI_INTR then Z.lor (if wm_bytes (f_reg f FLEXSPI_IPRXFCR) <=? Z.of_nat (length (f_rx f)) then FLEXSPI_INT_IPRXWAEN else 0) FLEXSPI_INT_IPTXWEEN
  else if off =? FLEXSPI_IPRXFSTS then Z.min 16 ((Z.of_nat (length (f_rx f)) + 7) / 8)
  else if off =? FLEXSPI_STS0 then match f_rx f, f_prog f with [], None => 3 | _, _ => 0 end
  else if off =? FLEXSPI_MCR0 then Z.ldiff (f_reg f off) 1
  else if off =? FLEXSPI_IPCMD then 0
  else if (FLEXSPI_RFDR0 <=? off) && (off <? FLEXSPI_TFDR0) then rx_word (f_rx f) (Z.to_nat (off - FLEXSPI_RFDR0))
  else f_reg f off.

(** A page program starts when all of its data is there. *)
Definition feed (f : fspi) : fspi :=
  match f_prog f with
  | Some (addr, size) =>
      if size <=? Z.of_nat (length (f_tx f))
      then Fspi (nor_program addr (take (Z.to_nat size) (f_tx f)) (f_nor f)) (f_reg f) (f_rx f) (f_tx f) None (f_time f) else f
  | None => f
  end.

(** The bytes of the transmit window. *)
Definition window (reg : Z -> Z) (n : Z) : list Z :=
  concat (map (fun i => le_bytes 4 (reg (FLEXSPI_TFDR0 + Z.of_nat i * 4))) (List.seq 0 (Z.to_nat (n / 4)))).

Definition pop_rx (f : fspi) : fspi :=
  Fspi (f_nor f) (f_reg f) (drop (Z.to_nat (wm_bytes (f_reg f FLEXSPI_IPRXFCR))) (f_rx f)) (f_tx f) (f_prog f) (f_time f).
Definition push_tx (f : fspi) : fspi :=
  feed (Fspi (f_nor f) (f_reg f) (f_rx f) (f_tx f ++ window (f_reg f) (wm_bytes (f_reg f FLEXSPI_IPTXFCR))) (f_prog f) (f_time f)).

Definition trigger (f : fspi) : fspi :=
  let addr := f_reg f FLEXSPI_IPCR0 in
  let size := Z.land (f_reg f FLEXSPI_IPCR1) 0xffff in
  let n := f_nor f in
  let put n rx prog := Fspi n (f_reg f) rx (f_tx f) prog (f_time f) in
  match seq (Z.land (Z.shiftr (f_reg f FLEXSPI_IPCR1) 16) 0xf) with
  | Some NRead => put n (nor_read addr size n) None
  | Some NReadStatus => put (nor_poll n) (replicate (Z.to_nat size) (nor_status n)) None
  | Some NReadId => put n (take (Z.to_nat size) (n_id n)) None
  | Some NWriteEnable => put (nor_latch true n) [] None
  | Some NWriteDisable => put (nor_latch false n) [] None
  | Some (NErase block) => put (nor_erase addr block n) [] None
  | Some NProgram => put n [] (Some (addr, size))
  | None => f
  end.

Definition set_reg (off v : Z) (f : fspi) : fspi := Fspi (f_nor f) (<[off := v]> (f_reg f)) (f_rx f) (f_tx f) (f_prog f) (f_time f).

Definition fspi_set (off v : Z) (f : fspi) : fspi :=
  if off =? FLEXSPI_INTR then
    let f := if Z.testbit v 5 then pop_rx f else f in
    if Z.testbit v 6 then push_tx f else f
  else if off =? FLEXSPI_IPTXFCR then
    let f := set_reg off (Z.ldiff v 1) f in
    if Z.testbit v 0 then Fspi (f_nor f) (f_reg f) (f_rx f) [] (f_prog f) (f_time f) else f
  else if off =? FLEXSPI_IPRXFCR then
    let f := set_reg off (Z.ldiff v 1) f in
    if Z.testbit v 0 then Fspi (f_nor f) (f_reg f) [] (f_tx f) (f_prog f) (f_time f) else f
  else if off =? FLEXSPI_IPCMD then if Z.testbit v 0 then trigger f else f
  else set_reg off v f.

Definition fspi_read (addr : Z) : M fspi Z := gets (fspi_get (addr - base)).
Definition fspi_write (addr v : Z) : M fspi unit := modify (fspi_set (addr - base) v).

#[local] Instance fspi_mmio : Mmio fspi := {| mmio_read_32 := fspi_read; mmio_write_32 := fspi_write |}.
Definition fspi_tick : M fspi Z := fun f => (f_time f, Fspi (f_nor f) (f_reg f) (f_rx f) (f_tx f) (f_prog f) (u32 (f_time f + 1))).
End nor.
Arguments set_reg : simpl never.

(** ** The driver on it *)

Section run.
Context {arch : Arch} (page : Z) (program_busy erase_busy : nat) (seq : Z -> option nor_cmd) (cfg : flexspi_core_config) (poll_fuel delay_fuel : nat).
#[local] Existing Instance fspi_mmio.
Abbreviation get := (fspi_get).
Abbreviation set := (fspi_set page program_busy erase_busy seq).
Abbreviation MM := (fspi_mmio page program_busy erase_busy seq (fc_base cfg)).

Lemma freg_read_run off f : @freg_read _ MM cfg off f = (fspi_get off f, f).
Proof. unfold freg_read, mmio_read_32, MM, fspi_read, gets. by replace (fc_base cfg + off - fc_base cfg) with off by lia. Qed.
Lemma freg_write_run off v f : @freg_write _ MM cfg off v f = (tt, set off v f).
Proof. unfold freg_write, mmio_write_32, MM, fspi_write, modify. by replace (fc_base cfg + off - fc_base cfg) with off by lia. Qed.
Lemma freg_clrset_run off clear v f :
  @freg_clrset _ MM cfg off clear v f = (tt, set off (Z.lor (Z.land (fspi_get off f) (Z.ldiff 0xffffffff clear)) v) f).
Proof. unfold freg_clrset, bind. rewrite freg_read_run. apply freg_write_run. Qed.

(** Between transfers: no page program waits for data, and the FIFOs hand out
    8 bytes at a time. *)
Definition calm (f : fspi) : Prop := f_prog f = None /\ f_reg f FLEXSPI_IPTXFCR = 0 /\ f_reg f FLEXSPI_IPRXFCR = 0.

Lemma set_intr_run v f : f_prog f = None ->
  exists rx tx, set FLEXSPI_INTR v f = Fspi (f_nor f) (f_reg f) rx tx None (f_time f).
Proof.
  intros Hp. unfold fspi_set. rewrite Z.eqb_refl. destruct (Z.testbit v 5), (Z.testbit v 6);
    unfold push_tx, feed, pop_rx; destruct f; cbn in *; subst; eauto.
Qed.

Lemma clear_tx_run n reg rx tx pr t : reg FLEXSPI_IPTXFCR = 0 ->
  @freg_clrset _ MM cfg FLEXSPI_IPTXFCR 0 FLEXSPI_IPTXFCR_CLRIPTXF_MASK (Fspi n reg rx tx pr t)
    = (tt, Fspi n (<[FLEXSPI_IPTXFCR := 0]> reg) rx [] pr t).
Proof. intros E. rewrite freg_clrset_run. unfold fspi_get. cbn -[Z.land Z.lor]. by rewrite E. Qed.
Lemma clear_rx_run n reg rx tx pr t : reg FLEXSPI_IPRXFCR = 0 ->
  @freg_clrset _ MM cfg FLEXSPI_IPRXFCR 0 FLEXSPI_IPRXFCR_CLRIPRXF_MASK (Fspi n reg rx tx pr t)
    = (tt, Fspi n (<[FLEXSPI_IPRXFCR := 0]> reg) [] tx pr t).
Proof. intros E. rewrite freg_clrset_run. unfold fspi_get. cbn -[Z.land Z.lor]. by rewrite E. Qed.
Lemma trigger_run f : @freg_clrset _ MM cfg FLEXSPI_IPCMD 0 FLEXSPI_IPCMD_TRG_MASK f = (tt, trigger erase_busy seq f).
Proof. by rewrite freg_clrset_run. Qed.

(** What is in the registers when the sequence is triggered. *)
Lemma xfer_start_run p off lut addr ty len f : port_off p = Some off -> calm f ->
  exists reg, reg FLEXSPI_IPTXFCR = 0 /\ reg FLEXSPI_IPRXFCR = 0 /\ reg FLEXSPI_IPCR0 = addr /\
    reg FLEXSPI_IPCR1 = Z.lor (match ty with FLEXSPI_COMMAND => 0 | _ => FLEXSPI_IPCR1_IDATSZ len end) (Z.lor (FLEXSPI_IPCR1_ISEQID lut) 0) /\
    @xfer_start _ MM cfg off lut addr ty len f = (tt, trigger erase_busy seq (Fspi (f_nor f) reg [] [] None (f_time f))).
Proof.
  intros Ho (Hp & Ht & Hr). unfold xfer_start, bind. rewrite !freg_clrset_run.
  set (v := Z.lor _ FLEXSPI_FLSHCR2_CLRINSTRPTR_MASK).
  assert (fspi_set page program_busy erase_busy seq off v f = set_reg off v f) as -> by (by destruct p; simplify_eq/=).
  edestruct set_intr_run as (rx & tx & ->); [done|]. unfold set_reg. cbn [f_nor f_reg f_time].
  assert (Ho' : off < FLEXSPI_IPCR0) by (by destruct p; simplify_eq/=). unfold FLEXSPI_IPCR0 in Ho'.
  rewrite freg_write_run. change (fspi_set page program_busy erase_busy seq FLEXSPI_IPCR0 addr (Fspi ?n ?r ?a ?b ?c ?t))
    with (Fspi n (<[FLEXSPI_IPCR0 := addr]> r) a b c t).
  rewrite clear_tx_run, clear_rx_run, freg_write_run, trigger_run.
  - set (w := Z.lor _ (Z.lor _ _)). eexists. refine (conj _ (conj _ (conj _ (conj _ eq_refl)))); reflexivity.
  - change (<[off := v]> (f_reg f) FLEXSPI_IPRXFCR = 0). by rewrite fn_lookup_insert_ne by (unfold FLEXSPI_IPRXFCR; lia).
  - change (<[off := v]> (f_reg f) FLEXSPI_IPTXFCR = 0). by rewrite fn_lookup_insert_ne by (unfold FLEXSPI_IPTXFCR; lia).
Qed.

(** The fields of [IPCR1]. *)
Lemma ipcr1_size lut s : 0 <= lut < 16 -> 0 <= s < 2 ^ 16 ->
  Z.land (Z.lor s (Z.lor (FLEXSPI_IPCR1_ISEQID lut) 0)) 0xffff = s.
Proof.
  intros Hl Hs. rewrite Z.lor_0_r, Z.land_lor_distr_l.
  assert (Z.land s 0xffff = s) as -> by (change 0xffff with (Z.ones 16); rewrite Z.land_ones, Z.mod_small; lia).
  unfold FLEXSPI_IPCR1_ISEQID. rewrite <- Z.land_assoc, Z.land_0_r. apply Z.lor_0_r.
Qed.
Lemma ipcr1_seqid lut s : 0 <= lut < 16 -> 0 <= s < 2 ^ 16 ->
  Z.land (Z.shiftr (Z.lor s (Z.lor (FLEXSPI_IPCR1_ISEQID lut) 0)) 16) 0xf = lut.
Proof.
  intros Hl Hs. rewrite Z.lor_0_r, Z.shiftr_lor, (Z.shiftr_div_pow2 s), Z.div_small, Z.lor_0_l by lia.
  assert (Hc : forallb (fun l => Z.land (Z.shiftr (FLEXSPI_IPCR1_ISEQID (Z.of_nat l)) 16) 0xf =? Z.of_nat l) (List.seq 0 16)) by done.
  apply forallb_True, Forall_forall with (x := Z.to_nat lut) in Hc; [|apply elem_of_seq; lia].
  rewrite Z2Nat.id in Hc by lia. by apply Z.eqb_eq, Is_true_true.
Qed.
Lemma idatsz_small len : 0 <= len < 2 ^ 16 -> FLEXSPI_IPCR1_IDATSZ len = len.
Proof.
  intros H. unfold FLEXSPI_IPCR1_IDATSZ. rewrite u32_small by lia.
  change 0xffff with (Z.ones 16). rewrite Z.land_ones, Z.mod_small; lia.
Qed.

(** *** Reading *)

Lemma intr_get f : exists a : bool, fspi_get FLEXSPI_INTR f = (if a then 0x60 else 0x40) /\
  (f_reg f FLEXSPI_IPRXFCR = 0 -> 8 <= Z.of_nat (length (f_rx f)) -> a = true).
Proof.
  exists (wm_bytes (f_reg f FLEXSPI_IPRXFCR) <=? Z.of_nat (length (f_rx f))).
  change (fspi_get FLEXSPI_INTR f) with
    (Z.lor (if wm_bytes (f_reg f FLEXSPI_IPRXFCR) <=? Z.of_nat (length (f_rx f)) then FLEXSPI_INT_IPRXWAEN else 0) FLEXSPI_INT_IPTXWEEN).
  split; [by destruct (_ <=? _)|]. intros -> H. by apply Z.leb_le.
Qed.

Lemma check_run (a : bool) f : @imx_flexspi_checkandclearerror _ MM cfg (if a then 0x60 else 0x40) f = (0, f).
Proof. by destruct a. Qed.

Lemma pop_run n reg rx tx t : reg FLEXSPI_IPRXFCR = 0 ->
  exists tx', @freg_clrset _ MM cfg FLEXSPI_INTR 0 FLEXSPI_INT_IPRXWAEN (Fspi n reg rx tx None t) = (tt, Fspi n reg (drop 8 rx) tx' None t).
Proof.
  intros E. rewrite freg_clrset_run. destruct (intr_get (Fspi n reg rx tx None t)) as ([] & -> & _); eexists;
    unfold fspi_set, push_tx, feed, pop_rx; cbn; by rewrite E.
Qed.

Lemma get_words_run k i n reg rx tx t : bytes rx -> (4 * (i + k) <= length rx)%nat -> (i + k < 32)%nat ->
  @get_words _ MM cfg k (Z.of_nat i) (Fspi n reg rx tx None t) = (slice (4 * i) (4 * k) rx, Fspi n reg rx tx None t).
Proof.
  intros Hb. revert i. induction k as [|k IH]; intros i Hl Hi; [by rewrite Nat.mul_0_r|].
  cbn [get_words]. unfold bind. rewrite freg_read_run.
  replace (Z.of_nat i + 1) with (Z.of_nat (S i)) by lia. rewrite IH by lia. unfold ret. f_equal.
  unfold fspi_get. unfold FLEXSPI_RFDR0, FLEXSPI_INTR, FLEXSPI_IPRXFSTS, FLEXSPI_STS0, FLEXSPI_MCR0, FLEXSPI_IPCMD, FLEXSPI_TFDR0.
  rewrite !(proj2 (Z.eqb_neq _ _)), (proj2 (Z.leb_le _ _)), (proj2 (Z.ltb_lt _ _)) by lia. cbn [andb f_rx]. unfold rx_word.
  assert (Hw : length (take 4 (drop (4 * i) rx)) = 4%nat) by (rewrite length_take, length_drop; lia).
  replace (Z.to_nat _) with (4 * i)%nat by lia. rewrite <- Hw at 1. rewrite le_bytes_le_val by auto with pb.
  change (take 4 (drop (4 * i) rx)) with (slice (4 * i) 4 rx). replace (4 * S i)%nat with (4 * i + 4)%nat by lia.
  rewrite slice_cons_app. f_equal. lia.
Qed.
Hypothesis poll_pos : (0 < poll_fuel)%nat.

Lemma rx_wait_run n reg rx tx t : reg FLEXSPI_IPRXFCR = 0 -> rx <> [] ->
  @rx_wait _ MM cfg poll_fuel 1 (Z.of_nat (length rx)) (Fspi n reg rx tx None t) = (0, Fspi n reg rx tx None t).
Proof using poll_pos.
  intros E Hn. destruct poll_fuel as [|fuel]; [lia|]. cbn [rx_wait]. unfold bind. change (8 * 1) with 8.
  destruct (Z.leb_spec 8 (Z.of_nat (length rx))).
  - rewrite freg_read_run. destruct (intr_get (Fspi n reg rx tx None t)) as (a & -> & Ha). by rewrite Ha.
  - rewrite freg_read_run. assert (0 < Z.of_nat (length rx)) by (destruct rx; [done|cbn; lia]).
    change (fspi_get FLEXSPI_IPRXFSTS _) with (Z.min 16 ((Z.of_nat (length rx) + 7) / 8)).
    replace ((Z.of_nat (length rx) + 7) / 8) with 1 by (apply (Z.div_unique _ _ _ (Z.of_nat (length rx) - 1)); lia).
    change (u32 _) with 8. by rewrite (proj2 (Z.leb_le _ _)) by lia.
Qed.

Lemma read_loop_run fuel n reg rx tx t : reg FLEXSPI_IPRXFCR = 0 -> bytes rx -> Z.of_nat (length rx) mod 4 = 0 ->
  Z.of_nat (length rx) < 2 ^ 16 -> (length rx <= 8 * fuel)%nat ->
  exists tx', @read_loop arch _ MM poll_fuel cfg fuel 1 (Z.of_nat (length rx)) (Fspi n reg rx tx None t) = ((0, rx), Fspi n reg [] tx' None t).
Proof using poll_pos.
  intros E. revert rx tx. induction fuel as [|fuel IH]; intros rx tx Hb H4 Hs Hf;
    (destruct (decide (rx = [])) as [-> | Hz]; [by exists tx|]).
  { by assert (rx = []) by (by apply nil_length_inv; lia). }
  assert (0 < Z.of_nat (length rx)) by (destruct rx; [done|cbn; lia]).
  cbn [read_loop]. rewrite (proj2 (Z.eqb_neq _ _)) by lia.
  unfold bind. rewrite rx_wait_run by done. cbn [Z.eqb negb].
  rewrite freg_read_run. destruct (intr_get (Fspi n reg rx tx None t)) as (a & -> & _). rewrite check_run. cbn [Z.eqb negb].
  change (8 * 1) with 8. set (k := Z.to_nat (if 8 <=? Z.of_nat (length rx) then 2 * 1 else Z.of_nat (length rx) / 4)).
  assert (Hk : (k <= 2 /\ 4 * k <= length rx /\ (length rx < 8 -> 4 * k = length rx) /\ (8 <= length rx -> k = 2))%nat).
  { pose proof (Z.div_mod (Z.of_nat (length rx)) 4 ltac:(lia)). subst k. destruct (Z.leb_spec 8 (Z.of_nat (length rx))); lia. }
  pose proof (get_words_run k 0 n reg rx tx t Hb) as Eg. change (Z.of_nat 0) with 0 in Eg. rewrite Eg by lia.
  edestruct pop_run as (tx1 & ->); [done|].
  assert (drop 8 rx = drop (4 * k) rx) as Ed.
  { destruct (decide (8 <= length rx)%nat); [f_equal; lia|]. by rewrite !drop_ge by lia. }
  assert ((if 8 <=? Z.of_nat (length rx) then usz (Z.of_nat (length rx) - 8) else 0) = Z.of_nat (length (drop 8 rx))) as ->.
  { rewrite length_drop. pose proof ptr_bits_ge32. destruct (Z.leb_spec 8 (Z.of_nat (length rx))); [rewrite usz_small|]; lia. }
  edestruct (IH (drop 8 rx) tx1) as (tx2 & ->); [by apply bytes_drop|..].
  - rewrite length_drop. destruct (decide (8 <= length rx)%nat); [|by replace (length rx - 8)%nat with 0%nat by lia].
    rewrite Nat2Z.inj_sub by done. change (Z.of_nat 8) with (2 * 4). by rewrite <- (Z.mod_add _ 2), Z.sub_add by done.
  - rewrite length_drop. lia.
  - rewrite length_drop. lia.
  - exists tx2. cbn. rewrite Ed. unfold slice. rewrite drop_0. by rewrite take_drop.
Qed.

(** *** Programming *)

Definition fifos_at_8 (reg : Z -> Z) : Prop := reg FLEXSPI_IPTXFCR = 0 /\ reg FLEXSPI_IPRXFCR = 0.

Lemma intr_wait_run f : exists a : bool,
  @intr_wait _ MM cfg poll_fuel FLEXSPI_INT_IPTXWEEN f = (Some (if a then 0x60 else 0x40), f).
Proof using poll_pos.
  destruct poll_fuel as [|fuel]; [lia|]. cbn [intr_wait]. unfold bind. rewrite freg_read_run.
  destruct (intr_get f) as (a & -> & _). exists a. by destruct a.
Qed.

Lemma word_of_bytes b i : (forall j, is_byte (b j)) -> le_bytes 4 (word_of b i) = ram_read b (4 * i) 4.
Proof.
  intros Hb. unfold word_of. rewrite <- (length_ram_read b (4 * i) 4) at 1. apply le_bytes_le_val.
  apply Forall_map, Forall_true. intros j. apply Hb.
Qed.

(** One or two words put into the transmit window. *)
Lemma put_words_run k b size n reg rx tx pr t : (forall j, is_byte (b j)) -> fifos_at_8 reg -> (1 <= k <= 2)%nat -> (size <= 4 * k)%nat ->
  exists reg', @put_words _ MM cfg k 0 b (Fspi n reg rx tx pr t) = (tt, Fspi n reg' rx tx pr t) /\ fifos_at_8 reg' /\
    length (window reg' 8) = 8%nat /\ take size (window reg' 8) = ram_read b 0 size.
Proof.
  intros Hb [E1 E2] Hk Hs. destruct k as [|[|[|k]]]; try lia; cbn [put_words]; unfold bind; rewrite !freg_write_run;
    eexists; (split; [reflexivity|]); (split; [done|]); unfold window; cbn [Z.to_nat List.seq map concat];
    change (List.seq 0 (Z.to_nat (8 / 4))) with [0; 1]%nat; cbn [map concat]; rewrite app_nil_r;
    (split; [by rewrite length_app, !length_le_bytes|]); change (0 + 1) with 1 in *.
  - rewrite take_app_le by (rewrite length_le_bytes; lia).
    change (take size (le_bytes 4 (word_of b 0)) = ram_read b 0 size).
    rewrite word_of_bytes by done. by apply take_ram_read.
  - change (take size (le_bytes 4 (word_of b 0) ++ le_bytes 4 (word_of b 1)) = ram_read b 0 size).
    rewrite !word_of_bytes by done. change (4 * 1) with (4 * 0 + Z.of_nat 4). rewrite <- ram_read_app. by apply take_ram_read.
Qed.

(** The full window is taken over; with the last byte the program starts. *)
Lemma push_run n reg tx addr total t : fifos_at_8 reg ->
  @freg_clrset _ MM cfg FLEXSPI_INTR 0 FLEXSPI_INT_IPTXWEEN (Fspi n reg [] tx (Some (addr, total)) t)
    = (tt, feed page program_busy (Fspi n reg [] (tx ++ window reg 8) (Some (addr, total)) t)).
Proof.
  intros [E1 E2]. rewrite freg_clrset_run.
  assert (Ea : fspi_get FLEXSPI_INTR (Fspi n reg [] tx (Some (addr, total)) t) = 0x40).
  { change (Z.lor (if wm_bytes (reg FLEXSPI_IPRXFCR) <=? 0 then FLEXSPI_INT_IPRXWAEN else 0) FLEXSPI_INT_IPTXWEEN = 0x40). by rewrite E2. }
  rewrite Ea.
  change ((tt, feed page program_busy (Fspi n reg [] (tx ++ window reg (wm_bytes (reg FLEXSPI_IPTXFCR))) (Some (addr, total)) t)) = (tt, feed page program_busy (Fspi n reg [] (tx ++ window reg 8) (Some (addr, total)) t))).
  by rewrite E1.
Qed.

Lemma write_loop_run fuel b size n reg tx addr t : (forall j, is_byte (b j)) -> fifos_at_8 reg -> (0 < size)%nat -> Z.of_nat size < 2 ^ 16 -> (size <= 8 * fuel)%nat ->
  exists reg' tx', fifos_at_8 reg' /\
    @write_loop arch _ MM poll_fuel cfg fuel 1 b (Z.of_nat size) (Fspi n reg [] tx (Some (addr, Z.of_nat (length tx + size))) t)
      = (0, Fspi (nor_program page program_busy addr (tx ++ ram_read b 0 size) n) reg' [] tx' None t).
Proof using poll_pos.
  revert b size reg tx. induction fuel as [|fuel IH]; intros b size reg tx Hb E Hp Hs Hf; [lia|].
  cbn [write_loop]. rewrite (proj2 (Z.eqb_neq _ _)) by lia. unfold bind.
  edestruct intr_wait_run as (a & ->). rewrite check_run. cbn [Z.eqb negb]. change (8 * 1) with 8.
  set (k := Z.to_nat (if 8 <=? Z.of_nat size then 2 * 1 else Z.of_nat size / 4 + 1)).
  assert (Hk : (1 <= k <= 2 /\ Nat.min size 8 <= 4 * k)%nat).
  { pose proof (Z.div_mod (Z.of_nat size) 4 ltac:(lia)). pose proof (Z.mod_pos_bound (Z.of_nat size) 4 ltac:(lia)).
    subst k. destruct (Z.leb_spec 8 (Z.of_nat size)); lia. }
  destruct (put_words_run k b (Nat.min size 8) n reg [] tx (Some (addr, Z.of_nat (length tx + size))) t) as (reg1 & -> & E1 & Hw & Hd); [done|done|lia..|].
  rewrite push_run by done. unfold feed. cbn [f_prog f_tx f_nor f_reg f_rx f_time]. rewrite length_app, Hw.
  destruct (Z.leb_spec (Z.of_nat (length tx + size)) (Z.of_nat (length tx + 8))).
  - assert ((if 8 <=? Z.of_nat size then usz (Z.of_nat size - 8) else 0) = 0) as ->.
    { destruct (Z.leb_spec 8 (Z.of_nat size)); [|done]. replace (Z.of_nat size - 8) with 0 by lia. apply usz_small. pose proof ptr_bits_ge32. lia. }
    exists reg1, (tx ++ window reg1 8). split; [done|]. replace (Nat.min size 8) with size in Hd by lia.
    rewrite Nat2Z.id, take_app_add, Hd. by destruct fuel.
  - rewrite (proj2 (Z.leb_le _ _)) by lia. pose proof ptr_bits_ge32. rewrite usz_small by lia.
    replace (Nat.min size 8) with 8%nat in Hd by lia. rewrite take_ge in Hd by lia.
    replace (Z.of_nat size - 8) with (Z.of_nat (size - 8)) by lia.
    replace (length tx + size)%nat with (length (tx ++ window reg1 8) + (size - 8))%nat by (rewrite length_app; lia).
    destruct (IH (skip 8 b) (size - 8)%nat reg1 (tx ++ window reg1 8)) as (reg2 & tx2 & E2 & ->); [by intros; apply Hb|done|lia..|].
    exists reg2, tx2. split; [done|]. do 3 f_equal. rewrite Hd, <- app_assoc. f_equal.
    change (ram_read (skip 8 b) 0 (size - 8)) with (ram_read b (0 + Z.of_nat 8) (size - 8)).
    rewrite <- ram_read_app. f_equal. lia.
Qed.

(** *** Transfers *)

(** [m] returns [r] and leaves the flash as [n]. *)
Definition Runs {A} (m : M fspi A) (f : fspi) (r : A) (n : nor) : Prop := exists f', m f = (r, f') /\ calm f' /\ f_nor f' = n.

Lemma runs_bind {A B} (m : M fspi A) (k : A -> M fspi B) f a n r n' :
  Runs m f a n -> (forall f', calm f' -> f_nor f' = n -> Runs (k a) f' r n') -> Runs (bind m k) f r n'.
Proof. intros (f1 & E & Hc & Hn) Hk. unfold Runs, bind. rewrite E. by apply Hk. Qed.
Lemma runs_ret {A} (a : A) f : calm f -> Runs (ret a) f a (f_nor f).
Proof. intros. by exists f. Qed.

Definition nor_reads (c : nor_cmd) (addr len : Z) (n : nor) : option (nor * list Z) :=
  match c with
  | NRead => Some (n, nor_read addr len n)
  | NReadStatus => Some (nor_poll n, replicate (Z.to_nat len) (nor_status n))
  | NReadId => Some (n, take (Z.to_nat len) (n_id n))
  | _ => None
  end.
Definition nor_does (c : nor_cmd) (addr : Z) (n : nor) : option nor :=
  match c with
  | NWriteEnable => Some (nor_latch true n)
  | NWriteDisable => Some (nor_latch false n)
  | NErase block => Some (nor_erase erase_busy addr block n)
  | _ => None
  end.

Lemma idle_run n reg tx t : @idle_wait _ MM cfg poll_fuel (Fspi n reg [] tx None t) = (true, Fspi n reg [] tx None t).
Proof using poll_pos.
  destruct poll_fuel as [|fuel]; [lia|]. cbn [idle_wait]. unfold imx_flexspi_getbusidle, bind. by rewrite freg_read_run.
Qed.

Lemma watermark_run off mask shift n reg rx tx pr t : reg off = 0 -> off = FLEXSPI_IPTXFCR \/ off = FLEXSPI_IPRXFCR ->
  @watermark _ MM cfg off mask shift (Fspi n reg rx tx pr t) = (1, Fspi n reg rx tx pr t).
Proof.
  intros E Ho. unfold watermark, bind. rewrite freg_read_run.
  assert (fspi_get off (Fspi n reg rx tx pr t) = 0) as -> by (by destruct Ho as [-> | ->]).
  change (u8 0) with 0. by rewrite Z.land_0_l, Z.shiftr_0_l.
Qed.

Context (p : flexspi_port).
Hypothesis port_ok : p <> FLEXSPI_PORT_COUNT.

Lemma xfer_read_run c lut addr len f n' reply : calm f -> seq lut = Some c -> 0 <= lut < 16 -> 0 <= len < 2 ^ 16 -> len mod 4 = 0 ->
  nor_reads c addr len (f_nor f) = Some (n', reply) -> Z.of_nat (length reply) = len -> bytes reply ->
  Runs (@imx_flexspi_xfer arch _ MM poll_fuel cfg p lut addr FLEXSPI_READ no_data len) f (0, reply) n'.
Proof using poll_pos port_ok.
  intros Hf Hs Hl Hlen H4 Hr Hrl Hb. unfold imx_flexspi_xfer.
  destruct (port_off p) as [off|] eqn:Ho; [|by destruct p]. unfold Runs, bind.
  destruct (xfer_start_run p off lut addr FLEXSPI_READ len f Ho Hf) as (reg & E1 & E2 & E3 & E4 & ->).
  rewrite idatsz_small in E4 by lia. rewrite H4. cbn [Z.eqb negb].
  assert (trigger erase_busy seq (Fspi (f_nor f) reg [] [] None (f_time f)) = Fspi n' reg reply [] None (f_time f)) as ->.
  { unfold trigger. cbn [f_reg f_nor f_tx f_time]. rewrite E4, ipcr1_seqid, ipcr1_size, E3, Hs by lia.
    clear - Hr. destruct c; try discriminate Hr; by injection Hr as <- <-. }
  unfold imx_flexspi_readblocking, bind. rewrite watermark_run by auto.
  destruct (read_loop_run (S (Z.to_nat (len / 8))) n' reg reply [] (f_time f) E2 Hb) as (tx & Hx).
  - by rewrite Hrl.
  - lia.
  - pose proof (Z.div_mod len 8). pose proof (Z.mod_pos_bound len 8). lia.
  - rewrite Hrl in Hx. rewrite Hx. rewrite idle_run. cbn [negb]. eexists. split; [reflexivity|]. done.
Qed.

Lemma xfer_cmd_run (nc : flexspi_nor_config) c lut addr f n' : nc_port nc = p -> calm f -> seq lut = Some c -> 0 <= lut < 16 ->
  nor_does c addr (f_nor f) = Some n' ->
  Runs (@flexspi_command arch _ MM poll_fuel cfg nc lut addr) f 0 n'.
Proof using poll_pos port_ok.
  intros Hnc Hf Hs Hl Hr. unfold flexspi_command, imx_flexspi_xfer. rewrite Hnc.
  destruct (port_off p) as [off|] eqn:Ho; [|by destruct p]. unfold Runs, bind.
  destruct (xfer_start_run p off lut addr FLEXSPI_COMMAND 0 f Ho Hf) as (reg & E1 & E2 & E3 & E4 & ->).
  assert (trigger erase_busy seq (Fspi (f_nor f) reg [] [] None (f_time f)) = Fspi n' reg [] [] None (f_time f)) as ->.
  { unfold trigger. cbn [f_reg f_nor f_tx f_time]. rewrite E4, ipcr1_seqid, ipcr1_size, E3, Hs by lia.
    clear - Hr. destruct c; try discriminate Hr; by injection Hr as <-. }
  rewrite idle_run. cbn [negb]. rewrite freg_read_run. edestruct intr_get as (a & -> & _). rewrite check_run.
  eexists. split; [reflexivity|]. done.
Qed.

Lemma xfer_write_run lut addr b size f : calm f -> seq lut = Some NProgram -> 0 <= lut < 16 -> 0 < size < 2 ^ 16 -> (forall j, is_byte (b j)) ->
  Runs (@imx_flexspi_xfer arch _ MM poll_fuel cfg p lut addr FLEXSPI_WRITE b size) f (0, [])
    (nor_program page program_busy addr (ram_read b 0 (Z.to_nat size)) (f_nor f)).
Proof using poll_pos port_ok.
  intros Hf Hs Hl Hsz Hb. unfold imx_flexspi_xfer.
  destruct (port_off p) as [off|] eqn:Ho; [|by destruct p]. unfold Runs, bind.
  destruct (xfer_start_run p off lut addr FLEXSPI_WRITE size f Ho Hf) as (reg & E1 & E2 & E3 & E4 & ->).
  rewrite idatsz_small in E4 by lia.
  assert (trigger erase_busy seq (Fspi (f_nor f) reg [] [] None (f_time f)) = Fspi (f_nor f) reg [] [] (Some (addr, size)) (f_time f)) as ->.
  { unfold trigger. cbn [f_reg f_nor f_tx f_time]. by rewrite E4, ipcr1_seqid, ipcr1_size, E3, Hs by lia. }
  unfold imx_flexspi_writeblocking, bind. rewrite watermark_run by auto.
  destruct (write_loop_run (S (Z.to_nat (size / 8))) b (Z.to_nat size) (f_nor f) reg [] addr (f_time f)) as (reg' & tx' & [E5 E6] & Hx);
    [done | done | lia | lia | pose proof (Z.div_mod size 8); pose proof (Z.mod_pos_bound size 8); lia |].
  cbn [length Nat.add app] in Hx. rewrite Z2Nat.id in Hx by lia. rewrite Hx, idle_run. cbn [negb].
  eexists. split; [reflexivity|]. done.
Qed.

(** *** Waiting and page programming *)

Definition settled (n : nor) : nor := Nor (n_mem n) (n_wel n) 0 (n_id n).

Context (nc : flexspi_nor_config).
Definition luts : list (Z * nor_cmd) :=
  [(nc_lut_id_read_status nc, NReadStatus); (nc_lut_id_read nc, NRead); (nc_lut_id_write nc, NProgram);
   (nc_lut_id_wr_enable nc, NWriteEnable); (nc_lut_id_wr_disable nc, NWriteDisable)].
(** The board's description of the flash is that of the flash. *)
Record described : Prop := Described {
  de_port : nc_port nc = p;
  de_page : nc_page_size nc = page;
  de_page_pow : exists k, 0 <= k < 16 /\ page = 2 ^ k;
  de_luts : Forall (fun '(lut, c) => 0 <= lut < 16 /\ seq lut = Some c) luts;
  de_erase : Forall (fun c => 0 < ec_lut_id c < 16 /\ 0 < ec_block_size c /\ seq (ec_lut_id c) = Some (NErase (ec_block_size c))) (nc_erase_cmds nc);
  de_busy : (program_busy < poll_fuel)%nat /\ (erase_busy < poll_fuel)%nat
}.
Hypothesis desc : described.

Lemma lut_ok i lut c : luts !! i = Some (lut, c) -> 0 <= lut < 16 /\ seq lut = Some c.
Proof using desc. intros H. exact (Forall_lookup_1 _ _ _ _ (de_luts desc) H). Qed.

Lemma delay_runs us f : calm f -> Runs (flexspi_delay fspi_tick delay_fuel us) f tt (f_nor f).
Proof.
  intros Hf. unfold flexspi_delay, Runs, bind, ret.
  pose proof (pb_delay_us_keeps fspi_tick (fun f => (f_nor f, f_reg f, f_prog f)) delay_fuel us ltac:(done) f) as Hk.
  destruct (pb_delay_us fspi_tick delay_fuel us f) as [r f']. cbn in Hk. injection Hk as E1 E2 E3.
  exists f'. unfold calm. by rewrite E1, E2, E3.
Qed.

Lemma busy_loop_runs fuel us f : calm f -> (n_busy (f_nor f) < fuel)%nat ->
  Runs (@busy_loop arch _ MM fspi_tick poll_fuel delay_fuel cfg fuel nc us) f PB_OK (settled (f_nor f)).
Proof using poll_pos port_ok desc.
  revert f. induction fuel as [|fuel IH]; intros f Hf Hb; [lia|]. cbn [busy_loop].
  destruct (lut_ok 0 _ _ eq_refl) as [Hl Hs].
  rewrite (de_port desc). eapply runs_bind.
  { eapply xfer_read_run; [done|done|done|lia|done|reflexivity|done|].
    apply Forall_replicate. unfold nor_status, is_byte. destruct (n_idle _); lia. }
  intros f1 Hf1 E1. cbn [Z.eqb negb nth replicate]. destruct (f_nor f) as [mem wel busy id] eqn:En. unfold nor_status, n_idle. cbn [n_busy] in *.
  destruct busy as [|busy]; cbn [Nat.eqb Z.land Z.eqb Pos.land].
  - change (settled _) with (nor_poll (Nor mem wel 0 id)). rewrite <- E1. by apply runs_ret.
  - eapply runs_bind; [by apply delay_runs|]. intros f2 Hf2 E2. rewrite E1 in E2. cbn in E2.
    specialize (IH f2 Hf2). rewrite E2 in IH. apply IH. cbn. lia.
Qed.

Lemma next_page addr : 0 <= addr < 2 ^ 32 -> bytes_to_next_page nc addr = page - addr mod page.
Proof using poll_pos desc.
  intros Ha. unfold bytes_to_next_page. rewrite (de_page desc). destruct (de_page_pow desc) as (k & Hk & ->).
  assert (0 < 2 ^ k < 2 ^ 16) by (split; [apply Z.pow_pos_nonneg | apply Z.pow_lt_mono_r]; lia).
  rewrite !(u32_small (2 ^ k)), (u32_small (2 ^ k - 1)) by lia. replace (2 ^ k - 1) with (Z.ones k) by (rewrite Z.ones_equiv; lia).
  rewrite Z.land_ones by lia. pose proof (Z.mod_pos_bound addr (2 ^ k)). apply u32_small. lia.
Qed.

(** A program within a page. *)
Lemma pp_runs addr b size mem wel id f : calm f -> f_nor f = Nor mem wel 0 id -> (forall j, is_byte (b j)) ->
  0 <= addr -> 0 < size -> addr mod page + size <= page -> addr + size <= Z.of_nat (length mem) -> Z.of_nat (length mem) <= 2 ^ 32 ->
  Runs (@imx_flexspi_pp arch _ MM fspi_tick poll_fuel delay_fuel cfg nc addr b size) f PB_OK
    (Nor (program_mem addr (ram_read b 0 (Z.to_nat size)) mem) false 0 id).
Proof using poll_pos port_ok desc.
  intros Hf En Hb Ha Hs Hpg Hm Hm32. destruct (de_page_pow desc) as (k & Hk & Ek).
  assert (0 < page < 2 ^ 16) by (rewrite Ek; split; [apply Z.pow_pos_nonneg | apply Z.pow_lt_mono_r]; lia).
  pose proof (Z.mod_pos_bound addr page). unfold imx_flexspi_pp. rewrite next_page, (de_page desc) by lia.
  rewrite (proj2 (Z.ltb_ge _ _)), (proj2 (Z.ltb_ge _ _)) by lia. cbn [orb].
  destruct (lut_ok 3 _ _ eq_refl) as [He1 He2].
  destruct (lut_ok 4 _ _ eq_refl) as [Hd1 Hd2].
  destruct (lut_ok 2 _ _ eq_refl) as [Hp1 Hp2].
  eapply runs_bind; [eapply xfer_cmd_run; [apply desc|done..|reflexivity]|]. intros f1 Hf1 E1. rewrite En in E1.
  eapply runs_bind; [rewrite (de_port desc); apply xfer_write_run; [done..|lia|done]|]. intros f2 Hf2 E2.
  rewrite E1 in E2. unfold nor_program, nor_latch, n_idle in E2. cbn in E2. rewrite length_ram_read, Z2Nat.id in E2 by lia.
  rewrite !(proj2 (Z.leb_le _ _)) in E2 by lia. cbn in E2.
  eapply runs_bind; [eapply xfer_cmd_run; [apply desc|done..|reflexivity]|]. intros f3 Hf3 E3. cbn [Z.eqb PB_OK negb].
  assert (Ef : settled (f_nor f3) = Nor (program_mem addr (ram_read b 0 (Z.to_nat size)) mem) false 0 id /\ (n_busy (f_nor f3) < poll_fuel)%nat).
  { rewrite E3, E2. unfold nor_latch. pose proof (de_busy desc). destruct (n_idle _); cbn; (split; [done|lia]). }
  destruct Ef as [<- Hbf]. by apply busy_loop_runs.
Qed.

Lemma page_range : 0 < page < 2 ^ 16.
Proof using desc.
  clear poll_pos port_ok. destruct (de_page_pow desc) as (k & Hk & ->). split; [apply Z.pow_pos_nonneg | apply Z.pow_lt_mono_r]; lia.
Qed.

(** The part of a write up to [first], then the rest. *)
Lemma program_read_split addr b first size mem : 0 <= addr -> 0 <= first <= size -> addr + size <= Z.of_nat (length mem) ->
  program_mem (addr + first) (ram_read (skip first b) 0 (Z.to_nat (size - first))) (program_mem addr (ram_read b 0 (Z.to_nat first)) mem)
    = program_mem addr (ram_read b 0 (Z.to_nat size)) mem.
Proof.
  clear. intros Ha Hf Hm. replace (Z.to_nat size) with (Z.to_nat first + Z.to_nat (size - first))%nat by lia.
  rewrite ram_read_app, program_mem_app by (rewrite ?length_ram_read; lia). rewrite length_ram_read, Z2Nat.id by lia. do 2 f_equal.
Qed.

Lemma pages_runs fuel addr b size mem wel id f : calm f -> f_nor f = Nor mem wel 0 id -> (forall j, is_byte (b j)) ->
  0 <= addr -> 0 < size -> addr mod page = 0 \/ addr mod page + size <= page -> addr + size <= Z.of_nat (length mem) ->
  Z.of_nat (length mem) <= 2 ^ 32 -> size <= page * Z.of_nat (S fuel) ->
  Runs (@pages_loop arch _ MM fspi_tick poll_fuel delay_fuel cfg fuel nc addr b size) f PB_OK
    (Nor (program_mem addr (ram_read b 0 (Z.to_nat size)) mem) false 0 id).
Proof using poll_pos port_ok desc.
  pose proof page_range. revert addr b size mem wel f.
  induction fuel as [|fuel IH]; intros addr b size mem wel f Hf En Hb Ha Hs Hpg Hm Hm32 Hfu; cbn [pages_loop]; rewrite (de_page desc);
    pose proof (Z.mod_pos_bound addr page);
    (destruct (Z.leb_spec size page); [rewrite (proj2 (Z.ltb_lt _ _)) by lia; eapply pp_runs; eauto; lia|]); [lia|].
  eapply runs_bind; [eapply pp_runs; eauto; lia|]. intros f1 Hf1 E1. cbn [Z.eqb PB_OK negb].
  pose proof ptr_bits_ge32. rewrite u32_small, usz_small by lia.
  rewrite <- (program_read_split addr b page size) by lia.
  eapply (IH (addr + page)); [done|exact E1|by intros; apply Hb|lia|lia| | |..].
  - left. rewrite <- (Z.mod_add _ (-1)) by lia. replace (addr + page + -1 * page) with addr by lia. lia.
  - rewrite length_program_mem; rewrite ?length_ram_read; lia.
  - rewrite length_program_mem; rewrite ?length_ram_read; lia.
  - lia.
Qed.

(** *** The callbacks *)

Lemma write_runs block_size lba size b mem wel id f : calm f -> f_nor f = Nor mem wel 0 id -> (forall j, is_byte (b j)) ->
  0 <= lba * block_size -> 0 < size -> lba * block_size + size <= Z.of_nat (length mem) -> Z.of_nat (length mem) <= 2 ^ 32 ->
  Runs (@imx_flexspi_write arch _ MM fspi_tick poll_fuel delay_fuel cfg nc block_size lba size b) f PB_OK
    (Nor (program_mem (lba * block_size) (ram_read b 0 (Z.to_nat size)) mem) false 0 id).
Proof using poll_pos port_ok desc.
  intros Hf En Hb Ha Hs Hm Hm32. pose proof page_range. unfold imx_flexspi_write. rewrite u32_small by lia.
  set (addr := lba * block_size) in *. rewrite next_page, (de_page desc) by lia. pose proof (Z.mod_pos_bound addr page).
  assert (Hfu : forall l, 0 <= l -> l <= page * Z.of_nat (S (Z.to_nat (l / page)))).
  { intros l Hl. pose proof (Z.div_mod l page). pose proof (Z.mod_pos_bound l page). pose proof (Z.div_pos l page). nia. }
  destruct ((page - addr mod page <? page) && (page - addr mod page <? size)) eqn:Eb; zbool.
  - eapply runs_bind; [eapply pp_runs; eauto; lia|]. intros f1 Hf1 E1. cbn [Z.eqb PB_OK negb].
    pose proof ptr_bits_ge32. rewrite u32_small, usz_small by lia.
    rewrite <- (program_read_split addr b (page - addr mod page) size) by lia.
    eapply pages_runs; [done|exact E1|by intros; apply Hb|lia|lia| | | |by apply Hfu; lia].
    + left. rewrite (Z.div_mod addr page) at 1 by lia. replace (page * (addr / page) + addr mod page + (page - addr mod page)) with ((addr / page + 1) * page) by lia.
      apply Z.mod_mul. lia.
    + rewrite length_program_mem; rewrite ?length_ram_read; lia.
    + rewrite length_program_mem; rewrite ?length_ram_read; lia.
  - eapply pages_runs; eauto; [|by apply Hfu; lia]. apply andb_false_iff in Eb as [Eb|Eb]; zbool; lia.
Qed.

Lemma read_runs block_size lba size mem wel busy id f : calm f -> f_nor f = Nor mem wel busy id -> (busy < poll_fuel)%nat -> bytes mem ->
  0 <= lba * block_size -> 0 <= size < 2 ^ 16 -> size mod 4 = 0 -> lba * block_size + size <= Z.of_nat (length mem) -> Z.of_nat (length mem) <= 2 ^ 32 ->
  lba * block_size < 2 ^ 32 ->
  Runs (@imx_flexspi_read arch _ MM fspi_tick poll_fuel delay_fuel cfg nc block_size lba size) f
    (0, slice (Z.to_nat (lba * block_size)) (Z.to_nat size) mem) (Nor mem wel 0 id).
Proof using poll_pos port_ok desc.
  intros Hf En Hbz Hb Ha Hs H4 Hm Hm32 Ha32. unfold imx_flexspi_read. rewrite u32_small by lia.
  destruct (lut_ok 1 _ _ eq_refl) as [Hl1 Hl2].
  eapply runs_bind; [apply busy_loop_runs; [done|by rewrite En]|]. intros f1 Hf1 E1. rewrite En in E1. cbn in E1. rewrite (de_port desc).
  eapply xfer_read_run; eauto; [rewrite E1; reflexivity| |]; rewrite ?length_slice; [lia..|]. unfold slice. auto with pb.
Qed.

(** *** Erasing *)

(** Of two blocks the smaller divides the larger, as for every flash. *)
Definition nested (cmds : list flexspi_nor_erase_cmds) : Prop :=
  forall c d, c ∈ cmds -> d ∈ cmds -> ec_block_size c <= ec_block_size d -> (ec_block_size c | ec_block_size d).
Definition divides (cmds : list flexspi_nor_erase_cmds) (size addr : Z) : Prop :=
  forall c, c ∈ cmds -> ec_block_size c <= size -> (ec_block_size c | addr).

Lemma smaller_erase_ok size cmds cur : Forall (fun c => ec_lut_id c <> 0) cmds -> (exists c, c ∈ cmds /\ ec_block_size c <= size) ->
  smaller_erase size cmds cur ∈ cmds /\ ec_block_size (smaller_erase size cmds cur) <= size.
Proof.
  clear. induction 1 as [|c cmds Hc _ IH]; intros (d & Hd & Hle); [by apply not_elem_of_nil in Hd|]. cbn [smaller_erase].
  rewrite (proj2 (Z.eqb_neq _ _)) by done. destruct (Z.leb_spec (ec_block_size c) size); [split; [left|lia]|].
  apply elem_of_cons in Hd as [-> |Hd]; [lia|]. destruct IH as [? ?]; [by exists d|]. split; [by right|done].
Qed.

Lemma erase_cmd_ok c : c ∈ nc_erase_cmds nc ->
  0 < ec_lut_id c < 16 /\ 0 < ec_block_size c /\ seq (ec_lut_id c) = Some (NErase (ec_block_size c)).
Proof using desc. intros H. exact (proj1 (Forall_forall _ _) (de_erase desc) c H). Qed.

(** The block that a turn erases. *)
Lemma erase_pick cur addr size : let pick := if size <? ec_block_size cur then smaller_erase size (nc_erase_cmds nc) cur else cur in
  nested (nc_erase_cmds nc) -> cur ∈ nc_erase_cmds nc -> divides (nc_erase_cmds nc) (ec_block_size cur) addr -> 0 < size ->
  (exists c, c ∈ nc_erase_cmds nc /\ (ec_block_size c | size)) ->
  pick ∈ nc_erase_cmds nc /\ ec_block_size pick <= size /\ (ec_block_size pick | addr) /\
  divides (nc_erase_cmds nc) (ec_block_size pick) (addr + ec_block_size pick) /\
  (exists c, c ∈ nc_erase_cmds nc /\ (ec_block_size c | size - ec_block_size pick)).
Proof using desc.
  clear poll_pos port_ok. intros pick Hn Hc Hd Hs (c0 & Hc0 & Hdiv). assert (Hp : pick ∈ nc_erase_cmds nc /\ ec_block_size pick <= size /\ ec_block_size pick <= ec_block_size cur).
  { subst pick. destruct (Z.ltb_spec size (ec_block_size cur)); [|by split_and!].
    destruct (smaller_erase_ok size (nc_erase_cmds nc) cur); [|exists c0; split; [done|by apply Z.divide_pos_le]|split_and!; [done..|lia]].
    apply Forall_forall. intros c Hin. pose proof (erase_cmd_ok c Hin). lia. }
  destruct Hp as (Hp & Hps & Hpc). split_and!; [done|done|by apply Hd| |].
  - intros c Hin Hle. apply Z.divide_add_r; [apply Hd; [done|lia]|by apply Hn].
  - destruct (Z.le_gt_cases (ec_block_size c0) (ec_block_size pick)).
    + exists c0. split; [done|]. apply Z.divide_sub_r; [done|by apply Hn].
    + exists pick. split; [done|]. apply Z.divide_sub_r; [|apply Z.divide_refl]. etransitivity; [|exact Hdiv]. apply Hn; [done..|lia].
Qed.

Lemma erase_loop_runs fuel start erased size cur mem wel id f : calm f -> f_nor f = Nor mem wel 0 id ->
  nested (nc_erase_cmds nc) -> cur ∈ nc_erase_cmds nc -> divides (nc_erase_cmds nc) (ec_block_size cur) (start + erased) ->
  (exists c, c ∈ nc_erase_cmds nc /\ (ec_block_size c | size)) ->
  0 <= start -> 0 <= erased -> 0 <= size <= Z.of_nat fuel -> start + erased + size <= Z.of_nat (length mem) -> Z.of_nat (length mem) < 2 ^ 32 ->
  Runs (@erase_loop arch _ MM fspi_tick poll_fuel delay_fuel cfg fuel nc start erased size cur) f PB_OK
    (Nor (splice (Z.to_nat (start + erased)) (replicate (Z.to_nat size) 255) mem) false 0 id).
Proof using poll_pos port_ok desc.
  intros Hf En Hn. revert erased size cur mem wel f Hf En.
  destruct (lut_ok 3 _ _ eq_refl) as [He1 He2]. destruct (lut_ok 4 _ _ eq_refl) as [Hd1 Hd2]. pose proof (de_busy desc) as [_ Hbusy].
  assert (Hend : forall mem wel f, calm f -> f_nor f = Nor mem wel 0 id ->
    Runs (@flexspi_command arch _ MM poll_fuel cfg nc (nc_lut_id_wr_disable nc) 0) f 0 (Nor mem false 0 id)).
  { intros mem wel f Hf En. eapply xfer_cmd_run; [apply desc|done..|]. by rewrite En. }
  induction fuel as [|fuel IH]; intros erased size cur mem wel f Hf En Hcur Hdiv Hex Hst Her Hsz Hm Hm32;
    cbn [erase_loop]; (destruct (Z.eqb_spec size 0) as [-> |Hz]; [cbn [Z.to_nat replicate]; rewrite splice_nil_at; eapply Hend; eauto|]); [lia|].
  destruct (erase_pick cur (start + erased) size Hn Hcur Hdiv ltac:(lia) Hex) as (Hp & Hps & Hpa & Hpd & Hpx).
  set (pick := if size <? _ then _ else _) in *. destruct (erase_cmd_ok pick Hp) as (Hl & Hb & Hseq).
  eapply runs_bind; [eapply xfer_cmd_run; [apply desc|done..|reflexivity]|]. intros f1 Hf1 E1. rewrite En in E1.
  rewrite u32_small by lia.
  eapply runs_bind; [eapply xfer_cmd_run; [apply desc|done|done|lia|reflexivity]|]. intros f2 Hf2 E2. cbn [Z.eqb negb].
  rewrite E1 in E2. unfold nor_erase, nor_latch, n_idle in E2. cbn in E2.
  assert (Hal : (start + erased) / ec_block_size pick * ec_block_size pick = start + erased).
  { destruct Hpa as (q & Eq). rewrite Eq, Z.div_mul by lia. done. }
  rewrite Hal, (proj2 (Z.leb_le _ _)) in E2 by lia. unfold erase_mem in E2. rewrite Hal in E2.
  eapply runs_bind; [apply busy_loop_runs; [done|by rewrite E2]|]. intros f3 Hf3 E3. rewrite E2 in E3. cbn in E3.
  pose proof ptr_bits_ge32. rewrite Z.min_l, !usz_small by lia.
  set (mem1 := splice _ _ mem) in E3.
  assert (Hl1 : length mem1 = length mem) by (apply length_splice; rewrite length_replicate; lia).
  specialize (IH (erased + ec_block_size pick) (size - ec_block_size pick) pick mem1 false f3 Hf3 E3 Hp).
  rewrite Z.add_assoc, Hl1 in IH. specialize (IH Hpd Hpx ltac:(lia) ltac:(lia) ltac:(lia) ltac:(lia) Hm32).
  replace (splice (Z.to_nat (start + erased)) _ mem) with (splice (Z.to_nat (start + erased + ec_block_size pick)) (replicate (Z.to_nat (size - ec_block_size pick)) 255) mem1); [exact IH|].
  subst mem1. replace (Z.to_nat (start + erased + ec_block_size pick)) with (Z.to_nat (start + erased) + length (replicate (Z.to_nat (ec_block_size pick)) 255%Z))%nat by (rewrite length_replicate; lia).
  rewrite splice_splice_app, <- replicate_add by lia. do 2 f_equal. lia.
Qed.

Lemma erase_runs block_size lba count mem wel id f : calm f -> f_nor f = Nor mem wel 0 id -> nested (nc_erase_cmds nc) ->
  let size := count * block_size in let cmds := nc_erase_cmds nc in
  (exists c, c ∈ cmds /\ (ec_block_size c | size)) -> (forall c, c ∈ cmds -> (ec_block_size c | lba * block_size)) ->
  0 <= lba * block_size -> 0 <= size -> lba * block_size + size <= Z.of_nat (length mem) -> Z.of_nat (length mem) < 2 ^ 32 ->
  Runs (@imx_flexspi_erase_part arch _ MM fspi_tick poll_fuel delay_fuel cfg nc block_size lba count) f PB_OK
    (Nor (splice (Z.to_nat (lba * block_size)) (replicate (Z.to_nat size) 255) mem) false 0 id).
Proof using poll_pos port_ok desc.
  intros Hf En Hn size cmds Hex Hdiv Ha Hs Hm Hm32. unfold imx_flexspi_erase_part. pose proof ptr_bits_ge32. fold size.
  rewrite u32_small, usz_small by lia. destruct Hex as (c0 & Hc0 & Hc0d).
  assert (Hcur : nth 0 (nc_erase_cmds nc) (EraseCmd 0 0 0) ∈ nc_erase_cmds nc).
  { fold cmds. destruct cmds; [by apply not_elem_of_nil in Hc0|left]. }
  pose proof (erase_cmd_ok _ Hcur). rewrite (proj2 (Z.eqb_neq _ _)) by lia.
  rewrite <- (Z.add_0_r (lba * block_size)) at 2. eapply erase_loop_runs; eauto; try lia. intros c Hc _. rewrite Z.add_0_r. by apply Hdiv.
Qed.

(** *** The flash as a storage device *)

Lemma program_erased addr data size mem : bytes data -> 0 <= addr -> (length data <= size)%nat -> (Z.to_nat addr + size <= length mem)%nat ->
  program_mem addr data (splice (Z.to_nat addr) (replicate size 255) mem) = splice (Z.to_nat addr) (data ++ replicate (size - length data) 255) mem.
Proof.
  clear. intros Hb Ha Hs Hm. set (a := Z.to_nat addr) in *.
  assert (Hsl : slice a (length data) (splice a (replicate size 255) mem) = replicate (length data) 255).
  { unfold slice, splice. rewrite drop_app_length' by (rewrite length_take; lia).
    by rewrite take_app_le, take_replicate, Nat.min_l by (rewrite ?length_replicate; lia). }
  unfold program_mem. fold a. rewrite Hsl.
  assert (zip_with Z.land data (replicate (length data) 255) = data) as ->.
  { clear -Hb. induction Hb as [|x l Hx _ IH]; [done|]. cbn. f_equal; [|exact IH].
    change 255 with (Z.ones 8). rewrite Z.land_ones by lia. apply Z.mod_small. unfold is_byte in Hx. lia. }
  replace size with (length data + (size - length data))%nat at 1 by lia. rewrite replicate_add.
  unfold splice. rewrite !length_app, !length_replicate, take_app_length' by (rewrite length_take; lia).
  rewrite <- !app_assoc. do 2 f_equal. rewrite app_assoc, drop_app_length' by (rewrite length_app, length_take, length_replicate; lia). done.
Qed.

(** [C16] Programming any number of bytes at any address: the driver splits
    the data at page boundaries so that every page program stays within its
    page, each is enabled and waited for, and in the end exactly the bytes
    addressed have lost the bits that are clear in the data; everything else
    is as before, and the flash is idle with writing disabled. *)
Theorem flexspi_write_programs block_size lba size b mem wel id f : calm f -> f_nor f = Nor mem wel 0 id -> (forall j, is_byte (b j)) ->
  0 <= lba * block_size -> 0 < size -> lba * block_size + size <= Z.of_nat (length mem) -> Z.of_nat (length mem) <= 2 ^ 32 ->
  exists f', @imx_flexspi_write arch _ MM fspi_tick poll_fuel delay_fuel cfg nc block_size lba size b f = (PB_OK, f') /\ calm f' /\
    f_nor f' = Nor (program_mem (lba * block_size) (ram_read b 0 (Z.to_nat size)) mem) false 0 id.
Proof using poll_pos port_ok desc. intros. by eapply write_runs. Qed.

(** [C15] Erase, write and read back.  Take an idle controller and flash, with
    described erase commands whose block sizes divide one another; a partition
    that begins at a multiple of every erase block and is as long as a multiple
    of one of them; and data of a length that is a multiple of four, below
    2^16 bytes and no longer than the partition.  Then erasing succeeds and
    sets exactly the partition to [0xff]; the data written next is what is
    read back, the rest of the partition stays erased and nothing outside of
    it changes.  The conditions are the code's: a read of 2^16 bytes or more
    does not end, a read of any other length is refused, and on a partition
    that is not aligned other data is erased
    ([Small.flexspi_erase_unaligned]). *)
Theorem flexspi_erase_write_read block_size lba count size b mem wel id f : calm f -> f_nor f = Nor mem wel 0 id -> bytes mem ->
  nested (nc_erase_cmds nc) -> (exists c, c ∈ nc_erase_cmds nc /\ (ec_block_size c | count * block_size)) ->
  (forall c, c ∈ nc_erase_cmds nc -> (ec_block_size c | lba * block_size)) -> (forall j, is_byte (b j)) ->
  0 <= lba * block_size -> 0 < size <= count * block_size -> size < 2 ^ 16 -> size mod 4 = 0 ->
  lba * block_size + count * block_size <= Z.of_nat (length mem) -> Z.of_nat (length mem) < 2 ^ 32 ->
  let off := Z.to_nat (lba * block_size) in let data := ram_read b 0 (Z.to_nat size) in let part := Z.to_nat (count * block_size) in
  exists f1 f2 f3,
    @imx_flexspi_erase_part arch _ MM fspi_tick poll_fuel delay_fuel cfg nc block_size lba count f = (PB_OK, f1) /\
    n_mem (f_nor f1) = splice off (replicate part 255) mem /\
    @imx_flexspi_write arch _ MM fspi_tick poll_fuel delay_fuel cfg nc block_size lba size b f1 = (PB_OK, f2) /\
    @imx_flexspi_read arch _ MM fspi_tick poll_fuel delay_fuel cfg nc block_size lba size f2 = ((0, data), f3) /\
    n_mem (f_nor f3) = splice off (data ++ replicate (part - length data) 255) mem.
Proof using poll_pos port_ok desc.
  intros Hf En Hmb Hn Hex Hdiv Hb Ha Hs Hs16 H4 Hm Hm32 off data part.
  assert (Hdb : bytes data) by (apply Forall_map, Forall_true; intros; apply Hb).
  assert (Hdl : length data = Z.to_nat size) by apply length_ram_read.
  destruct (erase_runs block_size lba count mem wel id f) as (f1 & E1 & Hf1 & En1); [done|done|done|done|done|lia..|]. fold off part in En1.
  assert (Hl1 : length (splice off (replicate part 255) mem) = length mem) by (apply length_splice; rewrite length_replicate; lia).
  destruct (write_runs block_size lba size b _ false id f1 Hf1 En1 Hb) as (f2 & E2 & Hf2 & En2); [lia..|]. fold data in En2.
  rewrite program_erased in En2 by lia || done. fold off in En2.
  set (mem2 := splice off (data ++ _) mem) in En2.
  assert (Hl2 : length mem2 = length mem) by (apply length_splice; rewrite length_app, length_replicate; lia).
  destruct (read_runs block_size lba size mem2 false 0 id f2 Hf2 En2) as (f3 & E3 & Hf3 & En3); try lia.
  { apply bytes_splice; [apply bytes_app; [done|]|done]. apply Forall_replicate. unfold is_byte. lia. }
  assert (Hrd : slice off (Z.to_nat size) mem2 = data).
  { rewrite <- Hdl. subst mem2. unfold slice, splice. rewrite drop_app_length' by (rewrite length_take; lia). rewrite <- app_assoc. apply take_app_length. }
  fold off in E3. rewrite Hrd in E3. exists f1, f2, f3. rewrite En1, En3. by split_and!.
Qed.
End run.

(** ** A small flash: 32 bytes, pages of 4, erase blocks of 8 and of 4 bytes *)

Module Small.
Definition seqs (i : Z) : option nor_cmd :=
  if i =? 1 then Some NRead else if i =? 2 then Some NReadStatus else if i =? 3 then Some NProgram else if i =? 4 then Some NWriteEnable
  else if i =? 5 then Some NWriteDisable else if i =? 6 then Some (NErase 8) else if i =? 7 then Some (NErase 4)
  else if i =? 8 then Some NReadId else None.
Definition chip : flexspi_nor_config :=
  NorConfig [110; 111; 114] (zeros 16) FLEXSPI_PORT_B1 32 4 4 0xef 0x40 0x18 1 0 0 [EraseCmd 8 1 6; EraseCmd 4 1 7] 2 8 1 3 4 5.
Definition ctrl : flexspi_core_config := CoreConfig 0x402a8000 0 0 0 [] [chip].
Definition contents : list Z := map (fun i => Z.of_nat i) (List.seq 0 32).
Definition start : fspi := Fspi (Nor contents false 0 [0xef; 0x40; 0x18; 0]) (fun _ => 0) [] [] None 0.
Definition text : buffer := fun i => if (0 <=? i) && (i <? 12) then 100 + i else 0.
#[local] Instance mmio : Mmio fspi := fspi_mmio 4 2 3 seqs (fc_base ctrl).

Lemma chip_described : described 4 2 3 seqs 6 FLEXSPI_PORT_B1 chip.
Proof. split; try done; [by exists 2 | by repeat constructor.. | split; lia]. Qed.
Lemma chip_nested : nested (nc_erase_cmds chip).
Proof.
  intros c d Hc Hd. cbn in Hc, Hd. repeat setoid_rewrite elem_of_cons in Hc. repeat setoid_rewrite elem_of_cons in Hd.
  destruct Hc as [-> |[-> |Hc]]; [| |by apply not_elem_of_nil in Hc]; (destruct Hd as [-> |[-> |Hd]]; [| |by apply not_elem_of_nil in Hd]);
    cbn; intros; try lia; [by exists 1|by exists 2|by exists 1].
Qed.
Lemma text_bytes j : is_byte (text j).
Proof. unfold text, is_byte. destruct (Z.leb_spec 0 j), (Z.ltb_spec j 12); cbn; lia. Qed.

(** Ten bytes from address 8 on: three pages. *)
Lemma flexspi_write_programs_witness : exists f',
  @imx_flexspi_write armv7a fspi mmio fspi_tick 6 5 ctrl chip 4 2 10 text start = (PB_OK, f') /\
  n_mem (f_nor f') = program_mem 8 [100; 101; 102; 103; 104; 105; 106; 107; 108; 109] contents.
Proof.
  destruct (flexspi_write_programs (arch := armv7a) 4 2 3 seqs ctrl 6 5 ltac:(lia) FLEXSPI_PORT_B1 ltac:(done) chip chip_described
    4 2 10 text contents false [0xef; 0x40; 0x18; 0] start ltac:(done) eq_refl text_bytes ltac:(lia) ltac:(lia) ltac:(cbn; lia) ltac:(cbn; lia)) as (f' & E & _ & En).
  exists f'. split; [exact E|]. by rewrite En.
Defined.

(** The partition of the blocks 2 to 4, 12 bytes: one block of 8, one of 4. *)
Lemma flexspi_erase_write_read_witness : exists f1 f2 f3,
  @imx_flexspi_erase_part armv7a fspi mmio fspi_tick 6 5 ctrl chip 4 2 3 start = (PB_OK, f1) /\
  @imx_flexspi_write armv7a fspi mmio fspi_tick 6 5 ctrl chip 4 2 8 text f1 = (PB_OK, f2) /\
  @imx_flexspi_read armv7a fspi mmio fspi_tick 6 5 ctrl chip 4 2 8 f2 = ((0, [100; 101; 102; 103; 104; 105; 106; 107]), f3) /\
  n_mem (f_nor f3) = splice 8 [100; 101; 102; 103; 104; 105; 106; 107; 255; 255; 255; 255] contents.
Proof.
  destruct (flexspi_erase_write_read (arch := armv7a) 4 2 3 seqs ctrl 6 5 ltac:(lia) FLEXSPI_PORT_B1 ltac:(done) chip chip_described
    4 2 3 8 text contents false [0xef; 0x40; 0x18; 0] start ltac:(done) eq_refl ltac:(apply (bool_decide_unpack _); vm_compute; exact I) chip_nested) as (f1 & f2 & f3 & E1 & _ & E2 & E3 & E4).
  - exists (EraseCmd 4 1 7). split; [right; left|]. by exists 3.
  - intros c Hc. cbn in Hc. repeat setoid_rewrite elem_of_cons in Hc. destruct Hc as [-> |[-> |Hc]]; [by exists 1|by exists 2|by apply not_elem_of_nil in Hc].
  - apply text_bytes.
  - lia.
  - lia.
  - lia.
  - done.
  - cbn; lia.
  - cbn; lia.
  - change (ram_read text 0 (Z.to_nat 8)) with [100; 101; 102; 103; 104; 105; 106; 107] in E3, E4.
    exists f1, f2, f3. split; [exact E1|]. split; [exact E2|]. split; [exact E3|exact E4].
Defined.

(** Erasing the blocks 1 and 2, bytes 4 to 11: the first command of the table
    is taken, whose block of 8 bytes begins before the partition.  Bytes 0 to
    3 are lost, bytes 8 to 11 are not erased, and the result is success. *)
Lemma flexspi_erase_unaligned :
  let '(rc, f) := @imx_flexspi_erase_part armv7a fspi mmio fspi_tick 6 5 ctrl chip 4 1 2 start in
  rc = PB_OK /\ n_mem (f_nor f) = splice 0 (replicate 8 255) contents.
Proof. vm_compute. done. Qed.

(** The driver finds the chip, registers it with its 8 blocks, and leaves the
    controller between transfers; a chip that identifies itself differently is
    not registered. *)
Lemma flexspi_init_finds :
  let kc := test_defconfig in
  let '(rc, s) := @imx_flexspi_init armv7a kc fspi mmio 6 1 2 3 (fun _ => 0x20001000) ctrl (bio_init start) in
  rc = PB_OK /\ n_bios s = 1 /\ (first_lba (dev_at s 0), last_lba (dev_at s 0), block_sz (dev_at s 0)) = (0, 7, 4) /\
  f_prog (bio_hw s) = None /\ f_reg (bio_hw s) FLEXSPI_IPTXFCR = 0 /\ f_reg (bio_hw s) FLEXSPI_IPRXFCR = 0.
Proof. vm_compute. done. Qed.
Lemma flexspi_init_other_chip :
  let kc := test_defconfig in
  let other := Fspi (Nor contents false 0 [0xc2; 0x20; 0x18; 0]) (fun _ => 0) [] [] None 0 in
  let '(rc, s) := @imx_flexspi_init armv7a kc fspi mmio 6 1 2 3 (fun _ => 0x20001000) ctrl (bio_init other) in
  rc = - PB_ERR_NOT_FOUND /\ n_bios s = 0.
Proof. vm_compute. done. Qed.
End Small.
