(* ===== verification/Wire.v ===== *)
(** * The wire protocol

    [src/wire.c] and [include/pb-tools/wire.h]: the packed structures the host
    and the device exchange in command mode, as codecs, and the functions that
    build and validate them. *)

From S2P Require Import Prelude Errors.
Local Open Scope c_scope.

(** ** Constants *)

Definition PB_WIRE_MAGIC : Z := 0x50424c30.
Definition PB_COMMAND_REQUEST_MAX_SIZE : Z := 504.
Definition PB_RESULT_RESPONSE_MAX_SIZE : Z := 504.

Definition PB_AUTH_ASYM_TOKEN : Z := 1.
Definition PB_AUTH_PASSWORD : Z := 2.

Definition PB_CMD_INVALID : Z := 0.
Definition PB_CMD_DEVICE_RESET : Z := 1.
Definition PB_CMD_DEVICE_IDENTIFIER_READ : Z := 2.
Definition PB_CMD_DEVICE_READ_CAPS : Z := 3.
Definition PB_CMD_SLC_SET_CONFIGURATION : Z := 4.
Definition PB_CMD_SLC_SET_CONFIGURATION_LOCK : Z := 5.
Definition PB_CMD_SLC_SET_EOL : Z := 6.
Definition PB_CMD_SLC_REVOKE_KEY : Z := 7.
Definition PB_CMD_SLC_READ : Z := 8.
Definition PB_CMD_BOOTLOADER_VERSION_READ : Z := 9.
Definition PB_CMD_PART_TBL_READ : Z := 10.
Definition PB_CMD_PART_TBL_INSTALL : Z := 11.
Definition PB_CMD_PART_VERIFY : Z := 12.
Definition PB_CMD_PART_ACTIVATE : Z := 13.
Definition PB_CMD_PART_BPAK_READ : Z := 14.
Definition PB_CMD_PART_ERASE : Z := 15.
Definition PB_CMD_AUTHENTICATE : Z := 16.
Definition PB_CMD_AUTH_SET_PASSWORD : Z := 17.
Definition PB_CMD_STREAM_INITIALIZE : Z := 18.
Definition PB_CMD_STREAM_PREPARE_BUFFER : Z := 19.
Definition PB_CMD_STREAM_WRITE_BUFFER : Z := 20.
Definition PB_CMD_STREAM_FINALIZE : Z := 21.
Definition PB_CMD_BOOT_PART : Z := 22.
Definition PB_CMD_BOOT_BPAK : Z := 23.
Definition PB_CMD_BOARD_COMMAND : Z := 24.
Definition PB_CMD_BOARD_STATUS_READ : Z := 25.
Definition PB_CMD_STREAM_READ_BUFFER : Z := 26.
Definition PB_CMD_PART_RESIZE : Z := 27.
Definition PB_CMD_BOOT_STATUS : Z := 28.
Definition PB_CMD_END : Z := 29.

Definition PB_SLC_NOT_CONFIGURED : Z := 1.
Definition PB_SLC_CONFIGURATION : Z := 2.
Definition PB_SLC_CONFIGURATION_LOCKED : Z := 3.
Definition PB_SLC_EOL : Z := 4.

(** ** Structures *)

(** An [int8_t]. *)
Definition c_int8 : codec Z :=
  Codec 1 (fun v => le_bytes 1 (u8 v)) (fun bs => (s8 (le_val (take 1 bs)), drop 1 bs))
    (fun v => - 2 ^ 7 <= v < 2 ^ 7).

Lemma s8_u8 v : - 2 ^ 7 <= v < 2 ^ 7 -> s8 (u8 v) = v.
Proof. unfold s8, u8. intros. Z.div_mod_to_equations. lia. Qed.

Lemma u8_s8 v : is_byte v -> u8 (s8 v) = v.
Proof. unfold s8, u8, is_byte. intros. Z.div_mod_to_equations. lia. Qed.

#[export] Instance c_int8_ok : CodecOK c_int8.
Proof.
  assert (Hu : forall v, u8 v mod 256 = u8 v) by (intros; apply Z.mod_small, Z.mod_pos_bound; lia).
  split; simpl; intros.
  - done.
  - apply Forall_singleton. apply Z.mod_pos_bound. lia.
  - unfold cdec, c_int8. simpl. rewrite Hu, Z.add_0_r. by rewrite s8_u8, drop_0.
  - unfold s8. pose proof (Z.mod_pos_bound (le_val (take 1 bs) + 2 ^ 7) (2 ^ 8)). lia.
  - destruct bs as [|b bs]; [simpl in *; lia|]. apply Forall_cons in H as [Hb _]. simpl.
    rewrite Z.add_0_r, u8_s8, drop_0 by done. by rewrite Z.mod_small.
Qed.

Record pb_command := Command { cm_magic : Z; cm_command : Z; cm_rz : list Z; cm_request : list Z }.
Definition pb_command_c : codec pb_command :=
  c_iso (fun x => (cm_magic x, (cm_command x, (cm_rz x, cm_request x))))
    (fun '(a, (b, (c, d))) => Command a b c d)
    (u32c ⊗ u8c ⊗ c_raw 3 ⊗ c_raw 504)%codec.
#[export] Instance pb_command_c_ok : CodecOK pb_command_c.
Proof. solve_struct. Qed.

Record pb_result := Result { rs_magic : Z; rs_code : Z; rs_rz : list Z; rs_response : list Z }.
Definition pb_result_c : codec pb_result :=
  c_iso (fun x => (rs_magic x, (rs_code x, (rs_rz x, rs_response x))))
    (fun '(a, (b, (c, d))) => Result a b c d)
    (u32c ⊗ c_int8 ⊗ c_raw 3 ⊗ c_raw 504)%codec.
#[export] Instance pb_result_c_ok : CodecOK pb_result_c.
Proof. solve_struct. Qed.

Record pb_result_device_caps := DeviceCaps { dc_stream_no_of_buffers : Z; dc_stream_buffer_size : Z; dc_operation_timeout_ms : Z; dc_part_erase_timeout_ms : Z; dc_bpak_stream_support : Z; dc_chunk_transfer_max_bytes : Z; dc_rz : list Z }.
Definition pb_result_device_caps_c : codec pb_result_device_caps :=
  c_iso (fun x => (dc_stream_no_of_buffers x, (dc_stream_buffer_size x, (dc_operation_timeout_ms x, (dc_part_erase_timeout_ms x, (dc_bpak_stream_support x, (dc_chunk_transfer_max_bytes x, dc_rz x)))))))
    (fun '(a, (b, (c, (d, (e, (f, g)))))) => DeviceCaps a b c d e f g)
    (u8c ⊗ u32c ⊗ u16c ⊗ u16c ⊗ u8c ⊗ u32c ⊗ c_raw 18)%codec.
#[export] Instance pb_result_device_caps_c_ok : CodecOK pb_result_device_caps_c.
Proof. solve_struct. Qed.

Record pb_result_part_table_read := PartTableRead { tr_no_of_entries : Z; tr_rz : list Z }.
Definition pb_result_part_table_read_c : codec pb_result_part_table_read :=
  c_iso (fun x => (tr_no_of_entries x, tr_rz x))
    (fun '(a, b) => PartTableRead a b)
    (u8c ⊗ c_raw 31)%codec.
#[export] Instance pb_result_part_table_read_c_ok : CodecOK pb_result_part_table_read_c.
Proof. solve_struct. Qed.

Record pb_result_part_table_entry := PartTableEntry { te_uuid : list Z; te_description : list Z; te_first_block : Z; te_last_block : Z; te_block_size : Z; te_flags : Z; te_rz : list Z }.
Definition pb_result_part_table_entry_c : codec pb_result_part_table_entry :=
  c_iso (fun x => (te_uuid x, (te_description x, (te_first_block x, (te_last_block x, (te_block_size x, (te_flags x, te_rz x)))))))
    (fun '(a, (b, (c, (d, (e, (f, g)))))) => PartTableEntry a b c d e f g)
    (c_raw 16 ⊗ c_raw 37 ⊗ u64c ⊗ u64c ⊗ u16c ⊗ u8c ⊗ c_raw 56)%codec.
#[export] Instance pb_result_part_table_entry_c_ok : CodecOK pb_result_part_table_entry_c.
Proof. solve_struct. Qed.

Record pb_command_stream_initialize := StreamInitialize { si_part_uuid : list Z; si_rz : list Z }.
Definition pb_command_stream_initialize_c : codec pb_command_stream_initialize :=
  c_iso (fun x => (si_part_uuid x, si_rz x))
    (fun '(a, b) => StreamInitialize a b)
    (c_raw 16 ⊗ c_raw 16)%codec.
#[export] Instance pb_command_stream_initialize_c_ok : CodecOK pb_command_stream_initialize_c.
Proof. solve_struct. Qed.

Record pb_command_stream_prepare_buffer := StreamPrepare { sp_size : Z; sp_id : Z; sp_rz : list Z }.
Definition pb_command_stream_prepare_buffer_c : codec pb_command_stream_prepare_buffer :=
  c_iso (fun x => (sp_size x, (sp_id x, sp_rz x)))
    (fun '(a, (b, c)) => StreamPrepare a b c)
    (u32c ⊗ u8c ⊗ c_raw 27)%codec.
#[export] Instance pb_command_stream_prepare_buffer_c_ok : CodecOK pb_command_stream_prepare_buffer_c.
Proof. solve_struct. Qed.

Record pb_command_stream_write_buffer := StreamWrite { sw_size : Z; sw_offset : Z; sw_buffer_id : Z; sw_rz : list Z }.
Definition pb_command_stream_write_buffer_c : codec pb_command_stream_write_buffer :=
  c_iso (fun x => (sw_size x, (sw_offset x, (sw_buffer_id x, sw_rz x))))
    (fun '(a, (b, (c, d))) => StreamWrite a b c d)
    (u32c ⊗ u64c ⊗ u8c ⊗ c_raw 19)%codec.
#[export] Instance pb_command_stream_write_buffer_c_ok : CodecOK pb_command_stream_write_buffer_c.
Proof. solve_struct. Qed.

Record pb_command_stream_read_buffer := StreamRead { sr_size : Z; sr_offset : Z; sr_buffer_id : Z; sr_rz : list Z }.
Definition pb_command_stream_read_buffer_c : codec pb_command_stream_read_buffer :=
  c_iso (fun x => (sr_size x, (sr_offset x, (sr_buffer_id x, sr_rz x))))
    (fun '(a, (b, (c, d))) => StreamRead a b c d)
    (u32c ⊗ u64c ⊗ u8c ⊗ c_raw 19)%codec.
#[export] Instance pb_command_stream_read_buffer_c_ok : CodecOK pb_command_stream_read_buffer_c.
Proof. solve_struct. Qed.

Record pb_command_authenticate := Authenticate { au_method : Z; au_size : Z; au_key_id : Z; au_rz : list Z }.
Definition pb_command_authenticate_c : codec pb_command_authenticate :=
  c_iso (fun x => (au_method x, (au_size x, (au_key_id x, au_rz x))))
    (fun '(a, (b, (c, d))) => Authenticate a b c d)
    (u8c ⊗ u16c ⊗ u32c ⊗ c_raw 25)%codec.
#[export] Instance pb_command_authenticate_c_ok : CodecOK pb_command_authenticate_c.
Proof. solve_struct. Qed.

Record pb_command_verify_part := VerifyPart { vp_uuid : list Z; vp_sha256 : list Z; vp_size : Z; vp_bpak : Z; vp_rz : list Z }.
Definition pb_command_verify_part_c : codec pb_command_verify_part :=
  c_iso (fun x => (vp_uuid x, (vp_sha256 x, (vp_size x, (vp_bpak x, vp_rz x)))))
    (fun '(a, (b, (c, (d, e)))) => VerifyPart a b c d e)
    (c_raw 16 ⊗ c_raw 32 ⊗ u32c ⊗ u8c ⊗ c_raw 2)%codec.
#[export] Instance pb_command_verify_part_c_ok : CodecOK pb_command_verify_part_c.
Proof. solve_struct. Qed.

Record pb_command_activate_part := ActivatePart { ap_uuid : list Z; ap_rz : list Z }.
Definition pb_command_activate_part_c : codec pb_command_activate_part :=
  c_iso (fun x => (ap_uuid x, ap_rz x))
    (fun '(a, b) => ActivatePart a b)
    (c_raw 16 ⊗ c_raw 16)%codec.
#[export] Instance pb_command_activate_part_c_ok : CodecOK pb_command_activate_part_c.
Proof. solve_struct. Qed.

Record pb_command_read_bpak := ReadBpak { rb_uuid : list Z; rb_rz : list Z }.
Definition pb_command_read_bpak_c : codec pb_command_read_bpak :=
  c_iso (fun x => (rb_uuid x, rb_rz x))
    (fun '(a, b) => ReadBpak a b)
    (c_raw 16 ⊗ c_raw 16)%codec.
#[export] Instance pb_command_read_bpak_c_ok : CodecOK pb_command_read_bpak_c.
Proof. solve_struct. Qed.

Record pb_command_erase_part := ErasePart { ep_uuid : list Z; ep_start_lba : Z; ep_block_count : Z; ep_rz : list Z }.
Definition pb_command_erase_part_c : codec pb_command_erase_part :=
  c_iso (fun x => (ep_uuid x, (ep_start_lba x, (ep_block_count x, ep_rz x))))
    (fun '(a, (b, (c, d))) => ErasePart a b c d)
    (c_raw 16 ⊗ u32c ⊗ u32c ⊗ c_raw 8)%codec.
#[export] Instance pb_command_erase_part_c_ok : CodecOK pb_command_erase_part_c.
Proof. solve_struct. Qed.

Record pb_command_install_part_table := InstallPartTable { it_uu : list Z; it_variant : Z }.
Definition pb_command_install_part_table_c : codec pb_command_install_part_table :=
  c_iso (fun x => (it_uu x, it_variant x))
    (fun '(a, b) => InstallPartTable a b)
    (c_raw 16 ⊗ u8c)%codec.
#[export] Instance pb_command_install_part_table_c_ok : CodecOK pb_command_install_part_table_c.
Proof. solve_struct. Qed.

Record pb_result_device_identifier := DeviceIdentifier { di_device_uuid : list Z; di_board_id : list Z; di_rz : list Z }.
Definition pb_result_device_identifier_c : codec pb_result_device_identifier :=
  c_iso (fun x => (di_device_uuid x, (di_board_id x, di_rz x)))
    (fun '(a, (b, c)) => DeviceIdentifier a b c)
    (c_raw 16 ⊗ c_raw 16 ⊗ c_raw 23)%codec.
#[export] Instance pb_result_device_identifier_c_ok : CodecOK pb_result_device_identifier_c.
Proof. solve_struct. Qed.

Record pb_result_slc := ResultSlc { rl_slc : Z; rl_rz : list Z }.
Definition pb_result_slc_c : codec pb_result_slc :=
  c_iso (fun x => (rl_slc x, rl_rz x))
    (fun '(a, b) => ResultSlc a b)
    (u8c ⊗ c_raw 31)%codec.
#[export] Instance pb_result_slc_c_ok : CodecOK pb_result_slc_c.
Proof. solve_struct. Qed.

Record pb_result_slc_key_status := SlcKeyStatus { ks_active : list Z; ks_revoked : list Z }.
Definition pb_result_slc_key_status_c : codec pb_result_slc_key_status :=
  c_iso (fun x => (ks_active x, ks_revoked x))
    (fun '(a, b) => SlcKeyStatus a b)
    (c_array 16 u32c ⊗ c_array 16 u32c)%codec.
#[export] Instance pb_result_slc_key_status_c_ok : CodecOK pb_result_slc_key_status_c.
Proof. solve_struct. Qed.

Record pb_command_revoke_key := RevokeKey { rk_key_id : Z; rk_rz : list Z }.
Definition pb_command_revoke_key_c : codec pb_command_revoke_key :=
  c_iso (fun x => (rk_key_id x, rk_rz x))
    (fun '(a, b) => RevokeKey a b)
    (u32c ⊗ c_raw 28)%codec.
#[export] Instance pb_command_revoke_key_c_ok : CodecOK pb_command_revoke_key_c.
Proof. solve_struct. Qed.

Record pb_command_boot_part := BootPart { bp_uuid : list Z; bp_verbose : Z; bp_rz : list Z }.
Definition pb_command_boot_part_c : codec pb_command_boot_part :=
  c_iso (fun x => (bp_uuid x, (bp_verbose x, bp_rz x)))
    (fun '(a, (b, c)) => BootPart a b c)
    (c_raw 16 ⊗ u8c ⊗ c_raw 15)%codec.
#[export] Instance pb_command_boot_part_c_ok : CodecOK pb_command_boot_part_c.
Proof. solve_struct. Qed.

Record pb_command_bpak_boot := BpakBoot { bb_verbose : Z; bb_uuid : list Z; bb_rz : list Z }.
Definition pb_command_bpak_boot_c : codec pb_command_bpak_boot :=
  c_iso (fun x => (bb_verbose x, (bb_uuid x, bb_rz x)))
    (fun '(a, (b, c)) => BpakBoot a b c)
    (u8c ⊗ c_raw 16 ⊗ c_raw 15)%codec.
#[export] Instance pb_command_bpak_boot_c_ok : CodecOK pb_command_bpak_boot_c.
Proof. solve_struct. Qed.

Record pb_command_board := BoardCommand { bc_command : Z; bc_request_size : Z; bc_response_buffer_size : Z; bc_rz : list Z }.
Definition pb_command_board_c : codec pb_command_board :=
  c_iso (fun x => (bc_command x, (bc_request_size x, (bc_response_buffer_size x, bc_rz x))))
    (fun '(a, (b, (c, d))) => BoardCommand a b c d)
    (u32c ⊗ u32c ⊗ u32c ⊗ c_raw 20)%codec.
#[export] Instance pb_command_board_c_ok : CodecOK pb_command_board_c.
Proof. solve_struct. Qed.

Record pb_result_board := ResultBoard { rbd_size : Z; rbd_rz : list Z }.
Definition pb_result_board_c : codec pb_result_board :=
  c_iso (fun x => (rbd_size x, rbd_rz x))
    (fun '(a, b) => ResultBoard a b)
    (u32c ⊗ c_raw 28)%codec.
#[export] Instance pb_result_board_c_ok : CodecOK pb_result_board_c.
Proof. solve_struct. Qed.

Record pb_result_board_status := ResultBoardStatus { rbs_size : Z; rbs_rz : list Z }.
Definition pb_result_board_status_c : codec pb_result_board_status :=
  c_iso (fun x => (rbs_size x, rbs_rz x))
    (fun '(a, b) => ResultBoardStatus a b)
    (u32c ⊗ c_raw 28)%codec.
#[export] Instance pb_result_board_status_c_ok : CodecOK pb_result_board_status_c.
Proof. solve_struct. Qed.

Record pb_result_boot_status := ResultBootStatus { rbt_uuid : list Z; rbt_status : list Z }.
Definition pb_result_boot_status_c : codec pb_result_boot_status :=
  c_iso (fun x => (rbt_uuid x, rbt_status x))
    (fun '(a, b) => ResultBootStatus a b)
    (c_raw 16 ⊗ c_raw 16)%codec.
#[export] Instance pb_result_boot_status_c_ok : CodecOK pb_result_boot_status_c.
Proof. solve_struct. Qed.


(** ** Operations

    The structure pointed to is passed in and returned; the [memset] leaves
    nothing of the old contents. *)

Definition pb_wire_valid_result (result : pb_result) : bool := rs_magic result =? PB_WIRE_MAGIC.

Definition pb_wire_init_result (result_code : Z) : pb_result :=
  Result PB_WIRE_MAGIC (s8 (u8 result_code)) (zeros 3) (zeros 504).

(** [data] is the [size] bytes at the pointer. *)
Definition pb_wire_init_result2 (result_code : Z) (data : list Z) : Z * pb_result :=
  let r := pb_wire_init_result result_code in
  if PB_RESULT_RESPONSE_MAX_SIZE <? Z.of_nat (length data) then (- PB_RESULT_NO_MEMORY, r)
  else (PB_RESULT_OK, Result (rs_magic r) (rs_code r) (rs_rz r) (splice 0 data (rs_response r))).

Definition pb_wire_init_command (command_code : Z) : pb_command :=
  Command PB_WIRE_MAGIC (u8 command_code) (zeros 3) (zeros 504).

Definition pb_wire_init_command2 (command_code : Z) (data : list Z) : Z * pb_command :=
  let c := pb_wire_init_command command_code in
  if PB_COMMAND_REQUEST_MAX_SIZE <? Z.of_nat (length data) then (- PB_RESULT_NO_MEMORY, c)
  else (PB_RESULT_OK, Command (cm_magic c) (cm_command c) (cm_rz c) (splice 0 data (cm_request c))).

Definition pb_wire_requires_auth (command : pb_command) : bool :=
  if cm_command command =? PB_CMD_DEVICE_IDENTIFIER_READ then false
  else if cm_command command =? PB_CMD_AUTHENTICATE then false
  else true.

Definition pb_wire_valid_command (command : pb_command) : bool :=
  if negb (cm_magic command =? PB_WIRE_MAGIC) then false
  else (PB_CMD_INVALID <? cm_command command) && (cm_command command <? PB_CMD_END).

(** A request or response structure read through a pointer cast. *)
Definition request_as {T} (c : codec T) (command : pb_command) : T := decode c (cm_request command).
Definition response_as {T} (c : codec T) (result : pb_result) : T := decode c (rs_response result).

(** ** Lemmas *)

Lemma splice_front (data l : list Z) : splice 0 data l = data ++ drop (length data) l.
Proof. by unfold splice. Qed.

Lemma zeros_payload n (data : list Z) :
  (length data <= n)%nat -> bytes data -> length (splice 0 data (zeros n)) = n /\ bytes (splice 0 data (zeros n)).
Proof.
  intros Hl Hb. split; [|by auto with pb].
  unfold zeros. by rewrite length_splice, length_replicate by (rewrite ?length_replicate; lia).
Qed.

Lemma decode_front {T} (c : codec T) `{!CodecOK c} x l : cwf c x -> decode c (splice 0 (cenc c x) l) = x.
Proof. intros Hw. unfold decode. by rewrite splice_front, cdec_cenc. Qed.

Lemma wire_command_cwf command_code rest :
  length rest = 504%nat -> bytes rest ->
  cwf pb_command_c (Command PB_WIRE_MAGIC (u8 command_code) (zeros 3) rest).
Proof.
  intros Hl Hb. unfold pb_command_c. cbn [cwf c_iso c_pair c_raw c_uint fst snd cm_magic cm_command cm_rz cm_request].
  pose proof (Z.mod_pos_bound command_code (2 ^ 8) ltac:(lia)).
  unfold PB_WIRE_MAGIC, u8. split_and!; try done; try lia; auto with pb.
Qed.

Lemma wire_result_cwf result_code rest :
  length rest = 504%nat -> bytes rest ->
  cwf pb_result_c (Result PB_WIRE_MAGIC (s8 (u8 result_code)) (zeros 3) rest).
Proof.
  intros Hl Hb. unfold pb_result_c. cbn [cwf c_iso c_pair c_raw c_uint c_int8 fst snd rs_magic rs_code rs_rz rs_response].
  unfold s8. pose proof (Z.mod_pos_bound (u8 result_code + 2 ^ 7) (2 ^ 8) ltac:(lia)).
  unfold PB_WIRE_MAGIC. split_and!; try done; try lia; auto with pb.
Qed.

(** What a receiver makes of the 512 bytes a sender transmits. *)
Definition received {T} (c : codec T) (x : T) : T := decode c (cenc c x).

(** ** Properties *)

(** A command survives the wire: a host that builds a command with a code
    of the protocol and a request structure of at most 504 bytes succeeds, and
    the device that receives its 512 bytes sees a valid command with that code
    whose request reads back as the same structure.  Larger requests are
    refused with [-PB_RESULT_NO_MEMORY] and an empty request. *)
Theorem wire_command_roundtrip {T} (c : codec T) (ok : CodecOK c) (code : Z) (x : T) :
  cwf c x -> PB_CMD_INVALID < code < PB_CMD_END ->
  let '(rc, command) := pb_wire_init_command2 code (cenc c x) in
  let got := received pb_command_c command in
  pb_wire_valid_command got = true /\ cm_command got = code /\
  (sizeof c <= PB_COMMAND_REQUEST_MAX_SIZE -> rc = PB_RESULT_OK /\ request_as c got = x) /\
  (PB_COMMAND_REQUEST_MAX_SIZE < sizeof c -> rc = - PB_RESULT_NO_MEMORY /\ cm_request got = zeros 504).
Proof.
  intros Hw Hc. unfold pb_wire_init_command2, pb_wire_init_command, sizeof, received, request_as,
    PB_COMMAND_REQUEST_MAX_SIZE, PB_CMD_INVALID, PB_CMD_END in *.
  cbn [cm_magic cm_command cm_rz cm_request].
  pose proof (cenc_length x Hw) as Hl. pose proof (cenc_bytes x Hw) as Hb.
  assert (Hu : u8 code = code) by (apply Z.mod_small; lia).
  assert (Hv : forall r, pb_wire_valid_command (Command PB_WIRE_MAGIC (u8 code) (zeros 3) r) = true).
  { intros r. unfold pb_wire_valid_command, PB_CMD_INVALID, PB_CMD_END. simpl. rewrite Hu. lia. }
  destruct (Z.ltb_spec 504 (Z.of_nat (length (cenc c x)))) as [E|E].
  - rewrite (decode_cenc pb_command_c) by (apply wire_command_cwf; [done | by auto with pb]).
    rewrite Hv. split_and!; try done. lia.
  - destruct (zeros_payload 504 (cenc c x) ltac:(lia) Hb).
    rewrite (decode_cenc pb_command_c) by (by apply wire_command_cwf).
    rewrite Hv. cbn [cm_command cm_request]. split_and!; try done; [|lia].
    intros _. split; [done|]. by apply decode_front.
Qed.

(** A result survives the wire, negative codes included: the [uint8_t]
    cast in [pb_wire_init_result] and the [int8_t] field bring every code in
    the [int8_t] range back with its sign, and a response structure of at most
    504 bytes reads back as it was. *)
Theorem wire_result_roundtrip {T} (c : codec T) (ok : CodecOK c) (code : Z) (x : T) :
  cwf c x -> sizeof c <= PB_RESULT_RESPONSE_MAX_SIZE -> - 2 ^ 7 <= code < 2 ^ 7 ->
  let '(rc, result) := pb_wire_init_result2 code (cenc c x) in
  let got := received pb_result_c result in
  rc = PB_RESULT_OK /\ pb_wire_valid_result got = true /\ rs_code got = code /\ response_as c got = x.
Proof.
  intros Hw Hs Hc. unfold pb_wire_init_result2, pb_wire_init_result, sizeof, received, response_as,
    PB_RESULT_RESPONSE_MAX_SIZE in *. cbn [rs_magic rs_code rs_rz rs_response].
  pose proof (cenc_length x Hw) as Hl. pose proof (cenc_bytes x Hw) as Hb.
  destruct (Z.ltb_spec 504 (Z.of_nat (length (cenc c x)))) as [E|E]; [lia|].
  destruct (zeros_payload 504 (cenc c x) ltac:(lia) Hb).
  rewrite (decode_cenc pb_result_c) by (by apply wire_result_cwf).
  cbn [rs_code rs_response]. split_and!; try done; [by apply s8_u8 | by apply decode_front].
Qed.

(** ** Witnesses *)

Lemma wire_command_roundtrip_witness :
  let x := StreamWrite 4096 0x100000000 1 (zeros 19) in
  let '(rc, command) := pb_wire_init_command2 PB_CMD_STREAM_WRITE_BUFFER (cenc pb_command_stream_write_buffer_c x) in
  rc = PB_RESULT_OK /\
  request_as pb_command_stream_write_buffer_c (received pb_command_c command) = x.
Proof.
  assert (Hw : cwf pb_command_stream_write_buffer_c (StreamWrite 4096 0x100000000 1 (zeros 19))).
  { hnf. cbn -[zeros]. split_and!; try done; apply bytes_zeros. }
  exact (proj1 (proj2 (proj2 (wire_command_roundtrip pb_command_stream_write_buffer_c _
    PB_CMD_STREAM_WRITE_BUFFER (StreamWrite 4096 0x100000000 1 (zeros 19)) Hw
    (conj eq_refl eq_refl)))) ltac:(done)).
Defined.

Lemma wire_result_roundtrip_witness :
  let x := ResultSlc PB_SLC_EOL (zeros 31) in
  let '(rc, result) := pb_wire_init_result2 (- PB_RESULT_IO_ERROR) (cenc pb_result_slc_c x) in
  rc = PB_RESULT_OK /\ rs_code (received pb_result_c result) = - PB_RESULT_IO_ERROR.
Proof.
  assert (Hw : cwf pb_result_slc_c (ResultSlc PB_SLC_EOL (zeros 31))).
  { hnf. cbn -[zeros]. split_and!; try done; apply bytes_zeros. }
  destruct (wire_result_roundtrip pb_result_slc_c _ (- PB_RESULT_IO_ERROR)
    (ResultSlc PB_SLC_EOL (zeros 31)) Hw ltac:(done) ltac:(done)) as (H1 & _ & H2 & _).
  exact (conj H1 H2).
Defined.
