(* ===== verification/Cm.v ===== *)
(** * Command mode

    [src/cm/cm_main.c]: the protocol handler behind which a host reads,
    writes, verifies and boots partitions, changes the life cycle and revokes
    keys.  Its static variables, the life cycle state, the cached device
    identity and the hardware behind transport and board callbacks make up the
    [r_other] of the boot world.  The two transfer buffers lie in the RAM of
    the image world, at [cm_buffer]. *)

From S2P Require Import Prelude Errors Ram Uuid UuidText Bio BlockIface Bpak Crypto DeviceUuid Rot Image.
From S2P Require Import Boot Delay Wire.
Local Open Scope c_scope.

(** ** Data *)

(** The static variables. *)
Record cm_vars := CmVars {
  cmd : pb_command;
  result : pb_result;
  authenticated : bool;
  slc : Z;
  hash : list Z;
  device_uu : uuid_t;
  block_dev : bio_dev_t;
  reboot_requested : bool;
  cm_cfg : fptr
}.

Record cm_rest (HS D : Type) := CmRest {
  c_vars : cm_vars;
  c_slc : slc_state HS;
  c_du : device_uuid_vars;
  c_hw : D
}.
Arguments CmRest {HS D}.
Arguments c_vars {HS D}.
Arguments c_slc {HS D}.
Arguments c_du {HS D}.
Arguments c_hw {HS D}.

(** [struct cm_transport_ops].  [t_read] and [t_write] start a transfer;
    [t_complete] polls it and reports, with its return code, the bytes that it
    stored at the front of the buffer of a pending read. *)
Record cm_transport_ops (W : Type) := TransportOps {
  t_init : option (M W Z);
  t_connect : option (M W Z);
  t_disconnect : option (M W Z);
  t_read : Z -> M W Z;
  t_write : list Z -> M W Z;
  t_complete : M W (Z * list Z)
}.
Arguments TransportOps {W}.
Arguments t_init {W}.
Arguments t_connect {W}.
Arguments t_disconnect {W}.
Arguments t_read {W}.
Arguments t_write {W}.
Arguments t_complete {W}.

(** [struct cm_config].  Buffers are addresses; [status] and [command] return
    the new value of the size they are given by reference. *)
Record cm_config (W : Type) := CmConfig {
  cfg_name : list Z;
  cfg_status : Z -> Z -> M W (Z * Z);
  cfg_password_auth : option (Z -> Z -> M W Z);
  cfg_command : Z -> Z -> Z -> Z -> Z -> M W (Z * Z);
  cfg_process : option (M W unit);
  tops : cm_transport_ops W
}.
Arguments CmConfig {W}.
Arguments cfg_name {W}.
Arguments cfg_status {W}.
Arguments cfg_password_auth {W}.
Arguments cfg_command {W}.
Arguments cfg_process {W}.
Arguments tops {W}.

Definition set_cmd (x : pb_command) (v : cm_vars) : cm_vars :=
  CmVars x (result v) (authenticated v) (slc v) (hash v) (device_uu v) (block_dev v) (reboot_requested v) (cm_cfg v).
Definition set_result (x : pb_result) (v : cm_vars) : cm_vars :=
  CmVars (cmd v) x (authenticated v) (slc v) (hash v) (device_uu v) (block_dev v) (reboot_requested v) (cm_cfg v).
Definition set_authenticated (x : bool) (v : cm_vars) : cm_vars :=
  CmVars (cmd v) (result v) x (slc v) (hash v) (device_uu v) (block_dev v) (reboot_requested v) (cm_cfg v).
Definition set_slc (x : Z) (v : cm_vars) : cm_vars :=
  CmVars (cmd v) (result v) (authenticated v) x (hash v) (device_uu v) (block_dev v) (reboot_requested v) (cm_cfg v).
Definition set_hash (x : list Z) (v : cm_vars) : cm_vars :=
  CmVars (cmd v) (result v) (authenticated v) (slc v) x (device_uu v) (block_dev v) (reboot_requested v) (cm_cfg v).
Definition set_device_uu (x : uuid_t) (v : cm_vars) : cm_vars :=
  CmVars (cmd v) (result v) (authenticated v) (slc v) (hash v) x (block_dev v) (reboot_requested v) (cm_cfg v).
Definition set_block_dev (x : bio_dev_t) (v : cm_vars) : cm_vars :=
  CmVars (cmd v) (result v) (authenticated v) (slc v) (hash v) (device_uu v) x (reboot_requested v) (cm_cfg v).
Definition set_reboot (x : bool) (v : cm_vars) : cm_vars :=
  CmVars (cmd v) (result v) (authenticated v) (slc v) (hash v) (device_uu v) (block_dev v) x (cm_cfg v).
Definition set_cm_cfg (x : fptr) (v : cm_vars) : cm_vars :=
  CmVars (cmd v) (result v) (authenticated v) (slc v) (hash v) (device_uu v) (block_dev v) (reboot_requested v) x.

Definition error_to_wire (error_code : Z) : Z :=
  if error_code =? PB_OK then PB_RESULT_OK
  else if error_code =? - PB_ERR then - PB_RESULT_ERROR
  else if error_code =? - PB_ERR_TIMEOUT then - PB_RESULT_TIMEOUT
  else if error_code =? - PB_ERR_KEY_REVOKED then - PB_RESULT_KEY_REVOKED
  else if error_code =? - PB_ERR_SIGNATURE then - PB_RESULT_SIGNATURE_ERROR
  else if error_code =? - PB_ERR_CHECKSUM then - PB_RESULT_ERROR
  else if error_code =? - PB_ERR_MEM then - PB_RESULT_MEM_ERROR
  else if error_code =? - PB_ERR_IO then - PB_RESULT_IO_ERROR
  else if error_code =? - PB_ERR_NOT_FOUND then - PB_RESULT_NOT_FOUND
  else if error_code =? - PB_ERR_NOT_AUTHENTICATED then - PB_RESULT_NOT_AUTHENTICATED
  else if error_code =? - PB_ERR_AUTHENTICATION_FAILED then - PB_RESULT_AUTHENTICATION_FAILED
  else if error_code =? - PB_ERR_INVALID_ARGUMENT then - PB_RESULT_INVALID_ARGUMENT
  else if error_code =? - PB_ERR_INVALID_COMMAND then - PB_RESULT_INVALID_COMMAND
  else if error_code =? - PB_ERR_PART_NOT_FOUND then - PB_RESULT_NOT_FOUND
  else if error_code =? - PB_ERR_PART_NOT_BOOTABLE then - PB_RESULT_PART_NOT_BOOTABLE
  else if error_code =? - PB_ERR_PARAM then - PB_RESULT_INVALID_ARGUMENT
  else if error_code =? - PB_ERR_NOT_SUPPORTED then - PB_RESULT_NOT_SUPPORTED
  else - PB_RESULT_ERROR.

(** The pointers to [bpak_boot_read_f] and [bpak_boot_result_f]. *)
Definition BPAK_BOOT_READ_F : fptr := 1.
Definition BPAK_BOOT_RESULT_F : fptr := 1.

(** How a [case] of the command switch ends: with a [return] from the
    function, or with [break]. *)
Inductive outcome := Return (rc : Z) | Break (rc : Z).

(** The world of command mode. *)
Abbreviation cm_world HC HR HS B D := (img_world HC HR (boot_rest B (cm_rest HS D))).

(** What surrounds the module: the bundled key store, the contents of an
    uninitialised digest buffer, the code behind the pointers the modules
    store, the address of [buffer], the version string of the build, what a
    call through a NULL life cycle callback does, the platform's functions,
    and the number of times a transfer is polled.  A transport that needs more
    polls than that does not complete: the C code would still be polling where
    the model returns [-PB_ERR_AGAIN]. *)
Class CmEnv (HC HR HS B D : Type) := {
  cm_keystore : list bpak_key;
  cm_digest0 : list Z;
  cm_drivers : fptr -> boot_driver (cm_world HC HR HS B D);
  other_read_cbs : fptr -> Z -> Z -> M (cm_world HC HR HS B D) (Z * list Z);
  other_result_cbs : fptr -> Z -> M (cm_world HC HR HS B D) Z;
  configs : fptr -> cm_config (cm_world HC HR HS B D);
  cm_buffer : Z;
  PB_VERSION : list Z;
  null_call : M HS Z;
  poll_fuel : nat;
  cm_board_init : M (cm_world HC HR HS B D) Z;
  plat_get_us_tick : M (cm_world HC HR HS B D) Z;
  plat_wdog_kick : M (cm_world HC HR HS B D) unit;
  plat_get_unique_id : M (cm_world HC HR HS B D) (Z * list Z);
  platform_ns_uuid : list Z;
  CONFIG_CM_TRANSPORT_READY_TIMEOUT : Z
}.

Section cm.
Context {arch : Arch} {kc : Kconfig} {lay : Layout} {HC HR HS B D : Type} {cd : CryptoDriver HC}
  `{!BlockOps B, !InstallOps B, !CmEnv HC HR HS B D}.
Abbreviation W := (cm_world HC HR HS B D).
Abbreviation I := (M W).

(** ** Access to the state *)

Definition cmv (w : W) : cm_vars := c_vars (r_other (i_rest w)).
Definition cmslc (w : W) : slc_state HS := c_slc (r_other (i_rest w)).

Definition with_other (y : cm_rest HS D) (w : W) : W :=
  with_rest (BootRest (r_blk (i_rest w)) (r_boot (i_rest w)) y) w.
Definition mod_cm (f : cm_vars -> cm_vars) : I unit :=
  modify (fun w => let y := r_other (i_rest w) in
    with_other (CmRest (f (c_vars y)) (c_slc y) (c_du y) (c_hw y)) w).
Definition on_slc {A} (m : M (slc_state HS) A) : I A :=
  fun w => let y := r_other (i_rest w) in let '(a, s) := m (c_slc y) in
    (a, with_other (CmRest (c_vars y) s (c_du y) (c_hw y)) w).

#[export] Instance cm_has_crypto : Has (crypto_state HC) W := {|
  proj := i_cry;
  upd s w := ImgWorld s (i_rot w) (i_ram w) (i_signature w) (i_rest w)
|}.
#[export] Instance cm_has_device_uuid : Has device_uuid_vars W := {|
  proj w := c_du (r_other (i_rest w));
  upd s w := let y := r_other (i_rest w) in with_other (CmRest (c_vars y) (c_slc y) s (c_hw y)) w
|}.

Definition with_cfg {A} (f : cm_config W -> I A) : I A := w <- get ;; f (configs (cm_cfg (cmv w))).
Definition gets_cm {A} (f : cm_vars -> A) : I A := gets (fun w => f (cmv w)).

(** The size of one transfer buffer and the address of [buffer[id]]. *)
Definition BUF_SIZE : Z := CONFIG_CM_BUF_SIZE_KiB * 1024.
Definition buffer_at (id : Z) : Z := usz (cm_buffer + BUF_SIZE * id).

Definition ram_put (addr : Z) (bs : list Z) : I unit :=
  w <- get ;; set_ram (ram_write addr bs (i_ram w)).
Definition ram_get (addr len : Z) : I (list Z) := gets (fun w => ram_read (i_ram w) addr (Z.to_nat len)).

(** [bio_read] into memory; [bio_write] from memory. *)
Definition bio_read_to (dev : bio_dev_t) (lba len addr : Z) : I Z :=
  let* (rc, data) := on_blk (blk_read dev lba len) in ram_put addr data ;;; ret rc.
Definition bio_write_from (dev : bio_dev_t) (lba len addr : Z) : I Z :=
  data <- ram_get addr len ;; on_blk (blk_write dev lba len data).

Definition init_result (code : Z) : I unit := mod_cm (set_result (pb_wire_init_result code)).
Definition init_result2 (code : Z) (data : list Z) : I unit :=
  mod_cm (set_result (snd (pb_wire_init_result2 code data))).

(** ** Transport *)

(** [do { rc = cfg->tops.complete(); } while (rc == -PB_ERR_AGAIN);] with the
    bytes received so far. *)
Fixpoint complete_loop (fuel : nat) (received : list Z) : I (Z * list Z) :=
  match fuel with
  | O => ret (- PB_ERR_AGAIN, received)
  | S fuel =>
      let* (rc, data) := with_cfg (fun c => t_complete (tops c)) in
      let received := splice 0 data received in
      if rc =? - PB_ERR_AGAIN then complete_loop fuel received else ret (rc, received)
  end.

Definition cm_write (buf : list Z) : I Z :=
  rc <- with_cfg (fun c => t_write (tops c) buf) ;;
  if negb (rc =? PB_OK) then ret rc else
  let* (rc, _) := complete_loop poll_fuel [] in ret rc.

(** The return code and the bytes stored at the start of the buffer. *)
Definition cm_read_bytes (length : Z) : I (Z * list Z) :=
  rc <- with_cfg (fun c => t_read (tops c) length) ;;
  if negb (rc =? PB_OK) then ret (rc, []) else complete_loop poll_fuel [].

Definition cm_read (addr length : Z) : I Z :=
  let* (rc, data) := cm_read_bytes length in ram_put addr data ;;; ret rc.

Definition send_result : I Z := r <- gets_cm result ;; cm_write (cenc pb_result_c r).

Definition cm_board_cmd_request_reboot_on_success : I unit := mod_cm (set_reboot true).

(** ** Authentication *)

Definition hash_of_dsa (dsa_kind : Z) : option Z :=
  if dsa_kind =? DSA_EC_SECP256r1 then Some HASH_SHA256
  else if dsa_kind =? DSA_EC_SECP384r1 then Some HASH_SHA384
  else if dsa_kind =? DSA_EC_SECP521r1 then Some HASH_SHA512
  else None.

(** The signature is the [size] bytes at [sig]. *)
Definition auth_token (key_id sig size : Z) : I Z :=
  on_rot (rot_read_key_status key_id) ;;?
  let* (rc, key) := on_rot (rot_get_dsa_key cm_keystore key_id) in
  if negb (rc =? PB_OK) then ret rc else
  let '(dsa_kind, key_der_data) := default (0, []) key in
  uu <- gets_cm device_uu ;;
  let device_uu_str := default [] (uuid_unparse uu) in
  match hash_of_dsa dsa_kind with
  | None => ret (- PB_ERR_NOT_SUPPORTED)
  | Some hash_kind =>
      on_cry (hash_init hash_kind) ;;?
      on_cry (hash_update (take 36 device_uu_str)) ;;?
      let* (rc, d) := on_cry (hash_final 64) in
      mod_cm (fun v => set_hash (splice 0 d (hash v)) v) ;;;
      if negb (rc =? PB_OK) then ret rc else
      md <- gets_cm hash ;;
      sg <- ram_get sig size ;;
      let* (rc, v) := on_cry (dsa_verify dsa_kind sg key_der_data hash_kind md) in
      let verified := default false v in
      if (rc =? 0) && verified then ret PB_OK else ret (- PB_ERR_AUTHENTICATION_FAILED)
  end.

Definition request {T} (c : codec T) : I T := gets_cm (fun v => request_as c (cmd v)).

(** [if (rc == PB_OK) authenticated = true; else authenticated = false;] *)
Definition record_auth (rc : Z) : I unit := mod_cm (set_authenticated (rc =? PB_OK)).

(** What both methods do: acknowledge the command, receive the credentials
    into the first buffer, check them and record the outcome. *)
Definition auth_exchange (check : I Z) : I Z :=
  init_result PB_RESULT_OK ;;;
  send_result ;;;
  cm_read (buffer_at 0) 1024 ;;;
  rc <- check ;;
  record_auth rc ;;;
  init_result (error_to_wire rc) ;;;
  ret rc.

Definition cmd_auth : I Z :=
  let rc := - PB_ERR_NOT_IMPLEMENTED in
  auth_cmd <- request pb_command_authenticate_c ;;
  init_result (- PB_RESULT_NOT_SUPPORTED) ;;;
  rc <- (if CONFIG_CM_AUTH_TOKEN && (au_method auth_cmd =? PB_AUTH_ASYM_TOKEN)
         then auth_exchange (auth_token (au_key_id auth_cmd) (buffer_at 0) (au_size auth_cmd))
         else ret rc) ;;
  password_auth <- with_cfg (fun c => ret (cfg_password_auth c)) ;;
  match password_auth with
  | Some f =>
      if CONFIG_CM_AUTH_PASSWORD && (au_method auth_cmd =? PB_AUTH_PASSWORD)
      then auth_exchange (f (buffer_at 0) (au_size auth_cmd))
      else ret rc
  | None => ret rc
  end.

(** ** Partition and stream commands *)

Definition cmd_board : I Z :=
  board_cmd <- request pb_command_board_c ;;
  init_result PB_RESULT_OK ;;;
  send_result ;;;
  rc <- (if negb (bc_request_size board_cmd =? 0) then cm_read (buffer_at 0) 1024 else ret PB_OK) ;;
  if negb (rc =? PB_OK) then (init_result (error_to_wire rc) ;;; ret rc) else
  let* (rc, response_size) := with_cfg (fun c => cfg_command c (bc_command board_cmd) (buffer_at 0)
                                (bc_request_size board_cmd) (buffer_at 1) BUF_SIZE) in
  init_result2 (error_to_wire rc) (cenc pb_result_board_c (ResultBoard (u32 response_size) (zeros 28))) ;;;
  (if negb (response_size =? 0) then
     send_result ;;;
     rsp <- ram_get (buffer_at 1) response_size ;;
     cm_write rsp ;;;
     ret tt
   else ret tt) ;;;
  ret rc.

(** The block of the header at the end of a partition. *)
Definition header_lba_of (dev : bio_dev_t) : I Z :=
  nb <- on_blk (blk_no_of_blocks dev) ;;
  bs <- on_blk (blk_block_size dev) ;;
  ret (u32 (nb - sizeof bpak_header_c / usz bs)).

Definition cmd_bpak_read : I Z :=
  read_cmd <- request pb_command_read_bpak_c ;;
  dev <- on_blk (blk_find (Some (rb_uuid read_cmd))) ;;
  if dev <? 0 then (init_result (error_to_wire dev) ;;; ret dev) else
  header_lba <- header_lba_of dev ;;
  rc <- bio_read_to dev header_lba (sizeof bpak_header_c) cm_buffer ;;
  if negb (rc =? PB_OK) then (init_result (error_to_wire rc) ;;; ret rc) else
  hdr <- ram_get cm_buffer (sizeof bpak_header_c) ;;
  let rc := bpak_valid_header (decode bpak_header_c hdr) in
  if negb (rc =? BPAK_OK) then (init_result (- PB_RESULT_NOT_FOUND) ;;; ret rc) else
  init_result (error_to_wire rc) ;;;
  send_result ;;;
  hdr <- ram_get cm_buffer (sizeof bpak_header_c) ;;
  rc <- cm_write hdr ;;
  init_result (error_to_wire rc) ;;;
  ret rc.

Definition cmd_stream_read : I Z :=
  stream_read <- request pb_command_stream_read_buffer_c ;;
  dev <- gets_cm block_dev ;;
  fl <- on_blk (blk_get_flags dev) ;;
  if Z.land fl BIO_FLAG_READABLE =? 0
  then (init_result (- PB_RESULT_IO_ERROR) ;;; ret (- PB_ERR_IO)) else
  bs <- on_blk (blk_block_size dev) ;;
  let start_lba := usz (sr_offset stream_read / u64 bs) in
  let bfr := buffer_at (sr_buffer_id stream_read) in
  rc <- bio_read_to dev (u32 start_lba) (sr_size stream_read) bfr ;;
  init_result (error_to_wire rc) ;;;
  send_result ;;;
  if rc =? PB_OK then
    data <- ram_get bfr (sr_size stream_read) ;;
    rc <- cm_write data ;;
    init_result (error_to_wire rc) ;;;
    ret rc
  else ret rc.

Definition cmd_stream_write : I Z :=
  stream_write <- request pb_command_stream_write_buffer_c ;;
  dev <- gets_cm block_dev ;;
  fl <- on_blk (blk_get_flags dev) ;;
  if Z.land fl BIO_FLAG_WRITABLE =? 0
  then (init_result (error_to_wire (- PB_ERR_IO)) ;;; ret (- PB_ERR_IO)) else
  bs <- on_blk (blk_block_size dev) ;;
  let start_lba := usz (sw_offset stream_write / u64 bs) in
  let bfr := buffer_at (sw_buffer_id stream_write) in
  rc <- bio_write_from dev (u32 start_lba) (sw_size stream_write) bfr ;;
  init_result (error_to_wire rc) ;;;
  ret rc.

(** The [while (bytes_to_verify)] loop: each iteration verifies a full buffer
    or the rest. *)
Fixpoint verify_loop (fuel : nat) (bytes_to_verify lba_offset buffer_id rc : Z) : I Z :=
  match fuel with
  | O => ret rc
  | S fuel =>
      if bytes_to_verify =? 0 then ret rc else
      let chunk_len := if BUF_SIZE <? bytes_to_verify then BUF_SIZE else bytes_to_verify in
      let buffer_id := if buffer_id =? 0 then 1 else 0 in
      dev <- gets_cm block_dev ;;
      rc <- bio_read_to dev (u32 lba_offset) chunk_len (buffer_at buffer_id) ;;
      if negb (rc =? PB_OK) then (init_result (- PB_RESULT_PART_VERIFY_FAILED) ;;; ret rc) else
      data <- ram_get (buffer_at buffer_id) chunk_len ;;
      rc <- on_cry (hash_update_async data) ;;
      if negb (rc =? PB_OK) then (init_result (error_to_wire rc) ;;; ret rc) else
      bs <- on_blk (blk_block_size dev) ;;
      verify_loop fuel (bytes_to_verify - chunk_len) (s32 (lba_offset + chunk_len / usz bs)) buffer_id rc
  end.

Definition verify_fuel (bytes : Z) : nat := Z.to_nat (bytes / BUF_SIZE + 1).

(** The [if (verify_cmd->bpak)] block. *)
Definition verify_header : I Z :=
  dev <- gets_cm block_dev ;;
  header_lba <- header_lba_of dev ;;
  rc <- bio_read_to dev header_lba (sizeof bpak_header_c) (buffer_at 0) ;;
  if negb (rc =? PB_OK) then (init_result (error_to_wire rc) ;;; ret rc) else
  data <- ram_get (buffer_at 0) (sizeof bpak_header_c) ;;
  rc <- on_cry (hash_update_async data) ;;
  if negb (rc =? PB_OK) then (init_result (- PB_RESULT_PART_VERIFY_FAILED) ;;; ret rc) else ret PB_OK.

(** Comparing the digest once all data is hashed. *)
Definition verify_digest (sha256 : list Z) : I Z :=
  let* (rc, d) := on_cry (hash_final 64) in
  mod_cm (fun v => set_hash (splice 0 d (hash v)) v) ;;;
  if negb (rc =? PB_OK) then (init_result (error_to_wire rc) ;;; ret rc) else
  h <- gets_cm hash ;;
  if memcmp h sha256 32 =? 0 then (init_result (error_to_wire PB_OK) ;;; ret PB_OK)
  else (init_result (- PB_RESULT_PART_VERIFY_FAILED) ;;; ret PB_ERR_CHECKSUM).

Definition cmd_part_verify : I Z :=
  verify_cmd <- request pb_command_verify_part_c ;;
  dev <- on_blk (blk_find (Some (vp_uuid verify_cmd))) ;;
  mod_cm (set_block_dev dev) ;;;
  if dev <? 0 then (init_result (error_to_wire dev) ;;; ret dev) else
  rc <- on_cry (hash_init HASH_SHA256) ;;
  if negb (rc =? PB_OK) then (init_result (error_to_wire rc) ;;; ret rc) else
  let bpak := negb (vp_bpak verify_cmd =? 0) in
  (if bpak then verify_header else ret PB_OK) ;;?
  let bytes_to_verify :=
    if bpak then usz (vp_size verify_cmd - sizeof bpak_header_c) else vp_size verify_cmd in
  verify_loop (verify_fuel bytes_to_verify) bytes_to_verify 0 0 PB_OK ;;?
  verify_digest (vp_sha256 verify_cmd).

Definition cmd_part_erase (erase_cmd : pb_command_erase_part) : I Z :=
  dev <- on_blk (blk_find (Some (ep_uuid erase_cmd))) ;;
  if dev <? 0 then ret dev else
  on_blk (blk_erase dev (ep_start_lba erase_cmd) (ep_block_count erase_cmd)).

(** Filling in [result_tbl[entries]], at [addr]: byte 36 of the description
    and the reserved bytes are not written. *)
Definition write_table_entry (addr : Z) (dev : bio_dev_t) : I unit :=
  uu <- on_blk (blk_get_uu dev) ;;
  ram_put addr (uuid_copy (default uuid_clear uu)) ;;;
  desc <- on_blk (blk_get_description dev) ;;
  ram_put (addr + 16) (strncpy_z 36 36 (c_string (default [] desc))) ;;;
  first <- on_blk (blk_first_block dev) ;;
  ram_put (addr + 53) (le_bytes 8 (u64 first)) ;;;
  last <- on_blk (blk_last_block dev) ;;
  ram_put (addr + 61) (le_bytes 8 (u64 last)) ;;;
  bs <- on_blk (blk_block_size dev) ;;
  ram_put (addr + 69) (le_bytes 2 (u16 bs)) ;;;
  fl <- on_blk (blk_get_flags dev) ;;
  ram_put (addr + 71) [Z.land fl 0xFF].

(** [for (dev = 0; bio_valid(dev); dev++)]: the pool has
    [CONFIG_BIO_MAX_DEVS] devices.  The result is [entries]. *)
Fixpoint table_loop (fuel : nat) (dev entries : Z) : I Z :=
  match fuel with
  | O => ret entries
  | S fuel =>
      v <- on_blk (blk_valid dev) ;;
      if negb v then ret entries else
      fl <- on_blk (blk_get_flags dev) ;;
      if Z.land fl BIO_FLAG_VISIBLE =? 0 then table_loop fuel (dev + 1) entries else
      write_table_entry (cm_buffer + sizeof pb_result_part_table_entry_c * entries) dev ;;;
      table_loop fuel (dev + 1) (entries + 1)
  end.

Definition cmd_part_tbl_read : I Z :=
  entries <- table_loop (S (Z.to_nat CONFIG_BIO_MAX_DEVS)) 0 0 ;;
  init_result2 PB_RESULT_OK (cenc pb_result_part_table_read_c (PartTableRead (u8 entries) (zeros 31))) ;;;
  send_result ;;;
  (if negb (entries =? 0) then
     tbl <- ram_get cm_buffer (sizeof pb_result_part_table_entry_c * entries) ;;
     cm_write tbl ;;;
     ret tt
   else ret tt) ;;;
  init_result PB_RESULT_OK ;;;
  ret PB_RESULT_OK.

Definition cmd_stream_init : I Z :=
  stream_init <- request pb_command_stream_initialize_c ;;
  dev <- on_blk (blk_find (Some (si_part_uuid stream_init))) ;;
  mod_cm (set_block_dev dev) ;;;
  if dev <? 0 then (init_result (error_to_wire dev) ;;; ret dev)
  else (init_result 0 ;;; ret PB_OK).

Definition cmd_stream_prep_buffer : I Z :=
  stream_prep <- request pb_command_stream_prepare_buffer_c ;;
  if BUF_SIZE <? sp_size stream_prep
  then (init_result (- PB_RESULT_NO_MEMORY) ;;; ret (- PB_ERR_MEM))
  else if 1 <? sp_id stream_prep
  then (init_result (- PB_RESULT_NO_MEMORY) ;;; ret (- PB_ERR_MEM))
  else
    init_result PB_RESULT_OK ;;;
    send_result ;;;
    cm_read (buffer_at (sp_id stream_prep)) (sp_size stream_prep).

Definition cmd_stream_final : I Z := init_result PB_RESULT_OK ;;; ret PB_OK.

(** ** Boot and life cycle commands *)

Definition bpak_boot_read_f (block_offset length : Z) : I (Z * list Z) := cm_read_bytes length.

Definition bpak_boot_result_f (rc : Z) : I Z := init_result (error_to_wire rc) ;;; send_result.

Definition read_cbs (p : fptr) : Z -> Z -> I (Z * list Z) :=
  if p =? BPAK_BOOT_READ_F then bpak_boot_read_f else other_read_cbs p.
Definition result_cbs (p : fptr) : Z -> I Z :=
  if p =? BPAK_BOOT_RESULT_F then bpak_boot_result_f else other_result_cbs p.

Definition boot_load_uu (u : uuid_t) : I Z :=
  boot_load cm_keystore cm_digest0 cm_drivers read_cbs result_cbs (Some u).

Definition disconnect : I unit :=
  with_cfg (fun c => match t_disconnect (tops c) with Some f => f ;;; ret tt | None => ret tt end).

Definition verbose_flags (verbose : Z) : Z :=
  Z.lor BOOT_FLAG_CMD (if verbose =? 0 then 0 else BOOT_FLAG_VERBOSE).

Definition cmd_boot_bpak : I Z :=
  bpak_boot_cmd <- request pb_command_bpak_boot_c ;;
  boot_clear_set_flags 0 (verbose_flags (bb_verbose bpak_boot_cmd)) ;;;
  init_result PB_RESULT_OK ;;;
  send_result ;;?
  boot_set_source BOOT_SOURCE_CB ;;;
  boot_configure_load_cb BPAK_BOOT_READ_F BPAK_BOOT_RESULT_F ;;;
  boot_load_uu (bb_uuid bpak_boot_cmd) ;;?
  disconnect ;;;
  boot_jump cm_drivers.

Definition cmd_boot_part : I Z :=
  boot_cmd <- request pb_command_boot_part_c ;;
  boot_set_source BOOT_SOURCE_BIO ;;;
  boot_clear_set_flags 0 (verbose_flags (bp_verbose boot_cmd)) ;;;
  rc <- boot_load_uu (bp_uuid boot_cmd) ;;
  init_result (error_to_wire rc) ;;;
  send_result ;;;
  disconnect ;;;
  if rc =? PB_OK then boot_jump cm_drivers else ret rc.

(** The loop over the [n] keys of the board; a store outside of the 16-entry
    arrays has no effect on them. *)
Fixpoint key_status_loop (n : nat) (i : Z) (ks : pb_result_slc_key_status) (rc : Z)
    : I (pb_result_slc_key_status * Z) :=
  match n with
  | O => ret (ks, rc)
  | S n =>
      rc <- on_rot (rot_read_key_status_by_idx i) ;;
      key_id <- on_rot (rot_key_idx_to_id i) ;;
      let ks :=
        if rc =? PB_OK then SlcKeyStatus (<[Z.to_nat i := key_id]> (ks_active ks)) (ks_revoked ks)
        else if rc =? - PB_ERR_KEY_REVOKED
        then SlcKeyStatus (ks_active ks) (<[Z.to_nat i := key_id]> (ks_revoked ks))
        else ks in
      key_status_loop n (i + 1) ks rc
  end.

Definition cmd_slc_read : I Z :=
  s <- on_slc slc_read_status ;;
  mod_cm (set_slc s) ;;;
  if s <? 0 then ret s else
  init_result2 (error_to_wire PB_OK) (cenc pb_result_slc_c (ResultSlc (u8 s) (zeros 31))) ;;;
  send_result ;;;
  n <- on_rot rot_no_of_keys ;;
  let* (key_status, rc) := key_status_loop (Z.to_nat n) 0 (SlcKeyStatus (zeros 16) (zeros 16)) PB_OK in
  cm_write (cenc pb_result_slc_key_status_c key_status) ;;;
  init_result (error_to_wire PB_OK) ;;;
  ret rc.

(** A life cycle transition, after which the cached state is read again. *)
Definition slc_transition (m : M (slc_state HS) Z) : I Z :=
  rc <- on_slc m ;;
  init_result (error_to_wire rc) ;;;
  s <- on_slc slc_read_status ;;
  mod_cm (set_slc s) ;;;
  ret rc.

(** [struct pb_result_device_identifier] is built in the buffer; its reserved
    bytes are whatever the buffer held. *)
Definition cmd_identifier_read : I Z :=
  name <- with_cfg (fun c => ret (cfg_name c)) ;;
  uu <- gets_cm device_uu ;;
  ram_put (cm_buffer + 16) (zeros 16) ;;;
  ram_put (cm_buffer + 16) name ;;;
  ram_put cm_buffer (take 16 uu) ;;;
  ident <- ram_get cm_buffer (sizeof pb_result_device_identifier_c) ;;
  init_result2 (error_to_wire PB_OK) ident ;;;
  ret PB_OK.

Definition cmd_status_read : I Z :=
  let* (rc, response_size) := with_cfg (fun c => cfg_status c (buffer_at 0) BUF_SIZE) in
  init_result2 (error_to_wire rc)
    (cenc pb_result_board_status_c (ResultBoardStatus (u32 response_size) (zeros 28))) ;;;
  send_result ;;;
  rsp <- ram_get (buffer_at 0) response_size ;;
  cm_write rsp ;;;
  ret rc.

(** [snprintf(version_string, 30, "%s", PB_VERSION)] *)
Definition version_string : list Z :=
  c_string (default [] (fst <$> snprintf 30 [37; 115] [ArgStr PB_VERSION])).

Definition device_caps : pb_result_device_caps :=
  DeviceCaps 2 (u32 BUF_SIZE) 0 0 0 (u32 BUF_SIZE) (zeros 18).

(** ** The command loop *)

Definition break (m : I Z) : I outcome := rc <- m ;; ret (Break rc).
Definition return_ (m : I Z) : I outcome := rc <- m ;; ret (Return rc).

(** A handler whose result only carries its return code. *)
Definition with_status (m : I Z) : I Z := rc <- m ;; init_result (error_to_wire rc) ;;; ret rc.

(** The [switch (cmd.command)]. *)
Definition cm_dispatch : I outcome :=
  command <- gets_cm (fun v => cm_command (cmd v)) ;;
  if command =? PB_CMD_BOOTLOADER_VERSION_READ then
    break (init_result2 PB_RESULT_OK version_string ;;; ret PB_OK)
  else if command =? PB_CMD_DEVICE_RESET then
    return_ (init_result PB_RESULT_OK ;;; send_result ;;; ret (- PB_ERR_ABORT))
  else if command =? PB_CMD_PART_TBL_READ then break cmd_part_tbl_read
  else if command =? PB_CMD_DEVICE_READ_CAPS then
    break (init_result2 PB_RESULT_OK (cenc pb_result_device_caps_c device_caps) ;;; ret PB_OK)
  else if command =? PB_CMD_BOOT_BPAK then return_ cmd_boot_bpak
  else if command =? PB_CMD_PART_TBL_INSTALL then
    break (with_status (install_cmd <- request pb_command_install_part_table_c ;;
                        on_blk (blk_install (Some (it_uu install_cmd)) (it_variant install_cmd))))
  else if command =? PB_CMD_STREAM_INITIALIZE then break cmd_stream_init
  else if command =? PB_CMD_STREAM_PREPARE_BUFFER then break cmd_stream_prep_buffer
  else if command =? PB_CMD_STREAM_READ_BUFFER then break cmd_stream_read
  else if command =? PB_CMD_STREAM_WRITE_BUFFER then break cmd_stream_write
  else if command =? PB_CMD_STREAM_FINALIZE then break cmd_stream_final
  else if command =? PB_CMD_PART_BPAK_READ then break cmd_bpak_read
  else if command =? PB_CMD_PART_VERIFY then break cmd_part_verify
  else if command =? PB_CMD_BOOT_PART then return_ cmd_boot_part
  else if command =? PB_CMD_DEVICE_IDENTIFIER_READ then break cmd_identifier_read
  else if command =? PB_CMD_PART_ACTIVATE then
    break (with_status (activate_cmd <- request pb_command_activate_part_c ;;
                        boot_set_boot_partition cm_drivers (Some (ap_uuid activate_cmd))))
  else if command =? PB_CMD_AUTHENTICATE then break cmd_auth
  else if command =? PB_CMD_AUTH_SET_PASSWORD then
    break (init_result (- PB_RESULT_NOT_SUPPORTED) ;;; ret PB_OK)
  else if command =? PB_CMD_BOARD_COMMAND then break cmd_board
  else if command =? PB_CMD_BOARD_STATUS_READ then break cmd_status_read
  else if command =? PB_CMD_SLC_SET_CONFIGURATION then break (slc_transition slc_set_configuration)
  else if command =? PB_CMD_SLC_SET_CONFIGURATION_LOCK then
    break (slc_transition slc_set_configuration_locked)
  else if command =? PB_CMD_SLC_SET_EOL then break (slc_transition (slc_set_eol null_call))
  else if command =? PB_CMD_SLC_REVOKE_KEY then
    break (with_status (revoke_cmd <- request pb_command_revoke_key_c ;;
                        on_rot (rot_revoke_key (rk_key_id revoke_cmd))))
  else if command =? PB_CMD_SLC_READ then break (with_status cmd_slc_read)
  else if command =? PB_CMD_PART_RESIZE then
    break (init_result (- PB_RESULT_NOT_SUPPORTED) ;;; ret PB_OK)
  else if command =? PB_CMD_BOOT_STATUS then
    break (uu <- boot_get_boot_partition cm_drivers ;;
           init_result2 (error_to_wire PB_OK)
             (cenc pb_result_boot_status_c (ResultBootStatus uu (zeros 16))) ;;;
           ret PB_RESULT_OK)
  else if command =? PB_CMD_PART_ERASE then
    break (with_status (erase_cmd <- request pb_command_erase_part_c ;; cmd_part_erase erase_cmd))
  else break (init_result (- PB_RESULT_INVALID_COMMAND) ;;; ret PB_OK).

(** What follows the label [err_out]. *)
Definition parse_err_out (rc : Z) : I Z :=
  send_result ;;;
  reboot <- gets_cm reboot_requested ;;
  if reboot && (rc =? 0) then (mod_cm (set_reboot false) ;;; ret (- PB_ERR_ABORT)) else ret rc.

(** The command is refused for lack of authentication. *)
Definition auth_refused (v : cm_vars) : bool :=
  pb_wire_requires_auth (cmd v) && negb (authenticated v) && (slc v =? PB_SLC_CONFIGURATION_LOCKED).

Definition pb_command_parse : I Z :=
  v <- gets_cm id ;;
  if negb (pb_wire_valid_command (cmd v))
  then (init_result (- PB_RESULT_INVALID_COMMAND) ;;; parse_err_out PB_OK)
  else if auth_refused v
  then (init_result (- PB_RESULT_NOT_AUTHENTICATED) ;;; parse_err_out PB_OK)
  else
    init_result (- PB_RESULT_NOT_SUPPORTED) ;;;
    o <- cm_dispatch ;;
    match o with Return rc => ret rc | Break rc => parse_err_out rc end.

Definition cm_init (cfg_ : fptr) : I Z := mod_cm (set_cm_cfg cfg_) ;;; ret PB_OK.

(** The [do .. while] loop that waits for the transport. *)
Fixpoint connect_loop (fuel : nat) (connect : I Z) (to : option pb_timeout) : I Z :=
  match fuel with
  | O => ret (- PB_ERR_AGAIN)
  | S fuel =>
      plat_wdog_kick ;;;
      rc <- connect ;;
      expired <- match to with
                 | Some to => pb_timeout_has_expired plat_get_us_tick to
                 | None => ret false
                 end ;;
      if expired then ret (- PB_ERR_TIMEOUT)
      else if rc =? - PB_ERR_AGAIN then connect_loop fuel connect to else ret rc
  end.

(** Where [cm_run] stands: at [restart_command_mode], about to start reading a
    command, polling for one, or returned. *)
Inductive cm_pc := PcRestart | PcRead | PcPoll | PcDone (rc : Z).

(** [err_out:] of [cm_run]. *)
Definition run_err_out (rc : Z) : I cm_pc := disconnect ;;; ret (PcDone rc).

Definition cm_restart : I cm_pc :=
  init <- with_cfg (fun c => ret (t_init (tops c))) ;;
  rc <- match init with Some f => f | None => ret PB_OK end ;;
  if negb (rc =? PB_OK) then ret (PcDone (- PB_ERR_IO)) else
  connect <- with_cfg (fun c => ret (t_connect (tops c))) ;;
  match connect with
  | None => ret PcRead
  | Some f =>
      let* (_, to) := pb_timeout_init_us plat_get_us_tick
                        (u32 (CONFIG_CM_TRANSPORT_READY_TIMEOUT * 1000000)) in
      rc <- connect_loop poll_fuel f to ;;
      if negb (rc =? PB_OK) then run_err_out rc else ret PcRead
  end.

(** The start of an iteration of the inner loop: what has arrived is in
    [cmd]. *)
Definition poll_command : I Z :=
  plat_wdog_kick ;;;
  with_cfg (fun c => match cfg_process c with Some f => f | None => ret tt end) ;;;
  let* (rc, data) := with_cfg (fun c => t_complete (tops c)) in
  mod_cm (fun v => set_cmd (decode pb_command_c (splice 0 data (cenc pb_command_c (cmd v)))) v) ;;;
  ret rc.

(** One iteration of the outer loop up to the inner loop, and one iteration of
    the inner loop. *)
Definition cm_step (pc : cm_pc) : I cm_pc :=
  match pc with
  | PcRestart => cm_restart
  | PcRead =>
      rc <- with_cfg (fun c => t_read (tops c) (sizeof pb_command_c)) ;;
      if negb (rc =? PB_OK) then run_err_out rc else ret PcPoll
  | PcPoll =>
      rc <- poll_command ;;
      if rc =? PB_OK then
        rc <- pb_command_parse ;;
        if rc =? - PB_ERR_ABORT then run_err_out rc else ret PcRead
      else if (rc =? - PB_ERR_TIMEOUT) || (rc =? - PB_ERR_AGAIN) then ret PcPoll
      else ret PcRestart
  | PcDone rc => ret (PcDone rc)
  end.

(** What [cm_run] does before [restart_command_mode]; [None]: go on. *)
Definition cm_prologue : I (option Z) :=
  rc <- cm_board_init ;;
  if negb (rc =? PB_OK) then ret (Some rc) else
  mod_cm (set_authenticated (negb CONFIG_CM_AUTH)) ;;;
  s <- on_slc slc_read_status ;;
  mod_cm (set_slc s) ;;;
  let* (_, uu) := device_uuid plat_get_unique_id platform_ns_uuid in
  (match uu with Some u => mod_cm (set_device_uu u) | None => ret tt end) ;;;
  ret None.

Fixpoint cm_steps (n : nat) (pc : cm_pc) : I cm_pc :=
  match n with
  | O => ret pc
  | S n => pc <- cm_step pc ;; cm_steps n pc
  end.

(** The first [n] steps of [cm_run], which serves commands until the transport
    fails or a reset is requested; [Some rc] once it has returned. *)
Definition cm_run (n : nat) : I (option Z) :=
  rc <- cm_prologue ;;
  match rc with
  | Some rc => ret (Some rc)
  | None => pc <- cm_steps n PcRestart ;;
            ret (match pc with PcDone rc => Some rc | _ => None end)
  end.

End cm.
