(* ===== verification/CmSafety.v ===== *)
(** * Command mode: what the protocol guarantees

    The authentication gate, who can set the authenticated flag, and the
    access rules of the streaming commands of [Cm]. *)

From S2P Require Import Prelude Errors Ram Uuid UuidText Bio BlockIface Bpak Crypto DeviceUuid Rot Image.
From S2P Require Import Boot Delay Wire Cm.
Local Open Scope c_scope.

Section cm.
Context {arch : Arch} {kc : Kconfig} {lay : Layout} {HC HR HS B D : Type} {cd : CryptoDriver HC}
  `{!BlockOps B, !InstallOps B} {env : CmEnv HC HR HS B D}.
Abbreviation W := (cm_world HC HR HS B D).
Abbreviation I := (M W).

(** ** Frames *)

(** Everything a host could want to change: storage, keys, life cycle, boot
    state, memory, crypto. *)
Definition device_state (w : W) :=
  (i_cry w, i_rot w, i_ram w, i_signature w, r_blk (i_rest w), r_boot (i_rest w), cmslc w,
   c_du (r_other (i_rest w))).

(** A transport operation works on its hardware only. *)
Definition but_hw (w : W) := (device_state w, cmv w).

Record transport_ok (t : cm_transport_ops W) : Prop := {
  tok_read : forall n, Keeps but_hw (t_read t n);
  tok_write : forall bs, Keeps but_hw (t_write t bs);
  tok_complete : Keeps but_hw (t_complete t);
  tok_disconnect : forall f, t_disconnect t = Some f -> Keeps but_hw f
}.

Lemma but_hw_device {A} (m : I A) : Keeps but_hw m -> Keeps device_state m.
Proof. intros Hm w. pose proof (f_equal fst (Hm w)) as E. exact E. Qed.

Lemma but_hw_cmv {A} (m : I A) : Keeps but_hw m -> Keeps cmv m.
Proof. intros Hm w. pose proof (f_equal snd (Hm w)) as E. exact E. Qed.

Lemma mod_cm_run f (w : W) :
  mod_cm f w = (tt, with_other (let y := r_other (i_rest w) in CmRest (f (c_vars y)) (c_slc y) (c_du y) (c_hw y)) w).
Proof. done. Qed.

Lemma mod_cm_cmv f (w : W) : cmv (mod_cm f w).2 = f (cmv w).
Proof. done. Qed.

Lemma mod_cm_device f : Keeps device_state (mod_cm f : I unit).
Proof. done. Qed.

Lemma with_cfg_keeps {T A} (g : W -> T) (f : cm_config W -> I A) :
  (forall p, Keeps g (f (configs p))) -> Keeps g (with_cfg f).
Proof. intros Hf w. apply Hf. Qed.

Section transport.
Hypothesis Htops : forall p, transport_ok (tops (configs p)).

Lemma complete_loop_hw fuel acc : Keeps but_hw (complete_loop fuel acc : I _).
Proof.
  revert acc. induction fuel as [|fuel IH]; intros acc; cbn [complete_loop]; [done|].
  apply keeps_bind; [apply with_cfg_keeps; intros p; apply tok_complete, Htops|].
  intros [rc data]. destruct (rc =? - PB_ERR_AGAIN); [apply IH | done].
Qed.

Lemma cm_write_hw bs : Keeps but_hw (cm_write bs : I Z).
Proof.
  unfold cm_write. apply keeps_bind; [apply with_cfg_keeps; intros p; apply tok_write, Htops|].
  intros rc. destruct (negb (rc =? PB_OK)); [done|].
  apply keeps_bind; [apply complete_loop_hw | by intros [? ?]].
Qed.

Lemma cm_read_bytes_hw n : Keeps but_hw (cm_read_bytes n : I _).
Proof.
  unfold cm_read_bytes. apply keeps_bind; [apply with_cfg_keeps; intros p; apply tok_read, Htops|].
  intros rc. destruct (negb (rc =? PB_OK)); [done | apply complete_loop_hw].
Qed.

Lemma send_result_hw : Keeps but_hw (send_result : I Z).
Proof. unfold send_result. apply keeps_bind; [done|]. intros r. apply cm_write_hw. Qed.

(** After [err_out] only the transport and the reboot request have changed. *)
Lemma parse_err_out_spec rc (w : W) :
  let '(rc', w') := parse_err_out rc w in
  device_state w' = device_state w /\
  (rc' = rc /\ cmv w' = cmv w \/
   rc = PB_OK /\ rc' = - PB_ERR_ABORT /\ reboot_requested (cmv w) = true /\ cmv w' = set_reboot false (cmv w)).
Proof.
  unfold parse_err_out. m_unfold. pose proof (but_hw_device _ send_result_hw w) as Hd.
  pose proof (but_hw_cmv _ send_result_hw w) as Hv.
  destruct (send_result w) as [x w1]. cbn [snd] in Hd, Hv. unfold gets_cm, gets. rewrite Hv.
  destruct (reboot_requested (cmv w)) eqn:Hr; cbn [andb]; [|by split; [|left]].
  destruct (Z.eqb_spec rc 0) as [->|]; [|by split; [|left]].
  rewrite mod_cm_run. split; [exact Hd|]. right. split_and!; [done..|]. rewrite <- Hv. done.
Qed.

Lemma valid_command_decide {A} c (x y : A) :
  (if pb_wire_valid_command c then x else y) =
  (if decide (cm_magic c = PB_WIRE_MAGIC /\ PB_CMD_INVALID < cm_command c < PB_CMD_END) then x else y).
Proof.
  unfold pb_wire_valid_command. destruct (Z.eqb_spec (cm_magic c) PB_WIRE_MAGIC), (Z.ltb_spec PB_CMD_INVALID (cm_command c)),
    (Z.ltb_spec (cm_command c) PB_CMD_END); cbn [negb andb]; destruct (decide _); done || lia.
Qed.

(** [C4] The authentication gate: while the cached life cycle is "configuration
    locked" and the host has not authenticated, every command other than
    reading the device identifier and authenticating is answered with
    [-PB_RESULT_NOT_AUTHENTICATED] (or [-PB_RESULT_INVALID_COMMAND] if it is
    not well formed) and leaves storage, keys, life cycle, boot state, memory
    and the cached session state as they were.  A pending reboot request of
    the board still takes effect. *)
Theorem cm_auth_gate (w : W) :
  authenticated (cmv w) = false -> slc (cmv w) = PB_SLC_CONFIGURATION_LOCKED ->
  cm_command (cmd (cmv w)) <> PB_CMD_DEVICE_IDENTIFIER_READ -> cm_command (cmd (cmv w)) <> PB_CMD_AUTHENTICATE ->
  let '(rc, w') := pb_command_parse w in
  device_state w' = device_state w /\
  rs_code (result (cmv w')) =
    (if decide (cm_magic (cmd (cmv w)) = PB_WIRE_MAGIC /\ PB_CMD_INVALID < cm_command (cmd (cmv w)) < PB_CMD_END)
     then - PB_RESULT_NOT_AUTHENTICATED else - PB_RESULT_INVALID_COMMAND) /\
  authenticated (cmv w') = false /\ slc (cmv w') = slc (cmv w) /\ block_dev (cmv w') = block_dev (cmv w) /\
  (rc = PB_OK \/ rc = - PB_ERR_ABORT /\ reboot_requested (cmv w) = true).
Proof.
  intros Ha Hs Hi Hu. unfold pb_command_parse, gets_cm. m_unfold. unfold id, auth_refused.
  assert (pb_wire_requires_auth (cmd (cmv w)) = true) as Hr
    by (unfold pb_wire_requires_auth; by rewrite (proj2 (Z.eqb_neq _ _) Hi), (proj2 (Z.eqb_neq _ _) Hu)).
  rewrite Ha, Hs, Hr, <- valid_command_decide. cbn [negb andb].
  change (PB_SLC_CONFIGURATION_LOCKED =? PB_SLC_CONFIGURATION_LOCKED) with true.
  destruct (pb_wire_valid_command (cmd (cmv w))); cbn [negb];
    unfold init_result; rewrite mod_cm_run;
    match goal with |- context [parse_err_out PB_OK ?w1] => pose proof (parse_err_out_spec PB_OK w1) as H end;
    destruct (parse_err_out PB_OK _) as [rc w']; destruct H as [Hd [[-> Hv] | (_ & -> & Hb & Hv)]];
    rewrite Hv; (split; [exact Hd|]); cbn; rewrite ?Ha; split_and!; auto.
Qed.

(** ** Frames of the handlers

    A part [g] of the state that the primitives a read-only handler uses leave
    alone; [mod_cm] may change any variable but the authenticated flag. *)
Record frame {T} (g : W -> T) : Prop := {
  fr_cry : forall A (m : M (crypto_state HC) A), Keeps g (on_cry m);
  fr_rot : forall A (m : M (rot_state HR) A), Keeps g (on_rot m);
  fr_slc : forall A (m : M (slc_state HS) A), Keeps g (on_slc m);
  fr_ram : forall r, Keeps g (set_ram r);
  fr_cm : forall f, (forall v, authenticated (f v) = authenticated v) -> Keeps g (mod_cm f);
  fr_hw : forall A (m : I A), Keeps but_hw m -> Keeps g m;
  fr_find : forall u, Keeps g (on_blk (blk_find u));
  fr_valid : forall d, Keeps g (on_blk (blk_valid d));
  fr_read : forall d l n, Keeps g (on_blk (blk_read d l n));
  fr_flags : forall d, Keeps g (on_blk (blk_get_flags d));
  fr_uu : forall d, Keeps g (on_blk (blk_get_uu d));
  fr_desc : forall d, Keeps g (on_blk (blk_get_description d));
  fr_bs : forall d, Keeps g (on_blk (blk_block_size d));
  fr_nb : forall d, Keeps g (on_blk (blk_no_of_blocks d));
  fr_first : forall d, Keeps g (on_blk (blk_first_block d));
  fr_last : forall d, Keeps g (on_blk (blk_last_block d))
}.
Local Hint Resolve fr_cry fr_rot fr_slc fr_ram fr_find fr_valid fr_read fr_flags fr_uu fr_desc fr_bs fr_nb
  fr_first fr_last : keeps.
Local Hint Extern 3 (Keeps _ (mod_cm _)) => apply fr_cm; done : keeps.

Section handlers.
Context {T : Type} (g : W -> T) (fr : frame g).

Lemma send_result_frame : Keeps g (send_result : I Z).
Proof. apply fr_hw, send_result_hw; done. Qed.
Lemma cm_write_frame bs : Keeps g (cm_write bs : I Z).
Proof. apply fr_hw, cm_write_hw; done. Qed.
Lemma cm_read_bytes_frame n : Keeps g (cm_read_bytes n : I _).
Proof. apply fr_hw, cm_read_bytes_hw; done. Qed.
Lemma gets_cm_frame {A} (f : cm_vars -> A) : Keeps g (gets_cm f : I A).
Proof. done. Qed.
Lemma request_frame {A} (c : codec A) : Keeps g (request c : I A).
Proof. done. Qed.
Lemma ram_put_frame a bs : Keeps g (ram_put a bs : I unit).
Proof. unfold ram_put. keeps. Qed.
Lemma ram_get_frame a n : Keeps g (ram_get a n : I _).
Proof. done. Qed.
Local Hint Resolve send_result_frame cm_write_frame cm_read_bytes_frame @gets_cm_frame @request_frame
  ram_put_frame ram_get_frame : keeps.

Lemma cm_read_frame a n : Keeps g (cm_read a n : I Z).
Proof. unfold cm_read. keeps. Qed.
Lemma bio_read_to_frame d l n a : Keeps g (bio_read_to d l n a : I Z).
Proof. unfold bio_read_to. keeps. Qed.
Lemma init_result_frame c : Keeps g (init_result c : I unit).
Proof. unfold init_result. keeps. Qed.
Lemma init_result2_frame c bs : Keeps g (init_result2 c bs : I unit).
Proof. unfold init_result2. keeps. Qed.
Lemma header_lba_frame d : Keeps g (header_lba_of d : I Z).
Proof. unfold header_lba_of. keeps. Qed.
Lemma disconnect_frame : Keeps g (disconnect : I unit).
Proof.
  unfold disconnect. apply with_cfg_keeps. intros p.
  destruct (t_disconnect (tops (configs p))) as [f|] eqn:Ef; [|done].
  apply keeps_bind; [|done]. apply fr_hw; [done|]. by apply (tok_disconnect _ (Htops p)).
Qed.
Local Hint Resolve cm_read_frame bio_read_to_frame init_result_frame init_result2_frame header_lba_frame
  disconnect_frame : keeps.

Lemma auth_token_frame k a n : Keeps g (auth_token k a n : I Z).
Proof. unfold auth_token. keeps. Qed.

Lemma verify_loop_frame fuel n l b rc : Keeps g (verify_loop fuel n l b rc : I Z).
Proof.
  revert n l b rc. induction fuel as [|fuel IH]; intros; cbn [verify_loop]; [done|]. keeps.
Qed.

Lemma table_loop_frame fuel d e : Keeps g (table_loop fuel d e : I Z).
Proof.
  revert d e. induction fuel as [|fuel IH]; intros; cbn [table_loop]; [done|].
  unfold write_table_entry. keeps.
Qed.

Lemma key_status_loop_frame n i ks rc : Keeps g (key_status_loop n i ks rc : I _).
Proof. revert i ks rc. induction n as [|n IH]; intros; cbn [key_status_loop]; [done|]. keeps. Qed.
Local Hint Resolve auth_token_frame verify_loop_frame table_loop_frame key_status_loop_frame : keeps.

Lemma stream_commands_frame :
  Keeps g (cmd_stream_read : I Z) /\ Keeps g (cmd_stream_init : I Z) /\
  Keeps g (cmd_stream_prep_buffer : I Z) /\ Keeps g (cmd_stream_final : I Z).
Proof.
  unfold cmd_stream_read, cmd_stream_init, cmd_stream_prep_buffer, cmd_stream_final. split_and!; keeps.
Qed.

Lemma part_commands_frame :
  Keeps g (cmd_bpak_read : I Z) /\ Keeps g (cmd_part_verify : I Z) /\ Keeps g (cmd_part_tbl_read : I Z).
Proof.
  unfold cmd_bpak_read, cmd_part_verify, verify_header, verify_digest, cmd_part_tbl_read. split_and!; keeps.
Qed.

Lemma device_commands_frame :
  Keeps g (cmd_slc_read : I Z) /\ Keeps g (cmd_identifier_read : I Z) /\
  (forall m, Keeps g (slc_transition m : I Z)).
Proof.
  unfold cmd_slc_read, cmd_identifier_read, slc_transition. split_and!; keeps; by apply with_cfg_keeps.
Qed.

Lemma parse_err_out_frame rc : Keeps g (parse_err_out rc : I Z).
Proof. unfold parse_err_out. keeps. Qed.

End handlers.
End transport.

(** ** Who can set the authenticated flag *)

Definition session (w : W) : bool := authenticated (cmv w).

Lemma on_blk_session {A} (m : M B A) : Keeps session (on_blk m : I A).
Proof. intros w. unfold on_blk. by destruct (m (r_blk (i_rest w))). Qed.
Lemma set_sigbuf_session x : Keeps session (set_sigbuf x : I unit).
Proof. done. Qed.
Lemma mod_vars_session f : Keeps session (mod_vars f : I unit).
Proof. done. Qed.

Lemma session_frame : frame session.
Proof.
  split; intros; try apply on_blk_session.
  - intros w. unfold on_cry. by destruct (m (i_cry w)).
  - intros w. unfold on_rot. by destruct (m (i_rot w)).
  - intros w. unfold on_slc. by destruct (m (c_slc (r_other (i_rest w)))).
  - done.
  - intros w. unfold session. rewrite mod_cm_cmv. auto.
  - intros w. unfold session. by rewrite (but_hw_cmv m H w).
Qed.

(** Board and platform code that leaves the module's authenticated flag
    alone. *)
Record env_ok : Prop := {
  eo_tops : forall p, transport_ok (tops (configs p));
  eo_init : forall p f, t_init (tops (configs p)) = Some f -> Keeps session f;
  eo_connect : forall p f, t_connect (tops (configs p)) = Some f -> Keeps session f;
  eo_status : forall p a n, Keeps session (cfg_status (configs p) a n);
  eo_command : forall p c a n b m, Keeps session (cfg_command (configs p) c a n b m);
  eo_process : forall p f, cfg_process (configs p) = Some f -> Keeps session f;
  eo_password : forall p f a n, cfg_password_auth (configs p) = Some f -> Keeps session (f a n);
  eo_tick : Keeps session plat_get_us_tick;
  eo_kick : Keeps session plat_wdog_kick;
  eo_read_cbs : forall p a n, Keeps session (other_read_cbs p a n);
  eo_result_cbs : forall p rc, Keeps session (other_result_cbs p rc);
  eo_early : forall p f, early_boot_cb (cm_drivers p) = Some f -> Keeps session f;
  eo_get_dev : forall p f, get_boot_bio_device (cm_drivers p) = Some f -> Keeps session f;
  eo_set_part : forall p f u, Boot.set_boot_partition (cm_drivers p) = Some f -> Keeps session (f u);
  eo_get_part : forall p f, Boot.get_boot_partition (cm_drivers p) = Some f -> Keeps session f;
  eo_in_mem : forall p f, get_in_mem_image (cm_drivers p) = Some f -> Keeps session f;
  eo_authenticate : forall p f, authenticate_image (cm_drivers p) = Some f -> Keeps session f;
  eo_prepare : forall p f h u, prepare (cm_drivers p) = Some f -> Keeps session (f h u);
  eo_late : forall p f h u, late_boot_cb (cm_drivers p) = Some f -> Keeps session (f h u);
  eo_jump : forall p f, jump (cm_drivers p) = Some f -> Keeps session f
}.


Section flag.
Hypothesis env_fine : env_ok.
Let ST := eo_tops env_fine.
Let SF := session_frame.

Lemma bio_write_from_session d l n a : Keeps session (bio_write_from d l n a : I Z).
Proof. unfold bio_write_from. apply keeps_bind; [done|]. intros bs. apply on_blk_session. Qed.

Local Hint Resolve fr_cry fr_rot fr_slc fr_ram : keeps.
Local Hint Extern 3 (Keeps _ (mod_cm _)) => apply fr_cm; [exact SF | done] : keeps.
Local Hint Resolve session_frame on_blk_session set_sigbuf_session mod_vars_session
  bio_write_from_session : keeps.
Local Hint Extern 4 (Keeps session _) =>
  first [ apply send_result_frame | apply cm_write_frame | apply cm_read_bytes_frame | apply gets_cm_frame
        | apply request_frame | apply ram_put_frame | apply ram_get_frame | apply cm_read_frame
        | apply bio_read_to_frame | apply init_result_frame | apply init_result2_frame
        | apply disconnect_frame | apply auth_token_frame | apply parse_err_out_frame ];
  first [ exact ST | exact SF ] : keeps.

Lemma cmd_board_session : Keeps session (cmd_board : I Z).
Proof.
  unfold cmd_board. keeps; apply with_cfg_keeps; intros p; apply eo_command, env_fine.
Qed.

Lemma cmd_status_read_session : Keeps session (cmd_status_read : I Z).
Proof.
  unfold cmd_status_read. keeps; apply with_cfg_keeps; intros p; apply eo_status, env_fine.
Qed.

Lemma storage_commands_session :
  Keeps session (cmd_stream_write : I Z) /\ (forall c, Keeps session (cmd_part_erase c : I Z)).
Proof. unfold cmd_stream_write, cmd_part_erase. split_and!; keeps. Qed.

Lemma read_cbs_session p a n : Keeps session (read_cbs p a n : I _).
Proof.
  unfold read_cbs, bpak_boot_read_f. destruct (p =? BPAK_BOOT_READ_F); [keeps|]. apply eo_read_cbs, env_fine.
Qed.
Lemma result_cbs_session p rc : Keeps session (result_cbs p rc : I Z).
Proof.
  unfold result_cbs, bpak_boot_result_f. destruct (p =? BPAK_BOOT_RESULT_F); [keeps|].
  apply eo_result_cbs, env_fine.
Qed.
Local Hint Resolve read_cbs_session result_cbs_session : keeps.

Lemma load_part_session fuel hdr p c read_f a n o rc :
  (forall f x y, read_f = Some f -> Keeps session (f x y)) ->
  Keeps session (load_part_loop fuel hdr p c read_f a n o rc : I Z).
Proof.
  intros Hf. revert n o rc. induction fuel as [|fuel IH]; intros; cbn [load_part_loop]; [done|].
  destruct read_f as [f|]; [pose proof (fun x y => Hf f x y eq_refl) |]; keeps.
Qed.

Lemma load_and_hash_session hdr c read_f result_f n :
  (forall f x y, read_f = Some f -> Keeps session (f x y)) ->
  (forall f x, result_f = Some f -> Keeps session (f x)) ->
  Keeps session (boot_image_load_and_hash hdr c read_f result_f n : I _).
Proof.
  intros Hf Hr. unfold boot_image_load_and_hash.
  assert (Hl : forall l rc, Keeps session (load_parts_loop hdr c read_f result_f l rc : I Z)).
  { intros l. induction l as [|p l IH]; intros rc; cbn [load_parts_loop]; [done|].
    pose proof (fun fuel a n o rc => load_part_session fuel hdr p c read_f a n o rc Hf).
    destruct result_f as [f|]; [pose proof (fun x => Hr f x eq_refl)|]; keeps. }
  keeps.
Qed.

Lemma load_by_source_session :
  Keeps session (load_by_source cm_keystore cm_digest0 cm_drivers read_cbs result_cbs : I Z).
Proof.
  unfold load_by_source, load_auth_verify_from_bio, auth_verify_in_mem, load_auth_verify_from_cb,
    authenticate_custom, auth_header_at, verify_parts_at, verify_payload_at, load_and_hash_at,
    select_boot_device, read_header_from_bio, report, boot_image_auth_header.
  keeps;
    first
      [ by eapply (eo_get_dev env_fine) | by eapply (eo_in_mem env_fine) | by eapply (eo_authenticate env_fine)
      | apply load_and_hash_session;
        [ intros f x y E; repeat case_match; simplify_eq; unfold boot_bio_read; keeps
        | intros f x E; repeat case_match; simplify_eq; keeps ] ].
Qed.
Local Hint Resolve load_by_source_session : keeps.

Lemma boot_load_session u : Keeps session (boot_load_uu u : I Z).
Proof.
  unfold boot_load_uu, boot_load, boot_load_body. keeps;
    first [ by eapply (eo_early env_fine) | by eapply (eo_prepare env_fine) ].
Qed.

Lemma boot_jump_session : Keeps session (boot_jump cm_drivers : I Z).
Proof.
  unfold boot_jump. keeps; first [ by eapply (eo_late env_fine) | by eapply (eo_jump env_fine) ].
Qed.
Local Hint Resolve boot_load_session boot_jump_session : keeps.

Lemma boot_commands_session :
  Keeps session (cmd_boot_bpak : I Z) /\ Keeps session (cmd_boot_part : I Z) /\
  (forall u, Keeps session (boot_set_boot_partition cm_drivers u : I Z)) /\
  Keeps session (boot_get_boot_partition cm_drivers : I _).
Proof.
  unfold cmd_boot_bpak, cmd_boot_part, boot_clear_set_flags, boot_set_source, boot_configure_load_cb,
    boot_set_boot_partition, boot_get_boot_partition.
  split_and!; keeps; first [ by eapply (eo_set_part env_fine) | by eapply (eo_get_part env_fine) ].
Qed.

(** Every case of the switch but one leaves the flag alone. *)
Lemma cm_dispatch_session (w : W) :
  cm_command (cmd (cmv w)) <> PB_CMD_AUTHENTICATE -> session (cm_dispatch w).2 = session w.
Proof.
  intros Hne. destruct (stream_commands_frame ST session SF) as (? & ? & ? & ?).
  destruct (part_commands_frame ST session SF) as (? & ? & ?).
  destruct (device_commands_frame ST session SF) as (? & ? & ?).
  destruct boot_commands_session as (? & ? & ? & ?). destruct storage_commands_session as (? & ?).
  pose proof cmd_board_session. pose proof cmd_status_read_session.
  unfold cm_dispatch, bind at 1, gets_cm at 1, gets at 1. cbv beta iota.
  set (command := cm_command (cmd (cmv w))) in *. clearbody command.
  repeat match goal with
  | |- session ((if command =? PB_CMD_AUTHENTICATE then _ else _) w).2 = _ =>
      destruct (Z.eqb_spec command PB_CMD_AUTHENTICATE); [done|]
  | |- session ((if command =? ?k then ?m else _) w).2 = _ =>
      destruct (Z.eqb_spec command k);
      [enough (Hk : Keeps session m) by apply Hk; unfold break, return_, with_status; keeps|]
  end.
  enough (Hk : Keeps session (break (init_result (- PB_RESULT_INVALID_COMMAND) ;;; ret PB_OK) : I outcome))
    by apply Hk.
  unfold break. keeps.
Qed.

(** The world in which credentials are checked, once the host has sent
    them. *)
Definition auth_received (w : W) : W :=
  (cm_read (buffer_at 0) 1024 (send_result (init_result PB_RESULT_OK w).2).2).2.

(** The authenticate command about to be executed in [w] succeeds. *)
Definition credentials_accepted (w : W) : Prop :=
  let a := request_as pb_command_authenticate_c (cmd (cmv w)) in
  let w1 := auth_received (init_result (- PB_RESULT_NOT_SUPPORTED) w).2 in
  (CONFIG_CM_AUTH_TOKEN = true /\ au_method a = PB_AUTH_ASYM_TOKEN /\
   (auth_token (au_key_id a) (buffer_at 0) (au_size a) w1).1 = PB_OK) \/
  (CONFIG_CM_AUTH_PASSWORD = true /\ au_method a = PB_AUTH_PASSWORD /\
   exists f, cfg_password_auth (configs (cm_cfg (cmv w))) = Some f /\
     (f (buffer_at 0) (au_size a) w1).1 = PB_OK).

Lemma auth_exchange_run check (w : W) :
  exists rc w', check (auth_received w) = (rc, w') /\ (auth_exchange check w).1 = rc /\
    session (auth_exchange check w).2 = (rc =? PB_OK).
Proof.
  unfold auth_exchange, auth_received, bind.
  destruct (init_result PB_RESULT_OK w) as [[] w1]. cbn [snd].
  destruct (send_result w1) as [? w2]. cbn [snd].
  destruct (cm_read (buffer_at 0) 1024 w2) as [? w3]. cbn [snd]. destruct (check w3) as [rc w4].
  exists rc, w4. done.
Qed.

(** The password half of [cmd_auth]. *)
Lemma password_flag (w1 : W) a p rc :
  session w1 = false -> cm_cfg (cmv w1) = p ->
  session ((match cfg_password_auth (configs (cm_cfg (cmv w1))) with
            | Some f =>
                if CONFIG_CM_AUTH_PASSWORD && (au_method a =? PB_AUTH_PASSWORD)
                then auth_exchange (f (buffer_at 0) (au_size a))
                else fun w => (rc, w)
            | None => fun w => (rc, w)
            end) w1).2 = true ->
  CONFIG_CM_AUTH_PASSWORD = true /\ au_method a = PB_AUTH_PASSWORD /\
  exists f, cfg_password_auth (configs p) = Some f /\
    (f (buffer_at 0) (au_size a) (auth_received w1)).1 = PB_OK.
Proof.
  intros S1 ->. destruct (cfg_password_auth (configs p)) as [f|]; [|cbn [snd]; congruence].
  destruct CONFIG_CM_AUTH_PASSWORD; cbn [andb snd]; [|congruence].
  destruct (Z.eqb_spec (au_method a) PB_AUTH_PASSWORD) as [Em|]; [|cbn [snd]; congruence].
  destruct (auth_exchange_run (f (buffer_at 0) (au_size a)) w1) as (r & w2 & E & _ & ->).
  intros Hr. split_and!; [done..|]. exists f. rewrite E. split; [done|]. by apply Z.eqb_eq in Hr.
Qed.

Lemma cmd_auth_flag (w : W) :
  session w = false -> session (cmd_auth w).2 = true -> credentials_accepted w.
Proof.
  intros Hw. unfold cmd_auth, request, gets_cm, with_cfg, credentials_accepted. m_unfold.
  set (a := request_as _ _). pose proof (mod_cm_run (set_result (pb_wire_init_result (- PB_RESULT_NOT_SUPPORTED))) w) as E1.
  change (mod_cm _ w) with (init_result (- PB_RESULT_NOT_SUPPORTED) w) in E1.
  destruct (init_result _ w) as [[] w1]. cbn [snd].
  assert (S1 : session w1 = false) by (injection E1 as ->; exact Hw).
  assert (C1 : cm_cfg (cmv w1) = cm_cfg (cmv w)) by (injection E1 as ->; done). clear E1.
  destruct CONFIG_CM_AUTH_TOKEN eqn:Ct; cbn [andb].
  - destruct (Z.eqb_spec (au_method a) PB_AUTH_ASYM_TOKEN) as [Em|Em].
    + destruct (auth_exchange_run (auth_token (au_key_id a) (buffer_at 0) (au_size a)) w1) as (rc & w2 & E & Er & Es).
      destruct (auth_exchange _ w1) as [r w3]. cbn [fst snd] in Er, Es. subst r. rewrite Em.
      change (PB_AUTH_ASYM_TOKEN =? PB_AUTH_PASSWORD) with false. rewrite andb_false_r.
      intros Hs. left. split_and!; [done..|]. rewrite E. cbn [fst].
      destruct (cfg_password_auth _) in Hs; cbn [snd] in Hs; rewrite Es in Hs; by apply Z.eqb_eq in Hs.
    + intros Hs. right. by eapply (password_flag w1).
  - intros Hs. right. by eapply (password_flag w1).
Qed.

Lemma dispatch_auth (w : W) :
  cm_command (cmd (cmv w)) = PB_CMD_AUTHENTICATE -> cm_dispatch w = break cmd_auth w.
Proof. intros E. unfold cm_dispatch, bind at 1, gets_cm at 1, gets at 1. by rewrite E. Qed.

Lemma parse_flag (w : W) :
  session w = false -> session (pb_command_parse w).2 = true ->
  cm_command (cmd (cmv w)) = PB_CMD_AUTHENTICATE /\
  credentials_accepted (init_result (- PB_RESULT_NOT_SUPPORTED) w).2.
Proof.
  intros Hw. unfold pb_command_parse, gets_cm at 1. m_unfold. unfold id.
  assert (Hout : forall rc w1, session (parse_err_out rc w1).2 = session w1).
  { intros rc w1. pose proof (parse_err_out_spec (eo_tops env_fine) rc w1) as Hp.
    destruct (parse_err_out rc w1) as [rc' w2]. unfold session. cbn [snd].
    destruct Hp as [_ [[_ ->] | (_ & _ & _ & ->)]]; done. }
  destruct (negb (pb_wire_valid_command (cmd (cmv w)))).
  { unfold init_result. rewrite mod_cm_run, Hout. intros Hs. change (session w = true) in Hs. congruence. }
  destruct (auth_refused (cmv w)).
  { unfold init_result. rewrite mod_cm_run, Hout. intros Hs. change (session w = true) in Hs. congruence. }
  unfold init_result at 1. rewrite mod_cm_run.
  match goal with |- context [cm_dispatch ?x] => set (w1 := x) end.
  assert (S1 : session w1 = false) by exact Hw.
  assert (C1 : cm_command (cmd (cmv w1)) = cm_command (cmd (cmv w))) by done.
  destruct (Z.eqb_spec (cm_command (cmd (cmv w1))) PB_CMD_AUTHENTICATE) as [Ha|Hna].
  - intros Hs. split; [congruence|]. revert Hs.
    rewrite dispatch_auth by done. unfold break. m_unfold.
    pose proof (cmd_auth_flag w1 S1) as Hf. destruct (cmd_auth w1) as [rc w2]. rewrite Hout. exact Hf.
  - pose proof (cm_dispatch_session w1 Hna) as Hk. destruct (cm_dispatch w1) as [o w2]. cbn [snd] in Hk.
    destruct o as [rc|rc]; [|rewrite Hout]; cbn [snd]; intros Hs; congruence.
Qed.

Lemma connect_loop_session fuel c to : Keeps session c -> Keeps session (connect_loop fuel c to : I Z).
Proof.
  intros Hc. pose proof (eo_tick env_fine). pose proof (eo_kick env_fine).
  induction fuel as [|fuel IH]; cbn [connect_loop]; [done|]. unfold pb_timeout_has_expired. keeps.
Qed.

Lemma run_err_out_session rc : Keeps session (run_err_out rc : I cm_pc).
Proof. unfold run_err_out. keeps. Qed.
Local Hint Resolve run_err_out_session : keeps.

Lemma cm_restart_session : Keeps session (cm_restart : I cm_pc).
Proof.
  pose proof (eo_tick env_fine).
  assert (Htail : Keeps session ((connect <- with_cfg (fun c => ret (t_connect (tops c))) ;;
    match connect with
    | None => ret PcRead
    | Some f =>
        let* (_, to) := pb_timeout_init_us plat_get_us_tick
                          (u32 (CONFIG_CM_TRANSPORT_READY_TIMEOUT * 1000000)) in
        rc <- connect_loop poll_fuel f to ;;
        if negb (rc =? PB_OK) then run_err_out rc else ret PcRead
    end) : I cm_pc)).
  { intros w. unfold bind at 1, with_cfg at 1, bind at 1, get at 1, ret at 1. cbv beta iota.
    destruct (t_connect (tops (configs (cm_cfg (cmv w))))) as [f|] eqn:Ef; [|done].
    pose proof (fun fuel to => connect_loop_session fuel f to (eo_connect env_fine _ f Ef)).
    match goal with |- session (?m w).2 = _ => enough (Hm : Keeps session m) by apply Hm end.
    unfold pb_timeout_init_us. keeps. }
  intros w. unfold cm_restart, with_cfg at 1, bind at 1, bind at 1, get at 1, ret at 1. cbv beta iota.
  destruct (t_init (tops (configs (cm_cfg (cmv w))))) as [f|] eqn:Ef;
    match goal with |- session (?m w).2 = _ => enough (Hm : Keeps session m) by apply Hm end;
    apply keeps_bind; try (by eapply (eo_init env_fine)); try done; intros rc;
    destruct (negb (rc =? PB_OK)); [done | apply Htail | done | apply Htail].
Qed.

Lemma poll_command_session : Keeps session (poll_command : I Z).
Proof.
  pose proof (eo_kick env_fine). unfold poll_command. keeps; apply with_cfg_keeps; intros p.
  - destruct (cfg_process (configs p)) eqn:Ep; [by eapply (eo_process env_fine) | done].
  - apply (fr_hw _ SF), tok_complete, env_fine.
Qed.

(** A step that turns the flag on has received an authenticate command with
    good credentials. *)
Definition authenticates (w : W) : Prop :=
  exists wc, poll_command w = (PB_OK, wc) /\ cm_command (cmd (cmv wc)) = PB_CMD_AUTHENTICATE /\
    credentials_accepted (init_result (- PB_RESULT_NOT_SUPPORTED) wc).2.

Lemma cm_step_flag pc (w : W) :
  session w = false -> session (cm_step pc w).2 = true -> pc = PcPoll /\ authenticates w.
Proof.
  intros Hw. destruct pc as [| | |rc]; cbn [cm_step].
  - rewrite cm_restart_session. congruence.
  - match goal with |- session (?m w).2 = _ -> _ => assert (Hm : Keeps session m) end.
    { apply keeps_bind; [|keeps]. apply with_cfg_keeps. intros p. apply (fr_hw _ SF), tok_read, env_fine. }
    rewrite Hm. congruence.
  - unfold authenticates, bind at 1. pose proof (poll_command_session w) as Kp.
    destruct (poll_command w) as [rc wc]. cbn [snd] in Kp.
    assert (Sc : session wc = false) by congruence.
    destruct (Z.eqb_spec rc PB_OK) as [->|].
    + unfold bind at 1. pose proof (parse_flag wc Sc) as Hp.
      destruct (pb_command_parse wc) as [rc' w5]. cbn [snd] in Hp. intros Hs. split; [done|].
      exists wc. split; [done|]. apply Hp. revert Hs.
      destruct (rc' =? - PB_ERR_ABORT); [by rewrite run_err_out_session | done].
    + destruct ((rc =? - PB_ERR_TIMEOUT) || (rc =? - PB_ERR_AGAIN)); cbn [snd ret]; congruence.
  - cbn [snd ret]. congruence.
Qed.


End flag.

(** ** Tokens *)

(** [C31] A token is a signature of this device: when [auth_token] succeeds, the
    key was active in the board's key map, a key of the key store with that id
    exists, and a DSA provider accepted the received bytes as its signature
    over the digest of the 36-character UUID of this device (hashed with the
    algorithm that belongs to the key's curve). *)
Theorem auth_token_sound {cl : CryptoLaws HC} key_id sig size (w w' : W) :
  uuid_wf (device_uu (cmv w)) -> auth_token key_id sig size w = (PB_OK, w') ->
  key_active (i_rot w) key_id /\
  exists key dsa alg f pad h, key ∈ cm_keystore /\ key_kid key = key_id /\
    dsa_of_kind (key_kind key) = Some dsa /\ hash_of_dsa dsa = Some alg /\
    (cd_verify f (ram_read (i_ram w) sig (Z.to_nat size)) (key_data key) alg
       (splice 0 (digest alg (uuid_text (uuid_unpack (device_uu (cmv w))))) pad) h).1 = (PB_OK, Some true).
Proof.
  intros Hu E. unfold auth_token in E. apply checked_ok in E as (w1 & E1 & E). m_unfold.
  apply on_rot_inv in E1 as (E1 & R1 & C1 & S1 & X1).
  destruct (rot_read_key_status_ok _ _ _ E1) as [Hact _]. split; [done|].
  destruct (on_rot (rot_get_dsa_key _ _) w1) as [[rc key] w2] eqn:E2.
  destruct (Z.eqb_spec rc PB_OK) as [->|]; cbn [negb] in E; [|injection E as ? _; congruence].
  apply on_rot_inv in E2 as (E2 & R2 & C2 & S2 & X2).
  destruct (rot_get_dsa_key_some _ _ _ _ _ E2) as [[dk der] ->]. cbn [default] in E.
  destruct (rot_get_dsa_key_ok _ _ _ _ _ _ E2) as (_ & _ & bk & Hin & Hid & <- & Hdk).
  unfold gets_cm, ram_get, id in E. m_unfold. cbv beta iota in E.
  assert (V2 : cmv w2 = cmv w) by (unfold cmv; by rewrite X2, X1). rewrite V2 in E.
  change (uuid_unparse (device_uu (cmv w))) with (uuid_unparse_lower (device_uu (cmv w))) in E.
  rewrite uuid_unparse_text in E by done. cbn [default] in E. unfold id in E.
  destruct (uuid_text_valid _ (uuid_unpack_fields_ok _ Hu)) as [Hlen _].
  rewrite take_app_length' in E by done.
  destruct (hash_of_dsa dk) as [alg|] eqn:Ealg; [|done].
  apply checked_ok in E as (w3 & E3 & E). apply checked_ok in E as (w4 & E4 & E). m_unfold.
  destruct (on_cry (hash_final 64) w4) as [[rc d] w5] eqn:E5. rewrite mod_cm_run in E. cbv beta iota in E.
  destruct (Z.eqb_spec rc PB_OK) as [->|]; cbn [negb] in E; [|injection E as ? _; congruence].
  revert E. match goal with |- context [on_cry (dsa_verify dk _ _ _ _) ?x] => set (w6 := x) end.
  change (i_ram w6) with (i_ram w5). destruct (on_cry (dsa_verify _ _ _ _ _) w6) as [[rc v] w7] eqn:E7.
  destruct (Z.eqb_spec rc 0) as [->|]; cbn [andb]; [|by intros [= ?]].
  destruct v as [[|]|]; cbn [default]; [|by intros [= ?]|by intros [= ?]]. intros _.
  apply on_cry_inv in E3 as (E3 & R3 & _ & _ & X3). apply on_cry_inv in E4 as (E4 & R4 & _ & _ & X4).
  apply on_cry_inv in E5 as (E5 & R5 & _ & _ & X5). apply on_cry_inv in E7 as (E7 & _).
  apply hash_init_hashing in E3. eapply hash_update_hashing in E4; [|exact E3]. cbn [app] in E4.
  destruct (hash_final_digest _ _ _ _ _ _ E4 E5) as [-> _].
  destruct (dsa_verify_accepts _ _ _ _ _ _ _ E7) as [f Hacc].
  rewrite R5, R4, R3, R2, R1 in Hacc.
  exists bk, dk, alg, f, (hash (cmv w5)), (crypto_hw (i_cry w6)). split_and!; done.
Qed.

(** ** Who can change storage *)

Section storage.
Context {T : Type} (storage : B -> T).

(** The operations of the block layer that do not write. *)
Record reads_only : Prop := {
  ro_find : forall u, Keeps storage (blk_find u);
  ro_valid : forall d, Keeps storage (blk_valid d);
  ro_read : forall d l n, Keeps storage (blk_read d l n);
  ro_flags : forall d, Keeps storage (blk_get_flags d);
  ro_uu : forall d, Keeps storage (blk_get_uu d);
  ro_desc : forall d, Keeps storage (blk_get_description d);
  ro_bs : forall d, Keeps storage (blk_block_size d);
  ro_nb : forall d, Keeps storage (blk_no_of_blocks d);
  ro_first : forall d, Keeps storage (blk_first_block d);
  ro_last : forall d, Keeps storage (blk_last_block d)
}.

Definition stored (w : W) : T := storage (r_blk (i_rest w)).

Lemma on_blk_stored {A} (m : M B A) : Keeps storage m -> Keeps stored (on_blk m : I A).
Proof. intros Hm w. unfold on_blk, stored. specialize (Hm (r_blk (i_rest w))). by destruct (m (r_blk (i_rest w))). Qed.

Lemma stored_frame : reads_only -> frame stored.
Proof.
  intros Hr. split; intros; try (apply on_blk_stored; by apply Hr).
  - intros w. unfold on_cry. by destruct (m (i_cry w)).
  - intros w. unfold on_rot. by destruct (m (i_rot w)).
  - intros w. unfold on_slc. by destruct (m (c_slc (r_other (i_rest w)))).
  - done.
  - done.
  - intros w. pose proof (but_hw_device m H w) as E. unfold stored.
    by injection E as _ _ _ _ -> _.
Qed.

(** The commands that neither write storage nor run board code. *)
Definition read_only_command (c : Z) : bool :=
  existsb (Z.eqb c) [PB_CMD_DEVICE_RESET; PB_CMD_DEVICE_IDENTIFIER_READ; PB_CMD_DEVICE_READ_CAPS;
   PB_CMD_SLC_SET_CONFIGURATION; PB_CMD_SLC_SET_CONFIGURATION_LOCK; PB_CMD_SLC_SET_EOL;
   PB_CMD_SLC_REVOKE_KEY; PB_CMD_SLC_READ; PB_CMD_BOOTLOADER_VERSION_READ; PB_CMD_PART_TBL_READ;
   PB_CMD_PART_VERIFY; PB_CMD_PART_BPAK_READ; PB_CMD_AUTH_SET_PASSWORD; PB_CMD_STREAM_INITIALIZE;
   PB_CMD_STREAM_PREPARE_BUFFER; PB_CMD_STREAM_FINALIZE; PB_CMD_STREAM_READ_BUFFER; PB_CMD_PART_RESIZE].

(** Reading is read-only: serving any command but stream write, erase,
    table installation, activation, authentication, the boot commands and the
    board's own commands leaves the contents of storage as they were, whatever
    the arguments of the command and whether it succeeds or fails. *)
Theorem cm_read_only_commands (w : W) :
  (forall p, transport_ok (tops (configs p))) -> reads_only ->
  read_only_command (cm_command (cmd (cmv w))) = true ->
  stored (pb_command_parse w).2 = stored w.
Proof.
  intros Ht Hr Hin. pose proof (stored_frame Hr) as SF.
  destruct (stream_commands_frame Ht stored SF) as (? & ? & ? & ?).
  destruct (part_commands_frame Ht stored SF) as (? & ? & ?).
  destruct (device_commands_frame Ht stored SF) as (? & ? & ?).
  pose proof (send_result_frame Ht stored SF). pose proof (parse_err_out_frame Ht stored SF).
  pose proof (init_result_frame stored SF). pose proof (init_result2_frame stored SF).
  pose proof (fr_rot _ SF).
  unfold pb_command_parse, bind at 1, gets_cm at 1, gets at 1. unfold id.
  destruct (negb (pb_wire_valid_command (cmd (cmv w))));
    [match goal with |- stored (?m w).2 = _ => enough (Hk : Keeps stored m) by apply Hk end; keeps|].
  destruct (auth_refused (cmv w));
    [match goal with |- stored (?m w).2 = _ => enough (Hk : Keeps stored m) by apply Hk end; keeps|].
  unfold bind at 1, init_result at 1. rewrite mod_cm_run. cbv beta iota.
  match goal with |- stored (_ ?x).2 = _ => set (w1 := x) end.
  change (stored w) with (stored w1).
  assert (Hin1 : read_only_command (cm_command (cmd (cmv w1))) = true) by exact Hin. clearbody w1. clear Hin w.
  unfold bind at 1.
  assert (Hd : stored (cm_dispatch w1).2 = stored w1).
  { unfold cm_dispatch, bind at 1, gets_cm at 1, gets at 1. cbv beta iota.
    set (command := cm_command (cmd (cmv w1))) in *. clearbody command.
    repeat match goal with
    | |- stored ((if command =? ?k then ?m else _) w1).2 = _ =>
        destruct (Z.eqb_spec command k) as [->|];
        [first [ discriminate Hin1
               | enough (Hk : Keeps stored m) by apply Hk; unfold break, return_, with_status; keeps ] |]
    end.
    enough (Hk : Keeps stored (break (init_result (- PB_RESULT_INVALID_COMMAND) ;;; ret PB_OK) : I outcome))
      by apply Hk.
    unfold break. keeps. }
  destruct (cm_dispatch w1) as [o w2]. cbn [snd] in Hd. rewrite <- Hd.
  destruct o as [rc|rc]; [done|].
  match goal with H : forall rc, Keeps stored (parse_err_out rc) |- _ => apply H end.
Qed.

End storage.

(** ** Error codes, locking and buffers *)

(** [C38] A failure never looks like success to the host: the wire code of a
    return value is zero exactly for [PB_OK], is otherwise one of the negative
    protocol results, and arrives at the host with its sign. *)
Theorem error_to_wire_faithful (e : Z) :
  (error_to_wire e = PB_RESULT_OK <-> e = PB_OK) /\
  - PB_RESULT_END < error_to_wire e <= 0 /\
  rs_code (received pb_result_c (pb_wire_init_result (error_to_wire e))) = error_to_wire e.
Proof.
  assert (Hr : - PB_RESULT_END < error_to_wire e <= 0 /\ (error_to_wire e = PB_RESULT_OK <-> e = PB_OK)).
  { unfold error_to_wire.
    repeat match goal with |- context [if ?x =? ?y then _ else _] => destruct (Z.eqb_spec x y) as [->|] end;
      (split; [done | split; intros E; first [done | (exfalso; pbconst; lia)]]). }
  destruct Hr as [Hr Hz]. split_and!; [done | lia | lia |]. unfold received.
  rewrite (decode_cenc pb_result_c) by (apply wire_result_cwf; [done | apply bytes_zeros]).
  cbn [rs_code pb_wire_init_result]. apply s8_u8. pbconst. lia.
Qed.

(** The gate opens again at end of life: in every life cycle state other
    than "configuration locked" (the end-of-life state that follows it
    included) a host that has not authenticated can erase any partition it
    can name. *)
Theorem cm_erase_outside_locked (w : W) dev b :
  (forall p, transport_ok (tops (configs p))) ->
  slc (cmv w) <> PB_SLC_CONFIGURATION_LOCKED ->
  cm_magic (cmd (cmv w)) = PB_WIRE_MAGIC -> cm_command (cmd (cmv w)) = PB_CMD_PART_ERASE ->
  let c := request_as pb_command_erase_part_c (cmd (cmv w)) in
  blk_find (Some (ep_uuid c)) (r_blk (i_rest w)) = (dev, b) -> 0 <= dev ->
  r_blk (i_rest (pb_command_parse w).2) = (blk_erase dev (ep_start_lba c) (ep_block_count c) b).2.
Proof.
  intros Ht Hs Hm Hc c Hf Hd. unfold pb_command_parse, bind at 1, gets_cm at 1, gets at 1. unfold id.
  assert (pb_wire_valid_command (cmd (cmv w)) = true) as ->
    by (unfold pb_wire_valid_command; rewrite Hm, Hc; done).
  assert (auth_refused (cmv w) = false) as ->.
  { unfold auth_refused. rewrite (proj2 (Z.eqb_neq _ _) Hs). apply andb_false_r. }
  cbn [negb]. unfold bind at 1, init_result at 1. rewrite mod_cm_run. cbv beta iota.
  match goal with |- context [bind cm_dispatch _ ?x] => set (w1 := x) end.
  assert (E : cm_dispatch w1 = break (with_status (cmd_part_erase c)) w1).
  { unfold cm_dispatch, bind at 1, gets_cm at 1, gets at 1.
    change (cm_command (cmd (cmv w1))) with (cm_command (cmd (cmv w))). by rewrite Hc. }
  assert (Hb : r_blk (i_rest (cm_dispatch w1).2) = (blk_erase dev (ep_start_lba c) (ep_block_count c) b).2).
  { rewrite E. unfold break, with_status, cmd_part_erase, on_blk at 1. m_unfold.
    change (r_blk (i_rest w1)) with (r_blk (i_rest w)). rewrite Hf. destruct (Z.ltb_spec dev 0); [lia|].
    unfold on_blk, with_rest. cbn [i_rest r_blk].
    by destruct (blk_erase dev (ep_start_lba c) (ep_block_count c) b). }
  assert (Ho : exists rc, (cm_dispatch w1).1 = Break rc).
  { rewrite E. unfold break. m_unfold. destruct (with_status _ _). by eexists. }
  unfold bind at 1. destruct (cm_dispatch w1) as [o w2]. cbn [fst snd] in *. destruct Ho as [rc ->].
  rewrite <- Hb. pose proof (parse_err_out_spec Ht rc w2) as Hp. destruct (parse_err_out rc w2) as [rc' w3].
  destruct Hp as [Hp _]. cbn [snd]. by injection Hp as _ _ _ _ -> _.
Qed.

(** The buffer index of a stream read is not checked: with an index of 2
    or more (and a readable partition) the data that was read is stored in
    memory beyond the two transfer buffers. *)
Theorem cm_stream_read_overflows (w : W) fl b1 bs b2 data b3 :
  (forall p, transport_ok (tops (configs p))) ->
  let c := request_as pb_command_stream_read_buffer_c (cmd (cmv w)) in
  let dev := block_dev (cmv w) in
  blk_get_flags dev (r_blk (i_rest w)) = (fl, b1) -> Z.land fl BIO_FLAG_READABLE <> 0 ->
  blk_block_size dev b1 = (bs, b2) ->
  blk_read dev (u32 (usz (sr_offset c / u64 bs))) (sr_size c) b2 = ((PB_OK, data), b3) ->
  2 <= sr_buffer_id c -> 0 <= cm_buffer -> 0 <= BUF_SIZE ->
  cm_buffer + BUF_SIZE * sr_buffer_id c < 2 ^ ptr_bits ->
  let target := cm_buffer + BUF_SIZE * sr_buffer_id c in
  cm_buffer + 2 * BUF_SIZE <= target /\
  ram_read (i_ram (cmd_stream_read w).2) target (length data) = data.
Proof.
  intros Ht c dev Hfl Hrd Hbs Hre Hid Hcb Hbuf Hmax target. split; [unfold target; nia|].
  assert (Ha : buffer_at (sr_buffer_id c) = target) by (unfold buffer_at, target; apply usz_small; nia).
  unfold cmd_stream_read, request, gets_cm, on_blk. m_unfold. fold c. fold dev. rewrite Hfl.
  rewrite (proj2 (Z.eqb_neq _ _) Hrd). cbn [with_rest i_rest r_blk]. rewrite Hbs, Ha.
  unfold bio_read_to, on_blk, ram_put, init_result. m_unfold. cbn [with_rest i_rest r_blk]. rewrite Hre.
  cbv beta iota.
  unfold set_ram. m_unfold. cbv beta iota. rewrite !mod_cm_run. cbv beta iota.
  match goal with |- context [send_result ?x] => set (w1 := x) end.
  assert (Hk : forall bs (x : W), i_ram (cm_write bs x).2 = i_ram x).
  { intros bs' x. pose proof (but_hw_device _ (cm_write_hw Ht bs') x) as E. by injection E as _ _ -> _. }
  pose proof (but_hw_device _ (send_result_hw Ht) w1) as E. destruct (send_result w1) as [r w2].
  injection E as _ _ E _. unfold ram_get. m_unfold. change (PB_OK =? PB_OK) with true. cbv beta iota.
  specialize (Hk (ram_read (i_ram w2) target (Z.to_nat (sr_size c))) w2).
  destruct (cm_write _ w2) as [rc w3]. cbn [snd] in Hk. rewrite mod_cm_run. cbn [snd i_ram with_other with_rest].
  rewrite Hk, E. apply ram_write_in.
Qed.

End cm.

(** ** Command mode on the block layer of [Bio] *)

Section system.
Context {arch : Arch} {kc : Kconfig} {lay : Layout} {HC HR HS D HW : Type} {cd : CryptoDriver HC}
  {drv : BioDriver HW} {inst : InstallOps (bio_state HW)} {env : CmEnv HC HR HS (bio_state HW) D}.
Abbreviation W := (cm_world HC HR HS (bio_state HW) D).

(** The block layer's read operations are read-only if its driver's are. *)
Lemma bio_reads_only {T} (contents : HW -> T) :
  (forall f dev lba len h, contents (drv_read f dev lba len h).2 = contents h) ->
  reads_only (B := bio_state HW) (fun b => contents (bio_hw b)).
Proof.
  intros Hr.
  assert (Hc : forall dev, Keeps (fun b : bio_state HW => contents (bio_hw b)) (check_dev dev)).
  { intros dev b. by rewrite check_dev_spec. }
  assert (Hcall : forall f dev lba len, Keeps (fun b : bio_state HW => contents (bio_hw b))
                    (call_drv (drv_read f dev lba len))).
  { intros f dev lba len b. unfold call_drv. specialize (Hr f dev lba len (bio_hw b)).
    destruct (drv_read f dev lba len (bio_hw b)). exact Hr. }
  assert (Hl : forall dev lba len, Keeps (fun b : bio_state HW => contents (bio_hw b)) (check_lba_range dev lba len)).
  { intros. unfold check_lba_range. keeps. }
  split; intros; simpl; unfold bio_get_part_by_uu, bio_valid, bio_read, bio_get_flags, bio_get_uu,
    bio_get_description, bio_block_size, bio_get_no_of_blocks, bio_get_first_block, bio_get_last_block; keeps.
Qed.

Context {dl : DiskLaws (HW := HW)}.

Abbreviation bio_of w := (r_blk (i_rest w)).

(** [C37] A stream write is confined: if its size is a positive whole number of
    blocks and the block numbers it addresses do not wrap around 32 bits,
    executing a stream write command on a disk of whole blocks changes no byte
    outside of the partition that was selected by stream initialize, and
    changes nothing at all if that partition is not flagged writable.  (With a
    wrap-around it can leave the partition: [Bio.bio_write_wraps_outside].) *)
Theorem cm_stream_write_confined (w : W) :
  let c := request_as pb_command_stream_write_buffer_c (cmd (cmv w)) in
  let dev := block_dev (cmv w) in
  let d := dev_at (bio_of w) dev in
  let lba := u32 (usz (sw_offset c / u64 (ssz (block_sz d)))) in
  bio_rw (bio_of w) dev -> 0 < sw_size c < 2 ^ ptr_bits -> sw_size c mod disk_unit = 0 ->
  first_lba d + lba + sw_size c / disk_unit <= 2 ^ 32 ->
  let '(rc, w') := cmd_stream_write w in
  (forall off n, (off + n <= dev_off d \/ dev_off d + dev_len d <= off)%nat ->
     slice off n (disk_bytes (bio_hw (bio_of w'))) = slice off n (disk_bytes (bio_hw (bio_of w)))) /\
  (Z.land (flags d) BIO_FLAG_WRITABLE = 0 -> rc = - PB_ERR_IO /\ bio_of w' = bio_of w).
Proof.
  intros c dev d lba Hrw Hlen Hmod Hno. pose proof Hrw as (Hwf & Hok & _).
  unfold cmd_stream_write, request, gets_cm, on_blk. m_unfold. fold c. fold dev.
  simpl blk_get_flags. rewrite bio_get_flags_cases, Hok. fold d.
  assert (Hfl : Z.land (Z.land (flags d) 0xffff) BIO_FLAG_WRITABLE = Z.land (flags d) BIO_FLAG_WRITABLE)
    by (by rewrite <- Z.land_assoc).
  rewrite Hfl. destruct (Z.eqb_spec (Z.land (flags d) BIO_FLAG_WRITABLE) 0) as [Hz|Hnz].
  { unfold init_result. rewrite mod_cm_run. cbv beta iota. done. }
  cbn [with_rest i_rest r_blk]. simpl blk_block_size.
  assert (Hbs : bio_block_size dev (bio_of w) = (ssz (block_sz d), bio_of w)).
  { unfold bio_block_size. by rewrite checked_dev, Hok. }
  rewrite Hbs. unfold bio_write_from, ram_get, on_blk. m_unfold. cbn [with_rest i_rest r_blk i_ram].
  fold lba. simpl blk_write.
  set (buf := ram_read (i_ram w) _ _).
  assert (Hbl : Z.of_nat (length buf) = sw_size c) by (unfold buf; rewrite length_ram_read; apply Z2Nat.id, Z.lt_le_incl, Hlen).
  destruct (bio_write_confined dev lba buf (bio_of w)) as (rc & h' & E & _ & Hout);
    [done | apply Z.mod_pos_bound; lia | by rewrite Hbl | by rewrite Hbl | by rewrite Hbl |].
  rewrite Hbl in E.
  match goal with |- context [bio_write ?a ?l ?n ?bf ?b] =>
    change (bio_write a l n bf b) with (bio_write dev lba (sw_size c) buf (bio_of w)) end.
  rewrite E. unfold init_result. rewrite mod_cm_run. cbv beta iota.
  split; [exact Hout | done].
Qed.

End system.

(** ** An example system: two partitions on a RAM disk, a scripted host *)

Module ToyCm.
Import ToyImage.

(** A host script: the packets to be received, and whether a read is pending. *)
Record host := Host { pending : bool; packets : list (list Z) }.
Abbreviation W := (cm_world ToyCrypto.ctx (list Z) Z (bio_state RamDisk.disk) host).

Definition with_hw (h : host) (w : W) : W :=
  let y := r_other (i_rest w) in with_other (CmRest (c_vars y) (c_slc y) (c_du y) h) w.
Definition hw (w : W) : host := c_hw (r_other (i_rest w)).

Definition transport : cm_transport_ops W := {|
  t_init := None; t_connect := None; t_disconnect := None;
  t_read _ w := (PB_OK, with_hw (Host true (packets (hw w))) w);
  t_write _ w := (PB_OK, with_hw (Host false (packets (hw w))) w);
  t_complete w :=
    if pending (hw w) then
      match packets (hw w) with
      | p :: l => ((PB_OK, p), with_hw (Host false l) w)
      | [] => ((- PB_ERR, []), w)
      end
    else ((PB_OK, []), w)
|}.

(** The board accepts passwords that start with a 42. *)
Definition config : cm_config W := {|
  cfg_name := [116; 111; 121];
  cfg_status _ _ := ret (PB_OK, 0);
  cfg_password_auth := Some (fun a _ w => (if i_ram w a =? 42 then PB_OK else - PB_ERR, w));
  cfg_command _ _ _ _ _ := ret (PB_OK, 0);
  cfg_process := None;
  tops := transport
|}.

#[export] Instance install : InstallOps (bio_state RamDisk.disk) :=
  bio_install_ops (fun _ _ _ => ret (- PB_ERR)).

#[export] Instance env : CmEnv ToyCrypto.ctx (list Z) Z (bio_state RamDisk.disk) host := {|
  cm_keystore := ToyRot.keys;
  cm_digest0 := zeros 64;
  cm_drivers _ := BootDriver BOOT_SOURCE_BIO None (Some (ret 0)) None None None None None None (Some (ret tt));
  other_read_cbs _ _ _ := ret (- PB_ERR_IO, []);
  other_result_cbs _ rc := ret rc;
  configs _ := config;
  cm_buffer := 0x8000;
  PB_VERSION := [49];
  null_call := ret 0;
  poll_fuel := 4;
  cm_board_init := ret PB_OK;
  plat_get_us_tick := ret 0;
  plat_wdog_kick := ret tt;
  plat_get_unique_id := ret (PB_OK, [1]);
  platform_ns_uuid := zeros 16;
  CONFIG_CM_TRANSPORT_READY_TIMEOUT := 10
|}.

Definition my_uuid : uuid_t := 0x10 :: zeros 15.

Definition vars0 (c : pb_command) (s dev : Z) : cm_vars :=
  CmVars c (pb_wire_init_result 0) false s (zeros 64) my_uuid dev false 1.

Definition world (c : pb_command) (s dev : Z) (ps : list (list Z)) (ram : ram_t) : W :=
  ImgWorld ToyCrypto.state ToyRot.state ram (zeros 512)
    (BootRest RamDisk.two_parts
       (BootVars 1 bpak_init_header HdrStatic bpak_init_header 0 (-1) BOOT_SOURCE_BIO uuid_clear (zeros 64) NULL NULL 0)
       (CmRest (vars0 c s dev) (SlcState None 0) (DeviceUuidVars my_uuid) (Host false ps))).

Definition command (code : Z) (data : list Z) : pb_command := (pb_wire_init_command2 code data).2.

Lemma transport_fine p : transport_ok (tops (configs p)).
Proof.
  split; try done. intros w. simpl. destruct (pending (hw w)); [|done]. by destruct (packets (hw w)).
Qed.

Lemma env_fine : env_ok.
Proof.
  split; intros; simpl in *; simplify_eq; try done; try apply (transport_fine 0).
Qed.

End ToyCm.

(** ** Witnesses *)

Section witnesses.
Import ToyImage ToyCm.

Definition erase_all : pb_command :=
  command PB_CMD_PART_ERASE (cenc pb_command_erase_part_c (ErasePart RamDisk.uuB 4 4 (zeros 8))).

(** A locked device refuses to erase. *)
Lemma cm_auth_gate_witness :
  let w := world erase_all PB_SLC_CONFIGURATION_LOCKED 0 [] (fun _ => 0) in
  rs_code (result (cmv (pb_command_parse w).2)) = - PB_RESULT_NOT_AUTHENTICATED /\
  device_state (pb_command_parse w).2 = device_state w.
Proof.
  intros w. pose proof (cm_auth_gate transport_fine w eq_refl eq_refl ltac:(discriminate) ltac:(discriminate)) as H.
  destruct (pb_command_parse w) as [rc w']. destruct H as (H1 & H2 & _). exact (conj H2 H1).
Defined.

(** The same command on a device at end of life erases the partition. *)
Lemma cm_erase_outside_locked_witness :
  let w := world erase_all PB_SLC_EOL 0 [] (fun _ => 0) in
  authenticated (cmv w) = false /\
  r_blk (i_rest (pb_command_parse w).2) = (bio_erase 1 4 4 RamDisk.two_parts).2.
Proof.
  intros w. split; [reflexivity|].
  exact (cm_erase_outside_locked w 1 RamDisk.two_parts transport_fine ltac:(discriminate) eq_refl eq_refl
    ltac:(vm_compute; reflexivity) ltac:(lia)).
Defined.

Definition auth_command (method : Z) : pb_command :=
  command PB_CMD_AUTHENTICATE (cenc pb_command_authenticate_c (Authenticate method 4 0x52c1eda0 (zeros 25))).


(** The token: the key's data and the start of the digest of the UUID. *)
Definition token_ram : ram_t :=
  ram_write 0x8000 ([21; 22] ++ take 2 (digest HASH_SHA256 (uuid_text (uuid_unpack my_uuid)))) (fun _ => 0).

Lemma auth_token_sound_witness :
  let w := world (auth_command PB_AUTH_ASYM_TOKEN) PB_SLC_CONFIGURATION_LOCKED 0 [] token_ram in
  exists w', auth_token 0x52c1eda0 0x8000 4 w = (PB_OK, w') /\ key_active (i_rot w) 0x52c1eda0.
Proof.
  intros w. destruct (auth_token 0x52c1eda0 0x8000 4 w) as [rc w'] eqn:E.
  assert (rc = PB_OK) as -> by (change rc with ((rc, w').1); rewrite <- E; vm_compute; reflexivity).
  exists w'. split; [reflexivity|].
  refine (proj1 (auth_token_sound 0x52c1eda0 0x8000 4 w w' _ E)).
  apply (bool_decide_eq_true_1 (uuid_wf my_uuid)). vm_compute. reflexivity.
Defined.

(** Reading the partition table leaves the disk alone. *)
Lemma cm_read_only_commands_witness :
  let w := world (command PB_CMD_PART_TBL_READ []) PB_SLC_CONFIGURATION 0 [] (fun _ => 0) in
  stored (fun b => bio_hw b) (pb_command_parse w).2 = zeros 4096.
Proof.
  intros w.
  refine (cm_read_only_commands (fun b => bio_hw b) w transport_fine
    (bio_reads_only (fun h => h) _) eq_refl).
  intros f dev lba len h. simpl. by destruct (RamDisk.in_disk h lba len).
Defined.

Lemma cm_stream_read_overflows_witness :
  let c := command PB_CMD_STREAM_READ_BUFFER (cenc pb_command_stream_read_buffer_c (StreamRead 512 0 2 (zeros 19))) in
  let w := world c PB_SLC_CONFIGURATION 1 [] (fun _ => 7) in
  0x8000 + 2 * BUF_SIZE <= 0xa000 /\ ram_read (i_ram (cmd_stream_read w).2) 0xa000 512 = zeros 512.
Proof.
  intros c w.
  exact (cm_stream_read_overflows w 100 RamDisk.two_parts 512 RamDisk.two_parts (zeros 512) RamDisk.two_parts
    transport_fine eq_refl ltac:(vm_compute; discriminate) ltac:(vm_compute; reflexivity)
    ltac:(vm_compute; reflexivity) ltac:(vm_compute; discriminate) ltac:(vm_compute; discriminate)
    ltac:(vm_compute; discriminate) ltac:(vm_compute; reflexivity)).
Defined.

Lemma two_parts_rw : bio_rw RamDisk.two_parts 1.
Proof.
  split; [apply RamDisk.two_parts_wf|]. split_and!; try discriminate; vm_compute; reflexivity.
Qed.

(** A write to the second partition leaves the first four blocks alone. *)
Lemma cm_stream_write_confined_witness :
  let c := command PB_CMD_STREAM_WRITE_BUFFER (cenc pb_command_stream_write_buffer_c (StreamWrite 512 512 0 (zeros 19))) in
  let w := world c PB_SLC_CONFIGURATION 1 [] (fun _ => 7) in
  slice 0 2048 (bio_hw (r_blk (i_rest (cmd_stream_write w).2))) = slice 0 2048 (zeros 4096).
Proof.
  intros c w.
  pose proof (cm_stream_write_confined (dl := ram_laws) w two_parts_rw) as H.
  specialize (H ltac:(vm_compute; split; reflexivity) ltac:(vm_compute; reflexivity) ltac:(vm_compute; discriminate)).
  destruct (cmd_stream_write w) as [rc w']. destruct H as [H _].
  refine (H 0%nat 2048%nat _). left. apply Nat.leb_le. vm_compute. reflexivity.
Defined.

End witnesses.
