(* ===== verification/Host.v ===== *)
(** * The host tool

    [tools/punchboot/api*.c], the library behind the command line tool: every
    call of the protocol as the host makes it, and [tools/punchboot/socket.c],
    the transport to an emulated device.  A call is a program [prog] that
    sends to and receives from the device and uses files and memory of the
    host; what answers it is left open here.  The structures on the wire and
    the functions that build and check them are those of [Wire]. *)

From S2P Require Import Prelude Errors Uuid Bpak Wire.

(** ** Programs *)

(** [Send]: [ctx->write], its return code.  [Recv n]: [ctx->read] of [n]
    bytes, its return code and the bytes stored at the front of the buffer.
    [Malloc]: whether memory was found.  [Rewind]: whether
    [lseek(fd, 0, SEEK_SET)] succeeded.  [ReadFile n]: what [read] returned,
    [None] for a negative value.  [WriteFile]: the return value of [write]. *)
Inductive prog (A : Type) : Type :=
| Done (a : A)
| Send (bs : list Z) (k : Z -> prog A)
| Recv (n : Z) (k : Z -> list Z -> prog A)
| Malloc (n : Z) (k : bool -> prog A)
| Rewind (k : bool -> prog A)
| ReadFile (n : Z) (k : option (list Z) -> prog A)
| WriteFile (bs : list Z) (k : Z -> prog A).
Arguments Done {A}.
Arguments Send {A}.
Arguments Recv {A}.
Arguments Malloc {A}.
Arguments Rewind {A}.
Arguments ReadFile {A}.
Arguments WriteFile {A}.

Fixpoint pbind {A B} (m : prog A) (f : A -> prog B) : prog B :=
  match m with
  | Done a => f a
  | Send bs k => Send bs (fun rc => pbind (k rc) f)
  | Recv n k => Recv n (fun rc d => pbind (k rc d) f)
  | Malloc n k => Malloc n (fun b => pbind (k b) f)
  | Rewind k => Rewind (fun b => pbind (k b) f)
  | ReadFile n k => ReadFile n (fun d => pbind (k d) f)
  | WriteFile bs k => WriteFile bs (fun rc => pbind (k rc) f)
  end.

Declare Scope host_scope.
Delimit Scope host_scope with host.
Notation "x <- m ;; k" := (pbind m (fun x => k)) : host_scope.
Notation "'let*' p ':=' m 'in' k" := (pbind m (fun p => k)) : host_scope.
Notation "m ;;; k" := (pbind m (fun _ => k)) : host_scope.
Local Open Scope host_scope.

(** ** Data: [tools/punchboot/api.h] *)

Record pb_device_capabilities := DeviceCapabilities {
  caps_stream_no_of_buffers : Z;
  caps_stream_buffer_size : Z;
  caps_operation_timeout_ms : Z;
  caps_part_erase_timeout_ms : Z;
  caps_bpak_stream_support : Z;
  caps_chunk_transfer_max_bytes : Z
}.

Record pb_partition_table_entry := PartitionTableEntry {
  pe_uuid : list Z;
  pe_description : list Z;
  pe_first_block : Z;
  pe_last_block : Z;
  pe_block_size : Z;
  pe_flags : Z
}.

Section host.
(** The word size of the host, and what its uninitialised local variables of
    type [struct pb_result] and [struct pb_result_slc_key_status] and the
    partition table it allocates hold. *)
Context {harch : Arch} (stack_result stack_keys heap_table : list Z).

(** ** Commands and results *)

(** [ctx->read(ctx, &result, sizeof(result))] and the checks after it; [inl]:
    the function returns. *)
Definition read_result (result : list Z) : prog (Z + list Z) :=
  Recv (sizeof pb_result_c) (fun rc data =>
    if negb (rc =? PB_RESULT_OK) then Done (inl rc) else
    let result := splice 0 data result in
    if negb (pb_wire_valid_result (decode pb_result_c result)) then Done (inl (- PB_RESULT_ERROR))
    else Done (inr result)).

Definition write_bytes (bs : list Z) : prog Z := Send bs Done.

(** [ctx->write] of a command and the result it is answered with. *)
Definition transact (cmd : pb_command) : prog (Z + list Z) :=
  rc <- write_bytes (cenc pb_command_c cmd) ;;
  if negb (rc =? PB_RESULT_OK) then Done (inl rc) else read_result stack_result.

(** [m], from which the function returns with [early rc], or [k]. *)
Definition try {A} (m : prog (Z + list Z)) (early : Z -> A) (k : list Z -> prog A) : prog A :=
  r <- m ;; match r with inl rc => Done (early rc) | inr result => k result end.

Definition result_code (result : list Z) : Z := rs_code (decode pb_result_c result).
Definition response {T} (c : codec T) (result : list Z) : T := response_as c (decode pb_result_c result).

(** A command whose result only carries a return code. *)
Definition call (cmd : pb_command) : prog Z := try (transact cmd) id (fun result => Done (result_code result)).

(** [pb_wire_init_command2] on a request structure. *)
Definition command2 (code : Z) (data : list Z) : pb_command := snd (pb_wire_init_command2 code data).

(** ** [api_device.c], [api_misc.c] *)

Definition pb_api_device_reset : prog Z := call (pb_wire_init_command PB_CMD_DEVICE_RESET).

(** The second component is what is stored through the pointers, if anything. *)
Definition pb_api_device_read_identifier (device_uuid_size board_id_size : Z) : prog (Z * option (list Z * list Z)) :=
  try (transact (pb_wire_init_command PB_CMD_DEVICE_IDENTIFIER_READ)) (fun rc => (rc, None)) (fun result =>
  let ident := response pb_result_device_identifier_c result in
  if board_id_size <? 16 then Done (- PB_RESULT_NO_MEMORY, None) else
  if device_uuid_size <? 16 then Done (- PB_RESULT_NO_MEMORY, None) else
  Done (result_code result, Some (di_device_uuid ident, di_board_id ident))).

Definition pb_api_device_read_caps : prog (Z * option pb_device_capabilities) :=
  try (transact (pb_wire_init_command PB_CMD_DEVICE_READ_CAPS)) (fun rc => (rc, None)) (fun result =>
  let c := response pb_result_device_caps_c result in
  Done (result_code result, Some (DeviceCapabilities (dc_stream_no_of_buffers c) (dc_stream_buffer_size c)
    (dc_operation_timeout_ms c) (dc_part_erase_timeout_ms c) 0 (dc_chunk_transfer_max_bytes c)))).

(** [strlen] of the response; a response without a terminator ends with the
    structure here. *)
Definition pb_api_bootloader_version (size : Z) : prog (Z * option (list Z)) :=
  try (transact (pb_wire_init_command PB_CMD_BOOTLOADER_VERSION_READ)) (fun rc => (rc, None)) (fun result =>
  let p := c_string (rs_response (decode pb_result_c result)) in
  if size <? Z.of_nat (length p) + 1 then Done (- PB_RESULT_NO_MEMORY, None) else
  Done (result_code result, Some (splice 0 p (zeros (Z.to_nat size))))).

(** ** [api_authentication.c] *)

(** [data] is the [size] bytes at the pointer; more than 1024 of them run past
    [auth_buf], of which 1024 bytes are sent. *)
Definition internal_pb_api_authenticate (method key_id : Z) (data : list Z) : prog Z :=
  let size := Z.of_nat (length data) in
  let auth := Authenticate (u8 method) (u16 size) key_id (zeros 25) in
  let '(rc, cmd) := pb_wire_init_command2 PB_CMD_AUTHENTICATE (cenc pb_command_authenticate_c auth) in
  if negb (rc =? PB_RESULT_OK) then Done rc else
  try (transact cmd) id (fun result =>
  if negb (result_code result =? PB_RESULT_OK) then Done (result_code result) else
  if size =? 0 then Done (result_code result) else
  rc <- write_bytes (take 1024 (splice 0 data (zeros 1024))) ;;
  if negb (rc =? PB_RESULT_OK) then Done rc else
  try (read_result result) id (fun result => Done (result_code result))).

Definition pb_api_authenticate_password (data : list Z) : prog Z :=
  internal_pb_api_authenticate PB_AUTH_PASSWORD 0 data.

Definition pb_api_authenticate_key (key_id : Z) (data : list Z) : prog Z :=
  internal_pb_api_authenticate PB_AUTH_ASYM_TOKEN key_id data.

Definition pb_api_auth_set_password (password : list Z) : prog Z :=
  let '(rc, cmd) := pb_wire_init_command2 PB_CMD_AUTH_SET_PASSWORD password in
  if negb (rc =? PB_RESULT_OK) then Done (- PB_RESULT_ERROR) else call cmd.

(** ** [api_slc.c] *)

(** What is stored through [slc], and through [active_keys] and
    [revoked_keys]. *)
Definition pb_api_slc_read : prog (Z * option Z * option (list Z * list Z)) :=
  try (transact (pb_wire_init_command PB_CMD_SLC_READ)) (fun rc => (rc, None, None)) (fun result =>
  if negb (result_code result =? PB_RESULT_OK) then Done (result_code result, None, None) else
  let slc := rl_slc (response pb_result_slc_c result) in
  Recv (sizeof pb_result_slc_key_status_c) (fun rc data =>
  if negb (rc =? PB_RESULT_OK) then Done (rc, Some slc, None) else
  let key_status := decode pb_result_slc_key_status_c (splice 0 data stack_keys) in
  let keys := Some (ks_active key_status, ks_revoked key_status) in
  try (read_result result) (fun rc => (rc, Some slc, keys)) (fun result => Done (result_code result, Some slc, keys)))).

Definition pb_api_slc_set_configuration : prog Z := call (pb_wire_init_command PB_CMD_SLC_SET_CONFIGURATION).
Definition pb_api_slc_set_configuration_lock : prog Z := call (pb_wire_init_command PB_CMD_SLC_SET_CONFIGURATION_LOCK).
Definition pb_api_slc_set_end_of_life : prog Z := call (pb_wire_init_command PB_CMD_SLC_SET_EOL).
Definition pb_api_slc_revoke_key (key_id : Z) : prog Z :=
  call (command2 PB_CMD_SLC_REVOKE_KEY (cenc pb_command_revoke_key_c (RevokeKey key_id (zeros 28)))).

(** ** [api_board.c] *)

(** The second component: the new [*response_size] and the response. *)
Definition pb_api_board_command (board_command_id : Z) (req : list Z) (response_size : Z) : prog (Z * option (Z * list Z)) :=
  let request_size := Z.of_nat (length req) in
  if 1024 <? request_size then Done (- PB_RESULT_NO_MEMORY, None) else
  let board_command := BoardCommand board_command_id request_size (u32 response_size) (zeros 20) in
  try (transact (command2 PB_CMD_BOARD_COMMAND (cenc pb_command_board_c board_command))) (fun rc => (rc, None)) (fun result =>
  rc <- (if negb (request_size =? 0) then write_bytes (splice 0 req (zeros 1024)) else Done PB_RESULT_OK) ;;
  if negb (rc =? PB_RESULT_OK) then Done (rc, None) else
  try (read_result result) (fun rc => (rc, None)) (fun result =>
  let size := rbd_size (response pb_result_board_c result) in
  if response_size <? size then Done (- PB_RESULT_ERROR, None) else
  if size =? 0 then Done (result_code result, Some (0, [])) else
  Recv size (fun rc data =>
  if negb (rc =? PB_RESULT_OK) then Done (rc, Some (size, data)) else
  try (read_result result) (fun rc => (rc, Some (size, data))) (fun result =>
  Done (result_code result, Some (size, data)))))).

Definition pb_api_board_status (size : Z) : prog (Z * option (list Z)) :=
  try (transact (pb_wire_init_command PB_CMD_BOARD_STATUS_READ)) (fun rc => (rc, None)) (fun result =>
  let status_size := rbs_size (response pb_result_board_status_c result) in
  if negb (result_code result =? PB_RESULT_OK) then Done (result_code result, None) else
  if size <? status_size then Done (- PB_RESULT_ERROR, None) else
  Recv status_size (fun rc data =>
  if negb (rc =? PB_RESULT_OK) then Done (rc, Some data) else
  try (read_result result) (fun rc => (rc, Some data)) (fun result =>
  Done (result_code result, Some data)))).

(** ** [api_boot.c] *)

Definition pb_api_boot_activate (uuid : option uuid_t) : prog Z :=
  call (command2 PB_CMD_PART_ACTIVATE (cenc pb_command_activate_part_c (ActivatePart (default (zeros 16) uuid) (zeros 16)))).

Definition bool_byte (b : bool) : Z := if b then 1 else 0.

Definition pb_api_boot_part (uuid : uuid_t) (verbose : bool) : prog Z :=
  call (command2 PB_CMD_BOOT_PART (cenc pb_command_boot_part_c (BootPart uuid (bool_byte verbose) (zeros 15)))).

(** The [while (bytes_to_transfer)] loop over a part; each chunk but the last
    has the size the device asks for, and the number of bytes is enough
    iterations unless that is zero. *)
Fixpoint write_chunks (fuel : nat) (chunk_max : Z) (part : list Z) : prog Z :=
  match fuel with
  | O => Done PB_RESULT_OK
  | S fuel =>
      if Z.of_nat (length part) =? 0 then Done PB_RESULT_OK else
      let chunk := if chunk_max <? Z.of_nat (length part) then chunk_max else Z.of_nat (length part) in
      rc <- write_bytes (take (Z.to_nat chunk) part) ;;
      if negb (rc =? PB_RESULT_OK) then Done rc else
      write_chunks fuel chunk_max (drop (Z.to_nat chunk) part)
  end.

(** [bpak_foreach_part]: each part is streamed and answered with a result,
    whose code is not looked at. *)
Fixpoint stream_parts (chunk_max : Z) (image : list Z) (header : bpak_header) (l : list bpak_part_header)
    (result : list Z) : prog (Z + list Z) :=
  match l with
  | [] => Done (inr result)
  | p :: l =>
      if part_id p =? 0 then Done (inr result) else
      let part := slice (Z.to_nat (bpak_part_offset header p)) (Z.to_nat (bpak_part_size p)) image in
      rc <- write_chunks (length part) chunk_max part ;;
      if negb (rc =? PB_RESULT_OK) then Done (inl rc) else
      r <- read_result result ;;
      match r with inl rc => Done (inl rc) | inr result => stream_parts chunk_max image header l result end
  end.

(** [bpak_image] is the memory from the header on. *)
Definition pb_api_boot_bpak (bpak_image : list Z) (uuid : option uuid_t) (verbose : bool) : prog Z :=
  let* (rc, caps) := pb_api_device_read_caps in
  if negb (rc =? PB_RESULT_OK) then Done rc else
  let chunk_max := caps_chunk_transfer_max_bytes (default (DeviceCapabilities 0 0 0 0 0 0) caps) in
  let hdr := take (csize bpak_header_c) bpak_image in
  let header := decode bpak_header_c hdr in
  if negb (bpak_valid_header header =? BPAK_OK) then Done (- PB_RESULT_ERROR) else
  let boot_cmd := BpakBoot (bool_byte verbose) (default (zeros 16) uuid) (zeros 15) in
  try (transact (command2 PB_CMD_BOOT_BPAK (cenc pb_command_bpak_boot_c boot_cmd))) id (fun result =>
  if negb (result_code result =? PB_RESULT_OK) then Done (result_code result) else
  rc <- write_bytes hdr ;;
  if negb (rc =? PB_RESULT_OK) then Done rc else
  try (read_result result) id (fun result =>
  if negb (result_code result =? PB_RESULT_OK) then Done (result_code result) else
  try (stream_parts chunk_max bpak_image header (h_parts header) result) id (fun result =>
  try (read_result result) id (fun result => Done (result_code result))))).

(** The second component: the status and the UUID that are stored. *)
Definition pb_api_boot_status (len : Z) : prog (Z * option (list Z * list Z)) :=
  try (transact (pb_wire_init_command PB_CMD_BOOT_STATUS)) (fun rc => (rc, None)) (fun result =>
  let boot_status := response pb_result_boot_status_c result in
  Done (result_code result, Some (take (Z.to_nat (Z.min len 16)) (rbt_status boot_status), rbt_uuid boot_status))).

(** ** [api_stream.c] *)

Definition pb_api_stream_init (uuid : uuid_t) : prog Z :=
  call (command2 PB_CMD_STREAM_INITIALIZE (cenc pb_command_stream_initialize_c (StreamInitialize uuid (zeros 16)))).

(** [data] is the [size] bytes at the pointer.  The code of the first result
    is not looked at. *)
Definition pb_api_stream_prepare_buffer (buffer_id : Z) (data : list Z) : prog Z :=
  let size := u32 (Z.of_nat (length data)) in
  try (transact (command2 PB_CMD_STREAM_PREPARE_BUFFER
                   (cenc pb_command_stream_prepare_buffer_c (StreamPrepare size (u8 buffer_id) (zeros 27))))) id (fun result =>
  rc <- write_bytes (take (Z.to_nat size) data) ;;
  if negb (rc =? PB_RESULT_OK) then Done rc else
  try (read_result result) id (fun result => Done (result_code result))).

Definition pb_api_stream_write_buffer (buffer_id offset size : Z) : prog Z :=
  call (command2 PB_CMD_STREAM_WRITE_BUFFER
    (cenc pb_command_stream_write_buffer_c (StreamWrite (u32 size) (u64 offset) (u8 buffer_id) (zeros 19)))).

(** The second component: what is stored at [data]. *)
Definition pb_api_stream_read_buffer (buffer_id offset size : Z) : prog (Z * list Z) :=
  try (transact (command2 PB_CMD_STREAM_READ_BUFFER
    (cenc pb_command_stream_read_buffer_c (StreamRead (u32 size) (u64 offset) (u8 buffer_id) (zeros 19))))) (fun rc => (rc, [])) (fun result =>
  if negb (result_code result =? PB_RESULT_OK) then Done (result_code result, []) else
  Recv (u32 size) (fun rc data =>
  if negb (rc =? PB_RESULT_OK) then Done (rc, data) else
  try (read_result result) (fun rc => (rc, data)) (fun result => Done (result_code result, data)))).

Definition pb_api_stream_finalize : prog Z := call (pb_wire_init_command PB_CMD_STREAM_FINALIZE).

(** ** [api_partition.c] *)

(** [tbl[i]] of the received table. *)
Definition table_entry (tbl : list Z) (i : nat) : pb_result_part_table_entry :=
  decode pb_result_part_table_entry_c (drop (i * csize pb_result_part_table_entry_c) tbl).

(** Copying an entry: byte 36 of the description keeps what it held. *)
Definition copy_entry (e : pb_result_part_table_entry) (out : pb_partition_table_entry) : pb_partition_table_entry :=
  PartitionTableEntry (te_uuid e) (splice 0 (strncpy_z 36 36 (c_string (te_description e))) (pe_description out))
    (te_first_block e) (te_last_block e) (te_block_size e) (te_flags e).

Fixpoint copy_entries (n i : nat) (tbl : list Z) (out : list pb_partition_table_entry) : list pb_partition_table_entry :=
  match n with
  | O => out
  | S n => copy_entries n (S i) tbl (alter (copy_entry (table_entry tbl i)) i out)
  end.

(** What [malloc] returns for the table is used unchecked.  [out] is the array
    of [entries] at the pointer; the second component its contents and the new
    value of [*entries]. *)
Definition pb_api_partition_read_table (out : list pb_partition_table_entry) (entries : Z)
    : prog (Z * list pb_partition_table_entry * Z) :=
  try (transact (pb_wire_init_command PB_CMD_PART_TBL_READ)) (fun rc => (rc, out, entries)) (fun result =>
  if negb (result_code result =? PB_RESULT_OK) then Done (result_code result, out, entries) else
  let no_of_entries := tr_no_of_entries (response pb_result_part_table_read_c result) in
  let bytes_to_read := no_of_entries * sizeof pb_result_part_table_entry_c in
  if entries <? no_of_entries then Done (- PB_RESULT_NO_MEMORY, out, entries) else
  Malloc (bytes_to_read + 1) (fun _ =>
  let* (rc, tbl) := (if no_of_entries =? 0 then Done (PB_RESULT_OK, heap_table)
                     else Recv bytes_to_read (fun rc data => Done (rc, splice 0 data heap_table))) in
  if negb (rc =? PB_RESULT_OK) then Done (rc, out, entries) else
  try (read_result result) (fun rc => (rc, out, no_of_entries)) (fun result =>
  Done (result_code result, copy_entries (Z.to_nat no_of_entries) 0 tbl out, no_of_entries)))).

Definition pb_api_partition_install_table (uu : uuid_t) (variant : Z) : prog Z :=
  call (command2 PB_CMD_PART_TBL_INSTALL (cenc pb_command_install_part_table_c (InstallPartTable uu variant))).

Definition pb_api_partition_verify (uuid : uuid_t) (sha256 : list Z) (size : Z) (bpak : bool) : prog Z :=
  call (command2 PB_CMD_PART_VERIFY (cenc pb_command_verify_part_c (VerifyPart uuid sha256 size (bool_byte bpak) (zeros 2)))).

Definition pb_api_partition_read_bpak (uuid : uuid_t) : prog (Z * option (list Z)) :=
  try (transact (command2 PB_CMD_PART_BPAK_READ (cenc pb_command_read_bpak_c (ReadBpak uuid (zeros 16))))) (fun rc => (rc, None)) (fun result =>
  if negb (result_code result =? PB_RESULT_OK) then Done (result_code result, None) else
  Recv (sizeof bpak_header_c) (fun rc data =>
  if negb (rc =? PB_RESULT_OK) then Done (rc, Some data) else
  try (read_result result) (fun rc => (rc, Some data)) (fun result => Done (result_code result, Some data)))).

Definition pb_api_partition_erase (uuid : uuid_t) (start_lba block_count : Z) : prog Z :=
  call (command2 PB_CMD_PART_ERASE (cenc pb_command_erase_part_c (ErasePart uuid start_lba block_count (zeros 8)))).

(** [out0]: what the array from [malloc] holds. *)
Definition read_part_table (out0 : list pb_partition_table_entry) : prog (Z * list pb_partition_table_entry * Z) :=
  Malloc 256 (fun ok =>
  if negb ok then Done (- PB_RESULT_NO_MEMORY, [], 0) else
  let* (rc, tbl, read_entries) := pb_api_partition_read_table out0 256 in
  if negb (rc =? PB_RESULT_OK) then Done (rc, [], 0) else
  if read_entries =? 0 then Done (- PB_RESULT_ERROR, [], 0) else
  Done (PB_RESULT_OK, tbl, read_entries)).

(** The search of both transfers: the size of the first entry with the UUID. *)
Definition entry_size (e : pb_partition_table_entry) : Z :=
  usz (u64 ((pe_last_block e - pe_first_block e + 1) * pe_block_size e)).
Fixpoint find_entry (uuid : uuid_t) (l : list pb_partition_table_entry) : option pb_partition_table_entry :=
  match l with
  | [] => None
  | e :: l => if memcmp (pe_uuid e) uuid 16 =? 0 then Some e else find_entry uuid l
  end.

(** [(buffer_id + 1) % caps.stream_no_of_buffers]; a device that reports no
    buffers makes the division trap. *)
Definition next_buffer (buffer_id : Z) (caps : pb_device_capabilities) : Z :=
  (buffer_id + 1) mod caps_stream_no_of_buffers caps.

(** One chunk into the buffer and from there to the partition. *)
Definition write_chunk (buffer_id offset : Z) (data : list Z) : prog Z :=
  rc <- pb_api_stream_prepare_buffer buffer_id data ;;
  if negb (rc =? PB_RESULT_OK) then Done rc else
  pb_api_stream_write_buffer buffer_id offset (Z.of_nat (length data)).

(** [while ((read_bytes = read(..)) > 0)]; [fuel]: how many chunks are read. *)
Fixpoint write_file (fuel : nat) (caps : pb_device_capabilities) (buffer_id offset rc : Z) : prog Z :=
  match fuel with
  | O => Done rc
  | S fuel =>
      ReadFile (caps_chunk_transfer_max_bytes caps) (fun data =>
      match data with
      | None => Done (- PB_RESULT_IO_ERROR)
      | Some [] => Done rc
      | Some data =>
          rc <- write_chunk buffer_id offset data ;;
          if negb (rc =? PB_RESULT_OK) then Done rc else
          write_file fuel caps (u8 (next_buffer buffer_id caps)) (usz (offset + Z.of_nat (length data))) rc
      end)
  end.

(** From stream initialisation to the label [err_free_buf]. *)
Definition write_stream (fuel : nat) (uuid : uuid_t) (caps : pb_device_capabilities) (part_size : Z) : prog Z :=
  rc <- pb_api_stream_init uuid ;;
  if negb (rc =? PB_RESULT_OK) then Done rc else
  ReadFile (sizeof bpak_header_c) (fun data =>
  match data with
  | None => Done (- PB_RESULT_IO_ERROR)
  | Some header =>
      if (Z.of_nat (length header) =? sizeof bpak_header_c) && (bpak_valid_header (decode bpak_header_c header) =? BPAK_OK)
      then
        rc <- write_chunk 0 (usz (part_size - sizeof bpak_header_c)) header ;;
        if negb (rc =? PB_RESULT_OK) then Done rc else
        write_file fuel caps (u8 (next_buffer 0 caps)) 0 rc
      else Rewind (fun _ => write_file fuel caps 0 0 rc)
  end).

(** What follows reading the table: the search, the stream and the end of it. *)
Definition write_found (fuel : nat) (uuid : uuid_t) (caps : pb_device_capabilities)
    (table : Z * list pb_partition_table_entry * Z) : prog Z :=
  let '(rc, tbl, tbl_entries) := table in
  rc <- (if negb (rc =? PB_RESULT_OK) then Done rc else
         match find_entry uuid (take (Z.to_nat tbl_entries) tbl) with
         | None => Done (- PB_RESULT_NOT_FOUND)
         | Some e => write_stream fuel uuid caps (entry_size e)
         end) ;;
  pb_api_stream_finalize ;;;
  Done rc.

(** What follows reading the capabilities. *)
Definition write_partition (fuel : nat) (out0 : list pb_partition_table_entry) (uuid : uuid_t)
    (answer : Z * option pb_device_capabilities) : prog Z :=
  let '(rc, caps) := answer in
  if negb (rc =? PB_RESULT_OK) then Done rc else
  let caps := default (DeviceCapabilities 0 0 0 0 0 0) caps in
  Malloc (caps_chunk_transfer_max_bytes caps) (fun ok =>
  if negb ok then Done (- PB_RESULT_MEM_ERROR) else
  table <- read_part_table out0 ;; write_found fuel uuid caps table).

Definition pb_api_partition_write (fuel : nat) (out0 : list pb_partition_table_entry) (uuid : uuid_t) : prog Z :=
  Rewind (fun ok =>
  if negb ok then Done (- PB_RESULT_IO_ERROR) else
  answer <- pb_api_device_read_caps ;; write_partition fuel out0 uuid answer).

(** The [do .. while] loop. *)
Fixpoint read_to_file (fuel : nat) (caps : pb_device_capabilities) (buffer_id offset bytes_left rc : Z) : prog Z :=
  match fuel with
  | O => Done rc
  | S fuel =>
      let chunk_size := caps_chunk_transfer_max_bytes caps in
      let to_read := if chunk_size <? bytes_left then chunk_size else bytes_left in
      let* (rc, buffer) := pb_api_stream_read_buffer buffer_id offset to_read in
      if negb (rc =? PB_RESULT_OK) then Done rc else
      WriteFile (take (Z.to_nat to_read) buffer) (fun bytes_written =>
      if negb (bytes_written =? to_read) then Done (- PB_RESULT_IO_ERROR) else
      let bytes_left := bytes_left - to_read in
      if 0 <? bytes_left
      then read_to_file fuel caps (next_buffer buffer_id caps) (usz (offset + to_read)) bytes_left rc
      else Done rc)
  end.

(** What follows reading the table, without a stream to end when there is no
    such partition. *)
Definition read_found (fuel : nat) (uuid : uuid_t) (caps : pb_device_capabilities)
    (table : Z * list pb_partition_table_entry * Z) : prog Z :=
  let '(rc, tbl, entries) := table in
  if negb (rc =? PB_RESULT_OK) then Done rc else
  if entries =? 0 then Done rc else
  match find_entry uuid (take (Z.to_nat entries) tbl) with
  | None => Done (- PB_RESULT_NOT_FOUND)
  | Some e =>
      rc <- pb_api_stream_init uuid ;;
      if negb (rc =? PB_RESULT_OK) then Done rc else
      rc <- read_to_file fuel caps 0 0 (entry_size e) PB_RESULT_OK ;;
      pb_api_stream_finalize ;;;
      Done rc
  end.

(** What follows reading the capabilities. *)
Definition read_partition (fuel : nat) (out0 : list pb_partition_table_entry) (uuid : uuid_t)
    (answer : Z * option pb_device_capabilities) : prog Z :=
  let '(rc, caps) := answer in
  if negb (rc =? PB_RESULT_OK) then Done rc else
  let caps := default (DeviceCapabilities 0 0 0 0 0 0) caps in
  Malloc (caps_chunk_transfer_max_bytes caps) (fun ok =>
  if negb ok then Done (- PB_RESULT_NO_MEMORY) else
  Malloc 128 (fun ok =>
  if negb ok then Done (- PB_RESULT_NO_MEMORY) else
  table <- pb_api_partition_read_table out0 128 ;; read_found fuel uuid caps table)).

Definition pb_api_partition_read (fuel : nat) (out0 : list pb_partition_table_entry) (uuid : option uuid_t) : prog Z :=
  match uuid with
  | None => Done (- PB_RESULT_INVALID_ARGUMENT)
  | Some uuid => Rewind (fun _ => answer <- pb_api_device_read_caps ;; read_partition fuel out0 uuid answer)
  end.
End host.

(** ** [socket.c]

    The loops around [read] and [write] of the socket; [None] and a negative
    number are their errors.  [stores]: the bytes each [read] has stored, with
    their distance from the start of the buffer. *)

Section socket.
Context {S : Type} (sys_read : Z -> M S (option (list Z))) (sys_write : list Z -> M S Z).
Local Open Scope c_scope.

(** [bytes_to_xfer] is a [size_t]: it wraps around when more arrives than was
    left.  [fuel]: how many system calls are followed. *)
Fixpoint socket_read_loop `{Arch} (fuel : nat) (sz bytes_to_xfer buf_p : Z) (stores : list (Z * list Z)) : M S (option Z * list (Z * list Z)) :=
  match fuel with
  | O => ret (None, stores)
  | Datatypes.S fuel =>
      if bytes_to_xfer =? 0 then ret (Some 0, stores) else
      bytes <- sys_read sz ;;
      match bytes with
      | None => ret (Some (- PB_RESULT_ERROR), stores)
      | Some data =>
          socket_read_loop fuel sz (usz (bytes_to_xfer - Z.of_nat (length data))) (buf_p + Z.of_nat (length data)) (stores ++ [(buf_p, data)])
      end
  end.
Definition pb_socket_read `{Arch} (fuel : nat) (sz : Z) : M S (option Z * list (Z * list Z)) := socket_read_loop fuel sz sz 0 [].

Fixpoint socket_write_loop `{Arch} (fuel : nat) (bfr : list Z) (bytes_to_xfer : Z) : M S (option Z) :=
  match fuel with
  | O => ret None
  | Datatypes.S fuel =>
      if bytes_to_xfer =? 0 then ret (Some 0) else
      bytes <- sys_write bfr ;;
      if bytes <? 0 then ret (Some (- PB_RESULT_ERROR)) else
      socket_write_loop fuel bfr (usz (bytes_to_xfer - bytes))
  end.
Definition pb_socket_write `{Arch} (fuel : nat) (bfr : list Z) : M S (option Z) := socket_write_loop fuel bfr (Z.of_nat (length bfr)).
End socket.

(** A peer: the bytes it has received, and how many it takes at each call. *)
Record peer := Peer { p_stream : list Z; p_takes : list nat }.
Definition peer_write (bs : list Z) : M peer Z := fun p =>
  match p_takes p with
  | [] => (Z.of_nat (length bs), Peer (p_stream p ++ bs) [])
  | n :: ns => (Z.of_nat (length (take n bs)), Peer (p_stream p ++ take n bs) ns)
  end.

(** A transfer the peer takes at once arrives as it is. *)
Lemma pb_socket_write_whole `{Arch} bfr s : (0 < length bfr)%nat ->
  pb_socket_write peer_write 2 bfr (Peer s []) = (Some 0, Peer (s ++ bfr) []).
Proof.
  intros Hl. unfold pb_socket_write. cbn [socket_write_loop]. destruct (Z.eqb_spec (Z.of_nat (length bfr)) 0); [lia|].
  unfold bind. cbn [peer_write p_takes p_stream]. destruct (Z.ltb_spec (Z.of_nat (length bfr)) 0); [lia|].
  by rewrite Z.sub_diag.
Qed.

(** After a short [write] the loop starts over at the first byte: the peer
    receives the beginning twice. *)
Lemma pb_socket_write_repeats `{Arch} :
  pb_socket_write peer_write 3 [1; 2; 3; 4] (Peer [] [2%nat; 2%nat]) = (Some 0, Peer [1; 2; 1; 2] []).
Proof. destruct H as [b [->| ->]]; reflexivity. Qed.
