(* ===== verification/HostLink.v ===== *)
(** * The host tool and the device together

    A call of the host library ([Host]) running against command mode ([Cm]):
    the transport of the device hands its packets to the host program and
    takes the packets the host sends, in the order in which the two sides
    wait for each other.  The theorems say what a transfer made by the host
    does to the storage of the device. *)

From Stdlib Require Import FunctionalExtensionality.
From S2P Require Import Prelude Errors Ram Uuid Bio BlockIface Bpak Crypto DeviceUuid Rot Image.
From S2P Require Import Boot Wire Cm CmSafety Host.
Local Open Scope c_scope.

(** ** The host at the other end of the transport *)

(** The file of the host: its contents and the position that [read] and
    [write] share. *)
Record file := File { f_data : list Z; f_pos : nat }.

(** A [read] that returned the bytes [d]. *)
Definition advance (d : list Z) (f : file) : file := File (f_data f) (f_pos f + length d).

(** A [write] of [d]: it replaces the bytes at the position, a file that ends
    before the position is first extended with zeros, and the position moves
    behind the bytes written. *)
Definition overwrite (d : list Z) (f : file) : file :=
  File (splice (f_pos f) d (f_data f ++ zeros (f_pos f - length (f_data f)))) (f_pos f + length d).

(** Files and memory of the host work; the program runs until it sends,
    receives or ends. *)
Fixpoint settle (p : prog Z) (f : file) : prog Z * file :=
  match p with
  | Malloc _ k => settle (k true) f
  | Rewind k => settle (k true) (File (f_data f) 0)
  | ReadFile n k =>
      let d := take (Z.to_nat n) (drop (f_pos f) (f_data f)) in
      settle (k (Some d)) (advance d f)
  | WriteFile bs k => settle (k (Z.of_nat (length bs))) (overwrite bs f)
  | p => (p, f)
  end.

(** The file starts with a header: its payload goes to the start of the
    partition and the header to its end.  Other files are written as they
    are. *)
Definition starts_with_header (data : list Z) : bool :=
  (Z.of_nat (length (take 4096 data)) =? 4096) && (bpak_valid_header (decode bpak_header_c (take 4096 data)) =? BPAK_OK).
Definition installed (data part : list Z) : list Z :=
  if starts_with_header data then splice 0 (drop 4096 data) (splice (length part - 4096) (take 4096 data) part)
  else splice 0 data part.

(** The transfer the device has started. *)
Inductive xfer := XNone | XRead (n : Z) | XWrite (bs : list Z).

Record link := Link { l_host : prog Z; l_file : file; l_xfer : xfer }.

Definition at_host (p : prog Z) (f : file) : link := let '(p, f) := settle p f in Link p f XNone.

(** The word size of the host, which need not be the one of the device. *)
Record host_word := HostWord { hw_arch : Arch }.

(** A transfer completes when the host waits for it. *)
Definition link_complete (l : link) : (Z * list Z) * link :=
  match l_xfer l, l_host l with
  | XWrite bs, Recv n k => ((PB_OK, []), at_host (k PB_RESULT_OK (take (Z.to_nat n) bs)) (l_file l))
  | XRead n, Send bs k => ((PB_OK, take (Z.to_nat n) bs), at_host (k PB_RESULT_OK) (l_file l))
  | _, _ => ((- PB_ERR_AGAIN, []), l)
  end.

Lemma pbind_assoc {A B C} (m : prog A) (g : A -> prog B) (h : B -> prog C) :
  pbind (pbind m g) h = pbind m (fun x => pbind (g x) h).
Proof. induction m; cbn; f_equal; repeat (apply functional_extensionality; intros); done. Qed.

(** A write inside of a part of a list, seen from the part. *)
Lemma slice_splice_inside off n k (buf l : list Z) :
  (off + n <= length l)%nat -> (k + length buf <= n)%nat ->
  slice off n (splice (off + k) buf l) = splice k buf (slice off n l).
Proof.
  intros Hl Hk. unfold slice, splice. rewrite drop_app_le by (rewrite length_take; lia).
  rewrite skipn_firstn_comm. replace (off + k - off)%nat with k by lia.
  rewrite take_app, take_take, length_take, length_drop. replace (min n k) with k by lia.
  rewrite (take_take _ k n). replace (min k n) with k by lia. f_equal.
  replace (n - min k (length l - off))%nat with (n - k)%nat by lia. rewrite take_app, (take_ge buf) by lia. f_equal.
  rewrite skipn_firstn_comm, drop_drop. replace (n - k - length buf)%nat with (n - (k + length buf))%nat by lia.
  do 2 f_equal. lia.
Qed.

Section link.
Context {arch : Arch} {kc : Kconfig} {lay : Layout} {HC HR HS HW : Type} {cd : CryptoDriver HC}
  {drv : BioDriver HW} {dl : DiskLaws (HW := HW)} {inst : InstallOps (bio_state HW)} {env : CmEnv HC HR HS (bio_state HW) link}.
Abbreviation W := (cm_world HC HR HS (bio_state HW) link).

Definition on_link {A} (m : M link A) : M W A :=
  fun w => let y := r_other (i_rest w) in let '(a, l) := m (c_hw y) in
    (a, with_other (CmRest (c_vars y) (c_slc y) (c_du y) l) w).

Definition link_ops : cm_transport_ops W := {|
  t_init := None; t_connect := None; t_disconnect := None;
  t_read n := on_link (fun l => (PB_OK, Link (l_host l) (l_file l) (XRead n)));
  t_write bs := on_link (fun l => (PB_OK, Link (l_host l) (l_file l) (XWrite bs)));
  t_complete := on_link link_complete
|}.

(** The device is connected to the host, its watchdog and process hook leave
    the state alone, its two transfer buffers lie in the address space and
    hold whole blocks, whose size fits into the 16 bits it has on the wire. *)
Class LinkEnv : Prop := {
  link_tops : forall p, tops (configs p) = link_ops;
  link_process : forall p, cfg_process (configs p) = None;
  link_wdog : forall w : W, plat_wdog_kick w = (tt, w);
  link_polls : (0 < poll_fuel)%nat;
  link_buffers : 0 <= cm_buffer /\ cm_buffer + 2 * BUF_SIZE <= 2 ^ ptr_bits;
  link_buf_size : 4096 <= BUF_SIZE < 2 ^ 31;
  link_unit : disk_unit < 2 ^ 16;
  link_chunk : BUF_SIZE mod disk_unit = 0;
  link_devs : 0 <= CONFIG_BIO_MAX_DEVS < 256
}.
Context {le : LinkEnv}.

(** ** Packets *)

(** The parts of the world that the commands below leave alone. *)
Context (cry : crypto_state HC) (rot : rot_state HR) (sig : list Z) (boot : boot_vars) (slcs : slc_state HS)
  (du : device_uuid_vars).
Implicit Types (ram : ram_t) (blk : bio_state HW) (v : cm_vars) (f : file).

Definition mk ram blk v (l : link) : W :=
  ImgWorld cry rot ram sig (BootRest blk boot (CmRest v slcs du l)).

Lemma complete_once fuel l acc d l' ram blk v :
  link_complete l = ((PB_OK, d), l') ->
  complete_loop (S fuel) acc (mk ram blk v l) = ((PB_OK, splice 0 d acc), mk ram blk v l').
Proof.
  intros E. cbn [complete_loop]. unfold with_cfg, bind, get, gets. rewrite link_tops. cbn [t_complete link_ops].
  unfold on_link. cbn [mk r_other i_rest c_hw]. rewrite E. done.
Qed.

Lemma cm_write_run bs n k f x ram blk v :
  cm_write bs (mk ram blk v (Link (Recv n k) f x)) =
    (PB_OK, mk ram blk v (at_host (k PB_RESULT_OK (take (Z.to_nat n) bs)) f)).
Proof.
  pose proof link_polls. unfold cm_write, with_cfg, bind, get, gets. rewrite link_tops. cbn [t_write link_ops].
  unfold on_link at 1. cbn [mk r_other i_rest c_hw]. cbn [PB_OK Z.eqb negb].
  destruct poll_fuel as [|fuel]; [lia|].
  change (with_other _ _) with (mk ram blk v (Link (Recv n k) f (XWrite bs))).
  by erewrite complete_once by reflexivity.
Qed.

Lemma cm_read_run m bs k f x ram blk v :
  cm_read_bytes m (mk ram blk v (Link (Send bs k) f x)) =
    ((PB_OK, take (Z.to_nat m) bs), mk ram blk v (at_host (k PB_RESULT_OK) f)).
Proof.
  pose proof link_polls. unfold cm_read_bytes, with_cfg, bind, get, gets. rewrite link_tops. cbn [t_read link_ops].
  unfold on_link at 1. cbn [mk r_other i_rest c_hw]. cbn [PB_OK Z.eqb negb].
  destruct poll_fuel as [|fuel]; [lia|].
  change (with_other _ _) with (mk ram blk v (Link (Send bs k) f (XRead m))).
  erewrite complete_once by reflexivity. unfold splice. by rewrite drop_nil, app_nil_r.
Qed.

Lemma mod_cm_mk g ram blk v l : mod_cm g (mk ram blk v l) = (tt, mk ram blk (g v) l).
Proof. done. Qed.

Lemma init_result_mk code ram blk v l : init_result code (mk ram blk v l) = (tt, mk ram blk (set_result (pb_wire_init_result code) v) l).
Proof. done. Qed.

Lemma gets_cm_mk {A} (g : cm_vars -> A) ram blk v l : gets_cm g (mk ram blk v l) = (g v, mk ram blk v l).
Proof. done. Qed.

Lemma request_mk {T} (c : codec T) ram blk v l : request c (mk ram blk v l) = (request_as c (cmd v), mk ram blk v l).
Proof. done. Qed.

Lemma on_blk_mk {A} (m : M (bio_state HW) A) ram blk v l a b : m blk = (a, b) -> on_blk m (mk ram blk v l) = (a, mk ram b v l).
Proof. intros E. unfold on_blk. cbn [mk i_rest r_blk]. by rewrite E. Qed.

Lemma send_result_run n k f x ram blk v : cwf pb_result_c (result v) ->
  send_result (mk ram blk v (Link (Recv n k) f x)) =
    (PB_OK, mk ram blk v (at_host (k PB_RESULT_OK (take (Z.to_nat n) (cenc pb_result_c (result v)))) f)).
Proof. intros Hc. unfold send_result, bind, gets_cm, gets. cbn [mk cmv c_vars r_other i_rest]. apply cm_write_run. Qed.

(** ** One command *)

(** A result that the host accepts. *)
Definition good (r : pb_result) : Prop := cwf pb_result_c r /\ pb_wire_valid_result r = true.

Lemma good_init code : good (pb_wire_init_result code).
Proof. split; [|done]. apply wire_result_cwf; [done|apply bytes_zeros]. Qed.

Lemma good_init2 code data : bytes data -> (length data <= 504)%nat -> good (snd (pb_wire_init_result2 code data)).
Proof.
  intros Hb Hl. unfold pb_wire_init_result2. rewrite (proj2 (Z.ltb_ge _ _)) by (unfold PB_RESULT_RESPONSE_MAX_SIZE; lia).
  split; [|done]. destruct (zeros_payload 504 data Hl Hb). by apply wire_result_cwf.
Qed.

Lemma result2_ok {T} (c : codec T) `{!CodecOK c} code (x : T) :
  cwf c x -> (csize c <= 504)%nat -> - 2 ^ 7 <= code < 2 ^ 7 ->
  let r := snd (pb_wire_init_result2 code (cenc c x)) in good r /\ rs_code r = code /\ response_as c r = x.
Proof.
  intros Hx Hs Hc r. unfold r. split; [apply good_init2; [by apply cenc_bytes|rewrite (cenc_length x Hx); lia]|].
  unfold pb_wire_init_result2. rewrite (proj2 (Z.ltb_ge _ _)) by (rewrite (cenc_length x Hx); unfold PB_RESULT_RESPONSE_MAX_SIZE; lia).
  cbn [snd pb_wire_init_result rs_code]. split; [by apply s8_u8|]. unfold response_as. cbn [rs_response]. by apply decode_front.
Qed.

Lemma length_result r : good r -> length (cenc pb_result_c r) = 512%nat.
Proof. intros [Hc _]. by rewrite (cenc_length r Hc). Qed.

(** The state of command mode in an authenticated session. *)
Definition in_session v : Prop := authenticated v = true /\ reboot_requested v = false.

Lemma parse_err_out_run rc n k f x ram blk v : reboot_requested v = false -> good (result v) -> 512 <= n ->
  parse_err_out rc (mk ram blk v (Link (Recv n k) f x)) =
    (rc, mk ram blk v (at_host (k PB_RESULT_OK (cenc pb_result_c (result v))) f)).
Proof.
  intros Hr Hg Hn. unfold parse_err_out, bind. rewrite send_result_run by apply Hg. rewrite take_ge by (rewrite length_result; [lia|done]).
  unfold gets_cm, gets. cbn [mk cmv c_vars r_other i_rest]. by rewrite Hr.
Qed.

Definition runs (w w' : W) : Prop := exists n, cm_steps n PcRead w = (PcRead, w').

Lemma runs_refl w : runs w w.
Proof. by exists 0%nat. Qed.

Lemma cm_steps_app n m pc (w : W) : cm_steps (n + m) pc w = let '(pc', w') := cm_steps n pc w in cm_steps m pc' w'.
Proof.
  revert pc w. induction n as [|n IH]; intros pc w; [done|]. cbn [cm_steps Nat.add]. unfold bind.
  destruct (cm_step pc w) as [pc' w']. apply IH.
Qed.

Lemma runs_trans w1 w2 w3 : runs w1 w2 -> runs w2 w3 -> runs w1 w3.
Proof. intros [n Hn] [m Hm]. exists (n + m)%nat. by rewrite cm_steps_app, Hn. Qed.

Lemma poll_command_run c k f ram blk v : cwf pb_command_c c ->
  poll_command (mk ram blk v (Link (Send (cenc pb_command_c c) k) f (XRead (sizeof pb_command_c)))) =
    (PB_OK, mk ram blk (set_cmd c v) (at_host (k PB_RESULT_OK) f)).
Proof.
  intros Hc. unfold poll_command, with_cfg, bind, get, gets. rewrite link_wdog. cbv beta iota. rewrite link_process.
  unfold ret at 1. cbv beta iota. rewrite link_tops. cbn [t_complete link_ops]. unfold on_link.
  cbn [mk r_other i_rest c_hw link_complete l_xfer l_host l_file].
  rewrite take_ge by (rewrite (cenc_length c Hc); unfold sizeof; lia).
  unfold mod_cm, modify, ret. rewrite (decode_front pb_command_c c _ Hc). reflexivity.
Qed.

(** The device receives a command and executes it. *)
Lemma runs_command c k f x ram blk v rc w' : cwf pb_command_c c -> rc <> - PB_ERR_ABORT ->
  pb_command_parse (mk ram blk (set_cmd c v) (at_host (k PB_RESULT_OK) f)) = (rc, w') ->
  runs (mk ram blk v (Link (Send (cenc pb_command_c c) k) f x)) w'.
Proof.
  intros Hc Hrc E. exists 2%nat. cbn [cm_steps]. unfold bind, ret. unfold cm_step at 1, with_cfg, bind, get, gets, ret.
  rewrite link_tops. cbn [t_read link_ops]. unfold on_link at 1. cbn [PB_OK Z.eqb negb].
  change (with_other _ _) with (mk ram blk v (Link (Send (cenc pb_command_c c) k) f (XRead (sizeof pb_command_c)))).
  unfold cm_step, bind. rewrite poll_command_run by done. cbn [PB_OK Z.eqb]. rewrite E.
  by rewrite (proj2 (Z.eqb_neq _ _) Hrc).
Qed.

Lemma session_accepted v : authenticated v = true -> auth_refused v = false.
Proof. intros Ha. unfold auth_refused. by rewrite Ha, andb_false_r. Qed.

Lemma parse_run ram blk v l : auth_refused v = false -> pb_wire_valid_command (cmd v) = true ->
  pb_command_parse (mk ram blk v l) =
    (let '(o, w') := cm_dispatch (mk ram blk (set_result (pb_wire_init_result (- PB_RESULT_NOT_SUPPORTED)) v) l) in
     match o with Return rc => (rc, w') | Break rc => parse_err_out rc w' end).
Proof.
  intros Ha Hv. unfold pb_command_parse, gets_cm, bind, gets. cbn [mk cmv c_vars r_other i_rest id].
  rewrite Hv, Ha. cbn [negb]. unfold init_result.
  change (mod_cm ?g _) with (tt, mk ram blk (g v) l). cbv beta iota.
  by destruct (cm_dispatch _) as [[] ].
Qed.

(** ** The two sides of a command *)

Context (word : host_word) (hs hk ht : list Z).

(** What the host does with a result it has received into [r0]. *)
Definition got {A} (r0 : list Z) (K : Z + list Z -> prog A) (rc : Z) (data : list Z) : prog A :=
  pbind (if negb (rc =? PB_RESULT_OK) then Done (inl rc) else
         let result := splice 0 data r0 in
         if negb (pb_wire_valid_result (decode pb_result_c result)) then Done (inl (- PB_RESULT_ERROR))
         else Done (inr result)) K.

Lemma at_read_result r0 K f : at_host (pbind (read_result r0) K) f = Link (Recv 512 (got r0 K)) f XNone.
Proof. done. Qed.

Lemma got_good {A} r0 (K : _ -> prog A) r : good r -> got r0 K PB_RESULT_OK (cenc pb_result_c r) = K (inr (splice 0 (cenc pb_result_c r) r0)).
Proof. intros [Hc Hv]. unfold got. cbn [PB_RESULT_OK Z.eqb negb]. rewrite (decode_front pb_result_c r _ Hc), Hv. done. Qed.

Lemma code_received r r0 : good r -> result_code (splice 0 (cenc pb_result_c r) r0) = rs_code r.
Proof. intros [Hc _]. unfold result_code. by rewrite (decode_front pb_result_c r _ Hc). Qed.

Lemma response_received {T} (c : codec T) r r0 : good r -> response c (splice 0 (cenc pb_result_c r) r0) = response_as c r.
Proof. intros [Hc _]. unfold response. by rewrite (decode_front pb_result_c r _ Hc). Qed.

(** A command of the protocol with a request structure. *)
Lemma command2_ok {T} (c : codec T) `{!CodecOK c} code (x : T) :
  cwf c x -> (csize c <= 504)%nat -> PB_CMD_INVALID < code < PB_CMD_END ->
  let cmd := command2 code (cenc c x) in
  cwf pb_command_c cmd /\ pb_wire_valid_command cmd = true /\ cm_command cmd = code /\ request_as c cmd = x.
Proof.
  intros Hx Hs Hc. unfold command2, pb_wire_init_command2, PB_CMD_INVALID, PB_CMD_END in *.
  rewrite (proj2 (Z.ltb_ge _ _)) by (rewrite (cenc_length x Hx); unfold PB_COMMAND_REQUEST_MAX_SIZE; lia).
  destruct (zeros_payload 504 (cenc c x)) as [Hl Hb]; [rewrite (cenc_length x Hx); lia|by apply cenc_bytes|].
  assert (Hu : u8 code = code) by (apply Z.mod_small; lia). cbn [snd pb_wire_init_command cm_magic cm_command cm_rz cm_request].
  split; [by apply wire_command_cwf|]. split; [|split; [done|by apply decode_front]].
  unfold pb_wire_valid_command, PB_CMD_INVALID, PB_CMD_END. cbn [cm_magic cm_command]. rewrite Hu, Z.eqb_refl. cbn [negb]. lia.
Qed.

Lemma command1_ok code : PB_CMD_INVALID < code < PB_CMD_END ->
  let cmd := pb_wire_init_command code in
  cwf pb_command_c cmd /\ pb_wire_valid_command cmd = true /\ cm_command cmd = code.
Proof.
  intros Hc. unfold PB_CMD_INVALID, PB_CMD_END in *. assert (Hu : u8 code = code) by (apply Z.mod_small; lia).
  split; [apply wire_command_cwf; [done|apply bytes_zeros]|]. split; [|done].
  unfold pb_wire_valid_command, pb_wire_init_command, PB_CMD_INVALID, PB_CMD_END. cbn [cm_magic cm_command].
  rewrite Hu, Z.eqb_refl. cbn [negb]. lia.
Qed.

Abbreviation nosup := (pb_wire_init_result (- PB_RESULT_NOT_SUPPORTED)).

(** The device at the start of the switch. *)
Definition switch_vars (c : pb_command) v : cm_vars := set_result nosup (set_cmd c v).

(** A command: the device executes its case of the switch with the host
    waiting for a result. *)
Lemma runs_begin c K f ram blk v rc o w1 w' :
  cwf pb_command_c c -> pb_wire_valid_command c = true -> auth_refused (set_cmd c v) = false -> rc <> - PB_ERR_ABORT ->
  cm_dispatch (mk ram blk (switch_vars c v) (Link (Recv 512 (got hs K)) f XNone)) = (o, w1) ->
  match o with Return rc => (rc, w1) | Break rc => parse_err_out rc w1 end = (rc, w') ->
  runs (mk ram blk v (at_host (pbind (transact hs c) K) f)) w'.
Proof.
  intros Hc Hv Ha Hrc E Eo.
  change (at_host (pbind (transact hs c) K) f) with
    (Link (Send (cenc pb_command_c c) (fun rc => pbind (if negb (rc =? PB_RESULT_OK) then Done (inl rc) else read_result hs) K)) f XNone).
  eapply runs_command; [done|exact Hrc|]. change (at_host (pbind _ K) f) with (at_host (pbind (read_result hs) K) f).
  rewrite at_read_result, parse_run by done. unfold switch_vars in E. rewrite E. by destruct o.
Qed.

(** A command without further packets: the host goes on with the result. *)
Lemma runs_transact c K f ram blk v rc ram' blk' v' :
  cwf pb_command_c c -> pb_wire_valid_command c = true -> in_session v -> in_session v' -> good (result v') ->
  rc <> - PB_ERR_ABORT ->
  (forall l, cm_dispatch (mk ram blk (switch_vars c v) l) = (Break rc, mk ram' blk' v' l)) ->
  runs (mk ram blk v (at_host (pbind (transact hs c) K) f))
    (mk ram' blk' v' (at_host (K (inr (splice 0 (cenc pb_result_c (result v')) hs))) f)).
Proof.
  intros Hc Hv [Ha _] [_ Hr] Hg Hrc E. eapply (runs_begin c K f ram blk v rc); [done|done|by apply session_accepted|done|apply E|].
  cbv iota. rewrite parse_err_out_run by (done || lia). by rewrite got_good.
Qed.

Lemma runs_call c K f ram blk v rc ram' blk' v' :
  cwf pb_command_c c -> pb_wire_valid_command c = true -> in_session v -> in_session v' -> good (result v') ->
  rc <> - PB_ERR_ABORT ->
  (forall l, cm_dispatch (mk ram blk (switch_vars c v) l) = (Break rc, mk ram' blk' v' l)) ->
  runs (mk ram blk v (at_host (pbind (call hs c) K) f)) (mk ram' blk' v' (at_host (K (rs_code (result v'))) f)).
Proof.
  intros Hc Hv Hs Hs' Hg Hrc E. unfold call, try. rewrite pbind_assoc.
  eapply runs_trans; [by eapply (runs_transact c _ f ram blk v rc ram' blk' v')|].
  cbv beta iota. cbn [pbind]. rewrite code_received by done. apply runs_refl.
Qed.

(** Selects the case of the switch for a command with code [E]. *)
Ltac decide_eqb := repeat match goal with
  | |- context [?a =? ?b] => let r := eval vm_compute in (a =? b) in change (a =? b) with r; cbv iota
  end.
Ltac dispatch E :=
  unfold cm_dispatch; unfold bind at 1, gets_cm at 1, gets at 1;
  cbn [mk cmv c_vars r_other i_rest switch_vars set_result set_cmd cmd]; rewrite E; decide_eqb.

(** *** Capabilities *)

Definition caps : pb_device_capabilities := DeviceCapabilities 2 BUF_SIZE 0 0 0 BUF_SIZE.

Lemma device_caps_wf : cwf pb_result_device_caps_c device_caps.
Proof.
  pose proof link_buf_size. unfold pb_result_device_caps_c, device_caps. unfold c_iso, c_pair, c_uint, c_raw.
  cbn [cwf fst snd dc_stream_no_of_buffers dc_stream_buffer_size dc_operation_timeout_ms dc_part_erase_timeout_ms dc_bpak_stream_support dc_chunk_transfer_max_bytes dc_rz].
  unfold u32. rewrite Z.mod_small by lia. change (256 ^ Z.of_nat 4) with (2 ^ 32). repeat split; try lia; apply bytes_zeros.
Qed.

Lemma runs_caps K f ram blk v : in_session v -> exists v', in_session v' /\ block_dev v' = block_dev v /\
  runs (mk ram blk v (at_host (pbind (pb_api_device_read_caps hs) K) f)) (mk ram blk v' (at_host (K (PB_RESULT_OK, Some caps)) f)).
Proof.
  intros Hs. destruct (command1_ok PB_CMD_DEVICE_READ_CAPS) as (Hc & Hv & Ec); [done|].
  set (c := pb_wire_init_command PB_CMD_DEVICE_READ_CAPS) in *.
  pose proof device_caps_wf as Hw. pose proof link_buf_size.
  destruct (result2_ok pb_result_device_caps_c PB_RESULT_OK device_caps Hw) as (Hg & Er & Ep); [cbn; lia|done|].
  set (r := snd (pb_wire_init_result2 PB_RESULT_OK (cenc pb_result_device_caps_c device_caps))) in *.
  exists (set_result r (switch_vars c v)). split; [done|]. split; [done|].
  unfold pb_api_device_read_caps, try. rewrite pbind_assoc. fold c.
  eapply runs_trans; [apply (runs_transact c _ f ram blk v PB_OK ram blk (set_result r (switch_vars c v)));
    [exact Hc|exact Hv|exact Hs|exact Hs|exact Hg|done|]|].
  { intros l. dispatch Ec. reflexivity. }
  cbv beta iota. cbn [pbind]. change (result (set_result r (switch_vars c v))) with r. rewrite code_received, response_received, Er, Ep by done.
  unfold device_caps. cbn [dc_stream_no_of_buffers dc_stream_buffer_size dc_operation_timeout_ms dc_part_erase_timeout_ms dc_chunk_transfer_max_bytes].
  unfold u32. rewrite Z.mod_small by lia. apply runs_refl.
Qed.

(** *** Selecting a partition, filling a buffer *)

Lemma uuid_request_wf uu : uuid_wf uu -> cwf pb_command_stream_initialize_c (StreamInitialize uu (zeros 16)).
Proof. intros [Hl Hb]. repeat split; try done. apply bytes_zeros. Qed.

Lemma runs_stream_init K f ram blk v uu dev :
  in_session v -> uuid_wf uu -> find_uu uu (bio_pool blk) 0 = dev -> 0 <= dev ->
  exists v', in_session v' /\ block_dev v' = dev /\
    runs (mk ram blk v (at_host (pbind (pb_api_stream_init hs uu) K) f)) (mk ram blk v' (at_host (K PB_RESULT_OK) f)).
Proof.
  intros Hs Hu Ef Hd. unfold pb_api_stream_init.
  destruct (command2_ok pb_command_stream_initialize_c PB_CMD_STREAM_INITIALIZE (StreamInitialize uu (zeros 16)))
    as (Hc & Hv & Ec & Eq); [by apply uuid_request_wf|cbn; lia|done|].
  set (c := command2 _ _) in *. set (v' := set_result (pb_wire_init_result 0) (set_block_dev dev (switch_vars c v))).
  exists v'. split; [exact Hs|]. split; [done|]. change PB_RESULT_OK with (rs_code (result v')).
  apply (runs_call c K f ram blk v PB_OK ram blk v'); [exact Hc|exact Hv|exact Hs|exact Hs|apply good_init|done|].
  intros l. dispatch Ec. unfold break, cmd_stream_init, bind. rewrite request_mk. change (cmd (switch_vars c v)) with c. rewrite Eq.
  rewrite (on_blk_mk _ ram blk _ l dev blk) by (cbn; unfold gets; by rewrite Ef). rewrite mod_cm_mk.
  by rewrite (proj2 (Z.ltb_ge dev 0)) by lia.
Qed.

Lemma buffer_at_id id : 0 <= id <= 1 -> buffer_at id = cm_buffer + BUF_SIZE * id.
Proof.
  intros Hid. pose proof link_buffers. pose proof link_buf_size. unfold buffer_at, usz. apply Z.mod_small. nia.
Qed.

Lemma prepare_wf size id : 0 <= size < 2 ^ 32 -> 0 <= id <= 1 ->
  cwf pb_command_stream_prepare_buffer_c (StreamPrepare size (u8 id) (zeros 27)).
Proof.
  intros Hs Hid. unfold u8. rewrite Z.mod_small by lia.
  unfold pb_command_stream_prepare_buffer_c, c_iso, c_pair, c_uint, c_raw. cbn [cwf fst snd sp_size sp_id sp_rz].
  change (256 ^ Z.of_nat 4) with (2 ^ 32). change (256 ^ Z.of_nat 1) with (2 ^ 8). repeat split; try lia; apply bytes_zeros.
Qed.

(** The device stores a chunk in one of its two buffers. *)
Lemma cmd_prepare_run size id data k f ram blk v n k2 r0 :
  request_as pb_command_stream_prepare_buffer_c (cmd v) = StreamPrepare size id r0 ->
  size = Z.of_nat (length data) -> size <= BUF_SIZE -> 0 <= id <= 1 -> 512 <= n ->
  at_host (k PB_RESULT_OK (cenc pb_result_c (pb_wire_init_result PB_RESULT_OK))) f = Link (Send data k2) f XNone ->
  cmd_stream_prep_buffer (mk ram blk v (Link (Recv n k) f XNone)) =
    (PB_OK, mk (ram_write (buffer_at id) data ram) blk (set_result (pb_wire_init_result PB_RESULT_OK) v) (at_host (k2 PB_RESULT_OK) f)).
Proof.
  intros Eq Hsz Hb Hid Hn Ek. unfold cmd_stream_prep_buffer. unfold bind at 1. rewrite request_mk, Eq. cbn [sp_size sp_id].
  rewrite (proj2 (Z.ltb_ge _ _)), (proj2 (Z.ltb_ge 1 id)) by lia. unfold bind. rewrite init_result_mk.
  rewrite send_result_run by apply good_init. cbn [result set_result].
  rewrite take_ge by (rewrite length_result by apply good_init; lia). rewrite Ek. unfold cm_read, bind.
  rewrite cm_read_run. rewrite take_ge by lia. done.
Qed.

Lemma runs_prepare K f ram blk v id data :
  in_session v -> 0 <= id <= 1 -> Z.of_nat (length data) <= BUF_SIZE ->
  exists v', in_session v' /\ block_dev v' = block_dev v /\
    runs (mk ram blk v (at_host (pbind (pb_api_stream_prepare_buffer hs id data) K) f))
      (mk (ram_write (buffer_at id) data ram) blk v' (at_host (K PB_RESULT_OK) f)).
Proof.
  intros Hs Hid Hl. pose proof link_buf_size. unfold pb_api_stream_prepare_buffer.
  assert (Hu : u32 (Z.of_nat (length data)) = Z.of_nat (length data)) by (apply Z.mod_small; lia). rewrite Hu.
  assert (Hi : u8 id = id) by (apply Z.mod_small; lia).
  destruct (command2_ok pb_command_stream_prepare_buffer_c PB_CMD_STREAM_PREPARE_BUFFER (StreamPrepare (Z.of_nat (length data)) (u8 id) (zeros 27)))
    as (Hc & Hv & Ec & Eq); [by apply prepare_wf; lia|cbn; lia|done|].
  set (c := command2 _ _) in *. rewrite Nat2Z.id, take_ge by lia. set (r := pb_wire_init_result PB_RESULT_OK).
  exists (set_result r (switch_vars c v)). split; [exact Hs|]. split; [done|].
  unfold try at 1. rewrite pbind_assoc.
  eapply (runs_begin c _ f ram blk v PB_OK (Break PB_OK)); [exact Hc|exact Hv|apply session_accepted, Hs|done| |].
  - dispatch Ec. unfold break, bind.
    rewrite (cmd_prepare_run (Z.of_nat (length data)) id data _ f ram blk (switch_vars c v) 512
      (fun rc => pbind (if negb (rc =? PB_RESULT_OK) then Done rc else
         try (read_result (splice 0 (cenc pb_result_c r) hs)) Datatypes.id (fun result => Done (result_code result))) K) (zeros 27));
      [reflexivity|by rewrite <- Hi; exact Eq|done|lia|lia|lia|]. rewrite got_good by apply good_init. reflexivity.
  - cbn [PB_RESULT_OK Z.eqb negb]. unfold try. rewrite pbind_assoc, at_read_result, parse_err_out_run by (apply Hs || apply good_init || lia).
    rewrite got_good by apply good_init. cbn [pbind]. by rewrite code_received by apply good_init.
Qed.

(** *** Writing a partition *)

(** Only bytes of the partition [dev] have changed. *)
Record only_part blk dev blk' : Prop := {
  part_pool : bio_pool blk' = bio_pool blk;
  part_count : n_bios blk' = n_bios blk;
  part_length : length (disk_bytes (bio_hw blk')) = length (disk_bytes (bio_hw blk));
  part_outside : forall off n, (off + n <= dev_off (dev_at blk dev) \/ dev_off (dev_at blk dev) + dev_len (dev_at blk dev) <= off)%nat ->
    slice off n (disk_bytes (bio_hw blk')) = slice off n (disk_bytes (bio_hw blk))
}.

Lemma only_part_refl blk dev : only_part blk dev blk.
Proof. by split. Qed.

Lemma only_part_dev blk dev blk' d : only_part blk dev blk' -> dev_at blk' d = dev_at blk d.
Proof. intros [E _ _ _]. unfold dev_at. by rewrite E. Qed.

Lemma only_part_trans blk dev blk1 blk2 : only_part blk dev blk1 -> only_part blk1 dev blk2 -> only_part blk dev blk2.
Proof.
  intros H1 H2. pose proof (only_part_dev _ _ _ dev H1) as Ed. destruct H1 as [p1 c1 l1 o1], H2 as [p2 c2 l2 o2].
  split; [by rewrite p2|by rewrite c2|by rewrite l2|]. intros off n Ho. rewrite o2 by (by rewrite Ed). by apply o1.
Qed.

Lemma only_part_rw blk dev blk' : only_part blk dev blk' -> bio_rw blk dev -> bio_rw blk' dev.
Proof. intros [Ep Ec El _]. by apply bio_rw_hw. Qed.

Lemma bio_write_part blk dev off data :
  bio_rw blk dev -> 0 <= off -> off mod disk_unit = 0 -> 0 < Z.of_nat (length data) -> Z.of_nat (length data) mod disk_unit = 0 ->
  off + Z.of_nat (length data) <= Z.of_nat (length (bio_data blk dev)) ->
  exists blk', bio_write dev (off / disk_unit) (Z.of_nat (length data)) data blk = (PB_OK, blk') /\ only_part blk dev blk' /\
    bio_data blk' dev = splice (Z.to_nat off) data (bio_data blk dev).
Proof.
  intros Hrw Ho Hom Hl Hlm Hin. pose proof disk_unit_pos as Hu. pose proof (length_bio_data blk dev Hrw) as Hlen.
  pose proof Hrw as (Hwf & Hok & _ & _ & _ & _ & Hd & _). destruct (dev_ok_range blk dev Hwf Hok) as (_ & _ & _ & _ & _ & Hf & _).
  assert (Hne : disk_unit <> 0) by lia.
  pose proof (Z.div_mod off disk_unit Hne) as Eo. pose proof (Z.div_mod (Z.of_nat (length data)) disk_unit Hne) as El.
  rewrite Hom in Eo. rewrite Hlm in El.
  destruct (bio_write_at dev (off / disk_unit) data blk) as (h' & E & Eh & Ehl);
    [done|apply Z.div_pos; lia|done|done|nia|].
  exists (BioState (bio_pool blk) (n_bios blk) h'). split; [exact E|].
  assert (Epos : Z.to_nat ((first_lba (dev_at blk dev) + off / disk_unit) * disk_unit) = (dev_off (dev_at blk dev) + Z.to_nat off)%nat)
    by (unfold dev_off; nia). rewrite Epos in Eh.
  assert (Hdl : Z.of_nat (dev_len (dev_at blk dev)) = Z.of_nat (length (bio_data blk dev))) by (rewrite Hlen; unfold dev_len; nia).
  assert (Hdo : Z.of_nat (dev_off (dev_at blk dev)) + Z.of_nat (dev_len (dev_at blk dev)) <= Z.of_nat (length (disk_bytes (bio_hw blk))))
    by (unfold dev_off, dev_len; nia).
  split; [split; [done|done|exact Ehl|]|].
  - intros o n Hon. cbn [bio_hw]. rewrite Eh. apply splice_elsewhere; lia.
  - unfold bio_data, dev_at. cbn [bio_pool bio_hw]. fold (dev_at blk dev). rewrite Eh.
    apply slice_splice_inside; [lia|]. lia.
Qed.

Lemma unit_size_run blk dev : bio_rw blk dev -> bio_block_size dev blk = (disk_unit, blk).
Proof.
  intros (_ & Hok & _ & _ & Hbs & _). unfold bio_block_size. rewrite checked_dev, Hok. unfold gets. rewrite Hbs.
  pose proof disk_unit_pos. pose proof link_unit. unfold ssz.
  assert (2 ^ 16 < 2 ^ (ptr_bits - 1)) by (destruct ptr_bits_ok as [-> | ->]; done).
  assert (Hp : 2 ^ ptr_bits = 2 * 2 ^ (ptr_bits - 1)) by (rewrite <- Z.pow_succ_r by (destruct ptr_bits_ok; lia); f_equal; lia).
  rewrite Z.mod_small by lia. f_equal. lia.
Qed.

Definition writable blk dev : Prop := bio_rw blk dev /\ Z.land (flags (dev_at blk dev)) BIO_FLAG_WRITABLE <> 0.

Lemma only_part_writable blk dev blk' : only_part blk dev blk' -> writable blk dev -> writable blk' dev.
Proof. intros Ho [Hrw Hf]. split; [by apply (only_part_rw blk)|]. by rewrite (only_part_dev blk dev). Qed.

Lemma stream_lba_small blk dev off len : bio_rw blk dev -> 0 <= off -> 0 < len ->
  off + len <= Z.of_nat (length (bio_data blk dev)) -> u32 (usz (off / u64 disk_unit)) = off / disk_unit.
Proof.
  intros Hrw Ho Hl Hin. pose proof disk_unit_pos. pose proof link_unit. rewrite (length_bio_data blk dev Hrw) in Hin.
  pose proof Hrw as (Hwf & Hok & _ & _ & _ & Hll & _). destruct (dev_ok_range blk dev Hwf Hok) as (_ & _ & _ & _ & _ & Hf & _).
  assert (Hd : 0 <= off / disk_unit < 2 ^ 32) by (split; [apply Z.div_pos; lia|apply Z.div_lt_upper_bound; nia]).
  assert (2 ^ 32 <= 2 ^ ptr_bits) by (destruct ptr_bits_ok as [-> | ->]; done).
  unfold u32, usz, u64. rewrite (Z.mod_small disk_unit), (Z.mod_small (off / disk_unit) (2 ^ ptr_bits)), Z.mod_small by lia. done.
Qed.

Lemma write_wf size off id : 0 <= size < 2 ^ 32 -> 0 <= off < 2 ^ 64 -> 0 <= id <= 1 ->
  cwf pb_command_stream_write_buffer_c (StreamWrite size off id (zeros 19)).
Proof.
  intros Hs Ho Hid. unfold pb_command_stream_write_buffer_c, c_iso, c_pair, c_uint, c_raw. cbn [cwf fst snd sw_size sw_offset sw_buffer_id sw_rz].
  change (256 ^ Z.of_nat 4) with (2 ^ 32). change (256 ^ Z.of_nat 8) with (2 ^ 64). change (256 ^ Z.of_nat 1) with (2 ^ 8).
  repeat split; try lia; apply bytes_zeros.
Qed.

(** The device writes a prepared buffer to the selected partition. *)
Lemma cmd_write_run id off data ram blk v r0 :
  request_as pb_command_stream_write_buffer_c (cmd v) = StreamWrite (Z.of_nat (length data)) off id r0 ->
  writable blk (block_dev v) -> ram_read ram (buffer_at id) (length data) = data ->
  0 <= off -> off mod disk_unit = 0 -> 0 < Z.of_nat (length data) -> Z.of_nat (length data) mod disk_unit = 0 ->
  off + Z.of_nat (length data) <= Z.of_nat (length (bio_data blk (block_dev v))) ->
  exists blk', (forall l, cmd_stream_write (mk ram blk v l) = (PB_OK, mk ram blk' (set_result (pb_wire_init_result PB_RESULT_OK) v) l)) /\
    only_part blk (block_dev v) blk' /\ bio_data blk' (block_dev v) = splice (Z.to_nat off) data (bio_data blk (block_dev v)).
Proof.
  intros Eq [Hrw Hfl] Hram Ho Hom Hl Hlm Hin. set (dev := block_dev v) in *.
  destruct (bio_write_part blk dev off data Hrw Ho Hom Hl Hlm Hin) as (blk' & E & Hop & Ed). exists blk'. split; [|done].
  intros l. pose proof Hrw as (_ & Hok & _). unfold cmd_stream_write, bind. rewrite request_mk, Eq, gets_cm_mk. fold dev.
  rewrite (on_blk_mk _ ram blk v l (Z.land (flags (dev_at blk dev)) 0xffff) blk) by (cbn; rewrite bio_get_flags_cases, Hok; done).
  rewrite <- Z.land_assoc. change (Z.land 0xffff BIO_FLAG_WRITABLE) with BIO_FLAG_WRITABLE. rewrite (proj2 (Z.eqb_neq _ _) Hfl).
  rewrite (on_blk_mk _ ram blk v l disk_unit blk) by (by apply unit_size_run). cbn [sw_offset sw_size sw_buffer_id].
  rewrite (stream_lba_small blk dev off (Z.of_nat (length data))) by done.
  unfold bio_write_from, ram_get, bind, gets. cbn [mk i_ram]. rewrite Nat2Z.id, Hram.
  change (ImgWorld _ _ _ _ _) with (mk ram blk v l). rewrite (on_blk_mk _ ram blk v l PB_OK blk') by exact E. done.
Qed.

Lemma runs_write_buffer K f ram blk v id off data :
  in_session v -> writable blk (block_dev v) -> 0 <= id <= 1 -> ram_read ram (buffer_at id) (length data) = data ->
  0 <= off < 2 ^ 64 -> off mod disk_unit = 0 -> 0 < Z.of_nat (length data) <= BUF_SIZE -> Z.of_nat (length data) mod disk_unit = 0 ->
  off + Z.of_nat (length data) <= Z.of_nat (length (bio_data blk (block_dev v))) ->
  exists v' blk', in_session v' /\ block_dev v' = block_dev v /\ only_part blk (block_dev v) blk' /\
    bio_data blk' (block_dev v) = splice (Z.to_nat off) data (bio_data blk (block_dev v)) /\
    runs (mk ram blk v (at_host (pbind (pb_api_stream_write_buffer hs id off (Z.of_nat (length data))) K) f))
      (mk ram blk' v' (at_host (K PB_RESULT_OK) f)).
Proof.
  intros Hs Hw Hid Hram Ho Hom Hl Hlm Hin. pose proof link_buf_size. unfold pb_api_stream_write_buffer.
  assert (u32 (Z.of_nat (length data)) = Z.of_nat (length data)) as -> by (apply Z.mod_small; lia).
  assert (u8 id = id) as -> by (apply Z.mod_small; lia). assert (u64 off = off) as -> by (apply Z.mod_small; lia).
  destruct (command2_ok pb_command_stream_write_buffer_c PB_CMD_STREAM_WRITE_BUFFER (StreamWrite (Z.of_nat (length data)) off id (zeros 19)))
    as (Hc & Hv & Ec & Eq); [apply write_wf; lia|cbn; lia|done|].
  set (c := command2 _ _) in *. set (v' := set_result (pb_wire_init_result PB_RESULT_OK) (switch_vars c v)).
  destruct (cmd_write_run id off data ram blk (switch_vars c v) (zeros 19)) as (blk' & E & Hop & Ed); try done; try lia.
  exists v', blk'. split; [exact Hs|]. split; [done|]. split; [exact Hop|]. split; [exact Ed|].
  change (at_host (K PB_RESULT_OK) f) with (at_host (K (rs_code (result v'))) f).
  apply (runs_call c K f ram blk v PB_OK ram blk' v'); [exact Hc|exact Hv|exact Hs|exact Hs|apply good_init|done|].
  intros l. dispatch Ec. unfold break, bind. by rewrite E.
Qed.

(** ** Writing a file *)

(** A chunk of whole blocks that fits at [off]. *)
Definition fits blk dev (off : Z) (data : list Z) : Prop :=
  0 <= off < 2 ^ 64 /\ off mod disk_unit = 0 /\ Z.of_nat (length data) mod disk_unit = 0 /\
  off + Z.of_nat (length data) <= Z.of_nat (length (bio_data blk dev)).

Lemma runs_write_chunk K f ram blk v id off data :
  in_session v -> writable blk (block_dev v) -> 0 <= id <= 1 -> fits blk (block_dev v) off data ->
  0 < Z.of_nat (length data) <= BUF_SIZE ->
  exists ram' v' blk', in_session v' /\ block_dev v' = block_dev v /\ only_part blk (block_dev v) blk' /\
    bio_data blk' (block_dev v) = splice (Z.to_nat off) data (bio_data blk (block_dev v)) /\
    runs (mk ram blk v (at_host (pbind (write_chunk hs id off data) K) f)) (mk ram' blk' v' (at_host (K PB_RESULT_OK) f)).
Proof.
  intros Hs Hw Hid (Ho & Hom & Hlm & Hin) Hl. unfold write_chunk. rewrite pbind_assoc.
  destruct (runs_prepare (fun rc => pbind (if negb (rc =? PB_RESULT_OK) then Done rc
      else pb_api_stream_write_buffer hs id off (Z.of_nat (length data))) K) f ram blk v id data) as (v1 & Hs1 & Ed1 & R1); [done|done|lia|].
  set (ram' := ram_write (buffer_at id) data ram) in *. cbn [PB_RESULT_OK Z.eqb negb] in R1.
  destruct (runs_write_buffer K f ram' blk v1 id off data) as (v2 & blk' & Hs2 & Ed2 & Hop & Eb & R2);
    rewrite ?Ed1; try done; [apply ram_write_in|].
  exists ram', v2, blk'. rewrite Ed1 in *. split; [done|]. split; [done|]. split; [done|]. split; [done|]. by eapply runs_trans.
Qed.

Lemma only_part_data_length blk dev blk' : only_part blk dev blk' -> length (bio_data blk' dev) = length (bio_data blk dev).
Proof.
  intros Ho. pose proof (only_part_dev blk dev blk' dev Ho) as Ed. destruct Ho as [_ _ El _].
  unfold bio_data, slice. rewrite Ed, !length_take, !length_drop. lia.
Qed.

Abbreviation harch := (hw_arch word).

Definition rest_of f : list Z := drop (f_pos f) (f_data f).

(** A [read] of [n] bytes. *)
Definition next_chunk (n : Z) f : list Z := take (Z.to_nat n) (rest_of f).

Lemma rest_split n f : rest_of f = next_chunk n f ++ rest_of (advance (next_chunk n f) f).
Proof.
  unfold rest_of, advance, next_chunk, rest_of. cbn [f_data f_pos]. rewrite <- drop_drop. set (r := drop (f_pos f) (f_data f)).
  rewrite length_take. destruct (Nat.le_gt_cases (Z.to_nat n) (length r)).
  - replace (min (Z.to_nat n) (length r)) with (Z.to_nat n) by lia. by rewrite take_drop.
  - rewrite take_ge by lia. replace (min (Z.to_nat n) (length r)) with (length r) by lia. by rewrite drop_all, app_nil_r.
Qed.

(** A file of whole blocks is read in whole blocks. *)
Lemma next_chunk_blocks n f : 0 <= n -> n mod disk_unit = 0 -> Z.of_nat (length (rest_of f)) mod disk_unit = 0 ->
  Z.of_nat (length (next_chunk n f)) <= n /\ Z.of_nat (length (next_chunk n f)) mod disk_unit = 0 /\
  Z.of_nat (length (rest_of (advance (next_chunk n f) f))) mod disk_unit = 0 /\
  (length (rest_of f) = length (next_chunk n f) + length (rest_of (advance (next_chunk n f) f)))%nat.
Proof.
  intros Hn Hnm Hrm. pose proof disk_unit_pos as Hu. assert (Hne : disk_unit <> 0) by lia.
  pose proof (f_equal length (rest_split n f)) as El. rewrite length_app in El. set (a := advance _ _) in *.
  assert (Hd : length (next_chunk n f) = min (Z.to_nat n) (length (rest_of f))) by apply length_take.
  assert (Hdm : Z.of_nat (length (next_chunk n f)) mod disk_unit = 0).
  { rewrite Hd. destruct (Nat.le_gt_cases (Z.to_nat n) (length (rest_of f))) as [H|H].
    - rewrite Nat.min_l, Z2Nat.id by lia. done.
    - by rewrite Nat.min_r by lia. }
  split; [lia|]. split; [done|]. split; [|done].
  replace (Z.of_nat (length (rest_of a))) with (Z.of_nat (length (rest_of f)) - Z.of_nat (length (next_chunk n f))) by lia.
  by rewrite Zminus_mod, Hrm, Hdm.
Qed.

Lemma runs_write_file fuel : forall K f ram blk v id off,
  in_session v -> writable blk (block_dev v) -> 0 <= id <= 1 -> fits blk (block_dev v) off (rest_of f) ->
  Z.of_nat (length (bio_data blk (block_dev v))) < 2 ^ @ptr_bits harch -> (length (rest_of f) < fuel)%nat ->
  exists ram' v' blk' f', in_session v' /\ block_dev v' = block_dev v /\ only_part blk (block_dev v) blk' /\
    bio_data blk' (block_dev v) = splice (Z.to_nat off) (rest_of f) (bio_data blk (block_dev v)) /\
    runs (mk ram blk v (at_host (pbind (write_file (harch := harch) hs fuel caps id off PB_RESULT_OK) K) f))
      (mk ram' blk' v' (at_host (K PB_RESULT_OK) f')).
Proof.
  pose proof link_buf_size as Hbs. pose proof disk_unit_pos as Hu. pose proof link_chunk as Hch.
  assert (Hp : 2 ^ @ptr_bits harch <= 2 ^ 64) by (destruct (@ptr_bits_ok harch) as [-> | ->]; done).
  induction fuel as [|fuel IH]; intros K f ram blk v id off Hs Hw Hid (Ho & Hom & Hlm & Hin) Hsz Hf; [lia|].
  assert (Hb0 : 0 <= BUF_SIZE) by lia. destruct (next_chunk_blocks BUF_SIZE f Hb0 Hch Hlm) as (Hd & Hdm & Hlm1 & El). pose proof (rest_split BUF_SIZE f) as Er.
  set (d := next_chunk BUF_SIZE f) in *. set (f1 := advance d f) in *.
  set (body := fun data : list Z => pbind (write_chunk hs id off data) (fun rc => if negb (rc =? PB_RESULT_OK) then Done rc else
     write_file (harch := harch) hs fuel caps (u8 (next_buffer id caps)) (@usz harch (off + Z.of_nat (length data))) rc)).
  change (at_host (pbind (write_file (harch := harch) hs (S fuel) caps id off PB_RESULT_OK) K) f) with
    (at_host (pbind (match d with [] => Done PB_RESULT_OK | _ => body d end) K) f1).
  assert (Hnil : d = [] -> rest_of f = []).
  { intros E. assert (Hl0 : length d = min (Z.to_nat BUF_SIZE) (length (rest_of f))) by apply length_take.
    rewrite E in Hl0. cbn [length] in Hl0. apply length_zero_iff_nil. lia. }
  destruct (decide (d = [])) as [E|Hne].
  - exists ram, v, blk, f1. rewrite E, (Hnil E), splice_nil_at. split; [done|]. split; [done|]. split; [apply only_part_refl|].
    split; [done|]. apply runs_refl.
  - replace (match d with [] => Done PB_RESULT_OK | _ => body d end) with (body d) by (by destruct d).
    assert (Hdl : 0 < Z.of_nat (length d)) by (destruct d; [done|cbn [length]; lia]). unfold body. rewrite pbind_assoc.
    destruct (runs_write_chunk (fun rc => pbind (if negb (rc =? PB_RESULT_OK) then Done rc else
      write_file (harch := harch) hs fuel caps (u8 (next_buffer id caps)) (@usz harch (off + Z.of_nat (length d))) rc) K) f1 ram blk v id off d)
      as (ram1 & v1 & blk1 & Hs1 & Ed1 & Hop1 & Eb1 & R1); [done|done|done|unfold fits; lia|lia|].
    cbn [PB_RESULT_OK Z.eqb negb] in R1.
    assert (@usz harch (off + Z.of_nat (length d)) = off + Z.of_nat (length d)) as Eo by (apply Z.mod_small; lia). rewrite Eo in R1.
    assert (Hid1 : 0 <= u8 (next_buffer id caps) <= 1).
    { unfold next_buffer, caps, u8. cbn [caps_stream_no_of_buffers]. rewrite Z.mod_small; pose proof (Z.mod_pos_bound (id + 1) 2); lia. }
    pose proof (only_part_data_length _ _ _ Hop1) as Elen.
    destruct (IH K f1 ram1 blk1 v1 (u8 (next_buffer id caps)) (off + Z.of_nat (length d))) as (ram2 & v2 & blk2 & f2 & Hs2 & Ed2 & Hop2 & Eb2 & R2);
      rewrite ?Ed1; [done|by apply (only_part_writable blk)|done| |by rewrite Elen|lia|].
    { unfold fits. rewrite Elen. split; [lia|]. split; [by rewrite Z.add_mod, Hom, Hdm by lia|]. split; [done|lia]. }
    rewrite Ed1 in *. exists ram2, v2, blk2, f2. split; [done|]. split; [done|]. split; [by eapply only_part_trans|]. split; [|rewrite Eo; eapply runs_trans; [exact R1|exact R2]].
    rewrite Eb2, Eb1, Er. replace (Z.to_nat (off + Z.of_nat (length d))) with (Z.to_nat off + length d)%nat by lia.
    apply splice_splice_app. lia.
Qed.


(** ** The partition table *)

Definition visible blk dev : bool := negb (Z.land (Z.land (flags (dev_at blk dev)) 0xffff) BIO_FLAG_VISIBLE =? 0).

(** The devices that are listed, from [dev] on. *)
Fixpoint listed (fuel : nat) blk dev : list Z :=
  match fuel with
  | O => []
  | S fuel => if dev_ok blk dev then (if visible blk dev then dev :: listed fuel blk (dev + 1) else listed fuel blk (dev + 1)) else []
  end.

(** The fields of an entry in memory that the host uses. *)
Definition entry_at ram (addr : Z) (d : bio_device) : Prop :=
  ram_read ram addr 16 = uu d /\ le_val (ram_read ram (addr + 53) 8) = u64 (s32 (first_lba d)) /\
  le_val (ram_read ram (addr + 61) 8) = u64 (s32 (last_lba d)) /\ le_val (ram_read ram (addr + 69) 2) = u16 (ssz (block_sz d)).

Definition stored_entry (addr : Z) (d : bio_device) ram : ram_t :=
  ram_write (addr + 71) [Z.land (Z.land (flags d) 0xffff) 0xFF]
  (ram_write (addr + 69) (le_bytes 2 (u16 (ssz (block_sz d))))
  (ram_write (addr + 61) (le_bytes 8 (u64 (s32 (last_lba d))))
  (ram_write (addr + 53) (le_bytes 8 (u64 (s32 (first_lba d))))
  (ram_write (addr + 16) (strncpy_z 36 36 (c_string (description d)))
  (ram_write addr (uuid_copy (uu d)) ram))))).

Lemma write_table_entry_run addr dev ram blk v l : dev_ok blk dev = true ->
  write_table_entry addr dev (mk ram blk v l) = (tt, mk (stored_entry addr (dev_at blk dev) ram) blk v l).
Proof.
  intros Hok. unfold write_table_entry, bind.
  assert (Hput : forall a bs r, ram_put a bs (mk r blk v l) = (tt, mk (ram_write a bs r) blk v l)) by done.
  rewrite (on_blk_mk _ _ blk v l (Some (uu (dev_at blk dev))) blk), Hput
    by (cbn; unfold bio_get_uu, bind; by rewrite check_dev_spec, Hok).
  rewrite (on_blk_mk _ _ blk v l (Some (description (dev_at blk dev))) blk), Hput
    by (cbn; unfold bio_get_description, bind; by rewrite check_dev_spec, Hok).
  rewrite (on_blk_mk _ _ blk v l (s32 (first_lba (dev_at blk dev))) blk), Hput
    by (cbn; unfold bio_get_first_block, bind; by rewrite check_dev_spec, Hok).
  rewrite (on_blk_mk _ _ blk v l (s32 (last_lba (dev_at blk dev))) blk), Hput
    by (cbn; unfold bio_get_last_block, bind; by rewrite check_dev_spec, Hok).
  rewrite (on_blk_mk _ _ blk v l (ssz (block_sz (dev_at blk dev))) blk), Hput
    by (cbn; unfold bio_block_size; by rewrite checked_dev, Hok).
  by rewrite (on_blk_mk _ _ blk v l (Z.land (flags (dev_at blk dev)) 0xffff) blk), Hput
    by (cbn; by rewrite bio_get_flags_cases, Hok).
Qed.

Lemma length_strncpy n src : length (strncpy_z n n src) = n.
Proof. unfold strncpy_z, zeros. rewrite length_app, length_replicate, length_take. lia. Qed.

Lemma stored_entry_spec addr d ram : dev_wf d ->
  entry_at (stored_entry addr d ram) addr d /\ (forall a, a < addr -> stored_entry addr d ram a = ram a).
Proof.
  intros (_ & Hu & _). pose proof (proj1 Hu) as Hl. pose proof (length_strncpy 36 (c_string (description d))) as Hd.
  assert (Hv : forall n x, le_val (le_bytes n (x mod 256 ^ Z.of_nat n)) = x mod 256 ^ Z.of_nat n)
    by (intros; apply le_val_le_bytes, Z.mod_pos_bound; lia).
  unfold entry_at, stored_entry. rewrite uuid_copy_id by done. split; [split_and!|].
  - rewrite !ram_read_write_out by (rewrite ?length_le_bytes, ?Hd; cbn [length]; lia). rewrite <- Hl. apply ram_write_in.
  - rewrite !ram_read_write_out by (rewrite ?length_le_bytes, ?Hd; cbn [length]; lia).
    rewrite <- (length_le_bytes 8 (u64 (s32 (first_lba d)))) at 2. rewrite ram_write_in. apply (Hv 8%nat).
  - rewrite !ram_read_write_out by (rewrite ?length_le_bytes, ?Hd; cbn [length]; lia).
    rewrite <- (length_le_bytes 8 (u64 (s32 (last_lba d)))) at 2. rewrite ram_write_in. apply (Hv 8%nat).
  - rewrite !ram_read_write_out by (rewrite ?length_le_bytes, ?Hd; cbn [length]; lia).
    rewrite <- (length_le_bytes 2 (u16 (ssz (block_sz d)))) at 2. rewrite ram_write_in. apply (Hv 2%nat).
  - intros a Ha. rewrite !ram_write_out by (left; lia). done.
Qed.

Lemma entry_at_ext ram ram' addr d : (forall a, addr <= a < addr + 128 -> ram' a = ram a) -> entry_at ram addr d -> entry_at ram' addr d.
Proof.
  intros E (H1 & H2 & H3 & H4). unfold entry_at.
  rewrite (ram_read_ext ram' ram addr 16), (ram_read_ext ram' ram (addr + 53) 8), (ram_read_ext ram' ram (addr + 61) 8), (ram_read_ext ram' ram (addr + 69) 2)
    by (intros; apply E; lia). done.
Qed.

Lemma table_loop_run blk v l (Hwf : bio_wf blk) fuel : forall dev e ram, 0 <= e ->
  exists ram', table_loop fuel dev e (mk ram blk v l) = (e + Z.of_nat (length (listed fuel blk dev)), mk ram' blk v l) /\
    (forall a, a < cm_buffer + 128 * e -> ram' a = ram a) /\
    (forall j d, listed fuel blk dev !! j = Some d -> entry_at ram' (cm_buffer + 128 * (e + Z.of_nat j)) (dev_at blk d)).
Proof.
  induction fuel as [|fuel IH]; intros dev e ram He.
  { exists ram. cbn. rewrite Z.add_0_r. done. }
  cbn [table_loop listed]. unfold bind.
  assert (Hval : on_blk (blk_valid dev) (mk ram blk v l) = (dev_ok blk dev, mk ram blk v l)).
  { apply on_blk_mk. cbn. unfold bio_valid, bind. rewrite check_dev_spec. destruct (dev_ok blk dev) eqn:Hok; [|done].
    cbn. unfold gets. unfold dev_ok in Hok. apply andb_true_iff in Hok as [_ ->]. done. }
  rewrite Hval. destruct (dev_ok blk dev) eqn:Hok; cbn [negb].
  2:{ exists ram. cbn. rewrite Z.add_0_r. done. }
  rewrite (on_blk_mk _ _ blk v l (Z.land (flags (dev_at blk dev)) 0xffff) blk) by (cbn; by rewrite bio_get_flags_cases, Hok).
  unfold visible. destruct (Z.land (Z.land (flags (dev_at blk dev)) 0xffff) BIO_FLAG_VISIBLE =? 0); cbn [negb]; [apply IH; lia|].
  rewrite write_table_entry_run by done. change (sizeof pb_result_part_table_entry_c) with 128.
  destruct (dev_ok_range blk dev Hwf Hok) as (_ & _ & Hd). destruct (stored_entry_spec (cm_buffer + 128 * e) (dev_at blk dev) ram Hd) as [Hent Hout].
  destruct (IH (dev + 1) (e + 1) (stored_entry (cm_buffer + 128 * e) (dev_at blk dev) ram)) as (ram' & E & Hlow & Hall); [lia|].
  exists ram'. rewrite E. split; [cbn [length]; f_equal; lia|]. split; [intros a Ha; rewrite Hlow by lia; apply Hout; lia|].
  intros [|j] d Hj; cbn [lookup list_lookup] in Hj.
  - injection Hj as <-. rewrite Z.add_0_r. eapply entry_at_ext; [|exact Hent]. intros a Ha. apply Hlow. lia.
  - replace (e + Z.of_nat (S j)) with (e + 1 + Z.of_nat j) by lia. by apply Hall.
Qed.

(** *** The table on the host *)

Lemma table_slice ram n data rest k m : data = ram_read ram cm_buffer (128 * n) -> (k + m <= 128 * n)%nat ->
  take m (drop k (splice 0 data rest)) = ram_read ram (cm_buffer + Z.of_nat k) m.
Proof.
  intros -> Hk. rewrite splice_front, drop_app_le by (rewrite length_ram_read; lia).
  rewrite take_app_le by (rewrite length_drop, length_ram_read; lia). rewrite <- slice_ram_read with (n := (128 * n)%nat) by lia. done.
Qed.

(** An entry the host has received is the one in the memory of the device. *)
Lemma table_entry_spec ram n rest j d :
  (j < n)%nat -> entry_at ram (cm_buffer + 128 * Z.of_nat j) d ->
  let e := table_entry (splice 0 (ram_read ram cm_buffer (128 * n)) rest) j in
  te_uuid e = uu d /\ te_first_block e = u64 (s32 (first_lba d)) /\ te_last_block e = u64 (s32 (last_lba d)) /\
  te_block_size e = u16 (ssz (block_sz d)).
Proof.
  intros Hj (H1 & H2 & H3 & H4) e. set (tbl := splice 0 _ rest) in *.
  assert (Hs : forall k m, (k + m <= 128)%nat -> take m (drop (j * 128 + k) tbl) = ram_read ram (cm_buffer + 128 * Z.of_nat j + Z.of_nat k) m).
  { intros k m Hk. unfold tbl. rewrite (table_slice ram n) by (done || lia). f_equal. lia. }
  split_and!.
  - change (te_uuid e) with (take 16 (drop (j * 128) tbl)). rewrite <- (Nat.add_0_r (j * 128)), Hs by lia. by rewrite Z.add_0_r.
  - change (te_first_block e) with (le_val (take 8 (drop 37 (drop 16 (drop (j * 128) tbl))))). rewrite !drop_drop.
    replace (j * 128 + 16 + 37)%nat with (j * 128 + 53)%nat by lia. by rewrite Hs by lia.
  - change (te_last_block e) with (le_val (take 8 (drop 8 (drop 37 (drop 16 (drop (j * 128) tbl)))))). rewrite !drop_drop.
    replace (j * 128 + 16 + 37 + 8)%nat with (j * 128 + 61)%nat by lia. by rewrite Hs by lia.
  - change (te_block_size e) with (le_val (take 2 (drop 8 (drop 8 (drop 37 (drop 16 (drop (j * 128) tbl))))))). rewrite !drop_drop.
    replace (j * 128 + 16 + 37 + 8 + 8)%nat with (j * 128 + 69)%nat by lia. by rewrite Hs by lia.
Qed.

Lemma copy_entries_lookup n : forall i tbl out j, (j < i)%nat \/ (i + n <= j)%nat -> copy_entries n i tbl out !! j = out !! j.
Proof.
  induction n as [|n IH]; intros i tbl out j Hj; [done|]. cbn [copy_entries]. rewrite IH by lia. apply list_lookup_alter_ne. lia.
Qed.

Lemma copy_entries_at n : forall i tbl out j, (i <= j < i + n)%nat ->
  copy_entries n i tbl out !! j = copy_entry (table_entry tbl j) <$> out !! j.
Proof.
  induction n as [|n IH]; intros i tbl out j Hj; [lia|]. cbn [copy_entries]. destruct (decide (j = i)) as [->|Hne].
  - rewrite copy_entries_lookup by lia. apply list_lookup_alter_eq.
  - rewrite IH by lia. f_equal. apply list_lookup_alter_ne. lia.
Qed.

Lemma find_entry_some uuid l j e : l !! j = Some e -> memcmp (pe_uuid e) uuid 16 = 0 ->
  exists j' e', find_entry uuid l = Some e' /\ l !! j' = Some e' /\ memcmp (pe_uuid e') uuid 16 = 0.
Proof.
  revert j. induction l as [|x l IH]; intros j Hj He; [done|]. cbn [find_entry]. destruct (Z.eqb_spec (memcmp (pe_uuid x) uuid 16) 0) as [E|E].
  - by exists 0%nat, x.
  - destruct j as [|j]; cbn [lookup list_lookup] in Hj; [injection Hj as ->; done|].
    destruct (IH j Hj He) as (j' & e' & Hf & Hl & Hm). by exists (S j'), e'.
Qed.

(** The table as the host has it describes the listed devices. *)
Definition table_of blk (devs : list Z) (tbl : list pb_partition_table_entry) : Prop :=
  length tbl = length devs /\ forall j e, tbl !! j = Some e -> exists d, devs !! j = Some d /\ pe_uuid e = uu (dev_at blk d) /\
    pe_first_block e = u64 (s32 (first_lba (dev_at blk d))) /\ pe_last_block e = u64 (s32 (last_lba (dev_at blk d))) /\
    pe_block_size e = u16 (ssz (block_sz (dev_at blk d))).

Lemma table_of_received ram blk devs out0 : (length devs <= length out0)%nat ->
  (forall j d, devs !! j = Some d -> entry_at ram (cm_buffer + 128 * Z.of_nat j) (dev_at blk d)) ->
  table_of blk devs (take (length devs) (copy_entries (length devs) 0 (splice 0 (ram_read ram cm_buffer (128 * length devs)) ht) out0)).
Proof.
  intros Hl He. assert (Hlen : forall n i tbl out, length (copy_entries n i tbl out) = length out).
  { induction n as [|n IH]; intros i tbl out; [done|]. cbn [copy_entries]. by rewrite IH, length_alter. }
  split; [rewrite length_take, Hlen; lia|]. intros j e Hj.
  pose proof (lookup_lt_Some _ _ _ Hj) as Hlt. rewrite length_take, Hlen in Hlt.
  rewrite lookup_take_lt, copy_entries_at in Hj by lia. destruct (out0 !! j) as [o|] eqn:Eo; [|done]. cbn in Hj. injection Hj as <-.
  destruct (lookup_lt_is_Some_2 devs j) as [d Hd]; [lia|]. exists d. split; [done|].
  destruct (table_entry_spec ram (length devs) ht j (dev_at blk d)) as (E1 & E2 & E3 & E4); [lia|by apply He|]. done.
Qed.

Definition all_listed blk : list Z := listed (S (Z.to_nat CONFIG_BIO_MAX_DEVS)) blk 0.

Lemma listed_few blk : (length (all_listed blk) < 256)%nat.
Proof.
  pose proof link_devs. enough (H' : forall fuel dev, 0 <= dev <= CONFIG_BIO_MAX_DEVS ->
    (Z.of_nat (length (listed fuel blk dev)) <= CONFIG_BIO_MAX_DEVS - dev)) by (specialize (H' (S (Z.to_nat CONFIG_BIO_MAX_DEVS)) 0); unfold all_listed; lia).
  induction fuel as [|fuel IH]; intros dev Hd; cbn [listed]; [cbn [length]; lia|].
  destruct (dev_ok blk dev) eqn:Hok; [|cbn [length]; lia]. unfold dev_ok in Hok. zbool.
  specialize (IH (dev + 1) ltac:(lia)). destruct (visible blk dev); cbn [length]; lia.
Qed.

Lemma table_count_wf n : (n < 256)%nat -> cwf pb_result_part_table_read_c (PartTableRead (u8 (Z.of_nat n)) (zeros 31)).
Proof.
  intros Hn. unfold pb_result_part_table_read_c, c_iso, c_pair, c_uint, c_raw. cbn [cwf fst snd tr_no_of_entries tr_rz].
  unfold u8. rewrite Z.mod_small by lia. change (256 ^ Z.of_nat 1) with (2 ^ 8). repeat split; try lia; apply bytes_zeros.
Qed.

Abbreviation table_cont := (Z * list pb_partition_table_entry * Z -> prog Z) (only parsing).

(** The host after the first result of the table command, waiting for the
    entries, and after them, waiting for the second result. *)
Definition after_entries (cap : Z) (out0 : list pb_partition_table_entry) (n : Z) (K : table_cont) (r1 : list Z) (rc : Z) (data : list Z) : prog Z :=
  pbind (pbind (Done (rc, splice 0 data ht)) (fun '(rc, tbl) =>
    if negb (rc =? PB_RESULT_OK) then Done (rc, out0, cap) else
    try (read_result r1) (fun rc => (rc, out0, n)) (fun result => Done (result_code result, copy_entries (Z.to_nat n) 0 tbl out0, n)))) K.

Lemma host_table_count cap (out0 : list pb_partition_table_entry) (n : nat) (K : table_cont) f : (0 < n < 256)%nat -> Z.of_nat n <= cap ->
  let r := snd (pb_wire_init_result2 PB_RESULT_OK (cenc pb_result_part_table_read_c (PartTableRead (u8 (Z.of_nat n)) (zeros 31)))) in
  let r1 := splice 0 (cenc pb_result_c r) hs in
  at_host (pbind (
     if negb (result_code r1 =? PB_RESULT_OK) then Done (result_code r1, out0, cap) else
     let no_of_entries := tr_no_of_entries (response pb_result_part_table_read_c r1) in
     let bytes_to_read := no_of_entries * sizeof pb_result_part_table_entry_c in
     if cap <? no_of_entries then Done (- PB_RESULT_NO_MEMORY, out0, cap) else
     Malloc (bytes_to_read + 1) (fun _ =>
     pbind (if no_of_entries =? 0 then Done (PB_RESULT_OK, ht)
            else Recv bytes_to_read (fun rc data => Done (rc, splice 0 data ht))) (fun '(rc, tbl) =>
     if negb (rc =? PB_RESULT_OK) then Done (rc, out0, cap) else
     try (read_result r1) (fun rc => (rc, out0, no_of_entries)) (fun result =>
     Done (result_code result, copy_entries (Z.to_nat no_of_entries) 0 tbl out0, no_of_entries))))) K) f =
  Link (Recv (Z.of_nat n * 128) (after_entries cap out0 (Z.of_nat n) K r1)) f XNone.
Proof.
  intros Hn Hcap r r1.
  destruct (result2_ok pb_result_part_table_read_c PB_RESULT_OK (PartTableRead (u8 (Z.of_nat n)) (zeros 31))) as (Hg & Er & Ep);
    [apply table_count_wf; lia|cbn; lia|done|]. fold r in Hg, Er, Ep. unfold r1.
  rewrite code_received, response_received, Er, Ep by done. cbn [PB_RESULT_OK Z.eqb negb tr_no_of_entries].
  assert (u8 (Z.of_nat n) = Z.of_nat n) as -> by (apply Z.mod_small; lia). cbv zeta.
  rewrite (proj2 (Z.ltb_ge _ _)) by lia. rewrite (proj2 (Z.eqb_neq (Z.of_nat n) 0)) by lia. done.
Qed.

(** The device sends the number of entries, the entries and a result. *)
Lemma cmd_table_run ram blk v f k k3 : bio_wf blk -> (0 < length (all_listed blk))%nat ->
  let n := Z.of_nat (length (all_listed blk)) in
  let r := snd (pb_wire_init_result2 PB_RESULT_OK (cenc pb_result_part_table_read_c (PartTableRead (u8 n) (zeros 31)))) in
  at_host (k PB_RESULT_OK (cenc pb_result_c r)) f = Link (Recv (n * 128) k3) f XNone ->
  exists ram', (forall j d, all_listed blk !! j = Some d -> entry_at ram' (cm_buffer + 128 * Z.of_nat j) (dev_at blk d)) /\
    cmd_part_tbl_read (mk ram blk v (Link (Recv 512 k) f XNone)) =
    (PB_OK, mk ram' blk (set_result (pb_wire_init_result PB_RESULT_OK) (set_result r v))
       (at_host (k3 PB_RESULT_OK (ram_read ram' cm_buffer (128 * length (all_listed blk)))) f)).
Proof.
  intros Hwf Hn n r Ek. pose proof (listed_few blk) as Hfew.
  destruct (table_loop_run blk v (Link (Recv 512 k) f XNone) Hwf (S (Z.to_nat CONFIG_BIO_MAX_DEVS)) 0 0 ram) as (ram' & E & _ & Hall); [lia|].
  exists ram'. split; [exact Hall|]. unfold cmd_part_tbl_read, bind. rewrite E. fold (all_listed blk). rewrite Z.add_0_l. fold n.
  unfold init_result2. rewrite mod_cm_mk. fold r.
  destruct (result2_ok pb_result_part_table_read_c PB_RESULT_OK (PartTableRead (u8 n) (zeros 31))) as (Hg & _ & _);
    [apply table_count_wf; lia|cbn; lia|done|]. fold r in Hg.
  rewrite send_result_run by apply Hg. cbn [result set_result]. rewrite take_ge by (rewrite length_result; [lia|done]).
  rewrite Ek. rewrite (proj2 (Z.eqb_neq n 0)) by lia. cbn [negb]. unfold ram_get, gets. cbn [i_ram mk].
  change (ImgWorld _ _ _ _ _) with (mk ram' blk (set_result r v) (Link (Recv (n * 128) k3) f XNone)).
  rewrite cm_write_run. rewrite take_ge by (rewrite length_ram_read; change (sizeof pb_result_part_table_entry_c) with 128; lia).
  unfold ret at 1. rewrite init_result_mk. change (sizeof pb_result_part_table_entry_c) with 128.
  replace (Z.to_nat (128 * n)) with (128 * length (all_listed blk))%nat by lia. done.
Qed.

Lemma runs_table K f ram blk v cap (out0 : list pb_partition_table_entry) :
  in_session v -> bio_wf blk -> (0 < length (all_listed blk))%nat -> Z.of_nat (length (all_listed blk)) <= cap -> length out0 = Z.to_nat cap ->
  exists ram' v' tbl, in_session v' /\ block_dev v' = block_dev v /\
    table_of blk (all_listed blk) (take (length (all_listed blk)) tbl) /\
    runs (mk ram blk v (at_host (pbind (pb_api_partition_read_table hs ht out0 cap) K) f))
      (mk ram' blk v' (at_host (K (PB_RESULT_OK, tbl, Z.of_nat (length (all_listed blk)))) f)).
Proof.
  intros Hs Hwf Hn Hcap Ho. pose proof (listed_few blk) as Hfew. set (n := length (all_listed blk)) in *.
  unfold pb_api_partition_read_table, try. rewrite pbind_assoc.
  destruct (command1_ok PB_CMD_PART_TBL_READ) as (Hc & Hv & Ec); [done|]. set (c := pb_wire_init_command PB_CMD_PART_TBL_READ) in *.
  set (r := snd (pb_wire_init_result2 PB_RESULT_OK (cenc pb_result_part_table_read_c (PartTableRead (u8 (Z.of_nat n)) (zeros 31))))).
  set (r1 := splice 0 (cenc pb_result_c r) hs).
  destruct (result2_ok pb_result_part_table_read_c PB_RESULT_OK (PartTableRead (u8 (Z.of_nat n)) (zeros 31))) as (Hg & _ & _);
    [apply table_count_wf; lia|cbn; lia|done|]. fold r in Hg.
  match goal with |- context [pbind (transact hs c) ?k1] => set (K1 := k1) end.
  destruct (cmd_table_run ram blk (switch_vars c v) f (got hs K1) (after_entries cap out0 (Z.of_nat n) K r1) Hwf Hn) as (ram' & Hall & E).
  { fold n r. rewrite got_good by done. unfold K1. cbv beta iota. apply (host_table_count cap out0 n K f); lia. }
  fold n in E, Hall. fold r in E.
  set (v' := set_result (pb_wire_init_result PB_RESULT_OK) (set_result r (switch_vars c v))) in *.
  set (tbl := splice 0 (ram_read ram' cm_buffer (128 * n)) ht) in *.
  exists ram', v', (copy_entries n 0 tbl out0). split; [exact Hs|]. split; [done|]. split; [apply table_of_received; [lia|exact Hall]|].
  eapply (runs_begin c _ f ram blk v PB_OK (Break PB_OK)); [exact Hc|exact Hv|apply session_accepted, Hs|done| |].
  - dispatch Ec. unfold break, bind. rewrite E. reflexivity.
  - unfold after_entries. cbn [pbind PB_RESULT_OK Z.eqb negb]. unfold try. rewrite pbind_assoc, at_read_result.
    rewrite parse_err_out_run by (apply Hs || apply good_init || lia). rewrite got_good by apply good_init. cbn [pbind].
    rewrite code_received by apply good_init. rewrite Nat2Z.id. done.
Qed.

Lemma runs_read_table K f ram blk v (out0 : list pb_partition_table_entry) :
  in_session v -> bio_wf blk -> (0 < length (all_listed blk))%nat -> length out0 = 256%nat ->
  exists ram' v' tbl, in_session v' /\ block_dev v' = block_dev v /\
    table_of blk (all_listed blk) (take (length (all_listed blk)) tbl) /\
    runs (mk ram blk v (at_host (pbind (read_part_table hs ht out0) K) f))
      (mk ram' blk v' (at_host (K (PB_RESULT_OK, tbl, Z.of_nat (length (all_listed blk)))) f)).
Proof.
  intros Hs Hwf Hn Ho. pose proof (listed_few blk).
  set (g := fun '((rc, tbl, read_entries) : Z * list pb_partition_table_entry * Z) => if negb (rc =? PB_RESULT_OK) then Done (rc, [], 0) else
     if read_entries =? 0 then Done (- PB_RESULT_ERROR, [], 0) else Done (PB_RESULT_OK, tbl, read_entries)).
  change (at_host (pbind (read_part_table hs ht out0) K) f) with (at_host (pbind (pbind (pb_api_partition_read_table hs ht out0 256) g) K) f).
  rewrite pbind_assoc.
  destruct (runs_table (fun x => pbind (g x) K) f ram blk v 256 out0) as (ram' & v' & tbl & Hs' & Ed & Ht & R); [done|done|done|lia|done|].
  exists ram', v', tbl. split; [done|]. split; [done|]. split; [done|]. unfold g in R at 2. cbn [PB_RESULT_OK Z.eqb negb] in R.
  rewrite (proj2 (Z.eqb_neq (Z.of_nat (length (all_listed blk))) 0)) in R by lia. exact R.
Qed.

(** ** A file written to a partition *)

(** The partition the host names: a listed device, the only one
    with that UUID, on blocks whose numbers fit into the signed [int] in which
    the device reports them, and small enough for the host. *)
Record target blk (uuid : uuid_t) dev : Prop := {
  t_wf : bio_wf blk;
  t_uuid : uuid_wf uuid;
  t_find : find_uu uuid (bio_pool blk) 0 = dev;
  t_listed : dev ∈ all_listed blk;
  t_unique : forall d, d ∈ all_listed blk -> uu (dev_at blk d) = uuid -> d = dev;
  t_match : uu (dev_at blk dev) = uuid;
  t_rw : bio_rw blk dev;
  t_lba : last_lba (dev_at blk dev) < 2 ^ 31;
  t_size : Z.of_nat (length (bio_data blk dev)) < 2 ^ @ptr_bits harch
}.

Lemma listed_ok blk : forall fuel dev d, d ∈ listed fuel blk dev -> dev_ok blk d = true.
Proof.
  induction fuel as [|fuel IH]; intros dev d Hd; cbn [listed] in Hd; [by apply elem_of_nil in Hd|].
  destruct (dev_ok blk dev) eqn:Hok; [|by apply elem_of_nil in Hd]. destruct (visible blk dev); [|by apply (IH (dev + 1))].
  apply elem_of_cons in Hd as [->|Hd]; [done|by apply (IH (dev + 1))].
Qed.

Lemma table_find blk uuid dev tbl : target blk uuid dev -> table_of blk (all_listed blk) tbl ->
  exists e, find_entry uuid tbl = Some e /\ pe_first_block e = u64 (s32 (first_lba (dev_at blk dev))) /\
    pe_last_block e = u64 (s32 (last_lba (dev_at blk dev))) /\ pe_block_size e = u16 (ssz (block_sz (dev_at blk dev))).
Proof.
  intros [Hwf Hu _ Hin Huniq Hm _ _ _] [Hlen Htab].
  assert (Hul : forall d, d ∈ all_listed blk -> length (uu (dev_at blk d)) = 16%nat).
  { intros d Hd. destruct (dev_ok_range blk d Hwf (listed_ok blk _ _ _ Hd)) as (_ & _ & _ & [Hl _] & _). done. }
  apply list_elem_of_lookup_1 in Hin as [j Hj]. destruct (lookup_lt_is_Some_2 tbl j) as [e He]; [rewrite Hlen; by apply (lookup_lt_Some _ _ dev)|].
  destruct (Htab j e He) as (d & Hd & Eu & _). assert (d = dev) as -> by congruence.
  destruct (find_entry_some uuid tbl j e He) as (j' & e' & Hf & He' & Hm').
  { rewrite Eu, Hm. apply memcmp_eq; [apply Hu|apply Hu|done]. }
  exists e'. split; [done|]. destruct (Htab j' e' He') as (d' & Hd' & Eu' & E1 & E2 & E3).
  assert (Hin' : d' ∈ all_listed blk) by (by apply (list_elem_of_lookup_2 _ j')).
  assert (d' = dev) as ->; [|done]. apply Huniq; [done|]. rewrite <- Eu'. apply (memcmp_eq _ _ 16); [rewrite Eu'; by apply Hul|apply Hu|done].
Qed.

Lemma entry_size_spec blk uuid dev e : target blk uuid dev -> pe_first_block e = u64 (s32 (first_lba (dev_at blk dev))) ->
  pe_last_block e = u64 (s32 (last_lba (dev_at blk dev))) -> pe_block_size e = u16 (ssz (block_sz (dev_at blk dev))) ->
  @entry_size harch e = Z.of_nat (length (bio_data blk dev)).
Proof.
  intros [_ _ _ _ _ _ Hrw Hl Hsz] E1 E2 E3. pose proof (length_bio_data blk dev Hrw) as Hlen.
  pose proof (unit_size_run blk dev Hrw) as Ebs. pose proof Hrw as (Hwf & Hok & _ & _ & Hbs & _).
  destruct (dev_ok_range blk dev Hwf Hok) as (_ & _ & _ & _ & _ & Hf & _). unfold bio_block_size in Ebs. rewrite checked_dev, Hok in Ebs. injection Ebs as Ebs.
  pose proof link_unit. pose proof disk_unit_pos.
  assert (Hs : forall x, 0 <= x < 2 ^ 31 -> u64 (s32 x) = x).
  { intros x Hx. unfold u64, s32. rewrite (Z.mod_small (x + 2 ^ 31)) by lia. rewrite Z.mod_small by lia. lia. }
  unfold entry_size. rewrite E1, E2, E3, Ebs, !Hs by lia.
  assert (Hu : u16 disk_unit = disk_unit) by (apply Z.mod_small; lia). rewrite Hu, <- Hlen. unfold usz, u64.
  assert (Hp : 2 ^ @ptr_bits harch <= 2 ^ 64) by (destruct (@ptr_bits_ok harch) as [-> | ->]; done).
  rewrite (Z.mod_small _ (2 ^ 64)), Z.mod_small by lia. done.
Qed.

Lemma runs_finalize K f ram blk v : in_session v -> exists v', in_session v' /\
  runs (mk ram blk v (at_host (pbind (pb_api_stream_finalize hs) K) f)) (mk ram blk v' (at_host (K PB_RESULT_OK) f)).
Proof.
  intros Hs. destruct (command1_ok PB_CMD_STREAM_FINALIZE) as (Hc & Hv & Ec); [done|]. set (c := pb_wire_init_command PB_CMD_STREAM_FINALIZE) in *.
  set (v' := set_result (pb_wire_init_result PB_RESULT_OK) (switch_vars c v)). exists v'. split; [exact Hs|].
  change (at_host (K PB_RESULT_OK) f) with (at_host (K (rs_code (result v'))) f).
  apply (runs_call c K f ram blk v PB_OK ram blk v'); [exact Hc|exact Hv|exact Hs|exact Hs|apply good_init|done|].
  intros l. dispatch Ec. reflexivity.
Qed.

(** The data is made of whole blocks that fit into the partition. *)
Record loadable blk dev (data : list Z) : Prop := {
  ld_blocks : Z.of_nat (length data) mod disk_unit = 0;
  ld_header : 4096 mod disk_unit = 0;
  ld_fits : (length data <= length (bio_data blk dev))%nat
}.

Lemma runs_header K f ram blk v data :
  in_session v -> writable blk (block_dev v) -> loadable blk (block_dev v) data -> (4096 <= length data)%nat ->
  Z.of_nat (length (bio_data blk (block_dev v))) < 2 ^ 64 ->
  exists ram' v' blk', in_session v' /\ block_dev v' = block_dev v /\ only_part blk (block_dev v) blk' /\
    bio_data blk' (block_dev v) = splice (length (bio_data blk (block_dev v)) - 4096) (take 4096 data) (bio_data blk (block_dev v)) /\
    runs (mk ram blk v (at_host (pbind (write_chunk hs 0 (Z.of_nat (length (bio_data blk (block_dev v))) - 4096) (take 4096 data)) K) f))
      (mk ram' blk' v' (at_host (K PB_RESULT_OK) f)).
Proof.
  intros Hs Hw [Hb Hh Hf] Hl Hsz. pose proof link_buf_size. pose proof disk_unit_pos. set (L := length (bio_data blk (block_dev v))) in *.
  assert (Ht : length (take 4096 data) = 4096%nat) by (rewrite length_take; lia).
  assert (HLm : Z.of_nat L mod disk_unit = 0).
  { unfold L. rewrite (length_bio_data _ _ (proj1 Hw)). apply Z_mod_mult. }
  replace (L - 4096)%nat with (Z.to_nat (Z.of_nat L - 4096)) by lia. apply runs_write_chunk; [done|done|lia| |rewrite Ht; lia].
  unfold fits. rewrite Ht. fold L. split; [lia|]. split; [by rewrite Zminus_mod, HLm, Hh|]. split; [exact Hh|lia].
Qed.

Lemma runs_write_stream K f ram blk v uuid dev data fuel :
  in_session v -> target blk uuid dev -> writable blk dev -> loadable blk dev data -> (length data < fuel)%nat -> f_data f = data -> f_pos f = 0%nat ->
  exists ram' v' blk' f', in_session v' /\ only_part blk dev blk' /\ bio_data blk' dev = installed data (bio_data blk dev) /\
    runs (mk ram blk v (at_host (pbind (write_stream (harch := harch) hs fuel uuid caps (Z.of_nat (length (bio_data blk dev)))) K) f))
      (mk ram' blk' v' (at_host (K PB_RESULT_OK) f')).
Proof.
  intros Hs Ht Hw Hload Hfuel Ed Ep. pose proof Ht as [Hwf Hu Hfind Hin _ _ _ _ Hsz]. pose proof Hload as [Hb Hh Hf].
  assert (Hdev : 0 <= dev) by (apply listed_ok in Hin; destruct (dev_ok_range blk dev Hwf Hin); lia).
  assert (Hp : 2 ^ @ptr_bits harch <= 2 ^ 64) by (destruct (@ptr_bits_ok harch) as [-> | ->]; done).
  unfold write_stream. rewrite pbind_assoc. set (L := Z.of_nat (length (bio_data blk dev))) in *.
  match goal with |- context [pbind (pb_api_stream_init hs uuid) ?k] => set (K1 := k) end.
  destruct (runs_stream_init K1 f ram blk v uuid dev Hs Hu Hfind Hdev) as (v1 & Hs1 & Ed1 & R1).
  clear Hfind. subst dev. set (dev := block_dev v1) in *.
  set (f1 := advance (take 4096 data) f). set (f0 := File data 0).
  set (go := fun id rc => write_file (harch := harch) hs fuel caps id 0 rc).
  set (whole := pbind (write_chunk hs 0 (@usz harch (L - 4096)) (take 4096 data)) (fun rc => if negb (rc =? PB_RESULT_OK) then Done rc else go (u8 (next_buffer 0 caps)) rc)).
  assert (EK : at_host (K1 PB_RESULT_OK) f = if starts_with_header data then at_host (pbind whole K) f1 else at_host (pbind (go 0 PB_RESULT_OK) K) f0).
  { unfold K1. cbn [PB_RESULT_OK Z.eqb negb]. unfold at_host at 1. cbn [settle pbind]. rewrite Ed, Ep, drop_0.
    change (Z.to_nat (sizeof bpak_header_c)) with 4096%nat. change (sizeof bpak_header_c) with 4096. unfold starts_with_header.
    destruct (_ && _); [done|cbn [settle pbind advance f_data]; unfold at_host, f0; by rewrite Ed]. }
  rewrite EK in R1. unfold installed. destruct (starts_with_header data) eqn:Eh.
  - unfold starts_with_header in Eh. apply andb_true_iff in Eh as [Hl4%Z.eqb_eq _]. rewrite length_take in Hl4.
    assert (HL : @usz harch (L - 4096) = L - 4096) by (apply Z.mod_small; lia). unfold whole in R1. rewrite HL, pbind_assoc in R1.
    destruct (runs_header (fun rc => pbind (if negb (rc =? PB_RESULT_OK) then Done rc else go (u8 (next_buffer 0 caps)) rc) K) f1 ram blk v1 data)
      as (ram2 & v2 & blk2 & Hs2 & Ed2 & Hop2 & Eb2 & R2); [done|done|done|lia|fold dev L; lia|]. fold dev in Hop2, Eb2, Ed2, R2. fold L in R2.
    pose proof (only_part_data_length _ _ _ Hop2) as Elen.
    assert (Er : rest_of f1 = drop 4096 data) by (unfold rest_of, f1, advance; cbn [f_data f_pos]; rewrite Ed, Ep, length_take; f_equal; lia).
    destruct (runs_write_file fuel K f1 ram2 blk2 v2 (u8 (next_buffer 0 caps)) 0) as (ram3 & v3 & blk3 & f3 & Hs3 & _ & Hop3 & Eb3 & R3);
      rewrite ?Ed2; [done|by apply (only_part_writable blk)|done| |by rewrite Elen|rewrite Er, length_drop; lia|].
    { unfold fits. rewrite Elen, Er, length_drop. split; [lia|]. split; [done|]. split; [|lia].
      replace (Z.of_nat (length data - 4096)) with (Z.of_nat (length data) - 4096) by lia. by rewrite Zminus_mod, Hb, Hh. }
    rewrite Ed2 in *. exists ram3, v3, blk3, f3. split; [done|]. split; [by eapply only_part_trans|].
    split; [by rewrite Eb3, Eb2, Er|]. eapply runs_trans; [exact R1|]. eapply runs_trans; [exact R2|exact R3].
  - destruct (runs_write_file fuel K f0 ram blk v1 0 0) as (ram3 & v3 & blk3 & f3 & Hs3 & _ & Hop3 & Eb3 & R3);
      [done|done|lia| |done|unfold rest_of, f0; cbn; rewrite drop_0; lia|].
    { unfold fits, rest_of, f0. cbn [f_data f_pos]. rewrite drop_0. fold dev. split; [lia|]. split; [done|]. split; [done|lia]. }
    fold dev in Hop3, Eb3. exists ram3, v3, blk3, f3. split; [done|]. split; [done|]. split; [exact Eb3|].
    eapply runs_trans; [exact R1|exact R3].
Qed.

(** [C6] Writing a file from the host: against a device in an authenticated
    session, [pb_api_partition_write] of a file of whole blocks that fits
    returns [PB_RESULT_OK], and the partition it names then holds the file,
    with a leading BPAK header moved to the end of the partition; no other
    byte of the storage has changed.  The whole exchange is covered: reading
    the capabilities and the partition table, selecting the partition, filling
    and writing the two buffers in turn, and the end of the stream. *)
Theorem host_partition_write ram blk v uuid dev data pos fuel out0 :
  in_session v -> target blk uuid dev -> writable blk dev -> loadable blk dev data -> (length data < fuel)%nat -> length out0 = 256%nat ->
  exists ram' v' blk' f',
    runs (mk ram blk v (at_host (pb_api_partition_write (harch := harch) hs ht fuel out0 uuid) (File data pos)))
      (mk ram' blk' v' (Link (Done PB_RESULT_OK) f' XNone)) /\
    bio_data blk' dev = installed data (bio_data blk dev) /\ only_part blk dev blk'.
Proof.
  intros Hs Ht Hw Hload Hfuel Hout. set (f0 := File data 0). pose proof Ht as [Hwf _ _ Hin _ _ _ _ _].
  assert (Hn : (0 < length (all_listed blk))%nat) by (destruct (all_listed blk); [by apply elem_of_nil in Hin|cbn; lia]).
  set (K2 := write_found (harch := harch) hs fuel uuid caps).
  change (at_host (pb_api_partition_write (harch := harch) hs ht fuel out0 uuid) (File data pos)) with
    (at_host (pbind (pb_api_device_read_caps hs) (write_partition (harch := harch) hs ht fuel out0 uuid)) f0).
  destruct (runs_caps (write_partition (harch := harch) hs ht fuel out0 uuid) f0 ram blk v Hs) as (v1 & Hs1 & _ & R1).
  change (at_host (write_partition (harch := harch) hs ht fuel out0 uuid (PB_RESULT_OK, Some caps)) f0) with
    (at_host (pbind (read_part_table hs ht out0) K2) f0) in R1.
  destruct (runs_read_table K2 f0 ram blk v1 out0 Hs1 Hwf Hn Hout) as (ram2 & v2 & tbl & Hs2 & _ & Htab & R2).
  destruct (table_find blk uuid dev _ Ht Htab) as (e & Hfe & E1 & E2 & E3).
  unfold K2 in R2 at 2. cbn [write_found] in R2. cbn [PB_RESULT_OK Z.eqb negb] in R2. rewrite Nat2Z.id, Hfe, (entry_size_spec blk uuid dev e Ht E1 E2 E3) in R2.
  destruct (runs_write_stream (fun rc => pbind (pb_api_stream_finalize hs) (fun _ => Done rc)) f0 ram2 blk v2 uuid dev data fuel)
    as (ram3 & v3 & blk3 & f3 & Hs3 & Hop & Eb & R3); try done.
  destruct (runs_finalize (fun _ => Done PB_RESULT_OK) f3 ram3 blk3 v3 Hs3) as (v4 & Hs4 & R4).
  exists ram3, v4, blk3, f3. split; [|done].
  eapply runs_trans; [exact R1|]. eapply runs_trans; [exact R2|]. eapply runs_trans; [exact R3|exact R4].
Qed.

(** ** A partition read to a file *)

(** The storage holds the same bytes. *)
Record same_disk blk blk' : Prop := {
  sd_pool : bio_pool blk' = bio_pool blk;
  sd_count : n_bios blk' = n_bios blk;
  sd_bytes : disk_bytes (bio_hw blk') = disk_bytes (bio_hw blk)
}.

Lemma same_disk_refl blk : same_disk blk blk.
Proof. done. Qed.

Lemma same_disk_trans blk blk1 blk2 : same_disk blk blk1 -> same_disk blk1 blk2 -> same_disk blk blk2.
Proof. intros [p1 c1 b1] [p2 c2 b2]. split; congruence. Qed.

Lemma same_disk_dev blk blk' d : same_disk blk blk' -> dev_at blk' d = dev_at blk d.
Proof. intros [E _ _]. unfold dev_at. by rewrite E. Qed.

Lemma same_disk_data blk blk' d : same_disk blk blk' -> bio_data blk' d = bio_data blk d.
Proof. intros H. unfold bio_data. rewrite (same_disk_dev blk blk') by done. by rewrite (sd_bytes _ _ H). Qed.

Definition readable blk dev : Prop := bio_rw blk dev /\ Z.land (flags (dev_at blk dev)) BIO_FLAG_READABLE <> 0.

Lemma same_disk_readable blk blk' d : same_disk blk blk' -> readable blk d -> readable blk' d.
Proof.
  intros H [Hrw Hf]. split; [|by rewrite (same_disk_dev blk)]. destruct H as [Ep Ec Eb]. apply (bio_rw_hw blk); [done..|by rewrite Eb|done].
Qed.

(** The bytes of a range of whole blocks inside of the partition. *)
Definition inside blk dev (off len : Z) : Prop :=
  0 <= off < 2 ^ 64 /\ off mod disk_unit = 0 /\ 0 < len <= BUF_SIZE /\ len mod disk_unit = 0 /\
  off + len <= Z.of_nat (length (bio_data blk dev)).

Lemma bio_read_part blk dev off len : bio_rw blk dev -> inside blk dev off len ->
  exists blk', bio_read dev (off / disk_unit) len blk = ((PB_OK, slice (Z.to_nat off) (Z.to_nat len) (bio_data blk dev)), blk') /\ same_disk blk blk'.
Proof.
  intros Hrw (Ho & Hom & Hl & Hlm & Hin). pose proof disk_unit_pos as Hu. pose proof (length_bio_data blk dev Hrw) as Hlen.
  pose proof Hrw as (Hwf & Hok & _ & _ & _ & _ & Hd & _). destruct (dev_ok_range blk dev Hwf Hok) as (_ & _ & _ & _ & _ & Hf & _).
  assert (Hne : disk_unit <> 0) by lia. pose proof (Z.div_mod off disk_unit Hne) as Eo. pose proof (Z.div_mod len disk_unit Hne) as El.
  rewrite Hom in Eo. rewrite Hlm in El.
  destruct (bio_read_at dev (off / disk_unit) len blk) as (h' & E & Eh); [done|apply Z.div_pos; lia|lia|done|nia|].
  exists (BioState (bio_pool blk) (n_bios blk) h'). split; [|done]. rewrite E.
  assert (Es : slice (Z.to_nat ((first_lba (dev_at blk dev) + off / disk_unit) * disk_unit)) (Z.to_nat len) (disk_bytes (bio_hw blk)) =
    slice (Z.to_nat off) (Z.to_nat len) (bio_data blk dev)); [|by rewrite Es].
  unfold bio_data, slice. rewrite skipn_firstn_comm, take_take, drop_drop.
  replace (Z.to_nat ((first_lba (dev_at blk dev) + off / disk_unit) * disk_unit)) with (dev_off (dev_at blk dev) + Z.to_nat off)%nat by (unfold dev_off; nia).
  f_equal. unfold dev_len. nia.
Qed.

Lemma read_wf size off id : 0 <= size < 2 ^ 32 -> 0 <= off < 2 ^ 64 -> 0 <= id <= 1 ->
  cwf pb_command_stream_read_buffer_c (StreamRead size off id (zeros 19)).
Proof.
  intros Hs Ho Hid. unfold pb_command_stream_read_buffer_c, c_iso, c_pair, c_uint, c_raw. cbn [cwf fst snd sr_size sr_offset sr_buffer_id sr_rz].
  change (256 ^ Z.of_nat 4) with (2 ^ 32). change (256 ^ Z.of_nat 8) with (2 ^ 64). change (256 ^ Z.of_nat 1) with (2 ^ 8).
  repeat split; try lia; apply bytes_zeros.
Qed.

Abbreviation okr := (pb_wire_init_result PB_RESULT_OK).

(** The device reads blocks into a buffer and sends them between two results. *)
Lemma cmd_read_run id off len ram blk v f k k3 r0 :
  request_as pb_command_stream_read_buffer_c (cmd v) = StreamRead len off id r0 ->
  readable blk (block_dev v) -> inside blk (block_dev v) off len ->
  at_host (k PB_RESULT_OK (cenc pb_result_c okr)) f = Link (Recv len k3) f XNone ->
  exists blk', same_disk blk blk' /\ forall d, d = slice (Z.to_nat off) (Z.to_nat len) (bio_data blk (block_dev v)) ->
    cmd_stream_read (mk ram blk v (Link (Recv 512 k) f XNone)) =
      (PB_OK, mk (ram_write (buffer_at id) d ram) blk' (set_result okr (set_result okr v)) (at_host (k3 PB_RESULT_OK d) f)).
Proof.
  intros Eq [Hrw Hfl] Hi Ek. set (dev := block_dev v) in *. pose proof Hi as (Ho & _ & Hl & _ & Hin).
  destruct (bio_read_part blk dev off len Hrw Hi) as (blk' & E & Hsd). exists blk'. split; [done|]. intros d Ed. rewrite <- Ed in E.
  assert (Hd : length d = Z.to_nat len) by (rewrite Ed; unfold slice; rewrite length_take, length_drop; lia).
  pose proof Hrw as (_ & Hok & _). unfold cmd_stream_read, bind. rewrite request_mk, Eq, gets_cm_mk. fold dev. set (l := Link (Recv 512 k) f XNone).
  rewrite (on_blk_mk _ ram blk v l (Z.land (flags (dev_at blk dev)) 0xffff) blk) by (cbn; rewrite bio_get_flags_cases, Hok; done).
  rewrite <- Z.land_assoc. change (Z.land 0xffff BIO_FLAG_READABLE) with BIO_FLAG_READABLE. rewrite (proj2 (Z.eqb_neq _ _) Hfl).
  rewrite (on_blk_mk _ ram blk v l disk_unit blk) by (by apply unit_size_run). cbn [sr_offset sr_size sr_buffer_id].
  rewrite (stream_lba_small blk dev off len) by (done || lia). unfold bio_read_to, bind.
  rewrite (on_blk_mk _ ram blk v l (PB_OK, d) blk') by exact E. set (ram' := ram_write (buffer_at id) d ram).
  change (ram_put (buffer_at id) d (mk ram blk' v l)) with (tt, mk ram' blk' v l). cbv beta iota. unfold ret at 1. rewrite init_result_mk.
  change (error_to_wire PB_OK) with PB_RESULT_OK. unfold l. rewrite send_result_run by apply good_init. cbn [result set_result].
  rewrite take_ge by (rewrite length_result by apply good_init; lia). rewrite Ek. cbn [PB_OK Z.eqb]. unfold ram_get, gets. cbn [mk i_ram].
  change (ImgWorld _ _ _ _ _) with (mk ram' blk' (set_result okr v) (Link (Recv len k3) f XNone)).
  unfold ram' at 1. rewrite <- Hd, ram_write_in, cm_write_run, take_ge by lia. rewrite init_result_mk. done.
Qed.

Lemma runs_read_buffer K f ram blk v id off len :
  in_session v -> readable blk (block_dev v) -> 0 <= id <= 1 -> inside blk (block_dev v) off len ->
  exists ram' v' blk', in_session v' /\ block_dev v' = block_dev v /\ same_disk blk blk' /\
    runs (mk ram blk v (at_host (pbind (pb_api_stream_read_buffer hs id off len) K) f))
      (mk ram' blk' v' (at_host (K (PB_RESULT_OK, slice (Z.to_nat off) (Z.to_nat len) (bio_data blk (block_dev v)))) f)).
Proof.
  intros Hs Hr Hid Hi. pose proof Hi as (Ho & _ & Hl & _ & _). pose proof link_buf_size. unfold pb_api_stream_read_buffer.
  assert (u32 len = len) as -> by (apply Z.mod_small; lia).
  assert (u8 id = id) as -> by (apply Z.mod_small; lia). assert (u64 off = off) as -> by (apply Z.mod_small; lia).
  destruct (command2_ok pb_command_stream_read_buffer_c PB_CMD_STREAM_READ_BUFFER (StreamRead len off id (zeros 19)))
    as (Hc & Hv & Ec & Eq); [apply read_wf; lia|cbn; lia|done|].
  set (c := command2 _ _) in *. set (d := slice _ _ _). unfold try at 1. rewrite pbind_assoc.
  match goal with |- context [pbind (transact hs c) ?k] => set (K1 := k) end. set (r1 := splice 0 (cenc pb_result_c okr) hs).
  set (k3 := fun (rc : Z) (data : list Z) => pbind (if negb (rc =? PB_RESULT_OK) then Done (rc, data) else
    try (read_result r1) (fun rc => (rc, data)) (fun result => Done (result_code result, data))) K).
  destruct (cmd_read_run id off len ram blk (switch_vars c v) f (got hs K1) k3 (zeros 19)) as (blk' & Hsd & E); [exact Eq|done|done| |].
  { rewrite got_good by apply good_init. unfold K1. cbv beta iota. rewrite code_received by apply good_init. done. }
  specialize (E d eq_refl). exists (ram_write (buffer_at id) d ram), (set_result okr (set_result okr (switch_vars c v))), blk'.
  split; [exact Hs|]. split; [done|]. split; [done|].
  eapply (runs_begin c _ f ram blk v PB_OK (Break PB_OK)); [exact Hc|exact Hv|apply session_accepted, Hs|done| |].
  - dispatch Ec. unfold break, bind. rewrite E. reflexivity.
  - unfold k3. cbn [PB_RESULT_OK Z.eqb negb]. unfold try. rewrite pbind_assoc, at_read_result.
    rewrite parse_err_out_run by (apply Hs || apply good_init || lia). rewrite got_good by apply good_init. cbn [pbind].
    by rewrite code_received by apply good_init.
Qed.

(** Two writes in a row are one write of both. *)
Lemma overwrite_app a b f : overwrite b (overwrite a f) = overwrite (a ++ b) f.
Proof.
  unfold overwrite. cbn [f_data f_pos]. set (l := f_data f ++ zeros (f_pos f - length (f_data f))).
  assert (Hl : (f_pos f <= length l)%nat) by (unfold l, zeros; rewrite length_app, length_replicate; lia).
  rewrite length_app, Nat.add_assoc. f_equal.
  replace (_ - _)%nat with 0%nat by (unfold splice; rewrite !length_app, length_take, length_drop; lia).
  unfold zeros at 1. cbn [replicate]. rewrite app_nil_r. by apply splice_splice_app.
Qed.

Lemma overwrite_start d data : overwrite d (File data 0) = File (d ++ drop (length d) data) (length d).
Proof. unfold overwrite, splice. cbn [f_data f_pos]. rewrite Nat.sub_0_l. unfold zeros. cbn [replicate]. by rewrite app_nil_r. Qed.

Lemma runs_read_file fuel : forall K f ram blk v id off left,
  in_session v -> readable blk (block_dev v) -> 0 <= id <= 1 -> 0 < left -> 0 <= off < 2 ^ 64 -> off mod disk_unit = 0 -> left mod disk_unit = 0 ->
  off + left = Z.of_nat (length (bio_data blk (block_dev v))) ->
  Z.of_nat (length (bio_data blk (block_dev v))) < 2 ^ @ptr_bits harch -> left < Z.of_nat fuel ->
  exists ram' v' blk', in_session v' /\ same_disk blk blk' /\
    runs (mk ram blk v (at_host (pbind (read_to_file (harch := harch) hs fuel caps id off left PB_RESULT_OK) K) f))
      (mk ram' blk' v' (at_host (K PB_RESULT_OK) (overwrite (slice (Z.to_nat off) (Z.to_nat left) (bio_data blk (block_dev v))) f))).
Proof.
  pose proof link_buf_size as Hbs. pose proof disk_unit_pos as Hu. pose proof link_chunk as Hch.
  induction fuel as [|fuel IH]; intros K f ram blk v id off left Hs Hr Hid Hleft Ho Hom Hlm Hsum Hsz Hf; [lia|].
  cbn [read_to_file]. change (caps_chunk_transfer_max_bytes caps) with BUF_SIZE.
  set (n := if BUF_SIZE <? left then BUF_SIZE else left).
  assert (Hn : 0 < n <= BUF_SIZE /\ n <= left /\ n mod disk_unit = 0) by (unfold n; destruct (Z.ltb_spec BUF_SIZE left); repeat split; (done || lia)).
  rewrite pbind_assoc. match goal with |- context [pbind (pb_api_stream_read_buffer hs id off n) ?k] => set (K1 := k) end.
  destruct (runs_read_buffer K1 f ram blk v id off n) as (ram1 & v1 & blk1 & Hs1 & Ed1 & Hsd1 & R1); [done|done|done|unfold inside; lia|].
  set (d := slice (Z.to_nat off) (Z.to_nat n) (bio_data blk (block_dev v))) in *.
  assert (Hd : length d = Z.to_nat n) by (unfold d, slice; rewrite length_take, length_drop; lia).
  set (more := if 0 <? left - n then read_to_file (harch := harch) hs fuel caps (next_buffer id caps) (@usz harch (off + n)) (left - n) PB_RESULT_OK else Done PB_RESULT_OK).
  assert (EK : at_host (K1 (PB_RESULT_OK, d)) f = at_host (pbind more K) (overwrite d f)).
  { unfold K1. cbn [PB_RESULT_OK Z.eqb negb pbind]. unfold at_host at 1. cbn [settle]. rewrite (take_ge d) by lia.
    rewrite (proj2 (Z.eqb_eq (Z.of_nat (length d)) n)) by lia. done. }
  rewrite EK in R1. unfold more in R1. destruct (Z.ltb_spec 0 (left - n)) as [Hm|Hm].
  - assert (@usz harch (off + n) = off + n) as Eo by (apply Z.mod_small; lia). rewrite Eo in R1.
    assert (Hp : 2 ^ @ptr_bits harch <= 2 ^ 64) by (destruct (@ptr_bits_ok harch) as [-> | ->]; done).
    assert (Hid1 : 0 <= next_buffer id caps <= 1).
    { unfold next_buffer, caps. cbn [caps_stream_no_of_buffers]. pose proof (Z.mod_pos_bound (id + 1) 2). lia. }
    pose proof (same_disk_data blk blk1 (block_dev v) Hsd1) as Edata.
    destruct (IH K (overwrite d f) ram1 blk1 v1 (next_buffer id caps) (off + n) (left - n)) as (ram2 & v2 & blk2 & Hs2 & Hsd2 & R2);
      rewrite ?Ed1, ?Edata; [done|by apply (same_disk_readable blk)|done|lia|lia|rewrite Z.add_mod, Hom by lia; by destruct Hn as (_ & _ & ->)| |lia|lia|lia|].
    { rewrite Zminus_mod, Hlm. by destruct Hn as (_ & _ & ->). }
    exists ram2, v2, blk2. split; [done|]. split; [by eapply same_disk_trans|]. eapply runs_trans; [exact R1|].
    rewrite Ed1, Edata in R2.
    replace (overwrite (slice (Z.to_nat off) (Z.to_nat left) (bio_data blk (block_dev v))) f) with
      (overwrite (slice (Z.to_nat (off + n)) (Z.to_nat (left - n)) (bio_data blk (block_dev v))) (overwrite d f)); [exact R2|].
    rewrite overwrite_app. unfold d. rewrite Z2Nat.inj_add, slice_cons_app by lia. do 2 f_equal. lia.
  - exists ram1, v1, blk1. split; [done|]. split; [done|]. replace (Z.to_nat left) with (Z.to_nat n) by lia. exact R1.
Qed.

(** [C20] Reading a partition to a file: in an authenticated session
    [pb_api_partition_read] of a readable partition returns [PB_RESULT_OK] and
    has written exactly the contents of the partition over the file from its
    first byte, wherever the position of the file was: a shorter file becomes
    the partition's contents, a longer one keeps the bytes behind them.  The
    storage is unchanged.  The files and the memory of the host work, and the
    device lists at most 128 partitions, the size of the host's table. *)
Theorem host_partition_read ram blk v uuid dev data pos fuel out0 :
  in_session v -> target blk uuid dev -> readable blk dev -> (length (all_listed blk) <= 128)%nat ->
  (length (bio_data blk dev) < fuel)%nat -> length out0 = 128%nat ->
  exists ram' v' blk',
    runs (mk ram blk v (at_host (pb_api_partition_read (harch := harch) hs ht fuel out0 (Some uuid)) (File data pos)))
      (mk ram' blk' v' (Link (Done PB_RESULT_OK) (File (bio_data blk dev ++ drop (length (bio_data blk dev)) data) (length (bio_data blk dev))) XNone)) /\ same_disk blk blk'.
Proof.
  intros Hs Ht Hr Hfew Hfuel Hout. set (f0 := File data 0). pose proof Ht as [Hwf Hu Hfind Hin _ _ Hrw _ Hsz].
  assert (Hn : (0 < length (all_listed blk))%nat) by (destruct (all_listed blk); [by apply elem_of_nil in Hin|cbn; lia]).
  assert (Hdev : 0 <= dev) by (apply listed_ok in Hin; destruct (dev_ok_range blk dev Hwf Hin); lia).
  set (K2 := read_found (harch := harch) hs fuel uuid caps).
  change (at_host (pb_api_partition_read (harch := harch) hs ht fuel out0 (Some uuid)) (File data pos)) with
    (at_host (pbind (pb_api_device_read_caps hs) (read_partition (harch := harch) hs ht fuel out0 uuid)) f0).
  destruct (runs_caps (read_partition (harch := harch) hs ht fuel out0 uuid) f0 ram blk v Hs) as (v1 & Hs1 & _ & R1).
  change (at_host (read_partition (harch := harch) hs ht fuel out0 uuid (PB_RESULT_OK, Some caps)) f0) with
    (at_host (pbind (pb_api_partition_read_table hs ht out0 128) K2) f0) in R1.
  destruct (runs_table K2 f0 ram blk v1 128 out0) as (ram2 & v2 & tbl & Hs2 & _ & Htab & R2); [done|done|done|lia|done|].
  destruct (table_find blk uuid dev _ Ht Htab) as (e & Hfe & E1 & E2 & E3).
  unfold K2 in R2 at 2. cbn [read_found] in R2. cbn [PB_RESULT_OK Z.eqb negb] in R2. rewrite (proj2 (Z.eqb_neq (Z.of_nat (length (all_listed blk))) 0)) in R2 by lia.
  rewrite Nat2Z.id, Hfe, (entry_size_spec blk uuid dev e Ht E1 E2 E3) in R2.
  match type of R2 with runs _ (mk _ _ _ (at_host (pbind _ ?k) _)) => destruct (runs_stream_init k f0 ram2 blk v2 uuid dev Hs2 Hu Hfind Hdev) as (v3 & Hs3 & Ed3 & R3) end.
  cbn [PB_RESULT_OK Z.eqb negb] in R3. set (L := Z.of_nat (length (bio_data blk dev))) in *.
  assert (HL : 0 < L /\ L mod disk_unit = 0).
  { unfold L. rewrite (length_bio_data _ _ Hrw). split; [|apply Z_mod_mult]. pose proof disk_unit_pos.
    destruct (dev_ok_range blk dev Hwf (listed_ok blk _ _ _ Hin)) as (_ & _ & _ & _ & _ & Hf & _). nia. }
  destruct (runs_read_file fuel (fun rc => pbind (pb_api_stream_finalize hs) (fun _ => Done rc)) f0 ram2 blk v3 0 0 L) as (ram4 & v4 & blk4 & Hs4 & Hsd4 & R4); rewrite ?Ed3; try done; try lia; [apply HL..|].
  rewrite Ed3 in R4. destruct (runs_finalize (fun _ => Done PB_RESULT_OK)
    (overwrite (slice (Z.to_nat 0) (Z.to_nat L) (bio_data blk dev)) f0) ram4 blk4 v4 Hs4) as (v5 & _ & R5).
  exists ram4, v5, blk4. split; [|done]. eapply runs_trans; [exact R1|]. eapply runs_trans; [exact R2|]. eapply runs_trans; [exact R3|].
  eapply runs_trans; [exact R4|]. unfold L in R5 at 2. rewrite Nat2Z.id in R5. unfold slice in R5 at 2. rewrite drop_0, take_ge in R5 by lia.
  unfold f0 in R5 at 2. rewrite overwrite_start in R5. exact R5.
Qed.

(** ** Logging in *)

Lemma auth_wf method key_id size : 0 <= method < 256 -> 0 <= size < 2 ^ 16 -> 0 <= key_id < 2 ^ 32 ->
  cwf pb_command_authenticate_c (Authenticate method size key_id (zeros 25)).
Proof.
  intros Hm Hs Hk. unfold pb_command_authenticate_c, c_iso, c_pair, c_uint, c_raw. cbn [cwf fst snd au_method au_size au_key_id au_rz].
  change (256 ^ Z.of_nat 4) with (2 ^ 32). change (256 ^ Z.of_nat 2) with (2 ^ 16). change (256 ^ Z.of_nat 1) with 256.
  repeat split; try lia; apply bytes_zeros.
Qed.

Lemma error_to_wire_int8 rc : s8 (u8 (error_to_wire rc)) = error_to_wire rc.
Proof. apply s8_u8. unfold error_to_wire. repeat case_if; by vm_compute. Qed.

(** The device receives credentials and hands them to the board. *)
Lemma auth_exchange_link check rc ram blk v f k data k2 :
  (forall l, check (mk (ram_write (buffer_at 0) data ram) blk (set_result okr v) l) = (rc, mk (ram_write (buffer_at 0) data ram) blk (set_result okr v) l)) ->
  (length data <= 1024)%nat ->
  at_host (k PB_RESULT_OK (cenc pb_result_c okr)) f = Link (Send data k2) f XNone ->
  auth_exchange check (mk ram blk v (Link (Recv 512 k) f XNone)) =
    (rc, mk (ram_write (buffer_at 0) data ram) blk
       (set_result (pb_wire_init_result (error_to_wire rc)) (set_authenticated (rc =? PB_OK) (set_result okr v))) (at_host (k2 PB_RESULT_OK) f)).
Proof.
  intros Hc Hl Ek. unfold auth_exchange, bind. rewrite init_result_mk. rewrite send_result_run by apply good_init. cbn [result set_result].
  rewrite take_ge by (rewrite length_result by apply good_init; lia). rewrite Ek. unfold cm_read, bind. rewrite cm_read_run, take_ge by lia.
  change (ram_put (buffer_at 0) data (mk ram ?b ?w ?l)) with (tt, mk (ram_write (buffer_at 0) data ram) b w l). cbv beta iota. unfold ret at 1.
  rewrite Hc. unfold record_auth. rewrite mod_cm_mk, init_result_mk. done.
Qed.

Lemma auth_command a : cwf pb_command_authenticate_c a ->
  let c := command2 PB_CMD_AUTHENTICATE (cenc pb_command_authenticate_c a) in
  pb_wire_init_command2 PB_CMD_AUTHENTICATE (cenc pb_command_authenticate_c a) = (PB_RESULT_OK, c) /\
  cwf pb_command_c c /\ pb_wire_valid_command c = true /\ cm_command c = PB_CMD_AUTHENTICATE /\ request_as pb_command_authenticate_c c = a.
Proof.
  intros Ha c. split; [|apply (command2_ok pb_command_authenticate_c); [done|cbn; lia|done]].
  unfold c, command2, pb_wire_init_command2. rewrite (proj2 (Z.ltb_ge _ _)); [done|]. by rewrite (cenc_length a Ha).
Qed.

(** The case of the switch for a password. *)
Lemma cmd_auth_password_run chk rc size key_id r0 ram blk v f k data k2 :
  CONFIG_CM_AUTH_PASSWORD = true -> cfg_password_auth (configs (cm_cfg v)) = Some chk ->
  request_as pb_command_authenticate_c (cmd v) = Authenticate PB_AUTH_PASSWORD size key_id r0 ->
  let ram' := ram_write (buffer_at 0) data ram in let v1 := set_result nosup v in
  (forall l, chk (buffer_at 0) size (mk ram' blk (set_result okr v1) l) = (rc, mk ram' blk (set_result okr v1) l)) ->
  (length data <= 1024)%nat -> at_host (k PB_RESULT_OK (cenc pb_result_c okr)) f = Link (Send data k2) f XNone ->
  cmd_auth (mk ram blk v (Link (Recv 512 k) f XNone)) =
    (rc, mk ram' blk (set_result (pb_wire_init_result (error_to_wire rc)) (set_authenticated (rc =? PB_OK) (set_result okr v1))) (at_host (k2 PB_RESULT_OK) f)).
Proof.
  intros Hcfg Hchk Eq ram' v1 Hc Hl Ek. unfold cmd_auth. unfold bind at 1. rewrite request_mk, Eq. unfold bind. rewrite init_result_mk. fold v1.
  cbn [au_method au_size]. change (PB_AUTH_PASSWORD =? PB_AUTH_ASYM_TOKEN) with false. rewrite andb_false_r.
  unfold ret at 1, with_cfg, bind, get, gets. cbn [mk cmv c_vars r_other i_rest]. change (cm_cfg v1) with (cm_cfg v). rewrite Hchk.
  unfold ret at 1. cbv beta iota. rewrite Hcfg. cbn [andb]. rewrite Z.eqb_refl.
  change (ImgWorld _ _ _ _ _) with (mk ram blk v1 (Link (Recv 512 k) f XNone)). by apply auth_exchange_link.
Qed.

(** Logging in with a password: whatever the life cycle, the board is
    asked about exactly the bytes the host was given, padded to 1024; the host
    is told the board's verdict, translated for the wire, and the session is
    authenticated exactly if the board accepted. *)
Theorem host_authenticate_password K f ram blk v chk rc data :
  CONFIG_CM_AUTH_PASSWORD = true -> cfg_password_auth (configs (cm_cfg v)) = Some chk -> reboot_requested v = false ->
  (0 < length data <= 1024)%nat ->
  (forall v' l, chk (buffer_at 0) (Z.of_nat (length data)) (mk (ram_write (buffer_at 0) (splice 0 data (zeros 1024)) ram) blk v' l) =
     (rc, mk (ram_write (buffer_at 0) (splice 0 data (zeros 1024)) ram) blk v' l)) ->
  rc <> - PB_ERR_ABORT ->
  exists v', authenticated v' = (rc =? PB_OK) /\
    runs (mk ram blk v (at_host (pbind (pb_api_authenticate_password hs data) K) f))
      (mk (ram_write (buffer_at 0) (splice 0 data (zeros 1024)) ram) blk v' (at_host (K (error_to_wire rc)) f)).
Proof.
  intros Hcfg Hchk Hreb Hl Hc Hrc. set (pad := splice 0 data (zeros 1024)) in *.
  assert (Hpad : length pad = 1024%nat) by (unfold pad, zeros; rewrite length_splice, length_replicate; rewrite ?length_replicate; lia).
  unfold pb_api_authenticate_password, internal_pb_api_authenticate.
  assert (u16 (Z.of_nat (length data)) = Z.of_nat (length data)) as -> by (apply Z.mod_small; lia).
  assert (u8 PB_AUTH_PASSWORD = PB_AUTH_PASSWORD) as -> by done.
  set (a := Authenticate PB_AUTH_PASSWORD (Z.of_nat (length data)) 0 (zeros 25)).
  assert (Ha : cwf pb_command_authenticate_c a) by (apply auth_wf; unfold PB_AUTH_PASSWORD; lia).
  destruct (auth_command a Ha) as (Ew & Hcw & Hv & Ec & Eq).
  rewrite Ew. set (c := command2 PB_CMD_AUTHENTICATE _) in *. cbn [PB_RESULT_OK Z.eqb negb]. unfold try at 1. rewrite pbind_assoc.
  match goal with |- context [pbind (transact hs c) ?k] => set (K1 := k) end. set (r1 := splice 0 (cenc pb_result_c okr) hs).
  set (v1 := set_result nosup (switch_vars c v)).
  set (v2 := set_result (pb_wire_init_result (error_to_wire rc)) (set_authenticated (rc =? PB_OK) (set_result okr v1))).
  exists v2. split; [done|].
  eapply (runs_begin c K1 f ram blk v rc (Break rc)); [exact Hcw|exact Hv| |exact Hrc| |].
  - unfold auth_refused, pb_wire_requires_auth. change (cmd (set_cmd c v)) with c. rewrite Ec. done.
  - dispatch Ec. unfold break, bind.
    rewrite (cmd_auth_password_run chk rc (Z.of_nat (length data)) 0 (zeros 25) ram blk (switch_vars c v) f _ pad (fun rc =>
      pbind (if negb (rc =? PB_RESULT_OK) then Done rc else try (read_result r1) id (fun result => Done (result_code result))) K));
      [reflexivity|done|done|exact Eq|intros l; apply Hc|lia|].
    rewrite got_good by apply good_init. unfold K1. cbv beta iota. rewrite code_received by apply good_init. cbn [rs_code pb_wire_init_result].
    change (s8 (u8 PB_RESULT_OK)) with PB_RESULT_OK. cbn [PB_RESULT_OK Z.eqb negb].
    rewrite (proj2 (Z.eqb_neq (Z.of_nat (length data)) 0)) by lia. fold pad. rewrite take_ge by lia. done.
  - cbn [PB_RESULT_OK Z.eqb negb]. unfold try. rewrite pbind_assoc, at_read_result.
    rewrite parse_err_out_run by (done || apply good_init || lia). rewrite got_good by apply good_init. cbn [pbind].
    rewrite code_received by apply good_init. cbn [result set_result v2 rs_code pb_wire_init_result]. by rewrite error_to_wire_int8.
Qed.

(** ** A failing read *)

Lemma write_waits n acc b k f bs ram blk v :
  complete_loop n acc (mk ram blk v (Link (Send b k) f (XWrite bs))) = ((- PB_ERR_AGAIN, acc), mk ram blk v (Link (Send b k) f (XWrite bs))).
Proof.
  revert acc. induction n as [|n IH]; intros acc; [done|]. cbn [complete_loop]. unfold with_cfg, bind, get, gets. rewrite link_tops.
  cbn [t_complete link_ops]. unfold on_link. cbn [mk r_other i_rest c_hw link_complete l_xfer l_host l_file].
  rewrite Z.eqb_refl. unfold splice. cbn [take app length]. rewrite drop_0. apply IH.
Qed.

(** When the block layer reports an error the device sends the result twice,
    from the handler and from [err_out], and the host reads it once: if the
    host goes on with another command, here after any stream read whose caller
    sends one, the device waits for it to receive and the host for the device
    to receive, however often the device polls. *)
Theorem host_read_error_stuck K f ram blk v id off len rc d blk' b k f' r0 :
  readable blk (block_dev v) -> request_as pb_command_stream_read_buffer_c (cmd v) = StreamRead len off id r0 ->
  bio_read (block_dev v) (u32 (usz (off / u64 disk_unit))) len blk = ((rc, d), blk') -> rc <> PB_OK ->
  let code := s8 (u8 (error_to_wire rc)) in
  code <> PB_RESULT_OK -> settle (K (code, [])) f = (Send b k, f') ->
  exists ram' v', cmd_stream_read (mk ram blk v (Link (Recv 512 (got hs (fun r => pbind (match r with
      | inl rc => Done (rc, []) | inr result => if negb (result_code result =? PB_RESULT_OK) then Done (result_code result, []) else
        Recv len (fun rc data => if negb (rc =? PB_RESULT_OK) then Done (rc, data) else
          try (read_result result) (fun rc => (rc, data)) (fun result => Done (result_code result, data))) end) K))) f XNone)) =
      (rc, mk ram' blk' v' (Link (Send b k) f' XNone)) /\
    forall n, fst (fst (complete_loop n [] (mk ram' blk' v' (Link (Send b k) f' (XWrite (cenc pb_result_c (result v'))))))) = - PB_ERR_AGAIN.
Proof.
  intros [Hrw Hfl] Eq E Hrc code Hcode Ek. set (dev := block_dev v) in *. pose proof Hrw as (_ & Hok & _).
  set (r := pb_wire_init_result (error_to_wire rc)). exists (ram_write (buffer_at id) d ram), (set_result r v).
  split; [|intros n; by rewrite write_waits].
  unfold cmd_stream_read, bind. rewrite request_mk, Eq, gets_cm_mk. fold dev. match goal with |- context [mk ram blk v ?x] => set (l := x) end.
  rewrite (on_blk_mk _ ram blk v l (Z.land (flags (dev_at blk dev)) 0xffff) blk) by (cbn; rewrite bio_get_flags_cases, Hok; done).
  rewrite <- Z.land_assoc. change (Z.land 0xffff BIO_FLAG_READABLE) with BIO_FLAG_READABLE. rewrite (proj2 (Z.eqb_neq _ _) Hfl).
  rewrite (on_blk_mk _ ram blk v l disk_unit blk) by (by apply unit_size_run). cbn [sr_offset sr_size sr_buffer_id].
  unfold bio_read_to, bind. rewrite (on_blk_mk _ ram blk v l (rc, d) blk') by exact E.
  change (ram_put (buffer_at id) d (mk ram blk' v l)) with (tt, mk (ram_write (buffer_at id) d ram) blk' v l). cbv beta iota. unfold ret at 1.
  rewrite init_result_mk. fold r. unfold l. rewrite send_result_run by apply good_init. cbn [result set_result].
  rewrite take_ge by (rewrite length_result by apply good_init; lia). rewrite got_good by apply good_init.
  rewrite code_received by apply good_init. change (rs_code r) with code. rewrite (proj2 (Z.eqb_neq _ _) Hcode), (proj2 (Z.eqb_neq _ _) Hrc).
  cbn [negb pbind]. unfold at_host. by rewrite Ek.
Qed.
End link.

(** ** An example: two partitions on a RAM disk *)

Module ToyLink.
Import ToyImage.
Abbreviation W := (cm_world ToyCrypto.ctx (list Z) Z (bio_state RamDisk.disk) link).

(** The board accepts passwords that start with a 42. *)
Definition config : cm_config W := {|
  cfg_name := [116; 111; 121];
  cfg_status _ _ := ret (PB_OK, 0);
  cfg_password_auth := Some (fun a _ w => (if i_ram w a =? 42 then PB_OK else - PB_ERR, w));
  cfg_command _ _ _ _ _ := ret (PB_OK, 0);
  cfg_process := None;
  tops := link_ops
|}.

#[export] Instance install : InstallOps (bio_state RamDisk.disk) := ToyCm.install.

#[export] Instance env : CmEnv ToyCrypto.ctx (list Z) Z (bio_state RamDisk.disk) link := {|
  cm_keystore := ToyRot.keys;
  cm_digest0 := zeros 64;
  cm_drivers _ := BootDriver BOOT_SOURCE_BIO None (Some (ret 0)) None None None None None None (Some (ret tt));
  other_read_cbs _ _ _ := ret (- PB_ERR_IO, []);
  other_result_cbs _ rc := ret rc;
  configs _ := config;
  cm_buffer := 0x8000;
  PB_VERSION := [49];
  null_call := ret 0;
  poll_fuel := 4;
  cm_board_init := ret PB_OK;
  plat_get_us_tick := ret 0;
  plat_wdog_kick := ret tt;
  plat_get_unique_id := ret (PB_OK, [1]);
  platform_ns_uuid := zeros 16;
  CONFIG_CM_TRANSPORT_READY_TIMEOUT := 10
|}.

#[export] Instance connected : LinkEnv.
Proof. split; try done; vm_compute; lia. Qed.

Definition vars : cm_vars := CmVars (pb_wire_init_command 0) (pb_wire_init_result 0) true PB_SLC_CONFIGURATION (zeros 64) ToyCm.my_uuid 0 false 1.
Definition boot_v : boot_vars :=
  BootVars 1 bpak_init_header HdrStatic bpak_init_header 0 (-1) BOOT_SOURCE_BIO uuid_clear (zeros 64) NULL NULL 0.
Definition host64 : host_word := HostWord armv8a.
Definition out0 (n : nat) : list pb_partition_table_entry := replicate n (PartitionTableEntry (zeros 16) (zeros 37) 0 0 0 0).

Lemma listed_two : all_listed RamDisk.two_parts = [0; 1].
Proof. vm_compute. reflexivity. Qed.

Lemma data_two : bio_data RamDisk.two_parts 1 = zeros 2048.
Proof. vm_compute. reflexivity. Qed.

Lemma named : target host64 RamDisk.two_parts RamDisk.uuB 1.
Proof.
  split.
  - apply RamDisk.two_parts_wf.
  - apply (bool_decide_eq_true_1 (uuid_wf RamDisk.uuB)). vm_compute. reflexivity.
  - vm_compute. reflexivity.
  - rewrite listed_two. apply list_elem_of_In. right. by left.
  - intros d. rewrite listed_two. intros Hd Hu. apply elem_of_cons in Hd as [->|Hd]; [discriminate Hu|].
    by apply list_elem_of_singleton in Hd.
  - vm_compute. reflexivity.
  - apply two_parts_rw.
  - vm_compute. reflexivity.
  - rewrite data_two. vm_compute. reflexivity.
Qed.
End ToyLink.

(** *** Witnesses *)

Section witnesses.
Import ToyImage ToyLink.
#[local] Existing Instances ToyLink.env ToyLink.install ToyLink.connected RamDisk.ram_driver ram_laws.

(** A file of one block is written to the second partition. *)
Lemma host_partition_write_witness :
  let w0 p f := mk ToyCrypto.state ToyRot.state (zeros 512) ToyLink.boot_v (SlcState None 0) (DeviceUuidVars ToyCm.my_uuid) (fun _ => 0)
    RamDisk.two_parts ToyLink.vars (at_host p f) in
  exists ram' v' blk' f',
    runs (w0 (pb_api_partition_write (harch := armv8a) [] [] 513 (out0 256) RamDisk.uuB) (File (replicate 512 7) 0))
      (mk ToyCrypto.state ToyRot.state (zeros 512) ToyLink.boot_v (SlcState None 0) (DeviceUuidVars ToyCm.my_uuid) ram' blk' v'
         (Link (Done PB_RESULT_OK) f' XNone)) /\
    bio_data blk' 1 = installed (replicate 512 7) (bio_data RamDisk.two_parts 1) /\ only_part RamDisk.two_parts 1 blk'.
Proof.
  intros w0. apply (host_partition_write ToyCrypto.state ToyRot.state (zeros 512) ToyLink.boot_v (SlcState None 0) (DeviceUuidVars ToyCm.my_uuid)
    host64 [] [] (fun _ => 0) RamDisk.two_parts ToyLink.vars RamDisk.uuB 1 (replicate 512 7) 0 513 (out0 256)).
  - done.
  - exact named.
  - split; [apply two_parts_rw|vm_compute; discriminate].
  - split; [reflexivity|reflexivity|rewrite data_two; apply Nat.leb_le; vm_compute; reflexivity].
  - apply Nat.ltb_lt. vm_compute. reflexivity.
  - apply length_replicate.
Defined.

(** The second partition is read. *)
Lemma host_partition_read_witness :
  let w0 ram blk v l := mk ToyCrypto.state ToyRot.state (zeros 512) ToyLink.boot_v (SlcState None 0) (DeviceUuidVars ToyCm.my_uuid) ram blk v l in
  exists ram' v' blk',
    runs (w0 (fun _ => 0) RamDisk.two_parts ToyLink.vars
           (at_host (pb_api_partition_read (harch := armv8a) [] [] 2049 (out0 128) (Some RamDisk.uuB)) (File [1] 1)))
      (w0 ram' blk' v' (Link (Done PB_RESULT_OK) (File (bio_data RamDisk.two_parts 1 ++ drop (length (bio_data RamDisk.two_parts 1)) [1]) (length (bio_data RamDisk.two_parts 1))) XNone)) /\
    same_disk RamDisk.two_parts blk'.
Proof.
  intros w0. apply (host_partition_read ToyCrypto.state ToyRot.state (zeros 512) ToyLink.boot_v (SlcState None 0) (DeviceUuidVars ToyCm.my_uuid)
    host64 [] [] (fun _ => 0) RamDisk.two_parts ToyLink.vars RamDisk.uuB 1 [1] 1 2049 (out0 128)).
  - done.
  - exact named.
  - split; [apply two_parts_rw|vm_compute; discriminate].
  - rewrite listed_two. cbn [length]. lia.
  - rewrite data_two. apply Nat.ltb_lt. vm_compute. reflexivity.
  - apply length_replicate.
Defined.

(** A locked device, the right password. *)
Lemma host_authenticate_password_witness :
  let w0 ram v l := mk ToyCrypto.state ToyRot.state (zeros 512) ToyLink.boot_v (SlcState None 0) (DeviceUuidVars ToyCm.my_uuid)
    ram RamDisk.two_parts v l in
  exists v', authenticated v' = true /\
    runs (w0 (fun _ => 0) (set_slc PB_SLC_CONFIGURATION_LOCKED (set_authenticated false ToyLink.vars))
            (at_host (pbind (pb_api_authenticate_password [] [42]) Done) (File [] 0)))
      (w0 (ram_write (buffer_at 0) (splice 0 [42] (zeros 1024)) (fun _ => 0)) v' (at_host (Done PB_RESULT_OK) (File [] 0))).
Proof.
  intros w0. apply (host_authenticate_password ToyCrypto.state ToyRot.state (zeros 512) ToyLink.boot_v (SlcState None 0) (DeviceUuidVars ToyCm.my_uuid)
    [] Done (File [] 0) (fun _ => 0) RamDisk.two_parts (set_slc PB_SLC_CONFIGURATION_LOCKED (set_authenticated false ToyLink.vars))
    (fun a _ w => (if i_ram w a =? 42 then PB_OK else - PB_ERR, w)) PB_OK [42]).
  - reflexivity.
  - reflexivity.
  - reflexivity.
  - cbn [length]. lia.
  - intros v' l. reflexivity.
  - discriminate.
Defined.
End witnesses.
